(* ===== verification/_CoqProject ===== *)
-Q . S2P
Prelude.v
SlotTable.v
GuestList.v
Ids.v
RateLimit.v
Sentry.v
Bailiff.v
Ring.v
Nic.v
Rolodex.v
Foyer.v
Atlas.v
LockBox.v
Inbox.v
Why.v
Scheduler.v
Rapport.v
Transport.v
TcpInv.v
Checksum.v
Echo.v
Compass.v
Postcard.v
Conversation.v
SwitchBoard.v
Reception.v
Host.v
EndToEnd.v
Pmm.v
Buddy.v
Kheap.v
StateMonad.v
Vfs.v
VfsTree.v
VfsInv.v
VfsCalls.v
VfsData.v
VfsDir.v
VfsRun.v
VfsBoot.v
Task.v
TaskRing.v
TaskLife.v
TaskRun.v
TaskBoot.v
Paging.v
PagingMem.v
PagingMap.v
PagingWin.v
PagingSpace.v
PagingFree.v
PagingClone.v
PagingCopy.v
PagingBoot.v
Elf.v
ElfLoad.v
Exec.v
Fragment6.v
Atlas6.v
Guard6.v
Link6.v
Echo6.v
Tcp6.v
Net6.v
Conversation6.v
Compass6.v
Input6.v
Board6.v
Host6.v
Session6.v
Slaac6.v
Lease.v
CLib.v
Directory.v
Frontdoor.v
Provenance.v
NetWatch.v
Pixels.v
Shapes.v
