(* ===== verification/Prelude.v ===== *)
(** * Verification of the Aevros kernel

    Aevros is a 32-bit x86 kernel in C.  This library models its network stack
    (IPv4, IPv6, sockets, DHCP, DNS and packet tracing), its kernel memory
    allocators, its file systems, its tasks, its page tables, its program loader,
    its record of causes, its C library and the drawing on its screen, and proves
    the properties that make them correct.  This file is the shared vocabulary; the
    rest of this comment describes the whole library.

    ** The program and the files that model it

    The network side is a set of small components, each a static table in its own
    C file, that call each other directly.  A frame from the card goes
    FrontDesk -> Bouncer, WatchList -> Mailroom -> Rolodex (ARP) or Compass (IPv4)
    -> GuestList, Curfew, Rolodex -> Conversation (TCP), Postcard (UDP) or Echo
    (ICMP); TCP uses LockBox (connection table), Rapport (state machine), Inbox
    (byte queues), WayStation (early segments), Scheduler (retransmission),
    Lottery and SynCookie (sequence numbers), Why (statistics).  Going out, a
    segment is routed by Atlas, resolved by Rolodex or parked in Foyer, and every
    frame passes Bailiff before the driver sends it.  SwitchBoard is the socket
    interface on top; Concierge runs the periodic ticks.

    - [Prelude]: machine integers, byte buffers, byte order, tactics and hints.
    - [SlotTable]: fixed arrays with an [in_use] flag and a key (class [Slot]),
      first-free, find, count and oldest-first scans; used by twelve components.
    - [Ring]: circular buffers ([ring_holds]), used by Inbox, Postbox, Echo, Nic.
    - [GuestList] (guestlist.c, menu.c), [Ids] (ids.c, audit.c), [RateLimit]
      (curfew.c, watchlist.c), [Sentry] (sentry.c): screening.
    - [Bailiff] (bailiff.c) with the class [TxDriver], what the stack expects of a
      transmitter; [Nic] (frontdest.c, transmit side), an instance of it.
    - [Rolodex] (rolodex.c), [Foyer] (foyer.c), [Atlas] (atlas.c, bouncer.c).
    - [LockBox] (lockbox.c), [Inbox] (inbox.c, postbox.c), [Why] (why.c, lottery.c,
      syncookie.c), [Scheduler] (scheduler.c), [Rapport] (rapport.c), [Transport]
      (waystation.c, [scheduler_tick]), [TcpInv] (their joint invariant).
    - [Checksum] (the one's-complement sums all protocols repeat), [Echo]
      (echo.c), [Compass] (compass.c), [Postcard] (postcard.c), [Conversation]
      (conversation.c).
    - [SwitchBoard] (switchboard.c), [Reception] (mailroom.c, [frontdesk_deliver],
      ledger.c, the IPv4 part of concierge.c), [Host] (all of it as one transition
      system), [EndToEnd] (two hosts).
    - [Pmm] (pmm.c), [Buddy] (buddy.c), [Kheap] (slab.c, kheap.c): kernel memory.
    - [StateMonad]: state-passing code that can fault, used by all files below.
    - [Vfs] (vfs.c, RAMFS.c, dev.c, tty.c, and the descriptors of a task in task.c,
      fork.c and exec.c); [VfsTree] (the tree of names and what a path means),
      [VfsInv] (the invariant), [VfsCalls], [VfsData], [VfsDir] (the calls one by
      one), [VfsRun] (any sequence of them), [VfsBoot] (start-up; the theorems).
    - [Task] (task.c, fork.c, Quarantine.c); [TaskRing] (the ready ring),
      [TaskLife] (the ready queue, the list of all tasks), [TaskRun] (the
      invariant and the calls that keep it), [TaskBoot] (start-up; the theorems).
    - [Paging] (paging.c, process_memory.c); [PagingMem] (memory and the
      processor's walk), [PagingMap] (mapping in the running space), [PagingWin]
      (the temporary windows), [PagingSpace] (making a space), [PagingFree] (taking
      one apart), [PagingClone], [PagingCopy] (copying one), [PagingBoot] (start-up;
      the theorems).
    - [Elf] (elf.c, the address space of exec.c); [ElfLoad] (what a segment leaves
      in memory), [Exec] (the theorems).

    - IPv6: [Fragment6] (fragment6.c), [Atlas6] (atlas6.c), [Guard6] (guestlist6.c,
      curfew6.c, ids6.c, audit6.c, sentry6.c), [Link6] (rolodex6.c, echo6.c; the
      theorems are in [Echo6]), [Tcp6] (lockbox6.c, inbox6.c, postbox6.c,
      watstation6.c, scheduler6.c, rapport6.c, SynCookie6.c).  An address is a list
      of bytes, so a component whose code is the same for both versions is the same
      definition.
    - IPv6 as a whole: [Net6] (the state of the stack; foyer6.c, postcard6.c),
      [Conversation6] (conversation6.c), [Compass6] (compass6.c), [Input6] (what a
      packet can do to the state), [Board6] (switchboard6.c, landlord6.c,
      concierge6.c, ledger6.c, the IPv6 part of concierge.c), [Host6] (all of it as
      one transition system), [Session6] (a TCP session), [Slaac6] (address
      configuration, extension headers).
    - Over both stacks: [Lease] (landlord.c, the DHCP client), [Directory]
      (directory.c, the DNS client), [Frontdoor] (frontdoor6.c, sockets by
      descriptor, and concierge.c in full).
    - [CLib] (string.c, kprintf.c, math.c), [Provenance] (provenance.c),
      [NetWatch] (net_watch.c, net_observe.c, net_trace.c).
    - [Pixels] (framebuffer.c, algo.c), [Shapes] (what the drawing loops show).

    The file system is a tree of entries in hash buckets ([dentry]), each with an
    inode; a task's descriptors point to open files ([file]), which count them.
    Tasks are on a circular list of ready tasks ([next]) and on a list of all
    tasks ([all_next]); [sys_exit] closes descriptors through the VFS and leaves a
    zombie that [sys_waitpid] frees.  [do_fork] copies the user space with
    [clone_page_directory]; [exec_user] makes one with [create_user_space] and fills
    it with [elf_load_segs]; both reach frames that are not mapped through windows
    under the last but one entry of the running directory.

    ** How the code is modelled

    A pointer with a length is a list of exactly that many bytes; a read, write
    or copy outside it, or through NULL, is [None], and so is a loop that runs
    out of fuel, so a theorem that says [f x = Some y] says that the code
    finishes without a fault.  Unsigned integers are [Z] with every wrap written
    out ([u8], [u16], [u32], [+32], [-32], [*32]).  A static table is a list of
    records, the arrays indexed by connection id being joined into one list of
    rows per component; the components' states are gathered in records ([guard],
    [link], [tcp], [net], [board], [host], and for IPv6 [link6], [tcp6], [net6],
    [board6]) that the operations take and return.
    The clock is the argument [now].  A buffer and its length field are one list.
    What is printed on the console and the calls that hand each frame to
    [netobserve_capture] are left out of the stack ([NetWatch] takes any frames).  The
    kernel turns interrupts off around each operation ([critical_enter]), so each
    operation is one step.  The memory of the buddy allocator is a finite map
    from addresses to words, in which the free lists are really linked.  The card
    is a parameter of [Nic]: what its status registers read at each poll.

    The file system and the tasks run in state monads ([M] over [vfs], [K] over
    [kern]).  A pointer to a structure is a number, structures live in finite maps
    from these numbers, freeing one deletes it, and using it afterwards is [None].
    The class [Machine] is what the code does not determine: which allocations
    succeed, the bytes of a fresh block, a field left uninitialised, the keys
    typed.  A context switch is the change of [current_task]; the loop of
    [sys_waitpid] is modelled by its turns ([waitpid_turn]), between which other tasks
    run, and need not end.

    Paging and the loader run in the monad [P] over [machine]: physical memory as a
    function from addresses to bytes, the register CR3 and the frame pool.  Every
    access of the code goes through the page tables in that memory ([translate]),
    and one that is not mapped is a fault.  A loop that clears, copies or fills one
    page is one step.  The translation cache is left out (the code invalidates what
    it changes), and so are large pages and protection bits, which the kernel does
    not rely on.  A binary is the list of its bytes.

    Fuel: [fold_carry] has 3 rounds (a 32-bit sum folds to 16 bits in two; the
    third confirms), [drain_loop] one more than the four held segments of a
    connection, [accept_loop] one per slot, [tx_fill] one per descriptor,
    [order_loop] 32 (an order per bit of the size), the searches of the buddy
    lists one more than the words in memory, [pick_loop], [pick6_loop], [ext_loop]
    and [pick_walk] the code's own bound, [accept6_loop] one per slot, [ra_options]
    and [reply_options] the length of the message (an option is 8 bytes, or 4, or
    more), [grow] 32 (a 32-bit capacity doubles 32 times at most), the walks
    over entries and tasks one more than there are, [options_loop], [encode_loop],
    [skip_name_loop] and the loops of [CLib] the length of what they read,
    [trace_loop] the 257 entities its queue can hold, [line_loop] the length of the
    longer axis, [span_loop] and [circle_loop] one more than the radius.
    That the fuel is enough is part of the theorems: they state that a result is
    returned.

    ** What is proved

    - Whole system: no sequence of frames, ticks and socket calls makes the IPv4
      side access memory out of range, loop forever or break an invariant
      ([Host]); data sent on a connection is read unchanged at the other end
      ([EndToEnd]); the driver loses no frame silently ([Nic]).
    - TCP: safety and isolation of segment handling, delivery of data, segment
      round trip ([Conversation]); the state machine is the diagram of RFC 793, input
      by input, with handshake and close ([Rapport]); in-order release of early segments and giving up
      ([Transport]); acknowledgements and timeouts ([Scheduler]); the byte queues
      refine first-in first-out queues across tenants of a slot ([Inbox]).
    - Below TCP: the gate and the header round trip ([Compass]), UDP and ICMP round
      trips ([Postcard], [Echo]), address resolution ([Rolodex]), parked frames
      ([Foyer]), routing ([Atlas]), single-use passes ([Bailiff]), the screening
      tables ([GuestList], [RateLimit], [Sentry], [Ids]), cookies and sequence
      numbers ([Why]), sockets ([SwitchBoard]).
    - IPv6: the fragments of a packet, in any order and among any others, give the
      packet back, and no fragment makes a write outside the buffer ([Fragment6]);
      routing takes the longest prefix ([Atlas6]); a scan of eight ports bans its
      source ([Guard6]); two hosts resolve each other's address ([Echo6]).  No
      sequence of packets, ticks and socket calls faults, but for two kinds of packet
      that are read past their end ([Host6]); data a peer sends reaches the
      application, whose answer is refused ([Session6]); the host configures its
      address and routes from a router's advertisement, and extension headers do not
      change what becomes of a message ([Slaac6]).
    - Around the stacks: an offer and its acknowledgement give the host its lease,
      and nothing but the bytes of an acknowledgement does ([Lease]); an answer to a query is
      what a later lookup returns, until it expires ([Directory]); a call on one
      descriptor leaves the others as they are, and which connections and ports are
      lost ([Frontdoor]); captured frames are parsed in order, within their bounds,
      and all accounted for, and answers are paired with requests ([NetWatch]).
    - Libraries: formatted printing stays in its buffer and what it prints of a
      number parses back ([CLib]); the record of causes keeps the latest 256 in
      order, and a trace returns everything that can be reached ([Provenance]).
    - Memory: frames are handed out once ([Pmm]); the blocks handed out and the free
      lists partition the managed block, and freeing everything restores it ([Buddy]); live
      heap objects are disjoint, aligned, inside the heap and large enough
      ([Kheap]).
    - Files: path lookup means what the path says; no sequence of calls that obeys
      the stated conditions faults or breaks the tree, the counts or the contents;
      writing refines replacing bytes of the contents, and fails exactly when there is
      neither room nor memory; reading gives them back;
      listing a directory shows every entry once; making and removing entries
      change the tree at that name only ([VfsBoot]).
    - Tasks: the ring, the list of all tasks and the descriptors stay consistent in
      every run, every call and every turn of a wait returns; the ready queue refines a
      list and touches nothing else but event logs; the choice
      of the next task is round robin and starves nobody; what a child leaves its
      parent collects ([TaskBoot]).

    - Address spaces: start-up maps the first 40 megabytes to themselves; mapping a
      page changes the translation of that page only; copying a space gives every
      user address the same byte in a frame of its own, and taking the copy apart
      gives all frames back ([PagingBoot]); a loaded program has at each address what
      the program headers of the ELF format put there, if these have one address each
      for p_vaddr and p_paddr, and a rejected one leaves nothing ([Exec]).
    - Drawing: a line is the straight line, on screen and clipped; a filled rectangle and
      a disc show exactly their pixels; pixels keep the colours the mode can show
      ([Pixels], [Shapes]).

    Conditions the code relies on and does not check are hypotheses, named where the
    theorem is stated ([Host.event_ok], [Host6.event6_ok], [VfsRun.allowed],
    [VfsInv.path_ok], [TaskBoot.sys_step], [Exec.header_fits] and the like).  Where the
    code does not do what it means to, the theorems state what it does
    (for example [Sentry.sentry_never_bans], [Atlas.Atlas.atlas_lookup_answer],
    [VfsBoot.fork_frees_shared_file], [TaskBoot.add_ready_twice_drops],
    [PagingBoot.last_frame_faults], [Sentry.sentry_last_tick_faults]).

    ** Not modelled

    The e1000 driver and the receive ring of the RTL8139 (device registers), register
    frames and the context switch (assembly), checkpoints of tasks, system call
    dispatch, the allocation tracker, the shell, windows and text of the GUI, and the tests and
    demonstration tasks. *)

From Stdlib Require Export ZArith Lia ZifyNat.
From stdpp Require Export base numbers list option.

Declare Scope c_scope.
Delimit Scope c_scope with c.

#[global] Open Scope Z_scope.

#[global] Arguments bool_decide : simpl never.
#[global] Arguments Nat.modulo : simpl never.
#[global] Arguments Nat.div : simpl never.
#[global] Arguments Nat.leb : simpl never.
#[global] Arguments Nat.ltb : simpl never.
#[global] Arguments Z.of_nat : simpl never.

(** ** Machine integers

    A [w]-bit unsigned integer of the C code is a [Z]; every arithmetic
    operation that may wrap is followed by one of the truncations below. *)

Definition u8 (x : Z) : Z := x mod 256.
Definition u16 (x : Z) : Z := x mod 65536.
Definition u32 (x : Z) : Z := x mod 4294967296.

Notation "x +32 y" := (u32 (x + y)) (at level 50, left associativity) : c_scope.
Notation "x -32 y" := (u32 (x - y)) (at level 50, left associativity) : c_scope.
Notation "x *32 y" := (u32 (x * y)) (at level 40, left associativity) : c_scope.
#[global] Open Scope c_scope.

(** A [uint16_t] counter used as an index. *)
Definition u16n (n : nat) : nat := Z.to_nat (u16 (Z.of_nat n)).

Definition is_u8 (x : Z) : Prop := 0 <= x < 256.
Definition is_u16 (x : Z) : Prop := 0 <= x < 65536.
Definition is_u32 (x : Z) : Prop := 0 <= x < 4294967296.

(** The signed reading of a 32-bit word, [(int32_t)x]. *)
Definition s32 (x : Z) : Z := if u32 x <? 2147483648 then u32 x else u32 x - 4294967296.

(** A run of bytes: what a [uint8_t *] together with its length denotes. *)
Definition bytes (l : list Z) : Prop := Forall is_u8 l.

(** [buf[i]]: reading outside the buffer is undefined behaviour, [None]. *)
Definition rd (buf : list Z) (i : Z) : option Z :=
  if 0 <=? i then buf !! Z.to_nat i else None.

(** The [n] bytes at [buf + i], read by a copy or a comparison. *)
Definition slice (buf : list Z) (i n : nat) : option (list Z) :=
  if (i + n <=? length buf)%nat then Some (take n (drop i buf)) else None.

(** [memcpy(buf + i, src, |src|)] inside a buffer that is long enough; a copy
    that leaves the buffer is undefined behaviour, [None]. *)
Definition wr (buf : list Z) (i : nat) (src : list Z) : option (list Z) :=
  if (i + length src <=? length buf)%nat
  then Some (take i buf ++ src ++ drop (i + length src) buf) else None.

(** [memcpy(buf, src, |src|)] at the start of a buffer known to be long enough. *)
Definition blit (buf src : list Z) : list Z := src ++ drop (length src) buf.

Definition zlen {A} (l : list A) : Z := Z.of_nat (length l).

(** Big-endian fields, as the code assembles and emits them. *)
Definition be16 (hi lo : Z) : Z := u16 (Z.lor (Z.shiftl hi 8) lo).
Definition be32 (a b c d : Z) : Z :=
  u32 (Z.lor (Z.lor (Z.lor (Z.shiftl a 24) (Z.shiftl b 16)) (Z.shiftl c 8)) d).
Definition hi8 (x : Z) : Z := u8 (Z.shiftr x 8).
Definition lo8 (x : Z) : Z := Z.land x 0xFF.
Definition put16 (x : Z) : list Z := [hi8 x; lo8 x].
Definition put32 (x : Z) : list Z :=
  [u8 (Z.shiftr x 24); u8 (Z.shiftr x 16); u8 (Z.shiftr x 8); u8 x].

Create HintDb aevros discriminated.

(** ** Automation *)

(** Linear arithmetic over expressions with [mod] and [/] by constants. *)
Ltac lia_mod := zify; Z.to_euclidean_division_equations; lia.

Ltac words := unfold u8, u16, u32, is_u8, is_u16, is_u32, zlen in *.

(** Turn boolean tests of the code into the propositions they decide. *)
Ltac breflect :=
  repeat match goal with
  | H : _ && _ = true |- _ => apply andb_true_iff in H; destruct H
  | H : _ || _ = false |- _ => apply orb_false_iff in H; destruct H
  | H : negb _ = true |- _ => apply negb_true_iff in H
  | H : negb _ = false |- _ => apply negb_false_iff in H
  | H : (_ =? _) = true |- _ => apply Z.eqb_eq in H
  | H : (_ =? _) = false |- _ => apply Z.eqb_neq in H
  | H : (_ <? _) = true |- _ => apply Z.ltb_lt in H
  | H : (_ <? _) = false |- _ => apply Z.ltb_ge in H
  | H : (_ <=? _) = true |- _ => apply Z.leb_le in H
  | H : (_ <=? _) = false |- _ => apply Z.leb_gt in H
  | H : (_ <? _)%nat = true |- _ => apply Nat.ltb_lt in H
  | H : (_ <? _)%nat = false |- _ => apply Nat.ltb_ge in H
  | H : (_ <=? _)%nat = true |- _ => apply Nat.leb_le in H
  | H : (_ <=? _)%nat = false |- _ => apply Nat.leb_gt in H
  | H : (_ =? _)%nat = true |- _ => apply Nat.eqb_eq in H
  | H : (_ =? _)%nat = false |- _ => apply Nat.eqb_neq in H
  | H : bool_decide _ = true |- _ => apply bool_decide_eq_true in H
  | H : bool_decide _ = false |- _ => apply bool_decide_eq_false in H
  end.

(** Walk through the branches of a definition, keeping the tests. *)
Ltac branches := repeat (case_match; simplify_eq/=); breflect.

(** Case analysis on the decisions of the goal only. *)
Ltac goal_decide :=
  repeat match goal with |- context [decide ?P] => destruct (decide P) end.

Lemma u8_range x : is_u8 (u8 x).
Proof. words. lia_mod. Qed.

(** Elements of an explicit list are bytes. *)
Ltac byte_list :=
  repeat (apply Forall_cons_2; [first [assumption | (unfold is_u8 in *; lia) | apply u8_range]|]); apply Forall_nil_2.

(** Evaluate the reads of a buffer given element by element. *)
Ltac reads :=
  repeat match goal with
  | |- context [rd ?b ?i] =>
      let v := eval vm_compute in (rd b i) in change (rd b i) with v; cbn [mbind option_bind]
  | |- context [slice ?b ?i ?n] =>
      let v := eval vm_compute in (slice b i n) in change (slice b i n) with v; cbn [mbind option_bind]
  end.


(** ** Words *)

Lemma u16_range x : is_u16 (u16 x).
Proof. words. lia_mod. Qed.
Lemma u32_range x : is_u32 (u32 x).
Proof. words. lia_mod. Qed.
Lemma u8_small x : is_u8 x -> u8 x = x.
Proof. words. intros. apply Z.mod_small. lia. Qed.
Lemma u16_small x : is_u16 x -> u16 x = x.
Proof. words. intros. apply Z.mod_small. lia. Qed.
Lemma u32_small x : is_u32 x -> u32 x = x.
Proof. words. intros. apply Z.mod_small. lia. Qed.
Lemma u16n_small n : Z.of_nat n < 65536 -> u16n n = n.
Proof. intros. unfold u16n. rewrite u16_small by (words; lia). lia. Qed.
#[export] Hint Resolve u8_range u16_range u32_range : aevros.

Lemma lor_shift_add a b n : 0 <= n -> 0 <= b < 2 ^ n -> Z.lor (Z.shiftl a n) b = a * 2 ^ n + b.
Proof.
  intros Hn Hb. rewrite <- Z.shiftl_mul_pow2 by lia.
  pose proof (Z.add_lor_land (Z.shiftl a n) b) as Hsum.
  enough (Z.land (Z.shiftl a n) b = 0) by lia. clear Hsum.
  apply Z.bits_inj'. intros k Hk. rewrite Z.land_spec, Z.bits_0.
  destruct (Z.ltb_spec k n).
  - rewrite Z.shiftl_spec_low by lia. done.
  - destruct (decide (b = 0)) as [->|]; [by rewrite Z.bits_0, andb_false_r|].
    rewrite (Z.bits_above_log2 b k), andb_false_r; [done|lia|].
    apply Z.log2_lt_pow2; [lia|]. eapply Z.lt_le_trans; [apply Hb|].
    apply Z.pow_le_mono_r; lia.
Qed.

Lemma be16_add a b : is_u8 a -> is_u8 b -> be16 a b = a * 256 + b.
Proof.
  intros Ha Hb. unfold be16. rewrite lor_shift_add by (words; lia).
  change (2 ^ 8) with 256. apply u16_small. words; lia.
Qed.

Lemma be16_range a b : is_u16 (be16 a b).
Proof. apply u16_range. Qed.

Lemma lo8_mod x : lo8 x = x mod 256.
Proof. unfold lo8. change 0xFF with (Z.ones 8). rewrite Z.land_ones by lia. done. Qed.
Lemma hi8_div x : hi8 x = (x / 256) mod 256.
Proof. unfold hi8, u8. rewrite Z.shiftr_div_pow2 by lia. done. Qed.

Lemma be16_put16 x : is_u16 x -> be16 (hi8 x) (lo8 x) = x.
Proof.
  intros Hx. rewrite hi8_div, lo8_mod. rewrite be16_add by (words; lia_mod).
  words; lia_mod.
Qed.

Lemma put16_bytes x : bytes (put16 x).
Proof.
  unfold put16, bytes. repeat constructor; unfold is_u8; rewrite ?hi8_div, ?lo8_mod; lia_mod.
Qed.
Lemma put32_bytes x : bytes (put32 x).
Proof. repeat constructor; unfold u8; lia_mod. Qed.

Lemma be32_add a b c d : is_u8 a -> is_u8 b -> is_u8 c -> is_u8 d ->
  be32 a b c d = a * 16777216 + b * 65536 + c * 256 + d.
Proof.
  intros. unfold be32.
  assert (Z.lor (Z.shiftl a 24) (Z.shiftl b 16) = Z.shiftl (a * 256 + b) 16) as ->.
  { rewrite lor_shift_add; [|lia|rewrite Z.shiftl_mul_pow2 by lia; words; lia].
    rewrite !Z.shiftl_mul_pow2 by lia. lia. }
  assert (Z.lor (Z.shiftl (a * 256 + b) 16) (Z.shiftl c 8) = Z.shiftl ((a * 256 + b) * 256 + c) 8) as ->.
  { rewrite lor_shift_add; [|lia|rewrite Z.shiftl_mul_pow2 by lia; words; lia].
    rewrite !Z.shiftl_mul_pow2 by lia. lia. }
  rewrite lor_shift_add by (words; lia). rewrite u32_small; words; lia.
Qed.

Lemma be32_put32 x : is_u32 x ->
  be32 (u8 (Z.shiftr x 24)) (u8 (Z.shiftr x 16)) (u8 (Z.shiftr x 8)) (u8 x) = x.
Proof.
  intros Hx. rewrite be32_add by apply u8_range. unfold u8, is_u32 in *.
  rewrite !Z.shiftr_div_pow2 by lia. change (2 ^ 24) with 16777216.
  change (2 ^ 16) with 65536. change (2 ^ 8) with 256. lia_mod.
Qed.

(** ** Buffers *)

Lemma rd_in_range buf i : 0 <= i < zlen buf -> is_Some (rd buf i).
Proof.
  intros Hi. unfold rd. destruct (Z.leb_spec 0 i); [|lia].
  apply lookup_lt_is_Some. unfold zlen in *. lia.
Qed.

Lemma rd_bytes buf i x : bytes buf -> rd buf i = Some x -> is_u8 x.
Proof.
  intros Hb. unfold rd. case_match; [|done]. intros Hx.
  by eapply (Forall_lookup_1 _ _ _ _ Hb).
Qed.

Lemma bytes_app l k : bytes (l ++ k) <-> bytes l /\ bytes k.
Proof. apply Forall_app. Qed.
Lemma bytes_drop n l : bytes l -> bytes (drop n l).
Proof. apply Forall_drop. Qed.
Lemma bytes_take n l : bytes l -> bytes (take n l).
Proof. apply Forall_take. Qed.
#[export] Hint Resolve put16_bytes put32_bytes bytes_drop bytes_take : aevros.

Lemma slice_in_range buf i n : (i + n <= length buf)%nat ->
  slice buf i n = Some (take n (drop i buf)).
Proof. intros H. unfold slice. by destruct (Nat.leb_spec (i + n) (length buf)); [|lia]. Qed.

Lemma slice_length buf i n l : slice buf i n = Some l -> length l = n.
Proof.
  unfold slice. case_match eqn:E; [|done]. intros [= <-]. apply Nat.leb_le in E.
  rewrite length_take, length_drop. lia.
Qed.

(** A list is empty or ends in something. *)
Lemma snoc_cases {A} (l : list A) : l = [] \/ exists k q, l = k ++ [q].
Proof. destruct l as [|q k _] using rev_ind; eauto. Qed.
