(* ===== verification/SlotTable.v ===== *)
(** * Fixed-capacity slot tables

    Most components keep a static C array of records with an [in_use] flag and
    walk it with a [for] loop: "the first slot in use whose key matches", "the
    first free slot", "how many slots are in use".  This file models those
    loops once, over lists, and proves the facts the components share. *)

From S2P Require Import Prelude.

(** [for (i = 0; i < N; i++) if (p(&a[i])) return i;] *)
Fixpoint find_idx {A} (p : A -> bool) (l : list A) : option nat :=
  match l with
  | [] => None
  | x :: l' => if p x then Some 0%nat else S <$> find_idx p l'
  end.

(** [for (i = 0; i < N; i++) if (p(&a[i])) n++;] *)
Fixpoint count_if {A} (p : A -> bool) (l : list A) : nat :=
  match l with
  | [] => 0
  | x :: l' => ((if p x then 1 else 0) + count_if p l')%nat
  end.

(** The scan for the smallest [rank] among the slots with [p], first one wins:
    [if (p(&a[i]) && (!best || rank(&a[i]) < rank(best))) best = &a[i];] *)
Fixpoint oldest_scan {A} (p : A -> bool) (rank : A -> Z) (i : nat) (best : option (nat * Z))
    (l : list A) : option nat :=
  match l with
  | [] => fst <$> best
  | x :: l' =>
      let better := p x && match best with None => true | Some (_, r) => rank x <? r end in
      oldest_scan p rank (S i) (if better then Some (i, rank x) else best) l'
  end.
Definition oldest_idx {A} (p : A -> bool) (rank : A -> Z) (l : list A) : option nat :=
  oldest_scan p rank 0 None l.

(** Changing one field of [a[i]]. *)
Lemma alter_insert {A} (f : A -> A) (l : list A) i x :
  l !! i = Some x -> alter f i l = <[i := f x]> l.
Proof.
  intros Hi. apply list_eq. intros j. destruct (decide (i = j)) as [->|].
  - rewrite list_lookup_alter_eq, Hi, list_lookup_insert_eq; [done|by eapply lookup_lt_Some].
  - by rewrite list_lookup_alter_ne, list_lookup_insert_ne.
Qed.

Lemma alter_out {A} (f : A -> A) (l : list A) i : l !! i = None -> alter f i l = l.
Proof.
  intros Hi. apply list_eq. intros j. destruct (decide (i = j)) as [->|].
  - by rewrite list_lookup_alter_eq, Hi.
  - by rewrite list_lookup_alter_ne.
Qed.

(** A loop [for (i = 0; i < n; i++) body(i)] whose body changes only what
    [view] shows of slot [i]. *)
Lemma fold_slots {St V} (g : nat -> St -> St) (view : St -> nat -> V) (h : nat -> V -> V) (n : nat) (st : St) :
  (forall i st, view (g i st) i = h i (view st i)) ->
  (forall i j st, j <> i -> view (g i st) j = view st j) ->
  forall j, view (fold_left (fun st i => g i st) (seq 0 n) st) j =
    if (j <? n)%nat then h j (view st j) else view st j.
Proof.
  intros Hi Hj j. induction n as [|n IH]; [done|]. rewrite seq_S, fold_left_app. cbn [fold_left Nat.add].
  destruct (decide (j = n)) as [->|Hne].
  - rewrite Hi, IH. destruct (Nat.ltb_spec n n), (Nat.ltb_spec n (S n)); try lia. done.
  - rewrite Hj, IH by done. destruct (Nat.ltb_spec j n), (Nat.ltb_spec j (S n)); try lia; done.
Qed.

Section Scan.
Context {A : Type}.
Implicit Types (p : A -> bool) (l : list A).

Lemma find_idx_Some p l i : find_idx p l = Some i <->
  exists x, l !! i = Some x /\ p x = true /\
    forall j y, (j < i)%nat -> l !! j = Some y -> p y = false.
Proof.
  revert i. induction l as [|a l IH]; intros i; simpl.
  { split; [done|]. intros (x & Hx & _). done. }
  destruct (p a) eqn:Hp.
  - split.
    + intros [= <-]. exists a. repeat split; [done|]. lia.
    + intros (x & Hx & Hpx & Hmin). destruct i as [|i]; [done|].
      specialize (Hmin 0%nat a ltac:(lia) eq_refl). congruence.
  - rewrite fmap_Some. split.
    + intros (j & Hj & ->). apply IH in Hj as (x & Hx & Hpx & Hmin).
      exists x. repeat split; [done..|]. intros [|k] y Hk Hy; simplify_eq/=; [congruence|].
      eapply Hmin; [|done]. lia.
    + intros (x & Hx & Hpx & Hmin). destruct i as [|i]; simplify_eq/=; [congruence|].
      exists i. split; [|done]. apply IH. exists x. repeat split; [done..|].
      intros j y Hj Hy. apply (Hmin (S j) y); [lia|done].
Qed.

Lemma find_idx_None p l : find_idx p l = None <-> forall i x, l !! i = Some x -> p x = false.
Proof.
  induction l as [|a l IH]; simpl; [done|]. destruct (p a) eqn:Ha.
  - split; [done|]. intros H. specialize (H 0%nat a eq_refl). congruence.
  - rewrite fmap_None, IH. split; [|intros H i; apply (H (S i))].
    intros H [|i] x Hx; simplify_eq/=; eauto.
Qed.

Lemma find_idx_lt p l i : find_idx p l = Some i -> (i < length l)%nat.
Proof. intros (x & Hx & _)%find_idx_Some. by eapply lookup_lt_Some. Qed.

Lemma count_if_insert p l i x y : l !! i = Some x ->
  (count_if p (<[i:=y]> l) + (if p x then 1 else 0) =
   count_if p l + (if p y then 1 else 0))%nat.
Proof.
  revert i. induction l as [|a l IH]; intros [|i]; intros; simplify_eq/=; [lia|].
  specialize (IH i H). lia.
Qed.

Lemma count_if_length p l : (count_if p l <= length l)%nat.
Proof. induction l; simpl; [lia|]. destruct (p a); lia. Qed.

Lemma count_if_replicate p n x : p x = false -> count_if p (replicate n x) = 0%nat.
Proof. intros Hp. induction n; simpl; [done|]. by rewrite Hp. Qed.

Lemma count_if_ext p q l : (forall x, x ∈ l -> p x = q x) -> count_if p l = count_if q l.
Proof.
  induction l as [|a l IH]; intros Hpq; simpl; [done|].
  rewrite (Hpq a) by left. rewrite IH; [done|]. intros x Hx. apply Hpq. by right.
Qed.

Lemma count_if_0 p l : count_if p l = 0%nat <-> forall x, x ∈ l -> p x = false.
Proof.
  induction l as [|a l IH]; simpl.
  - split; [intros _ x Hx; by apply not_elem_of_nil in Hx|done].
  - destruct (p a) eqn:Ha.
    + split; [lia|]. intros Hx. specialize (Hx a ltac:(left)). congruence.
    + rewrite Nat.add_0_l, IH. split; intros H x; [rewrite elem_of_cons; intros [->|]; auto|].
      intros Hx. apply H. by right.
Qed.

Lemma oldest_scan_Some p rank l i best k : oldest_scan p rank i best l = Some k ->
  (exists r, best = Some (k, r)) \/
  exists j x, k = (i + j)%nat /\ l !! j = Some x /\ p x = true.
Proof.
  revert i best. induction l as [|x l IH]; intros i best; simpl.
  - intros ([? r] & -> & ->)%fmap_Some. eauto.
  - intros [(r & Hr)|(j & y & -> & Hj & Hy)]%IH.
    + case_match eqn:Hb; [|eauto]. simplify_eq. breflect.
      right. exists 0%nat, x. split; [lia|done].
    + right. exists (S j), y. split; [lia|done].
Qed.

Lemma oldest_scan_None p rank l i best : oldest_scan p rank i best l = None <->
  best = None /\ forall j x, l !! j = Some x -> p x = false.
Proof.
  revert i best. induction l as [|x l IH]; intros i best; simpl.
  - rewrite fmap_None. naive_solver.
  - rewrite IH. clear IH. split.
    + intros [Hb Hl]. case_match eqn:Hp; [done|]. subst. rewrite andb_true_r in Hp.
      split; [done|]. intros [|j] y Hj; simplify_eq/=; eauto.
    + intros [-> Hl]. rewrite (Hl 0%nat x eq_refl). simpl. split; [done|].
      intros j. apply (Hl (S j)).
Qed.

Lemma oldest_idx_Some p rank l k : oldest_idx p rank l = Some k ->
  exists x, l !! k = Some x /\ p x = true.
Proof. intros [[? ?]|(j & x & -> & ?)]%oldest_scan_Some; [done|]. eauto. Qed.

Lemma oldest_idx_None p rank l : oldest_idx p rank l = None <->
  forall j x, l !! j = Some x -> p x = false.
Proof. unfold oldest_idx. rewrite oldest_scan_None. naive_solver. Qed.

(** A slot without the property is found exactly when not all have it. *)
Lemma find_idx_count p l : find_idx p l = None <-> count_if p l = 0%nat.
Proof.
  rewrite find_idx_None, count_if_0. split.
  - intros H x Hx. apply list_elem_of_lookup in Hx as [i Hi]. eauto.
  - intros H i x Hi. apply H. apply list_elem_of_lookup. eauto.
Qed.
End Scan.

(** What a table entry shows to the loops over it: whether the slot is in use
    and the key it is found under. *)
Class Slot (E K : Type) := { used : E -> bool; key : E -> K }.

Section Table.
Context {E K : Type} `{EqDecision K} `{!Slot E K}.
Implicit Types (l : list E) (k : K) (e : E).

Definition find_key k l : option nat :=
  find_idx (fun e => used e && bool_decide (key e = k)) l.
Definition find_free l : option nat := find_idx (fun e => negb (used e)) l.
Definition lookup_key k l : option E := find_key k l ≫= fun i => l !! i.

(** No two slots in use carry the same key. *)
Definition uniq l : Prop := forall i j x y,
  l !! i = Some x -> l !! j = Some y ->
  used x = true -> used y = true -> key x = key y -> i = j.

Lemma find_key_sound k l i : find_key k l = Some i ->
  exists e, l !! i = Some e /\ used e = true /\ key e = k.
Proof.
  intros (e & He & Hp & _)%find_idx_Some. exists e.
  apply andb_true_iff in Hp as [? ?%bool_decide_eq_true]. done.
Qed.

Lemma find_key_None k l : find_key k l = None <->
  forall i e, l !! i = Some e -> used e = true -> key e <> k.
Proof.
  unfold find_key. rewrite find_idx_None. split.
  - intros H i e Hi Hu Hk. specialize (H i e Hi). rewrite Hu in H. simpl in H.
    apply bool_decide_eq_false in H. done.
  - intros H i e Hi. destruct (used e) eqn:Hu; simpl; [|done].
    apply bool_decide_eq_false. eauto.
Qed.

Lemma find_key_uniq k l i e : uniq l -> l !! i = Some e -> used e = true -> key e = k ->
  find_key k l = Some i.
Proof.
  intros Hq Hi Hu Hk. destruct (find_key k l) as [j|] eqn:Hj.
  - apply find_key_sound in Hj as (x & Hx & Hux & Hkx). f_equal.
    eapply Hq; eauto. congruence.
  - rewrite find_key_None in Hj. exfalso. by eapply Hj.
Qed.

Lemma find_free_sound l i : find_free l = Some i ->
  exists e, l !! i = Some e /\ used e = false.
Proof.
  intros (e & He & Hp & _)%find_idx_Some. exists e. apply negb_true_iff in Hp. done.
Qed.

Lemma find_free_None l : find_free l = None <-> count_if used l = length l.
Proof.
  unfold find_free. induction l as [|a l IH]; simpl; [done|].
  pose proof (count_if_length used l).
  destruct (used a); simpl; [|split; [done|lia]].
  rewrite fmap_None, IH. split; lia.
Qed.

Lemma lookup_key_sound k l e : lookup_key k l = Some e ->
  used e = true /\ key e = k /\ exists i, l !! i = Some e.
Proof.
  unfold lookup_key. intros (i & Hi & He)%bind_Some.
  apply find_key_sound in Hi as (x & Hx & ? & ?). simplify_eq. eauto.
Qed.

Lemma lookup_key_None k l : lookup_key k l = None <-> find_key k l = None.
Proof.
  unfold lookup_key. destruct (find_key k l) as [i|] eqn:Hi; [|done]. simpl.
  apply find_key_sound in Hi as (x & -> & _). done.
Qed.

Lemma lookup_key_uniq k l i e : uniq l -> l !! i = Some e -> used e = true -> key e = k ->
  lookup_key k l = Some e.
Proof. intros. unfold lookup_key. by erewrite find_key_uniq. Qed.

(** Writing a slot: what it may hold so that keys stay distinct. *)
Definition slot_for l i k : Prop :=
  forall j e, l !! j = Some e -> used e = true -> key e = k -> j = i.

Lemma slot_for_found k l i : uniq l -> find_key k l = Some i -> slot_for l i k.
Proof.
  intros Hq (x & Hx & Hu & Hk)%find_key_sound j e Hj Hue Hke.
  eapply Hq; eauto. congruence.
Qed.
Lemma slot_for_new k l i : find_key k l = None -> slot_for l i k.
Proof. rewrite find_key_None. intros H j e Hj Hu Hk. exfalso. by eapply H. Qed.

Lemma uniq_insert l i e : uniq l -> (used e = true -> slot_for l i (key e)) ->
  uniq (<[i:=e]> l).
Proof.
  intros Hq Hs a b x y. rewrite !list_lookup_insert.
  intros Ha Hb Hux Huy Hk. repeat case_decide; destruct_and?; simplify_eq; eauto.
  all: first [by eapply (Hs Huy) | symmetry; by eapply (Hs Hux)].
Qed.

Lemma uniq_replicate n e : used e = false -> uniq (replicate n e).
Proof.
  intros He i j x y Hx _ Hu. apply lookup_replicate in Hx as [-> _]. congruence.
Qed.

(** What a lookup sees after one slot is written. *)
Lemma lookup_key_write l i x e k : uniq l -> l !! i = Some x ->
  (used e = true -> slot_for l i (key e)) ->
  lookup_key k (<[i:=e]> l) =
    if decide (used e = true /\ k = key e) then Some e
    else if decide (used x = true /\ k = key x) then None else lookup_key k l.
Proof.
  intros Hq Hi Hs. pose proof (lookup_lt_Some _ _ _ Hi) as Hlt.
  pose proof (uniq_insert l i e Hq Hs) as Hq'.
  case_decide as He; [destruct He as [Hu ->]|].
  { apply (lookup_key_uniq _ _ i); [done| |done..]. by apply list_lookup_insert_eq. }
  destruct (lookup_key k (<[i:=e]> l)) as [y|] eqn:Hy.
  - apply lookup_key_sound in Hy as (Hu & Hk & j & Hj).
    rewrite list_lookup_insert in Hj. case_decide as Hij; simplify_eq; [naive_solver|].
    case_decide as Hx.
    + destruct Hx as [Hux Hkx]. exfalso. apply Hij.
      split; [|done]. eapply Hq; eauto.
    + symmetry. by eapply lookup_key_uniq.
  - case_decide as Hx; [done|]. symmetry.
    rewrite lookup_key_None, find_key_None in Hy |- *.
    intros j y Hj Hu Hk. destruct (decide (i = j)) as [->|]; [simplify_eq; naive_solver|].
    eapply (Hy j); [by rewrite list_lookup_insert_ne|done..].
Qed.

(** An expiry loop: every slot is kept, cleared, or changed under its key. *)
Lemma uniq_fmap (f : E -> E) l :
  (forall e, used (f e) = true -> used e = true /\ key (f e) = key e) ->
  uniq l -> uniq (f <$> l).
Proof.
  intros Hf Hq i j x y. rewrite !list_lookup_fmap.
  intros (x0 & Hx & ->)%fmap_Some (y0 & Hy & ->)%fmap_Some Hux Huy Hk.
  destruct (Hf _ Hux), (Hf _ Huy). eapply Hq; eauto. congruence.
Qed.

Lemma lookup_key_fmap (f : E -> E) l k :
  (forall e, used (f e) = true -> used e = true /\ key (f e) = key e) ->
  uniq l ->
  lookup_key k (f <$> l) =
    lookup_key k l ≫= fun e => if used (f e) then Some (f e) else None.
Proof.
  intros Hf Hq. destruct (lookup_key k (f <$> l)) as [y|] eqn:Hy.
  - apply lookup_key_sound in Hy as (Hu & Hk & i & Hi).
    rewrite list_lookup_fmap in Hi. apply fmap_Some in Hi as (e & He & ->).
    destruct (Hf _ Hu). erewrite (lookup_key_uniq k l i e); [|done|done|done|congruence].
    simpl. by rewrite Hu.
  - rewrite lookup_key_None, find_key_None in Hy.
    destruct (lookup_key k l) as [e|] eqn:He; [|done]. simpl.
    apply lookup_key_sound in He as (Hu & Hk & i & Hi).
    destruct (used (f e)) eqn:Hfe; [|done]. destruct (Hf _ Hfe). exfalso.
    eapply (Hy i (f e)); [by rewrite list_lookup_fmap, Hi|done|congruence].
Qed.

Lemma find_free_room l : is_Some (find_free l) <-> (count_if used l < length l)%nat.
Proof.
  pose proof (count_if_length used l). pose proof (find_free_None l) as HN.
  destruct (find_free l); split; try done; intros.
  - destruct (decide (count_if used l = length l)) as [Hc|]; [|lia]. by apply HN in Hc.
  - exfalso. assert (count_if used l = length l) by (by apply HN). lia.
Qed.
End Table.

#[export] Hint Resolve uniq_replicate slot_for_found slot_for_new : aevros.
