(* ===== verification/GuestList.v ===== *)
(** * GuestList and Menu

    [Networking/GuestList/guestlist.c]: the per-address allow/deny rules that
    Compass consults before anything else; and [Networking/Menu/menu.c]: the
    list of (port, protocol) pairs that may be reached at all.  Both are slot
    tables; an address is its list of four bytes. *)

From S2P Require Import Prelude SlotTable.

Notation ip4 := (list Z).

Module GuestList.

Definition GUESTLIST_CAPACITY : nat := 32.

Inductive guestlist_verdict := GUESTLIST_NO_RULE | GUESTLIST_ALLOWED | GUESTLIST_DENIED.
#[export] Instance guestlist_verdict_eq : EqDecision guestlist_verdict.
Proof. solve_decision. Defined.

Record guestlist_entry := mkGuest {
  ge_ip : ip4; ge_action : guestlist_verdict;
  ge_expires_at_tick : Z; ge_in_use : bool }.

#[export] Instance guest_slot : Slot guestlist_entry ip4 :=
  {| used := ge_in_use; key := ge_ip |}.

Notation guestlist := (list guestlist_entry).
Definition guest_zero : guestlist_entry := mkGuest [0;0;0;0] GUESTLIST_NO_RULE 0 false.
Definition guestlist_init : guestlist := replicate GUESTLIST_CAPACITY guest_zero.

Definition guest_find_entry (ip : ip4) (t : guestlist) : option nat := find_key ip t.

(** A rule for a known address keeps the entry's expiry tick; a new rule takes
    the first free slot and leaves that slot's old expiry tick in place. *)
Definition guestlist_set (ip : ip4) (action : guestlist_verdict) (t : guestlist) : bool * guestlist :=
  match guest_find_entry ip t with
  | Some i =>
      (true, alter (fun e => mkGuest (ge_ip e) action (ge_expires_at_tick e) (ge_in_use e)) i t)
  | None =>
      match find_free t with
      | Some i => (true, alter (fun e => mkGuest ip action (ge_expires_at_tick e) true) i t)
      | None => (false, t)
      end
  end.

Definition guestlist_clear (ip : ip4) (t : guestlist) : guestlist :=
  match guest_find_entry ip t with
  | Some i => alter (fun e => mkGuest (ge_ip e) (ge_action e) (ge_expires_at_tick e) false) i t
  | None => t
  end.

Definition guestlist_check (ip : ip4) (t : guestlist) : guestlist_verdict :=
  match lookup_key ip t with Some e => ge_action e | None => GUESTLIST_NO_RULE end.

Definition guestlist_set_timed (now : Z) (ip : ip4) (action : guestlist_verdict)
    (duration_ticks : Z) (t : guestlist) : bool * guestlist :=
  let '(ok, t1) := guestlist_set ip action t in
  if ok then
    match guest_find_entry ip t1 with
    | Some i => (true, alter (fun e => mkGuest (ge_ip e) (ge_action e) (now +32 duration_ticks) (ge_in_use e)) i t1)
    | None => (true, t1)
    end
  else (false, t1).

Definition guest_expire (now : Z) (e : guestlist_entry) : guestlist_entry :=
  if negb (ge_in_use e) || (ge_expires_at_tick e =? 0) then e
  else if ge_expires_at_tick e <=? now
       then mkGuest (ge_ip e) (ge_action e) (ge_expires_at_tick e) false else e.

Definition guestlist_tick (now : Z) (t : guestlist) : guestlist := guest_expire now <$> t.

Definition guestlist_count (t : guestlist) : Z := Z.of_nat (count_if ge_in_use t).

(** ** The invariant and the contract *)

Definition guest_wf (t : guestlist) : Prop := uniq t /\ length t = GUESTLIST_CAPACITY.

Lemma guest_wf_init : guest_wf guestlist_init.
Proof. split; [by apply uniq_replicate|done]. Qed.

Lemma guestlist_check_spec ip t :
  guestlist_check ip t = from_option ge_action GUESTLIST_NO_RULE (lookup_key ip t).
Proof. unfold guestlist_check. by destruct (lookup_key ip t). Qed.

(** Both ways the code writes a rule into slot [i]. *)
Lemma guest_set_slot t i x action exp ip : guest_wf t -> t !! i = Some x ->
  slot_for t i ip -> (used x = true -> key x = ip) ->
  guest_wf (<[i:=mkGuest ip action exp true]> t) /\
  forall ip', lookup_key ip' (<[i:=mkGuest ip action exp true]> t) =
    if decide (ip' = ip) then Some (mkGuest ip action exp true) else lookup_key ip' t.
Proof.
  intros [Hq Hl] Hi Hs Hx. split.
  - split; [by apply uniq_insert|by rewrite length_insert].
  - intros ip'. rewrite (lookup_key_write _ _ x) by done.
    simpl in *. goal_decide; naive_solver.
Qed.

Lemma guestlist_set_rule ip action t : guest_wf t ->
  let '(ok, t') := guestlist_set ip action t in
  guest_wf t' /\
  ok = bool_decide (is_Some (guest_find_entry ip t) \/ guestlist_count t < 32) /\
  exists exp, forall ip', lookup_key ip' t' =
    if decide (ip' = ip /\ ok = true) then Some (mkGuest ip action exp true) else lookup_key ip' t.
Proof.
  intros Hwf. pose proof Hwf as [Hq Hl]. unfold guestlist_set, guest_find_entry, guestlist_count.
  pose proof (find_free_room t) as Hroom. unfold GUESTLIST_CAPACITY in Hl. rewrite Hl in Hroom.
  change (@used guestlist_entry ip4 guest_slot) with ge_in_use in Hroom.
  destruct (find_key ip t) as [i|] eqn:Hk; [|destruct (find_free t) as [i|] eqn:Hf].
  - pose proof (find_key_sound _ _ _ Hk) as (x & Hx & Hu & Hkey). simpl in Hu, Hkey.
    rewrite (alter_insert _ _ _ _ Hx), Hu, Hkey.
    destruct (guest_set_slot t i x action (ge_expires_at_tick x) ip) as [Hw Hc]; eauto with aevros.
    split; [done|]. split; [rewrite bool_decide_eq_true_2; eauto|].
    eexists. intros ip'. rewrite Hc. goal_decide; naive_solver.
  - pose proof (find_free_sound _ _ Hf) as (x & Hx & Hu).
    rewrite (alter_insert _ _ _ _ Hx).
    destruct (guest_set_slot t i x action (ge_expires_at_tick x) ip) as [Hw Hc];
      eauto with aevros; [congruence|]. split; [done|]. split.
    + rewrite bool_decide_eq_true_2; [done|]. right.
      assert (count_if ge_in_use t < 32)%nat by (apply Hroom; eauto). lia.
    + eexists. intros ip'. rewrite Hc. goal_decide; naive_solver.
  - split; [done|]. split; [|exists 0; intros; goal_decide; naive_solver].
    rewrite bool_decide_eq_false_2; [done|]. intros [[? ?]|Hlt]; [congruence|].
    destruct (proj2 Hroom ltac:(lia)). congruence.
Qed.

Lemma guestlist_clear_rule ip t : guest_wf t ->
  guest_wf (guestlist_clear ip t) /\
  forall ip', guestlist_check ip' (guestlist_clear ip t) =
    if decide (ip' = ip) then GUESTLIST_NO_RULE else guestlist_check ip' t.
Proof.
  intros [Hq Hl]. unfold guestlist_clear, guest_find_entry.
  destruct (find_key ip t) as [i|] eqn:Hk.
  - pose proof (find_key_sound _ _ _ Hk) as (x & Hx & Hu & Hkey). simpl in Hu, Hkey.
    rewrite (alter_insert _ _ _ _ Hx). split.
    + split; [by apply uniq_insert|by rewrite length_insert].
    + intros ip'. rewrite !guestlist_check_spec, (lookup_key_write _ _ x) by done.
      simpl. goal_decide; naive_solver.
  - split; [done|]. intros ip'. case_decide; [|done]. subst. rewrite guestlist_check_spec.
    apply lookup_key_None in Hk. by rewrite Hk.
Qed.

Lemma guest_expire_keeps now e : used (guest_expire now e) = true ->
  used e = true /\ key (guest_expire now e) = key e.
Proof. unfold guest_expire. simpl. repeat case_match; simpl; naive_solver. Qed.

Lemma guestlist_tick_rule now t : guest_wf t ->
  guest_wf (guestlist_tick now t) /\
  forall ip, guestlist_check ip (guestlist_tick now t) =
    match lookup_key ip t with
    | Some e => if negb (ge_expires_at_tick e =? 0) && (ge_expires_at_tick e <=? now)
                then GUESTLIST_NO_RULE else ge_action e
    | None => GUESTLIST_NO_RULE
    end.
Proof.
  intros [Hq Hl]. split.
  - split; [apply uniq_fmap; [apply guest_expire_keeps|done]|by unfold guestlist_tick; rewrite length_fmap].
  - intros ip. unfold guestlist_tick.
    rewrite guestlist_check_spec, lookup_key_fmap by (done || apply guest_expire_keeps).
    destruct (lookup_key ip t) as [e|] eqn:He; [|done]. simpl.
    apply lookup_key_sound in He as (Hu & _). simpl in Hu. unfold guest_expire. rewrite Hu. simpl.
    destruct (ge_expires_at_tick e =? 0); simpl; [by rewrite Hu|].
    destruct (ge_expires_at_tick e <=? now); simpl; [done|by rewrite Hu].
Qed.

(** The rule table is a partial map from addresses to verdicts with room for 32
    addresses: setting, clearing and expiring rules change exactly the addresses
    they name, and a rule is refused only when the table is full of others. *)
Lemma guestlist_contract now ip action t : guest_wf t ->
  let '(ok, t1) := guestlist_set ip action t in
  (guest_wf t1 /\
   ok = bool_decide (is_Some (guest_find_entry ip t) \/ guestlist_count t < 32) /\
   forall ip', guestlist_check ip' t1 =
     if decide (ip' = ip /\ ok = true) then action else guestlist_check ip' t) /\
  (guest_wf (guestlist_clear ip t) /\
   forall ip', guestlist_check ip' (guestlist_clear ip t) =
     if decide (ip' = ip) then GUESTLIST_NO_RULE else guestlist_check ip' t) /\
  (guest_wf (guestlist_tick now t) /\
   forall ip', guestlist_check ip' (guestlist_tick now t) =
     match lookup_key ip' t with
     | Some e => if negb (ge_expires_at_tick e =? 0) && (ge_expires_at_tick e <=? now)
                 then GUESTLIST_NO_RULE else ge_action e
     | None => GUESTLIST_NO_RULE
     end).
Proof.
  intros Hwf. pose proof (guestlist_set_rule ip action t Hwf) as Hset.
  destruct (guestlist_set ip action t) as [ok t1]. destruct Hset as (Hw & Hok & exp & Hset).
  split; [|auto using guestlist_clear_rule, guestlist_tick_rule].
  split; [done|]. split; [done|]. intros ip'.
  rewrite !guestlist_check_spec, Hset. by destruct (decide _).
Qed.

Lemma guestlist_contract_witness :
  guest_wf guestlist_init /\
  guestlist_check [10;0;2;9] (snd (guestlist_set [10;0;2;9] GUESTLIST_DENIED guestlist_init)) = GUESTLIST_DENIED.
Proof.
  split; [exact guest_wf_init|].
  destruct (guestlist_contract 0 [10;0;2;9] GUESTLIST_DENIED guestlist_init guest_wf_init) as [(_ & _ & H) _].
  exact (H [10;0;2;9]).
Defined.

(** [guestlist_set_timed] installs the rule with its expiry tick. *)
Lemma guestlist_set_timed_rule now ip action d t : guest_wf t ->
  let '(ok, t1) := guestlist_set_timed now ip action d t in
  guest_wf t1 /\ ok = fst (guestlist_set ip action t) /\
  forall ip', lookup_key ip' t1 =
    if decide (ip' = ip /\ ok = true) then Some (mkGuest ip action (now +32 d) true)
    else lookup_key ip' t.
Proof.
  intros Hwf. unfold guestlist_set_timed. pose proof (guestlist_set_rule ip action t Hwf) as Hset.
  destruct (guestlist_set ip action t) as [[] t1]; destruct Hset as (Hw1 & _ & exp & Hc).
  2:{ split; [done|]. split; [done|]. intros ip'. rewrite Hc. goal_decide; naive_solver. }
  pose proof (Hc ip) as Hip. rewrite decide_True in Hip by done.
  unfold lookup_key in Hip. apply bind_Some in Hip as (i & Hk & Hi).
  unfold guest_find_entry. rewrite Hk, (alter_insert _ _ _ _ Hi). simpl.
  destruct (guest_set_slot t1 i (mkGuest ip action exp true) action (now +32 d) ip) as [Hw2 Hc2]; auto.
  { apply slot_for_found; [apply Hw1|done]. }
  split; [done|]. split; [done|]. intros ip'. rewrite Hc2, Hc. goal_decide; naive_solver.
Qed.

(** A rule without a duration written into a slot whose previous, timed, owner
    has expired inherits the old expiry tick: the next tick drops it, although
    the source documents such rules as never expiring. *)
Lemma guestlist_permanent_rule_expires :
  let t1 := snd (guestlist_set_timed 10 [10;0;2;9] GUESTLIST_DENIED 5 guestlist_init) in
  let t2 := guestlist_tick 15 t1 in
  let t3 := snd (guestlist_set [10;0;2;77] GUESTLIST_DENIED t2) in
  guestlist_check [10;0;2;77] t3 = GUESTLIST_DENIED /\
  guestlist_check [10;0;2;77] (guestlist_tick 20 t3) = GUESTLIST_NO_RULE.
Proof. vm_compute. done. Qed.

End GuestList.

Module Menu.

Definition MENU_CAPACITY : nat := 32.

Record menu_entry := mkMenu { me_port : Z; me_protocol : Z; me_in_use : bool }.
Notation menu := (list menu_entry).

#[export] Instance menu_slot : Slot menu_entry (Z * Z) :=
  {| used := me_in_use; key := fun e => (me_protocol e, me_port e) |}.

Definition menu_init : menu := replicate MENU_CAPACITY (mkMenu 0 0 false).

Definition menu_find_entry (port protocol : Z) (t : menu) : option nat :=
  find_key (protocol, port) t.

Definition menu_open_port (port protocol : Z) (t : menu) : bool * menu :=
  match menu_find_entry port protocol t with
  | Some _ => (true, t)
  | None => match find_free t with
            | Some i => (true, <[i := mkMenu port protocol true]> t)
            | None => (false, t)
            end
  end.

Definition menu_close_port (port protocol : Z) (t : menu) : menu :=
  match menu_find_entry port protocol t with
  | Some i => alter (fun e => mkMenu (me_port e) (me_protocol e) false) i t
  | None => t
  end.

Definition menu_is_open (port protocol : Z) (t : menu) : bool :=
  bool_decide (is_Some (menu_find_entry port protocol t)).

Definition menu_count (t : menu) : Z := Z.of_nat (count_if me_in_use t).

Definition menu_wf (t : menu) : Prop := uniq t /\ length t = MENU_CAPACITY.

Lemma menu_is_open_spec port protocol t :
  menu_is_open port protocol t = bool_decide (is_Some (lookup_key (protocol, port) t)).
Proof.
  apply bool_decide_ext. unfold menu_find_entry, lookup_key.
  destruct (find_key (protocol, port) t) as [i|] eqn:Hk; simpl;
    [|split; intros [? ?]; done].
  apply find_key_sound in Hk as (e & -> & _). split; eauto.
Qed.

(** The Menu is a set of at most 32 (port, protocol) pairs. *)
Lemma menu_open_rule port protocol t : menu_wf t ->
  let '(ok, t') := menu_open_port port protocol t in
  menu_wf t' /\
  (ok = true -> forall p q, menu_is_open p q t' =
     bool_decide ((p, q) = (port, protocol)) || menu_is_open p q t) /\
  (ok = false -> t' = t /\ menu_count t = 32 /\ menu_is_open port protocol t = false).
Proof.
  intros [Hq Hl]. unfold menu_open_port, menu_find_entry, menu_count.
  destruct (find_key (protocol, port) t) as [i|] eqn:Hk; [|destruct (find_free t) as [i|] eqn:Hf].
  - split; [done|]. split; [|discriminate]. intros _ p q. case_bool_decide as Hpq; simplify_eq; [|done].
    simpl. unfold menu_is_open, menu_find_entry. rewrite Hk. rewrite bool_decide_eq_true_2; eauto.
  - pose proof (find_free_sound _ _ Hf) as (x & Hx & Hu).
    split; [split; [apply uniq_insert; eauto with aevros|by rewrite length_insert]|].
    split; [|discriminate]. intros _ p q.
    rewrite !menu_is_open_spec, (lookup_key_write _ _ x) by eauto with aevros.
    case_decide as Hd; simpl in *.
    + destruct Hd as [_ ?]. simplify_eq. rewrite !bool_decide_eq_true_2 by eauto. done.
    + rewrite decide_False by (rewrite Hu; intros [? _]; done).
      rewrite (bool_decide_eq_false_2 ((p, q) = _)) by naive_solver. done.
  - split; [done|]. split; [discriminate|]. intros _. split; [done|]. split.
    + apply find_free_None in Hf. change (@used menu_entry (Z * Z) menu_slot) with me_in_use in Hf.
      unfold MENU_CAPACITY in Hl. lia.
    + unfold menu_is_open, menu_find_entry. rewrite Hk. apply bool_decide_eq_false_2. intros [? ?]. done.
Qed.

Lemma menu_close_rule port protocol t : menu_wf t ->
  menu_wf (menu_close_port port protocol t) /\
  forall p q, menu_is_open p q (menu_close_port port protocol t) =
    negb (bool_decide ((p, q) = (port, protocol))) && menu_is_open p q t.
Proof.
  intros [Hq Hl]. unfold menu_close_port, menu_find_entry.
  destruct (find_key (protocol, port) t) as [i|] eqn:Hk.
  - pose proof (find_key_sound _ _ _ Hk) as (x & Hx & Hu & Hkey). simpl in Hu, Hkey. simplify_eq.
    rewrite (alter_insert _ _ _ _ Hx).
    split; [split; [by apply uniq_insert|by rewrite length_insert]|]. intros p q.
    rewrite !menu_is_open_spec, (lookup_key_write _ _ x) by done. cbn [used key menu_slot me_in_use me_port me_protocol].
    rewrite decide_False by (intros [? _]; done).
    case_decide as Hd; [destruct Hd; simplify_eq; rewrite (bool_decide_eq_true_2 (_ = _)); done|].
    rewrite (bool_decide_eq_false_2 ((p, q) = _)) by naive_solver. done.
  - split; [done|]. intros p q. case_bool_decide; simplify_eq; [|done]. simpl.
    unfold menu_is_open, menu_find_entry. rewrite Hk. apply bool_decide_eq_false_2. intros [? ?]. done.
Qed.

End Menu.
