(* ===== verification/Ids.v ===== *)
(** * IDS and Audit

    [Networking/IDS/ids.c]: up to eight hooks that are told of every security
    event; and [Networking/Audit/audit.c]: the one hook the kernel registers, a
    ring of the last 64 events. *)

From S2P Require Import Prelude SlotTable.

Module Ids.

Definition IDS_MAX_HOOKS : nat := 8.

Inductive ids_event_type :=
  IDS_EVENT_GUESTLIST_DENY | IDS_EVENT_CURFEW_REJECT | IDS_EVENT_ROLODEX_DISPUTED
| IDS_EVENT_IP_REJECT | IDS_EVENT_WATCHLIST_FLAG | IDS_EVENT_PORT_SCAN_BAN.
#[export] Instance ids_event_eq : EqDecision ids_event_type.
Proof. solve_decision. Defined.

Section Hooks.
(** [W] is what the hooks may change; a hook is also given the tick counter
    it reads when it is called. *)
Context {W : Type}.

Definition ids_hook := Z -> ids_event_type -> list Z -> W -> W.

Definition ids_register_hook (fn : ids_hook) (hooks : list ids_hook) : bool * list ids_hook :=
  if (IDS_MAX_HOOKS <=? length hooks)%nat then (false, hooks) else (true, hooks ++ [fn]).

(** [ip] is [None] for a null pointer: hooks are then given 0.0.0.0. *)
Definition ids_notify (now : Z) (hooks : list ids_hook) (type : ids_event_type)
    (ip : option (list Z)) (w : W) : W :=
  foldl (fun w h => h now type (default [0;0;0;0] ip) w) w hooks.
End Hooks.
Arguments ids_hook : clear implicits.

End Ids.

Module Audit.
Import Ids.

Definition AUDIT_LOG_CAPACITY : nat := 64.

Record audit_record := mkAudit { ar_tick : Z; ar_event_type : ids_event_type; ar_ip : list Z }.

Record audit := mkAuditLog {
  log_buf : list (option audit_record);   (* [None]: never written since boot *)
  write_pos : nat;
  total_logged : Z }.

Definition audit_init : audit := mkAuditLog (replicate AUDIT_LOG_CAPACITY None) 0 0.

Definition on_event : ids_hook audit := fun now type ip a =>
  mkAuditLog (<[write_pos a := Some (mkAudit now type ip)]> (log_buf a))
             ((write_pos a + 1) mod AUDIT_LOG_CAPACITY)%nat
             (total_logged a +32 1).

Definition audit_start (hooks : list (ids_hook audit)) : list (ids_hook audit) :=
  snd (ids_register_hook on_event hooks).

Definition audit_count (a : audit) : Z := total_logged a.

Definition audit_held (a : audit) : nat :=
  if total_logged a <? Z.of_nat AUDIT_LOG_CAPACITY then Z.to_nat (total_logged a) else AUDIT_LOG_CAPACITY.

(** [None] is the zeroed record with return value 0. *)
Definition audit_get (i : nat) (a : audit) : option audit_record :=
  if (audit_held a <=? i)%nat then None
  else
    let oldest := if total_logged a <? Z.of_nat AUDIT_LOG_CAPACITY then 0%nat else write_pos a in
    default None (log_buf a !! ((oldest + i) mod AUDIT_LOG_CAPACITY)%nat).

(** ** The ring is the tail of the event history

    [audit_log h a]: the log after the events [h], oldest first, from boot.
    The event counter is 32 bits wide, hence the bound on [h]. *)

Definition history (h : list audit_record) : audit :=
  foldl (fun a r => on_event (ar_tick r) (ar_event_type r) (ar_ip r) a) audit_init h.

Lemma history_snoc h r : history (h ++ [r]) = on_event (ar_tick r) (ar_event_type r) (ar_ip r) (history h).
Proof. unfold history. by rewrite foldl_app. Qed.

Lemma history_shape h : zlen h < 4294967296 ->
  length (log_buf (history h)) = AUDIT_LOG_CAPACITY /\
  write_pos (history h) = (length h mod AUDIT_LOG_CAPACITY)%nat /\
  total_logged (history h) = Z.of_nat (length h).
Proof.
  induction h as [|r h IH] using rev_ind; intros Hlt; [done|].
  unfold zlen in *. rewrite length_app in *. simpl in Hlt. destruct (IH ltac:(lia)) as (Hl & Hw & Ht).
  rewrite history_snoc. unfold on_event. simpl. rewrite length_insert, Hw, Ht.
  split; [done|]. unfold AUDIT_LOG_CAPACITY in *. split.
  - by rewrite Nat.Div0.add_mod_idemp_l.
  - rewrite u32_small; words; lia.
Qed.

Lemma history_slots h k r : zlen h < 4294967296 ->
  h !! k = Some r -> (length h - AUDIT_LOG_CAPACITY <= k)%nat ->
  log_buf (history h) !! (k mod AUDIT_LOG_CAPACITY)%nat = Some (Some r).
Proof.
  revert k. induction h as [|x h IH] using rev_ind; intros k Hlt Hk Hge; [done|].
  unfold zlen in *. rewrite length_app in *. simpl in *.
  destruct (history_shape h ltac:(unfold zlen; lia)) as (Hl & Hw & _).
  rewrite history_snoc. unfold on_event. simpl. rewrite Hw.
  assert (forall n, n mod AUDIT_LOG_CAPACITY < AUDIT_LOG_CAPACITY)%nat as Hm
    by (intros; apply Nat.mod_upper_bound; done).
  destruct (decide (k = length h)) as [->|Hne].
  - rewrite lookup_app_r in Hk by lia. rewrite Nat.sub_diag in Hk. simplify_eq/=.
    rewrite list_lookup_insert_eq; [by destruct r|]. rewrite Hl. apply Hm.
  - assert (k < length h)%nat by (apply lookup_lt_Some in Hk; rewrite length_app in Hk; simpl in Hk; lia).
    rewrite lookup_app_l in Hk by done. unfold AUDIT_LOG_CAPACITY in *.
    rewrite list_lookup_insert_ne; [apply IH; [lia|done|lia]|]. lia_mod.
Qed.

(** The Audit log holds the last [min(64, n)] of the [n] events logged since
    boot, and [audit_get i] returns the [i]-th oldest of them. *)
Lemma audit_get_history (h : list audit_record) (i : nat) :
  zlen h < 4294967296 ->
  audit_get i (history h) = drop (length h - AUDIT_LOG_CAPACITY) h !! i.
Proof.
  intros Hlt. destruct (history_shape h Hlt) as (Hl & Hw & Ht).
  unfold audit_get, audit_held. rewrite Ht, Hw, lookup_drop.
  unfold AUDIT_LOG_CAPACITY in *. destruct (Z.ltb_spec (Z.of_nat (length h)) (Z.of_nat 64)).
  - rewrite Nat2Z.id. destruct (Nat.leb_spec (length h) i) as [Hi|Hi].
    + symmetry. apply lookup_ge_None. lia.
    + destruct (lookup_lt_is_Some_2 h i Hi) as [r Hr].
      replace (length h - 64 + i)%nat with i by lia. rewrite Hr.
      simpl (0 + i)%nat. erewrite history_slots; [done|done|done|]. unfold AUDIT_LOG_CAPACITY. lia.
  - destruct (Nat.leb_spec 64 i) as [Hi|Hi]; [symmetry; apply lookup_ge_None; lia|].
    destruct (lookup_lt_is_Some_2 h (length h - 64 + i)) as [r Hr]; [lia|]. rewrite Hr.
    rewrite Nat.Div0.add_mod_idemp_l.
    replace ((length h + i) mod 64)%nat with ((length h - 64 + i) mod 64)%nat by lia_mod.
    pose proof (history_slots h (length h - 64 + i) r Hlt Hr) as E.
    unfold AUDIT_LOG_CAPACITY in E. rewrite E by lia. done.
Qed.

Lemma audit_get_history_witness :
  audit_get 1 (history [mkAudit 3 IDS_EVENT_IP_REJECT [1;2;3;4]; mkAudit 9 IDS_EVENT_CURFEW_REJECT [5;6;7;8]])
  = Some (mkAudit 9 IDS_EVENT_CURFEW_REJECT [5;6;7;8]).
Proof.
  refine (audit_get_history _ _ _). reflexivity.
Defined.

End Audit.
