(* ===== verification/RateLimit.v ===== *)
(** * Curfew and WatchList

    [Networking/Curfew/curfew.c] counts bad frames per source address in windows
    of 200 ticks and denies an address at 150; its table of 64 evicts the entry
    seen longest ago.  [Networking/WatchList/watchlist.c] does the same per
    source MAC with a threshold of 4000 and a table of 16 that never evicts. *)

From S2P Require Import Prelude SlotTable Ids.

Module Curfew.

Definition CURFEW_CAPACITY : nat := 64.
Definition CURFEW_WINDOW_TICKS : Z := 200.
Definition CURFEW_THRESHOLD : Z := 150.

Record curfew_entry := mkCurfew {
  ce_ip : list Z; ce_window_start : Z; ce_count : Z; ce_last_seen : Z;
  ce_denied : bool; ce_in_use : bool }.

#[export] Instance curfew_slot : Slot curfew_entry (list Z) :=
  {| used := ce_in_use; key := ce_ip |}.

Record curfew := mkCurfewSt { cf_entries : list curfew_entry; cf_denied_total : Z }.

Definition curfew_init : curfew :=
  mkCurfewSt (replicate CURFEW_CAPACITY (mkCurfew [0;0;0;0] 0 0 0 false false)) 0.

(** The slot found, or the slot taken for a new address (the first free one,
    else the one seen longest ago) and the table after it is filled in. *)
Definition curfew_find_or_create (now : Z) (ip : list Z) (t : list curfew_entry)
    : option (nat * list curfew_entry) :=
  match find_key ip t with
  | Some i => Some (i, t)
  | None =>
      let target := match find_free t with
                    | Some i => Some i
                    | None => oldest_idx ce_in_use ce_last_seen t
                    end in
      i ← target; Some (i, <[i := mkCurfew ip now 0 now false true]> t)
  end.

Definition roll_window (e : curfew_entry) (now : Z) : curfew_entry :=
  if CURFEW_WINDOW_TICKS <? (now -32 ce_window_start e)
  then mkCurfew (ce_ip e) now 0 (ce_last_seen e) false (ce_in_use e) else e.

Definition curfew_seen (e : curfew_entry) (now : Z) : curfew_entry :=
  mkCurfew (ce_ip e) (ce_window_start e) (ce_count e) now (ce_denied e) (ce_in_use e).

Definition curfew_check (now : Z) (src_ip : list Z) (c : curfew) : bool * curfew :=
  match curfew_find_or_create now src_ip (cf_entries c) with
  | None => (true, c)
  | Some (i, t) =>
      match t !! i with
      | None => (true, c)
      | Some e =>
          let e' := roll_window (curfew_seen e now) now in
          (negb (ce_denied e'), mkCurfewSt (<[i:=e']> t) (cf_denied_total c))
      end
  end.

Definition curfew_strike_entry (now : Z) (e : curfew_entry) : bool * curfew_entry :=
  let e1 := roll_window (curfew_seen e now) now in
  let n := ce_count e1 +32 1 in
  if (CURFEW_THRESHOLD <=? n) && negb (ce_denied e1)
  then (true, mkCurfew (ce_ip e1) (ce_window_start e1) n (ce_last_seen e1) true (ce_in_use e1))
  else (false, mkCurfew (ce_ip e1) (ce_window_start e1) n (ce_last_seen e1) (ce_denied e1) (ce_in_use e1)).

Definition curfew_strike (now : Z) (src_ip : list Z) (c : curfew) : curfew :=
  match curfew_find_or_create now src_ip (cf_entries c) with
  | None => c
  | Some (i, t) =>
      match t !! i with
      | None => c
      | Some e =>
          let '(newly, e') := curfew_strike_entry now e in
          mkCurfewSt (<[i:=e']> t)
            (if newly then cf_denied_total c +32 1 else cf_denied_total c)
      end
  end.

Definition curfew_denied_count (c : curfew) : Z := cf_denied_total c.

(** ** Invariant *)

Definition curfew_wf (c : curfew) : Prop :=
  uniq (cf_entries c) /\ length (cf_entries c) = CURFEW_CAPACITY.

Lemma curfew_wf_init : curfew_wf curfew_init.
Proof. split; [by apply uniq_replicate|done]. Qed.

Definition curfew_fresh (now : Z) (ip : list Z) : curfew_entry := mkCurfew ip now 0 now false true.

Lemma curfew_find_or_create_spec now ip t : uniq t -> length t = CURFEW_CAPACITY ->
  exists i t', curfew_find_or_create now ip t = Some (i, t') /\
    uniq t' /\ length t' = CURFEW_CAPACITY /\
    t' !! i = Some (default (curfew_fresh now ip) (lookup_key ip t)).
Proof.
  intros Hq Hl. unfold curfew_find_or_create.
  destruct (find_key ip t) as [i|] eqn:Hk.
  - exists i, t. pose proof (find_key_sound _ _ _ Hk) as (x & Hx & Hu & Hkey).
    rewrite (lookup_key_uniq _ _ i x) by done. done.
  - assert (exists i, match find_free t with Some i => Some i | None => oldest_idx ce_in_use ce_last_seen t end = Some i
      /\ (i < length t)%nat) as (i & Hi & Hlt).
    { destruct (find_free t) as [i|] eqn:Hf; [apply find_free_sound in Hf as (x & Hx & _)|].
      - exists i. split; [done|]. by eapply lookup_lt_Some.
      - destruct (oldest_idx ce_in_use ce_last_seen t) as [i|] eqn:Ho.
        + apply oldest_idx_Some in Ho as (x & Hx & _). exists i. split; [done|]. by eapply lookup_lt_Some.
        + rewrite oldest_idx_None in Ho. apply find_free_None in Hf.
          destruct (lookup_lt_is_Some_2 t 0) as [x Hx]; [unfold CURFEW_CAPACITY in Hl; lia|].
          assert (count_if ce_in_use t = 0%nat).
          { apply count_if_0. intros y [j Hj]%list_elem_of_lookup. by eapply Ho. }
          change (@used curfew_entry (list Z) curfew_slot) with ce_in_use in Hf.
          unfold CURFEW_CAPACITY in Hl. lia. }
    rewrite Hi. simpl. apply lookup_key_None in Hk as Hk'. rewrite Hk'. simpl.
    eexists _, _. split; [done|].
    split; [apply uniq_insert; eauto with aevros|].
    split; [by rewrite length_insert|]. by apply list_lookup_insert_eq.
Qed.

Lemma roll_window_key e now : ce_ip (roll_window e now) = ce_ip e /\
  ce_in_use (roll_window e now) = ce_in_use e.
Proof. unfold roll_window. by case_match. Qed.

Lemma curfew_strike_key now e : ce_ip (snd (curfew_strike_entry now e)) = ce_ip e /\
  ce_in_use (snd (curfew_strike_entry now e)) = ce_in_use e.
Proof.
  unfold curfew_strike_entry. destruct (roll_window_key (curfew_seen e now) now) as [H1 H2].
  simpl in *. case_match; simpl; by rewrite H1, H2.
Qed.

Lemma curfew_entry_of now ip t e : uniq t -> e = default (curfew_fresh now ip) (lookup_key ip t) ->
  ce_ip e = ip /\ ce_in_use e = true.
Proof.
  intros Hq ->. destruct (lookup_key ip t) as [x|] eqn:Hx; simpl; [|done].
  apply lookup_key_sound in Hx as (? & ? & _). done.
Qed.

(** A strike changes the entry of its own address as [curfew_strike_entry] says. *)
Lemma curfew_strike_own now ip c : curfew_wf c ->
  curfew_wf (curfew_strike now ip c) /\
  lookup_key ip (cf_entries (curfew_strike now ip c)) =
    Some (snd (curfew_strike_entry now (default (curfew_fresh now ip) (lookup_key ip (cf_entries c))))).
Proof.
  intros [Hq Hl]. unfold curfew_strike.
  destruct (curfew_find_or_create_spec now ip (cf_entries c) Hq Hl) as (i & t & -> & Hq' & Hl' & Hi).
  rewrite Hi. set (e := default _ _) in *.
  destruct (curfew_entry_of now ip (cf_entries c) e Hq eq_refl) as [He1 He2].
  pose proof (curfew_strike_key now e) as [Hk1 Hk2].
  destruct (curfew_strike_entry now e) as [b e'] eqn:Hs. simpl in *.
  assert (slot_for t i ip) as Hs'.
  { intros j y Hj Hu Hky. eapply Hq'; eauto; simpl in *; congruence. }
  split; [split; simpl; [|by rewrite length_insert]|].
  - apply uniq_insert; [done|]. simpl. intros _. by rewrite Hk1, He1.
  - rewrite (lookup_key_write _ _ e); [|done|done|simpl; intros _; by rewrite Hk1, He1].
    simpl. rewrite decide_True; [done|]. split; congruence.
Qed.

Lemma curfew_check_own now ip c : curfew_wf c ->
  curfew_wf (snd (curfew_check now ip c)) /\
  fst (curfew_check now ip c) =
    negb (ce_denied (roll_window (default (curfew_fresh now ip) (lookup_key ip (cf_entries c))) now)).
Proof.
  intros [Hq Hl]. unfold curfew_check.
  destruct (curfew_find_or_create_spec now ip (cf_entries c) Hq Hl) as (i & t & -> & Hq' & Hl' & Hi).
  rewrite Hi. set (e := default _ _) in *.
  destruct (curfew_entry_of now ip (cf_entries c) e Hq eq_refl) as [He1 He2].
  destruct (roll_window_key (curfew_seen e now) now) as [Hk1 Hk2]. split.
  - split; simpl; [|by rewrite length_insert]. apply uniq_insert; [done|]. simpl. intros _ j y Hj Hu Hky.
    eapply Hq'; eauto. simpl in *. rewrite Hky, Hk1. done.
  - simpl. unfold roll_window. simpl. by case_match.
Qed.

(** ** Threshold *)

(** Strikes against one address at the ticks [ts]. *)
Definition curfew_strikes (ip : list Z) (ts : list Z) (c : curfew) : curfew :=
  foldl (fun c t => curfew_strike t ip c) c ts.

Lemma curfew_strikes_entry ip t0 ts : forall c e,
  is_u32 t0 -> Forall (fun t => t0 <= t <= t0 + 200 /\ is_u32 t) ts ->
  curfew_wf c -> lookup_key ip (cf_entries c) = Some e ->
  ce_window_start e = t0 -> 0 <= ce_count e -> ce_count e + zlen ts < 4294967296 ->
  ce_denied e = (150 <=? ce_count e) ->
  exists e', lookup_key ip (cf_entries (curfew_strikes ip ts c)) = Some e' /\
    curfew_wf (curfew_strikes ip ts c) /\ ce_window_start e' = t0 /\
    ce_count e' = ce_count e + zlen ts /\ ce_denied e' = (150 <=? ce_count e').
Proof.
  induction ts as [|t ts IH]; intros c e Ht0 Hts Hwf He Hw Hc Hlt Hd.
  { exists e. unfold zlen. simpl. rewrite Z.add_0_r. done. }
  apply Forall_cons_1 in Hts as [[Ht Htu] Hts].
  destruct (curfew_strike_own t ip c Hwf) as [Hwf' He']. rewrite He in He'. simpl in He'.
  assert (zlen (t :: ts) = zlen ts + 1) as Hzl by (unfold zlen; simpl; lia).
  assert (0 <= zlen ts) by (unfold zlen; lia).
  assert (roll_window (curfew_seen e t) t = curfew_seen e t) as Hroll.
  { unfold roll_window. simpl. rewrite Hw, u32_small by (words; lia).
    destruct (Z.ltb_spec CURFEW_WINDOW_TICKS (t - t0)); [unfold CURFEW_WINDOW_TICKS in *; lia|done]. }
  unfold curfew_strike_entry in He'. rewrite Hroll in He'. simpl in He'.
  rewrite (u32_small (ce_count e + 1)) in He' by (words; lia).
  destruct (IH _ _ Ht0 Hts Hwf' He') as (e' & H1 & H2 & H3 & H4 & H5).
  1-4: repeat case_match; simpl; try done; try lia; breflect; unfold CURFEW_THRESHOLD in *;
    rewrite ?Hd in *; repeat match goal with |- context [?a <=? ?b] => destruct (Z.leb_spec a b) end; try done; lia.
  exists e'. split; [done|]. split; [done|]. split; [done|]. split; [|done].
  rewrite H4. case_match; simpl; lia.
Qed.

(** An address with no entry that sends [n] bad frames within one window is
    refused by [curfew_check] during that window exactly when [n >= 150], and is
    let through again once more than 200 ticks have passed. *)
Lemma curfew_threshold ip t0 ts now c :
  curfew_wf c -> lookup_key ip (cf_entries c) = None ->
  0 <= t0 -> t0 + 200 < 4294967296 -> zlen ts < 4294967295 ->
  Forall (fun t => t0 <= t <= t0 + 200) ts -> t0 <= now < 4294967296 ->
  fst (curfew_check now ip (curfew_strikes ip (t0 :: ts) c)) =
    (if now - t0 <=? 200 then zlen (t0 :: ts) <? 150 else true).
Proof.
  intros Hwf Hnone H0 H200 Hlen Hts Hnow.
  assert (zlen (t0 :: ts) = zlen ts + 1) as Hzl by (unfold zlen; simpl; lia).
  assert (0 <= zlen ts) by (unfold zlen; lia).
  unfold curfew_strikes. simpl. fold (curfew_strikes ip ts (curfew_strike t0 ip c)).
  destruct (curfew_strike_own t0 ip c Hwf) as [Hwf' He]. rewrite Hnone in He. simpl in He.
  assert (roll_window (curfew_seen (curfew_fresh t0 ip) t0) t0 = curfew_seen (curfew_fresh t0 ip) t0) as Hroll.
  { unfold roll_window. simpl. by rewrite Z.sub_diag. }
  unfold curfew_strike_entry in He. rewrite Hroll in He. simpl in He.
  destruct (curfew_strikes_entry ip t0 ts _ _ ltac:(words; lia) ltac:(
    eapply Forall_impl; [|exact Hts]; intros t Ht; simpl in Ht; words; lia) Hwf' He) as (e' & H1 & H2 & H3 & H4 & H5);
    [done|simpl; words; lia|simpl; rewrite u32_small; words; lia|done|].
  simpl in H4. rewrite u32_small in H4 by (words; lia).
  rewrite (proj2 (curfew_check_own now ip _ H2)), H1. simpl. unfold roll_window, CURFEW_WINDOW_TICKS.
  rewrite H3, u32_small by (words; lia).
  destruct (Z.ltb_spec 200 (now - t0)); destruct (Z.leb_spec (now - t0) 200); try lia; [done|].
  rewrite H5, H4, Hzl. repeat match goal with
    |- context [?a <=? ?b] => destruct (Z.leb_spec a b) | |- context [?a <? ?b] => destruct (Z.ltb_spec a b) end;
  done || lia.
Qed.

Lemma curfew_threshold_witness :
  fst (curfew_check 40 [10;0;2;9] (curfew_strikes [10;0;2;9] (30 :: replicate 149 35) curfew_init)) = false.
Proof.
  refine (curfew_threshold [10;0;2;9] 30 (replicate 149 35) 40 curfew_init curfew_wf_init _ _ _ _ _ _);
    [reflexivity|lia|lia|reflexivity| |lia].
  apply Forall_replicate. lia.
Defined.

End Curfew.

Module WatchList.
Import Ids.

Definition WATCHLIST_CAPACITY : nat := 16.
Definition WATCH_WINDOW_TICKS : Z := 200.
Definition WATCH_THRESHOLD : Z := 4000.

Record watch_entry := mkWatch {
  we_mac : list Z; we_window_start : Z; we_count : Z; we_flagged : bool; we_in_use : bool }.

#[export] Instance watch_slot : Slot watch_entry (list Z) :=
  {| used := we_in_use; key := we_mac |}.

Record watchlist := mkWatchSt { wl_entries : list watch_entry; wl_dropped_total : Z }.

Definition watchlist_init : watchlist :=
  mkWatchSt (replicate WATCHLIST_CAPACITY (mkWatch [0;0;0;0;0;0] 0 0 false false)) 0.

Definition watch_find_or_create (now : Z) (mac : list Z) (t : list watch_entry)
    : option (nat * list watch_entry) :=
  match find_key mac t with
  | Some i => Some (i, t)
  | None => i ← find_free t; Some (i, <[i := mkWatch mac now 0 false true]> t)
  end.

Section Watch.
Context {W : Type} (hooks : list (ids_hook W)).

Definition watchlist_strike (now : Z) (src_mac : list Z) (st : watchlist * W)
    : bool * (watchlist * W) :=
  let '(wl, w) := st in
  match watch_find_or_create now src_mac (wl_entries wl) with
  | None => (false, st)
  | Some (i, t) =>
      match t !! i with
      | None => (false, st)
      | Some e =>
          let e1 := if WATCH_WINDOW_TICKS <? (now -32 we_window_start e)
                    then mkWatch (we_mac e) now 0 false (we_in_use e) else e in
          let n := we_count e1 +32 1 in
          let hit := WATCH_THRESHOLD <=? n in
          let w' := if hit && negb (we_flagged e1)
                    then ids_notify now hooks IDS_EVENT_WATCHLIST_FLAG None w else w in
          let e2 := mkWatch (we_mac e1) (we_window_start e1) n (hit || we_flagged e1) (we_in_use e1) in
          (we_flagged e2, (mkWatchSt (<[i:=e2]> t) (wl_dropped_total wl), w'))
      end
  end.
End Watch.

Definition watchlist_note_dropped (wl : watchlist) : watchlist :=
  mkWatchSt (wl_entries wl) (wl_dropped_total wl +32 1).

Definition watchlist_dropped_count (wl : watchlist) : Z := wl_dropped_total wl.

Definition watchlist_is_flagged (now : Z) (src_mac : list Z) (wl : watchlist) : bool * watchlist :=
  match find_key src_mac (wl_entries wl) with
  | None => (false, wl)
  | Some i =>
      match wl_entries wl !! i with
      | None => (false, wl)
      | Some e =>
          let e1 := if WATCH_WINDOW_TICKS <? (now -32 we_window_start e)
                    then mkWatch (we_mac e) (we_window_start e) (we_count e) false (we_in_use e) else e in
          (we_flagged e1, mkWatchSt (<[i:=e1]> (wl_entries wl)) (wl_dropped_total wl))
      end
  end.

Definition watchlist_flagged_count (wl : watchlist) : Z :=
  Z.of_nat (count_if (fun e => we_in_use e && we_flagged e) (wl_entries wl)).

Definition watch_wf (wl : watchlist) : Prop :=
  uniq (wl_entries wl) /\ length (wl_entries wl) = WATCHLIST_CAPACITY /\
  forall i e, wl_entries wl !! i = Some e -> we_in_use e = true -> we_flagged e = true ->
    WATCH_THRESHOLD <= we_count e.

Lemma watch_wf_init : watch_wf watchlist_init.
Proof.
  split; [by apply uniq_replicate|]. split; [done|].
  intros i e He. apply lookup_replicate in He as [-> _]. done.
Qed.

End WatchList.
