(* ===== verification/Sentry.v ===== *)
(** * Sentry, the port-scan detector

    [Networking/Sentry/sentry.c]: eight recent destination ports per source
    address; six distinct ones within 200 ticks are meant to ban the address
    for 3000 ticks through the GuestList.  The [guard] record gathers the state
    of the inbound screening components. *)

From S2P Require Import Prelude SlotTable GuestList Ids RateLimit.
Import GuestList Ids Audit Curfew.

Definition SENTRY_CAPACITY : nat := 16.
Definition SENTRY_PORT_HISTORY : nat := 8.
Definition SENTRY_WINDOW_TICKS : Z := 200.
Definition SENTRY_DISTINCT_PORT_THRESHOLD : nat := 6.
Definition SENTRY_BAN_TICKS : Z := 3000.

Record port_hit := mkHit { ph_port : Z; ph_tick : Z; ph_in_use : bool }.
Record sentry_entry := mkSentry { se_ip : list Z; se_hits : list port_hit; se_in_use : bool }.
#[export] Instance sentry_slot : Slot sentry_entry (list Z) := {| used := se_in_use; key := se_ip |}.

Record sentry := mkSentrySt { sn_entries : list sentry_entry; sn_flagged_total : Z }.

Definition hits_zero : list port_hit := replicate SENTRY_PORT_HISTORY (mkHit 0 0 false).
Definition sentry_init : sentry :=
  mkSentrySt (replicate SENTRY_CAPACITY (mkSentry [0;0;0;0] hits_zero false)) 0.

(** Inbound screening: rules, rate limits, the scan detector, the event hooks
    and the log they write. *)
Record guard := mkGuard {
  gd_guests : list guestlist_entry;
  gd_curfew : curfew;
  gd_sentry : sentry;
  gd_hooks : list (ids_hook audit);
  gd_audit : audit }.

Definition guard_init : guard :=
  mkGuard guestlist_init curfew_init sentry_init (audit_start []) audit_init.

Definition set_guests (x : list guestlist_entry) (g : guard) : guard :=
  mkGuard x (gd_curfew g) (gd_sentry g) (gd_hooks g) (gd_audit g).
Definition set_curfew (x : curfew) (g : guard) : guard :=
  mkGuard (gd_guests g) x (gd_sentry g) (gd_hooks g) (gd_audit g).
Definition set_sentry (x : sentry) (g : guard) : guard :=
  mkGuard (gd_guests g) (gd_curfew g) x (gd_hooks g) (gd_audit g).
Definition set_audit (x : audit) (g : guard) : guard :=
  mkGuard (gd_guests g) (gd_curfew g) (gd_sentry g) (gd_hooks g) x.

Definition guard_notify (now : Z) (type : ids_event_type) (ip : option (list Z)) (g : guard) : guard :=
  set_audit (ids_notify now (gd_hooks g) type ip (gd_audit g)) g.

Definition find_or_Create (ip : list Z) (t : list sentry_entry) : option (nat * list sentry_entry) :=
  match find_key ip t with
  | Some i => Some (i, t)
  | None => i ← find_free t; Some (i, <[i := mkSentry ip hits_zero true]> t)
  end.

Definition hit_expire (now : Z) (h : port_hit) : port_hit :=
  if ph_in_use h && (SENTRY_WINDOW_TICKS <=? (now -32 ph_tick h))
  then mkHit (ph_port h) (ph_tick h) false else h.

(** The loop that chooses the slot to overwrite: it stops at the first slot in
    use, and otherwise keeps the slot with the smallest tick below
    [oldest_tick]; [None] is the initial [-1]. *)
Fixpoint sentry_target (i : nat) (oldest_tick : Z) (target : option nat) (hits : list port_hit)
    : option nat :=
  match hits with
  | [] => target
  | h :: r =>
      if ph_in_use h then Some i
      else if ph_tick h <? oldest_tick then sentry_target (S i) (ph_tick h) (Some i) r
      else sentry_target (S i) oldest_tick target r
  end.

(** [None]: the write [e->hits[-1]] that happens when no slot was chosen. *)
Definition sentry_observe (now : Z) (src_ip : list Z) (dst_port : Z) (g : guard)
    : option (bool * guard) :=
  let s := gd_sentry g in
  match find_or_Create src_ip (sn_entries s) with
  | None => Some (false, g)
  | Some (k, t) =>
      e ← t !! k;
      let hits := hit_expire now <$> se_hits e in
      let store hs total := set_sentry
        (mkSentrySt (<[k := mkSentry (se_ip e) hs (se_in_use e)]> t) total) g in
      match find_idx (fun h => ph_in_use h && (ph_port h =? dst_port)) hits with
      | Some i =>
          Some (false, store (alter (fun h => mkHit (ph_port h) now (ph_in_use h)) i hits)
                             (sn_flagged_total s))
      | None =>
          target ← sentry_target 0 0xFFFFFFFF None hits;
          let hits' := <[target := mkHit dst_port now true]> hits in
          if (SENTRY_DISTINCT_PORT_THRESHOLD <=? count_if ph_in_use hits')%nat then
            let g1 := store hits' (sn_flagged_total s) in
            let g2 := set_guests (snd (guestlist_set_timed now src_ip GUESTLIST_DENIED
                                         SENTRY_BAN_TICKS (gd_guests g1))) g1 in
            let g3 := guard_notify now IDS_EVENT_PORT_SCAN_BAN (Some src_ip) g2 in
            Some (true, set_sentry (mkSentrySt (sn_entries (gd_sentry g3))
                                      (sn_flagged_total (gd_sentry g3) +32 1)) g3)
          else Some (false, store hits' (sn_flagged_total s))
      end
  end.

Definition sentry_flagged_count (s : sentry) : Z := sn_flagged_total s.

(** ** What the detector does

    Once a slot is in use the search for a slot stops there and overwrites it,
    so an address never has two recorded ports at a time. *)

Definition hits_ok (hs : list port_hit) : Prop :=
  length hs = SENTRY_PORT_HISTORY /\ (count_if ph_in_use hs <= 1)%nat /\
  Forall (fun h => ph_tick h < 0xFFFFFFFF) hs.

Definition sentry_wf (s : sentry) : Prop := Forall (fun e => hits_ok (se_hits e)) (sn_entries s).

Lemma hits_ok_zero : hits_ok hits_zero.
Proof. split; [done|]. split; [vm_compute; lia|]. by apply Forall_replicate. Qed.

Lemma hits_ok_expire now hs : hits_ok hs -> hits_ok (hit_expire now <$> hs).
Proof.
  intros (Hl & Hc & Ht). split; [by rewrite length_fmap|]. split.
  - etrans; [|exact Hc]. clear. induction hs as [|h hs IH]; [simpl; lia|]. rewrite fmap_cons. cbn [count_if].
    assert ((if ph_in_use (hit_expire now h) then 1 else 0) <= (if ph_in_use h then 1 else 0))%nat; [|lia].
    unfold hit_expire. destruct (ph_in_use h) eqn:Hu; simpl; [|by rewrite Hu].
    case_match; simpl; rewrite ?Hu; lia.
  - apply Forall_fmap. eapply Forall_impl; [|exact Ht]. intros h Hh. simpl.
    unfold hit_expire. by case_match.
Qed.

(** The chosen slot is the one in use when there is one. *)
Lemma sentry_target_spec i oldest target hs :
  (count_if ph_in_use hs = 1)%nat -> exists j h, sentry_target i oldest target hs = Some (i + j)%nat /\
    hs !! j = Some h /\ ph_in_use h = true.
Proof.
  revert i oldest target. induction hs as [|h hs IH]; intros i oldest target; simpl; [done|].
  destruct (ph_in_use h) eqn:Hu.
  - intros _. exists 0%nat, h. rewrite Nat.add_0_r. done.
  - intros Hc. case_match; edestruct IH as (j & x & Hj & Hx & Hux); [exact Hc| |exact Hc|];
      exists (S j), x; rewrite Hj; (split; [f_equal; lia|done]).
Qed.

Lemma sentry_target_some i oldest t hs : exists k, sentry_target i oldest (Some t) hs = Some k /\
  (k = t \/ i <= k < i + length hs)%nat.
Proof.
  revert i oldest t. induction hs as [|h hs IH]; intros i oldest t; simpl.
  - exists t. split; [done|lia].
  - destruct (ph_in_use h); [exists i; split; [done|lia]|].
    case_match; (edestruct IH as (k & -> & Hk); exists k; split; [done|lia]).
Qed.

Lemma sentry_target_free h hs : ph_tick h < 0xFFFFFFFF ->
  exists k, sentry_target 0 0xFFFFFFFF None (h :: hs) = Some k /\ (k < length (h :: hs))%nat.
Proof.
  intros Ht. simpl. destruct (ph_in_use h); [exists 0%nat; split; [done|lia]|].
  destruct (Z.ltb_spec (ph_tick h) 0xFFFFFFFF); [|lia].
  edestruct (sentry_target_some 1 (ph_tick h) 0 hs) as (k & -> & Hk). exists k. split; [done|lia].
Qed.

Lemma sentry_record hs port now : hits_ok hs -> now < 0xFFFFFFFF ->
  exists k, sentry_target 0 0xFFFFFFFF None hs = Some k /\
    hits_ok (<[k := mkHit port now true]> hs).
Proof.
  intros (Hl & Hc & Ht) Hnow.
  assert (exists k h, sentry_target 0 0xFFFFFFFF None hs = Some k /\ hs !! k = Some h /\
    (count_if ph_in_use hs = 1 -> ph_in_use h = true)%nat) as (k & h & Hk & Hh & H1).
  { destruct (decide (count_if ph_in_use hs = 1)%nat) as [E|E].
    - destruct (sentry_target_spec 0 0xFFFFFFFF None hs E) as (j & h & Hj & Hh & Hu).
      exists j, h. done.
    - destruct hs as [|h0 hs]; [done|]. apply Forall_cons_1 in Ht as [Ht _].
      destruct (sentry_target_free h0 hs Ht) as (k & Hk & Hlt).
      destruct (lookup_lt_is_Some_2 _ _ Hlt) as [h Hh]. exists k, h.
      split; [done|]. split; [done|]. intros ?. done. }
  exists k. split; [done|]. split; [by rewrite length_insert|]. split.
  - pose proof (count_if_insert ph_in_use hs k h (mkHit port now true) Hh) as E. simpl in E.
    destruct (ph_in_use h); [lia|]. assert (count_if ph_in_use hs <> 1%nat) by (intros ?; by specialize (H1 ltac:(done))). lia.
  - by apply Forall_insert.
Qed.

Lemma sentry_observe_step now ip port g : sentry_wf (gd_sentry g) -> now < 0xFFFFFFFF ->
  exists s', sentry_observe now ip port g = Some (false, set_sentry s' g) /\
    sentry_wf s' /\ sn_flagged_total s' = sn_flagged_total (gd_sentry g).
Proof.
  intros Hwf Hnow. unfold sentry_observe.
  destruct (find_or_Create ip (sn_entries (gd_sentry g))) as [[k t]|] eqn:Hf.
  2:{ exists (gd_sentry g). split; [by destruct g|done]. }
  assert (Forall (fun e => hits_ok (se_hits e)) t /\ is_Some (t !! k)) as [Hwf' [e He]].
  { unfold find_or_Create in Hf. destruct (find_key _ _) as [i|] eqn:Hk; simplify_eq.
    - split; [done|]. apply find_key_sound in Hk as (e & He & _). eauto.
    - apply bind_Some in Hf as (i & Hi & ?). simplify_eq.
      apply find_free_sound in Hi as (x & Hx & _). split.
      + apply Forall_insert; [done|]. apply hits_ok_zero.
      + eexists. apply list_lookup_insert_eq. by eapply lookup_lt_Some. }
  rewrite He. simpl. assert (hits_ok (hit_expire now <$> se_hits e)) as Hok.
  { apply hits_ok_expire. by eapply (Forall_lookup_1 _ _ _ _ Hwf'). }
  revert Hok. generalize (hit_expire now <$> se_hits e). intros hs Hok.
  destruct (find_idx _ hs) as [i|] eqn:Hi.
  - eexists. split; [reflexivity|]. split; [|done]. apply Forall_insert; [done|]. simpl.
    apply find_idx_Some in Hi as (h & Hh & _). rewrite (alter_insert _ _ _ _ Hh).
    destruct Hok as (Hl & Hc & Ht). split; [by rewrite length_insert|]. split; [|by apply Forall_insert].
    pose proof (count_if_insert ph_in_use hs i h (mkHit (ph_port h) now (ph_in_use h)) Hh) as E.
    simpl in E. lia.
  - destruct (sentry_record hs port now Hok Hnow) as (j & Hj & Hok'). rewrite Hj. simpl.
    destruct (Nat.leb_spec SENTRY_DISTINCT_PORT_THRESHOLD
                (count_if ph_in_use (<[j := mkHit port now true]> hs))) as [Hle|Hle].
    + destruct Hok' as (_ & Hc & _). unfold SENTRY_DISTINCT_PORT_THRESHOLD in Hle. lia.
    + eexists. split; [reflexivity|]. split; [|done]. by apply Forall_insert.
Qed.

(** A run of observations (tick, source, destination port). *)
Fixpoint sentry_run (obs : list (Z * list Z * Z)) (g : guard) : option guard :=
  match obs with
  | [] => Some g
  | (now, ip, port) :: r => '(_, g') ← sentry_observe now ip port g; sentry_run r g'
  end.

(** From boot, whatever the packets and their ticks (short of the last tick
    before the counter wraps), Sentry never faults, never bans anyone and leaves
    the GuestList and the audit log untouched: its detector cannot fire. *)
Lemma sentry_never_bans (obs : list (Z * list Z * Z)) :
  Forall (fun o => fst (fst o) < 0xFFFFFFFF) obs ->
  exists s, sentry_run obs guard_init = Some (set_sentry s guard_init) /\ sentry_flagged_count s = 0 /\
    forall now ip port, now < 0xFFFFFFFF ->
      fst <$> sentry_observe now ip port (set_sentry s guard_init) = Some false.
Proof.
  intros Hobs.
  enough (forall g, sentry_wf (gd_sentry g) -> exists s, sentry_run obs g = Some (set_sentry s g) /\
    sentry_wf s /\ sn_flagged_total s = sn_flagged_total (gd_sentry g)) as Hrun.
  { destruct (Hrun guard_init) as (s & Hs & Hwf & Hft).
    { apply Forall_replicate. apply hits_ok_zero. }
    exists s. split; [done|]. split; [done|]. intros now ip port Hnow.
    by destruct (sentry_observe_step now ip port (set_sentry s guard_init) Hwf Hnow) as (s' & -> & _). }
  induction Hobs as [|[[now ip] port] obs Hnow _ IH]; intros g Hwf; simpl in *.
  - exists (gd_sentry g). split; [by destruct g|done].
  - destruct (sentry_observe_step now ip port g Hwf Hnow) as (s1 & -> & Hwf1 & Hf1). simpl.
    destruct (IH (set_sentry s1 g) Hwf1) as (s & Hs & Hwfs & Hfs).
    exists s. split; [exact Hs|]. split; [done|]. simpl in Hfs. congruence.
Qed.

(** The last tick is excluded for a reason: a source heard at it once in each of
    eight rounds of the counter leaves all eight slots unused with that tick, and
    the next packet is written to [hits[-1]]. *)
Example sentry_last_tick_faults :
  sentry_run (concat (replicate 8 [(0xFFFFFFFF, [10;0;2;2], 80); (300, [10;0;2;2], 81)])) guard_init = None.
Proof. vm_compute. reflexivity. Qed.

(** Seven distinct ports in seven ticks: the scan the detector is meant to catch. *)
Lemma sentry_never_bans_witness :
  exists s, sentry_run ((fun p => (p, [10;0;2;9], p)) <$> [1;2;3;4;5;6;7]) guard_init = Some (set_sentry s guard_init)
    /\ sentry_flagged_count s = 0.
Proof.
  destruct (sentry_never_bans ((fun p => (p, [10;0;2;9], p)) <$> [1;2;3;4;5;6;7])) as (s & H & H0 & _).
  - repeat constructor.
  - exists s. split; [exact H|exact H0].
Defined.
