(* ===== verification/Bailiff.v ===== *)
(** * Bailiff, the gate in front of the transmitter

    [Networking/Bailiff/bailiff.c]: every outgoing frame needs a pass, issued for
    its exact length and FNV-1a hash, good for 500 ticks and for one use.  The
    transmitter behind it ([frontdesk_send]) is an interface: anything that
    takes a frame and answers whether it was accepted. *)

From S2P Require Import Prelude SlotTable.

Definition BAILIFF_MAX_PASSES : nat := 32.
Definition BAILIFF_PASS_TIMEOUT_TICKS : Z := 500.
Definition BAILIFF_MAX_FRAME : Z := 1600.

(** What the network stack expects of a transmitter. *)
Class TxDriver (D : Type) := frontdesk_send : list Z -> D -> bool * D.

Record hall_pass := mkPass {
  hp_pass_id : Z; hp_declared_len : Z; hp_content_checksum : Z;
  hp_issued_at : Z; hp_in_use : bool }.
#[export] Instance pass_slot : Slot hall_pass Z := {| used := hp_in_use; key := hp_pass_id |}.

Record bailiff := mkBailiff {
  bl_passes : list hall_pass; bl_next_pass_id : Z;
  bl_denied_total : Z; bl_transmitted_total : Z }.

Definition bailiff_init : bailiff :=
  mkBailiff (replicate BAILIFF_MAX_PASSES (mkPass 0 0 0 0 false)) 1 0 0.

(** The hash of the source, named [checksum] there. *)
Definition fnv_checksum (data : list Z) : Z :=
  foldl (fun sum b => Z.lxor sum b *32 16777619) 2166136261 data.

Definition pass_expire (now : Z) (p : hall_pass) : hall_pass :=
  if hp_in_use p && (BAILIFF_PASS_TIMEOUT_TICKS <? (now -32 hp_issued_at p))
  then mkPass (hp_pass_id p) (hp_declared_len p) (hp_content_checksum p) (hp_issued_at p) false
  else p.

Definition reclaim_expired (now : Z) (ps : list hall_pass) : list hall_pass := pass_expire now <$> ps.

Definition bailiff_deny (b : bailiff) : bailiff :=
  mkBailiff (bl_passes b) (bl_next_pass_id b) (bl_denied_total b +32 1) (bl_transmitted_total b).

Definition set_passes (ps : list hall_pass) (b : bailiff) : bailiff :=
  mkBailiff ps (bl_next_pass_id b) (bl_denied_total b) (bl_transmitted_total b).

(** [Some id]: return value 1 and [*out_pass_id = id]. *)
Definition bailiff_request_pass (now : Z) (frame : list Z) (b : bailiff) : option Z * bailiff :=
  if (zlen frame =? 0) || (BAILIFF_MAX_FRAME <? zlen frame) then (None, bailiff_deny b)
  else
    let ps := reclaim_expired now (bl_passes b) in
    match find_free ps with
    | None => (None, bailiff_deny (set_passes ps b))
    | Some slot =>
        let id := bl_next_pass_id b in
        (Some id, mkBailiff (<[slot := mkPass id (zlen frame) (fnv_checksum frame) now true]> ps)
                    (id +32 1) (bl_denied_total b) (bl_transmitted_total b))
    end.

Definition pass_spend (i : nat) (b : bailiff) : bailiff :=
  set_passes (alter (fun p => mkPass (hp_pass_id p) (hp_declared_len p)
                                (hp_content_checksum p) (hp_issued_at p) false) i (bl_passes b)) b.

Definition bailiff_present_pass `{TxDriver D} (now : Z) (pass_id : Z) (frame : list Z)
    (st : bailiff * D) : bool * (bailiff * D) :=
  let '(b, d) := st in
  let b := set_passes (reclaim_expired now (bl_passes b)) b in
  match find_idx (fun p => hp_in_use p && (hp_pass_id p =? pass_id)) (bl_passes b) with
  | None => (false, (bailiff_deny b, d))
  | Some i =>
      match bl_passes b !! i with
      | None => (false, (b, d))
      | Some p =>
          if negb (hp_declared_len p =? zlen frame) then (false, (bailiff_deny b, d))
          else if negb (hp_content_checksum p =? fnv_checksum frame) then (false, (bailiff_deny b, d))
          else
            let '(sent, d') := frontdesk_send frame d in
            if negb sent then (false, (pass_spend i (bailiff_deny b), d'))
            else (true, (pass_spend i (mkBailiff (bl_passes b) (bl_next_pass_id b)
                                         (bl_denied_total b) (bl_transmitted_total b +32 1)), d'))
      end
  end.

Definition bailiff_denied_count (b : bailiff) : Z := bl_denied_total b.
Definition bailiff_transmitted_count (b : bailiff) : Z := bl_transmitted_total b.

#[global] Arguments bailiff_request_pass : simpl never.
#[global] Arguments bailiff_present_pass : simpl never.

(** ** Invariant: passes in use carry distinct, already issued numbers. *)

Definition bailiff_wf (b : bailiff) : Prop :=
  uniq (bl_passes b) /\ length (bl_passes b) = BAILIFF_MAX_PASSES /\
  0 <= bl_next_pass_id b /\
  forall i p, bl_passes b !! i = Some p -> hp_in_use p = true ->
    hp_pass_id p < bl_next_pass_id b.

Lemma bailiff_wf_init : bailiff_wf bailiff_init.
Proof.
  split; [by apply uniq_replicate|]. split; [done|]. split; [simpl; lia|].
  intros i p Hp. apply lookup_replicate in Hp as [-> _]. done.
Qed.

Lemma pass_expire_keeps now p : used (pass_expire now p) = true ->
  used p = true /\ key (pass_expire now p) = key p.
Proof. unfold pass_expire. simpl. case_match eqn:E; simpl; [done|]. done. Qed.

Lemma pass_expire_fields now p : hp_pass_id (pass_expire now p) = hp_pass_id p /\
  hp_declared_len (pass_expire now p) = hp_declared_len p /\
  hp_content_checksum (pass_expire now p) = hp_content_checksum p.
Proof. unfold pass_expire. by case_match. Qed.

Lemma reclaim_wf now b : bailiff_wf b -> bailiff_wf (set_passes (reclaim_expired now (bl_passes b)) b).
Proof.
  intros (Hq & Hl & H0 & Hid). unfold reclaim_expired.
  split; [apply uniq_fmap; [apply pass_expire_keeps|done]|].
  split; [simpl; by rewrite length_fmap|]. split; [done|]. simpl.
  intros i p. rewrite list_lookup_fmap. intros (q & Hq' & ->)%fmap_Some Hu.
  destruct (pass_expire_keeps now q Hu) as [Hu' Hk]. simpl in *. rewrite Hk. eauto.
Qed.

Lemma pass_spend_wf i b : bailiff_wf b -> bailiff_wf (pass_spend i b).
Proof.
  intros (Hq & Hl & H0 & Hid). unfold pass_spend, set_passes. simpl.
  destruct (bl_passes b !! i) as [p|] eqn:Hp.
  - rewrite (alter_insert _ _ _ _ Hp). split; [by apply uniq_insert|].
    split; [simpl; by rewrite length_insert|]. split; [done|]. simpl.
    intros j q. rewrite list_lookup_insert. case_decide; [|apply Hid].
    destruct_and!. intros. simplify_eq/=.
  - rewrite alter_out by done. by split.
Qed.

Lemma bailiff_request_wf now frame b : bailiff_wf b -> bl_next_pass_id b < 4294967295 ->
  bailiff_wf (snd (bailiff_request_pass now frame b)) /\
  forall id, fst (bailiff_request_pass now frame b) = Some id ->
    id = bl_next_pass_id b /\ bl_next_pass_id (snd (bailiff_request_pass now frame b)) = id + 1.
Proof.
  intros Hwf Hmax. unfold bailiff_request_pass. case_match; [by split; [destruct Hwf|]|].
  destruct (reclaim_wf now b Hwf) as (Hq & Hl & H0 & Hid). simpl in *.
  destruct (find_free (reclaim_expired now (bl_passes b))) as [i|] eqn:Hf; simpl; [|by split].
  rewrite u32_small by (words; lia). split; [|intros; simplify_eq; split; lia].
  apply find_free_sound in Hf as (x & Hx & Hu). split; [|split; [simpl; by rewrite length_insert|split; [simpl; lia|]]].
  - apply uniq_insert; [done|]. intros _ j p Hj Hup Hk. simpl in *. specialize (Hid j p Hj Hup). lia.
  - simpl. intros j p. rewrite list_lookup_insert. case_decide; [|intros Hj Hp; specialize (Hid j p Hj Hp); lia].
    destruct_and!. intros. simplify_eq/=. lia.
Qed.

(** ** Authorisation *)

Definition live (b : bailiff) (p : hall_pass) : Prop := p ∈ bl_passes b /\ hp_in_use p = true.

(** Same pass apart from its [in_use] flag. *)
Definition same_pass (p q : hall_pass) : Prop :=
  hp_pass_id p = hp_pass_id q /\ hp_declared_len p = hp_declared_len q /\
  hp_content_checksum p = hp_content_checksum q /\ hp_issued_at p = hp_issued_at q.

Lemma live_reclaim now b p : live (set_passes (reclaim_expired now (bl_passes b)) b) p ->
  live b p /\ (now -32 hp_issued_at p) <= BAILIFF_PASS_TIMEOUT_TICKS.
Proof.
  intros [Hp Hu]. simpl in Hp. apply list_elem_of_fmap in Hp as (q & -> & Hq).
  unfold pass_expire in *. destruct (hp_in_use q) eqn:E; simpl in *; [|by rewrite E in Hu].
  case_match eqn:Ht; [done|]. apply Z.ltb_ge in Ht. done.
Qed.

Lemma live_spend i b p q : bailiff_wf b -> bl_passes b !! i = Some p -> hp_in_use p = true ->
  live (pass_spend i b) q -> live b q /\ hp_pass_id q <> hp_pass_id p.
Proof.
  intros (Hq & _) Hp Hu [Hel Huq]. unfold pass_spend in Hel. simpl in Hel.
  rewrite (alter_insert _ _ _ _ Hp) in Hel. apply list_elem_of_lookup in Hel as [j Hj].
  rewrite list_lookup_insert in Hj. case_decide as Hd; [destruct_and!; simplify_eq/=|].
  split; [split; [|done]; apply list_elem_of_lookup; eauto|]. intros Hid.
  apply Hd. split; [|by eapply lookup_lt_Some]. by eapply Hq.
Qed.

(** Presenting a pass: either the transmitter is not touched, or the frame has
    the length and hash of a live, unexpired pass with that number, and no pass
    with that number is live afterwards. *)
Lemma bailiff_present_cases `{TxDriver D} now id frame b d : bailiff_wf b ->
  let '(r, (b', d')) := bailiff_present_pass now id frame (b, d) in
  bailiff_wf b' /\ bl_next_pass_id b' = bl_next_pass_id b /\
  (forall p, live b' p -> live b p) /\
  ((r = false /\ d' = d) \/
   exists p, live b p /\ hp_pass_id p = id /\
      hp_declared_len p = zlen frame /\ hp_content_checksum p = fnv_checksum frame /\
      (now -32 hp_issued_at p) <= BAILIFF_PASS_TIMEOUT_TICKS /\
      frontdesk_send frame d = (r, d') /\ (forall q, live b' q -> hp_pass_id q <> id)).
Proof.
  intros Hwf. unfold bailiff_present_pass.
  pose proof (reclaim_wf now b Hwf) as Hwf1.
  pose proof (live_reclaim now b) as Hlive. revert Hwf1 Hlive.
  set (b1 := set_passes (reclaim_expired now (bl_passes b)) b). intros Hwf1 Hlive.
  change (bl_next_pass_id b) with (bl_next_pass_id b1).
  destruct (find_idx _ (bl_passes b1)) as [i|] eqn:Hi.
  2:{ cbv beta iota. split; [exact Hwf1|]. split; [done|]. split; [intros q Hq; apply Hlive; exact Hq|by left]. }
  apply find_idx_Some in Hi as (p & Hp & Hpp & _). breflect. rewrite Hp.
  destruct (negb (hp_declared_len p =? zlen frame)) eqn:E1; breflect.
  { cbv beta iota. split; [exact Hwf1|]. split; [done|]. split; [intros q Hq; apply Hlive; exact Hq|by left]. }
  destruct (negb (hp_content_checksum p =? fnv_checksum frame)) eqn:E2; breflect.
  { cbv beta iota. split; [exact Hwf1|]. split; [done|]. split; [intros q Hq; apply Hlive; exact Hq|by left]. }
  destruct (frontdesk_send frame d) as [r d'] eqn:Hsend.
  assert (forall b2, bl_passes b2 = bl_passes b1 -> bl_next_pass_id b2 = bl_next_pass_id b1 ->
    bailiff_wf (pass_spend i b2) /\ bl_next_pass_id (pass_spend i b2) = bl_next_pass_id b1 /\
    (forall q, live (pass_spend i b2) q -> live b q) /\
    (forall q, live (pass_spend i b2) q -> hp_pass_id q <> id)) as Hspend.
  { intros b2 Hps Hn. assert (bailiff_wf b2) as Hwf2.
    { unfold bailiff_wf. rewrite Hps, Hn. exact Hwf1. }
    split; [by apply pass_spend_wf|]. split; [done|].
    split; intros q Hlq; (eapply live_spend in Hlq as [[Hq1 Hq2] Hq3]; [|done|by rewrite Hps|done]).
    - apply Hlive. split; [by rewrite <- Hps|done].
    - congruence. }
  assert (live b p /\ (now -32 hp_issued_at p) <= BAILIFF_PASS_TIMEOUT_TICKS) as [Hlp Hto].
  { apply Hlive. split; [|done]. apply list_elem_of_lookup. eauto. }
  destruct r; simpl.
  all: match goal with |- bailiff_wf (pass_spend ?j ?b2) /\ _ =>
         destruct (Hspend b2 eq_refl eq_refl) as (W1 & W2 & W3 & W4) end.
  all: split; [exact W1|]; split; [exact W2|]; split; [exact W3|]; right; exists p; auto 10.
Qed.

(** ** Single use

    A run of requests and presentations.  It returns the passes issued, with the
    frame each was issued for, and the passes honoured, with the frame sent. *)

Inductive bailiff_event :=
| EvRequest (now : Z) (frame : list Z)
| EvPresent (now : Z) (id : Z) (frame : list Z).

Section Run.
Context `{TxDriver D}.

Fixpoint bailiff_run (evs : list bailiff_event) (st : bailiff * D)
    : list (Z * list Z) * list (Z * list Z) :=
  match evs with
  | [] => ([], [])
  | EvRequest now frame :: evs' =>
      let '(r, b') := bailiff_request_pass now frame (fst st) in
      let '(issued, sent) := bailiff_run evs' (b', snd st) in
      (match r with Some id => (id, frame) :: issued | None => issued end, sent)
  | EvPresent now id frame :: evs' =>
      let '(r, st') := bailiff_present_pass now id frame st in
      let '(issued, sent) := bailiff_run evs' st' in
      (issued, if r then (id, frame) :: sent else sent)
  end.

(** What is known of a pass in use: it was issued for some frame of [G]. *)
Definition accounted (G : list (Z * list Z)) (b : bailiff) : Prop :=
  forall p, live b p -> exists f, (hp_pass_id p, f) ∈ G /\
    hp_declared_len p = zlen f /\ hp_content_checksum p = fnv_checksum f.

Lemma bailiff_request_accounted now frame b G : accounted G b ->
  accounted (G ++ match fst (bailiff_request_pass now frame b) with
                  | Some id => [(id, frame)] | None => [] end)
            (snd (bailiff_request_pass now frame b)).
Proof.
  intros HG. unfold bailiff_request_pass.
  destruct ((zlen frame =? 0) || (BAILIFF_MAX_FRAME <? zlen frame)); simpl; [by rewrite app_nil_r|].
  pose proof (live_reclaim now b) as Hlive.
  destruct (find_free _) as [i|] eqn:Hf; simpl.
  - intros p [Hel Hu]. simpl in Hel. apply list_elem_of_lookup in Hel as [j Hj].
    rewrite list_lookup_insert in Hj. case_decide; [destruct_and!; simplify_eq/=|].
    + exists frame. split; [|done]. apply elem_of_app. right. by left.
    + destruct (HG p) as (f & Hin & Hd); [|exists f; split; [apply elem_of_app; by left|done]].
      apply Hlive. split; [|done]. apply list_elem_of_lookup. eauto.
  - rewrite app_nil_r. intros p Hp. apply HG. apply Hlive. exact Hp.
Qed.

Definition requests (evs : list bailiff_event) : Z :=
  Z.of_nat (count_if (fun e => match e with EvRequest _ _ => true | _ => false end) evs).

Lemma bailiff_run_sound evs : forall b d G issued sent,
  bailiff_wf b -> bl_next_pass_id b + requests evs < 4294967295 -> accounted G b ->
  bailiff_run evs (b, d) = (issued, sent) ->
  NoDup sent.*1 /\
  (forall id f, (id, f) ∈ sent ->
    (bl_next_pass_id b <= id \/ exists p, live b p /\ hp_pass_id p = id) /\
    exists f0, (id, f0) ∈ G ++ issued /\ zlen f0 = zlen f /\ fnv_checksum f0 = fnv_checksum f).
Proof.
  induction evs as [|[now frame|now id frame] evs IH]; intros b d G issued sent Hwf Hn HG; simpl.
  - intros [= <- <-]. split; [constructor|]. intros ? ? Hin. by apply not_elem_of_nil in Hin.
  - unfold requests in *. simpl in Hn.
    assert (bl_next_pass_id b < 4294967295) as Hlt by lia.
    pose proof (bailiff_request_wf now frame b Hwf Hlt) as [Hwf' Hid].
    pose proof (bailiff_request_accounted now frame b G HG) as HG'.
    destruct (bailiff_request_pass now frame b) as [r b'] eqn:Hr. simpl in *.
    assert (bl_next_pass_id b <= bl_next_pass_id b' <= bl_next_pass_id b + 1 /\
      (forall p, live b' p -> live b p \/ bl_next_pass_id b <= hp_pass_id p)) as [Hnn Hlv].
    { unfold bailiff_request_pass in Hr.
      destruct ((zlen frame =? 0) || (BAILIFF_MAX_FRAME <? zlen frame)); simplify_eq/=;
        [split; [simpl; lia|by left]|].
      pose proof (live_reclaim now b) as Hlive.
      destruct (find_free _) as [i|]; simplify_eq/=.
      - destruct (Hid _ eq_refl) as [_ Hnx]. split; [lia|]. intros p [Hel Hu]. simpl in Hel.
        apply list_elem_of_lookup in Hel as [j Hj]. rewrite list_lookup_insert in Hj.
        case_decide; [destruct_and!; simplify_eq/=; right; simpl; lia|]. left.
        apply Hlive. split; [apply list_elem_of_lookup; eauto|done].
      - split; [lia|]. intros p Hp. left. apply Hlive. exact Hp. }
    destruct (bailiff_run evs (b', d)) as [is2 st2] eqn:Hrun. intros [= <- <-].
    edestruct (IH b' d) as [Hnd Hall]; [exact Hwf'| |exact HG'|exact Hrun|].
    { unfold requests. lia. }
    split; [done|]. intros id f Hin. destruct (Hall id f Hin) as [Hold (f0 & Hf0 & Hff)]. split.
    + destruct Hold as [?|(p & Hp & <-)]; [left; lia|].
      destruct (Hlv p Hp); [right; eauto|left; done].
    + exists f0. split; [|done]. rewrite <- app_assoc in Hf0. destruct r; exact Hf0.
  - pose proof (bailiff_present_cases now id frame b d Hwf) as Hp.
    destruct (bailiff_present_pass now id frame (b, d)) as [r [b' d']] eqn:Hpp.
    destruct Hp as (Hwf' & Hnx & Hlv & Hcase).
    destruct (bailiff_run evs (b', d')) as [is2 st2] eqn:Hrun. intros E. injection E as <- <-.
    edestruct (IH b' d') as [Hnd Hall]; [exact Hwf'| | |exact Hrun|].
    { unfold requests in *. simpl in Hn. lia. }
    { intros p Hp. apply HG. by apply Hlv. }
    assert (forall i f, (i, f) ∈ st2 -> (bl_next_pass_id b <= i \/ exists p, live b p /\ hp_pass_id p = i)
      /\ exists f0, (i, f0) ∈ G ++ is2 /\ zlen f0 = zlen f /\ fnv_checksum f0 = fnv_checksum f) as Hall'.
    { intros i f Hin. destruct (Hall i f Hin) as [Hold Hf]. split; [|done]. rewrite Hnx in Hold.
      destruct Hold as [?|(p & Hp & ?)]; eauto. }
    destruct r; [|done]. destruct Hcase as [[? _]|(p & Hlp & Hpid & Hdl & Hck & _ & _ & Hgone)]; [done|].
    split.
    + rewrite fmap_cons. constructor; [|done]. simpl. intros Hin.
      apply list_elem_of_fmap in Hin as ([i f] & -> & Hin). destruct (Hall i f Hin) as [[Hge|(q & Hq & Hqi)] _].
      * destruct Hwf as (_ & _ & _ & Hids). destruct Hlp as [[k Hk]%list_elem_of_lookup Hu].
        specialize (Hids k p Hk Hu). simpl in *. lia.
      * by apply (Hgone q Hq).
    + intros i f [[= -> ->]|Hin]%elem_of_cons; [|by apply Hall'].
      split; [right; eauto|]. destruct (HG p Hlp) as (f0 & Hin & Hl0 & Hc0).
      exists f0. split; [apply elem_of_app; left; congruence|]. split; congruence.
Qed.
End Run.

(** A pass just issued is honoured, and the frame goes to the transmitter. *)
Lemma bailiff_fresh_pass `{TxDriver D} now f b id b1 d d' : bailiff_wf b -> bl_next_pass_id b < 4294967295 ->
  bailiff_request_pass now f b = (Some id, b1) -> frontdesk_send f d = (true, d') ->
  exists b2, bailiff_present_pass now id f (b1, d) = (true, (b2, d')).
Proof.
  intros Hwf Hn Hreq Hsend. destruct (bailiff_request_wf now f b Hwf Hn) as [Hwf1 _]. rewrite Hreq in Hwf1. simpl in Hwf1.
  pose proof (reclaim_wf now b1 Hwf1) as (Huq & _). unfold bailiff_request_pass in Hreq.
  destruct (_ || _); [done|]. destruct (find_free _) as [i|] eqn:Hf; [|done]. injection Hreq as <- <-.
  apply find_free_sound in Hf as (e & He & _). pose proof (lookup_lt_Some _ _ _ He) as Hi.
  set (p := mkPass (bl_next_pass_id b) (zlen f) (fnv_checksum f) now true). set (ps := <[i := p]> (reclaim_expired now (bl_passes b))) in *.
  assert (reclaim_expired now ps !! i = Some p) as Hpi.
  { unfold reclaim_expired, ps. rewrite list_lookup_fmap, list_lookup_insert_eq by done. simpl. unfold pass_expire. simpl.
    by rewrite Z.sub_diag. }
  unfold bailiff_present_pass. cbn [bl_passes set_passes].
  destruct (find_idx _ (reclaim_expired now ps)) as [j|] eqn:Hj.
  2:{ rewrite find_idx_None in Hj. specialize (Hj i p Hpi). simpl in Hj. by rewrite Z.eqb_refl in Hj. }
  apply find_idx_Some in Hj as (p' & Hpj & Hcond & _). breflect. cbn [bl_passes set_passes] in Huq.
  assert (j = i) as ->. { apply (Huq j i p' p); try done. }
  rewrite Hpi. cbn [hp_declared_len hp_content_checksum p]. rewrite !Z.eqb_refl. cbn [negb]. cbv iota. rewrite Hsend. cbn [negb]. eauto.
Qed.

(** From boot, over any sequence of fewer than 2^32 - 2 requests and any
    presentations, whatever the transmitter does: no pass is honoured twice, and
    every honoured pass was issued earlier for a frame of the same length and
    the same hash as the frame handed to the transmitter. *)
Lemma bailiff_passes_single_use `{TxDriver D} (d : D) evs issued sent :
  requests evs < 4294967294 ->
  bailiff_run evs (bailiff_init, d) = (issued, sent) ->
  NoDup sent.*1 /\
  forall id f, (id, f) ∈ sent -> exists f0, (id, f0) ∈ issued /\
    zlen f0 = zlen f /\ fnv_checksum f0 = fnv_checksum f.
Proof.
  intros Hn Hrun. destruct (bailiff_run_sound evs bailiff_init d [] issued sent) as [Hnd Hall];
    [exact bailiff_wf_init|simpl; lia| |done|].
  - intros p [Hp Hu]. apply list_elem_of_lookup in Hp as [i Hi].
    apply lookup_replicate in Hi as [-> _]. done.
  - split; [done|]. intros id f Hin. by destruct (Hall id f Hin) as [_ ?].
Qed.

(** A transmitter that accepts every frame and remembers it. *)
#[export] Instance log_driver : TxDriver (list (list Z)) := fun f d => (true, d ++ [f]).

Lemma bailiff_passes_single_use_witness :
  NoDup (snd (bailiff_run [EvRequest 5 [1;2;3]; EvPresent 6 1 [1;2;3]; EvPresent 7 1 [1;2;3]]
                (bailiff_init, @nil (list Z)))).*1.
Proof.
  refine (proj1 (bailiff_passes_single_use (D := list (list Z)) (H := log_driver) []
    [EvRequest 5 [1;2;3]; EvPresent 6 1 [1;2;3]; EvPresent 7 1 [1;2;3]] [(1, [1;2;3])] _ _ _));
  vm_compute; reflexivity.
Defined.
