(* ===== verification/Ring.v ===== *)
(** * Ring buffers

    The circular buffers of Inbox and Postbox, related to the queue they hold. *)

From S2P Require Import Prelude SlotTable.

Section Ring.
Context {A : Type} (N : nat) (HN : (0 < N)%nat).
Implicit Types (st : list A) (q : list A).

(** From position [r] on, [st] holds the queue [q], oldest element first. *)
Record ring_holds (st : list A) (r cnt : nat) (q : list A) : Prop := {
  rh_size : length st = N;
  rh_pos : (r < N)%nat;
  rh_cnt : length q = cnt;
  rh_fits : (cnt <= N)%nat;
  rh_at : forall k x, q !! k = Some x -> st !! ((r + k) mod N)%nat = Some x }.

Lemma ring_empty st r : length st = N -> (r < N)%nat -> ring_holds st r 0 [].
Proof. intros ??. split; [done..|apply Nat.le_0_l|]. intros k x Hx. done. Qed.

Lemma ring_mod_neq a b r : (a < b)%nat -> (b - a < N)%nat -> ((r + a) mod N <> (r + b) mod N)%nat.
Proof.
  intros Hab Hd E. pose proof (Nat.div_mod (r + a) N ltac:(lia)) as H1.
  pose proof (Nat.div_mod (r + b) N ltac:(lia)) as H2. rewrite E in H1.
  assert (N * ((r + b) / N - (r + a) / N) = b - a)%nat as H3 by nia.
  destruct ((r + b) / N - (r + a) / N)%nat; nia.
Qed.

(** Writing behind the newest element appends it. *)
Lemma ring_push st r cnt q x : ring_holds st r cnt q -> (cnt < N)%nat ->
  ring_holds (<[((r + cnt) mod N)%nat := x]> st) r (S cnt) (q ++ [x]).
Proof.
  intros [Hs Hr Hc Hf Hat] Hlt. split; [by rewrite length_insert|done|rewrite length_app; simpl; lia|lia|].
  intros k y Hk. destruct (decide (k < cnt)%nat) as [Hkc|Hkc].
  - rewrite lookup_app_l in Hk by lia. rewrite list_lookup_insert_ne; [by apply Hat|].
    apply not_eq_sym, ring_mod_neq; lia.
  - rewrite lookup_app_r in Hk by lia.
    destruct (k - length q)%nat as [|j] eqn:E; [|done]. injection Hk as ->.
    assert (k = cnt) as -> by lia. apply list_lookup_insert_eq. rewrite Hs. apply Nat.mod_upper_bound. lia.
Qed.

(** Reading at the position takes the oldest element. *)
Lemma ring_pop st r cnt x q : ring_holds st r (S cnt) (x :: q) ->
  st !! r = Some x /\ ring_holds st ((r + 1) mod N)%nat cnt q.
Proof.
  intros [Hs Hr Hc Hf Hat]. simpl in Hc. split.
  - specialize (Hat 0%nat x eq_refl). rewrite Nat.add_0_r, Nat.mod_small in Hat by lia. done.
  - split; [done|apply Nat.mod_upper_bound; lia|lia|lia|].
    intros k y Hk. specialize (Hat (S k) y Hk).
    replace (((r + 1) mod N + k) mod N)%nat with ((r + S k) mod N)%nat; [done|].
    rewrite Nat.Div0.add_mod_idemp_l. f_equal. lia.
Qed.

(** Writing before the oldest element puts it first. *)
Lemma ring_push_front st r cnt q x : ring_holds st r cnt q -> (cnt < N)%nat ->
  ring_holds (<[((r + N - 1) mod N)%nat := x]> st) ((r + N - 1) mod N)%nat (S cnt) (x :: q).
Proof.
  intros [Hs Hr Hc Hf Hat] Hlt. assert ((r + N - 1) mod N < N)%nat as Hm by (apply Nat.mod_upper_bound; lia).
  split; [by rewrite length_insert|done|simpl; lia|lia|].
  intros [|k] y Hk; simpl in Hk.
  - injection Hk as ->. rewrite Nat.add_0_r, (Nat.mod_small _ N Hm). apply list_lookup_insert_eq. lia.
  - assert (((r + N - 1) mod N + S k) mod N = (r + k) mod N)%nat as E.
    { rewrite Nat.Div0.add_mod_idemp_l. replace (r + N - 1 + S k)%nat with (r + k + 1 * N)%nat by lia. apply Nat.Div0.mod_add. }
    rewrite E. rewrite list_lookup_insert_ne; [by apply Hat|]. apply lookup_lt_Some in Hk.
    rewrite <- E. rewrite <- (Nat.mod_small _ N Hm) at 1. rewrite <- (Nat.add_0_r ((r + N - 1) mod N)) at 1.
    apply ring_mod_neq; lia.
Qed.

(** The loops of the code: push a list, pop [n] elements. *)
Fixpoint push_all (xs : list A) (st : list A) (w : nat) : list A * nat :=
  match xs with
  | [] => (st, w)
  | x :: xs' => push_all xs' (<[w := x]> st) ((w + 1) mod N)%nat
  end.

Fixpoint pop_n (n : nat) (st : list A) (r : nat) : option (list A * nat) :=
  match n with
  | O => Some ([], r)
  | S n' => x ← st !! r; '(xs, r') ← pop_n n' st ((r + 1) mod N)%nat; Some (x :: xs, r')
  end.

Lemma push_all_spec xs : forall st r cnt q, ring_holds st r cnt q -> (cnt + length xs <= N)%nat ->
  let '(st', w') := push_all xs st ((r + cnt) mod N)%nat in
  ring_holds st' r (cnt + length xs) (q ++ xs) /\ w' = ((r + (cnt + length xs)) mod N)%nat.
Proof.
  induction xs as [|x xs IH]; intros st r cnt q Hq Hle; simpl.
  - rewrite app_nil_r, Nat.add_0_r. done.
  - simpl in Hle. rewrite Nat.Div0.add_mod_idemp_l.
    replace (r + cnt + 1)%nat with (r + S cnt)%nat by lia.
    specialize (IH _ _ _ _ (ring_push _ _ _ _ x Hq ltac:(lia)) ltac:(lia)).
    destruct (push_all xs _ _) as [st' w']. rewrite <- app_assoc in IH. simpl in IH.
    replace (cnt + S (length xs))%nat with (S (cnt + length xs)) by lia. done.
Qed.

Lemma pop_n_spec n : forall st r cnt q, ring_holds st r cnt q -> (n <= cnt)%nat ->
  pop_n n st r = Some (take n q, ((r + n) mod N)%nat) /\
  ring_holds st ((r + n) mod N)%nat (cnt - n) (drop n q).
Proof.
  induction n as [|n IH]; intros st r cnt q Hq Hle; simpl.
  - rewrite Nat.add_0_r, Nat.mod_small, drop_0, Nat.sub_0_r by apply Hq. done.
  - destruct cnt as [|cnt]; [lia|]. destruct q as [|x q]; [by destruct Hq|].
    destruct (ring_pop _ _ _ _ _ Hq) as [Hx Hq']. rewrite Hx. simpl.
    destruct (IH _ _ _ _ Hq' ltac:(lia)) as [IH1 IH2]. rewrite IH1. simpl.
    assert ((((r + 1) mod N + n) mod N = (r + S n) mod N)%nat) as Hm.
    { rewrite Nat.Div0.add_mod_idemp_l. f_equal. lia. }
    rewrite Hm in *. done.
Qed.
End Ring.
