(* ===== verification/Rolodex.v ===== *)
(** * Rolodex, the ARP cache

    [Networking/IPv4/Rolodex/rolodex.c]: thirty-two address bindings with a
    dispute flag, the ARP request and reply packets, and the handler that
    learns from both. *)

From S2P Require Import Prelude SlotTable GuestList Bailiff.

Definition ROLODEX_CAPACITY : nat := 32.
Definition ARP_PACKET_SIZE : Z := 28.
Definition ARP_REQUEST : Z := 1.
Definition ARP_REPLY : Z := 2.
Definition ROLODEX_ENTRY_TIMEOUT_TICKS : Z := 6000.

Record rolodex_entry := mkRolo {
  ro_ip : ip4; ro_mac : list Z; ro_last_seen : Z; ro_in_use : bool; ro_disputed : bool }.
#[export] Instance rolo_slot : Slot rolodex_entry ip4 := {| used := ro_in_use; key := ro_ip |}.

Record rolodex := mkRolodex {
  rx_book : list rolodex_entry;
  rx_contradictions : Z;
  rx_our_ip : ip4; rx_have_our_ip : bool;
  rx_last_request_frame : list Z; rx_last_request_len : Z;
  rx_pending_reply : bool;
  rx_pending_requester_mac : list Z; rx_pending_requester_ip : ip4 }.

Definition rolodex_init : rolodex :=
  mkRolodex (replicate ROLODEX_CAPACITY (mkRolo [0;0;0;0] [0;0;0;0;0;0] 0 false false))
    0 [0;0;0;0] false (replicate 42 0) 0 false [0;0;0;0;0;0] [0;0;0;0].

Definition set_book (bk : list rolodex_entry) (contradictions : Z) (r : rolodex) : rolodex :=
  mkRolodex bk contradictions (rx_our_ip r) (rx_have_our_ip r) (rx_last_request_frame r)
    (rx_last_request_len r) (rx_pending_reply r) (rx_pending_requester_mac r) (rx_pending_requester_ip r).

Definition find_entry (ip : ip4) (r : rolodex) : option rolodex_entry := lookup_key ip (rx_book r).

(** One entry of [expire_stale_entries]. *)
Definition entry_stale (now : Z) (e : rolodex_entry) : bool :=
  ro_in_use e && (ROLODEX_ENTRY_TIMEOUT_TICKS <? (now -32 ro_last_seen e)).
Definition expire_entry (now : Z) (e : rolodex_entry) : rolodex_entry :=
  if entry_stale now e then mkRolo (ro_ip e) (ro_mac e) (ro_last_seen e) false false else e.
Definition expire_stale_entries (now : Z) (bk : list rolodex_entry) : list rolodex_entry :=
  expire_entry now <$> bk.

Definition rolodex_set_ip (ip : ip4) (r : rolodex) : rolodex :=
  mkRolodex (rx_book r) (rx_contradictions r) ip true (rx_last_request_frame r)
    (rx_last_request_len r) (rx_pending_reply r) (rx_pending_requester_mac r) (rx_pending_requester_ip r).

Definition learn_or_dispute (now : Z) (ip : ip4) (mac : list Z) (r : rolodex) : rolodex :=
  let bk := expire_stale_entries now (rx_book r) in
  match find_key ip bk with
  | Some i =>
      match bk !! i with
      | Some e =>
          if bool_decide (ro_mac e = mac)
          then set_book (<[i := mkRolo (ro_ip e) (ro_mac e) now (ro_in_use e) (ro_disputed e)]> bk)
                 (rx_contradictions r) r
          else set_book (<[i := mkRolo (ro_ip e) (ro_mac e) (ro_last_seen e) (ro_in_use e) true]> bk)
                 (rx_contradictions r +32 1) r
      | None => set_book bk (rx_contradictions r) r
      end
  | None =>
      match find_free bk with
      | None => set_book bk (rx_contradictions r) r
      | Some i => set_book (<[i := mkRolo ip mac now true false]> bk) (rx_contradictions r) r
      end
  end.

Definition rolodex_learn := learn_or_dispute.

Definition set_pending (mac : list Z) (ip : ip4) (r : rolodex) : rolodex :=
  mkRolodex (rx_book r) (rx_contradictions r) (rx_our_ip r) (rx_have_our_ip r) (rx_last_request_frame r)
    (rx_last_request_len r) true mac ip.

(** [None]: a read outside the payload. *)
Definition rolodex_handle (now : Z) (payload src_mac : list Z) (r : rolodex) : option rolodex :=
  if negb (zlen payload =? ARP_PACKET_SIZE) then Some r else
  b6 ← rd payload 6; b7 ← rd payload 7;
  let opcode := be16 b6 b7 in
  sender_mac ← slice payload 8 6;
  sender_ip ← slice payload 14 4;
  target_ip ← slice payload 24 4;
  if negb (bool_decide (sender_mac = src_mac)) then Some r else
  let r := learn_or_dispute now sender_ip sender_mac r in
  if (opcode =? ARP_REQUEST) && rx_have_our_ip r && bool_decide (target_ip = rx_our_ip r)
  then Some (set_pending sender_mac sender_ip r)
  else Some r.

(** The twenty-eight bytes both builders write. *)
Definition arp_packet (opcode : Z) (smac : list Z) (sip : ip4) (tmac : list Z) (tip : ip4) : list Z :=
  [0x00; 0x01; 0x08; 0x00; 6; 4; 0x00; opcode] ++ smac ++ sip ++ tmac ++ tip.

Definition rolodex_build_reply (our_mac : list Z) (r : rolodex) : option (list Z) * rolodex :=
  if negb (rx_pending_reply r) then (None, r)
  else (Some (arp_packet ARP_REPLY our_mac (rx_our_ip r) (rx_pending_requester_mac r) (rx_pending_requester_ip r)),
        mkRolodex (rx_book r) (rx_contradictions r) (rx_our_ip r) (rx_have_our_ip r) (rx_last_request_frame r)
          (rx_last_request_len r) false (rx_pending_requester_mac r) (rx_pending_requester_ip r)).

Definition rolodex_disputed (ip : ip4) (r : rolodex) : bool :=
  match find_entry ip r with None => false | Some e => ro_disputed e end.

Definition rolodex_lookup (ip : ip4) (r : rolodex) : option (list Z) := ro_mac <$> find_entry ip r.

(** The frame is also returned: in the source it stays in a static buffer. *)
Definition rolodex_dispatch_reply (now : Z) (our_mac : list Z) (r : rolodex) (b : bailiff)
    : option (Z * list Z) * rolodex * bailiff :=
  match rolodex_build_reply our_mac r with
  | (None, r) => (None, r, b)
  | (Some arp, r) =>
      let frame := take 6 (drop 18 arp) ++ our_mac ++ [0x08; 0x06] ++ arp in
      let '(id, b) := bailiff_request_pass now frame b in
      ((fun i => (i, frame)) <$> id, r, b)
  end.

Definition rolodex_count (r : rolodex) : Z := Z.of_nat (count_if ro_in_use (rx_book r)).
Definition rolodex_contradiction_count (r : rolodex) : Z := rx_contradictions r.

Definition rolodex_dispatch_request (now : Z) (target_ip : ip4) (our_mac : list Z)
    (r : rolodex) (b : bailiff) : option Z * rolodex * bailiff :=
  if negb (rx_have_our_ip r) then (None, r, b) else
  let arp := arp_packet ARP_REQUEST our_mac (rx_our_ip r) (replicate 6 0) target_ip in
  let frame := replicate 6 0xFF ++ our_mac ++ [0x08; 0x06] ++ arp in
  let r := mkRolodex (rx_book r) (rx_contradictions r) (rx_our_ip r) (rx_have_our_ip r)
             frame (zlen frame) (rx_pending_reply r) (rx_pending_requester_mac r) (rx_pending_requester_ip r) in
  let '(id, b) := bailiff_request_pass now (rx_last_request_frame r) b in
  (id, r, b).

Definition rolodex_get_ip (r : rolodex) : ip4 := rx_our_ip r.

#[global] Arguments learn_or_dispute : simpl never.
#[global] Arguments expire_stale_entries : simpl never.

(** ** The cache as a map from addresses to entries *)

Definition rolo_wf (bk : list rolodex_entry) : Prop := uniq bk /\ length bk = ROLODEX_CAPACITY.
Definition rolodex_wf (r : rolodex) : Prop := rolo_wf (rx_book r).

Lemma rolodex_wf_init : rolodex_wf rolodex_init.
Proof. split; [by apply uniq_replicate|done]. Qed.

Lemma expire_entry_keeps now e : used (expire_entry now e) = true ->
  used e = true /\ key (expire_entry now e) = key e.
Proof. unfold expire_entry. by case_match. Qed.

Lemma expire_wf now bk : rolo_wf bk -> rolo_wf (expire_stale_entries now bk).
Proof.
  intros [Hq Hl]. split; [apply uniq_fmap; [apply expire_entry_keeps|done]|].
  unfold expire_stale_entries. by rewrite length_fmap.
Qed.

(** The entry of [ip] that [now] still finds fresh. *)
Definition fresh (now : Z) (ip : ip4) (r : rolodex) : option rolodex_entry :=
  find_entry ip r ≫= fun e => if entry_stale now e then None else Some e.

Lemma fresh_expire now ip r : rolodex_wf r ->
  lookup_key ip (expire_stale_entries now (rx_book r)) = fresh now ip r.
Proof.
  intros [Hq _]. unfold fresh, find_entry, expire_stale_entries.
  rewrite lookup_key_fmap by (apply expire_entry_keeps || done).
  destruct (lookup_key ip (rx_book r)) as [e|] eqn:He; [|done]. simpl.
  apply lookup_key_sound in He as (Hu & _). simpl in Hu. unfold expire_entry.
  destruct (entry_stale now e); simpl; [done|]. by rewrite Hu.
Qed.

(** Whether a new address finds a slot once stale entries are gone. *)
Definition has_room (now : Z) (r : rolodex) : bool :=
  (count_if ro_in_use (expire_stale_entries now (rx_book r)) <? ROLODEX_CAPACITY)%nat.

(** What [learn_or_dispute] leaves for the address it is told about. *)
Definition learned (now : Z) (ip : ip4) (mac : list Z) (r : rolodex) : option rolodex_entry :=
  match fresh now ip r with
  | Some e => Some (if bool_decide (ro_mac e = mac)
                    then mkRolo ip mac now true (ro_disputed e)
                    else mkRolo ip (ro_mac e) (ro_last_seen e) true true)
  | None => if has_room now r then Some (mkRolo ip mac now true false) else None
  end.

Lemma learn_write ip bk i x e c r : rolo_wf bk -> bk !! i = Some x -> ro_in_use e = true -> ro_ip e = ip ->
  slot_for bk i ip -> (ro_in_use x = true -> ro_ip x = ip) ->
  rolodex_wf (set_book (<[i:=e]> bk) c r) /\
  forall ip', find_entry ip' (set_book (<[i:=e]> bk) c r) =
    if decide (ip' = ip) then Some e else lookup_key ip' bk.
Proof.
  intros [Hq Hl] Hi Hue Hke Hs Hx. split.
  - split; simpl; [|by rewrite length_insert]. apply uniq_insert; [done|]. simpl. by rewrite Hke.
  - intros ip'. unfold find_entry. simpl. rewrite (lookup_key_write _ _ x); [|done..|simpl; by rewrite Hke].
    simpl. rewrite Hke. goal_decide; naive_solver.
Qed.

Lemma learn_spec now ip mac r : rolodex_wf r ->
  rolodex_wf (learn_or_dispute now ip mac r) /\
  forall ip', find_entry ip' (learn_or_dispute now ip mac r) =
    if decide (ip' = ip) then learned now ip mac r else fresh now ip' r.
Proof.
  intros Hwf. pose proof (expire_wf now _ Hwf) as Hwf'.
  pose proof (fun k => fresh_expire now k r Hwf) as Hfr.
  unfold learned, has_room, learn_or_dispute. rewrite <- Hfr.
  destruct (find_key ip (expire_stale_entries now (rx_book r))) as [i|] eqn:Hk.
  - pose proof (find_key_sound _ _ _ Hk) as (e & He & Hu & Hke). simpl in Hu, Hke.
    assert (lookup_key ip (expire_stale_entries now (rx_book r)) = Some e) as ->.
    { unfold lookup_key. by rewrite Hk. }
    assert (slot_for (expire_stale_entries now (rx_book r)) i ip) as Hs
      by (apply slot_for_found; [apply Hwf'|done]).
    pose proof (fun e' c Hu' Hk' => learn_write ip _ i e e' c r Hwf' He Hu' Hk' Hs (fun _ => Hke)) as Hw.
    rewrite He, Hu, Hke. case_bool_decide as Hm.
    all: match goal with |- rolodex_wf (set_book (<[_:=?e']> _) ?c _) /\ _ =>
           destruct (Hw e' c eq_refl eq_refl) as [Hw1 Hf] end.
    all: split; [exact Hw1|]; intros ip'; rewrite Hf, ?Hm; goal_decide; done || apply Hfr.
  - assert (lookup_key ip (expire_stale_entries now (rx_book r)) = None) as ->.
    { unfold lookup_key. by rewrite Hk. }
    pose proof (find_free_room (expire_stale_entries now (rx_book r))) as Hroom.
    destruct Hwf' as [Hq Hl]. rewrite Hl in Hroom. change (@used _ _ rolo_slot) with ro_in_use in Hroom.
    destruct (find_free (expire_stale_entries now (rx_book r))) as [i|] eqn:Hfree.
    + assert (count_if ro_in_use (expire_stale_entries now (rx_book r)) < ROLODEX_CAPACITY)%nat as Hlt
        by (apply Hroom; eauto). apply Nat.ltb_lt in Hlt. rewrite Hlt.
      pose proof (find_free_sound _ _ Hfree) as (x & Hx & Hux). simpl in Hux.
      destruct (learn_write ip _ i x (mkRolo ip mac now true false) (rx_contradictions r) r
        (conj Hq Hl) Hx eq_refl eq_refl) as [Hw Hf]; [by apply slot_for_new|congruence|].
      split; [exact Hw|]. intros ip'. rewrite Hf. goal_decide; done || apply Hfr.
    + destruct (Nat.ltb_spec (count_if ro_in_use (expire_stale_entries now (rx_book r))) ROLODEX_CAPACITY) as [Hlt|].
      { apply Hroom in Hlt as [? ?]. done. }
      split; [done|]. intros ip'. unfold find_entry. simpl. goal_decide; [|apply Hfr].
      subst. unfold lookup_key. by rewrite Hk.
Qed.
#[export] Hint Resolve rolodex_wf_init : aevros.

(** ** A binding cannot be taken over *)

Fixpoint learn_all (claims : list (Z * ip4 * list Z)) (r : rolodex) : rolodex :=
  match claims with
  | [] => r
  | (now, ip, mac) :: rest => learn_all rest (rolodex_learn now ip mac r)
  end.

Definition contradicts (ip : ip4) (mac : list Z) (c : Z * ip4 * list Z) : bool :=
  bool_decide (c.1.2 = ip) && negb (bool_decide (c.2 = mac)).

(** Ticks that follow each other from [t0] on, inside the lifetime of an entry
    last seen at [seen]. *)
Fixpoint ticks_ok (seen t0 : Z) (claims : list (Z * ip4 * list Z)) : Prop :=
  match claims with
  | [] => True
  | (now, _, _) :: rest =>
      t0 <= now <= seen + ROLODEX_ENTRY_TIMEOUT_TICKS /\ is_u32 now /\ ticks_ok seen now rest
  end.

Lemma not_stale now e : is_u32 now -> 0 <= ro_last_seen e <= now ->
  now <= ro_last_seen e + ROLODEX_ENTRY_TIMEOUT_TICKS -> entry_stale now e = false.
Proof.
  intros Hn Hs Hle. unfold entry_stale. rewrite u32_small by (words; lia).
  destruct (Z.ltb_spec ROLODEX_ENTRY_TIMEOUT_TICKS (now - ro_last_seen e)); [lia|]. by rewrite andb_false_r.
Qed.

(** A binding is never replaced while it is alive.  Take an address the cache
    knows, and any sequence of claims (about any addresses, with any hardware
    addresses) at non-decreasing ticks within the entry's lifetime: afterwards
    the address still resolves to the same hardware address, and it is marked
    disputed exactly when it was already or when some claim contradicted it. *)
Lemma rolodex_binding_kept claims : forall r ip e t0,
  rolodex_wf r -> find_entry ip r = Some e ->
  0 <= ro_last_seen e <= t0 -> ticks_ok (ro_last_seen e) t0 claims ->
  rolodex_lookup ip (learn_all claims r) = Some (ro_mac e) /\
  rolodex_disputed ip (learn_all claims r) =
    ro_disputed e || existsb (contradicts ip (ro_mac e)) claims.
Proof.
  enough (forall r ip e seen t0, rolodex_wf r -> find_entry ip r = Some e ->
    0 <= seen <= ro_last_seen e -> ro_last_seen e <= t0 -> ticks_ok seen t0 claims ->
    rolodex_lookup ip (learn_all claims r) = Some (ro_mac e) /\
    rolodex_disputed ip (learn_all claims r) = ro_disputed e || existsb (contradicts ip (ro_mac e)) claims) as Hgen.
  { intros r ip e t0 Hwf He Hs Ht. eapply Hgen; [done|done| |exact (proj2 Hs)|done]. lia. }
  induction claims as [|[[now ip'] mac'] claims IH]; intros r ip e seen t0 Hwf He Hs Hle Ht; simpl.
  - unfold rolodex_lookup, rolodex_disputed. rewrite He. by rewrite orb_false_r.
  - unfold rolodex_learn. destruct Ht as (Hnow & Hu32 & Hrest).
    destruct (learn_spec now ip' mac' r Hwf) as [Hwf' Hspec]. specialize (Hspec ip).
    assert (ro_in_use e = true /\ ro_ip e = ip) as [Hu Hip].
    { unfold find_entry in He. apply lookup_key_sound in He as (? & ? & _). done. }
    assert (fresh now ip r = Some e) as Hfr.
    { unfold fresh. rewrite He. simpl. rewrite not_stale; [done..| |]; lia. }
    unfold contradicts at 1. simpl.
    destruct (decide (ip = ip')) as [<-|Hne].
    + rewrite (bool_decide_true (ip = ip)) by done. unfold learned in Hspec. rewrite Hfr in Hspec.
      case_bool_decide as Hm; simpl.
      * subst mac'. rewrite bool_decide_true by done. simpl.
        edestruct (IH _ ip _ seen now Hwf' Hspec) as [H1 H2]; simpl; [lia|lia|done|]. by split.
      * rewrite bool_decide_false by done. simpl.
        edestruct (IH _ ip _ seen now Hwf' Hspec) as [H1 H2]; simpl; [lia|lia|done|]. simpl in *.
        split; [done|]. rewrite H2. by rewrite orb_true_r.
    + rewrite bool_decide_false by done. simpl. rewrite Hfr in Hspec.
      apply (IH _ ip _ seen now Hwf' Hspec); [lia|lia|done].
Qed.

Lemma rolodex_binding_kept_witness :
  rolodex_lookup [10;0;2;2] (learn_all [(7, [10;0;2;2], [6;6;6;6;6;6]); (9, [10;0;2;3], [7;7;7;7;7;7])]
    (rolodex_learn 5 [10;0;2;2] [1;2;3;4;5;6] rolodex_init)) = Some [1;2;3;4;5;6].
Proof.
  refine (proj1 (rolodex_binding_kept [(7, [10;0;2;2], [6;6;6;6;6;6]); (9, [10;0;2;3], [7;7;7;7;7;7])]
    (rolodex_learn 5 [10;0;2;2] [1;2;3;4;5;6] rolodex_init) [10;0;2;2]
    (mkRolo [10;0;2;2] [1;2;3;4;5;6] 5 true false) 6 _ _ _ _)).
  - apply learn_spec, rolodex_wf_init.
  - reflexivity.
  - simpl. lia.
  - simpl. unfold ROLODEX_ENTRY_TIMEOUT_TICKS, is_u32. lia.
Defined.

(** ** Resolution between two hosts *)

Lemma list_len_4 {A} (l : list A) : length l = 4%nat -> exists a b c d, l = [a;b;c;d].
Proof. destruct l as [|a [|b [|c [|d [|]]]]]; intros [=]. eauto. Qed.
Lemma list_len_6 {A} (l : list A) : length l = 6%nat -> exists a b c d e f, l = [a;b;c;d;e;f].
Proof. destruct l as [|a [|b [|c [|d [|e [|f [|]]]]]]]; intros [=]. eauto 10. Qed.

(** The handler on any packet of the builders. *)
Lemma handle_arp_packet now op smac sip tmac tip r :
  is_u8 op -> length smac = 6%nat -> length sip = 4%nat -> length tmac = 6%nat -> length tip = 4%nat ->
  rolodex_handle now (arp_packet op smac sip tmac tip) smac r =
    let r' := learn_or_dispute now sip smac r in
    Some (if (op =? ARP_REQUEST) && rx_have_our_ip r && bool_decide (tip = rx_our_ip r)
          then set_pending smac sip r' else r').
Proof.
  intros Hop (a1&a2&a3&a4&a5&a6&->)%list_len_6 (b1&b2&b3&b4&->)%list_len_4
    (c1&c2&c3&c4&c5&c6&->)%list_len_6 (d1&d2&d3&d4&->)%list_len_4.
  unfold rolodex_handle, arp_packet.
  change (zlen (_ ++ _) =? ARP_PACKET_SIZE) with true. cbn [negb app]. reads.
  rewrite (bool_decide_true ([a1;a2;a3;a4;a5;a6] = _)) by done. rewrite be16_add by (words; lia). simpl negb. cbv iota.
  assert (forall m i, rx_have_our_ip (learn_or_dispute now i m r) = rx_have_our_ip r /\
                      rx_our_ip (learn_or_dispute now i m r) = rx_our_ip r) as Hkeep.
  { intros m i. unfold learn_or_dispute. by repeat case_match. }
  destruct (Hkeep [a1;a2;a3;a4;a5;a6] [b1;b2;b3;b4]) as [-> ->]. replace (0 * 256 + op) with op by lia.
  by case_match.
Qed.

(** ARP resolution works end to end.  Host A, which knows its own address,
    asks for B's; B, which knows its own, handles the request and builds its
    reply; A handles the reply.  If neither side already had a live entry for
    the other and both have a free slot, then B resolves A's address to A's
    hardware address and A resolves B's to B's, without a dispute, and the
    reply is addressed to A. *)
Lemma arp_resolution now ip_a mac_a ip_b mac_b (ra rb : rolodex) (ba : bailiff) :
  length ip_a = 4%nat -> length mac_a = 6%nat -> length ip_b = 4%nat -> length mac_b = 6%nat ->
  rolodex_wf ra -> rolodex_wf rb ->
  rx_have_our_ip ra = true -> rx_our_ip ra = ip_a -> rx_have_our_ip rb = true -> rx_our_ip rb = ip_b ->
  fresh now ip_b ra = None -> has_room now ra = true ->
  fresh now ip_a rb = None -> has_room now rb = true ->
  let ra1 := (rolodex_dispatch_request now ip_b mac_a ra ba).1.2 in
  let request := drop 14 (rx_last_request_frame ra1) in
  exists rb1 reply rb2 ra2,
    rolodex_handle now request mac_a rb = Some rb1 /\
    rolodex_build_reply mac_b rb1 = (Some reply, rb2) /\
    rolodex_handle now reply mac_b ra1 = Some ra2 /\
    rolodex_lookup ip_a rb2 = Some mac_a /\ rolodex_lookup ip_b ra2 = Some mac_b /\
    rolodex_disputed ip_a rb2 = false /\ rolodex_disputed ip_b ra2 = false /\
    rx_pending_reply rb2 = false /\ slice reply 18 10 = Some (mac_a ++ ip_a).
Proof.
  intros Hia Hma Hib Hmb Hwa Hwb Hha Hoa Hhb Hob Hfa Hra Hfb Hrb ra1 request.
  assert (request = arp_packet ARP_REQUEST mac_a ip_a (replicate 6 0) ip_b /\
    rx_book ra1 = rx_book ra /\ rx_have_our_ip ra1 = true /\ rx_our_ip ra1 = ip_a) as (-> & Hbk & Hh1 & Ho1).
  { subst request ra1. unfold rolodex_dispatch_request. rewrite Hha, Hoa. simpl negb. cbv iota.
    destruct (bailiff_request_pass _ _ _) as [id b]. simpl. rewrite ?Hoa, ?Hha.
    split; [|done]. apply list_len_6 in Hma as (?&?&?&?&?&?&->). done. }
  assert (rolodex_wf ra1 /\ fresh now ip_b ra1 = None /\ has_room now ra1 = true) as (Hw1 & Hf1 & Hr1).
  { unfold rolodex_wf, fresh, has_room, find_entry in *. by rewrite Hbk. }
  rewrite handle_arp_packet by (done || (words; unfold ARP_REQUEST; lia)).
  rewrite Hhb, Hob. rewrite bool_decide_true by done. cbn [ARP_REQUEST Z.eqb Pos.eqb andb].
  destruct (learn_spec now ip_a mac_a rb Hwb) as [_ Hlb]. specialize (Hlb ip_a).
  unfold learned in Hlb. rewrite decide_True, Hfb, Hrb in Hlb by done.
  destruct (learn_spec now ip_b mac_b ra1 Hw1) as [_ Hla]. specialize (Hla ip_b).
  unfold learned in Hla. rewrite decide_True, Hf1, Hr1 in Hla by done.
  assert (rx_our_ip (learn_or_dispute now ip_a mac_a rb) = ip_b) as Hkeep.
  { unfold learn_or_dispute. by repeat case_match. }
  do 4 eexists. split; [reflexivity|]. split; [unfold rolodex_build_reply; simpl; rewrite Hkeep; reflexivity|].
  split; [rewrite handle_arp_packet by (done || (words; unfold ARP_REPLY; lia)); reflexivity|].
  simpl. unfold rolodex_lookup, rolodex_disputed, find_entry in *. simpl in *. rewrite Hla, Hlb.
  repeat (split; [done|]).
  apply list_len_6 in Hma as (?&?&?&?&?&?&->), Hmb as (?&?&?&?&?&?&->).
  apply list_len_4 in Hia as (?&?&?&?&->), Hib as (?&?&?&?&->). done.
Qed.

Lemma arp_resolution_witness :
  let ra := rolodex_set_ip [10;0;2;15] rolodex_init in
  let rb := rolodex_set_ip [10;0;2;2] rolodex_init in
  let ra1 := (rolodex_dispatch_request 3 [10;0;2;2] [1;1;1;1;1;1] ra bailiff_init).1.2 in
  exists rb1, rolodex_handle 3 (drop 14 (rx_last_request_frame ra1)) [1;1;1;1;1;1] rb = Some rb1.
Proof.
  edestruct (arp_resolution 3 [10;0;2;15] [1;1;1;1;1;1] [10;0;2;2] [2;2;2;2;2;2]
    (rolodex_set_ip [10;0;2;15] rolodex_init) (rolodex_set_ip [10;0;2;2] rolodex_init) bailiff_init)
    as (rb1 & _ & _ & _ & H & _);
    [reflexivity|reflexivity|reflexivity|reflexivity|exact rolodex_wf_init|exact rolodex_wf_init
    |reflexivity|reflexivity|reflexivity|reflexivity|vm_compute; reflexivity|vm_compute; reflexivity
    |vm_compute; reflexivity|vm_compute; reflexivity|].
  exists rb1. exact H.
Defined.

(** Nothing a malformed or spoofed ARP packet does: a packet of the wrong
    length, or one whose sender field is not the frame's source, changes
    nothing; and the handler never reads outside its payload. *)
Lemma rolodex_handle_safe now payload src_mac r :
  is_Some (rolodex_handle now payload src_mac r) /\
  (zlen payload <> 28 \/ slice payload 8 6 <> Some src_mac ->
   rolodex_handle now payload src_mac r = Some r).
Proof.
  unfold rolodex_handle, ARP_PACKET_SIZE.
  destruct (Z.eqb_spec (zlen payload) 28) as [Hl|Hl]; simpl; [|eauto].
  assert (length payload = 28)%nat as Hn by (unfold zlen in Hl; lia).
  destruct (rd_in_range payload 6) as [x6 ->]; [lia|]. destruct (rd_in_range payload 7) as [x7 ->]; [lia|].
  rewrite !slice_in_range by lia. simpl. case_bool_decide as Hm; simpl.
  - split; [case_match; eauto|]. intros [?|Hs]; [done|]. by rewrite Hm in Hs.
  - eauto.
Qed.
