(* ===== verification/Foyer.v ===== *)
(** * Foyer, frames waiting for an address

    [Networking/Foyer/foyer.c]: sixteen frames held until ARP resolves their
    next hop, retried every 100 ticks and dropped after five retries.  The
    [link] record is the outgoing half of the stack: transmitter, Bailiff,
    Rolodex and Foyer. *)

From S2P Require Import Prelude SlotTable GuestList Bailiff Rolodex.

Definition FOYER_CAPACITY : nat := 16.
Definition FOYER_MAX_FRAME : Z := BAILIFF_MAX_FRAME.
Definition FOYER_MAX_RETRIES : Z := 5.
Definition FOYER_RETRY_INTERVAL_TICK : Z := 100.

Record foyer_entry := mkFoyerE {
  fe_target_ip : ip4; fe_frame : list Z; fe_len : Z; fe_in_use : bool;
  fe_last_attempt : Z; fe_retry_count : Z }.
#[export] Instance foyer_slot : Slot foyer_entry ip4 := {| used := fe_in_use; key := fe_target_ip |}.

Record foyer := mkFoyer { fo_slots : list foyer_entry; fo_flushed_total : Z; fo_dropped_total : Z }.

Definition foyer_init : foyer :=
  mkFoyer (replicate FOYER_CAPACITY (mkFoyerE [0;0;0;0] (replicate 1600 0) 0 false 0 0)) 0 0.

Record link (D : Type) := mkLink {
  lk_driver : D; lk_bailiff : bailiff; lk_rolodex : rolodex; lk_foyer : foyer }.
Arguments mkLink {D} _ _ _ _.
Arguments lk_driver {D} _.
Arguments lk_bailiff {D} _.
Arguments lk_rolodex {D} _.
Arguments lk_foyer {D} _.

Definition set_foyer {D} (f : foyer) (l : link D) : link D :=
  mkLink (lk_driver l) (lk_bailiff l) (lk_rolodex l) f.
Definition set_rolodex {D} (r : rolodex) (l : link D) : link D :=
  mkLink (lk_driver l) (lk_bailiff l) r (lk_foyer l).

(** Everything of a link but the waiting frames. *)
Definition outside {D} (l : link D) : D * bailiff * rolodex := (lk_driver l, lk_bailiff l, lk_rolodex l).

Definition foyer_put (i : nat) (e : foyer_entry) (f : foyer) : foyer :=
  mkFoyer (<[i := e]> (fo_slots f)) (fo_flushed_total f) (fo_dropped_total f).
Definition foyer_flush (f : foyer) : foyer :=
  mkFoyer (fo_slots f) (fo_flushed_total f +32 1) (fo_dropped_total f).
Definition foyer_drop (f : foyer) : foyer :=
  mkFoyer (fo_slots f) (fo_flushed_total f) (fo_dropped_total f +32 1).
Definition foyer_release (e : foyer_entry) : foyer_entry :=
  mkFoyerE (fe_target_ip e) (fe_frame e) (fe_len e) false (fe_last_attempt e) (fe_retry_count e).

Section Ops.
Context `{TxDriver D}.

(** [bailiff_request_pass(..., &id) && bailiff_present_pass(id, ...)], the
    pattern every sender uses. *)
Definition send_with_pass (now : Z) (frame : list Z) (l : link D) : bool * link D :=
  let '(id, b) := bailiff_request_pass now frame (lk_bailiff l) in
  match id with
  | None => (false, mkLink (lk_driver l) b (lk_rolodex l) (lk_foyer l))
  | Some id =>
      let '(ok, (b, d)) := bailiff_present_pass now id frame (b, lk_driver l) in
      (ok, mkLink d b (lk_rolodex l) (lk_foyer l))
  end.

Definition send_arp_request (now : Z) (our_mac : list Z) (target_ip : ip4) (l : link D) : link D :=
  let '(id, r, b) := rolodex_dispatch_request now target_ip our_mac (lk_rolodex l) (lk_bailiff l) in
  match id with
  | None => mkLink (lk_driver l) b r (lk_foyer l)
  | Some id =>
      let '(_, (b, d)) := bailiff_present_pass now id (rx_last_request_frame r) (b, lk_driver l) in
      mkLink d b r (lk_foyer l)
  end.

Definition foyer_queue (now : Z) (target_ip : ip4) (our_mac frame : list Z) (l : link D) : bool * link D :=
  if (zlen frame =? 0) || (FOYER_MAX_FRAME <? zlen frame) then (false, l) else
  let mac := rolodex_lookup target_ip (lk_rolodex l) in
  let f := lk_foyer l in
  let requested_already := find_key target_ip (fo_slots f) in
  match find_free (fo_slots f) with
  | None => (false, set_foyer (foyer_drop f) l)
  | Some i =>
      match fo_slots f !! i with
      | None => (false, l)
      | Some old =>
          let e := mkFoyerE target_ip (blit (fe_frame old) frame) (zlen frame) (fe_in_use old) now 0 in
          match mac with
          | Some mac =>
              let e := mkFoyerE (fe_target_ip e) (blit (fe_frame e) mac) (fe_len e) (fe_in_use e)
                         (fe_last_attempt e) (fe_retry_count e) in
              let l := set_foyer (foyer_put i e f) l in
              let '(ok, l) := send_with_pass now (take (Z.to_nat (fe_len e)) (fe_frame e)) l in
              (true, if ok : bool then set_foyer (foyer_flush (lk_foyer l)) l else l)
          | None =>
              let e := mkFoyerE (fe_target_ip e) (fe_frame e) (fe_len e) true
                         (fe_last_attempt e) (fe_retry_count e) in
              let l := set_foyer (foyer_put i e f) l in
              (true, match requested_already with
                     | Some _ => l
                     | None => send_arp_request now our_mac target_ip l
                     end)
          end
      end
  end.

(** The body of the loop of [foyer_tick] for slot [i]. *)
Definition foyer_tick_slot (now : Z) (our_mac : list Z) (i : nat) (l : link D) : link D :=
  match fo_slots (lk_foyer l) !! i with
  | None => l
  | Some e =>
      if negb (fe_in_use e) then l else
      match rolodex_lookup (fe_target_ip e) (lk_rolodex l) with
      | Some mac =>
          let e := mkFoyerE (fe_target_ip e) (blit (fe_frame e) mac) (fe_len e) (fe_in_use e)
                     (fe_last_attempt e) (fe_retry_count e) in
          let '(ok, l) := send_with_pass now (take (Z.to_nat (fe_len e)) (fe_frame e)) l in
          let f := if ok : bool then foyer_flush (lk_foyer l) else lk_foyer l in
          set_foyer (foyer_put i (foyer_release e) f) l
      | None =>
          if (now -32 fe_last_attempt e) <? FOYER_RETRY_INTERVAL_TICK then l
          else if FOYER_MAX_RETRIES <=? fe_retry_count e then
            set_foyer (foyer_put i (foyer_release e) (foyer_drop (lk_foyer l))) l
          else
            let l := send_arp_request now our_mac (fe_target_ip e) l in
            let e := mkFoyerE (fe_target_ip e) (fe_frame e) (fe_len e) (fe_in_use e)
                       now (fe_retry_count e +32 1) in
            set_foyer (foyer_put i e (lk_foyer l)) l
      end
  end.

Definition foyer_tick (now : Z) (our_mac : list Z) (l : link D) : link D :=
  fold_left (fun l i => foyer_tick_slot now our_mac i l) (seq 0 FOYER_CAPACITY) l.
End Ops.

Definition foyer_flushed_count (f : foyer) : Z := fo_flushed_total f.
Definition foyer_dropped_count (f : foyer) : Z := fo_dropped_total f.

#[global] Arguments foyer_tick_slot : simpl never.
#[global] Arguments foyer_tick : simpl never.
#[global] Arguments send_with_pass : simpl never.
#[global] Arguments send_arp_request : simpl never.

(** ** Facts shared by the operations *)

Section Facts.
Context `{TxDriver D}.
Implicit Types (l : link D).

Lemma send_with_pass_foyer now frame l : lk_foyer (snd (send_with_pass now frame l)) = lk_foyer l /\
  lk_rolodex (snd (send_with_pass now frame l)) = lk_rolodex l.
Proof.
  unfold send_with_pass. destruct (bailiff_request_pass _ _ _) as [[id|] b]; simpl; [|done].
  destruct (bailiff_present_pass _ _ _ _) as [ok [b' d]]. done.
Qed.

Lemma send_arp_request_foyer now our_mac ip l : lk_foyer (send_arp_request now our_mac ip l) = lk_foyer l /\
  rx_book (lk_rolodex (send_arp_request now our_mac ip l)) = rx_book (lk_rolodex l).
Proof.
  unfold send_arp_request, rolodex_dispatch_request. destruct (rx_have_our_ip _); simpl; [|done].
  destruct (bailiff_request_pass _ _ _) as [[id|] b]; simpl; [|done].
  destruct (bailiff_present_pass _ _ _ _) as [ok [b' d]]. done.
Qed.

(** What one tick does to one entry, given the cache. *)
Definition entry_after (now : Z) (r : rolodex) (e : foyer_entry) : foyer_entry :=
  if negb (fe_in_use e) then e else
  match rolodex_lookup (fe_target_ip e) r with
  | Some mac => foyer_release (mkFoyerE (fe_target_ip e) (blit (fe_frame e) mac) (fe_len e) (fe_in_use e)
                                 (fe_last_attempt e) (fe_retry_count e))
  | None =>
      if (now -32 fe_last_attempt e) <? FOYER_RETRY_INTERVAL_TICK then e
      else if FOYER_MAX_RETRIES <=? fe_retry_count e then foyer_release e
      else mkFoyerE (fe_target_ip e) (fe_frame e) (fe_len e) (fe_in_use e) now (fe_retry_count e +32 1)
  end.

Lemma rolodex_lookup_book ip r r' : rx_book r = rx_book r' -> rolodex_lookup ip r = rolodex_lookup ip r'.
Proof. unfold rolodex_lookup, find_entry. by intros ->. Qed.

Lemma foyer_tick_slot_spec now our_mac i l :
  fo_slots (lk_foyer (foyer_tick_slot now our_mac i l)) =
    alter (entry_after now (lk_rolodex l)) i (fo_slots (lk_foyer l)) /\
  rx_book (lk_rolodex (foyer_tick_slot now our_mac i l)) = rx_book (lk_rolodex l).
Proof.
  unfold foyer_tick_slot. destruct (fo_slots (lk_foyer l) !! i) as [e|] eqn:He; [|by rewrite alter_out].
  rewrite (alter_insert _ _ _ _ He). unfold entry_after.
  destruct (fe_in_use e) eqn:Hu; simpl; [|by rewrite list_insert_id].
  destruct (rolodex_lookup (fe_target_ip e) (lk_rolodex l)) as [mac|].
  - match goal with |- context [send_with_pass now ?f l] =>
      pose proof (send_with_pass_foyer now f l) as [Hf Hr];
      destruct (send_with_pass now f l) as [ok l'] end. simpl in *.
    rewrite Hr. split; [|done]. destruct ok; simpl; by rewrite Hf.
  - destruct (_ <? _); [by rewrite list_insert_id|]. destruct (_ <=? _); [done|].
    destruct (send_arp_request_foyer now our_mac (fe_target_ip e) l) as [Hf Hr]. simpl.
    by rewrite Hf, Hr.
Qed.

(** After the loop has visited the slots [0 .. n-1]. *)
Lemma foyer_tick_prefix now our_mac l n : (n <= length (fo_slots (lk_foyer l)))%nat ->
  let l' := fold_left (fun l i => foyer_tick_slot now our_mac i l) (seq 0 n) l in
  fo_slots (lk_foyer l') =
    (entry_after now (lk_rolodex l) <$> take n (fo_slots (lk_foyer l))) ++ drop n (fo_slots (lk_foyer l)) /\
  rx_book (lk_rolodex l') = rx_book (lk_rolodex l).
Proof.
  induction n as [|n IH]; intros Hn; [simpl; by rewrite drop_0|].
  destruct IH as [IHs IHb]; [lia|]. cbv zeta in *.
  rewrite seq_S, fold_left_app. cbn [fold_left Nat.add].
  destruct (foyer_tick_slot_spec now our_mac n
    (fold_left (fun l i => foyer_tick_slot now our_mac i l) (seq 0 n) l)) as [-> ->].
  split; [|done]. destruct (lookup_lt_is_Some_2 (fo_slots (lk_foyer l)) n ltac:(lia)) as [e He].
  rewrite IHs. erewrite alter_insert.
  2:{ rewrite lookup_app_r; rewrite length_fmap, length_take, Nat.min_l by lia; [|lia].
      rewrite Nat.sub_diag, lookup_drop, Nat.add_0_r. exact He. }
  rewrite insert_app_r_alt; rewrite length_fmap, length_take, Nat.min_l by lia; [|lia].
  rewrite Nat.sub_diag, (drop_S _ _ _ He), (take_S_r _ _ _ He), fmap_app. simpl.
  rewrite <- app_assoc. simpl. do 2 f_equal.
  unfold entry_after. by rewrite (rolodex_lookup_book _ _ _ IHb).
Qed.

Lemma foyer_tick_slots now our_mac l : length (fo_slots (lk_foyer l)) = FOYER_CAPACITY ->
  fo_slots (lk_foyer (foyer_tick now our_mac l)) = entry_after now (lk_rolodex l) <$> fo_slots (lk_foyer l).
Proof.
  intros Hl. destruct (foyer_tick_prefix now our_mac l FOYER_CAPACITY) as [Hs _]; [by rewrite Hl|].
  unfold foyer_tick. rewrite Hs, take_ge, drop_ge by (rewrite Hl; done). by rewrite app_nil_r.
Qed.
End Facts.

(** ** No frame waits for ever *)

Section Drain.
Context `{TxDriver D}.

(** A run of ticks; between two of them the rest of the stack (transmitter,
    Bailiff, ARP cache) may change in any way. *)
Fixpoint run_ticks (tick : Z -> link D -> link D) (ticks : list (Z * (D * bailiff * rolodex))) (l : link D)
    : link D :=
  match ticks with
  | [] => l
  | (now, (d, b, r)) :: rest => run_ticks tick rest (tick now (mkLink d b r (lk_foyer l)))
  end.
Definition foyer_run (our_mac : list Z) := run_ticks (fun now => foyer_tick now our_mac).

Fixpoint spaced (t0 : Z) (ticks : list (Z * (D * bailiff * rolodex))) : Prop :=
  match ticks with
  | [] => True
  | (now, _) :: rest => t0 + FOYER_RETRY_INTERVAL_TICK <= now /\ is_u32 now /\ spaced now rest
  end.

(** An entry last tried by [t0], with at least [k] retries behind it. *)
Definition tried (t0 k : Z) (e : foyer_entry) : Prop :=
  fe_in_use e = true -> 0 <= fe_last_attempt e <= t0 /\ k <= fe_retry_count e <= FOYER_MAX_RETRIES.

Lemma entry_after_tried now r t0 k e : 0 <= k -> t0 + FOYER_RETRY_INTERVAL_TICK <= now -> is_u32 now ->
  tried t0 k e -> tried now (k + 1) (entry_after now r e).
Proof.
  unfold entry_after, tried. intros Hk Ht Hn He. destruct (fe_in_use e) eqn:Hu; simpl; [|by rewrite Hu].
  specialize (He eq_refl) as [Ha Hr]. destruct (rolodex_lookup _ _); simpl; [done|].
  unfold FOYER_RETRY_INTERVAL_TICK, FOYER_MAX_RETRIES in *.
  rewrite (u32_small (now - _)) by (words; lia).
  destruct (Z.ltb_spec (now - fe_last_attempt e) 100); [lia|].
  destruct (Z.leb_spec 5 (fe_retry_count e)); simpl; [done|]. intros _.
  rewrite u32_small by (words; lia). words; lia.
Qed.

Lemma run_ticks_tried tick ticks :
  (forall now l, length (fo_slots (lk_foyer l)) = FOYER_CAPACITY ->
    fo_slots (lk_foyer (tick now l)) = entry_after now (lk_rolodex l) <$> fo_slots (lk_foyer l)) ->
  forall l t0 k, 0 <= k -> spaced t0 ticks ->
  length (fo_slots (lk_foyer l)) = FOYER_CAPACITY -> Forall (tried t0 k) (fo_slots (lk_foyer l)) ->
  exists t1, Forall (tried t1 (k + zlen ticks)) (fo_slots (lk_foyer (run_ticks tick ticks l))).
Proof.
  intros Htick. induction ticks as [|[now [[d b] r]] ticks IH]; intros l t0 k Hk Hsp Hl He; simpl.
  - exists t0. by replace (k + zlen []) with k by (unfold zlen; simpl; lia).
  - destruct Hsp as (Ht & Hn & Hsp).
    pose proof (Htick now (mkLink d b r (lk_foyer l)) Hl) as Hs. simpl in Hs.
    destruct (IH (tick now (mkLink d b r (lk_foyer l))) now (k + 1)) as [t1 Ht1]; [lia|done| | |].
    + by rewrite Hs, length_fmap.
    + rewrite Hs. apply Forall_fmap. eapply Forall_impl; [|exact He]. intros e. by apply entry_after_tried.
    + exists t1. replace (k + zlen ((now, (d, b, r)) :: ticks)) with (k + 1 + zlen ticks)
        by (unfold zlen; simpl; lia). done.
Qed.
End Drain.

(** No frame waits in the Foyer for ever.  Whatever frames are held (each
    tried at most five times, as every reachable entry is) and whatever happens
    to the transmitter, the Bailiff and the ARP cache in between, after six
    ticks at least 100 apart every slot has been released or dropped. *)
Lemma foyer_drains `{TxDriver D} our_mac ticks (l : link D) t0 :
  length (fo_slots (lk_foyer l)) = FOYER_CAPACITY ->
  Forall (tried t0 0) (fo_slots (lk_foyer l)) ->
  spaced t0 ticks -> (6 <= length ticks)%nat ->
  count_if fe_in_use (fo_slots (lk_foyer (foyer_run our_mac ticks l))) = 0%nat.
Proof.
  intros Hl He Hsp H6. destruct (run_ticks_tried (fun now => foyer_tick now our_mac) ticks
    (fun now => foyer_tick_slots now our_mac) l t0 0) as [t1 Ht1]; [lia|done..|]. unfold foyer_run.
  apply count_if_0. intros e Hin. apply list_elem_of_lookup in Hin as [i Hi].
  apply (Forall_lookup_1 _ _ _ _ Ht1) in Hi as Ht.
  destruct (fe_in_use e) eqn:Hu; [|done]. destruct (Ht Hu) as [_ Hr].
  unfold zlen, FOYER_MAX_RETRIES in Hr. lia.
Qed.

Lemma foyer_drains_witness :
  let r0 := rolodex_set_ip [10;0;2;15] rolodex_init in
  let l0 := mkLink (@nil (list Z)) bailiff_init r0 foyer_init in
  let l1 := snd (foyer_queue 50 [10;0;2;2] [1;1;1;1;1;1] [0;0;0;0;0;0;9;9] l0) in
  count_if fe_in_use (fo_slots (lk_foyer l1)) = 1%nat /\
  count_if fe_in_use (fo_slots (lk_foyer (foyer_run [1;1;1;1;1;1]
    ((fun t => (t, ([], bailiff_init, r0))) <$> [150;250;350;450;550;650]) l1))) = 0%nat.
Proof.
  cbv zeta. split; [vm_compute; reflexivity|].
  apply (foyer_drains [1;1;1;1;1;1]
    ((fun t => (t, ([], bailiff_init, rolodex_set_ip [10;0;2;15] rolodex_init))) <$> [150;250;350;450;550;650])
    (snd (foyer_queue 50 [10;0;2;2] [1;1;1;1;1;1] [0;0;0;0;0;0;9;9]
       (mkLink (@nil (list Z)) bailiff_init (rolodex_set_ip [10;0;2;15] rolodex_init) foyer_init))) 50).
  - vm_compute. reflexivity.
  - match goal with |- Forall _ ?l => let v := eval vm_compute in l in change l with v end.
    repeat (apply Forall_cons_2; [unfold tried, FOYER_MAX_RETRIES; simpl; first [done|lia]|]).
    apply Forall_nil_2.
  - simpl. unfold FOYER_RETRY_INTERVAL_TICK, is_u32. lia.
  - simpl. lia.
Defined.

(** ** What reaches the wire *)


Section Wire.
Implicit Types (l : link (list (list Z))).
Local Existing Instance log_driver.

(** Seen with a transmitter that records: a send adds its frame or nothing. *)
Definition sent_only (ok : list Z -> Prop) (l l' : link (list (list Z))) : Prop :=
  forall f, f ∈ lk_driver l' -> f ∈ lk_driver l \/ ok f.

Lemma present_sends now id frame b d : let '(_, (_, d')) := bailiff_present_pass now id frame (b, d) in
  d' = d \/ d' = d ++ [frame].
Proof. unfold bailiff_present_pass, frontdesk_send, log_driver. repeat case_match; simplify_eq; auto. Qed.

Lemma send_with_pass_sends now frame l : sent_only (eq frame) l (snd (send_with_pass now frame l)).
Proof.
  unfold send_with_pass, sent_only. destruct (bailiff_request_pass _ _ _) as [[id|] b]; simpl; [|auto].
  pose proof (present_sends now id frame b (lk_driver l)) as Hp.
  destruct (bailiff_present_pass _ _ _ _) as [ok [b' d]]. simpl. intros f Hf.
  destruct Hp as [->| ->]; [auto|]. apply elem_of_app in Hf as [|Hf%list_elem_of_singleton]; auto.
Qed.

(** The broadcast frame of [rolodex_dispatch_request]. *)
Definition arp_request_frame (our_mac : list Z) (our_ip target_ip : ip4) : list Z :=
  replicate 6 0xFF ++ our_mac ++ [0x08; 0x06] ++ arp_packet ARP_REQUEST our_mac our_ip (replicate 6 0) target_ip.

Lemma send_arp_request_sends now our_mac ip l :
  sent_only (eq (arp_request_frame our_mac (rx_our_ip (lk_rolodex l)) ip)) l (send_arp_request now our_mac ip l).
Proof.
  unfold send_arp_request, rolodex_dispatch_request, sent_only.
  destruct (rx_have_our_ip _); simpl; [|auto].
  destruct (bailiff_request_pass _ _ _) as [[id|] b]; simpl; [|auto].
  match goal with |- context [bailiff_present_pass now id ?f (b, ?d)] =>
    pose proof (present_sends now id f b d) as Hp;
    destruct (bailiff_present_pass now id f (b, d)) as [ok [b' d']] end. simpl. intros f Hf.
  destruct Hp as [->| ->]; [auto|]. apply elem_of_app in Hf as [|Hf%list_elem_of_singleton]; auto.
Qed.

(** What a tick may put on the wire for one held entry. *)
Definition may_send (our_mac : list Z) (r : rolodex) (e : foyer_entry) (f : list Z) : Prop :=
  fe_in_use e = true /\
  match rolodex_lookup (fe_target_ip e) r with
  | Some mac => f = take (Z.to_nat (fe_len e)) (blit (fe_frame e) mac)
  | None => f = arp_request_frame our_mac (rx_our_ip r) (fe_target_ip e)
  end.

Lemma foyer_tick_slot_sends now our_mac i l e : fo_slots (lk_foyer l) !! i = Some e ->
  sent_only (may_send our_mac (lk_rolodex l) e) l (foyer_tick_slot now our_mac i l) /\
  rx_our_ip (lk_rolodex (foyer_tick_slot now our_mac i l)) = rx_our_ip (lk_rolodex l).
Proof.
  intros He. unfold foyer_tick_slot, may_send, sent_only. rewrite He.
  destruct (fe_in_use e) eqn:Hu; simpl; [|auto].
  destruct (rolodex_lookup (fe_target_ip e) (lk_rolodex l)) as [mac|] eqn:Hm.
  - match goal with |- context [send_with_pass now ?f l] =>
      pose proof (send_with_pass_sends now f l) as Hs; pose proof (send_with_pass_foyer now f l) as [_ Hr];
      destruct (send_with_pass now f l) as [ok l'] end. simpl in *.
    split; [|by rewrite Hr]. intros f Hf. destruct (Hs f Hf); auto.
  - destruct (_ <? _); [auto|]. destruct (_ <=? _); [auto|]. simpl.
    split; [intros f Hf; destruct (send_arp_request_sends now our_mac (fe_target_ip e) l f Hf); auto|].
    unfold send_arp_request, rolodex_dispatch_request. destruct (rx_have_our_ip _); simpl; [|done].
    destruct (bailiff_request_pass _ _ _) as [[id|] b]; simpl; [|done].
    by destruct (bailiff_present_pass _ _ _ _) as [ok [b' d]].
Qed.
End Wire.

(** What a tick puts on the wire.  Every frame the transmitter is given during
    [foyer_tick] is either a held frame whose first six bytes were replaced by
    the hardware address the cache has for its next hop, or an ARP request from
    our addresses for the next hop of a held frame the cache cannot resolve. *)
Lemma foyer_tick_wire now our_mac (l : link (list (list Z))) f :
  length (fo_slots (lk_foyer l)) = FOYER_CAPACITY ->
  f ∈ lk_driver (foyer_tick now our_mac l) ->
  f ∈ lk_driver l \/ exists e, e ∈ fo_slots (lk_foyer l) /\ may_send our_mac (lk_rolodex l) e f.
Proof.
  intros Hl. unfold foyer_tick.
  enough (forall n, (n <= FOYER_CAPACITY)%nat ->
    let l' := fold_left (fun l i => foyer_tick_slot now our_mac i l) (seq 0 n) l in
    rx_our_ip (lk_rolodex l') = rx_our_ip (lk_rolodex l) /\
    (f ∈ lk_driver l' -> f ∈ lk_driver l \/ exists e, e ∈ fo_slots (lk_foyer l) /\ may_send our_mac (lk_rolodex l) e f)) as Hn.
  { intros Hf. apply (Hn FOYER_CAPACITY); done. }
  induction n as [|n IH]; intros Hle; cbv zeta in *; [simpl; auto|].
  destruct IH as [IHip IH]; [lia|]. rewrite seq_S, fold_left_app. cbn [fold_left Nat.add].
  destruct (foyer_tick_prefix now our_mac l n) as [Hs Hb]; [lia|]. cbv zeta in *.
  destruct (lookup_lt_is_Some_2 (fo_slots (lk_foyer l)) n ltac:(lia)) as [e He].
  revert Hs Hb IHip IH. generalize (fold_left (fun l i => foyer_tick_slot now our_mac i l) (seq 0 n) l).
  intros l1 Hs Hb IHip IH. assert (fo_slots (lk_foyer l1) !! n = Some e) as He1.
  { rewrite Hs, lookup_app_r; rewrite length_fmap, length_take, Nat.min_l by lia; [|lia].
    by rewrite Nat.sub_diag, lookup_drop, Nat.add_0_r. }
  destruct (foyer_tick_slot_sends now our_mac n l1 e He1) as [Hsend Hip]. split; [by rewrite Hip|].
  intros Hf. destruct (Hsend f Hf) as [?|[Hu Hm]]; [auto|]. right. exists e.
  split; [apply list_elem_of_lookup; eauto|]. split; [done|].
  by rewrite (rolodex_lookup_book _ _ _ Hb), IHip in Hm.
Qed.

Lemma foyer_tick_wire_witness :
  let r0 := rolodex_learn 40 [10;0;2;2] [2;2;2;2;2;2] (rolodex_set_ip [10;0;2;15] rolodex_init) in
  let f0 := foyer_put 0 (mkFoyerE [10;0;2;2] (replicate 1600 0) 20 true 30 0) foyer_init in
  let l := mkLink (@nil (list Z)) bailiff_init r0 f0 in
  exists e, e ∈ fo_slots f0 /\ may_send [1;1;1;1;1;1] r0 e ([2;2;2;2;2;2] ++ replicate 14 0).
Proof.
  cbv zeta.
  destruct (foyer_tick_wire 50 [1;1;1;1;1;1] (mkLink (@nil (list Z)) bailiff_init
      (rolodex_learn 40 [10;0;2;2] [2;2;2;2;2;2] (rolodex_set_ip [10;0;2;15] rolodex_init))
      (foyer_put 0 (mkFoyerE [10;0;2;2] (replicate 1600 0) 20 true 30 0) foyer_init))
    ([2;2;2;2;2;2] ++ replicate 14 0)) as [H|H].
  - vm_compute. reflexivity.
  - match goal with |- _ ∈ ?d => let v := eval vm_compute in d in change d with v end.
    apply list_elem_of_singleton. reflexivity.
  - by apply not_elem_of_nil in H.
  - exact H.
Defined.
