(* ===== verification/Atlas.v ===== *)
(** * Atlas, the routing table, and Bouncer, the frame filter

    [Networking/Atlas/atlas.c] keeps sixteen routes and a default gateway;
    [Networking/IPv4/Bouncer/bouncer.c] checks each received frame's length and
    destination and keeps a log of the last 64 verdicts. *)

From S2P Require Import Prelude SlotTable GuestList.

Module Atlas.

Definition ATLAS_MAX_ROUTES : nat := 16.

Record atlas_route := mkRoute {
  rt_gateway : ip4; rt_netmask : ip4; rt_network : ip4; rt_in_use : bool }.
#[export] Instance route_slot : Slot atlas_route (ip4 * ip4) :=
  {| used := rt_in_use; key := fun r => (rt_network r, rt_netmask r) |}.

Record atlas := mkAtlas {
  at_routes : list atlas_route; at_default_gateway : ip4; at_have_default_gateway : bool }.

Definition atlas_init : atlas :=
  mkAtlas (replicate ATLAS_MAX_ROUTES (mkRoute [0;0;0;0] [0;0;0;0] [0;0;0;0] false)) [0;0;0;0] false.

Fixpoint same_net (ip network netmask : ip4) : bool :=
  match ip, network, netmask with
  | a :: ip', n :: network', m :: netmask' =>
      if Z.land a m =? Z.land n m then same_net ip' network' netmask' else false
  | _, _, _ => true
  end.

(** The inner loop over the bits of one byte: the bits counted, and whether it
    ran to the end. *)
Fixpoint prefix_bits (byte : Z) (bits : list Z) (prefix : Z) : bool * Z :=
  match bits with
  | [] => (true, prefix)
  | bit :: bits' =>
      if negb (Z.land byte (Z.shiftl 1 bit) =? 0) then prefix_bits byte bits' (prefix + 1)
      else (false, prefix)
  end.

Fixpoint prefix_from (netmask : ip4) (prefix : Z) : Z :=
  match netmask with
  | [] => prefix
  | byte :: rest =>
      let '(all, prefix) := prefix_bits byte [7;6;5;4;3;2;1;0] prefix in
      if all then prefix_from rest prefix else prefix
  end.
Definition prefix_len (netmask : ip4) : Z := prefix_from netmask 0.

Definition set_routes (t : list atlas_route) (a : atlas) : atlas :=
  mkAtlas t (at_default_gateway a) (at_have_default_gateway a).

Definition atlas_add_route (network netmask gateway : ip4) (a : atlas) : bool * atlas :=
  let t := at_routes a in
  match find_key (network, netmask) t with
  | Some i => (true, set_routes (alter (fun r => mkRoute gateway (rt_netmask r) (rt_network r) (rt_in_use r)) i t) a)
  | None =>
      match find_free t with
      | None => (false, a)
      | Some i => (true, set_routes (<[i := mkRoute gateway netmask network true]> t) a)
      end
  end.

Definition atlas_remove_route (network netmask : ip4) (a : atlas) : bool * atlas :=
  let t := at_routes a in
  match find_key (network, netmask) t with
  | Some i => (true, set_routes (alter (fun r => mkRoute (rt_gateway r) (rt_netmask r) (rt_network r) false) i t) a)
  | None => (false, a)
  end.

Definition nonzero (ip : ip4) : bool := existsb (fun x => negb (x =? 0)) ip.

Definition atlas_set_default_gateway (gateway : ip4) (a : atlas) : atlas :=
  mkAtlas (at_routes a) gateway (nonzero gateway).

(** The loop of [atlas_lookup], over the routes still to visit; [out] is what
    has been written to [out_next_hop].  The result is the returned flag and
    that buffer. *)
Fixpoint atlas_scan (a : atlas) (dest_ip : ip4) (best_slot best_prefix : Z) (out : option ip4)
    (todo : list atlas_route) : bool * option ip4 :=
  match todo with
  | [] => (false, out)
  | r :: todo' =>
      if negb (rt_in_use r) then atlas_scan a dest_ip best_slot best_prefix out todo'
      else if negb (same_net dest_ip (rt_network r) (rt_netmask r))
      then atlas_scan a dest_ip best_slot best_prefix out todo'
      else
        let len := prefix_len (rt_netmask r) in
        let '(best_prefix, best_slot) :=
          if best_prefix <? len then (len, 1) else (best_prefix, best_slot) in
        if 0 <=? best_slot then
          match at_routes a !! Z.to_nat best_slot with
          | Some b => (true, Some (if negb (nonzero (rt_gateway b)) then dest_ip else rt_gateway b))
          | None => (true, out)
          end
        else
          let out := if at_have_default_gateway a then Some (at_default_gateway a) else out in
          atlas_scan a dest_ip best_slot best_prefix out todo'
  end.

Definition atlas_lookup (dest_ip : ip4) (a : atlas) : bool * option ip4 :=
  atlas_scan a dest_ip (-1) (-1) None (at_routes a).

Definition atlas_route_count (a : atlas) : Z := Z.of_nat (count_if rt_in_use (at_routes a)).

(** ** The table is a map from (network, mask) to a gateway *)

Definition atlas_wf (a : atlas) : Prop := uniq (at_routes a) /\ length (at_routes a) = ATLAS_MAX_ROUTES.

Lemma atlas_wf_init : atlas_wf atlas_init.
Proof. split; [by apply uniq_replicate|done]. Qed.

Definition route_gateway (network netmask : ip4) (a : atlas) : option ip4 :=
  rt_gateway <$> lookup_key (network, netmask) (at_routes a).

Lemma route_write a i x r : atlas_wf a -> at_routes a !! i = Some x ->
  (rt_in_use r = true -> slot_for (at_routes a) i (key r)) ->
  (rt_in_use x = true -> key x = key r) ->
  atlas_wf (set_routes (<[i := r]> (at_routes a)) a) /\
  forall n m, route_gateway n m (set_routes (<[i := r]> (at_routes a)) a) =
    if decide ((n, m) = key r) then (if rt_in_use r then Some (rt_gateway r)
                                     else if rt_in_use x then None else route_gateway n m a)
    else route_gateway n m a.
Proof.
  intros [Hq Hl] Hi Hs Hx. split.
  - split; simpl; [by apply uniq_insert|by rewrite length_insert].
  - intros n m. unfold route_gateway. simpl. rewrite (lookup_key_write _ _ x) by done.
    change (used r) with (rt_in_use r). change (used x) with (rt_in_use x).
    destruct (rt_in_use r), (rt_in_use x); goal_decide; naive_solver.
Qed.

(** Adding and removing routes.  From a well-formed table: adding succeeds
    exactly when the (network, mask) pair is present or a slot is free, and
    then that pair has the new gateway; removing succeeds exactly when the pair
    is present, and then it is gone; no other route changes. *)
Lemma atlas_table_contract network netmask gateway a : atlas_wf a ->
  (let '(ok, a') := atlas_add_route network netmask gateway a in
   atlas_wf a' /\
   ok = bool_decide (is_Some (route_gateway network netmask a) \/ atlas_route_count a < 16) /\
   forall n m, route_gateway n m a' =
     if decide ((n, m) = (network, netmask) /\ ok = true) then Some gateway else route_gateway n m a) /\
  (let '(ok, a') := atlas_remove_route network netmask a in
   atlas_wf a' /\ ok = bool_decide (is_Some (route_gateway network netmask a)) /\
   forall n m, route_gateway n m a' =
     if decide ((n, m) = (network, netmask)) then None else route_gateway n m a).
Proof.
  intros Hwf. pose proof Hwf as [Hq Hl].
  pose proof (find_free_room (at_routes a)) as Hroom. rewrite Hl in Hroom.
  change (@used _ _ route_slot) with rt_in_use in Hroom. unfold ATLAS_MAX_ROUTES in Hroom.
  unfold atlas_add_route, atlas_remove_route, atlas_route_count.
  destruct (find_key (network, netmask) (at_routes a)) as [i|] eqn:Hk.
  - pose proof (find_key_sound _ _ _ Hk) as (x & Hx & Hu & Hkey). simpl in Hu, Hkey.
    injection Hkey as Hkn Hkm.
    assert (route_gateway network netmask a = Some (rt_gateway x)) as Hg.
    { unfold route_gateway, lookup_key. rewrite Hk. simpl. by rewrite Hx. }
    rewrite Hg. rewrite !(alter_insert _ _ _ _ Hx), Hu, Hkn, Hkm. split.
    + destruct (route_write a i x (mkRoute gateway netmask network true) Hwf Hx) as [Hw Hr];
        [intros _; simpl; by apply slot_for_found|simpl; congruence|].
      split; [exact Hw|]. split; [rewrite bool_decide_true; eauto|].
      intros n m. rewrite Hr. simpl. goal_decide; naive_solver.
    + destruct (route_write a i x (mkRoute (rt_gateway x) netmask network false) Hwf Hx) as [Hw Hr];
        [done|simpl; congruence|].
      split; [exact Hw|]. split; [rewrite bool_decide_true; eauto|].
      intros n m. rewrite Hr. simpl. rewrite Hu. done.
  - assert (route_gateway network netmask a = None) as Hg.
    { unfold route_gateway, lookup_key. by rewrite Hk. }
    rewrite Hg. split.
    + destruct (find_free (at_routes a)) as [i|] eqn:Hf.
      * pose proof (find_free_sound _ _ Hf) as (x & Hx & Hu). simpl in Hu.
        destruct (route_write a i x (mkRoute gateway netmask network true) Hwf Hx) as [Hw Hr];
          [intros _; simpl; by apply slot_for_new|simpl; congruence|].
        split; [exact Hw|]. split.
        { rewrite bool_decide_true; [done|]. right. apply proj1 in Hroom. specialize (Hroom ltac:(eauto)). lia. }
        intros n m. rewrite Hr. simpl. goal_decide; naive_solver.
      * split; [done|]. split; [|intros n m; by rewrite decide_False by naive_solver].
        rewrite bool_decide_false; [done|]. intros [[? ?]|Hlt]; [done|].
        destruct Hroom as [_ Hroom]. destruct Hroom; [lia|done].
    + split; [done|]. split; [rewrite bool_decide_false; [done|intros [? ?]; done]|].
      intros n m. goal_decide; [naive_solver|done].
Qed.

Lemma atlas_table_contract_witness :
  atlas_wf (snd (atlas_add_route [10;0;2;0] [255;255;255;0] [0;0;0;0] atlas_init)).
Proof. exact (proj1 (proj1 (atlas_table_contract [10;0;2;0] [255;255;255;0] [0;0;0;0] atlas_init atlas_wf_init))). Defined.

(** ** What a lookup answers *)

Definition route_matches (dest_ip : ip4) (r : atlas_route) : bool :=
  rt_in_use r && same_net dest_ip (rt_network r) (rt_netmask r).

Lemma prefix_bits_ge byte bits p : p <= snd (prefix_bits byte bits p).
Proof. revert p. induction bits as [|b bits IH]; intros p; simpl; [lia|]. case_match; simpl; [specialize (IH (p+1)); lia|lia]. Qed.
Lemma prefix_from_ge mask p : p <= prefix_from mask p.
Proof.
  revert p. induction mask as [|b mask IH]; intros p; cbn [prefix_from]; [lia|].
  pose proof (prefix_bits_ge b [7;6;5;4;3;2;1;0] p) as Hb. destruct (prefix_bits b _ p) as [[] q]; simpl in *; [|lia].
  specialize (IH q). lia.
Qed.

(** What [atlas_lookup] answers: an address is reachable exactly when some
    route in use covers it, and then the next hop is always the one of slot 1
    (the address itself when that slot has no gateway), whichever route
    matched; the default gateway is never used. *)
Lemma atlas_lookup_answer dest_ip a r1 : at_routes a !! 1%nat = Some r1 ->
  atlas_lookup dest_ip a =
    if existsb (route_matches dest_ip) (at_routes a)
    then (true, Some (if nonzero (rt_gateway r1) then rt_gateway r1 else dest_ip))
    else (false, None).
Proof.
  intros H1. unfold atlas_lookup. generalize (at_routes a) at 1 2. intros todo.
  induction todo as [|r todo IH]; simpl; [done|]. unfold route_matches at 1.
  destruct (rt_in_use r); simpl; [|apply IH].
  destruct (same_net dest_ip (rt_network r) (rt_netmask r)); simpl; [|apply IH].
  destruct (Z.ltb_spec (-1) (prefix_len (rt_netmask r))) as [|Hneg].
  - change (0 <=? 1) with true. change (Z.to_nat 1) with 1%nat. rewrite H1. by destruct (nonzero _).
  - pose proof (prefix_from_ge (rt_netmask r) 0). unfold prefix_len in Hneg. lia.
Qed.

(** Two routes, the second more specific and behind a gateway, and a default
    gateway: an address of the first network is sent to the second's gateway,
    and an address outside both is reported unreachable. *)
Lemma atlas_lookup_answer_witness :
  let a := atlas_set_default_gateway [10;0;2;2]
    (snd (atlas_add_route [192;168;0;0] [255;255;0;0] [10;0;2;9]
      (snd (atlas_add_route [10;0;2;0] [255;255;255;0] [0;0;0;0] atlas_init)))) in
  atlas_lookup [10;0;2;7] a = (true, Some [10;0;2;9]) /\ atlas_lookup [8;8;8;8] a = (false, None).
Proof.
  cbv zeta. split.
  - rewrite (atlas_lookup_answer _ _ (mkRoute [10;0;2;9] [255;255;0;0] [192;168;0;0] true)); vm_compute; reflexivity.
  - rewrite (atlas_lookup_answer _ _ (mkRoute [10;0;2;9] [255;255;0;0] [192;168;0;0] true)); vm_compute; reflexivity.
Defined.

(** [prefix_len] of the mask with [p] leading ones is [p]. *)
Definition mask_byte (p : Z) : Z := if p <=? 0 then 0 else if 8 <=? p then 255 else 256 - Z.shiftl 1 (8 - p).
Definition mask_of (p : Z) : ip4 := [mask_byte p; mask_byte (p - 8); mask_byte (p - 16); mask_byte (p - 24)].
Lemma prefix_len_mask_of : Forall (fun p => prefix_len (mask_of (Z.of_nat p)) = Z.of_nat p) (seq 0 33).
Proof. repeat (apply Forall_cons_2; [reflexivity|]). apply Forall_nil_2. Qed.

End Atlas.

Module Bouncer.

Definition MIN_ETHERNET_FRAME : Z := 14.
Definition MAX_ETHERNET_FRAME : Z := 1518.
Definition BOUNCER_LOG_CAPACITY : nat := 64.

Inductive bounce_verdict :=
  BOUNCE_ACCEPT | BOUNCE_REJECT_TOO_SHORT | BOUNCE_REJECT_TOO_LONG | BOUNCE_REJECT_BAD_DEST.
#[export] Instance bounce_verdict_eq : EqDecision bounce_verdict.
Proof. solve_decision. Defined.

Definition mac_equal (a b : list Z) : bool := bool_decide (a = b).
Definition mac_broadcast (mac : list Z) : bool := forallb (fun x => x =? 0xFF) mac.
Definition mac_multicast (mac : list Z) : bool :=
  match mac with x :: _ => negb (Z.land x 0x01 =? 0) | [] => false end.

(** [None]: a read outside the frame. *)
Definition bouncer_check (frame our_mac : list Z) : option bounce_verdict :=
  if MAX_ETHERNET_FRAME <? zlen frame then Some BOUNCE_REJECT_TOO_LONG
  else if zlen frame <? MIN_ETHERNET_FRAME then Some BOUNCE_REJECT_TOO_SHORT
  else
    dest ← slice frame 0 6;
    Some (if mac_equal dest our_mac then BOUNCE_ACCEPT
          else if mac_broadcast dest then BOUNCE_ACCEPT
          else if mac_multicast dest then BOUNCE_ACCEPT
          else BOUNCE_REJECT_BAD_DEST).

Record bouncer_log_entry := mkBLog {
  bg_tick : Z; bg_verdict : bounce_verdict; bg_length : Z; bg_dest_mac : list Z; bg_src_mac : list Z }.
Record bouncer := mkBouncer {
  bn_door_log : list bouncer_log_entry; bn_log_head : nat; bn_log_total : Z; bn_turned_away : Z }.

Definition bouncer_init : bouncer :=
  mkBouncer (replicate BOUNCER_LOG_CAPACITY (mkBLog 0 BOUNCE_ACCEPT 0 (replicate 6 0) (replicate 6 0))) 0 0 0.

(** A NULL address leaves the slot's old address in place. *)
Definition bouncer_log (now : Z) (verdict : bounce_verdict) (length : Z) (dest_mac src_mac : option (list Z))
    (b : bouncer) : bouncer :=
  mkBouncer
    (alter (fun e => mkBLog now verdict length (default (bg_dest_mac e) dest_mac) (default (bg_src_mac e) src_mac))
       (bn_log_head b) (bn_door_log b))
    ((bn_log_head b + 1) mod BOUNCER_LOG_CAPACITY)%nat
    (bn_log_total b +32 1)
    (if bool_decide (verdict = BOUNCE_ACCEPT) then bn_turned_away b else bn_turned_away b +32 1).

Definition bouncer_log_count (b : bouncer) : Z :=
  if bn_log_total b <? Z.of_nat BOUNCER_LOG_CAPACITY then bn_log_total b else Z.of_nat BOUNCER_LOG_CAPACITY.

Definition bouncer_log_get (index : nat) (b : bouncer) : option bouncer_log_entry :=
  if bouncer_log_count b <=? Z.of_nat index then None
  else bn_door_log b !! ((bn_log_head b + BOUNCER_LOG_CAPACITY - 1 - index) mod BOUNCER_LOG_CAPACITY)%nat.

Definition bouncer_turned_away_count (b : bouncer) : Z := bn_turned_away b.

(** The door policy: the check never reads outside the frame, and lets in
    exactly the frames of 14 to 1518 bytes whose destination is our address or
    has the group bit set (the broadcast address included). *)
Lemma bouncer_policy frame our_mac :
  exists v, bouncer_check frame our_mac = Some v /\
    (v = BOUNCE_ACCEPT <->
     14 <= zlen frame <= 1518 /\
     (take 6 frame = our_mac \/ exists b, frame !! 0%nat = Some b /\ Z.odd b = true)).
Proof.
  unfold bouncer_check, MAX_ETHERNET_FRAME, MIN_ETHERNET_FRAME.
  destruct (Z.ltb_spec 1518 (zlen frame)); [eexists; split; [done|]; split; [done|lia]|].
  destruct (Z.ltb_spec (zlen frame) 14); [eexists; split; [done|]; split; [done|lia]|].
  destruct frame as [|b0 [|b1 [|b2 [|b3 [|b4 [|b5 frame]]]]]]; [unfold zlen in *; simpl in *; lia..|].
  rewrite slice_in_range by (simpl; lia). cbn [mbind option_bind take drop].
  rewrite take_0. eexists. split; [reflexivity|]. unfold mac_equal.
  assert (negb (Z.land b0 1 =? 0) = Z.odd b0) as Hodd.
  { change 1 with (Z.ones 1). rewrite Z.land_ones by lia. change (2 ^ 1) with 2. rewrite Zmod_odd. by destruct (Z.odd b0). }
  case_bool_decide as Hm; [naive_solver lia|].
  unfold mac_broadcast, mac_multicast. rewrite Hodd.
  destruct (forallb (fun x => x =? 255) [b0; b1; b2; b3; b4; b5]) eqn:Hb.
  - cbn [forallb] in Hb. breflect. subst. split; [|done]. intros _. split; [lia|]. right. exists 255. done.
  - destruct (Z.odd b0) eqn:Ho; split; try done.
    + intros _. split; [lia|]. right. exists b0. done.
    + intros [_ [Ht|(b & Hb0 & ?)]]; [by destruct Hm|]. simpl in Hb0. injection Hb0 as ->. congruence.
Qed.

End Bouncer.
