(* ===== verification/LockBox.v ===== *)
(** * LockBox, the connection table

    [Networking/IPv4/LockBox/lockbox.c]: sixty-four slots, one per
    (local port, remote address, remote port, protocol), with a byte quota per
    slot, at most eight slots per remote address, and a generation number that
    tells two tenants of a slot apart. *)

From stdpp Require Import relations.
From S2P Require Import Prelude SlotTable GuestList.

Definition LOCKBOX_CAPACITY : nat := 64.
Definition LOCKBOX_MAX_PER_IP : nat := 8.
Definition LOCKBOX_MAX_BUFFERED : Z := 4096.

Inductive lockbox_result :=
  LOCKBOX_OK | LOCKBOX_REJECT_TABLE_FULL | LOCKBOX_REJECT_IP_QUOTA | LOCKBOX_REJECT_ALREADY_EXISTS.
#[export] Instance lockbox_result_eq : EqDecision lockbox_result.
Proof. solve_decision. Defined.

Record lockbox_entry := mkBox {
  lb_local_port : Z; lb_remote_ip : ip4; lb_remote_port : Z; lb_protocol : Z;
  lb_buffered_bytes : Z; lb_in_use : bool }.

(** The key of a connection: local port, remote address, remote port, protocol. *)
Definition conn_key : Type := Z * ip4 * Z * Z.
#[export] Instance conn_key_eq : EqDecision conn_key.
Proof. unfold conn_key. apply _. Defined.
#[export] Instance box_slot : Slot lockbox_entry conn_key :=
  {| used := lb_in_use;
     key := fun e => (lb_local_port e, lb_remote_ip e, lb_remote_port e, lb_protocol e) |}.

Record lockbox := mkLockbox {
  lx_table : list lockbox_entry; lx_generation : list Z; lx_rejected_count : Z }.

Definition lockbox_init : lockbox :=
  mkLockbox (replicate LOCKBOX_CAPACITY (mkBox 0 [0;0;0;0] 0 0 0 false)) (replicate LOCKBOX_CAPACITY 0) 0.

Definition holds_ip (ip : ip4) (e : lockbox_entry) : bool := lb_in_use e && bool_decide (lb_remote_ip e = ip).
Definition count_for_ip (ip : ip4) (t : list lockbox_entry) : nat := count_if (holds_ip ip) t.

Definition on_port (local_port protocol : Z) (e : lockbox_entry) : bool :=
  lb_in_use e && (lb_local_port e =? local_port) && (lb_protocol e =? protocol).

(** The searches return [LOCKBOX_CAPACITY] for "none". *)
Definition or_capacity (o : option nat) : nat := default LOCKBOX_CAPACITY o.

Definition lockbox_next_for_port (local_port protocol : Z) (after_id : nat) (x : lockbox) : nat :=
  let start := if (LOCKBOX_CAPACITY <=? after_id)%nat then 0%nat else (after_id + 1)%nat in
  or_capacity ((fun i => start + i)%nat <$> find_idx (on_port local_port protocol) (drop start (lx_table x))).

Definition lockbox_find_connection (local_port : Z) (remote_ip : ip4) (remote_port protocol : Z)
    (x : lockbox) : nat :=
  or_capacity (find_key (local_port, remote_ip, remote_port, protocol) (lx_table x)).

Definition lockbox_reject (x : lockbox) : lockbox :=
  mkLockbox (lx_table x) (lx_generation x) (lx_rejected_count x +32 1).

(** The second component is [*out_id], written only on success. *)
Definition lockbox_claim (local_port : Z) (remote_ip : ip4) (remote_port protocol : Z) (x : lockbox)
    : lockbox_result * option nat * lockbox :=
  if negb (lockbox_find_connection local_port remote_ip remote_port protocol x =? LOCKBOX_CAPACITY)%nat
  then (LOCKBOX_REJECT_ALREADY_EXISTS, None, lockbox_reject x)
  else if (LOCKBOX_MAX_PER_IP <=? count_for_ip remote_ip (lx_table x))%nat
  then (LOCKBOX_REJECT_IP_QUOTA, None, lockbox_reject x)
  else match find_free (lx_table x) with
       | Some i =>
           (LOCKBOX_OK, Some i,
            mkLockbox (<[i := mkBox local_port remote_ip remote_port protocol 0 true]> (lx_table x))
              (alter (fun g => g +32 1) i (lx_generation x)) (lx_rejected_count x))
       | None => (LOCKBOX_REJECT_TABLE_FULL, None, lockbox_reject x)
       end.

Definition set_buffered (n : Z) (e : lockbox_entry) : lockbox_entry :=
  mkBox (lb_local_port e) (lb_remote_ip e) (lb_remote_port e) (lb_protocol e) n (lb_in_use e).

Definition lockbox_deposit (id : nat) (nbytes : Z) (x : lockbox) : bool * lockbox :=
  match lx_table x !! id with
  | Some e =>
      if negb (lb_in_use e) then (false, x)
      else if LOCKBOX_MAX_BUFFERED <? (lb_buffered_bytes e +32 nbytes) then (false, lockbox_reject x)
      else (true, mkLockbox (<[id := set_buffered (lb_buffered_bytes e +32 nbytes) e]> (lx_table x))
                    (lx_generation x) (lx_rejected_count x))
  | None => (false, x)
  end.

Definition lockbox_consume (id : nat) (nbytes : Z) (x : lockbox) : lockbox :=
  mkLockbox (alter (fun e => set_buffered (if lb_buffered_bytes e <? nbytes then 0
                                           else lb_buffered_bytes e -32 nbytes) e) id (lx_table x))
    (lx_generation x) (lx_rejected_count x).

Definition lockbox_release (id : nat) (x : lockbox) : lockbox :=
  mkLockbox (alter (fun e => mkBox (lb_local_port e) (lb_remote_ip e) (lb_remote_port e) (lb_protocol e)
                               (lb_buffered_bytes e) false) id (lx_table x))
    (lx_generation x) (lx_rejected_count x).

Definition lockbox_active_count (x : lockbox) : Z := Z.of_nat (count_if lb_in_use (lx_table x)).
Definition lockbox_rejected_count (x : lockbox) : Z := lx_rejected_count x.

Definition lockbox_listen (local_port protocol : Z) (x : lockbox) : lockbox_result * option nat * lockbox :=
  lockbox_claim local_port [0;0;0;0] 0 protocol x.

Definition lockbox_get_generation (id : nat) (x : lockbox) : Z := default 0 (lx_generation x !! id).

Definition lockbox_find_listener (local_port protocol : Z) (x : lockbox) : nat :=
  or_capacity (find_idx (on_port local_port protocol) (lx_table x)).

Definition lockbox_get_tuple (id : nat) (x : lockbox) : option (Z * ip4 * Z) :=
  e ← lx_table x !! id;
  if lb_in_use e then Some (lb_local_port e, lb_remote_ip e, lb_remote_port e) else None.

(** ** The invariant *)

Record lockbox_wf (x : lockbox) : Prop := {
  lw_uniq : uniq (lx_table x);
  lw_len : length (lx_table x) = LOCKBOX_CAPACITY;
  lw_gen : length (lx_generation x) = LOCKBOX_CAPACITY;
  lw_quota : forall ip, (count_for_ip ip (lx_table x) <= LOCKBOX_MAX_PER_IP)%nat;
  lw_buffered : Forall (fun e => 0 <= lb_buffered_bytes e <= LOCKBOX_MAX_BUFFERED) (lx_table x) }.

Lemma lockbox_wf_init : lockbox_wf lockbox_init.
Proof.
  split; [by apply uniq_replicate|done|done| |].
  - intros ip. unfold count_for_ip, lockbox_init. cbn [lx_table]. rewrite count_if_replicate by done. unfold LOCKBOX_MAX_PER_IP. lia.
  - apply Forall_replicate. unfold LOCKBOX_MAX_BUFFERED. simpl. lia.
Qed.

(** Replacing a slot by one that is not more in use and keeps the key. *)
Lemma lockbox_wf_update x i e e' gen rej : lockbox_wf x -> lx_table x !! i = Some e ->
  key e' = key e -> (lb_in_use e' = true -> lb_in_use e = true) ->
  0 <= lb_buffered_bytes e' <= LOCKBOX_MAX_BUFFERED -> length gen = LOCKBOX_CAPACITY ->
  lockbox_wf (mkLockbox (<[i := e']> (lx_table x)) gen rej).
Proof.
  intros [Hq Hl Hg Hn Hb] Hi Hk Hu Hbb Hgen. split; simpl; [|by rewrite length_insert|done| |by apply Forall_insert].
  - apply uniq_insert; [done|]. intros Hu' j y Hj Huy Hky. simpl in Hu'. rewrite Hk in Hky.
    by eapply Hq; eauto.
  - intros ip. specialize (Hn ip). unfold count_for_ip in *.
    pose proof (count_if_insert (holds_ip ip) _ i e e' Hi) as Hc.
    assert (holds_ip ip e' = true -> holds_ip ip e = true) as Himp.
    { unfold holds_ip. simpl in Hk. injection Hk as _ -> _ _. intros [? ?]%andb_true_iff.
      rewrite Hu by done. done. }
    destruct (holds_ip ip e'), (holds_ip ip e); lia.
Qed.

Lemma lockbox_find_connection_spec lp ip rp pr x : lockbox_wf x ->
  (lockbox_find_connection lp ip rp pr x =? LOCKBOX_CAPACITY)%nat =
    bool_decide (find_key (lp, ip, rp, pr) (lx_table x) = None).
Proof.
  intros [_ Hl _ _ _]. unfold lockbox_find_connection, or_capacity.
  destruct (find_key (lp, ip, rp, pr) (lx_table x)) as [i|] eqn:E; [|done].
  apply find_idx_lt in E. rewrite bool_decide_false by done. apply Nat.eqb_neq. simpl. lia.
Qed.

Lemma lockbox_reject_wf x : lockbox_wf x -> lockbox_wf (lockbox_reject x).
Proof. by intros []. Qed.

Lemma lockbox_claim_wf lp ip rp pr x : lockbox_wf x -> lockbox_wf (lockbox_claim lp ip rp pr x).2.
Proof.
  intros Hwf. unfold lockbox_claim. rewrite lockbox_find_connection_spec by done.
  destruct (find_key (lp, ip, rp, pr) (lx_table x)) as [j|] eqn:Hk;
    [rewrite bool_decide_false by done; by apply lockbox_reject_wf|].
  rewrite bool_decide_true by done. simpl.
  destruct (Nat.leb_spec LOCKBOX_MAX_PER_IP (count_for_ip ip (lx_table x))) as [|Hc]; [by apply lockbox_reject_wf|].
  destruct (find_free (lx_table x)) as [i|] eqn:Hf; [|by apply lockbox_reject_wf].
  apply find_free_sound in Hf as (e & He & Hu). simpl in Hu. destruct Hwf as [Hq Hl Hg Hn Hb].
  split; simpl; [|by rewrite length_insert|by rewrite length_alter| |].
  - apply uniq_insert; [done|]. intros _. simpl. by apply slot_for_new.
  - intros ip'. specialize (Hn ip'). unfold count_for_ip in *.
    pose proof (count_if_insert (holds_ip ip') _ i e (mkBox lp ip rp pr 0 true) He) as Hcnt.
    assert (holds_ip ip' e = false) as E by (unfold holds_ip; by rewrite Hu). rewrite E in Hcnt.
    unfold holds_ip in Hcnt at 3. simpl in Hcnt. case_bool_decide; subst; lia.
  - apply Forall_insert; [done|]. unfold LOCKBOX_MAX_BUFFERED. simpl. lia.
Qed.

Lemma lockbox_deposit_wf id n x : 0 <= n -> lockbox_wf x -> lockbox_wf (lockbox_deposit id n x).2.
Proof.
  intros Hn Hwf. unfold lockbox_deposit. destruct (lx_table x !! id) as [e|] eqn:He; [|done].
  destruct (lb_in_use e) eqn:Hu; [|done]. simpl. unfold LOCKBOX_MAX_BUFFERED.
  destruct (Z.ltb_spec 4096 (lb_buffered_bytes e +32 n)); [by apply lockbox_reject_wf|]. simpl.
  pose proof (u32_range (lb_buffered_bytes e + n)).
  eapply lockbox_wf_update; [done..| |apply Hwf]. unfold LOCKBOX_MAX_BUFFERED. simpl. words. lia.
Qed.

Lemma lockbox_consume_wf id n x : 0 <= n -> lockbox_wf x -> lockbox_wf (lockbox_consume id n x).
Proof.
  intros Hn Hwf. unfold lockbox_consume. destruct (lx_table x !! id) as [e|] eqn:He.
  - rewrite (alter_insert _ _ _ _ He). pose proof (Forall_lookup_1 _ _ _ _ (lw_buffered x Hwf) He) as Hb. simpl in Hb.
    eapply lockbox_wf_update; [done..| |apply Hwf]. simpl. unfold LOCKBOX_MAX_BUFFERED in *.
    destruct (Z.ltb_spec (lb_buffered_bytes e) n); [lia|]. rewrite u32_small by (words; lia). lia.
  - rewrite alter_out by done. by destruct x.
Qed.

Lemma lockbox_release_wf id x : lockbox_wf x -> lockbox_wf (lockbox_release id x).
Proof.
  intros Hwf. unfold lockbox_release. destruct (lx_table x !! id) as [e|] eqn:He.
  - rewrite (alter_insert _ _ _ _ He). pose proof (Forall_lookup_1 _ _ _ _ (lw_buffered x Hwf) He) as Hb.
    eapply lockbox_wf_update; [done..| |apply Hwf]. exact Hb.
  - rewrite alter_out by done. by destruct x.
Qed.
#[export] Hint Resolve lockbox_wf_init lockbox_claim_wf lockbox_deposit_wf lockbox_consume_wf
  lockbox_release_wf : aevros.

(** ** Slots with a tenant *)

Definition held (x : lockbox) (i : nat) : bool := from_option lb_in_use false (lx_table x !! i).

Lemma held_claim lp ip rp pr x j : let '(_, out, x') := lockbox_claim lp ip rp pr x in
  match out with
  | Some i => (i < length (lx_table x))%nat /\ held x i = false /\ held x' j = (j =? i)%nat || held x j
  | None => held x' j = held x j
  end.
Proof.
  unfold lockbox_claim. destruct (negb _); [done|]. destruct (_ <=? _)%nat; [done|].
  destruct (find_free (lx_table x)) as [i|] eqn:Hf; [|done].
  apply find_free_sound in Hf as (e & He & Hu). simpl in Hu. pose proof (lookup_lt_Some _ _ _ He) as Hlt.
  split; [done|]. unfold held. rewrite He. split; [done|]. simpl.
  destruct (Nat.eqb_spec j i) as [->|]; [by rewrite list_lookup_insert_eq|by rewrite list_lookup_insert_ne].
Qed.

Lemma held_alter (g : lockbox_entry -> lockbox_entry) (t : list lockbox_entry) (i j : nat) : (forall e, lb_in_use (g e) = lb_in_use e) ->
  from_option lb_in_use false (alter g i t !! j) = from_option lb_in_use false (t !! j).
Proof.
  intros Hg. destruct (decide (i = j)) as [->|]; [|by rewrite list_lookup_alter_ne].
  rewrite list_lookup_alter_eq. destruct (t !! j); simpl; [apply Hg|done].
Qed.

Lemma held_release i j x : held (lockbox_release i x) j = negb (j =? i)%nat && held x j.
Proof.
  unfold held. simpl. destruct (Nat.eqb_spec j i) as [->|]; simpl.
  - rewrite list_lookup_alter_eq. by destruct (lx_table x !! i).
  - by rewrite list_lookup_alter_ne.
Qed.

(** ** Reachable tables *)

Inductive lockbox_step : lockbox -> lockbox -> Prop :=
| step_claim x lp ip rp pr : lockbox_step x (lockbox_claim lp ip rp pr x).2
| step_listen x lp pr : lockbox_step x (lockbox_listen lp pr x).2
| step_deposit x id n : 0 <= n -> lockbox_step x (lockbox_deposit id n x).2
| step_consume x id n : 0 <= n -> lockbox_step x (lockbox_consume id n x)
| step_release x id : lockbox_step x (lockbox_release id x).

(** C38: Every table reachable from boot by any interleaving of claims, listens,
    deposits, consumes and releases has at most one slot per connection, at
    most eight slots per remote address, and at most 4096 buffered bytes per
    slot; and in such a table a claim succeeds exactly when the connection is
    new, its address has fewer than eight slots and a slot is free, and then
    the slot it returns is the one later found for that connection. *)
Theorem lockbox_reachable_safe x : rtc lockbox_step lockbox_init x ->
  lockbox_wf x /\
  forall lp ip rp pr,
    let '(res, out, x') := lockbox_claim lp ip rp pr x in
    (res = LOCKBOX_OK <-> find_key (lp, ip, rp, pr) (lx_table x) = None /\
        (count_for_ip ip (lx_table x) < 8)%nat /\ lockbox_active_count x < 64) /\
    (res = LOCKBOX_OK -> exists i, out = Some i /\ (i < LOCKBOX_CAPACITY)%nat /\
        lockbox_find_connection lp ip rp pr x' = i /\
        lockbox_get_tuple i x' = Some (lp, ip, rp) /\
        lockbox_get_generation i x' = lockbox_get_generation i x +32 1) /\
    (res <> LOCKBOX_OK -> out = None /\ lx_table x' = lx_table x).
Proof.
  intros Hr. assert (lockbox_wf x) as Hwf.
  { revert Hr. generalize lockbox_wf_init. generalize lockbox_init. intros y Hy Hr.
    induction Hr as [|y z x Hst _ IH]; [done|]. apply IH. destruct Hst; unfold lockbox_listen; auto with aevros. }
  split; [done|]. intros lp ip rp pr. pose proof (lockbox_claim_wf lp ip rp pr x Hwf) as Hwf'. revert Hwf'.
  unfold lockbox_claim. rewrite lockbox_find_connection_spec by done.
  unfold lockbox_active_count. pose proof (find_free_room (lx_table x)) as Hroom.
  rewrite (lw_len x Hwf) in Hroom. change (@used _ _ box_slot) with lb_in_use in Hroom. unfold LOCKBOX_CAPACITY in Hroom.
  destruct (find_key (lp, ip, rp, pr) (lx_table x)) as [j|] eqn:Hk.
  { rewrite bool_decide_false by done. simpl. intros _. split; [split; [done|intros (? & _); done]|done]. }
  rewrite bool_decide_true by done. simpl. unfold LOCKBOX_MAX_PER_IP.
  destruct (Nat.leb_spec 8 (count_for_ip ip (lx_table x))) as [|Hc]; simpl.
  { intros _. split; [split; [done|lia]|done]. }
  destruct (find_free (lx_table x)) as [i|] eqn:Hf; simpl; intros Hwf'.
  - pose proof (find_free_sound _ _ Hf) as (e & He & _). pose proof (lookup_lt_Some _ _ _ He) as Hlt.
    rewrite (lw_len x Hwf) in Hlt. assert (count_if lb_in_use (lx_table x) < 64)%nat by (apply Hroom; eauto).
    split; [split; [intros _; split; [done|]; lia|done]|]. split; [|done].
    intros _. exists i. split; [done|]. split; [done|].
    assert (<[i := mkBox lp ip rp pr 0 true]> (lx_table x) !! i = Some (mkBox lp ip rp pr 0 true)) as Hi.
    { apply list_lookup_insert_eq. by rewrite (lw_len x Hwf). }
    split; [|split].
    + unfold lockbox_find_connection. simpl.
      erewrite (find_key_uniq (lp, ip, rp, pr)); [|apply Hwf'|exact Hi|done|done]. done.
    + unfold lockbox_get_tuple. simpl. by rewrite Hi.
    + unfold lockbox_get_generation. simpl. rewrite list_lookup_alter_eq.
      destruct (lookup_lt_is_Some_2 (lx_generation x) i) as [g Hg]; [by rewrite (lw_gen x Hwf)|]. by rewrite Hg.
  - split; [|done]. split; [done|]. intros (_ & _ & Hlt). destruct Hroom as [_ Hroom]. destruct Hroom; [lia|done].
Qed.

Lemma lockbox_reachable_safe_witness :
  lockbox_wf (lockbox_release 0 (lockbox_deposit 0 100 (lockbox_listen 80 6 lockbox_init).2).2).
Proof.
  refine (proj1 (lockbox_reachable_safe _ _)).
  eapply rtc_l; [apply (step_listen _ 80 6)|]. eapply rtc_l; [apply (step_deposit _ 0 100); lia|].
  eapply rtc_l; [apply (step_release _ 0)|]. apply rtc_refl.
Defined.

(** Byte accounting per slot: within the quota, bytes deposited are exactly
    the bytes that can be consumed again, and a deposit that would pass 4096
    is refused and leaves the table as it was. *)
Lemma lockbox_deposit_consume id n e x :
  lockbox_wf x -> lx_table x !! id = Some e -> lb_in_use e = true -> is_u16 n ->
  let '(ok, x') := lockbox_deposit id n x in
  (ok = true <-> lb_buffered_bytes e + n <= 4096) /\
  (ok = true -> lx_table (lockbox_consume id n x') = lx_table x) /\
  (ok = false -> lx_table x' = lx_table x).
Proof.
  intros Hwf He Hu Hn. unfold lockbox_deposit. rewrite He, Hu. simpl.
  pose proof (Forall_lookup_1 _ _ _ _ (lw_buffered x Hwf) He) as Hb. simpl in Hb. unfold LOCKBOX_MAX_BUFFERED in *.
  rewrite u32_small by (words; lia).
  destruct (Z.ltb_spec 4096 (lb_buffered_bytes e + n)); simpl; [split; [split; [done|lia]|done]|].
  split; [split; [lia|done]|]. split; [|done]. intros _.
  erewrite alter_insert by (apply list_lookup_insert_eq; by eapply lookup_lt_Some).
  rewrite list_insert_insert_eq. simpl. destruct (Z.ltb_spec (lb_buffered_bytes e + n) n); [lia|].
  rewrite u32_small by (words; lia). unfold set_buffered. simpl.
  replace (lb_buffered_bytes e + n - n) with (lb_buffered_bytes e) by lia.
  apply list_insert_id. rewrite He. by destruct e.
Qed.

Lemma lockbox_deposit_consume_witness :
  lx_table (lockbox_consume 0 100 (lockbox_deposit 0 100 (lockbox_listen 80 6 lockbox_init).2).2)
  = lx_table (lockbox_listen 80 6 lockbox_init).2.
Proof.
  refine (proj1 (proj2 (lockbox_deposit_consume 0 100 (mkBox 80 [0;0;0;0] 0 6 0 true)
    (lockbox_listen 80 6 lockbox_init).2 _ _ _ _)) _).
  - apply lockbox_claim_wf, lockbox_wf_init.
  - reflexivity.
  - reflexivity.
  - unfold is_u16. lia.
  - reflexivity.
Defined.
