(* ===== verification/Inbox.v ===== *)
(** * Inbox and Postbox, received data

    [Networking/IPv4/Inbox/inbox.c]: a 4096-byte ring per connection slot for
    TCP payload, emptied lazily when the slot has a new tenant; and
    [Networking/IPv4/Postbox/postbox.c]: a ring of eight datagrams per slot.
    Both are proved to be first-in first-out queues. *)

From stdpp Require Import relations.
From S2P Require Import Prelude SlotTable GuestList LockBox Ring.

Module Inbox.

Definition INBOX_SIZE : nat := 4096.

(** One row of the source's arrays [storage], [write_pos], [read_pos],
    [count] and [seen_generation]. *)
Record inbox_slot := mkInbox {
  ib_storage : list Z; ib_write_pos : nat; ib_read_pos : nat; ib_count : nat; ib_seen_generation : Z }.
Notation inbox := (list inbox_slot).

Definition inbox_init : inbox :=
  replicate LOCKBOX_CAPACITY (mkInbox (replicate INBOX_SIZE 0) 0 0 0 0).

Definition reset_if_stale (gen : Z) (s : inbox_slot) : inbox_slot :=
  if ib_seen_generation s =? gen then s else mkInbox (ib_storage s) 0 0 0 gen.

Definition inbox_deposit (conn_id : nat) (payload : list Z) (x : lockbox) (ib : inbox)
    : bool * lockbox * inbox :=
  match ib !! conn_id with
  | None => (false, x, ib)
  | Some s =>
      let s := reset_if_stale (lockbox_get_generation conn_id x) s in
      let '(ok, x) := lockbox_deposit conn_id (zlen payload) x in
      if negb ok then (false, x, <[conn_id := s]> ib) else
      let '(st, w) := push_all INBOX_SIZE payload (ib_storage s) (ib_write_pos s) in
      (true, x, <[conn_id := mkInbox st w (ib_read_pos s) (u16n (ib_count s + length payload))
                               (ib_seen_generation s)]> ib)
  end.

(** [None]: a read outside [storage]. *)
Definition inbox_read (conn_id max_len : nat) (x : lockbox) (ib : inbox)
    : option (list Z * lockbox * inbox) :=
  match ib !! conn_id with
  | None => Some ([], x, ib)
  | Some s =>
      let s := reset_if_stale (lockbox_get_generation conn_id x) s in
      let n := if (max_len <? ib_count s)%nat then max_len else ib_count s in
      '(out, r) ← pop_n INBOX_SIZE n (ib_storage s) (ib_read_pos s);
      let s := mkInbox (ib_storage s) (ib_write_pos s) r (ib_count s - n)%nat (ib_seen_generation s) in
      Some (out, if (0 <? n)%nat then lockbox_consume conn_id (Z.of_nat n) x else x, <[conn_id := s]> ib)
  end.

Definition inbox_available (conn_id : nat) (x : lockbox) (ib : inbox) : nat * inbox :=
  match ib !! conn_id with
  | None => (0%nat, ib)
  | Some s => let s := reset_if_stale (lockbox_get_generation conn_id x) s in (ib_count s, <[conn_id := s]> ib)
  end.

#[global] Arguments inbox_deposit : simpl never.
#[global] Arguments inbox_read : simpl never.

(** ** The queue of a connection *)

Record slot_holds (gen : Z) (s : inbox_slot) (q : list Z) : Prop := {
  sh_ring : ring_holds INBOX_SIZE (ib_storage (reset_if_stale gen s)) (ib_read_pos (reset_if_stale gen s))
              (ib_count (reset_if_stale gen s)) q;
  sh_write : ib_write_pos (reset_if_stale gen s) =
    ((ib_read_pos (reset_if_stale gen s) + ib_count (reset_if_stale gen s)) mod INBOX_SIZE)%nat }.

(** After [n] claims since boot: slot [i] holds the bytes [q i], as many as
    LockBox accounts for, and has been seen at a generation already issued. *)
Record inbox_inv (n : Z) (x : lockbox) (ib : inbox) (q : nat -> list Z) : Prop := {
  ii_box : lockbox_wf x;
  ii_len : length ib = LOCKBOX_CAPACITY;
  ii_slot : forall i s e, ib !! i = Some s -> lx_table x !! i = Some e ->
    slot_holds (lockbox_get_generation i x) s (q i) /\ zlen (q i) = lb_buffered_bytes e /\
    0 <= ib_seen_generation s <= lockbox_get_generation i x /\ lockbox_get_generation i x <= n;
  ii_out : forall i, (LOCKBOX_CAPACITY <= i)%nat -> q i = [] }.

Lemma reset_idem gen s : reset_if_stale gen (reset_if_stale gen s) = reset_if_stale gen s.
Proof.
  unfold reset_if_stale. destruct (ib_seen_generation s =? gen) eqn:E; [by rewrite E|].
  simpl. by rewrite Z.eqb_refl.
Qed.

Lemma reset_seen gen s : ib_seen_generation (reset_if_stale gen s) = gen.
Proof. unfold reset_if_stale. destruct (Z.eqb_spec (ib_seen_generation s) gen); done. Qed.

Lemma slot_holds_fresh gen st w r c q : ring_holds INBOX_SIZE st r c q ->
  w = ((r + c) mod INBOX_SIZE)%nat -> slot_holds gen (mkInbox st w r c gen) q.
Proof. intros. split; unfold reset_if_stale; simpl; rewrite Z.eqb_refl; done. Qed.

Lemma slot_holds_reset gen s q : slot_holds gen s q -> slot_holds gen (reset_if_stale gen s) q.
Proof. intros [??]. split; by rewrite reset_idem. Qed.

(** A new generation empties the queue. *)
Lemma slot_holds_new gen gen' s q : slot_holds gen s q -> ib_seen_generation s <> gen' -> slot_holds gen' s [].
Proof.
  intros [Hr _] Hne.
  assert (reset_if_stale gen' s = mkInbox (ib_storage s) 0 0 0 gen') as E.
  { unfold reset_if_stale. apply Z.eqb_neq in Hne. by rewrite Hne. }
  assert (length (ib_storage s) = INBOX_SIZE) as Hl.
  { destruct Hr as [Hs _ _ _ _]. unfold reset_if_stale in Hs. by case_match. }
  split; rewrite E; simpl; [|done]. apply ring_empty; [done|]. unfold INBOX_SIZE. lia.
Qed.

Definition upd (q : nat -> list Z) (i : nat) (v : list Z) : nat -> list Z :=
  fun j => if decide (j = i) then v else q j.

Lemma inbox_inv_init : inbox_inv 0 lockbox_init inbox_init (fun _ => []).
Proof.
  split; [apply lockbox_wf_init|done| |done].
  intros i s e Hs He. apply lookup_replicate in Hs as [-> Hi], He as [-> _].
  assert (lockbox_get_generation i lockbox_init = 0) as ->.
  { unfold lockbox_get_generation, lockbox_init. cbn [lx_generation]. by rewrite lookup_replicate_2. }
  split; [|done]. apply slot_holds_fresh; [|done]. apply ring_empty; [by rewrite length_replicate|unfold INBOX_SIZE; lia].
Qed.

(** Replacing slot [i]'s row and its accounting. *)
Lemma inbox_inv_update n x x' ib q i s' v : inbox_inv n x ib q -> lockbox_wf x' ->
  (forall j, lockbox_get_generation j x' = lockbox_get_generation j x) ->
  (forall j e', j <> i -> lx_table x' !! j = Some e' ->
     exists e, lx_table x !! j = Some e /\ lb_buffered_bytes e = lb_buffered_bytes e') ->
  (forall e', lx_table x' !! i = Some e' -> zlen v = lb_buffered_bytes e') ->
  slot_holds (lockbox_get_generation i x) s' v -> ib_seen_generation s' = lockbox_get_generation i x ->
  (i < LOCKBOX_CAPACITY)%nat ->
  inbox_inv n x' (<[i := s']> ib) (upd q i v).
Proof.
  intros [Hb Hl Hs Ho] Hwf Hg Hother Hme Hsl Hseen Hi. unfold upd.
  split; [done|by rewrite length_insert| |intros j Hj; rewrite decide_False by lia; by apply Ho].
  intros j s e Hj He. rewrite Hg. rewrite list_lookup_insert in Hj. case_decide as Hd.
  - destruct Hd as [<- _]. injection Hj as <-. rewrite decide_True by done. split; [done|]. split; [by apply Hme|].
    rewrite Hseen. destruct (lookup_lt_is_Some_2 ib i) as [s0 Hs0]; [lia|].
    destruct (lookup_lt_is_Some_2 (lx_table x) i) as [e0 He0]; [by rewrite (lw_len x Hb)|].
    destruct (Hs i s0 e0 Hs0 He0) as (_ & _ & ?). lia.
  - rewrite decide_False by (intros ->; apply Hd; split; [done|lia]).
    destruct (Hother j e) as (e0 & He0 & Hbb); [intros ->; apply Hd; split; [done|lia]|done|].
    destruct (Hs j s e0 Hj He0) as (? & ? & ?). split; [done|]. split; [lia|done].
Qed.

Lemma deposit_frame id n x : let x' := (lockbox_deposit id n x).2 in
  (forall j, lockbox_get_generation j x' = lockbox_get_generation j x) /\
  (forall j e', j <> id -> lx_table x' !! j = Some e' -> lx_table x !! j = Some e').
Proof.
  unfold lockbox_deposit. repeat case_match; simpl; (split; [done|]); intros j e' Hj He; [done|done| |done].
  by rewrite list_lookup_insert_ne in He.
Qed.

Lemma inbox_deposit_spec n x ib q id payload : inbox_inv n x ib q -> is_u16 (zlen payload) ->
  let '(ok, x', ib') := inbox_deposit id payload x ib in
  ok = bool_decide (is_Some (lockbox_get_tuple id x) /\ zlen (q id) + zlen payload <= 4096) /\
  inbox_inv n x' ib' (if ok : bool then upd q id (q id ++ payload) else q).
Proof.
  intros Hinv Hlen. pose proof Hinv as [Hb Hl Hs Ho]. unfold inbox_deposit, lockbox_get_tuple.
  destruct (ib !! id) as [s|] eqn:Hid.
  2:{ apply lookup_ge_None in Hid. rewrite (lookup_ge_None_2 (lx_table x)) by (rewrite (lw_len x Hb); lia).
      rewrite bool_decide_false; [done|]. intros [[? ?] _]. done. }
  pose proof (lookup_lt_Some _ _ _ Hid) as Hlt. rewrite Hl in Hlt.
  destruct (lookup_lt_is_Some_2 (lx_table x) id) as [e He]; [by rewrite (lw_len x Hb)|].
  destruct (Hs id s e Hid He) as (Hsl & Hcnt & Hgen). rewrite He. cbn [mbind option_bind].
  pose proof (deposit_frame id (zlen payload) x) as [Hfg Hft].
  pose proof (lockbox_deposit_wf id (zlen payload) x ltac:(unfold zlen; lia) Hb) as Hwf.
  pose proof (Forall_lookup_1 _ _ _ _ (lw_buffered x Hb) He) as Hbuf. simpl in Hbuf. unfold LOCKBOX_MAX_BUFFERED in Hbuf.
  assert (forall x' s' v, x' = (lockbox_deposit id (zlen payload) x).2 ->
    (forall e', lx_table x' !! id = Some e' -> zlen v = lb_buffered_bytes e') ->
    slot_holds (lockbox_get_generation id x) s' v -> ib_seen_generation s' = lockbox_get_generation id x ->
    inbox_inv n x' (<[id := s']> ib) (upd q id v)) as Hupd.
  { intros x' s' v -> Hv Hsl' Hseen. eapply inbox_inv_update; eauto. }
  assert (forall x', x' = (lockbox_deposit id (zlen payload) x).2 -> lx_table x' = lx_table x ->
    inbox_inv n x' (<[id := reset_if_stale (lockbox_get_generation id x) s]> ib) q) as Hkeep.
  { intros x' -> Hx. pose proof (Hupd _ (reset_if_stale (lockbox_get_generation id x) s) (q id) eq_refl) as Hk.
    rewrite Hx in Hk. destruct Hk as [K1 K2 K3 K4];
      [intros e' He'; by simplify_eq|by apply slot_holds_reset|by apply reset_seen|].
    split; [done|done| |done]. intros i s0 e0 Hi0 He0. specialize (K3 i s0 e0 Hi0 He0).
    unfold upd in K3. destruct (decide (i = id)) as [->|]; done. }
  unfold lockbox_deposit in *. rewrite He in *. destruct (lb_in_use e) eqn:Hu; simpl negb in *; cbv iota in *.
  2:{ rewrite bool_decide_false by (intros [[? ?] _]; done). split; [done|]. by apply Hkeep. }
  rewrite u32_small in * by (words; lia). unfold LOCKBOX_MAX_BUFFERED in *.
  destruct (Z.ltb_spec 4096 (lb_buffered_bytes e + zlen payload)) as [Hbig|Hfit]; cbv iota in *; simpl negb; cbv iota.
  { rewrite bool_decide_false by (intros [_ ?]; lia). split; [done|]. by apply Hkeep. }
  rewrite bool_decide_true by (split; [eauto|lia]).
  destruct Hsl as [Hring Hw]. rewrite Hw.
  assert (zlen (q id) = Z.of_nat (ib_count (reset_if_stale (lockbox_get_generation id x) s))) as Hqc
    by (unfold zlen; by rewrite (rh_cnt _ _ _ _ _ Hring)).
  assert (ib_count (reset_if_stale (lockbox_get_generation id x) s) + length payload <= INBOX_SIZE)%nat as Hn.
  { unfold INBOX_SIZE. unfold zlen in *. lia. }
  pose proof (push_all_spec INBOX_SIZE ltac:(unfold INBOX_SIZE; lia) payload _ _ _ _ Hring Hn) as Hpush.
  destruct (push_all _ _ _ _) as [st w]. destruct Hpush as [Hr' Hw']. split; [done|].
  rewrite u16n_small by (unfold INBOX_SIZE in Hn; lia).
  apply Hupd; [done| | |by apply reset_seen].
  - simpl. rewrite list_lookup_insert_eq by (rewrite (lw_len x Hb); done). intros e' [= <-]. simpl.
    unfold zlen in *. rewrite length_app. lia.
  - rewrite reset_seen. by apply slot_holds_fresh.
Qed.
Lemma consume_frame id n x :
  (forall j, lockbox_get_generation j (lockbox_consume id n x) = lockbox_get_generation j x) /\
  (forall j e', j <> id -> lx_table (lockbox_consume id n x) !! j = Some e' -> lx_table x !! j = Some e').
Proof. split; [done|]. intros j e' Hj. simpl. by rewrite list_lookup_alter_ne. Qed.

Lemma inbox_inv_ext n x ib q q' : (forall i, q i = q' i) -> inbox_inv n x ib q -> inbox_inv n x ib q'.
Proof. intros E [? ? Hs Ho]. split; [done|done| |]; intros i; rewrite <- E; [apply Hs|apply Ho]. Qed.

Lemma upd_id q i : forall j, upd q i (q i) j = q j.
Proof. intros j. unfold upd. by case_decide; subst. Qed.

Lemma inbox_read_spec n x ib q id max_len : inbox_inv n x ib q ->
  exists x' ib', inbox_read id max_len x ib = Some (take max_len (q id), x', ib') /\
    inbox_inv n x' ib' (upd q id (drop max_len (q id))).
Proof.
  intros Hinv. pose proof Hinv as [Hb Hl Hs Ho]. unfold inbox_read.
  destruct (ib !! id) as [s|] eqn:Hid.
  2:{ apply lookup_ge_None in Hid. rewrite (Ho id) by lia. rewrite take_nil, drop_nil.
      do 2 eexists. split; [done|]. eapply inbox_inv_ext; [|done]. intros j. unfold upd.
      case_decide; [|done]. subst. by apply Ho; lia. }
  pose proof (lookup_lt_Some _ _ _ Hid) as Hlt. rewrite Hl in Hlt.
  destruct (lookup_lt_is_Some_2 (lx_table x) id) as [e He]; [by rewrite (lw_len x Hb)|].
  destruct (Hs id s e Hid He) as ([Hring Hw] & Hcnt & Hgen).
  pose proof (Forall_lookup_1 _ _ _ _ (lw_buffered x Hb) He) as Hbuf. simpl in Hbuf. unfold LOCKBOX_MAX_BUFFERED in Hbuf.
  pose proof (rh_cnt _ _ _ _ _ Hring) as Hqc. unfold zlen in Hcnt.
  set (g := lockbox_get_generation id x) in *. set (s1 := reset_if_stale g s) in *.
  set (m := if (max_len <? ib_count s1)%nat then max_len else ib_count s1).
  assert (m = min max_len (length (q id))) as Hm.
  { subst m. destruct (Nat.ltb_spec max_len (ib_count s1)); lia. }
  destruct (pop_n_spec INBOX_SIZE ltac:(unfold INBOX_SIZE; lia) m _ _ _ _ Hring ltac:(lia)) as [Hpop Hring'].
  rewrite Hpop. cbn [mbind option_bind].
  assert (take m (q id) = take max_len (q id) /\ drop m (q id) = drop max_len (q id)) as [Et Ed].
  { rewrite Hm. destruct (Nat.le_ge_cases max_len (length (q id))).
    - rewrite Nat.min_l by lia. done.
    - rewrite Nat.min_r by lia. by rewrite !firstn_all2, !skipn_all2 by lia. }
  rewrite Et. do 2 eexists. split; [reflexivity|]. rewrite <- Ed.
  pose proof (consume_frame id (Z.of_nat m) x) as [Hcg Hct].
  eapply inbox_inv_update; [exact Hinv| | | | | | |done].
  - case_match; [by apply lockbox_consume_wf; [lia|]|done].
  - intros j. by case_match.
  - intros j e' Hj He'. exists e'. case_match; [|done]. split; [by apply Hct|done].
  - intros e'. unfold zlen. rewrite length_drop. destruct (Nat.ltb_spec 0 m).
    + simpl. rewrite list_lookup_alter_eq, He. intros [= <-]. simpl.
      destruct (Z.ltb_spec (lb_buffered_bytes e) (Z.of_nat m)); [lia|]. rewrite u32_small by (words; lia). lia.
    + rewrite He. intros [= <-]. lia.
  - subst s1. rewrite reset_seen. apply slot_holds_fresh; [exact Hring'|].
    fold g. rewrite Hw. rewrite Nat.Div0.add_mod_idemp_l. f_equal. lia.
  - simpl. apply reset_seen.
Qed.

Lemma inbox_available_spec n x ib q id : inbox_inv n x ib q ->
  let '(c, ib') := inbox_available id x ib in c = length (q id) /\ inbox_inv n x ib' q.
Proof.
  intros Hinv. pose proof Hinv as [Hb Hl Hs Ho]. unfold inbox_available.
  destruct (ib !! id) as [s|] eqn:Hid.
  2:{ apply lookup_ge_None in Hid. by rewrite Ho by lia. }
  pose proof (lookup_lt_Some _ _ _ Hid) as Hlt. rewrite Hl in Hlt.
  destruct (lookup_lt_is_Some_2 (lx_table x) id) as [e He]; [by rewrite (lw_len x Hb)|].
  destruct (Hs id s e Hid He) as (Hsl & Hcnt & Hgen). split; [symmetry; apply Hsl|].
  eapply inbox_inv_ext; [apply upd_id|]. eapply inbox_inv_update; [exact Hinv|done|done|eauto| | | |done].
  - intros e' He'. by simplify_eq.
  - by apply slot_holds_reset.
  - apply reset_seen.
Qed.

(** A new tenant starts with an empty queue; a release changes no queue. *)
Lemma inbox_claim_spec n x ib q lp ip rp pr : inbox_inv n x ib q -> n < 4294967295 ->
  let '(res, out, x') := lockbox_claim lp ip rp pr x in
  inbox_inv (n + 1) x' ib (match out with Some i => upd q i [] | None => q end).
Proof.
  intros [Hb Hl Hs Ho] Hn. pose proof (lockbox_claim_wf lp ip rp pr x Hb) as Hwf.
  assert (inbox_inv (n + 1) (lockbox_reject x) ib q) as Hrej.
  { split; [by apply lockbox_reject_wf|done| |done]. intros i s e Hi He.
    destruct (Hs i s e Hi He) as (? & ? & ?). split; [done|]. split; [done|].
    change (lockbox_get_generation i (lockbox_reject x)) with (lockbox_get_generation i x). lia. }
  revert Hwf. unfold lockbox_claim. case_match; [done|]. case_match; [done|].
  destruct (find_free (lx_table x)) as [i|] eqn:Hf; [|done]. simpl. intros Hwf.
  apply find_free_sound in Hf as (e0 & He0 & _). pose proof (lookup_lt_Some _ _ _ He0) as Hi.
  rewrite (lw_len x Hb) in Hi. destruct (lookup_lt_is_Some_2 (lx_generation x) i) as [g Hg]; [by rewrite (lw_gen x Hb)|].
  assert (forall j, lockbox_get_generation j (mkLockbox (<[i:=mkBox lp ip rp pr 0 true]> (lx_table x))
      (alter (fun g => g +32 1) i (lx_generation x)) (lx_rejected_count x)) =
      if decide (j = i) then lockbox_get_generation i x +32 1 else lockbox_get_generation j x) as Hgen.
  { intros j. unfold lockbox_get_generation. simpl. case_decide; subst.
    - by rewrite list_lookup_alter_eq, Hg.
    - by rewrite list_lookup_alter_ne. }
  split; [done|done| |].
  - intros j s e Hj He. rewrite Hgen. simpl in He. unfold upd. rewrite list_lookup_insert in He.
    case_decide as Hd; [destruct Hd as [-> _]|].
    + injection He as <-. rewrite !decide_True by done. destruct (Hs j s e0 Hj He0) as (Hsl & _ & Hr).
      rewrite u32_small by (words; lia). split; [|split; [done|lia]]. eapply slot_holds_new; [done|lia].
    + rewrite !decide_False by (intros ->; apply Hd; split; [done|]; rewrite (lw_len x Hb); done).
      destruct (Hs j s e Hj He) as (? & ? & ?). split; [done|]. split; [done|lia].
  - intros j Hj. unfold upd. case_decide; [done|by apply Ho].
Qed.

Lemma inbox_release_spec n x ib q id : inbox_inv n x ib q -> inbox_inv n (lockbox_release id x) ib q.
Proof.
  intros [Hb Hl Hs Ho]. split; [by apply lockbox_release_wf|done| |done].
  intros i s e Hi He. simpl in He. change (lockbox_get_generation i (lockbox_release id x)) with (lockbox_get_generation i x).
  destruct (decide (id = i)) as [->|]; [|rewrite list_lookup_alter_ne in He by done; by apply Hs].
  rewrite list_lookup_alter_eq in He. apply fmap_Some in He as (e0 & He0 & ->). by apply (Hs i s e0).
Qed.

(** ** Runs of the two components together *)

Inductive inbox_op :=
| OpClaim (lp : Z) (ip : ip4) (rp pr : Z)
| OpRelease (id : nat)
| OpDeposit (id : nat) (payload : list Z)
| OpRead (id max_len : nat)
| OpAvailable (id : nat).

(** What the caller of an operation sees. *)
Inductive inbox_out := OutId (i : option nat) | OutUnit | OutOk (b : bool) | OutData (d : list Z) | OutCount (n : nat).

Definition inbox_exec (op : inbox_op) (st : lockbox * inbox) : option (inbox_out * (lockbox * inbox)) :=
  let '(x, ib) := st in
  match op with
  | OpClaim lp ip rp pr => let '(_, out, x') := lockbox_claim lp ip rp pr x in Some (OutId out, (x', ib))
  | OpRelease id => Some (OutUnit, (lockbox_release id x, ib))
  | OpDeposit id payload => let '(ok, x', ib') := inbox_deposit id payload x ib in Some (OutOk ok, (x', ib'))
  | OpRead id n => '(out, x', ib') ← inbox_read id n x ib; Some (OutData out, (x', ib'))
  | OpAvailable id => let '(c, ib') := inbox_available id x ib in Some (OutCount c, (x, ib'))
  end.

(** The specification: per slot, whether it has a tenant and its byte queue. *)
Record fifo := mkFifo { ff_tenant : nat -> bool; ff_queue : nat -> list Z }.

Definition same_fifo (f f' : fifo) : Prop :=
  forall j, ff_tenant f' j = ff_tenant f j /\ ff_queue f' j = ff_queue f j.
Definition queue_becomes (f : fifo) (id : nat) (v : list Z) (f' : fifo) : Prop :=
  same_fifo (mkFifo (ff_tenant f) (upd (ff_queue f) id v)) f'.

Definition fifo_exec (op : inbox_op) (o : inbox_out) (f f' : fifo) : Prop :=
  match op, o with
  | OpClaim _ _ _ _, OutId (Some i) =>
      (i < LOCKBOX_CAPACITY)%nat /\ ff_tenant f i = false /\
      same_fifo (mkFifo (fun j => (j =? i)%nat || ff_tenant f j) (upd (ff_queue f) i [])) f'
  | OpClaim _ _ _ _, OutId None => same_fifo f f'
  | OpRelease id, OutUnit => same_fifo (mkFifo (fun j => negb (j =? id)%nat && ff_tenant f j) (ff_queue f)) f'
  | OpDeposit id payload, OutOk ok =>
      ok = ff_tenant f id && (zlen (ff_queue f id) + zlen payload <=? 4096) /\
      if ok then queue_becomes f id (ff_queue f id ++ payload) f' else same_fifo f f'
  | OpRead id n, OutData d => d = take n (ff_queue f id) /\ queue_becomes f id (drop n (ff_queue f id)) f'
  | OpAvailable id, OutCount c => c = length (ff_queue f id) /\ same_fifo f f'
  | _, _ => False
  end.

Definition op_ok (op : inbox_op) : Prop :=
  match op with OpDeposit _ payload => is_u16 (zlen payload) | _ => True end.

Fixpoint inbox_runs (ops : list inbox_op) (st : lockbox * inbox) : option (list inbox_out) :=
  match ops with
  | [] => Some []
  | op :: ops' => '(o, st') ← inbox_exec op st; os ← inbox_runs ops' st'; Some (o :: os)
  end.

(** States are taken up to equality slot by slot. *)
Inductive fifo_runs : list inbox_op -> list inbox_out -> fifo -> Prop :=
| fifo_nil f : fifo_runs [] [] f
| fifo_cons op ops o os f g f' : same_fifo f g -> fifo_exec op o g f' ->
    fifo_runs ops os f' -> fifo_runs (op :: ops) (o :: os) f.

Lemma held_tuple x i : is_Some (lockbox_get_tuple i x) <-> held x i = true.
Proof.
  unfold lockbox_get_tuple, held. destruct (lx_table x !! i) as [e|]; simpl; [|split; [intros [? ?]; done|done]].
  destruct (lb_in_use e); split; [done|eauto|intros [? ?]; done|done].
Qed.

Lemma held_deposit id n x j : held (lockbox_deposit id n x).2 j = held x j.
Proof.
  unfold lockbox_deposit. destruct (lx_table x !! id) as [e|] eqn:He; [|done].
  destruct (lb_in_use e) eqn:Hu; [|done]. cbn [negb]. destruct (_ <? _); [done|]. unfold held. simpl.
  destruct (decide (id = j)) as [<-|]; [|by rewrite list_lookup_insert_ne].
  rewrite list_lookup_insert_eq by (by eapply lookup_lt_Some). by rewrite He.
Qed.

Lemma inbox_exec_sim n op x ib q : inbox_inv n x ib q -> n < 4294967295 -> op_ok op ->
  exists o x' ib' q', inbox_exec op (x, ib) = Some (o, (x', ib')) /\
    fifo_exec op o (mkFifo (held x) q) (mkFifo (held x') q') /\ inbox_inv (n + 1) x' ib' q'.
Proof.
  intros Hinv Hn Hop.
  assert (forall x' ib' q', inbox_inv n x' ib' q' -> inbox_inv (n + 1) x' ib' q') as Hup.
  { intros x' ib' q' [? ? Hs ?]. split; [done..| |done]. intros i s e Hi He.
    destruct (Hs i s e Hi He) as (? & ? & ?). split; [done|]. split; [done|lia]. }
  destruct op as [lp ip rp pr|id|id payload|id m|id]; simpl.
  - pose proof (inbox_claim_spec n x ib q lp ip rp pr Hinv Hn) as Hc.
    pose proof (held_claim lp ip rp pr x) as Ht.
    destruct (lockbox_claim lp ip rp pr x) as [[res out] x'].
    do 4 eexists. split; [reflexivity|]. split; [|exact Hc]. rewrite <- (lw_len x (ii_box _ _ _ _ Hinv)).
    destruct out as [i|]; [|intros j; split; [apply Ht|done]].
    split; [apply (Ht i)|]. split; [apply (Ht i)|]. intros j. split; [apply Ht|done].
  - do 4 eexists. split; [reflexivity|]. split; [|apply Hup, inbox_release_spec, Hinv].
    intros j. split; [apply held_release|done].
  - pose proof (inbox_deposit_spec n x ib q id payload Hinv Hop) as Hd.
    pose proof (held_deposit id (zlen payload) x) as Ht.
    assert (forall ok x' ib', inbox_deposit id payload x ib = (ok, x', ib') -> forall j, held x' j = held x j) as Ht'.
    { unfold inbox_deposit. intros ok x' ib' E j. rewrite <- (Ht j). repeat case_match; by simplify_eq/=. }
    destruct (inbox_deposit id payload x ib) as [[ok x'] ib'] eqn:E. destruct Hd as [Hd1 Hd].
    do 4 eexists. split; [reflexivity|]. split; [|apply Hup, Hd]. split.
    + rewrite Hd1. destruct (held x id) eqn:Hten; simpl; [|by rewrite bool_decide_false by (rewrite held_tuple, Hten; naive_solver)].
      destruct (Z.leb_spec (zlen (q id) + zlen payload) 4096);
        [rewrite bool_decide_true by (rewrite held_tuple; done)|rewrite bool_decide_false by lia]; done.
    + destruct ok; intros j; (split; [by eapply Ht'|done]).
  - destruct (inbox_read_spec n x ib q id m Hinv) as (x' & ib' & E & Hr). rewrite E. simpl.
    assert (forall j, held x' j = held x j) as Ht.
    { intros j. unfold inbox_read in E. destruct (ib !! id) as [s|]; [|by simplify_eq].
      apply bind_Some in E as ([out r] & _ & E). injection E as _ <- _.
      destruct (0 <? _)%nat; [|done]. unfold held. by apply held_alter. }
    do 4 eexists. split; [reflexivity|]. split; [|apply Hup, Hr]. split; [done|]. intros j. split; [apply Ht|done].
  - pose proof (inbox_available_spec n x ib q id Hinv) as Ha.
    destruct (inbox_available id x ib) as [c ib']. destruct Ha as [-> Ha].
    do 4 eexists. split; [reflexivity|]. split; [|apply Hup, Ha]. done.
Qed.

(** C36: Inbox together with LockBox refines one byte queue per connection slot.
    From boot, any sequence (shorter than 2^32) of claims, releases, deposits,
    reads and queries runs without an out-of-range access, and the results are
    those of queues: a claim gives a free slot and empties its queue, a deposit
    is accepted exactly when the slot has a tenant and at most 4096 bytes would
    be held and then appends, a read returns and removes the oldest bytes, and
    the count is the length.  In particular no byte of an earlier tenant of a
    slot is ever returned to a later one. *)
Theorem inbox_refines_fifo ops : zlen ops < 4294967295 -> Forall op_ok ops ->
  exists os, inbox_runs ops (lockbox_init, inbox_init) = Some os /\
    fifo_runs ops os (mkFifo (fun _ => false) (fun _ => [])).
Proof.
  intros Hlen Hok.
  enough (forall n x ib t q, inbox_inv n x ib q -> (forall i, held x i = t i) -> n + zlen ops < 4294967296 ->
    exists os, inbox_runs ops (x, ib) = Some os /\ fifo_runs ops os (mkFifo t q)) as Hgen.
  { apply (Hgen 0 _ _ _ _ inbox_inv_init); [|lia]. intros i. unfold held.
    destruct (lx_table lockbox_init !! i) eqn:E; [|done]. by apply lookup_replicate in E as [-> _]. }
  clear Hlen. induction Hok as [|op ops Hop _ IH]; intros n x ib t q Hinv Ht Hn.
  - exists []. split; [done|constructor].
  - unfold zlen in Hn. simpl in Hn.
    destruct (inbox_exec_sim n op x ib q Hinv ltac:(lia) Hop) as (o & x' & ib' & q' & Hex & Hf & Hinv').
    destruct (IH (n + 1) x' ib' (held x') q' Hinv' (fun _ => eq_refl) ltac:(unfold zlen; lia)) as (os & Hrun & Hfs).
    exists (o :: os). cbn [inbox_runs]. rewrite Hex. cbn [mbind option_bind]. rewrite Hrun. split; [done|].
    econstructor; [|exact Hf|exact Hfs]. intros j. split; [apply Ht|done].
Qed.

Lemma inbox_refines_fifo_witness : exists os,
  inbox_runs [OpClaim 80 [10;0;2;2] 4000 6; OpDeposit 0 [1;2;3]; OpRead 0 2; OpRelease 0;
              OpClaim 80 [10;0;2;3] 4001 6; OpAvailable 0] (lockbox_init, inbox_init) = Some os.
Proof.
  destruct (inbox_refines_fifo [OpClaim 80 [10;0;2;2] 4000 6; OpDeposit 0 [1;2;3]; OpRead 0 2; OpRelease 0;
              OpClaim 80 [10;0;2;3] 4001 6; OpAvailable 0]) as (os & H & _).
  - unfold zlen. simpl. lia.
  - repeat constructor; simpl; unfold zlen; simpl; lia.
  - exists os. exact H.
Defined.

End Inbox.

Module Postbox.

Definition POSTBOX_MAX_PENDING : nat := 8.
Definition POSTBOX_MAX_DATAGRAM : Z := 576.

(** [ev_data] is the first [len] bytes of the envelope's buffer. *)
Record envelope := mkEnvelope { ev_src_ip : ip4; ev_src_port : Z; ev_data : list Z }.

(** One row of the source's arrays [queue], [head], [tail] and [pending]. *)
Record postbox_slot := mkPostbox {
  pb_queue : list envelope; pb_head : nat; pb_tail : nat; pb_pending : nat }.
Notation postbox := (list postbox_slot).

Definition postbox_init : postbox :=
  replicate LOCKBOX_CAPACITY (mkPostbox (replicate POSTBOX_MAX_PENDING (mkEnvelope [0;0;0;0] 0 [])) 0 0 0).

Definition postbox_deposit (slot : nat) (src_ip : ip4) (src_port : Z) (data : list Z) (pb : postbox)
    : bool * postbox :=
  match pb !! slot with
  | None => (false, pb)
  | Some s =>
      if POSTBOX_MAX_DATAGRAM <? zlen data then (false, pb)
      else if (POSTBOX_MAX_PENDING <=? pb_pending s)%nat then (false, pb)
      else (true, <[slot := mkPostbox (<[pb_tail s := mkEnvelope src_ip src_port data]> (pb_queue s))
                              (pb_head s) ((pb_tail s + 1) mod POSTBOX_MAX_PENDING)%nat (S (pb_pending s))]> pb)
  end.

(** The outer option is an out-of-range access; the inner one is [None] when
    nothing is pending, and otherwise the sender and the bytes copied. *)
Definition postbox_read (slot max_len : nat) (pb : postbox) : option (option (ip4 * Z * list Z) * postbox) :=
  match pb !! slot with
  | None => Some (None, pb)
  | Some s =>
      if (pb_pending s =? 0)%nat then Some (None, pb) else
      e ← pb_queue s !! pb_head s;
      let n := if (max_len <? length (ev_data e))%nat then max_len else length (ev_data e) in
      Some (Some (ev_src_ip e, ev_src_port e, take n (ev_data e)),
            <[slot := mkPostbox (pb_queue s) ((pb_head s + 1) mod POSTBOX_MAX_PENDING)%nat (pb_tail s)
                        (pb_pending s - 1)%nat]> pb)
  end.

Definition postbox_pending_count (slot : nat) (pb : postbox) : nat :=
  match pb !! slot with None => 0%nat | Some s => pb_pending s end.

(** Slot [i] holds the datagrams [q i], oldest first. *)
Record postbox_inv (pb : postbox) (q : nat -> list envelope) : Prop := {
  pi_len : length pb = LOCKBOX_CAPACITY;
  pi_slot : forall i s, pb !! i = Some s ->
    ring_holds POSTBOX_MAX_PENDING (pb_queue s) (pb_head s) (pb_pending s) (q i) /\
    pb_tail s = ((pb_head s + pb_pending s) mod POSTBOX_MAX_PENDING)%nat;
  pi_out : forall i, (LOCKBOX_CAPACITY <= i)%nat -> q i = [] }.

Lemma postbox_inv_init : postbox_inv postbox_init (fun _ => []).
Proof.
  split; [done| |done]. intros i s Hs. apply lookup_replicate in Hs as [-> _]. split; [|done].
  apply ring_empty; [done|]. simpl. unfold POSTBOX_MAX_PENDING. lia.
Qed.

Definition updq (q : nat -> list envelope) (i : nat) (v : list envelope) : nat -> list envelope :=
  fun j => if decide (j = i) then v else q j.

Lemma postbox_inv_update pb q i s v : postbox_inv pb q -> (i < LOCKBOX_CAPACITY)%nat ->
  ring_holds POSTBOX_MAX_PENDING (pb_queue s) (pb_head s) (pb_pending s) v ->
  pb_tail s = ((pb_head s + pb_pending s) mod POSTBOX_MAX_PENDING)%nat ->
  postbox_inv (<[i := s]> pb) (updq q i v).
Proof.
  intros [Hl Hs Ho] Hi Hr Ht. unfold updq. split; [by rewrite length_insert| |].
  - intros j s' Hj. rewrite list_lookup_insert in Hj. case_decide as Hd.
    + destruct Hd as [<- _]. injection Hj as <-. by rewrite decide_True.
    + rewrite decide_False by (intros ->; apply Hd; split; [done|lia]). by apply Hs.
  - intros j Hj. rewrite decide_False by lia. by apply Ho.
Qed.

Lemma postbox_deposit_spec pb q slot : postbox_inv pb q -> forall src_ip src_port data,
  let r := postbox_deposit slot src_ip src_port data pb in
  fst r = bool_decide (slot < 64 /\ length (q slot) < 8)%nat && (zlen data <=? 576) /\
  postbox_inv (snd r) (if fst r then updq q slot (q slot ++ [mkEnvelope src_ip src_port data]) else q).
Proof.
  intros Hinv src_ip src_port data. pose proof Hinv as [Hl Hs Ho]. unfold postbox_deposit.
  destruct (pb !! slot) as [s|] eqn:E.
  2:{ apply lookup_ge_None in E. rewrite Hl in E. simpl. rewrite bool_decide_false by (unfold LOCKBOX_CAPACITY in E; lia). done. }
  pose proof (lookup_lt_Some _ _ _ E) as Hlt. rewrite Hl in Hlt.
  destruct (Hs slot s E) as [Hr Ht]. pose proof (rh_cnt _ _ _ _ _ Hr) as Hc. unfold POSTBOX_MAX_DATAGRAM.
  destruct (Z.ltb_spec 576 (zlen data)); [destruct (Z.leb_spec (zlen data) 576); [lia|]; simpl; by rewrite andb_false_r|].
  destruct (Z.leb_spec (zlen data) 576); [|lia].
  destruct (Nat.leb_spec POSTBOX_MAX_PENDING (pb_pending s)) as [Hfull|Hroom]; simpl.
  { rewrite bool_decide_false by (unfold POSTBOX_MAX_PENDING in Hfull; lia). done. }
  rewrite bool_decide_true by (unfold POSTBOX_MAX_PENDING, LOCKBOX_CAPACITY in *; lia). split; [done|].
  apply postbox_inv_update; [done|done| |]; cbn [pb_queue pb_head pb_pending pb_tail].
  - rewrite Ht. apply ring_push; [unfold POSTBOX_MAX_PENDING; lia|done|done].
  - rewrite Ht, Nat.Div0.add_mod_idemp_l. f_equal. lia.
Qed.

Lemma updq_id pb q slot : postbox_inv pb q -> postbox_inv pb (updq q slot (q slot)).
Proof. intros [Hl Hs Ho]. split; [done| |]; intros i; unfold updq; case_decide; subst; auto. Qed.

Lemma postbox_read_spec pb q slot max_len : postbox_inv pb q ->
  exists r pb', postbox_read slot max_len pb = Some (r, pb') /\
    postbox_inv pb' (updq q slot (tail (q slot))) /\
    r = match q slot with
        | [] => None
        | e :: _ => Some (ev_src_ip e, ev_src_port e, take max_len (ev_data e))
        end.
Proof.
  intros Hinv. pose proof (updq_id pb q slot Hinv) as Hsame. pose proof Hinv as [Hl Hs Ho].
  unfold postbox_read. destruct (pb !! slot) as [s|] eqn:E.
  2:{ apply lookup_ge_None in E. rewrite Hl in E. rewrite (Ho slot E) in *. do 2 eexists. split; [done|]. done. }
  pose proof (lookup_lt_Some _ _ _ E) as Hlt. rewrite Hl in Hlt.
  destruct (Hs slot s E) as [Hr Ht]. pose proof (rh_cnt _ _ _ _ _ Hr) as Hc.
  destruct (q slot) as [|e q'] eqn:Hq; simpl in Hc.
  { rewrite <- Hc. simpl. do 2 eexists. done. }
  rewrite <- Hc in Hr, Ht |- *. destruct (ring_pop POSTBOX_MAX_PENDING ltac:(unfold POSTBOX_MAX_PENDING; lia) _ _ _ _ _ Hr) as [Hhd Hr'].
  change (S (length q') =? 0)%nat with false. cbv iota. rewrite Hhd. cbn [mbind option_bind]. do 2 eexists.
  split; [reflexivity|]. split.
  - apply postbox_inv_update; [done|done| |]; cbn [pb_queue pb_head pb_pending pb_tail tail].
    + by rewrite Nat.sub_succ, Nat.sub_0_r.
    + rewrite Ht, Nat.Div0.add_mod_idemp_l. f_equal. lia.
  - do 2 f_equal. destruct (Nat.ltb_spec max_len (length (ev_data e))); [done|]. by rewrite !take_ge by lia.
Qed.

(** Postbox is a bounded first-in first-out queue of datagrams per slot.  In
    any state that holds the queues [q]: a deposit is accepted exactly when the
    slot exists, the datagram has at most 576 bytes and fewer than eight are
    pending, and then it is appended; a read never leaves the buffer, and
    returns the oldest datagram's sender with its first [max_len] bytes,
    removing it; the other slots are untouched. *)
Lemma postbox_fifo pb q slot : postbox_inv pb q ->
  postbox_pending_count slot pb = length (q slot) /\
  (forall src_ip src_port data,
    let '(ok, pb') := postbox_deposit slot src_ip src_port data pb in
    ok = bool_decide (slot < 64 /\ length (q slot) < 8)%nat && (zlen data <=? 576) /\
    postbox_inv pb' (if ok : bool then updq q slot (q slot ++ [mkEnvelope src_ip src_port data]) else q)) /\
  (forall max_len, exists r pb', postbox_read slot max_len pb = Some (r, pb') /\
    postbox_inv pb' (updq q slot (tail (q slot))) /\
    r = match q slot with
        | [] => None
        | e :: _ => Some (ev_src_ip e, ev_src_port e, take max_len (ev_data e))
        end).
Proof.
  intros Hinv. pose proof Hinv as [Hl Hs Ho]. split; [|split].
  - unfold postbox_pending_count. destruct (pb !! slot) as [s|] eqn:E.
    + destruct (Hs slot s E) as [Hr _]. symmetry. apply Hr.
    + apply lookup_ge_None in E. rewrite Hl in E. by rewrite (Ho slot E).
  - intros src_ip src_port data. pose proof (postbox_deposit_spec pb q slot Hinv src_ip src_port data) as Hd.
    by destruct (postbox_deposit slot src_ip src_port data pb) as [ok pb'].
  - intros max_len. by apply postbox_read_spec.
Qed.

Lemma postbox_fifo_witness : postbox_pending_count 3 postbox_init = 0%nat.
Proof. exact (proj1 (postbox_fifo postbox_init (fun _ => []) 3 postbox_inv_init)). Defined.

(** Unlike Inbox, Postbox does not notice a new tenant: what was pending when a
    slot was released is read by whoever claims the slot next. *)
Lemma postbox_survives_release :
  let x1 := (lockbox_listen 68 17 lockbox_init).2 in
  let pb1 := (postbox_deposit 0 [10;0;2;2] 67 [42] postbox_init).2 in
  let '(_, id, x2) := lockbox_listen 53 17 (lockbox_release 0 x1) in
  id = Some 0%nat /\ (fst <$> postbox_read 0 100 pb1) = Some (Some ([10;0;2;2], 67, [42])).
Proof. vm_compute. done. Qed.

End Postbox.
