(* ===== verification/Why.v ===== *)
(** * Why, Lottery and SynCookie

    [Networking/Why/why.c]: per connection, how often each reason held it back;
    [Networking/Lottery/lottery.c]: initial sequence numbers;
    [Networking/SynCookie/syncookie.c]: stateless SYN cookies under load. *)

From S2P Require Import Prelude SlotTable GuestList LockBox.

Module Why.

Definition WHY_SAY_EVERY_TICKS : Z := 100.

Inductive why_reason :=
  WHY_NONE | WHY_SEND_WAITING_ACK | WHY_CLOSE_WAITING_ACK | WHY_OUT_OF_ORDER
| WHY_STALE_RETRANSMIT | WHY_RETRANSMIT_TIMEOUT | WHY_PEER_WINDOW_FULL.
#[export] Instance why_reason_eq : EqDecision why_reason.
Proof. solve_decision. Defined.

(** The column of a reason in the source's tables. *)
Definition why_index (r : why_reason) : nat :=
  match r with
  | WHY_NONE => 0 | WHY_SEND_WAITING_ACK => 1 | WHY_CLOSE_WAITING_ACK => 2 | WHY_OUT_OF_ORDER => 3
  | WHY_STALE_RETRANSMIT => 4 | WHY_RETRANSMIT_TIMEOUT => 5 | WHY_PEER_WINDOW_FULL => 6
  end%nat.
Definition WHY_COUNT : nat := 7.
Definition why_reasons : list why_reason :=
  [WHY_SEND_WAITING_ACK; WHY_CLOSE_WAITING_ACK; WHY_OUT_OF_ORDER; WHY_STALE_RETRANSMIT;
   WHY_RETRANSMIT_TIMEOUT; WHY_PEER_WINDOW_FULL].

(** One row of [counts] and [last_said]. *)
Record why_row := mkWhy { wy_counts : list Z; wy_last_said : list Z }.
Definition why_init : list why_row :=
  replicate LOCKBOX_CAPACITY (mkWhy (replicate WHY_COUNT 0) (replicate WHY_COUNT 0)).

Definition cell (l : list Z) (r : why_reason) : Z := default 0 (l !! why_index r).

Definition why_note (now : Z) (conn_id : nat) (reason : why_reason) (w : list why_row) : bool * list why_row :=
  match w !! conn_id with
  | None => (false, w)
  | Some row =>
      if bool_decide (reason = WHY_NONE) then (false, w) else
      let say := (cell (wy_counts row) reason =? 0) ||
                 (WHY_SAY_EVERY_TICKS <=? (now -32 cell (wy_last_said row) reason)) in
      (say, <[conn_id := mkWhy (alter (fun c => c +32 1) (why_index reason) (wy_counts row))
                           (if say then <[why_index reason := now]> (wy_last_said row) else wy_last_said row)]> w)
  end.

Definition why_count (conn_id : nat) (reason : why_reason) (w : list why_row) : Z :=
  match w !! conn_id with
  | None => 0
  | Some row => if bool_decide (reason = WHY_NONE) then 0 else cell (wy_counts row) reason
  end.

(** The loop of [why_top_reason] over the reasons still to look at. *)
Fixpoint why_best (counts : list Z) (best : why_reason) (rs : list why_reason) : why_reason :=
  match rs with
  | [] => best
  | r :: rs' =>
      let bar := if bool_decide (best = WHY_NONE) then 0 else cell counts best in
      why_best counts (if bar <? cell counts r then r else best) rs'
  end.
Definition why_top_reason (conn_id : nat) (w : list why_row) : why_reason :=
  match w !! conn_id with None => WHY_NONE | Some row => why_best (wy_counts row) WHY_NONE why_reasons end.

Definition bar_of (counts : list Z) (best : why_reason) : Z :=
  if bool_decide (best = WHY_NONE) then 0 else cell counts best.

Lemma why_best_max counts best rs : WHY_NONE ∉ rs ->
  bar_of counts best <= bar_of counts (why_best counts best rs) /\
  Forall (fun r => cell counts r <= bar_of counts (why_best counts best rs)) rs.
Proof.
  revert best. induction rs as [|r rs IH]; intros best Hn; simpl; [done|].
  apply not_elem_of_cons in Hn as [Hr Hn]. change (if bool_decide (best = WHY_NONE) then 0 else _) with (bar_of counts best).
  assert (bar_of counts r = cell counts r) as Hbr by (unfold bar_of; by rewrite bool_decide_false).
  destruct (Z.ltb_spec (bar_of counts best) (cell counts r)).
  - destruct (IH r Hn) as [H1 H2]. rewrite Hbr in H1. split; [lia|]. by constructor.
  - destruct (IH best Hn) as [H1 H2]. split; [lia|]. constructor; [lia|done].
Qed.

(** The reported reason has the largest count of all. *)
Lemma why_top_reason_max conn_id r w : r <> WHY_NONE ->
  why_count conn_id r w <= Z.max 0 (why_count conn_id (why_top_reason conn_id w) w).
Proof.
  intros Hr. unfold why_count, why_top_reason. destruct (w !! conn_id) as [row|]; [|lia].
  rewrite (bool_decide_false (r = WHY_NONE)) by done.
  destruct (why_best_max (wy_counts row) WHY_NONE why_reasons) as [_ Hall].
  { vm_compute. intros H. repeat (apply elem_of_cons in H as [H|H]; [done|]). by apply not_elem_of_nil in H. }
  assert (r ∈ why_reasons) as Hin. { apply list_elem_of_lookup. exists (pred (why_index r)). by destruct r. }
  apply list_elem_of_lookup in Hin as [i Hi]. apply (Forall_lookup_1 _ _ _ _ Hall) in Hi. cbv beta in Hi. unfold bar_of in Hi. lia.
Qed.

End Why.

Module Lottery.

Record lottery := mkLottery { lt_boot_secret : Z; lt_call_counter : Z }.

Definition mix32 (x : Z) : Z :=
  let x := Z.lxor x (Z.shiftr x 16) in
  let x := x *32 0x85ebca6b in
  let x := Z.lxor x (Z.shiftr x 13) in
  let x := x *32 0xc2b2ae35 in
  Z.lxor x (Z.shiftr x 16).

Definition lottery_init (now : Z) : lottery := mkLottery (mix32 (Z.lxor now 0x9E3779B9)) 0.

(** The four bytes of an address as one word. *)
Definition ip_word (ip : ip4) : Z :=
  match ip with [a; b; c; d] => be32 a b c d | _ => 0 end.
Definition port_word (hi lo : Z) : Z := Z.lor (Z.shiftl hi 16) lo.

Definition lottery_draw_isn (now : Z) (local_ip : ip4) (local_port : Z) (remote_ip : ip4) (remote_port : Z)
    (l : lottery) : Z * lottery :=
  let h := lt_boot_secret l in
  let h := mix32 (Z.lxor h (mix32 (ip_word local_ip))) in
  let h := mix32 (Z.lxor h (mix32 (ip_word remote_ip))) in
  let h := mix32 (Z.lxor h (mix32 (port_word local_port remote_port))) in
  let h := mix32 (Z.lxor h (mix32 now)) in
  let h := mix32 (Z.lxor h (mix32 (lt_call_counter l))) in
  (h, mkLottery (lt_boot_secret l) (lt_call_counter l +32 1)).

Lemma lxor_range a b : is_u32 a -> is_u32 b -> is_u32 (Z.lxor a b).
Proof.
  intros Ha Hb. split; [apply Z.lxor_nonneg; words; lia|].
  destruct (decide (Z.lxor a b = 0)) as [->|Hz]; [lia|].
  assert (0 <= Z.lxor a b) by (apply Z.lxor_nonneg; words; lia).
  change 4294967296 with (2 ^ 32). apply Z.log2_lt_pow2; [lia|].
  eapply Z.le_lt_trans; [apply Z.log2_lxor; words; lia|]. apply Z.max_lub_lt.
  all: match goal with |- Z.log2 ?c < 32 => destruct (decide (c = 0)) as [->|]; [reflexivity|apply Z.log2_lt_pow2; words; lia] end.
Qed.

Lemma shiftr_range a n : is_u32 a -> 0 <= n -> is_u32 (Z.shiftr a n).
Proof.
  intros Ha Hn. unfold is_u32. rewrite Z.shiftr_div_pow2 by lia. words.
  split; [apply Z.div_pos; lia|]. eapply Z.le_lt_trans; [apply Z.div_le_upper_bound with (q := a)|]; [lia| |lia].
  pose proof (Z.pow_pos_nonneg 2 n). nia.
Qed.

Lemma mix32_range x : is_u32 x -> is_u32 (mix32 x).
Proof. intros. unfold mix32. repeat first [apply lxor_range | apply shiftr_range | apply u32_range | lia | done]. Qed.

(** ** The mixing functions lose nothing *)

Lemma lxor_cancel a b c : Z.lxor a b = Z.lxor a c -> b = c.
Proof.
  intros E. apply (f_equal (Z.lxor a)) in E. by rewrite <- !Z.lxor_assoc, Z.lxor_nilpotent, !Z.lxor_0_l in E.
Qed.

Lemma lxor_cancel_r a b c : Z.lxor b a = Z.lxor c a -> b = c.
Proof. rewrite !(Z.lxor_comm _ a). apply lxor_cancel. Qed.

(** [x ^= x >> k] *)
Lemma xorshift_inj k x y : 0 < k -> is_u32 x -> is_u32 y ->
  Z.lxor x (Z.shiftr x k) = Z.lxor y (Z.shiftr y k) -> x = y.
Proof.
  intros Hk Hx Hy E. apply Z.lxor_eq. set (d := Z.lxor x y).
  assert (d = Z.shiftr d k) as Hd.
  { unfold d. rewrite Z.shiftr_lxor. apply (f_equal (fun z => Z.lxor (Z.lxor z y) (Z.shiftr x k))) in E.
    rewrite !Z.lxor_assoc in E. rewrite (Z.lxor_comm (Z.shiftr x k)), !Z.lxor_assoc, Z.lxor_nilpotent, Z.lxor_0_r in E.
    rewrite E, (Z.lxor_comm y), !Z.lxor_assoc, (Z.lxor_comm (Z.shiftr x k) y), <- (Z.lxor_assoc y y), Z.lxor_nilpotent, Z.lxor_0_l.
    apply Z.lxor_comm. }
  assert (0 <= d) by (apply Z.lxor_nonneg; words; lia).
  rewrite Z.shiftr_div_pow2 in Hd by lia. destruct (decide (d = 0)) as [|Hn]; [done|].
  assert (1 < 2 ^ k) by (apply Z.pow_gt_1; lia).
  pose proof (Z.div_lt d (2 ^ k) ltac:(lia) ltac:(lia)). lia.
Qed.

(** Multiplication by an odd constant, given its inverse. *)
Lemma mul_inj m inv x y : u32 (m * inv) = 1 -> is_u32 x -> is_u32 y -> x *32 m = y *32 m -> x = y.
Proof.
  intros Hm Hx Hy E. apply (f_equal (fun z => u32 (z * inv))) in E. unfold u32 in *.
  rewrite !Z.mul_mod_idemp_l, <- !Z.mul_assoc in E by lia.
  rewrite <- (Z.mul_mod_idemp_r x), <- (Z.mul_mod_idemp_r y), Hm, !Z.mul_1_r in E by lia.
  by rewrite !Z.mod_small in E by done.
Qed.

Definition xs (k x : Z) : Z := Z.lxor x (Z.shiftr x k).
Definition mul (m x : Z) : Z := x *32 m.

Lemma xs_range k x : 0 <= k -> is_u32 x -> is_u32 (xs k x).
Proof. intros. by apply lxor_range, shiftr_range. Qed.
Lemma mul_range m x : is_u32 (mul m x).
Proof. apply u32_range. Qed.

Lemma mix32_inj x y : is_u32 x -> is_u32 y -> mix32 x = mix32 y -> x = y.
Proof.
  intros Hx Hy E.
  change (xs 16 (mul 0xc2b2ae35 (xs 13 (mul 0x85ebca6b (xs 16 x)))) =
          xs 16 (mul 0xc2b2ae35 (xs 13 (mul 0x85ebca6b (xs 16 y))))) in E.
  apply xorshift_inj in E; [|lia|apply mul_range|apply mul_range].
  apply (mul_inj _ 2127672349) in E; [|reflexivity|by apply xs_range, mul_range|by apply xs_range, mul_range].
  apply xorshift_inj in E; [|lia|apply mul_range|apply mul_range].
  apply (mul_inj _ 2781581891) in E; [|reflexivity|by apply xs_range|by apply xs_range].
  by apply xorshift_inj in E.
Qed.

#[global] Opaque mix32.

(** Two initial sequence numbers drawn at the same tick for the same
    connection are different, as long as the draw counter has not come round
    in between: the mixing loses nothing of the counter. *)
Lemma lottery_isn_distinct now lip lport rip rport s c1 c2 :
  is_u32 s -> is_u32 now -> is_u16 lport -> is_u16 rport -> is_u32 c1 -> is_u32 c2 -> c1 <> c2 ->
  fst (lottery_draw_isn now lip lport rip rport (mkLottery s c1)) <>
  fst (lottery_draw_isn now lip lport rip rport (mkLottery s c2)).
Proof.
  intros Hs Hn Hlp Hrp H1 H2 Hne E. apply Hne. unfold lottery_draw_isn in E. cbv beta zeta in E. cbn [fst lt_boot_secret lt_call_counter] in E.
  assert (forall ip, is_u32 (ip_word ip)) as Hip.
  { intros ip. unfold ip_word. repeat case_match; try (words; lia). apply u32_range. }
  assert (is_u32 (port_word lport rport)) as Hpw.
  { unfold port_word. rewrite lor_shift_add by (words; lia). change (2 ^ 16) with 65536. words. lia. }
  assert (forall a b, is_u32 a -> is_u32 b -> is_u32 (mix32 (Z.lxor a (mix32 b)))) as Hstep.
  { intros. apply mix32_range, lxor_range; [done|]. by apply mix32_range. }
  match type of E with mix32 (Z.lxor ?h _) = _ => assert (is_u32 h) as Hh by (repeat apply Hstep; done) end.
  apply mix32_inj in E; [|apply lxor_range; [exact Hh|by apply mix32_range]..].
  apply lxor_cancel in E. by apply mix32_inj in E.
Qed.

Lemma lottery_isn_distinct_witness :
  fst (lottery_draw_isn 7 [10;0;2;15] 80 [10;0;2;2] 4000 (mkLottery 99 0)) <>
  fst (lottery_draw_isn 7 [10;0;2;15] 80 [10;0;2;2] 4000 (mkLottery 99 1)).
Proof. apply (lottery_isn_distinct 7 [10;0;2;15] 80 [10;0;2;2] 4000 99 0 1); unfold is_u32, is_u16; lia. Defined.

End Lottery.

Module SynCookie.
Import Lottery.

Definition TIME_BUCKET_SHIFT : Z := 5.
Definition SYNCOOKIE_LOAD_NUM : Z := 3.
Definition SYNCOOKIE_LOAD_DEN : Z := 4.

Record syncookie := mkCookie { sc_secret : Z; sc_secret_ready : bool; sc_lottery : lottery }.

Definition ensure_secret (now : Z) (s : syncookie) : syncookie :=
  if sc_secret_ready s then s else
  let '(isn, l) := lottery_draw_isn now [10;0;2;15] 12345 [1;2;3;4] 54321 (sc_lottery s) in
  mkCookie (Z.lxor isn now) true l.

Definition mix (secret a b c d : Z) : Z :=
  let h := Z.lxor secret a *32 0x9E3779B1 in
  let h := Z.lxor h b *32 0x85EBCA77 in
  let h := Z.lxor h c *32 0xC2B2AE3D in
  let h := Z.lxor h d *32 0x27D4EB2F in
  Z.lxor h (Z.shiftr h 15).

Definition compute (now : Z) (src_ip : ip4) (src_port : Z) (dst_ip : ip4) (dst_port time_bucket : Z)
    (s : syncookie) : Z * syncookie :=
  let s := ensure_secret now s in
  (mix (sc_secret s) (ip_word src_ip) (ip_word dst_ip) (port_word src_port dst_port) time_bucket, s).

Definition syncookie_should_activate (x : lockbox) : bool :=
  Z.of_nat LOCKBOX_CAPACITY * SYNCOOKIE_LOAD_NUM <=? lockbox_active_count x * SYNCOOKIE_LOAD_DEN.

Definition syncookie_generate (now : Z) (src_ip : ip4) (src_port : Z) (dst_ip : ip4) (dst_port : Z)
    (s : syncookie) : Z * syncookie :=
  compute now src_ip src_port dst_ip dst_port (Z.shiftr now TIME_BUCKET_SHIFT) s.

Definition syncookie_validate (now : Z) (src_ip : ip4) (src_port : Z) (dst_ip : ip4) (dst_port ack_num : Z)
    (s : syncookie) : bool * syncookie :=
  let bucket := Z.shiftr now TIME_BUCKET_SHIFT in
  let expected_seq := ack_num -32 1 in
  let '(c, s) := compute now src_ip src_port dst_ip dst_port bucket s in
  if expected_seq =? c then (true, s) else
  if 0 <? bucket then
    let '(c, s) := compute now src_ip src_port dst_ip dst_port (bucket -32 1) s in
    (expected_seq =? c, s)
  else (false, s).

Lemma ensure_ready now s : sc_secret_ready (ensure_secret now s) = true.
Proof. unfold ensure_secret. destruct (sc_secret_ready s) eqn:E; done. Qed.

Lemma ensure_again now now' s : ensure_secret now' (ensure_secret now s) = ensure_secret now s.
Proof. unfold ensure_secret at 1. by rewrite ensure_ready. Qed.

Lemma mix_range secret a b c d : is_u32 secret -> is_u32 (mix secret a b c d).
Proof. intros. unfold mix. repeat first [apply lxor_range | apply shiftr_range | apply u32_range | lia]. Qed.

(** [mix] is one-to-one in each of the words it is given. *)
Lemma mix_inj_ip secret a a' b c d : is_u32 secret -> is_u32 a -> is_u32 a' -> is_u32 b -> is_u32 c -> is_u32 d ->
  mix secret a b c d = mix secret a' b c d -> a = a'.
Proof.
  intros Hs Ha Ha' Hb Hc Hd E.
  change (xs 15 (mul 0x27D4EB2F (Z.lxor (mul 0xC2B2AE3D (Z.lxor (mul 0x85EBCA77 (Z.lxor (mul 0x9E3779B1
            (Z.lxor secret a)) b)) c)) d)) =
          xs 15 (mul 0x27D4EB2F (Z.lxor (mul 0xC2B2AE3D (Z.lxor (mul 0x85EBCA77 (Z.lxor (mul 0x9E3779B1
            (Z.lxor secret a')) b)) c)) d))) in E.
  assert (forall m z w, is_u32 w -> is_u32 (Z.lxor (mul m z) w)) as Hr by (intros; apply lxor_range; [apply mul_range|done]).
  apply xorshift_inj in E; [|lia|apply mul_range|apply mul_range].
  apply (mul_inj _ 2701016015) in E; [|reflexivity|by apply Hr|by apply Hr]. apply lxor_cancel_r in E.
  apply (mul_inj _ 2828982549) in E; [|reflexivity|by apply Hr|by apply Hr]. apply lxor_cancel_r in E.
  apply (mul_inj _ 3066638151) in E; [|reflexivity|by apply Hr|by apply Hr]. apply lxor_cancel_r in E.
  apply (mul_inj _ 244002641) in E; [|reflexivity|by apply lxor_range|by apply lxor_range].
  by apply lxor_cancel in E.
Qed.

(** SYN cookies round trip and cannot be used from another address.  A
    cookie generated for a connection is accepted when it comes back as
    cookie + 1 in the same or the next 32-tick period, whatever the secret; and
    in the period it was made, the same acknowledgement from any other source
    address (same ports, same destination) is not the current period's cookie. *)
Lemma syncookie_roundtrip t t' sip sport dip dport s cookie s' :
  is_u32 t -> is_u32 t' -> (sc_secret_ready s = true -> is_u32 (sc_secret s)) -> is_u32 (lt_boot_secret (sc_lottery s)) ->
  is_u32 (lt_call_counter (sc_lottery s)) -> is_u16 sport -> is_u16 dport ->
  syncookie_generate t sip sport dip dport s = (cookie, s') ->
  (Z.shiftr t' 5 = Z.shiftr t 5 \/ Z.shiftr t' 5 = Z.shiftr t 5 + 1 ->
   fst (syncookie_validate t' sip sport dip dport (cookie +32 1) s') = true) /\
  forall sip', ip_word sip' <> ip_word sip ->
    fst (syncookie_generate t sip' sport dip dport s') <> cookie.
Proof.
  intros Ht Ht' Hsec Hl Hcc Hsp Hdp Hgen. unfold syncookie_generate, compute, TIME_BUCKET_SHIFT in *.
  injection Hgen as <- <-.
  assert (forall ip, is_u32 (ip_word ip)) as Hip.
  { intros ip. unfold ip_word. repeat case_match; try (words; lia). apply u32_range. }
  assert (is_u32 (port_word sport dport)) as Hpw.
  { unfold port_word. rewrite lor_shift_add by (words; lia). change (2 ^ 16) with 65536. words. lia. }
  assert (is_u32 (sc_secret (ensure_secret t s))) as Hs.
  { unfold ensure_secret. destruct (sc_secret_ready s); [by apply Hsec|]. simpl. apply lxor_range; [|done].
    repeat first [apply mix32_range | apply lxor_range]; first [done | apply Hip | by vm_compute]. }
  split.
  - intros Hb. unfold syncookie_validate, compute, TIME_BUCKET_SHIFT. rewrite !ensure_again.
    set (c := mix _ _ _ _ (Z.shiftr t 5)). assert (is_u32 c) as Hc by (by apply mix_range).
    assert ((c +32 1) -32 1 = c) as ->.
    { unfold u32. rewrite Zminus_mod_idemp_l. replace (c + 1 - 1) with c by lia. by apply u32_small. }
    assert (0 <= Z.shiftr t 5 < 4294967295) as Hr.
    { rewrite Z.shiftr_div_pow2 by lia. change (2 ^ 5) with 32. words. lia_mod. }
    destruct Hb as [->| ->].
    + fold c. by rewrite Z.eqb_refl.
    + destruct (c =? _); [done|]. destruct (Z.ltb_spec 0 (Z.shiftr t 5 + 1)); [|lia]. simpl.
      replace (Z.shiftr t 5 + 1 - 1) with (Z.shiftr t 5) by lia. rewrite (u32_small (Z.shiftr t 5)) by (words; lia).
      fold c. by rewrite Z.eqb_refl.
  - intros sip' Hne. rewrite !ensure_again. simpl. intros E.
    apply mix_inj_ip in E; [done|auto..]. apply shiftr_range; [done|lia].
Qed.

Lemma syncookie_roundtrip_witness :
  let s0 := mkCookie 0 false (lottery_init 3) in
  let '(c, s1) := syncookie_generate 100 [10;0;2;2] 4000 [10;0;2;15] 80 s0 in
  fst (syncookie_validate 130 [10;0;2;2] 4000 [10;0;2;15] 80 (c +32 1) s1) = true.
Proof.
  cbv zeta. destruct (syncookie_generate 100 [10;0;2;2] 4000 [10;0;2;15] 80 (mkCookie 0 false (lottery_init 3))) as [c s1] eqn:E.
  refine (proj1 (syncookie_roundtrip 100 130 [10;0;2;2] 4000 [10;0;2;15] 80 (mkCookie 0 false (lottery_init 3)) c s1 _ _ _ _ _ _ _ E) _);
    [unfold is_u32; lia|unfold is_u32; lia|done|vm_compute; split; [intros H; discriminate H|reflexivity]|unfold is_u32; simpl; lia
    |unfold is_u16; lia|unfold is_u16; lia|right; reflexivity].
Defined.

(** Cookies are used exactly from three quarters of the table on. *)
Lemma syncookie_load x : syncookie_should_activate x = true <-> 48 <= lockbox_active_count x.
Proof. unfold syncookie_should_activate, SYNCOOKIE_LOAD_NUM, SYNCOOKIE_LOAD_DEN, LOCKBOX_CAPACITY. rewrite Z.leb_le. lia. Qed.

End SynCookie.
