(* ===== verification/Scheduler.v ===== *)
(** * Scheduler, retransmission

    [Networking/Scheduler/scheduler.c]: per connection a window of four unacked
    segments, a round-trip estimate and a retry counter.  [scheduler_tick],
    which resets connections that fail, is in Transport.v because it calls back
    into Rapport. *)

From S2P Require Import Prelude SlotTable GuestList Bailiff Rolodex Foyer LockBox Why.
Import Why.

Definition RETRY_LIMIT : Z := 8.
Definition SCHED_INITIAL_RTO : Z := 100.
Definition SCHED_MIN_RTO : Z := 20.
Definition SCHED_MAX_RTO : Z := 1000.
Definition SCHED_DUP_ACK_THRESHOLD : Z := 3.
Definition SCHED_MAX_FRAME : Z := BAILIFF_MAX_FRAME.
Definition SCHED_WINDOW : nat := 4.

Inductive packet_sched_state :=
  PACKET_STATE_IDLE | PACKET_STATE_RETRY | PACKET_STATE_FAILURE | PACKET_STATE_DROPPED.
#[export] Instance packet_sched_state_eq : EqDecision packet_sched_state.
Proof. solve_decision. Defined.

(** [sg_frame] is the first [length] bytes of the stored frame. *)
Record sched_segment := mkSeg {
  sg_seq : Z; sg_seq_len : Z; sg_start_timer : Z; sg_in_use : bool; sg_retransmitted : bool; sg_frame : list Z }.

Record packets_state := mkPkt {
  pk_seg : list sched_segment; pk_state : packet_sched_state; pk_retry_track : Z;
  pk_srtt : Z; pk_rttvar : Z; pk_rto : Z; pk_last_ack_seen : Z; pk_dup_ack_count : Z }.

Record scheduler := mkSched { sd_conns : list packets_state; sd_retransmit_total : Z; sd_giveup_total : Z }.

Definition pkt_zero : packets_state :=
  mkPkt (replicate SCHED_WINDOW (mkSeg 0 0 0 false false [])) PACKET_STATE_IDLE 0 0 0 0 0 0.
Definition scheduler_init : scheduler := mkSched (replicate LOCKBOX_CAPACITY pkt_zero) 0 0.

Definition seq_before (a b : Z) : bool := s32 (a - b) <? 0.

Definition set_conn (id : nat) (c : packets_state) (s : scheduler) : scheduler :=
  mkSched (<[id := c]> (sd_conns s)) (sd_retransmit_total s) (sd_giveup_total s).

(** The loop of [oldest]: the index and sequence number found so far. *)
Fixpoint oldest_from (i : nat) (best : option (nat * Z)) (l : list sched_segment) : option nat :=
  match l with
  | [] => fst <$> best
  | e :: l' =>
      let better := sg_in_use e && match best with None => true | Some (_, q) => seq_before (sg_seq e) q end in
      oldest_from (S i) (if better then Some (i, sg_seq e) else best) l'
  end.
Definition oldest (c : packets_state) : option nat := oldest_from 0 None (pk_seg c).

Definition seg_clear (e : sched_segment) : sched_segment :=
  mkSeg (sg_seq e) (sg_seq_len e) (sg_start_timer e) false (sg_retransmitted e) (sg_frame e).

Definition clear_window (c : packets_state) : packets_state :=
  mkPkt (seg_clear <$> pk_seg c) PACKET_STATE_IDLE 0 (pk_srtt c) (pk_rttvar c) (pk_rto c) (pk_last_ack_seen c) 0.

Definition scheduler_track (now : Z) (conn_id : nat) (seq seq_len : Z) (frame : list Z) (s : scheduler)
    : bool * scheduler :=
  match sd_conns s !! conn_id with
  | None => (false, s)
  | Some c =>
      if (zlen frame =? 0) || (SCHED_MAX_FRAME <? zlen frame) then (false, s) else
      match find_idx (fun e => negb (sg_in_use e)) (pk_seg c) with
      | None => (false, s)
      | Some i =>
          let segs := <[i := mkSeg seq seq_len now true false frame]> (pk_seg c) in
          let fresh := negb (bool_decide (pk_state c = PACKET_STATE_RETRY)) in
          (true, set_conn conn_id
            (mkPkt segs PACKET_STATE_RETRY (if fresh then 0 else pk_retry_track c) (pk_srtt c) (pk_rttvar c)
               (if pk_rto c =? 0 then SCHED_INITIAL_RTO else pk_rto c) (pk_last_ack_seen c)
               (if fresh then 0 else pk_dup_ack_count c)) s)
      end
  end.

(** A segment an acknowledgement up to [acked_seq] covers. *)
Definition acked (acked_seq : Z) (e : sched_segment) : bool :=
  sg_in_use e && negb (seq_before acked_seq (sg_seq e +32 sg_seq_len e)).

(** The loop of [scheduler_ack]: the window afterwards, the number of segments
    freed and the first usable round-trip sample. *)
Fixpoint ack_loop (now acked_seq : Z) (l : list sched_segment) : list sched_segment * Z * option Z :=
  match l with
  | [] => ([], 0, None)
  | e :: l' =>
      let '(segs, freed, sample) := ack_loop now acked_seq l' in
      if negb (acked acked_seq e) then (e :: segs, freed, sample)
      else (seg_clear e :: segs, freed + 1,
            if negb (sg_retransmitted e) then Some (now -32 sg_start_timer e) else sample)
  end.

(** The round-trip estimate after a sample. *)
Definition rtt_update (sample : Z) (c : packets_state) : Z * Z * Z :=
  let '(srtt, rttvar) :=
    if pk_srtt c =? 0 then (sample, sample / 2)
    else
      let diff := if pk_srtt c <? sample then sample -32 pk_srtt c else pk_srtt c -32 sample in
      (u32 (pk_srtt c - pk_srtt c / 8 + sample / 8), u32 (pk_rttvar c - pk_rttvar c / 4 + diff / 4)) in
  let rto := u32 (srtt + 4 * rttvar) in
  let rto := if rto <? SCHED_MIN_RTO then SCHED_MIN_RTO else rto in
  (srtt, rttvar, if SCHED_MAX_RTO <? rto then SCHED_MAX_RTO else rto).

Section Ops.
Context `{TxDriver D}.

Definition resend (now : Z) (e : sched_segment) (conn_id : nat) (st : scheduler * link D * list why_row)
    : bool * (scheduler * link D * list why_row) :=
  let '(s, l, w) := st in
  let '(ok, l) := send_with_pass now (sg_frame e) l in
  if ok : bool then
    (true, (mkSched (sd_conns s) (sd_retransmit_total s +32 1) (sd_giveup_total s), l,
            snd (why_note now conn_id WHY_RETRANSMIT_TIMEOUT w)))
  else (false, (s, l, w)).

Definition scheduler_ack (now : Z) (conn_id : nat) (acked_seq : Z) (st : scheduler * link D * list why_row)
    : scheduler * link D * list why_row :=
  let '(s, l, w) := st in
  match sd_conns s !! conn_id with
  | None => st
  | Some c =>
      if negb (bool_decide (pk_state c = PACKET_STATE_RETRY)) then st else
      let '(segs, freed, sample) := ack_loop now acked_seq (pk_seg c) in
      if 0 <? freed then
        let '(srtt, rttvar, rto) :=
          match sample with Some v => rtt_update v c | None => (pk_srtt c, pk_rttvar c, pk_rto c) end in
        let c' := mkPkt segs (pk_state c) 0 srtt rttvar rto acked_seq 0 in
        let c' := match oldest c' with
                  | Some _ => c'
                  | None => mkPkt segs PACKET_STATE_IDLE 0 srtt rttvar rto acked_seq 0
                  end in
        (set_conn conn_id c' s, l, w)
      else if acked_seq =? pk_last_ack_seen c then
        let dup := pk_dup_ack_count c +32 1 in
        if SCHED_DUP_ACK_THRESHOLD <=? dup then
          let st := match oldest c ≫= fun i => pk_seg c !! i with
                    | Some first => snd (resend now first conn_id (s, l, w))
                    | None => (s, l, w)
                    end in
          let '(s, l, w) := st in
          (set_conn conn_id (mkPkt (pk_seg c) (pk_state c) (pk_retry_track c) (pk_srtt c) (pk_rttvar c)
             (pk_rto c) (pk_last_ack_seen c) 0) s, l, w)
        else
          (set_conn conn_id (mkPkt (pk_seg c) (pk_state c) (pk_retry_track c) (pk_srtt c) (pk_rttvar c)
             (pk_rto c) (pk_last_ack_seen c) dup) s, l, w)
      else
        (set_conn conn_id (mkPkt (pk_seg c) (pk_state c) (pk_retry_track c) (pk_srtt c) (pk_rttvar c)
           (pk_rto c) acked_seq 0) s, l, w)
  end.
End Ops.

Definition scheduler_cancel (conn_id : nat) (s : scheduler) : scheduler :=
  match sd_conns s !! conn_id with
  | None => s
  | Some c =>
      let c := clear_window c in
      set_conn conn_id (mkPkt (pk_seg c) (pk_state c) (pk_retry_track c) 0 0 0 (pk_last_ack_seen c)
        (pk_dup_ack_count c)) s
  end.

Fixpoint sum_in_flight (l : list sched_segment) : Z :=
  match l with [] => 0 | e :: l' => (if sg_in_use e then sg_seq_len e else 0) + sum_in_flight l' end.

Definition scheduler_bytes_in_flight (conn_id : nat) (s : scheduler) : Z :=
  match sd_conns s !! conn_id with
  | None => 0
  | Some c => let total := u32 (sum_in_flight (pk_seg c)) in if 0xFFFF <? total then 0xFFFF else total
  end.

Definition scheduler_free_slots (conn_id : nat) (s : scheduler) : nat :=
  match sd_conns s !! conn_id with
  | None => 0%nat
  | Some c => count_if (fun e => negb (sg_in_use e)) (pk_seg c)
  end.

Definition scheduler_retransmit_count (s : scheduler) : Z := sd_retransmit_total s.
Definition scheduler_giveup_count (s : scheduler) : Z := sd_giveup_total s.

#[global] Arguments resend : simpl never.
#[global] Arguments scheduler_ack : simpl never.
#[global] Arguments scheduler_track : simpl never.
#[global] Arguments scheduler_cancel : simpl never.

(** ** The invariant of a connection's window *)

Record pkt_wf (c : packets_state) : Prop := {
  pw_len : length (pk_seg c) = SCHED_WINDOW;
  pw_rto : pk_rto c = 0 \/ SCHED_MIN_RTO <= pk_rto c <= SCHED_MAX_RTO;
  pw_retry : 0 <= pk_retry_track c <= RETRY_LIMIT;
  pw_active : pk_state c = PACKET_STATE_RETRY -> pk_rto c <> 0;
  pw_idle : pk_state c <> PACKET_STATE_RETRY -> count_if sg_in_use (pk_seg c) = 0%nat }.

Definition sched_wf (s : scheduler) : Prop :=
  length (sd_conns s) = LOCKBOX_CAPACITY /\ Forall pkt_wf (sd_conns s).

Lemma pkt_zero_wf : pkt_wf pkt_zero.
Proof. split; [done|by left|unfold RETRY_LIMIT; simpl; lia|done|done]. Qed.

Lemma sched_wf_init : sched_wf scheduler_init.
Proof. split; [done|]. apply Forall_replicate, pkt_zero_wf. Qed.

Lemma sched_wf_set id c s : sched_wf s -> pkt_wf c -> sched_wf (set_conn id c s).
Proof. intros [Hl Hf] Hc. split; simpl; [by rewrite length_insert|by apply Forall_insert]. Qed.

Lemma sched_wf_conn id c s : sched_wf s -> sd_conns s !! id = Some c -> pkt_wf c.
Proof. intros [_ Hf] Hc. by apply (Forall_lookup_1 _ _ _ _ Hf Hc). Qed.

Lemma oldest_from_None i best l : oldest_from i best l = None <->
  best = None /\ count_if sg_in_use l = 0%nat.
Proof.
  revert i best. induction l as [|e l IH]; intros i best; simpl.
  - rewrite fmap_None. naive_solver.
  - rewrite IH. destruct (sg_in_use e), best as [[]|]; simpl; try (case_match; naive_solver); naive_solver lia.
Qed.

Lemma oldest_None c : oldest c = None <-> count_if sg_in_use (pk_seg c) = 0%nat.
Proof. unfold oldest. rewrite oldest_from_None. naive_solver. Qed.

Lemma oldest_from_Some i best l k : oldest_from i best l = Some k ->
  (exists q, best = Some (k, q)) \/ exists j e, k = (i + j)%nat /\ l !! j = Some e /\ sg_in_use e = true.
Proof.
  revert i best. induction l as [|e l IH]; intros i best; simpl.
  - intros ([? q] & -> & ->)%fmap_Some. eauto.
  - intros [(q & Hq)|(j & e' & -> & Hj & Hu)]%IH.
    + destruct (sg_in_use e && _) eqn:E; [|eauto]. simplify_eq. breflect. right. exists 0%nat, e. split; [lia|done].
    + right. exists (S j), e'. split; [lia|done].
Qed.

Lemma oldest_Some c k : oldest c = Some k -> exists e, pk_seg c !! k = Some e /\ sg_in_use e = true.
Proof. intros [[? ?]|(j & e & -> & ? & ?)]%oldest_from_Some; [done|eauto]. Qed.

Lemma clear_window_idle segs : count_if sg_in_use (seg_clear <$> segs) = 0%nat.
Proof. induction segs; simpl; done. Qed.

(** ** Acknowledgements free exactly the covered segments *)

Lemma ack_loop_spec now acked_seq l : let '(segs, freed, sample) := ack_loop now acked_seq l in
  segs = (fun e => if acked acked_seq e then seg_clear e else e) <$> l /\
  freed = Z.of_nat (count_if (acked acked_seq) l) /\
  (sample = None <-> count_if (fun e => acked acked_seq e && negb (sg_retransmitted e)) l = 0%nat).
Proof.
  induction l as [|e l IH]; simpl; [done|].
  destruct (ack_loop now acked_seq l) as [[segs freed] sample]. destruct IH as (-> & -> & Hs).
  destruct (acked acked_seq e) eqn:Ha; simpl.
  - split; [done|]. split; [lia|]. destruct (sg_retransmitted e); simpl; [done|]. split; [done|lia].
  - split; [done|]. split; [lia|]. done.
Qed.

(** The estimate always gives a timeout between 20 and 1000 ticks. *)
Lemma rtt_update_bounds sample c : let '(_, _, rto) := rtt_update sample c in
  SCHED_MIN_RTO <= rto <= SCHED_MAX_RTO.
Proof.
  unfold rtt_update, SCHED_MIN_RTO, SCHED_MAX_RTO. destruct (if pk_srtt c =? 0 then _ else _) as [srtt rttvar].
  destruct (Z.ltb_spec (u32 (srtt + 4 * rttvar)) 20).
  - change (1000 <? 20) with false. lia.
  - destruct (Z.ltb_spec 1000 (u32 (srtt + 4 * rttvar))); lia.
Qed.

(** The timeout a connection has after segments were freed. *)
Definition rtt_after (sample : option Z) (c : packets_state) : Z * Z * Z :=
  match sample with Some v => rtt_update v c | None => (pk_srtt c, pk_rttvar c, pk_rto c) end.

Lemma rtt_after_bounds sample c : pkt_wf c -> pk_state c = PACKET_STATE_RETRY ->
  exists srtt rttvar rto, rtt_after sample c = (srtt, rttvar, rto) /\ SCHED_MIN_RTO <= rto <= SCHED_MAX_RTO.
Proof.
  intros [_ Hr _ Ha _] Hst. unfold rtt_after. destruct sample as [v|].
  - pose proof (rtt_update_bounds v c) as Hb. destruct (rtt_update v c) as [[srtt rttvar] rto]. eauto 10.
  - do 3 eexists. split; [done|]. destruct Hr as [Hr|]; [|done]. by specialize (Ha Hst).
Qed.

Section AckSpec.
Context `{TxDriver D}.

Lemma resend_conns now e id s (l : link D) w : sd_conns (snd (resend now e id (s, l, w))).1.1 = sd_conns s.
Proof. unfold resend. destruct (send_with_pass now (sg_frame e) l) as [[] l']; done. Qed.

Lemma scheduler_ack_wf now id a s (l : link D) w : sched_wf s -> sched_wf (scheduler_ack now id a (s, l, w)).1.1.
Proof.
  intros Hwf. unfold scheduler_ack. destruct (sd_conns s !! id) as [c|] eqn:Hc; [|done].
  pose proof (sched_wf_conn _ _ _ Hwf Hc) as [Hl Hr Ht Ha Hi].
  case_bool_decide as Hst; simpl; [|done].
  pose proof (ack_loop_spec now a (pk_seg c)) as Hloop.
  destruct (ack_loop now a (pk_seg c)) as [[segs freed] sample]. destruct Hloop as (Hsegs & _ & _).
  assert (length segs = SCHED_WINDOW) as Hlen by (rewrite Hsegs, length_fmap; done).
  assert (forall retry ack dup, 0 <= retry <= RETRY_LIMIT ->
    pkt_wf (mkPkt (pk_seg c) (pk_state c) retry (pk_srtt c) (pk_rttvar c) (pk_rto c) ack dup)) as Hkeep.
  { intros retry ack dup ?. split; [done|done|done|done|]. simpl. by rewrite Hst. }
  destruct (0 <? freed).
  - fold (rtt_after sample c).
    destruct (rtt_after_bounds sample c) as (srtt & rttvar & rto & -> & Hrto); [by split|done|].
    simpl. apply sched_wf_set; [done|].
    destruct (oldest _) as [k|] eqn:Hold; (split; simpl; [done|by right|unfold RETRY_LIMIT; lia| |]).
    + unfold SCHED_MIN_RTO in Hrto. lia.
    + by rewrite Hst.
    + done.
    + intros _. apply oldest_None in Hold. done.
  - destruct (a =? pk_last_ack_seen c); [|by apply sched_wf_set; [|apply Hkeep]].
    destruct (SCHED_DUP_ACK_THRESHOLD <=? _); [|by apply sched_wf_set; [|apply Hkeep]].
    destruct (oldest c ≫= fun i => pk_seg c !! i) as [first|]; [|by apply sched_wf_set; [|apply Hkeep]].
    pose proof (resend_conns now first id s l w) as Hrc.
    destruct (resend now first id (s, l, w)) as [ok [[s' l'] w']]. simpl in *.
    destruct Hwf as [H1 H2]. split; simpl; rewrite Hrc; [by rewrite length_insert|].
    apply Forall_insert; [done|]. by apply Hkeep.
Qed.

Lemma scheduler_ack_other now id a s (l : link D) w j : j <> id ->
  sd_conns (scheduler_ack now id a (s, l, w)).1.1 !! j = sd_conns s !! j.
Proof.
  intros Hj. unfold scheduler_ack. destruct (sd_conns s !! id) as [c|]; [|done]. destruct (negb _); [done|].
  destruct (ack_loop now a (pk_seg c)) as [[segs freed] sample]. destruct (0 <? freed).
  - destruct (match sample with Some v => _ | None => _ end) as [[srtt rttvar] rto]. simpl. by rewrite list_lookup_insert_ne.
  - destruct (a =? _); [|simpl; by rewrite list_lookup_insert_ne].
    destruct (_ <=? _); [|simpl; by rewrite list_lookup_insert_ne].
    destruct (oldest c ≫= _) as [first|]; [|simpl; by rewrite list_lookup_insert_ne].
    pose proof (resend_conns now first id s l w) as Hrc.
    destruct (resend now first id (s, l, w)) as [ok [[s' l'] w']]. simpl in *. by rewrite list_lookup_insert_ne, Hrc.
Qed.
End AckSpec.

(** An acknowledgement frees exactly the segments it covers.  On a connection
    that is retransmitting: afterwards each slot of the window that was in use
    is free exactly when the acknowledged number is not before the segment's
    end (modulo 2^32), and otherwise unchanged; the connection goes idle exactly
    when something was freed and nothing is left; if something was freed the
    retry counter starts over and the timeout is between 20 and 1000 ticks; no
    other connection is touched. *)
Lemma scheduler_ack_frees `{TxDriver D} now id a s (l : link D) w c :
  sched_wf s -> sd_conns s !! id = Some c -> pk_state c = PACKET_STATE_RETRY ->
  exists c', let s' := (scheduler_ack now id a (s, l, w)).1.1 in
    sd_conns s' !! id = Some c' /\
    pk_seg c' = ((fun e => if acked a e then seg_clear e else e) <$> pk_seg c) /\
    (pk_state c' = PACKET_STATE_IDLE <->
       (0 < count_if (acked a) (pk_seg c))%nat /\ count_if sg_in_use (pk_seg c') = 0%nat) /\
    ((0 < count_if (acked a) (pk_seg c))%nat -> pk_retry_track c' = 0 /\ 20 <= pk_rto c' <= 1000) /\
    (forall j, j <> id -> sd_conns s' !! j = sd_conns s !! j).
Proof.
  intros Hwf Hc Hst. pose proof (lookup_lt_Some _ _ _ Hc) as Hlt.
  pose proof (sched_wf_conn _ _ _ Hwf Hc) as Hcw. unfold scheduler_ack. rewrite Hc, (bool_decide_true _ Hst). cbn [negb].
  pose proof (ack_loop_spec now a (pk_seg c)) as Hloop.
  destruct (ack_loop now a (pk_seg c)) as [[segs freed] sample]. destruct Hloop as (Hsegs & -> & _).
  assert (forall s1 c1, sd_conns s1 = sd_conns s -> sd_conns (set_conn id c1 s1) !! id = Some c1 /\
    forall j, j <> id -> sd_conns (set_conn id c1 s1) !! j = sd_conns s !! j) as Hput.
  { intros s1 c1 E. simpl. rewrite E. split; [by apply list_lookup_insert_eq|].
    intros j Hj. by rewrite list_lookup_insert_ne. }
  destruct (Z.ltb_spec 0 (Z.of_nat (count_if (acked a) (pk_seg c)))) as [Hpos|Hzero].
  - fold (rtt_after sample c). destruct (rtt_after_bounds sample c Hcw Hst) as (srtt & rttvar & rto & -> & Hrto).
    unfold SCHED_MIN_RTO, SCHED_MAX_RTO in Hrto.
    match goal with |- context [set_conn id ?c1 s] => exists c1; destruct (Hput s c1 eq_refl) as [P1 P2] end.
    split; [exact P1|].
    destruct (oldest (mkPkt segs (pk_state c) 0 srtt rttvar rto a 0)) as [k|] eqn:Hold; cbn [pk_seg pk_state pk_retry_track pk_rto].
    + split; [done|]. split; [split; [by rewrite Hst|]|by split].
      intros [_ H0]. destruct (oldest_Some _ _ Hold) as (e & He & Hu). simpl in He. rewrite count_if_0 in H0.
      rewrite H0 in Hu; [done|]. apply list_elem_of_lookup. eauto.
    + apply oldest_None in Hold. simpl in Hold. split; [done|]. split; [split; [intros _; split; [lia|done]|done]|].
      by split.
  - assert (pk_seg c = ((fun e => if acked a e then seg_clear e else e) <$> pk_seg c)) as Hsame.
    { rewrite <- (list_fmap_id (pk_seg c)) at 1. apply list_fmap_ext. intros i e He.
      assert (count_if (acked a) (pk_seg c) = 0%nat) as H0 by lia. rewrite count_if_0 in H0.
      rewrite H0; [done|]. apply list_elem_of_lookup. eauto. }
    assert (forall s1 c1, sd_conns s1 = sd_conns s -> pk_seg c1 = pk_seg c -> pk_state c1 = pk_state c ->
      exists c', sd_conns (set_conn id c1 s1) !! id = Some c' /\
        pk_seg c' = ((fun e => if acked a e then seg_clear e else e) <$> pk_seg c) /\
        (pk_state c' = PACKET_STATE_IDLE <->
           (0 < count_if (acked a) (pk_seg c))%nat /\ count_if sg_in_use (pk_seg c') = 0%nat) /\
        ((0 < count_if (acked a) (pk_seg c))%nat -> pk_retry_track c' = 0 /\ 20 <= pk_rto c' <= 1000) /\
        (forall j, j <> id -> sd_conns (set_conn id c1 s1) !! j = sd_conns s !! j)) as Hfin.
    { intros s1 c1 E1 E2 E3. exists c1. destruct (Hput s1 c1 E1) as [P1 P2]. split; [exact P1|].
      rewrite E2, E3, Hst. split; [exact Hsame|]. split; [split; [done|lia]|]. split; [lia|exact P2]. }
    destruct (a =? pk_last_ack_seen c); [|by apply Hfin].
    destruct (SCHED_DUP_ACK_THRESHOLD <=? _); [|by apply Hfin].
    destruct (oldest c ≫= fun i => pk_seg c !! i) as [first|]; [|by apply Hfin].
    pose proof (resend_conns now first id s l w) as Hrc.
    destruct (resend now first id (s, l, w)) as [ok [[s' l'] w']]. by apply Hfin.
Qed.

(** ** The other operations keep the invariant *)

Lemma scheduler_track_wf now id seq n frame s : sched_wf s -> sched_wf (scheduler_track now id seq n frame s).2.
Proof.
  intros Hwf. unfold scheduler_track. destruct (sd_conns s !! id) as [c|] eqn:Hc; [|done].
  pose proof (sched_wf_conn _ _ _ Hwf Hc) as [Hl Hr Ht Ha Hi]. destruct (_ || _); [done|].
  destruct (find_idx _ _) as [i|]; [|done]. apply sched_wf_set; [done|]. unfold SCHED_INITIAL_RTO in *.
  split; simpl; [by rewrite length_insert| | | |done].
  - destruct (Z.eqb_spec (pk_rto c) 0); [right; unfold SCHED_MIN_RTO, SCHED_MAX_RTO; lia|tauto].
  - case_bool_decide; simpl; [done|unfold RETRY_LIMIT; lia].
  - intros _. destruct (Z.eqb_spec (pk_rto c) 0); lia.
Qed.

Lemma scheduler_cancel_wf id s : sched_wf s -> sched_wf (scheduler_cancel id s).
Proof.
  intros Hwf. unfold scheduler_cancel. destruct (sd_conns s !! id) as [c|] eqn:Hc; [|done].
  pose proof (sched_wf_conn _ _ _ Hwf Hc) as [Hl Hr Ht Ha Hi]. apply sched_wf_set; [done|].
  split; simpl; [by rewrite length_fmap|by left|unfold RETRY_LIMIT; lia|done|intros _; apply clear_window_idle].
Qed.
Lemma scheduler_ack_frees_witness :
  let s := (scheduler_track 10 0 1000 5 [1;2;3] scheduler_init).2 in
  let l := mkLink (@nil (list Z)) bailiff_init rolodex_init foyer_init in
  exists c', sd_conns (scheduler_ack 30 0 1005 (s, l, why_init)).1.1 !! 0%nat = Some c' /\
    pk_state c' = PACKET_STATE_IDLE.
Proof.
  cbv zeta.
  destruct (scheduler_ack_frees 30 0 1005 (scheduler_track 10 0 1000 5 [1;2;3] scheduler_init).2
    (mkLink (@nil (list Z)) bailiff_init rolodex_init foyer_init) why_init
    (mkPkt (mkSeg 1000 5 10 true false [1;2;3] :: replicate 3 (mkSeg 0 0 0 false false [])) PACKET_STATE_RETRY 0 0 0 100 0 0))
    as (c' & H1 & H2 & H3 & _).
  - apply scheduler_track_wf, sched_wf_init.
  - vm_compute. reflexivity.
  - reflexivity.
  - exists c'. split; [exact H1|]. apply H3. rewrite H2. vm_compute. split; [lia|reflexivity].
Defined.

#[export] Hint Resolve sched_wf_init scheduler_track_wf scheduler_cancel_wf scheduler_ack_wf : aevros.
