(* ===== verification/Rapport.v ===== *)
(** * Rapport, the TCP state machine

    [Networking/IPv4/Conversation/rapport.c]: per connection slot the TCP state,
    the sequence numbers and the peer's window.  Closing transitions cancel the
    slot's retransmissions and release its LockBox entry, so those operations
    act on the three components together. *)

From stdpp Require Import relations.
From S2P Require Import Prelude SlotTable GuestList Bailiff Foyer LockBox Why Scheduler.

Definition CONV_TIME_WAIT_TICKS : Z := 400.

Inductive conversation_state :=
  CONV_CLOSED | CONV_LISTEN | CONV_SYN_SENT | CONV_SYN_RECEIVED | CONV_ESTABLISHED | CONV_FIN_WAIT
| CONV_CLOSING | CONV_TIME_WAIT | CONV_FIN_WAIT_1 | CONV_FIN_WAIT_2 | CONV_CLOSE_WAIT | CONV_LAST_ACK.
#[export] Instance conversation_state_eq : EqDecision conversation_state.
Proof. solve_decision. Defined.

(** One row of the source's arrays. *)
Record conv := mkConv {
  cv_status : conversation_state; cv_expected_seq : Z; cv_our_isn : Z; cv_our_fin_seq : Z;
  cv_time_wait_started : Z; cv_peer_window : Z; cv_send_seq : Z }.
Notation rapport := (list conv).

Definition rapport_init : rapport := replicate LOCKBOX_CAPACITY (mkConv CONV_CLOSED 0 0 0 0 0 0).

Definition set_status (s : conversation_state) (c : conv) : conv :=
  mkConv s (cv_expected_seq c) (cv_our_isn c) (cv_our_fin_seq c) (cv_time_wait_started c) (cv_peer_window c) (cv_send_seq c).

Definition enter_time_wait (now : Z) (c : conv) : conv :=
  mkConv CONV_TIME_WAIT (cv_expected_seq c) (cv_our_isn c) (cv_our_fin_seq c) now (cv_peer_window c) (cv_send_seq c).

(** The operations that only touch their own row: what they do to it. *)
Definition conv_on_syn (peer_isn our_isn : Z) (c : conv) : conv :=
  mkConv CONV_SYN_RECEIVED (peer_isn +32 1) our_isn (cv_our_fin_seq c) (cv_time_wait_started c) (cv_peer_window c) (our_isn +32 1).
Definition rapport_on_syn (conn_id : nat) (peer_isn our_isn : Z) (r : rapport) : rapport :=
  alter (conv_on_syn peer_isn our_isn) conn_id r.

Definition conv_initiate_close (fin_seq : Z) (c : conv) : conv :=
  let c := mkConv (cv_status c) (cv_expected_seq c) (cv_our_isn c) fin_seq (cv_time_wait_started c) (cv_peer_window c) (cv_send_seq c) in
  match cv_status c with
  | CONV_ESTABLISHED => set_status CONV_FIN_WAIT_1 c
  | CONV_CLOSE_WAIT => set_status CONV_LAST_ACK c
  | _ => c
  end.
Definition rapport_initiate_close (conn_id : nat) (fin_seq : Z) (r : rapport) : rapport :=
  alter (conv_initiate_close fin_seq) conn_id r.

Definition bump_expected (c : conv) : conv :=
  mkConv (cv_status c) (cv_expected_seq c +32 1) (cv_our_isn c) (cv_our_fin_seq c) (cv_time_wait_started c) (cv_peer_window c) (cv_send_seq c).
Definition conv_on_fin (now : Z) (c : conv) : conv :=
  match cv_status c with
  | CONV_ESTABLISHED => set_status CONV_CLOSE_WAIT (bump_expected c)
  | CONV_FIN_WAIT_1 => set_status CONV_CLOSING (bump_expected c)
  | CONV_FIN_WAIT_2 => enter_time_wait now (bump_expected c)
  | _ => c
  end.
Definition rapport_on_fin (now : Z) (conn_id : nat) (r : rapport) : rapport := alter (conv_on_fin now) conn_id r.

Definition rapport_set_peer_window (conn_id : nat) (window : Z) (r : rapport) : rapport :=
  alter (fun c => mkConv (cv_status c) (cv_expected_seq c) (cv_our_isn c) (cv_our_fin_seq c)
                    (cv_time_wait_started c) window (cv_send_seq c)) conn_id r.

Definition rapport_initiate_connect (conn_id : nat) (our_isn : Z) (r : rapport) : rapport :=
  alter (fun c => mkConv CONV_SYN_SENT (cv_expected_seq c) our_isn (cv_our_fin_seq c)
                    (cv_time_wait_started c) (cv_peer_window c) (cv_send_seq c)) conn_id r.

Definition rapport_on_syn_ack (conn_id : nat) (peer_isn ack_num : Z) (r : rapport) : bool * rapport :=
  match r !! conn_id with
  | None => (false, r)
  | Some c =>
      if negb (bool_decide (cv_status c = CONV_SYN_SENT)) then (false, r)
      else if negb (ack_num =? (cv_our_isn c +32 1)) then (false, r)
      else (true, <[conn_id := mkConv CONV_ESTABLISHED (peer_isn +32 1) (cv_our_isn c) (cv_our_fin_seq c)
                                 (cv_time_wait_started c) (cv_peer_window c) (cv_our_isn c +32 1)]> r)
  end.

Definition rapport_advance_send_seq (conn_id : nat) (amount : Z) (r : rapport) : rapport :=
  alter (fun c => mkConv (cv_status c) (cv_expected_seq c) (cv_our_isn c) (cv_our_fin_seq c)
                    (cv_time_wait_started c) (cv_peer_window c) (cv_send_seq c +32 amount)) conn_id r.

Definition rapport_advance_seq (conn_id : nat) (amount : Z) (r : rapport) : rapport :=
  alter (fun c => mkConv (cv_status c) (cv_expected_seq c +32 amount) (cv_our_isn c) (cv_our_fin_seq c)
                    (cv_time_wait_started c) (cv_peer_window c) (cv_send_seq c)) conn_id r.

(** The queries; an invalid slot reads as zero or closed. *)
Definition rapport_get_peer_window (conn_id : nat) (r : rapport) : Z := from_option cv_peer_window 0 (r !! conn_id).
Definition rapport_get_expected_seq (conn_id : nat) (r : rapport) : Z := from_option cv_expected_seq 0 (r !! conn_id).
Definition rapport_get_send_seq (conn_id : nat) (r : rapport) : Z := from_option cv_send_seq 0 (r !! conn_id).
Definition rapport_get_our_isn (conn_id : nat) (r : rapport) : Z := from_option cv_our_isn 0 (r !! conn_id).
Definition rapport_get_state (conn_id : nat) (r : rapport) : conversation_state :=
  from_option cv_status CONV_CLOSED (r !! conn_id).
Definition rapport_seq_expected (conn_id : nat) (seq : Z) (r : rapport) : bool :=
  from_option (fun c => seq =? cv_expected_seq c) false (r !! conn_id).
Definition rapport_seq_is_stale_retransmit (conn_id : nat) (seq data_len : Z) (r : rapport) : bool :=
  from_option (fun c => (seq <? cv_expected_seq c) && ((seq +32 data_len) <=? cv_expected_seq c)) false (r !! conn_id).
Definition rapport_send_allowed (conn_id : nat) (length : Z) (r : rapport) (s : scheduler) : bool :=
  from_option (fun c => (scheduler_bytes_in_flight conn_id s +32 length) <=? cv_peer_window c) false (r !! conn_id).

(** Rapport, Scheduler and LockBox. *)
Notation conns := (rapport * scheduler * lockbox)%type.

(** What every closing transition does. *)
Definition close_slot (conn_id : nat) (st : conns) : conns :=
  let '(r, s, x) := st in
  (alter (set_status CONV_CLOSED) conn_id r, scheduler_cancel conn_id s, lockbox_release conn_id x).

Definition rapport_on_ack (now : Z) (conn_id : nat) (ack_num : Z) (st : conns) : conns :=
  let '(r, s, x) := st in
  match r !! conn_id with
  | None => st
  | Some c =>
      match cv_status c with
      | CONV_SYN_RECEIVED =>
          if negb (ack_num =? (cv_our_isn c +32 1)) then st
          else (<[conn_id := set_status CONV_ESTABLISHED c]> r, s, x)
      | CONV_FIN_WAIT_1 =>
          if (cv_our_fin_seq c +32 1) <=? ack_num then (<[conn_id := set_status CONV_FIN_WAIT_2 c]> r, s, x) else st
      | CONV_CLOSING =>
          if (cv_our_fin_seq c +32 1) <=? ack_num then (<[conn_id := enter_time_wait now c]> r, s, x) else st
      | CONV_LAST_ACK =>
          if (cv_our_fin_seq c +32 1) <=? ack_num then close_slot conn_id st else st
      | _ => st
      end
  end.

Definition rapport_on_rst (conn_id : nat) (st : conns) : conns :=
  let '(r, s, x) := st in
  match r !! conn_id with
  | None => st
  | Some c => if bool_decide (cv_status c = CONV_CLOSED) then st else close_slot conn_id st
  end.

(** The body of [rapport_tick] for slot [i]. *)
Definition rapport_tick_slot (now : Z) (i : nat) (st : rapport * lockbox) : rapport * lockbox :=
  let '(r, x) := st in
  match r !! i with
  | None => st
  | Some c =>
      if negb (bool_decide (cv_status c = CONV_TIME_WAIT)) then st
      else if (now -32 cv_time_wait_started c) <? CONV_TIME_WAIT_TICKS then st
      else (<[i := set_status CONV_CLOSED c]> r, lockbox_release i x)
  end.
Definition rapport_tick (now : Z) (st : conns) : conns :=
  let '(r, s, x) := st in
  let '(r, x) := fold_left (fun st i => rapport_tick_slot now i st) (seq 0 LOCKBOX_CAPACITY) (r, x) in
  (r, s, x).

#[global] Arguments rapport_tick : simpl never.
#[global] Arguments rapport_tick_slot : simpl never.

(** ** One tick, row by row *)

Definition wait_over (now : Z) (c : conv) : bool :=
  bool_decide (cv_status c = CONV_TIME_WAIT) && (CONV_TIME_WAIT_TICKS <=? (now -32 cv_time_wait_started c)).
Definition conv_tick (now : Z) (c : conv) : conv := if wait_over now c then set_status CONV_CLOSED c else c.

Lemma rapport_tick_slot_spec now i r x :
  fst (rapport_tick_slot now i (r, x)) = alter (conv_tick now) i r /\
  snd (rapport_tick_slot now i (r, x)) =
    (if from_option (wait_over now) false (r !! i) then lockbox_release i x else x).
Proof.
  unfold rapport_tick_slot, conv_tick, wait_over. destruct (r !! i) as [c|] eqn:Hc; simpl; [|by rewrite alter_out].
  rewrite (alter_insert _ _ _ _ Hc). case_bool_decide; simpl; [|by rewrite list_insert_id].
  destruct (Z.ltb_spec (now -32 cv_time_wait_started c) CONV_TIME_WAIT_TICKS),
    (Z.leb_spec CONV_TIME_WAIT_TICKS (now -32 cv_time_wait_started c)); try lia; simpl; [by rewrite list_insert_id|done].
Qed.

Lemma rapport_tick_prefix now r x n :
  let '(r', x') := fold_left (fun st i => rapport_tick_slot now i st) (seq 0 n) (r, x) in
  (forall j, r' !! j = if (j <? n)%nat then conv_tick now <$> r !! j else r !! j) /\
  (forall j, held x' j = negb ((j <? n)%nat && from_option (wait_over now) false (r !! j)) && held x j) /\
  length (lx_table x') = length (lx_table x).
Proof.
  induction n as [|n IH]; [done|]. rewrite seq_S, fold_left_app. cbn [fold_left Nat.add].
  destruct (fold_left _ (seq 0 n) (r, x)) as [r1 x1]. destruct IH as (Hr & Hx & Hlx).
  destruct (rapport_tick_slot_spec now n r1 x1) as [E1 E2].
  destruct (rapport_tick_slot now n (r1, x1)) as [r2 x2]. simpl in E1, E2. subst r2.
  assert (r1 !! n = r !! n) as Hn by (rewrite Hr; destruct (Nat.ltb_spec n n); [lia|done]).
  rewrite Hn in E2. split; [|split].
  3:{ subst x2. rewrite <- Hlx. case_match; [simpl; by rewrite length_alter|done]. }
  - intros j. destruct (Nat.ltb_spec j (S n)).
    + destruct (decide (n = j)) as [<-|]; [by rewrite list_lookup_alter_eq, Hn|].
      rewrite list_lookup_alter_ne, Hr by done. destruct (Nat.ltb_spec j n); [done|lia].
    + rewrite list_lookup_alter_ne, Hr by lia. destruct (Nat.ltb_spec j n); [lia|done].
  - intros j. subst x2. destruct (from_option (wait_over now) false (r !! n)) eqn:Hw; rewrite ?held_release, Hx.
    + destruct (Nat.eqb_spec j n) as [->|]; simpl.
      * destruct (Nat.ltb_spec n (S n)); [|lia]. by rewrite Hw.
      * destruct (Nat.ltb_spec j n), (Nat.ltb_spec j (S n)); try lia; done.
    + destruct (decide (j = n)) as [->|].
      * rewrite Hw, !andb_false_r. done.
      * destruct (Nat.ltb_spec j n), (Nat.ltb_spec j (S n)); try lia; done.
Qed.

Lemma rapport_tick_spec now r s x : length r = LOCKBOX_CAPACITY ->
  exists x', rapport_tick now (r, s, x) = (conv_tick now <$> r, s, x') /\
    (forall j, held x' j = negb (from_option (wait_over now) false (r !! j)) && held x j) /\
    length (lx_table x') = length (lx_table x).
Proof.
  intros Hl. unfold rapport_tick. pose proof (rapport_tick_prefix now r x LOCKBOX_CAPACITY) as Hp.
  destruct (fold_left _ (seq 0 LOCKBOX_CAPACITY) (r, x)) as [r' x']. destruct Hp as (Hr & Hx & Hlx). exists x'. split; [|split; [|done]].
  - do 2 f_equal. apply list_eq. intros j. rewrite Hr, list_lookup_fmap.
    destruct (Nat.ltb_spec j LOCKBOX_CAPACITY); [done|]. rewrite (lookup_ge_None_2 r j) by lia. done.
  - intros j. rewrite Hx. destruct (Nat.ltb_spec j LOCKBOX_CAPACITY); [done|].
    rewrite (lookup_ge_None_2 r j) by lia. done.
Qed.

(** ** The state machine *)

Inductive rap_event :=
| EvSyn (lp : Z) (ip : ip4) (rp peer_isn our_isn : Z)
| EvConnect (lp : Z) (ip : ip4) (rp our_isn : Z)
| EvListen (lp pr : Z)
| EvSynAck (id : nat) (peer_isn ack_num : Z)
| EvAck (now : Z) (id : nat) (ack_num : Z)
| EvFin (now : Z) (id : nat)
| EvRst (id : nat)
| EvClose (id : nat) (fin_seq : Z)
| EvTick (now : Z).

(** How the stack uses Rapport: a slot is opened right after it is claimed. *)
Definition rap_exec (ev : rap_event) (st : conns) : conns :=
  let '(r, s, x) := st in
  match ev with
  | EvSyn lp ip rp peer_isn our_isn =>
      let '(_, out, x') := lockbox_claim lp ip rp 6 x in
      (match out with Some id => rapport_on_syn id peer_isn our_isn r | None => r end, s, x')
  | EvConnect lp ip rp our_isn =>
      let '(_, out, x') := lockbox_claim lp ip rp 6 x in
      (match out with Some id => rapport_initiate_connect id our_isn r | None => r end, s, x')
  | EvListen lp pr => let '(_, _, x') := lockbox_listen lp pr x in (r, s, x')
  | EvSynAck id peer_isn ack_num => (snd (rapport_on_syn_ack id peer_isn ack_num r), s, x)
  | EvAck now id ack_num => rapport_on_ack now id ack_num st
  | EvFin now id => (rapport_on_fin now id r, s, x)
  | EvRst id => rapport_on_rst id st
  | EvClose id fin_seq => (rapport_initiate_close id fin_seq r, s, x)
  | EvTick now => rapport_tick now st
  end.

(** The state diagram of RFC 793, as far as this stack has it: what each input makes
    of each state.  An acknowledgement says whether it covers our SYN and our FIN. *)
Inductive tcp_input := InPassive | InActive | InSynAck | InAck (of_syn of_fin : bool) | InFin | InRst | InClose | InTimeout | InNone.
Definition tcp_diagram (input : tcp_input) (s : conversation_state) : conversation_state :=
  match input, s with
  | InPassive, CONV_CLOSED => CONV_SYN_RECEIVED
  | InActive, CONV_CLOSED => CONV_SYN_SENT
  | InSynAck, CONV_SYN_SENT => CONV_ESTABLISHED
  | InAck true _, CONV_SYN_RECEIVED => CONV_ESTABLISHED
  | InAck _ true, CONV_FIN_WAIT_1 => CONV_FIN_WAIT_2
  | InAck _ true, CONV_CLOSING => CONV_TIME_WAIT
  | InAck _ true, CONV_LAST_ACK => CONV_CLOSED
  | InFin, CONV_ESTABLISHED => CONV_CLOSE_WAIT
  | InFin, CONV_FIN_WAIT_1 => CONV_CLOSING
  | InFin, CONV_FIN_WAIT_2 => CONV_TIME_WAIT
  | InClose, CONV_ESTABLISHED => CONV_FIN_WAIT_1
  | InClose, CONV_CLOSE_WAIT => CONV_LAST_ACK
  | InTimeout, CONV_TIME_WAIT => CONV_CLOSED
  | InRst, _ => CONV_CLOSED
  | _, s => s
  end.

(** What an event is to the connection in slot [i]. *)
Definition input_at (ev : rap_event) (i : nat) (st : conns) : tcp_input :=
  let '(r, s, x) := st in
  let c := default (mkConv CONV_CLOSED 0 0 0 0 0 0) (r !! i) in
  let at_slot id input := if decide (id = i) then input else InNone in
  match ev with
  | EvSyn lp ip rp _ _ => if decide ((lockbox_claim lp ip rp 6 x).1.2 = Some i) then InPassive else InNone
  | EvConnect lp ip rp _ => if decide ((lockbox_claim lp ip rp 6 x).1.2 = Some i) then InActive else InNone
  | EvListen _ _ => InNone
  | EvSynAck id _ ack_num => at_slot id (if ack_num =? (cv_our_isn c + 1) mod 2 ^ 32 then InSynAck else InNone)
  | EvAck _ id ack_num => at_slot id (InAck (ack_num =? (cv_our_isn c + 1) mod 2 ^ 32) ((cv_our_fin_seq c + 1) mod 2 ^ 32 <=? ack_num))
  | EvFin _ id => at_slot id InFin
  | EvRst id => at_slot id InRst
  | EvClose id _ => at_slot id InClose
  | EvTick now => if 400 <=? (now - cv_time_wait_started c) mod 2 ^ 32 then InTimeout else InNone
  end.

(** A conversation that is not closed holds its slot. *)
Definition rap_inv (st : conns) : Prop :=
  let '(r, s, x) := st in
  length r = LOCKBOX_CAPACITY /\ length (lx_table x) = LOCKBOX_CAPACITY /\
  forall i, rapport_get_state i r <> CONV_CLOSED -> held x i = true.

Lemma state_alter f i j r : rapport_get_state j (alter f i r) =
  if decide (j = i) then from_option (fun c => cv_status (f c)) CONV_CLOSED (r !! i) else rapport_get_state j r.
Proof.
  unfold rapport_get_state. case_decide; subst.
  - rewrite list_lookup_alter_eq. by destruct (r !! i).
  - by rewrite list_lookup_alter_ne.
Qed.

Lemma state_insert i j c r : (i < length r)%nat ->
  rapport_get_state j (<[i := c]> r) = if decide (j = i) then cv_status c else rapport_get_state j r.
Proof.
  intros Hi. unfold rapport_get_state. case_decide; subst; [by rewrite list_lookup_insert_eq|by rewrite list_lookup_insert_ne].
Qed.

(** A conversation that ends frees its slot. *)
Definition step_ok (st st' : conns) : Prop :=
  let '(r, s, x) := st in let '(r', s', x') := st' in
  forall i, rapport_get_state i r <> CONV_CLOSED -> rapport_get_state i r' = CONV_CLOSED -> held x' i = false.

#[global] Arguments rap_inv : simpl never.
#[global] Arguments step_ok : simpl never.

Lemma step_ok_refl st : step_ok st st.
Proof. destruct st as [[r s] x]. by intros i ? ?. Qed.

(** A step that only rewrites row [id] and does not close it. *)
Lemma row_step r s x id f : rap_inv (r, s, x) ->
  (forall c, r !! id = Some c -> cv_status c = CONV_CLOSED <-> cv_status (f c) = CONV_CLOSED) ->
  rap_inv (alter f id r, s, x) /\ step_ok (r, s, x) (alter f id r, s, x).
Proof.
  intros (Hl & Hx & Hh) Hf. split.
  - split; [by rewrite length_alter|]. split; [done|]. intros i. rewrite state_alter. case_decide; subst; [|by apply Hh].
    destruct (r !! id) as [c|] eqn:Hc; simpl; [|done]. pose proof (Hf c eq_refl) as Hiff. intros Hne.
    apply Hh. unfold rapport_get_state. rewrite Hc. simpl. naive_solver.
  - intros i. rewrite state_alter. case_decide; subst; [|done].
    unfold rapport_get_state. destruct (r !! id) as [c|] eqn:Hc; simpl; [|done]. pose proof (Hf c eq_refl). naive_solver.
Qed.

Lemma close_step r s x id : rap_inv (r, s, x) ->
  rap_inv (close_slot id (r, s, x)) /\ step_ok (r, s, x) (close_slot id (r, s, x)).
Proof.
  intros (Hl & Hx & Hh). split.
  - split; [by rewrite length_alter|]. split; [simpl; by rewrite length_alter|]. intros i.
    rewrite state_alter, held_release. case_decide as Hi; subst; [by destruct (r !! id)|].
    destruct (Nat.eqb_spec i id); [done|]. apply Hh.
  - intros i. rewrite state_alter, held_release. case_decide; subst.
    + intros. by rewrite Nat.eqb_refl.
    + done.
Qed.

Lemma open_step r s x lp ip rp pr f : rap_inv (r, s, x) ->
  (forall c, cv_status c = CONV_CLOSED -> cv_status (f c) <> CONV_CLOSED) ->
  let '(_, out, x') := lockbox_claim lp ip rp pr x in
  let r' := match out with Some id => alter f id r | None => r end in
  rap_inv (r', s, x') /\ step_ok (r, s, x) (r', s, x').
Proof.
  intros (Hl & Hx & Hh) Hf. pose proof (held_claim lp ip rp pr x) as Hc.
  assert (length (lx_table (lockbox_claim lp ip rp pr x).2) = LOCKBOX_CAPACITY) as Hlen.
  { unfold lockbox_claim. repeat case_match; simpl; rewrite ?length_insert; done. }
  destruct (lockbox_claim lp ip rp pr x) as [[res [id|]] x']; simpl in Hlen.
  - assert (rapport_get_state id r = CONV_CLOSED) as Hclosed.
    { destruct (decide (rapport_get_state id r = CONV_CLOSED)); [done|]. apply Hh in n. destruct (Hc id) as (_ & ? & _). congruence. }
    split.
    + split; [by rewrite length_alter|]. split; [done|]. intros i. rewrite state_alter. destruct (Hc i) as (_ & _ & ->).
      case_decide; subst; [by rewrite Nat.eqb_refl|]. intros Hs. rewrite (Hh i Hs). by rewrite orb_true_r.
    + intros i. rewrite state_alter. case_decide; subst; [|done]. by rewrite Hclosed.
  - split; [|intros i; intros; congruence].
    split; [done|]. split; [done|]. intros i Hi. rewrite Hc. by apply Hh.
Qed.

Lemma tick_step now r s x : rap_inv (r, s, x) ->
  rap_inv (rapport_tick now (r, s, x)) /\ step_ok (r, s, x) (rapport_tick now (r, s, x)).
Proof.
  intros (Hl & Hx & Hh).
  destruct (rapport_tick_spec now r s x Hl) as (x' & E & Hheld & Hx'). rewrite E. rewrite Hx in Hx'.
  assert (forall i, rapport_get_state i (conv_tick now <$> r) =
    if from_option (wait_over now) false (r !! i) then CONV_CLOSED else rapport_get_state i r) as Hst.
  { intros i. unfold rapport_get_state. rewrite list_lookup_fmap. destruct (r !! i) as [c|]; simpl; [|done].
    unfold conv_tick. by case_match. }
  split.
  - split; [by rewrite length_fmap|]. split; [done|]. intros i. rewrite Hst, Hheld.
    case_match; [done|]. apply Hh.
  - intros i. rewrite Hst, Hheld. by case_match eqn:Hw.
Qed.

Lemma rap_exec_step ev st : rap_inv st -> rap_inv (rap_exec ev st) /\ step_ok st (rap_exec ev st).
Proof.
  destruct st as [[r s] x]. intros Hinv. pose proof Hinv as (Hl & Hx & Hh).
  destruct ev as [lp ip rp pi oi|lp ip rp oi|lp pr|id pi ack|now id ack|now id|id|id fin|now]; cbn [rap_exec].
  - pose proof (open_step r s x lp ip rp 6 (conv_on_syn pi oi) Hinv) as Ho.
    destruct (lockbox_claim lp ip rp 6 x) as [[res out] x']. by apply Ho.
  - pose proof (open_step r s x lp ip rp 6 (fun c => mkConv CONV_SYN_SENT (cv_expected_seq c) oi (cv_our_fin_seq c)
      (cv_time_wait_started c) (cv_peer_window c) (cv_send_seq c)) Hinv) as Ho.
    destruct (lockbox_claim lp ip rp 6 x) as [[res out] x']. by apply Ho.
  - unfold lockbox_listen. pose proof (held_claim lp [0;0;0;0] 0 pr x) as Hc.
    assert (length (lx_table (lockbox_claim lp [0;0;0;0] 0 pr x).2) = LOCKBOX_CAPACITY) as Hlen.
    { unfold lockbox_claim. repeat case_match; simpl; rewrite ?length_insert; done. }
    destruct (lockbox_claim lp [0;0;0;0] 0 pr x) as [[res out] x']. simpl in Hlen.
    split; [|intros i; intros; congruence]. split; [done|]. split; [done|].
    intros i Hi. specialize (Hh i Hi). destruct out; [destruct (Hc i) as (_ & _ & ->); by rewrite Hh, orb_true_r|by rewrite Hc].
  - unfold rapport_on_syn_ack. destruct (r !! id) as [c|] eqn:Hc; [|split; [done|apply (step_ok_refl (r, s, x))]].
    case_bool_decide as Hs; simpl; [|split; [done|apply (step_ok_refl (r, s, x))]].
    destruct (ack =? _); simpl; [|split; [done|apply (step_ok_refl (r, s, x))]].
    rewrite <- (alter_insert (fun c => mkConv CONV_ESTABLISHED (pi +32 1) (cv_our_isn c) (cv_our_fin_seq c)
      (cv_time_wait_started c) (cv_peer_window c) (cv_our_isn c +32 1)) _ _ _ Hc).
    apply row_step; [done|]. intros c' Hc'. simplify_eq. simpl. by rewrite Hs.
  - unfold rapport_on_ack. destruct (r !! id) as [c|] eqn:Hc; [|split; [done|apply (step_ok_refl (r, s, x))]].
    assert (forall f, cv_status c <> CONV_CLOSED -> cv_status (f c) <> CONV_CLOSED ->
      rap_inv (<[id := f c]> r, s, x) /\ step_ok (r, s, x) (<[id := f c]> r, s, x)) as Hrow.
    { intros f H1 H2. rewrite <- (alter_insert f _ _ _ Hc). apply row_step; [done|]. intros c' Hc'. by simplify_eq. }
    pose proof (step_ok_refl (r, s, x)) as Hrefl.
    destruct (cv_status c) eqn:Hs; try (split; done).
    + destruct (ack =? _); simpl; [|split; done]. apply (Hrow (set_status CONV_ESTABLISHED)); done.
    + destruct (_ <=? ack); [|split; done]. apply (Hrow (enter_time_wait now)); done.
    + destruct (_ <=? ack); [|split; done]. apply (Hrow (set_status CONV_FIN_WAIT_2)); done.
    + destruct (_ <=? ack); [|split; done]. by apply close_step.
  - apply row_step; [done|]. intros c Hc. unfold conv_on_fin.
    destruct (cv_status c) eqn:Hs; simpl; by rewrite ?Hs.
  - unfold rapport_on_rst. destruct (r !! id) as [c|] eqn:Hc; [|split; [done|apply (step_ok_refl (r, s, x))]].
    case_bool_decide; [split; [done|apply (step_ok_refl (r, s, x))]|]. by apply close_step.
  - apply row_step; [done|]. intros c Hc. unfold conv_initiate_close. simpl.
    destruct (cv_status c) eqn:Hs; simpl; by rewrite ?Hs.
  - by apply tick_step.
Qed.

Definition rap_run (evs : list rap_event) (st : conns) : conns := fold_left (fun st ev => rap_exec ev st) evs st.
Definition rap_boot : conns := (rapport_init, scheduler_init, lockbox_init).

Lemma rap_inv_boot : rap_inv rap_boot.
Proof.
  split; [done|]. split; [done|]. intros i. unfold rapport_get_state.
  destruct (rapport_init !! i) as [c|] eqn:Hc; [|done]. by apply lookup_replicate in Hc as [-> _].
Qed.

Lemma rap_inv_run evs st : rap_inv st -> rap_inv (rap_run evs st).
Proof. revert st. induction evs as [|ev evs IH]; intros st Hst; simpl; [done|]. by apply IH, rap_exec_step. Qed.

Lemma claim_other lp ip rp pr x i : held x i = true ->
  forall id, (lockbox_claim lp ip rp pr x).1.2 = Some id -> id <> i.
Proof.
  intros Hi id. pose proof (held_claim lp ip rp pr x) as Hc.
  destruct (lockbox_claim lp ip rp pr x) as [[res out] x']. simpl. intros -> ->.
  destruct (Hc i) as (_ & ? & _). congruence.
Qed.

(** What an event does to the row of a connection that holds its slot. *)
Definition conv_on_ack (now ack_num : Z) (c : conv) : conv :=
  match cv_status c with
  | CONV_SYN_RECEIVED => if ack_num =? (cv_our_isn c +32 1) then set_status CONV_ESTABLISHED c else c
  | CONV_FIN_WAIT_1 => if (cv_our_fin_seq c +32 1) <=? ack_num then set_status CONV_FIN_WAIT_2 c else c
  | CONV_CLOSING => if (cv_our_fin_seq c +32 1) <=? ack_num then enter_time_wait now c else c
  | CONV_LAST_ACK => if (cv_our_fin_seq c +32 1) <=? ack_num then set_status CONV_CLOSED c else c
  | _ => c
  end.
Definition conv_on_syn_ack (peer_isn ack_num : Z) (c : conv) : conv :=
  if bool_decide (cv_status c = CONV_SYN_SENT) && (ack_num =? (cv_our_isn c +32 1))
  then mkConv CONV_ESTABLISHED (peer_isn +32 1) (cv_our_isn c) (cv_our_fin_seq c)
         (cv_time_wait_started c) (cv_peer_window c) (cv_our_isn c +32 1)
  else c.
Definition row_after (ev : rap_event) (i : nat) (c : conv) : conv :=
  let on id c' := if decide (id = i) then c' else c in
  match ev with
  | EvSyn _ _ _ _ _ | EvConnect _ _ _ _ | EvListen _ _ => c
  | EvSynAck id peer_isn ack_num => on id (conv_on_syn_ack peer_isn ack_num c)
  | EvAck now id ack_num => on id (conv_on_ack now ack_num c)
  | EvFin now id => on id (conv_on_fin now c)
  | EvRst id => on id (set_status CONV_CLOSED c)
  | EvClose id fin_seq => on id (conv_initiate_close fin_seq c)
  | EvTick now => conv_tick now c
  end.

Lemma row_alter f (id i : nat) (r : rapport) (c : conv) : r !! i = Some c ->
  alter f id r !! i = Some (if decide (id = i) then f c else c).
Proof.
  intros Hc. case_decide; [subst; by rewrite list_lookup_alter_eq, Hc|by rewrite list_lookup_alter_ne].
Qed.

Lemma on_ack_row now id ack r s x : (rapport_on_ack now id ack (r, s, x)).1.1 = alter (conv_on_ack now ack) id r.
Proof.
  unfold rapport_on_ack. destruct (r !! id) as [c|] eqn:Hc; [|by rewrite alter_out].
  rewrite (alter_insert _ _ _ _ Hc). unfold conv_on_ack.
  destruct (cv_status c) eqn:Hs; try (by rewrite list_insert_id).
  - destruct (ack =? _); simpl; [done|by rewrite list_insert_id].
  - destruct (_ <=? ack); simpl; [done|by rewrite list_insert_id].
  - destruct (_ <=? ack); simpl; [done|by rewrite list_insert_id].
  - destruct (_ <=? ack); simpl; [by rewrite (alter_insert _ _ _ _ Hc)|by rewrite list_insert_id].
Qed.

Lemma on_syn_ack_row id pi ack r : snd (rapport_on_syn_ack id pi ack r) = alter (conv_on_syn_ack pi ack) id r.
Proof.
  unfold rapport_on_syn_ack. destruct (r !! id) as [c|] eqn:Hc; [|by rewrite alter_out].
  rewrite (alter_insert _ _ _ _ Hc). unfold conv_on_syn_ack. case_bool_decide; simpl; [|by rewrite list_insert_id].
  destruct (ack =? _); simpl; [done|by rewrite list_insert_id].
Qed.

Lemma on_rst_row id r s x : (rapport_on_rst id (r, s, x)).1.1 = alter (set_status CONV_CLOSED) id r.
Proof.
  unfold rapport_on_rst. destruct (r !! id) as [c|] eqn:Hc; [|by rewrite alter_out].
  case_bool_decide as Hs; [|done]. rewrite (alter_insert _ _ _ _ Hc), list_insert_id; [done|].
  rewrite Hc. destruct c. simpl in Hs. by subst.
Qed.

Lemma rap_exec_row ev r s x i c : length r = LOCKBOX_CAPACITY -> r !! i = Some c -> held x i = true ->
  (rap_exec ev (r, s, x)).1.1 !! i = Some (row_after ev i c).
Proof.
  intros Hl Hc Hh. pose proof (fun lp ip rp => claim_other lp ip rp 6 x i Hh) as Hco.
  destruct ev as [lp ip rp pi oi|lp ip rp oi|lp pr|id pi ack|now id ack|now id|id|id fin|now]; cbn [rap_exec row_after].
  - specialize (Hco lp ip rp). destruct (lockbox_claim lp ip rp 6 x) as [[res [id|]] x']; simpl in *; [|done].
    unfold rapport_on_syn. rewrite list_lookup_alter_ne; auto.
  - specialize (Hco lp ip rp). destruct (lockbox_claim lp ip rp 6 x) as [[res [id|]] x']; simpl in *; [|done].
    unfold rapport_initiate_connect. rewrite list_lookup_alter_ne; auto.
  - by destruct (lockbox_listen lp pr x) as [[res out] x'].
  - cbn [fst snd]. rewrite on_syn_ack_row. by apply row_alter.
  - rewrite on_ack_row. by apply row_alter.
  - by apply row_alter.
  - rewrite on_rst_row. by apply row_alter.
  - by apply row_alter.
  - destruct (rapport_tick_spec now r s x Hl) as (x' & -> & _). simpl. by rewrite list_lookup_fmap, Hc.
Qed.

(** The new state of a slot: of a live one by its row, of a closed one by the claim. *)
Lemma diagram_row ev i c : cv_status c <> CONV_CLOSED -> forall r s x, r !! i = Some c -> held x i = true ->
  cv_status (row_after ev i c) = tcp_diagram (input_at ev i (r, s, x)) (cv_status c).
Proof.
  intros Hne r s x Hc Hh. pose proof (fun lp ip rp => claim_other lp ip rp 6 x i Hh) as Hco. unfold input_at. rewrite Hc. cbn [default from_option id].
  destruct ev as [lp ip rp pi oi|lp ip rp oi|lp pr|id pi ack|now id ack|now id|id|id fin|now]; cbn [row_after].
  1,2: rewrite decide_False by (intros E; by apply (Hco lp ip rp i E)); by destruct (cv_status c).
  1: by destruct (cv_status c).
  all: repeat (case_decide; [|by destruct (cv_status c)]).
  - unfold conv_on_syn_ack, u32. change (2 ^ 32) with 4294967296. destruct (ack =? _); [|rewrite andb_false_r; by destruct (cv_status c)]. rewrite andb_true_r.
    case_bool_decide as E; [by rewrite E|]. by destruct (cv_status c).
  - unfold conv_on_ack, u32. change (2 ^ 32) with 4294967296. destruct (cv_status c) eqn:E; cbn; repeat case_match; done.
  - unfold conv_on_fin. by destruct (cv_status c) eqn:E; cbn; rewrite ?E.
  - by destruct (cv_status c).
  - unfold conv_initiate_close. cbn. by destruct (cv_status c) eqn:E; cbn; rewrite ?E.
  - unfold conv_tick, wait_over, CONV_TIME_WAIT_TICKS, u32. change (2 ^ 32) with 4294967296. destruct (400 <=? _); [|rewrite andb_false_r; by destruct (cv_status c)]. rewrite andb_true_r.
    case_bool_decide as E; [by rewrite E|]. by destruct (cv_status c).
Qed.

Lemma closed_event ev i r s x : rap_inv (r, s, x) -> rapport_get_state i r = CONV_CLOSED ->
  rapport_get_state i (rap_exec ev (r, s, x)).1.1 = tcp_diagram (input_at ev i (r, s, x)) CONV_CLOSED.
Proof.
  intros (Hl & Hx & _) Hi. assert (Hal : forall f id, (forall c, cv_status c = CONV_CLOSED -> cv_status (f c) = CONV_CLOSED) -> rapport_get_state i (alter f id r) = CONV_CLOSED).
  { intros f id Hf. rewrite state_alter. case_decide as E; [|done]. subst id. unfold rapport_get_state in Hi. destruct (r !! i); [|done]. by apply Hf. }
  assert (Hop : forall lp ip rp f st, (forall c, cv_status (f c) = st) ->
    rapport_get_state i (match (lockbox_claim lp ip rp 6 x).1.2 with Some id => alter f id r | None => r end) = if decide ((lockbox_claim lp ip rp 6 x).1.2 = Some i) then st else CONV_CLOSED).
  { intros lp ip rp f st Hf. pose proof (held_claim lp ip rp 6 x) as Hc. destruct (lockbox_claim lp ip rp 6 x) as [[res [id|]] x']; cbn [fst snd]; [|by rewrite decide_False].
    rewrite state_alter. destruct (decide (i = id)) as [->|Hn]; [|by rewrite decide_False by congruence]. rewrite decide_True by done.
    destruct (Hc id) as (Hlt & _). destruct (lookup_lt_is_Some_2 r id) as [c ->]; [lia|]. apply Hf. }
  destruct ev as [lp ip rp pi oi|lp ip rp oi|lp pr|id pi ack|now id ack|now id|id|id fin|now]; cbn [rap_exec input_at].
  - specialize (Hop lp ip rp (conv_on_syn pi oi) CONV_SYN_RECEIVED (fun _ => eq_refl)). unfold rapport_on_syn. destruct (lockbox_claim lp ip rp 6 x) as [[res out] x']. cbn [fst snd] in *. rewrite Hop. by case_decide.
  - unfold rapport_initiate_connect. match goal with |- context [alter ?f _ r] => specialize (Hop lp ip rp f CONV_SYN_SENT (fun _ => eq_refl)) end. destruct (lockbox_claim lp ip rp 6 x) as [[res out] x']. cbn [fst snd] in *. rewrite Hop. by case_decide.
  - by destruct (lockbox_listen lp pr x) as [[res out] x'].
  - cbn [fst snd]. rewrite on_syn_ack_row, Hal; [repeat case_match; done|]. intros c Hc. unfold conv_on_syn_ack. by rewrite bool_decide_eq_false_2 by congruence.
  - rewrite on_ack_row, Hal; [destruct (decide (id = i)); [by destruct (_ =? _), (_ <=? _)|done]|]. intros c Hc. unfold conv_on_ack. by rewrite Hc.
  - cbn [fst]. unfold rapport_on_fin. rewrite Hal; [by repeat case_match|]. intros c Hc. unfold conv_on_fin. by rewrite Hc.
  - rewrite on_rst_row, Hal; [by repeat case_match|done].
  - cbn [fst]. unfold rapport_initiate_close. rewrite Hal; [by repeat case_match|]. intros c Hc. unfold conv_initiate_close. cbn. by rewrite Hc.
  - destruct (rapport_tick_spec now r s x Hl) as (x' & -> & _). cbn [fst]. unfold rapport_get_state in *. rewrite list_lookup_fmap. destruct (r !! i) as [c|]; cbn in *; [|by case_match].
    unfold conv_tick, wait_over. rewrite bool_decide_eq_false_2 by congruence. cbn. rewrite Hi. by case_match.
Qed.


(** A handshake completes only with proof that the peer saw our initial
    sequence number.  In any state reachable from boot, a connection waiting in
    SYN_RECEIVED becomes established by an event exactly when the event is an
    ACK of our number plus one on that connection; one waiting in SYN_SENT,
    exactly when it is a SYN-ACK carrying that number. *)
Lemma rapport_handshake evs ev i c :
  let '(r, s, x) := rap_run evs rap_boot in
  r !! i = Some c ->
  let state' := rapport_get_state i (rap_exec ev (r, s, x)).1.1 in
  (cv_status c = CONV_SYN_RECEIVED ->
     (state' = CONV_ESTABLISHED <-> exists now, ev = EvAck now i (cv_our_isn c +32 1))) /\
  (cv_status c = CONV_SYN_SENT ->
     (state' = CONV_ESTABLISHED <-> exists peer_isn, ev = EvSynAck i peer_isn (cv_our_isn c +32 1))).
Proof.
  pose proof (rap_inv_run evs rap_boot rap_inv_boot) as Hinv.
  destruct (rap_run evs rap_boot) as [[r s] x]. intros Hc. destruct Hinv as (Hl & Hx & Hh).
  assert (cv_status c <> CONV_CLOSED -> rapport_get_state i (rap_exec ev (r, s, x)).1.1 = cv_status (row_after ev i c)) as Hrow.
  { intros Hne. unfold rapport_get_state. erewrite rap_exec_row; [done|done|done|].
    apply Hh. unfold rapport_get_state. by rewrite Hc. }
  split; intros Hs; rewrite Hrow by (by rewrite Hs); clear Hrow.
  all: destruct ev as [lp ip rp pi oi|lp ip rp oi|lp pr|id pi ack|now id ack|now id|id|id fin|now]; cbn [row_after].
  all: unfold conv_on_syn_ack, conv_on_ack, conv_on_fin, conv_initiate_close, conv_tick, wait_over; simpl; rewrite ?Hs; simpl.
  all: repeat match goal with
       | |- context [decide (?a = ?b)] => destruct (decide (a = b)); subst
       | |- context [?a =? ?b] => destruct (Z.eqb_spec a b); subst
       end; simpl; rewrite ?Hs.
  all: split; [first [done|eauto]|]; intros [? E]; simplify_eq; done.
Qed.

Lemma rapport_handshake_witness :
  let st := rap_run [EvSyn 80 [10;0;2;2] 4000 100 500] rap_boot in
  rapport_get_state 0 (rap_exec (EvAck 5 0 501) st).1.1 = CONV_ESTABLISHED.
Proof.
  pose proof (rapport_handshake [EvSyn 80 [10;0;2;2] 4000 100 500] (EvAck 5 0 501) 0
    (mkConv CONV_SYN_RECEIVED 101 500 0 0 0 501)) as H.
  cbv zeta. destruct (rap_run [EvSyn 80 [10;0;2;2] 4000 100 500] rap_boot) as [[r s] x] eqn:E.
  destruct H as [H _]; [|apply H; [reflexivity|exists 5; reflexivity]].
  vm_compute in E. injection E as <- _ _. reflexivity.
Defined.

(** One event on a live connection. *)
Definition live_row (st : conns) (i : nat) (c : conv) : Prop :=
  rap_inv st /\ st.1.1 !! i = Some c /\ cv_status c <> CONV_CLOSED.

Lemma live_step st ev i c : live_row st i c ->
  (cv_status (row_after ev i c) <> CONV_CLOSED -> live_row (rap_exec ev st) i (row_after ev i c)) /\
  (cv_status (row_after ev i c) = CONV_CLOSED ->
     rapport_get_state i (rap_exec ev st).1.1 = CONV_CLOSED /\ held (rap_exec ev st).2 i = false).
Proof.
  destruct st as [[r s] x]. intros (Hinv & Hc & Hne). simpl in Hc. pose proof Hinv as (Hl & _ & Hh).
  assert (rapport_get_state i r = cv_status c) as Hst by (unfold rapport_get_state; by rewrite Hc).
  assert (held x i = true) as Hheld by (apply Hh; by rewrite Hst).
  pose proof (rap_exec_row ev r s x i c Hl Hc Hheld) as Hrow.
  destruct (rap_exec_step ev (r, s, x) Hinv) as [Hinv' Hok].
  destruct (rap_exec ev (r, s, x)) as [[r' s'] x']. simpl in *. split.
  - intros Hn. by split.
  - intros Hcl. assert (rapport_get_state i r' = CONV_CLOSED) as Hst' by (unfold rapport_get_state; by rewrite Hrow).
    split; [done|]. apply (Hok i); [by rewrite Hst|done].
Qed.

(** Evaluate [row_after] with the tests known in the context. *)
Ltac row_eval :=
  unfold row_after, conv_on_ack, conv_on_fin, conv_initiate_close, conv_tick, wait_over; simpl;
  rewrite ?decide_True by done; simpl;
  repeat (match goal with
          | H : cv_status _ = _ |- _ => rewrite H
          | H : (_ <=? _) = true |- _ => rewrite H
          end; simpl); done.
Ltac live_go :=
  match goal with H : live_row ?st ?i ?c |- context [rap_exec ?ev ?st] =>
    apply (live_step st ev i c) in H as [H _]; specialize (H ltac:(row_eval)) end.
Ltac live_end :=
  match goal with H : live_row ?st ?i ?c |- context [rap_exec ?ev ?st] =>
    apply (live_step st ev i c) in H as [_ H]; apply H; row_eval end.

(** Both ends of an orderly close free the connection.  From any reachable
    state with an established connection, and a FIN number below 2^32 - 1:
    closing first (our FIN, its acknowledgement, their FIN, then a tick at least
    400 ticks later), being closed (their FIN, ours, its acknowledgement), and
    closing at the same time, each end with the connection CLOSED and its slot
    free. *)
Lemma rapport_orderly_close st i c fin ack t t1 t2 :
  rap_inv st -> st.1.1 !! i = Some c -> cv_status c = CONV_ESTABLISHED ->
  0 <= fin < 4294967295 -> fin + 1 <= ack -> 0 <= t1 -> t1 + 400 <= t2 < 4294967296 ->
  Forall (fun evs => rapport_get_state i (rap_run evs st).1.1 = CONV_CLOSED /\ held (rap_run evs st).2 i = false)
    [[EvClose i fin; EvAck t i ack; EvFin t1 i; EvTick t2];
     [EvFin t i; EvClose i fin; EvAck t i ack];
     [EvClose i fin; EvFin t i; EvAck t1 i ack; EvTick t2]].
Proof.
  intros Hinv Hc Hs Hfin Hack Ht1 Ht2.
  assert (live_row st i c) as Hlive by (split; [done|]; split; [done|]; by rewrite Hs).
  assert ((fin +32 1) <=? ack = true) as Hle by (rewrite u32_small by (words; lia); apply Z.leb_le; lia).
  assert (CONV_TIME_WAIT_TICKS <=? (t2 -32 t1) = true) as Hto.
  { rewrite u32_small by (words; lia). apply Z.leb_le. unfold CONV_TIME_WAIT_TICKS. lia. }
  apply Forall_cons_2; [|apply Forall_cons_2; [|apply Forall_cons_2; [|apply Forall_nil_2]]];
    unfold rap_run; cbn [fold_left].
  - live_go. live_go. live_go. live_end.
  - live_go. live_go. live_end.
  - live_go. live_go. live_go. live_end.
Qed.

Lemma rapport_orderly_close_witness :
  let st := rap_run [EvSyn 80 [10;0;2;2] 4000 100 500; EvAck 5 0 501] rap_boot in
  held (rap_run [EvFin 10 0; EvClose 0 501; EvAck 10 0 502] st).2 0 = false.
Proof.
  cbv zeta.
  assert (K := rapport_orderly_close (rap_run [EvSyn 80 [10;0;2;2] 4000 100 500; EvAck 5 0 501] rap_boot) 0
    (mkConv CONV_ESTABLISHED 101 500 0 0 0 501) 501 502 10 20 500 (rap_inv_run _ _ rap_inv_boot) eq_refl eq_refl
    ltac:(lia) ltac:(lia) ltac:(lia) ltac:(lia)).
  apply Forall_cons_1 in K as [_ K]. apply Forall_cons_1 in K as [[_ K] _]. exact K.
Defined.
