(* ===== verification/Transport.v ===== *)
(** * WayStation and the retransmission tick

    [Networking/WayStation/waystation.c] holds out-of-order TCP segments until
    the gap before them closes, and computes the advertised window;
    [scheduler_tick] of [Networking/Scheduler/scheduler.c] retransmits and gives
    up.  The [tcp] record gathers the per-connection components. *)

From S2P Require Import Prelude SlotTable GuestList Bailiff Rolodex Foyer LockBox Ring Inbox Why Scheduler Rapport.
Import Inbox Why.

Definition WAYSTATION_MAX_SEGMENT : Z := 1460.
Definition WAYSTATION_MAX_PENDING : nat := 4.

(** [hs_data] is the first [len] bytes of the segment's buffer. *)
Record held_segment := mkHeld { hs_seq : Z; hs_data : list Z; hs_in_use : bool }.
(** One row of [slots] and [seen_generation]. *)
Record way_row := mkWay { wr_slots : list held_segment; wr_seen_generation : Z }.

Definition waystation_init : list way_row :=
  replicate LOCKBOX_CAPACITY (mkWay (replicate WAYSTATION_MAX_PENDING (mkHeld 0 [] false)) 0).

(** The state of the transport components. *)
Record tcp := mkTcp {
  tp_lockbox : lockbox; tp_inbox : inbox; tp_way : list way_row; tp_rapport : rapport;
  tp_sched : scheduler; tp_why : list why_row }.

Definition tcp_init : tcp :=
  mkTcp lockbox_init inbox_init waystation_init rapport_init scheduler_init why_init.

Definition held_clear (h : held_segment) : held_segment := mkHeld (hs_seq h) (hs_data h) false.

Definition way_reset_if_stale (gen : Z) (w : way_row) : way_row :=
  if wr_seen_generation w =? gen then w else mkWay (held_clear <$> wr_slots w) gen.

Definition waystation_hold (conn_id : nat) (seq : Z) (payload : list Z) (x : lockbox) (ws : list way_row)
    : bool * list way_row :=
  match ws !! conn_id with
  | None => (false, ws)
  | Some w =>
      if (zlen payload =? 0) || (WAYSTATION_MAX_SEGMENT <? zlen payload) then (false, ws) else
      let w := way_reset_if_stale (lockbox_get_generation conn_id x) w in
      match find_idx (fun h => hs_in_use h && (hs_seq h =? seq)) (wr_slots w) with
      | Some _ => (true, <[conn_id := w]> ws)
      | None =>
          match find_idx (fun h => negb (hs_in_use h)) (wr_slots w) with
          | None => (false, <[conn_id := w]> ws)
          | Some i => (true, <[conn_id := mkWay (<[i := mkHeld seq payload true]> (wr_slots w)) (wr_seen_generation w)]> ws)
          end
      end
  end.

(** The [for (;;)] loop of [waystation_drain] over the row of [conn_id]; the
    state is the row, Inbox, LockBox, Rapport and the number delivered.  [None]
    is running out of [fuel]. *)
Fixpoint drain_loop (fuel : nat) (conn_id : nat) (row : list held_segment) (x : lockbox) (ib : inbox) (r : rapport)
    (drained : nat) : option (list held_segment * lockbox * inbox * rapport * nat) :=
  match fuel with
  | O => None
  | S fuel' =>
      let expected := rapport_get_expected_seq conn_id r in
      match find_idx (fun h => hs_in_use h && (hs_seq h =? expected)) row with
      | None => Some (row, x, ib, r, drained)
      | Some found =>
          match row !! found with
          | None => Some (row, x, ib, r, drained)
          | Some h =>
              let '(ok, x, ib) := inbox_deposit conn_id (hs_data h) x ib in
              if negb ok then Some (row, x, ib, r, drained) else
              let r := rapport_advance_seq conn_id (zlen (hs_data h)) r in
              drain_loop fuel' conn_id (<[found := held_clear h]> row) x ib r (S drained)
          end
      end
  end.

Definition waystation_drain (conn_id : nat) (t : tcp) : option (nat * tcp) :=
  match tp_way t !! conn_id with
  | None => Some (0%nat, t)
  | Some w =>
      let w := way_reset_if_stale (lockbox_get_generation conn_id (tp_lockbox t)) w in
      '(row, x, ib, r, n) ← drain_loop (S WAYSTATION_MAX_PENDING) conn_id (wr_slots w)
                              (tp_lockbox t) (tp_inbox t) (tp_rapport t) 0;
      Some (n, mkTcp x ib (<[conn_id := mkWay row (wr_seen_generation w)]> (tp_way t)) r (tp_sched t) (tp_why t))
  end.

Fixpoint held_bytes (row : list held_segment) : Z :=
  match row with [] => 0 | h :: row' => (if hs_in_use h then zlen (hs_data h) else 0) + held_bytes row' end.

(** [waystation_receive_window]; it may reset a stale row and Inbox slot. *)
Definition waystation_receive_window (conn_id : nat) (t : tcp) : Z * tcp :=
  match tp_way t !! conn_id with
  | None => (0, t)
  | Some w =>
      let w := way_reset_if_stale (lockbox_get_generation conn_id (tp_lockbox t)) w in
      let '(avail, ib) := inbox_available conn_id (tp_lockbox t) (tp_inbox t) in
      let t := mkTcp (tp_lockbox t) ib (<[conn_id := w]> (tp_way t)) (tp_rapport t) (tp_sched t) (tp_why t) in
      let free_space := LOCKBOX_MAX_BUFFERED -32 Z.of_nat avail in
      let held := u32 (held_bytes (wr_slots w)) in
      if free_space <=? held then (0, t) else
      let window := free_space -32 held in
      (if 0xFFFF <? window then 0xFFFF else window, t)
  end.

Definition waystation_pending_count (conn_id : nat) (t : tcp) : nat * tcp :=
  match tp_way t !! conn_id with
  | None => (0%nat, t)
  | Some w =>
      let w := way_reset_if_stale (lockbox_get_generation conn_id (tp_lockbox t)) w in
      (count_if hs_in_use (wr_slots w),
       mkTcp (tp_lockbox t) (tp_inbox t) (<[conn_id := w]> (tp_way t)) (tp_rapport t) (tp_sched t) (tp_why t))
  end.

#[global] Arguments waystation_drain : simpl never.
#[global] Arguments waystation_receive_window : simpl never.

(** ** In-order delivery *)

(** The segments [ds] are contiguous from sequence number [e] to [e']. *)
Inductive contiguous : Z -> list held_segment -> Z -> Prop :=
| cont_nil e : contiguous e [] e
| cont_cons e h ds e' : hs_seq h = e -> contiguous (e +32 zlen (hs_data h)) ds e' -> contiguous e (h :: ds) e'.

Definition payload_of (ds : list held_segment) : list Z := concat (hs_data <$> ds).

Lemma expected_advance id n r c : r !! id = Some c ->
  rapport_get_expected_seq id (rapport_advance_seq id n r) = rapport_get_expected_seq id r +32 n.
Proof. intros Hc. unfold rapport_get_expected_seq, rapport_advance_seq. by rewrite list_lookup_alter_eq, Hc. Qed.

Lemma drain_loop_spec fuel id : forall row x ib r n drained q,
  (count_if hs_in_use row < fuel)%nat -> Forall (fun h => is_u16 (zlen (hs_data h))) row ->
  inbox_inv n x ib q -> is_Some (r !! id) ->
  exists row' x' ib' r' ds, drain_loop fuel id row x ib r drained = Some (row', x', ib', r', (drained + length ds)%nat) /\
    contiguous (rapport_get_expected_seq id r) ds (rapport_get_expected_seq id r') /\
    (forall h, h ∈ ds -> h ∈ row /\ hs_in_use h = true) /\
    (exists q', inbox_inv n x' ib' q' /\ q' id = q id ++ payload_of ds /\ forall j, j <> id -> q' j = q j) /\
    (count_if hs_in_use row' + length ds = count_if hs_in_use row)%nat /\
    (forall h, h ∈ row' -> hs_in_use h = true -> h ∈ row) /\
    (forall h, h ∈ row -> hs_in_use h = true -> h ∈ ds \/ h ∈ row') /\
    (forall h, h ∈ row' -> hs_in_use h = true -> hs_seq h = rapport_get_expected_seq id r' ->
       exists h', h' ∈ row' /\ hs_in_use h' = true /\ hs_seq h' = hs_seq h /\
         ~ (held x' id = true /\ zlen (q id ++ payload_of ds) + zlen (hs_data h') <= 4096)).
Proof.
  induction fuel as [|fuel IH]; intros row x ib r n drained q Hf Hlen Hinv [c Hc]; [lia|]. cbn [drain_loop].
  destruct (find_idx _ row) as [k|] eqn:Hk.
  2:{ exists row, x, ib, r, []. rewrite Nat.add_0_r. split; [done|]. split; [constructor|].
      split; [intros h Hh; by apply not_elem_of_nil in Hh|].
      split; [exists q; unfold payload_of; simpl; rewrite app_nil_r; done|]. split; [done|]. split; [done|]. split; [by right|].
      intros h [i Hi]%list_elem_of_lookup Hu Hs. rewrite find_idx_None in Hk. specialize (Hk i h Hi).
      rewrite Hu, Hs, Z.eqb_refl in Hk. done. }
  apply find_idx_Some in Hk as (h & Hh & Hp & _). breflect. rewrite Hh.
  pose proof (Forall_lookup_1 _ _ _ _ Hlen Hh) as Hhl. simpl in Hhl.
  pose proof (inbox_deposit_spec n x ib q id (hs_data h) Hinv Hhl) as Hd.
  destruct (inbox_deposit id (hs_data h) x ib) as [[ok x1] ib1] eqn:Edep. destruct Hd as [Hok Hinv1].
  destruct ok; cbn [negb]; cbv iota.
  - assert (count_if hs_in_use (<[k := held_clear h]> row) + 1 = count_if hs_in_use row)%nat as Hcnt.
    { pose proof (count_if_insert hs_in_use row k h (held_clear h) Hh) as E. rewrite H in E. simpl in E. lia. }
    destruct (IH (<[k := held_clear h]> row) x1 ib1 (rapport_advance_seq id (zlen (hs_data h)) r) n (S drained)
      (upd q id (q id ++ hs_data h))) as (row' & x' & ib' & r' & ds & Hrun & Hcont & Hds & (q' & Hq' & Hqid & Hqo) & Hc' & Hrow' & Hkept & Hstop).
    { lia. } { by apply Forall_insert. } { done. } { unfold rapport_advance_seq. rewrite list_lookup_alter_eq, Hc. eauto. }
    exists row', x', ib', r', (h :: ds). rewrite Hrun. split; [do 2 f_equal; simpl; lia|].
    assert (upd q id (q id ++ hs_data h) id = q id ++ hs_data h) as Hup by (unfold upd; by rewrite decide_True).
    rewrite Hup in *.
    split; [constructor; [done|]; by rewrite <- (expected_advance id _ r c Hc)|]. split.
    { intros g [->|Hg]%elem_of_cons; [split; [apply list_elem_of_lookup; eauto|done]|].
      destruct (Hds g Hg) as [[i Hi]%list_elem_of_lookup Hu]. split; [|done].
      rewrite list_lookup_insert in Hi. case_decide; [destruct_and!; simplify_eq/=|]. apply list_elem_of_lookup. eauto. }
    split. { exists q'. split; [done|]. unfold payload_of in *. simpl. rewrite app_assoc. split; [done|].
      intros j Hj. rewrite Hqo by done. unfold upd. by rewrite decide_False. }
    split; [simpl; lia|]. unfold payload_of in *. simpl. rewrite app_assoc. split; [|split; [|done]].
    { intros g Hg Hu. specialize (Hrow' g Hg Hu) as [i Hi]%list_elem_of_lookup.
      rewrite list_lookup_insert in Hi. case_decide; [destruct_and!; simplify_eq/=|]. apply list_elem_of_lookup. eauto. }
    intros g [i Hi]%list_elem_of_lookup Hu. destruct (decide (i = k)) as [->|Hik]; [simplify_eq; left; by left|].
    destruct (Hkept g) as [Hg|Hg]; [apply list_elem_of_lookup; exists i; by rewrite list_lookup_insert_ne|done|left; by right|by right].
  - exists row, x1, ib1, r, []. rewrite Nat.add_0_r. split; [done|]. split; [constructor|].
    split; [intros g Hg; by apply not_elem_of_nil in Hg|]. unfold payload_of. simpl. rewrite app_nil_r.
    split; [exists q; done|]. split; [done|]. split; [done|]. split; [by right|].
    intros g Hg Hu Hs. exists h. split; [apply list_elem_of_lookup; eauto|]. split; [done|]. split; [congruence|].
    symmetry in Hok. apply bool_decide_eq_false in Hok. intros [Hheld Hfit]. apply Hok. split; [|done].
    apply held_tuple. unfold inbox_deposit in Edep. destruct (ib !! id) as [s|]; [|by simplify_eq].
    pose proof (held_deposit id (zlen (hs_data h)) x id) as Eh.
    destruct (lockbox_deposit id (zlen (hs_data h)) x) as [b x2]. simpl in Eh. destruct b; simpl in Edep.
    + destruct (push_all _ _ _ _). simplify_eq.
    + simplify_eq. congruence.
Qed.

(** ** Rows *)

Definition row_wf (w : way_row) : Prop :=
  length (wr_slots w) = WAYSTATION_MAX_PENDING /\ Forall (fun h => zlen (hs_data h) <= WAYSTATION_MAX_SEGMENT) (wr_slots w).
Definition way_wf (ws : list way_row) : Prop := length ws = LOCKBOX_CAPACITY /\ Forall row_wf ws.

Lemma way_wf_init : way_wf waystation_init.
Proof. split; [done|]. apply Forall_replicate. split; [done|]. by apply Forall_replicate. Qed.

Lemma row_wf_reset gen w : row_wf w -> row_wf (way_reset_if_stale gen w).
Proof.
  intros [Hl Hd]. unfold way_reset_if_stale. case_match; [done|]. split; simpl; [by rewrite length_fmap|].
  by apply Forall_fmap.
Qed.

Lemma waystation_hold_wf id seq payload x ws : way_wf ws -> way_wf (waystation_hold id seq payload x ws).2.
Proof.
  intros [Hl Hf]. unfold waystation_hold. destruct (ws !! id) as [w|] eqn:Hw; [|done].
  destruct ((zlen payload =? 0) || (WAYSTATION_MAX_SEGMENT <? zlen payload)) eqn:Hlen; [done|]. breflect.
  pose proof (row_wf_reset (lockbox_get_generation id x) w (Forall_lookup_1 _ _ _ _ Hf Hw)) as Hr.
  assert (forall w', row_wf w' -> way_wf (<[id := w']> ws)) as Hput.
  { intros w' Hw'. split; [by rewrite length_insert|by apply Forall_insert]. }
  destruct (find_idx _ _); [by apply Hput|]. destruct (find_idx _ _); [|by apply Hput]. apply Hput.
  destruct Hr as [H1 H2]. split; simpl; [by rewrite length_insert|]. by apply Forall_insert.
Qed.

(** The segments held for connection [id], as [waystation_drain] finds them,
    and the row as it stands. *)
Definition row_of (id : nat) (t : tcp) : list held_segment := from_option wr_slots [] (tp_way t !! id).
Definition held_for (id : nat) (t : tcp) : list held_segment :=
  from_option (fun w => wr_slots (way_reset_if_stale (lockbox_get_generation id (tp_lockbox t)) w)) [] (tp_way t !! id).

(** From [t] to [t'], behind the bytes [before] of the queue, exactly the segments
    [ds] were released: they were waiting, every other one still is, and none of
    these both continues the stream and fits the queue. *)
Definition releases (id : nat) (t t' : tcp) (before : list Z) (ds : list held_segment) : Prop :=
  (forall h, h ∈ ds -> h ∈ held_for id t /\ hs_in_use h = true) /\
  (forall h, h ∈ held_for id t -> hs_in_use h = true -> h ∈ ds \/ h ∈ row_of id t') /\
  (forall h, h ∈ row_of id t' -> hs_in_use h = true -> h ∈ held_for id t) /\
  (forall h, h ∈ row_of id t' -> hs_in_use h = true -> hs_seq h = rapport_get_expected_seq id (tp_rapport t') ->
     exists h', h' ∈ row_of id t' /\ hs_in_use h' = true /\ hs_seq h' = hs_seq h /\ 4096 < zlen (before ++ payload_of ds) + zlen (hs_data h')).

Lemma waystation_releases n id t q : inbox_inv n (tp_lockbox t) (tp_inbox t) q -> way_wf (tp_way t) -> length (tp_rapport t) = LOCKBOX_CAPACITY ->
  (forall t' m, waystation_drain id t = Some (m, t') -> held (tp_lockbox t') id = true) ->
  exists t' ds, waystation_drain id t = Some (length ds, t') /\
    contiguous (rapport_get_expected_seq id (tp_rapport t)) ds (rapport_get_expected_seq id (tp_rapport t')) /\ releases id t t' (q id) ds /\
    (exists q', inbox_inv n (tp_lockbox t') (tp_inbox t') q' /\ q' id = q id ++ payload_of ds /\ forall j, j <> id -> q' j = q j).
Proof.
  intros Hinv [Hwl Hwf] Hr Hheld. unfold releases, held_for, row_of. destruct (tp_way t !! id) as [w|] eqn:Hw.
  2:{ exists t, []. unfold waystation_drain. rewrite Hw. split; [done|]. split; [constructor|]. split; [|exists q; unfold payload_of; simpl; by rewrite app_nil_r].
      split; [intros h Hh; by apply not_elem_of_nil in Hh|]. simpl. split; [intros h Hh; by apply not_elem_of_nil in Hh|]. split; intros h Hh; by apply not_elem_of_nil in Hh. }
  unfold waystation_drain in *. rewrite Hw in *. cbn [from_option].
  pose proof (row_wf_reset (lockbox_get_generation id (tp_lockbox t)) w (Forall_lookup_1 _ _ _ _ Hwf Hw)) as [Hrl Hrd]. pose proof (lookup_lt_Some _ _ _ Hw) as Hid. rewrite Hwl in Hid.
  edestruct (drain_loop_spec (S WAYSTATION_MAX_PENDING) id) as (row' & x' & ib' & r' & ds & Hrun & Hcont & Hds & Hq & _ & Hin & Hkept & Hstop); [| |exact Hinv| |].
  { pose proof (count_if_length hs_in_use (wr_slots (way_reset_if_stale (lockbox_get_generation id (tp_lockbox t)) w))) as Hc. rewrite Hrl in Hc. apply Nat.lt_succ_r. exact Hc. }
  { eapply Forall_impl; [|exact Hrd]. intros h Hh. simpl in Hh. unfold WAYSTATION_MAX_SEGMENT in Hh. unfold is_u16, zlen in *. lia. }
  { apply lookup_lt_is_Some_2. by rewrite Hr. }
  rewrite Hrun in *. cbn [mbind option_bind] in *. specialize (Hheld _ _ eq_refl). simpl in Hheld. do 2 eexists. split; [reflexivity|]. split; [exact Hcont|]. split; [|exact Hq].
  simpl. rewrite list_lookup_insert_eq by (by rewrite Hwl). simpl. split; [exact Hds|]. split; [exact Hkept|]. split; [exact Hin|].
  intros h Hh Hu Hs. destruct (Hstop h Hh Hu Hs) as (h' & H1 & H2 & H3 & H4). exists h'. split; [done|]. split; [done|]. split; [done|]. destruct (Z.lt_ge_cases 4096 (zlen (q id ++ payload_of ds) + zlen (hs_data h'))); [done|]. exfalso. apply H4. split; [done|lia].
Qed.

Lemma waystation_drain_in_order_spec n id t q w :
  inbox_inv n (tp_lockbox t) (tp_inbox t) q -> way_wf (tp_way t) -> length (tp_rapport t) = LOCKBOX_CAPACITY ->
  tp_way t !! id = Some w ->
  exists t' ds, waystation_drain id t = Some (length ds, t') /\
    contiguous (rapport_get_expected_seq id (tp_rapport t)) ds (rapport_get_expected_seq id (tp_rapport t')) /\
    (forall h, h ∈ ds -> hs_in_use h = true /\
       h ∈ wr_slots (way_reset_if_stale (lockbox_get_generation id (tp_lockbox t)) w)) /\
    (exists q', inbox_inv n (tp_lockbox t') (tp_inbox t') q' /\
       q' id = q id ++ payload_of ds /\ forall j, j <> id -> q' j = q j) /\
    (exists w', tp_way t' !! id = Some w' /\
       forall h, h ∈ wr_slots w' -> hs_in_use h = true -> hs_seq h = rapport_get_expected_seq id (tp_rapport t') ->
         exists h', h' ∈ wr_slots w' /\ hs_in_use h' = true /\ hs_seq h' = hs_seq h /\
           ~ (held (tp_lockbox t') id = true /\ zlen (q id ++ payload_of ds) + zlen (hs_data h') <= 4096)).
Proof.
  intros Hinv [Hwl Hwf] Hr Hw. unfold waystation_drain. rewrite Hw.
  pose proof (row_wf_reset (lockbox_get_generation id (tp_lockbox t)) w (Forall_lookup_1 _ _ _ _ Hwf Hw)) as [Hrl Hrd].
  pose proof (lookup_lt_Some _ _ _ Hw) as Hid. rewrite Hwl in Hid.
  edestruct (drain_loop_spec (S WAYSTATION_MAX_PENDING) id) as
    (row' & x' & ib' & r' & ds & Hrun & Hcont & Hds & Hq & _ & _ & _ & Hstop); [| |exact Hinv| |].
  { pose proof (count_if_length hs_in_use (wr_slots (way_reset_if_stale (lockbox_get_generation id (tp_lockbox t)) w))) as Hc.
    rewrite Hrl in Hc. apply Nat.lt_succ_r. exact Hc. }
  { eapply Forall_impl; [|exact Hrd]. intros h Hh. simpl in Hh. unfold WAYSTATION_MAX_SEGMENT in Hh. unfold is_u16, zlen in *. lia. }
  { apply lookup_lt_is_Some_2. by rewrite Hr. }
  rewrite Hrun. cbn [mbind option_bind]. do 2 eexists. split; [reflexivity|]. split; [exact Hcont|].
  split; [intros h Hh; destruct (Hds h Hh); done|]. split; [exact Hq|]. eexists. simpl.
  split; [by apply list_lookup_insert_eq; rewrite Hwl|]. exact Hstop.
Qed.

(** Held segments are delivered in sequence order, without gap or overlap.
    Draining a connection's held segments always terminates (each round frees a
    slot of four).  It delivers some held segments that are contiguous from the
    expected sequence number on; the connection's byte queue grows by exactly
    their payload in that order, the expected number advances by exactly their
    length, the other queues do not change; and it stops only when nothing held
    starts at the expected number or the queue has no room for what does. *)
Lemma waystation_drain_in_order n id t q w :
  inbox_inv n (tp_lockbox t) (tp_inbox t) q -> way_wf (tp_way t) -> length (tp_rapport t) = LOCKBOX_CAPACITY ->
  tp_way t !! id = Some w ->
  exists t' ds, waystation_drain id t = Some (length ds, t') /\
    contiguous (rapport_get_expected_seq id (tp_rapport t)) ds (rapport_get_expected_seq id (tp_rapport t')) /\
    (forall h, h ∈ ds -> hs_in_use h = true /\
       h ∈ wr_slots (way_reset_if_stale (lockbox_get_generation id (tp_lockbox t)) w)) /\
    (exists q', inbox_inv n (tp_lockbox t') (tp_inbox t') q' /\
       q' id = q id ++ payload_of ds /\ forall j, j <> id -> q' j = q j) /\
    (exists w', tp_way t' !! id = Some w' /\
       forall h, h ∈ wr_slots w' -> hs_in_use h = true -> hs_seq h = rapport_get_expected_seq id (tp_rapport t') ->
         exists h', h' ∈ wr_slots w' /\ hs_in_use h' = true /\ hs_seq h' = hs_seq h /\
           ~ (held (tp_lockbox t') id = true /\ zlen (q id ++ payload_of ds) + zlen (hs_data h') <= 4096)).
Proof. apply waystation_drain_in_order_spec. Qed.

Lemma waystation_drain_in_order_witness :
  let x := (lockbox_claim 80 [10;0;2;2] 4000 6 lockbox_init).2 in
  let ws := (waystation_hold 0 0 [7;8;9] x waystation_init).2 in
  exists t' (ds : list held_segment), waystation_drain 0 (mkTcp x inbox_init ws rapport_init scheduler_init why_init) = Some (length ds, t').
Proof.
  cbv zeta.
  destruct (waystation_drain_in_order 1 0 (mkTcp (lockbox_claim 80 [10;0;2;2] 4000 6 lockbox_init).2 inbox_init
      (waystation_hold 0 0 [7;8;9] (lockbox_claim 80 [10;0;2;2] 4000 6 lockbox_init).2 waystation_init).2
      rapport_init scheduler_init why_init) (upd (fun _ => []) 0 [])
      (mkWay (mkHeld 0 [7;8;9] true :: replicate 3 (mkHeld 0 [] false)) 1)) as (t' & ds & H & _).
  - exact (inbox_claim_spec 0 lockbox_init inbox_init (fun _ => []) 80 [10;0;2;2] 4000 6 inbox_inv_init ltac:(lia)).
  - apply waystation_hold_wf, way_wf_init.
  - reflexivity.
  - vm_compute. reflexivity.
  - exists t', ds. exact H.
Defined.

Lemma held_bytes_nonneg row : 0 <= held_bytes row.
Proof. induction row; simpl; [lia|]. unfold zlen. case_match; lia. Qed.
Lemma held_bytes_bound row : Forall (fun h => zlen (hs_data h) <= WAYSTATION_MAX_SEGMENT) row ->
  held_bytes row <= WAYSTATION_MAX_SEGMENT * zlen row.
Proof.
  unfold WAYSTATION_MAX_SEGMENT, zlen. induction 1; cbn [held_bytes length] in *; [lia|]. cbv beta in *. unfold zlen in *. case_match; lia.
Qed.

Lemma waystation_window_spec n id t q w :
  inbox_inv n (tp_lockbox t) (tp_inbox t) q -> way_wf (tp_way t) -> tp_way t !! id = Some w ->
  let '(win, t') := waystation_receive_window id t in
  win = Z.max 0 (4096 - zlen (q id) -
    held_bytes (wr_slots (way_reset_if_stale (lockbox_get_generation id (tp_lockbox t)) w))) /\
  inbox_inv n (tp_lockbox t') (tp_inbox t') q /\ tp_rapport t' = tp_rapport t.
Proof.
  intros Hinv [Hwl Hwf] Hw. unfold waystation_receive_window. rewrite Hw.
  pose proof (inbox_available_spec n (tp_lockbox t) (tp_inbox t) q id Hinv) as Ha.
  destruct (inbox_available id (tp_lockbox t) (tp_inbox t)) as [avail ib]. destruct Ha as [-> Hinv'].
  pose proof (row_wf_reset (lockbox_get_generation id (tp_lockbox t)) w (Forall_lookup_1 _ _ _ _ Hwf Hw)) as [Hrl Hrd].
  revert Hrl Hrd. generalize (wr_slots (way_reset_if_stale (lockbox_get_generation id (tp_lockbox t)) w)). intros row Hrl Hrd.
  pose proof (held_bytes_nonneg row) as H0. pose proof (held_bytes_bound row Hrd) as H1.
  assert (zlen (q id) <= 4096) as Hq.
  { destruct Hinv as [Hb Hl Hs _]. pose proof (lookup_lt_Some _ _ _ Hw) as Hid. rewrite Hwl in Hid.
    destruct (lookup_lt_is_Some_2 (tp_inbox t) id) as [s Hs']; [by rewrite Hl|].
    destruct (lookup_lt_is_Some_2 (lx_table (tp_lockbox t)) id) as [e He]; [by rewrite (lw_len _ Hb)|].
    destruct (Hs id s e Hs' He) as (_ & -> & _). by apply (Forall_lookup_1 _ _ _ _ (lw_buffered _ Hb) He). }
  unfold WAYSTATION_MAX_SEGMENT, zlen in *. rewrite Hrl in H1. unfold WAYSTATION_MAX_PENDING, LOCKBOX_MAX_BUFFERED in *.
  rewrite (u32_small (4096 - _)), (u32_small (held_bytes row)) by (words; lia).
  destruct (Z.leb_spec (4096 - Z.of_nat (length (q id))) (held_bytes row)); simpl; [split; [lia|done]|].
  rewrite u32_small by (words; lia). destruct (Z.ltb_spec 65535 (4096 - Z.of_nat (length (q id)) - held_bytes row)); [lia|].
  split; [lia|done].
Qed.

(** The advertised receive window is exactly the room left: 4096 bytes less
    what the application has not read and what is held out of order, or zero;
    computing it changes no queue. *)
Lemma waystation_window n id t q w :
  inbox_inv n (tp_lockbox t) (tp_inbox t) q -> way_wf (tp_way t) -> tp_way t !! id = Some w ->
  let '(win, t') := waystation_receive_window id t in
  win = Z.max 0 (4096 - zlen (q id) -
    held_bytes (wr_slots (way_reset_if_stale (lockbox_get_generation id (tp_lockbox t)) w))) /\
  inbox_inv n (tp_lockbox t') (tp_inbox t') q /\ tp_rapport t' = tp_rapport t.
Proof. apply waystation_window_spec. Qed.

Lemma waystation_window_witness :
  fst (waystation_receive_window 0 tcp_init) = 4096.
Proof.
  exact (proj1 (waystation_window 0 0 tcp_init (fun _ => [])
    (mkWay (replicate WAYSTATION_MAX_PENDING (mkHeld 0 [] false)) 0) inbox_inv_init way_wf_init eq_refl)).
Defined.

(** ** The retransmission tick *)

Definition set_pkt_state (st : packet_sched_state) (c : packets_state) : packets_state :=
  mkPkt (pk_seg c) st (pk_retry_track c) (pk_srtt c) (pk_rttvar c) (pk_rto c) (pk_last_ack_seen c) (pk_dup_ack_count c).

Definition seg_mark (e : sched_segment) : sched_segment :=
  mkSeg (sg_seq e) (sg_seq_len e) (sg_start_timer e) (sg_in_use e) true (sg_frame e).
Definition seg_restart (now : Z) (e : sched_segment) : sched_segment :=
  mkSeg (sg_seq e) (sg_seq_len e) now (sg_in_use e) (sg_retransmitted e) (sg_frame e).

(** The bookkeeping of a connection after its segment [k] was sent again. *)
Definition pkt_retried (now : Z) (k : nat) (c : packets_state) : packets_state :=
  mkPkt (alter (seg_restart now) k (seg_mark <$> pk_seg c)) (pk_state c) (pk_retry_track c +32 1)
    (pk_srtt c) (pk_rttvar c) (if SCHED_MAX_RTO <? (pk_rto c *32 2) then SCHED_MAX_RTO else pk_rto c *32 2)
    (pk_last_ack_seen c) (pk_dup_ack_count c).

Definition set_tcp_sched (s : scheduler) (t : tcp) : tcp :=
  mkTcp (tp_lockbox t) (tp_inbox t) (tp_way t) (tp_rapport t) s (tp_why t).

(** [rapport_on_rst] in the [tcp] record. *)
Definition tcp_on_rst (id : nat) (t : tcp) : tcp :=
  let '(r, s, x) := rapport_on_rst id (tp_rapport t, tp_sched t, tp_lockbox t) in
  mkTcp x (tp_inbox t) (tp_way t) r s (tp_why t).

Section Tick.
Context `{TxDriver D}.

(** The body of [scheduler_tick] for connection [i]. *)
Definition scheduler_tick_slot (now : Z) (i : nat) (st : tcp * link D) : tcp * link D :=
  let '(t, l) := st in
  match sd_conns (tp_sched t) !! i with
  | None => st
  | Some c =>
      if negb (bool_decide (pk_state c = PACKET_STATE_RETRY)) then st else
      match oldest c ≫= fun k => (fun e => (k, e)) <$> pk_seg c !! k with
      | None => (set_tcp_sched (set_conn i (set_pkt_state PACKET_STATE_IDLE c) (tp_sched t)) t, l)
      | Some (k, e) =>
          if (now -32 sg_start_timer e) <? pk_rto c then st
          else if RETRY_LIMIT <=? pk_retry_track c then
            let s := set_conn i (set_pkt_state PACKET_STATE_FAILURE (clear_window c)) (tp_sched t) in
            let s := mkSched (sd_conns s) (sd_retransmit_total s) (sd_giveup_total s +32 1) in
            (tcp_on_rst i (set_tcp_sched s t), l)
          else
            let '(_, (s, l, w)) := resend now e i (tp_sched t, l, tp_why t) in
            (mkTcp (tp_lockbox t) (tp_inbox t) (tp_way t) (tp_rapport t) (set_conn i (pkt_retried now k c) s) w, l)
      end
  end.

Definition scheduler_tick (now : Z) (st : tcp * link D) : tcp * link D :=
  fold_left (fun st i => scheduler_tick_slot now i st) (seq 0 LOCKBOX_CAPACITY) st.
End Tick.

#[global] Arguments scheduler_tick_slot : simpl never.
#[global] Arguments scheduler_tick : simpl never.

(** What a tick sees and changes of one connection: its retransmission state,
    its TCP row and whether it holds its slot. *)
Notation conn_view := (option packets_state * option conv * bool)%type.
Definition view_of {D} (st : tcp * link D) (i : nat) : conn_view :=
  (sd_conns (tp_sched (fst st)) !! i, tp_rapport (fst st) !! i, held (tp_lockbox (fst st)) i).

Definition pkt_cancelled (c : packets_state) : packets_state :=
  mkPkt (seg_clear <$> pk_seg c) PACKET_STATE_IDLE 0 0 0 0 (pk_last_ack_seen c) 0.

Definition view_rst (v : conn_view) : conn_view :=
  match v with
  | (pk, Some cv, h) =>
      if bool_decide (cv_status cv = CONV_CLOSED) then v
      else (pkt_cancelled <$> pk, Some (set_status CONV_CLOSED cv), false)
  | _ => v
  end.

Definition view_tick (now : Z) (v : conn_view) : conn_view :=
  let '(pk, rv, h) := v in
  match pk with
  | None => v
  | Some c =>
      if negb (bool_decide (pk_state c = PACKET_STATE_RETRY)) then v else
      match oldest c ≫= fun k => (fun e => (k, e)) <$> pk_seg c !! k with
      | None => (Some (set_pkt_state PACKET_STATE_IDLE c), rv, h)
      | Some (k, e) =>
          if (now -32 sg_start_timer e) <? pk_rto c then v
          else if RETRY_LIMIT <=? pk_retry_track c
          then view_rst (Some (set_pkt_state PACKET_STATE_FAILURE (clear_window c)), rv, h)
          else (Some (pkt_retried now k c), rv, h)
      end
  end.

Lemma conns_set i c s j : (i < length (sd_conns s))%nat ->
  sd_conns (set_conn i c s) !! j = if decide (j = i) then Some c else sd_conns s !! j.
Proof.
  intros Hi. simpl. case_decide; subst; [by apply list_lookup_insert_eq|by apply list_lookup_insert_ne].
Qed.

Lemma cancel_lookup i s j : sd_conns (scheduler_cancel i s) !! j =
  if decide (j = i) then pkt_cancelled <$> sd_conns s !! i else sd_conns s !! j.
Proof.
  unfold scheduler_cancel. destruct (sd_conns s !! i) as [c|] eqn:Hc; [|case_decide; subst; done].
  rewrite conns_set by (by eapply lookup_lt_Some). by case_decide.
Qed.

Lemma on_rst_view {D} i (t : tcp) (l : link D) j :
  view_of (tcp_on_rst i t, l) j = if decide (j = i) then view_rst (view_of (t, l) i) else view_of (t, l) j.
Proof.
  unfold tcp_on_rst, rapport_on_rst, view_of, view_rst.
  destruct (tp_rapport t !! i) as [cv|] eqn:Hcv; [|case_decide; subst; simpl; rewrite ?Hcv; done].
  case_bool_decide as Hs; [case_decide; subst; simpl; rewrite ?Hcv; [by rewrite bool_decide_true|done]|].
  cbn [close_slot fst tp_sched tp_rapport tp_lockbox]. rewrite cancel_lookup, held_release.
  case_decide; subst.
  - rewrite Nat.eqb_refl, list_lookup_alter_eq, Hcv. simpl. by rewrite ?bool_decide_false.
  - rewrite list_lookup_alter_ne by done. destruct (Nat.eqb_spec j i); [done|]. done.
Qed.

Section TickSpec.
Context `{TxDriver D}.

Lemma scheduler_tick_slot_view now i (st : tcp * link D) j :
  view_of (scheduler_tick_slot now i st) j =
    if decide (j = i) then view_tick now (view_of st i) else view_of st j.
Proof.
  destruct st as [t l]. unfold scheduler_tick_slot, view_tick.
  destruct (sd_conns (tp_sched t) !! i) as [c|] eqn:Hc.
  2:{ case_decide; subst; [|done]. unfold view_of. simpl. by rewrite Hc. }
  pose proof (lookup_lt_Some _ _ _ Hc) as Hi.
  assert (forall v', (if decide (j = i) then view_of (t, l) i else view_of (t, l) j) = v' -> view_of (t, l) j = v') as Hsame.
  { intros v' <-. by case_decide; subst. }
  assert (view_of (t, l) i = (Some c, tp_rapport t !! i, held (tp_lockbox t) i)) as Hv by (unfold view_of; simpl; by rewrite Hc).
  assert (view_of (t, l) j = if decide (j = i) then (Some c, tp_rapport t !! i, held (tp_lockbox t) i)
            else view_of (t, l) j) as Hkeep by (rewrite <- Hv; by apply Hsame).
  rewrite Hv. case_bool_decide as Hst; cbn [negb]; cbv iota; [|exact Hkeep].
  destruct (oldest c ≫= _) as [[k e]|].
  2:{ unfold view_of, set_tcp_sched. cbn [fst tp_sched tp_rapport tp_lockbox]. rewrite conns_set by done. case_decide; by subst. }
  destruct (_ <? pk_rto c); [exact Hkeep|]. destruct (RETRY_LIMIT <=? pk_retry_track c).
  - rewrite on_rst_view. unfold view_of, set_tcp_sched. cbn [fst tp_sched tp_rapport tp_lockbox sd_conns].
    change (<[i := ?c']> (sd_conns (tp_sched t))) with (sd_conns (set_conn i c' (tp_sched t))).
    case_decide; subst; simpl; [by rewrite list_lookup_insert_eq|by rewrite list_lookup_insert_ne].
  - pose proof (resend_conns now e i (tp_sched t) l (tp_why t)) as Hrc.
    destruct (resend now e i (tp_sched t, l, tp_why t)) as [ok [[s l'] w]]. simpl in Hrc.
    unfold view_of. cbn [fst tp_sched tp_rapport tp_lockbox]. rewrite conns_set, Hrc by (by rewrite Hrc).
    case_decide; by subst.
Qed.

Lemma scheduler_tick_view now (st : tcp * link D) j : (j < LOCKBOX_CAPACITY)%nat ->
  view_of (scheduler_tick now st) j = view_tick now (view_of st j).
Proof.
  intros Hj. unfold scheduler_tick.
  rewrite (fold_slots (scheduler_tick_slot now) view_of (fun _ => view_tick now)).
  - destruct (Nat.ltb_spec j LOCKBOX_CAPACITY); [done|lia].
  - intros i st'. rewrite scheduler_tick_slot_view. by rewrite decide_True.
  - intros i k st' Hk. rewrite scheduler_tick_slot_view. by rewrite decide_False.
Qed.
End TickSpec.

(** ** A connection nobody answers is given up *)

Section GiveUp.
Context `{TxDriver D}.

(** A run of ticks; the outgoing half of the stack may be anything each time. *)
Fixpoint sched_run (tick : Z -> tcp * link D -> tcp * link D) (ticks : list (Z * link D)) (t : tcp) : tcp :=
  match ticks with
  | [] => t
  | (now, l) :: rest => sched_run tick rest (fst (tick now (t, l)))
  end.

Fixpoint timeouts_apart (t0 : Z) (ticks : list (Z * link D)) : Prop :=
  match ticks with
  | [] => True
  | (now, _) :: rest => t0 + SCHED_MAX_RTO <= now /\ is_u32 now /\ timeouts_apart now rest
  end.

(** At least [m] retries behind it, something in flight sent by [t0]. *)
Definition waiting (m t0 : Z) (v : conn_view) : Prop :=
  exists c cv h, v = (Some c, Some cv, h) /\ pkt_wf c /\ pk_state c = PACKET_STATE_RETRY /\ m <= pk_retry_track c /\
    (0 < count_if sg_in_use (pk_seg c))%nat /\ Forall (fun e => 0 <= sg_start_timer e <= t0) (pk_seg c) /\
    cv_status cv <> CONV_CLOSED.
Definition given_up (v : conn_view) : Prop :=
  exists c cv, v = (Some c, Some cv, false) /\ cv_status cv = CONV_CLOSED /\
    pk_state c = PACKET_STATE_IDLE /\ count_if sg_in_use (pk_seg c) = 0%nat.

Lemma given_up_stable now v : given_up v -> given_up (view_tick now v).
Proof. intros (c & cv & -> & H1 & H2 & H3). unfold view_tick. rewrite H2. simpl. exists c, cv. done. Qed.

Lemma retried_count now k c : count_if sg_in_use (pk_seg (pkt_retried now k c)) = count_if sg_in_use (pk_seg c).
Proof.
  simpl. assert (count_if sg_in_use (seg_mark <$> pk_seg c) = count_if sg_in_use (pk_seg c)) as E.
  { generalize (pk_seg c). intros l. induction l as [|e l IH]; [done|]. rewrite fmap_cons. cbn [count_if sg_in_use seg_mark]. by rewrite IH. }
  rewrite <- E. destruct ((seg_mark <$> pk_seg c) !! k) as [e|] eqn:He; [|by rewrite alter_out].
  rewrite (alter_insert _ _ _ _ He).
  pose proof (count_if_insert sg_in_use _ k e (seg_restart now e) He) as Hc. simpl in Hc. lia.
Qed.

Lemma waiting_step m t0 now v : waiting m t0 v -> t0 + SCHED_MAX_RTO <= now -> is_u32 now ->
  waiting (m + 1) now (view_tick now v) \/ given_up (view_tick now v).
Proof.
  intros (c & cv & h & -> & [Hl Hr Ht Ha Hi] & Hst & Hm & Hcnt & Htm & Hcv) Hnow Hu. unfold view_tick.
  rewrite (bool_decide_true _ Hst). cbn [negb].
  destruct (oldest c) as [k|] eqn:Ho; [|apply oldest_None in Ho; lia].
  destruct (oldest_Some _ _ Ho) as (e & He & Hue). cbn [mbind option_bind]. rewrite He. cbn [fmap option_fmap option_map].
  pose proof (Forall_lookup_1 _ _ _ _ Htm He) as Hte. simpl in Hte.
  unfold SCHED_MIN_RTO, SCHED_MAX_RTO, RETRY_LIMIT in *.
  destruct Hr as [Hr|Hr]; [by specialize (Ha Hst)|].
  rewrite (u32_small (now - _)) by (words; lia).
  destruct (Z.ltb_spec (now - sg_start_timer e) (pk_rto c)); [lia|].
  destruct (Z.leb_spec 8 (pk_retry_track c)).
  - right. unfold view_rst. rewrite bool_decide_false by done. do 2 eexists. split; [reflexivity|].
    split; [done|]. split; [done|]. apply clear_window_idle.
  - left. do 3 eexists. split; [reflexivity|]. split; [|split; [done|]].
    + split; cbn [pk_seg pk_rto pk_retry_track pk_state pkt_retried].
      * by rewrite length_alter, length_fmap.
      * right. unfold SCHED_MIN_RTO, SCHED_MAX_RTO. rewrite (u32_small (pk_rto c * 2)) by (words; lia).
        destruct (Z.ltb_spec 1000 (pk_rto c * 2)); lia.
      * unfold RETRY_LIMIT. rewrite u32_small by (words; lia). lia.
      * intros _. rewrite (u32_small (pk_rto c * 2)) by (words; lia). unfold SCHED_MAX_RTO.
        destruct (Z.ltb_spec 1000 (pk_rto c * 2)); lia.
      * by rewrite Hst.
    + split; [cbn [pk_retry_track pkt_retried]; rewrite u32_small by (words; lia); lia|].
      split; [by rewrite retried_count|]. split; [|done]. cbn [pk_seg pkt_retried].
      assert (Forall (fun e => 0 <= sg_start_timer e <= now) (seg_mark <$> pk_seg c)) as Hmk.
      { apply Forall_fmap. eapply Forall_impl; [|exact Htm]. intros x Hx. simpl in *. lia. }
      destruct ((seg_mark <$> pk_seg c) !! k) as [e'|] eqn:He'; [|by rewrite alter_out].
      rewrite (alter_insert _ _ _ _ He'). apply Forall_insert; [done|]. simpl. words. lia.
Qed.

Lemma sched_run_view i (tick : Z -> tcp * link D -> tcp * link D) ticks :
  (forall now st, view_of (tick now st) i = view_tick now (view_of st i)) ->
  forall t (l0 : link D) m t0, timeouts_apart t0 ticks ->
    waiting m t0 (view_of (t, l0) i) \/ given_up (view_of (t, l0) i) ->
    (exists t1, waiting (m + zlen ticks) t1 (view_of (sched_run tick ticks t, l0) i)) \/
    given_up (view_of (sched_run tick ticks t, l0) i).
Proof.
  intros Htick. induction ticks as [|[now l] ticks IH]; intros t l0 m t0 Hap Hv; simpl.
  - destruct Hv; [left|by right]. exists t0. by replace (m + zlen []) with m by (unfold zlen; simpl; lia).
  - destruct Hap as (Ht & Hu & Hap).
    replace (m + zlen ((now, l) :: ticks)) with (m + 1 + zlen ticks) by (unfold zlen; simpl; lia).
    apply (IH _ l0 (m + 1) now Hap).
    assert (view_of (fst (tick now (t, l)), l0) i = view_tick now (view_of (t, l0) i)) as ->.
    { change (view_of (fst (tick now (t, l)), l0) i) with (view_of (tick now (t, l)) i). by rewrite Htick. }
    destruct Hv as [Hv|Hv]; [by apply (waiting_step m t0)|right; by apply given_up_stable].
Qed.
End GiveUp.

(** C37: Retransmission ends.  Take a connection with something in flight that is
    never acknowledged, and nine ticks at least 1000 apart (the longest timeout);
    the link below may lose or refuse every frame.  Then the connection has been
    given up: it is CLOSED, its slot is free, nothing is in flight any more. *)
Theorem scheduler_gives_up `{TxDriver D} i ticks (t : tcp) c cv t0 :
  (i < LOCKBOX_CAPACITY)%nat -> sd_conns (tp_sched t) !! i = Some c -> pkt_wf c -> pk_state c = PACKET_STATE_RETRY ->
  (0 < count_if sg_in_use (pk_seg c))%nat -> Forall (fun e => 0 <= sg_start_timer e <= t0) (pk_seg c) ->
  tp_rapport t !! i = Some cv -> cv_status cv <> CONV_CLOSED ->
  timeouts_apart t0 ticks -> (9 <= length ticks)%nat ->
  let t' := sched_run (D := D) scheduler_tick ticks t in
  rapport_get_state i (tp_rapport t') = CONV_CLOSED /\ held (tp_lockbox t') i = false /\
  scheduler_bytes_in_flight i (tp_sched t') = 0.
Proof.
  intros Hi Hc Hwf Hst Hcnt Htm Hcv Hne Hap Hlen t'. assert (exists l0 : link D, True) as [l0 _].
  { destruct ticks as [|[? l0] ?]; [simpl in Hlen; lia|by exists l0]. }
  assert (waiting 0 t0 (view_of (t, l0) i)) as Hw.
  { exists c, cv, (held (tp_lockbox t) i). unfold view_of. simpl. rewrite Hc, Hcv.
    repeat (split; [first [done|apply Hwf]|]). done. }
  destruct (sched_run_view i scheduler_tick ticks) with (t := t) (l0 := l0) (m := 0) (t0 := t0) as [(t1 & Hw')|Hg];
    [intros; by apply scheduler_tick_view|done|by left| |].
  - destruct Hw' as (c' & ? & ? & _ & [_ _ Hr _ _] & _ & Hm & _). unfold RETRY_LIMIT, zlen in *. lia.
  - destruct Hg as (c' & cv' & Hv & H1 & H2 & H3). unfold view_of in Hv. cbn [fst] in Hv. subst t'. injection Hv as V1 V2 V3.
    unfold rapport_get_state, scheduler_bytes_in_flight. rewrite V1, V2. split; [done|]. split; [done|].
    assert (sum_in_flight (pk_seg c') = 0) as ->; [|done].
    clear -H3. induction (pk_seg c') as [|e l IH]; simpl in *; [done|]. destruct (sg_in_use e); [lia|]. rewrite IH by lia. lia.
Qed.

Lemma scheduler_gives_up_witness :
  let x := (lockbox_claim 80 [10;0;2;2] 4000 6 lockbox_init).2 in
  let r := rapport_on_syn 0 100 500 rapport_init in
  let s := (scheduler_track 10 0 500 1 [1;2;3] scheduler_init).2 in
  let t := mkTcp x inbox_init waystation_init r s why_init in
  let l := mkLink (@nil (list Z)) bailiff_init rolodex_init foyer_init in
  held (tp_lockbox (sched_run scheduler_tick
    ((fun n => (n, l)) <$> [1010;2010;3010;4010;5010;6010;7010;8010;9010]) t)) 0 = false.
Proof.
  cbv zeta.
  refine (proj1 (proj2 (scheduler_gives_up 0
    ((fun n => (n, mkLink (@nil (list Z)) bailiff_init rolodex_init foyer_init)) <$> [1010;2010;3010;4010;5010;6010;7010;8010;9010])
    (mkTcp (lockbox_claim 80 [10;0;2;2] 4000 6 lockbox_init).2 inbox_init waystation_init
       (rapport_on_syn 0 100 500 rapport_init) (scheduler_track 10 0 500 1 [1;2;3] scheduler_init).2 why_init)
    (mkPkt (mkSeg 500 1 10 true false [1;2;3] :: replicate 3 (mkSeg 0 0 0 false false [])) PACKET_STATE_RETRY 0 0 0 100 0 0)
    (mkConv CONV_SYN_RECEIVED 101 500 0 0 0 501) 10 _ _ _ _ _ _ _ _ _ _))).
  - unfold LOCKBOX_CAPACITY. lia.
  - vm_compute. reflexivity.
  - split; cbn; [reflexivity|right; unfold SCHED_MIN_RTO, SCHED_MAX_RTO; lia|unfold RETRY_LIMIT; lia|lia|done].
  - reflexivity.
  - cbn. lia.
  - repeat (apply Forall_cons_2; [cbn; lia|]). apply Forall_nil_2.
  - vm_compute. reflexivity.
  - done.
  - simpl. unfold SCHED_MAX_RTO, is_u32. lia.
  - simpl. lia.
Defined.
