(* ===== verification/TcpInv.v ===== *)
(** * The invariant of the TCP components

    The connection table, the byte queues, the held segments, the TCP rows and
    the retransmission windows are kept consistent by every operation, and an
    operation on one connection leaves the others alone. *)

From S2P Require Import Prelude SlotTable GuestList Bailiff Rolodex Foyer LockBox Ring Inbox Why Scheduler Rapport Transport.
Import Inbox Why.

(** Rapport, Scheduler and LockBox as parts of the [tcp] record. *)
Definition tcp_conns (t : tcp) : conns := (tp_rapport t, tp_sched t, tp_lockbox t).
Definition set_conns (st : conns) (t : tcp) : tcp :=
  let '(r, s, x) := st in mkTcp x (tp_inbox t) (tp_way t) r s (tp_why t).
Definition set_tcp_rapport (r : rapport) (t : tcp) : tcp :=
  mkTcp (tp_lockbox t) (tp_inbox t) (tp_way t) r (tp_sched t) (tp_why t).
Definition set_tcp_why (w : list why_row) (t : tcp) : tcp :=
  mkTcp (tp_lockbox t) (tp_inbox t) (tp_way t) (tp_rapport t) (tp_sched t) w.
Definition set_tcp_way (w : list way_row) (t : tcp) : tcp :=
  mkTcp (tp_lockbox t) (tp_inbox t) w (tp_rapport t) (tp_sched t) (tp_why t).
Definition set_tcp_inbox (x : lockbox) (ib : inbox) (t : tcp) : tcp :=
  mkTcp x ib (tp_way t) (tp_rapport t) (tp_sched t) (tp_why t).

(** After [k] claims since boot, slot [i] holding the unread bytes [q i]. *)
Record tcp_inv (k : Z) (t : tcp) (q : nat -> list Z) : Prop := {
  ti_inbox : inbox_inv k (tp_lockbox t) (tp_inbox t) q;
  ti_way : way_wf (tp_way t);
  ti_rap : rap_inv (tcp_conns t);
  ti_sched : sched_wf (tp_sched t) }.

(** Every connection but [id] is exactly as it was. *)
Definition others (id : nat) (t : tcp) (q : nat -> list Z) (t' : tcp) (q' : nat -> list Z) : Prop :=
  forall j, j <> id ->
    q' j = q j /\ tp_rapport t' !! j = tp_rapport t !! j /\ sd_conns (tp_sched t') !! j = sd_conns (tp_sched t) !! j /\
    lx_table (tp_lockbox t') !! j = lx_table (tp_lockbox t) !! j /\ tp_way t' !! j = tp_way t !! j.

Definition keeps (k : Z) (id : nat) (t : tcp) (q : nat -> list Z) (t' : tcp) (q' : nat -> list Z) : Prop :=
  tcp_inv k t' q' /\ others id t q t' q'.

Lemma others_refl id t q : others id t q t q.
Proof. done. Qed.

Lemma others_trans id t q t1 q1 t2 q2 : others id t q t1 q1 -> others id t1 q1 t2 q2 -> others id t q t2 q2.
Proof.
  intros H1 H2 j Hj. destruct (H1 j Hj) as (? & ? & ? & ? & ?), (H2 j Hj) as (? & ? & ? & ? & ?). naive_solver congruence.
Qed.

Lemma keeps_refl k id t q : tcp_inv k t q -> keeps k id t q t q.
Proof. by split. Qed.

Lemma keeps_trans k id t q t1 q1 t2 q2 : keeps k id t q t1 q1 ->
  (tcp_inv k t1 q1 -> keeps k id t1 q1 t2 q2) -> keeps k id t q t2 q2.
Proof. intros [I1 O1] H2. destruct (H2 I1) as [I2 O2]. split; [done|]. by eapply others_trans. Qed.

Lemma tcp_inv_init : tcp_inv 0 tcp_init (fun _ => []).
Proof. split; [apply inbox_inv_init|apply way_wf_init|apply rap_inv_boot|apply sched_wf_init]. Qed.

Section Keep.
Context (k : Z) (id : nat) (t : tcp) (q : nat -> list Z) (Hinv : tcp_inv k t q).

Lemma keeps_why w : keeps k id t q (set_tcp_why w t) q.
Proof. destruct Hinv. by split. Qed.

Lemma keeps_sched s : sched_wf s -> (forall j, j <> id -> sd_conns s !! j = sd_conns (tp_sched t) !! j) ->
  keeps k id t q (set_tcp_sched s t) q.
Proof. destruct Hinv as [? ? Hr ?]. intros Hs Ho. split; [by split|]. intros j Hj. by rewrite <- (Ho j Hj). Qed.

Lemma keeps_way ws : way_wf ws -> (forall j, j <> id -> ws !! j = tp_way t !! j) -> keeps k id t q (set_tcp_way ws t) q.
Proof. destruct Hinv. intros Hs Ho. split; [by split|]. intros j Hj. by rewrite <- (Ho j Hj). Qed.

(** A row of Rapport may change as long as a closed one stays closed. *)
Lemma keeps_rapport f :
  (forall c, tp_rapport t !! id = Some c -> cv_status c = CONV_CLOSED -> cv_status (f c) = CONV_CLOSED) ->
  keeps k id t q (set_tcp_rapport (alter f id (tp_rapport t)) t) q.
Proof.
  destruct Hinv as [? ? (Hl & Hx & Hh) ?]. intros Hf. split.
  - split; [done|done| |done]. split; [simpl; by rewrite length_alter|]. split; [done|]. intros i. simpl. rewrite state_alter.
    case_decide; subst; [|apply Hh]. destruct (tp_rapport t !! id) as [c|] eqn:Hc; simpl; [|done]. intros Hne.
    apply Hh. unfold rapport_get_state. rewrite Hc. simpl. intros Hcl. by apply Hne, Hf.
  - intros j Hj. simpl. by rewrite list_lookup_alter_ne.
Qed.

(** Closing a connection. *)
Lemma keeps_close : keeps k id t q (set_conns (close_slot id (tcp_conns t)) t) q.
Proof.
  destruct Hinv as [Hi Hw Hr Hs]. split.
  - split; simpl; [by apply inbox_release_spec|done|by apply close_step|by apply scheduler_cancel_wf].
  - intros j Hj. simpl. rewrite !list_lookup_alter_ne by done. repeat (split; [done|]). split; [|done].
    unfold scheduler_cancel. destruct (sd_conns (tp_sched t) !! id) as [c|] eqn:Hc; [|done]. simpl.
    by rewrite list_lookup_insert_ne.
Qed.

Lemma set_conns_id : set_conns (tcp_conns t) t = t.
Proof. by destruct t. Qed.

Lemma keeps_on_rst : keeps k id t q (set_conns (rapport_on_rst id (tcp_conns t)) t) q.
Proof.
  unfold rapport_on_rst, tcp_conns at 1. destruct (tp_rapport t !! id); [|rewrite set_conns_id; by apply keeps_refl].
  case_bool_decide; [rewrite set_conns_id; by apply keeps_refl|apply keeps_close].
Qed.

Lemma keeps_on_ack now ack : keeps k id t q (set_conns (rapport_on_ack now id ack (tcp_conns t)) t) q.
Proof.
  unfold rapport_on_ack, tcp_conns at 1. pose proof (keeps_refl k id t q Hinv) as Hrefl.
  destruct (tp_rapport t !! id) as [c|] eqn:Hc; [|by rewrite set_conns_id].
  assert (forall f, cv_status c <> CONV_CLOSED ->
    keeps k id t q (set_conns (<[id := f c]> (tp_rapport t), tp_sched t, tp_lockbox t) t) q) as Hrow.
  { intros f Hne. rewrite <- (alter_insert f _ _ _ Hc). apply (keeps_rapport f). intros c' Hc' Hcl. by simplify_eq. }
  destruct (cv_status c) eqn:Hs; try (by rewrite set_conns_id).
  - destruct (ack =? _); simpl negb; cbv iota; [by apply (Hrow (set_status CONV_ESTABLISHED))|by rewrite set_conns_id].
  - destruct (_ <=? ack); [by apply (Hrow (enter_time_wait now))|by rewrite set_conns_id].
  - destruct (_ <=? ack); [by apply (Hrow (set_status CONV_FIN_WAIT_2))|by rewrite set_conns_id].
  - destruct (_ <=? ack); [apply keeps_close|by rewrite set_conns_id].
Qed.

Lemma keeps_track now seq n frame : keeps k id t q (set_tcp_sched (snd (scheduler_track now id seq n frame (tp_sched t))) t) q.
Proof.
  apply keeps_sched; [apply scheduler_track_wf, Hinv|]. intros j Hj. unfold scheduler_track.
  destruct (sd_conns (tp_sched t) !! id); [|done]. destruct (_ || _); [done|]. destruct (find_idx _ _); [|done].
  simpl. by rewrite list_lookup_insert_ne.
Qed.
End Keep.

(** ** Receiving data *)

Lemma rap_inv_box r s x x' : (forall j, held x' j = held x j) -> length (lx_table x') = length (lx_table x) ->
  rap_inv (r, s, x) -> rap_inv (r, s, x').
Proof. intros Hh Hl (H1 & H2 & H3). split; [done|]. split; [by rewrite Hl|]. intros i Hi. rewrite Hh. by apply H3. Qed.

Lemma deposit_table id n x j : j <> id -> lx_table (lockbox_deposit id n x).2 !! j = lx_table x !! j.
Proof. intros Hj. unfold lockbox_deposit. repeat case_match; try done. simpl. by rewrite list_lookup_insert_ne. Qed.
Lemma deposit_length id n x : length (lx_table (lockbox_deposit id n x).2) = length (lx_table x).
Proof. unfold lockbox_deposit. repeat case_match; try done. simpl. by rewrite length_insert. Qed.

Lemma inbox_deposit_box id payload x ib : let '(_, x', ib') := inbox_deposit id payload x ib in
  (forall j, held x' j = held x j) /\ length (lx_table x') = length (lx_table x) /\
  forall j, j <> id -> lx_table x' !! j = lx_table x !! j.
Proof.
  unfold inbox_deposit. destruct (ib !! id); [|done].
  pose proof (held_deposit id (zlen payload) x) as H1. pose proof (deposit_length id (zlen payload) x) as H2.
  pose proof (fun j => deposit_table id (zlen payload) x j) as H3.
  destruct (lockbox_deposit id (zlen payload) x) as [[] x']; simpl in *; [|done]. by destruct (push_all _ _ _ _).
Qed.

Lemma inbox_deposit_gen id payload x ib : let '(_, x', _) := inbox_deposit id payload x ib in forall j, lockbox_get_generation j x' = lockbox_get_generation j x.
Proof.
  unfold inbox_deposit. destruct (ib !! id); [|done]. assert (E : lx_generation (lockbox_deposit id (zlen payload) x).2 = lx_generation x) by (unfold lockbox_deposit; by repeat case_match).
  destruct (lockbox_deposit id (zlen payload) x) as [[] x']; simpl in *; [destruct (push_all _ _ _ _)|]; intros j; unfold lockbox_get_generation; by rewrite E.
Qed.

Lemma drain_loop_frame fuel id : forall row x ib r drained row' x' ib' r' d,
  drain_loop fuel id row x ib r drained = Some (row', x', ib', r', d) ->
  (forall j, held x' j = held x j) /\ length (lx_table x') = length (lx_table x) /\
  (forall j, j <> id -> lx_table x' !! j = lx_table x !! j /\ r' !! j = r !! j) /\
  (forall j, rapport_get_state j r' = rapport_get_state j r) /\ length r' = length r /\ length row' = length row /\
  (Forall (fun h => zlen (hs_data h) <= WAYSTATION_MAX_SEGMENT) row -> Forall (fun h => zlen (hs_data h) <= WAYSTATION_MAX_SEGMENT) row').
Proof.
  induction fuel as [|fuel IH]; intros row x ib r drained row' x' ib' r' d; cbn [drain_loop]; [done|].
  destruct (find_idx _ row) as [i|]; [|by intros [= <- <- <- <- <-]].
  destruct (row !! i) as [h|] eqn:Hh; [|by intros [= <- <- <- <- <-]].
  pose proof (inbox_deposit_box id (hs_data h) x ib) as Hd.
  destruct (inbox_deposit id (hs_data h) x ib) as [[ok x1] ib1]. destruct Hd as (D1 & D2 & D3).
  destruct ok; cbn [negb]; cbv iota.
  2:{ intros [= <- <- <- <- <-]. split; [done|]. split; [done|]. split; [|done]. intros j Hj. split; [by apply D3|done]. }
  intros (E1 & E2 & E3 & E4 & E5 & E6 & E7)%IH. rewrite length_insert in E6. unfold rapport_advance_seq in *.
  rewrite length_alter in E5. split; [intros j; by rewrite E1|]. split; [lia|]. split.
  - intros j Hj. destruct (E3 j Hj) as [-> ->]. split; [by apply D3|]. by rewrite list_lookup_alter_ne.
  - split; [|split; [done|]; split; [done|]].
    + intros j. rewrite E4, state_alter. case_decide; subst; [|done]. unfold rapport_get_state. by destruct (r !! id).
    + intros Hf. apply E7. apply Forall_insert; [done|]. by apply (Forall_lookup_1 _ _ _ _ Hf Hh).
Qed.

Section Receive.
Context (k : Z) (id : nat) (t : tcp) (q : nat -> list Z) (Hinv : tcp_inv k t q).

Lemma keeps_hold seq payload :
  keeps k id t q (set_tcp_way (snd (waystation_hold id seq payload (tp_lockbox t) (tp_way t))) t) q.
Proof.
  apply keeps_way; [done|apply waystation_hold_wf, Hinv|]. intros j Hj. unfold waystation_hold.
  repeat case_match; try done; simpl; by rewrite list_lookup_insert_ne.
Qed.

Lemma keeps_window : let '(win, t') := waystation_receive_window id t in is_u16 win /\ keeps k id t q t' q.
Proof.
  destruct (tp_way t !! id) as [w|] eqn:Hw.
  2:{ unfold waystation_receive_window. rewrite Hw. split; [unfold is_u16; lia|by apply keeps_refl]. }
  destruct Hinv as [Hi Hway Hr Hs].
  pose proof (waystation_window_spec k id t q w Hi Hway Hw) as Hspec.
  assert (let '(_, t') := waystation_receive_window id t in
    tp_lockbox t' = tp_lockbox t /\ tp_rapport t' = tp_rapport t /\ tp_sched t' = tp_sched t /\
    tp_way t' = <[id := way_reset_if_stale (lockbox_get_generation id (tp_lockbox t)) w]> (tp_way t)) as Hf.
  { unfold waystation_receive_window. rewrite Hw. destruct (inbox_available _ _ _). by destruct (_ <=? _). }
  destruct (waystation_receive_window id t) as [win t']. destruct Hspec as (Hwin & Hi' & _), Hf as (F1 & F2 & F3 & F4).
  split; [|split; [split|]].
  - pose proof (held_bytes_nonneg (wr_slots (way_reset_if_stale (lockbox_get_generation id (tp_lockbox t)) w))).
    unfold is_u16. assert (0 <= zlen (q id)) by (unfold zlen; lia). lia.
  - done.
  - destruct Hway as [H1 H2]. rewrite F4. split; [by rewrite length_insert|]. apply Forall_insert; [done|].
    apply row_wf_reset. by apply (Forall_lookup_1 _ _ _ _ H2 Hw).
  - unfold tcp_conns. by rewrite F1, F2, F3.
  - by rewrite F3.
  - intros j Hj. rewrite F1, F2, F3, F4. by rewrite list_lookup_insert_ne.
Qed.

Lemma keeps_deposit payload : is_u16 (zlen payload) ->
  let '(ok, x, ib) := inbox_deposit id payload (tp_lockbox t) (tp_inbox t) in
  ok = bool_decide (held (tp_lockbox t) id = true /\ zlen (q id) + zlen payload <= 4096) /\
  keeps k id t q (set_tcp_inbox x ib t) (if ok : bool then upd q id (q id ++ payload) else q).
Proof.
  intros Hp. destruct Hinv as [Hi Hway Hr Hs].
  pose proof (inbox_deposit_spec k _ _ q id payload Hi Hp) as Hd. pose proof (inbox_deposit_box id payload (tp_lockbox t) (tp_inbox t)) as Hb.
  destruct (inbox_deposit id payload (tp_lockbox t) (tp_inbox t)) as [[ok x] ib].
  destruct Hd as [-> Hi'], Hb as (B1 & B2 & B3). split.
  { apply bool_decide_ext. by rewrite held_tuple. }
  split; [split; [exact Hi'|done| |done]|].
  - by apply (rap_inv_box _ _ (tp_lockbox t)).
  - intros j Hj. simpl. rewrite B3 by done. split; [|done]. case_match; [|done]. unfold upd. by rewrite decide_False.
Qed.

(** Draining appends some bytes to this connection's queue only. *)
Lemma drain_held t1 m : waystation_drain id t = Some (m, t1) -> held (tp_lockbox t1) id = held (tp_lockbox t) id.
Proof.
  unfold waystation_drain. destruct (tp_way t !! id) as [w|]; [|by intros [= _ <-]]. destruct (drain_loop _ _ _ _ _ _ _) as [[[[[row x] ib] r] d]|] eqn:Hl; [|done]. intros [= _ <-]. by destruct (drain_loop_frame _ _ _ _ _ _ _ _ _ _ _ _ Hl) as (F1 & _).
Qed.

Lemma keeps_drain : held (tp_lockbox t) id = true -> exists m t' ds, waystation_drain id t = Some (m, t') /\
  contiguous (rapport_get_expected_seq id (tp_rapport t)) ds (rapport_get_expected_seq id (tp_rapport t')) /\ releases id t t' (q id) ds /\
  keeps k id t q t' (upd q id (q id ++ payload_of ds)).
Proof.
  intros Hheld. destruct Hinv as [Hi Hway Hr Hs]. pose proof Hr as (Hrl & _ & _).
  destruct (waystation_releases k id t q Hi Hway Hrl) as (t' & ds & Hd & Hc & Hrel & (q' & Hq' & Hqi & Hqo)); [intros t1 m E; by rewrite (drain_held t1 m E)|].
  exists (length ds), t', ds. split; [done|]. split; [done|]. split; [done|].
  unfold waystation_drain in Hd. destruct (tp_way t !! id) as [w|] eqn:Hw.
  2:{ injection Hd as Hds <-. destruct ds; [|done]. unfold payload_of. simpl. rewrite app_nil_r. split; [|intros j Hj; unfold upd; by rewrite decide_False].
      split; [|done..]. eapply inbox_inv_ext; [|exact Hi]. intros j. by rewrite upd_id. }
  destruct (drain_loop _ _ _ _ _ _ _) as [[[[[row x] ib] r] d]|] eqn:Hl; [|done]. simpl in Hd. injection Hd as _ <-.
  destruct (drain_loop_frame _ _ _ _ _ _ _ _ _ _ _ _ Hl) as (F1 & F2 & F3 & F4 & F5 & F6 & F7).
  destruct Hway as [W1 W2]. pose proof (Forall_lookup_1 _ _ _ _ W2 Hw) as [R1 R2]%(row_wf_reset (lockbox_get_generation id (tp_lockbox t))).
  split; [split; simpl|].
  - eapply inbox_inv_ext; [|exact Hq']. intros j. unfold upd. case_decide; subst; [done|by apply Hqo].
  - split; [by rewrite length_insert|]. apply Forall_insert; [done|]. split; simpl; [by rewrite F6|by apply F7].
  - destruct Hr as (_ & Hx & Hh). split; [simpl; by rewrite F5|]. split; [simpl; by rewrite F2|].
    intros i Hne. simpl in *. rewrite F1. apply Hh. by rewrite <- F4.
  - done.
  - intros j Hj. simpl. destruct (F3 j Hj) as [-> ->]. rewrite list_lookup_insert_ne by done.
    unfold upd. by rewrite decide_False.
Qed.
End Receive.

(** ** Opening a connection *)

Lemma claim_table lp ip rp pr x : let '(_, out, x') := lockbox_claim lp ip rp pr x in
  forall j, Some j <> out -> lx_table x' !! j = lx_table x !! j.
Proof.
  unfold lockbox_claim. repeat case_match; simplify_eq/=; try done. intros j Hj. rewrite list_lookup_insert_ne; [done|congruence].
Qed.

Lemma keeps_open k t q lp ip rp f : tcp_inv k t q -> k < 4294967295 ->
  (forall c, cv_status c = CONV_CLOSED -> cv_status (f c) <> CONV_CLOSED) ->
  let '(_, out, x) := lockbox_claim lp ip rp 6 (tp_lockbox t) in
  match out with
  | None => forall id, keeps (k + 1) id t q (set_tcp_inbox x (tp_inbox t) t) q
  | Some id => held (tp_lockbox t) id = false /\ held x id = true /\ (id < LOCKBOX_CAPACITY)%nat /\
      keeps (k + 1) id t q (set_tcp_rapport (alter f id (tp_rapport t)) (set_tcp_inbox x (tp_inbox t) t)) (upd q id [])
  end.
Proof.
  intros [Hi Hway Hr Hs] Hk Hf. pose proof (inbox_claim_spec k _ _ q lp ip rp 6 Hi Hk) as Hc.
  pose proof (open_step _ (tp_sched t) _ lp ip rp 6 f Hr Hf) as Ho. pose proof (claim_table lp ip rp 6 (tp_lockbox t)) as Ht.
  pose proof (held_claim lp ip rp 6 (tp_lockbox t)) as Hh.
  destruct (lockbox_claim lp ip rp 6 (tp_lockbox t)) as [[res [id|]] x].
  - destruct (Hh id) as (Hlt & Hf0 & Hf1). rewrite Nat.eqb_refl in Hf1.
    split; [done|]. split; [done|]. split; [destruct Hr as (_ & Hx & _); lia|].
    split; [split; [done|done|apply Ho|done]|]. intros j Hj. simpl. rewrite list_lookup_alter_ne by done.
    rewrite Ht by congruence. unfold upd. by rewrite decide_False.
  - intros id. split; [split; [done|done|apply Ho|done]|]. intros j Hj. simpl. by rewrite Ht.
Qed.
