(* ===== verification/Checksum.v ===== *)
(** * The Internet checksum

    The loops that Compass, Conversation, Postcard and Echo share (each source
    file has its own copy): add up big-endian words, fold the carries, compare
    with 0xFFFF or store the complement; and the IPv4 header the senders build. *)

From S2P Require Import Prelude GuestList.

(** [for (i = 0; i < len; i += 2) sum += (data[i] << 8) | (i+1 < len ? data[i+1] : 0);] *)
Fixpoint sum_words (sum : Z) (data : list Z) : Z :=
  match data with
  | [] => sum
  | [a] => sum +32 be16 a 0
  | a :: b :: rest => sum_words (sum +32 be16 a b) rest
  end.

(** [while (sum >> 16) sum = (sum & 0xFFFF) + (sum >> 16);] *)
Fixpoint fold_loop (fuel : nat) (sum : Z) : Z :=
  match fuel with
  | O => sum
  | S fuel' => if Z.shiftr sum 16 =? 0 then sum else fold_loop fuel' (Z.land sum 0xFFFF + Z.shiftr sum 16)
  end.
Definition fold_carry (sum : Z) : Z := fold_loop 3 sum.

Definition complement (sum : Z) : Z := u16 (0xFFFF - sum).

(** The pseudo-header of TCP and UDP. *)
Definition pseudo_sum (src_ip dst_ip : ip4) (proto len : Z) : Z :=
  u32 (u32 (sum_words (sum_words 0 src_ip) dst_ip + proto) + len).

(** ** What the loops compute *)

(** The sum of the words, without wrap-around. *)
Fixpoint words_total (data : list Z) : Z :=
  match data with
  | [] => 0
  | [a] => a * 256
  | a :: b :: rest => a * 256 + b + words_total rest
  end.

Lemma list_ind2 {A} (P : list A -> Prop) : P [] -> (forall a, P [a]) -> (forall a b l, P l -> P (a :: b :: l)) -> forall l, P l.
Proof.
  intros H0 H1 H2. fix IH 1. intros [|a [|b l]]; [exact H0|apply H1|apply H2, IH].
Qed.

Lemma words_total_range data : bytes data -> 0 <= words_total data <= 65535 * zlen data.
Proof.
  unfold zlen. induction data as [|a|a b l IH] using list_ind2; cbn [words_total length]; intros H; [lia| |].
  - apply Forall_cons_1 in H as [H _]. unfold is_u8 in H. lia.
  - apply Forall_cons_1 in H as [Ha H]. apply Forall_cons_1 in H as [Hb H]. specialize (IH H). unfold is_u8 in *. lia.
Qed.

Lemma sum_words_total data : forall sum, bytes data -> 0 <= sum -> sum + words_total data < 4294967296 ->
  sum_words sum data = sum + words_total data.
Proof.
  induction data as [|a|a b l IH] using list_ind2; intros sum H H0 Hlt; cbn [sum_words words_total] in *; [lia| |].
  - apply Forall_cons_1 in H as [Ha _]. rewrite be16_add by (done || (unfold is_u8; lia)).
    rewrite u32_small; unfold is_u8, is_u32 in *; lia.
  - apply Forall_cons_1 in H as [Ha H]. apply Forall_cons_1 in H as [Hb H].
    rewrite be16_add by done. pose proof (words_total_range l H) as Hr. unfold is_u8 in *.
    rewrite u32_small by (unfold is_u32; lia). rewrite IH; [lia|done|lia|lia].
Qed.

(** The fold: the representative of the sum modulo 65535 in 1 .. 65535, or 0. *)
Definition fold16 (s : Z) : Z := if s =? 0 then 0 else (s - 1) mod 65535 + 1.

Lemma fold_step s : 0 <= s -> Z.land s 0xFFFF + Z.shiftr s 16 = s mod 65536 + s / 65536.
Proof.
  intros Hs. change 0xFFFF with (Z.ones 16). rewrite Z.land_ones, Z.shiftr_div_pow2 by lia. done.
Qed.

(** Three rounds are enough for any 32-bit sum, and more change nothing. *)
Lemma fold_loop_exits n s : (3 <= n)%nat -> is_u32 s -> fold_loop n s = fold16 s.
Proof.
  intros Hn Hs. destruct n as [|[|[|n]]]; [lia..|]. unfold is_u32 in Hs.
  assert (forall k m, 0 <= k < 65536 -> fold_loop m k = k) as Hdone.
  { intros k m Hk. destruct m; [done|]. cbn [fold_loop]. rewrite Z.shiftr_div_pow2 by lia.
    change (2 ^ 16) with 65536. rewrite Z.div_small by lia. done. }
  assert (forall k, 0 <= k -> (Z.shiftr k 16 =? 0) = (k <? 65536)) as Htest.
  { intros k Hk. rewrite Z.shiftr_div_pow2 by lia. change (2 ^ 16) with 65536.
    destruct (Z.eqb_spec (k / 65536) 0), (Z.ltb_spec k 65536); try done; lia_mod. }
  unfold fold16. cbn [fold_loop]. rewrite Htest by lia. destruct (Z.ltb_spec s 65536).
  { destruct (Z.eqb_spec s 0); [done|]. rewrite Z.mod_small; lia. }
  rewrite fold_step by lia. set (s1 := s mod 65536 + s / 65536).
  assert (0 <= s1 <= 131070) by (unfold s1; lia_mod).
  destruct (Z.eqb_spec s 0); [lia|]. rewrite Htest by lia. destruct (Z.ltb_spec s1 65536).
  { unfold s1 in *. lia_mod. }
  rewrite fold_step by lia. set (s2 := s1 mod 65536 + s1 / 65536).
  assert (0 <= s2 < 65536) by (unfold s2; lia_mod).
  rewrite Htest by lia. destruct (Z.ltb_spec s2 65536); [|lia]. unfold s2, s1 in *. lia_mod.
Qed.

Lemma fold_carry_spec s : is_u32 s -> fold_carry s = fold16 s.
Proof. apply fold_loop_exits. lia. Qed.

Lemma fold16_range s : 0 <= s -> 0 <= fold16 s <= 65535.
Proof. unfold fold16. intros. case_match; lia_mod. Qed.

(** A sum folds to 0xFFFF exactly when it is a positive multiple of 65535. *)
Lemma fold16_ones s : 0 <= s -> fold16 s = 0xFFFF <-> 0 < s /\ s mod 65535 = 0.
Proof. unfold fold16. intros. destruct (Z.eqb_spec s 0); split; intros; lia_mod. Qed.

(** Adding the complement of a sum makes it check. *)
Lemma fold16_complement s : 0 <= s -> fold16 (s + complement (fold16 s)) = 0xFFFF.
Proof.
  intros Hs. pose proof (fold16_range s Hs). unfold complement. rewrite u16_small by (unfold is_u16; lia).
  apply fold16_ones; [lia|]. unfold fold16. destruct (Z.eqb_spec s 0); [subst; split; [lia|reflexivity]|].
  split; [lia_mod|]. replace (s + (65535 - ((s - 1) mod 65535 + 1))) with ((s - 1 - (s - 1) mod 65535) + 65535) by lia. lia_mod.
Qed.

(** ** The IPv4 header of the senders *)

(** The twenty bytes with a given checksum field. *)
Definition ip_header_with (csum total proto : Z) (src dst : ip4) : list Z :=
  [0x45; 0] ++ put16 total ++ [0; 0; 0; 0; 64; proto] ++ put16 csum ++ src ++ dst.
Definition ip_header (total proto : Z) (src dst : ip4) : list Z :=
  let ip_sum := fold_carry (sum_words 0 (ip_header_with 0 total proto src dst)) in
  ip_header_with (complement ip_sum) total proto src dst.

Lemma ip_header_length total proto src dst : length src = 4%nat -> length dst = 4%nat ->
  length (ip_header total proto src dst) = 20%nat.
Proof. intros Hs Hd. unfold ip_header, ip_header_with. rewrite !length_app, Hs, Hd. done. Qed.

Lemma words_total_app l k : Nat.Even (length l) -> words_total (l ++ k) = words_total l + words_total k.
Proof.
  induction l as [|a|a b l IH] using list_ind2; intros He; [done|..].
  - apply Nat.even_spec in He. done.
  - cbn [app words_total]. rewrite IH; [lia|]. apply Nat.even_spec in He. by apply Nat.even_spec.
Qed.

Lemma words_total_put16 x : is_u16 x -> words_total (put16 x) = x.
Proof. intros Hx. unfold put16. cbn [words_total]. rewrite hi8_div, lo8_mod. unfold is_u16 in Hx. lia_mod. Qed.

Lemma ip_header_with_bytes csum total proto src dst : is_u8 proto -> bytes src -> bytes dst ->
  bytes (ip_header_with csum total proto src dst).
Proof.
  intros. unfold ip_header_with. rewrite !bytes_app.
  split; [byte_list|]. split; [auto with aevros|]. split; [byte_list|]. split; [auto with aevros|]. done.
Qed.

Lemma ip_header_bytes total proto src dst : is_u8 proto -> bytes src -> bytes dst -> bytes (ip_header total proto src dst).
Proof. intros. unfold ip_header. by apply ip_header_with_bytes. Qed.

Lemma ip_header_with_total csum total proto src dst :
  is_u16 csum -> is_u16 total -> is_u8 proto -> length src = 4%nat -> length dst = 4%nat ->
  words_total (ip_header_with csum total proto src dst) =
    words_total (ip_header_with 0 total proto src dst) + csum.
Proof.
  intros Hc Ht Hp Hs Hd. unfold ip_header_with.
  assert (forall x, length (put16 x) = 2%nat) as Hl2 by done.
  rewrite !(words_total_app [69; 0]), !(words_total_app (put16 total)),
    !(words_total_app [0; 0; 0; 0; 64; proto]), !(words_total_app (put16 _)) by (apply Nat.even_spec; done).
  rewrite !words_total_put16 by (done || (unfold is_u16; lia)). lia.
Qed.

(** The header's own checksum test succeeds. *)
Lemma ip_header_checks total proto src dst : is_u16 total -> is_u8 proto -> bytes src -> bytes dst ->
  length src = 4%nat -> length dst = 4%nat ->
  fold_carry (sum_words 0 (ip_header total proto src dst)) = 0xFFFF.
Proof.
  intros Ht Hp Hs Hd Hls Hld. unfold ip_header.
  set (h0 := ip_header_with 0 total proto src dst).
  assert (bytes h0) as Hb0 by (by apply ip_header_with_bytes).
  assert (length h0 = 20%nat) as Hl0 by (unfold h0, ip_header_with; rewrite !length_app, Hls, Hld; done).
  pose proof (words_total_range h0 Hb0) as Hr. unfold zlen in Hr. rewrite Hl0 in Hr.
  rewrite (sum_words_total h0) by (done || lia). rewrite Z.add_0_l.
  rewrite (fold_carry_spec (words_total h0)) by (unfold is_u32; lia).
  set (c := complement (fold16 (words_total h0))).
  assert (is_u16 c) as Hc by (unfold c, complement; apply u16_range).
  pose proof (ip_header_with_total c total proto src dst Hc Ht Hp Hls Hld) as Htot. fold h0 in Htot.
  unfold is_u16 in Hc.
  rewrite sum_words_total by (first [by apply ip_header_with_bytes | rewrite ?Htot; lia]).
  rewrite Htot, Z.add_0_l, fold_carry_spec by (unfold is_u32; lia). apply fold16_complement. lia.
Qed.

(** ** The checksum field of TCP and UDP *)

(** The sum over pseudo-header and message does not wrap. *)
Lemma pseudo_sum_total src dst proto len data :
  bytes src -> bytes dst -> bytes data -> length src = 4%nat -> length dst = 4%nat ->
  is_u8 proto -> is_u16 len -> zlen data <= 60000 -> Nat.Even (length src) ->
  sum_words (pseudo_sum src dst proto len) data = words_total (src ++ dst) + proto + len + words_total data /\
  0 <= words_total (src ++ dst) + proto + len + words_total data < 4294967296.
Proof.
  intros Hs Hd Hb Hls Hld Hp Hl Hz He. pose proof (words_total_range src Hs) as R1.
  pose proof (words_total_range dst Hd) as R2. pose proof (words_total_range data Hb) as R3. unfold zlen in R1, R2.
  rewrite Hls in R1. rewrite Hld in R2. rewrite (words_total_app src dst He).
  unfold is_u8, is_u16 in *. unfold pseudo_sum.
  rewrite (sum_words_total src), (sum_words_total dst) by (done || lia).
  unfold zlen in *.
  rewrite (u32_small (_ + proto)) by (unfold is_u32; lia). rewrite u32_small by (unfold is_u32; lia).
  rewrite sum_words_total by (done || lia). lia.
Qed.

(** A sixteen-bit field at an even offset adds its value. *)
Lemma words_total_field pre post csum : Nat.Even (length pre) -> is_u16 csum ->
  words_total (pre ++ put16 csum ++ post) = words_total (pre ++ put16 0 ++ post) + csum.
Proof.
  intros He Hc. rewrite !(words_total_app pre), !(words_total_app (put16 _)) by (done || (by apply Nat.even_spec)).
  rewrite (words_total_put16 csum), (words_total_put16 0) by (done || (unfold is_u16; lia)). lia.
Qed.
