(* ===== verification/Echo.v ===== *)
(** * Echo, ICMP ping

    [Networking/IPv4/Echo/echo.c]: checks echo requests, queues at most eight
    unanswered ones and builds the replies. *)

From S2P Require Import Prelude SlotTable GuestList Bailiff Rolodex Ring Checksum.

Definition ICMP_MIN_HEADER : Z := 8.
Definition ICMP_ECHO_REQUEST : Z := 8.
Definition ICMP_ECHO_REPLY : Z := 0.
Definition ECHO_MAX_PENDING : nat := 8.
Definition ECHO_MAX_PAYLOAD : Z := 512.

Inductive icmp_verdict :=
  ICMP_ACCEPT | ICMP_REJECT_TOO_SHORT | ICMP_REJECT_BAD_CHECKSUM | ICMP_REJECT_NOT_ECHO_REQUEST
| ICMP_REJECT_PAYLOAD_TOO_LARGE.
#[export] Instance icmp_verdict_eq : EqDecision icmp_verdict.
Proof. solve_decision. Defined.

(** [pp_payload] is the first [payload_len] bytes of the buffer. *)
Record pending_ping := mkPing { pp_src_ip : ip4; pp_identifier : Z; pp_sequence : Z; pp_payload : list Z }.

Record echo := mkEcho {
  ec_queue : list pending_ping; ec_head : nat; ec_tail : nat; ec_pending_count : nat;
  ec_accepted : Z; ec_rejected : Z; ec_last_reply_frame : list Z }.

Definition echo_init : echo := mkEcho (replicate ECHO_MAX_PENDING (mkPing [0;0;0;0] 0 0 [])) 0 0 0 0 0 [].

Definition icmp_checksum (data : list Z) : Z := complement (fold_carry (sum_words 0 data)).

(** [None]: a read outside the payload. *)
Definition echo_check (payload : list Z) : option icmp_verdict :=
  if zlen payload <? ICMP_MIN_HEADER then Some ICMP_REJECT_TOO_SHORT
  else if negb (fold_carry (sum_words 0 payload) =? 0xFFFF) then Some ICMP_REJECT_BAD_CHECKSUM
  else
    type ← rd payload 0;
    if negb (type =? ICMP_ECHO_REQUEST) then Some ICMP_REJECT_NOT_ECHO_REQUEST
    else if ECHO_MAX_PAYLOAD <? u16 (zlen payload - ICMP_MIN_HEADER) then Some ICMP_REJECT_PAYLOAD_TOO_LARGE
    else Some ICMP_ACCEPT.

Definition echo_handle (payload : list Z) (src_ip : ip4) (e : echo) : option echo :=
  v ← echo_check payload;
  if negb (bool_decide (v = ICMP_ACCEPT)) then
    Some (mkEcho (ec_queue e) (ec_head e) (ec_tail e) (ec_pending_count e) (ec_accepted e) (ec_rejected e +32 1)
            (ec_last_reply_frame e))
  else
    b4 ← rd payload 4; b5 ← rd payload 5; b6 ← rd payload 6; b7 ← rd payload 7;
    let e := mkEcho (ec_queue e) (ec_head e) (ec_tail e) (ec_pending_count e) (ec_accepted e +32 1) (ec_rejected e)
               (ec_last_reply_frame e) in
    if (ECHO_MAX_PENDING <=? ec_pending_count e)%nat then Some e
    else Some (mkEcho (<[ec_tail e := mkPing src_ip (be16 b4 b5) (be16 b6 b7) (drop 8 payload)]> (ec_queue e))
                 (ec_head e) ((ec_tail e + 1) mod ECHO_MAX_PENDING)%nat (S (ec_pending_count e))
                 (ec_accepted e) (ec_rejected e) (ec_last_reply_frame e)).

(** The bytes of a reply with a given checksum field. *)
Definition icmp_echo (type csum : Z) (p : pending_ping) : list Z :=
  [type; 0] ++ put16 csum ++ put16 (pp_identifier p) ++ put16 (pp_sequence p) ++ pp_payload p.

(** The outer option is an out-of-range access, the inner one is 0 / 1. *)
Definition echo_build_reply (e : echo) : option (option (list Z * ip4) * echo) :=
  if (ec_pending_count e =? 0)%nat then Some (None, e) else
  p ← ec_queue e !! ec_head e;
  let csum := icmp_checksum (icmp_echo ICMP_ECHO_REPLY 0 p) in
  Some (Some (icmp_echo ICMP_ECHO_REPLY csum p, pp_src_ip p),
        mkEcho (ec_queue e) ((ec_head e + 1) mod ECHO_MAX_PENDING)%nat (ec_tail e) (ec_pending_count e - 1)%nat
          (ec_accepted e) (ec_rejected e) (ec_last_reply_frame e)).

Definition echo_dispatch_reply (now : Z) (our_mac : list Z) (our_ip : ip4) (r : rolodex) (e : echo) (b : bailiff)
    : option (option Z * echo * bailiff) :=
  '(reply, e) ← echo_build_reply e;
  match reply with
  | None => Some (None, e, b)
  | Some (icmp, dest_ip) =>
      match rolodex_lookup dest_ip r with
      | None => Some (None, e, b)
      | Some dest_mac =>
          let ip_total := u16 (20 + zlen icmp) in
          let frame := dest_mac ++ our_mac ++ [0x08; 0x00] ++ ip_header ip_total 1 our_ip dest_ip ++ icmp in
          let e := mkEcho (ec_queue e) (ec_head e) (ec_tail e) (ec_pending_count e) (ec_accepted e) (ec_rejected e) frame in
          let '(id, b) := bailiff_request_pass now frame b in
          Some (id, e, b)
      end
  end.

Definition echo_accepted_count (e : echo) : Z := ec_accepted e.
Definition echo_rejected_count (e : echo) : Z := ec_rejected e.

(** ** Requests are answered in order, with their own data *)

Record echo_inv (e : echo) (q : list pending_ping) : Prop := {
  ei_ring : ring_holds ECHO_MAX_PENDING (ec_queue e) (ec_head e) (ec_pending_count e) q;
  ei_tail : ec_tail e = ((ec_head e + ec_pending_count e) mod ECHO_MAX_PENDING)%nat }.

Lemma echo_inv_init : echo_inv echo_init [].
Proof. split; [|done]. apply ring_empty; [done|]. unfold ECHO_MAX_PENDING. simpl. lia. Qed.

Definition ping_ok (p : pending_ping) : Prop :=
  is_u16 (pp_identifier p) /\ is_u16 (pp_sequence p) /\ bytes (pp_payload p) /\ zlen (pp_payload p) <= ECHO_MAX_PAYLOAD.

Lemma icmp_echo_bytes type csum p : is_u8 type -> bytes (pp_payload p) -> bytes (icmp_echo type csum p).
Proof.
  intros. unfold icmp_echo. rewrite !bytes_app. split; [byte_list|]. auto with aevros.
Qed.

Lemma icmp_echo_total type csum p : is_u16 csum ->
  words_total (icmp_echo type csum p) = words_total (icmp_echo type 0 p) + csum.
Proof.
  intros Hc. unfold icmp_echo.
  rewrite !(words_total_app [type; 0]), !(words_total_app (put16 csum)), !(words_total_app (put16 0)) by (apply Nat.even_spec; done).
  rewrite !words_total_put16 by (done || (unfold is_u16; lia)). lia.
Qed.

Lemma icmp_echo_zlen type csum p : zlen (icmp_echo type csum p) = 8 + zlen (pp_payload p).
Proof. unfold icmp_echo, zlen. rewrite !length_app. simpl. lia. Qed.

(** Storing the checksum makes the message check. *)
Lemma icmp_echo_checks type p : is_u8 type -> bytes (pp_payload p) -> zlen (pp_payload p) <= 65000 ->
  fold_carry (sum_words 0 (icmp_echo type (icmp_checksum (icmp_echo type 0 p)) p)) = 0xFFFF.
Proof.
  intros Ht Hb Hl. unfold icmp_checksum.
  pose proof (words_total_range _ (icmp_echo_bytes type 0 p Ht Hb)) as Hr. rewrite icmp_echo_zlen in Hr.
  rewrite (sum_words_total (icmp_echo type 0 p)) by (first [by apply icmp_echo_bytes | lia]).
  rewrite Z.add_0_l, (fold_carry_spec (words_total (icmp_echo type 0 p))) by (unfold is_u32; lia).
  set (c := complement _). assert (is_u16 c) as Hc by (unfold c, complement; apply u16_range).
  pose proof (icmp_echo_total type c p Hc) as E. unfold is_u16 in Hc.
  rewrite sum_words_total by (first [by apply icmp_echo_bytes | lia]).
  rewrite E, Z.add_0_l, fold_carry_spec by (unfold is_u32; lia). apply fold16_complement. lia.
Qed.

Lemma icmp_echo_fields type csum p : is_u16 (pp_identifier p) -> is_u16 (pp_sequence p) ->
  exists b4 b5 b6 b7, rd (icmp_echo type csum p) 0 = Some type /\
    rd (icmp_echo type csum p) 4 = Some b4 /\ rd (icmp_echo type csum p) 5 = Some b5 /\
    rd (icmp_echo type csum p) 6 = Some b6 /\ rd (icmp_echo type csum p) 7 = Some b7 /\
    be16 b4 b5 = pp_identifier p /\ be16 b6 b7 = pp_sequence p /\ drop 8 (icmp_echo type csum p) = pp_payload p.
Proof.
  intros. do 4 eexists. repeat (split; [reflexivity|]).
  split; [by apply be16_put16|]. split; [by apply be16_put16|]. reflexivity.
Qed.

(** Ping replies answer the right pings.  A request built from an identifier,
    a sequence number and up to 512 bytes of data is accepted and queued behind
    the unanswered ones (dropped if eight are waiting); and the next reply built
    is for the oldest waiting request: it goes to its sender, has the reply
    type, its identifier, sequence number and data, and a correct checksum. *)
Lemma echo_answers_pings e q src_ip p : echo_inv e q -> ping_ok p ->
  (exists e', echo_handle (icmp_echo ICMP_ECHO_REQUEST (icmp_checksum (icmp_echo ICMP_ECHO_REQUEST 0 p)) p) src_ip e = Some e' /\
    echo_inv e' (if decide (length q < 8)%nat
                 then q ++ [mkPing src_ip (pp_identifier p) (pp_sequence p) (pp_payload p)] else q)) /\
  (Forall ping_ok q -> exists r e', echo_build_reply e = Some (r, e') /\ echo_inv e' (tail q) /\
    match q with
    | [] => r = None
    | h :: _ => exists icmp b4 b5 b6 b7, r = Some (icmp, pp_src_ip h) /\
        fold_carry (sum_words 0 icmp) = 0xFFFF /\ rd icmp 0 = Some ICMP_ECHO_REPLY /\
        rd icmp 4 = Some b4 /\ rd icmp 5 = Some b5 /\ rd icmp 6 = Some b6 /\ rd icmp 7 = Some b7 /\
        be16 b4 b5 = pp_identifier h /\ be16 b6 b7 = pp_sequence h /\ drop 8 icmp = pp_payload h
    end).
Proof.
  intros Hinv (Hid & Hsq & Hb & Hl). split.
  - unfold echo_handle, echo_check, ICMP_MIN_HEADER, ECHO_MAX_PAYLOAD in *.
    set (c := icmp_checksum (icmp_echo ICMP_ECHO_REQUEST 0 p)).
    destruct (icmp_echo_fields ICMP_ECHO_REQUEST c p Hid Hsq) as (b4 & b5 & b6 & b7 & R0 & R4 & R5 & R6 & R7 & Ei & Es & Ed).
    rewrite icmp_echo_zlen. assert (0 <= zlen (pp_payload p)) by (unfold zlen; lia).
    destruct (Z.ltb_spec (8 + zlen (pp_payload p)) 8); [lia|].
    assert (fold_carry (sum_words 0 (icmp_echo ICMP_ECHO_REQUEST c p)) = 0xFFFF) as ->
      by (apply icmp_echo_checks; [unfold is_u8, ICMP_ECHO_REQUEST; lia|done|lia]).
    change (negb (65535 =? 65535)) with false. cbv iota. rewrite R0. cbn [mbind option_bind].
    change (negb (ICMP_ECHO_REQUEST =? ICMP_ECHO_REQUEST)) with false. cbv iota.
    rewrite u16_small by (unfold is_u16; lia).
    destruct (Z.ltb_spec 512 (8 + zlen (pp_payload p) - 8)); [lia|]. cbn [mbind option_bind].
    rewrite bool_decide_true by done. cbn [negb]. rewrite R4, R5, R6, R7. cbn [mbind option_bind ec_pending_count].
    rewrite Ei, Es, Ed. destruct Hinv as [Hr Ht]. pose proof (rh_cnt _ _ _ _ _ Hr) as Hc.
    destruct (Nat.leb_spec ECHO_MAX_PENDING (ec_pending_count e)) as [Hfull|Hroom]; eexists; (split; [reflexivity|]).
    + rewrite decide_False by (unfold ECHO_MAX_PENDING in Hfull; lia). by split.
    + rewrite decide_True by (unfold ECHO_MAX_PENDING in Hroom; lia). split; cbn [ec_queue ec_head ec_pending_count ec_tail].
      * rewrite Ht. apply ring_push; [unfold ECHO_MAX_PENDING; lia|done|done].
      * rewrite Ht, Nat.Div0.add_mod_idemp_l. f_equal. lia.
  - intros Hq. unfold echo_build_reply. pose proof Hinv as [Hr Ht]. pose proof (rh_cnt _ _ _ _ _ Hr) as Hc.
    destruct q as [|h q]; simpl in Hc.
    { rewrite <- Hc. simpl. do 2 eexists. done. }
    rewrite <- Hc in *. destruct (ring_pop ECHO_MAX_PENDING ltac:(unfold ECHO_MAX_PENDING; lia) _ _ _ _ _ Hr) as [Hh Hr'].
    change (S (length q) =? 0)%nat with false. cbv iota. rewrite Hh. cbn [mbind option_bind].
    apply Forall_cons_1 in Hq as [(Hi & Hs & Hpb & Hpl) _]. do 2 eexists. split; [reflexivity|]. split.
    + split; cbn [ec_queue ec_head ec_pending_count ec_tail tail].
      * by rewrite Nat.sub_succ, Nat.sub_0_r.
      * rewrite Ht, Nat.Div0.add_mod_idemp_l. f_equal. lia.
    + destruct (icmp_echo_fields ICMP_ECHO_REPLY (icmp_checksum (icmp_echo ICMP_ECHO_REPLY 0 h)) h Hi Hs)
        as (b4 & b5 & b6 & b7 & R0 & R4 & R5 & R6 & R7 & Ei & Es & Ed).
      do 5 eexists. split; [reflexivity|]. split; [|eauto 10]. unfold ECHO_MAX_PAYLOAD in Hpl.
      apply icmp_echo_checks; [unfold is_u8, ICMP_ECHO_REPLY; lia|done|lia].
Qed.

Lemma echo_answers_pings_witness :
  let p := mkPing [0;0;0;0] 7 1 [104;105] in
  exists e', echo_handle (icmp_echo ICMP_ECHO_REQUEST (icmp_checksum (icmp_echo ICMP_ECHO_REQUEST 0 p)) p) [10;0;2;2] echo_init
    = Some e' /\ echo_inv e' [mkPing [10;0;2;2] 7 1 [104;105]].
Proof.
  cbv zeta. refine (proj1 (echo_answers_pings echo_init [] [10;0;2;2] (mkPing [0;0;0;0] 7 1 [104;105]) echo_inv_init _)).
  split; [unfold is_u16; simpl; lia|]. split; [unfold is_u16; simpl; lia|]. split; [simpl; byte_list|].
  unfold zlen, ECHO_MAX_PAYLOAD. simpl. lia.
Defined.
