(* ===== verification/Compass.v ===== *)
(** * The network state and Compass, the IPv4 input path

    The [net] record is the state of the IPv4 stack.  Compass
    ([Networking/IPv4/Compass/compass.c]) checks each IPv4 header, consults
    GuestList, Curfew and Rolodex, and hands the payload to the protocol's
    handler. *)

From S2P Require Import Prelude SlotTable GuestList Ids RateLimit Sentry Bailiff Rolodex Foyer Atlas.
From S2P Require Import LockBox Inbox Why Scheduler Rapport Transport Checksum Echo.
Import GuestList Menu Ids Curfew Atlas Postbox SynCookie Lottery.

Record net (D : Type) := mkNet {
  n_link : link D;
  n_guard : guard;
  n_tcp : tcp;
  n_menu : list menu_entry;
  n_atlas : atlas;
  n_cookie : syncookie;
  n_postbox : list postbox_slot;
  n_echo : echo;
  n_mac : list Z;
  n_last_frame : list Z;
  n_ip_counts : Z * Z;
  n_tcp_counts : Z * Z;
  n_udp_counts : Z * Z }.
Arguments mkNet {D} _ _ _ _ _ _ _ _ _ _ _ _ _.
Arguments n_link {D} _.
Arguments n_guard {D} _.
Arguments n_tcp {D} _.
Arguments n_menu {D} _.
Arguments n_atlas {D} _.
Arguments n_cookie {D} _.
Arguments n_postbox {D} _.
Arguments n_echo {D} _.
Arguments n_mac {D} _.
Arguments n_last_frame {D} _.
Arguments n_ip_counts {D} _.
Arguments n_tcp_counts {D} _.
Arguments n_udp_counts {D} _.

Section Setters.
Context {D : Type}.
Implicit Types (n : net D).
Definition set_link (x : link D) n : net D :=
  mkNet x (n_guard n) (n_tcp n) (n_menu n) (n_atlas n) (n_cookie n) (n_postbox n) (n_echo n) (n_mac n)
    (n_last_frame n) (n_ip_counts n) (n_tcp_counts n) (n_udp_counts n).
Definition set_guard (x : guard) n : net D :=
  mkNet (n_link n) x (n_tcp n) (n_menu n) (n_atlas n) (n_cookie n) (n_postbox n) (n_echo n) (n_mac n)
    (n_last_frame n) (n_ip_counts n) (n_tcp_counts n) (n_udp_counts n).
Definition set_tcp (x : tcp) n : net D :=
  mkNet (n_link n) (n_guard n) x (n_menu n) (n_atlas n) (n_cookie n) (n_postbox n) (n_echo n) (n_mac n)
    (n_last_frame n) (n_ip_counts n) (n_tcp_counts n) (n_udp_counts n).
Definition set_cookie (x : syncookie) n : net D :=
  mkNet (n_link n) (n_guard n) (n_tcp n) (n_menu n) (n_atlas n) x (n_postbox n) (n_echo n) (n_mac n)
    (n_last_frame n) (n_ip_counts n) (n_tcp_counts n) (n_udp_counts n).
Definition set_postbox (x : list postbox_slot) n : net D :=
  mkNet (n_link n) (n_guard n) (n_tcp n) (n_menu n) (n_atlas n) (n_cookie n) x (n_echo n) (n_mac n)
    (n_last_frame n) (n_ip_counts n) (n_tcp_counts n) (n_udp_counts n).
Definition set_echo (x : echo) n : net D :=
  mkNet (n_link n) (n_guard n) (n_tcp n) (n_menu n) (n_atlas n) (n_cookie n) (n_postbox n) x (n_mac n)
    (n_last_frame n) (n_ip_counts n) (n_tcp_counts n) (n_udp_counts n).
Definition set_last_frame (x : list Z) n : net D :=
  mkNet (n_link n) (n_guard n) (n_tcp n) (n_menu n) (n_atlas n) (n_cookie n) (n_postbox n) (n_echo n) (n_mac n)
    x (n_ip_counts n) (n_tcp_counts n) (n_udp_counts n).
Definition set_ip_counts (x : Z * Z) n : net D :=
  mkNet (n_link n) (n_guard n) (n_tcp n) (n_menu n) (n_atlas n) (n_cookie n) (n_postbox n) (n_echo n) (n_mac n)
    (n_last_frame n) x (n_tcp_counts n) (n_udp_counts n).
Definition set_tcp_counts (x : Z * Z) n : net D :=
  mkNet (n_link n) (n_guard n) (n_tcp n) (n_menu n) (n_atlas n) (n_cookie n) (n_postbox n) (n_echo n) (n_mac n)
    (n_last_frame n) (n_ip_counts n) x (n_udp_counts n).
Definition set_udp_counts (x : Z * Z) n : net D :=
  mkNet (n_link n) (n_guard n) (n_tcp n) (n_menu n) (n_atlas n) (n_cookie n) (n_postbox n) (n_echo n) (n_mac n)
    (n_last_frame n) (n_ip_counts n) (n_tcp_counts n) x.
Definition set_net_rolodex (x : rolodex) n : net D := set_link (set_rolodex x (n_link n)) n.
End Setters.

(** Counters are pairs (accepted, rejected). *)
Definition count_accept (c : Z * Z) : Z * Z := (fst c +32 1, snd c).
Definition count_reject (c : Z * Z) : Z * Z := (fst c, snd c +32 1).

Definition compass_accepted_count {D} (n : net D) : Z := fst (n_ip_counts n).
Definition compass_rejected_count {D} (n : net D) : Z := snd (n_ip_counts n).

(** ** Header checks *)

Definition MIN_IP_HEADER : Z := 20.

Inductive ip_verdict :=
  IP_ACCEPT | IP_REJECT_TOO_SHORT | IP_REJECT_BAD_VERSION | IP_REJECT_BAD_HEADER_LEN
| IP_REJECT_LENGTH_MISMATCH | IP_REJECT_FRAGMENTED | IP_REJECT_BAD_CHECKSUM.
#[export] Instance ip_verdict_eq : EqDecision ip_verdict.
Proof. solve_decision. Defined.

(** The first [header_len] bytes; [None] outside the payload. *)
Definition ip_checksum_ok (payload : list Z) (header_len : Z) : option bool :=
  header ← slice payload 0 (Z.to_nat header_len);
  Some (fold_carry (sum_words 0 header) =? 0xFFFF).

Definition compass_check (payload : list Z) : option ip_verdict :=
  if zlen payload <? MIN_IP_HEADER then Some IP_REJECT_TOO_SHORT else
  b0 ← rd payload 0;
  let version := Z.shiftr b0 4 in
  let ihl := Z.land b0 0x0F in
  if negb (version =? 4) then Some IP_REJECT_BAD_VERSION
  else if ihl <? 5 then Some IP_REJECT_BAD_HEADER_LEN
  else
    let header_len := u16 (ihl * 4) in
    if zlen payload <? header_len then Some IP_REJECT_BAD_HEADER_LEN else
    b2 ← rd payload 2; b3 ← rd payload 3;
    let total_len := be16 b2 b3 in
    if zlen payload <? total_len then Some IP_REJECT_LENGTH_MISMATCH
    else if total_len <? header_len then Some IP_REJECT_LENGTH_MISMATCH
    else
      b6 ← rd payload 6; b7 ← rd payload 7;
      let flags_frag := be16 b6 b7 in
      let frag_offset := Z.land flags_frag 0x1FFF in
      let more_fragments := Z.land (Z.shiftr flags_frag 13) 0x1 in
      if negb (frag_offset =? 0) || negb (more_fragments =? 0) then Some IP_REJECT_FRAGMENTED
      else
        ok ← ip_checksum_ok payload header_len;
        Some (if negb ok then IP_REJECT_BAD_CHECKSUM else IP_ACCEPT).

(** ** The input path *)

(** A registered protocol handler: segment, source, destination.  [None] is an
    access outside a buffer. *)
Notation ip_handler D := (list Z -> ip4 -> ip4 -> net D -> option (net D)).

(** [compass_handle] up to the point where the handler is called: either the
    packet ends here, or it goes on with (protocol, segment, source,
    destination). *)
Inductive ip_outcome := IpDrop | IpDeliver (protocol : Z) (segment : list Z) (src dst : ip4).

Definition compass_reject {D} (n : net D) : net D := set_ip_counts (count_reject (n_ip_counts n)) n.

(** [guestlist_allow || curfew_check(src_ip)]; the rate limiter is only asked
    when there is no allow rule. *)
Definition compass_limit (now : Z) (verdict : guestlist_verdict) (src_ip : ip4) (g : guard) : bool * guard :=
  if bool_decide (verdict = GUESTLIST_ALLOWED) then (true, g)
  else let '(ok, c) := curfew_check now src_ip (gd_curfew g) in (ok, set_curfew c g).

(** An accepted packet: learn the sender, count, cut out the segment. *)
Definition compass_deliver {D} (now : Z) (payload src_mac : list Z) (protocol : Z) (src_ip dst_ip : ip4) (n : net D)
    : option (ip_outcome * net D) :=
  let n := set_net_rolodex (rolodex_learn now src_ip src_mac (lk_rolodex (n_link n))) n in
  let n := set_ip_counts (count_accept (n_ip_counts n)) n in
  b0 ← rd payload 0; b2 ← rd payload 2; b3 ← rd payload 3;
  let header_len := u16 (Z.land b0 0x0F * 4) in
  let total_length := be16 b2 b3 in
  segment ← slice payload (Z.to_nat header_len) (Z.to_nat (u16 (total_length - header_len)));
  Some (IpDeliver protocol segment src_ip dst_ip, n).

Definition compass_admit {D} (now : Z) (payload src_mac : list Z) (n : net D) : option (ip_outcome * net D) :=
  v ← compass_check payload;
  if negb (bool_decide (v = IP_ACCEPT)) then
    g ← (if MIN_IP_HEADER <=? zlen payload
         then src ← slice payload 12 4; Some (set_curfew (curfew_strike now src (gd_curfew (n_guard n))) (n_guard n))
         else Some (n_guard n));
    Some (IpDrop, compass_reject (set_guard g n))
  else
    protocol ← rd payload 9;
    src_ip ← slice payload 12 4;
    dst_ip ← slice payload 16 4;
    let g := n_guard n in
    match guestlist_check src_ip (gd_guests g) with
    | GUESTLIST_DENIED =>
        Some (IpDrop, compass_reject (set_guard (guard_notify now IDS_EVENT_GUESTLIST_DENY (Some src_ip) g) n))
    | verdict =>
        let '(pass, g) := compass_limit now verdict src_ip g in
        if negb pass then
          Some (IpDrop, compass_reject (set_guard (guard_notify now IDS_EVENT_CURFEW_REJECT (Some src_ip) g) n))
        else if rolodex_disputed src_ip (lk_rolodex (n_link n)) then
          Some (IpDrop, compass_reject (set_guard (guard_notify now IDS_EVENT_ROLODEX_DISPUTED (Some src_ip) g) n))
        else compass_deliver now payload src_mac protocol src_ip dst_ip (set_guard g n)
    end.

Fixpoint ip_dispatch {D} (directory : list (Z * ip_handler D)) (protocol : Z) (segment : list Z) (src dst : ip4)
    (n : net D) : option (net D) :=
  match directory with
  | [] => Some n
  | (p, h) :: rest => if p =? protocol then h segment src dst n else ip_dispatch rest protocol segment src dst n
  end.

Definition compass_handle {D} (now : Z) (directory : list (Z * ip_handler D)) (payload src_mac : list Z) (n : net D)
    : option (net D) :=
  '(o, n) ← compass_admit now payload src_mac n;
  match o with
  | IpDrop => Some n
  | IpDeliver protocol segment src dst => ip_dispatch directory protocol segment src dst n
  end.

#[global] Arguments compass_admit : simpl never.
#[global] Arguments compass_check : simpl never.
#[global] Opaque ip_header.

(** ** What is let in *)

(** Header fields of a payload. *)
Definition ip_hlen (payload : list Z) : Z := Z.land (default 0 (payload !! 0%nat)) 0x0F * 4.
Definition ip_total (payload : list Z) : Z := be16 (default 0 (payload !! 2%nat)) (default 0 (payload !! 3%nat)).
Definition ip_frag (payload : list Z) : Z := be16 (default 0 (payload !! 6%nat)) (default 0 (payload !! 7%nat)).

Record ip_well_formed (payload : list Z) : Prop := {
  iw_version : Z.shiftr (default 0 (payload !! 0%nat)) 4 = 4;
  iw_hlen : 20 <= ip_hlen payload;
  iw_total : ip_hlen payload <= ip_total payload <= zlen payload;
  iw_whole : Z.land (ip_frag payload) 0x1FFF = 0 /\ Z.land (Z.shiftr (ip_frag payload) 13) 1 = 0;
  iw_check : fold16 (words_total (take (Z.to_nat (ip_hlen payload)) payload)) = 0xFFFF }.

Lemma nibble_range b : 0 <= Z.land b 0x0F < 16.
Proof. change 0x0F with (Z.ones 4). rewrite Z.land_ones by lia. lia_mod. Qed.

Lemma rd_at payload i k : Z.of_nat k = i -> (k < length payload)%nat -> rd payload i = Some (default 0 (payload !! k)).
Proof.
  intros <- Hk. unfold rd. destruct (Z.leb_spec 0 (Z.of_nat k)); [|lia]. rewrite Nat2Z.id.
  destruct (lookup_lt_is_Some_2 payload k Hk) as [x ->]. done.
Qed.

Lemma compass_check_spec payload : bytes payload -> is_u16 (zlen payload) ->
  exists v, compass_check payload = Some v /\ (v = IP_ACCEPT <-> ip_well_formed payload).
Proof.
  intros Hb Hlen. unfold compass_check, MIN_IP_HEADER.
  pose proof (nibble_range (default 0 (payload !! 0%nat))) as Hnib.
  destruct (Z.ltb_spec (zlen payload) 20) as [Hs|Hs].
  { eexists. split; [done|]. split; [done|]. intros [_ Hh [Ht1 Ht2] _ _]. lia. }
  assert (20 <= length payload)%nat as Hl by (unfold zlen in Hs; lia).
  rewrite (rd_at payload 0 0), (rd_at payload 2 2), (rd_at payload 3 3), (rd_at payload 6 6), (rd_at payload 7 7) by lia. cbn [mbind option_bind].
  fold (ip_total payload) (ip_frag payload).
  destruct (Z.eqb_spec (Z.shiftr (default 0 (payload !! 0%nat)) 4) 4) as [Hv|Hv]; cbn [negb]; cbv iota.
  2:{ eexists. split; [done|]. split; [done|]. by intros [? _ _ _ _]. }
  destruct (Z.ltb_spec (Z.land (default 0 (payload !! 0%nat)) 15) 5) as [Hi|Hi].
  { eexists. split; [done|]. split; [done|]. intros [_ Hh _ _ _]. unfold ip_hlen in Hh. lia. }
  rewrite (u16_small (Z.land _ 15 * 4)) by (unfold is_u16; lia). fold (ip_hlen payload).
  assert (20 <= ip_hlen payload <= 60) as Hh by (unfold ip_hlen; lia).
  destruct (Z.ltb_spec (zlen payload) (ip_hlen payload)).
  { eexists. split; [done|]. split; [done|]. intros [_ _ ? _ _]. lia. }
  destruct (Z.ltb_spec (zlen payload) (ip_total payload)).
  { eexists. split; [done|]. split; [done|]. intros [_ _ ? _ _]. lia. }
  destruct (Z.ltb_spec (ip_total payload) (ip_hlen payload)).
  { eexists. split; [done|]. split; [done|]. intros [_ _ ? _ _]. lia. }
  destruct (Z.eqb_spec (Z.land (ip_frag payload) 8191) 0); cbn [negb orb]; cbv iota.
  2:{ eexists. split; [done|]. split; [done|]. intros [_ _ _ [? _] _]. done. }
  destruct (Z.eqb_spec (Z.land (Z.shiftr (ip_frag payload) 13) 1) 0); cbn [negb]; cbv iota.
  2:{ eexists. split; [done|]. split; [done|]. intros [_ _ _ [_ ?] _]. done. }
  unfold ip_checksum_ok. rewrite slice_in_range by (unfold zlen in *; lia). rewrite drop_0. cbn [mbind option_bind].
  set (hdr := take (Z.to_nat (ip_hlen payload)) payload).
  assert (bytes hdr) as Hbh by (by apply bytes_take).
  pose proof (words_total_range hdr Hbh) as Hr. assert (zlen hdr <= 60) as Hz by (unfold zlen, hdr; rewrite length_take; lia).
  rewrite sum_words_total, fold_carry_spec by (done || (unfold is_u32; lia)). rewrite Z.add_0_l.
  eexists. split; [reflexivity|]. destruct (Z.eqb_spec (fold16 (words_total hdr)) 65535); cbn [negb]; cbv iota.
  - split; [|done]. intros _. split; [done|lia|lia|done|done].
  - split; [done|]. by intros [_ _ _ _ ?].
Qed.

(** Compass admits exactly the well-formed headers and never reads outside
    the packet.  For any packet of up to 65535 bytes the check terminates with a
    verdict, without an access outside the packet; and it accepts exactly when
    the version is 4, the header length is at least 20 and fits, the total
    length lies between the header length and the packet's, the packet is not a
    fragment, and the header's words sum to 0xFFFF in one's complement. *)
Lemma compass_check_exact payload : bytes payload -> is_u16 (zlen payload) ->
  exists v, compass_check payload = Some v /\ (v = IP_ACCEPT <-> ip_well_formed payload).
Proof. apply compass_check_spec. Qed.

Lemma compass_check_exact_witness :
  exists v, compass_check (ip_header 20 6 [10;0;2;2] [10;0;2;15]) = Some v /\
    (v = IP_ACCEPT <-> ip_well_formed (ip_header 20 6 [10;0;2;2] [10;0;2;15])).
Proof.
  apply (compass_check_exact (ip_header 20 6 [10;0;2;2] [10;0;2;15])).
  - apply ip_header_bytes; [unfold is_u8; lia|byte_list|byte_list].
  - unfold is_u16, zlen. rewrite ip_header_length by done. lia.
Defined.

(** Reading back the fields of a header the senders built. *)
#[local] Transparent ip_header.
Lemma ip_header_shape total proto src dst : exists c, ip_header total proto src dst =
  [0x45; 0; hi8 total; lo8 total; 0; 0; 0; 0; 64; proto; hi8 c; lo8 c] ++ src ++ dst.
Proof. eexists. unfold ip_header, ip_header_with, put16. reflexivity. Qed.
#[local] Opaque ip_header.

Lemma ip_header_accepted total proto src dst body :
  is_u8 proto -> bytes src -> bytes dst -> length src = 4%nat -> length dst = 4%nat -> bytes body ->
  20 <= total <= 20 + zlen body -> 20 + zlen body < 65536 ->
  compass_check (ip_header total proto src dst ++ body) = Some IP_ACCEPT.
Proof.
  intros Hp Hs Hd Hls Hld Hb Ht Htm. assert (is_u16 total) as Htu by (unfold is_u16, zlen in *; lia).
  destruct (compass_check_spec (ip_header total proto src dst ++ body)) as (v & -> & Hv).
  - apply bytes_app. split; [by apply ip_header_bytes|done].
  - unfold is_u16, zlen in *. rewrite length_app, ip_header_length by done. lia.
  - f_equal. apply Hv.
    pose proof (ip_header_checks total proto src dst Htu Hp Hs Hd Hls Hld) as Hck.
    pose proof (ip_header_length total proto src dst Hls Hld) as Hl20.
    assert (bytes (ip_header total proto src dst)) as Hbh by (by apply ip_header_bytes).
    pose proof (words_total_range _ Hbh) as Hr. unfold zlen in Hr. rewrite Hl20 in Hr.
    rewrite sum_words_total, fold_carry_spec, Z.add_0_l in Hck by (done || (unfold is_u32; lia)).
    destruct (ip_header_shape total proto src dst) as [cs Hshape].
    assert (ip_hlen (ip_header total proto src dst ++ body) = 20) as Eh by (by rewrite Hshape).
    assert (ip_total (ip_header total proto src dst ++ body) = total) as Et.
    { rewrite Hshape. unfold ip_total. simpl. by apply be16_put16. }
    split; [by rewrite Hshape|lia| |by rewrite Hshape|].
    + rewrite Eh, Et. unfold zlen. rewrite length_app, Hl20. unfold zlen in Ht. lia.
    + rewrite Eh. change (Z.to_nat 20) with 20%nat. by rewrite take_app_length' by done.
Qed.

Lemma compass_admit_built {D} now total proto src dst body trail src_mac (n : net D) :
  is_u8 proto -> bytes src -> bytes dst -> length src = 4%nat -> length dst = 4%nat -> bytes body -> bytes trail ->
  total = 20 + zlen body -> total + zlen trail < 65536 ->
  guestlist_check src (gd_guests (n_guard n)) = GUESTLIST_NO_RULE ->
  fst (curfew_check now src (gd_curfew (n_guard n))) = true ->
  rolodex_disputed src (lk_rolodex (n_link n)) = false ->
  exists n', compass_admit now (ip_header total proto src dst ++ body ++ trail) src_mac n =
      Some (IpDeliver proto body src dst, n') /\
    n_tcp n' = n_tcp n /\ n_postbox n' = n_postbox n /\ compass_accepted_count n' = compass_accepted_count n +32 1.
Proof.
  intros Hp Hs Hd Hls Hld Hb Htr Ht Htm Hg Hc Hr. unfold compass_admit.
  assert (0 <= zlen body /\ 0 <= zlen trail) as [Hb0 Ht0] by (unfold zlen; lia).
  assert (zlen (body ++ trail) = zlen body + zlen trail) as Hbt by (unfold zlen; rewrite length_app; lia).
  rewrite (ip_header_accepted total proto src dst (body ++ trail)) by (done || lia || (apply bytes_app; done)). cbn [mbind option_bind].
  rewrite bool_decide_true by done. cbn [negb]. cbv iota.
  assert (is_u16 total) as Htu by (unfold is_u16; lia).
  pose proof (ip_header_length total proto src dst Hls Hld) as Hl20.
  assert (slice (ip_header total proto src dst ++ body ++ trail) 20 (Z.to_nat (total - 20)) = Some body) as Hseg.
  { rewrite slice_in_range by (rewrite !length_app; unfold zlen in *; lia).
    rewrite drop_app_length' by done. rewrite take_app_length' by (unfold zlen in *; lia). done. }
  revert Hseg. destruct (ip_header_shape total proto src dst) as [c ->].
  apply list_len_4 in Hls as (s1 & s2 & s3 & s4 & ->), Hld as (d1 & d2 & d3 & d4 & ->). intros Hseg.
  cbn [app] in *.
  destruct (curfew_check now [s1;s2;s3;s4] (gd_curfew (n_guard n))) as [ok cf] eqn:Hcf. simpl in Hc. subst ok.
  set (pk := 69 :: _) in *.
  assert (rd pk 9 = Some proto /\ rd pk 0 = Some 69 /\ rd pk 2 = Some (hi8 total) /\ rd pk 3 = Some (lo8 total)) as (-> & R0 & R2 & R3) by done.
  assert (slice pk 12 4 = Some [s1;s2;s3;s4] /\ slice pk 16 4 = Some [d1;d2;d3;d4]) as [-> ->].
  { assert (length pk = 20 + length (body ++ trail))%nat as Hpl by done. rewrite !slice_in_range by lia. done. }
  cbn [mbind option_bind]. rewrite Hg. unfold compass_limit. rewrite bool_decide_false by done. rewrite Hcf.
  cbn [negb]. cbv iota. rewrite Hr. unfold compass_deliver. rewrite R0, R2, R3.
  cbn [mbind option_bind]. rewrite be16_put16 by done.
  change (u16 (Z.land 69 15 * 4)) with 20. change (Z.to_nat 20) with 20%nat.
  rewrite (u16_small (total - 20)) by (unfold is_u16; lia). rewrite Hseg. cbn [mbind option_bind].
  eexists. split; [reflexivity|]. done.
Qed.

(** What the stack sends, the stack accepts.  An IPv4 packet made of the
    header the senders build (with its checksum) and a payload, followed by any
    padding, is accepted by the input path of any host that has no rule against
    the sender, no curfew on it and no dispute about it, and the handler gets
    exactly the payload, the protocol and the two addresses. *)
Lemma compass_delivers_built {D} now total proto src dst body trail src_mac (n : net D) :
  is_u8 proto -> bytes src -> bytes dst -> length src = 4%nat -> length dst = 4%nat -> bytes body -> bytes trail ->
  total = 20 + zlen body -> total + zlen trail < 65536 ->
  guestlist_check src (gd_guests (n_guard n)) = GUESTLIST_NO_RULE ->
  fst (curfew_check now src (gd_curfew (n_guard n))) = true ->
  rolodex_disputed src (lk_rolodex (n_link n)) = false ->
  exists n', compass_admit now (ip_header total proto src dst ++ body ++ trail) src_mac n =
      Some (IpDeliver proto body src dst, n') /\
    n_tcp n' = n_tcp n /\ n_postbox n' = n_postbox n /\ compass_accepted_count n' = compass_accepted_count n +32 1.
Proof. apply compass_admit_built. Qed.

(** A host that has just booted, with address 10.0.2.15. *)
Definition net_boot {D} (d : D) (mac : list Z) : net D :=
  mkNet (mkLink d bailiff_init (rolodex_set_ip [10;0;2;15] rolodex_init) foyer_init) guard_init tcp_init menu_init
    atlas_init (mkCookie 0 false (lottery_init 0)) postbox_init echo_init mac [] (0, 0) (0, 0) (0, 0).

Lemma compass_delivers_built_witness :
  exists n', compass_admit 5 (ip_header 23 17 [10;0;2;2] [10;0;2;15] ++ [1;2;3] ++ [0;0]) [2;2;2;2;2;2] (net_boot tt [1;1;1;1;1;1]) =
    Some (IpDeliver 17 [1;2;3] [10;0;2;2] [10;0;2;15], n').
Proof.
  destruct (compass_delivers_built 5 23 17 [10;0;2;2] [10;0;2;15] [1;2;3] [0;0] [2;2;2;2;2;2] (net_boot tt [1;1;1;1;1;1]))
    as (n' & H & _); [unfold is_u8; lia|byte_list|byte_list|reflexivity|reflexivity|byte_list|byte_list|reflexivity|unfold zlen; simpl; lia
    |reflexivity|reflexivity|reflexivity|].
  exists n'. exact H.
Defined.

(** Nothing but the screening state and the counter of rejected packets. *)
Definition inert {D} (n n' : net D) : Prop :=
  n_link n' = n_link n /\ n_tcp n' = n_tcp n /\ n_postbox n' = n_postbox n /\ n_echo n' = n_echo n /\
  n_cookie n' = n_cookie n /\ gd_guests (n_guard n') = gd_guests (n_guard n) /\ gd_sentry (n_guard n') = gd_sentry (n_guard n) /\
  compass_rejected_count n' = compass_rejected_count n +32 1 /\ compass_accepted_count n' = compass_accepted_count n.

Lemma compass_limit_spec now verdict src g : let '(pass, g') := compass_limit now verdict src g in
  gd_guests g' = gd_guests g /\ gd_sentry g' = gd_sentry g /\
  (pass = true -> verdict = GUESTLIST_ALLOWED \/ fst (curfew_check now src (gd_curfew g)) = true).
Proof.
  unfold compass_limit. case_bool_decide; [by auto|].
  destruct (curfew_check now src (gd_curfew g)) as [ok c]. split; [done|]. split; [done|]. intros ->. by right.
Qed.

Lemma compass_deliver_spec {D} now payload src_mac protocol src dst (n : net D) :
  ip_well_formed payload -> is_u16 (zlen payload) ->
  exists n', compass_deliver now payload src_mac protocol src dst n =
    Some (IpDeliver protocol (take (Z.to_nat (ip_total payload - ip_hlen payload)) (drop (Z.to_nat (ip_hlen payload)) payload)) src dst, n').
Proof.
  intros [W1 W2 W3 W4 W5] Hlen. unfold compass_deliver. pose proof (nibble_range (default 0 (payload !! 0%nat))) as Hnib.
  assert (20 <= length payload)%nat as Hl by (unfold zlen in *; lia).
  rewrite (rd_at payload 0 0), (rd_at payload 2 2), (rd_at payload 3 3) by lia. cbn [mbind option_bind].
  fold (ip_total payload). rewrite (u16_small (Z.land _ 15 * 4)) by (unfold is_u16; lia). fold (ip_hlen payload).
  unfold is_u16 in Hlen. rewrite (u16_small (ip_total payload - ip_hlen payload)) by (unfold is_u16; lia).
  rewrite slice_in_range by (unfold zlen in *; lia). cbn [mbind option_bind]. eauto.
Qed.

(** What the two outcomes guarantee. *)
Definition gate_ok {D} (now : Z) (payload : list Z) (n : net D) (o : ip_outcome) (n' : net D) : Prop :=
    match o with
    | IpDrop => inert n n'
    | IpDeliver protocol segment src dst =>
        ip_well_formed payload /\ slice payload 12 4 = Some src /\ slice payload 16 4 = Some dst /\
        rd payload 9 = Some protocol /\
        segment = take (Z.to_nat (ip_total payload - ip_hlen payload)) (drop (Z.to_nat (ip_hlen payload)) payload) /\
        guestlist_check src (gd_guests (n_guard n)) <> GUESTLIST_DENIED /\
        (guestlist_check src (gd_guests (n_guard n)) = GUESTLIST_ALLOWED \/
         fst (curfew_check now src (gd_curfew (n_guard n))) = true) /\
        rolodex_disputed src (lk_rolodex (n_link n)) = false
    end.

Lemma compass_gate_spec {D} now payload src_mac (n : net D) : bytes payload -> is_u16 (zlen payload) ->
  exists o n', compass_admit now payload src_mac n = Some (o, n') /\ gate_ok now payload n o n'.
Proof.
  intros Hb Hlen. destruct (compass_check_spec payload Hb Hlen) as (v & Hv & Hiff). unfold compass_admit. rewrite Hv.
  cbn [mbind option_bind]. case_bool_decide as Hacc; cbn [negb]; cbv iota.
  2:{ unfold MIN_IP_HEADER. destruct (Z.leb_spec 20 (zlen payload)).
      - rewrite slice_in_range by (unfold zlen in *; lia). cbn [mbind option_bind]. do 2 eexists. split; [done|]. done.
      - cbn [mbind option_bind]. do 2 eexists. split; [done|]. done. }
  apply Hiff in Hacc as Hwf. assert (20 <= length payload)%nat as Hl by (destruct Hwf; unfold zlen in *; lia).
  rewrite (rd_at payload 9 9) by lia. rewrite !(slice_in_range payload 12 4), !(slice_in_range payload 16 4) by lia.
  cbn [mbind option_bind]. set (src := take 4 (drop 12 payload)). set (dst := take 4 (drop 16 payload)).
  assert (forall verdict, verdict = guestlist_check src (gd_guests (n_guard n)) -> verdict <> GUESTLIST_DENIED ->
    exists o n', (let '(pass, g) := compass_limit now verdict src (n_guard n) in
        if negb pass then
          Some (IpDrop, compass_reject (set_guard (guard_notify now IDS_EVENT_CURFEW_REJECT (Some src) g) n))
        else if rolodex_disputed src (lk_rolodex (n_link n)) then
          Some (IpDrop, compass_reject (set_guard (guard_notify now IDS_EVENT_ROLODEX_DISPUTED (Some src) g) n))
        else compass_deliver now payload src_mac (default 0 (payload !! 9%nat)) src dst (set_guard g n)) = Some (o, n') /\ gate_ok now payload n o n') as Hgo.
  { intros verdict -> Hnd. pose proof (compass_limit_spec now (guestlist_check src (gd_guests (n_guard n))) src (n_guard n)) as Hlim.
    destruct (compass_limit now _ src (n_guard n)) as [pass g]. destruct Hlim as (Hg1 & Hg2 & Hpass).
    destruct pass; cbn [negb]; cbv iota.
    2:{ exists IpDrop. eexists. split; [done|]. simpl. by repeat (split; [done|]). }
    destruct (rolodex_disputed src _) eqn:Hdis.
    { exists IpDrop. eexists. split; [done|]. simpl. by repeat (split; [done|]). }
    destruct (compass_deliver_spec now payload src_mac (default 0 (payload !! 9%nat)) src dst (set_guard g n) Hwf Hlen) as (n' & ->).
    do 2 eexists. split; [reflexivity|]. simpl. rewrite (rd_at payload 9 9), !slice_in_range by lia. auto 15. }
  destruct (guestlist_check src (gd_guests (n_guard n))) eqn:Hgl.
  - by apply Hgo.
  - by apply Hgo.
  - do 2 eexists. split; [done|]. done.
Qed.

(** C39: The gate.  Whatever bytes arrive (up to 65535 of them), Compass decides
    without an access outside the packet.  A packet it drops leaves the link,
    TCP, UDP, ICMP, the rules and the scan detector untouched and is counted;
    a packet it lets through has a well-formed header, its source is not denied
    by the GuestList, is allowed by it or within its rate limit, is not disputed
    in the ARP cache, and the handler gets exactly the bytes between the header
    and the total length. *)
Theorem compass_gate {D} now payload src_mac (n : net D) : bytes payload -> is_u16 (zlen payload) ->
  exists o n', compass_admit now payload src_mac n = Some (o, n') /\
    gate_ok now payload n o n'.
Proof. apply compass_gate_spec. Qed.

Lemma compass_gate_witness : exists o n', compass_admit 5 [1;2;3] [2;2;2;2;2;2] (net_boot tt [1;1;1;1;1;1]) = Some (o, n').
Proof.
  destruct (compass_gate 5 [1;2;3] [2;2;2;2;2;2] (net_boot tt [1;1;1;1;1;1])) as (o & n' & H & _);
    [byte_list|unfold is_u16, zlen; simpl; lia|]. exists o, n'. exact H.
Defined.
