(* ===== verification/Postcard.v ===== *)
(** * Postcard, UDP

    [Networking/IPv4/PostCard/postcard.c]: checks datagrams and queues them for
    the listener of their port, and builds and sends datagrams. *)

From S2P Require Import Prelude SlotTable GuestList Ids RateLimit Sentry Bailiff Rolodex Foyer Atlas.
From S2P Require Import LockBox Ring Inbox Checksum Echo Compass.
Import Menu Atlas Postbox.

Definition UDP_HEADER_LEN : Z := 8.
Definition POSTCARD_MAX_PAYLOAD : Z := 1472.

Inductive udp_verdict := UDP_ACCEPT | UDP_REJECT_TOO_SHORT | UDP_REJECT_LENGTH_MISMATCH | UDP_REJECT_BAD_CHECKSUM.
#[export] Instance udp_verdict_eq : EqDecision udp_verdict.
Proof. solve_decision. Defined.

(** Over the first [length] bytes of the datagram. *)
Definition udp_checksum_ok (udp : list Z) (length : Z) (src_ip dst_ip : ip4) : option bool :=
  b6 ← rd udp 6; b7 ← rd udp 7;
  let given := be16 b6 b7 in
  if given =? 0 then Some true else
  dgram ← slice udp 0 (Z.to_nat length);
  Some (fold_carry (sum_words (pseudo_sum src_ip dst_ip 17 length) dgram) =? 0xFFFF).

(** The verdict and [*out_declared_len] (0 when it was not written). *)
Definition postcard_check (payload : list Z) (src_ip dst_ip : ip4) : option (udp_verdict * Z) :=
  if zlen payload <? UDP_HEADER_LEN then Some (UDP_REJECT_TOO_SHORT, 0) else
  b4 ← rd payload 4; b5 ← rd payload 5;
  let declared_len := be16 b4 b5 in
  if (declared_len <? UDP_HEADER_LEN) || (zlen payload <? declared_len) then Some (UDP_REJECT_LENGTH_MISMATCH, declared_len)
  else
    ok ← udp_checksum_ok payload declared_len src_ip dst_ip;
    Some (if negb ok then UDP_REJECT_BAD_CHECKSUM else UDP_ACCEPT, declared_len).

Definition postcard_handle {D} (now : Z) (payload : list Z) (src_ip dst_ip : ip4) (n : net D) : option (net D) :=
  '(v, declared_len) ← postcard_check payload src_ip dst_ip;
  if negb (bool_decide (v = UDP_ACCEPT)) then Some (set_udp_counts (count_reject (n_udp_counts n)) n) else
  let n := set_udp_counts (count_accept (n_udp_counts n)) n in
  b0 ← rd payload 0; b1 ← rd payload 1; b2 ← rd payload 2; b3 ← rd payload 3;
  let src_port := be16 b0 b1 in
  let dst_port := be16 b2 b3 in
  '(banned, g) ← sentry_observe now src_ip dst_port (n_guard n);
  let n := set_guard g n in
  if banned : bool then Some n
  else if negb (menu_is_open dst_port 17 (n_menu n)) then Some n
  else
    let slot := lockbox_find_listener dst_port 17 (Transport.tp_lockbox (n_tcp n)) in
    if (slot =? LOCKBOX_CAPACITY)%nat then Some n else
    data ← slice payload 8 (Z.to_nat (u16 (declared_len - UDP_HEADER_LEN)));
    Some (set_postbox (snd (postbox_deposit slot src_ip src_port data (n_postbox n))) n).

(** The datagram with a given checksum field. *)
Definition udp_with (csum src_port dest_port : Z) (data : list Z) : list Z :=
  put16 src_port ++ put16 dest_port ++ put16 (u16 (UDP_HEADER_LEN + zlen data)) ++ put16 csum ++ data.

Definition udp_datagram (src_port dest_port : Z) (our_ip dest_ip : ip4) (data : list Z) : list Z :=
  let udp_len := u16 (UDP_HEADER_LEN + zlen data) in
  let sum := fold_carry (sum_words (pseudo_sum our_ip dest_ip 17 udp_len) (udp_with 0 src_port dest_port data)) in
  let csum := complement sum in
  udp_with (if csum =? 0 then 0xFFFF else csum) src_port dest_port data.

Definition postcard_dispatch {D} `{TxDriver D} (now : Z) (dest_ip : ip4) (dest_port src_port : Z) (our_mac : list Z)
    (our_ip : ip4) (data : list Z) (n : net D) : bool * net D :=
  if POSTCARD_MAX_PAYLOAD <? zlen data then (false, n) else
  let udp := udp_datagram src_port dest_port our_ip dest_ip data in
  let ip_total := u16 (20 + u16 (UDP_HEADER_LEN + zlen data)) in
  let frame mac := mac ++ our_mac ++ [0x08; 0x00] ++ ip_header ip_total 17 our_ip dest_ip ++ udp in
  if bool_decide (dest_ip = [255; 255; 255; 255]) then
    let '(ok, l) := send_with_pass now (frame (replicate 6 0xFF)) (n_link n) in (ok, set_link l n)
  else
    match atlas_lookup dest_ip (n_atlas n) with
    | (true, Some next_hop) =>
        match rolodex_lookup next_hop (lk_rolodex (n_link n)) with
        | Some dest_mac => let '(ok, l) := send_with_pass now (frame dest_mac) (n_link n) in (ok, set_link l n)
        | None => let '(ok, l) := foyer_queue now next_hop our_mac (frame (replicate 6 0)) (n_link n) in (ok, set_link l n)
        end
    | _ => (false, n)
    end.

Definition postcard_accepted_count {D} (n : net D) : Z := fst (n_udp_counts n).
Definition postcard_rejected_count {D} (n : net D) : Z := snd (n_udp_counts n).

(** ** A datagram arrives as it was sent *)

Lemma udp_with_bytes csum sp dp data : bytes data -> bytes (udp_with csum sp dp data).
Proof. intros. unfold udp_with. rewrite !bytes_app. auto 10 with aevros. Qed.

Lemma udp_with_total csum sp dp data : is_u16 csum ->
  words_total (udp_with csum sp dp data) = words_total (udp_with 0 sp dp data) + csum.
Proof. apply (words_total_field (put16 sp ++ put16 dp ++ put16 (u16 (UDP_HEADER_LEN + zlen data)))). by apply Nat.even_spec. Qed.

Lemma udp_with_zlen csum sp dp data : zlen (udp_with csum sp dp data) = 8 + zlen data.
Proof. unfold udp_with, zlen. rewrite !length_app. simpl. lia. Qed.

(** The stored checksum (with zero written as 0xFFFF) verifies. *)
Lemma udp_datagram_checks sp dp src dst data :
  bytes src -> bytes dst -> bytes data -> length src = 4%nat -> length dst = 4%nat -> zlen data <= POSTCARD_MAX_PAYLOAD ->
  exists c, is_u16 c /\ c <> 0 /\ udp_datagram sp dp src dst data = udp_with c sp dp data /\
    fold_carry (sum_words (pseudo_sum src dst 17 (8 + zlen data)) (udp_with c sp dp data)) = 0xFFFF.
Proof.
  intros Hs Hd Hb Hls Hld Hz. unfold udp_datagram, UDP_HEADER_LEN, POSTCARD_MAX_PAYLOAD in *.
  assert (0 <= zlen data) by (unfold zlen; lia). rewrite (u16_small (8 + zlen data)) by (unfold is_u16; lia).
  assert (Nat.Even (length src)) as He by (rewrite Hls; apply Nat.even_spec; done).
  assert (forall c, zlen (udp_with c sp dp data) <= 60000) as Hzl by (intros; rewrite udp_with_zlen; lia).
  assert (forall c, sum_words (pseudo_sum src dst 17 (8 + zlen data)) (udp_with c sp dp data) =
      words_total (src ++ dst) + 17 + (8 + zlen data) + words_total (udp_with c sp dp data) /\
      0 <= words_total (src ++ dst) + 17 + (8 + zlen data) + words_total (udp_with c sp dp data) < 4294967296) as Hsum.
  { intros c. apply pseudo_sum_total; auto using udp_with_bytes; unfold is_u8, is_u16; lia. }
  destruct (Hsum 0) as [E0 R0]. rewrite E0, fold_carry_spec by (unfold is_u32; lia).
  set (S := words_total (src ++ dst) + 17 + (8 + zlen data) + words_total (udp_with 0 sp dp data)) in *.
  pose proof (fold16_complement S ltac:(lia)) as Hf. pose proof (fold16_range S ltac:(lia)) as Hr.
  assert (is_u16 (complement (fold16 S))) as Hcu by (unfold complement; apply u16_range).
  assert (forall c, is_u16 c -> fold_carry (sum_words (pseudo_sum src dst 17 (8 + zlen data)) (udp_with c sp dp data)) = fold16 (S + c)) as Hfin.
  { intros c Hc. destruct (Hsum c) as [E R]. rewrite E, fold_carry_spec by (unfold is_u32; lia).
    rewrite udp_with_total by done. f_equal. unfold S. lia. }
  destruct (Z.eqb_spec (complement (fold16 S)) 0) as [Hc0|Hc0].
  - exists 0xFFFF. split; [unfold is_u16; lia|]. split; [done|]. split; [done|]. rewrite Hfin by (unfold is_u16; lia).
    rewrite Hc0, Z.add_0_r in Hf. apply fold16_ones in Hf; [|lia]. apply fold16_ones; [lia|]. split; [lia|]. lia_mod.
  - exists (complement (fold16 S)). split; [done|]. split; [done|]. split; [done|]. by rewrite Hfin.
Qed.

Lemma udp_fields c sp dp data : is_u16 sp -> is_u16 dp -> is_u16 (8 + zlen data) -> is_u16 c ->
  exists b0 b1 b2 b3 b4 b5 b6 b7,
    (rd (udp_with c sp dp data) 0 = Some b0 /\ rd (udp_with c sp dp data) 1 = Some b1 /\
     rd (udp_with c sp dp data) 2 = Some b2 /\ rd (udp_with c sp dp data) 3 = Some b3 /\
     rd (udp_with c sp dp data) 4 = Some b4 /\ rd (udp_with c sp dp data) 5 = Some b5 /\
     rd (udp_with c sp dp data) 6 = Some b6 /\ rd (udp_with c sp dp data) 7 = Some b7) /\
    be16 b0 b1 = sp /\ be16 b2 b3 = dp /\ be16 b4 b5 = 8 + zlen data /\ be16 b6 b7 = c.
Proof.
  intros Hs Hd Hl Hc. unfold udp_with, UDP_HEADER_LEN. rewrite (u16_small (8 + zlen data)) by done.
  do 8 eexists. split; [repeat (split; [reflexivity|]); reflexivity|].
  split; [by apply be16_put16|]. split; [by apply be16_put16|]. split; [by apply be16_put16|]. by apply be16_put16.
Qed.

Lemma postcard_check_built sp dp src dst data :
  bytes src -> bytes dst -> bytes data -> length src = 4%nat -> length dst = 4%nat ->
  is_u16 sp -> is_u16 dp -> zlen data <= POSTCARD_MAX_PAYLOAD ->
  postcard_check (udp_datagram sp dp src dst data) src dst = Some (UDP_ACCEPT, 8 + zlen data).
Proof.
  intros Hs Hd Hb Hls Hld Hsp Hdp Hz.
  destruct (udp_datagram_checks sp dp src dst data) as (c & Hc & Hc0 & -> & Hck); [done..|].
  unfold POSTCARD_MAX_PAYLOAD in Hz. assert (0 <= zlen data) by (unfold zlen; lia).
  assert (is_u16 (8 + zlen data)) as Hlu by (unfold is_u16; lia).
  destruct (udp_fields c sp dp data Hsp Hdp Hlu Hc) as
    (b0 & b1 & b2 & b3 & b4 & b5 & b6 & b7 & (R0 & R1 & R2 & R3 & R4 & R5 & R6 & R7) & E1 & E2 & E3 & E4).
  unfold postcard_check, udp_checksum_ok, UDP_HEADER_LEN. rewrite udp_with_zlen.
  destruct (Z.ltb_spec (8 + zlen data) 8); [lia|]. rewrite R4, R5. cbn [mbind option_bind]. rewrite E3.
  destruct (Z.ltb_spec (8 + zlen data) 8), (Z.ltb_spec (8 + zlen data) (8 + zlen data)); try lia. cbn [orb]. cbv iota.
  rewrite R6, R7. cbn [mbind option_bind]. rewrite E4. destruct (Z.eqb_spec c 0); [done|].
  pose proof (udp_with_zlen c sp dp data) as Hzl. unfold zlen in Hzl.
  rewrite slice_in_range by (unfold zlen; lia). rewrite drop_0, take_ge by (unfold zlen; lia).
  cbn [mbind option_bind]. rewrite Hck. done.
Qed.

(** A datagram arrives as it was sent.  The UDP message that
    [postcard_dispatch] builds for a payload of up to 576 bytes, handed to a host
    that has the port on its Menu and a listener with room for it, ends as the
    newest datagram of that listener, with the sender's address, its port and
    exactly the payload; nothing already queued is disturbed. *)
Lemma postcard_roundtrip {D} now sp dp src dst data (n : net D) q slot :
  bytes src -> bytes dst -> bytes data -> length src = 4%nat -> length dst = 4%nat ->
  is_u16 sp -> is_u16 dp -> zlen data <= 576 ->
  sentry_wf (gd_sentry (n_guard n)) -> now < 0xFFFFFFFF ->
  menu_is_open dp 17 (n_menu n) = true ->
  lockbox_find_listener dp 17 (Transport.tp_lockbox (n_tcp n)) = slot -> (slot < 64)%nat ->
  postbox_inv (n_postbox n) q -> (length (q slot) < 8)%nat ->
  exists n', postcard_handle now (udp_datagram sp dp src dst data) src dst n = Some n' /\
    postbox_inv (n_postbox n') (updq q slot (q slot ++ [mkEnvelope src sp data])) /\
    postcard_accepted_count n' = postcard_accepted_count n +32 1.
Proof.
  intros Hs Hd Hb Hls Hld Hsp Hdp Hz Hsw Hnow Hmenu Hslot Hlt Hpb Hroom.
  unfold postcard_handle. rewrite postcard_check_built by (done || (unfold POSTCARD_MAX_PAYLOAD; lia)).
  cbn [mbind option_bind]. rewrite bool_decide_true by done. cbn [negb]. cbv iota.
  destruct (udp_datagram_checks sp dp src dst data) as (c & Hc & Hc0 & -> & _); [done..|unfold POSTCARD_MAX_PAYLOAD; lia|].
  assert (0 <= zlen data) by (unfold zlen; lia). assert (is_u16 (8 + zlen data)) as Hlu by (unfold is_u16; lia).
  destruct (udp_fields c sp dp data Hsp Hdp Hlu Hc) as
    (b0 & b1 & b2 & b3 & b4 & b5 & b6 & b7 & (R0 & R1 & R2 & R3 & _) & E1 & E2 & _).
  rewrite R0, R1, R2, R3. cbn [mbind option_bind]. rewrite E1, E2.
  destruct (sentry_observe_step now src dp (n_guard n) Hsw Hnow) as (s' & Hobs & _). cbn [set_udp_counts n_guard]. rewrite Hobs.
  cbn [mbind option_bind]. cbn [set_guard set_udp_counts n_menu n_tcp n_postbox]. rewrite Hmenu. cbn [negb]. cbv iota. rewrite Hslot.
  destruct (Nat.eqb_spec slot LOCKBOX_CAPACITY) as [E|_]; [unfold LOCKBOX_CAPACITY in E; lia|].
  assert (slice (udp_with c sp dp data) 8 (Z.to_nat (u16 (8 + zlen data - UDP_HEADER_LEN))) = Some data) as ->.
  { unfold UDP_HEADER_LEN. rewrite u16_small by (unfold is_u16; lia). replace (8 + zlen data - 8) with (zlen data) by lia.
    pose proof (udp_with_zlen c sp dp data) as Hzl. rewrite slice_in_range by (unfold zlen in *; lia).
    unfold zlen. rewrite Nat2Z.id. change (Some (take (length data) data) = Some data). by rewrite firstn_all. }
  cbn [mbind option_bind]. eexists. split; [reflexivity|]. split; [|done]. cbn [set_postbox n_postbox].
  destruct (postbox_deposit_spec (n_postbox n) q slot Hpb src sp data) as [Hok Hinv].
  destruct (postbox_deposit slot src sp data (n_postbox n)) as [ok pb]. simpl in *. subst ok.
  rewrite bool_decide_true in Hinv by lia. destruct (Z.leb_spec (zlen data) 576); [|lia]. exact Hinv.
Qed.

(** A host that listens on UDP port 53. *)
Definition udp_listener : net unit :=
  let n := net_boot tt [2; 0; 0; 0; 0; 1] in
  let t := n_tcp n in
  mkNet (n_link n) (n_guard n)
    (Transport.mkTcp (lockbox_listen 53 17 (Transport.tp_lockbox t)).2 (Transport.tp_inbox t) (Transport.tp_way t)
       (Transport.tp_rapport t) (Transport.tp_sched t) (Transport.tp_why t))
    (snd (menu_open_port 53 17 (n_menu n))) (n_atlas n) (n_cookie n) (n_postbox n) (n_echo n) (n_mac n)
    (n_last_frame n) (n_ip_counts n) (n_tcp_counts n) (n_udp_counts n).

Lemma postcard_roundtrip_witness : exists n',
  postcard_handle 5 (udp_datagram 4000 53 [10;0;2;2] [10;0;2;15] [1;2;3]) [10;0;2;2] [10;0;2;15] udp_listener = Some n' /\
  postbox_inv (n_postbox n') (updq (fun _ => []) 0 [mkEnvelope [10;0;2;2] 4000 [1;2;3]]).
Proof.
  destruct (postcard_roundtrip 5 4000 53 [10;0;2;2] [10;0;2;15] [1;2;3] udp_listener (fun _ => []) 0) as (n' & H & Hq & _).
  1-3: byte_list. 1-2: reflexivity. 1-2: unfold is_u16; lia. 1: unfold zlen; simpl; lia.
  1: { apply Forall_replicate. apply hits_ok_zero. }
  1: lia. 1-2: vm_compute; reflexivity. 1: lia. 1: apply postbox_inv_init. 1: simpl; lia.
  exists n'. split; [exact H|exact Hq].
Defined.
