(* ===== verification/Conversation.v ===== *)
(** * Conversation, TCP segments

    [Networking/IPv4/Conversation/conversation.c]: checks incoming segments,
    drives Rapport, Scheduler, WayStation and Inbox with them, and builds and
    sends segments. *)

From S2P Require Import Prelude SlotTable GuestList Ids RateLimit Sentry Bailiff Rolodex Foyer Atlas.
From S2P Require Import LockBox Ring Inbox Why Scheduler Rapport Transport TcpInv Checksum Echo.
From S2P Require Import Compass.
Import Menu Atlas Inbox Why Lottery SynCookie.

Definition TCP_MAX_PAYLOAD : Z := 1460.
Definition TCP_MIN_HEADER : Z := 20.
Definition FLAG_FIN : Z := 0x1.
Definition FLAG_SYN : Z := 0x2.
Definition FLAG_RST : Z := 0x4.
Definition FLAG_ACK : Z := 0x10.

Inductive tcp_verdict :=
  TCP_ACCEPT | TCP_REJECT_TOO_SHORT | TCP_REJECT_BAD_HEADER_LENGTH | TCP_REJECT_LENGTH_MISMATCH
| TCP_REJECT_BAD_CHECKSUM | TCP_REJECT_NONSENSE_FLAGS.
#[export] Instance tcp_verdict_eq : EqDecision tcp_verdict.
Proof. solve_decision. Defined.

(** [flags & f] as a truth value. *)
Definition has_flag (f flags : Z) : bool := negb (Z.land flags f =? 0).

Definition flag_make_sense (flags : Z) : bool :=
  if has_flag FLAG_SYN flags && has_flag FLAG_FIN flags then false
  else if flags =? 0 then false else true.

Definition tcp_checksum_ok (tcp : list Z) (src_ip dst_ip : ip4) : bool :=
  fold_carry (sum_words (pseudo_sum src_ip dst_ip 6 (zlen tcp)) tcp) =? 0xFFFF.

(** [None] is a read outside the segment. *)
Definition conversation_check (payload : list Z) (src_ip dst_ip : ip4) : option tcp_verdict :=
  if zlen payload <? TCP_MIN_HEADER then Some TCP_REJECT_TOO_SHORT else
  b12 ← rd payload 12;
  let data_offset := Z.land (Z.shiftr b12 4) 0x0F in
  let header_len := u16 (data_offset * 4) in
  if (data_offset <? 5) || (zlen payload <? header_len) then Some TCP_REJECT_BAD_HEADER_LENGTH else
  flags ← rd payload 13;
  if negb (flag_make_sense flags) then Some TCP_REJECT_NONSENSE_FLAGS
  else if negb (tcp_checksum_ok payload src_ip dst_ip) then Some TCP_REJECT_BAD_CHECKSUM
  else Some TCP_ACCEPT.

(** ** Building segments *)

(** The segment with a given checksum field. *)
Definition tcp_with (csum local_port remote_port seq ack flags window : Z) (data : list Z) : list Z :=
  put16 local_port ++ put16 remote_port ++ put32 seq ++ put32 ack ++ [0x50; flags] ++ put16 window ++
  put16 csum ++ [0; 0] ++ data.

Definition tcp_segment (our_ip remote_ip : ip4) (local_port remote_port seq ack flags window : Z) (data : list Z) : list Z :=
  let tcp_sum := fold_carry (sum_words (pseudo_sum our_ip remote_ip 6 (20 + zlen data))
                               (tcp_with 0 local_port remote_port seq ack flags window data)) in
  tcp_with (complement tcp_sum) local_port remote_port seq ack flags window data.

(** The Ethernet frame around a segment. *)
Definition tcp_frame (dest_mac our_mac : list Z) (our_ip remote_ip : ip4) (segment : list Z) : list Z :=
  dest_mac ++ our_mac ++ [0x08; 0x00] ++ ip_header (u16 (20 + zlen segment)) 6 our_ip remote_ip ++ segment.

Section Send.
Context `{TxDriver D}.
Implicit Types (n : net D).

Definition net_why (now : Z) (conn_id : nat) (r : why_reason) n : net D :=
  set_tcp (set_tcp_why (snd (why_note now conn_id r (tp_why (n_tcp n)))) (n_tcp n)) n.

(** [Some id]: returned 1 with [*out_pass_id = id].  The frame built stays in
    [last_dispatched_frame]. *)
Definition conversation_dispatch (now : Z) (conn_id : nat) (flags seq ack : Z) (payload our_mac : list Z)
    (our_ip : ip4) n : option Z * net D :=
  if TCP_MAX_PAYLOAD <? zlen payload then (None, n)
  else if negb (flag_make_sense flags) then (None, n)
  else match lockbox_get_tuple conn_id (tp_lockbox (n_tcp n)) with
  | None => (None, n)
  | Some (local_port, remote_ip, remote_port) =>
      match atlas_lookup remote_ip (n_atlas n) with
      | (true, Some next_hop) =>
          let mac := rolodex_lookup next_hop (lk_rolodex (n_link n)) in
          let dest_mac := default (replicate 6 0) mac in
          let '(recv_window, t) := waystation_receive_window conn_id (n_tcp n) in
          let tcp := tcp_segment our_ip remote_ip local_port remote_port seq ack flags recv_window payload in
          let frame := tcp_frame dest_mac our_mac our_ip remote_ip tcp in
          let n := set_last_frame frame (set_tcp t n) in
          match mac with
          | None => let '(_, l) := foyer_queue now next_hop our_mac frame (n_link n) in (None, set_link l n)
          | Some _ =>
              let '(id, b) := bailiff_request_pass now frame (lk_bailiff (n_link n)) in
              (id, set_link (mkLink (lk_driver (n_link n)) b (lk_rolodex (n_link n)) (lk_foyer (n_link n))) n)
          end
      | _ => (None, n)
      end
  end.

(** [scheduler_track(conn_id, seq, seq_len, last_dispatched_frame, last_dispatched_len)] *)
Definition track_last (now : Z) (conn_id : nat) (seq seq_len : Z) n : net D :=
  let t := n_tcp n in
  set_tcp (set_tcp_sched (snd (scheduler_track now conn_id seq seq_len (n_last_frame n) (tp_sched t))) t) n.

Definition conversation_dispatch_syn_ack (now : Z) (conn_id : nat) (our_mac : list Z) (our_ip : ip4) n : option Z * net D :=
  let our_isn := rapport_get_our_isn conn_id (tp_rapport (n_tcp n)) in
  let ack := rapport_get_expected_seq conn_id (tp_rapport (n_tcp n)) in
  match conversation_dispatch now conn_id (Z.lor FLAG_SYN FLAG_ACK) our_isn ack [] our_mac our_ip n with
  | (None, n) => (None, n)
  | (Some id, n) => (Some id, track_last now conn_id our_isn 1 n)
  end.

Definition conversation_dispatch_data (now : Z) (conn_id : nat) (data our_mac : list Z) (our_ip : ip4) n : option Z * net D :=
  if (zlen data =? 0) || (TCP_MAX_PAYLOAD <? zlen data) then (None, n)
  else if negb (bool_decide (rapport_get_state conn_id (tp_rapport (n_tcp n)) = CONV_ESTABLISHED)) then (None, n)
  else if (scheduler_free_slots conn_id (tp_sched (n_tcp n)) =? 0)%nat then (None, net_why now conn_id WHY_SEND_WAITING_ACK n)
  else if negb (rapport_send_allowed conn_id (zlen data) (tp_rapport (n_tcp n)) (tp_sched (n_tcp n)))
  then (None, net_why now conn_id WHY_PEER_WINDOW_FULL n)
  else
    let seq := rapport_get_send_seq conn_id (tp_rapport (n_tcp n)) in
    let ack := rapport_get_expected_seq conn_id (tp_rapport (n_tcp n)) in
    match conversation_dispatch now conn_id FLAG_ACK seq ack data our_mac our_ip n with
    | (None, n) => (None, n)
    | (Some id, n) =>
        let n := track_last now conn_id seq (zlen data) n in
        (Some id, set_tcp (set_tcp_rapport (rapport_advance_send_seq conn_id (zlen data) (tp_rapport (n_tcp n))) (n_tcp n)) n)
    end.

Definition conversation_dispatch_syn (now : Z) (conn_id : nat) (our_isn : Z) (our_mac : list Z) (our_ip : ip4) n
    : option Z * net D :=
  match conversation_dispatch now conn_id FLAG_SYN our_isn 0 [] our_mac our_ip n with
  | (None, n) => (None, n)
  | (Some id, n) => (Some id, track_last now conn_id our_isn 1 n)
  end.

Definition conversation_dispatch_fin (now : Z) (conn_id : nat) (our_mac : list Z) (our_ip : ip4) n : option Z * net D :=
  let state := rapport_get_state conn_id (tp_rapport (n_tcp n)) in
  if negb (bool_decide (state = CONV_ESTABLISHED)) && negb (bool_decide (state = CONV_CLOSE_WAIT)) then (None, n)
  else if 0 <? scheduler_bytes_in_flight conn_id (tp_sched (n_tcp n)) then (None, net_why now conn_id WHY_CLOSE_WAITING_ACK n)
  else
    let seq := rapport_get_send_seq conn_id (tp_rapport (n_tcp n)) in
    let ack := rapport_get_expected_seq conn_id (tp_rapport (n_tcp n)) in
    match conversation_dispatch now conn_id (Z.lor FLAG_FIN FLAG_ACK) seq ack [] our_mac our_ip n with
    | (None, n) => (None, n)
    | (Some id, n) =>
        let n := track_last now conn_id seq 1 n in
        let r := rapport_advance_send_seq conn_id 1 (tp_rapport (n_tcp n)) in
        (Some id, set_tcp (set_tcp_rapport (rapport_initiate_close conn_id seq r) (n_tcp n)) n)
    end.

Definition conversation_dispatch_ack (now : Z) (conn_id : nat) (our_mac : list Z) (our_ip : ip4) n : option Z * net D :=
  let our_isn := rapport_get_our_isn conn_id (tp_rapport (n_tcp n)) in
  let ack := rapport_get_expected_seq conn_id (tp_rapport (n_tcp n)) in
  conversation_dispatch now conn_id FLAG_ACK our_isn ack [] our_mac our_ip n.

(** [bailiff_present_pass(pass_id, conversation_last_frame(), conversation_last_len())] *)
Definition present_last (now : Z) (pass_id : Z) n : bool * net D :=
  let l := n_link n in
  let '(ok, (b, d)) := bailiff_present_pass now pass_id (n_last_frame n) (lk_bailiff l, lk_driver l) in
  (ok, set_link (mkLink d b (lk_rolodex l) (lk_foyer l)) n).

Definition send_cookie_syn_ack (now : Z) (peer_ip : ip4) (peer_port : Z) (our_ip : ip4) (our_port cookie_isn peer_isn : Z)
    (our_mac : list Z) n : net D :=
  match rolodex_lookup peer_ip (lk_rolodex (n_link n)) with
  | None => n
  | Some dest_mac =>
      let tcp := tcp_segment our_ip peer_ip our_port peer_port cookie_isn (peer_isn +32 1)
                   (Z.lor FLAG_SYN FLAG_ACK) LOCKBOX_MAX_BUFFERED [] in
      let '(_, l) := send_with_pass now (tcp_frame dest_mac our_mac our_ip peer_ip tcp) (n_link n) in
      set_link l n
  end.

(** ** Incoming segments *)

Definition rd32 (payload : list Z) (i : Z) : option Z :=
  a ← rd payload i; b ← rd payload (i + 1); c ← rd payload (i + 2); d ← rd payload (i + 3);
  Some (be32 a b c d).

(** The branch for a SYN. *)
Definition handle_syn (now : Z) (src_ip : ip4) (src_port : Z) (dst_ip : ip4) (dst_port seq : Z) n : option (net D) :=
  '(banned, g) ← sentry_observe now src_ip dst_port (n_guard n);
  let n := set_guard g n in
  if banned : bool then Some n else
  let our_mac := n_mac n in
  if syncookie_should_activate (tp_lockbox (n_tcp n)) then
    let '(cookie_isn, c) := syncookie_generate now src_ip src_port dst_ip dst_port (n_cookie n) in
    Some (send_cookie_syn_ack now src_ip src_port dst_ip dst_port cookie_isn seq our_mac (set_cookie c n))
  else
    let t := n_tcp n in
    let '(_, out, x) := lockbox_claim dst_port src_ip src_port 6 (tp_lockbox t) in
    match out with
    | None => Some (set_tcp (set_tcp_inbox x (tp_inbox t) t) n)
    | Some conn_id =>
        let '(our_isn, lot) := lottery_draw_isn now dst_ip dst_port src_ip src_port (sc_lottery (n_cookie n)) in
        let n := set_cookie (mkCookie (sc_secret (n_cookie n)) (sc_secret_ready (n_cookie n)) lot) n in
        let n := set_tcp (set_tcp_rapport (rapport_on_syn conn_id seq our_isn (tp_rapport t)) (set_tcp_inbox x (tp_inbox t) t)) n in
        match conversation_dispatch_syn_ack now conn_id our_mac dst_ip n with
        | (Some id, n) => Some (snd (present_last now id n))
        | (None, n) => Some n
        end
    end.

(** [scheduler_ack] on the whole state. *)
Definition net_sched_ack (now : Z) (conn_id : nat) (ack : Z) n : net D :=
  let t := n_tcp n in
  let '(s, l, w) := scheduler_ack now conn_id ack (tp_sched t, n_link n, tp_why t) in
  set_link l (set_tcp (set_tcp_why w (set_tcp_sched s t)) n).

(** A segment out of sequence: an old copy, an early one to hold, or nothing. *)
Definition handle_unexpected (now : Z) (conn_id : nat) (seq flags ack_num : Z) (data : list Z) n : net D :=
  let n := if has_flag FLAG_ACK flags && (ack_num <=? rapport_get_send_seq conn_id (tp_rapport (n_tcp n)))
           then net_sched_ack now conn_id ack_num n else n in
  if rapport_seq_is_stale_retransmit conn_id seq (zlen data) (tp_rapport (n_tcp n))
  then net_why now conn_id WHY_STALE_RETRANSMIT n
  else
    let n := net_why now conn_id WHY_OUT_OF_ORDER n in
    if 0 <? zlen data
    then set_tcp (set_tcp_way (snd (waystation_hold conn_id seq data (tp_lockbox (n_tcp n)) (tp_way (n_tcp n)))) (n_tcp n)) n
    else n.

(** [if (data_len > 0 && inbox_deposit(...)) { rapport_advance_seq(...); waystation_drain(...); }] *)
Definition deposit_data (conn_id : nat) (data : list Z) n : option (net D) :=
  if 0 <? zlen data then
    let '(ok, x, ib) := inbox_deposit conn_id data (tp_lockbox (n_tcp n)) (tp_inbox (n_tcp n)) in
    let t := set_tcp_inbox x ib (n_tcp n) in
    if ok : bool then
      '(_, t) ← waystation_drain conn_id (set_tcp_rapport (rapport_advance_seq conn_id (zlen data) (tp_rapport t)) t);
      Some (set_tcp t n)
    else Some (set_tcp t n)
  else Some n.

(** The payload and the FIN of a segment in sequence. *)
Definition handle_data (now : Z) (conn_id : nat) (flags : Z) (data : list Z) n : option (net D) :=
  n ← deposit_data conn_id data n;
  Some (if has_flag FLAG_FIN flags
        then set_tcp (set_tcp_rapport (rapport_on_fin now conn_id (tp_rapport (n_tcp n))) (n_tcp n)) n else n).

(** A segment of a known connection, from the peer-window update on. *)
Definition handle_known (now : Z) (conn_id : nat) (payload : list Z) (seq flags : Z) n : option (net D) :=
  b12 ← rd payload 12;
  let header_len := u16 (Z.land (Z.shiftr b12 4) 0x0F * 4) in
  b14 ← rd payload 14; b15 ← rd payload 15;
  ack_num ← rd32 payload 8;
  data ← slice payload (Z.to_nat header_len) (Z.to_nat (u16 (zlen payload - header_len)));
  let n := set_tcp (set_tcp_rapport (rapport_set_peer_window conn_id (be16 b14 b15) (tp_rapport (n_tcp n))) (n_tcp n)) n in
  if negb (rapport_seq_expected conn_id seq (tp_rapport (n_tcp n)))
  then Some (handle_unexpected now conn_id seq flags ack_num data n)
  else if has_flag FLAG_RST flags then Some (set_tcp (tcp_on_rst conn_id (n_tcp n)) n)
  else
    let n := if has_flag FLAG_ACK flags then
               net_sched_ack now conn_id ack_num
                 (set_tcp (set_conns (rapport_on_ack now conn_id ack_num (tcp_conns (n_tcp n))) (n_tcp n)) n)
             else n in
    handle_data now conn_id flags data n.

(** A segment that answers our own SYN. *)
Definition handle_syn_sent (conn_id : nat) (payload : list Z) (seq flags : Z) n : option (net D) :=
  if has_flag FLAG_RST flags then Some (set_tcp (tcp_on_rst conn_id (n_tcp n)) n)
  else if has_flag FLAG_SYN flags && has_flag FLAG_ACK flags then
    ack_num ← rd32 payload 8;
    Some (set_tcp (set_tcp_rapport (snd (rapport_on_syn_ack conn_id seq ack_num (tp_rapport (n_tcp n)))) (n_tcp n)) n)
  else Some n.

(** A segment of no known connection may complete a cookie handshake. *)
Definition handle_unknown (now : Z) (payload : list Z) (src_ip : ip4) (src_port : Z) (dst_ip : ip4) (dst_port seq flags : Z) n
    : option (net D) :=
  if negb (has_flag FLAG_ACK flags && negb (has_flag FLAG_SYN flags)) then Some n else
  ack_num ← rd32 payload 8;
  let '(valid, c) := syncookie_validate now src_ip src_port dst_ip dst_port ack_num (n_cookie n) in
  let n := set_cookie c n in
  if negb valid then Some n else
  let t := n_tcp n in
  let '(_, out, x) := lockbox_claim dst_port src_ip src_port 6 (tp_lockbox t) in
  let t := set_tcp_inbox x (tp_inbox t) t in
  match out with
  | None => Some (set_tcp t n)
  | Some conn_id =>
      let t := set_tcp_rapport (rapport_on_syn conn_id (seq -32 1) (ack_num -32 1) (tp_rapport t)) t in
      let t := set_conns (rapport_on_ack now conn_id ack_num (tcp_conns t)) t in
      handle_known now conn_id payload seq flags (set_tcp t n)
  end.

Definition conversation_handle (now : Z) (payload : list Z) (src_ip dst_ip : ip4) n : option (net D) :=
  v ← conversation_check payload src_ip dst_ip;
  if negb (bool_decide (v = TCP_ACCEPT)) then Some (set_tcp_counts (count_reject (n_tcp_counts n)) n) else
  let n := set_tcp_counts (count_accept (n_tcp_counts n)) n in
  b0 ← rd payload 0; b1 ← rd payload 1; b2 ← rd payload 2; b3 ← rd payload 3;
  let src_port := be16 b0 b1 in
  let dst_port := be16 b2 b3 in
  flags ← rd payload 13;
  if negb (menu_is_open dst_port 6 (n_menu n)) then Some n
  else
    let x := tp_lockbox (n_tcp n) in
    if (lockbox_find_listener dst_port 6 x =? LOCKBOX_CAPACITY)%nat then Some n else
    seq ← rd32 payload 4;
    let existing_conn := lockbox_find_connection dst_port src_ip src_port 6 x in
    if negb (existing_conn =? LOCKBOX_CAPACITY)%nat &&
       bool_decide (rapport_get_state existing_conn (tp_rapport (n_tcp n)) = CONV_SYN_SENT)
    then handle_syn_sent existing_conn payload seq flags n
    else if has_flag FLAG_SYN flags then handle_syn now src_ip src_port dst_ip dst_port seq n
    else if (existing_conn =? LOCKBOX_CAPACITY)%nat
    then handle_unknown now payload src_ip src_port dst_ip dst_port seq flags n
    else handle_known now existing_conn payload seq flags n.
End Send.

Definition tcp_accepted_count {D} (n : net D) : Z := fst (n_tcp_counts n).
Definition tcp_rejected_count {D} (n : net D) : Z := snd (n_tcp_counts n).

#[global] Arguments conversation_dispatch : simpl never.
#[global] Arguments conversation_check : simpl never.
#[global] Arguments tcp_segment : simpl never.

(** ** Segments round trip *)

Lemma tcp_with_zlen c lp rp seq ack flags win data : zlen (tcp_with c lp rp seq ack flags win data) = 20 + zlen data.
Proof. unfold tcp_with, zlen. rewrite !length_app. simpl. lia. Qed.

Lemma tcp_with_bytes c lp rp seq ack flags win data : is_u8 flags -> bytes data ->
  bytes (tcp_with c lp rp seq ack flags win data).
Proof.
  intros Hf Hd. unfold tcp_with. rewrite !bytes_app. repeat (split; [first [solve [auto with aevros] | byte_list]|]). done.
Qed.

Lemma tcp_with_total c lp rp seq ack flags win data : is_u16 c ->
  words_total (tcp_with c lp rp seq ack flags win data) = words_total (tcp_with 0 lp rp seq ack flags win data) + c.
Proof.
  apply (words_total_field (put16 lp ++ put16 rp ++ put32 seq ++ put32 ack ++ [0x50; flags] ++ put16 win)).
  by apply Nat.even_spec.
Qed.

Lemma tcp_segment_checks src dst lp rp seq ack flags win data :
  bytes src -> bytes dst -> bytes data -> length src = 4%nat -> length dst = 4%nat -> is_u8 flags ->
  zlen data <= TCP_MAX_PAYLOAD ->
  exists c, is_u16 c /\ tcp_segment src dst lp rp seq ack flags win data = tcp_with c lp rp seq ack flags win data /\
    tcp_checksum_ok (tcp_with c lp rp seq ack flags win data) src dst = true.
Proof.
  intros Hs Hd Hb Hls Hld Hf Hz. unfold tcp_segment, tcp_checksum_ok, TCP_MAX_PAYLOAD in *.
  assert (0 <= zlen data) by (unfold zlen; lia).
  assert (Nat.Even (length src)) as He by (rewrite Hls; by apply Nat.even_spec).
  assert (forall c, sum_words (pseudo_sum src dst 6 (20 + zlen data)) (tcp_with c lp rp seq ack flags win data) =
      words_total (src ++ dst) + 6 + (20 + zlen data) + words_total (tcp_with c lp rp seq ack flags win data) /\
      0 <= words_total (src ++ dst) + 6 + (20 + zlen data) + words_total (tcp_with c lp rp seq ack flags win data) < 4294967296) as Hsum.
  { intros c. apply pseudo_sum_total; auto using tcp_with_bytes; rewrite ?tcp_with_zlen; unfold is_u8, is_u16; lia. }
  destruct (Hsum 0) as [E0 R0]. rewrite E0, fold_carry_spec by (unfold is_u32; lia).
  set (S := words_total (src ++ dst) + 6 + (20 + zlen data) + words_total (tcp_with 0 lp rp seq ack flags win data)) in *.
  assert (is_u16 (complement (fold16 S))) as Hcu by (unfold complement; apply u16_range).
  exists (complement (fold16 S)). split; [done|]. split; [done|]. rewrite tcp_with_zlen.
  destruct (Hsum (complement (fold16 S))) as [E R]. rewrite E, fold_carry_spec by (unfold is_u32; lia).
  rewrite tcp_with_total by done. apply Z.eqb_eq. rewrite <- (fold16_complement S) by lia. f_equal. unfold S. lia.
Qed.

(** What a receiver reads from the header of a segment. *)
Record tcp_reads (seg : list Z) (sp dp seq ack flags win : Z) (data : list Z) : Prop := {
  tr_ports : exists b0 b1 b2 b3, rd seg 0 = Some b0 /\ rd seg 1 = Some b1 /\ rd seg 2 = Some b2 /\ rd seg 3 = Some b3 /\
    be16 b0 b1 = sp /\ be16 b2 b3 = dp;
  tr_seq : rd32 seg 4 = Some seq;
  tr_ack : rd32 seg 8 = Some ack;
  tr_flags : rd seg 13 = Some flags;
  tr_win : exists b14 b15, rd seg 14 = Some b14 /\ rd seg 15 = Some b15 /\ be16 b14 b15 = win;
  tr_data : exists b12, rd seg 12 = Some b12 /\
    slice seg (Z.to_nat (u16 (Z.land (Z.shiftr b12 4) 0x0F * 4)))
      (Z.to_nat (u16 (zlen seg - u16 (Z.land (Z.shiftr b12 4) 0x0F * 4)))) = Some data }.

Lemma tcp_with_reads c lp rp seq ack flags win data :
  is_u16 lp -> is_u16 rp -> is_u32 seq -> is_u32 ack -> is_u16 win -> zlen data <= TCP_MAX_PAYLOAD ->
  tcp_reads (tcp_with c lp rp seq ack flags win data) lp rp seq ack flags win data.
Proof.
  intros Hl Hr Hs Ha Hw Hz. unfold TCP_MAX_PAYLOAD in Hz. split.
  - do 4 eexists. do 4 (split; [reflexivity|]). split; by apply be16_put16.
  - unfold rd32. change (Some (be32 (u8 (Z.shiftr seq 24)) (u8 (Z.shiftr seq 16)) (u8 (Z.shiftr seq 8)) (u8 seq)) = Some seq).
    by rewrite be32_put32.
  - unfold rd32. change (Some (be32 (u8 (Z.shiftr ack 24)) (u8 (Z.shiftr ack 16)) (u8 (Z.shiftr ack 8)) (u8 ack)) = Some ack).
    by rewrite be32_put32.
  - reflexivity.
  - do 2 eexists. do 2 (split; [reflexivity|]). by apply be16_put16.
  - exists 0x50. split; [reflexivity|]. change (u16 (Z.land (Z.shiftr 80 4) 15 * 4)) with 20.
    rewrite tcp_with_zlen. replace (20 + zlen data - 20) with (zlen data) by lia.
    assert (0 <= zlen data) by (unfold zlen; lia). rewrite u16_small by (unfold is_u16; lia).
    pose proof (tcp_with_zlen c lp rp seq ack flags win data) as Hl'. rewrite slice_in_range by (unfold zlen in *; lia).
    unfold zlen. rewrite Nat2Z.id. change (Some (take (length data) data) = Some data). by rewrite firstn_all.
Qed.

Lemma conversation_check_ok seg src dst : 20 <= zlen seg ->
  (exists b12, rd seg 12 = Some b12 /\ 5 <= Z.land (Z.shiftr b12 4) 0x0F /\ u16 (Z.land (Z.shiftr b12 4) 0x0F * 4) <= zlen seg) ->
  (exists flags, rd seg 13 = Some flags /\ flag_make_sense flags = true) ->
  tcp_checksum_ok seg src dst = true -> conversation_check seg src dst = Some TCP_ACCEPT.
Proof.
  intros Hl (b12 & R12 & H1 & H2) (flags & R13 & H3) H4. unfold conversation_check, TCP_MIN_HEADER.
  destruct (Z.ltb_spec (zlen seg) 20); [lia|]. rewrite R12, R13. cbn [mbind option_bind].
  destruct (Z.ltb_spec (Z.land (Z.shiftr b12 4) 15) 5), (Z.ltb_spec (zlen seg) (u16 (Z.land (Z.shiftr b12 4) 15 * 4)));
    try lia. cbn [orb]. cbv iota. by rewrite H3, H4.
Qed.

Lemma tcp_segment_accepted src dst lp rp seq ack flags win data :
  bytes src -> bytes dst -> bytes data -> length src = 4%nat -> length dst = 4%nat -> is_u8 flags ->
  zlen data <= TCP_MAX_PAYLOAD -> flag_make_sense flags = true ->
  conversation_check (tcp_segment src dst lp rp seq ack flags win data) src dst = Some TCP_ACCEPT.
Proof.
  intros Hs Hd Hb Hls Hld Hf Hz Hm.
  destruct (tcp_segment_checks src dst lp rp seq ack flags win data) as (c & Hc & -> & Hck); [done..|].
  assert (0 <= zlen data) by (unfold zlen; lia).
  apply conversation_check_ok; [rewrite tcp_with_zlen; lia| | |done].
  - exists 0x50. split; [reflexivity|]. rewrite tcp_with_zlen. split; [done|]. change (u16 _) with 20. lia.
  - exists flags. split; [reflexivity|done].
Qed.

Lemma tcp_checked src dst lp rp seq ack flags win data :
  bytes src -> bytes dst -> bytes data -> length src = 4%nat -> length dst = 4%nat -> is_u8 flags ->
  zlen data <= TCP_MAX_PAYLOAD -> flag_make_sense flags = true ->
  is_u16 lp -> is_u16 rp -> is_u32 seq -> is_u32 ack -> is_u16 win ->
  conversation_check (tcp_segment src dst lp rp seq ack flags win data) src dst = Some TCP_ACCEPT /\
  tcp_reads (tcp_segment src dst lp rp seq ack flags win data) lp rp seq ack flags win data.
Proof.
  intros. split; [by apply tcp_segment_accepted|].
  destruct (tcp_segment_checks src dst lp rp seq ack flags win data) as (c & Hc & -> & Hck); [done..|].
  by apply tcp_with_reads.
Qed.

(** TCP segments round trip.  A segment built for any ports, numbers, window,
    sensible flags and up to 1460 bytes of data is accepted by the receiver's
    check (header length, flags and checksum over the pseudo-header), and the
    receiver reads back exactly the ports, the sequence and acknowledgement
    numbers, the flags, the window and the data. *)
Lemma tcp_segment_roundtrip src dst lp rp seq ack flags win data :
  bytes src -> bytes dst -> bytes data -> length src = 4%nat -> length dst = 4%nat -> is_u8 flags ->
  zlen data <= TCP_MAX_PAYLOAD -> flag_make_sense flags = true ->
  is_u16 lp -> is_u16 rp -> is_u32 seq -> is_u32 ack -> is_u16 win ->
  conversation_check (tcp_segment src dst lp rp seq ack flags win data) src dst = Some TCP_ACCEPT /\
  tcp_reads (tcp_segment src dst lp rp seq ack flags win data) lp rp seq ack flags win data.
Proof. apply tcp_checked. Qed.

Lemma tcp_segment_roundtrip_witness :
  conversation_check (tcp_segment [10;0;2;2] [10;0;2;15] 4000 80 1 2 0x10 4096 [1;2;3]) [10;0;2;2] [10;0;2;15] = Some TCP_ACCEPT.
Proof.
  refine (proj1 (tcp_segment_roundtrip [10;0;2;2] [10;0;2;15] 4000 80 1 2 0x10 4096 [1;2;3] _ _ _ _ _ _ _ _ _ _ _ _ _)).
  1-3: byte_list. 1-2: reflexivity. 1: unfold is_u8; lia. 1: unfold zlen, TCP_MAX_PAYLOAD; simpl; lia. 1: reflexivity.
  all: unfold is_u16, is_u32; lia.
Defined.

(** ** Every segment leaves the stack consistent *)

Section Safe.
Context `{TxDriver D}.
Implicit Types (n : net D).

Lemma dispatch_keeps k id q now flags seq ack payload our_mac our_ip n : tcp_inv k (n_tcp n) q ->
  keeps k id (n_tcp n) q (n_tcp (snd (conversation_dispatch now id flags seq ack payload our_mac our_ip n))) q.
Proof.
  intros Hinv. pose proof (keeps_refl k id _ q Hinv) as Hrefl. unfold conversation_dispatch.
  destruct (_ <? _); [done|]. destruct (negb _); [done|].
  destruct (lockbox_get_tuple id _) as [[[lp rip] rp]|]; [|done].
  destruct (atlas_lookup rip (n_atlas n)) as [[] [hop|]]; try done.
  pose proof (keeps_window k id _ q Hinv) as Hw. destruct (waystation_receive_window id (n_tcp n)) as [win t].
  destruct Hw as [_ Hw]. destruct (rolodex_lookup hop _).
  - by destruct (bailiff_request_pass _ _ _).
  - by destruct (foyer_queue _ _ _ _ _).
Qed.

Lemma track_last_keeps k id q now seq m n : tcp_inv k (n_tcp n) q ->
  keeps k id (n_tcp n) q (n_tcp (track_last now id seq m n)) q.
Proof. intros Hinv. by apply keeps_track. Qed.

Lemma present_last_tcp now pass n : n_tcp (snd (present_last now pass n)) = n_tcp n.
Proof. unfold present_last. by destruct (bailiff_present_pass _ _ _ _) as [ok [b d]]. Qed.

Lemma dispatch_syn_ack_keeps k id q now our_mac our_ip n : tcp_inv k (n_tcp n) q ->
  keeps k id (n_tcp n) q (n_tcp (snd (conversation_dispatch_syn_ack now id our_mac our_ip n))) q.
Proof.
  intros Hinv. unfold conversation_dispatch_syn_ack.
  pose proof (dispatch_keeps k id q now (Z.lor FLAG_SYN FLAG_ACK) (rapport_get_our_isn id (tp_rapport (n_tcp n)))
    (rapport_get_expected_seq id (tp_rapport (n_tcp n))) [] our_mac our_ip n Hinv) as Hd.
  destruct (conversation_dispatch _ _ _ _ _ _ _ _ n) as [[pass|] n1]; simpl in *; [|done].
  eapply keeps_trans; [exact Hd|]. by apply track_last_keeps.
Qed.

Lemma net_sched_ack_keeps k id q now ack n : tcp_inv k (n_tcp n) q ->
  keeps k id (n_tcp n) q (n_tcp (net_sched_ack now id ack n)) q.
Proof.
  intros Hinv. unfold net_sched_ack.
  pose proof (scheduler_ack_wf now id ack (tp_sched (n_tcp n)) (n_link n) (tp_why (n_tcp n)) (ti_sched _ _ _ Hinv)) as Hw.
  pose proof (fun j => scheduler_ack_other now id ack (tp_sched (n_tcp n)) (n_link n) (tp_why (n_tcp n)) j) as Ho.
  destruct (scheduler_ack now id ack _) as [[s l] w]. simpl in *.
  eapply keeps_trans; [by apply (keeps_sched k id _ q Hinv s)|]. intros H1. by apply keeps_why.
Qed.

Lemma net_why_keeps k id q now reason n : tcp_inv k (n_tcp n) q -> keeps k id (n_tcp n) q (n_tcp (net_why now id reason n)) q.
Proof. intros Hinv. by apply keeps_why. Qed.

Lemma handle_unexpected_keeps k id q now seq flags ack data n : tcp_inv k (n_tcp n) q ->
  keeps k id (n_tcp n) q (n_tcp (handle_unexpected now id seq flags ack data n)) q.
Proof.
  intros Hinv. unfold handle_unexpected. set (n1 := if has_flag FLAG_ACK flags && _ then _ else n).
  assert (keeps k id (n_tcp n) q (n_tcp n1) q) as H1.
  { unfold n1. destruct (_ && _); [by apply net_sched_ack_keeps|by apply keeps_refl]. }
  eapply keeps_trans; [exact H1|]. intros Hi1. destruct (rapport_seq_is_stale_retransmit _ _ _ _); [by apply net_why_keeps|].
  eapply keeps_trans; [by apply (net_why_keeps k id q now WHY_OUT_OF_ORDER n1)|]. intros Hi2.
  destruct (0 <? zlen data); [by apply keeps_hold|by apply keeps_refl].
Qed.

(** The data of a segment is taken exactly when the queue has room. *)
Definition takes (id : nat) (q : nat -> list Z) (data : list Z) n : bool :=
  bool_decide (0 < zlen data /\ held (tp_lockbox (n_tcp n)) id = true /\ zlen (q id) + zlen data <= 4096).

Lemma keeps_ext k id t q t' q1 q2 : (forall j, q1 j = q2 j) -> keeps k id t q t' q1 -> keeps k id t q t' q2.
Proof.
  intros E [[I1 I2 I3 I4] O1]. split; [split; [by eapply inbox_inv_ext|done..]|].
  intros j Hj. rewrite <- E. by apply O1.
Qed.

Lemma deposit_data_keeps k id q data n : tcp_inv k (n_tcp n) q -> is_u16 (zlen data) ->
  exists n' ds, deposit_data id data n = Some n' /\
    if takes id q data n then
      keeps k id (n_tcp n) q (n_tcp n') (upd q id (q id ++ data ++ payload_of ds)) /\
      (is_Some (tp_rapport (n_tcp n) !! id) ->
       contiguous (rapport_get_expected_seq id (tp_rapport (n_tcp n)) +32 zlen data) ds
         (rapport_get_expected_seq id (tp_rapport (n_tcp n')))) /\
      releases id (n_tcp n) (n_tcp n') (q id ++ data) ds
    else keeps k id (n_tcp n) q (n_tcp n') q /\ tp_rapport (n_tcp n') = tp_rapport (n_tcp n).
Proof.
  intros Hinv Hlen. unfold deposit_data, takes. destruct (Z.ltb_spec 0 (zlen data)) as [Hpos|Hz].
  2:{ exists n, []. rewrite bool_decide_false by lia. split; [done|]. split; [by apply keeps_refl|done]. }
  pose proof (keeps_deposit k id _ q Hinv data Hlen) as Hd. pose proof (inbox_deposit_box id data (tp_lockbox (n_tcp n)) (tp_inbox (n_tcp n))) as Hbox. pose proof (inbox_deposit_gen id data (tp_lockbox (n_tcp n)) (tp_inbox (n_tcp n))) as Hgen. destruct (inbox_deposit _ _ _ _) as [[ok x] ib].
  destruct Hbox as [Hbox _]. destruct Hd as [Hok Hd]. destruct ok; symmetry in Hok; breflect.
  2:{ eexists _, []. rewrite bool_decide_false by tauto. split; [reflexivity|]. split; [exact Hd|done]. }
  rewrite bool_decide_true by tauto.
  pose proof Hd as [Hi1 _]. pose proof (keeps_rapport k id _ _ Hi1 (fun c => mkConv (cv_status c) (cv_expected_seq c +32 zlen data)
    (cv_our_isn c) (cv_our_fin_seq c) (cv_time_wait_started c) (cv_peer_window c) (cv_send_seq c)) ltac:(done)) as Hk2.
  pose proof Hk2 as [Hi2 _]. destruct (keeps_drain k id _ _ Hi2) as (m & t' & ds & Hdr & Hcont & Hrel & Hk3); [simpl; rewrite Hbox; tauto|].
  unfold rapport_advance_seq. rewrite Hdr. cbn [mbind option_bind]. exists (set_tcp t' n), ds. split; [done|]. split.
  - eapply (keeps_ext _ _ _ _ _ (upd (upd q id (q id ++ data)) id (upd q id (q id ++ data) id ++ payload_of ds))).
    { intros j. unfold upd. case_decide; [|done]. rewrite decide_True by done. by rewrite app_assoc. }
    eapply keeps_trans; [exact Hd|]. intros _. eapply keeps_trans; [exact Hk2|]. intros _. exact Hk3.
  - split; [intros [c Hc]; rewrite <- (expected_advance id (zlen data) (tp_rapport (n_tcp n)) c Hc); exact Hcont|].
    unfold upd in Hrel. rewrite decide_True in Hrel by done. unfold releases, held_for in *. simpl in Hrel |- *. by rewrite Hgen in Hrel.
Qed.

Lemma handle_data_keeps k id q now flags data n : tcp_inv k (n_tcp n) q -> is_u16 (zlen data) ->
  exists n' ds, handle_data now id flags data n = Some n' /\
    keeps k id (n_tcp n) q (n_tcp n') (if takes id q data n then upd q id (q id ++ data ++ payload_of ds) else q).
Proof.
  intros Hinv Hlen. destruct (deposit_data_keeps k id q data n Hinv Hlen) as (n1 & ds & E & Hk).
  unfold handle_data. rewrite E. cbn [mbind option_bind]. eexists _, ds. split; [reflexivity|].
  assert (keeps k id (n_tcp n) q (n_tcp n1) (if takes id q data n then upd q id (q id ++ data ++ payload_of ds) else q)) as Hk1.
  { by destruct (takes id q data n); destruct Hk. }
  destruct (has_flag FLAG_FIN flags); [|done]. eapply keeps_trans; [exact Hk1|]. intros Hi.
  apply (keeps_rapport k id _ _ Hi (conv_on_fin now)). intros c _ Hcl. unfold conv_on_fin. by rewrite Hcl.
Qed.

Lemma net_on_ack_keeps k id q now ack n : tcp_inv k (n_tcp n) q ->
  keeps k id (n_tcp n) q (n_tcp (net_sched_ack now id ack
    (set_tcp (set_conns (rapport_on_ack now id ack (tcp_conns (n_tcp n))) (n_tcp n)) n))) q.
Proof.
  intros Hinv. eapply keeps_trans; [by apply (keeps_on_ack k id _ q Hinv now ack)|]. intros Hi.
  by apply (net_sched_ack_keeps k id q now ack (set_tcp (set_conns (rapport_on_ack now id ack (tcp_conns (n_tcp n))) (n_tcp n)) n)).
Qed.

(** The header fields a segment that passed the check has. *)
Definition seg_fits (payload : list Z) : Prop :=
  20 <= zlen payload < 65536 /\
  u16 (Z.land (Z.shiftr (default 0 (payload !! 12%nat)) 4) 0x0F * 4) <= zlen payload.

Lemma rd32_fits payload i : 0 <= i -> i + 4 <= zlen payload -> exists v, rd32 payload i = Some v.
Proof.
  intros H0 Hi. unfold rd32.
  destruct (rd_in_range payload i) as [a ->]; [lia|]. destruct (rd_in_range payload (i + 1)) as [b ->]; [lia|].
  destruct (rd_in_range payload (i + 2)) as [c ->]; [lia|]. destruct (rd_in_range payload (i + 3)) as [d ->]; [lia|].
  cbn [mbind option_bind]. eauto.
Qed.

Lemma handle_known_keeps k id q now payload seq flags n : tcp_inv k (n_tcp n) q -> seg_fits payload ->
  exists n' more, handle_known now id payload seq flags n = Some n' /\
    keeps k id (n_tcp n) q (n_tcp n') (upd q id (q id ++ more)).
Proof.
  intros Hinv [Hl Hh]. unfold handle_known. assert (20 <= length payload)%nat as Hln by (unfold zlen in Hl; lia).
  rewrite (rd_at payload 12 12), (rd_at payload 14 14), (rd_at payload 15 15) by lia. cbn [mbind option_bind].
  destruct (rd32_fits payload 8) as [ack ->]; [lia|lia|]. cbn [mbind option_bind].
  set (hl := u16 (Z.land (Z.shiftr (default 0 (payload !! 12%nat)) 4) 15 * 4)) in *.
  assert (0 <= hl) as H0 by (unfold hl, u16; lia_mod).
  rewrite (u16_small (zlen payload - hl)) by (unfold is_u16; lia). rewrite slice_in_range by (unfold zlen in *; lia).
  cbn [mbind option_bind]. set (data := take _ _).
  assert (is_u16 (zlen data)) as Hdl by (unfold is_u16, data, zlen in *; rewrite length_take, length_drop; lia).
  set (win := be16 _ _). set (n1 := set_tcp _ n).
  assert (keeps k id (n_tcp n) q (n_tcp n1) q) as H1 by (by apply (keeps_rapport k id _ q Hinv)).
  assert (forall n', keeps k id (n_tcp n1) q (n_tcp n') q -> keeps k id (n_tcp n) q (n_tcp n') (upd q id (q id ++ []))) as Hnil.
  { intros n' Hk. rewrite app_nil_r. eapply keeps_ext; [intros j; symmetry; apply upd_id|]. by eapply keeps_trans. }
  pose proof H1 as [Hi1 _].
  destruct (negb (rapport_seq_expected id seq _)).
  { eexists _, []. split; [reflexivity|]. apply Hnil. by apply handle_unexpected_keeps. }
  destruct (has_flag FLAG_RST flags).
  { eexists _, []. split; [reflexivity|]. apply Hnil. by apply keeps_on_rst. }
  set (n2 := if has_flag FLAG_ACK flags then _ else n1).
  assert (keeps k id (n_tcp n1) q (n_tcp n2) q) as H2.
  { unfold n2. destruct (has_flag FLAG_ACK flags); [by apply net_on_ack_keeps|by apply keeps_refl]. }
  pose proof H2 as [Hi2 _]. destruct (handle_data_keeps k id q now flags data n2 Hi2 Hdl) as (n3 & ds & E & H3).
  destruct (takes id q data n2).
  - exists n3, (data ++ payload_of ds). split; [exact E|]. eapply keeps_trans; [exact H1|]. intros _. by eapply keeps_trans.
  - exists n3, []. split; [exact E|]. apply Hnil. by eapply keeps_trans.
Qed.

(** The connection a segment belongs to, by its ports and its source. *)
Definition seg_conn (payload : list Z) (src : ip4) n : nat :=
  lockbox_find_connection (be16 (default 0 (payload !! 2%nat)) (default 0 (payload !! 3%nat))) src
    (be16 (default 0 (payload !! 0%nat)) (default 0 (payload !! 1%nat))) 6 (tp_lockbox (n_tcp n)).

(** What one segment may do: the invariant stays, no unread byte is lost or
    moved, and connections that are open are untouched except its own. *)
Definition segment_ok (k : Z) (q : nat -> list Z) (own : nat) n n' : Prop :=
  exists id q', keeps (k + 1) id (n_tcp n) q (n_tcp n') q' /\
    (held (tp_lockbox (n_tcp n)) id = true -> id = own /\ exists more, q' id = q id ++ more) /\
    sentry_wf (gd_sentry (n_guard n')).

Lemma tcp_inv_mono k t q : tcp_inv k t q -> tcp_inv (k + 1) t q.
Proof.
  intros [[I1 I2 I3 I4] ? ? ?]. split; [split; [done|done| |done]|done..].
  intros i s e Hs He. destruct (I3 i s e Hs He) as (? & ? & ?). split; [done|]. split; [done|lia].
Qed.

Lemma segment_ok_own k q own n n' q' : sentry_wf (gd_sentry (n_guard n')) ->
  keeps k own (n_tcp n) q (n_tcp n') q' -> (exists more, q' own = q own ++ more) -> segment_ok k q own n n'.
Proof. intros Hs [Hi Ho] Hm. exists own, q'. split; [split; [by apply tcp_inv_mono|done]|]. split; [by intros _|done]. Qed.

Lemma segment_ok_same k q own n n' : sentry_wf (gd_sentry (n_guard n')) ->
  tcp_inv k (n_tcp n) q -> n_tcp n' = n_tcp n -> segment_ok k q own n n'.
Proof.
  intros Hs Hi E. apply (segment_ok_own k q own n n' q); [done| |exists []; by rewrite app_nil_r].
  rewrite E. by apply keeps_refl.
Qed.

Lemma dispatch_guard now id flags seq ack payload our_mac our_ip n :
  n_guard (snd (conversation_dispatch now id flags seq ack payload our_mac our_ip n)) = n_guard n.
Proof.
  unfold conversation_dispatch. destruct (_ <? _); [done|]. destruct (negb _); [done|].
  destruct (lockbox_get_tuple id _) as [[[lp rip] rp]|]; [|done].
  destruct (atlas_lookup rip (n_atlas n)) as [[] [hop|]]; try done.
  destruct (waystation_receive_window id (n_tcp n)) as [win t]. destruct (rolodex_lookup hop _).
  - by destruct (bailiff_request_pass _ _ _).
  - by destruct (foyer_queue _ _ _ _ _).
Qed.

Lemma dispatch_syn_ack_guard now id our_mac our_ip n :
  n_guard (snd (conversation_dispatch_syn_ack now id our_mac our_ip n)) = n_guard n.
Proof.
  unfold conversation_dispatch_syn_ack.
  pose proof (dispatch_guard now id (Z.lor FLAG_SYN FLAG_ACK) (rapport_get_our_isn id (tp_rapport (n_tcp n)))
    (rapport_get_expected_seq id (tp_rapport (n_tcp n))) [] our_mac our_ip n) as Hd.
  by destruct (conversation_dispatch _ _ _ _ _ _ _ _ n) as [[pass|] n1].
Qed.

Lemma present_last_guard now pass n : n_guard (snd (present_last now pass n)) = n_guard n.
Proof. unfold present_last. by destruct (bailiff_present_pass _ _ _ _) as [ok [b d]]. Qed.

Lemma handle_syn_ok k q own now src sp dst dp seq n : tcp_inv k (n_tcp n) q -> k < 4294967295 ->
  sentry_wf (gd_sentry (n_guard n)) -> now < 0xFFFFFFFF ->
  exists n', handle_syn now src sp dst dp seq n = Some n' /\ segment_ok k q own n n'.
Proof.
  intros Hinv Hk Hs Hnow. unfold handle_syn.
  destruct (sentry_observe_step now src dp (n_guard n) Hs Hnow) as (s' & -> & Hs' & _). cbn [mbind option_bind]. cbv iota.
  set (n1 := set_guard (set_sentry s' (n_guard n)) n). change (n_tcp n) with (n_tcp n1) in Hinv.
  assert (forall m, segment_ok k q own n1 m -> segment_ok k q own n m) as Hback by done.
  destruct (syncookie_should_activate _).
  { destruct (syncookie_generate _ _ _ _ _ _) as [isn c]. eexists. split; [reflexivity|]. apply Hback.
    unfold send_cookie_syn_ack. destruct (rolodex_lookup src _); [|by apply segment_ok_same].
    destruct (send_with_pass _ _ _) as [ok l1]. by apply segment_ok_same. }
  assert (forall isn, forall c, cv_status c = CONV_CLOSED -> cv_status (conv_on_syn seq isn c) <> CONV_CLOSED) as Hsyn by done.
  destruct (lottery_draw_isn now dst dp src sp (sc_lottery (n_cookie n1))) as [isn lot].
  pose proof (keeps_open k (n_tcp n1) q dp src sp (conv_on_syn seq isn) Hinv Hk (Hsyn isn)) as Ho.
  destruct (lockbox_claim dp src sp 6 (tp_lockbox (n_tcp n1))) as [[res [id|]] x].
  2:{ eexists. split; [reflexivity|]. exists own, q. split; [apply (Ho own)|]. split; [|done].
      intros _. split; [done|]. exists []. by rewrite app_nil_r. }
  destruct Ho as (Hfree & _ & _ & Hopen).
  change (held (tp_lockbox (n_tcp n)) id = false) in Hfree. set (n2 := set_tcp _ _).
  assert (keeps (k + 1) id (n_tcp n) q (n_tcp n2) (upd q id [])) as H2 by exact Hopen. pose proof H2 as [Hi2 _].
  pose proof (dispatch_syn_ack_keeps (k + 1) id (upd q id []) now (n_mac n1) dst n2 Hi2) as Hd.
  pose proof (dispatch_syn_ack_guard now id (n_mac n1) dst n2) as Hg.
  destruct (conversation_dispatch_syn_ack now id (n_mac n1) dst n2) as [[pass|] n3]; simpl in Hd, Hg.
  all: eexists; split; [reflexivity|]; exists id, (upd q id []).
  - rewrite present_last_tcp, present_last_guard, Hg. split; [by eapply keeps_trans|]. split; [congruence|done].
  - rewrite Hg. split; [by eapply keeps_trans|]. split; [congruence|done].
Qed.

Lemma net_sched_ack_guard now id a n : n_guard (net_sched_ack now id a n) = n_guard n.
Proof. unfold net_sched_ack. by destruct (scheduler_ack _ _ _ _) as [[? ?] ?]. Qed.

Lemma deposit_data_guard id data n n' : deposit_data id data n = Some n' -> n_guard n' = n_guard n.
Proof.
  unfold deposit_data. destruct (_ <? _); [|by intros [= <-]]. destruct (inbox_deposit _ _ _ _) as [[[] x] ib].
  - destruct (waystation_drain _ _) as [[? ?]|]; [|done]. by intros [= <-].
  - by intros [= <-].
Qed.

Lemma handle_known_guard now id payload seq flags n n' : handle_known now id payload seq flags n = Some n' -> n_guard n' = n_guard n.
Proof.
  unfold handle_known, handle_unexpected, handle_data. intros E.
  destruct (rd payload 12); [|done]. cbn [mbind option_bind] in E.
  destruct (rd payload 14); [|done]. cbn [mbind option_bind] in E.
  destruct (rd payload 15); [|done]. cbn [mbind option_bind] in E.
  destruct (rd32 payload 8); [|done]. cbn [mbind option_bind] in E.
  destruct (slice _ _ _) as [data|]; [|done]. cbn [mbind option_bind] in E. cbn zeta in E.
  destruct (negb _).
  { injection E as <-. destruct (_ && _), (rapport_seq_is_stale_retransmit _ _ _ _), (0 <? zlen data);
      cbn [set_tcp n_guard net_why]; rewrite ?net_sched_ack_guard; done. }
  destruct (has_flag FLAG_RST flags); [by injection E as <-|].
  destruct (deposit_data id _ _) as [n1|] eqn:Hd; [|done]. apply deposit_data_guard in Hd. simpl in E. injection E as <-.
  destruct (has_flag FLAG_FIN flags), (has_flag FLAG_ACK flags); cbn [set_tcp n_guard]; by rewrite Hd, ?net_sched_ack_guard.
Qed.

Lemma handle_known_ok k q id now payload seq flags n : tcp_inv k (n_tcp n) q -> seg_fits payload ->
  sentry_wf (gd_sentry (n_guard n)) ->
  exists n', handle_known now id payload seq flags n = Some n' /\ segment_ok k q id n n'.
Proof.
  intros Hinv Hf Hs. destruct (handle_known_keeps k id q now payload seq flags n Hinv Hf) as (n' & more & E & Hk).
  exists n'. split; [done|]. eapply segment_ok_own; [by rewrite (handle_known_guard _ _ _ _ _ _ _ E)|exact Hk|].
  exists more. unfold upd. by rewrite decide_True.
Qed.

Lemma handle_syn_sent_ok k q id payload seq flags n : tcp_inv k (n_tcp n) q -> seg_fits payload ->
  sentry_wf (gd_sentry (n_guard n)) ->
  exists n', handle_syn_sent id payload seq flags n = Some n' /\ segment_ok k q id n n'.
Proof.
  intros Hinv [Hl _] Hs. unfold handle_syn_sent.
  assert (exists more, q id = q id ++ more) as Hq by (exists []; by rewrite app_nil_r).
  destruct (has_flag FLAG_RST flags).
  { eexists. split; [reflexivity|]. eapply segment_ok_own; [done|by apply keeps_on_rst|done]. }
  destruct (_ && _); [|eexists; split; [reflexivity|]; by apply segment_ok_same].
  destruct (rd32_fits payload 8) as [ack ->]; [lia|lia|]. cbn [mbind option_bind]. eexists. split; [reflexivity|].
  eapply segment_ok_own; [done| |exact Hq]. cbn [set_tcp n_tcp]. unfold rapport_on_syn_ack.
  pose proof (keeps_refl k id (n_tcp n) q Hinv) as Hr.
  assert (set_tcp_rapport (tp_rapport (n_tcp n)) (n_tcp n) = n_tcp n) as E by (by destruct (n_tcp n)).
  destruct (tp_rapport (n_tcp n) !! id) as [c|] eqn:Hc; [|simpl; by rewrite E].
  case_bool_decide as Hst; simpl negb; cbv iota; [|simpl; by rewrite E].
  destruct (ack =? _); simpl negb; cbv iota; [|simpl; by rewrite E]. simpl.
  rewrite <- (alter_insert (fun c => mkConv CONV_ESTABLISHED (seq +32 1) (cv_our_isn c) (cv_our_fin_seq c)
    (cv_time_wait_started c) (cv_peer_window c) (cv_our_isn c +32 1)) _ _ _ Hc).
  apply keeps_rapport; [done|]. intros c' Hc' Hcl. simplify_eq. congruence.
Qed.

Lemma handle_unknown_ok k q own now payload src sp dst dp seq flags n : tcp_inv k (n_tcp n) q -> k < 4294967295 ->
  seg_fits payload -> sentry_wf (gd_sentry (n_guard n)) ->
  exists n', handle_unknown now payload src sp dst dp seq flags n = Some n' /\ segment_ok k q own n n'.
Proof.
  intros Hinv Hk Hfit Hs. unfold handle_unknown.
  destruct (negb _); [eexists; split; [reflexivity|]; by apply segment_ok_same|].
  destruct (rd32_fits payload 8) as [ack ->]; [destruct Hfit; lia..|]. cbn [mbind option_bind].
  destruct (syncookie_validate _ _ _ _ _ _ _) as [valid c]. destruct (negb valid).
  { eexists; split; [reflexivity|]; by apply segment_ok_same. }
  pose proof (keeps_open k (n_tcp n) q dp src sp (conv_on_syn (seq -32 1) (ack -32 1)) Hinv Hk) as Ho.
  cbn [set_cookie n_tcp]. destruct (lockbox_claim dp src sp 6 (tp_lockbox (n_tcp n))) as [[res [id|]] x].
  2:{ eexists. split; [reflexivity|]. exists own, q. split; [by apply Ho|]. split; [|done].
      intros _. split; [done|]. exists []. by rewrite app_nil_r. }
  destruct Ho as (Hfree & _ & _ & Hopen); [done|].
  set (t1 := set_tcp_rapport (rapport_on_syn id _ _ _) _).
  assert (keeps (k + 1) id (n_tcp n) q t1 (upd q id [])) as H1 by exact Hopen. pose proof H1 as [Hi1 _].
  pose proof (keeps_on_ack (k + 1) id t1 _ Hi1 now ack) as H2. pose proof H2 as [Hi2 _].
  set (n2 := set_tcp (set_conns _ t1) _).
  destruct (handle_known_keeps (k + 1) id (upd q id []) now payload seq flags n2 Hi2 Hfit) as (n' & more & E & H3).
  exists n'. split; [exact E|]. exists id. eexists.
  split; [eapply keeps_trans; [exact H1|]; intros _; eapply keeps_trans; [exact H2|]; intros _; exact H3|].
  split; [congruence|]. by rewrite (handle_known_guard _ _ _ _ _ _ _ E).
Qed.

Lemma conversation_check_fits payload src dst : zlen payload < 65536 ->
  exists v, conversation_check payload src dst = Some v /\ (v = TCP_ACCEPT -> seg_fits payload).
Proof.
  intros Hl. unfold conversation_check, TCP_MIN_HEADER. destruct (Z.ltb_spec (zlen payload) 20); [eexists; split; [reflexivity|done]|].
  assert (20 <= length payload)%nat as Hln by (unfold zlen in *; lia).
  rewrite (rd_at payload 12 12), (rd_at payload 13 13) by lia. cbn [mbind option_bind].
  destruct (_ || _) eqn:Hhl; [eexists; split; [reflexivity|done]|]. breflect. unfold seg_fits.
  destruct (negb _); [eexists; split; [reflexivity|done]|].
  destruct (negb _); (eexists; split; [reflexivity|]); [done|]. intros _. split; [lia|done].
Qed.

Lemma conversation_handle_ok now payload src dst n k q :
  zlen payload < 65536 -> sentry_wf (gd_sentry (n_guard n)) -> now < 0xFFFFFFFF -> tcp_inv k (n_tcp n) q -> k < 4294967295 ->
  exists n', conversation_handle now payload src dst n = Some n' /\ segment_ok k q (seg_conn payload src n) n n'.
Proof.
  intros Hl Hs Hnow Hinv Hk. unfold conversation_handle.
  destruct (conversation_check_fits payload src dst Hl) as (v & -> & Hv). cbn [mbind option_bind].
  case_bool_decide as Hacc; simpl negb; cbv iota; [|eexists; split; [reflexivity|]; by apply segment_ok_same].
  specialize (Hv Hacc). assert (20 <= length payload)%nat as Hln by (destruct Hv; unfold zlen in *; lia).
  rewrite (rd_at payload 0 0), (rd_at payload 1 1), (rd_at payload 2 2), (rd_at payload 3 3), (rd_at payload 13 13) by lia.
  cbn [mbind option_bind]. set (n1 := set_tcp_counts _ n). change (n_tcp n) with (n_tcp n1) in Hinv.
  assert (forall o, (exists m, o = Some m /\ segment_ok k q (seg_conn payload src n1) n1 m) ->
    exists m, o = Some m /\ segment_ok k q (seg_conn payload src n) n m) as Hback by done.
  assert (segment_ok k q (seg_conn payload src n) n n1) as Hsame by (by apply segment_ok_same).
  destruct (negb _); [eauto|]. destruct (_ =? _)%nat; [eauto|].
  destruct (rd32_fits payload 4) as [seq ->]; [destruct Hv; lia..|]. cbn [mbind option_bind].
  destruct (_ && _).
  { by apply Hback, (handle_syn_sent_ok k q (seg_conn payload src n1)). }
  destruct (has_flag FLAG_SYN _); [by apply Hback, handle_syn_ok|].
  destruct (_ =? _)%nat; [by apply Hback, handle_unknown_ok|by apply Hback, (handle_known_ok k q (seg_conn payload src n1))].
Qed.
End Safe.

(** No segment can corrupt the stack or another connection.  Whatever bytes
    arrive as a TCP segment (up to 65535 of them), the handler finishes without
    an access outside the segment and keeps the invariant of the connection
    table, queues, held segments, state machine and retransmission windows; of
    the connections that were open, only the one with the segment's ports and
    source address can change, and the unread bytes of that one are kept, in
    order, with at most new bytes behind them. *)
Lemma conversation_handle_safe `{TxDriver D} now payload src dst (n : net D) k q :
  zlen payload < 65536 -> sentry_wf (gd_sentry (n_guard n)) -> now < 0xFFFFFFFF -> tcp_inv k (n_tcp n) q -> k < 4294967295 ->
  exists n' q', conversation_handle now payload src dst n = Some n' /\
    tcp_inv (k + 1) (n_tcp n') q' /\ sentry_wf (gd_sentry (n_guard n')) /\
    forall j, held (tp_lockbox (n_tcp n)) j = true ->
      (exists more, q' j = q j ++ more) /\
      (j <> seg_conn payload src n ->
       q' j = q j /\ tp_rapport (n_tcp n') !! j = tp_rapport (n_tcp n) !! j /\
       sd_conns (tp_sched (n_tcp n')) !! j = sd_conns (tp_sched (n_tcp n)) !! j /\
       lx_table (tp_lockbox (n_tcp n')) !! j = lx_table (tp_lockbox (n_tcp n)) !! j /\
       tp_way (n_tcp n') !! j = tp_way (n_tcp n) !! j).
Proof.
  intros Hl Hs Hnow Hinv Hk.
  destruct (conversation_handle_ok now payload src dst n k q Hl Hs Hnow Hinv Hk) as (n' & E & id & q' & [Hi Ho] & Hown & Hs').
  exists n', q'. split; [done|]. split; [done|]. split; [done|]. intros j Hj. destruct (decide (j = id)) as [->|Hne].
  - destruct (Hown Hj) as [-> Hm]. done.
  - destruct (Ho j Hne) as (Hq & Hrest). split; [exists []; by rewrite app_nil_r|done].
Qed.

Lemma conversation_handle_safe_witness : exists n',
  conversation_handle 5 [1;2;3] [10;0;2;2] [10;0;2;15] (net_boot (@nil (list Z)) [2;0;0;0;0;1]) = Some n'.
Proof.
  destruct (conversation_handle_safe 5 [1;2;3] [10;0;2;2] [10;0;2;15] (net_boot (@nil (list Z)) [2;0;0;0;0;1]) 0 (fun _ => []))
    as (n' & q' & E & _).
  - unfold zlen; simpl; lia.
  - apply Forall_replicate. apply hits_ok_zero.
  - lia.
  - apply tcp_inv_init.
  - lia.
  - exists n'. exact E.
Defined.

(** ** Data reaches the application in order *)

Section Stream.
Context `{TxDriver D}.
Implicit Types (n : net D).

(** An accepted segment of a known connection that is not answering our SYN. *)
Lemma conversation_handle_known now seg src dst sp dp seq ack flags win data n id :
  conversation_check seg src dst = Some TCP_ACCEPT -> tcp_reads seg sp dp seq ack flags win data ->
  menu_is_open dp 6 (n_menu n) = true -> (lockbox_find_listener dp 6 (tp_lockbox (n_tcp n)) < LOCKBOX_CAPACITY)%nat ->
  lockbox_find_connection dp src sp 6 (tp_lockbox (n_tcp n)) = id -> (id < LOCKBOX_CAPACITY)%nat ->
  rapport_get_state id (tp_rapport (n_tcp n)) <> CONV_SYN_SENT -> has_flag FLAG_SYN flags = false ->
  conversation_handle now seg src dst n =
    handle_known now id seg seq flags (set_tcp_counts (count_accept (n_tcp_counts n)) n).
Proof.
  intros Hck [(b0 & b1 & b2 & b3 & R0 & R1 & R2 & R3 & E1 & E2) Hseq Hack Hfl _ _] Hmenu Hlis Hid Hlt Hst Hsyn.
  unfold conversation_handle. rewrite Hck, Hfl, Hseq, R0, R1, R2, R3. cbn [mbind option_bind].
  rewrite bool_decide_true by done. rewrite E1, E2. simpl negb. cbv iota. cbn [set_tcp_counts n_menu n_tcp].
  rewrite Hmenu, Hid, Hsyn. simpl negb. cbv iota.
  destruct (Nat.eqb_spec (lockbox_find_listener dp 6 (tp_lockbox (n_tcp n))) LOCKBOX_CAPACITY); [lia|].
  destruct (Nat.eqb_spec id LOCKBOX_CAPACITY); [lia|]. rewrite bool_decide_false by done. done.
Qed.

(** Its effect when it is in sequence, carries only an ACK, and the
    connection is established. *)
Lemma handle_known_data k q now id seg sp dp seq ack win data n :
  tcp_reads seg sp dp seq ack FLAG_ACK win data -> tcp_inv k (n_tcp n) q -> zlen data < 65536 ->
  rapport_get_state id (tp_rapport (n_tcp n)) = CONV_ESTABLISHED ->
  rapport_get_expected_seq id (tp_rapport (n_tcp n)) = seq ->
  0 < zlen data -> zlen (q id) + zlen data <= 4096 ->
  exists n' ds, handle_known now id seg seq FLAG_ACK n = Some n' /\
    keeps k id (n_tcp n) q (n_tcp n') (upd q id (q id ++ data ++ payload_of ds)) /\
    contiguous (seq +32 zlen data) ds (rapport_get_expected_seq id (tp_rapport (n_tcp n'))) /\
    releases id (n_tcp n) (n_tcp n') (q id ++ data) ds.
Proof.
  intros [_ _ Hack _ (b14 & b15 & R14 & R15 & Hwin) (b12 & R12 & Hdata)] Hinv Hlen Hst Hexp Hpos Hfit.
  unfold handle_known. rewrite R12, R14, R15, Hack. cbn [mbind option_bind]. rewrite Hdata, Hwin. cbn [mbind option_bind].
  set (n1 := set_tcp (set_tcp_rapport (rapport_set_peer_window id win _) _) n).
  assert (keeps k id (n_tcp n) q (n_tcp n1) q) as H1 by (by apply (keeps_rapport k id _ q Hinv)). pose proof H1 as [Hi1 _].
  unfold rapport_get_state, rapport_get_expected_seq in Hst, Hexp.
  destruct (tp_rapport (n_tcp n) !! id) as [c|] eqn:Hc; [|done]. simpl in Hst, Hexp.
  assert (tp_rapport (n_tcp n1) !! id = Some (mkConv (cv_status c) (cv_expected_seq c) (cv_our_isn c) (cv_our_fin_seq c)
    (cv_time_wait_started c) win (cv_send_seq c))) as Hc1.
  { unfold n1, rapport_set_peer_window. simpl. by rewrite list_lookup_alter_eq, Hc. }
  assert (rapport_seq_expected id seq (tp_rapport (n_tcp n1)) = true) as ->.
  { unfold rapport_seq_expected. rewrite Hc1. simpl. apply Z.eqb_eq. done. }
  change (has_flag FLAG_RST FLAG_ACK) with false. change (has_flag FLAG_ACK FLAG_ACK) with true. simpl negb. cbv iota.
  assert (set_tcp (set_conns (rapport_on_ack now id ack (tcp_conns (n_tcp n1))) (n_tcp n1)) n1 = n1) as ->.
  { unfold rapport_on_ack, tcp_conns. rewrite Hc1. simpl cv_status. rewrite Hst. done. }
  pose proof (net_sched_ack_keeps k id q now ack n1 Hi1) as H2. set (n2 := net_sched_ack now id ack n1) in *. pose proof H2 as [Hi2 _].
  assert (tp_rapport (n_tcp n2) = tp_rapport (n_tcp n1) /\ tp_lockbox (n_tcp n2) = tp_lockbox (n_tcp n1) /\ tp_way (n_tcp n2) = tp_way (n_tcp n)) as (Er & Ex & Ew).
  { unfold n2, net_sched_ack. by destruct (scheduler_ack _ _ _ _) as [[? ?] ?]. }
  destruct (deposit_data_keeps k id q data n2 Hi2) as (n3 & ds & E & Htk); [unfold is_u16; lia|].
  assert (takes id q data n2 = true) as Ht.
  { apply bool_decide_eq_true. split; [done|]. split; [|done]. destruct Hi2 as [_ _ (_ & _ & Hh) _]. apply Hh.
    rewrite Er. unfold rapport_get_state. rewrite Hc1. simpl. by rewrite Hst. }
  rewrite Ht in Htk. destruct Htk as (H3 & Hcont & Hrel).
  unfold handle_data. rewrite E. cbn [mbind option_bind]. change (has_flag FLAG_FIN FLAG_ACK) with false. cbv iota.
  exists n3, ds. split; [done|]. split; [eapply keeps_trans; [exact H1|]; intros _; by eapply keeps_trans|].
  rewrite Er in Hcont. split; [rewrite <- Hexp; unfold rapport_get_expected_seq in Hcont at 1; rewrite Hc1 in Hcont; apply Hcont; eauto|].
  unfold releases, held_for in *. rewrite Ew, Ex in Hrel. exact Hrel.
Qed.
End Stream.

Lemma delivers_data `{TxDriver D} now src dst sp dp seq ack win data (n : net D) id k q :
  bytes src -> bytes dst -> bytes data -> length src = 4%nat -> length dst = 4%nat ->
  is_u16 sp -> is_u16 dp -> is_u32 seq -> is_u32 ack -> is_u16 win -> 0 < zlen data <= TCP_MAX_PAYLOAD ->
  tcp_inv k (n_tcp n) q -> menu_is_open dp 6 (n_menu n) = true ->
  (lockbox_find_listener dp 6 (tp_lockbox (n_tcp n)) < LOCKBOX_CAPACITY)%nat ->
  lockbox_find_connection dp src sp 6 (tp_lockbox (n_tcp n)) = id -> (id < LOCKBOX_CAPACITY)%nat ->
  rapport_get_state id (tp_rapport (n_tcp n)) = CONV_ESTABLISHED ->
  rapport_get_expected_seq id (tp_rapport (n_tcp n)) = seq -> zlen (q id) + zlen data <= 4096 ->
  exists n' ds, conversation_handle now (tcp_segment src dst sp dp seq ack FLAG_ACK win data) src dst n = Some n' /\
    tcp_inv k (n_tcp n') (upd q id (q id ++ data ++ payload_of ds)) /\
    contiguous (seq +32 zlen data) ds (rapport_get_expected_seq id (tp_rapport (n_tcp n'))) /\
    releases id (n_tcp n) (n_tcp n') (q id ++ data) ds /\
    others id (n_tcp n) q (n_tcp n') (upd q id (q id ++ data ++ payload_of ds)).
Proof.
  intros Hs Hd Hb Hls Hld Hsp Hdp Hsq Hak Hw Hz Hinv Hmenu Hlis Hid Hlt Hst Hexp Hfit.
  destruct (tcp_checked src dst sp dp seq ack FLAG_ACK win data) as [Hck Hrd]; try done; [lia|].
  rewrite (conversation_handle_known now _ src dst sp dp seq ack FLAG_ACK win data n id) by (done || congruence).
  destruct (handle_known_data k q now id _ sp dp seq ack win data (set_tcp_counts (count_accept (n_tcp_counts n)) n) Hrd)
    as (n' & ds & E & [Hi Ho] & Hc & Hrel); [done|unfold TCP_MAX_PAYLOAD in Hz; lia|done|done|lia|done|]. eauto 10.
Qed.

(** C3: in-order data reaches the application.  A data segment (ACK, 1 to 1460
    bytes) that the peer builds with the sequence number an established
    connection expects, on a port that is open and listened on, and that fits the 4096-byte
    queue, is appended byte for byte to the queue of exactly that connection, followed by
    held segments: these were waiting, they continue it without gap, and every other
    waiting segment still waits; if one of those starts at the new expected number, the
    release stopped because a waiting segment with that number did not fit the queue.  The
    expected number is the end of what was appended, and no other connection changes. *)
Theorem conversation_delivers_data `{TxDriver D} now src dst sp dp seq ack win data (n : net D) id k q :
  bytes src -> bytes dst -> bytes data -> length src = 4%nat -> length dst = 4%nat ->
  is_u16 sp -> is_u16 dp -> is_u32 seq -> is_u32 ack -> is_u16 win -> 0 < zlen data <= TCP_MAX_PAYLOAD ->
  tcp_inv k (n_tcp n) q -> menu_is_open dp 6 (n_menu n) = true ->
  (lockbox_find_listener dp 6 (tp_lockbox (n_tcp n)) < LOCKBOX_CAPACITY)%nat ->
  lockbox_find_connection dp src sp 6 (tp_lockbox (n_tcp n)) = id -> (id < LOCKBOX_CAPACITY)%nat ->
  rapport_get_state id (tp_rapport (n_tcp n)) = CONV_ESTABLISHED ->
  rapport_get_expected_seq id (tp_rapport (n_tcp n)) = seq -> zlen (q id) + zlen data <= 4096 ->
  exists n' ds, conversation_handle now (tcp_segment src dst sp dp seq ack FLAG_ACK win data) src dst n = Some n' /\
    tcp_inv k (n_tcp n') (upd q id (q id ++ data ++ payload_of ds)) /\
    contiguous (seq +32 zlen data) ds (rapport_get_expected_seq id (tp_rapport (n_tcp n'))) /\
    releases id (n_tcp n) (n_tcp n') (q id ++ data) ds /\
    others id (n_tcp n) q (n_tcp n') (upd q id (q id ++ data ++ payload_of ds)).
Proof. apply delivers_data. Qed.

(** A host with port 80 on its Menu and one established connection to it, from
    port 4000 of 10.0.2.2, that expects sequence number 100. *)
Definition tcp_one : tcp :=
  let x := (lockbox_claim 80 [10;0;2;2] 4000 6 lockbox_init).2 in
  let t := set_tcp_rapport (alter (conv_on_syn 99 500) 0%nat rapport_init) (set_tcp_inbox x inbox_init tcp_init) in
  set_conns (rapport_on_ack 5 0 501 (tcp_conns t)) t.
Definition tcp_host : net (list (list Z)) :=
  let n := set_tcp tcp_one (net_boot [] [2;0;0;0;0;1]) in
  mkNet (n_link n) (n_guard n) (n_tcp n) (snd (menu_open_port 80 6 (n_menu n))) (n_atlas n) (n_cookie n) (n_postbox n)
    (n_echo n) (n_mac n) (n_last_frame n) (n_ip_counts n) (n_tcp_counts n) (n_udp_counts n).

Lemma tcp_one_inv : tcp_inv 1 tcp_one (upd (fun _ => []) 0 []).
Proof.
  assert (forall c, cv_status c = CONV_CLOSED -> cv_status (conv_on_syn 99 500 c) <> CONV_CLOSED) as Hf by done.
  pose proof (keeps_open 0 tcp_init (fun _ => []) 80 [10;0;2;2] 4000 (conv_on_syn 99 500) tcp_inv_init ltac:(lia) Hf) as Ho.
  unfold tcp_one. change (tp_lockbox tcp_init) with lockbox_init in Ho.
  assert ((lockbox_claim 80 [10;0;2;2] 4000 6 lockbox_init).1.2 = Some 0%nat) as E by (vm_compute; reflexivity).
  destruct (lockbox_claim 80 [10;0;2;2] 4000 6 lockbox_init) as [[res out] x]. simpl in E. subst out.
  destruct Ho as (_ & _ & _ & [Hi _]). apply (keeps_on_ack 1 0 _ _ Hi 5 501).
Qed.

Lemma conversation_delivers_data_witness : exists n' ds,
  conversation_handle 7 (tcp_segment [10;0;2;2] [10;0;2;15] 4000 80 100 501 FLAG_ACK 4096 [7;8;9]) [10;0;2;2] [10;0;2;15] tcp_host = Some n' /\
  tcp_inv 1 (n_tcp n') (upd (upd (fun _ => []) 0 []) 0 ([] ++ [7;8;9] ++ payload_of ds)).
Proof.
  destruct (conversation_delivers_data 7 [10;0;2;2] [10;0;2;15] 4000 80 100 501 4096 [7;8;9] tcp_host 0 1 (upd (fun _ => []) 0 []))
    as (n' & ds & E & Hi & _).
  1-3: byte_list. 1-2: reflexivity. 1-5: unfold is_u16, is_u32; lia. 1: unfold zlen, TCP_MAX_PAYLOAD; simpl; lia.
  1: exact tcp_one_inv. 1: vm_compute; reflexivity. 1: vm_compute; lia. 1: vm_compute; reflexivity. 1: unfold LOCKBOX_CAPACITY; lia.
  1-2: vm_compute; reflexivity. 1: vm_compute; intros HH; discriminate HH.
  exists n', ds. split; [exact E|exact Hi].
Defined.
