(* ===== verification/SwitchBoard.v ===== *)
(** * SwitchBoard, the socket calls

    [Networking/IPv4/SwitchBoard/switchboard.c]: connect, send, close, bind,
    accept and receive over the TCP and UDP stack.  The calls without
    [_locked] in their name run the same code with interrupts off, so each of
    them is one step of the model. *)

From S2P Require Import Prelude SlotTable GuestList Ids RateLimit Sentry Bailiff Rolodex Foyer Atlas.
From S2P Require Import LockBox Ring Inbox Why Scheduler Rapport Transport TcpInv Checksum Echo.
From S2P Require Import Compass Postcard Conversation.
Import Menu Atlas Inbox Postbox Why Lottery SynCookie.

Definition EPHEMERAL_PORT_LOW : Z := 49152.
Definition EPHEMERAL_PORT_HIGH : Z := 65535.

Record board (D : Type) := mkBoard {
  sb_net : net D; sb_next_ephemeral : Z; sb_accepted_generation : list Z }.
Arguments mkBoard {D} _ _ _.
Arguments sb_net {D} _.
Arguments sb_next_ephemeral {D} _.
Arguments sb_accepted_generation {D} _.

Definition set_board_net {D} (n : net D) (b : board D) : board D :=
  mkBoard n (sb_next_ephemeral b) (sb_accepted_generation b).
Definition board_boot {D} (n : net D) : board D := mkBoard n EPHEMERAL_PORT_LOW (replicate LOCKBOX_CAPACITY 0).

(** The lock table of a board. *)
Notation box b := (tp_lockbox (n_tcp (sb_net b))).

(** The value of [next_ephemeral] after [next] was taken. *)
Definition bump_ephemeral (next : Z) : Z := if EPHEMERAL_PORT_HIGH <=? next then EPHEMERAL_PORT_LOW else u16 (next + 1).

(** [tries] rounds of the loop: the port (0 for none) and [next_ephemeral]. *)
Fixpoint pick_loop (tries : nat) (next : Z) (x : lockbox) : Z * Z :=
  match tries with
  | O => (0, next)
  | S tries' =>
      let candidate := next in
      let next := bump_ephemeral next in
      if (lockbox_find_listener candidate 6 x =? LOCKBOX_CAPACITY)%nat then (candidate, next) else pick_loop tries' next x
  end.

Definition pick_ephemeral_port (next : Z) (x : lockbox) : Z * Z :=
  pick_loop (Z.to_nat (EPHEMERAL_PORT_HIGH - EPHEMERAL_PORT_LOW)) next x.

Section Calls.
Context `{TxDriver D}.
Implicit Types (b : board D).

(** [Some id]: returned 1 with [*out_conn_id = id]. *)
Definition switchboard_connect (now : Z) (dest_ip : ip4) (dest_port : Z) (our_mac : list Z) (our_ip : ip4) b
    : option nat * board D :=
  let '(local_port, next) := pick_ephemeral_port (sb_next_ephemeral b) (box b) in
  let b := mkBoard (sb_net b) next (sb_accepted_generation b) in
  if local_port =? 0 then (None, b) else
  let n := sb_net b in
  let t := n_tcp n in
  let '(_, out, x) := lockbox_claim local_port dest_ip dest_port 6 (tp_lockbox t) in
  let t := set_tcp_inbox x (tp_inbox t) t in
  match out with
  | None => (None, set_board_net (set_tcp t n) b)
  | Some conn_id =>
      let '(our_isn, lot) := lottery_draw_isn now our_ip local_port dest_ip dest_port (sc_lottery (n_cookie n)) in
      let n := set_cookie (mkCookie (sc_secret (n_cookie n)) (sc_secret_ready (n_cookie n)) lot) n in
      let n := set_tcp (set_tcp_rapport (rapport_initiate_connect conn_id our_isn (tp_rapport t)) t) n in
      let n := match conversation_dispatch_syn now conn_id our_isn our_mac our_ip n with
               | (Some id, n) => snd (present_last now id n)
               | (None, n) => n
               end in
      (Some conn_id, set_board_net n b)
  end.

Definition switchboard_send (now : Z) (conn_id : nat) (data our_mac : list Z) (our_ip : ip4) b : bool * board D :=
  match conversation_dispatch_data now conn_id data our_mac our_ip (sb_net b) with
  | (None, n) => (false, set_board_net n b)
  | (Some id, n) => let '(ok, n) := present_last now id n in (ok, set_board_net n b)
  end.

Definition switchboard_close (now : Z) (conn_id : nat) (our_mac : list Z) (our_ip : ip4) b : bool * board D :=
  match conversation_dispatch_fin now conn_id our_mac our_ip (sb_net b) with
  | (None, n) => (false, set_board_net n b)
  | (Some id, n) => let '(ok, n) := present_last now id n in (ok, set_board_net n b)
  end.

Definition switchboard_send_udp (now : Z) (local_port : Z) (dest_ip : ip4) (dest_port : Z) (our_mac : list Z) (our_ip : ip4)
    (data : list Z) b : bool * board D :=
  let '(ok, n) := postcard_dispatch now dest_ip dest_port local_port our_mac our_ip data (sb_net b) in
  (ok, set_board_net n b).

Definition switchboard_bind (port protocol : Z) b : bool * board D :=
  let t := n_tcp (sb_net b) in
  let '(r, _, x) := lockbox_listen port protocol (tp_lockbox t) in
  (bool_decide (r = LOCKBOX_OK), set_board_net (set_tcp (set_tcp_inbox x (tp_inbox t) t) (sb_net b)) b).

(** The loop of [switchboard_accept] after slot [id]; the slots grow, so 65
    rounds are enough.  [Some None] is [SWITCHBOARD_NONE]. *)
Fixpoint accept_loop (fuel : nat) (port : Z) (id : nat) b : option (option nat * board D) :=
  let id := lockbox_next_for_port port 6 id (box b) in
  if (id =? LOCKBOX_CAPACITY)%nat then Some (None, b) else
  let gen := lockbox_get_generation id (box b) in
  acc ← sb_accepted_generation b !! id;
  if negb (acc =? gen) && bool_decide (rapport_get_state id (tp_rapport (n_tcp (sb_net b))) = CONV_ESTABLISHED)
  then Some (Some id, mkBoard (sb_net b) (sb_next_ephemeral b) (<[id := gen]> (sb_accepted_generation b)))
  else match fuel with O => None | S fuel' => accept_loop fuel' port id b end.

Definition switchboard_accept (port : Z) b : option (option nat * board D) :=
  accept_loop LOCKBOX_CAPACITY port LOCKBOX_CAPACITY b.

(** The bytes copied to [out]. *)
Definition switchboard_recv (conn_id max_len : nat) b : option (list Z * board D) :=
  if (LOCKBOX_CAPACITY <=? conn_id)%nat then Some ([], b) else
  acc ← sb_accepted_generation b !! conn_id;
  if negb (acc =? lockbox_get_generation conn_id (box b)) then Some ([], b) else
  let t := n_tcp (sb_net b) in
  '(out, x, ib) ← inbox_read conn_id max_len (tp_lockbox t) (tp_inbox t);
  Some (out, set_board_net (set_tcp (set_tcp_inbox x ib t) (sb_net b)) b).

(** [Some (ip, port, data)]: a datagram was read; [None]: returned 0. *)
Definition switchboard_recv_udp (port : Z) (max_len : nat) b : option (option (ip4 * Z * list Z) * board D) :=
  let slot := lockbox_find_listener port 17 (box b) in
  if (slot =? LOCKBOX_CAPACITY)%nat then Some (None, b) else
  '(out, pb) ← postbox_read slot max_len (n_postbox (sb_net b));
  Some (out, set_board_net (set_postbox pb (sb_net b)) b).
End Calls.

#[global] Arguments pick_ephemeral_port : simpl never.

(** ** Ephemeral ports *)

Definition is_ephemeral (p : Z) : Prop := EPHEMERAL_PORT_LOW <= p <= EPHEMERAL_PORT_HIGH.

(** The port taken [k] rounds after [next]. *)
Definition eph_at (next : Z) (k : nat) : Z := 49152 + (next - 49152 + Z.of_nat k) mod 16384.

Lemma bump_ephemeral_at next : is_ephemeral next -> is_ephemeral (bump_ephemeral next) /\
  forall k, eph_at (bump_ephemeral next) k = eph_at next (S k).
Proof.
  unfold is_ephemeral, bump_ephemeral, eph_at, EPHEMERAL_PORT_LOW, EPHEMERAL_PORT_HIGH. intros H.
  destruct (Z.leb_spec 65535 next).
  - split; [lia|]. intros k. assert (next = 65535) as -> by lia. f_equal.
    replace (65535 - 49152 + Z.of_nat (S k)) with (49152 - 49152 + Z.of_nat k + 1 * 16384) by lia. by rewrite Z.mod_add.
  - rewrite u16_small by (unfold is_u16; lia). split; [lia|]. intros k. do 2 f_equal. lia.
Qed.

(** No slot of the table is on the port. *)
Definition port_free (port : Z) (x : lockbox) : Prop := forall i e, lx_table x !! i = Some e -> on_port port 6 e = false.

Lemma find_listener_free port x : length (lx_table x) = LOCKBOX_CAPACITY ->
  lockbox_find_listener port 6 x = LOCKBOX_CAPACITY <-> port_free port x.
Proof.
  intros Hl. unfold lockbox_find_listener, or_capacity, port_free. destruct (find_idx _ _) as [i|] eqn:E; simpl.
  - split; [intros ->; apply find_idx_lt in E; lia|]. apply find_idx_Some in E as (e & He & Hp & _). intros Hf.
    by rewrite (Hf i e He) in Hp.
  - split; [|done]. intros _. by apply find_idx_None.
Qed.

Lemma pick_loop_spec tries : forall next x, is_ephemeral next -> length (lx_table x) = LOCKBOX_CAPACITY ->
  let '(p, next') := pick_loop tries next x in
  is_ephemeral next' /\
  ((is_ephemeral p /\ port_free p x) \/
   (p = 0 /\ forall k, (k < tries)%nat -> (lockbox_find_listener (eph_at next k) 6 x < LOCKBOX_CAPACITY)%nat)).
Proof.
  induction tries as [|tries IH]; intros next x Hn Hl; cbn [pick_loop].
  - split; [done|]. right. split; [done|]. intros; lia.
  - destruct (bump_ephemeral_at next Hn) as [Hb Hat].
    destruct (Nat.eqb_spec (lockbox_find_listener next 6 x) LOCKBOX_CAPACITY) as [E|E].
    + split; [done|]. left. split; [done|]. by apply find_listener_free.
    + specialize (IH (bump_ephemeral next) x Hb Hl). destruct (pick_loop tries _ x) as [p n']. destruct IH as [Hn' [Hok|[-> Hall]]].
      { split; [done|by left]. }
      split; [done|]. right. split; [done|]. intros [|k] Hk; [|rewrite <- Hat; apply Hall; lia].
      assert (eph_at next 0 = next) as -> by (unfold eph_at, is_ephemeral, EPHEMERAL_PORT_LOW, EPHEMERAL_PORT_HIGH in *; rewrite Z.mod_small; lia).
      unfold lockbox_find_listener, or_capacity in *. destruct (find_idx _ _) as [i|] eqn:Ei; simpl in *; [|done].
      apply find_idx_lt in Ei. lia.
Qed.

(** Two ports cannot be held by one slot. *)
Lemma listener_port port x : (lockbox_find_listener port 6 x < LOCKBOX_CAPACITY)%nat ->
  exists e, lx_table x !! lockbox_find_listener port 6 x = Some e /\ lb_local_port e = port.
Proof.
  unfold lockbox_find_listener, or_capacity. destruct (find_idx _ _) as [i|] eqn:E; simpl; [|lia]. intros _.
  apply find_idx_Some in E as (e & He & Hp & _). unfold on_port in Hp. breflect. eauto.
Qed.

(** Sixty-four slots cannot hold sixty-five ports. *)
Lemma ports_run_out next x : ~ forall k, (k < 65)%nat -> (lockbox_find_listener (eph_at next k) 6 x < LOCKBOX_CAPACITY)%nat.
Proof.
  intros Hall. set (ids := (fun k => lockbox_find_listener (eph_at next k) 6 x) <$> seq 0 65).
  assert (NoDup ids) as Hnd.
  { apply NoDup_fmap_2_strong; [|apply NoDup_seq]. intros a c Ha Hc E. apply elem_of_seq in Ha, Hc.
    destruct (listener_port _ _ (Hall a ltac:(lia))) as (e & He & Hp), (listener_port _ _ (Hall c ltac:(lia))) as (e' & He' & Hp').
    rewrite E in He. rewrite He in He'. injection He' as <-. rewrite Hp in Hp'. unfold eph_at in Hp'.
    apply Z.add_cancel_l in Hp'. assert ((Z.of_nat a - Z.of_nat c) mod 16384 = 0) as Hm.
    { replace (Z.of_nat a - Z.of_nat c) with ((next - 49152 + Z.of_nat a) - (next - 49152 + Z.of_nat c)) by lia.
      by rewrite Zminus_mod, Hp', Z.sub_diag. }
    apply Z.mod_divide in Hm as [z Hz]; [|lia]. lia. }
  assert (length ids <= length (seq 0 64))%nat as Hlen.
  { apply submseteq_length, NoDup_submseteq; [done|]. intros i (k & -> & Hk)%list_elem_of_fmap.
    apply elem_of_seq in Hk. apply elem_of_seq. specialize (Hall k). unfold LOCKBOX_CAPACITY in Hall. lia. }
  unfold ids in Hlen. rewrite length_fmap, !length_seq in Hlen. lia.
Qed.

Lemma pick_ephemeral_ok next x : is_ephemeral next -> length (lx_table x) = LOCKBOX_CAPACITY ->
  exists p next', pick_ephemeral_port next x = (p, next') /\ is_ephemeral p /\ port_free p x /\ is_ephemeral next'.
Proof.
  intros Hn Hl. unfold pick_ephemeral_port. pose proof (pick_loop_spec (Z.to_nat (EPHEMERAL_PORT_HIGH - EPHEMERAL_PORT_LOW)) next x Hn Hl) as Hs.
  destruct (pick_loop _ next x) as [p n']. destruct Hs as [Hn' [[? ?]|[_ Hall]]]; [by exists p, n'|].
  destruct (ports_run_out next x). intros k Hk. apply Hall. unfold EPHEMERAL_PORT_HIGH, EPHEMERAL_PORT_LOW. lia.
Qed.

(** ** What sending leaves alone *)

Section Frame.
Context `{TxDriver D}.
Implicit Types (n : net D) (b : board D).

Lemma window_frame id t : let '(_, t') := waystation_receive_window id t in tcp_conns t' = tcp_conns t.
Proof. unfold waystation_receive_window. destruct (tp_way t !! id); [|done]. destruct (inbox_available _ _ _). by destruct (_ <=? _). Qed.

(** Building and handing over a segment changes the link, the last frame and the
    bookkeeping of the receive window only. *)
Definition sending (n n' : net D) : Prop :=
  tcp_conns (n_tcp n') = tcp_conns (n_tcp n) /\ n_guard n' = n_guard n /\ n_postbox n' = n_postbox n /\
  n_echo n' = n_echo n /\ n_menu n' = n_menu n /\ n_mac n' = n_mac n /\ n_atlas n' = n_atlas n.

Lemma dispatch_sending now id flags seq ack payload our_mac our_ip n :
  sending n (snd (conversation_dispatch now id flags seq ack payload our_mac our_ip n)).
Proof.
  unfold conversation_dispatch. destruct (_ <? _); [done|]. destruct (negb _); [done|].
  destruct (lockbox_get_tuple id _) as [[[lp rip] rp]|]; [|done].
  destruct (atlas_lookup rip (n_atlas n)) as [[] [hop|]]; try done.
  pose proof (window_frame id (n_tcp n)) as Hw. destruct (waystation_receive_window id (n_tcp n)) as [win t].
  destruct (rolodex_lookup hop _); [by destruct (bailiff_request_pass _ _ _)|by destruct (foyer_queue _ _ _ _ _)].
Qed.

Lemma present_last_sending now id n : sending n (snd (present_last now id n)).
Proof. unfold present_last. by destruct (bailiff_present_pass _ _ _ _) as [ok [b d]]. Qed.

Lemma present_last_keeps k id q now pass n : tcp_inv k (n_tcp n) q ->
  keeps k id (n_tcp n) q (n_tcp (snd (present_last now pass n))) q.
Proof. intros Hinv. rewrite present_last_tcp. by apply keeps_refl. Qed.

Lemma dispatch_syn_keeps k id q now isn our_mac our_ip n : tcp_inv k (n_tcp n) q ->
  let n' := snd (conversation_dispatch_syn now id isn our_mac our_ip n) in
  keeps k id (n_tcp n) q (n_tcp n') q /\ tp_lockbox (n_tcp n') = tp_lockbox (n_tcp n) /\ tp_rapport (n_tcp n') = tp_rapport (n_tcp n).
Proof.
  intros Hinv. unfold conversation_dispatch_syn.
  pose proof (dispatch_keeps k id q now FLAG_SYN isn 0 [] our_mac our_ip n Hinv) as Hd.
  pose proof (dispatch_sending now id FLAG_SYN isn 0 [] our_mac our_ip n) as [Hc _].
  destruct (conversation_dispatch _ _ _ _ _ _ _ _ n) as [[pass|] n1]; simpl in *; unfold tcp_conns in Hc; injection Hc as H1 H2 H3.
  - split; [|by rewrite H1, H3]. eapply keeps_trans; [exact Hd|]. by apply track_last_keeps.
  - split; [done|]. by rewrite H1, H3.
Qed.

(** What a board is: the TCP invariant, and generations taken from the table. *)
Record board_inv (k : Z) b (q : nat -> list Z) : Prop := {
  bi_tcp : tcp_inv k (n_tcp (sb_net b)) q;
  bi_len : length (sb_accepted_generation b) = LOCKBOX_CAPACITY;
  bi_acc : forall i g, sb_accepted_generation b !! i = Some g -> 0 <= g <= lockbox_get_generation i (box b);
  bi_eph : is_ephemeral (sb_next_ephemeral b) }.

(** A claim takes a new generation. *)
Lemma claim_generation lp ip rp pr x k ib q : inbox_inv k x ib q -> k < 4294967295 ->
  let '(_, out, x') := lockbox_claim lp ip rp pr x in
  (forall i, lockbox_get_generation i x <= lockbox_get_generation i x') /\
  match out with
  | Some i => lockbox_get_generation i x' = lockbox_get_generation i x + 1
  | None => True
  end.
Proof.
  intros [Hb Hl Hs _] Hk. unfold lockbox_claim. destruct (negb _); [done|]. destruct (_ <=? _)%nat; [done|].
  destruct (find_free (lx_table x)) as [i|] eqn:Hf; [|done]. unfold lockbox_get_generation. simpl.
  apply find_free_sound in Hf as (e & He & _). pose proof (lookup_lt_Some _ _ _ He) as Hi. rewrite (lw_len x Hb) in Hi.
  destruct (lookup_lt_is_Some_2 (lx_generation x) i) as [g Hg]; [by rewrite (lw_gen x Hb)|].
  destruct (lookup_lt_is_Some_2 ib i) as [s Hsl]; [by rewrite Hl|].
  destruct (Hs i s e Hsl He) as (_ & _ & Hg1 & Hg2). unfold lockbox_get_generation in *. rewrite Hg in *. simpl in *.
  assert (g +32 1 = g + 1) as E by (apply u32_small; unfold is_u32; lia). split.
  - intros j. destruct (decide (j = i)) as [->|Hj]; [rewrite list_lookup_alter_eq, Hg; simpl; lia|by rewrite list_lookup_alter_ne].
  - rewrite list_lookup_alter_eq, Hg. simpl. lia.
Qed.

Lemma claim_tuple lp ip rp pr x : let '(_, out, x') := lockbox_claim lp ip rp pr x in
  match out with Some i => lockbox_get_tuple i x' = Some (lp, ip, rp)
  | None => port_free lp x -> pr = 6 -> (LOCKBOX_MAX_PER_IP <= count_for_ip ip (lx_table x))%nat \/ find_free (lx_table x) = None
  end.
Proof.
  unfold lockbox_claim. destruct (Nat.eqb_spec (lockbox_find_connection lp ip rp pr x) LOCKBOX_CAPACITY) as [E|E]; cbn [negb]; cbv iota.
  2:{ intros Hfree ->. destruct E. unfold lockbox_find_connection, or_capacity. destruct (find_key _ _) as [i|] eqn:Ek; [|done].
      apply find_key_sound in Ek as (e & He & Hu & Hk). simpl in Hu, Hk. injection Hk as <- _ _ Hp.
      specialize (Hfree i e He). unfold on_port in Hfree. rewrite Hu, Hp, !Z.eqb_refl in Hfree. done. }
  destruct (Nat.leb_spec LOCKBOX_MAX_PER_IP (count_for_ip ip (lx_table x))) as [|_]; [intros _ _; by left|].
  destruct (find_free (lx_table x)) as [i|] eqn:Hf; [|intros _ _; by right].
  apply find_free_sound in Hf as (e & He & _). unfold lockbox_get_tuple. simpl.
  rewrite list_lookup_insert_eq by (by eapply lookup_lt_Some). done.
Qed.

Lemma connect_spec now ip port mac our_ip b k q : board_inv k b q -> k < 4294967295 ->
  let '(out, b') := switchboard_connect now ip port mac our_ip b in
  board_inv (k + 1) b' (match out with Some id => upd q id [] | None => q end) /\
  match out with
  | None => ((LOCKBOX_MAX_PER_IP <= count_for_ip ip (lx_table (box b)))%nat \/ find_free (lx_table (box b)) = None) /\
      forall id, others id (n_tcp (sb_net b)) q (n_tcp (sb_net b')) q
  | Some id => held (box b) id = false /\ others id (n_tcp (sb_net b)) q (n_tcp (sb_net b')) (upd q id []) /\
      rapport_get_state id (tp_rapport (n_tcp (sb_net b'))) = CONV_SYN_SENT /\
      (exists lp, is_ephemeral lp /\ port_free lp (box b) /\ lockbox_get_tuple id (box b') = Some (lp, ip, port)) /\
      forall max, switchboard_recv id max b' = Some ([], b')
  end.
Proof.
  intros [Hinv Hlen Hacc Heph] Hk. unfold switchboard_connect. pose proof (ti_inbox _ _ _ Hinv) as Hib.
  destruct (pick_ephemeral_ok (sb_next_ephemeral b) (box b) Heph (lw_len _ (ii_box _ _ _ _ Hib))) as (lp & next & -> & Hlp & Hfree & Hnext).
  destruct (Z.eqb_spec lp 0) as [E0|_]; [unfold is_ephemeral, EPHEMERAL_PORT_LOW in Hlp; lia|]. cbn [sb_net].
  destruct (lottery_draw_isn now our_ip lp ip port (sc_lottery (n_cookie (sb_net b)))) as [isn lot].
  pose proof (keeps_open k (n_tcp (sb_net b)) q lp ip port (fun c => mkConv CONV_SYN_SENT (cv_expected_seq c) isn (cv_our_fin_seq c)
    (cv_time_wait_started c) (cv_peer_window c) (cv_send_seq c)) Hinv Hk ltac:(done)) as Ho.
  pose proof (claim_generation lp ip port 6 _ k _ q Hib Hk) as Hg. pose proof (claim_tuple lp ip port 6 (box b)) as Ht.
  pose proof (claim_table lp ip port 6 (box b)) as Hoth.
  destruct (lockbox_claim lp ip port 6 (box b)) as [[res [id|]] x]; destruct Hg as [Hg Hg'].
  2:{ split; [split; [by apply (Ho 0%nat)|done| |done]|]; [|split; [by apply Ht|intros id; apply Ho]].
      intros i g Hi. specialize (Hacc i g Hi). specialize (Hg i). simpl. lia. }
  destruct Ho as (Hf0 & Hf1 & Hid & Hopen). set (n1 := set_tcp _ _). pose proof Hopen as [Hi1 Ho1].
  pose proof (dispatch_syn_keeps (k + 1) id (upd q id []) now isn mac our_ip n1 Hi1) as (Hk2 & Hx2 & Hr2).
  set (n2 := match conversation_dispatch_syn now id isn mac our_ip n1 with (Some p, n) => snd (present_last now p n) | (None, n) => n end).
  assert (n_tcp n2 = n_tcp (snd (conversation_dispatch_syn now id isn mac our_ip n1))) as E2.
  { unfold n2. destruct (conversation_dispatch_syn _ _ _ _ _ n1) as [[p|] n']; [apply present_last_tcp|done]. }
  rewrite <- E2 in *. pose proof (keeps_trans (k + 1) id _ q _ _ _ _ Hopen (fun _ => Hk2)) as [Hi3 Ho3]. split; [split|].
  - exact Hi3.
  - done.
  - intros i g Hi. simpl. rewrite Hx2. specialize (Hacc i g Hi). specialize (Hg i). simpl. lia.
  - done.
  - split; [done|]. split; [done|]. split.
    { simpl. rewrite Hr2. simpl. unfold rapport_initiate_connect. rewrite state_alter, decide_True by done.
      destruct (lookup_lt_is_Some_2 (tp_rapport (n_tcp (sb_net b))) id) as [c ->]; [|done].
      destruct (ti_rap _ _ _ Hinv) as (-> & _). done. }
    split; [exists lp; split; [done|]; split; [done|]; simpl; rewrite Hx2; exact Ht|].
    intros max. unfold switchboard_recv. destruct (Nat.leb_spec LOCKBOX_CAPACITY id); [lia|]. simpl.
    destruct (lookup_lt_is_Some_2 (sb_accepted_generation b) id) as [g Hgi]; [by rewrite Hlen|]. rewrite Hgi. simpl.
    destruct (Z.eqb_spec g (lockbox_get_generation id (tp_lockbox (n_tcp n2)))) as [Eg|]; [|done].
    rewrite Hx2 in Eg. simpl in Eg. specialize (Hacc id g Hgi). lia.
Qed.

(** Binding claims a slot for a listener. *)
Lemma bind_spec port protocol b k q : board_inv k b q -> k < 4294967295 ->
  let '(ok, b') := switchboard_bind port protocol b in exists q', board_inv (k + 1) b' q' /\
    (forall i, q' i = q i \/ (held (box b) i = false /\ q' i = [])).
Proof.
  intros [Hinv Hlen Hacc Heph] Hk. unfold switchboard_bind, lockbox_listen. pose proof Hinv as [Hib Hway Hr Hs].
  pose proof (inbox_claim_spec k _ _ q port [0;0;0;0] 0 protocol Hib Hk) as Hc.
  pose proof (claim_generation port [0;0;0;0] 0 protocol _ k _ q Hib Hk) as Hg.
  pose proof (fun j => held_claim port [0;0;0;0] 0 protocol (box b) j) as Hh.
  destruct (lockbox_claim port [0;0;0;0] 0 protocol (box b)) as [[res out] x]. destruct Hg as [Hg _]. eexists. split; [split|].
  - split; [exact Hc|done| |done]. destruct Hr as (R1 & R2 & R3). split; [done|]. split; [apply (lw_len x), Hc|].
    intros i Hi. specialize (R3 i Hi). specialize (Hh i). simpl. destruct out; [|by rewrite Hh].
    destruct Hh as (_ & _ & ->). rewrite R3. apply orb_true_r.
  - done.
  - intros i g Hi. specialize (Hacc i g Hi). specialize (Hg i). simpl. lia.
  - done.
  - intros i. destruct out as [j|]; [|by left]. unfold upd. case_decide; [|by left]. subst. right.
    destruct (Hh j) as (_ & ? & _). done.
Qed.

(** Reading leaves the table as it is, apart from the byte count of the slot. *)
Lemma inbox_read_box id max x ib out x' ib' : inbox_read id max x ib = Some (out, x', ib') ->
  (forall j, held x' j = held x j) /\ length (lx_table x') = length (lx_table x) /\ lx_generation x' = lx_generation x /\
  forall j, j <> id -> lx_table x' !! j = lx_table x !! j.
Proof.
  unfold inbox_read. destruct (ib !! id); [|by intros [= _ <- _]]. destruct (pop_n _ _ _ _) as [[? ?]|]; [|done].
  intros E. simpl in E. injection E as _ <- _. destruct (0 <? _)%nat; [|done]. unfold lockbox_consume, held. simpl.
  split; [intros j; by apply held_alter|]. split; [by rewrite length_alter|]. split; [done|]. intros j Hj. by rewrite list_lookup_alter_ne.
Qed.

Lemma keeps_read k id t q max : tcp_inv k t q ->
  exists x ib, inbox_read id max (tp_lockbox t) (tp_inbox t) = Some (take max (q id), x, ib) /\
    lx_generation x = lx_generation (tp_lockbox t) /\ keeps k id t q (set_tcp_inbox x ib t) (upd q id (drop max (q id))).
Proof.
  intros [Hib Hway Hr Hs]. destruct (inbox_read_spec k _ _ q id max Hib) as (x & ib & E & Hib').
  destruct (inbox_read_box _ _ _ _ _ _ _ E) as (H1 & H2 & H3 & H4). exists x, ib. split; [done|]. split; [done|]. split.
  - split; [exact Hib'|done| |done]. by apply (rap_inv_box _ _ (tp_lockbox t)).
  - intros j Hj. simpl. rewrite H4 by done. unfold upd. by rewrite decide_False.
Qed.

(** Receiving from a connection that was handed out takes the oldest bytes of
    its queue; any other slot is refused. *)
Lemma recv_spec id max b k q : board_inv k b q ->
  exists b', board_inv k b' (if bool_decide (sb_accepted_generation b !! id = Some (lockbox_get_generation id (box b)))
                             then upd q id (drop max (q id)) else q) /\
    switchboard_recv id max b =
      Some (if bool_decide (sb_accepted_generation b !! id = Some (lockbox_get_generation id (box b))) then take max (q id) else [], b').
Proof.
  intros Hb. pose proof Hb as [Hinv Hlen Hacc Heph]. unfold switchboard_recv.
  destruct (Nat.leb_spec LOCKBOX_CAPACITY id) as [Hout|Hin].
  { rewrite lookup_ge_None_2 by lia. rewrite bool_decide_false by done. eauto. }
  destruct (lookup_lt_is_Some_2 (sb_accepted_generation b) id) as [g Hg]; [by rewrite Hlen|]. rewrite Hg. cbn [mbind option_bind].
  destruct (Z.eqb_spec g (lockbox_get_generation id (box b))) as [->|Hne]; cbn [negb]; cbv iota.
  2:{ rewrite bool_decide_false by congruence. eauto. }
  rewrite bool_decide_true by done. destruct (keeps_read k id _ q max Hinv) as (x & ib & E & Hgen & [Hi' _]).
  rewrite E. cbn [mbind option_bind]. eexists. split; [|reflexivity]. split; [exact Hi'|done| |done].
  intros i g Hi. unfold lockbox_get_generation. simpl. rewrite Hgen. by apply Hacc.
Qed.

(** ** Accepting *)

(** The slots that wait to be accepted on a port, in the order they are handed out. *)
Definition acceptable (port : Z) b (i : nat) : bool :=
  from_option (on_port port 6) false (lx_table (box b) !! i) &&
  negb (bool_decide (sb_accepted_generation b !! i = Some (lockbox_get_generation i (box b)))) &&
  bool_decide (rapport_get_state i (tp_rapport (n_tcp (sb_net b))) = CONV_ESTABLISHED).
Definition waiting_from (port : Z) b (s : nat) : list nat := List.filter (acceptable port b) (seq s (LOCKBOX_CAPACITY - s)).
Definition accept_queue (port : Z) b : list nat := waiting_from port b 0.

Lemma filter_none {A} (p : A -> bool) l : (forall x, x ∈ l -> p x = false) -> List.filter p l = [].
Proof. intros Hp. induction l as [|x l IH]; [done|]. simpl. rewrite (Hp x) by (by left). apply IH. intros y Hy. apply Hp. by right. Qed.

Lemma waiting_skip port b s i : (s <= i <= LOCKBOX_CAPACITY)%nat -> (forall j, (s <= j < i)%nat -> acceptable port b j = false) ->
  waiting_from port b s = waiting_from port b i.
Proof.
  intros Hi Hno. unfold waiting_from. replace (LOCKBOX_CAPACITY - s)%nat with ((i - s) + (LOCKBOX_CAPACITY - i))%nat by lia.
  rewrite seq_app, List.filter_app. replace (s + (i - s))%nat with i by lia. rewrite filter_none; [done|].
  intros j Hj%elem_of_seq. apply Hno. lia.
Qed.

Lemma waiting_from_step port b i : (i < LOCKBOX_CAPACITY)%nat ->
  waiting_from port b i = if acceptable port b i then i :: waiting_from port b (S i) else waiting_from port b (S i).
Proof.
  intros Hi. unfold waiting_from. replace (LOCKBOX_CAPACITY - i)%nat with (S (LOCKBOX_CAPACITY - S i)) by lia. cbn [seq].
  done.
Qed.

(** The slot after which the search of a round starts. *)
Definition start_of (id : nat) : nat := if (LOCKBOX_CAPACITY <=? id)%nat then 0%nat else S id.

Lemma next_for_port_spec port b id : length (lx_table (box b)) = LOCKBOX_CAPACITY ->
  let i := lockbox_next_for_port port 6 id (box b) in
  waiting_from port b (start_of id) = waiting_from port b i /\
  (i = LOCKBOX_CAPACITY \/ (start_of id <= i < LOCKBOX_CAPACITY)%nat /\ from_option (on_port port 6) false (lx_table (box b) !! i) = true).
Proof.
  intros Hl. unfold lockbox_next_for_port. set (s := if (LOCKBOX_CAPACITY <=? id)%nat then _ else _).
  assert (s = start_of id) as Es by (unfold s, start_of; case_match; lia). rewrite <- Es.
  assert (s <= LOCKBOX_CAPACITY)%nat as Hs by (unfold s; destruct (Nat.leb_spec LOCKBOX_CAPACITY id); lia).
  clearbody s. clear Es. destruct (find_idx _ _) as [j|] eqn:E; simpl.
  - apply find_idx_Some in E as (e & He & Hp & Hno). rewrite lookup_drop in He. pose proof (lookup_lt_Some _ _ _ He). split.
    + apply waiting_skip; [lia|]. intros i Hi. unfold acceptable.
      destruct (lx_table (box b) !! i) as [e'|] eqn:He'; [|done]. simpl.
      rewrite (Hno (i - s)%nat e'); [done|lia|]. rewrite lookup_drop. by replace (s + (i - s))%nat with i by lia.
    + right. split; [lia|]. rewrite He. done.
  - split; [|by left]. apply waiting_skip; [lia|]. intros i Hi. unfold acceptable.
    destruct (lx_table (box b) !! i) as [e'|] eqn:He'; [|done]. simpl. rewrite find_idx_None in E.
    rewrite (E (i - s)%nat e'); [done|]. rewrite lookup_drop. by replace (s + (i - s))%nat with i by lia.
Qed.

Lemma accept_loop_spec port b fuel : length (lx_table (box b)) = LOCKBOX_CAPACITY -> length (sb_accepted_generation b) = LOCKBOX_CAPACITY ->
  forall id, (LOCKBOX_CAPACITY - start_of id <= fuel)%nat ->
  accept_loop fuel port id b =
    match waiting_from port b (start_of id) with
    | [] => Some (None, b)
    | i :: _ => Some (Some i, mkBoard (sb_net b) (sb_next_ephemeral b)
                  (<[i := lockbox_get_generation i (box b)]> (sb_accepted_generation b)))
    end.
Proof.
  intros Hl Ha. induction fuel as [|fuel IH]; intros id Hf; cbn [accept_loop];
    destruct (next_for_port_spec port b id Hl) as [-> [->|[Hi Hon]]].
  - done.
  - lia.
  - done.
  - set (i := lockbox_next_for_port port 6 id (box b)) in *. destruct (Nat.eqb_spec i LOCKBOX_CAPACITY); [lia|].
    destruct (lookup_lt_is_Some_2 (sb_accepted_generation b) i) as [g Hg]; [lia|]. rewrite Hg. cbn [mbind option_bind].
    rewrite waiting_from_step by lia.
    assert (acceptable port b i = negb (g =? lockbox_get_generation i (box b)) &&
      bool_decide (rapport_get_state i (tp_rapport (n_tcp (sb_net b))) = CONV_ESTABLISHED)) as ->.
    { unfold acceptable. rewrite Hon, Hg. simpl. f_equal. f_equal. case_bool_decide as Hd; [injection Hd as ->; by rewrite Z.eqb_refl|].
      symmetry. apply Z.eqb_neq. congruence. }
    destruct (_ && _); [done|]. assert (start_of i = S i) as E by (unfold start_of; destruct (Nat.leb_spec LOCKBOX_CAPACITY i); lia).
    rewrite <- E. apply IH. lia.
Qed.

Lemma filter_ext_seq (f g : nat -> bool) l : (forall i, i ∈ l -> f i = g i) -> List.filter f l = List.filter g l.
Proof.
  intros E. induction l as [|x l IH]; [done|]. simpl. rewrite (E x) by (by left). rewrite IH; [done|].
  intros i Hi. apply E. by right.
Qed.

(** Handing out slot [i] removes exactly [i] from its queue. *)
Lemma acceptable_after port b i j : length (sb_accepted_generation b) = LOCKBOX_CAPACITY -> (i < LOCKBOX_CAPACITY)%nat ->
  acceptable port (mkBoard (sb_net b) (sb_next_ephemeral b)
    (<[i := lockbox_get_generation i (box b)]> (sb_accepted_generation b))) j = negb (j =? i)%nat && acceptable port b j.
Proof.
  intros Hl Hi. unfold acceptable. simpl. destruct (Nat.eqb_spec j i) as [->|Hj]; simpl.
  - rewrite list_lookup_insert_eq by lia. rewrite bool_decide_true by done. simpl. by rewrite andb_false_r.
  - by rewrite list_lookup_insert_ne.
Qed.

Lemma accept_queue_head port b i l : accept_queue port b = i :: l ->
  (i < LOCKBOX_CAPACITY)%nat /\ acceptable port b i = true /\ (forall j, (j < i)%nat -> acceptable port b j = false) /\ l = waiting_from port b (S i).
Proof.
  unfold accept_queue. intros E. assert (forall d s, (s + d = LOCKBOX_CAPACITY)%nat -> waiting_from port b s = i :: l ->
    (s <= i < LOCKBOX_CAPACITY)%nat /\ acceptable port b i = true /\ (forall j, (s <= j < i)%nat -> acceptable port b j = false) /\
    l = waiting_from port b (S i)) as Hgo.
  { clear E. induction d as [|d IH]; intros s Hs E; [unfold waiting_from in E; by replace (LOCKBOX_CAPACITY - s)%nat with 0%nat in E by lia|].
    rewrite waiting_from_step in E by lia. destruct (acceptable port b s) eqn:Ha.
    - injection E as <- <-. split; [lia|]. split; [done|]. split; [intros; lia|done].
    - destruct (IH (S s) ltac:(lia) E) as (? & ? & Hno & ?). split; [lia|]. split; [done|]. split; [|done].
      intros j Hj. destruct (decide (j = s)) as [->|]; [done|]. apply Hno. lia. }
  destruct (Hgo LOCKBOX_CAPACITY 0%nat (Nat.add_0_l _) E) as (? & ? & Hno & ?). split; [lia|]. split; [done|]. split; [|done].
  intros j Hj. apply Hno. lia.
Qed.

Lemma accept_spec port b k q : board_inv k b q ->
  exists b', switchboard_accept port b = Some (head (accept_queue port b), b') /\ board_inv k b' q /\ sb_net b' = sb_net b /\
    accept_queue port b' = tail (accept_queue port b) /\
    forall port', port' <> port -> accept_queue port' b' = accept_queue port' b.
Proof.
  intros Hb. pose proof Hb as [Hinv Hlen Hacc Heph]. pose proof (ii_box _ _ _ _ (ti_inbox _ _ _ Hinv)) as Hwf.
  unfold switchboard_accept. rewrite accept_loop_spec; [|apply Hwf|done|lia].
  assert (start_of LOCKBOX_CAPACITY = 0%nat) as -> by done. unfold accept_queue.
  destruct (waiting_from port b 0) as [|i l] eqn:Eq; [exists b; rewrite Eq; by split_and!|].
  destruct (accept_queue_head port b i l Eq) as (Hi & Ha & Hno & ->). eexists. split; [reflexivity|]. split; [split|].
  - done.
  - simpl. by rewrite length_insert.
  - simpl. intros j g. rewrite list_lookup_insert. case_decide as Hd; [|apply Hacc]. destruct Hd as [-> _]. intros [= <-].
    destruct (lookup_lt_is_Some_2 (sb_accepted_generation b) j) as [g Hg]; [lia|]. specialize (Hacc j g Hg). lia.
  - done.
  - split; [done|]. split.
    + rewrite (waiting_skip _ _ 0 i), waiting_from_step, acceptable_after, Nat.eqb_refl; simpl; try done; try lia.
      * apply filter_ext_seq. intros j Hj%elem_of_seq. rewrite acceptable_after by done. destruct (Nat.eqb_spec j i); [lia|done].
      * intros j Hj. rewrite acceptable_after by done. rewrite Hno by lia. apply andb_false_r.
    + intros port' Hne. apply filter_ext_seq. intros j _. rewrite acceptable_after by done.
      destruct (Nat.eqb_spec j i) as [->|]; [|done]. simpl. symmetry. unfold acceptable in *.
      destruct (lx_table (box b) !! i) as [e|]; [|done]. simpl in *. breflect.
      unfold on_port in *. breflect. destruct (Z.eqb_spec (lb_local_port e) port'); [congruence|]. by rewrite andb_false_r.
Qed.

(** ** Sending and closing keep the stack consistent *)

Lemma net_why_sending now id r n : tcp_conns (n_tcp (net_why now id r n)) = tcp_conns (n_tcp n).
Proof. done. Qed.

Lemma dispatch_data_keeps k id q now data our_mac our_ip n : tcp_inv k (n_tcp n) q ->
  keeps k id (n_tcp n) q (n_tcp (snd (conversation_dispatch_data now id data our_mac our_ip n))) q.
Proof.
  intros Hinv. unfold conversation_dispatch_data. pose proof (keeps_refl k id _ q Hinv) as Hrefl.
  destruct (_ || _); [done|]. destruct (negb (bool_decide _)); [done|]. destruct (_ =? _)%nat; [by apply net_why_keeps|].
  destruct (negb _); [by apply net_why_keeps|].
  set (seq := rapport_get_send_seq _ _). set (ack := rapport_get_expected_seq _ _).
  pose proof (dispatch_keeps k id q now FLAG_ACK seq ack data our_mac our_ip n Hinv) as Hd.
  destruct (conversation_dispatch now id FLAG_ACK seq ack data our_mac our_ip n) as [[pass|] n1]; [|done]. simpl in *.
  eapply keeps_trans; [exact Hd|]. intros H1. eapply keeps_trans; [by apply (track_last_keeps k id q now seq (zlen data) n1)|].
  intros H2. by apply (keeps_rapport k id _ q H2).
Qed.

Lemma dispatch_fin_keeps k id q now our_mac our_ip n : tcp_inv k (n_tcp n) q ->
  keeps k id (n_tcp n) q (n_tcp (snd (conversation_dispatch_fin now id our_mac our_ip n))) q.
Proof.
  intros Hinv. unfold conversation_dispatch_fin. pose proof (keeps_refl k id _ q Hinv) as Hrefl.
  destruct (negb _ && negb _) eqn:Hst; [done|]. destruct (_ <? _); [by apply net_why_keeps|].
  set (seq := rapport_get_send_seq _ _). set (ack := rapport_get_expected_seq _ _).
  pose proof (dispatch_keeps k id q now (Z.lor FLAG_FIN FLAG_ACK) seq ack [] our_mac our_ip n Hinv) as Hd.
  destruct (conversation_dispatch now id _ seq ack [] our_mac our_ip n) as [[pass|] n1]; [|done]. simpl in *.
  eapply keeps_trans; [exact Hd|]. intros H1. eapply keeps_trans; [by apply (track_last_keeps k id q now seq 1 n1)|].
  intros H2. eapply keeps_trans; [apply (keeps_rapport k id _ q H2 (fun c => mkConv (cv_status c) (cv_expected_seq c) (cv_our_isn c)
    (cv_our_fin_seq c) (cv_time_wait_started c) (cv_peer_window c) (cv_send_seq c +32 1))); by intros c|]. intros H3.
  apply (keeps_rapport k id _ q H3 (conv_initiate_close seq)). intros c _ Hc. unfold conv_initiate_close. cbn [cv_status]. by rewrite Hc.
Qed.

Lemma lockbox_generation_keep k id b q n' q' : board_inv k b q -> keeps k id (n_tcp (sb_net b)) q (n_tcp n') q' ->
  lx_generation (tp_lockbox (n_tcp n')) = lx_generation (box b) -> board_inv k (set_board_net n' b) q'.
Proof. intros [Hi Hl Ha He] [Hi' _] Hg. split; [done|done| |done]. intros i g Hig. unfold lockbox_get_generation. simpl. rewrite Hg. by apply Ha. Qed.
End Frame.

(** Connecting takes a fresh port and disturbs nobody.  From any consistent
    state an ephemeral port (49152 to 65535) on which no TCP slot exists is
    always found, so a connection is refused only when the remote address
    already has eight slots or the table is full.  On success the slot returned
    was free, now belongs to (that port, the destination) in state SYN_SENT with
    an empty queue, and every other connection is exactly as before; and the new
    connection cannot be read from, since only accepted connections can. *)
Lemma switchboard_connect_fresh `{TxDriver D} now ip port mac our_ip (b : board D) k q :
  board_inv k b q -> k < 4294967295 ->
  let '(out, b') := switchboard_connect now ip port mac our_ip b in
  board_inv (k + 1) b' (match out with Some id => upd q id [] | None => q end) /\
  match out with
  | None => ((LOCKBOX_MAX_PER_IP <= count_for_ip ip (lx_table (box b)))%nat \/ find_free (lx_table (box b)) = None) /\
      forall id, others id (n_tcp (sb_net b)) q (n_tcp (sb_net b')) q
  | Some id => held (box b) id = false /\ others id (n_tcp (sb_net b)) q (n_tcp (sb_net b')) (upd q id []) /\
      rapport_get_state id (tp_rapport (n_tcp (sb_net b'))) = CONV_SYN_SENT /\
      (exists lp, is_ephemeral lp /\ port_free lp (box b) /\ lockbox_get_tuple id (box b') = Some (lp, ip, port)) /\
      forall max, switchboard_recv id max b' = Some ([], b')
  end.
Proof. intros Hb Hk. exact (connect_spec now ip port mac our_ip b k q Hb Hk). Qed.

Lemma board_inv_boot {D} (n : net D) k q : tcp_inv k (n_tcp n) q -> (forall i, 0 <= lockbox_get_generation i (tp_lockbox (n_tcp n))) ->
  board_inv k (board_boot n) q.
Proof.
  intros Hinv Hg. split; [done|done| |unfold is_ephemeral, EPHEMERAL_PORT_LOW, EPHEMERAL_PORT_HIGH; simpl; unfold EPHEMERAL_PORT_LOW; lia].
  intros i g. unfold board_boot. cbn [sb_accepted_generation]. intros [-> _]%lookup_replicate. split; [done|apply Hg].
Qed.

Lemma generation_nonneg (x : lockbox) : forallb (fun g => 0 <=? g) (lx_generation x) = true -> forall i, 0 <= lockbox_get_generation i x.
Proof.
  intros Hall i. unfold lockbox_get_generation. destruct (lx_generation x !! i) as [g|] eqn:E; simpl; [|lia].
  rewrite forallb_forall in Hall. apply Z.leb_le, Hall. by apply list_elem_of_In, (list_elem_of_lookup_2 _ i).
Qed.

(** The first connection of a fresh host: slot 0. *)
Lemma switchboard_connect_fresh_witness : exists b',
  switchboard_connect 5 [10;0;2;2] 80 [1;1;1;1;1;1] [10;0;2;15] (board_boot (net_boot (@nil (list Z)) [1;1;1;1;1;1])) = (Some 0%nat, b') /\
  rapport_get_state 0 (tp_rapport (n_tcp (sb_net b'))) = CONV_SYN_SENT /\ switchboard_recv 0 100 b' = Some ([], b').
Proof.
  pose proof (switchboard_connect_fresh 5 [10;0;2;2] 80 [1;1;1;1;1;1] [10;0;2;15]
    (board_boot (net_boot (@nil (list Z)) [1;1;1;1;1;1])) 0 (fun _ => [])) as Hc.
  assert (fst (switchboard_connect 5 [10;0;2;2] 80 [1;1;1;1;1;1] [10;0;2;15]
    (board_boot (net_boot (@nil (list Z)) [1;1;1;1;1;1]))) = Some 0%nat) as Ef by (vm_compute; reflexivity).
  destruct (switchboard_connect 5 _ 80 _ _ _) as [out b']. simpl in Ef. subst out.
  destruct Hc as (_ & _ & _ & Hs & _ & Hr); [|lia|exists b'; split; [reflexivity|]; split; [exact Hs|apply Hr]].
  apply board_inv_boot; [apply tcp_inv_init|]. apply generation_nonneg. vm_compute. reflexivity.
Defined.

(** Every established connection is accepted exactly once.  The slots on a
    port that are established and were not handed out yet form a queue in slot
    order; [switchboard_accept] always finishes, returns the head of that queue
    (or nothing when it is empty) and removes exactly it, leaving the queues of
    the other ports and the network untouched. *)
Lemma switchboard_accept_once {D} port (b : board D) k q : board_inv k b q ->
  exists b', switchboard_accept port b = Some (head (accept_queue port b), b') /\ board_inv k b' q /\ sb_net b' = sb_net b /\
    accept_queue port b' = tail (accept_queue port b) /\
    forall port', port' <> port -> accept_queue port' b' = accept_queue port' b.
Proof. apply accept_spec. Qed.

Lemma switchboard_accept_once_witness : exists b', switchboard_accept 80 (board_boot tcp_host) = Some (Some 0%nat, b') /\ accept_queue 80 b' = [].
Proof.
  destruct (switchboard_accept_once 80 (board_boot tcp_host) 1 (upd (fun _ => []) 0 [])) as (b' & E & _ & _ & Ht & _).
  - apply board_inv_boot; [exact tcp_one_inv|]. apply generation_nonneg. vm_compute. reflexivity.
  - assert (accept_queue 80 (board_boot tcp_host) = [0%nat]) as Eq by (vm_compute; reflexivity).
    rewrite Eq in E, Ht. exists b'. split; [exact E|exact Ht].
Defined.
