(* ===== verification/Reception.v ===== *)
(** * From the driver to the protocols

    [Networking/mailroom/mailroom.c] dispatches frames by EtherType,
    [frontdesk_deliver] of [Networking/FrontDesk/frontdest.c] is what the driver
    calls for every received frame, [Networking/Ledger/ledger.c] gathers the
    counters.  A [host] is the whole IPv4 side of the kernel's network code. *)

From S2P Require Import Prelude SlotTable GuestList Ids RateLimit Sentry Bailiff Ring Rolodex Foyer Atlas.
From S2P Require Import LockBox Inbox Why Scheduler Rapport Transport TcpInv Checksum Echo.
From S2P Require Import Compass Postcard Conversation SwitchBoard.
Import GuestList Menu Ids Curfew WatchList Atlas Bouncer Inbox Postbox Why Lottery SynCookie.

Definition ETHERTYPE_OFFSET : Z := 12.
Definition ETH_HEADER_SIZE : nat := 14.
Definition MIN_ETHERTYPE : Z := 0x0600.
Definition ETHERTYPE_VLAN : Z := 0x8100.

Inductive mail_result := MAIL_DELIVERED | MAIL_UNKNOWN_TYPE | MAIL_LEGACY_REJECTED.
#[export] Instance mail_result_eq : EqDecision mail_result.
Proof. solve_decision. Defined.

(** [h_mail] is (delivered_count, undelivered_count). *)
Record host (D : Type) := mkHost {
  h_board : board D; h_bouncer : bouncer; h_watch : watchlist; h_mail : Z * Z; h_packets_received : Z }.
Arguments mkHost {D} _ _ _ _ _.
Arguments h_board {D} _.
Arguments h_bouncer {D} _.
Arguments h_watch {D} _.
Arguments h_mail {D} _.
Arguments h_packets_received {D} _.

Notation h_net h := (sb_net (h_board h)).

Definition set_h_board {D} (b : board D) (h : host D) : host D :=
  mkHost b (h_bouncer h) (h_watch h) (h_mail h) (h_packets_received h).
Definition set_h_net {D} (n : net D) (h : host D) : host D := set_h_board (set_board_net n (h_board h)) h.
Definition set_h_mail {D} (m : Z * Z) (h : host D) : host D :=
  mkHost (h_board h) (h_bouncer h) (h_watch h) m (h_packets_received h).
Definition set_h_watch {D} (w : watchlist) (h : host D) : host D :=
  mkHost (h_board h) (h_bouncer h) w (h_mail h) (h_packets_received h).
Definition set_h_bouncer {D} (b : bouncer) (h : host D) : host D :=
  mkHost (h_board h) b (h_watch h) (h_mail h) (h_packets_received h).
Definition h_receive {D} (h : host D) : host D :=
  mkHost (h_board h) (h_bouncer h) (h_watch h) (h_mail h) (h_packets_received h +32 1).

Definition host_boot {D} (d : D) (mac : list Z) : host D :=
  mkHost (board_boot (net_boot d mac)) bouncer_init watchlist_init (0, 0) 0.

Definition mailroom_log_count {D} (h : host D) : Z := fst (h_mail h) +32 snd (h_mail h).
Definition mailroom_undelivered_count {D} (h : host D) : Z := snd (h_mail h).

(** A directory entry: EtherType and handler (payload, source address). *)
Notation department D := (list Z -> list Z -> host D -> option (host D)).

Fixpoint find_department {D} (directory : list (Z * department D)) (ethertype : Z) : option (department D) :=
  match directory with
  | [] => None
  | (t, handler) :: rest => if t =? ethertype then Some handler else find_department rest ethertype
  end.

Definition mailroom_deliver {D} (directory : list (Z * department D)) (frame : list Z) (h : host D)
    : option (mail_result * host D) :=
  b12 ← rd frame ETHERTYPE_OFFSET; b13 ← rd frame (ETHERTYPE_OFFSET + 1);
  let ethertype := be16 b12 b13 in
  if (ethertype <? MIN_ETHERTYPE) || (ethertype =? ETHERTYPE_VLAN)
  then Some (MAIL_LEGACY_REJECTED, set_h_mail (count_reject (h_mail h)) h)
  else match find_department directory ethertype with
  | Some handler =>
      src_mac ← slice frame 6 6;
      h ← handler (drop ETH_HEADER_SIZE frame) src_mac h;
      Some (MAIL_DELIVERED, set_h_mail (count_accept (h_mail h)) h)
  | None => Some (MAIL_UNKNOWN_TYPE, set_h_mail (count_reject (h_mail h)) h)
  end.

(** [watchlist_strike] with the hooks and the log of this host. *)
Definition h_strike {D} (now : Z) (src : list Z) (h : host D) : host D :=
  let g := n_guard (h_net h) in
  let '(_, (w, a)) := watchlist_strike (gd_hooks g) now src (h_watch h, gd_audit g) in
  set_h_watch w (set_h_net (set_guard (set_audit a g) (h_net h)) h).

Definition frontdesk_deliver {D} (now : Z) (directory : list (Z * department D)) (frame : list Z) (h : host D)
    : option (host D) :=
  verdict ← bouncer_check frame (n_mac (h_net h));
  let dest := if 6 <=? zlen frame then slice frame 0 6 else None in
  let src := if 12 <=? zlen frame then slice frame 6 6 else None in
  let h := set_h_bouncer (bouncer_log now verdict (zlen frame) dest src (h_bouncer h)) h in
  if bool_decide (verdict = BOUNCE_ACCEPT) then
    let '(flagged, h) := match src with
                         | Some mac => let '(f, w) := watchlist_is_flagged now mac (h_watch h) in (f, set_h_watch w h)
                         | None => (false, h)
                         end in
    if negb flagged then '(_, h) ← mailroom_deliver directory frame (h_receive h); Some h
    else Some (set_h_watch (watchlist_note_dropped (h_watch h)) h)
  else match src with
       | Some mac => Some (h_strike now mac h)
       | None => Some h
       end.

(** ** The departments of the IPv4 side *)

Section Departments.
Context `{TxDriver D}.

(** Echo as an entry of the protocol directory. *)
Definition echo_department (segment : list Z) (src dst : ip4) (n : net D) : option (net D) :=
  e ← echo_handle segment src (n_echo n); Some (set_echo e n).

Definition ip_directory (now : Z) : list (Z * ip_handler D) :=
  [(6, conversation_handle now); (1, echo_department); (17, postcard_handle now)].

Definition compass_department (now : Z) : department D := fun payload src_mac h =>
  n ← compass_handle now (ip_directory now) payload src_mac (h_net h); Some (set_h_net n h).

Definition rolodex_department (now : Z) : department D := fun payload src_mac h =>
  r ← rolodex_handle now payload src_mac (lk_rolodex (n_link (h_net h)));
  Some (set_h_net (set_net_rolodex r (h_net h)) h).

Definition ipv4_directory (now : Z) : list (Z * department D) :=
  [(0x0800, compass_department now); (0x0806, rolodex_department now)].

(** The IPv4 part of [concierge_tick]. *)
Definition concierge_tick_ipv4 (now : Z) (our_mac : list Z) (n : net D) : net D :=
  let n := set_tcp (set_conns (rapport_tick now (tcp_conns (n_tcp n))) (n_tcp n)) n in
  let '(t, l) := scheduler_tick now (n_tcp n, n_link n) in
  let n := set_link l (set_tcp t n) in
  let n := set_link (foyer_tick now our_mac (n_link n)) n in
  set_guard (set_guests (guestlist_tick now (gd_guests (n_guard n))) (n_guard n)) n.
End Departments.

(** ** The ledger *)

Record ledger := mkLedger {
  ip_accepted : Z; ip_rejected : Z; tcp_accepted : Z; tcp_rejected : Z; udp_accepted : Z; udp_rejected : Z;
  icmp_accepted : Z; icmp_rejected : Z; l_curfew_denied : Z; l_rolodex_contradiction : Z; l_rolodex_entries : Z;
  l_guestlist_entries : Z; l_menu_entries : Z; l_bailiff_denied : Z; l_bailiff_transmitted : Z; l_lockbox_active : Z;
  l_scheduler_retransmit : Z; l_scheduler_gaveup : Z }.

Definition ledger_snapshot {D} (n : net D) : ledger :=
  let g := n_guard n in
  let l := n_link n in
  let t := n_tcp n in
  mkLedger (compass_accepted_count n) (compass_rejected_count n) (tcp_accepted_count n) (tcp_rejected_count n)
    (postcard_accepted_count n) (postcard_rejected_count n) (echo_accepted_count (n_echo n)) (echo_rejected_count (n_echo n))
    (curfew_denied_count (gd_curfew g)) (rolodex_contradiction_count (lk_rolodex l)) (rolodex_count (lk_rolodex l))
    (guestlist_count (gd_guests g)) (menu_count (n_menu n)) (bailiff_denied_count (lk_bailiff l))
    (bailiff_transmitted_count (lk_bailiff l)) (lockbox_active_count (tp_lockbox t))
    (scheduler_retransmit_count (tp_sched t)) (scheduler_giveup_count (tp_sched t)).

(** ** What each handler leaves alone *)

Section Still.
Context `{TxDriver D}.
Implicit Types (n : net D).

(** The parts a TCP segment does not touch. *)
Definition still n n' : Prop :=
  n_postbox n' = n_postbox n /\ n_echo n' = n_echo n /\ n_menu n' = n_menu n /\ n_mac n' = n_mac n.

(** The generations of the slots. *)
Notation gens n := (lx_generation (tp_lockbox (n_tcp n))).

Lemma still_refl n : still n n.
Proof. done. Qed.
Lemma still_trans n1 n2 n3 : still n1 n2 -> still n2 n3 -> still n1 n3.
Proof. intros (A1 & A2 & A3 & A4) (B1 & B2 & B3 & B4). unfold still. by rewrite B1, B2, B3, B4. Qed.

Lemma compass_admit_frame now payload src_mac n o n' : compass_admit now payload src_mac n = Some (o, n') ->
  still n n' /\ n_tcp n' = n_tcp n /\ gd_sentry (n_guard n') = gd_sentry (n_guard n).
Proof.
  unfold compass_admit. intros E. destruct (compass_check payload) as [v|]; [|done]. cbn [mbind option_bind] in E.
  destruct (negb _).
  { destruct (if _ <=? _ then _ else _) as [g|] eqn:Hg; [|done]. simpl in E. injection E as _ <-. split; [done|]. split; [done|]. simpl.
    destruct (_ <=? _); [|by injection Hg as <-]. destruct (slice payload 12 4); [|done]. by injection Hg as <-. }
  destruct (rd payload 9) as [pr|]; [|done]. destruct (slice payload 12 4) as [src|]; [|done].
  destruct (slice payload 16 4) as [dst|]; [|done]. cbn [mbind option_bind] in E.
  assert (forall verdict, (let '(pass, g) := compass_limit now verdict src (n_guard n) in
        if negb pass then
          Some (IpDrop, compass_reject (set_guard (guard_notify now IDS_EVENT_CURFEW_REJECT (Some src) g) n))
        else if rolodex_disputed src (lk_rolodex (n_link n)) then
          Some (IpDrop, compass_reject (set_guard (guard_notify now IDS_EVENT_ROLODEX_DISPUTED (Some src) g) n))
        else compass_deliver now payload src_mac pr src dst (set_guard g n)) = Some (o, n') ->
    still n n' /\ n_tcp n' = n_tcp n /\ gd_sentry (n_guard n') = gd_sentry (n_guard n)) as Hgo.
  { intros verdict. pose proof (compass_limit_spec now verdict src (n_guard n)) as Hl.
    destruct (compass_limit now verdict src (n_guard n)) as [pass g]. destruct Hl as (_ & Hs & _).
    destruct (negb pass); [by intros [= _ <-]|]. destruct (rolodex_disputed _ _); [by intros [= _ <-]|].
    unfold compass_deliver. destruct (rd payload 0); [|done]. destruct (rd payload 2); [|done]. destruct (rd payload 3); [|done].
    cbn [mbind option_bind]. destruct (slice _ _ _); [|done]. cbn [mbind option_bind]. by intros [= _ <-]. }
  destruct (guestlist_check src _); [by eapply Hgo|by eapply Hgo|]. by injection E as _ <-.
Qed.

Lemma dispatch_syn_ack_still now id our_mac our_ip n :
  still n (snd (conversation_dispatch_syn_ack now id our_mac our_ip n)) /\
  gens (snd (conversation_dispatch_syn_ack now id our_mac our_ip n)) = gens n.
Proof.
  unfold conversation_dispatch_syn_ack.
  match goal with |- context [conversation_dispatch ?a ?b ?c ?d ?e ?f ?g ?h n] =>
    pose proof (dispatch_sending a b c d e f g h n) as (Hc & _ & H1 & H2 & H3 & H4 & _);
    destruct (conversation_dispatch a b c d e f g h n) as [[pass|] n1] end;
  simpl in *; unfold tcp_conns in Hc; injection Hc as _ _ Hx; by rewrite Hx.
Qed.

Lemma net_sched_ack_still now id a n : still n (net_sched_ack now id a n) /\ gens (net_sched_ack now id a n) = gens n.
Proof. unfold net_sched_ack. by destruct (scheduler_ack _ _ _ _) as [[? ?] ?]. Qed.

Lemma inbox_deposit_gens id data x ib : lx_generation (inbox_deposit id data x ib).1.2 = lx_generation x.
Proof.
  unfold inbox_deposit. destruct (ib !! id); [|done].
  assert (lx_generation (lockbox_deposit id (zlen data) x).2 = lx_generation x) as E by (unfold lockbox_deposit; by repeat case_match).
  destruct (lockbox_deposit id (zlen data) x) as [[] x']; simpl in *; [|done]. by destruct (push_all _ _ _ _).
Qed.

Lemma drain_loop_gens fuel id : forall row x ib r drained row' x' ib' r' d,
  drain_loop fuel id row x ib r drained = Some (row', x', ib', r', d) -> lx_generation x' = lx_generation x.
Proof.
  induction fuel as [|fuel IH]; intros row x ib r drained row' x' ib' r' d; cbn [drain_loop]; [done|].
  destruct (find_idx _ row) as [i|]; [|by intros [= _ <- _ _ _]]. destruct (row !! i) as [h|]; [|by intros [= _ <- _ _ _]].
  pose proof (inbox_deposit_gens id (hs_data h) x ib) as Hd. destruct (inbox_deposit id (hs_data h) x ib) as [[ok x1] ib1]. simpl in Hd.
  destruct ok; cbn [negb]; cbv iota; [intros ->%IH; done|by intros [= _ <- _ _ _]].
Qed.

Lemma deposit_data_still id data n n' : deposit_data id data n = Some n' -> still n n' /\ gens n' = gens n.
Proof.
  unfold deposit_data. destruct (_ <? _); [|by intros [= <-]].
  pose proof (inbox_deposit_gens id data (tp_lockbox (n_tcp n)) (tp_inbox (n_tcp n))) as Hg.
  destruct (inbox_deposit _ _ _ _) as [[[] x] ib]; simpl in Hg; [|by intros [= <-]].
  unfold waystation_drain. destruct (tp_way _ !! id); [|by intros [= <-]].
  destruct (drain_loop _ _ _ _ _ _ _) as [[[[[row x1] ib1] r1] d1]|] eqn:E; [|done].
  apply drain_loop_gens in E. simpl in E. intros [= <-]. split; [done|]. simpl. by rewrite E.
Qed.

Lemma close_gens id st : lx_generation (close_slot id st).2 = lx_generation st.2.
Proof. by destruct st as [[r s] x]. Qed.

Lemma on_ack_gens now id a t : lx_generation (tp_lockbox (set_conns (rapport_on_ack now id a (tcp_conns t)) t)) = lx_generation (tp_lockbox t).
Proof.
  unfold rapport_on_ack, tcp_conns. destruct (tp_rapport t !! id) as [c|]; [|done].
  destruct (cv_status c); try done; [destruct (negb _)|destruct (_ <=? _)|destruct (_ <=? _)|destruct (_ <=? _)]; done.
Qed.

Lemma on_rst_gens id t : lx_generation (tp_lockbox (tcp_on_rst id t)) = lx_generation (tp_lockbox t).
Proof. unfold tcp_on_rst, rapport_on_rst. destruct (tp_rapport t !! id); [|done]. by case_bool_decide. Qed.

Lemma handle_unexpected_still now id seq flags ack data n :
  still n (handle_unexpected now id seq flags ack data n) /\ gens (handle_unexpected now id seq flags ack data n) = gens n.
Proof.
  unfold handle_unexpected. set (n1 := if has_flag FLAG_ACK flags && _ then _ else n).
  assert (still n n1 /\ gens n1 = gens n) as [H1 H2] by (unfold n1; destruct (_ && _); [apply net_sched_ack_still|done]).
  destruct (rapport_seq_is_stale_retransmit _ _ _ _); [done|]. by destruct (0 <? zlen data).
Qed.

Lemma handle_known_still now id payload seq flags n n' : handle_known now id payload seq flags n = Some n' ->
  still n n' /\ gens n' = gens n.
Proof.
  unfold handle_known, handle_data. intros E.
  destruct (rd payload 12); [|done]. cbn [mbind option_bind] in E.
  destruct (rd payload 14); [|done]. cbn [mbind option_bind] in E.
  destruct (rd payload 15); [|done]. cbn [mbind option_bind] in E.
  destruct (rd32 payload 8) as [ack|]; [|done]. cbn [mbind option_bind] in E.
  destruct (slice _ _ _) as [data|]; [|done]. cbn [mbind option_bind] in E. cbn zeta in E. revert E.
  set (n1 := set_tcp (set_tcp_rapport _ _) n). assert (still n n1 /\ gens n1 = gens n) as [S1 G1] by done. clearbody n1.
  destruct (negb _).
  { intros [= <-]. destruct (handle_unexpected_still now id seq flags ack data n1) as [S2 G2]. split; [by eapply still_trans|congruence]. }
  destruct (has_flag FLAG_RST flags).
  { intros [= <-]. split; [done|]. simpl. rewrite on_rst_gens. done. }
  set (n2 := if has_flag FLAG_ACK flags then _ else n1).
  assert (still n n2 /\ gens n2 = gens n) as [S2 G2].
  { unfold n2. destruct (has_flag FLAG_ACK flags); [|done].
    match goal with |- context [net_sched_ack now id ack ?m] => destruct (net_sched_ack_still now id ack m) as [S3 G3] end.
    split; [by eapply still_trans; [|exact S3]|]. rewrite G3. cbn [set_tcp n_tcp]. rewrite on_ack_gens. done. }
  clearbody n2. destruct (deposit_data id data n2) as [n3|] eqn:E; [|done]. apply deposit_data_still in E as [S3 G3].
  cbn [mbind option_bind]. intros [= <-]. destruct (has_flag FLAG_FIN flags); split; try (by eapply still_trans); simpl; congruence.
Qed.

(** Slots are only ever claimed, so generations never go back. *)
Definition gens_up n n' : Prop := forall i, lockbox_get_generation i (tp_lockbox (n_tcp n)) <= lockbox_get_generation i (tp_lockbox (n_tcp n')).

Lemma gens_up_eq n n' : gens n' = gens n -> gens_up n n'.
Proof. intros E i. unfold lockbox_get_generation. rewrite E. done. Qed.

(** A branch that changes neither. *)
Ltac unmoved := intros [= <-]; split; [done|by apply gens_up_eq].

Lemma handle_syn_still now src sp dst dp seq n n' k q : tcp_inv k (n_tcp n) q -> k < 4294967295 ->
  handle_syn now src sp dst dp seq n = Some n' -> still n n' /\ gens_up n n'.
Proof.
  intros Hinv Hk. unfold handle_syn. destruct (sentry_observe _ _ _ _) as [[banned g]|]; [|done]. cbn [mbind option_bind].
  destruct banned; [unmoved|]. destruct (syncookie_should_activate _).
  { destruct (syncookie_generate _ _ _ _ _ _) as [isn c]. intros [= <-]. unfold send_cookie_syn_ack.
    destruct (rolodex_lookup src _); [destruct (send_with_pass _ _ _)|]; (split; [done|by apply gens_up_eq]). }
  cbn [set_guard n_tcp n_cookie n_mac].
  pose proof (claim_generation dp src sp 6 _ k _ q (ti_inbox _ _ _ Hinv) Hk) as Hg.
  destruct (lockbox_claim dp src sp 6 (tp_lockbox (n_tcp n))) as [[res [id|]] x]; destruct Hg as [Hg _].
  2:{ intros [= <-]. split; [done|]. exact Hg. }
  destruct (lottery_draw_isn _ _ _ _ _ _) as [isn lot]. set (n1 := set_tcp _ _).
  destruct (dispatch_syn_ack_still now id (n_mac n) dst n1) as [S1 G1].
  assert (gens_up n (snd (conversation_dispatch_syn_ack now id (n_mac n) dst n1))) as Hup.
  { intros i. unfold lockbox_get_generation. rewrite G1. apply Hg. }
  destruct (conversation_dispatch_syn_ack now id (n_mac n) dst n1) as [[pass|] n2]; simpl in *; intros [= <-]; [|done].
  unfold gens_up in *. rewrite present_last_tcp. split; [|done].
  destruct (present_last_sending now pass n2) as (_ & _ & P1 & P2 & P3 & P4 & _). unfold still in *. by rewrite P1, P2, P3, P4.
Qed.

Lemma handle_unknown_still now payload src sp dst dp seq flags n n' k q : tcp_inv k (n_tcp n) q -> k < 4294967295 ->
  handle_unknown now payload src sp dst dp seq flags n = Some n' -> still n n' /\ gens_up n n'.
Proof.
  intros Hinv Hk. unfold handle_unknown. destruct (negb _); [unmoved|].
  destruct (rd32 payload 8) as [ack|]; [|done]. cbn [mbind option_bind].
  destruct (syncookie_validate _ _ _ _ _ _ _) as [valid c]. destruct (negb valid); [unmoved|]. cbn [set_cookie n_tcp].
  pose proof (claim_generation dp src sp 6 _ k _ q (ti_inbox _ _ _ Hinv) Hk) as Hg.
  destruct (lockbox_claim dp src sp 6 (tp_lockbox (n_tcp n))) as [[res [id|]] x]; destruct Hg as [Hg _].
  2:{ intros [= <-]. split; [done|]. exact Hg. }
  intros [S1 G1]%handle_known_still. split; [done|]. intros i. unfold lockbox_get_generation. rewrite G1.
  cbn [set_tcp n_tcp]. rewrite on_ack_gens. apply Hg.
Qed.

Lemma conversation_handle_still now payload src dst n n' k q : tcp_inv k (n_tcp n) q -> k < 4294967295 ->
  conversation_handle now payload src dst n = Some n' -> still n n' /\ gens_up n n'.
Proof.
  intros Hinv Hk. unfold conversation_handle. destruct (conversation_check _ _ _) as [v|]; [|done]. cbn [mbind option_bind].
  destruct (negb _); [unmoved|].
  destruct (rd payload 0); [|done]. destruct (rd payload 1); [|done]. destruct (rd payload 2); [|done]. destruct (rd payload 3); [|done].
  destruct (rd payload 13) as [flags|]; [|done]. cbn [mbind option_bind]. set (n1 := set_tcp_counts _ n).
  assert (forall m, still n1 m /\ gens_up n1 m -> still n m /\ gens_up n m) as Hback by done.
  destruct (negb _); [unmoved|]. destruct (_ =? _)%nat; [unmoved|].
  destruct (rd32 payload 4) as [seq|]; [|done]. cbn [mbind option_bind]. destruct (_ && _).
  { unfold handle_syn_sent. destruct (has_flag FLAG_RST flags).
    - intros [= <-]. split; [done|]. apply gens_up_eq. simpl. apply on_rst_gens.
    - destruct (_ && _); [|unmoved]. destruct (rd32 payload 8); [|done]. cbn [mbind option_bind]. unmoved. }
  destruct (has_flag FLAG_SYN flags); [intros E; by eapply Hback, handle_syn_still|].
  destruct (_ =? _)%nat; [intros E; by eapply Hback, handle_unknown_still|].
  intros [S1 G1]%handle_known_still. apply Hback. split; [done|by apply gens_up_eq].
Qed.
End Still.

(** ** Datagrams and pings *)

Lemma echo_handle_keeps payload src e q : zlen payload < 65536 -> echo_inv e q ->
  exists e' q', echo_handle payload src e = Some e' /\ echo_inv e' q'.
Proof.
  intros Hl [Hr Ht]. unfold echo_handle, echo_check, ICMP_MIN_HEADER.
  destruct (Z.ltb_spec (zlen payload) 8) as [Hs|Hs]; [cbn; eexists _, q; split; [reflexivity|by split]|].
  destruct (negb _); [cbn; eexists _, q; split; [reflexivity|by split]|].
  assert (8 <= length payload)%nat as Hln by (unfold zlen in Hs; lia).
  rewrite (rd_at payload 0 0), (rd_at payload 4 4), (rd_at payload 5 5), (rd_at payload 6 6), (rd_at payload 7 7) by lia.
  cbn [mbind option_bind]. destruct (negb _); [cbn; eexists _, q; split; [reflexivity|by split]|].
  destruct (_ <? _); [cbn; eexists _, q; split; [reflexivity|by split]|]. cbn [mbind option_bind]. rewrite bool_decide_true by done. cbn [negb]. cbv iota.
  cbn [ec_pending_count ec_tail ec_queue ec_head]. destruct (Nat.leb_spec ECHO_MAX_PENDING (ec_pending_count e)); [eexists _, q; split; [reflexivity|by split]|].
  eexists _, (q ++ [_]). split; [reflexivity|]. split; cbn [ec_queue ec_head ec_pending_count ec_tail].
  - rewrite Ht. apply ring_push; [unfold ECHO_MAX_PENDING; lia|done|done].
  - rewrite Ht, Nat.Div0.add_mod_idemp_l. f_equal. lia.
Qed.

Lemma postcard_check_total payload src dst : exists v len, postcard_check payload src dst = Some (v, len) /\
  (v = UDP_ACCEPT -> 8 <= len <= zlen payload /\ len < 65536).
Proof.
  unfold postcard_check, UDP_HEADER_LEN, udp_checksum_ok.
  destruct (Z.ltb_spec (zlen payload) 8) as [H8|H8]; [do 2 eexists; split; [reflexivity|done]|].
  assert (8 <= length payload)%nat as Hln by (unfold zlen in H8; lia).
  rewrite (rd_at payload 4 4), (rd_at payload 5 5), (rd_at payload 6 6), (rd_at payload 7 7) by lia.
  cbn [mbind option_bind]. pose proof (be16_range (default 0 (payload !! 4%nat)) (default 0 (payload !! 5%nat))) as Hb. unfold is_u16 in Hb.
  set (len := be16 (default 0 (payload !! 4%nat)) _) in *. destruct (_ || _) eqn:Hbad; [do 2 eexists; split; [reflexivity|done]|]. breflect.
  destruct (_ =? 0); [do 2 eexists; split; [reflexivity|lia]|].
  rewrite slice_in_range by (unfold zlen in *; lia). do 2 eexists. split; [reflexivity|lia].
Qed.

Lemma postcard_handle_keeps {D} now payload src dst (n : net D) q : zlen payload < 65536 ->
  sentry_wf (gd_sentry (n_guard n)) -> now < 0xFFFFFFFF -> postbox_inv (n_postbox n) q ->
  exists n' q', postcard_handle now payload src dst n = Some n' /\ postbox_inv (n_postbox n') q' /\
    n_tcp n' = n_tcp n /\ n_echo n' = n_echo n /\ n_mac n' = n_mac n /\ sentry_wf (gd_sentry (n_guard n')).
Proof.
  intros Hl Hs Hnow Hq. unfold postcard_handle. destruct (postcard_check_total payload src dst) as (v & len & -> & Hv).
  cbn [mbind option_bind]. case_bool_decide as Hacc; cbn [negb]; cbv iota; [|eexists _, q; by split_and!].
  destruct (Hv Hacc) as [Hlen Hlen']. assert (8 <= length payload)%nat as Hln by (unfold zlen in Hlen; lia).
  rewrite (rd_at payload 0 0), (rd_at payload 1 1), (rd_at payload 2 2), (rd_at payload 3 3) by lia. cbn [mbind option_bind].
  destruct (sentry_observe_step now src (be16 (default 0 (payload !! 2%nat)) (default 0 (payload !! 3%nat))) (n_guard n) Hs Hnow) as (s' & E & Hs' & _).
  cbn [set_udp_counts n_guard]. rewrite E. cbn [mbind option_bind]. cbv iota.
  destruct (negb _); [eexists _, q; by split_and!|]. destruct (_ =? _)%nat; [eexists _, q; by split_and!|].
  unfold UDP_HEADER_LEN. rewrite u16_small by (unfold is_u16; lia).
  rewrite slice_in_range by (unfold zlen in *; lia). cbn [mbind option_bind]. cbn [set_guard set_udp_counts n_postbox n_tcp].
  match goal with |- context [postbox_deposit ?a ?b ?c ?d (n_postbox n)] =>
    pose proof (postbox_deposit_spec (n_postbox n) q a Hq b c d) as [_ Hd]; destruct (postbox_deposit a b c d (n_postbox n)) as [ok pb] end.
  simpl in Hd. eexists _, _. split; [reflexivity|]. split; [exact Hd|]. done.
Qed.

(** ** The invariant of a host *)

Record host_inv {D} (k : Z) (h : host D) (q : nat -> list Z) : Prop := {
  hi_board : board_inv k (h_board h) q;
  hi_sentry : sentry_wf (gd_sentry (n_guard (h_net h)));
  hi_postbox : exists pq, postbox_inv (n_postbox (h_net h)) pq;
  hi_echo : exists eq, echo_inv (n_echo (h_net h)) eq;
  hi_mac : length (n_mac (h_net h)) = 6%nat }.

Lemma host_inv_boot {D} (d : D) mac : length mac = 6%nat -> host_inv 0 (host_boot d mac) (fun _ => []).
Proof.
  intros Hm. split.
  - apply board_inv_boot; [apply tcp_inv_init|]. apply generation_nonneg. vm_compute. reflexivity.
  - apply Forall_replicate. apply hits_ok_zero.
  - exists (fun _ => []). apply postbox_inv_init.
  - exists []. apply echo_inv_init.
  - done.
Qed.

(** What the Mailroom expects of a department: on any payload it finishes and
    keeps the host consistent, using at most one new slot. *)
Class Department {D} (handler : department D) := department_ok : forall payload src_mac h k q,
  bytes payload -> zlen payload < 65536 -> host_inv k h q -> k < 4294967295 ->
  exists h' q', handler payload src_mac h = Some h' /\ host_inv (k + 1) h' q'.

Lemma board_inv_mono {D} k (b : board D) q : board_inv k b q -> board_inv (k + 1) b q.
Proof. intros [? ? ? ?]. split; [by apply tcp_inv_mono|done..]. Qed.
Lemma host_inv_mono {D} k (h : host D) q : host_inv k h q -> host_inv (k + 1) h q.
Proof. intros [? ? ? ? ?]. split; [by apply board_inv_mono|done..]. Qed.

Lemma board_inv_net {D} k k' (b : board D) q n' q' : board_inv k b q -> tcp_inv k' (n_tcp n') q' -> gens_up (sb_net b) n' ->
  board_inv k' (set_board_net n' b) q'.
Proof.
  intros [Hi Hl Ha He] Hi' Hg. split; [done|done| |done]. intros i g Hig. specialize (Ha i g Hig). specialize (Hg i). simpl. lia.
Qed.

Section Departments.
Context `{TxDriver D}.

(** A protocol handler under Compass. *)
Definition ip_handler_ok (handler : ip_handler D) : Prop := forall segment src dst (h : host D) k q,
  zlen segment < 65536 -> host_inv k h q -> k < 4294967295 ->
  exists n' q', handler segment src dst (h_net h) = Some n' /\ host_inv (k + 1) (set_h_net n' h) q'.

Lemma conversation_ok now : now < 0xFFFFFFFF -> ip_handler_ok (conversation_handle now).
Proof.
  intros Hnow seg src dst h k q Hl [Hb Hs Hp He Hm] Hk. pose proof (bi_tcp _ _ _ Hb) as Hinv.
  destruct (conversation_handle_ok now seg src dst (h_net h) k q Hl Hs Hnow Hinv Hk) as (n' & E & id & q' & [Hi _] & _ & Hs').
  destruct (conversation_handle_still now seg src dst (h_net h) n' k q Hinv Hk E) as [(S1 & S2 & S3 & S4) Hg].
  exists n', q'. split; [done|]. split; simpl; [by eapply board_inv_net|done|by rewrite S1|by rewrite S2|by rewrite S4].
Qed.

Lemma echo_ok : ip_handler_ok echo_department.
Proof.
  intros seg src dst h k q Hl [Hb Hs Hp [eq He] Hm] Hk. destruct (echo_handle_keeps seg src _ eq Hl He) as (e' & eq' & E & He').
  unfold echo_department. rewrite E. cbn [mbind option_bind]. eexists _, q. split; [reflexivity|].
  split; simpl; [|done|done|eauto|done]. eapply board_inv_net; [by apply board_inv_mono|apply tcp_inv_mono, Hb|by apply gens_up_eq].
Qed.

Lemma postcard_ok now : now < 0xFFFFFFFF -> ip_handler_ok (postcard_handle now).
Proof.
  intros Hnow seg src dst h k q Hl [Hb Hs [pq Hp] He Hm] Hk.
  destruct (postcard_handle_keeps now seg src dst (h_net h) pq Hl Hs Hnow Hp) as (n' & pq' & E & Hp' & Ht & E2 & E3 & Hs').
  exists n', q. split; [done|]. split; simpl; [|done|eauto|by rewrite E2|by rewrite E3].
  eapply board_inv_net; [exact Hb|rewrite Ht; apply tcp_inv_mono, Hb|by apply gens_up_eq; rewrite Ht].
Qed.

Lemma ip_directory_ok now : now < 0xFFFFFFFF -> Forall (fun '(_, handler) => ip_handler_ok handler) (ip_directory now).
Proof. intros. repeat constructor; [by apply conversation_ok|apply echo_ok|by apply postcard_ok]. Qed.

Lemma ip_dispatch_ok directory protocol : Forall (fun '(_, handler) => ip_handler_ok handler) directory ->
  ip_handler_ok (ip_dispatch directory protocol).
Proof.
  induction directory as [|[p handler] directory IH]; intros Hall seg src dst h k q Hl Hh Hk; simpl.
  - exists (h_net h), q. split; [done|]. apply host_inv_mono. by destruct h as [[] ? ? ? ?].
  - apply Forall_cons_1 in Hall as [Hok Hall]. destruct (p =? protocol); [exact (Hok seg src dst h k q Hl Hh Hk)|exact (IH Hall seg src dst h k q Hl Hh Hk)].
Qed.

#[export] Instance compass_is_department now : now < 0xFFFFFFFF -> Department (compass_department now).
Proof.
  intros Hnow payload src_mac h k q Hb Hl Hh Hk. unfold compass_department, compass_handle.
  destruct (compass_gate_spec now payload src_mac (h_net h) Hb ltac:(unfold is_u16, zlen in *; lia)) as (o & n1 & E & Hgate).
  rewrite E. cbn [mbind option_bind]. apply compass_admit_frame in E as ((S1 & S2 & S3 & S4) & Ht & Hsn).
  assert (host_inv k (set_h_net n1 h) q) as Hh1.
  { destruct Hh as [Hbd Hs Hp He Hm]. split; simpl; [|by rewrite Hsn|by rewrite S1|by rewrite S2|by rewrite S4].
    eapply board_inv_net; [exact Hbd|rewrite Ht; apply Hbd|by apply gens_up_eq; rewrite Ht]. }
  destruct o as [|protocol segment src dst].
  - cbn [mbind option_bind]. eexists _, q. split; [reflexivity|]. by apply host_inv_mono.
  - assert (zlen segment < 65536) as Hseg.
    { destruct Hgate as (_ & _ & _ & _ & -> & _). unfold zlen in *. rewrite length_take, length_drop. lia. }
    destruct (ip_dispatch_ok (ip_directory now) protocol (ip_directory_ok now Hnow) segment src dst (set_h_net n1 h) k q Hseg Hh1 Hk)
      as (n' & q' & E & Hi'). cbn [set_h_net set_h_board set_board_net h_board sb_net] in E. rewrite E. cbn [mbind option_bind]. eauto.
Qed.

Lemma rolodex_handle_total now payload src_mac r : is_Some (rolodex_handle now payload src_mac r).
Proof. apply rolodex_handle_safe. Qed.

#[export] Instance rolodex_is_department now : Department (rolodex_department (D := D) now).
Proof.
  intros payload src_mac h k q Hb Hl Hh Hk. unfold rolodex_department.
  destruct (rolodex_handle_total now payload src_mac (lk_rolodex (n_link (h_net h)))) as [r ->]. cbn [mbind option_bind].
  eexists _, q. split; [reflexivity|]. apply host_inv_mono. destruct Hh as [Hbd Hs Hp He Hm]. split; simpl; try done.
  eapply board_inv_net; [exact Hbd|apply Hbd|by apply gens_up_eq].
Qed.
End Departments.

(** ** Any frame *)

Section Deliver.
Context {D : Type} (directory : list (Z * department D)) (Hdir : Forall (fun '(_, handler) => Department handler) directory).

Lemma find_department_ok ethertype handler : find_department directory ethertype = Some handler -> Department handler.
Proof.
  clear -Hdir. induction directory as [|[t h0] dir IH]; [done|]. simpl. apply Forall_cons_1 in Hdir as [Hok Hrest].
  destruct (t =? ethertype); [by intros [= <-]|by apply IH].
Qed.

Lemma mailroom_deliver_ok frame (h : host D) k q : bytes frame -> 14 <= zlen frame < 65536 -> host_inv k h q -> k < 4294967295 ->
  exists r h' q', mailroom_deliver directory frame h = Some (r, h') /\ host_inv (k + 1) h' q'.
Proof.
  intros Hb Hl Hh Hk. unfold mailroom_deliver, ETHERTYPE_OFFSET. assert (14 <= length frame)%nat as Hln by (unfold zlen in Hl; lia).
  rewrite (rd_at frame 12 12), (rd_at frame (12 + 1) 13) by lia. cbn [mbind option_bind].
  assert (forall m, host_inv (k + 1) (set_h_mail m h) q) as Hmail by (intros m; apply host_inv_mono; by destruct Hh).
  destruct (_ || _); [do 2 eexists; exists q; split; [reflexivity|apply Hmail]|].
  destruct (find_department directory _) as [handler|] eqn:Hf; [|do 2 eexists; exists q; split; [reflexivity|apply Hmail]].
  rewrite slice_in_range by lia. cbn [mbind option_bind].
  destruct (find_department_ok _ _ Hf (drop ETH_HEADER_SIZE frame) (take 6 (drop 6 frame)) h k q) as (h' & q' & -> & Hh');
    [by apply bytes_drop|unfold zlen in *; rewrite length_drop; lia|done|done|]. cbn [mbind option_bind].
  do 2 eexists. exists q'. split; [reflexivity|]. by destruct Hh'.
Qed.

Lemma h_strike_ok now src (h : host D) k q : host_inv k h q -> host_inv k (h_strike now src h) q.
Proof.
  intros [Hb Hs Hp He Hm]. unfold h_strike. destruct (watchlist_strike _ _ _ _) as [f [w a]]. split; simpl; try done.
  eapply board_inv_net; [exact Hb|apply Hb|by apply gens_up_eq].
Qed.

(** Whatever arrives, the host handles it and stays consistent. *)
Lemma frontdesk_deliver_ok now frame (h : host D) k q : bytes frame -> zlen frame < 65536 -> host_inv k h q -> k < 4294967295 ->
  exists h' q', frontdesk_deliver now directory frame h = Some h' /\ host_inv (k + 1) h' q'.
Proof.
  intros Hb Hl Hh Hk. unfold frontdesk_deliver.
  assert (exists v, bouncer_check frame (n_mac (h_net h)) = Some v /\ (v = BOUNCE_ACCEPT -> 14 <= zlen frame)) as (v & -> & Hv).
  { unfold bouncer_check, MIN_ETHERNET_FRAME. destruct (_ <? _); [eexists; split; [reflexivity|done]|].
    destruct (Z.ltb_spec (zlen frame) 14); [eexists; split; [reflexivity|done]|].
    rewrite slice_in_range by (unfold zlen in *; lia). cbn [mbind option_bind]. eexists. split; [reflexivity|done]. }
  cbn [mbind option_bind]. set (src := if 12 <=? zlen frame then _ else _). set (h1 := set_h_bouncer _ h).
  assert (host_inv k h1 q) as Hh1 by (by destruct Hh). clearbody h1 src. case_bool_decide as Hacc.
  2:{ destruct src as [mac|]; [eexists _, q; split; [reflexivity|by apply host_inv_mono, h_strike_ok]|].
      eexists _, q. split; [reflexivity|by apply host_inv_mono]. }
  specialize (Hv Hacc). set (fh := match src with Some _ => _ | None => _ end).
  assert (host_inv k (snd fh) q) as Hh2.
  { unfold fh. destruct src; [|done]. destruct (watchlist_is_flagged _ _ _). by destruct Hh1. }
  clearbody fh. destruct fh as [flagged h2]. simpl in Hh2. destruct flagged; cbn [negb]; cbv iota.
  { eexists _, q. split; [reflexivity|]. apply host_inv_mono. by destruct Hh2. }
  destruct (mailroom_deliver_ok frame (h_receive h2) k q) as (r & h' & q' & -> & Hh'); [done|lia|by destruct Hh2|done|].
  cbn [mbind option_bind]. eauto.
Qed.
End Deliver.

Lemma ipv4_directory_ok `{TxDriver D} now : now < 0xFFFFFFFF ->
  Forall (fun '(_, handler) => Department handler) (ipv4_directory (D := D) now).
Proof. intros Hnow. repeat constructor; [by apply compass_is_department|apply rolodex_is_department]. Qed.

(** ** The periodic tick *)

Section Ticks.
Context `{TxDriver D}.

Lemma rapport_tick_gens now st : lx_generation (rapport_tick now st).2 = lx_generation st.2.
Proof.
  destruct st as [[r s] x]. unfold rapport_tick.
  assert (forall l st, lx_generation (fold_left (fun st i => rapport_tick_slot now i st) l st).2 = lx_generation st.2) as Hl.
  { induction l as [|i l IH]; intros [r0 x0]; [done|]. simpl. rewrite IH.
    destruct (rapport_tick_slot_spec now i r0 x0) as [_ ->]. by destruct (from_option _ _ _). }
  specialize (Hl (seq 0 LOCKBOX_CAPACITY) (r, x)). by destruct (fold_left _ _ (r, x)).
Qed.

Lemma rapport_tick_inbox now k st ib q : inbox_inv k st.2 ib q -> inbox_inv k (rapport_tick now st).2 ib q.
Proof.
  destruct st as [[r s] x]. unfold rapport_tick. intros Hi.
  assert (forall l st, inbox_inv k st.2 ib q -> inbox_inv k (fold_left (fun st i => rapport_tick_slot now i st) l st).2 ib q) as Hl.
  { induction l as [|i l IH]; intros [r0 x0] H0; [done|]. simpl. apply IH.
    destruct (rapport_tick_slot_spec now i r0 x0) as [_ ->]. destruct (from_option _ _ _); [by apply inbox_release_spec|done]. }
  specialize (Hl (seq 0 LOCKBOX_CAPACITY) (r, x) Hi). by destruct (fold_left _ _ (r, x)).
Qed.

Lemma rapport_tick_keeps now k t q : tcp_inv k t q ->
  tcp_inv k (set_conns (rapport_tick now (tcp_conns t)) t) q /\
  lx_generation (tp_lockbox (set_conns (rapport_tick now (tcp_conns t)) t)) = lx_generation (tp_lockbox t).
Proof.
  intros [Hi Hw Hr Hs]. pose proof (tick_step now _ _ _ Hr) as [Hr' _]. pose proof (rapport_tick_inbox now k (tcp_conns t) _ q Hi) as Hi'.
  pose proof (rapport_tick_gens now (tcp_conns t)) as Hg.
  assert ((rapport_tick now (tcp_conns t)).1.2 = tp_sched t) as Es.
  { unfold rapport_tick, tcp_conns. by destruct (fold_left _ _ _). }
  unfold tcp_conns in *. destruct (rapport_tick now _) as [[r s] x]. simpl in *. subst s. split; [|done]. by split.
Qed.

Lemma scheduler_tick_slot_keeps now k i t (l : link D) q : tcp_inv k t q ->
  let '(t', _) := scheduler_tick_slot now i (t, l) in
  tcp_inv k t' q /\ lx_generation (tp_lockbox t') = lx_generation (tp_lockbox t).
Proof.
  intros Hinv. unfold scheduler_tick_slot. destruct (sd_conns (tp_sched t) !! i) as [c|] eqn:Hc; [|done].
  pose proof (sched_wf_conn i c _ (ti_sched _ _ _ Hinv) Hc) as [W1 W2 W3 W4 W5].
  case_bool_decide as Hst; cbn [negb]; cbv iota; [|done].
  assert (forall s, sched_wf s -> tcp_inv k (set_tcp_sched s t) q) as Hset by (intros s Hs; by destruct Hinv; split).
  destruct (oldest c ≫= _) as [[j e]|] eqn:Hold.
  2:{ split; [|done]. apply Hset. apply sched_wf_set; [apply Hinv|]. split; simpl; try done. intros _.
      destruct (oldest c) as [j|] eqn:Ho; [|by apply oldest_None]. simpl in Hold.
      apply oldest_Some in Ho as (e & He & _). by rewrite He in Hold. }
  destruct (_ <? _); [done|]. destruct (Z.leb_spec RETRY_LIMIT (pk_retry_track c)) as [Hlim|Hlim].
  - rewrite on_rst_gens. split; [|done]. set (s := mkSched _ _ _).
    assert (tcp_inv k (set_tcp_sched s t) q) as Hi.
    { apply Hset. destruct (sched_wf_set i (set_pkt_state PACKET_STATE_FAILURE (clear_window c)) (tp_sched t) (ti_sched _ _ _ Hinv)) as [L F]; [|by split].
      split; simpl; [by rewrite length_fmap|done|done|done|]. intros _. apply clear_window_idle. }
    apply (keeps_on_rst k i _ q Hi).
  - pose proof (resend_conns now e i (tp_sched t) l (tp_why t)) as Hr. destruct (resend now e i _) as [ok [[s l'] w]]. simpl in Hr.
    split; [|done]. destruct Hinv as [I1 I2 I3 [L F]]. split; [done|done|done|]. split; simpl.
    + by rewrite length_insert, Hr.
    + rewrite Hr. apply Forall_insert; [done|]. unfold RETRY_LIMIT in *.
      split; simpl; [by rewrite length_alter, length_fmap| | | |done].
      * right. specialize (W4 Hst). destruct W2 as [?|W2]; [done|]. unfold SCHED_MIN_RTO, SCHED_MAX_RTO in *.
        rewrite u32_small by (unfold is_u32; lia). destruct (Z.ltb_spec 1000 (pk_rto c * 2)); lia.
      * rewrite u32_small by (unfold is_u32; lia). unfold RETRY_LIMIT. lia.
      * intros _. specialize (W4 Hst). destruct W2 as [?|W2]; [done|]. unfold SCHED_MIN_RTO, SCHED_MAX_RTO in *.
        rewrite u32_small by (unfold is_u32; lia). destruct (_ <? _); lia.
Qed.

Lemma scheduler_tick_keeps now k t (l : link D) q : tcp_inv k t q ->
  let '(t', _) := scheduler_tick now (t, l) in
  tcp_inv k t' q /\ lx_generation (tp_lockbox t') = lx_generation (tp_lockbox t).
Proof.
  unfold scheduler_tick. generalize (seq 0 LOCKBOX_CAPACITY). intros ids. revert t l. induction ids as [|i ids IH]; intros t l Hi; [done|].
  simpl. pose proof (scheduler_tick_slot_keeps now k i t l q Hi) as Hs. destruct (scheduler_tick_slot now i (t, l)) as [t1 l1].
  destruct Hs as [Hi1 Hg1]. specialize (IH t1 l1 Hi1). destruct (fold_left _ ids (t1, l1)) as [t2 l2]. destruct IH as [? ?]. split; [done|congruence].
Qed.

Lemma concierge_tick_ipv4_ok now our_mac (h : host D) k q : host_inv k h q ->
  host_inv k (set_h_net (concierge_tick_ipv4 now our_mac (h_net h)) h) q.
Proof.
  intros [Hb Hs Hp He Hm]. unfold concierge_tick_ipv4. destruct (rapport_tick_keeps now k _ q (bi_tcp _ _ _ Hb)) as [Hi1 Hg1].
  set (t1 := set_conns _ _) in *. cbn [set_tcp n_tcp n_link].
  pose proof (scheduler_tick_keeps now k t1 (n_link (h_net h)) q Hi1) as Hst.
  destruct (scheduler_tick now (t1, n_link (h_net h))) as [t2 l2]. destruct Hst as [Hi2 Hg2].
  split; simpl; try done. eapply board_inv_net; [exact Hb|exact Hi2|]. apply gens_up_eq. simpl. congruence.
Qed.
End Ticks.
