(* ===== verification/Host.v ===== *)
(** * Whole hosts

    Everything a running host does with the network, as one transition system:
    received frames, the periodic tick and the socket calls, in any order; and
    two hosts joined by a cable. *)

From S2P Require Import Prelude SlotTable GuestList Ids RateLimit Sentry Bailiff Ring Nic Rolodex Foyer Atlas.
From S2P Require Import LockBox Inbox Why Scheduler Rapport Transport TcpInv Checksum Echo.
From S2P Require Import Compass Postcard Conversation SwitchBoard Reception.
Import GuestList Menu Ids Curfew WatchList Atlas Bouncer Inbox Postbox Why Lottery SynCookie.

Definition set_menu {D} (m : list menu_entry) (n : net D) : net D :=
  mkNet (n_link n) (n_guard n) (n_tcp n) m (n_atlas n) (n_cookie n) (n_postbox n) (n_echo n) (n_mac n)
    (n_last_frame n) (n_ip_counts n) (n_tcp_counts n) (n_udp_counts n).
Definition set_atlas {D} (a : atlas) (n : net D) : net D :=
  mkNet (n_link n) (n_guard n) (n_tcp n) (n_menu n) a (n_cookie n) (n_postbox n) (n_echo n) (n_mac n)
    (n_last_frame n) (n_ip_counts n) (n_tcp_counts n) (n_udp_counts n).

(** What can happen to a host. *)
Inductive host_event :=
| HFrame (now : Z) (frame : list Z)
| HTick (now : Z)
| HOpenPort (port protocol : Z)
| HRule (ip : ip4) (action : guestlist_verdict)
| HRoute (network netmask gateway : ip4)
| HBind (port protocol : Z)
| HConnect (now : Z) (ip : ip4) (port : Z) (our_ip : ip4)
| HAccept (port : Z)
| HSend (now : Z) (id : nat) (data : list Z) (our_ip : ip4)
| HClose (now : Z) (id : nat) (our_ip : ip4)
| HRecv (id max : nat)
| HSendUdp (now : Z) (local_port : Z) (ip : ip4) (port : Z) (our_ip : ip4) (data : list Z)
| HRecvUdp (port : Z) (max : nat).

(** What the caller of a socket call gets. *)
Inductive host_out :=
| ODone (ok : bool) | OSlot (id : option nat) | OBytes (data : list Z) | ODatagram (d : option (ip4 * Z * list Z)).

Section Run.
Context `{TxDriver D}.
Implicit Types (h : host D).

(** [None] is an access outside a buffer or a loop that does not end. *)
Definition host_exec (ev : host_event) h : option (host_out * host D) :=
  let mac := n_mac (h_net h) in
  match ev with
  | HFrame now frame => h ← frontdesk_deliver now (ipv4_directory now) frame h; Some (ODone true, h)
  | HTick now => Some (ODone true, set_h_net (concierge_tick_ipv4 now mac (h_net h)) h)
  | HOpenPort port protocol =>
      let '(ok, m) := menu_open_port port protocol (n_menu (h_net h)) in
      Some (ODone ok, set_h_net (set_menu m (h_net h)) h)
  | HRule ip action =>
      let g := n_guard (h_net h) in
      let '(ok, t) := guestlist_set ip action (gd_guests g) in
      Some (ODone ok, set_h_net (set_guard (set_guests t g) (h_net h)) h)
  | HRoute network netmask gateway =>
      let '(ok, a) := atlas_add_route network netmask gateway (n_atlas (h_net h)) in
      Some (ODone ok, set_h_net (set_atlas a (h_net h)) h)
  | HBind port protocol => let '(ok, b) := switchboard_bind port protocol (h_board h) in Some (ODone ok, set_h_board b h)
  | HConnect now ip port our_ip =>
      let '(id, b) := switchboard_connect now ip port mac our_ip (h_board h) in Some (OSlot id, set_h_board b h)
  | HAccept port => '(id, b) ← switchboard_accept port (h_board h); Some (OSlot id, set_h_board b h)
  | HSend now id data our_ip =>
      let '(ok, b) := switchboard_send now id data mac our_ip (h_board h) in Some (ODone ok, set_h_board b h)
  | HClose now id our_ip =>
      let '(ok, b) := switchboard_close now id mac our_ip (h_board h) in Some (ODone ok, set_h_board b h)
  | HRecv id max => '(data, b) ← switchboard_recv id max (h_board h); Some (OBytes data, set_h_board b h)
  | HSendUdp now local_port ip port our_ip data =>
      let '(ok, b) := switchboard_send_udp now local_port ip port mac our_ip data (h_board h) in Some (ODone ok, set_h_board b h)
  | HRecvUdp port max => '(d, b) ← switchboard_recv_udp port max (h_board h); Some (ODatagram d, set_h_board b h)
  end.

Fixpoint host_run (evs : list host_event) h : option (list host_out * host D) :=
  match evs with
  | [] => Some ([], h)
  | ev :: evs' => '(o, h) ← host_exec ev h; '(os, h) ← host_run evs' h; Some (o :: os, h)
  end.

(** Received frames are bytes with a 16-bit length, and the clock has not
    reached its last value. *)
Definition event_ok (ev : host_event) : Prop :=
  match ev with HFrame now frame => bytes frame /\ zlen frame < 65536 /\ now < 0xFFFFFFFF | _ => True end.

(** Parts that sending may not touch. *)
Lemma sending_host k h q n' q' : host_inv k h q -> tcp_inv k (n_tcp n') q' -> gens_up (h_net h) n' ->
  still (h_net h) n' -> n_guard n' = n_guard (h_net h) -> host_inv k (set_h_board (set_board_net n' (h_board h)) h) q'.
Proof.
  intros [Hb Hs Hp He Hm] Hi Hg (S1 & S2 & _ & S4) Hgd.
  split; simpl; [by eapply board_inv_net|by rewrite Hgd|by rewrite S1|by rewrite S2|by rewrite S4].
Qed.

Lemma dispatch_data_sending now id data mac ip (n : net D) :
  let n' := snd (conversation_dispatch_data now id data mac ip n) in
  still n n' /\ n_guard n' = n_guard n /\ lx_generation (tp_lockbox (n_tcp n')) = lx_generation (tp_lockbox (n_tcp n)).
Proof.
  unfold conversation_dispatch_data. destruct (_ || _); [done|]. destruct (negb (bool_decide _)); [done|].
  destruct (_ =? _)%nat; [done|]. destruct (negb _); [done|].
  match goal with |- context [conversation_dispatch ?a ?b ?c ?d ?e ?f ?g ?i n] =>
    pose proof (dispatch_sending a b c d e f g i n) as (Hc & Hg & H1 & H2 & H3 & H4 & _);
    destruct (conversation_dispatch a b c d e f g i n) as [[pass|] n1] end;
  simpl in *; unfold tcp_conns in Hc; injection Hc as _ _ Hx; by rewrite Hx.
Qed.

Lemma dispatch_fin_sending now id mac ip (n : net D) :
  let n' := snd (conversation_dispatch_fin now id mac ip n) in
  still n n' /\ n_guard n' = n_guard n /\ lx_generation (tp_lockbox (n_tcp n')) = lx_generation (tp_lockbox (n_tcp n)).
Proof.
  unfold conversation_dispatch_fin. destruct (_ && _); [done|]. destruct (_ <? _); [done|].
  match goal with |- context [conversation_dispatch ?a ?b ?c ?d ?e ?f ?g ?i n] =>
    pose proof (dispatch_sending a b c d e f g i n) as (Hc & Hg & H1 & H2 & H3 & H4 & _);
    destruct (conversation_dispatch a b c d e f g i n) as [[pass|] n1] end;
  simpl in *; unfold tcp_conns in Hc; injection Hc as _ _ Hx; by rewrite Hx.
Qed.

Lemma present_last_still now pass (n : net D) : still n (snd (present_last now pass n)) /\ n_guard (snd (present_last now pass n)) = n_guard n.
Proof. destruct (present_last_sending now pass n) as (_ & ? & ? & ? & ? & ? & _). done. Qed.

Lemma postcard_dispatch_frame now ip dp sp mac our_ip data (n : net D) :
  let n' := snd (postcard_dispatch now ip dp sp mac our_ip data n) in
  n_tcp n' = n_tcp n /\ still n n' /\ n_guard n' = n_guard n.
Proof.
  unfold postcard_dispatch. destruct (_ <? _); [done|]. case_bool_decide; [by destruct (send_with_pass _ _ _)|].
  destruct (atlas_lookup ip _) as [[] [hop|]]; try done.
  destruct (rolodex_lookup hop _); [by destruct (send_with_pass _ _ _)|by destruct (foyer_queue _ _ _ _ _)].
Qed.

Lemma connect_frame now ip port mac our_ip (b : board D) :
  let n' := sb_net (snd (switchboard_connect now ip port mac our_ip b)) in
  still (sb_net b) n' /\ n_guard n' = n_guard (sb_net b).
Proof.
  unfold switchboard_connect. destruct (pick_ephemeral_port _ _) as [lp next]. destruct (lp =? 0); [done|]. cbn [sb_net].
  destruct (lockbox_claim _ _ _ _ _) as [[res [id|]] x]; [|done]. destruct (lottery_draw_isn _ _ _ _ _ _) as [isn lot].
  cbn [snd set_board_net sb_net]. set (n1 := set_tcp _ _). unfold conversation_dispatch_syn.
  pose proof (dispatch_sending now id FLAG_SYN isn 0 [] mac our_ip n1) as (_ & Hg & H1 & H2 & H3 & H4 & _).
  destruct (conversation_dispatch _ _ _ _ _ _ _ _ n1) as [[pass|] n2]; simpl in *; [|done].
  destruct (present_last_still now pass (track_last now id isn 1 n2)) as [(P1 & P2 & P3 & P4) P5].
  unfold still. rewrite P1, P2, P3, P4, P5. done.
Qed.

(** Handing the built segment to Bailiff, the end of every send. *)
Lemma hand_over_ok h k q now (r : option Z * net D) : host_inv k h q -> tcp_inv k (n_tcp r.2) q ->
  still (h_net h) r.2 /\ n_guard r.2 = n_guard (h_net h) /\
    lx_generation (tp_lockbox (n_tcp r.2)) = lx_generation (tp_lockbox (n_tcp (h_net h))) ->
  exists ok n', match r with
    | (None, n) => (false, set_board_net n (h_board h))
    | (Some id, n) => let '(ok, n) := present_last now id n in (ok, set_board_net n (h_board h))
    end = (ok, set_board_net n' (h_board h)) /\ host_inv (k + 1) (set_h_board (set_board_net n' (h_board h)) h) q.
Proof.
  destruct r as [[pass|] n1]; intros Hh Hi (St & Hg & Hx); simpl in *.
  - destruct (present_last_still now pass n1) as [Sp Gp]. pose proof (present_last_tcp now pass n1) as Tp.
    destruct (present_last now pass n1) as [ok n2]. simpl in *. exists ok, n2. split; [done|].
    apply host_inv_mono, sending_host with q; [done|by rewrite Tp|by apply gens_up_eq; rewrite Tp|by eapply still_trans|congruence].
  - exists false, n1. split; [done|]. apply host_inv_mono, sending_host with q; [done|done|by apply gens_up_eq|done|done].
Qed.

Lemma recv_frame id max (b b' : board D) out : switchboard_recv id max b = Some (out, b') ->
  still (sb_net b) (sb_net b') /\ n_guard (sb_net b') = n_guard (sb_net b).
Proof.
  unfold switchboard_recv. destruct (_ <=? _)%nat; [by intros [= _ <-]|]. destruct (_ !! id) as [g|]; [|done]. cbn [mbind option_bind].
  destruct (negb _); [by intros [= _ <-]|]. destruct (inbox_read _ _ _ _) as [[[? ?] ?]|]; [|done]. cbn [mbind option_bind]. by intros [= _ <-].
Qed.

(** The events that only set configuration. *)
Lemma config_ok h k q n' : host_inv k h q -> n_tcp n' = n_tcp (h_net h) -> gd_sentry (n_guard n') = gd_sentry (n_guard (h_net h)) ->
  n_postbox n' = n_postbox (h_net h) -> n_echo n' = n_echo (h_net h) -> n_mac n' = n_mac (h_net h) -> host_inv (k + 1) (set_h_net n' h) q.
Proof.
  intros [Hb Hs Hp He Hm] E1 E2 E3 E4 E5. apply host_inv_mono. split; simpl; [|by rewrite E2|by rewrite E3|by rewrite E4|by rewrite E5].
  eapply board_inv_net; [exact Hb|rewrite E1; apply Hb|by apply gens_up_eq; rewrite E1].
Qed.

Lemma bind_ok h k q port protocol : host_inv k h q -> k < 4294967295 ->
  exists q', host_inv (k + 1) (set_h_board (snd (switchboard_bind port protocol (h_board h))) h) q'.
Proof.
  intros [Hb Hs Hp He Hm] Hk. pose proof (bind_spec port protocol (h_board h) k q Hb Hk) as Hbind.
  assert (still (h_net h) (sb_net (snd (switchboard_bind port protocol (h_board h)))) /\
    n_guard (sb_net (snd (switchboard_bind port protocol (h_board h)))) = n_guard (h_net h)) as [(S1 & S2 & S3 & S4) Hg]
    by (unfold switchboard_bind; by destruct (lockbox_listen _ _ _) as [[? ?] ?]).
  destruct (switchboard_bind port protocol (h_board h)) as [ok b]. simpl in *. destruct Hbind as (q' & Hb' & _).
  exists q'. split; simpl; [done|by rewrite Hg|by rewrite S1|by rewrite S2|by rewrite S4].
Qed.

Lemma connect_ok h k q now ip port our_ip : host_inv k h q -> k < 4294967295 ->
  exists q', host_inv (k + 1) (set_h_board (snd (switchboard_connect now ip port (n_mac (h_net h)) our_ip (h_board h))) h) q'.
Proof.
  intros [Hb Hs Hp He Hm] Hk. pose proof (connect_spec now ip port (n_mac (h_net h)) our_ip (h_board h) k q Hb Hk) as Hc.
  destruct (connect_frame now ip port (n_mac (h_net h)) our_ip (h_board h)) as [(S1 & S2 & S3 & S4) Hg].
  destruct (switchboard_connect now ip port _ our_ip (h_board h)) as [id b]. simpl in *. destruct Hc as [Hb' _].
  eexists. split; simpl; [exact Hb'|by rewrite Hg|by rewrite S1|by rewrite S2|by rewrite S4].
Qed.

Lemma recv_udp_ok h k q port max : host_inv k h q ->
  exists d b', switchboard_recv_udp port max (h_board h) = Some (d, b') /\ host_inv (k + 1) (set_h_board b' h) q.
Proof.
  intros Hh. pose proof Hh as [Hb Hs [pq Hp] He Hm]. unfold switchboard_recv_udp.
  destruct (_ =? _)%nat; [do 2 eexists; split; [reflexivity|]; apply host_inv_mono; by destruct h|].
  destruct (postbox_read_spec (n_postbox (h_net h)) pq (lockbox_find_listener port 17 (tp_lockbox (n_tcp (h_net h)))) max Hp) as (r & pb & -> & Hp' & _).
  cbn [mbind option_bind]. do 2 eexists. split; [reflexivity|]. apply host_inv_mono. split; simpl; [|done|eauto|done|done].
  eapply board_inv_net; [exact Hb|apply Hb|by apply gens_up_eq].
Qed.

Lemma host_exec_ok ev h k q : event_ok ev -> host_inv k h q -> k < 4294967295 ->
  exists o h' q', host_exec ev h = Some (o, h') /\ host_inv (k + 1) h' q'.
Proof.
  intros Hev Hh Hk. pose proof Hh as [Hb Hs Hp He Hm]. pose proof (bi_tcp _ _ _ Hb) as Hinv. destruct ev; cbn [host_exec].
  - destruct Hev as (Hbt & Hl & Hnow).
    destruct (frontdesk_deliver_ok (ipv4_directory now) (ipv4_directory_ok now Hnow) now frame h k q Hbt Hl Hh Hk) as (h' & q' & -> & Hh').
    cbn [mbind option_bind]. eauto.
  - do 2 eexists. exists q. split; [reflexivity|]. by apply host_inv_mono, concierge_tick_ipv4_ok.
  - destruct (menu_open_port _ _ _) as [ok m]. do 2 eexists. exists q. split; [reflexivity|]. by apply config_ok.
  - destruct (guestlist_set _ _ _) as [ok t]. do 2 eexists. exists q. split; [reflexivity|]. by apply config_ok.
  - destruct (atlas_add_route _ _ _ _) as [ok a]. do 2 eexists. exists q. split; [reflexivity|]. by apply config_ok.
  - destruct (bind_ok h k q port protocol Hh Hk) as [q' Hb']. destruct (switchboard_bind _ _ _) as [ok b]. eauto.
  - destruct (connect_ok h k q now ip port our_ip Hh Hk) as [q' Hb']. destruct (switchboard_connect _ _ _ _ _ _) as [id b]. eauto.
  - destruct (accept_spec port (h_board h) k q Hb) as (b' & -> & Hb' & En & _). cbn [mbind option_bind].
    do 2 eexists. exists q. split; [reflexivity|]. apply host_inv_mono. split; simpl; rewrite ?En; done.
  - unfold switchboard_send. destruct (hand_over_ok h k q now (conversation_dispatch_data now id data (n_mac (h_net h)) our_ip (h_net h)) Hh)
      as (ok & n' & -> & Hh'); [by apply dispatch_data_keeps with (id := id)|apply dispatch_data_sending|eauto].
  - unfold switchboard_close. destruct (hand_over_ok h k q now (conversation_dispatch_fin now id (n_mac (h_net h)) our_ip (h_net h)) Hh)
      as (ok & n' & -> & Hh'); [by apply dispatch_fin_keeps with (id := id)|apply dispatch_fin_sending|eauto].
  - destruct (recv_spec id max (h_board h) k q Hb) as (b' & Hb' & E). rewrite E. cbn [mbind option_bind].
    apply recv_frame in E as [(S1 & S2 & S3 & S4) Hg]. do 2 eexists. eexists. split; [reflexivity|]. apply host_inv_mono.
    split; simpl; [exact Hb'|by rewrite Hg|by rewrite S1|by rewrite S2|by rewrite S4].
  - unfold switchboard_send_udp. destruct (postcard_dispatch_frame now ip port local_port (n_mac (h_net h)) our_ip data (h_net h)) as (Ht & (S1 & S2 & S3 & S4) & Hg).
    destruct (postcard_dispatch now ip port local_port _ our_ip data (h_net h)) as [ok n']. simpl in *.
    do 2 eexists. exists q. split; [reflexivity|]. apply (config_ok h k q n' Hh); try done. by rewrite Hg.
  - destruct (recv_udp_ok h k q port max Hh) as (d & b' & -> & Hh'). cbn [mbind option_bind]. eauto.
Qed.

Lemma host_run_ok evs : forall h k q, Forall event_ok evs -> host_inv k h q -> k + Z.of_nat (length evs) < 4294967296 ->
  exists os h' q', host_run evs h = Some (os, h') /\ host_inv (k + Z.of_nat (length evs)) h' q' /\ length os = length evs.
Proof.
  induction evs as [|ev evs IH]; intros h k q Hall Hh Hk; cbn [host_run length] in *.
  - exists [], h, q. rewrite Z.add_0_r. done.
  - apply Forall_cons_1 in Hall as [Hev Hall]. destruct (host_exec_ok ev h k q Hev Hh) as (o & h1 & q1 & -> & Hh1); [lia|].
    cbn [mbind option_bind]. destruct (IH h1 (k + 1) q1 Hall Hh1) as (os & h2 & q2 & -> & Hh2 & Hl); [lia|]. cbn [mbind option_bind].
    exists (o :: os), h2, q2. split; [done|]. split; [|simpl; by rewrite Hl]. by replace (k + Z.of_nat (S (length evs))) with (k + 1 + Z.of_nat (length evs)) by lia.
Qed.
End Run.

(** C1: The IPv4 side never faults.  From boot, over any driver and any sequence
    of up to 2^32 - 1 events - frames of arbitrary bytes from the wire (up to
    65535 of them each) at any clock but the last value 2^32 - 1 of the counter,
    timer ticks, configuration and socket calls with arbitrary arguments - every
    handler and every call finishes, without an access outside a buffer or a
    table, and the host stays consistent: the connection table, the queues, the
    held segments, the TCP state machine, the retransmission windows, the scan
    detector and the datagram and ping queues all satisfy their invariants.  (With
    frames at that last tick the scan detector can write [hits[-1]]:
    [sentry_last_tick_faults].) *)
Theorem host_never_faults `{TxDriver D} (d : D) mac evs : length mac = 6%nat -> Forall event_ok evs ->
  Z.of_nat (length evs) < 4294967296 ->
  exists os h q, host_run evs (host_boot d mac) = Some (os, h) /\ host_inv (Z.of_nat (length evs)) h q /\ length os = length evs.
Proof.
  intros Hm Hall Hlen. apply (host_run_ok evs (host_boot d mac) 0 (fun _ => [])); [done|by apply host_inv_boot|lia].
Qed.

(** Over the driver of the RTL8139, with a card that sends everything. *)
Lemma host_never_faults_witness : exists os h q,
  host_run [HOpenPort 80 6; HBind 80 6; HFrame 7 [1;2;3]; HConnect 8 [10;0;2;2] 25 [10;0;2;15]; HTick 9; HAccept 80; HRecv 0 100]
    (host_boot (nic_init (fun _ _ => 0x8000)) [2;0;0;0;0;1]) = Some (os, h) /\ host_inv 7 h q.
Proof.
  destruct (host_never_faults (nic_init (fun _ _ => 0x8000)) [2;0;0;0;0;1]
    [HOpenPort 80 6; HBind 80 6; HFrame 7 [1;2;3]; HConnect 8 [10;0;2;2] 25 [10;0;2;15]; HTick 9; HAccept 80; HRecv 0 100])
    as (os & h & q & E & Hh & _); [reflexivity| |simpl; lia|exists os, h, q; split; [exact E|exact Hh]].
  repeat constructor; unfold is_u8, zlen; simpl; lia.
Defined.
