(* ===== verification/EndToEnd.v ===== *)
(** * Two hosts and a cable

    What one host sends on an established connection, the other one reads: the
    composition of SwitchBoard, Conversation, Bailiff and the driver on one side
    with Bouncer, Mailroom, Compass, Conversation, WayStation, Inbox and
    SwitchBoard on the other. *)

From S2P Require Import Prelude SlotTable GuestList Ids RateLimit Sentry Bailiff Ring Nic Rolodex Foyer Atlas.
From S2P Require Import LockBox Inbox Why Scheduler Rapport Transport TcpInv Checksum Echo.
From S2P Require Import Compass Postcard Conversation SwitchBoard Reception.
Import GuestList Menu Ids Curfew WatchList Atlas Bouncer Inbox Postbox Why Lottery SynCookie.

(** ** A fresh pass is honoured *)

(** ** The sender *)

Section Sender.
Context `{TxDriver D}.

(** Connection [id] to (peer_ip, peer_port) may send [data] now, the next hop is
    at [peer_mac], and the transmitter takes an Ethernet frame (1514 bytes at most). *)
Record can_send (now : Z) (b : board D) (id : nat) (our_ip peer_ip : ip4) (lp rp : Z) (peer_mac data : list Z) : Prop := {
  cs_state : rapport_get_state id (tp_rapport (n_tcp (sb_net b))) = CONV_ESTABLISHED;
  cs_tuple : lockbox_get_tuple id (box b) = Some (lp, peer_ip, rp);
  cs_ports : is_u16 lp /\ is_u16 rp;
  cs_slot : scheduler_free_slots id (tp_sched (n_tcp (sb_net b))) <> 0%nat;
  cs_window : rapport_send_allowed id (zlen data) (tp_rapport (n_tcp (sb_net b))) (tp_sched (n_tcp (sb_net b))) = true;
  cs_seq : is_u32 (rapport_get_send_seq id (tp_rapport (n_tcp (sb_net b))));
  cs_ack : is_u32 (rapport_get_expected_seq id (tp_rapport (n_tcp (sb_net b))));
  cs_route : exists hop, atlas_lookup peer_ip (n_atlas (sb_net b)) = (true, Some hop) /\
    rolodex_lookup hop (lk_rolodex (n_link (sb_net b))) = Some peer_mac;
  cs_pass : is_Some (find_free (reclaim_expired now (bl_passes (lk_bailiff (n_link (sb_net b))))));
  cs_bailiff : bailiff_wf (lk_bailiff (n_link (sb_net b))) /\ bl_next_pass_id (lk_bailiff (n_link (sb_net b))) < 4294967295;
  cs_data : bytes data /\ 0 < zlen data <= TCP_MAX_PAYLOAD;
  cs_driver : forall f, 0 < zlen f <= 1514 -> fst (frontdesk_send f (lk_driver (n_link (sb_net b)))) = true }.

Lemma tcp_frame_zlen dm om src dst lp rp seq ack flags win data :
  length dm = 6%nat -> length om = 6%nat -> length src = 4%nat -> length dst = 4%nat ->
  zlen (tcp_frame dm om src dst (tcp_segment src dst lp rp seq ack flags win data)) = 54 + zlen data.
Proof.
  intros H1 H2 H3 H4. unfold tcp_frame. pose proof (tcp_with_zlen 0 lp rp seq ack flags win data) as Hz.
  assert (zlen (tcp_segment src dst lp rp seq ack flags win data) = 20 + zlen data) as E by (unfold tcp_segment; apply tcp_with_zlen).
  unfold zlen in *. rewrite !length_app, ip_header_length by done. simpl. lia.
Qed.

(** The call succeeds and the frame it hands to the transmitter is the one of
    this connection, with its next sequence number. *)
Lemma switchboard_send_emits now b id our_mac our_ip peer_ip lp rp peer_mac data k q :
  tcp_inv k (n_tcp (sb_net b)) q -> can_send now b id our_ip peer_ip lp rp peer_mac data ->
  length our_mac = 6%nat -> length peer_mac = 6%nat -> length our_ip = 4%nat -> length peer_ip = 4%nat ->
  exists win b', is_u16 win /\ switchboard_send now id data our_mac our_ip b = (true, b') /\
    let f := tcp_frame peer_mac our_mac our_ip peer_ip (tcp_segment our_ip peer_ip lp rp
               (rapport_get_send_seq id (tp_rapport (n_tcp (sb_net b)))) (rapport_get_expected_seq id (tp_rapport (n_tcp (sb_net b))))
               FLAG_ACK win data) in
    lk_driver (n_link (sb_net b')) = snd (frontdesk_send f (lk_driver (n_link (sb_net b)))).
Proof.
  intros Hinv [Hst Ht Hports Hslot Hwin Hseq Hack (hop & Hr & Hmac) Hpass [Hbw Hbn] [Hd Hz] Hdrv] L1 L2 L3 L4.
  pose proof (keeps_window k id _ q Hinv) as Hw. unfold switchboard_send, conversation_dispatch_data, TCP_MAX_PAYLOAD in *.
  destruct (Z.eqb_spec (zlen data) 0); [lia|]. destruct (Z.ltb_spec 1460 (zlen data)); [lia|]. cbn [orb]. cbv iota.
  rewrite Hst, bool_decide_true by done. cbn [negb]. cbv iota.
  destruct (Nat.eqb_spec (scheduler_free_slots id (tp_sched (n_tcp (sb_net b)))) 0); [done|]. rewrite Hwin. cbn [negb]. cbv iota.
  set (seq := rapport_get_send_seq _ _) in *. set (ack := rapport_get_expected_seq _ _) in *.
  unfold conversation_dispatch, TCP_MAX_PAYLOAD. destruct (Z.ltb_spec 1460 (zlen data)); [lia|]. change (negb (flag_make_sense FLAG_ACK)) with false.
  cbv iota. rewrite Ht, Hr, Hmac. change (default (replicate 6 0) (Some peer_mac)) with peer_mac. destruct (waystation_receive_window id (n_tcp (sb_net b))) as [win t]. destruct Hw as [Hwu _].
  exists win. set (f := tcp_frame peer_mac our_mac our_ip peer_ip _). cbn [set_last_frame set_tcp n_link].
  assert (zlen f = 54 + zlen data) as Hf by (by apply tcp_frame_zlen).
  assert (exists pass b1, bailiff_request_pass now f (lk_bailiff (n_link (sb_net b))) = (Some pass, b1)) as (pass & b1 & Hreq).
  { unfold bailiff_request_pass, BAILIFF_MAX_FRAME. rewrite Hf. destruct (Z.eqb_spec (54 + zlen data) 0), (Z.ltb_spec 1600 (54 + zlen data)); try lia.
    cbn [orb]. cbv iota. destruct Hpass as [i ->]. eauto. }
  rewrite Hreq. destruct (frontdesk_send f (lk_driver (n_link (sb_net b)))) as [ok d'] eqn:Hsend.
  pose proof (Hdrv f ltac:(lia)) as Hok. rewrite Hsend in Hok. simpl in Hok. subst ok.
  destruct (bailiff_fresh_pass now f _ pass b1 _ d' Hbw Hbn Hreq Hsend) as (b2 & Hpres).
  unfold present_last. cbn [set_tcp track_last set_link n_link lk_bailiff lk_driver set_last_frame n_last_frame n_tcp]. rewrite Hpres.
  eexists. split; [exact Hwu|]. split; [reflexivity|]. done.
Qed.
End Sender.

(** ** The receiver *)

Section Receiver.
Context `{TxDriver D}.

(** Host [h] holds the other end of the connection in slot [id], handed out by
    accept, expects sequence number [seq] and has room for [data]; nothing it
    knows speaks against the sender. *)
Record can_receive (now : Z) (h : host D) (id : nat) (peer_ip : ip4) (peer_port lp seq : Z) (peer_mac data : list Z) (q : nat -> list Z) : Prop := {
  cr_state : rapport_get_state id (tp_rapport (n_tcp (h_net h))) = CONV_ESTABLISHED;
  cr_conn : lockbox_find_connection lp peer_ip peer_port 6 (tp_lockbox (n_tcp (h_net h))) = id /\ (id < LOCKBOX_CAPACITY)%nat;
  cr_accepted : sb_accepted_generation (h_board h) !! id = Some (lockbox_get_generation id (tp_lockbox (n_tcp (h_net h))));
  cr_expected : rapport_get_expected_seq id (tp_rapport (n_tcp (h_net h))) = seq;
  cr_room : zlen (q id) + zlen data <= 4096;
  cr_menu : menu_is_open lp 6 (n_menu (h_net h)) = true;
  cr_rule : guestlist_check peer_ip (gd_guests (n_guard (h_net h))) = GUESTLIST_NO_RULE;
  cr_curfew : fst (curfew_check now peer_ip (gd_curfew (n_guard (h_net h)))) = true;
  cr_undisputed : rolodex_disputed peer_ip (lk_rolodex (n_link (h_net h))) = false;
  cr_watch : fst (watchlist_is_flagged now peer_mac (h_watch h)) = false }.

(** A slot found by its connection is on the port. *)
Lemma connection_listener lp ip rp x : (lockbox_find_connection lp ip rp 6 x < LOCKBOX_CAPACITY)%nat ->
  length (lx_table x) = LOCKBOX_CAPACITY -> (lockbox_find_listener lp 6 x < LOCKBOX_CAPACITY)%nat.
Proof.
  unfold lockbox_find_connection, or_capacity. destruct (find_key _ _) as [i|] eqn:Ek; simpl; [|lia]. intros _ Hl.
  apply find_key_sound in Ek as (e & He & Hu & Hk). simpl in Hu, Hk. injection Hk as <- _ _ Hp.
  unfold lockbox_find_listener, or_capacity. destruct (find_idx _ _) as [j|] eqn:Ej; simpl; [apply find_idx_lt in Ej; lia|].
  rewrite find_idx_None in Ej. specialize (Ej i e He). unfold on_port in Ej. by rewrite Hu, Hp, !Z.eqb_refl in Ej.
Qed.

(** A frame to us with an IPv4 EtherType reaches Compass. *)
Lemma frontdesk_to_compass now our_mac src_mac ip_packet h : length our_mac = 6%nat -> length src_mac = 6%nat ->
  n_mac (h_net h) = our_mac -> 14 + zlen ip_packet <= 1518 -> fst (watchlist_is_flagged now src_mac (h_watch h)) = false ->
  exists h1, h_board h1 = h_board h /\
    frontdesk_deliver now (ipv4_directory now) (our_mac ++ src_mac ++ [0x08; 0x00] ++ ip_packet) h =
      h2 ← compass_department now ip_packet src_mac h1; Some (set_h_mail (count_accept (h_mail h2)) h2).
Proof.
  intros L1 L2 Hmac Hz Hw. unfold frontdesk_deliver, bouncer_check, MAX_ETHERNET_FRAME, MIN_ETHERNET_FRAME.
  set (fr := our_mac ++ src_mac ++ [8; 0] ++ ip_packet).
  assert (length fr = 14 + length ip_packet)%nat as Hl by (unfold fr; rewrite !length_app, L1, L2; simpl; lia).
  assert (zlen fr = 14 + zlen ip_packet) as Hzl by (unfold zlen in *; lia).
  assert (0 <= zlen ip_packet) as H0 by (unfold zlen; lia).
  destruct (Z.ltb_spec 1518 (zlen fr)); [lia|]. destruct (Z.ltb_spec (zlen fr) 14); [lia|].
  assert (slice fr 0 6 = Some our_mac) as E1.
  { rewrite slice_in_range by lia. rewrite drop_0. unfold fr. by rewrite take_app_length' by done. }
  assert (slice fr 6 6 = Some src_mac) as E2.
  { rewrite slice_in_range by lia. unfold fr. rewrite drop_app_length' by done. by rewrite take_app_length' by done. }
  rewrite E1, E2. cbn [mbind option_bind]. unfold mac_equal. rewrite Hmac, (bool_decide_true (our_mac = our_mac)) by done.
  destruct (Z.leb_spec 6 (zlen fr)), (Z.leb_spec 12 (zlen fr)); try lia. rewrite bool_decide_true by done.
  cbn [h_watch set_h_bouncer]. destruct (watchlist_is_flagged now src_mac (h_watch h)) as [fl w]. simpl in Hw. subst fl. cbn [negb]. cbv iota.
  set (h1 := h_receive _). exists h1. split; [done|]. unfold mailroom_deliver, ETHERTYPE_OFFSET, ETH_HEADER_SIZE.
  assert (rd fr 12 = Some 8 /\ rd fr (12 + 1) = Some 0 /\ drop 14 fr = ip_packet) as (-> & -> & ->).
  { unfold fr. do 6 (destruct our_mac as [|? our_mac]; [done|]). destruct our_mac; [|done].
    do 6 (destruct src_mac as [|? src_mac]; [done|]). by destruct src_mac. }
  cbn [mbind option_bind]. change (be16 8 0) with 0x0800. change ((2048 <? MIN_ETHERTYPE) || (2048 =? ETHERTYPE_VLAN)) with false. cbv iota.
  change (find_department (ipv4_directory now) 2048) with (Some (compass_department (D := D) now)). cbv iota. rewrite E2. cbn [mbind option_bind].
  by destruct (compass_department now ip_packet src_mac h1).
Qed.

Lemma tcp_segment_bytes src dst lp rp seq ack flags win data : is_u8 flags -> bytes data ->
  bytes (tcp_segment src dst lp rp seq ack flags win data).
Proof. intros. unfold tcp_segment. by apply tcp_with_bytes. Qed.

(** Delivering the frame puts the data into the queue of the connection, where
    the application finds it. *)
Lemma frame_received now h id our_mac our_ip peer_ip peer_port lp seq ack win peer_mac data crc max k q :
  host_inv k h q -> can_receive now h id peer_ip peer_port lp seq peer_mac data q -> n_mac (h_net h) = our_mac ->
  length our_mac = 6%nat -> length peer_mac = 6%nat -> length our_ip = 4%nat -> length peer_ip = 4%nat ->
  bytes our_ip -> bytes peer_ip -> bytes data -> bytes crc -> 0 < zlen data <= TCP_MAX_PAYLOAD -> zlen crc <= 4 ->
  is_u16 peer_port -> is_u16 lp -> is_u32 seq -> is_u32 ack -> is_u16 win ->
  exists h' late b', frontdesk_deliver now (ipv4_directory now)
      (tcp_frame our_mac peer_mac peer_ip our_ip (tcp_segment peer_ip our_ip peer_port lp seq ack FLAG_ACK win data) ++ crc) h = Some h' /\
    switchboard_recv id max (h_board h') = Some (take max (q id ++ data ++ late), b').
Proof.
  intros Hh [Hst [Hconn Hid] Hacc Hexp Hroom Hmenu Hrule Hcurf Hdis Hwat] Hmac L1 L2 L3 L4 B1 B2 B3 B4 Hz Hc U1 U2 U3 U4 U5.
  unfold TCP_MAX_PAYLOAD in Hz. set (seg := tcp_segment _ _ _ _ _ _ _ _ _).
  assert (zlen seg = 20 + zlen data) as Hseg by (unfold seg, tcp_segment; apply tcp_with_zlen).
  assert (u16 (20 + zlen seg) = 20 + zlen seg) as Hu by (apply u16_small; unfold is_u16; lia).
  unfold tcp_frame. rewrite Hu, <- !app_assoc.
  destruct (frontdesk_to_compass now our_mac peer_mac (ip_header (20 + zlen seg) 6 peer_ip our_ip ++ seg ++ crc) h) as (h1 & Hb1 & ->); try done.
  { unfold zlen in *. rewrite !length_app, ip_header_length by done. lia. }
  unfold compass_department, compass_handle. rewrite Hb1.
  destruct (compass_admit_built now (20 + zlen seg) 6 peer_ip our_ip seg crc peer_mac (h_net h)) as (n1 & Hadm & Ht1 & _); try done.
  { by apply tcp_segment_bytes; [unfold is_u8, FLAG_ACK; lia|]. } { lia. }
  rewrite Hadm. apply compass_admit_frame in Hadm as ((_ & _ & Hm1 & _) & _ & _). cbn [mbind option_bind ip_dispatch ip_directory].
  change (6 =? 6) with true. cbv iota.
  destruct (tcp_checked peer_ip our_ip peer_port lp seq ack FLAG_ACK win data) as [Hck Hrd]; try done; [unfold TCP_MAX_PAYLOAD; lia|].
  pose proof (bi_tcp _ _ _ (hi_board _ _ _ Hh)) as Hinv.
  assert (lockbox_find_listener lp 6 (tp_lockbox (n_tcp n1)) < LOCKBOX_CAPACITY)%nat as Hlis.
  { rewrite Ht1. apply (connection_listener lp peer_ip peer_port); [by rewrite Hconn|]. apply (ii_box _ _ _ _ (ti_inbox _ _ _ Hinv)). }
  rewrite (conversation_handle_known now seg peer_ip our_ip peer_port lp seq ack FLAG_ACK win data n1 id)
    by (rewrite ?Hm1, ?Ht1; done || congruence).
  set (n2 := set_tcp_counts _ n1). assert (n_tcp n2 = n_tcp (h_net h)) as Ht2 by exact Ht1.
  destruct (handle_known_data k q now id seg peer_port lp seq ack win data n2 Hrd) as (n3 & ds & E & [Hi3 _] & _); [by rewrite Ht2|lia|by rewrite Ht2|by rewrite Ht2|lia|done|].
  rewrite E. apply handle_known_still in E as [_ Hg3]. rewrite Ht2 in Hg3. cbn [mbind option_bind].
  set (h3 := set_h_mail _ _). exists h3, (payload_of ds). assert (h_board h3 = set_board_net n3 (h_board h)) as Hb3 by (by rewrite <- Hb1).
  assert (board_inv k (h_board h3) (upd q id (q id ++ data ++ payload_of ds))) as Hbi.
  { rewrite Hb3. eapply board_inv_net; [apply Hh|exact Hi3|by apply gens_up_eq]. }
  destruct (recv_spec id max (h_board h3) k _ Hbi) as (b' & _ & Hrecv). exists b'. split; [reflexivity|]. rewrite Hrecv.
  rewrite bool_decide_true; [unfold upd; by rewrite decide_True|]. rewrite Hb3. simpl. rewrite Hacc. unfold lockbox_get_generation. by rewrite Hg3.
Qed.
End Receiver.

(** C2: what is sent is what is read.  If one host may send a payload of 1 to 1460
    bytes on an established connection (window, free slot, route and hardware
    address known, a free pass and pass numbers left, a transmitter that takes a frame of 1
    to 1514 bytes) and the other host holds the matching end of it (established and
    accepted, its port open, expecting the sender's next sequence number, room in the queue,
    and no rule, curfew, dispute or flag against the sender), then [switchboard_send] succeeds and
    hands one frame to the transmitter; when the driver of the other host delivers that
    frame, followed by up to four bytes of frame check sequence, [switchboard_recv] returns
    the bytes that were waiting there, then exactly the bytes sent. *)
Theorem tcp_end_to_end `{TxDriver DA} `{TxDriver DB} now now' (a : board DA) (h : host DB) ida idb ipa ipb pa pb maca macb data crc ka qa kb qb :
  tcp_inv ka (n_tcp (sb_net a)) qa -> can_send now a ida ipa ipb pa pb macb data ->
  host_inv kb h qb -> n_mac (h_net h) = macb ->
  can_receive now' h idb ipa pa pb (rapport_get_send_seq ida (tp_rapport (n_tcp (sb_net a)))) maca data qb ->
  length maca = 6%nat -> length macb = 6%nat -> length ipa = 4%nat -> length ipb = 4%nat -> bytes ipa -> bytes ipb ->
  bytes crc -> zlen crc <= 4 ->
  exists frame a' h' b', switchboard_send now ida data maca ipa a = (true, a') /\
    lk_driver (n_link (sb_net a')) = snd (frontdesk_send frame (lk_driver (n_link (sb_net a)))) /\
    frontdesk_deliver now' (ipv4_directory now') (frame ++ crc) h = Some h' /\
    switchboard_recv idb (length (qb idb ++ data)) (h_board h') = Some (qb idb ++ data, b').
Proof.
  intros Hia Hs Hh Hmac Hr L1 L2 L3 L4 B1 B2 B3 Hc.
  destruct (switchboard_send_emits now a ida maca ipa ipb pa pb macb data ka qa Hia Hs L1 L2 L3 L4) as (win & a' & Hwin & Hsend & Hwire).
  pose proof Hs as [_ _ [U1 U2] _ _ U3 U4 _ _ _ [Bd Hz] _].
  destruct (frame_received now' h idb macb ipb ipa pa pb _ (rapport_get_expected_seq ida (tp_rapport (n_tcp (sb_net a)))) win maca data crc
    (length (qb idb ++ data)) kb qb Hh Hr) as (h' & late & b' & Hdel & Hrecv); try done.
  eexists _, a', h', b'. split; [exact Hsend|]. split; [exact Hwire|]. split; [exact Hdel|].
  rewrite Hrecv, app_assoc. by rewrite take_app_length' by done.
Qed.

(** Two ends of one connection: 10.0.2.15 port 80 and 10.0.2.2 port 4000. *)
Definition opened (lp : Z) (ip : ip4) (rp peer_isn our_isn : Z) : tcp :=
  let x := (lockbox_claim lp ip rp 6 lockbox_init).2 in
  let t := set_tcp_rapport (alter (conv_on_syn peer_isn our_isn) 0%nat rapport_init) (set_tcp_inbox x inbox_init tcp_init) in
  let t := set_conns (rapport_on_ack 5 0 (our_isn +32 1) (tcp_conns t)) t in
  set_tcp_rapport (rapport_set_peer_window 0 4096 (tp_rapport t)) t.

Lemma opened_inv lp ip rp peer_isn our_isn : (lockbox_claim lp ip rp 6 lockbox_init).1.2 = Some 0%nat ->
  tcp_inv 1 (opened lp ip rp peer_isn our_isn) (upd (fun _ => []) 0 []).
Proof.
  intros E. assert (forall c, cv_status c = CONV_CLOSED -> cv_status (conv_on_syn peer_isn our_isn c) <> CONV_CLOSED) as Hf by done.
  pose proof (keeps_open 0 tcp_init (fun _ => []) lp ip rp (conv_on_syn peer_isn our_isn) tcp_inv_init ltac:(lia) Hf) as Ho.
  unfold opened. change (tp_lockbox tcp_init) with lockbox_init in Ho.
  destruct (lockbox_claim lp ip rp 6 lockbox_init) as [[res out] x]. simpl in E. subst out.
  destruct Ho as (_ & _ & _ & [Hi _]). pose proof (keeps_on_ack 1 0 _ _ Hi 5 (our_isn +32 1)) as [Hi2 _].
  by apply (keeps_rapport 1 0 _ _ Hi2).
Qed.

(** The sender has the RTL8139 of [Nic]. *)
Definition sender_card : nic := nic_init (fun _ _ => 0x8000).
Definition sender : board nic :=
  let n := net_boot sender_card [2;0;0;0;0;1] in
  let a := snd (atlas_add_route [10;0;2;0] [255;255;255;0] [0;0;0;0] (snd (atlas_add_route [10;0;2;0] [255;255;255;128] [0;0;0;0] (n_atlas n)))) in
  let n := mkNet (n_link n) (n_guard n) (n_tcp n) (n_menu n) a (n_cookie n) (n_postbox n) (n_echo n) (n_mac n)
    (n_last_frame n) (n_ip_counts n) (n_tcp_counts n) (n_udp_counts n) in
  let n := set_net_rolodex (rolodex_learn 5 [10;0;2;2] [2;0;0;0;0;2] (lk_rolodex (n_link n))) n in
  board_boot (set_tcp (opened 80 [10;0;2;2] 4000 99 500) n).

Definition receiver : host (list (list Z)) :=
  let h := host_boot [] [2;0;0;0;0;2] in
  let n := set_tcp (opened 4000 [10;0;2;15] 80 500 99) (h_net h) in
  let n := mkNet (n_link n) (n_guard n) (n_tcp n) (snd (menu_open_port 4000 6 (n_menu n))) (n_atlas n) (n_cookie n) (n_postbox n)
    (n_echo n) (n_mac n) (n_last_frame n) (n_ip_counts n) (n_tcp_counts n) (n_udp_counts n) in
  let b := mkBoard n EPHEMERAL_PORT_LOW (1 :: replicate 63 0) in
  set_h_board b h.

Lemma receiver_inv : host_inv 1 receiver (upd (fun _ => []) 0 []).
Proof.
  destruct (host_inv_boot (@nil (list Z)) [2;0;0;0;0;2] eq_refl) as [_ Hs Hp He Hm].
  split; [split| | | |]; try done.
  - apply opened_inv. vm_compute. reflexivity.
  - assert (forallb (fun i => match sb_accepted_generation (h_board receiver) !! i with
      | Some g => (0 <=? g) && (g <=? lockbox_get_generation i (box (h_board receiver))) | None => true end) (seq 0 64) = true) as Hall
      by (vm_compute; reflexivity).
    intros i g Hg. rewrite forallb_forall in Hall. specialize (Hall i). rewrite Hg in Hall. pose proof (lookup_lt_Some _ _ _ Hg) as Hi.
    assert (length (sb_accepted_generation (h_board receiver)) = 64)%nat as Hl by reflexivity. rewrite Hl in Hi.
    apply andb_true_iff in Hall as [?%Z.leb_le ?%Z.leb_le]; [lia|]. apply in_seq. lia.
Qed.

Lemma tcp_end_to_end_witness : exists frame a' h' b', switchboard_send 7 0 [7;8;9] [2;0;0;0;0;1] [10;0;2;15] sender = (true, a') /\
  lk_driver (n_link (sb_net a')) = snd (frontdesk_send frame sender_card) /\
  frontdesk_deliver 8 (ipv4_directory 8) (frame ++ [1;2;3;4]) receiver = Some h' /\
  switchboard_recv 0 3 (h_board h') = Some ([7;8;9], b').
Proof.
  destruct (tcp_end_to_end 7 8 sender receiver 0 0 [10;0;2;15] [10;0;2;2] 80 4000 [2;0;0;0;0;1] [2;0;0;0;0;2] [7;8;9] [1;2;3;4]
    1 (upd (fun _ => []) 0 []) 1 (upd (fun _ => []) 0 [])) as (frame & a' & h' & b' & H1 & H2 & H3 & H4).
  - apply opened_inv. vm_compute. reflexivity.
  - split; try (vm_compute; done).
    + exists [10;0;2;2]. split; vm_compute; reflexivity.
    + vm_compute. eauto.
    + split; [exact bailiff_wf_init|vm_compute; reflexivity].
    + split; [byte_list|unfold zlen, TCP_MAX_PAYLOAD; simpl; lia].
    + intros f Hf. apply (nic_takes f sender_card []); [apply nic_inv_init|reflexivity|vm_compute; lia|unfold TX_FRAME_MAX; lia].
  - exact receiver_inv.
  - reflexivity.
  - split; try (vm_compute; reflexivity).
    + split; [vm_compute; reflexivity|unfold LOCKBOX_CAPACITY; lia].
    + vm_compute. done.
  - reflexivity.
  - reflexivity.
  - reflexivity.
  - reflexivity.
  - byte_list.
  - byte_list.
  - byte_list.
  - unfold zlen. simpl. lia.
  - exists frame, a', h', b'. split; [exact H1|]. split; [exact H2|]. split; [exact H3|exact H4].
Defined.
