(* ===== verification/Pmm.v ===== *)
(** * The physical frame allocator

    [kernel/Memory/pmm.c]: a stack of free 4096-byte frames. *)

From stdpp Require Import list_numbers relations.
From S2P Require Import Prelude.

#[local] Open Scope Z_scope.

Definition FRAME_SIZE : Z := 4096.
Definition MAX_FRAMES : nat := Z.to_nat 32768.

(** [frame_stack[0 .. stack_top]], top first; [stack_top + 1] is its length. *)
Record pmm := mkPmm { pm_stack : list Z; pm_total_frames : Z }.
Definition pmm_zero : pmm := mkPmm [] 0.

(** The loop of [pmm_init]; [limit] is [st_address + size].  [fuel] bounds the
    pushes: the loop itself stops at a full stack. *)
Fixpoint pmm_fill (fuel : nat) (address limit : Z) (m : pmm) : pmm :=
  match fuel with
  | O => m
  | S fuel' =>
      if negb (address <? limit) then m
      else if (MAX_FRAMES <=? length (pm_stack m))%nat then m
      else pmm_fill fuel' (address +32 FRAME_SIZE) limit
             (mkPmm (address :: pm_stack m) (pm_total_frames m +32 1))
  end.

Definition pmm_init (st_address size : Z) (m : pmm) : pmm :=
  let st_address := Z.ldiff (st_address +32 (FRAME_SIZE - 1)) (FRAME_SIZE - 1) in
  pmm_fill (S MAX_FRAMES) st_address (st_address +32 size) m.

Definition pmm_alloc (m : pmm) : Z * pmm :=
  match pm_stack m with
  | [] => (0, m)
  | a :: rest => (a, mkPmm rest (pm_total_frames m))
  end.

Definition pmm_free (address : Z) (m : pmm) : pmm :=
  if address =? 0 then m
  else if negb (Z.land address (FRAME_SIZE - 1) =? 0) then m
  else if bool_decide (address ∈ pm_stack m) then m
  else if (MAX_FRAMES <=? length (pm_stack m))%nat then m
  else mkPmm (address :: pm_stack m) (pm_total_frames m).

Definition pmm_get_top (m : pmm) : Z := foldr Z.max 0 (pm_stack m) +32 FRAME_SIZE.
Definition pmm_used_frames (m : pmm) : Z := pm_total_frames m -32 zlen (pm_stack m).
Definition pmm_total_frames (m : pmm) : Z := pm_total_frames m.
Definition pmm_free_frames (m : pmm) : Z := pmm_total_frames m -32 pmm_used_frames m.

#[global] Opaque MAX_FRAMES.
Lemma max_frames : Z.of_nat MAX_FRAMES = 32768.
Proof. Transparent MAX_FRAMES. unfold MAX_FRAMES. rewrite Z2Nat.id; lia. Qed.
#[global] Opaque MAX_FRAMES.

(** ** The frames of the pool *)

Definition frame_ok (a : Z) : Prop := a <> 0 /\ Z.land a (FRAME_SIZE - 1) = 0.

(** [F] is the pool: each of its frames is either free or handed out. *)
Record pmm_inv (F : list Z) (m : pmm) (live : list Z) : Prop := {
  pi_split : pm_stack m ++ live ≡ₚ F;
  pi_nodup : NoDup F;
  pi_frames : Forall frame_ok F;
  pi_total : pm_total_frames m = zlen F;
  pi_fits : (length F <= MAX_FRAMES)%nat }.

(** The frames [address], [address + 4096], ... below [limit], last first. *)
Definition frames_from (address : Z) (n : nat) : list Z := (fun i => address + 4096 * i) <$> seqZ 0 (Z.of_nat n).

Lemma frames_from_S address n : frames_from address (S n) = address :: frames_from (address + 4096) n.
Proof.
  unfold frames_from. rewrite seqZ_cons by lia. cbn [fmap list_fmap]. f_equal; [lia|].
  replace (Z.pred (Z.of_nat (S n))) with (Z.of_nat n) by lia. rewrite <- (fmap_add_seqZ 1 0), <- list_fmap_compose.
  apply list_fmap_ext. intros i x _. simpl. lia.
Qed.

(** How many frames the loop pushes. *)
Definition pool_size (address limit : Z) : nat := Z.to_nat ((limit - address + 4095) / 4096).

Lemma pool_size_step address limit : address < limit -> pool_size address limit = S (pool_size (address + 4096) limit).
Proof.
  intros. unfold pool_size. rewrite <- Z2Nat.inj_succ by lia_mod. f_equal.
  replace (limit - address + 4095) with (limit - (address + 4096) + 4095 + 1 * 4096) by lia. rewrite Z.div_add by lia. lia.
Qed.

Lemma pmm_fill_spec fuel : forall address limit m,
  0 <= address -> limit + 4096 < 4294967296 -> (pool_size address limit + length (pm_stack m) <= MAX_FRAMES)%nat ->
  (pool_size address limit < fuel)%nat -> 0 <= pm_total_frames m <= 32768 - Z.of_nat (pool_size address limit) ->
  pmm_fill fuel address limit m =
    mkPmm (reverse (frames_from address (pool_size address limit)) ++ pm_stack m)
      (pm_total_frames m + Z.of_nat (pool_size address limit)).
Proof.
  induction fuel as [|fuel IH]; intros address limit m Ha Hl Hfit Hf Ht; [lia|]. cbn [pmm_fill].
  destruct (Z.ltb_spec address limit); cbn [negb].
  - pose proof (pool_size_step address limit ltac:(lia)) as Hs. rewrite Hs in *.
    destruct (Nat.leb_spec MAX_FRAMES (length (pm_stack m))); [lia|].
    unfold FRAME_SIZE. rewrite (u32_small (address + 4096)), (u32_small (pm_total_frames m + 1)) by (unfold is_u32; lia).
    rewrite IH; [|lia|lia|simpl; lia|lia|simpl; lia]. rewrite frames_from_S, reverse_cons, <- app_assoc. simpl. f_equal. lia.
  - assert (pool_size address limit = 0%nat) as ->.
    { unfold pool_size. assert ((limit - address + 4095) / 4096 <= 0) by lia_mod. lia. }
    unfold frames_from. simpl. destruct m. simpl. f_equal. lia.
Qed.

Lemma land_4095 a : Z.land a 4095 = a mod 4096.
Proof. change 4095 with (Z.ones 12). rewrite Z.land_ones by lia. done. Qed.

Lemma ldiff_4095 a : Z.ldiff a 4095 = a - a mod 4096.
Proof.
  change 4095 with (Z.ones 12). rewrite Z.ldiff_ones_r by lia. rewrite Z.shiftl_mul_pow2, Z.shiftr_div_pow2 by lia.
  change (2 ^ 12) with 4096. lia_mod.
Qed.

Lemma frames_from_ok address n : 0 < address -> address mod 4096 = 0 -> Forall frame_ok (frames_from address n) /\ NoDup (frames_from address n).
Proof.
  intros Hp Hm. unfold frames_from. split.
  - apply Forall_fmap, Forall_forall. intros i Hi%list_elem_of_In%elem_of_seqZ. unfold compose, frame_ok, FRAME_SIZE.
    change (4096 - 1) with 4095. rewrite land_4095. split; [lia|lia_mod].
  - apply NoDup_fmap_2; [intros x y; lia|apply NoDup_seqZ].
Qed.

(** The first frame of the pool. *)
Definition pool_start (st_address : Z) : Z := (st_address + 4095) / 4096 * 4096.

Lemma pmm_init_inv st size : 0 < st -> 0 <= size -> size <= 4096 * 32768 -> st + size + 8192 < 4294967296 ->
  let F := reverse (frames_from (pool_start st) (pool_size 0 size)) in
  pmm_inv F (pmm_init st size pmm_zero) [].
Proof.
  intros Hst Hs Hmax Hov. cbv zeta. unfold pmm_init, FRAME_SIZE.
  change (4096 - 1) with 4095. rewrite (u32_small (st + 4095)) by (unfold is_u32; lia). rewrite ldiff_4095.
  assert (st + 4095 - (st + 4095) mod 4096 = pool_start st) as -> by (unfold pool_start; lia_mod).
  assert (0 < pool_start st <= st + 4095 /\ pool_start st mod 4096 = 0) as [Hr Hm] by (unfold pool_start; lia_mod).
  rewrite (u32_small (pool_start st + size)) by (unfold is_u32; lia).
  assert (pool_size (pool_start st) (pool_start st + size) = pool_size 0 size) as Ep by (unfold pool_size; f_equal; f_equal; lia).
  assert (Z.of_nat (pool_size 0 size) <= 32768) as Hps by (unfold pool_size; rewrite Z2Nat.id; lia_mod).
  pose proof max_frames as Hmf.
  rewrite pmm_fill_spec; [|lia|lia|rewrite Ep; simpl; lia|rewrite Ep; lia|rewrite Ep; simpl; lia].
  rewrite Ep. destruct (frames_from_ok (pool_start st) (pool_size 0 size)) as [Hok Hnd]; [lia|done|].
  assert (length (frames_from (pool_start st) (pool_size 0 size)) = pool_size 0 size) as Hl.
  { unfold frames_from. rewrite length_fmap, length_seqZ, Nat2Z.id. done. }
  split; simpl.
  - by rewrite !app_nil_r.
  - by rewrite reverse_Permutation.
  - by rewrite reverse_Permutation.
  - unfold zlen. rewrite length_reverse, Hl. lia.
  - rewrite length_reverse, Hl. lia.
Qed.

(** ** Allocation *)

Lemma pmm_alloc_spec F m live : pmm_inv F m live ->
  let '(a, m') := pmm_alloc m in
  (a = 0 /\ m' = m /\ live ≡ₚ F) \/ (a ∈ F /\ a ∉ live /\ frame_ok a /\ pmm_inv F m' (a :: live)).
Proof.
  intros [H1 H2 H3 H4 H5]. unfold pmm_alloc. destruct (pm_stack m) as [|a rest] eqn:Hs; [left; done|right].
  assert (a ∈ F) as Ha by (rewrite <- H1; simpl; left).
  split; [done|]. split; [|split].
  - rewrite <- H1 in H2. apply NoDup_cons_1_1 in H2. set_solver.
  - rewrite Forall_forall in H3. apply H3. by apply list_elem_of_In.
  - split; simpl; [|done..]. rewrite <- H1. simpl. by rewrite <- Permutation_middle.
Qed.

Lemma pmm_free_live F m a live : pmm_inv F m (a :: live) -> pmm_inv F (pmm_free a m) live.
Proof.
  intros [H1 H2 H3 H4 H5]. unfold pmm_free.
  assert (pm_stack m ++ a :: live ≡ₚ a :: pm_stack m ++ live) as Hp by (by rewrite <- Permutation_middle).
  assert (a ∈ F) as Ha by (rewrite <- H1; set_solver).
  assert (frame_ok a) as [Hn0 Hal] by (rewrite Forall_forall in H3; apply H3; by apply list_elem_of_In).
  assert (a ∉ pm_stack m) as Hni by (rewrite <- H1, Hp in H2; apply NoDup_cons_1_1 in H2; set_solver).
  destruct (Z.eqb_spec a 0); [done|]. rewrite Hal. simpl negb. cbv iota. rewrite bool_decide_false by done.
  apply Permutation_length in H1 as Hl. rewrite Hp in Hl. simpl in Hl. rewrite length_app in Hl.
  destruct (Nat.leb_spec MAX_FRAMES (length (pm_stack m))); [lia|].
  split; simpl; [|done..]. by rewrite <- H1, Hp.
Qed.

(** Bad frees are ignored. *)
Lemma pmm_free_ignored a m : a = 0 \/ Z.land a 4095 <> 0 \/ a ∈ pm_stack m -> pmm_free a m = m.
Proof.
  intros H. unfold pmm_free, FRAME_SIZE. change (4096 - 1) with 4095. destruct (Z.eqb_spec a 0); [done|].
  destruct (Z.eqb_spec (Z.land a 4095) 0); [|done]. simpl negb. cbv iota. rewrite bool_decide_true; [done|tauto].
Qed.

(** Requests of the kernel: allocate, or free an address that is either handed
    out at the time or one of the kinds [pmm_free] rejects. *)
Inductive pmm_step (F : list Z) : pmm * list Z -> pmm * list Z -> Prop :=
| step_alloc m live : pmm_step F (m, live) (snd (pmm_alloc m), if fst (pmm_alloc m) =? 0 then live else fst (pmm_alloc m) :: live)
| step_free m a live : pmm_step F (m, a :: live) (pmm_free a m, live)
| step_bad_free m a live : a = 0 \/ Z.land a 4095 <> 0 \/ a ∈ pm_stack m -> pmm_step F (m, live) (pmm_free a m, live)
| step_shuffle m live live' : live ≡ₚ live' -> pmm_step F (m, live) (m, live').

Lemma pmm_step_inv F m live m' live' : pmm_step F (m, live) (m', live') -> pmm_inv F m live -> pmm_inv F m' live'.
Proof.
  intros Hs Hi. inversion Hs; subst.
  - pose proof (pmm_alloc_spec F m live Hi) as Ha. destruct (pmm_alloc m) as [a m1]. simpl.
    destruct Ha as [(-> & -> & _)|(_ & _ & [Hne _] & Hi')]; [done|]. destruct (Z.eqb_spec a 0); done.
  - by apply pmm_free_live.
  - by rewrite pmm_free_ignored.
  - destruct Hi as [H1 H2 H3 H4 H5]. split; [|done..]. by rewrite <- H1, H0.
Qed.

(** The frame allocator never hands out a frame twice.  Starting from
    [pmm_init] over any region that fits the pool and the address space, after
    any sequence of allocations, frees of frames handed out and bad frees
    (NULL, unaligned, already free), the frames free and the frames handed out
    together are exactly the pool, each once; every frame is page-aligned and
    not NULL, an allocation fails only when every frame is handed out, and the
    count of used frames is exactly the number handed out. *)
Lemma pmm_frames_partition st size m live :
  0 < st -> 0 <= size <= 4096 * 32768 -> st + size + 8192 < 4294967296 ->
  let F := reverse (frames_from (pool_start st) (pool_size 0 size)) in
  rtc (pmm_step F) (pmm_init st size pmm_zero, []) (m, live) ->
  pm_stack m ++ live ≡ₚ F /\ NoDup (pm_stack m ++ live) /\ Forall frame_ok (pm_stack m ++ live) /\
  (fst (pmm_alloc m) = 0 <-> length live = length F) /\ pmm_used_frames m = zlen live.
Proof.
  intros Hst [Hs1 Hs2] Hov. cbv zeta. set (F := reverse _). intros Hr.
  assert (pmm_inv F m live) as Hi.
  { assert (forall x y, rtc (pmm_step F) x y -> pmm_inv F x.1 x.2 -> pmm_inv F y.1 y.2) as Hgen.
    { induction 1 as [|[m1 l1] [m2 l2] [m3 l3] H12 _ IH]; [done|]. intros H1. apply IH. simpl in *. by eapply pmm_step_inv. }
    apply (Hgen _ _ Hr). simpl. by apply pmm_init_inv. }
  clearbody F. clear Hr. pose proof (pmm_alloc_spec F m live Hi) as Ha. destruct Hi as [H1 H2 H3 H4 H5].
  split; [done|]. split; [by rewrite H1|]. split; [by rewrite H1|].
  apply Permutation_length in H1 as Hl. rewrite length_app in Hl. split.
  - clear H5. unfold pmm_alloc in *. destruct (pm_stack m) as [|a rest]; simpl in *; [split; [intros _; lia|done]|].
    destruct Ha as [(-> & _)|(_ & _ & [Hne _] & _)]; [|split; [done|lia]].
    exfalso. rewrite Forall_forall in H3. destruct (H3 0) as [Hz _]; [|done]. apply list_elem_of_In. rewrite <- H1. left.
  - pose proof max_frames as Hmf. unfold pmm_used_frames. rewrite H4. unfold zlen in *. rewrite u32_small by (unfold is_u32; lia). lia.
Qed.

Lemma pmm_frames_partition_witness :
  pmm_used_frames (snd (pmm_alloc (pmm_init 0x100000 0x4000 pmm_zero))) = 1.
Proof.
  assert (rtc (pmm_step (reverse (frames_from (pool_start 0x100000) (pool_size 0 0x4000))))
    (pmm_init 0x100000 0x4000 pmm_zero, []) (snd (pmm_alloc (pmm_init 0x100000 0x4000 pmm_zero)), [0x103000])) as Hr.
  { eapply rtc_l; [|apply rtc_refl]. apply step_alloc. }
  exact (proj2 (proj2 (proj2 (proj2 (pmm_frames_partition 0x100000 0x4000 _ [0x103000] ltac:(lia) ltac:(lia) ltac:(lia) Hr))))).
Defined.
