(* ===== verification/Buddy.v ===== *)
(** * The buddy allocator

    [kernel/Memory/buddy.c]: free blocks of 2^order pages, one linked list per
    order, the links stored in the free blocks themselves. *)

From stdpp Require Import list_numbers gmap relations.
From S2P Require Import Prelude.

#[local] Open Scope Z_scope.

Definition MAX_ORDER : nat := 16.

(** [bd_heads] is [free_lists]; [bd_mem] is the memory the allocator manages, by
    the address of each word that has been written. *)
Record buddy := mkBuddy {
  bd_start : Z; bd_end : Z; bd_total_mem : Z; bd_heads : list Z; bd_mem : gmap Z Z }.

Definition block_bytes (order : nat) : Z := Z.shiftl 1 (Z.of_nat order) * 4096.

Definition list_head (order : nat) (b : buddy) : Z := default 0 (bd_heads b !! order).
Definition set_list_head (order : nat) (p : Z) (b : buddy) : buddy :=
  mkBuddy (bd_start b) (bd_end b) (bd_total_mem b) (<[order := p]> (bd_heads b)) (bd_mem b).
(** Write [p] to the word at [a], in particular [a->next = p]. *)
Definition store_word (a p : Z) (b : buddy) : buddy :=
  mkBuddy (bd_start b) (bd_end b) (bd_total_mem b) (bd_heads b) (<[a := p]> (bd_mem b)).

Definition buddy_in_range (p : Z) (b : buddy) : bool := (bd_start b <=? p) && (p <? bd_end b).
Definition buddy_valid_order (order : Z) : bool := (0 <=? order) && (order <=? Z.of_nat MAX_ORDER).

Definition add_to_list (ptr order : Z) (b : buddy) : buddy :=
  if (ptr =? 0) || negb (buddy_valid_order order) then b
  else if negb (buddy_in_range ptr b) then b
  else set_list_head (Z.to_nat order) ptr (store_word ptr (list_head (Z.to_nat order) b) b).

(** The [while] loop of [buddy_init]: the order and the address it stops with. *)
Fixpoint init_pick (order : nat) (start end_ : Z) : nat * Z :=
  match order with
  | O => (0%nat, start)
  | S order' =>
      let aligned := Z.ldiff (u32 (start + block_bytes order - 1)) (block_bytes order - 1) in
      if (aligned +32 block_bytes order) <=? end_ then (order, aligned) else init_pick order' start end_
  end.

Definition buddy_init (start end_ : Z) (mem : gmap Z Z) : buddy :=
  let b := mkBuddy start end_ (end_ -32 start) (replicate (S MAX_ORDER) 0) mem in
  let '(order, addr) := init_pick MAX_ORDER start end_ in
  if (order =? 0)%nat then
    let addr := Z.ldiff (start +32 4095) 4095 in
    if end_ <? (addr +32 4096) then b else add_to_list addr 0 b
  else add_to_list addr (Z.of_nat order) b.

(** Loops over a list run at most once per word of memory; [None] is a read of a
    word never written, or running out of fuel. *)
Definition list_fuel (b : buddy) : nat := S (size (bd_mem b)).

Fixpoint seek (fuel : nat) (mem : gmap Z Z) (current target : Z) : option Z :=
  match fuel with
  | O => None
  | S fuel' =>
      if current =? 0 then Some 0 else
      next ← mem !! current;
      if next =? target then Some current else seek fuel' mem next target
  end.

Definition remove_from_list (ptr order : Z) (b : buddy) : option buddy :=
  if (ptr =? 0) || negb (buddy_valid_order order) then Some b else
  let current := list_head (Z.to_nat order) b in
  if current =? 0 then Some b
  else if current =? ptr then next ← bd_mem b !! current; Some (set_list_head (Z.to_nat order) next b)
  else
    current ← seek (list_fuel b) (bd_mem b) current ptr;
    if current =? 0 then Some b else
    next ← bd_mem b !! current;
    if next =? ptr then tnext ← bd_mem b !! ptr; Some (store_word current tnext b) else Some b.

(** The first order of [orders] with a free block. *)
Fixpoint find_larger (orders : list nat) (b : buddy) : option nat :=
  match orders with
  | [] => None
  | i :: rest => if list_head i b =? 0 then find_larger rest b else Some i
  end.

(** [while (i > order)] with [i = order + k]. *)
Fixpoint split_down (k order : nat) (block : Z) (b : buddy) : buddy :=
  match k with
  | O => b
  | S k' => split_down k' order block (add_to_list (block + block_bytes (order + k')) (Z.of_nat (order + k')) b)
  end.

(** The pointer returned, 0 for [NULL]. *)
Definition buddy_alloc (order : Z) (b : buddy) : option (Z * buddy) :=
  if negb (buddy_valid_order order) then Some (0, b) else
  let o := Z.to_nat order in
  if negb (list_head o b =? 0) then
    let block := list_head o b in
    next ← bd_mem b !! block;
    Some (block, store_word block 0 (set_list_head o next b))
  else
    match find_larger (seq (S o) (MAX_ORDER - o)) b with
    | None => Some (0, b)
    | Some i =>
        let block := list_head i b in
        b ← remove_from_list block (Z.of_nat i) b;
        Some (block, split_down (i - o) o block b)
    end.

(** The search of [buddy_free]: [Some (Some prev)] found it behind [prev]. *)
Fixpoint search (fuel : nat) (mem : gmap Z Z) (prev current buddy_address : Z) : option (option Z) :=
  match fuel with
  | O => None
  | S fuel' =>
      if current =? 0 then Some None
      else if current =? buddy_address then Some (Some prev)
      else next ← mem !! current; search fuel' mem current next buddy_address
  end.

(** [while (order < MAX_ORDER)] with [order + k = MAX_ORDER]. *)
Fixpoint coalesce (k : nat) (address : Z) (order : nat) (b : buddy) : option (Z * nat * buddy) :=
  match k with
  | O => Some (address, order, b)
  | S k' =>
      let size := block_bytes order in
      let buddy_address := Z.lxor address size in
      if (buddy_address <? bd_start b) || (bd_end b <=? buddy_address) then Some (address, order, b)
      else
        found ← search (list_fuel b) (bd_mem b) 0 (list_head order b) buddy_address;
        match found with
        | None => Some (address, order, b)
        | Some prev =>
            next ← bd_mem b !! buddy_address;
            coalesce k' (Z.ldiff address size) (S order)
              (if negb (prev =? 0) then store_word prev next b else set_list_head order next b)
        end
  end.

Definition buddy_free (ptr order : Z) (b : buddy) : option buddy :=
  if (ptr =? 0) || negb (buddy_valid_order order) then Some b
  else if negb (buddy_in_range ptr b) then Some b
  else
    let o := Z.to_nat order in
    if negb (Z.land ptr (block_bytes o - 1) =? 0) then Some b else
    '(address, o, b) ← coalesce (MAX_ORDER - o) ptr o b;
    Some (add_to_list address (Z.of_nat o) b).

Definition buddy_total_memory (b : buddy) : Z := bd_total_mem b.

(** The inner loop of [buddy_free_memory]. *)
Fixpoint sum_list_bytes (fuel : nat) (mem : gmap Z Z) (curr bytes free : Z) : option Z :=
  match fuel with
  | O => None
  | S fuel' =>
      if curr =? 0 then Some free
      else if 0xFFFFFFFF - bytes <? free then Some 0xFFFFFFFF
      else next ← mem !! curr; sum_list_bytes fuel' mem next bytes (free +32 bytes)
  end.
Fixpoint sum_orders (orders : list nat) (b : buddy) (free : Z) : option Z :=
  match orders with
  | [] => Some free
  | o :: rest => free ← sum_list_bytes (list_fuel b) (bd_mem b) (list_head o b) (block_bytes o) free; sum_orders rest b free
  end.
Definition buddy_free_memory (b : buddy) : option Z := sum_orders (seq 0 (S MAX_ORDER)) b 0.
Definition buddy_used_memory (b : buddy) : option Z :=
  free ← buddy_free_memory b; Some (if free <=? bd_total_mem b then bd_total_mem b -32 free else 0).

Fixpoint largest_from (order : nat) (b : buddy) : Z :=
  if negb (list_head order b =? 0) then block_bytes order
  else match order with O => 0 | S order' => largest_from order' b end.
Definition buddy_largest_free_block (b : buddy) : Z := largest_from MAX_ORDER b.
Definition buddy_fragmentation (b : buddy) : option Z :=
  free ← buddy_free_memory b;
  let largest := buddy_largest_free_block b in
  Some (if largest <? free then free -32 largest else 0).

Fixpoint list_count (fuel : nat) (mem : gmap Z Z) (curr count : Z) : option Z :=
  match fuel with
  | O => None
  | S fuel' => if curr =? 0 then Some count else next ← mem !! curr; list_count fuel' mem next (count +32 1)
  end.
Definition buddy_free_count_at_order (order : Z) (b : buddy) : option Z :=
  if (order <? 0) || (Z.of_nat MAX_ORDER <? order) then Some 0
  else list_count (list_fuel b) (bd_mem b) (list_head (Z.to_nat order) b) 0.

Fixpoint free_pages_from (orders : list nat) (b : buddy) (free_pages : Z) : option Z :=
  match orders with
  | [] => Some free_pages
  | o :: rest =>
      n ← buddy_free_count_at_order (Z.of_nat o) b;
      free_pages_from rest b (u32 (free_pages + u32 (n * Z.shiftl 1 (Z.of_nat o))))
  end.
Definition buddy_live_allocations (b : buddy) : option Z :=
  free_pages ← free_pages_from (seq 0 (S MAX_ORDER)) b 0;
  Some (bd_total_mem b / 4096 -32 free_pages).

(** ** Addresses and sizes *)

Lemma block_bytes_pow o : block_bytes o = 2 ^ (Z.of_nat o + 12).
Proof. unfold block_bytes. rewrite Z.shiftl_mul_pow2, Z.pow_add_r by lia. lia. Qed.
Lemma block_bytes_pages o : block_bytes o = 2 ^ Z.of_nat o * 4096.
Proof. unfold block_bytes. rewrite Z.shiftl_mul_pow2 by lia. lia. Qed.
Lemma block_bytes_S o : block_bytes (S o) = 2 * block_bytes o.
Proof. rewrite !block_bytes_pow. rewrite <- Z.pow_succ_r by lia. f_equal. lia. Qed.
Lemma block_bytes_pos o : 4096 <= block_bytes o.
Proof. rewrite block_bytes_pages. pose proof (Z.pow_pos_nonneg 2 (Z.of_nat o) ltac:(lia) ltac:(lia)). lia. Qed.
Lemma block_bytes_mono o o' : (o <= o')%nat -> block_bytes o <= block_bytes o'.
Proof. intros. rewrite !block_bytes_pow. apply Z.pow_le_mono_r; lia. Qed.
Lemma block_bytes_max o : (o <= MAX_ORDER)%nat -> block_bytes o <= 268435456.
Proof. intros H. etransitivity; [exact (block_bytes_mono _ _ H)|]. done. Qed.
Lemma block_bytes_divide o o' : (o <= o')%nat -> (block_bytes o | block_bytes o').
Proof.
  intros H. rewrite !block_bytes_pow. replace (Z.of_nat o' + 12) with (Z.of_nat (o' - o) + (Z.of_nat o + 12)) by lia.
  rewrite (Z.pow_add_r 2 (Z.of_nat (o' - o))) by lia. apply Z.divide_factor_r.
Qed.

Lemma lxor_1 q : Z.lxor q 1 = if Z.even q then q + 1 else q - 1.
Proof.
  assert (forall r, Z.lxor (2 * r) 1 = 2 * r + 1) as He.
  { intros r. symmetry. apply Z.add_nocarry_lxor. apply Z.bits_inj'. intros n Hn. rewrite Z.land_spec, Z.bits_0.
    destruct (decide (n = 0)) as [->|]; [by rewrite Z.testbit_even_0|]. rewrite (Z.bits_above_log2 1 n) by (simpl; lia).
    by rewrite andb_false_r. }
  destruct (Z.even q) eqn:E.
  - apply Z.even_spec in E as [r ->]. apply He.
  - assert (Z.odd q = true) as [r ->]%Z.odd_spec by (by rewrite <- Z.negb_even, E).
    rewrite <- He, Z.lxor_assoc, Z.lxor_nilpotent, Z.lxor_0_r, He. lia.
Qed.

Lemma ldiff_1 q : Z.ldiff q 1 = if Z.even q then q else q - 1.
Proof.
  change 1 with (Z.ones 1) at 1. rewrite Z.ldiff_ones_r by lia. rewrite Z.shiftl_mul_pow2, Z.shiftr_div_pow2 by lia.
  change (2 ^ 1) with 2. destruct (Z.even q) eqn:E.
  - apply Z.even_spec in E as [r ->]. lia_mod.
  - assert (Z.odd q = true) as [r ->]%Z.odd_spec by (by rewrite <- Z.negb_even, E). lia_mod.
Qed.

(** An aligned block is the left or the right half of its parent. *)
Lemma buddy_of a o : (block_bytes o | a) ->
  ((block_bytes (S o) | a) /\ Z.lxor a (block_bytes o) = a + block_bytes o /\ Z.ldiff a (block_bytes o) = a) \/
  ((block_bytes (S o) | a - block_bytes o) /\ Z.lxor a (block_bytes o) = a - block_bytes o /\
   Z.ldiff a (block_bytes o) = a - block_bytes o).
Proof.
  intros [q ->]. rewrite block_bytes_S. set (n := Z.of_nat o + 12).
  assert (q * block_bytes o = Z.shiftl q n /\ block_bytes o = Z.shiftl 1 n) as [E1 E2].
  { rewrite block_bytes_pow, !Z.shiftl_mul_pow2 by lia. split; [done|by rewrite Z.mul_1_l]. }
  assert (Z.lxor (q * block_bytes o) (block_bytes o) = Z.lxor q 1 * block_bytes o) as ->.
  { rewrite E1. rewrite E2 at 1. rewrite <- Z.shiftl_lxor, Z.shiftl_mul_pow2, block_bytes_pow by lia. done. }
  assert (Z.ldiff (q * block_bytes o) (block_bytes o) = Z.ldiff q 1 * block_bytes o) as ->.
  { rewrite E1. rewrite E2 at 1. rewrite <- Z.shiftl_ldiff, Z.shiftl_mul_pow2, block_bytes_pow by lia. done. }
  rewrite lxor_1, ldiff_1. destruct (Z.even q) eqn:E.
  - left. apply Z.even_spec in E as [r ->]. split; [exists r; lia|]. split; lia.
  - right. assert (Z.odd q = true) as [r ->]%Z.odd_spec by (by rewrite <- Z.negb_even, E).
    split; [exists r; lia|]. split; lia.
Qed.

Lemma lxor_lxor a s : Z.lxor (Z.lxor a s) s = a.
Proof. by rewrite Z.lxor_assoc, Z.lxor_nilpotent, Z.lxor_0_r. Qed.

Lemma lxor_divide a o : (block_bytes o | a) -> (block_bytes o | Z.lxor a (block_bytes o)).
Proof.
  intros H. destruct (buddy_of a o H) as [(_ & -> & _)|(_ & -> & _)].
  - by apply Z.divide_add_r; [|apply Z.divide_refl].
  - by apply Z.divide_sub_r; [|apply Z.divide_refl].
Qed.

Lemma land_divide a o : (block_bytes o | a) <-> Z.land a (block_bytes o - 1) = 0.
Proof.
  pose proof (block_bytes_pos o). rewrite block_bytes_pow in *.
  replace (2 ^ (Z.of_nat o + 12) - 1) with (Z.ones (Z.of_nat o + 12)) by (rewrite Z.ones_equiv; lia).
  rewrite Z.land_ones by lia. symmetry. apply Z.mod_divide. lia.
Qed.

(** ** Pages *)

(** A block: address and order. *)
Notation block := (Z * nat)%type.
Definition pages (x : block) : list Z := seqZ (x.1 / 4096) (2 ^ Z.of_nat x.2).

Lemma pages_split a o : pages (a, S o) = pages (a, o) ++ pages (a + block_bytes o, o).
Proof.
  unfold pages. simpl fst. simpl snd. rewrite block_bytes_pages, Z.div_add by lia.
  rewrite <- seqZ_app by (apply Z.pow_nonneg; lia). f_equal. rewrite Nat2Z.inj_succ, Z.pow_succ_r by lia. lia.
Qed.

Lemma first_page a o : a / 4096 ∈ pages (a, o).
Proof. apply elem_of_seqZ. simpl. pose proof (Z.pow_pos_nonneg 2 (Z.of_nat o) ltac:(lia) ltac:(lia)). lia. Qed.

Lemma pages_elem a o p : (4096 | a) -> p ∈ pages (a, o) <-> a <= p * 4096 < a + block_bytes o.
Proof.
  intros [q ->]. rewrite block_bytes_pages. unfold pages. simpl. rewrite Z.div_mul, elem_of_seqZ by lia. lia.
Qed.

(** ** Linked lists in memory *)

Inductive chain (mem : gmap Z Z) : Z -> list Z -> Prop :=
| chain_nil : chain mem 0 []
| chain_cons a next l : a <> 0 -> mem !! a = Some next -> chain mem next l -> chain mem a (a :: l).

Lemma chain_inv_nil mem l : chain mem 0 l -> l = [].
Proof. by inversion 1. Qed.
Lemma chain_inv_cons mem h a l : chain mem h (a :: l) -> h = a /\ a <> 0 /\ exists next, mem !! a = Some next /\ chain mem next l.
Proof. inversion 1; subst. eauto 10. Qed.
Lemma chain_null mem h l : chain mem h l -> h = 0 <-> l = [].
Proof. by inversion 1. Qed.

Lemma chain_insert mem h l a v : a ∉ l -> chain mem h l -> chain (<[a := v]> mem) h l.
Proof.
  intros Ha. induction 1 as [|x next l H0 Hx Hc IH]; [constructor|]. apply not_elem_of_cons in Ha as [Hne Hni].
  econstructor; [done| |by apply IH]. by rewrite lookup_insert_ne.
Qed.

Lemma chain_dom mem h l a : chain mem h l -> a ∈ l -> is_Some (mem !! a).
Proof. induction 1; [by intros ?%not_elem_of_nil|]. intros [->|?]%elem_of_cons; eauto. Qed.

Lemma chain_length mem h l : chain mem h l -> NoDup l -> (length l <= size mem)%nat.
Proof.
  intros Hc Hnd. rewrite <- size_dom, <- (size_list_to_set (C := gset Z)) by done. apply subseteq_size.
  intros a Ha%elem_of_list_to_set. apply elem_of_dom. by eapply chain_dom.
Qed.

(** A chain split at a member: the part before it and what it points to. *)
Lemma chain_app mem h l1 a l2 : chain mem h (l1 ++ a :: l2) -> exists next, mem !! a = Some next /\ chain mem next l2.
Proof.
  revert h. induction l1 as [|x l1 IH]; intros h Hc; apply chain_inv_cons in Hc as (_ & _ & next & Hn & Hc); [eauto|].
  by eapply IH.
Qed.

Lemma chain_unlink mem h l1 p a l2 next : NoDup (l1 ++ p :: a :: l2) -> mem !! a = Some next -> chain mem h (l1 ++ p :: a :: l2) ->
  chain (<[p := next]> mem) h (l1 ++ p :: l2).
Proof.
  intros Hnd Ha. revert h. induction l1 as [|x l1 IH]; intros h Hc; simpl in *.
  - apply chain_inv_cons in Hc as (-> & H0 & n1 & Hp & Hc). apply chain_inv_cons in Hc as (-> & _ & n2 & Ha' & Hc).
    simplify_eq. apply NoDup_cons_1_1 in Hnd as Hni. econstructor; [done|by rewrite lookup_insert_eq|].
    apply chain_insert; [|done]. set_solver.
  - apply chain_inv_cons in Hc as (-> & H0 & n1 & Hx & Hc). apply NoDup_cons_1_1 in Hnd as Hni. apply NoDup_cons_1_2 in Hnd.
    econstructor; [done|rewrite lookup_insert_ne by set_solver; done|]. by apply IH.
Qed.

(** The search finds a member, with the element before it. *)
Lemma search_spec fuel mem target : forall prev h l, chain mem h l -> (length l < fuel)%nat ->
  (target ∉ l /\ search fuel mem prev h target = Some None) \/
  exists l1 l2, l = l1 ++ target :: l2 /\ search fuel mem prev h target = Some (Some (default prev (list.last l1))).
Proof.
  induction fuel as [|fuel IH]; intros prev h l Hc Hf; [lia|]. cbn [search].
  destruct Hc as [|a next l Ha Hm Hc]; [left; split; [apply not_elem_of_nil|done]|]. simpl in Hf.
  destruct (Z.eqb_spec a 0); [done|]. destruct (Z.eqb_spec a target) as [->|Hne].
  { right. exists [], l. done. }
  rewrite Hm. cbn [mbind option_bind].
  destruct (IH a next l Hc ltac:(lia)) as [[Hni ->]|(l1 & l2 & -> & ->)].
  - left. split; [|done]. apply not_elem_of_cons. done.
  - right. exists (a :: l1), l2. split; [done|]. rewrite last_cons. by destruct (list.last l1).
Qed.

Lemma sum_list_bytes_spec fuel mem bytes : forall h l free, chain mem h l -> (length l < fuel)%nat -> 0 <= free -> 0 < bytes ->
  free + bytes * zlen l <= 0xFFFFFFFF -> sum_list_bytes fuel mem h bytes free = Some (free + bytes * zlen l).
Proof.
  unfold zlen. induction fuel as [|fuel IH]; intros h l free Hc Hf H0 Hb Hle; [lia|]. cbn [sum_list_bytes].
  destruct Hc as [|a next l Ha Hm Hc]; [simpl; f_equal; lia|]. cbn [length] in *. destruct (Z.eqb_spec a 0); [done|].
  destruct (Z.ltb_spec (4294967295 - bytes) free); [nia|]. rewrite Hm. cbn [mbind option_bind].
  rewrite u32_small by (unfold is_u32; nia). rewrite (IH next l) by (done || lia || nia). f_equal. lia.
Qed.

(** ** The blocks on the free lists *)

Definition tagged (o : nat) (l : list Z) : list block := (fun a => (a, o)) <$> l.
Definition free_blocks (L : list (list Z)) : list block := concat (imap tagged L).

Lemma free_blocks_update L o l : L !! o = Some l -> exists rest,
  free_blocks L ≡ₚ tagged o l ++ rest /\ forall l', free_blocks (<[o := l']> L) ≡ₚ tagged o l' ++ rest.
Proof.
  intros Hl.
  exists (concat (imap tagged (take o L)) ++ concat (imap (fun i => tagged (S o + i)) (drop (S o) L))).
  assert (forall l', (o < length L)%nat -> free_blocks (<[o := l']> L) ≡ₚ
    tagged o l' ++ concat (imap tagged (take o L)) ++ concat (imap (fun i => tagged (S o + i)) (drop (S o) L))) as Hins.
  { intros l' Ho. unfold free_blocks. rewrite insert_take_drop, imap_app, concat_app by done. cbn [imap concat].
    rewrite length_take, Nat.min_l by lia. rewrite Nat.add_0_r.
    rewrite Permutation_app_swap_app.
    rewrite (imap_ext ((fun n => tagged (o + n)) ∘ S) (fun i => tagged (S o + i))); [done|].
    intros i x _. simpl. f_equal. lia. }
  pose proof (lookup_lt_Some _ _ _ Hl) as Ho. split; [|intros l'; by apply Hins].
  rewrite <- (list_insert_id L o l Hl) at 1. by apply Hins.
Qed.

Lemma elem_of_free_blocks L a o : (a, o) ∈ free_blocks L <-> exists l, L !! o = Some l /\ a ∈ l.
Proof.
  unfold free_blocks. rewrite list_elem_of_In, in_concat. split.
  - intros (bl & [i Hi]%list_elem_of_In%list_elem_of_lookup & Hin%list_elem_of_In). rewrite list_lookup_imap in Hi.
    apply fmap_Some in Hi as (l & Hl & ->). apply list_elem_of_fmap in Hin as (x & [= -> ->] & Hx). eauto.
  - intros (l & Hl & Ha). exists (tagged o l). rewrite <- !list_elem_of_In. split; [|by apply list_elem_of_fmap; eauto].
    apply list_elem_of_lookup. exists o. by rewrite list_lookup_imap, Hl.
Qed.

(** ** The invariant *)

(** A block of the region [base, base + block_bytes k0). *)
Record block_ok (base : Z) (k0 : nat) (x : block) : Prop := {
  bo_align : (block_bytes x.2 | x.1);
  bo_order : (x.2 <= MAX_ORDER)%nat;
  bo_range : base <= x.1 /\ x.1 + block_bytes x.2 <= base + block_bytes k0 }.

(** [L] are the free lists, [live] the blocks handed out: together they are the
    region, every page once; and of two buddies at most one is free. *)
Record buddy_inv (base : Z) (k0 : nat) (b : buddy) (L : list (list Z)) (live : list block) : Prop := {
  bi_heads : length (bd_heads b) = S MAX_ORDER;
  bi_lists : length L = S MAX_ORDER;
  bi_chain : forall o l, L !! o = Some l -> chain (bd_mem b) (list_head o b) l;
  bi_pages : (live ++ free_blocks L) ≫= pages ≡ₚ pages (base, k0);
  bi_ok : Forall (block_ok base k0) (live ++ free_blocks L);
  bi_region : 0 < base /\ (k0 <= MAX_ORDER)%nat /\ (block_bytes k0 | base) /\ bd_start b <= base /\ base + block_bytes k0 <= bd_end b /\ bd_end b < 4294967296;
  bi_coalesced : forall o l a, (o < MAX_ORDER)%nat -> L !! o = Some l -> a ∈ l -> Z.lxor a (block_bytes o) ∉ l }.

Lemma pages_nodup base k0 b L live : buddy_inv base k0 b L live -> NoDup ((live ++ free_blocks L) ≫= pages).
Proof. intros H. rewrite (bi_pages _ _ _ _ _ H). apply NoDup_seqZ. Qed.

(** Two blocks of a list whose pages are distinct share no page. *)
Lemma no_shared_page x y bl rest p : NoDup (bl ≫= pages) -> bl ≡ₚ x :: y :: rest -> p ∈ pages x -> p ∈ pages y -> False.
Proof.
  intros Hnd E Hx Hy. rewrite E in Hnd. simpl in Hnd. apply list.NoDup_app in Hnd as (_ & Hd & _).
  apply (Hd p Hx). apply elem_of_app. by left.
Qed.

Lemma live_not_free base k0 b L a o live a' i l p : buddy_inv base k0 b L ((a, o) :: live) ->
  L !! i = Some l -> a' ∈ l -> p ∈ pages (a, o) -> p ∈ pages (a', i) -> False.
Proof.
  intros H Hl Ha'. assert ((a', i) ∈ free_blocks L) as Hin by (apply elem_of_free_blocks; eauto).
  apply elem_of_Permutation in Hin as [fr Hfr].
  apply (no_shared_page (a, o) (a', i) _ (live ++ fr) p (pages_nodup _ _ _ _ _ H)).
  rewrite Hfr. simpl. by rewrite <- Permutation_middle.
Qed.

(** The address of a live block is on no free list. *)
Lemma live_not_listed base k0 b L a o live i l : buddy_inv base k0 b L ((a, o) :: live) -> L !! i = Some l -> a ∉ l.
Proof. intros H Hl Ha. eapply (live_not_free _ _ _ _ _ _ _ a i l (a / 4096)); eauto; apply first_page. Qed.

Lemma list_nodup base k0 b L live o l : buddy_inv base k0 b L live -> L !! o = Some l -> NoDup l.
Proof.
  intros H Hl. pose proof (pages_nodup _ _ _ _ _ H) as Hnd. destruct (free_blocks_update L o l Hl) as (rest & E & _).
  rewrite E, !bind_app in Hnd. apply list.NoDup_app in Hnd as (_ & _ & Hnd). apply list.NoDup_app in Hnd as (Hnd & _ & _).
  clear - Hnd. unfold tagged in Hnd. induction l as [|a l IH]; [constructor|]. simpl in Hnd. apply list.NoDup_app in Hnd as (_ & Hd & Hnd).
  constructor; [|by apply IH]. intros Ha. apply (Hd (a / 4096)); [apply first_page|]. apply list_elem_of_bind.
  exists (a, o). split; [apply first_page|]. apply list_elem_of_fmap. eauto.
Qed.

(** An address is on at most one list. *)
Lemma lists_disjoint base k0 b L live i j l l' a : buddy_inv base k0 b L live -> L !! i = Some l -> L !! j = Some l' ->
  i <> j -> a ∈ l -> a ∉ l'.
Proof.
  intros H Hi Hj Hne Ha Ha'. pose proof (pages_nodup _ _ _ _ _ H) as Hnd.
  destruct (free_blocks_update L i l Hi) as (rest & E & _).
  assert ((a, j) ∈ rest) as Hin.
  { assert ((a, j) ∈ tagged i l ++ rest) as [Hin|Hin]%elem_of_app; [rewrite <- E; apply elem_of_free_blocks; eauto| |done].
    apply list_elem_of_fmap in Hin as (x & [= _ ->] & _). done. }
  assert ((a, i) ∈ tagged i l) as Hin' by (apply list_elem_of_fmap; eauto).
  rewrite E, !bind_app in Hnd. apply list.NoDup_app in Hnd as (_ & _ & Hnd). apply list.NoDup_app in Hnd as (_ & Hd & _).
  apply (Hd (a / 4096)); apply list_elem_of_bind; eauto using first_page.
Qed.

Section Steps.
Context (base : Z) (k0 : nat).
Notation inv := (buddy_inv base k0).

Lemma inv_relive b L live live' : live ≡ₚ live' -> inv b L live -> inv b L live'.
Proof. intros E [? ? ? Hp Hok ? ?]. split; [done..|by rewrite <- E|by rewrite <- E|done|done]. Qed.

(** Taking a block off its list. *)
Lemma inv_take b L live o l1 a l2 b' : inv b L live -> L !! o = Some (l1 ++ a :: l2) ->
  length (bd_heads b') = S MAX_ORDER -> bd_start b' = bd_start b -> bd_end b' = bd_end b ->
  chain (bd_mem b') (list_head o b') (l1 ++ l2) ->
  (forall i l, i <> o -> L !! i = Some l -> chain (bd_mem b') (list_head i b') l) ->
  inv b' (<[o := l1 ++ l2]> L) ((a, o) :: live).
Proof.
  intros [H1 H2 H3 H4 H5 H6 H7] Hl Hh Hs He Hc Hco. destruct (free_blocks_update L o _ Hl) as (rest & E & E').
  specialize (E' (l1 ++ l2)).
  assert (((a, o) :: live) ++ free_blocks (<[o := l1 ++ l2]> L) ≡ₚ live ++ free_blocks L) as Ep.
  { rewrite E, E'. unfold tagged. rewrite !fmap_app. cbn [fmap list_fmap]. rewrite <- (Permutation_middle (_ <$> l1)).
    simpl. by rewrite <- Permutation_middle. }
  pose proof (lookup_lt_Some _ _ _ Hl) as Hlt.
  split; [done|by rewrite length_insert| |by rewrite Ep|by rewrite Ep|by rewrite Hs, He|].
  - intros i l. rewrite list_lookup_insert. case_decide as Hd; [destruct Hd as [<- _]; by intros [= <-]|].
    intros Hi. apply Hco; [|done]. intros ->. by apply Hd.
  - intros i l x Hi. rewrite list_lookup_insert. case_decide as Hd; [destruct Hd as [<- _]; intros [= <-]|by apply H7].
    intros Hx Hx'. eapply (H7 o _ x Hi Hl); set_solver.
Qed.

(** Pushing a block on its list when its buddy is not there. *)
Lemma add_to_list_mem b a o : 0 < a -> bd_start b <= a < bd_end b -> (o <= MAX_ORDER)%nat ->
  add_to_list a (Z.of_nat o) b = set_list_head o a (store_word a (list_head o b) b).
Proof.
  intros Ha Hr Ho. unfold add_to_list, buddy_valid_order, buddy_in_range. rewrite Nat2Z.id.
  destruct (Z.eqb_spec a 0); [lia|]. destruct (Z.leb_spec 0 (Z.of_nat o)), (Z.leb_spec (Z.of_nat o) (Z.of_nat MAX_ORDER)); try lia.
  destruct (Z.leb_spec (bd_start b) a), (Z.ltb_spec a (bd_end b)); try lia. done.
Qed.

Lemma list_head_set o i a b : (o < length (bd_heads b))%nat ->
  list_head i (set_list_head o a b) = if decide (i = o) then a else list_head i b.
Proof.
  intros Ho. unfold list_head, set_list_head. simpl. case_decide; subst; [by rewrite list_lookup_insert_eq|].
  by rewrite list_lookup_insert_ne.
Qed.

Lemma inv_put b L live a o l : inv b L ((a, o) :: live) -> L !! o = Some l ->
  ((o < MAX_ORDER)%nat -> Z.lxor a (block_bytes o) ∉ l) ->
  inv (add_to_list a (Z.of_nat o) b) (<[o := a :: l]> L) live.
Proof.
  intros Hinv Hl Hb. pose proof Hinv as [H1 H2 H3 H4 H5 H6 H7].
  apply Forall_cons_1 in H5 as Hok. destruct Hok as [[Hal Hor [Hr1 Hr2]] _]. simpl in *.
  pose proof (block_bytes_pos o) as Hbp.
  assert (forall i l', L !! i = Some l' -> a ∉ l') as Hni by (intros i l'; by eapply live_not_listed).
  rewrite add_to_list_mem by lia. destruct (free_blocks_update L o _ Hl) as (rest & E & E'). specialize (E' (a :: l)).
  assert (live ++ free_blocks (<[o := a :: l]> L) ≡ₚ ((a, o) :: live) ++ free_blocks L) as Ep.
  { rewrite E, E'. simpl. by rewrite <- Permutation_middle. }
  pose proof (lookup_lt_Some _ _ _ Hl) as Hlt. rewrite H2 in Hlt.
  split; [simpl; by rewrite length_insert|by rewrite length_insert| |by rewrite Ep|by rewrite Ep|done|].
  - intros i l'. rewrite list_head_set by (simpl; lia). rewrite list_lookup_insert. case_decide as Hd.
    + destruct Hd as [<- _]. intros [= <-]. rewrite decide_True by done. econstructor; [lia|simpl; by rewrite lookup_insert_eq|].
      apply chain_insert; [by eapply Hni|by apply H3].
    + intros Hi. rewrite decide_False by (intros ->; apply Hd; split; [done|lia]).
      apply chain_insert; [by eapply Hni|by apply H3].
  - intros i l' x Hi. rewrite list_lookup_insert. case_decide as Hd; [destruct Hd as [<- _]; intros [= <-]|by apply H7].
    intros [->|Hx]%elem_of_cons [Hx'|Hx']%elem_of_cons.
    + pose proof (block_bytes_pos o). destruct (buddy_of a o Hal) as [(_ & E1 & _)|(_ & E1 & _)]; lia.
    + by apply Hb.
    + apply Hb; [done|]. rewrite <- Hx', lxor_lxor. done.
    + by apply (H7 o l x Hi Hl).
Qed.

Lemma block_half_ok a o : block_ok base k0 (a, S o) ->
  block_ok base k0 (a, o) /\ block_ok base k0 (a + block_bytes o, o).
Proof.
  intros [Hal Hor [Hr1 Hr2]]. simpl in *. pose proof (block_bytes_S o) as E. pose proof (block_bytes_pos o).
  assert (block_bytes o | a) as Hd by (etransitivity; [apply (block_bytes_divide o (S o)); lia|done]).
  split; split; simpl; try done; try lia. apply Z.divide_add_r; [done|apply Z.divide_refl].
Qed.

(** Splitting a block handed out: its right half is freed. *)
Lemma inv_split b L live a o : inv b L ((a, S o) :: live) ->
  inv b L ((a, o) :: (a + block_bytes o, o) :: live) /\ (block_bytes (S o) | a).
Proof.
  intros [H1 H2 H3 H4 H5 H6 H7]. apply Forall_cons_1 in H5 as Hok. destruct Hok as [Hok Hrest].
  split; [|apply Hok]. destruct (block_half_ok a o Hok) as [Hl Hr].
  split; [done|done|done| |repeat (apply Forall_cons_2; [done|]); done|done|done].
  rewrite <- H4. simpl. by rewrite pages_split, <- app_assoc.
Qed.

(** Merging two halves handed out. *)
Lemma inv_merge b L live a o : inv b L ((a, o) :: (a + block_bytes o, o) :: live) -> (block_bytes (S o) | a) ->
  (S o <= MAX_ORDER)%nat -> inv b L ((a, S o) :: live).
Proof.
  intros [H1 H2 H3 H4 H5 H6 H7] Hal Hor. apply Forall_cons_1 in H5 as [Hl H5]. apply Forall_cons_1 in H5 as [Hr Hrest].
  split; [done|done|done| | |done|done].
  - rewrite <- H4. simpl. by rewrite pages_split, <- app_assoc.
  - simpl. apply Forall_cons_2; [|done]. destruct Hl as [_ _ [? ?]], Hr as [_ _ [? ?]]. simpl in *.
    pose proof (block_bytes_S o). split; simpl; [done|done|lia].
Qed.

(** A write by the owner of a block handed out. *)
Lemma inv_write b L live a o w v : inv b L live -> (a, o) ∈ live -> a <= w < a + block_bytes o -> inv (store_word w v b) L live.
Proof.
  intros Hinv [live' El]%elem_of_Permutation Hw. pose proof (inv_relive _ _ _ _ El Hinv) as Hinv'.
  assert (forall i l, L !! i = Some l -> w ∉ l) as Hni.
  { intros i l Hl Hwl. pose proof Hinv' as [_ _ _ _ H5 _ _]. rewrite Forall_forall in H5.
    assert (block_ok base k0 (w, i)) as [Hwal _ _].
    { apply H5, list_elem_of_In, elem_of_app. right. apply elem_of_free_blocks. eauto. }
    assert (block_ok base k0 (a, o)) as [Hal _ _] by (apply H5, list_elem_of_In; left).
    simpl in *.
    assert (forall j (c : Z), (block_bytes j | c) -> (4096 | c)) as Hpg.
    { intros j c Hj. etransitivity; [|exact Hj]. rewrite block_bytes_pages. apply Z.divide_factor_r. }
    apply (live_not_free _ _ _ _ _ _ _ w i l (w / 4096) Hinv' Hl Hwl); [|apply first_page].
    apply pages_elem; [by eapply Hpg|]. destruct (Hpg _ _ Hwal) as [q ->]. rewrite Z.div_mul by lia. lia. }
  destruct Hinv as [H1 H2 H3 H4 H5 H6 H7]. split; [done|done| |done|done|done|done].
  intros i l Hl. apply chain_insert; [by eapply Hni|by apply H3].
Qed.
End Steps.

(** ** Allocation *)

(** Only links, at page addresses, were written. *)
Definition links_only (b b' : buddy) : Prop := forall w, ~ (4096 | w) -> bd_mem b' !! w = bd_mem b !! w.

Lemma links_only_trans b b1 b2 : links_only b b1 -> links_only b1 b2 -> links_only b b2.
Proof. intros H1 H2 w Hw. by rewrite H2, H1. Qed.
Lemma links_only_store a v b : (4096 | a) -> links_only b (store_word a v b).
Proof. intros Ha w Hw. simpl. rewrite lookup_insert_ne; [done|]. by intros ->. Qed.
Lemma links_only_head o v b : links_only b (set_list_head o v b).
Proof. done. Qed.
Lemma links_only_add a o b : (4096 | a) -> links_only b (add_to_list a o b).
Proof.
  intros Ha. unfold add_to_list. destruct (_ || _); [done|]. destruct (negb _); [done|].
  eapply links_only_trans; [by apply links_only_store|apply links_only_head].
Qed.
Lemma page_divide j c : (block_bytes j | c) -> (4096 | c).
Proof. intros Hj. etransitivity; [|exact Hj]. rewrite block_bytes_pages. apply Z.divide_factor_r. Qed.

Section Alloc.
Context (base : Z) (k0 : nat).
Notation inv := (buddy_inv base k0).

Lemma list_of b L live o : inv b L live -> (o <= MAX_ORDER)%nat -> exists l, L !! o = Some l.
Proof. intros H Ho. apply lookup_lt_is_Some_2. rewrite (bi_lists _ _ _ _ _ H). lia. Qed.

(** Popping the first block of a list. *)
Lemma inv_pop b L live o a l : inv b L live -> L !! o = Some (a :: l) ->
  exists next, list_head o b = a /\ a <> 0 /\ bd_mem b !! a = Some next /\
    inv (set_list_head o next b) (<[o := l]> L) ((a, o) :: live) /\
    inv (store_word a 0 (set_list_head o next b)) (<[o := l]> L) ((a, o) :: live).
Proof.
  intros Hinv Hl. pose proof Hinv as [H1 H2 H3 H4 H5 H6 H7].
  destruct (chain_inv_cons _ _ _ _ (H3 o _ Hl)) as (Hh & Hne & next & Hn & Hc). exists next.
  pose proof (lookup_lt_Some _ _ _ Hl) as Hlt.
  assert (inv (set_list_head o next b) (<[o := l]> L) ((a, o) :: live)) as Hi.
  { apply (inv_take base k0 b L live o [] a l); [done|done|simpl; by rewrite length_insert|done|done| |].
    - rewrite list_head_set by lia. rewrite decide_True by done. exact Hc.
    - intros i l' Hi Hl'. rewrite list_head_set by lia. rewrite decide_False by done. by apply H3. }
  split; [done|]. split; [done|]. split; [done|]. split; [done|].
  apply (inv_write _ _ _ _ _ a o a 0 Hi); [left|]. pose proof (block_bytes_pos o). lia.
Qed.

Lemma split_down_inv k : forall b L live o a, inv b L ((a, (o + k)%nat) :: live) ->
  exists L', inv (split_down k o a b) L' ((a, o) :: live).
Proof.
  induction k as [|k IH]; intros b L live o a Hinv.
  { exists L. by rewrite Nat.add_0_r in Hinv. }
  rewrite Nat.add_succ_r in Hinv. destruct (inv_split base k0 _ _ _ _ _ Hinv) as [Hs Hal]. set (i := (o + k)%nat) in *.
  assert (i <= MAX_ORDER)%nat as Hi.
  { pose proof Hs as [_ _ _ _ H5 _ _]. apply Forall_cons_1 in H5 as [[_ Hor _] _]. done. }
  destruct (list_of _ _ _ i Hs Hi) as [l Hl].
  assert (Z.lxor (a + block_bytes i) (block_bytes i) = a) as Ex.
  { pose proof (block_bytes_pos i). assert (block_bytes i | a + block_bytes i) as Hd.
    { apply Z.divide_add_r; [|apply Z.divide_refl]. etransitivity; [apply (block_bytes_divide i (S i)); lia|done]. }
    destruct (buddy_of _ _ Hd) as [(Hdd & _)|(_ & -> & _)]; [|lia]. exfalso. rewrite block_bytes_S in *.
    destruct Hdd as [x Hx], Hal as [y Hy].
    assert (block_bytes i * (2 * (x - y)) = block_bytes i * 1) as E by lia. apply Z.mul_cancel_l in E; lia. }
  pose proof (inv_relive base k0 b L _ _ (Permutation_swap _ _ _) Hs) as Hs'.
  assert (inv (add_to_list (a + block_bytes i) (Z.of_nat i) b) (<[i := (a + block_bytes i) :: l]> L) ((a, i) :: live)) as Hp.
  { apply inv_put; [done|done|]. intros _. rewrite Ex. by eapply live_not_listed. }
  cbn [split_down]. fold i. by eapply IH.
Qed.

Lemma split_down_links k : forall b o a, (4096 | a) -> links_only b (split_down k o a b).
Proof.
  induction k as [|k IH]; intros b o a Ha; [done|]. cbn [split_down]. eapply links_only_trans; [|by apply IH].
  apply links_only_add, Z.divide_add_r; [done|]. eapply page_divide, Z.divide_refl.
Qed.

Lemma live_aligned b L live a o : inv b L ((a, o) :: live) -> (4096 | a).
Proof. intros H. pose proof (bi_ok _ _ _ _ _ H) as H5. apply Forall_cons_1 in H5 as [[Hal _ _] _]. by eapply page_divide. Qed.

Lemma find_larger_spec b orders :
  match find_larger orders b with
  | Some i => i ∈ orders /\ list_head i b <> 0
  | None => forall i, i ∈ orders -> list_head i b = 0
  end.
Proof.
  induction orders as [|i orders IH]; simpl; [by intros i ?%not_elem_of_nil|].
  destruct (Z.eqb_spec (list_head i b) 0).
  - destruct (find_larger orders b); [set_solver|]. intros j [->|?]%elem_of_cons; auto.
  - set_solver.
Qed.

Lemma buddy_alloc_spec b L live o : inv b L live -> (o <= MAX_ORDER)%nat ->
  (buddy_alloc (Z.of_nat o) b = Some (0, b) /\ forall i l, (o <= i)%nat -> L !! i = Some l -> l = []) \/
  exists p b' L', buddy_alloc (Z.of_nat o) b = Some (p, b') /\ 0 < p /\ inv b' L' ((p, o) :: live) /\ links_only b b'.
Proof.
  intros Hinv Ho. pose proof Hinv as [H1 H2 H3 _ _ H6 _]. unfold buddy_alloc, buddy_valid_order. rewrite Nat2Z.id.
  destruct (Z.leb_spec 0 (Z.of_nat o)), (Z.leb_spec (Z.of_nat o) (Z.of_nat MAX_ORDER)); try lia. cbn [andb negb]. cbv iota.
  assert (forall b' L' p i, inv b' L' ((p, i) :: live) -> 0 < p) as Hpos.
  { intros b' L' p i Hi. pose proof Hi as [_ _ _ _ H5 ? _]. apply Forall_cons_1 in H5 as [[_ _ [? _]] _]. simpl in *. lia. }
  destruct (list_of b L live o Hinv Ho) as [l Hl]. destruct (Z.eqb_spec (list_head o b) 0) as [Hz|Hnz]; cbn [negb]; cbv iota.
  2:{ destruct l as [|a l]; [exfalso; apply Hnz; by apply (chain_null _ _ _ (H3 _ _ Hl))|].
      destruct (inv_pop b L live o a l Hinv Hl) as (next & -> & Hne & -> & _ & Hi). cbn [mbind option_bind].
      right. do 3 eexists. split; [reflexivity|]. split; [by eapply Hpos|]. split; [exact Hi|].
      eapply links_only_trans; [apply (links_only_head o next)|]. apply links_only_store. by eapply live_aligned. }
  pose proof (find_larger_spec b (seq (S o) (MAX_ORDER - o))) as Hf. destruct (find_larger _ b) as [i|].
  - destruct Hf as [Hi%elem_of_seq Hne]. destruct (list_of b L live i Hinv ltac:(lia)) as [li Hli].
    destruct li as [|a li]; [exfalso; apply Hne; by apply (chain_null _ _ _ (H3 _ _ Hli))|].
    destruct (inv_pop b L live i a li Hinv Hli) as (next & Hh & Hna & Hm & Hi1 & _).
    unfold remove_from_list, buddy_valid_order. rewrite Nat2Z.id, Hh.
    destruct (Z.eqb_spec a 0); [done|]. rewrite Z.eqb_refl.
    destruct (Z.leb_spec 0 (Z.of_nat i)), (Z.leb_spec (Z.of_nat i) (Z.of_nat MAX_ORDER)); try lia. cbn [andb negb orb]. cbv iota.
    rewrite Hm. cbn [mbind option_bind]. right.
    replace i with (o + (i - o))%nat in Hi1 at 3 by lia.
    destruct (split_down_inv (i - o) _ _ _ o a Hi1) as [L' HL']. do 3 eexists. split; [reflexivity|].
    split; [by eapply Hpos|]. split; [exact HL'|].
    eapply links_only_trans; [apply links_only_head|]. apply split_down_links. by eapply live_aligned.
  - left. split; [done|]. intros i li Hi Hli. apply (chain_null _ _ _ (H3 _ _ Hli)).
    destruct (decide (i = o)) as [->|]; [done|]. apply Hf. apply elem_of_seq. apply lookup_lt_Some in Hli. lia.
Qed.

(** ** Freeing *)

Lemma search_list b L live o l target : inv b L live -> L !! o = Some l ->
  (target ∉ l /\ search (list_fuel b) (bd_mem b) 0 (list_head o b) target = Some None) \/
  exists l1 l2, l = l1 ++ target :: l2 /\
    search (list_fuel b) (bd_mem b) 0 (list_head o b) target = Some (Some (default 0 (list.last l1))).
Proof.
  intros Hinv Hl. apply search_spec; [by apply (bi_chain _ _ _ _ _ Hinv)|]. unfold list_fuel.
  pose proof (chain_length _ _ _ (bi_chain _ _ _ _ _ Hinv o l Hl) (list_nodup _ _ _ _ _ _ _ Hinv Hl)). lia.
Qed.

Lemma chain_nonzero mem h l a : chain mem h l -> a ∈ l -> a <> 0.
Proof. induction 1; [by intros ?%not_elem_of_nil|]. intros [->|?]%elem_of_cons; auto. Qed.

(** Unlinking the block that was found. *)
Lemma inv_unlink b L live o l1 a l2 : inv b L live -> L !! o = Some (l1 ++ a :: l2) ->
  exists next, bd_mem b !! a = Some next /\
    let prev := default 0 (list.last l1) in
    inv (if negb (prev =? 0) then store_word prev next b else set_list_head o next b) (<[o := l1 ++ l2]> L) ((a, o) :: live) /\
    links_only b (if negb (prev =? 0) then store_word prev next b else set_list_head o next b).
Proof.
  intros Hinv Hl. pose proof Hinv as [H1 H2 H3 _ _ _ _]. pose proof (H3 o _ Hl) as Hc.
  destruct (chain_app _ _ _ _ _ Hc) as (next & Hn & Hc2). exists next. split; [done|]. cbv zeta.
  pose proof (lookup_lt_Some _ _ _ Hl) as Hlt. pose proof (list_nodup _ _ _ _ _ _ _ Hinv Hl) as Hnd.
  destruct l1 as [|p l1' _] using rev_ind.
  - simpl. apply (inv_pop b L live o a l2 Hinv) in Hl as (next' & _ & _ & Hn' & Hi & _). simplify_eq.
    split; [done|apply links_only_head].
  - rewrite last_snoc. simpl. rewrite <- app_assoc in *. simpl in *.
    assert (p <> 0) as Hp by (eapply chain_nonzero; [exact Hc|set_solver]).
    destruct (Z.eqb_spec p 0); [done|]. simpl. split.
    2:{ apply links_only_store. pose proof (bi_ok _ _ _ _ _ Hinv) as H5. rewrite Forall_forall in H5.
        destruct (H5 (p, o)) as [Hal _ _]; [|by eapply page_divide]. apply list_elem_of_In, elem_of_app. right.
        apply elem_of_free_blocks. exists (l1' ++ p :: a :: l2). split; [exact Hl|set_solver]. }
    change (l1' ++ p :: l2) with (l1' ++ [p] ++ l2). rewrite (app_assoc l1' [p] l2).
    apply (inv_take base k0 b L live o (l1' ++ [p]) a l2); [done|by rewrite <- app_assoc|done|done|done| |].
    + rewrite <- app_assoc. simpl. by apply (chain_unlink _ _ l1' p a l2 next).
    + intros i l' Hne Hl'. apply chain_insert; [|by apply H3].
      eapply (lists_disjoint _ _ _ _ _ o i); [exact Hinv|exact Hl|exact Hl'|done|set_solver].
Qed.

Lemma coalesce_inv k : forall b L live a o, inv b L ((a, o) :: live) -> (o + k = MAX_ORDER)%nat ->
  exists a' o' b' L', coalesce k a o b = Some (a', o', b') /\ inv b' L' ((a', o') :: live) /\ (o' <= MAX_ORDER)%nat /\
    links_only b b' /\ forall l, (o' < MAX_ORDER)%nat -> L' !! o' = Some l -> Z.lxor a' (block_bytes o') ∉ l.
Proof.
  induction k as [|k IH]; intros b L live a o Hinv Hk.
  { exists a, o, b, L. split; [done|]. split; [done|]. split; [lia|]. split; [done|]. intros; lia. }
  cbn [coalesce]. set (ba := Z.lxor a (block_bytes o)). pose proof Hinv as [_ _ _ _ H5 H6 _].
  destruct (list_of _ _ _ o Hinv ltac:(lia)) as [l Hl].
  assert (ba ∉ l -> exists a' o' b' L', Some (a, o, b) = Some (a', o', b') /\ inv b' L' ((a', o') :: live) /\ (o' <= MAX_ORDER)%nat /\
    links_only b b' /\ forall l, (o' < MAX_ORDER)%nat -> L' !! o' = Some l -> Z.lxor a' (block_bytes o') ∉ l) as Hstop.
  { intros Hni. exists a, o, b, L. split; [done|]. split; [done|]. split; [lia|]. split; [done|]. intros l' _ Hl'. by simplify_eq. }
  destruct (_ || _) eqn:Hout.
  { apply Hstop. intros Hin. rewrite Forall_forall in H5. destruct (H5 (ba, o)) as [_ _ [Hr1 Hr2]].
    { apply list_elem_of_In, elem_of_app. right. apply elem_of_free_blocks. eauto. }
    simpl in *. pose proof (block_bytes_pos o). apply orb_true_iff in Hout as [Hx|Hx]; breflect; lia. }
  destruct (search_list _ _ _ o l ba Hinv Hl) as [[Hni ->]|(l1 & l2 & -> & ->)]; cbn [mbind option_bind]; [by apply Hstop|].
  destruct (inv_unlink _ _ _ o l1 ba l2 Hinv Hl) as (next & -> & Hu & Hlk). cbn [mbind option_bind].
  set (b1 := if negb _ then _ else _) in *.
  apply Forall_cons_1 in H5 as [[Hal _ _] _]. simpl in Hal.
  assert (inv b1 (<[o := l1 ++ l2]> L) ((Z.ldiff a (block_bytes o), S o) :: live)) as Hm.
  { destruct (buddy_of a o Hal) as [(Hd & E1 & ->)|(Hd & E1 & ->)]; fold ba in E1; rewrite E1 in Hu.
    - apply inv_merge; [|done|lia]. eapply inv_relive; [apply Permutation_swap|exact Hu].
    - apply inv_merge; [|done|lia]. by replace (a - block_bytes o + block_bytes o) with a by lia. }
  destruct (IH b1 _ live _ _ Hm ltac:(lia)) as (a' & o' & b' & L' & E & Hi & Ho & Hk' & Hc).
  exists a', o', b', L'. split; [exact E|]. split; [done|]. split; [done|]. split; [by eapply links_only_trans|done].
Qed.

Lemma buddy_free_spec b L live p o : inv b L ((p, o) :: live) ->
  exists b' L', buddy_free p (Z.of_nat o) b = Some b' /\ inv b' L' live /\ links_only b b'.
Proof.
  intros Hinv. pose proof Hinv as [_ _ _ _ H5 H6 _]. apply Forall_cons_1 in H5 as [[Hal Hor [Hr1 Hr2]] _]. simpl in *.
  pose proof (block_bytes_pos o). unfold buddy_free, buddy_valid_order, buddy_in_range. rewrite Nat2Z.id.
  destruct (Z.eqb_spec p 0); [lia|]. destruct (Z.leb_spec 0 (Z.of_nat o)), (Z.leb_spec (Z.of_nat o) (Z.of_nat MAX_ORDER)); try lia.
  destruct (Z.leb_spec (bd_start b) p), (Z.ltb_spec p (bd_end b)); try lia. cbn [andb negb orb]. cbv iota.
  apply land_divide in Hal. rewrite Hal. cbn [negb Z.eqb]. cbv iota.
  destruct (coalesce_inv (MAX_ORDER - o) b L live p o Hinv ltac:(lia)) as (a' & o' & b' & L' & -> & Hi & Ho' & Hlk & Hc).
  cbn [mbind option_bind]. destruct (list_of _ _ _ o' Hi Ho') as [l Hl].
  do 2 eexists. split; [reflexivity|]. split; [apply (inv_put base k0 b' L' live a' o' l Hi Hl); intros Hlt; by apply Hc|].
  eapply links_only_trans; [exact Hlk|]. apply links_only_add. by eapply live_aligned.
Qed.
End Alloc.

(** ** Initialisation *)

Lemma ldiff_block x o : Z.ldiff x (block_bytes o - 1) = x - x mod block_bytes o.
Proof.
  rewrite block_bytes_pow. replace (2 ^ (Z.of_nat o + 12) - 1) with (Z.ones (Z.of_nat o + 12)) by (rewrite Z.ones_equiv; lia).
  rewrite Z.ldiff_ones_r by lia. rewrite Z.shiftl_mul_pow2, Z.shiftr_div_pow2 by lia.
  pose proof (Z.div_mod x (2 ^ (Z.of_nat o + 12)) ltac:(apply Z.pow_nonzero; lia)). lia.
Qed.

(** A block of order [k] fits between [start] and [end_]. *)
Definition fits (start end_ : Z) (k : nat) (c : Z) : Prop :=
  (block_bytes k | c) /\ start <= c /\ c + block_bytes k <= end_.

(** Rounding up gives the first aligned address. *)
Lemma align_up start o : 0 < start ->
  let c := start + block_bytes o - 1 - (start + block_bytes o - 1) mod block_bytes o in
  (block_bytes o | c) /\ start <= c < start + block_bytes o /\ forall c', (block_bytes o | c') -> start <= c' -> c <= c'.
Proof.
  intros Hs. pose proof (block_bytes_pos o) as Hp. cbv zeta.
  pose proof (Z.div_mod (start + block_bytes o - 1) (block_bytes o) ltac:(lia)) as E.
  pose proof (Z.mod_pos_bound (start + block_bytes o - 1) (block_bytes o) ltac:(lia)) as Hm.
  set (q := (start + block_bytes o - 1) / block_bytes o) in *. split; [exists q; lia|]. split; [lia|].
  intros c' [q' ->] Hle. assert (q <= q'); [|nia]. apply Z.lt_succ_r. nia.
Qed.

Lemma init_pick_spec order start end_ : (order <= MAX_ORDER)%nat -> 0 < start -> start <= 2147483648 -> end_ <= 2147483648 ->
  let '(o, addr) := init_pick order start end_ in
  (o <= order)%nat /\ (forall k c, (o < k <= order)%nat -> ~ fits start end_ k c) /\ ((0 < o)%nat -> fits start end_ o addr).
Proof.
  intros Ho Hs Hs2 He. induction order as [|order IH]; cbn [init_pick]; [split; [lia|split; [lia|lia]]|].
  pose proof (block_bytes_max (S order) Ho) as Hmx. pose proof (block_bytes_pos (S order)) as Hp.
  rewrite ldiff_block, (u32_small (start + _ - 1)) by (unfold is_u32; lia).
  destruct (align_up start (S order) Hs) as (Hd & Hr & Hmin).
  set (c := start + block_bytes (S order) - 1 - (start + block_bytes (S order) - 1) mod block_bytes (S order)) in *.
  rewrite (u32_small (c + _)) by (unfold is_u32; lia). destruct (Z.leb_spec (c + block_bytes (S order)) end_).
  - split; [lia|]. split; [intros; lia|]. intros _. split; [done|]. lia.
  - specialize (IH ltac:(lia)). destruct (init_pick order start end_) as [o addr]. destruct IH as (H1 & H2 & H3).
    split; [lia|]. split; [|done]. intros k c' Hk. destruct (decide (k = S order)) as [->|]; [|apply H2; lia].
    intros (Hd' & Hs' & He'). specialize (Hmin c' Hd' Hs'). lia.
Qed.

Definition one_block (k0 : nat) (base : Z) : list (list Z) := <[k0 := [base]]> (replicate (S MAX_ORDER) []).

Lemma inv_one start end_ mem base k0 : 0 < start -> end_ < 4294967296 -> (k0 <= MAX_ORDER)%nat -> fits start end_ k0 base ->
  buddy_inv base k0 (add_to_list base (Z.of_nat k0) (mkBuddy start end_ (end_ -32 start) (replicate (S MAX_ORDER) 0) mem)) (one_block k0 base) [].
Proof.
  intros Hs He Hk (Hd & H1 & H2). unfold one_block. apply inv_put; [|apply lookup_replicate_2; lia|by intros _ ?%not_elem_of_nil].
  split; [done|done| | | | |].
  - intros o l [-> Ho]%lookup_replicate. unfold list_head. cbn [bd_heads]. rewrite lookup_replicate_2 by done. constructor.
  - change (free_blocks (replicate (S MAX_ORDER) [])) with (@nil block). simpl. by rewrite app_nil_r.
  - simpl. apply Forall_cons_2; [|constructor]. split; [done|done|simpl; lia].
  - simpl. split; [lia|]. done.
  - intros o l a _ [-> _]%lookup_replicate. by intros ?%not_elem_of_nil.
Qed.

(** [buddy_init] manages one block, of the largest order that fits. *)
Lemma buddy_init_spec start end_ mem : 0 < start -> start <= 2147483648 -> end_ <= 2147483648 ->
  (exists base k0, buddy_inv base k0 (buddy_init start end_ mem) (one_block k0 base) [] /\ fits start end_ k0 base /\
     forall k c, (k0 < k <= MAX_ORDER)%nat -> ~ fits start end_ k c) \/
  ((forall k c, (k <= MAX_ORDER)%nat -> ~ fits start end_ k c) /\ bd_heads (buddy_init start end_ mem) = replicate (S MAX_ORDER) 0).
Proof.
  intros Hs Hs2 He. remember (buddy_init start end_ mem) as b eqn:Eb. unfold buddy_init in Eb.
  pose proof (init_pick_spec MAX_ORDER start end_ ltac:(lia) Hs Hs2 He) as Hpick.
  destruct (init_pick MAX_ORDER start end_) as [o addr]. destruct Hpick as (H1 & H2 & H3).
  destruct (Nat.eqb_spec o 0) as [->|Hne].
  - destruct (align_up start 0 Hs) as (Hd & Hr & Hmin).
    change (Z.ldiff (start +32 4095) 4095) with (Z.ldiff (start +32 4095) (block_bytes 0 - 1)) in Eb. rewrite ldiff_block in Eb.
    rewrite (u32_small (start + 4095)) in Eb by (unfold is_u32; lia). change (block_bytes 0) with 4096 in *.
    replace (start + 4096 - 1) with (start + 4095) in * by lia. set (c := start + 4095 - (start + 4095) mod 4096) in *.
    rewrite (u32_small (c + 4096)) in Eb by (unfold is_u32; lia). destruct (Z.ltb_spec end_ (c + 4096)); subst b.
    + right. split; [|done]. intros k c' Hk. destruct k as [|k]; [|apply H2; lia]. intros (Hd' & Hs' & He').
      change (block_bytes 0) with 4096 in *. specialize (Hmin c' Hd' Hs'). lia.
    + left. exists c, 0%nat. assert (fits start end_ 0 c) as Hf by (split; [done|]; change (block_bytes 0) with 4096; lia).
      split; [by apply (inv_one start end_ mem c 0); [|lia|lia|]|]. split; [done|]. intros k c' Hk. apply H2. lia.
  - left. exists addr, o. specialize (H3 ltac:(lia)). subst b. split; [apply inv_one; [done|lia|done|done]|]. done.
Qed.

(** ** Accounting *)

Definition blocks_bytes (bl : list block) : Z := foldr (fun x s => block_bytes x.2 + s) 0 bl.

Lemma blocks_bytes_app l k : blocks_bytes (l ++ k) = blocks_bytes l + blocks_bytes k.
Proof. induction l as [|x l IH]; simpl; [done|]. lia. Qed.
#[local] Instance blocks_bytes_perm : Proper ((≡ₚ) ==> (=)) blocks_bytes.
Proof. induction 1; simpl; lia. Qed.
Lemma blocks_bytes_pages bl : blocks_bytes bl = 4096 * zlen (bl ≫= pages).
Proof.
  unfold zlen. induction bl as [|[a o] bl IH]; [done|]. cbn [blocks_bytes foldr]. fold (blocks_bytes bl).
  change (((a, o) :: bl) ≫= pages) with (pages (a, o) ++ (bl ≫= pages)).
  rewrite length_app, IH. unfold pages at 2. rewrite length_seqZ, block_bytes_pages. simpl fst. simpl snd.
  pose proof (Z.pow_nonneg 2 (Z.of_nat o) ltac:(lia)). lia.
Qed.
Lemma blocks_bytes_nonneg bl : 0 <= blocks_bytes bl.
Proof. induction bl as [|x bl IH]; simpl; [lia|]. pose proof (block_bytes_pos x.2). lia. Qed.
Lemma blocks_bytes_tagged o l : blocks_bytes (tagged o l) = block_bytes o * zlen l.
Proof. unfold zlen. induction l as [|a l IH]; [simpl; lia|].
  change (tagged o (a :: l)) with ((a, o) :: tagged o l). cbn [blocks_bytes foldr length] in *. fold (blocks_bytes (tagged o l)).
  rewrite IH. simpl snd. lia. Qed.

Lemma sum_orders_spec base k0 b L live : buddy_inv base k0 b L live -> forall n m free, (m + n = S MAX_ORDER)%nat -> 0 <= free ->
  let rest := blocks_bytes (concat (imap (fun i => tagged (m + i)) (drop m L))) in
  free + rest <= 0xFFFFFFFF -> sum_orders (seq m n) b free = Some (free + rest).
Proof.
  intros Hinv. induction n as [|n IH]; intros m free Hmn Hf.
  - rewrite drop_ge by (rewrite (bi_lists _ _ _ _ _ Hinv); lia). simpl. intros _. f_equal. lia.
  - destruct (list_of base k0 b L live m Hinv ltac:(lia)) as [l Hl]. rewrite (drop_S L l m Hl). cbv zeta. cbn [seq sum_orders imap concat].
    rewrite Nat.add_0_r, blocks_bytes_app, blocks_bytes_tagged.
    rewrite (imap_ext ((fun i => tagged (m + i)) ∘ S) (fun i => tagged (S m + i))) by (intros i x _; simpl; f_equal; lia).
    pose proof (blocks_bytes_nonneg (concat (imap (fun i => tagged (S m + i)) (drop (S m) L)))) as Hnn. intros Hle.
    pose proof (bi_chain _ _ _ _ _ Hinv m l Hl) as Hc. pose proof (block_bytes_pos m).
    rewrite (sum_list_bytes_spec _ _ _ _ l); [|done| |done|lia|unfold zlen in *; lia].
    2:{ unfold list_fuel. pose proof (chain_length _ _ _ Hc (list_nodup _ _ _ _ _ _ _ Hinv Hl)). lia. }
    cbn [mbind option_bind]. rewrite IH; [f_equal; lia|lia|unfold zlen; nia|lia].
Qed.

(** Free memory is the region less what is handed out. *)
Lemma buddy_free_memory_spec base k0 b L live : buddy_inv base k0 b L live ->
  buddy_free_memory b = Some (block_bytes k0 - blocks_bytes live).
Proof.
  intros Hinv. pose proof Hinv as [_ _ _ Hp _ (H0 & Hk & _ & Hs & He1 & He2) _].
  assert (blocks_bytes live + blocks_bytes (free_blocks L) = block_bytes k0) as Etot.
  { rewrite <- blocks_bytes_app, blocks_bytes_pages. unfold zlen. rewrite (Permutation_length Hp). unfold pages. rewrite length_seqZ.
    simpl. rewrite block_bytes_pages. pose proof (Z.pow_nonneg 2 (Z.of_nat k0) ltac:(lia)). lia. }
  pose proof (blocks_bytes_nonneg live). pose proof (block_bytes_max k0 Hk). unfold buddy_free_memory.
  pose proof (sum_orders_spec base k0 b L live Hinv (S MAX_ORDER) 0 0 ltac:(lia) ltac:(lia)) as Hsum. cbv zeta in Hsum.
  rewrite drop_0 in Hsum. change (concat (imap (fun i => tagged (0 + i)) L)) with (free_blocks L) in Hsum.
  rewrite Hsum by lia. f_equal. lia.
Qed.

Lemma largest_from_spec n b : (forall o, (o <= n)%nat -> list_head o b = 0) \/
  exists o, (o <= n)%nat /\ list_head o b <> 0 /\ largest_from n b = block_bytes o.
Proof.
  induction n as [|n IH]; cbn [largest_from].
  - destruct (Z.eqb_spec (list_head 0 b) 0); [left; intros o Ho; by replace o with 0%nat by lia|right; eauto].
  - destruct (Z.eqb_spec (list_head (S n) b) 0); cbn [negb]; cbv iota; [|right; eauto].
    destruct IH as [IH|(o & Ho & Hne & ->)]; [left|right; exists o; eauto].
    intros o Ho. destruct (decide (o = S n)) as [->|]; [done|]. apply IH. lia.
Qed.

(** ** Everything freed: one block again *)

Lemma aligned_nest S0 p c n t : 0 < S0 -> (S0 | p) -> (S0 | c) -> (S0 | n) -> p <= t < p + S0 -> c <= t < c + n ->
  c <= p /\ p + S0 <= c + n.
Proof.
  intros H0 [x ->] [y ->] [z ->] Hp Hc. assert (y < x + 1) by nia. assert (x < y + z) by nia. split; nia.
Qed.

Lemma distinct_members {A} (x y : A) (l : list A) : x ∈ l -> y ∈ l -> x <> y -> exists rest, l ≡ₚ x :: y :: rest.
Proof.
  intros [l1 E]%elem_of_Permutation Hy Hne. rewrite E in Hy. apply elem_of_cons in Hy as [->|Hy]; [done|].
  apply elem_of_Permutation in Hy as [l2 E2]. exists l2. by rewrite E, E2.
Qed.

Section Merged.
Context (base : Z) (k0 : nat) (b : buddy) (L : list (list Z)) (Hinv : buddy_inv base k0 b L []).

Lemma block_in_ok a o : (a, o) ∈ free_blocks L -> block_ok base k0 (a, o).
Proof. intros H. pose proof (bi_ok _ _ _ _ _ Hinv) as H5. rewrite Forall_forall in H5. by apply H5, list_elem_of_In. Qed.

(** Every address of the region lies in a free block. *)
Lemma covered t : (4096 | t) -> base <= t < base + block_bytes k0 ->
  exists c j, (c, j) ∈ free_blocks L /\ c <= t < c + block_bytes j.
Proof.
  intros Ht Hr. pose proof Hinv as [_ _ _ Hp _ (_ & _ & Hb & _) _].
  assert (t / 4096 ∈ free_blocks L ≫= pages) as Hin.
  { simpl in Hp. rewrite Hp. apply pages_elem; [by eapply page_divide|]. destruct Ht as [q ->]. rewrite Z.div_mul by lia. done. }
  apply list_elem_of_bind in Hin as ([c j] & Hpg & Hin). exists c, j. split; [done|].
  destruct (block_in_ok c j Hin) as [Hal _ _]. apply pages_elem in Hpg; [|by eapply page_divide].
  destruct Ht as [q ->]. rewrite Z.div_mul in Hpg by lia. done.
Qed.

(** No free block can be the smallest and have a parent in the region. *)
Lemma no_small_block o a : (a, o) ∈ free_blocks L -> (forall a' o', (a', o') ∈ free_blocks L -> (o <= o')%nat) -> (k0 <= o)%nat.
Proof.
  intros Hin Hmin. destruct (decide (k0 <= o)%nat) as [|Hlt]; [done|]. exfalso.
  pose proof Hinv as [_ _ _ _ _ (H0 & Hk & Hb & _) Hco]. destruct (block_in_ok a o Hin) as [Hal Hor [Hr1 Hr2]]. simpl in *.
  set (B := block_bytes o) in *. pose proof (block_bytes_pos o) as Hpos. fold B in Hpos.
  set (ba := Z.lxor a B). set (pa := Z.min a ba).
  assert ((block_bytes (S o) | pa) /\ (ba = a + B \/ ba = a - B) /\ pa <= a < pa + 2 * B /\ pa <= ba < pa + 2 * B /\ (B | ba)) as (Hpa & Hor2 & Hra & Hrb & Hbad).
  { pose proof (lxor_divide a o Hal) as Hd. destruct (buddy_of a o Hal) as [(Hd1 & E & _)|(Hd1 & E & _)]; fold B in Hd, E, Hd1; fold ba in Hd, E.
    - replace pa with a by lia. split; [done|]. split; [by left|]. split; [lia|]. split; [lia|done].
    - replace pa with (a - B) by lia. split; [done|]. split; [by right|]. split; [lia|]. split; [lia|done]. }
  pose proof (block_bytes_S o) as ES. fold B in ES.
  assert (base <= pa /\ pa + 2 * B <= base + block_bytes k0) as [Hp1 Hp2].
  { rewrite <- ES. apply (aligned_nest _ pa base (block_bytes k0) a); try lia; [done| |by apply block_bytes_divide; lia].
    etransitivity; [by apply (block_bytes_divide (S o) k0); lia|done]. }
  destruct (covered ba) as (c & j & Hcj & Hc); [by eapply page_divide|lia|].
  specialize (Hmin c j Hcj) as Hoj. destruct (block_in_ok c j Hcj) as [Hcal Hcor _]. simpl in *.
  destruct (decide (j = o)) as [->|Hne].
  - assert (c = ba) as ->.
    { fold B in Hc, Hcal. destruct Hcal as [x ->], Hbad as [y Hy]. rewrite Hy in *. assert (x = y) by nia. by subst. }
    apply elem_of_free_blocks in Hin as (l & Hl & Ha), Hcj as (l' & Hl' & Hba). simplify_eq.
    apply (Hco o l a ltac:(lia) Hl Ha). done.
  - assert (c <= pa /\ pa + block_bytes (S o) <= c + block_bytes j) as [Hn1 Hn2].
    { apply (aligned_nest _ pa c (block_bytes j) ba); try lia; [done| |by apply block_bytes_divide; lia].
      etransitivity; [by apply (block_bytes_divide (S o) j); lia|done]. }
    destruct (distinct_members (a, o) (c, j) (free_blocks L) Hin Hcj) as [rest E]; [congruence|].
    apply (no_shared_page (a, o) (c, j) _ rest (a / 4096) (pages_nodup _ _ _ _ _ Hinv) E); [apply first_page|].
    apply pages_elem; [by eapply page_divide|]. destruct (page_divide _ _ Hal) as [q Hq]. rewrite Hq, Z.div_mul by lia. lia.
Qed.

Lemma all_one_block x : x ∈ free_blocks L -> x = (base, k0).
Proof.
  assert (forall a o, (a, o) ∈ free_blocks L -> (k0 <= o)%nat) as Hbig.
  { intros a o Hin. destruct (decide (k0 <= o)%nat) as [|Hlt]; [done|]. exfalso.
    assert (forall n, (n <= o)%nat -> (forall a' o', (a', o') ∈ free_blocks L -> (n <= o')%nat)) as Hmin.
    { induction n as [|n IHn]; intros Hn a' o' Hin'; [lia|]. specialize (IHn ltac:(lia)).
      pose proof (IHn a' o' Hin') as Hle. destruct (decide (o' = n)) as [->|]; [|lia]. pose proof (no_small_block n a' Hin' IHn). lia. }
    pose proof (no_small_block o a Hin (Hmin o ltac:(lia))). lia. }
  destruct x as [a o]. intros Hin. specialize (Hbig a o Hin). destruct (block_in_ok a o Hin) as [_ _ [Hr1 Hr2]]. simpl in *.
  pose proof (block_bytes_mono k0 o Hbig). destruct (decide (o = k0)) as [->|]; [f_equal; lia|].
  pose proof (block_bytes_mono (S k0) o ltac:(lia)) as Hm. rewrite block_bytes_S in Hm. pose proof (block_bytes_pos k0). lia.
Qed.

Lemma merged_lists o l : L !! o = Some l -> l = if decide (o = k0) then [base] else [].
Proof.
  intros Hl. assert (forall a, a ∈ l -> a = base /\ o = k0) as Hall.
  { intros a Ha. assert ((a, o) = (base, k0)) as [= -> ->]; [|done]. apply all_one_block, elem_of_free_blocks. eauto. }
  case_decide as Hd; [subst o|].
  - pose proof Hinv as [_ _ _ _ _ (_ & _ & Hb & _) _]. pose proof (block_bytes_pos k0).
    destruct (covered base) as (c & j & Hcj & _); [by eapply page_divide|lia|]. pose proof (all_one_block _ Hcj) as [= -> ->].
    apply elem_of_free_blocks in Hcj as (l' & Hl' & Hin). simplify_eq.
    pose proof (list_nodup _ _ _ _ _ _ _ Hinv Hl) as Hnd. destruct l as [|x [|y l]]; [by apply not_elem_of_nil in Hin| |].
    + destruct (Hall x) as [-> _]; [left|done].
    + exfalso. destruct (Hall x) as [-> _]; [left|]. destruct (Hall y) as [-> _]; [right; left|].
      apply NoDup_cons_1_1 in Hnd. apply Hnd. left.
  - destruct l as [|x l]; [done|]. destruct (Hall x) as [_ ?]; [left|done].
Qed.
End Merged.

(** ** Runs *)

(** The kernel's use of the allocator: [live] are the blocks handed out.  A
    block is freed with the order it was allocated with; its owner may write
    anywhere inside it. *)
Inductive buddy_step : buddy * list block -> buddy * list block -> Prop :=
| bs_alloc order b b' p live : buddy_alloc order b = Some (p, b') ->
    buddy_step (b, live) (b', if p =? 0 then live else (p, Z.to_nat order) :: live)
| bs_free b b' p o live live' : live ≡ₚ (p, o) :: live' -> buddy_free p (Z.of_nat o) b = Some b' -> buddy_step (b, live) (b', live')
| bs_write b live p o w v : (p, o) ∈ live -> p <= w < p + block_bytes o -> buddy_step (b, live) (store_word w v b, live).

Lemma buddy_alloc_invalid order b : buddy_valid_order order = false -> buddy_alloc order b = Some (0, b).
Proof. intros E. unfold buddy_alloc. by rewrite E. Qed.

Lemma valid_order_nat order : buddy_valid_order order = true -> exists o, order = Z.of_nat o /\ (o <= MAX_ORDER)%nat.
Proof. unfold buddy_valid_order. intros H. breflect. exists (Z.to_nat order). lia. Qed.

Lemma buddy_step_inv base k0 b live b' live' L : buddy_step (b, live) (b', live') -> buddy_inv base k0 b L live ->
  exists L', buddy_inv base k0 b' L' live'.
Proof.
  intros Hs Hinv. inversion Hs as [order b1 b1' p live1 Hal|b1 b1' p o live1 live1' Hl Hf|b1 live1 p o w v Hin Hw]; subst.
  - destruct (buddy_valid_order order) eqn:Hv.
    + apply valid_order_nat in Hv as (o & -> & Ho). rewrite Nat2Z.id.
      destruct (buddy_alloc_spec base k0 b L live o Hinv Ho) as [[E _]|(p' & b1 & L' & E & Hp & Hi & _)]; simplify_eq; [eauto|].
      destruct (Z.eqb_spec p 0); [lia|eauto].
    + rewrite buddy_alloc_invalid in Hal by done. simplify_eq. eauto.
  - pose proof (inv_relive base k0 b L _ _ Hl Hinv) as Hi. destruct (buddy_free_spec base k0 b L live' p o Hi) as (b1 & L' & E & Hi' & _).
    simplify_eq. eauto.
  - exists L. by eapply inv_write.
Qed.

Lemma buddy_run_inv base k0 b live b' live' L : rtc buddy_step (b, live) (b', live') -> buddy_inv base k0 b L live ->
  exists L', buddy_inv base k0 b' L' live'.
Proof.
  assert (forall x y, rtc buddy_step x y -> forall L, buddy_inv base k0 x.1 L x.2 -> exists L', buddy_inv base k0 y.1 L' y.2) as Hgen.
  { induction 1 as [|[b1 l1] [b2 l2] y H12 _ IH]; intros L0 H0; [eauto|].
    destruct (buddy_step_inv base k0 b1 l1 b2 l2 L0 H12 H0) as [L1 H1]. by apply (IH L1). }
  intros Hr H0. exact (Hgen (b, live) (b', live') Hr L H0).
Qed.

Lemma largest_free base k0 b L live o : buddy_inv base k0 b L live -> (o <= MAX_ORDER)%nat ->
  (forall i l, (o <= i)%nat -> L !! i = Some l -> l = []) -> buddy_largest_free_block b < block_bytes o.
Proof.
  intros Hinv Ho Hnone. unfold buddy_largest_free_block. pose proof (block_bytes_pos o).
  assert (forall i, (o <= i <= MAX_ORDER)%nat -> list_head i b = 0) as Hz.
  { intros i Hi. destruct (list_of base k0 b L live i Hinv ltac:(lia)) as [l Hl]. apply (chain_null _ _ _ (bi_chain _ _ _ _ _ Hinv i l Hl)).
    apply (Hnone i l); [lia|done]. }
  destruct (largest_from_spec MAX_ORDER b) as [Hall|(i & Hi & Hne & ->)].
  - assert (forall n, (n <= MAX_ORDER)%nat -> largest_from n b = 0) as E.
    { induction n as [|n IH]; intros Hn; cbn [largest_from]; rewrite (Hall _ Hn); simpl; [done|]. apply IH. lia. }
    rewrite E by lia. lia.
  - assert (i < o)%nat as Hlt by (destruct (decide (o <= i)%nat); [exfalso; apply Hne, Hz; lia|lia]).
    pose proof (block_bytes_mono (S i) o ltac:(lia)) as Hm. rewrite block_bytes_S in Hm. pose proof (block_bytes_pos i). lia.
Qed.

(** C35: the buddy allocator never hands out overlapping memory.  Start it over a range
    above 0 and up to 2 GiB in which a page fits: it manages one block, fixed once and for
    all, of the largest order that fits.  Let the kernel then allocate, free what it was
    given and write into it in any order.  At every point the pages of the blocks handed
    out and of the blocks on the free lists (the chains in memory from the list heads) are
    together the pages of the managed block, each exactly once, so no two of these blocks
    overlap; each block handed out is aligned to its size and in the range; every
    allocation and every free of a block handed out terminates without reading a word that
    is not a list link; an allocation fails only when every free block is smaller than what
    was asked for, and then changes nothing; and free memory is the size of the managed
    block less what is handed out. *)
Theorem buddy_no_overlap start end_ mem : 0 < start -> start <= 2147483648 -> end_ <= 2147483648 -> (exists c, fits start end_ 0 c) ->
  exists base k0, fits start end_ k0 base /\ (forall k c, (k0 < k <= 16)%nat -> ~ fits start end_ k c) /\
  forall b live, rtc buddy_step (buddy_init start end_ mem, []) (b, live) ->
    (exists L, length L = 17%nat /\ (forall o l, L !! o = Some l -> chain (bd_mem b) (list_head o b) l) /\ (live ++ free_blocks L) ≫= pages ≡ₚ pages (base, k0)) /\
    (forall p o, (p, o) ∈ live -> (block_bytes o | p) /\ start <= p /\ p + block_bytes o <= end_) /\
    (forall order, exists p b', buddy_alloc order b = Some (p, b') /\
       (0 <= order <= 16 -> p = 0 -> b' = b /\ buddy_largest_free_block b < block_bytes (Z.to_nat order))) /\
    (forall p o, (p, o) ∈ live -> is_Some (buddy_free p (Z.of_nat o) b)) /\
    buddy_free_memory b = Some (block_bytes k0 - blocks_bytes live).
Proof.
  intros Hs Hs2 He [c0 Hfit].
  destruct (buddy_init_spec start end_ mem Hs Hs2 He) as [(base & k0 & Hi0 & Hf & Hmax)|[Hno _]]; [|by apply Hno in Hfit; [|lia]].
  exists base, k0. split; [done|]. split; [done|]. intros b live Hr. destruct Hf as (_ & Hf1 & Hf2).
  destruct (buddy_run_inv base k0 _ _ _ _ _ Hr Hi0) as [L Hinv].
  pose proof Hinv as [_ Hll Hch Hp Hok _ _]. split; [by exists L|]. split; [|split; [|split]].
  - intros p o Hin. rewrite Forall_forall in Hok. destruct (Hok (p, o)) as [Hal _ [Hr1 Hr2]]; [apply list_elem_of_In; set_solver|].
    simpl in *. split; [done|lia].
  - intros order. destruct (buddy_valid_order order) eqn:Hv.
    + apply valid_order_nat in Hv as (o & -> & Ho). rewrite Nat2Z.id.
      destruct (buddy_alloc_spec base k0 b L live o Hinv Ho) as [[E Hnone]|(p & b' & L' & E & Hpos & _)]; rewrite E; do 2 eexists; (split; [done|]).
      * intros _ _. split; [done|]. by eapply largest_free.
      * intros; lia.
    + rewrite buddy_alloc_invalid by done. do 2 eexists. split; [done|]. intros Hor _. unfold buddy_valid_order in Hv.
      destruct (Z.leb_spec 0 order), (Z.leb_spec order (Z.of_nat MAX_ORDER)); simpl in Hv; try done; unfold MAX_ORDER in *; lia.
  - intros p o Hin. apply elem_of_Permutation in Hin as [live' E].
    destruct (buddy_free_spec base k0 b L live' p o (inv_relive base k0 b L _ _ E Hinv)) as (b' & L' & -> & _). eauto.
  - by eapply buddy_free_memory_spec.
Qed.

Lemma buddy_heads_eq base k0 b L live b' L' live' : buddy_inv base k0 b L live -> buddy_inv base k0 b' L' live' ->
  (forall o l l', L !! o = Some l -> L' !! o = Some l' -> l = l') -> bd_heads b = bd_heads b'.
Proof.
  intros H H' HL. apply list_eq_same_length with (n := S MAX_ORDER); [apply H'|apply H|].
  intros o x y Ho Hx Hy. destruct (list_of base k0 b L live o H ltac:(lia)) as [l Hl].
  destruct (list_of base k0 b' L' live' o H' ltac:(lia)) as [l' Hl']. rewrite <- (HL o l l' Hl Hl') in Hl'.
  pose proof (bi_chain _ _ _ _ _ H o l Hl) as C1. pose proof (bi_chain _ _ _ _ _ H' o l Hl') as C2.
  unfold list_head in C1, C2. rewrite Hx in C1. rewrite Hy in C2. simpl in *. destruct l as [|a l].
  - inversion C1; inversion C2; congruence.
  - apply chain_inv_cons in C1 as [-> _], C2 as [-> _]. done.
Qed.

(** Freed memory is merged back completely.  Whatever was allocated, written
    and freed since start-up, in any order: as soon as nothing is handed out, the
    free lists are exactly those [buddy_init] made, one block of the largest order
    that fits the range, so no fragmentation is left. *)
Lemma buddy_coalesces start end_ mem b :
  0 < start -> start <= 2147483648 -> end_ <= 2147483648 -> (exists c, fits start end_ 0 c) ->
  rtc buddy_step (buddy_init start end_ mem, []) (b, []) ->
  bd_heads b = bd_heads (buddy_init start end_ mem) /\
  exists k0 base, bd_heads b = <[k0 := base]> (replicate (S MAX_ORDER) 0) /\ fits start end_ k0 base /\
    (forall k c, (k0 < k <= MAX_ORDER)%nat -> ~ fits start end_ k c) /\ buddy_fragmentation b = Some 0.
Proof.
  intros Hs Hs2 He [c0 Hfit] Hr.
  destruct (buddy_init_spec start end_ mem Hs Hs2 He) as [(base & k0 & Hi0 & Hf & Hmax)|[Hno _]]; [|by apply Hno in Hfit; [|lia]].
  destruct (buddy_run_inv base k0 _ _ _ _ _ Hr Hi0) as [L Hinv].
  assert (bd_heads b = bd_heads (buddy_init start end_ mem)) as E.
  { apply (buddy_heads_eq base k0 b L [] _ _ [] Hinv Hi0). intros o l l' Hl Hl'.
    rewrite (merged_lists base k0 b L Hinv o l Hl), (merged_lists base k0 _ _ Hi0 o l' Hl'). done. }
  pose proof Hinv as [Hh _ Hch _ _ (Hb0 & Hk & _) _].
  assert (forall o, (o <= MAX_ORDER)%nat -> list_head o b = if decide (o = k0) then base else 0) as Hheads.
  { intros o Ho. destruct (list_of base k0 b L [] o Hinv Ho) as [l Hl]. pose proof (Hch o l Hl) as C.
    rewrite (merged_lists base k0 b L Hinv o l Hl) in C. case_decide; [by apply chain_inv_cons in C as [-> _]|by inversion C]. }
  split; [done|]. exists k0, base. split; [|split; [done|split; [done|]]].
  - apply list_eq_same_length with (n := S MAX_ORDER); [by rewrite length_insert|done|]. intros o x y Ho Hx Hy.
    specialize (Hheads o ltac:(lia)). unfold list_head in Hheads. rewrite Hx in Hheads. simpl in Hheads. subst x.
    rewrite list_lookup_insert, lookup_replicate_2 in Hy by done. rewrite length_replicate in Hy.
    destruct (decide (o = k0)) as [->|]; [rewrite decide_True in Hy by (split; [done|lia]); by simplify_eq|].
    rewrite decide_False in Hy by (intros [? _]; congruence). by simplify_eq.
  - unfold buddy_fragmentation. rewrite (buddy_free_memory_spec base k0 b L [] Hinv). cbn [mbind option_bind blocks_bytes foldr].
    assert (forall n, (n <= MAX_ORDER)%nat -> (k0 <= n)%nat -> largest_from n b = block_bytes k0) as Hlarge.
    { induction n as [|n IH]; intros Hn Hkn; cbn [largest_from]; rewrite (Hheads _ Hn).
      - rewrite decide_True by lia. destruct (Z.eqb_spec base 0); [lia|]. simpl. by replace k0 with 0%nat by lia.
      - case_decide as Hd; [subst k0; destruct (Z.eqb_spec base 0); [lia|done]|]. simpl. apply IH; lia. }
    unfold buddy_largest_free_block. rewrite Hlarge by lia. destruct (Z.ltb_spec (block_bytes k0) (block_bytes k0 - 0)); [lia|done].
Qed.

(** A heap of sixteen pages; one page allocated, then freed. *)
Definition demo_heap : buddy := buddy_init 1048576 1114112 ∅.
Definition demo_taken : buddy := from_option snd demo_heap (buddy_alloc 0 demo_heap).
Definition demo_back : buddy := default demo_heap (buddy_free 1048576 0 demo_taken).

Lemma demo_run : rtc buddy_step (demo_heap, []) (demo_taken, [(1048576, 0%nat)]) /\
  buddy_step (demo_taken, [(1048576, 0%nat)]) (demo_back, []).
Proof.
  split.
  - eapply rtc_l; [|apply rtc_refl]. apply (bs_alloc 0 demo_heap demo_taken 1048576 []). vm_compute. reflexivity.
  - apply (bs_free demo_taken demo_back 1048576 0 [(1048576, 0%nat)] []); [reflexivity|]. vm_compute. reflexivity.
Qed.

Lemma demo_fits : exists c, fits 1048576 1114112 0 c.
Proof. exists 1048576. split; [exists 256; reflexivity|]. change (block_bytes 0) with 4096. lia. Qed.

Lemma buddy_no_overlap_witness : exists base k0, fits 1048576 1114112 k0 base /\ buddy_free_memory demo_heap = Some (block_bytes k0) /\
  buddy_free_memory demo_taken = Some (block_bytes k0 - 4096) /\ exists L, (1048576 / 4096 :: free_blocks L ≫= pages) ≡ₚ pages (base, k0).
Proof.
  destruct (buddy_no_overlap 1048576 1114112 ∅ ltac:(lia) ltac:(lia) ltac:(lia) demo_fits) as (base & k0 & Hf & _ & H). exists base, k0. split; [exact Hf|].
  destruct (H demo_heap [] (rtc_refl _ _)) as (_ & _ & _ & _ & H0). destruct (H demo_taken [(1048576, 0%nat)] (proj1 demo_run)) as ((L & _ & _ & Hp) & _ & _ & _ & H1).
  split; [rewrite H0; f_equal; apply Z.sub_0_r|]. split; [exact H1|]. exists L. exact Hp.
Defined.

Lemma buddy_coalesces_witness : bd_heads demo_back = bd_heads demo_heap.
Proof.
  refine (proj1 (buddy_coalesces 1048576 1114112 ∅ demo_back ltac:(lia) ltac:(lia) ltac:(lia) demo_fits _)).
  exact (rtc_r _ _ _ (proj1 demo_run) (proj2 demo_run)).
Defined.
