(* ===== verification/Kheap.v ===== *)
(** * The kernel heap

    [kernel/Memory/slab.c]: three caches of 32 slots for small objects;
    [kernel/Memory/kheap.c]: [kmalloc_raw] and [kfree_raw] over the caches and
    the buddy allocator.  Interrupts are off in both, so each call is one step. *)

From stdpp Require Import list_numbers gmap relations.
From S2P Require Import Prelude SlotTable Buddy.

#[local] Open Scope Z_scope.

(** ** Slab caches *)

Definition SLAB_SLOTS_PER_CACHE : nat := 32.
Definition SLAB_NUM_CACHES : nat := 3.

Record slab := mkSlab { sl_bitmap : Z; sl_first_slot : Z; sl_size : Z }.

Definition slab_init (size : Z) (b : buddy) : option (slab * buddy) :=
  '(p, b) ← buddy_alloc 0 b; Some (mkSlab 0 p size, b).

(** [slab_caches]: the 32, 64 and 128 byte caches; they are set up in the order
    64, 128, 32. *)
Record heap := mkHeap { hp_buddy : buddy; hp_caches : list slab }.

Definition slab_init_all (b : buddy) : option heap :=
  '(c64, b) ← slab_init 64 b;
  '(c128, b) ← slab_init 128 b;
  '(c32, b) ← slab_init 32 b;
  Some (mkHeap b [c32; c64; c128]).

(** [__builtin_ctz]: the lowest bit set. *)
Definition ctz (m : Z) : option nat := find_idx (fun i => Z.testbit m (Z.of_nat i)) (seq 0 32).

Definition slab_alloc (s : slab) : Z * slab :=
  let free_mask := 0xFFFFFFFF - sl_bitmap s in
  match ctz free_mask with
  | None => (0, s)
  | Some free_bit =>
      (u32 (sl_first_slot s + Z.of_nat free_bit * sl_size s),
       mkSlab (Z.lor (sl_bitmap s) (Z.shiftl 1 (Z.of_nat free_bit))) (sl_first_slot s) (sl_size s))
  end.

Definition slab_free (ptr : Z) (s : slab) : slab :=
  let index := s32 ((ptr -32 sl_first_slot s) / sl_size s) in
  if (index <? 0) || (Z.of_nat SLAB_SLOTS_PER_CACHE <=? index) then s
  else mkSlab (Z.ldiff (sl_bitmap s) (Z.shiftl 1 index)) (sl_first_slot s) (sl_size s).

(** [__builtin_popcount] of a 32-bit word. *)
Definition popcount (m : Z) : Z := Z.of_nat (count_if (fun i => Z.testbit m (Z.of_nat i)) (seq 0 32)).

Definition slab_cache_used (s : slab) : Z := popcount (sl_bitmap s).
Definition slab_cache_free (s : slab) : Z := Z.of_nat SLAB_SLOTS_PER_CACHE -32 slab_cache_used s.
Definition slab_used_count (h : heap) : Z := foldr (fun s t => slab_cache_used s +32 t) 0 (hp_caches h).
Definition slab_objects_used (h : heap) : Z := slab_used_count h.
Definition slab_objects_free (h : heap) : Z := (Z.of_nat SLAB_NUM_CACHES * Z.of_nat SLAB_SLOTS_PER_CACHE) -32 slab_used_count h.
Definition slab_used_bytes (h : heap) : Z := foldr (fun s t => (slab_cache_used s *32 sl_size s) +32 t) 0 (hp_caches h).
Definition slab_free_bytes (h : heap) : Z := foldr (fun s t => (slab_cache_free s *32 sl_size s) +32 t) 0 (hp_caches h).

(** ** kmalloc and kfree *)

(** The loop of [size_to_order]; [None] is running out of fuel. *)
Fixpoint order_loop (fuel : nat) (block size order : Z) : option Z :=
  if block <? size then
    match fuel with O => None | S fuel' => order_loop fuel' (block *32 2) size (order + 1) end
  else Some order.
Definition size_to_order (size : Z) : option Z := order_loop 32 4096 size 0.

(** [sizeof(block_header_t)]: size, type and order, four bytes each. *)
Definition HEADER_SIZE : Z := 12.
Definition BUDDY : Z := 2.

(** [slab_alloc] on one of the caches. *)
Definition cache_alloc (c : nat) (h : heap) : Z * heap :=
  match hp_caches h !! c with
  | None => (0, h)
  | Some s => let '(p, s) := slab_alloc s in (p, mkHeap (hp_buddy h) (<[c := s]> (hp_caches h)))
  end.

Definition kmalloc_unlocked (size : Z) (h : heap) : option (Z * heap) :=
  if size <=? 32 then Some (cache_alloc 0 h)
  else if size <=? 64 then Some (cache_alloc 1 h)
  else if size <=? 128 then Some (cache_alloc 2 h)
  else
    let total := size +32 HEADER_SIZE in
    order ← size_to_order total;
    '(hdr, b) ← buddy_alloc order (hp_buddy h);
    if hdr =? 0 then Some (0, mkHeap b (hp_caches h)) else
    let b := store_word (hdr + 8) order (store_word (hdr + 4) BUDDY b) in
    Some (hdr + HEADER_SIZE, mkHeap b (hp_caches h)).

(** [p >= start && p < end] for the page of a cache. *)
Definition in_cache (ptr : Z) (s : slab) : bool :=
  (sl_first_slot s <=? ptr) && (ptr <? (sl_first_slot s +32 4096)).

Definition kfree_unlocked (ptr : Z) (h : heap) : option heap :=
  if ptr =? 0 then Some h else
  match find_idx (in_cache ptr) (hp_caches h) with
  | Some c => Some (mkHeap (hp_buddy h) (alter (slab_free ptr) c (hp_caches h)))
  | None =>
      let hdr := ptr - HEADER_SIZE in
      type ← bd_mem (hp_buddy h) !! (hdr + 4);
      if negb (type =? BUDDY) then Some h else
      order ← bd_mem (hp_buddy h) !! (hdr + 8);
      b ← buddy_free hdr order (hp_buddy h);
      Some (mkHeap b (hp_caches h))
  end.

Definition kmalloc_raw := kmalloc_unlocked.
Definition kfree_raw := kfree_unlocked.

Definition heap_used_bytes (h : heap) : option Z := u ← buddy_used_memory (hp_buddy h); Some (slab_used_bytes h +32 u).
Definition heap_free_bytes (h : heap) : option Z := f ← buddy_free_memory (hp_buddy h); Some (slab_free_bytes h +32 f).
Definition heap_total_bytes (h : heap) : option Z := u ← heap_used_bytes h; f ← heap_free_bytes h; Some (u +32 f).
Definition heap_largest_free_block (h : heap) : Z := buddy_largest_free_block (hp_buddy h).
Definition heap_live_allocation (h : heap) : option Z :=
  n ← buddy_live_allocations (hp_buddy h); Some (slab_objects_used h +32 n).

(** ** Orders *)

Lemma order_loop_spec fuel : forall k size, (k <= 19)%nat -> (19 - k <= fuel)%nat -> size <= 2147483648 ->
  exists o, order_loop fuel (block_bytes k) size (Z.of_nat k) = Some (Z.of_nat o) /\ (k <= o <= 19)%nat /\ size <= block_bytes o /\
    (o = k \/ block_bytes (o - 1) < size).
Proof.
  induction fuel as [|fuel IH]; intros k size Hk Hf Hs.
  - assert (k = 19%nat) as -> by lia. exists 19%nat. cbn [order_loop]. change (block_bytes 19) with 2147483648.
    destruct (Z.ltb_spec 2147483648 size); [lia|]. split; [done|]. split; [lia|]. split; [lia|by left].
  - cbn [order_loop]. destruct (Z.ltb_spec (block_bytes k) size) as [Hlt|Hge].
    + assert (k < 19)%nat as Hk'.
      { destruct (decide (k = 19%nat)) as [->|]; [change (block_bytes 19) with 2147483648 in Hlt; lia|lia]. }
      assert (block_bytes k <= 1073741824) as Hb by (pose proof (block_bytes_mono k 18 ltac:(lia)) as Hm; change (block_bytes 18) with 1073741824 in Hm; lia).
      pose proof (block_bytes_pos k). rewrite u32_small by (unfold is_u32; lia).
      replace (block_bytes k * 2) with (block_bytes (S k)) by (rewrite block_bytes_S; lia).
      replace (Z.of_nat k + 1) with (Z.of_nat (S k)) by lia.
      destruct (IH (S k) size) as (o & E & Ho & Hle & Hmin); [lia|lia|lia|]. exists o. split; [done|]. split; [lia|]. split; [done|].
      right. destruct Hmin as [->|]; [|done]. by rewrite Nat.sub_succ, Nat.sub_0_r.
    + exists k. split; [done|]. split; [lia|]. split; [lia|by left].
Qed.

Lemma size_to_order_spec size : size <= 2147483648 ->
  exists o, size_to_order size = Some (Z.of_nat o) /\ (o <= 19)%nat /\ size <= block_bytes o /\ (o = 0%nat \/ block_bytes (o - 1) < size).
Proof.
  intros Hs. destruct (order_loop_spec 32 0 size) as (o & E & Ho & H1 & H2); [lia|lia|done|].
  exists o. split; [exact E|]. split; [lia|]. split; [done|]. done.
Qed.

(** For more than 2 GiB the block size wraps to zero and the loop never ends. *)
Lemma size_to_order_diverges fuel size : 2147483648 < size -> order_loop fuel 4096 size 0 = None.
Proof.
  intros Hs. assert (forall fuel block order, (block = 0 \/ exists k, (k <= 19)%nat /\ block = block_bytes k) ->
    order_loop fuel block size order = None) as Hgen; [|apply Hgen; right; exists 0%nat; split; [lia|done]].
  clear fuel. induction fuel as [|fuel IH]; intros block order Hb; cbn [order_loop];
    assert (block < size) by (destruct Hb as [->|(k & Hk & ->)];
      [lia|pose proof (block_bytes_mono k 19 ltac:(lia)) as Hm; change (block_bytes 19) with 2147483648 in Hm; lia]);
    destruct (Z.ltb_spec block size); try lia; [done|].
  apply IH. destruct Hb as [->|(k & Hk & ->)]; [by left|]. destruct (decide (k = 19%nat)) as [->|]; [left; done|].
  right. exists (S k). split; [lia|]. rewrite block_bytes_S. pose proof (block_bytes_pos k).
  pose proof (block_bytes_mono k 18 ltac:(lia)) as Hm. change (block_bytes 18) with 1073741824 in Hm.
  rewrite u32_small by (unfold is_u32; lia). lia.
Qed.

(** ** The objects on the heap *)

(** A slot of a cache, or a block with a header. *)
Inductive obj := OSlab (c i : nat) | OBig (hdr : Z) (o : nat).
#[export] Instance obj_eq : EqDecision obj.
Proof. solve_decision. Defined.

Definition cache_at (c : nat) (h : heap) : slab := default (mkSlab 0 0 0) (hp_caches h !! c).
Definition obj_ptr (h : heap) (x : obj) : Z :=
  match x with
  | OSlab c i => sl_first_slot (cache_at c h) + Z.of_nat i * sl_size (cache_at c h)
  | OBig hdr _ => hdr + 12
  end.
Definition obj_len (h : heap) (x : obj) : Z :=
  match x with OSlab c _ => sl_size (cache_at c h) | OBig _ o => block_bytes o - 12 end.

Definition big (x : obj) : option block := match x with OBig a o => Some (a, o) | _ => None end.
Definition slab_pages (h : heap) : list block := (fun s => (sl_first_slot s, 0%nat)) <$> hp_caches h.

Record heap_inv (base : Z) (k0 : nat) (h : heap) (objs : list obj) : Prop := {
  hi_caches : length (hp_caches h) = 3%nat;
  hi_size : forall c s, hp_caches h !! c = Some s -> sl_size s = 32 * 2 ^ Z.of_nat c /\ is_u32 (sl_bitmap s);
  hi_buddy : exists L, buddy_inv base k0 (hp_buddy h) L (slab_pages h ++ omap big objs);
  hi_nodup : NoDup objs;
  hi_bits : forall c s i, hp_caches h !! c = Some s -> (i < 32)%nat ->
    Z.testbit (sl_bitmap s) (Z.of_nat i) = bool_decide (OSlab c i ∈ objs);
  hi_slots : forall c i, OSlab c i ∈ objs -> (c < 3)%nat /\ (i < 32)%nat;
  hi_headers : forall hdr o, OBig hdr o ∈ objs ->
    bd_mem (hp_buddy h) !! (hdr + 4) = Some BUDDY /\ bd_mem (hp_buddy h) !! (hdr + 8) = Some (Z.of_nat o) }.

Lemma elem_of_bigs (objs : list obj) a o : (a, o) ∈ omap big objs <-> OBig a o ∈ objs.
Proof.
  rewrite list_elem_of_omap. split; [intros ([c i|hdr j] & Hx & [=]); by subst|]. intros H. by exists (OBig a o).
Qed.

(** Blocks at different places of a list with distinct pages do not overlap. *)
Lemma blocks_apart base k0 b L live x y : buddy_inv base k0 b L live -> x ∈ live -> y ∈ live -> x <> y ->
  x.1 + block_bytes x.2 <= y.1 \/ y.1 + block_bytes y.2 <= x.1.
Proof.
  intros Hinv Hx Hy Hne. destruct (distinct_members x y live Hx Hy Hne) as [rest E].
  pose proof (inv_relive base k0 b L _ _ E Hinv) as Hi. pose proof (pages_nodup _ _ _ _ _ Hi) as Hnd.
  pose proof (bi_ok _ _ _ _ _ Hi) as Hok. apply Forall_cons_1 in Hok as [[Hax _ _] Hok]. apply Forall_cons_1 in Hok as [[Hay _ _] _].
  destruct x as [a o], y as [c j]. simpl in Hax, Hay |- *. apply page_divide in Hax, Hay.
  destruct (decide (a + block_bytes o <= c)) as [|H1]; [by left|]. destruct (decide (c + block_bytes j <= a)) as [|H2]; [by right|].
  exfalso. pose proof (block_bytes_pos o). pose proof (block_bytes_pos j).
  assert (forall m, (4096 | m) -> a <= m < a + block_bytes o -> c <= m < c + block_bytes j -> False) as Hgo.
  { intros m [q ->] Ha Hc. apply (no_shared_page (a, o) (c, j) _ (rest ++ free_blocks L) q Hnd); [done|by apply pages_elem|by apply pages_elem]. }
  destruct (decide (a <= c)); [apply (Hgo c)|apply (Hgo a)]; try done; lia.
Qed.

Lemma live_nodup base k0 b L live : buddy_inv base k0 b L live -> NoDup live.
Proof.
  intros Hinv. pose proof (pages_nodup _ _ _ _ _ Hinv) as Hnd. rewrite bind_app in Hnd. apply list.NoDup_app in Hnd as (Hnd & _ & _).
  clear Hinv. induction live as [|[a o] live IH]; [constructor|]. simpl in Hnd. apply list.NoDup_app in Hnd as (_ & Hd & Hnd).
  constructor; [|by apply IH]. intros Hin. apply (Hd (a / 4096)); [apply first_page|]. apply list_elem_of_bind. eauto using first_page.
Qed.

(** The block an object lies in. *)
Definition obj_block (h : heap) (x : obj) : block :=
  match x with OSlab c _ => (sl_first_slot (cache_at c h), 0%nat) | OBig a o => (a, o) end.

Section Objects.
Context (base : Z) (k0 : nat) (h : heap) (objs : list obj) (Hinv : heap_inv base k0 h objs).

Lemma cache_lookup c : (c < 3)%nat -> hp_caches h !! c = Some (cache_at c h).
Proof.
  intros Hc. destruct (lookup_lt_is_Some_2 (hp_caches h) c) as [s Hs]; [by rewrite (hi_caches _ _ _ _ Hinv)|].
  unfold cache_at. by rewrite Hs.
Qed.

Lemma cache_size c : (c < 3)%nat -> 32 <= sl_size (cache_at c h) <= 128.
Proof.
  intros Hc. destruct (hi_size _ _ _ _ Hinv c _ (cache_lookup c Hc)) as [-> _].
  destruct c as [|[|[|c]]]; [simpl; lia..|lia].
Qed.

Lemma slab_page_in c : (c < 3)%nat -> (sl_first_slot (cache_at c h), 0%nat) ∈ slab_pages h.
Proof. intros Hc. apply list_elem_of_fmap. exists (cache_at c h). split; [done|]. apply list_elem_of_lookup. eauto using cache_lookup. Qed.

Lemma obj_in_block x : x ∈ objs -> obj_block h x ∈ slab_pages h ++ omap big objs /\
  (obj_block h x).1 <= obj_ptr h x /\ obj_ptr h x + obj_len h x <= (obj_block h x).1 + block_bytes (obj_block h x).2.
Proof.
  intros Hx. destruct x as [c i|a o]; simpl.
  - destruct (hi_slots _ _ _ _ Hinv c i Hx) as [Hc Hi]. split; [apply elem_of_app; left; by apply slab_page_in|].
    pose proof (cache_size c Hc). change (block_bytes 0) with 4096. nia.
  - split; [apply elem_of_app; right; by apply elem_of_bigs|]. lia.
Qed.

Lemma obj_len_pos x : x ∈ objs -> 0 < obj_len h x.
Proof.
  intros Hx. destruct x as [c i|a o]; simpl.
  - destruct (hi_slots _ _ _ _ Hinv c i Hx) as [Hc _]. pose proof (cache_size c Hc). lia.
  - pose proof (block_bytes_pos o). lia.
Qed.

(** Different objects have different blocks, or are slots of one cache. *)
Lemma obj_blocks_differ x y : x ∈ objs -> y ∈ objs -> x <> y ->
  obj_block h x <> obj_block h y \/ exists c i j, x = OSlab c i /\ y = OSlab c j /\ (c < 3)%nat.
Proof.
  intros Hx Hy Hne. destruct (hi_buddy _ _ _ _ Hinv) as [L HL]. pose proof (live_nodup _ _ _ _ _ HL) as Hnd.
  apply list.NoDup_app in Hnd as (Hn1 & Hn2 & _).
  assert (forall c i a o, OSlab c i ∈ objs -> OBig a o ∈ objs -> obj_block h (OSlab c i) <> obj_block h (OBig a o)) as Hmix.
  { intros c i a o Hs Hb E. destruct (hi_slots _ _ _ _ Hinv c i Hs) as [Hc _].
    apply (Hn2 (a, o)); [|by apply elem_of_bigs]. simpl in E. rewrite <- E. by apply slab_page_in. }
  destruct x as [c i|a o], y as [d j|a' o'].
  - destruct (hi_slots _ _ _ _ Hinv c i Hx) as [Hc _], (hi_slots _ _ _ _ Hinv d j Hy) as [Hd _].
    destruct (decide (c = d)) as [->|Hcd]; [right; eauto 10|]. left. intros E. apply Hcd.
    apply (NoDup_lookup _ c d (sl_first_slot (cache_at c h), 0%nat) Hn1); unfold slab_pages; rewrite list_lookup_fmap, cache_lookup by done; [done|].
    simpl in *. by rewrite <- E.
  - left. by apply (Hmix c i).
  - left. intros E. by apply (Hmix d j a o).
  - left. intros [= -> ->]. done.
Qed.

Lemma objs_apart x y : x ∈ objs -> y ∈ objs -> x <> y ->
  obj_ptr h x + obj_len h x <= obj_ptr h y \/ obj_ptr h y + obj_len h y <= obj_ptr h x.
Proof.
  intros Hx Hy Hne. destruct (obj_in_block x Hx) as (Hbx & Hx1 & Hx2), (obj_in_block y Hy) as (Hby & Hy1 & Hy2).
  destruct (hi_buddy _ _ _ _ Hinv) as [L HL].
  destruct (obj_blocks_differ x y Hx Hy Hne) as [Hd|(c & i & j & -> & -> & Hc)].
  - destruct (blocks_apart _ _ _ _ _ _ _ HL Hbx Hby Hd); lia.
  - simpl. pose proof (cache_size c Hc). assert (i <> j) by congruence. destruct (decide (i < j)%nat); [left|right]; nia.
Qed.
End Objects.

(** ** Allocating *)

Lemma ctz_spec m : match ctz m with
  | Some i => (i < 32)%nat /\ Z.testbit m (Z.of_nat i) = true
  | None => forall i, (i < 32)%nat -> Z.testbit m (Z.of_nat i) = false
  end.
Proof.
  unfold ctz. destruct (find_idx _ _) as [i|] eqn:E.
  - apply find_idx_Some in E as (x & Hx & Hp & _). apply lookup_seq in Hx as [-> Hlt]. done.
  - intros i Hi. rewrite find_idx_None in E. apply (E i i). apply lookup_seq. lia.
Qed.

Lemma free_mask_bit m i : is_u32 m -> (i < 32)%nat -> Z.testbit (0xFFFFFFFF - m) (Z.of_nat i) = negb (Z.testbit m (Z.of_nat i)).
Proof.
  intros Hm Hi. unfold is_u32 in Hm. change 0xFFFFFFFF with (Z.ones 32).
  replace (Z.ones 32 - m) with (Z.ldiff (Z.ones 32) m).
  - rewrite Z.ldiff_spec, Z.ones_spec_low by lia. done.
  - symmetry. apply Z.sub_nocarry_ldiff. apply Z.ldiff_ones_r_low; [lia|].
    destruct (decide (m = 0)) as [->|]; [simpl; lia|]. apply Z.log2_lt_pow2; lia.
Qed.

Lemma set_bit_spec m i j : Z.testbit (Z.lor m (Z.shiftl 1 (Z.of_nat i))) (Z.of_nat j) = Z.testbit m (Z.of_nat j) || bool_decide (j = i).
Proof.
  rewrite Z.lor_spec, Z.shiftl_1_l, Z.pow2_bits_eqb by lia. f_equal. case_bool_decide; [subst; apply Z.eqb_refl|apply Z.eqb_neq; lia].
Qed.
Lemma clear_bit_spec m i j : Z.testbit (Z.ldiff m (Z.shiftl 1 (Z.of_nat i))) (Z.of_nat j) = Z.testbit m (Z.of_nat j) && negb (bool_decide (j = i)).
Proof.
  rewrite Z.ldiff_spec, Z.shiftl_1_l, Z.pow2_bits_eqb by lia. do 2 f_equal. case_bool_decide; [subst; apply Z.eqb_refl|apply Z.eqb_neq; lia].
Qed.

Lemma set_bit_range m i : is_u32 m -> (i < 32)%nat -> is_u32 (Z.lor m (Z.shiftl 1 (Z.of_nat i))).
Proof.
  intros Hm Hi. unfold is_u32 in *. rewrite Z.shiftl_1_l. pose proof (Z.pow_pos_nonneg 2 (Z.of_nat i) ltac:(lia) ltac:(lia)).
  assert (0 <= Z.lor m (2 ^ Z.of_nat i)) by (apply Z.lor_nonneg; lia). split; [done|].
  apply Z.log2_lt_cancel. rewrite Z.log2_lor by lia. change (Z.log2 4294967296) with 32. rewrite Z.log2_pow2 by lia.
  assert (Z.log2 m < 32); [|lia]. destruct (decide (m = 0)) as [->|]; [simpl; lia|]. apply Z.log2_lt_pow2; [lia|].
  change (2 ^ 32) with 4294967296. lia.
Qed.
Lemma clear_bit_range m x : is_u32 m -> is_u32 (Z.ldiff m x).
Proof.
  intros Hm. unfold is_u32 in *. split; [apply Z.ldiff_nonneg; lia|].
  assert (Z.land (Z.ldiff m x) (Z.land m x) = 0) as Hd.
  { apply Z.bits_inj'. intros n Hn. rewrite Z.land_spec, Z.ldiff_spec, Z.land_spec, Z.bits_0.
    by destruct (Z.testbit m n), (Z.testbit x n). }
  pose proof (Z.add_nocarry_lxor _ _ Hd) as E. rewrite Z.lxor_lor, Z.lor_ldiff_and in E by done.
  assert (0 <= Z.land m x) by (apply Z.land_nonneg; lia). lia.
Qed.

(** Two heaps with the caches at the same place. *)
Definition same_layout (h h' : heap) : Prop :=
  forall x, obj_ptr h' x = obj_ptr h x /\ obj_len h' x = obj_len h x.

Lemma layout_buddy h b : same_layout h (mkHeap b (hp_caches h)).
Proof. by intros [c i|a o]. Qed.

Lemma layout_cache h c s bm : hp_caches h !! c = Some s ->
  same_layout h (mkHeap (hp_buddy h) (<[c := mkSlab bm (sl_first_slot s) (sl_size s)]> (hp_caches h))).
Proof.
  intros Hs. assert (forall d, sl_first_slot (cache_at d (mkHeap (hp_buddy h) (<[c := mkSlab bm (sl_first_slot s) (sl_size s)]> (hp_caches h)))) = sl_first_slot (cache_at d h) /\
    sl_size (cache_at d (mkHeap (hp_buddy h) (<[c := mkSlab bm (sl_first_slot s) (sl_size s)]> (hp_caches h)))) = sl_size (cache_at d h)) as Hd.
  { intros d. unfold cache_at. simpl. rewrite list_lookup_insert. case_decide as E; [destruct E as [<- _]; by rewrite Hs|done]. }
  intros [d i|a o]; simpl; [|done]. destruct (Hd d) as [-> ->]. done.
Qed.

Section Requests.
Context (base : Z) (k0 : nat).
Notation inv := (heap_inv base k0).

(** Changing the bitmap of one cache. *)
Lemma heap_inv_bitmap h objs objs' c s bm : inv h objs -> hp_caches h !! c = Some s -> is_u32 bm -> NoDup objs' ->
  omap big objs' = omap big objs ->
  (forall d i, OSlab d i ∈ objs' -> (d < 3)%nat /\ (i < 32)%nat) ->
  (forall i, (i < 32)%nat -> Z.testbit bm (Z.of_nat i) = bool_decide (OSlab c i ∈ objs')) ->
  (forall d i, d <> c -> OSlab d i ∈ objs' <-> OSlab d i ∈ objs) ->
  inv (mkHeap (hp_buddy h) (<[c := mkSlab bm (sl_first_slot s) (sl_size s)]> (hp_caches h))) objs'.
Proof.
  intros [H1 H2 [L H3] H4 H5 H6 H7] Hs Hbm Hnd Hbig Hsl Hbits Hoth. split; simpl.
  - by rewrite length_insert.
  - intros d s'. rewrite list_lookup_insert. case_decide as E; [destruct E as [<- _]; intros [= <-]|by apply H2].
    simpl. split; [by apply (H2 c s)|done].
  - exists L. rewrite Hbig. assert (slab_pages (mkHeap (hp_buddy h) (<[c := mkSlab bm (sl_first_slot s) (sl_size s)]> (hp_caches h))) = slab_pages h) as ->; [|done].
    unfold slab_pages. simpl. rewrite list_fmap_insert. simpl. apply list_insert_id. by rewrite list_lookup_fmap, Hs.
  - done.
  - intros d s' i. rewrite list_lookup_insert. case_decide as E; [destruct E as [<- _]; intros [= <-]; apply Hbits|].
    intros Hd Hi. rewrite (H5 d s' i Hd Hi). apply bool_decide_ext. symmetry. apply Hoth. intros ->. apply E. split; [done|].
    by eapply lookup_lt_Some.
  - done.
  - intros a o Ha. apply H7. apply elem_of_bigs. rewrite <- Hbig. by apply elem_of_bigs.
Qed.

Lemma cache_region h objs c : inv h objs -> (c < 3)%nat ->
  0 < sl_first_slot (cache_at c h) /\ sl_first_slot (cache_at c h) + 4096 < 4294967296 /\
  sl_first_slot (cache_at c h) + 4096 <= bd_end (hp_buddy h).
Proof.
  intros Hinv Hc. destruct (hi_buddy _ _ _ _ Hinv) as [L [_ _ _ _ Hok (Hb & _ & _ & _ & He1 & He2) _]].
  rewrite Forall_forall in Hok. destruct (Hok (sl_first_slot (cache_at c h), 0%nat)) as [_ _ [Hr1 Hr2]].
  { apply list_elem_of_In. rewrite !elem_of_app. left. left. by eapply slab_page_in. }
  simpl in *. change (block_bytes 0) with 4096 in *. lia.
Qed.

Lemma cache_alloc_spec h objs c : inv h objs -> (c < 3)%nat ->
  (cache_alloc c h = (0, h) /\ forall i, (i < 32)%nat -> OSlab c i ∈ objs) \/
  exists i h', cache_alloc c h = (obj_ptr h (OSlab c i), h') /\ OSlab c i ∉ objs /\ inv h' (OSlab c i :: objs) /\ same_layout h h'.
Proof.
  intros Hinv Hc. pose proof (cache_lookup _ _ _ _ Hinv c Hc) as Hs. set (s := cache_at c h) in *.
  destruct (hi_size _ _ _ _ Hinv c s Hs) as [_ Hbm]. unfold cache_alloc. rewrite Hs. unfold slab_alloc.
  pose proof (ctz_spec (0xFFFFFFFF - sl_bitmap s)) as Hctz. destruct (ctz _) as [i|].
  - destruct Hctz as [Hi Hfree]. rewrite free_mask_bit in Hfree by done. apply negb_true_iff in Hfree.
    rewrite (hi_bits _ _ _ _ Hinv c s i Hs Hi) in Hfree. apply bool_decide_eq_false in Hfree.
    right. exists i. eexists. split.
    { f_equal. simpl. fold s. destruct (cache_region h objs c Hinv Hc) as (Hr1 & Hr2 & _). fold s in Hr1, Hr2.
      pose proof (cache_size _ _ _ _ Hinv c Hc) as Hz. fold s in Hz. rewrite u32_small; [done|unfold is_u32; nia]. }
    split; [done|]. split; [|by apply layout_cache].
    apply (heap_inv_bitmap h objs (OSlab c i :: objs) c s); [done|done|by apply set_bit_range|constructor; [done|apply Hinv]|done| | |].
    + intros d j [[= -> ->]|Hj]%elem_of_cons; [done|by apply (hi_slots _ _ _ _ Hinv)].
    + intros j Hj. rewrite set_bit_spec, (hi_bits _ _ _ _ Hinv c s j Hs Hj).
      repeat case_bool_decide; simplify_eq/=; set_solver.
    + intros d j Hd. rewrite elem_of_cons. naive_solver.
  - left. split; [f_equal; destruct h as [b cs]; simpl in *; f_equal; by apply list_insert_id|].
    intros i Hi. specialize (Hctz i Hi). rewrite free_mask_bit in Hctz by done. apply negb_false_iff in Hctz.
    rewrite (hi_bits _ _ _ _ Hinv c s i Hs Hi) in Hctz. by apply bool_decide_eq_true in Hctz.
Qed.

(** Changing the buddy allocator below the caches. *)
Lemma heap_inv_buddy h objs objs' b L : inv h objs -> buddy_inv base k0 b L (slab_pages h ++ omap big objs') ->
  NoDup objs' -> (forall c i, OSlab c i ∈ objs' <-> OSlab c i ∈ objs) ->
  (forall a o, OBig a o ∈ objs' -> bd_mem b !! (a + 4) = Some BUDDY /\ bd_mem b !! (a + 8) = Some (Z.of_nat o)) ->
  inv (mkHeap b (hp_caches h)) objs'.
Proof.
  intros [H1 H2 _ H4 H5 H6 H7] Hb Hnd Hsl Hhd. split; simpl; [done|done|by exists L|done| | |done].
  - intros c s i Hs Hi. rewrite (H5 c s i Hs Hi). apply bool_decide_ext. by rewrite Hsl.
  - intros c i Hci. apply H6. by apply Hsl.
Qed.

(** Header words are not page addresses. *)
Lemma header_word a d : (4096 | a) -> 0 < d < 4096 -> ~ (4096 | a + d).
Proof. intros [q ->] Hd [r Hr]. lia. Qed.

Lemma big_aligned h objs a o : inv h objs -> OBig a o ∈ objs -> (4096 | a) /\ 4096 <= block_bytes o.
Proof.
  intros Hinv Ha. destruct (hi_buddy _ _ _ _ Hinv) as [L [_ _ _ _ Hok _ _]]. rewrite Forall_forall in Hok.
  destruct (Hok (a, o)) as [Hal _ _]; [apply list_elem_of_In; rewrite !elem_of_app; left; right; by apply elem_of_bigs|].
  split; [by eapply page_divide|apply block_bytes_pos].
Qed.

(** Allocations above 128 bytes. *)
Lemma big_alloc_spec h objs o : inv h objs -> (o <= MAX_ORDER)%nat ->
  buddy_alloc (Z.of_nat o) (hp_buddy h) = Some (0, hp_buddy h) \/
  exists p b, buddy_alloc (Z.of_nat o) (hp_buddy h) = Some (p, b) /\ 0 < p /\ OBig p o ∉ objs /\
    inv (mkHeap (store_word (p + 8) (Z.of_nat o) (store_word (p + 4) BUDDY b)) (hp_caches h)) (OBig p o :: objs).
Proof.
  intros Hinv Ho. destruct (hi_buddy _ _ _ _ Hinv) as [L HL].
  destruct (buddy_alloc_spec base k0 _ _ _ o HL Ho) as [[E _]|(p & b & L' & E & Hp & Hi & Hlk)]; [by left|right].
  exists p, b. split; [done|]. split; [done|]. pose proof (live_nodup _ _ _ _ _ Hi) as Hnd. apply NoDup_cons_1_1 in Hnd.
  assert (OBig p o ∉ objs) as Hni by (intros Hin; apply Hnd, elem_of_app; right; by apply elem_of_bigs). split; [done|].
  pose proof (block_bytes_pos o) as Hbp. pose proof (live_aligned base k0 b L' _ _ _ Hi) as Hpal.
  assert (buddy_inv base k0 (store_word (p + 8) (Z.of_nat o) (store_word (p + 4) BUDDY b)) L' ((p, o) :: slab_pages h ++ omap big objs)) as Hw.
  { eapply inv_write; [eapply inv_write; [exact Hi|left|lia]|left|lia]. }
  apply (heap_inv_buddy h objs (OBig p o :: objs) _ L' Hinv).
  - eapply inv_relive; [|exact Hw]. simpl. by rewrite <- Permutation_middle.
  - constructor; [done|apply Hinv].
  - intros c i. rewrite elem_of_cons. naive_solver.
  - intros a j [[= -> ->]|Ha]%elem_of_cons; simpl.
    + rewrite lookup_insert_ne, lookup_insert_eq, lookup_insert_eq by lia. done.
    + destruct (big_aligned h objs a j Hinv Ha) as [Hal _]. destruct (hi_headers _ _ _ _ Hinv a j Ha) as [E1 E2].
      assert (a <> p) as Hne.
      { intros ->. assert ((p, o) <> (p, j)) as Hd by (intros [= ->]; done).
        destruct (blocks_apart base k0 b L' _ (p, o) (p, j) Hi) as [H|H]; [left| |done|simpl in H; lia|].
        - right. apply elem_of_app. right. by apply elem_of_bigs.
        - simpl in H. pose proof (block_bytes_pos j). lia. }
      destruct Hal as [x ->], Hpal as [y ->].
      rewrite !lookup_insert_ne by lia. rewrite !Hlk by (apply header_word; [by exists x|lia]). done.
Qed.

Lemma kmalloc_spec h objs size : inv h objs -> 0 <= size <= 2147483636 ->
  exists p h', kmalloc_unlocked size h = Some (p, h') /\ same_layout h h' /\
    ((p = 0 /\ inv h' objs) \/ exists x, x ∉ objs /\ inv h' (x :: objs) /\ obj_ptr h' x = p /\ size <= obj_len h' x /\ 0 < p).
Proof.
  intros Hinv Hs. unfold kmalloc_unlocked, HEADER_SIZE.
  assert (forall c, (c < 3)%nat -> size <= 32 * 2 ^ Z.of_nat c -> exists p h', Some (cache_alloc c h) = Some (p, h') /\ same_layout h h' /\
    ((p = 0 /\ inv h' objs) \/ exists x, x ∉ objs /\ inv h' (x :: objs) /\ obj_ptr h' x = p /\ size <= obj_len h' x /\ 0 < p)) as Hcache.
  { intros c Hc Hsz. destruct (cache_alloc_spec h objs c Hinv Hc) as [[-> _]|(i & h' & -> & Hni & Hi & Hlay)].
    - exists 0, h. split; [done|]. split; [done|]. by left.
    - do 2 eexists. split; [reflexivity|]. split; [done|]. right. exists (OSlab c i). split; [done|]. split; [done|].
      destruct (Hlay (OSlab c i)) as [-> ->]. split; [done|]. simpl.
      destruct (hi_size _ _ _ _ Hinv c _ (cache_lookup _ _ _ _ Hinv c Hc)) as [-> _]. split; [done|].
      destruct (cache_region h objs c Hinv Hc) as (Hr & _). pose proof (Z.pow_nonneg 2 (Z.of_nat c) ltac:(lia)). nia. }
  destruct (Z.leb_spec size 32); [apply (Hcache 0%nat); [lia|simpl; lia]|].
  destruct (Z.leb_spec size 64); [apply (Hcache 1%nat); [lia|simpl; lia]|].
  destruct (Z.leb_spec size 128); [apply (Hcache 2%nat); [lia|simpl; lia]|].
  rewrite (u32_small (size + 12)) by (unfold is_u32; lia).
  destruct (size_to_order_spec (size + 12)) as (o & -> & Ho & Hle & _); [lia|]. cbn [mbind option_bind].
  assert (mkHeap (hp_buddy h) (hp_caches h) = h) as Eh by (by destruct h).
  destruct (decide (o <= MAX_ORDER)%nat) as [Hor|Hor].
  - destruct (big_alloc_spec h objs o Hinv Hor) as [->|(p & b & -> & Hp & Hni & Hi)]; cbn [mbind option_bind].
    + do 2 eexists. split; [reflexivity|]. rewrite Eh. split; [done|]. by left.
    + destruct (Z.eqb_spec p 0); [lia|]. do 2 eexists. split; [reflexivity|]. split; [apply layout_buddy|].
      right. exists (OBig p o). simpl. split; [done|]. split; [done|]. lia.
  - rewrite buddy_alloc_invalid.
    + cbn [mbind option_bind]. do 2 eexists. split; [reflexivity|]. rewrite Eh. split; [done|]. by left.
    + unfold buddy_valid_order. destruct (Z.leb_spec (Z.of_nat o) (Z.of_nat MAX_ORDER)); [lia|]. by rewrite andb_false_r.
Qed.

(** ** Freeing *)

(** The page of an object decides which cache [kfree] picks. *)
Lemma in_cache_spec h objs c w : inv h objs -> (c < 3)%nat ->
  in_cache w (cache_at c h) = bool_decide (sl_first_slot (cache_at c h) <= w < sl_first_slot (cache_at c h) + 4096).
Proof.
  intros Hinv Hc. destruct (cache_region h objs c Hinv Hc) as (H1 & H2 & H3). destruct (hi_buddy _ _ _ _ Hinv) as [L HL].
  unfold in_cache. rewrite u32_small by (unfold is_u32; lia).
  destruct (Z.leb_spec (sl_first_slot (cache_at c h)) w), (Z.ltb_spec w (sl_first_slot (cache_at c h) + 4096));
    case_bool_decide; try done; lia.
Qed.

(** An address inside a live block lies in the page of no other block. *)
Lemma other_page h objs x y w : inv h objs -> x ∈ slab_pages h ++ omap big objs -> y ∈ slab_pages h ++ omap big objs -> x <> y ->
  x.1 <= w < x.1 + block_bytes x.2 -> ~ (y.1 <= w < y.1 + block_bytes y.2).
Proof. intros Hinv Hx Hy Hne Hw Hw'. destruct (hi_buddy _ _ _ _ Hinv) as [L HL]. destruct (blocks_apart _ _ _ _ _ _ _ HL Hx Hy Hne); lia. Qed.

(** [kfree] of a slot finds its cache and its index. *)
Lemma find_cache_slab h objs c i : inv h objs -> OSlab c i ∈ objs -> find_idx (in_cache (obj_ptr h (OSlab c i))) (hp_caches h) = Some c.
Proof.
  intros Hinv Hx. destruct (hi_slots _ _ _ _ Hinv c i Hx) as [Hc Hi]. pose proof (cache_lookup _ _ _ _ Hinv c Hc) as Hs.
  destruct (obj_in_block _ _ _ _ Hinv _ Hx) as (Hb & Hr1 & Hr2). pose proof (cache_size _ _ _ _ Hinv c Hc). simpl in Hr1, Hr2.
  change (block_bytes 0) with 4096 in *.
  destruct (find_idx _ (hp_caches h)) as [d|] eqn:E.
  - apply find_idx_Some in E as (s & Hd & Hp & _). destruct (decide (d = c)) as [->|Hne]; [done|]. exfalso.
    assert (d < 3)%nat as Hd3 by (apply lookup_lt_Some in Hd; by rewrite (hi_caches _ _ _ _ Hinv) in Hd).
    pose proof (cache_lookup _ _ _ _ Hinv d Hd3) as Hd'. rewrite Hd in Hd'. injection Hd' as ->.
    rewrite (in_cache_spec h objs d) in Hp by done. apply bool_decide_eq_true in Hp.
    destruct (hi_buddy _ _ _ _ Hinv) as [L HL]. pose proof (live_nodup _ _ _ _ _ HL) as Hnd. apply list.NoDup_app in Hnd as (Hnd & _ & _).
    apply (other_page h objs (obj_block h (OSlab c i)) (sl_first_slot (cache_at d h), 0%nat) (obj_ptr h (OSlab c i)) Hinv Hb); try done.
    + apply elem_of_app. left. by eapply slab_page_in.
    + simpl. intros [= E]. apply Hne. apply (NoDup_lookup _ d c (sl_first_slot (cache_at d h), 0%nat) Hnd); unfold slab_pages;
        rewrite list_lookup_fmap; [by rewrite Hd|]. rewrite Hs. simpl. by rewrite <- E.
    + simpl. change (block_bytes 0) with 4096. lia.
  - exfalso. rewrite find_idx_None in E. specialize (E c _ Hs). rewrite (in_cache_spec h objs c) in E by done.
    apply bool_decide_eq_false in E. apply E. simpl. lia.
Qed.

Lemma find_cache_big h objs a o : inv h objs -> OBig a o ∈ objs -> find_idx (in_cache (a + 12)) (hp_caches h) = None.
Proof.
  intros Hinv Hx. apply find_idx_None. intros d s Hd.
  assert (d < 3)%nat as Hd3 by (apply lookup_lt_Some in Hd; by rewrite (hi_caches _ _ _ _ Hinv) in Hd).
  pose proof (cache_lookup _ _ _ _ Hinv d Hd3) as Hd'. rewrite Hd in Hd'. injection Hd' as ->.
  rewrite (in_cache_spec h objs d) by done. apply bool_decide_eq_false.
  destruct (big_aligned h objs a o Hinv Hx) as [_ Hbb]. destruct (obj_in_block _ _ _ _ Hinv _ Hx) as (Hb & _).
  apply (other_page h objs (a, o) (sl_first_slot (cache_at d h), 0%nat) (a + 12) Hinv Hb).
  - apply elem_of_app. left. by eapply slab_page_in.
  - intros E. destruct (hi_buddy _ _ _ _ Hinv) as [L HL]. pose proof (live_nodup _ _ _ _ _ HL) as Hnd.
    apply list.NoDup_app in Hnd as (_ & Hn2 & _). apply (Hn2 (a, o)); [rewrite E; by eapply slab_page_in|by apply elem_of_bigs].
  - simpl. lia.
Qed.

Lemma slab_index h objs c i : inv h objs -> OSlab c i ∈ objs ->
  s32 ((obj_ptr h (OSlab c i) -32 sl_first_slot (cache_at c h)) / sl_size (cache_at c h)) = Z.of_nat i.
Proof.
  intros Hinv Hx. destruct (hi_slots _ _ _ _ Hinv c i Hx) as [Hc Hi]. pose proof (cache_size _ _ _ _ Hinv c Hc). simpl.
  replace (sl_first_slot (cache_at c h) + Z.of_nat i * sl_size (cache_at c h) - sl_first_slot (cache_at c h))
    with (Z.of_nat i * sl_size (cache_at c h)) by lia.
  rewrite u32_small by (unfold is_u32; nia). rewrite Z.div_mul by lia. unfold s32. rewrite u32_small by (unfold is_u32; lia).
  destruct (Z.ltb_spec (Z.of_nat i) 2147483648); lia.
Qed.

Lemma kfree_spec h objs x : inv h (x :: objs) ->
  exists h', kfree_unlocked (obj_ptr h x) h = Some h' /\ inv h' objs /\ same_layout h h'.
Proof.
  intros Hinv. assert (x ∈ x :: objs) as Hx by left. pose proof (hi_nodup _ _ _ _ Hinv) as Hnd.
  apply NoDup_cons_1_1 in Hnd as Hni. apply NoDup_cons_1_2 in Hnd as Hnd'.
  unfold kfree_unlocked. destruct x as [c i|a o].
  - destruct (hi_slots _ _ _ _ Hinv c i Hx) as [Hc Hi]. pose proof (cache_size _ _ _ _ Hinv c Hc) as Hz.
    pose proof (cache_lookup _ _ _ _ Hinv c Hc) as Hs. destruct (cache_region h _ c Hinv Hc) as (Hr & _).
    destruct (Z.eqb_spec (obj_ptr h (OSlab c i)) 0) as [E0|_]; [simpl in E0; nia|].
    rewrite (find_cache_slab h _ c i Hinv Hx). eexists. split; [reflexivity|].
    rewrite (alter_insert _ _ _ _ Hs). unfold slab_free. rewrite (slab_index h _ c i Hinv Hx).
    destruct (Z.ltb_spec (Z.of_nat i) 0), (Z.leb_spec (Z.of_nat SLAB_SLOTS_PER_CACHE) (Z.of_nat i));
      try (unfold SLAB_SLOTS_PER_CACHE in *; lia). cbn [orb]. cbv iota.
    destruct (hi_size _ _ _ _ Hinv c _ Hs) as [_ Hbm]. split; [|by apply layout_cache].
    apply (heap_inv_bitmap h (OSlab c i :: objs) objs c (cache_at c h)); [done|done|by apply clear_bit_range|done|done| | |].
    + intros d j Hj. apply (hi_slots _ _ _ _ Hinv). by right.
    + intros j Hj. rewrite clear_bit_spec, (hi_bits _ _ _ _ Hinv c _ j Hs Hj). repeat case_bool_decide; simplify_eq/=; set_solver.
    + intros d j Hd. rewrite elem_of_cons. naive_solver.
  - destruct (big_aligned h _ a o Hinv Hx) as [Hal Hbb]. destruct (hi_buddy _ _ _ _ Hinv) as [L HL].
    pose proof (bi_region _ _ _ _ _ HL) as (Hb0 & _). pose proof (bi_ok _ _ _ _ _ HL) as Hok. rewrite Forall_forall in Hok.
    destruct (Hok (a, o)) as [_ _ [Hr _]]; [apply list_elem_of_In; rewrite !elem_of_app; left; right; by apply elem_of_bigs|].
    simpl in Hr. cbn [obj_ptr]. destruct (Z.eqb_spec (a + 12) 0); [lia|]. rewrite (find_cache_big h _ a o Hinv Hx).
    unfold HEADER_SIZE. replace (a + 12 - 12) with a by lia. destruct (hi_headers _ _ _ _ Hinv a o Hx) as [-> ->].
    cbn [mbind option_bind]. rewrite Z.eqb_refl. cbn [negb]. cbv iota.
    assert (buddy_inv base k0 (hp_buddy h) L ((a, o) :: slab_pages h ++ omap big objs)) as Hi.
    { eapply inv_relive; [|exact HL]. simpl. by rewrite Permutation_middle. }
    destruct (buddy_free_spec base k0 _ L _ a o Hi) as (b' & L' & -> & Hi' & Hlk). cbn [mbind option_bind].
    eexists. split; [reflexivity|]. split; [|apply layout_buddy].
    apply (heap_inv_buddy h (OBig a o :: objs) objs b' L' Hinv Hi' Hnd').
    + intros c i. rewrite elem_of_cons. naive_solver.
    + intros a' o' Ha'. assert (OBig a' o' ∈ OBig a o :: objs) as Hin by (by right).
      destruct (big_aligned h _ a' o' Hinv Hin) as [Hal' _]. rewrite !Hlk by (by apply header_word).
      by apply (hi_headers _ _ _ _ Hinv).
Qed.

(** ** Writing into an object *)

Lemma heap_write_spec h objs x w v : inv h objs -> x ∈ objs -> obj_ptr h x <= w < obj_ptr h x + obj_len h x ->
  inv (mkHeap (store_word w v (hp_buddy h)) (hp_caches h)) objs.
Proof.
  intros Hinv Hx Hw. destruct (obj_in_block _ _ _ _ Hinv _ Hx) as (Hb & Hr1 & Hr2). destruct (hi_buddy _ _ _ _ Hinv) as [L HL].
  apply (heap_inv_buddy h objs objs _ L Hinv); [|apply Hinv|done|].
  - destruct (obj_block h x) as [a o]. simpl in *. eapply inv_write; [exact HL|exact Hb|lia].
  - intros a o Ha. simpl. destruct (hi_headers _ _ _ _ Hinv a o Ha) as [E1 E2]. destruct (big_aligned h objs a o Hinv Ha) as [_ Hbb].
    assert (forall d, 0 <= d < 12 -> w <> a + d) as Hne.
    { intros d Hd ->. destruct (decide (x = OBig a o)) as [->|Hne]; [simpl in Hw; lia|].
      destruct (obj_blocks_differ _ _ _ _ Hinv x (OBig a o) Hx Ha Hne) as [Hdiff|(? & ? & ? & _ & [=] & _)].
      apply (other_page h objs (obj_block h x) (a, o) (a + d) Hinv Hb); [|done|lia|simpl; lia].
      apply elem_of_app. right. by apply elem_of_bigs. }
    rewrite !lookup_insert_ne by (apply Hne; lia). done.
Qed.
End Requests.

(** ** Runs of the heap *)

(** Setting up the caches over a buddy allocator whose blocks are all free. *)
Lemma slab_init_spec base k0 size b L live s b' : buddy_inv base k0 b L live -> slab_init size b = Some (s, b') -> sl_first_slot s <> 0 ->
  sl_bitmap s = 0 /\ sl_size s = size /\ exists L', buddy_inv base k0 b' L' ((sl_first_slot s, 0%nat) :: live).
Proof.
  intros Hinv E Hne. unfold slab_init in E.
  destruct (buddy_alloc_spec base k0 b L live 0 Hinv) as [[E' _]|(p & b1 & L' & E' & _ & Hi & _)]; [unfold MAX_ORDER; lia| |];
    change (Z.of_nat 0) with 0 in E'; rewrite E' in E; cbn [mbind option_bind] in E; simplify_eq/=. eauto.
Qed.

Lemma slab_init_all_spec base k0 b L h : buddy_inv base k0 b L [] -> slab_init_all b = Some h ->
  Forall (fun s => sl_first_slot s <> 0) (hp_caches h) -> heap_inv base k0 h [].
Proof.
  intros Hinv E Hne. unfold slab_init_all in E.
  destruct (slab_init 64 b) as [[c64 b1]|] eqn:E1; [|done]. cbn [mbind option_bind] in E.
  destruct (slab_init 128 b1) as [[c128 b2]|] eqn:E2; [|done]. cbn [mbind option_bind] in E.
  destruct (slab_init 32 b2) as [[c32 b3]|] eqn:E3; [|done]. cbn [mbind option_bind] in E. injection E as <-. simpl in Hne.
  apply Forall_cons_1 in Hne as [N1 [N2 [N3 _]%Forall_cons_1]%Forall_cons_1].
  destruct (slab_init_spec _ _ _ _ _ _ _ _ Hinv E1 N2) as (B1 & S1 & L1 & I1).
  destruct (slab_init_spec _ _ _ _ _ _ _ _ I1 E2 N3) as (B2 & S2 & L2 & I2).
  destruct (slab_init_spec _ _ _ _ _ _ _ _ I2 E3 N1) as (B3 & S3 & L3 & I3).
  split; simpl; [done| | |constructor| |set_solver|set_solver].
  - intros [|[|[|c]]] s [= <-]; rewrite ?B1, ?B2, ?B3, ?S1, ?S2, ?S3; (split; [done|unfold is_u32; lia]).
  - exists L3. eapply inv_relive; [|exact I3]. cbn. apply Permutation_skip, Permutation_swap.
  - intros [|[|[|c]]] s i [= <-] _; rewrite ?B1, ?B2, ?B3, Z.testbit_0_l; symmetry; apply bool_decide_eq_false; set_solver.
Qed.

Lemma heap_inv_perm base k0 h objs objs' : objs ≡ₚ objs' -> heap_inv base k0 h objs -> heap_inv base k0 h objs'.
Proof.
  intros E [H1 H2 [L H3] H4 H5 H6 H7]. split; [done|done| |by rewrite <- E| | |].
  - exists L. eapply inv_relive; [|exact H3]. by rewrite E.
  - intros c s i Hs Hi. rewrite (H5 c s i Hs Hi). apply bool_decide_ext. by rewrite E.
  - intros c i. rewrite <- E. apply H6.
  - intros a o. rewrite <- E. apply H7.
Qed.

(** What callers may do: ask for up to 2 GiB less the header, free a region they
    hold, and write to a word of a region they hold.  A region is the pointer
    [kmalloc] returned with the size it was asked for. *)
Inductive heap_step : heap * list (Z * Z) -> heap * list (Z * Z) -> Prop :=
  | hs_alloc size h h' p live : 0 <= size <= 2147483636 -> kmalloc_raw size h = Some (p, h') -> p <> 0 ->
      heap_step (h, live) (h', (p, size) :: live)
  | hs_full size h h' live : 0 <= size <= 2147483636 -> kmalloc_raw size h = Some (0, h') -> heap_step (h, live) (h', live)
  | hs_free h h' i p size live : live !! i = Some (p, size) -> kfree_raw p h = Some h' -> heap_step (h, live) (h', delete i live)
  | hs_write h p size w v live : (p, size) ∈ live -> p <= w < p + size ->
      heap_step (h, live) (mkHeap (store_word w v (hp_buddy h)) (hp_caches h), live).

Definition holds (h : heap) (x : obj) (r : Z * Z) : Prop := obj_ptr h x = r.1 /\ r.2 <= obj_len h x.

Section Runs.
Context (base : Z) (k0 : nat).

Definition run_inv (st : heap * list (Z * Z)) : Prop :=
  exists objs, heap_inv base k0 st.1 objs /\ Forall2 (holds st.1) objs st.2.

Lemma holds_layout h h' objs live : same_layout h h' -> Forall2 (holds h) objs live -> Forall2 (holds h') objs live.
Proof. intros Hl. apply Forall2_impl. intros x r [? ?]. destruct (Hl x) as [E1 E2]. split; congruence. Qed.

Lemma heap_step_inv st st' : heap_step st st' -> run_inv st -> run_inv st'.
Proof.
  intros [size h h' p live Hs E Hp|size h h' live Hs E|h h' i p size live Hi E|h p size w v live Hin Hw] (objs & Hinv & Hh); simpl in *.
  - destruct (kmalloc_spec base k0 h objs size Hinv Hs) as (p' & h1 & E' & Hl & [[-> _]|(x & _ & Hi & Hx & Hz & _)]);
      unfold kmalloc_raw in E; simplify_eq; try done. exists (x :: objs). split; [done|]. constructor; [by split|by eapply holds_layout].
  - destruct (kmalloc_spec base k0 h objs size Hinv Hs) as (p' & h1 & E' & Hl & [[-> Hi]|(x & _ & Hi & Hx & Hz & ?)]);
      unfold kmalloc_raw in E; simplify_eq; [|lia]. exists objs. split; [done|by eapply holds_layout].
  - destruct (Forall2_lookup_r _ _ _ _ _ Hh Hi) as (x & Hx & Hpx & _). simpl in Hpx.
    assert (heap_inv base k0 h (x :: delete i objs)) as Hi' by (eapply heap_inv_perm; [by apply delete_Permutation|done]).
    destruct (kfree_spec base k0 h _ _ Hi') as (h1 & E' & Hi1 & Hl). rewrite Hpx in E'. unfold kfree_raw in E. simplify_eq.
    exists (delete i objs). split; [done|]. eapply holds_layout; [done|]. by apply Forall2_delete.
  - apply list_elem_of_lookup in Hin as [i Hi]. destruct (Forall2_lookup_r _ _ _ _ _ Hh Hi) as (x & Hx & Hpx & Hsz). simpl in *.
    exists objs. split; [|exact Hh].
    eapply heap_write_spec; [done|by eapply list_elem_of_lookup_2|]. lia.
Qed.

Lemma heap_run_inv st st' : rtc heap_step st st' -> run_inv st -> run_inv st'.
Proof. induction 1; eauto using heap_step_inv. Qed.
End Runs.

(** C34: the heap hands out disjoint memory.  Boot it over a range of memory above 0 and
    up to 2 GiB in which a page fits, with a page for each of the three caches, then let
    callers allocate, free what they hold and write to what they hold, in any order: two
    regions held at the same time never overlap and have different addresses; a request of
    up to 2 GiB less the header always returns, with NULL or with a region; and every
    region held can be freed. *)
Theorem kheap_contract start end_ mem h0 h live :
  0 < start -> start <= 2147483648 -> end_ <= 2147483648 -> (exists c, fits start end_ 0 c) ->
  slab_init_all (buddy_init start end_ mem) = Some h0 -> Forall (fun s => sl_first_slot s <> 0) (hp_caches h0) ->
  rtc heap_step (h0, []) (h, live) ->
  (forall i j p n q m, live !! i = Some (p, n) -> live !! j = Some (q, m) -> i <> j -> p <> q /\ (p + n <= q \/ q + m <= p)) /\
  (forall size, 0 <= size <= 2147483636 -> is_Some (kmalloc_raw size h)) /\
  (forall p n, (p, n) ∈ live -> is_Some (kfree_raw p h)).
Proof.
  intros Hs Hs2 He [c0 Hfit] E Hne Hr.
  destruct (buddy_init_spec start end_ mem Hs Hs2 He) as [(base & k0 & Hi0 & _)|[Hno _]]; [|by apply Hno in Hfit; [|lia]].
  assert (run_inv base k0 (h, live)) as (objs & Hinv & Hh).
  { eapply heap_run_inv; [exact Hr|]. exists []. split; [by eapply slab_init_all_spec|constructor]. }
  simpl in *. split; [|split].
  - intros i j p n q m Hi Hj Hij.
    destruct (Forall2_lookup_r _ _ _ _ _ Hh Hi) as (x & Hx & Hpx & Hnx), (Forall2_lookup_r _ _ _ _ _ Hh Hj) as (y & Hy & Hpy & Hny).
    simpl in *. assert (x <> y) as Hxy by (intros ->; by apply Hij, (NoDup_lookup objs i j y (hi_nodup _ _ _ _ Hinv))).
    apply list_elem_of_lookup_2 in Hx, Hy. pose proof (obj_len_pos base k0 h objs Hinv x Hx). pose proof (obj_len_pos base k0 h objs Hinv y Hy).
    destruct (objs_apart base k0 h objs Hinv x y Hx Hy Hxy); lia.
  - intros size Hsz. destruct (kmalloc_spec base k0 h objs size Hinv Hsz) as (p & h' & E' & _). unfold kmalloc_raw. rewrite E'. eauto.
  - intros p n [i Hi]%list_elem_of_lookup. destruct (Forall2_lookup_r _ _ _ _ _ Hh Hi) as (x & Hx & Hpx & _). simpl in Hpx.
    destruct (kfree_spec base k0 h (delete i objs) x) as (h' & E' & _); [eapply heap_inv_perm; [by apply delete_Permutation|done]|].
    rewrite Hpx in E'. unfold kfree_raw. rewrite E'. eauto.
Qed.

(** Boot over 64 KiB, then a small and a large allocation. *)
Definition demo_kheap : heap := default (mkHeap demo_heap []) (slab_init_all demo_heap).
Definition demo_k1 : heap := from_option snd demo_kheap (kmalloc_raw 20 demo_kheap).
Definition demo_k2 : heap := from_option snd demo_kheap (kmalloc_raw 5000 demo_k1).

Lemma demo_kheap_run : exists p q, rtc heap_step (demo_kheap, []) (demo_k2, [(q, 5000); (p, 20)]).
Proof.
  exists (from_option fst 0 (kmalloc_raw 20 demo_kheap)), (from_option fst 0 (kmalloc_raw 5000 demo_k1)).
  eapply rtc_l; [apply (hs_alloc 20 demo_kheap demo_k1); [lia|vm_compute; reflexivity|vm_compute; done]|].
  eapply rtc_l; [apply (hs_alloc 5000 demo_k1 demo_k2); [lia|vm_compute; reflexivity|vm_compute; done]|apply rtc_refl].
Qed.

Lemma kheap_contract_witness : exists p q, rtc heap_step (demo_kheap, []) (demo_k2, [(q, 5000); (p, 20)]) /\ (q + 5000 <= p \/ p + 20 <= q).
Proof.
  destruct demo_kheap_run as (p & q & H). exists p, q. split; [exact H|].
  refine (proj2 (proj1 (kheap_contract 1048576 1114112 ∅ demo_kheap demo_k2 _ ltac:(lia) ltac:(lia) ltac:(lia) demo_fits _ _ H) 0%nat 1%nat q 5000 p 20 eq_refl eq_refl ltac:(lia))).
  - vm_compute. reflexivity.
  - vm_compute. repeat constructor; discriminate.
Defined.

(** A request of nearly 4 GiB wraps when the header is added: the caller gets a
    4096-byte block. *)
Lemma kmalloc_overflow : exists p h', kmalloc_raw 0xFFFFFFFF demo_kheap = Some (p, h') /\ p <> 0 /\
  bd_mem (hp_buddy h') !! (p - 4) = Some 0.
Proof. do 2 eexists. split; [vm_compute; reflexivity|]. split; [done|]. vm_compute. reflexivity. Qed.
