(* ===== verification/StateMonad.v ===== *)
(** * State with faults

    The monad of the components that thread a large state through many calls:
    a computation takes a state and returns a result with the next state, or
    [None] when the code would touch memory it must not touch or never return. *)

From S2P Require Import Prelude.

Definition ST (S A : Type) : Type := S -> option (A * S).

#[global] Instance ST_ret S : MRet (ST S) := fun _ a s => Some (a, s).
#[global] Instance ST_bind S : MBind (ST S) := fun _ _ k m s =>
  match m s with Some (a, s') => k a s' | None => None end.
#[global] Instance ST_fmap S : FMap (ST S) := fun _ _ f m s =>
  match m s with Some (a, s') => Some (f a, s') | None => None end.

Section state.
Context {S : Type}.

Definition fault {A} : ST S A := fun _ => None.
Definition gets {A} (f : S -> A) : ST S A := fun s => Some (f s, s).
Definition modify (f : S -> S) : ST S unit := fun s => Some (tt, f s).
Definition reads {A} (f : S -> option A) : ST S A := fun s => (fun a => (a, s)) <$> f s.

(** Running a computation one step at a time. *)
Lemma run_bind {A B} (m : ST S A) (k : A -> ST S B) s a s' : m s = Some (a, s') -> (m ≫= k) s = k a s'.
Proof. intros Hm. unfold mbind, ST_bind. by rewrite Hm. Qed.
Lemma run_ret {A B} (a : A) (k : A -> ST S B) s : (mret a ≫= k) s = k a s.
Proof. done. Qed.
Lemma run_gets {A B} (f : S -> A) (k : A -> ST S B) s : (gets f ≫= k) s = k (f s) s.
Proof. done. Qed.
Lemma run_modify {B} f (k : unit -> ST S B) s : (modify f ≫= k) s = k tt (f s).
Proof. done. Qed.
Lemma run_reads {A B} (f : S -> option A) (k : A -> ST S B) s a : f s = Some a -> (reads f ≫= k) s = k a s.
Proof. intros Hf. unfold mbind, ST_bind, reads. by rewrite Hf. Qed.
Lemma run_assoc {A B C} (m : ST S A) (f : A -> ST S B) (g : B -> ST S C) s :
  ((m ≫= f) ≫= g) s = (m ≫= fun a => f a ≫= g) s.
Proof. unfold mbind, ST_bind. by destruct (m s) as [[a s']|]. Qed.
End state.
