(* ===== verification/Vfs.v ===== *)
(** * The virtual file system

    [kernel/VFS/vfs.c], [kernel/VFS/RAMFS.c], [kernel/Dev/dev.c] and
    [Drivers/tty.c]: directory entries with their hash buckets, inodes, the
    in-memory files, the device table, the open files and each task's
    descriptor table.

    A pointer is [option nat], [None] being NULL; every [kmalloc_raw] of the
    file system names a fresh object, and the object is an entry of the map of
    its type until [kfree_raw].  A read through NULL or through a freed object,
    an access past a buffer, and a loop that does not end are [None] of the
    monad [M].  A C string is the list of its characters before the
    terminator. *)

From stdpp Require Import gmap.
From S2P Require Import Prelude StateMonad SlotTable.

#[local] Open Scope Z_scope.

Definition VFS_FILE : Z := 1.
Definition VFS_DIR : Z := 2.
Definition VFS_DEVICE : Z := 4.
Definition MAX_DEVICES : nat := 64.
Definition VFS_OK : Z := 0.
Definition VFS_ERR : Z := -1.
Definition DENTRY_HASH : nat := 32.
Definition READ_ONLY : Z := 1.
Definition WRITE_ONLY : Z := 2.
Definition READ_WRITE : Z := 3.
Definition CREAT : Z := 4.
Definition TASK_MAX_FDS : nat := 32.
Definition TASK_MAX_EVENTS : nat := 16.
Definition SLASH : Z := 47.
Definition PATH_BUF : nat := 256.

(** ** Data *)

(** The two operation tables a program can meet: [ramfs_ops] and [tty_ops]. *)
Inductive vfs_ops := ramfs_ops | tty_ops.

(** [char *name]: NULL, a string of the program text, or one from [strdup]. *)
Inductive name_ptr := NoName | Literal (s : list Z) | Strdup (s : list Z).

Record inode := Inode {
  i_size : Z; i_flags : Z; i_ref : Z;
  i_ops : option vfs_ops;
  i_private : option nat;
  i_created_tick : Z; i_created_pid : Z }.

(** [data] is a block of [capacity] bytes. *)
Record ramfs_inode := Ram { rm_data : list Z; rm_capacity : Z }.

Record dentry := Dentry {
  d_name : name_ptr;
  d_inode : option nat;
  d_parent : option nat;
  d_children : option nat;
  d_mount : option nat;          (* the root of the mounted tree *)
  d_bucket : list (option nat);
  d_next : option nat;           (* hash_next *)
  d_ref : Z }.

Record file := File {
  f_inode : option nat;
  f_dentry : option nat;
  f_offset : Z; f_flags : Z; f_ref : Z }.

Inductive task_event_type :=
  | EVT_CREATED | EVT_FIRST_RUN | EVT_EXEC | EVT_FD_OPEN | EVT_FD_CLOSE | EVT_FORKED
  | EVT_CHILD_DIED | EVT_FAULT | EVT_SIGNAL | EVT_BLOCKED | EVT_WOKE | EVT_EXITED
  | EVT_QUARANTINED.

Record task_event := Event { e_type : task_event_type; e_tick : Z; e_data : Z }.

(** What a [task_t] keeps for the file system. *)
Record io := Io {
  io_pid : Z;
  io_cwd : option nat;
  io_fds : list (option nat);
  io_events : list task_event }.

Record vfs := Vfs {
  v_dentries : gmap nat dentry;
  v_inodes : gmap nat inode;
  v_rams : gmap nat ramfs_inode;
  v_files : gmap nat file;
  v_root : option nat;
  v_devfs_root : option nat;
  v_devfs_table : list (list Z * nat);
  v_tasks : gmap nat io;
  v_current : nat;
  v_fresh : nat;
  v_typed : nat;                 (* characters taken from the keyboard *)
  v_screen : list Z;
  v_ticks : Z }.

(** What the file system uses of the heap and the keyboard: whether the [n]-th
    allocation is granted, what a granted block holds, and the [n]-th
    character typed. *)
Inductive alloc_kind := AStruct | AString | AData.
Class Machine := {
  grants : alloc_kind -> nat -> bool;
  junk : nat -> nat -> Z;
  stray : nat -> option nat;
  typed : nat -> Z }.

(** ** The monad *)

Notation M := (ST vfs).

Definition set_dentries (f : gmap nat dentry -> gmap nat dentry) (s : vfs) : vfs :=
  Vfs (f (v_dentries s)) (v_inodes s) (v_rams s) (v_files s) (v_root s) (v_devfs_root s)
    (v_devfs_table s) (v_tasks s) (v_current s) (v_fresh s) (v_typed s) (v_screen s) (v_ticks s).
Definition set_inodes (f : gmap nat inode -> gmap nat inode) (s : vfs) : vfs :=
  Vfs (v_dentries s) (f (v_inodes s)) (v_rams s) (v_files s) (v_root s) (v_devfs_root s)
    (v_devfs_table s) (v_tasks s) (v_current s) (v_fresh s) (v_typed s) (v_screen s) (v_ticks s).
Definition set_rams (f : gmap nat ramfs_inode -> gmap nat ramfs_inode) (s : vfs) : vfs :=
  Vfs (v_dentries s) (v_inodes s) (f (v_rams s)) (v_files s) (v_root s) (v_devfs_root s)
    (v_devfs_table s) (v_tasks s) (v_current s) (v_fresh s) (v_typed s) (v_screen s) (v_ticks s).
Definition set_files (f : gmap nat file -> gmap nat file) (s : vfs) : vfs :=
  Vfs (v_dentries s) (v_inodes s) (v_rams s) (f (v_files s)) (v_root s) (v_devfs_root s)
    (v_devfs_table s) (v_tasks s) (v_current s) (v_fresh s) (v_typed s) (v_screen s) (v_ticks s).
Definition set_tasks (f : gmap nat io -> gmap nat io) (s : vfs) : vfs :=
  Vfs (v_dentries s) (v_inodes s) (v_rams s) (v_files s) (v_root s) (v_devfs_root s)
    (v_devfs_table s) (f (v_tasks s)) (v_current s) (v_fresh s) (v_typed s) (v_screen s) (v_ticks s).
Definition set_root (r : option nat) (s : vfs) : vfs :=
  Vfs (v_dentries s) (v_inodes s) (v_rams s) (v_files s) r (v_devfs_root s)
    (v_devfs_table s) (v_tasks s) (v_current s) (v_fresh s) (v_typed s) (v_screen s) (v_ticks s).
Definition set_devfs (r : option nat) (t : list (list Z * nat)) (s : vfs) : vfs :=
  Vfs (v_dentries s) (v_inodes s) (v_rams s) (v_files s) (v_root s) r
    t (v_tasks s) (v_current s) (v_fresh s) (v_typed s) (v_screen s) (v_ticks s).
Definition set_current (c : nat) (s : vfs) : vfs :=
  Vfs (v_dentries s) (v_inodes s) (v_rams s) (v_files s) (v_root s) (v_devfs_root s)
    (v_devfs_table s) (v_tasks s) c (v_fresh s) (v_typed s) (v_screen s) (v_ticks s).
Definition set_fresh (n : nat) (s : vfs) : vfs :=
  Vfs (v_dentries s) (v_inodes s) (v_rams s) (v_files s) (v_root s) (v_devfs_root s)
    (v_devfs_table s) (v_tasks s) (v_current s) n (v_typed s) (v_screen s) (v_ticks s).
Definition set_console (n : nat) (out : list Z) (s : vfs) : vfs :=
  Vfs (v_dentries s) (v_inodes s) (v_rams s) (v_files s) (v_root s) (v_devfs_root s)
    (v_devfs_table s) (v_tasks s) (v_current s) (v_fresh s) n out (v_ticks s).

Definition get_dentry (p : option nat) : M dentry := reads (fun s => p ≫= fun x => v_dentries s !! x).
Definition get_inode (p : option nat) : M inode := reads (fun s => p ≫= fun x => v_inodes s !! x).
Definition get_ram (p : option nat) : M ramfs_inode := reads (fun s => p ≫= fun x => v_rams s !! x).
Definition get_file (p : option nat) : M file := reads (fun s => p ≫= fun x => v_files s !! x).
Definition current : M io := reads (fun s => v_tasks s !! v_current s).

Definition put_dentry (x : nat) (d : dentry) : M unit := modify (set_dentries (insert x d)).
Definition put_inode (x : nat) (i : inode) : M unit := modify (set_inodes (insert x i)).
Definition put_ram (x : nat) (r : ramfs_inode) : M unit := modify (set_rams (insert x r)).
Definition put_file (x : nat) (f : file) : M unit := modify (set_files (insert x f)).
Definition put_current (t : io) : M unit := fun s => Some (tt, set_tasks (insert (v_current s) t) s).

(** [kfree_raw] of an object that is not allocated is a fault. *)
Definition free_dentry (x : nat) : M unit := _ ← get_dentry (Some x); modify (set_dentries (delete x)).
Definition free_inode (x : nat) : M unit := _ ← get_inode (Some x); modify (set_inodes (delete x)).
Definition free_ram (x : nat) : M unit := _ ← get_ram (Some x); modify (set_rams (delete x)).
Definition free_file (x : nat) : M unit := _ ← get_file (Some x); modify (set_files (delete x)).
(** [if (name) kfree_raw(name)]: a literal is not a heap block. *)
Definition free_name (n : name_ptr) : M unit :=
  match n with Literal _ => fault | _ => mret tt end.

Definition name_chars (n : name_ptr) : option (list Z) :=
  match n with NoName => None | Literal s | Strdup s => Some s end.

(** Record updates. *)
Definition inode_set_size (i : inode) (n : Z) : inode :=
  Inode n (i_flags i) (i_ref i) (i_ops i) (i_private i) (i_created_tick i) (i_created_pid i).
Definition inode_set_ref (i : inode) (n : Z) : inode :=
  Inode (i_size i) (i_flags i) n (i_ops i) (i_private i) (i_created_tick i) (i_created_pid i).
Definition inode_set_ops (i : inode) (o : option vfs_ops) : inode :=
  Inode (i_size i) (i_flags i) (i_ref i) o (i_private i) (i_created_tick i) (i_created_pid i).
Definition dentry_set_bucket (d : dentry) (b : nat) (p : option nat) : dentry :=
  Dentry (d_name d) (d_inode d) (d_parent d) (d_children d) (d_mount d) (<[b := p]> (d_bucket d))
    (d_next d) (d_ref d).
Definition dentry_set_next (d : dentry) (p : option nat) : dentry :=
  Dentry (d_name d) (d_inode d) (d_parent d) (d_children d) (d_mount d) (d_bucket d) p (d_ref d).
Definition dentry_set_mount (d : dentry) (p : option nat) : dentry :=
  Dentry (d_name d) (d_inode d) (d_parent d) (d_children d) p (d_bucket d) (d_next d) (d_ref d).
Definition file_set_offset (f : file) (n : Z) : file :=
  File (f_inode f) (f_dentry f) n (f_flags f) (f_ref f).
Definition file_set_ref (f : file) (n : Z) : file :=
  File (f_inode f) (f_dentry f) (f_offset f) (f_flags f) n.
Definition io_set_cwd (t : io) (p : option nat) : io := Io (io_pid t) p (io_fds t) (io_events t).
Definition io_set_fd (t : io) (i : nat) (p : option nat) : io :=
  Io (io_pid t) (io_cwd t) (<[i := p]> (io_fds t)) (io_events t).

(** [memset(d, 0, sizeof *d)] of a directory entry and an inode. *)
Definition dentry_zero : dentry :=
  Dentry NoName None None None None (replicate DENTRY_HASH None) None 0.
Definition inode_zero : inode := Inode 0 0 0 None None 0 0.

(** [tasklife.c]: the log of a task stops when it is full. *)
Definition task_log_event (now : Z) (t : io) (type : task_event_type) (data : Z) : io :=
  if (TASK_MAX_EVENTS <=? length (io_events t))%nat then t
  else Io (io_pid t) (io_cwd t) (io_fds t) (io_events t ++ [Event type now data]).

(** ** Strings and paths *)

Fixpoint skip_slash (p : list Z) : list Z :=
  match p with
  | c :: p' => if c =? SLASH then skip_slash p' else p
  | [] => []
  end.

(** [while ( *p && *p != '/') p++]: the segment at the front, and the rest. *)
Fixpoint span_seg (p : list Z) : list Z * list Z :=
  match p with
  | c :: p' => if c =? SLASH then ([], p) else let '(seg, rest) := span_seg p' in (c :: seg, rest)
  | [] => ([], [])
  end.

Fixpoint match_seg (name start : list Z) (len : nat) : bool :=
  match name, len with
  | [], O => true
  | n :: name', S len' =>
      match start with
      | c :: start' => if n =? c then match_seg name' start' len' else false
      | [] => false
      end
  | _, _ => false
  end.

(** [*name] is a [char], which is signed. *)
Definition char_val (c : Z) : Z := if c <? 128 then c else c - 256.
Definition hash_step (hash c : Z) : Z := (hash *32 31) +32 char_val c.
Definition dentry_hash (name : list Z) : Z := foldl hash_step 0 name mod Z.of_nat DENTRY_HASH.

Fixpoint basename_from (last path : list Z) : list Z :=
  match path with
  | [] => last
  | c :: path' => basename_from (if c =? SLASH then path' else last) path'
  end.
Definition basename (path : list Z) : list Z := basename_from path path.

Fixpoint last_slash (i last : Z) (path : list Z) : Z :=
  match path with
  | [] => last
  | c :: path' => last_slash (i + 1) (if c =? SLASH then i else last) path'
  end.

(** The buffer [parent] has [PATH_BUF] bytes. *)
Definition parent_dirname (path : list Z) : option (list Z) :=
  let last := last_slash 0 VFS_ERR path in
  if last <=? 0 then Some [SLASH]
  else if Z.of_nat PATH_BUF <=? last then None
  else Some (take (Z.to_nat last) path).

Definition has_slash (path : list Z) : bool := existsb (fun c => c =? SLASH) path.

(** ** Path resolution *)

(** The [while (child)] loop: one entry of a hash chain a turn. *)
Fixpoint find_child (fuel : nat) (ds : gmap nat dentry) (start : list Z) (len : nat)
    (child : option nat) : option (option nat) :=
  match child with
  | None => Some None
  | Some x =>
      match fuel with
      | O => None
      | S fuel' =>
          d ← ds !! x;
          name ← name_chars (d_name d);
          if match_seg name start len then Some (Some x)
          else find_child fuel' ds start len (d_next d)
      end
  end.

Definition DOT : list Z := [46].
Definition DOTDOT : list Z := [46; 46].

Definition resolve_seg (s : vfs) (dir : option nat) (start seg : list Z) : option (option nat) :=
  let len := length seg in
  if (PATH_BUF <=? len)%nat then None
  else
    d ← dir ≫= fun x => v_dentries s !! x;
    child ← d_bucket d !! Z.to_nat (dentry_hash seg);
    if match_seg DOT start len then Some dir
    else if match_seg DOTDOT start len then
      Some (match d_parent d with Some _ => d_parent d | None => dir end)
    else
      ino ← d_inode d ≫= fun x => v_inodes s !! x;
      if Z.land (i_flags ino) VFS_DIR =? 0 then Some None
      else find_child (size (v_dentries s)) (v_dentries s) start len child.

Fixpoint resolve_loop (fuel : nat) (s : vfs) (dir : option nat) (p : list Z) : option (option nat) :=
  match fuel with
  | O => None
  | S fuel' =>
      match skip_slash p with
      | [] => Some dir
      | start =>
          let '(seg, rest) := span_seg start in
          dir' ← resolve_seg s dir start seg;
          match dir' with
          | None => Some None
          | Some _ => resolve_loop fuel' s dir' rest
          end
      end
  end.

Definition vfs_resolve_path (root : option nat) (path : list Z) : M (option nat) :=
  match root with
  | None => mret None
  | Some _ =>
      dir ← (if bool_decide (head path = Some SLASH) then mret root else io_cwd <$> current);
      reads (fun s => resolve_loop (S (length path)) s dir path)
  end.

Definition vfs_follow_mount (p : option nat) : M (option nat) :=
  match p with
  | None => mret None
  | Some _ => d ← get_dentry p; mret (match d_mount d with Some r => Some r | None => p end)
  end.

Definition vfs_lookup (root : option nat) (path : list Z) : M (option nat) :=
  node ← vfs_resolve_path root path; vfs_follow_mount node.

Definition resolve_parent_dir (path : list Z) : M (option nat * list Z) :=
  if negb (has_slash path) then t ← current; mret (io_cwd t, path)
  else
    parent_path ← reads (fun _ => parent_dirname path);
    root ← gets v_root;
    parent ← vfs_lookup root parent_path;
    mret (parent, basename path).

(** ** The in-memory files *)

Section machine.
Context `{Machine}.

Definition kmalloc (k : alloc_kind) : M (option nat) := fun s =>
  let n := v_fresh s in
  Some (if grants k n then Some n else None, set_fresh (S n) s).

Definition strdup (str : list Z) : M name_ptr :=
  p ← kmalloc AString; mret (match p with Some _ => Strdup str | None => NoName end).

Definition fresh_block (n : nat) (size : Z) : list Z := junk n <$> seq 0 (Z.to_nat size).

(** The doubling loop of [ramfs_expand]: 32 doublings of a 32-bit number reach
    [needed] or zero, and from zero it goes on for ever. *)
Fixpoint grow (fuel : nat) (new_cap needed : Z) : option Z :=
  if needed <=? new_cap then Some new_cap
  else match fuel with O => None | S fuel' => grow fuel' (new_cap *32 2) needed end.

Definition ramfs_expand (r : nat) (needed : Z) : M Z :=
  ram ← get_ram (Some r);
  if needed <=? rm_capacity ram then mret 0
  else
    new_cap ← reads (fun _ => grow 32 (rm_capacity ram) needed);
    p ← kmalloc AData;
    match p with
    | None => mret VFS_ERR
    | Some n =>
        new_data ← reads (fun _ => wr (fresh_block n new_cap) 0 (take (Z.to_nat (rm_capacity ram)) (rm_data ram)));
        put_ram r (Ram new_data new_cap) ≫= fun _ =>
        mret VFS_OK
    end.

(** The result, and the bytes copied to [buffer]. *)
Definition ramfs_read (dent : option nat) (offset sz : Z) : M (Z * list Z) :=
  d ← get_dentry dent;
  ino ← get_inode (d_inode d);
  match i_private ino with
  | None => mret (u32 (-1), [])
  | Some r =>
      if i_size ino <? offset then mret (0, [])
      else
        let sz := if i_size ino <? offset +32 sz then i_size ino -32 offset else sz in
        ram ← get_ram (Some r);
        out ← reads (fun _ => slice (rm_data ram) (Z.to_nat offset) (Z.to_nat sz));
        mret (sz, out)
  end.

Definition ramfs_write (dent : option nat) (offset : Z) (buffer : list Z) : M Z :=
  let sz := zlen buffer in
  d ← get_dentry dent;
  ino ← get_inode (d_inode d);
  match i_private ino with
  | None => mret (u32 (-1))
  | Some r =>
      ram ← get_ram (Some r);
      grown ← (if rm_capacity ram <? offset +32 sz then ramfs_expand r (offset +32 sz) else mret 0);
      if grown <? 0 then mret (u32 (-1))
      else
        ram ← get_ram (Some r);
        data ← reads (fun _ => wr (rm_data ram) (Z.to_nat offset) buffer);
        put_ram r (Ram data (rm_capacity ram)) ≫= fun _ =>
        (match d_inode d with
         | Some i => if i_size ino <? offset +32 sz then put_inode i (inode_set_size ino (offset +32 sz))
                     else mret tt
         | None => fault
         end) ≫= fun _ => mret sz
  end.

(** [child->hash_next = parent->hash_bucket[b]; parent->hash_bucket[b] = child]. *)
Definition hang (child : nat) (d : dentry) (parent : nat) (bucket : Z) : M unit :=
  par ← get_dentry (Some parent);
  old ← reads (fun _ => d_bucket par !! Z.to_nat bucket);
  put_dentry child (dentry_set_next d old) ≫= fun _ =>
  put_dentry parent (dentry_set_bucket par (Z.to_nat bucket) (Some child)).

(** [current_task ? current_task->pid : 0]. *)
Definition current_pid (s : vfs) : Z :=
  match v_tasks s !! v_current s with Some t => io_pid t | None => 0 end.

Definition ramfs_create_files (parent : nat) (name : list Z) : M (option nat) :=
  child ← kmalloc AStruct;
  ino ← kmalloc AStruct;
  ram ← kmalloc AStruct;
  match ram, child, ino with
  | Some r, Some x, Some i =>
      data ← kmalloc AData;
      match data with
      | None => mret None
      | Some b =>
          put_ram r (Ram (fresh_block b 4096) 4096) ≫= fun _ =>
          pid ← gets current_pid;
          now ← gets v_ticks;
          put_inode i (Inode 0 VFS_FILE 0 (Some ramfs_ops) (Some r) now pid) ≫= fun _ =>
          copy ← strdup name;
          chars ← reads (fun _ => name_chars copy);
          hang x (Dentry copy (Some i) (Some parent) None None (replicate DENTRY_HASH None) None 0)
            parent (dentry_hash chars) ≫= fun _ =>
          mret (Some x)
      end
  | _, _, _ => mret None
  end.

Definition ramfs_mkdir (parent : nat) (name : list Z) : M (option nat) :=
  dent ← kmalloc AStruct;
  ino ← kmalloc AStruct;
  match dent, ino with
  | Some x, Some i =>
      put_inode i (Inode 0 VFS_DIR 0 None None 0 0) ≫= fun _ =>
      copy ← strdup name;
      hang x (Dentry copy (Some i) (Some parent) None None (replicate DENTRY_HASH None) None 0)
        parent (dentry_hash name) ≫= fun _ =>
      mret (Some x)
  | _, _ => mret None
  end.

(** ** The terminal *)

Definition keyboard_getchar : M Z := fun s =>
  Some (u8 (typed (v_typed s)), set_console (S (v_typed s)) (v_screen s) s).

Fixpoint tty_read_loop (todo : nat) (got : list Z) : M (list Z) :=
  match todo with
  | O => mret got
  | S todo' =>
      c ← keyboard_getchar;
      if c =? 10 then mret (got ++ [c]) else tty_read_loop todo' (got ++ [c])
  end.

Definition tty_read (sz : Z) : M (Z * list Z) :=
  got ← tty_read_loop (Z.to_nat sz) [];
  mret (zlen got, got).

Definition tty_write (buffer : list Z) : M Z :=
  modify (fun s => set_console (v_typed s) (v_screen s ++ buffer) s) ≫= fun _ => mret (zlen buffer).

(** [ops->read] and [ops->write]. *)
Definition ops_read (o : vfs_ops) (dent : option nat) (offset sz : Z) : M (Z * list Z) :=
  match o with ramfs_ops => ramfs_read dent offset sz | tty_ops => tty_read sz end.
Definition ops_write (o : vfs_ops) (dent : option nat) (offset : Z) (buffer : list Z) : M Z :=
  match o with ramfs_ops => ramfs_write dent offset buffer | tty_ops => tty_write buffer end.

Definition vfs_read (node : option nat) (offset sz : Z) : M (Z * list Z) :=
  match node with
  | None => mret (u32 VFS_ERR, [])
  | Some _ =>
      d ← get_dentry node;
      match d_inode d with
      | None => mret (u32 VFS_ERR, [])
      | Some i =>
          ino ← get_inode (Some i);
          match i_ops ino with
          | None => mret (u32 VFS_ERR, [])
          | Some o => ops_read o node offset sz
          end
      end
  end.

Definition vfs_write (node : option nat) (offset : Z) (buffer : list Z) : M Z :=
  match node with
  | None => mret (u32 VFS_ERR)
  | Some _ =>
      d ← get_dentry node;
      match d_inode d with
      | None => mret (u32 VFS_ERR)
      | Some i =>
          ino ← get_inode (Some i);
          match i_ops ino with
          | None => mret (u32 VFS_ERR)
          | Some o => ops_write o node offset buffer
          end
      end
  end.

(** ** System calls *)

Definition is_dir (i : inode) : bool := negb (Z.land (i_flags i) VFS_DIR =? 0).

(** The [CREAT] branch of [sys_open]. *)
Definition open_create (path : list Z) : M (option nat) :=
  '(parent, name) ← resolve_parent_dir path;
  match parent with
  | None => mret None
  | Some par =>
      d ← get_dentry parent;
      ino ← get_inode (d_inode d);
      if is_dir ino then ramfs_create_files par name else mret None
  end.

(** [sys_open] once the directory entry is there. *)
Definition open_dentry (x : nat) (flags : Z) : M Z :=
  d ← get_dentry (Some x);
  mem ← kmalloc AStruct;
  match mem with
  | None => mret VFS_ERR
  | Some f =>
      node ← vfs_follow_mount (Some x);
      put_file f (File (d_inode d) node 0 flags 1) ≫= fun _ =>
      t ← current;
      match find_idx (fun p => bool_decide (p = None)) (io_fds t) with
      | Some i =>
          put_current (io_set_fd t i (Some f)) ≫= fun _ =>
          ino ← get_inode (d_inode d);
          (match d_inode d with
           | Some n => put_inode n (inode_set_ref ino (i_ref ino +32 1))
           | None => fault
           end) ≫= fun _ =>
          t ← current;
          now ← gets v_ticks;
          put_current (task_log_event now t EVT_FD_OPEN (Z.of_nat i)) ≫= fun _ =>
          mret (Z.of_nat i)
      | None => free_file f ≫= fun _ => mret VFS_ERR
      end
  end.

Definition sys_open (path : list Z) (flags : Z) : M Z :=
  root ← gets v_root;
  found ← vfs_lookup root path;
  dent ← (match found with
          | Some _ => mret found
          | None => if Z.land flags CREAT =? 0 then mret None else open_create path
          end);
  match dent with
  | None => mret VFS_ERR
  | Some x => open_dentry x flags
  end.

(** [current_task->fd_table[fd]] behind [fd < 0 || fd >= TASK_MAX_FDS]: NULL
    stands for both refusals. *)
Definition fd_file (fd : Z) : M (option nat) :=
  if (fd <? 0) || (Z.of_nat TASK_MAX_FDS <=? fd) then mret None
  else t ← current; reads (fun _ => io_fds t !! Z.to_nat fd).

Definition may_read (flags : Z) : bool :=
  negb ((Z.land flags READ_ONLY =? 0) && (Z.land flags READ_WRITE =? 0)).
Definition may_write (flags : Z) : bool :=
  negb ((Z.land flags WRITE_ONLY =? 0) && (Z.land flags READ_WRITE =? 0)).

(** The file behind [fd] with its operations, or NULL where a guard refuses. *)
Definition fd_ops (fd : Z) : M (option (nat * file * vfs_ops)) :=
  p ← fd_file fd;
  match p with
  | None => mret None
  | Some x =>
      f ← get_file p;
      match f_inode f with
      | None => mret None
      | Some i =>
          ino ← get_inode (Some i);
          mret (match i_ops ino with Some o => Some (x, f, o) | None => None end)
      end
  end.

(** [if (n > 0) file->offset += n]. *)
Definition advance (x : nat) (n : Z) : M unit :=
  if 0 <? n then f ← get_file (Some x); put_file x (file_set_offset f (f_offset f +32 n)) else mret tt.

Definition sys_read (fd sz : Z) : M (Z * list Z) :=
  o ← fd_ops fd;
  match o with
  | None => mret (VFS_ERR, [])
  | Some (x, f, o) =>
      if negb (may_read (f_flags f)) then mret (VFS_ERR, [])
      else
        '(n, out) ← ops_read o (f_dentry f) (f_offset f) sz;
        advance x (s32 n) ≫= fun _ => mret (s32 n, out)
  end.

Definition sys_write (fd : Z) (buf : list Z) : M Z :=
  o ← fd_ops fd;
  match o with
  | None => mret VFS_ERR
  | Some (x, f, o) =>
      if negb (may_write (f_flags f)) then mret VFS_ERR
      else
        n ← ops_write o (f_dentry f) (f_offset f) buf;
        advance x (s32 n) ≫= fun _ => mret (s32 n)
  end.

(** [if (inode && inode->ref_count > 0) inode->ref_count--]. *)
Definition inode_put (i : option nat) : M unit :=
  match i with
  | None => mret tt
  | Some n =>
      ino ← get_inode (Some n);
      if 0 <? i_ref ino then put_inode n (inode_set_ref ino (i_ref ino - 1)) else mret tt
  end.

Definition sys_close (fd : Z) : M Z :=
  p ← fd_file fd;
  match p with
  | None => mret VFS_ERR
  | Some x =>
      f ← get_file p;
      inode_put (f_inode f) ≫= fun _ =>
      (if 1 <? f_ref f then put_file x (file_set_ref f (f_ref f - 1)) else free_file x) ≫= fun _ =>
      t ← current;
      put_current (io_set_fd t (Z.to_nat fd) None) ≫= fun _ =>
      mret VFS_OK
  end.

Definition sys_mkdir (path : list Z) : M Z :=
  '(parent, name) ← resolve_parent_dir path;
  match parent with
  | None => mret VFS_ERR
  | Some par =>
      d ← get_dentry parent;
      ino ← get_inode (d_inode d);
      if negb (is_dir ino) then mret VFS_ERR
      else
        root ← gets v_root;
        exist ← vfs_lookup root path;
        match exist with
        | Some _ => mret VFS_ERR
        | None =>
            dir ← ramfs_mkdir par name;
            mret (match dir with Some _ => VFS_OK | None => VFS_ERR end)
        end
  end.

(** The [while (current)] loop of [sys_unlink]: [Some prev] at the target. *)
Fixpoint find_prev (fuel : nat) (ds : gmap nat dentry) (target : nat) (prev cur : option nat) :
    option (option (option nat)) :=
  match cur with
  | None => Some None
  | Some x =>
      if (x =? target)%nat then Some (Some prev)
      else
        match fuel with
        | O => None
        | S fuel' => d ← ds !! x; find_prev fuel' ds target (Some x) (d_next d)
        end
  end.

Definition unhang (target parent : nat) (bucket : nat) : M unit :=
  par ← get_dentry (Some parent);
  cur ← reads (fun _ => d_bucket par !! bucket);
  where_ ← reads (fun s => find_prev (size (v_dentries s)) (v_dentries s) target None cur);
  match where_ with
  | None => mret tt
  | Some prev =>
      d ← get_dentry (Some target);
      match prev with
      | None => put_dentry parent (dentry_set_bucket par bucket (d_next d))
      | Some p => pd ← get_dentry prev; put_dentry p (dentry_set_next pd (d_next d))
      end
  end.

(** The inode of an unlinked entry. *)
Definition drop_inode (i : nat) : M unit :=
  inode_put (Some i) ≫= fun _ =>
  ino ← get_inode (Some i);
  if i_ref ino =? 0 then
    (match i_private ino with
     | Some r => if Z.land (i_flags ino) VFS_FILE =? 0 then mret tt else free_ram r
     | None => mret tt
     end) ≫= fun _ =>
    free_inode i
  else mret tt.

Definition sys_unlink (path : list Z) : M Z :=
  root ← gets v_root;
  found ← vfs_lookup root path;
  match found with
  | None => mret VFS_ERR
  | Some target =>
      if bool_decide (found = root) then mret VFS_ERR
      else
        d ← get_dentry found;
        match d_parent d, d_inode d with
        | Some parent, Some i =>
            name ← reads (fun _ => name_chars (d_name d));
            ino ← get_inode (Some i);
            if is_dir ino && bool_decide (d_children d <> None) then mret VFS_ERR
            else
              unhang target parent (Z.to_nat (dentry_hash name)) ≫= fun _ =>
              drop_inode i ≫= fun _ =>
              free_name (d_name d) ≫= fun _ =>
              free_dentry target ≫= fun _ =>
              mret VFS_OK
        | _, _ => mret VFS_ERR
        end
  end.

Definition sys_chdir (path : list Z) : M Z :=
  root ← gets v_root;
  found ← vfs_lookup root path;
  match found with
  | None => mret VFS_ERR
  | Some _ =>
      d ← get_dentry found;
      ino ← get_inode (d_inode d);
      if is_dir ino then t ← current; put_current (io_set_cwd t found) ≫= fun _ => mret VFS_OK
      else mret VFS_ERR
  end.

Definition vfs_mount (mount_point root : option nat) : M Z :=
  match mount_point, root with
  | Some x, Some _ =>
      d ← get_dentry mount_point;
      ino ← get_inode (d_inode d);
      if negb (is_dir ino) then mret VFS_ERR
      else
        mem ← kmalloc AStruct;
        match mem with
        | None => mret VFS_ERR
        | Some _ => put_dentry x (dentry_set_mount d root) ≫= fun _ => mret VFS_OK
        end
  | _, _ => mret VFS_ERR
  end.

(** The chain and bucket loops of [sys_readdir]: the count reached, or the
    entry whose number is [off]. *)
Fixpoint readdir_chain (fuel : nat) (ds : gmap nat dentry) (off count : Z) (child : option nat) :
    option (Z + nat) :=
  match child with
  | None => Some (inl count)
  | Some x =>
      match fuel with
      | O => None
      | S fuel' =>
          if count =? off then Some (inr x)
          else d ← ds !! x; readdir_chain fuel' ds off (count +32 1) (d_next d)
      end
  end.

Fixpoint readdir_buckets (ds : gmap nat dentry) (off count : Z) (bs : list (option nat)) : option (Z + nat) :=
  match bs with
  | [] => Some (inl count)
  | b :: bs' =>
      r ← readdir_chain (size ds) ds off count b;
      match r with inl count' => readdir_buckets ds off count' bs' | inr x => Some (inr x) end
  end.

(** [room] is the size of the buffer [dirent->name] points to; the result
    carries [dirent->name] and [dirent->type]. *)
Definition sys_readdir (fd : Z) (room : nat) : M (Z * option (list Z * Z)) :=
  p ← fd_file fd;
  match p with
  | None => mret (VFS_ERR, None)
  | Some x =>
      f ← get_file p;
      match f_inode f with
      | None => mret (VFS_ERR, None)
      | Some i =>
          ino ← get_inode (Some i);
          if negb (is_dir ino) then mret (VFS_ERR, None)
          else match f_dentry f with
          | None => mret (VFS_ERR, None)
          | Some _ =>
              dir ← get_dentry (f_dentry f);
              hit ← reads (fun s => readdir_buckets (v_dentries s) (f_offset f) 0 (d_bucket dir));
              match hit with
              | inl _ => mret (0, None)
              | inr c =>
                  d ← get_dentry (Some c);
                  name ← reads (fun _ => name_chars (d_name d));
                  ci ← get_inode (d_inode d);
                  if (room <=? length name)%nat then fault
                  else
                    put_file x (file_set_offset f (f_offset f +32 1)) ≫= fun _ =>
                    mret (1, Some (name, i_flags ci))
              end
          end
      end
  end.

(** ** Devices and start-up *)

Definition devfs_get (name : list Z) : M (option nat) :=
  gets (fun s => snd <$> List.find (fun e => bool_decide (e.1 = name)) (v_devfs_table s)).

(** The devices are registered under the names of the program's text. *)
Definition devfs_register (name : list Z) (i : nat) : M Z :=
  table ← gets v_devfs_table;
  if (MAX_DEVICES <=? length table)%nat then mret VFS_ERR
  else if existsb (fun e => match_seg e.1 name (length name)) table then mret VFS_ERR
  else
    dup ← strdup name;
    match dup with
    | Strdup s0 =>
        dr ← gets v_devfs_root;
        modify (set_devfs dr (table ++ [(s0, i)])) ≫= fun _ =>
        match dr with
        | None => mret VFS_OK
        | Some droot =>
            mem ← kmalloc AStruct;
            match mem with
            | None => fault
            | Some x =>
                copy ← strdup name;
                hang x (Dentry copy (Some i) (Some droot) None None (replicate DENTRY_HASH None) None 0)
                  droot (dentry_hash name) ≫= fun _ =>
                mret VFS_OK
            end
        end
    | _ => mret VFS_ERR
    end.

Definition DEV : list Z := [100; 101; 118].
Definition TTY : list Z := [116; 116; 121].

(** A failed allocation of the root halts the machine; of its inode, writes
    through NULL. *)
Definition vfs_init : M unit :=
  r ← kmalloc AStruct;
  i ← kmalloc AStruct;
  match r, i with
  | Some x, Some n =>
      put_inode n (Inode 0 VFS_DIR 0 None None 0 0) ≫= fun _ =>
      put_dentry x (Dentry (Literal [SLASH]) (Some n) (Some x) None None (replicate DENTRY_HASH None) None 0)
        ≫= fun _ =>
      modify (set_root (Some x))
  | _, _ => fault
  end.

Definition ramfs_init : M unit :=
  root ← gets v_root;
  d ← get_dentry root;
  ino ← get_inode (d_inode d);
  match d_inode d with
  | Some n => put_inode n (inode_set_ops ino (Some ramfs_ops))
  | None => fault
  end.

Definition tty_init : M unit :=
  i ← kmalloc AStruct;
  match i with
  | Some n =>
      put_inode n (Inode 0 VFS_DEVICE 0 (Some tty_ops) None 0 0) ≫= fun _ =>
      devfs_register TTY n ≫= fun _ => mret tt
  | None => fault
  end.

Definition devfs_init : M unit :=
  r ← kmalloc AStruct;
  i ← kmalloc AStruct;
  root ← gets v_root;
  match r, i, root with
  | Some x, Some n, Some top =>
      table ← gets v_devfs_table;
      modify (set_devfs (Some x) table) ≫= fun _ =>
      put_inode n (Inode 0 VFS_DIR 0 None None 0 0) ≫= fun _ =>
      hang x (Dentry (Literal DEV) (Some n) root None None (replicate DENTRY_HASH None) None 0)
        top (dentry_hash DEV)
  | _, _, _ => fault
  end.

(** The standard streams of the first task, [init_tasking]; the entry field of
    [stderr] is left as the heap had it. *)
Definition std_stream (tty : nat) (flags : Z) (dent : nat -> option nat) : M nat :=
  p ← kmalloc AStruct;
  match p with
  | None => fault
  | Some x => put_file x (File (Some tty) (dent x) 0 flags 1) ≫= fun _ => mret x
  end.

Definition init_streams (t : nat) (pid : Z) : M unit :=
  root ← gets v_root;
  tty ← devfs_get TTY;
  fds ← (match tty with
         | None => mret (replicate TASK_MAX_FDS None)
         | Some n =>
             fin ← std_stream n READ_ONLY (fun _ => None);
             fout ← std_stream n WRITE_ONLY (fun _ => None);
             ferr ← std_stream n WRITE_ONLY stray;
             mret ([Some fin; Some fout; Some ferr] ++ replicate (TASK_MAX_FDS - 3) None)
         end);
  modify (fun s => set_current t (set_tasks (insert t (Io pid root fds [])) s)).

(** The order of [kmain]; the first task's memory is asked for, then its
    streams are opened.  [aevrospoint_init] runs in between and takes pid 0 for
    the checkpoint worker; its task, which has no descriptors, is left out. *)
Definition fs_start : M unit :=
  vfs_init ≫= fun _ => ramfs_init ≫= fun _ => tty_init ≫= fun _ => devfs_init.

Definition vfs_boot : M unit :=
  fs_start ≫= fun _ =>
  p ← kmalloc AStruct;
  match p with Some t => init_streams t 1 | None => mret tt end.
End machine.

(** ** Descriptors of new and of ending tasks *)

Definition O_CLOEXEC : Z := 8.

(** [task_inherit_fds]. *)
Definition share_create (f : nat) : M (option nat) :=
  fl ← get_file (Some f);
  put_file f (file_set_ref fl (f_ref fl + 1)) ≫= fun _ =>
  match f_inode fl with
  | None => mret (Some f)
  | Some i =>
      ino ← get_inode (Some i);
      put_inode i (inode_set_ref ino (i_ref ino +32 1)) ≫= fun _ => mret (Some f)
  end.

(** The loop body of [exec_user] and [sys_exec]. *)
Definition share_exec (f : nat) : M (option nat) :=
  fl ← get_file (Some f);
  if negb (Z.land (f_flags fl) O_CLOEXEC =? 0) then mret None
  else
    put_file f (file_set_ref fl (f_ref fl + 1)) ≫= fun _ =>
    ino ← get_inode (f_inode fl);
    match f_inode fl with
    | None => fault
    | Some i => put_inode i (inode_set_ref ino (i_ref ino +32 1)) ≫= fun _ => mret (Some f)
    end.

(** The loop body of [do_fork]: the inode is counted, the file is not. *)
Definition share_fork (f : nat) : M (option nat) :=
  fl ← get_file (Some f);
  if negb (Z.land (f_flags fl) O_CLOEXEC =? 0) then mret None
  else
    ino ← get_inode (f_inode fl);
    match f_inode fl with
    | None => fault
    | Some i => put_inode i (inode_set_ref ino (i_ref ino +32 1)) ≫= fun _ => mret (Some f)
    end.

Fixpoint inherit_loop (share : nat -> M (option nat)) (fds : list (option nat)) : M (list (option nat)) :=
  match fds with
  | [] => mret []
  | None :: fds' => rest ← inherit_loop share fds'; mret (None :: rest)
  | Some f :: fds' => p ← share f; rest ← inherit_loop share fds'; mret (p :: rest)
  end.

(** The file-system part of a task made by the current one. *)
Definition spawn_io (share : nat -> M (option nat)) (t : nat) (pid : Z) (cwd : io -> option nat) : M unit :=
  a ← current;
  fds ← inherit_loop share (io_fds a);
  modify (set_tasks (insert t (Io pid (cwd a) fds []))).

(** [create_process] leaves the working directory NULL; [exec] and [fork] copy
    it, and count it. *)
Definition create_io (t : nat) (pid : Z) : M unit := spawn_io share_create t pid (fun _ => None).

Definition count_cwd : M unit :=
  a ← current;
  match io_cwd a with
  | None => mret tt
  | Some c =>
      d ← get_dentry (Some c);
      put_dentry c (Dentry (d_name d) (d_inode d) (d_parent d) (d_children d) (d_mount d) (d_bucket d)
        (d_next d) (d_ref d + 1))
  end.

Definition exec_io (t : nat) (pid : Z) : M unit := count_cwd ≫= fun _ => spawn_io share_exec t pid io_cwd.
Definition fork_io (t : nat) (pid : Z) : M unit := count_cwd ≫= fun _ => spawn_io share_fork t pid io_cwd.

(** The descriptor loop of [sys_exit]. *)
Fixpoint close_from (i todo : nat) : M unit :=
  match todo with
  | O => mret tt
  | S todo' =>
      p ← fd_file (Z.of_nat i);
      (match p with Some _ => sys_close (Z.of_nat i) ≫= fun _ => mret tt | None => mret tt end) ≫= fun _ =>
      close_from (S i) todo'
  end.
Definition close_all : M unit := close_from 0 TASK_MAX_FDS.

Definition vfs_zero (ticks : Z) : vfs := Vfs ∅ ∅ ∅ ∅ None None [] ∅ 0 0 0 [] ticks.
