(* ===== verification/VfsTree.v ===== *)
(** * The directory tree behind the hash chains

    What a path means, defined without buckets, chains or buffers; the shape
    of a well-formed tree; and that the resolution of [kernel/VFS/vfs.c]
    computes that meaning. *)

From stdpp Require Import gmap.
From S2P Require Import Prelude StateMonad SlotTable Vfs.

#[local] Open Scope Z_scope.

(** ** Segments of a path *)

Fixpoint split_slash (p : list Z) : list (list Z) :=
  match p with
  | [] => [[]]
  | c :: p' =>
      if c =? SLASH then [] :: split_slash p'
      else match split_slash p' with
           | seg :: segs => (c :: seg) :: segs
           | [] => [[c]]
           end
  end.

Definition nonempty {A} (l : list A) : bool := match l with [] => false | _ => true end.

(** The segments of a path: the non-empty strings between its slashes. *)
Definition path_segs (p : list Z) : list (list Z) := List.filter nonempty (split_slash p).

Lemma split_slash_cons p : exists seg segs, split_slash p = seg :: segs.
Proof. destruct p as [|c p]; simpl; [eauto|]. destruct (c =? SLASH); [eauto|]. destruct (split_slash p); eauto. Qed.

Lemma path_segs_skip p : path_segs (skip_slash p) = path_segs p.
Proof.
  induction p as [|c p IH]; [done|]. simpl. destruct (c =? SLASH) eqn:E; [|done].
  rewrite IH. unfold path_segs. simpl. by rewrite E.
Qed.

Lemma skip_slash_head p c p' : skip_slash p = c :: p' -> (c =? SLASH) = false.
Proof. induction p as [|a p IH]; [done|]. simpl. destruct (a =? SLASH) eqn:E; [done|]. by intros [= -> ->]. Qed.

Lemma skip_slash_length p : (length (skip_slash p) <= length p)%nat.
Proof. induction p as [|c p IH]; simpl; [done|]. destruct (c =? SLASH); simpl; lia. Qed.

Lemma span_split p seg rest : span_seg p = (seg, rest) ->
  p = seg ++ rest /\
  exists segs, split_slash p = seg :: segs /\ List.filter nonempty segs = path_segs rest.
Proof.
  revert seg rest. induction p as [|c p IH]; simpl; intros seg rest.
  - intros [= <- <-]. split; [done|]. by exists [].
  - destruct (c =? SLASH) eqn:E.
    + intros [= <- <-]. split; [done|]. exists (split_slash p). split; [done|].
      unfold path_segs. simpl. by rewrite E.
    + destruct (span_seg p) as [seg' rest'] eqn:Hs. intros [= <- <-].
      destruct (IH _ _ eq_refl) as [-> (segs & Hsp & Hf)]. split; [done|].
      exists segs. by rewrite Hsp.
Qed.

Lemma span_seg_nonempty c p : (c =? SLASH) = false -> exists seg rest, span_seg (c :: p) = (c :: seg, rest).
Proof. intros E. simpl. rewrite E. destruct (span_seg p) as [a b]. eauto. Qed.

Lemma path_segs_span p start seg rest : skip_slash p = start -> start <> [] ->
  span_seg start = (seg, rest) ->
  path_segs p = seg :: path_segs rest /\ start = seg ++ rest /\ (length rest < length p)%nat.
Proof.
  intros <- Hne Hsp. destruct (skip_slash p) as [|c p'] eqn:Hsk; [done|].
  destruct (span_seg_nonempty c p' (skip_slash_head _ _ _ Hsk)) as (seg' & rest' & Hsp').
  rewrite Hsp' in Hsp. injection Hsp as <- <-. destruct (span_split _ _ _ Hsp') as [Heq (segs & Hss & Hf)].
  split; [|split; [done|]].
  - rewrite <- path_segs_skip, Hsk. unfold path_segs at 1. rewrite Hss. simpl. by rewrite Hf.
  - pose proof (skip_slash_length p) as Hl. rewrite Hsk, Heq in Hl. rewrite length_app in Hl. simpl in Hl. lia.
Qed.

(** [match_seg] compares a name with the segment at the front. *)
Lemma match_seg_app name seg rest : match_seg name (seg ++ rest) (length seg) = bool_decide (name = seg).
Proof.
  revert seg. induction name as [|n name IH]; intros [|c seg]; simpl; try done.
  destruct (n =? c) eqn:E.
  - rewrite IH. apply bool_decide_ext. breflect. split; congruence.
  - symmetry. apply bool_decide_eq_false. breflect. congruence.
Qed.

Lemma hash_range name : (Z.to_nat (dentry_hash name) < DENTRY_HASH)%nat.
Proof. unfold dentry_hash, DENTRY_HASH. pose proof (Z.mod_pos_bound (foldl hash_step 0 name) 32 eq_refl). lia. Qed.

(** ** Well-formed trees *)

Definition dname (d : dentry) : list Z := default [] (name_chars (d_name d)).

(** What [sys_open] and [sys_mkdir] can name an entry. *)
Definition good_name (n : list Z) : Prop :=
  n <> [] /\ SLASH ∉ n /\ n <> DOT /\ n <> DOTDOT /\ (length n < PATH_BUF)%nat.

(** [l] is the list of entries from [p] along [hash_next]. *)
Fixpoint linked (ds : gmap nat dentry) (p : option nat) (l : list nat) : Prop :=
  match l with
  | [] => p = None
  | x :: l' => p = Some x /\ exists d, ds !! x = Some d /\ linked ds (d_next d) l'
  end.

(** Entry [y] belongs in bucket [b] of directory [x]. *)
Definition child_in (ds : gmap nat dentry) (root x b y : nat) : Prop :=
  y <> root /\ exists e, ds !! y = Some e /\ d_parent e = Some x /\ Z.to_nat (dentry_hash (dname e)) = b.

Definition dentry_ok (ds : gmap nat dentry) (root fresh x : nat) (d : dentry) : Prop :=
  (x < fresh)%nat /\ is_Some (name_chars (d_name d)) /\ (x <> root -> good_name (dname d)) /\
  (exists p, d_parent d = Some p /\ is_Some (ds !! p)) /\
  length (d_bucket d) = DENTRY_HASH /\ d_mount d = None /\ d_children d = None.

Record tree_ok (ds : gmap nat dentry) (root fresh : nat) : Prop := {
  tk_root : exists d, ds !! root = Some d /\ d_parent d = Some root;
  tk_dentry : forall x d, ds !! x = Some d -> dentry_ok ds root fresh x d;
  tk_chain : forall x d b p, ds !! x = Some d -> d_bucket d !! b = Some p ->
    exists l, linked ds p l /\ NoDup l /\ forall y, y ∈ l <-> child_in ds root x b y;
  tk_uniq : forall x y dx dy, x <> root -> y <> root -> ds !! x = Some dx -> ds !! y = Some dy ->
    d_parent dx = d_parent dy -> dname dx = dname dy -> x = y }.

(** ** What a path means *)

(** The entry named [n] in directory [x], by its parent and its name alone. *)
Definition child_of (ds : gmap nat dentry) (root x : nat) (n : list Z) : option nat :=
  fst <$> List.find (fun e => bool_decide (e.1 <> root /\ d_parent e.2 = Some x /\ dname e.2 = n)) (map_to_list ds).

Definition dir_entry (s : vfs) (x : nat) : bool :=
  match (d ← v_dentries s !! x; i ← d_inode d; v_inodes s !! i) with
  | Some ino => is_dir ino
  | None => false
  end.

(** One segment: stay, go up, or go to the entry of that name. *)
Definition walk_step (s : vfs) (root : nat) (dir : nat) (seg : list Z) : option nat :=
  if bool_decide (seg = DOT) then Some dir
  else if bool_decide (seg = DOTDOT) then
    Some (default dir (v_dentries s !! dir ≫= d_parent))
  else if dir_entry s dir then child_of (v_dentries s) root dir seg else None.

Fixpoint walk (s : vfs) (root : nat) (dir : nat) (segs : list (list Z)) : option nat :=
  match segs with
  | [] => Some dir
  | seg :: segs' => dir' ← walk_step s root dir seg; walk s root dir' segs'
  end.

Lemma walk_app s root dir l k : walk s root dir (l ++ k) = walk s root dir l ≫= fun d => walk s root d k.
Proof. revert dir. induction l as [|seg l IH]; intros dir; simpl; [done|]. destruct (walk_step s root dir seg); simpl; auto. Qed.

Lemma child_of_Some ds root fresh x n y : tree_ok ds root fresh ->
  child_of ds root x n = Some y <->
  y <> root /\ exists e, ds !! y = Some e /\ d_parent e = Some x /\ dname e = n.
Proof.
  intros Ht. unfold child_of. split.
  - rewrite fmap_Some. intros ([y' e] & Hf & ->). apply List.find_some in Hf as [Hin Hp].
    apply bool_decide_eq_true in Hp as (? & ? & ?). simpl in *. split; [done|].
    exists e. split; [|done]. apply elem_of_map_to_list. by apply list_elem_of_In.
  - intros (Hy & e & He & Hp & Hn).
    destruct (List.find _ _) as [[y' e']|] eqn:Hf; simpl.
    + apply List.find_some in Hf as [Hin Hq]. apply bool_decide_eq_true in Hq as (? & ? & ?). simpl in *.
      apply list_elem_of_In, elem_of_map_to_list in Hin. f_equal.
      eapply (tk_uniq _ _ _ Ht y' y); eauto; congruence.
    + exfalso. assert (Hin : (y, e) ∈ map_to_list ds) by by apply elem_of_map_to_list.
      apply list_elem_of_In in Hin. pose proof (List.find_none _ _ Hf _ Hin) as Hno.
      apply bool_decide_eq_false in Hno. apply Hno. simpl. eauto.
Qed.

Lemma child_of_None ds root fresh x n : tree_ok ds root fresh ->
  child_of ds root x n = None <->
  forall y e, y <> root -> ds !! y = Some e -> d_parent e = Some x -> dname e <> n.
Proof.
  intros Ht. split.
  - intros Hno y e Hy He Hp Hn. assert (child_of ds root x n = Some y) by (eapply child_of_Some; eauto). congruence.
  - intros Hno. destruct (child_of ds root x n) as [y|] eqn:E; [|done]. exfalso.
    apply (child_of_Some ds root fresh x n y Ht) in E as (Hy & e & He & Hp & Hn). exact (Hno y e Hy He Hp Hn).
Qed.

(** ** Chains *)

Lemma linked_mem ds p l y : linked ds p l -> y ∈ l -> is_Some (ds !! y).
Proof.
  revert p. induction l as [|x l IH]; intros p Hl Hy; [by apply elem_of_nil in Hy|].
  destruct Hl as (_ & d & Hd & Hl). apply elem_of_cons in Hy as [-> | Hy]; [eauto|]. by eapply IH.
Qed.

Lemma linked_size ds p l : linked ds p l -> NoDup l -> (length l <= size ds)%nat.
Proof.
  intros Hl Hnd. rewrite <- (size_dom ds), <- (size_list_to_set (C := gset nat) l) by done.
  apply subseteq_size. intros y Hy. apply elem_of_list_to_set in Hy. apply elem_of_dom. by eapply linked_mem.
Qed.

(** A change outside the entries of a chain leaves the chain. *)
Lemma linked_frame ds ds' p l : linked ds p l ->
  (forall y d, y ∈ l -> ds !! y = Some d -> exists d', ds' !! y = Some d' /\ d_next d' = d_next d) ->
  linked ds' p l.
Proof.
  revert p. induction l as [|x l IH]; intros p Hl Hf; [done|].
  destruct Hl as (-> & d & Hd & Hl). split; [done|].
  destruct (Hf x d ltac:(apply elem_of_cons; auto) Hd) as (d' & Hd' & Hn). exists d'. split; [done|].
  rewrite Hn. apply (IH _ Hl). intros y e Hy. apply Hf. apply elem_of_cons; auto.
Qed.

Definition named (ds : gmap nat dentry) (n : list Z) (y : nat) : bool :=
  match ds !! y with Some e => bool_decide (dname e = n) | None => false end.

Lemma find_child_linked fuel ds seg rest p l :
  linked ds p l -> (forall y e, y ∈ l -> ds !! y = Some e -> is_Some (name_chars (d_name e))) ->
  (length l <= fuel)%nat ->
  find_child fuel ds (seg ++ rest) (length seg) p = Some (List.find (named ds seg) l).
Proof.
  revert fuel p. induction l as [|x l IH]; intros fuel p Hl Hn Hf.
  - simpl in Hl. subst p. by destruct fuel.
  - destruct Hl as (-> & d & Hd & Hl). destruct fuel as [|fuel]; [simpl in Hf; lia|].
    cbn [find_child List.find]. unfold named at 1. rewrite Hd. cbn [mbind option_bind].
    destruct (Hn x d ltac:(apply elem_of_cons; auto) Hd) as [n Hc].
    assert (dname d = n) as -> by (unfold dname; by rewrite Hc).
    rewrite Hc. cbn [mbind option_bind]. rewrite match_seg_app.
    destruct (bool_decide (n = seg)); [done|].
    apply IH; [done| |simpl in Hf; lia]. intros y e Hy. apply Hn. apply elem_of_cons; auto.
Qed.

(** Bucket and chain find exactly the entry with that parent and name. *)
Lemma find_child_spec ds root fresh x d n rest p :
  tree_ok ds root fresh -> ds !! x = Some d ->
  d_bucket d !! Z.to_nat (dentry_hash n) = Some p ->
  find_child (size ds) ds (n ++ rest) (length n) p = Some (child_of ds root x n).
Proof.
  intros Ht Hx Hb. destruct (tk_chain _ _ _ Ht _ _ _ _ Hx Hb) as (l & Hl & Hnd & Hmem).
  rewrite (find_child_linked _ _ n rest p l Hl).
  2: { intros y e _ He. apply (tk_dentry _ _ _ Ht _ _ He). }
  2: { by eapply linked_size. }
  f_equal. symmetry. destruct (List.find (named ds n) l) as [y|] eqn:Hf.
  - apply List.find_some in Hf as [Hin Hy]. apply list_elem_of_In, Hmem in Hin as (Hr & e & He & Hp & _).
    eapply child_of_Some; [done|]. split; [done|]. exists e. split; [done|]. split; [done|].
    unfold named in Hy. rewrite He in Hy. by apply bool_decide_eq_true in Hy.
  - eapply child_of_None; [done|]. intros y e Hr He Hp Hn.
    assert (Hin : y ∈ l) by (apply Hmem; split; [done|]; exists e; by rewrite Hn).
    apply list_elem_of_In in Hin. pose proof (List.find_none _ _ Hf _ Hin) as Hno.
    unfold named in Hno. rewrite He in Hno. by apply bool_decide_eq_false in Hno.
Qed.

(** ** Resolution computes the meaning *)

(** Every entry has an inode, and is a file or a directory. *)
Definition has_inodes (s : vfs) : Prop :=
  forall x d, v_dentries s !! x = Some d -> exists i ino, d_inode d = Some i /\ v_inodes s !! i = Some ino.

Definition short (segs : list (list Z)) : Prop := Forall (fun seg => (length seg < PATH_BUF)%nat) segs.

Lemma walk_step_mem s root fresh dir seg dir' : tree_ok (v_dentries s) root fresh ->
  is_Some (v_dentries s !! dir) -> walk_step s root dir seg = Some dir' -> is_Some (v_dentries s !! dir').
Proof.
  intros Ht [d Hd]. unfold walk_step. case_bool_decide; [intros [= <-]; eauto|].
  case_bool_decide.
  - rewrite Hd. destruct (tk_dentry _ _ _ Ht _ _ Hd) as (_ & _ & _ & (p & Hp & Hin) & _).
    cbn [mbind option_bind]. rewrite Hp. by intros [= <-].
  - destruct (dir_entry s dir); [|done]. intros Hc.
    apply (child_of_Some _ _ _ _ _ _ Ht) in Hc as (_ & e & He & _). eauto.
Qed.

Lemma walk_mem s root fresh dir segs dir' : tree_ok (v_dentries s) root fresh ->
  is_Some (v_dentries s !! dir) -> walk s root dir segs = Some dir' -> is_Some (v_dentries s !! dir').
Proof.
  intros Ht. revert dir. induction segs as [|seg segs IH]; intros dir Hd; simpl; [intros [= <-]; done|].
  destruct (walk_step s root dir seg) as [d1|] eqn:E; [|done]. simpl. apply IH. by eapply walk_step_mem.
Qed.

Lemma resolve_seg_spec s root fresh dir seg rest : tree_ok (v_dentries s) root fresh -> has_inodes s ->
  is_Some (v_dentries s !! dir) -> (length seg < PATH_BUF)%nat ->
  resolve_seg s (Some dir) (seg ++ rest) seg = Some (walk_step s root dir seg).
Proof.
  intros Ht Hi [d Hd] Hs. unfold resolve_seg.
  rewrite (proj2 (Nat.leb_gt _ _) Hs). cbn [mbind option_bind]. rewrite Hd. cbn [mbind option_bind].
  destruct (tk_dentry _ _ _ Ht _ _ Hd) as (_ & _ & _ & (p & Hp & Hin) & Hlen & _).
  pose proof (hash_range seg) as Hh. rewrite <- Hlen in Hh.
  destruct (lookup_lt_is_Some_2 _ _ Hh) as [c Hc]. rewrite Hc. cbn [mbind option_bind].
  rewrite !match_seg_app. unfold walk_step.
  rewrite (bool_decide_ext (DOT = seg) (seg = DOT)) by (split; congruence).
  rewrite (bool_decide_ext (DOTDOT = seg) (seg = DOTDOT)) by (split; congruence).
  case_bool_decide; [done|]. case_bool_decide.
  - rewrite Hp, Hd. cbn [mbind option_bind]. by rewrite Hp.
  - destruct (Hi _ _ Hd) as (i & ino & Hdi & Hino). unfold dir_entry.
    rewrite Hd. cbn [mbind option_bind]. rewrite Hdi. cbn [mbind option_bind]. rewrite Hino. cbn [mbind option_bind].
    unfold is_dir. destruct (Z.land (i_flags ino) VFS_DIR =? 0); simpl; [done|].
    by eapply find_child_spec.
Qed.

Lemma resolve_loop_spec s root fresh fuel : forall p dir, tree_ok (v_dentries s) root fresh -> has_inodes s ->
  is_Some (v_dentries s !! dir) -> short (path_segs p) -> (length p < fuel)%nat ->
  resolve_loop fuel s (Some dir) p = Some (walk s root dir (path_segs p)).
Proof.
  induction fuel as [|fuel IH]; intros p dir Ht Hi Hd Hs Hf; [lia|]. cbn [resolve_loop].
  destruct (skip_slash p) as [|c p'] eqn:Hsk.
  - rewrite <- path_segs_skip, Hsk. done.
  - destruct (span_seg (c :: p')) as [seg rest] eqn:Hsp.
    destruct (path_segs_span p _ seg rest Hsk ltac:(done) Hsp) as (Hsegs & Heq & Hlt).
    rewrite Hsegs in Hs |- *. unfold short in Hs; apply Forall_cons_1 in Hs as [Hseg Hs].
    rewrite Heq, (resolve_seg_spec s root fresh dir seg rest Ht Hi Hd Hseg).
    cbn [mbind option_bind walk]. destruct (walk_step s root dir seg) as [d1|] eqn:E; [|done].
    cbn [mbind option_bind]. apply IH; auto; [by eapply walk_step_mem | lia].
Qed.

(** Where a path starts: the root, or the directory of the task. *)
Definition start_dir (s : vfs) (path : list Z) : option nat :=
  if bool_decide (head path = Some SLASH) then v_root s else v_tasks s !! v_current s ≫= io_cwd.

Definition meaning (s : vfs) (root : nat) (path : list Z) : option nat :=
  dir ← start_dir s path; walk s root dir (path_segs path).

(** ** Hanging an entry into a directory, and taking one out *)

(** The fields of an entry that the chains do not touch, and its link. *)
Definition dsame (d d' : dentry) : Prop :=
  d_name d' = d_name d /\ d_inode d' = d_inode d /\ d_parent d' = d_parent d /\
  d_mount d' = d_mount d /\ d_children d' = d_children d /\ length (d_bucket d') = length (d_bucket d).

Lemma dsame_name d d' : dsame d d' -> dname d' = dname d.
Proof. intros (H & _). unfold dname. by rewrite H. Qed.

Lemma dsame_bucket d b p : dsame d (dentry_set_bucket d b p).
Proof. unfold dsame. simpl. by rewrite length_insert. Qed.

Lemma dsame_next d p : dsame d (dentry_set_next d p).
Proof. done. Qed.

Lemma dsame_refl d : dsame d d.
Proof. done. Qed.
#[local] Hint Resolve dsame_bucket dsame_next dsame_refl : core.

Section hang.
Context (ds : gmap nat dentry) (r n n' x par : nat) (d pd : dentry) (old : option nat).
Context (Ht : tree_ok ds r n) (Hn : (n <= x < n')%nat) (Hpar : ds !! par = Some pd).
Context (Hname : is_Some (name_chars (d_name d))) (Hgood : good_name (dname d)).
Context (Hdp : d_parent d = Some par) (Hdb : d_bucket d = replicate DENTRY_HASH None).
Context (Hdm : d_mount d = None) (Hdc : d_children d = None).
Context (Hnew : child_of ds r par (dname d) = None).
Notation b := (Z.to_nat (dentry_hash (dname d))).
Context (Hold : d_bucket pd !! b = Some old).

Definition hung : gmap nat dentry :=
  <[par := dentry_set_bucket pd b (Some x)]> (<[x := dentry_set_next d old]> ds).

Lemma hung_fresh : ds !! x = None.
Proof. destruct (ds !! x) as [e|] eqn:E; [|done]. apply (tk_dentry _ _ _ Ht) in E as (E & _). lia. Qed.

Lemma hung_par : par <> x.
Proof. pose proof hung_fresh. intros ->. congruence. Qed.

Lemma hung_root : r <> x.
Proof. pose proof hung_fresh. destruct (tk_root _ _ _ Ht) as (rd & Hr & _). intros ->. congruence. Qed.

Lemma hung_new : hung !! x = Some (dentry_set_next d old).
Proof. unfold hung. rewrite lookup_insert_ne by apply hung_par. by rewrite lookup_insert_eq. Qed.

Lemma hung_parent : hung !! par = Some (dentry_set_bucket pd b (Some x)).
Proof. unfold hung. by rewrite lookup_insert_eq. Qed.

Lemma hung_old y e : ds !! y = Some e -> exists e', hung !! y = Some e' /\ dsame e e' /\
  d_next e' = d_next e /\ (y <> par -> e' = e).
Proof.
  intros He. unfold hung. destruct (decide (y = par)) as [-> | Hy].
  - rewrite lookup_insert_eq. assert (e = pd) as -> by congruence. eexists. split; [done|].
    split; [apply dsame_bucket|]. done.
  - rewrite lookup_insert_ne, lookup_insert_ne; [|intros <-; pose proof hung_fresh; congruence|done]. eauto.
Qed.

Lemma hung_inv y e' : hung !! y = Some e' -> (y = x /\ e' = dentry_set_next d old) \/
  (y <> x /\ exists e, ds !! y = Some e /\ dsame e e' /\ d_next e' = d_next e /\ (y <> par -> e' = e)).
Proof.
  intros He'. destruct (decide (y = x)) as [-> | Hy]; [left; rewrite hung_new in He'; by injection He' as <-|].
  right. split; [done|]. assert (exists e, ds !! y = Some e) as [e He].
  { unfold hung in He'. destruct (decide (y = par)) as [-> | Hyp]; [eauto|].
    rewrite lookup_insert_ne, lookup_insert_ne in He' by done. eauto. }
  exists e. split; [done|]. destruct (hung_old y e He) as (e2 & H2 & ?). congruence.
Qed.

Lemma hung_child a c y : child_in hung r a c y <-> child_in ds r a c y \/ (y = x /\ a = par /\ c = b).
Proof.
  unfold child_in. split.
  - intros (Hr & e' & He' & Hp & Hh). destruct (hung_inv _ _ He') as [[-> ->] | (Hy & e & He & Hs & _)].
    + right. simpl in Hp. rewrite Hdp in Hp. split; [done|]. split; [congruence|].
      unfold dname in *. simpl in Hh. done.
    + left. split; [done|]. exists e. rewrite <- (dsame_name _ _ Hs). destruct Hs as (_ & _ & Hs & _).
      split; [done|]. split; congruence.
  - intros [(Hr & e & He & Hp & Hh) | (-> & -> & ->)].
    + split; [done|]. destruct (hung_old _ _ He) as (e' & He' & Hs & _). exists e'.
      rewrite (dsame_name _ _ Hs). destruct Hs as (_ & _ & Hs & _). split; [done|]. split; congruence.
    + split; [apply not_eq_sym, hung_root|]. exists (dentry_set_next d old).
      split; [apply hung_new|]. done.
Qed.

Lemma hung_linked p l : linked ds p l -> linked hung p l.
Proof. intros Hl. apply (linked_frame _ _ _ _ Hl). intros y e _ He. destruct (hung_old y e He) as (e' & ? & _ & ? & _). eauto. Qed.

Lemma hung_tree : tree_ok hung r n'.
Proof.
  pose proof hung_fresh as Hx. split.
  - destruct (tk_root _ _ _ Ht) as (rd & Hr & Hrp). destruct (hung_old _ _ Hr) as (rd' & ? & (_ & _ & Hs & _) & _).
    exists rd'. split; [done|]. congruence.
  - intros y e' He'. destruct (hung_inv _ _ He') as [[-> ->] | (Hy & e & He & (Hs1 & Hs2 & Hs3 & Hs4 & Hs5 & Hs6) & _)].
    + split; [lia|]. split; [done|]. split; [done|]. split; [|simpl; rewrite Hdb; by rewrite length_replicate].
      exists par. split; [done|]. rewrite hung_parent. eauto.
    + destruct (tk_dentry _ _ _ Ht _ _ He) as (? & ? & ? & (p & Hp & [q Hq]) & ? & ? & ?).
      split; [lia|]. rewrite Hs1, Hs4, Hs5, Hs6. split; [done|]. split; [unfold dname in *; by rewrite Hs1|].
      split; [|done]. exists p. split; [congruence|]. destruct (hung_old _ _ Hq) as (q' & ? & _). eauto.
  - intros y e' c p He' Hp. destruct (hung_inv _ _ He') as [[-> ->] | (Hy & e & He & Hs & _ & Heq)].
    + simpl in Hp. rewrite Hdb in Hp. apply lookup_replicate in Hp as [-> _].
      exists []. split; [done|]. split; [constructor|]. intros y. split; [by intros ?%elem_of_nil|].
      rewrite hung_child. intros [(_ & e & He & Hep & _) | (_ & Hxp & _)]; [|by pose proof hung_par].
      destruct (tk_dentry _ _ _ Ht _ _ He) as (_ & _ & _ & (q & Hq & [? ?]) & _). congruence.
    + destruct (decide (y = par)) as [-> | Hyp].
      * rewrite hung_parent in He'. injection He' as <-. assert (e = pd) as -> by congruence. simpl in Hp.
        destruct (decide (c = b)) as [-> | Hc].
        -- rewrite list_lookup_insert_eq in Hp by by eapply lookup_lt_Some. injection Hp as <-.
           destruct (tk_chain _ _ _ Ht _ _ _ _ Hpar Hold) as (l & Hl & Hnd & Hm).
           assert (Hxl : x ∉ l) by (intros Hin%(linked_mem _ _ _ _ Hl); destruct Hin; congruence).
           exists (x :: l). split; [|split; [by constructor|]].
           { split; [done|]. exists (dentry_set_next d old). split; [apply hung_new|]. by apply hung_linked. }
           intros z. rewrite elem_of_cons, Hm, hung_child. naive_solver.
        -- rewrite list_lookup_insert_ne in Hp by done.
           destruct (tk_chain _ _ _ Ht _ _ _ _ Hpar Hp) as (l & Hl & Hnd & Hm). exists l.
           split; [by apply hung_linked|]. split; [done|]. intros z. rewrite Hm, hung_child. naive_solver.
      * rewrite (Heq Hyp) in Hp. destruct (tk_chain _ _ _ Ht _ _ _ _ He Hp) as (l & Hl & Hnd & Hm). exists l.
        split; [by apply hung_linked|]. split; [done|]. intros z. rewrite Hm, hung_child. naive_solver.
  - assert (Hclash : forall y e, y <> r -> ds !! y = Some e -> d_parent e = Some par -> dname e <> dname d)
      by by eapply child_of_None.
    intros y z ey' ez' Hyr Hzr Hy' Hz' Hp Hnm.
    destruct (hung_inv _ _ Hy') as [[-> ->] | (Hyx & ey & Hy & Hsy & _)];
    destruct (hung_inv _ _ Hz') as [[-> ->] | (Hzx & ez & Hz & Hsz & _)]; [done| | |].
    + exfalso. apply (Hclash z ez Hzr Hz); [destruct Hsz as (_ & _ & <- & _); rewrite <- Hp; done|].
      rewrite <- (dsame_name _ _ Hsz), <- Hnm. done.
    + exfalso. apply (Hclash y ey Hyr Hy); [destruct Hsy as (_ & _ & <- & _); rewrite Hp; done|].
      rewrite <- (dsame_name _ _ Hsy), Hnm. done.
    + apply (tk_uniq _ _ _ Ht y z ey ez); try done.
      * destruct Hsy as (_ & _ & <- & _), Hsz as (_ & _ & <- & _). done.
      * by rewrite <- (dsame_name _ _ Hsy), <- (dsame_name _ _ Hsz).
Qed.
End hang.

(** [prev] for the entry behind [l1] in its chain. *)
Definition prev_of (prev : option nat) (l1 : list nat) : option nat :=
  match list.last l1 with Some q => Some q | None => prev end.

Lemma find_prev_linked fuel ds x prev p l1 l2 :
  linked ds p (l1 ++ x :: l2) -> x ∉ l1 -> (length l1 <= fuel)%nat ->
  find_prev fuel ds x prev p = Some (Some (prev_of prev l1)).
Proof.
  revert fuel prev p. induction l1 as [|y l1 IH]; intros fuel prev p; simpl.
  - intros (-> & _) _ _. destruct fuel; simpl; by rewrite Nat.eqb_refl.
  - intros (-> & e & He & Hl) Hx Hf. apply not_elem_of_cons in Hx as [Hxy Hx].
    destruct fuel as [|fuel]; [lia|]. simpl. rewrite (proj2 (Nat.eqb_neq y x)) by done.
    rewrite He. cbn [mbind option_bind]. rewrite (IH fuel (Some y) _ Hl Hx ltac:(lia)).
    unfold prev_of. rewrite last_cons. by destruct (list.last l1).
Qed.

Lemma linked_cut ds ds' p k q x d l2 :
  linked ds p (k ++ q :: x :: l2) -> NoDup (k ++ q :: x :: l2) -> ds !! x = Some d ->
  (forall e, ds !! q = Some e -> exists e', ds' !! q = Some e' /\ d_next e' = d_next d) ->
  (forall y e, y <> q -> y <> x -> ds !! y = Some e -> exists e', ds' !! y = Some e' /\ d_next e' = d_next e) ->
  linked ds' p (k ++ q :: l2).
Proof.
  intros Hl Hnd Hx Hq Ho. revert p Hl. induction k as [|y k IH]; intros p.
  - intros (-> & e & He & (Hnx & dx & Hdx & Hl)). split; [done|].
    destruct (Hq _ He) as (e' & He' & Hn). exists e'. split; [done|]. rewrite Hn.
    assert (dx = d) as -> by congruence. apply (linked_frame _ _ _ _ Hl). intros y ey Hy Hey.
    apply list.NoDup_cons in Hnd as [Hq2 Hnd]. apply list.NoDup_cons in Hnd as [Hx2 _]. apply Ho; [| |done].
    + intros ->. apply Hq2. apply elem_of_cons; auto.
    + by intros ->.
  - intros (-> & e & He & Hl). apply list.NoDup_cons in Hnd as [Hy Hnd]. split; [done|].
    destruct (Ho y e) as (e' & He' & Hn); [| |done|].
    + intros ->. apply Hy. apply elem_of_app. right. apply elem_of_cons; auto.
    + intros ->. apply Hy. apply elem_of_app. right. apply elem_of_cons; right. apply elem_of_cons; auto.
    + exists e'. split; [done|]. rewrite Hn. by apply IH.
Qed.

Section unhang.
Context (ds : gmap nat dentry) (r n x par : nat) (d pd : dentry) (p : option nat) (l1 l2 : list nat).
Context (Ht : tree_ok ds r n) (Hx : ds !! x = Some d) (Hxr : x <> r).
Context (Hdp : d_parent d = Some par) (Hpar : ds !! par = Some pd).
Context (Hleaf : forall y e, ds !! y = Some e -> d_parent e <> Some x).
Notation b := (Z.to_nat (dentry_hash (dname d))).
Context (Hb : d_bucket pd !! b = Some p) (Hl : linked ds p (l1 ++ x :: l2)) (Hnd : NoDup (l1 ++ x :: l2)).
Context (Hmem : forall y, y ∈ l1 ++ x :: l2 <-> child_in ds r par b y).

(** The entries once [x] is out of its chain. *)
Definition unlinked : gmap nat dentry :=
  match prev_of None l1 with
  | None => <[par := dentry_set_bucket pd b (d_next d)]> ds
  | Some q => match ds !! q with Some qd => <[q := dentry_set_next qd (d_next d)]> ds | None => ds end
  end.

Definition unhung : gmap nat dentry := delete x unlinked.

Lemma unhung_par : par <> x.
Proof. intros ->. exact (Hleaf _ _ Hx Hdp). Qed.

Lemma unhung_old y e : y <> x -> ds !! y = Some e -> exists e', unhung !! y = Some e' /\ dsame e e' /\
  d_next e' = (if bool_decide (prev_of None l1 = Some y) then d_next d else d_next e) /\
  d_bucket e' = (if bool_decide (prev_of None l1 = None /\ y = par) then <[b := d_next d]> (d_bucket e) else d_bucket e).
Proof.
  intros Hyx He. unfold unhung, unlinked. rewrite lookup_delete_ne by done.
  destruct (prev_of None l1) as [q|] eqn:Hq.
  - rewrite (bool_decide_eq_false_2 (Some q = None /\ _)) by naive_solver.
    destruct (decide (q = y)) as [-> | Hqy].
    + rewrite He, lookup_insert_eq, bool_decide_eq_true_2 by done. eauto.
    + rewrite bool_decide_eq_false_2 by congruence. exists e. split; [|done].
      destruct (ds !! q); [by rewrite lookup_insert_ne|done].
  - rewrite (bool_decide_eq_false_2 (None = Some y)) by done. destruct (decide (y = par)) as [-> | Hyp].
    + rewrite lookup_insert_eq, bool_decide_eq_true_2 by done. assert (e = pd) as -> by congruence. eauto.
    + rewrite lookup_insert_ne, bool_decide_eq_false_2 by naive_solver. eauto.
Qed.

Lemma unhung_inv y e' : unhung !! y = Some e' -> y <> x /\ exists e, ds !! y = Some e.
Proof.
  unfold unhung. rewrite lookup_delete_Some. intros [Hyx Hy]. split; [congruence|]. unfold unlinked in Hy.
  destruct (prev_of None l1) as [q|].
  - destruct (ds !! q) as [qd|] eqn:Hq; [|eauto]. destruct (decide (y = q)) as [-> | ?]; [eauto|].
    rewrite lookup_insert_ne in Hy; eauto.
  - destruct (decide (y = par)) as [-> | ?]; [eauto|]. rewrite lookup_insert_ne in Hy; eauto.
Qed.

Lemma unhung_child a c y : child_in unhung r a c y <-> child_in ds r a c y /\ y <> x.
Proof.
  unfold child_in. split.
  - intros (Hr & e' & He' & Hp & Hh). destruct (unhung_inv _ _ He') as (Hy & e & He).
    destruct (unhung_old _ _ Hy He) as (e2 & H2 & Hs & _). assert (e2 = e') as -> by congruence.
    split; [|done]. split; [done|]. exists e. rewrite <- (dsame_name _ _ Hs).
    destruct Hs as (_ & _ & Hs & _). split; [done|]. split; congruence.
  - intros [(Hr & e & He & Hp & Hh) Hy]. split; [done|].
    destruct (unhung_old _ _ Hy He) as (e' & He' & Hs & _). exists e'. rewrite (dsame_name _ _ Hs).
    destruct Hs as (_ & _ & Hs & _). split; [done|]. split; congruence.
Qed.

Lemma unhung_chain : exists p', (forall e', unhung !! par = Some e' -> d_bucket e' !! b = Some p') /\
  linked unhung p' (l1 ++ l2).
Proof.
  destruct (unhung_old par pd unhung_par Hpar) as (pd' & Hpd' & _ & _ & Hbk).
  pose proof Hnd as (Hnd1 & Hdis & Hnd2)%list.NoDup_app. apply list.NoDup_cons in Hnd2 as [Hx2 _].
  pose proof Hl as Hlk. pose proof Hnd as Hnk.
  destruct (snoc_cases l1) as [E | (k & q & E)]; rewrite E in Hlk, Hnk; rewrite E.
  - exists (d_next d). split.
    + intros e' He'. assert (e' = pd') as -> by congruence. rewrite Hbk, bool_decide_eq_true_2 by by rewrite E.
      apply list_lookup_insert_eq. by eapply lookup_lt_Some.
    + destruct Hlk as (_ & dx & Hdx & Hl2). assert (dx = d) as -> by congruence.
      apply (linked_frame _ _ _ _ Hl2). intros y e Hy He.
      destruct (unhung_old y e) as (e' & He' & _ & Hn & _); [by intros ->|done|]. exists e'. split; [done|].
      rewrite Hn, bool_decide_eq_false_2; [done|]. by rewrite E.
  - assert (Hprev : prev_of None l1 = Some q) by (unfold prev_of; by rewrite E, last_snoc).
    exists p. split.
    + intros e' He'. assert (e' = pd') as -> by congruence.
      rewrite Hbk, bool_decide_eq_false_2; [done|]. rewrite Hprev. naive_solver.
    + rewrite <- app_assoc in Hlk, Hnk |- *. apply (linked_cut ds unhung p k q x d l2); try done.
      * intros e He. destruct (unhung_old q e) as (e' & He' & _ & Hn & _); [|done|].
        { intros ->. apply (Hdis x); [rewrite E; apply elem_of_app; right; by apply list_elem_of_singleton|apply elem_of_cons; auto]. }
        exists e'. split; [done|]. rewrite Hn, Hprev, bool_decide_eq_true_2; done.
      * intros y e Hyq Hyx He. destruct (unhung_old y e Hyx He) as (e' & He' & _ & Hn & _).
        exists e'. split; [done|]. rewrite Hn, Hprev, bool_decide_eq_false_2; congruence.
Qed.

Lemma unhung_other a c y : child_in ds r a c y -> (a, c) <> (par, b) -> prev_of None l1 <> Some y.
Proof.
  intros (_ & e & He & Hp & Hh) Hne Hq. unfold prev_of in Hq. destruct (list.last l1) as [q|] eqn:Hla; [|done].
  injection Hq as ->. apply last_Some in Hla as [k Hk].
  assert (Hin : y ∈ l1 ++ x :: l2) by (rewrite Hk; set_solver).
  apply Hmem in Hin as (_ & e2 & He2 & Hp2 & Hh2). apply Hne. congruence.
Qed.

Lemma unhung_tree : tree_ok unhung r n.
Proof.
  split.
  - destruct (tk_root _ _ _ Ht) as (rd & Hr & Hrp).
    destruct (unhung_old r rd ltac:(done) Hr) as (rd' & ? & (_ & _ & Hs & _) & _). exists rd'. split; [done|]. congruence.
  - intros y e' He'. destruct (unhung_inv _ _ He') as (Hy & e & He).
    destruct (unhung_old _ _ Hy He) as (e2 & H2 & (Hs1 & Hs2 & Hs3 & Hs4 & Hs5 & Hs6) & _).
    assert (e2 = e') as -> by congruence.
    destruct (tk_dentry _ _ _ Ht _ _ He) as (? & ? & ? & (q & Hq & [qd Hqd]) & ? & ? & ?).
    split; [done|]. rewrite Hs1, Hs4, Hs5, Hs6. split; [done|]. split; [unfold dname in *; by rewrite Hs1|].
    split; [|done]. exists q. split; [congruence|].
    destruct (unhung_old q qd) as (q' & ? & _); [|done|eauto]. intros ->. exact (Hleaf _ _ He Hq).
  - intros y e' c p0 He' Hp0. destruct (unhung_inv _ _ He') as (Hy & e & He).
    destruct (unhung_old _ _ Hy He) as (e2 & H2 & _ & _ & Hbk). assert (e2 = e') as -> by congruence.
    destruct (decide ((y, c) = (par, b))) as [[= -> ->] | Hne].
    + destruct unhung_chain as (p' & Hp' & Hlk). rewrite (Hp' _ He') in Hp0. injection Hp0 as <-.
      exists (l1 ++ l2). split; [done|].
      pose proof Hnd as (Hnd1 & Hdis & Hnd2)%list.NoDup_app. apply list.NoDup_cons in Hnd2 as [Hx2 Hnd2].
      split; [apply list.NoDup_app; split; [done|]; split; [|done]; intros z Hz1 Hz2; apply (Hdis z Hz1); apply elem_of_cons; auto|].
      intros z. rewrite unhung_child, <- Hmem, !elem_of_app, elem_of_cons.
      assert (x ∉ l1) by (intros Hin; apply (Hdis x Hin); apply elem_of_cons; auto). naive_solver.
    + assert (Hp1 : d_bucket e !! c = Some p0).
      { rewrite Hbk in Hp0. case_bool_decide as Hc; [|done]. destruct Hc as [_ ->].
        rewrite list_lookup_insert_ne in Hp0; [done|]. intros <-. by apply Hne. }
      destruct (tk_chain _ _ _ Ht _ _ _ _ He Hp1) as (l & Hlk & Hndl & Hm). exists l.
      assert (Hxl : x ∉ l).
      { intros (_ & e2 & He2 & Hp2 & Hh2)%Hm. apply Hne. congruence. }
      split; [|split; [done|]].
      * apply (linked_frame _ _ _ _ Hlk). intros z ez Hz Hez.
        destruct (unhung_old z ez) as (ez' & Hez' & _ & Hn & _); [by intros ->|done|]. exists ez'. split; [done|].
        rewrite Hn, bool_decide_eq_false_2; [done|]. apply (unhung_other y c); [by apply Hm|done].
      * intros z. rewrite unhung_child, Hm. split; [|tauto]. intros Hz. split; [done|]. intros ->. by apply Hxl, Hm.
  - intros y z ey' ez' Hyr Hzr Hy' Hz' Hp Hnm.
    destruct (unhung_inv _ _ Hy') as (Hyx & ey & Hy), (unhung_inv _ _ Hz') as (Hzx & ez & Hz).
    destruct (unhung_old _ _ Hyx Hy) as (e2 & H2 & Hs & _). assert (e2 = ey') as -> by congruence.
    destruct (unhung_old _ _ Hzx Hz) as (e2 & H3 & Hsz & _). assert (e2 = ez') as -> by congruence.
    rewrite (dsame_name _ _ Hs), (dsame_name _ _ Hsz) in Hnm.
    destruct Hs as (_ & _ & Hs & _), Hsz as (_ & _ & Hsz & _).
    apply (tk_uniq _ _ _ Ht y z ey ez); congruence.
Qed.
End unhang.

(** ** The parent of a path *)

Lemma has_slash_false p : has_slash p = false <-> SLASH ∉ p.
Proof.
  induction p as [|c p IH]; simpl; [split; [intros _ ?%elem_of_nil; done|done]|].
  rewrite orb_false_iff, IH, not_elem_of_cons. breflect. rewrite Z.eqb_neq. split; intros [? ?]; split; congruence.
Qed.

Lemma has_slash_split p : has_slash p = true -> exists pre base, p = pre ++ SLASH :: base /\ SLASH ∉ base.
Proof.
  induction p as [|c p IH]; simpl; [done|]. destruct (has_slash p) eqn:Hp.
  - intros _. destruct (IH eq_refl) as (pre & base & -> & Hb). by exists (c :: pre), base.
  - rewrite orb_false_r. intros Hc. breflect. subst c. exists [], p. split; [done|]. by apply has_slash_false.
Qed.

Lemma last_slash_none i l p : SLASH ∉ p -> last_slash i l p = l.
Proof.
  revert i. induction p as [|c p IH]; intros i Hp; simpl; [done|]. apply not_elem_of_cons in Hp as [Hc Hp].
  rewrite (proj2 (Z.eqb_neq c SLASH)) by congruence. by apply IH.
Qed.

Lemma last_slash_app i l pre base : SLASH ∉ base -> last_slash i l (pre ++ SLASH :: base) = i + zlen pre.
Proof.
  intros Hb. revert i l. induction pre as [|c pre IH]; intros i l; simpl.
  - rewrite last_slash_none by done. unfold zlen. simpl. lia.
  - rewrite IH. unfold zlen. simpl. lia.
Qed.

Lemma basename_none l p : SLASH ∉ p -> basename_from l p = l.
Proof.
  induction p as [|c p IH]; intros Hp; simpl; [done|]. apply not_elem_of_cons in Hp as [Hc Hp].
  rewrite (proj2 (Z.eqb_neq c SLASH)) by congruence. by apply IH.
Qed.

Lemma basename_app pre base : SLASH ∉ base -> basename (pre ++ SLASH :: base) = base.
Proof.
  intros Hb. unfold basename. generalize (pre ++ SLASH :: base) at 1 as l.
  induction pre as [|c pre IH]; intros l; simpl; [by apply basename_none|apply IH].
Qed.

Lemma parent_dirname_app pre base : SLASH ∉ base -> (length pre < PATH_BUF)%nat ->
  parent_dirname (pre ++ SLASH :: base) = Some (match pre with [] => [SLASH] | _ => pre end).
Proof.
  intros Hb Hl. unfold parent_dirname. rewrite last_slash_app by done. unfold zlen, PATH_BUF in *.
  destruct pre as [|c pre]; [done|]. cbn [length] in *.
  rewrite (proj2 (Z.leb_gt _ _)) by lia. rewrite (proj2 (Z.leb_gt _ _)) by lia.
  replace (Z.to_nat (0 + Z.of_nat (S (length pre)))) with (length (c :: pre)) by (simpl; lia). by rewrite take_app_length.
Qed.

Lemma split_slash_app p q : exists l seg k segs, split_slash p = l ++ [seg] /\
  split_slash q = k :: segs /\ split_slash (p ++ q) = l ++ (seg ++ k) :: segs.
Proof.
  destruct (split_slash_cons q) as (k & segs & Hq). induction p as [|c p IH].
  - exists [], [], k, segs. by rewrite Hq.
  - destruct IH as (l & seg & k' & segs' & Hp & Hq' & Hpq). simpl. rewrite Hp, Hpq.
    destruct (c =? SLASH); [by exists ([] :: l), seg, k', segs'|].
    destruct l as [|s l]; simpl; [by exists [], (c :: seg), k', segs' | by exists ((c :: s) :: l), seg, k', segs'].
Qed.

Lemma path_segs_slash p q : path_segs (p ++ SLASH :: q) = path_segs p ++ path_segs q.
Proof.
  unfold path_segs. destruct (split_slash_app p (SLASH :: q)) as (l & seg & k & segs & Hp & Hq & ->).
  rewrite Hp. simpl in Hq. injection Hq as <- <-.
  rewrite app_nil_r, !List.filter_app. simpl. destruct seg; simpl; by rewrite <- ?app_assoc.
Qed.

Lemma split_slash_single p : SLASH ∉ p -> split_slash p = [p].
Proof.
  induction p as [|c p IH]; intros Hp; simpl; [done|]. apply not_elem_of_cons in Hp as [Hc Hp].
  rewrite (proj2 (Z.eqb_neq c SLASH)) by congruence. by rewrite (IH Hp).
Qed.

Lemma path_segs_single p : SLASH ∉ p -> path_segs p = match p with [] => [] | _ => [p] end.
Proof. intros Hp. unfold path_segs. rewrite split_slash_single by done. by destruct p. Qed.

Lemma path_segs_length p : Forall (fun seg => (length seg <= length p)%nat) (path_segs p).
Proof.
  apply List.Forall_forall. intros seg Hin. apply List.filter_In in Hin as [Hin _]. revert seg Hin. induction p as [|c p IH]; simpl.
  - intros seg [<- | []]. done.
  - destruct (c =? SLASH).
    + intros seg [<- | Hin]; simpl; [lia|]. specialize (IH _ Hin). lia.
    + destruct (split_slash_cons p) as (s0 & segs & Hp). rewrite Hp in IH |- *. intros seg [<- | Hin]; simpl.
      * pose proof (IH s0 (or_introl eq_refl)). lia.
      * pose proof (IH seg (or_intror Hin)). lia.
Qed.

Lemma short_path p : (length p < PATH_BUF)%nat -> short (path_segs p).
Proof. intros Hp. unfold short. pose proof (path_segs_length p) as Hl. induction Hl; constructor; [lia|done]. Qed.

(** The directory and the name [resolve_parent_dir] takes a path apart into. *)
Definition parent_path (path : list Z) : list Z :=
  match parent_dirname path with Some p => p | None => [] end.

Definition parent_meaning (s : vfs) (root : nat) (path : list Z) : option nat :=
  if has_slash path then meaning s root (parent_path path) else start_dir s path.
Definition leaf_name (path : list Z) : list Z := if has_slash path then basename path else path.

Lemma start_dir_parent s pre base :
  start_dir s (match pre with [] => [SLASH] | _ => pre end) = start_dir s (pre ++ SLASH :: base).
Proof. by destruct pre. Qed.

Lemma meaning_parent s root path dir : (length path < PATH_BUF)%nat ->
  parent_meaning s root path = Some dir -> dir_entry s dir = true -> meaning s root path = None ->
  good_name (leaf_name path) /\ child_of (v_dentries s) root dir (leaf_name path) = None.
Proof.
  intros Hlen Hpar Hdir Hno.
  assert (Hleaf : exists base, leaf_name path = base /\ SLASH ∉ base /\ (length base < PATH_BUF)%nat /\
    meaning s root path = walk s root dir (match base with [] => [] | _ => [base] end)).
  { unfold leaf_name, parent_meaning, meaning in *. destruct (has_slash path) eqn:Hs.
    - destruct (has_slash_split path Hs) as (pre & base & -> & Hb). rewrite length_app in Hlen. simpl in Hlen.
      unfold parent_path in Hpar. rewrite parent_dirname_app in Hpar by (done || lia).
      rewrite (start_dir_parent s pre base) in Hpar. exists base. rewrite basename_app by done.
      split; [done|]. split; [done|]. split; [lia|].
      destruct (start_dir s _) as [d0|]; [|done]. cbn [mbind option_bind] in *.
      rewrite path_segs_slash, walk_app, (path_segs_single base) by done.
      replace (path_segs (match pre with [] => [SLASH] | _ => pre end)) with (path_segs pre) in Hpar by by destruct pre.
      by rewrite Hpar.
    - exists path. apply has_slash_false in Hs. split; [done|]. split; [done|]. split; [done|].
      rewrite Hpar. cbn [mbind option_bind]. by rewrite path_segs_single. }
  destruct Hleaf as (base & -> & Hb & Hbl & Hm). rewrite Hm in Hno. destruct base as [|c base]; [done|].
  cbn [walk] in Hno. unfold walk_step in Hno. case_bool_decide as H1; [done|]. case_bool_decide as H2; [done|].
  rewrite Hdir in Hno. destruct (child_of _ _ _ _) eqn:Hc; [done|]. done.
Qed.
