(* ===== verification/VfsInv.v ===== *)
(** * The file system keeps its invariant

    What holds of every state of [kernel/VFS/vfs.c] between two system calls:
    the tree is well formed, each entry has its inode and each in-memory file
    its block, each open file its entry, and the two kinds of reference count
    are exact.  Every system call ends, and keeps it. *)

From stdpp Require Import gmap.
From S2P Require Import Prelude StateMonad SlotTable Vfs VfsTree.

#[local] Open Scope Z_scope.

(** ** Sums over the tasks *)

Definition tsum (g : io -> nat) (m : gmap nat io) : nat := map_fold (fun _ t k => (g t + k)%nat) 0%nat m.

Lemma tsum_new g m t a : m !! t = None -> tsum g (<[t := a]> m) = (g a + tsum g m)%nat.
Proof. intros Hm. unfold tsum. rewrite map_fold_insert_L; [done| |done]. intros. lia. Qed.

Lemma tsum_insert g m t a b : m !! t = Some a -> (tsum g (<[t := b]> m) + g a = tsum g m + g b)%nat.
Proof.
  intros Hm. rewrite <- (insert_delete_id m t a Hm) at 2. rewrite <- (insert_delete_eq m t b).
  rewrite !tsum_new by apply lookup_delete_eq. lia.
Qed.

Lemma tsum_mem g m t a : m !! t = Some a -> (g a <= tsum g m)%nat.
Proof. intros Hm. rewrite <- (insert_delete_id m t a Hm), tsum_new by apply lookup_delete_eq. lia. Qed.

Lemma tsum_ext g h m : (forall t a, m !! t = Some a -> g a = h a) -> tsum g m = tsum h m.
Proof.
  induction m as [|t a m Hm IH] using map_ind; [done|]. intros Hgh.
  rewrite !tsum_new by done. rewrite (Hgh t a) by apply lookup_insert_eq. rewrite IH; [done|].
  intros u c Hu. apply (Hgh u). rewrite lookup_insert_ne; [done|]. intros <-. congruence.
Qed.

Lemma tsum_bound g m c : (forall t a, m !! t = Some a -> g a <= c)%nat -> (tsum g m <= c * size m)%nat.
Proof.
  induction m as [|t a m Hm IH] using map_ind; intros Hb; [unfold tsum; rewrite map_fold_empty; lia|].
  rewrite tsum_new, map_size_insert_None by done. pose proof (Hb t a (lookup_insert_eq _ _ _)).
  assert (tsum g m <= c * size m)%nat; [|lia]. apply IH. intros u e Hu. apply (Hb u).
  rewrite lookup_insert_ne; [done|]. intros <-. congruence.
Qed.

(** ** The invariant *)

Definition ram_ok (ram : ramfs_inode) : Prop :=
  zlen (rm_data ram) = rm_capacity ram /\ exists k, 12 <= k <= 31 /\ rm_capacity ram = 2 ^ k.

Definition file_node (rs : gmap nat ramfs_inode) (ino : inode) : Prop :=
  i_flags ino = VFS_FILE /\ i_ops ino = Some ramfs_ops /\
  exists r ram, i_private ino = Some r /\ rs !! r = Some ram /\ ram_ok ram /\ 0 <= i_size ino <= rm_capacity ram.
Definition dir_node (ino : inode) : Prop :=
  i_flags ino = VFS_DIR /\ i_private ino = None /\ (i_ops ino = None \/ i_ops ino = Some ramfs_ops).
Definition dev_node (ino : inode) : Prop :=
  i_flags ino = VFS_DEVICE /\ i_private ino = None /\ i_ops ino = Some tty_ops.

(** The inode of an entry. *)
Definition inode_of (ds : gmap nat dentry) (x : nat) : option nat := ds !! x ≫= d_inode.

Record nodes_ok (ds : gmap nat dentry) (ns : gmap nat inode) (rs : gmap nat ramfs_inode) (fresh : nat) : Prop := {
  nk_entry : forall x d, ds !! x = Some d -> exists i ino, d_inode d = Some i /\ ns !! i = Some ino /\
    i_flags ino <> VFS_DEVICE;
  nk_parent : forall x d p i ino, ds !! x = Some d -> d_parent d = Some p -> inode_of ds p = Some i ->
    ns !! i = Some ino -> i_flags ino = VFS_DIR;
  nk_inj : forall x y i, inode_of ds x = Some i -> inode_of ds y = Some i -> x = y;
  nk_node : forall i ino, ns !! i = Some ino -> (i < fresh)%nat /\ (file_node rs ino \/ dir_node ino \/ dev_node ino);
  nk_private : forall i j ii jj r, ns !! i = Some ii -> ns !! j = Some jj ->
    i_private ii = Some r -> i_private jj = Some r -> i = j;
  nk_ram : forall r ram, rs !! r = Some ram -> (r < fresh)%nat }.

(** How many descriptors of all tasks lead to file [f], and to inode [i]. *)
Definition to_file (f : nat) (p : option nat) : bool := bool_decide (p = Some f).
Definition to_inode (fs : gmap nat file) (i : nat) (p : option nat) : bool :=
  match p ≫= fun f => fs !! f with Some fl => bool_decide (f_inode fl = Some i) | None => false end.
Definition slots (ts : gmap nat io) (f : nat) : nat := tsum (fun t => count_if (to_file f) (io_fds t)) ts.
Definition opens (ts : gmap nat io) (fs : gmap nat file) (i : nat) : nat :=
  tsum (fun t => count_if (to_inode fs i) (io_fds t)) ts.

(** A task needs a page for its stack: a 32-bit machine has room for fewer. *)
Definition MAX_TASKS : Z := 1048576.

Definition file_ok (ds : gmap nat dentry) (ns : gmap nat inode) (fresh : nat) (f : nat) (fl : file) : Prop :=
  (f < fresh)%nat /\ is_u32 (f_offset fl) /\
  exists i ino, f_inode fl = Some i /\ ns !! i = Some ino /\
    (i_flags ino <> VFS_DEVICE -> exists x, f_dentry fl = Some x /\ inode_of ds x = Some i) /\
    (i_flags ino = VFS_FILE -> f_offset fl <= i_size ino).

Definition task_ok (ds : gmap nat dentry) (ns : gmap nat inode) (fs : gmap nat file) (t : io) : Prop :=
  length (io_fds t) = TASK_MAX_FDS /\
  (forall k f, io_fds t !! k = Some (Some f) -> is_Some (fs !! f)) /\
  (forall c, io_cwd t = Some c -> exists i ino, inode_of ds c = Some i /\ ns !! i = Some ino /\ i_flags ino = VFS_DIR).

(** The count of an inode with [n] descriptors is exact, but for the terminal:
    [init_tasking] opens the three standard streams without counting them. *)
Definition ref_ok (ino : inode) (n : nat) : Prop :=
  0 <= i_ref ino <= Z.of_nat n /\ (i_flags ino <> VFS_DEVICE -> i_ref ino = Z.of_nat n).

Record open_ok (ds : gmap nat dentry) (ns : gmap nat inode) (fs : gmap nat file) (ts : gmap nat io)
    (fresh : nat) : Prop := {
  ok_file : forall f fl, fs !! f = Some fl -> file_ok ds ns fresh f fl;
  ok_slots : forall f fl, fs !! f = Some fl -> f_ref fl = Z.of_nat (slots ts f) /\ (0 < slots ts f)%nat;
  ok_opens : forall i ino, ns !! i = Some ino -> ref_ok ino (opens ts fs i);
  ok_task : forall t a, ts !! t = Some a -> task_ok ds ns fs a;
  ok_few : Z.of_nat (size ts) <= MAX_TASKS }.

Record fs_inv (root : nat) (s : vfs) : Prop := {
  fi_root : v_root s = Some root;
  fi_tree : tree_ok (v_dentries s) root (v_fresh s);
  fi_nodes : nodes_ok (v_dentries s) (v_inodes s) (v_rams s) (v_fresh s);
  fi_open : open_ok (v_dentries s) (v_inodes s) (v_files s) (v_tasks s) (v_fresh s);
  fi_current : is_Some (v_tasks s !! v_current s);
  fi_names : forall x d, v_dentries s !! x = Some d -> x <> root -> v_devfs_root s <> Some x ->
    exists n, d_name d = Strdup n }.

(** ** Running the monad *)

Lemma run_dentry {B} p x d (k : dentry -> M B) s : p = Some x -> v_dentries s !! x = Some d ->
  (get_dentry p ≫= k) s = k d s.
Proof. intros -> Hx. by apply run_reads. Qed.

Lemma run_inode {B} p x d (k : inode -> M B) s : p = Some x -> v_inodes s !! x = Some d ->
  (get_inode p ≫= k) s = k d s.
Proof. intros -> Hx. by apply run_reads. Qed.

Lemma run_ram {B} x d (k : ramfs_inode -> M B) s : v_rams s !! x = Some d -> (get_ram (Some x) ≫= k) s = k d s.
Proof. intros Hx. by apply run_reads. Qed.

Lemma run_file {B} p x d (k : file -> M B) s : p = Some x -> v_files s !! x = Some d ->
  (get_file p ≫= k) s = k d s.
Proof. intros -> Hx. by apply run_reads. Qed.

Lemma run_current {B} t (k : io -> M B) s : v_tasks s !! v_current s = Some t -> (current ≫= k) s = k t s.
Proof. intros Hx. by apply run_reads. Qed.

Lemma run_put_current {B} t (k : unit -> M B) s :
  (put_current t ≫= k) s = k tt (set_tasks (insert (v_current s) t) s).
Proof. done. Qed.

Lemma run_kmalloc `{Machine} {B} kd (k : option nat -> M B) s :
  (kmalloc kd ≫= k) s = k (if grants kd (v_fresh s) then Some (v_fresh s) else None) (set_fresh (S (v_fresh s)) s).
Proof. done. Qed.

(** ** Lookups *)

Lemma inode_of_Some ds x i : inode_of ds x = Some i <-> exists d, ds !! x = Some d /\ d_inode d = Some i.
Proof.
  unfold inode_of. destruct (ds !! x) as [d|]; simpl; [|naive_solver]. split; [eauto|]. by intros (d' & [= <-] & ?).
Qed.

Lemma node_is_dir rs ino : file_node rs ino \/ dir_node ino \/ dev_node ino ->
  is_dir ino = bool_decide (i_flags ino = VFS_DIR).
Proof.
  unfold is_dir. intros [(-> & _) | [(-> & _) | (-> & _)]]; done.
Qed.

Section inv.
Context (root : nat) (s : vfs) (Hinv : fs_inv root s).

Lemma inv_has_inodes : has_inodes s.
Proof. intros x d Hd. destruct (nk_entry _ _ _ _ (fi_nodes _ _ Hinv) _ _ Hd) as (i & ino & ? & ? & _). eauto. Qed.

Lemma inv_dir_entry x : dir_entry s x = true <-> exists i ino, inode_of (v_dentries s) x = Some i /\
  v_inodes s !! i = Some ino /\ i_flags ino = VFS_DIR.
Proof.
  unfold dir_entry, inode_of. destruct (v_dentries s !! x) as [d|]; cbn [mbind option_bind]; [|naive_solver].
  destruct (d_inode d) as [i|]; cbn [mbind option_bind]; [|naive_solver].
  destruct (v_inodes s !! i) as [ino|] eqn:Hi; cbn [mbind option_bind]; [|naive_solver].
  rewrite (node_is_dir (v_rams s)) by apply (nk_node _ _ _ _ (fi_nodes _ _ Hinv) _ _ Hi).
  rewrite bool_decide_eq_true. split; [eauto|]. intros (j & jno & [= <-] & Hj & ?). congruence.
Qed.

Lemma inv_entry x : is_Some (v_dentries s !! x) -> exists d i ino, v_dentries s !! x = Some d /\
  d_inode d = Some i /\ v_inodes s !! i = Some ino /\ d_mount d = None /\
  dir_entry s x = is_dir ino /\ (file_node (v_rams s) ino \/ dir_node ino).
Proof.
  intros [d Hd]. destruct (nk_entry _ _ _ _ (fi_nodes _ _ Hinv) _ _ Hd) as (i & ino & Hi & Hino & Hdev).
  exists d, i, ino. do 3 (split; [done|]). split; [apply (tk_dentry _ _ _ (fi_tree _ _ Hinv) _ _ Hd)|]. split.
  - unfold dir_entry. rewrite Hd. cbn [mbind option_bind]. rewrite Hi. cbn [mbind option_bind]. by rewrite Hino.
  - destruct (nk_node _ _ _ _ (fi_nodes _ _ Hinv) _ _ Hino) as (_ & [? | [? | (Hf & _)]]); auto. done.
Qed.

Lemma inv_start path dir : start_dir s path = Some dir -> is_Some (v_dentries s !! dir).
Proof.
  unfold start_dir. case_bool_decide.
  - rewrite (fi_root _ _ Hinv). intros [= <-]. destruct (tk_root _ _ _ (fi_tree _ _ Hinv)) as (d & ? & _). eauto.
  - destruct (v_tasks s !! v_current s) as [t|] eqn:Ht; cbn [mbind option_bind]; [|done]. intros Hc.
    destruct (ok_task _ _ _ _ _ (fi_open _ _ Hinv) _ _ Ht) as (_ & _ & Hcwd).
    destruct (Hcwd _ Hc) as (i & ino & Hi & _). apply inode_of_Some in Hi as (d & ? & _). eauto.
Qed.

Lemma inv_meaning path x : meaning s root path = Some x -> is_Some (v_dentries s !! x).
Proof.
  unfold meaning. destruct (start_dir s path) as [dir|] eqn:Hd; cbn [mbind option_bind]; [|done].
  eapply walk_mem; [apply Hinv|]. by eapply inv_start.
Qed.

Definition path_ok (path : list Z) : Prop := (length path < PATH_BUF)%nat /\ is_Some (start_dir s path).

Lemma resolve_spec path : path_ok path -> vfs_resolve_path (v_root s) path s = Some (meaning s root path, s).
Proof.
  intros [Hlen [dir Hdir]]. unfold vfs_resolve_path. rewrite (fi_root _ _ Hinv).
  assert (Hstart : (if bool_decide (head path = Some SLASH) then mret (Some root) else io_cwd <$> current) s =
    Some (Some dir, s)).
  { unfold start_dir in Hdir. rewrite (fi_root _ _ Hinv) in Hdir. case_bool_decide; [by rewrite <- Hdir|].
    destruct (v_tasks s !! v_current s) as [t|] eqn:Ht; [|done]. cbn [mbind option_bind] in Hdir.
    unfold fmap, ST_fmap, current, reads. rewrite Ht. simpl. by rewrite Hdir. }
  rewrite (run_bind _ _ _ _ _ Hstart). unfold reads.
  rewrite (resolve_loop_spec s root (v_fresh s)); [|apply Hinv|apply inv_has_inodes|by eapply inv_start|by apply short_path|lia].
  unfold meaning. by rewrite Hdir.
Qed.

Lemma lookup_spec path : path_ok path -> vfs_lookup (v_root s) path s = Some (meaning s root path, s).
Proof.
  intros Hp. unfold vfs_lookup. rewrite (run_bind _ _ _ _ _ (resolve_spec _ Hp)).
  destruct (meaning s root path) as [x|] eqn:Hm; [|done].
  destruct (inv_entry x (inv_meaning _ _ Hm)) as (d & i & ino & Hd & _ & _ & Hmt & _).
  unfold vfs_follow_mount. rewrite (run_dentry _ _ _ _ _ eq_refl Hd), Hmt. done.
Qed.

Lemma parent_ok path : path_ok path -> has_slash path = true ->
  parent_dirname path = Some (parent_path path) /\ path_ok (parent_path path).
Proof.
  intros [Hlen Hst] Hs. destruct (has_slash_split path Hs) as (pre & base & -> & Hb).
  rewrite length_app in Hlen. simpl in Hlen. unfold parent_path. rewrite parent_dirname_app by (done || lia).
  split; [done|]. split; [destruct pre; unfold PATH_BUF in *; simpl in *; lia|].
  by rewrite (start_dir_parent s pre base).
Qed.

Lemma parent_spec path : path_ok path ->
  resolve_parent_dir path s = Some ((parent_meaning s root path, leaf_name path), s).
Proof.
  intros Hp. unfold resolve_parent_dir, parent_meaning, leaf_name. destruct (has_slash path) eqn:Hs; simpl.
  - destruct (parent_ok path Hp Hs) as [Hd Hpp]. rewrite (run_reads (fun _ => parent_dirname path) _ s _ Hd), run_gets.
    by rewrite (run_bind _ _ _ _ _ (lookup_spec _ Hpp)).
  - destruct (fi_current _ _ Hinv) as [t Ht]. rewrite (run_current _ _ _ Ht). unfold start_dir.
    rewrite bool_decide_eq_false_2; [by rewrite Ht|]. destruct path as [|c path]; [done|]. simpl in Hs. breflect.
    simpl. congruence.
Qed.

Lemma inv_parent path x : path_ok path -> parent_meaning s root path = Some x -> is_Some (v_dentries s !! x).
Proof. unfold parent_meaning. destruct (has_slash path); [intros _; apply inv_meaning|intros _; apply inv_start]. Qed.
End inv.

(** ** Frames *)

Lemma tree_ok_fresh ds r n n' : (n <= n')%nat -> tree_ok ds r n -> tree_ok ds r n'.
Proof.
  intros Hn [H1 H2 H3 H4]. split; [done| |done|done]. intros x d Hx. destruct (H2 x d Hx) as (? & ?). split; [lia|done].
Qed.

Lemma nodes_ok_fresh ds ns rs n n' : (n <= n')%nat -> nodes_ok ds ns rs n -> nodes_ok ds ns rs n'.
Proof.
  intros Hn [H1 H2 H3 H4 H5 H6]. split; try done.
  - intros i ino Hi. destruct (H4 i ino Hi). split; [lia|done].
  - intros r ram Hr. specialize (H6 r ram Hr). lia.
Qed.

(** The open files do not notice a tree that grows, files that grow and inodes
    nobody has open. *)
Lemma open_ok_grow ds ds' ns ns' fs ts n n' : open_ok ds ns fs ts n -> (n <= n')%nat ->
  (forall x i, inode_of ds x = Some i -> inode_of ds' x = Some i) ->
  (forall i ino, ns !! i = Some ino -> exists ino', ns' !! i = Some ino' /\ i_flags ino' = i_flags ino /\
     i_size ino <= i_size ino') ->
  (forall i ino', ns' !! i = Some ino' ->
     (exists ino, ns !! i = Some ino /\ i_ref ino' = i_ref ino /\ i_flags ino' = i_flags ino) \/
     (ns !! i = None /\ i_ref ino' = 0)) ->
  open_ok ds' ns' fs ts n'.
Proof.
  intros [H1 H2 H3 H4 H5] Hn Hds Hns Href. split; try done.
  - intros f fl Hf. destruct (H1 f fl Hf) as (? & ? & i & ino & Hi & Hino & Hx & Ho). split; [lia|]. split; [done|].
    destruct (Hns i ino Hino) as (ino' & Hi' & Hfl & Hsz). exists i, ino'. do 2 (split; [done|]). rewrite Hfl. split.
    + intros Hd. destruct (Hx Hd) as (x & ? & ?). eauto.
    + intros Hd. specialize (Ho Hd). lia.
  - intros i ino' Hi'. destruct (Href i ino' Hi') as [(ino & Hi & Er & Ef) | [Hi Er]].
    { destruct (H3 _ _ Hi). unfold ref_ok. rewrite Er, Ef. done. }
    unfold ref_ok. rewrite Er. unfold opens. rewrite (tsum_ext _ (fun _ => 0%nat)).
    + assert (tsum (fun _ => 0%nat) ts <= 0 * size ts)%nat by (apply tsum_bound; lia). lia.
    + intros t a _. apply count_if_0. intros p _. unfold to_inode. destruct (p ≫= _) as [fl|] eqn:Hp; [|done].
      apply bind_Some in Hp as (f & -> & Hf). destruct (H1 f fl Hf) as (_ & _ & j & jno & Hj & Hjno & _).
      apply bool_decide_eq_false_2. intros ?. congruence.
  - intros t a Ht. destruct (H4 t a Ht) as (? & ? & Hc). split; [done|]. split; [done|]. intros c Hcc.
    destruct (Hc c Hcc) as (i & ino & Hi & Hino & Hfl). destruct (Hns i ino Hino) as (ino' & ? & ? & _).
    exists i, ino'. split; [auto|]. split; [done|]. congruence.
Qed.

Lemma fs_inv_fresh root s n : fs_inv root s -> (v_fresh s <= n)%nat -> fs_inv root (set_fresh n s).
Proof.
  intros [H1 H2 H3 H4 H5 H6] Hn. split; cbn; try done.
  - by eapply tree_ok_fresh.
  - by eapply nodes_ok_fresh.
  - eapply open_ok_grow; eauto. intros i ino Hi. eexists. split; [done|]. split; [done|]. lia.
Qed.

(** ** A new entry *)

Section entry.
Context (root : nat) (s : vfs) (Hinv : fs_inv root s).
Context (par x i n' : nat) (name : list Z) (ino : inode) (rs' : gmap nat ramfs_inode).
Context (Hdir : dir_entry s par = true) (Hgood : good_name name).
Context (Hnew : child_of (v_dentries s) root par name = None).
Context (Hx : (v_fresh s <= x < n')%nat) (Hi : (v_fresh s <= i < n')%nat) (Href : i_ref ino = 0).
Context (Hnode : (file_node rs' ino \/ dir_node ino) /\ i_flags ino <> VFS_DEVICE).
Context (Hpriv : forall r, i_private ino = Some r -> (v_fresh s <= r)%nat).
Context (Hrs : forall r ram, v_rams s !! r = Some ram -> rs' !! r = Some ram).
Context (Hrs' : forall r ram, rs' !! r = Some ram -> (r < n')%nat).

Definition new_dentry : dentry :=
  Dentry (Strdup name) (Some i) (Some par) None None (replicate DENTRY_HASH None) None 0.

Notation b := (Z.to_nat (dentry_hash name)).

Lemma entry_parent : exists pd old, v_dentries s !! par = Some pd /\ d_bucket pd !! b = Some old.
Proof.
  apply (inv_dir_entry root s Hinv) in Hdir as (j & jno & Hj & _). apply inode_of_Some in Hj as (pd & Hpd & _).
  destruct (tk_dentry _ _ _ (fi_tree _ _ Hinv) _ _ Hpd) as (_ & _ & _ & _ & Hlen & _).
  pose proof (hash_range name) as Hh. rewrite <- Hlen in Hh. destruct (lookup_lt_is_Some_2 _ _ Hh) as [old ?]. eauto.
Qed.

Context (pd : dentry) (old : option nat) (Hpd : v_dentries s !! par = Some pd) (Hold : d_bucket pd !! b = Some old).
Notation ds' := (hung (v_dentries s) x par new_dentry pd old).

Lemma entry_tree : tree_ok ds' root n'.
Proof. eapply (hung_tree _ root (v_fresh s)); try done; apply Hinv. Qed.

Lemma entry_old y e : v_dentries s !! y = Some e -> exists e', ds' !! y = Some e' /\ dsame e e' /\
  d_next e' = d_next e /\ (y <> par -> e' = e).
Proof. eapply (hung_old _ root (v_fresh s)); try done; apply Hinv. Qed.

Lemma entry_inv y e' : ds' !! y = Some e' -> (y = x /\ e' = dentry_set_next new_dentry old) \/
  (y <> x /\ exists e, v_dentries s !! y = Some e /\ dsame e e' /\ d_next e' = d_next e /\ (y <> par -> e' = e)).
Proof. eapply (hung_inv _ root (v_fresh s)); try done; apply Hinv. Qed.

Lemma entry_new : ds' !! x = Some (dentry_set_next new_dentry old).
Proof. eapply (hung_new _ root (v_fresh s)); try done; apply Hinv. Qed.

Lemma entry_fresh_inode : v_inodes s !! i = None.
Proof.
  destruct (v_inodes s !! i) as [j|] eqn:E; [|done]. destruct (nk_node _ _ _ _ (fi_nodes _ _ Hinv) _ _ E). lia.
Qed.

Lemma entry_inode_of y j : inode_of ds' y = Some j <-> (y = x /\ j = i) \/ (y <> x /\ inode_of (v_dentries s) y = Some j).
Proof.
  rewrite !inode_of_Some. split.
  - intros (e' & He' & Hj). destruct (entry_inv _ _ He') as [[-> ->] | (Hyx & e & He & Hs & _)].
    + left. split; [done|]. simpl in Hj. congruence.
    + right. split; [done|]. exists e. split; [done|]. destruct Hs as (_ & Hs & _). congruence.
  - intros [[-> ->] | (Hyx & e & He & Hj)]; [exists (dentry_set_next new_dentry old); split; [apply entry_new|done]|].
    destruct (entry_old _ _ He) as (e' & He' & Hs & _). exists e'. split; [done|]. destruct Hs as (_ & Hs & _). congruence.
Qed.

Lemma entry_not_old y e : v_dentries s !! y = Some e -> y <> x.
Proof. intros He ->. destruct (tk_dentry _ _ _ (fi_tree _ _ Hinv) _ _ He) as (? & _). lia. Qed.

Lemma entry_inode_ne j jno : v_inodes s !! j = Some jno -> j <> i.
Proof. intros Hj ->. pose proof entry_fresh_inode. congruence. Qed.

Lemma entry_nodes : nodes_ok ds' (<[i := ino]> (v_inodes s)) rs' n'.
Proof.
  pose proof (fi_nodes _ _ Hinv) as Hn. pose proof entry_fresh_inode as Hfi. split.
  - intros y e' He'. destruct (entry_inv _ _ He') as [[-> ->] | (Hyx & e & He & (_ & -> & _) & _)].
    + exists i, ino. rewrite lookup_insert_eq. naive_solver.
    + destruct (nk_entry _ _ _ _ Hn _ _ He) as (j & jno & Hj & Hjno & ?). exists j, jno.
      rewrite lookup_insert_ne by (apply not_eq_sym; by eapply entry_inode_ne). done.
  - intros y e' p j jno He' Hp Hj Hjno. apply (inv_dir_entry root s Hinv) in Hdir as (k & kno & Hk & Hkno & Hkd).
    assert (Hy : (y = x /\ p = par) \/ exists e, v_dentries s !! y = Some e /\ d_parent e = Some p).
    { destruct (entry_inv _ _ He') as [[-> ->] | (_ & e & He & (_ & _ & Hs & _) & _)].
      - left. simpl in Hp. split; congruence.
      - right. exists e. split; congruence. }
    assert (Hpx : p <> x).
    { destruct Hy as [[_ ->] | (e & He & Hpe)]; [by eapply entry_not_old|].
      destruct (tk_dentry _ _ _ (fi_tree _ _ Hinv) _ _ He) as (_ & _ & _ & (q & Hq & [qd Hqd]) & _).
      assert (q = p) as -> by congruence. by eapply entry_not_old. }
    apply entry_inode_of in Hj as [[-> _] | [_ Hj]]; [done|].
    assert (j <> i).
    { apply inode_of_Some in Hj as (pe & Hpe & Hj). destruct (nk_entry _ _ _ _ Hn _ _ Hpe) as (j2 & jno2 & ? & ? & _).
      assert (j2 = j) as -> by congruence. by eapply entry_inode_ne. }
    rewrite lookup_insert_ne in Hjno by done.
    destruct Hy as [[_ ->] | (e & He & Hpe)]; [congruence|]. by eapply (nk_parent _ _ _ _ Hn y e p).
  - assert (Hno : forall y, inode_of (v_dentries s) y <> Some i).
    { intros y (e & He & Hj)%inode_of_Some. destruct (nk_entry _ _ _ _ Hn _ _ He) as (j2 & jno2 & ? & ? & _). congruence. }
    intros y z j. rewrite !entry_inode_of. intros [[-> ->] | [? Hy]] [[-> E] | [? Hz]]; try done.
    + by destruct (Hno z).
    + subst j. by destruct (Hno y).
    + by eapply (nk_inj _ _ _ _ Hn).
  - intros j jno Hj. destruct (decide (j = i)) as [-> | Hji].
    + rewrite lookup_insert_eq in Hj. injection Hj as <-. split; [lia|]. naive_solver.
    + rewrite lookup_insert_ne in Hj by done. destruct (nk_node _ _ _ _ Hn _ _ Hj) as (? & Hk). split; [lia|].
      destruct Hk as [(? & ? & r & ram & ? & ? & ?) | ?]; [left|tauto]. split; [done|]. split; [done|]. exists r, ram. auto.
  - assert (Hold_priv : forall j jno r, v_inodes s !! j = Some jno -> i_private jno = Some r -> (r < v_fresh s)%nat).
    { intros j jno r Hj Hr. destruct (nk_node _ _ _ _ Hn _ _ Hj) as (_ & [(_ & _ & q & ram & Hq & Hram & _) | [(_ & ? & _) | (_ & ? & _)]]); [|congruence..].
      assert (q = r) as -> by congruence. by eapply (nk_ram _ _ _ _ Hn). }
    intros j k jno kno r Hj Hk Hjr Hkr. destruct (decide (j = i)) as [-> | Hji], (decide (k = i)) as [-> | Hki]; [done| | |].
    + rewrite lookup_insert_eq in Hj. rewrite lookup_insert_ne in Hk by done. injection Hj as <-.
      specialize (Hpriv r Hjr). specialize (Hold_priv k kno r Hk Hkr). lia.
    + rewrite lookup_insert_eq in Hk. rewrite lookup_insert_ne in Hj by done. injection Hk as <-.
      specialize (Hpriv r Hkr). specialize (Hold_priv j jno r Hj Hjr). lia.
    + rewrite lookup_insert_ne in Hj, Hk by done. by eapply (nk_private _ _ _ _ Hn).
  - done.
Qed.

Lemma entry_open : open_ok ds' (<[i := ino]> (v_inodes s)) (v_files s) (v_tasks s) n'.
Proof.
  eapply open_ok_grow; [apply Hinv|lia| | |].
  - intros y j Hj. apply entry_inode_of. right. split; [|done]. apply inode_of_Some in Hj as (e & He & _). by eapply entry_not_old.
  - intros j jno Hj. exists jno. rewrite lookup_insert_ne by (apply not_eq_sym; by eapply entry_inode_ne).
    split; [done|]. split; [done|]. lia.
  - intros j jno Hj. destruct (decide (j = i)) as [-> | Hji].
    + right. rewrite lookup_insert_eq in Hj. injection Hj as <-. split; [apply entry_fresh_inode|done].
    + left. rewrite lookup_insert_ne in Hj by done. eauto.
Qed.

Lemma entry_names y e' : ds' !! y = Some e' -> y <> root -> v_devfs_root s <> Some y -> exists n, d_name e' = Strdup n.
Proof.
  intros He' Hr Hd. destruct (entry_inv _ _ He') as [[-> ->] | (_ & e & He & (-> & _) & _)]; [by exists name|].
  by eapply (fi_names _ _ Hinv).
Qed.
End entry.

(** ** Creating files and directories *)

(** What a change of the tree leaves alone. *)
Definition io_same (s s' : vfs) : Prop :=
  v_files s' = v_files s /\ v_tasks s' = v_tasks s /\ v_current s' = v_current s /\ v_root s' = v_root s /\
  v_devfs_root s' = v_devfs_root s /\ v_ticks s' = v_ticks s /\ v_screen s' = v_screen s /\ v_typed s' = v_typed s.

Definition grows (s s' : vfs) : Prop :=
  (forall x d, v_dentries s !! x = Some d -> exists d', v_dentries s' !! x = Some d' /\ dsame d d') /\
  (forall i ino, v_inodes s !! i = Some ino -> v_inodes s' !! i = Some ino) /\
  (forall r ram, v_rams s !! r = Some ram -> v_rams s' !! r = Some ram).

Definition new_entry (s s' : vfs) (par : nat) (name : list Z) (flags : Z) (x : nat) : Prop :=
  v_dentries s !! x = None /\ (forall y, is_Some (v_dentries s' !! y) -> y = x \/ is_Some (v_dentries s !! y)) /\
  exists d i ino, v_dentries s' !! x = Some d /\ d_parent d = Some par /\
    dname d = name /\ d_inode d = Some i /\ v_inodes s' !! i = Some ino /\ i_flags ino = flags /\ i_size ino = 0 /\
    i_ref ino = 0.

(** The outcome of a creation: refused for want of memory, or one entry more. *)
Definition creation (root : nat) (s : vfs) (par : nat) (name : list Z) (flags : Z) (o : option nat) (s' : vfs) : Prop :=
  fs_inv root s' /\ io_same s s' /\ grows s s' /\
  match o with
  | None => v_dentries s' = v_dentries s
  | Some x => new_entry s s' par name flags x
  end.

Lemma grows_refl s s' : v_dentries s' = v_dentries s -> v_inodes s' = v_inodes s -> v_rams s' = v_rams s -> grows s s'.
Proof.
  intros H1 H2 H3. unfold grows. rewrite H1, H2, H3. split; [|done]. intros x d Hd. exists d. by split.
Qed.

Lemma hang_run x d par b pd old s : v_dentries s !! par = Some pd -> d_bucket pd !! Z.to_nat b = Some old ->
  hang x d par b s = Some (tt, set_dentries (insert par (dentry_set_bucket pd (Z.to_nat b) (Some x)))
    (set_dentries (insert x (dentry_set_next d old)) s)).
Proof. intros Hp Hb. unfold hang. rewrite (run_dentry _ _ _ _ _ eq_refl Hp), (run_reads _ _ _ old) by done. done. Qed.

Section create.
Context `{Machine} (Hstr : forall n, grants AString n = true).
Context (root : nat) (s : vfs) (Hinv : fs_inv root s) (par : nat) (name : list Z).
Context (Hdir : dir_entry s par = true) (Hgood : good_name name).
Context (Hnew : child_of (v_dentries s) root par name = None).

Lemma creation_failed n flags : (v_fresh s <= n)%nat -> creation root s par name flags None (set_fresh n s).
Proof. intros Hn. split; [by apply fs_inv_fresh|]. split; [done|]. split; [by apply grows_refl|done]. Qed.

(** Any state with the new entry hung, its inode and its block in place. *)
Lemma creation_done x i n' flags ino rs' pd old s' :
  (v_fresh s <= x < n')%nat -> (v_fresh s <= i < n')%nat -> i_ref ino = 0 -> i_size ino = 0 ->
  (file_node rs' ino \/ dir_node ino) -> i_flags ino <> VFS_DEVICE ->
  (forall r, i_private ino = Some r -> (v_fresh s <= r)%nat) ->
  (forall r ram, v_rams s !! r = Some ram -> rs' !! r = Some ram) ->
  (forall r ram, rs' !! r = Some ram -> (r < n')%nat) ->
  v_dentries s !! par = Some pd -> d_bucket pd !! Z.to_nat (dentry_hash name) = Some old ->
  v_dentries s' = hung (v_dentries s) x par (new_dentry par i name) pd old ->
  v_inodes s' = <[i := ino]> (v_inodes s) -> v_rams s' = rs' -> v_fresh s' = n' -> io_same s s' ->
  i_flags ino = flags -> creation root s par name flags (Some x) s'.
Proof.
  intros Hx Hi Href Hsz Hnode Hdev Hpriv Hrs Hrs' Hpd Hold E1 E2 E3 E4 Hio Hfl.
  assert (Hio' := Hio). destruct Hio' as (F1 & F2 & F3 & F4 & F5 & _).
  split; [|split; [done|split]].
  - split; rewrite ?E1, ?E2, ?E3, ?E4, ?F1, ?F2, ?F3, ?F4, ?F5.
    + apply Hinv.
    + eapply entry_tree; eauto.
    + eapply entry_nodes; eauto.
    + eapply entry_open; eauto.
    + apply Hinv.
    + intros y e. eapply entry_names; eauto.
  - unfold grows. rewrite E1, E2, E3. split; [|split; [|done]].
    + intros y e He. destruct (hung_old _ root (v_fresh s) n' x par (new_dentry par i name) pd old
        (fi_tree _ _ Hinv) Hx Hpd y e He) as (e' & ? & ? & _). eauto.
    + intros j jno Hj. rewrite lookup_insert_ne; [done|]. apply not_eq_sym. by eapply entry_inode_ne.
  - split.
    + destruct (v_dentries s !! x) as [e|] eqn:E; [|done]. destruct (tk_dentry _ _ _ (fi_tree _ _ Hinv) _ _ E) as (? & _). lia.
    + split.
      { rewrite E1. intros y [e' He']. destruct (hung_inv _ root (v_fresh s) n' x par (new_dentry par i name) pd old
          (fi_tree _ _ Hinv) Hx Hpd eq_refl Hnew y e' He') as [[-> _] | (_ & e & He & _)]; eauto. }
      rewrite E1, E2. eexists _, i, ino. split; [by eapply (entry_new root s Hinv)|]. rewrite lookup_insert_eq. done.
Qed.

Lemma fresh_block_length n sz : 0 <= sz -> zlen (fresh_block n sz) = sz.
Proof. intros Hs. unfold fresh_block, zlen. rewrite length_fmap, length_seq. lia. Qed.

Lemma fresh_block_ram n : ram_ok (Ram (fresh_block n 4096) 4096).
Proof. split; [by apply fresh_block_length|by exists 12]. Qed.

Lemma create_files_spec : exists o s', ramfs_create_files par name s = Some (o, s') /\
  creation root s par name VFS_FILE o s'.
Proof.
  destruct (entry_parent root s Hinv par name Hdir) as (pd & old & Hpd & Hold).
  unfold ramfs_create_files. rewrite !run_kmalloc. cbn [v_fresh set_fresh].
  set (n := v_fresh s).
  destruct (grants AStruct (S (S n))); [|eexists _, _; split; [reflexivity|apply creation_failed; lia]].
  destruct (grants AStruct n); [|eexists _, _; split; [reflexivity|apply creation_failed; lia]].
  destruct (grants AStruct (S n)); [|eexists _, _; split; [reflexivity|apply creation_failed; lia]].
  rewrite run_kmalloc. cbn [v_fresh set_fresh].
  destruct (grants AData _); [|eexists _, _; split; [reflexivity|apply creation_failed; lia]].
  unfold put_ram, put_inode. rewrite run_modify, !run_gets, run_modify. unfold strdup. rewrite run_assoc, run_kmalloc.
  rewrite Hstr, run_ret, (run_reads _ _ _ name) by done.
  erewrite run_bind by (apply (hang_run _ _ _ _ pd old); [done|done]).
  eexists _, _. split; [reflexivity|].
  eapply (creation_done n (S n) (S (S (S (S (S n))))) VFS_FILE (Inode 0 VFS_FILE 0 (Some ramfs_ops) (Some (S (S n))) (v_ticks s) (current_pid s)) (<[S (S n) := _]> (v_rams s)) pd old); try reflexivity; try done; try lia.
  - left. split; [done|]. split; [done|]. exists (S (S n)), (Ram (fresh_block (S (S (S n))) 4096) 4096).
    split; [done|]. split; [apply lookup_insert_eq|]. split; [apply fresh_block_ram|]. simpl. lia.
  - intros r [= <-]. lia.
  - intros r ram Hr. rewrite lookup_insert_ne; [done|].
    pose proof (nk_ram _ _ _ _ (fi_nodes _ _ Hinv) _ _ Hr). subst n. lia.
  - intros r ram Hr. apply lookup_insert_Some in Hr as [[<- _] | [_ Hr]]; [lia|].
    pose proof (nk_ram _ _ _ _ (fi_nodes _ _ Hinv) _ _ Hr). subst n. lia.
Qed.

Lemma mkdir_spec : exists o s', ramfs_mkdir par name s = Some (o, s') /\ creation root s par name VFS_DIR o s'.
Proof.
  destruct (entry_parent root s Hinv par name Hdir) as (pd & old & Hpd & Hold).
  unfold ramfs_mkdir. rewrite !run_kmalloc. cbn [v_fresh set_fresh]. set (n := v_fresh s).
  destruct (grants AStruct n); [|eexists _, _; split; [reflexivity|apply creation_failed; lia]].
  destruct (grants AStruct (S n)); [|eexists _, _; split; [reflexivity|apply creation_failed; lia]].
  unfold put_inode. rewrite run_modify. unfold strdup. rewrite run_assoc, run_kmalloc, Hstr, run_ret.
  erewrite run_bind by (apply (hang_run _ _ _ _ pd old); [done|done]).
  eexists _, _. split; [reflexivity|].
  eapply (creation_done n (S n) (S (S (S n))) VFS_DIR (Inode 0 VFS_DIR 0 None None 0 0) (v_rams s) pd old); try reflexivity; try done; try lia.
  - right. split; [done|]. split; [done|]. by left.
  - intros r ram Hr. pose proof (nk_ram _ _ _ _ (fi_nodes _ _ Hinv) _ _ Hr). subst n. lia.
Qed.
End create.

(** ** Counting descriptors *)

Lemma slots_set ts t a a' k old new f : ts !! t = Some a -> io_fds a !! k = Some old ->
  io_fds a' = <[k := new]> (io_fds a) ->
  (slots (<[t := a']> ts) f + (if to_file f old then 1 else 0) = slots ts f + (if to_file f new then 1 else 0))%nat.
Proof.
  intros Ht Hk Ha. unfold slots.
  pose proof (tsum_insert (fun t => count_if (to_file f) (io_fds t)) ts t a a' Ht) as Hs. cbv beta in Hs.
  rewrite Ha in Hs. pose proof (count_if_insert (to_file f) (io_fds a) k old new Hk). lia.
Qed.

Lemma opens_set ts fs t a a' k old new i : ts !! t = Some a -> io_fds a !! k = Some old ->
  io_fds a' = <[k := new]> (io_fds a) ->
  (opens (<[t := a']> ts) fs i + (if to_inode fs i old then 1 else 0) =
   opens ts fs i + (if to_inode fs i new then 1 else 0))%nat.
Proof.
  intros Ht Hk Ha. unfold opens.
  pose proof (tsum_insert (fun t => count_if (to_inode fs i) (io_fds t)) ts t a a' Ht) as Hs. cbv beta in Hs.
  rewrite Ha in Hs. pose proof (count_if_insert (to_inode fs i) (io_fds a) k old new Hk). lia.
Qed.

Lemma opens_ext ts fs fs' i :
  (forall t a p, ts !! t = Some a -> p ∈ io_fds a -> to_inode fs' i p = to_inode fs i p) -> opens ts fs' i = opens ts fs i.
Proof. intros He. apply tsum_ext. intros t a Ht. apply count_if_ext. intros p Hp. by eapply He. Qed.

Lemma slots_none ts f : (forall t a k, ts !! t = Some a -> io_fds a !! k <> Some (Some f)) -> slots ts f = 0%nat.
Proof.
  intros Hno. unfold slots. rewrite (tsum_ext _ (fun _ => 0%nat)).
  - assert (tsum (fun _ => 0%nat) ts <= 0 * size ts)%nat by (apply tsum_bound; lia). lia.
  - intros t a Ht. apply count_if_0. intros p [k Hk]%list_elem_of_lookup. unfold to_file.
    apply bool_decide_eq_false_2. intros ->. by eapply Hno.
Qed.

Lemma count_if_mono {A} (p q : A -> bool) l : (forall x, p x = true -> q x = true) -> (count_if p l <= count_if q l)%nat.
Proof.
  intros Hpq. induction l as [|a l IH]; simpl; [done|]. destruct (p a) eqn:Hp; [rewrite (Hpq _ Hp); lia|]. lia.
Qed.

Lemma tsum_mono g h m : (forall a, g a <= h a)%nat -> (tsum g m <= tsum h m)%nat.
Proof.
  intros Hgh. induction m as [|t a m Hm IH] using map_ind; [done|]. rewrite !tsum_new by done. specialize (Hgh a). lia.
Qed.

Lemma slots_le_opens ts fs f fl i : fs !! f = Some fl -> f_inode fl = Some i -> (slots ts f <= opens ts fs i)%nat.
Proof.
  intros Hf Hi. apply tsum_mono. intros a. apply count_if_mono. intros p Hp. apply bool_decide_eq_true in Hp as ->.
  unfold to_inode. cbn [mbind option_bind]. rewrite Hf. by apply bool_decide_eq_true.
Qed.

Lemma opens_bound ds ns fs ts n i : open_ok ds ns fs ts n -> (Z.of_nat (opens ts fs i) <= 33554432)%Z.
Proof.
  intros Hok. assert (opens ts fs i <= TASK_MAX_FDS * size ts)%nat as Hb.
  { apply tsum_bound. intros t a Ht. rewrite count_if_length.
    destruct (ok_task _ _ _ _ _ Hok _ _ Ht) as (Hl & _). by rewrite Hl. }
  pose proof (ok_few _ _ _ _ _ Hok) as Hf. unfold MAX_TASKS, TASK_MAX_FDS in *. lia.
Qed.

Lemma slots_bound ds ns fs ts n f : open_ok ds ns fs ts n -> (Z.of_nat (slots ts f) <= 33554432)%Z.
Proof.
  intros Hok. assert (slots ts f <= TASK_MAX_FDS * size ts)%nat as Hb.
  { apply tsum_bound. intros t a Ht. rewrite count_if_length.
    destruct (ok_task _ _ _ _ _ Hok _ _ Ht) as (Hl & _). by rewrite Hl. }
  pose proof (ok_few _ _ _ _ _ Hok) as Hf. unfold MAX_TASKS, TASK_MAX_FDS in *. lia.
Qed.

(** ** Changing one inode *)

Definition same_node (rs : gmap nat ramfs_inode) (ino ino' : inode) : Prop :=
  i_flags ino' = i_flags ino /\ i_ops ino' = i_ops ino /\ i_private ino' = i_private ino /\
  (file_node rs ino -> file_node rs ino').

Lemma same_node_ref rs ino n : same_node rs ino (inode_set_ref ino n).
Proof. done. Qed.

Lemma nodes_ok_inode ds ns rs n i ino ino' : nodes_ok ds ns rs n -> ns !! i = Some ino -> same_node rs ino ino' ->
  nodes_ok ds (<[i := ino']> ns) rs n.
Proof.
  intros [H1 H2 H3 H4 H5 H6] Hi (Hf & Ho & Hp & Hn).
  assert (Hlk : forall j jno', <[i := ino']> ns !! j = Some jno' -> exists jno, ns !! j = Some jno /\
    i_flags jno' = i_flags jno /\ i_private jno' = i_private jno).
  { intros j jno' Hj. apply lookup_insert_Some in Hj as [[<- <-] | [_ Hj]]; eauto. }
  split; try done.
  - intros x d Hx. destruct (H1 x d Hx) as (j & jno & Hj & Hjno & Hd). exists j.
    destruct (decide (i = j)) as [<- | Hij].
    + exists ino'. rewrite lookup_insert_eq. split; [done|]. split; [done|]. congruence.
    + exists jno. by rewrite lookup_insert_ne.
  - intros x d p j jno' Hx Hpx Hj Hjno'. destruct (Hlk _ _ Hjno') as (jno & Hjno & -> & _). by eapply H2.
  - intros j jno' Hj. apply lookup_insert_Some in Hj as [[<- <-] | [_ Hj]]; [|by apply H4].
    destruct (H4 _ _ Hi) as (? & Hk). split; [done|].
    destruct Hk as [Hk | [(K1 & K2 & K3) | (K1 & K2 & K3)]]; [left; auto|right; left|right; right];
      (split; [congruence|]; split; [congruence|]); rewrite Ho; done.
  - intros j k jno kno r Hj Hk Hjr Hkr. destruct (Hlk _ _ Hj) as (jno0 & ? & _ & E1), (Hlk _ _ Hk) as (kno0 & ? & _ & E2).
    eapply (H5 j k jno0 kno0 r); congruence.
Qed.

(** ** Opening *)

Lemma open_ok_open ds ns fs ts n n' i ino ino' f fl x t a a' k : open_ok ds ns fs ts n ->
  ns !! i = Some ino -> (n <= f < n')%nat -> inode_of ds x = Some i ->
  i_flags ino' = i_flags ino -> i_size ino' = i_size ino -> (i_flags ino = VFS_FILE -> 0 <= i_size ino) -> i_ref ino' = i_ref ino + 1 ->
  f_inode fl = Some i -> f_dentry fl = Some x -> f_offset fl = 0 -> f_ref fl = 1 ->
  ts !! t = Some a -> io_fds a !! k = Some None -> io_fds a' = <[k := Some f]> (io_fds a) -> io_cwd a' = io_cwd a ->
  open_ok ds (<[i := ino']> ns) (<[f := fl]> fs) (<[t := a']> ts) n'.
Proof.
  intros [H1 H2 H3 H4 H5] Hi Hf Hx Hfl Hsz Hsz0 Href Fi Fd Fo Fr Ht Hk Ha Hc.
  assert (Hff : fs !! f = None).
  { destruct (fs !! f) as [g|] eqn:E; [|done]. destruct (H1 _ _ E) as (? & _). lia. }
  assert (Hns : forall j jno, ns !! j = Some jno -> exists jno', <[i := ino']> ns !! j = Some jno' /\
    i_flags jno' = i_flags jno /\ i_size jno' = i_size jno).
  { intros j jno Hj. destruct (decide (i = j)) as [<- | ?].
    - exists ino'. rewrite lookup_insert_eq. split; [done|]. split; congruence.
    - exists jno. by rewrite lookup_insert_ne. }
  assert (Hnof : forall u c m, ts !! u = Some c -> io_fds c !! m <> Some (Some f)).
  { intros u c m Hu Hm. destruct (H4 _ _ Hu) as (_ & Hfs & _). destruct (Hfs _ _ Hm). congruence. }
  assert (Hopens : forall j, opens ts (<[f := fl]> fs) j = opens ts fs j).
  { intros j. apply opens_ext. intros u c p Hu [m Hm]%list_elem_of_lookup. unfold to_inode.
    destruct p as [g|]; [|done]. cbn [mbind option_bind]. rewrite lookup_insert_ne; [done|].
    intros <-. by eapply Hnof. }
  split.
  - intros g gl Hg. apply lookup_insert_Some in Hg as [[<- <-] | [Hgf Hg]].
    + split; [lia|]. rewrite Fo. split; [unfold is_u32; lia|]. exists i, ino'. rewrite lookup_insert_eq.
      split; [done|]. split; [done|]. split; [eauto|]. rewrite Hsz, Hfl. done.
    + destruct (H1 _ _ Hg) as (? & ? & j & jno & Hj & Hjno & Hjx & Hjo). split; [lia|]. split; [done|].
      destruct (Hns _ _ Hjno) as (jno' & ? & Ef & Es). exists j, jno'. do 2 (split; [done|]). rewrite Ef, Es. done.
  - intros g gl Hg. pose proof (slots_set ts t a a' k None (Some f) g Ht Hk Ha) as Hs.
    change (to_file g None) with false in Hs. unfold to_file in Hs.
    apply lookup_insert_Some in Hg as [[<- <-] | [Hgf Hg]].
    + rewrite bool_decide_eq_true_2 in Hs by done. rewrite (slots_none ts f Hnof) in Hs. split; lia.
    + rewrite bool_decide_eq_false_2 in Hs by congruence. destruct (H2 _ _ Hg). split; lia.
  - intros j jno' Hj. pose proof (opens_set ts (<[f := fl]> fs) t a a' k None (Some f) j Ht Hk Ha) as Hs.
    rewrite Hopens in Hs. change (to_inode (<[f := fl]> fs) j None) with false in Hs.
    unfold to_inode at 1 in Hs. cbn [mbind option_bind] in Hs. rewrite lookup_insert_eq, Fi in Hs.
    apply lookup_insert_Some in Hj as [[<- <-] | [Hji Hj]].
    + rewrite bool_decide_eq_true_2 in Hs by done. destruct (H3 _ _ Hi) as [Hr Hr']. unfold ref_ok. rewrite Href, Hfl.
      split; [lia|]. intros Hd. specialize (Hr' Hd). lia.
    + rewrite bool_decide_eq_false_2 in Hs by congruence. destruct (H3 _ _ Hj) as [Hr Hr'].
      split; [lia|]. intros Hd. specialize (Hr' Hd). lia.
  - intros u c Hu. assert (Hmono : forall g, is_Some (fs !! g) -> is_Some (<[f := fl]> fs !! g)).
    { intros g [gl Hg]. rewrite lookup_insert_ne; [eauto|]. congruence. }
    assert (Hcwd : forall c0, (exists j jno, inode_of ds c0 = Some j /\ ns !! j = Some jno /\ i_flags jno = VFS_DIR) ->
      exists j jno, inode_of ds c0 = Some j /\ <[i := ino']> ns !! j = Some jno /\ i_flags jno = VFS_DIR).
    { intros c0 (j & jno & Hj & Hjno & Hd). destruct (Hns _ _ Hjno) as (jno' & ? & ? & _). exists j, jno'.
      split; [done|]. split; [done|]. congruence. }
    apply lookup_insert_Some in Hu as [[<- <-] | [Hut Hu]].
    + destruct (H4 _ _ Ht) as (Hl & Hfs & Hcw). split; [by rewrite Ha, length_insert|]. split.
      * intros m g. rewrite Ha. intros [(_ & [= <-] & _) | [_ Hm]]%list_lookup_insert_Some; [by rewrite lookup_insert_eq|].
        apply Hmono. by eapply Hfs.
      * rewrite Hc. intros c0 Hc0. by apply Hcwd, Hcw.
    + destruct (H4 _ _ Hu) as (Hl & Hfs & Hcw). split; [done|]. split; [|auto]. intros m g Hm. by eapply Hmono, Hfs.
  - rewrite map_size_insert_Some; eauto.
Qed.

(** ** Closing *)

Lemma slots_zero ts f t a k : slots ts f = 0%nat -> ts !! t = Some a -> io_fds a !! k <> Some (Some f).
Proof.
  intros Hs Ht Hk. pose proof (tsum_mem (fun t => count_if (to_file f) (io_fds t)) ts t a Ht) as Hm. cbv beta in Hm.
  unfold slots in Hs. assert (Hz : count_if (to_file f) (io_fds a) = 0%nat) by lia.
  pose proof (proj1 (count_if_0 _ _) Hz (Some f) ltac:(by eapply list_elem_of_lookup_2)) as Hno.
  unfold to_file in Hno. by rewrite bool_decide_eq_true_2 in Hno.
Qed.

Section closing.
Context (ds : gmap nat dentry) (ns : gmap nat inode) (fs : gmap nat file) (ts : gmap nat io) (n : nat).
Context (Hok : open_ok ds ns fs ts n) (t : nat) (a a' : io) (k f i : nat) (fl : file) (ino : inode).
Context (Ht : ts !! t = Some a) (Hk : io_fds a !! k = Some (Some f)) (Hf : fs !! f = Some fl).
Context (Hi : f_inode fl = Some i) (Hino : ns !! i = Some ino).
Context (Ha : io_fds a' = <[k := None]> (io_fds a)) (Hc : io_cwd a' = io_cwd a).
Notation ts' := (<[t := a']> ts).

(** The file loses a descriptor, and goes with the last one. *)
Definition close_file : gmap nat file :=
  if 1 <? f_ref fl then <[f := file_set_ref fl (f_ref fl - 1)]> fs else delete f fs.
(** [if (inode->ref_count > 0) inode->ref_count--]. *)
Definition close_inode : inode := inode_set_ref ino (Z.max 0 (i_ref ino - 1)).

Lemma closing_slots g : (slots ts' g + (if bool_decide (g = f) then 1 else 0) = slots ts g)%nat.
Proof.
  pose proof (slots_set ts t a a' k (Some f) None g Ht Hk Ha) as Hs. change (to_file g None) with false in Hs.
  unfold to_file in Hs. rewrite (bool_decide_ext (Some f = Some g) (g = f)) in Hs by (split; congruence). lia.
Qed.

Lemma closing_file g gl' : close_file !! g = Some gl' -> exists gl, fs !! g = Some gl /\ f_inode gl' = f_inode gl /\
  f_dentry gl' = f_dentry gl /\ f_offset gl' = f_offset gl /\ f_ref gl' = f_ref gl - (if bool_decide (g = f) then 1 else 0) /\
  (g = f -> 1 < f_ref fl).
Proof.
  unfold close_file. destruct (1 <? f_ref fl) eqn:E; breflect; intros Hg.
  - apply lookup_insert_Some in Hg as [[<- <-] | [Hgf Hg]].
    + exists fl. by rewrite bool_decide_eq_true_2 by done.
    + exists gl'. rewrite bool_decide_eq_false_2 by congruence. split; [done|]. do 3 (split; [done|]). split; [lia|congruence].
  - apply lookup_delete_Some in Hg as [Hgf Hg]. exists gl'. rewrite bool_decide_eq_false_2 by congruence.
    split; [done|]. do 3 (split; [done|]). split; [lia|congruence].
Qed.

(** A file some descriptor still leads to is still there. *)
Lemma closing_keep u c m g : ts' !! u = Some c -> io_fds c !! m = Some (Some g) ->
  exists gl gl', fs !! g = Some gl /\ close_file !! g = Some gl' /\ f_inode gl' = f_inode gl.
Proof.
  intros Hu Hm. assert (is_Some (fs !! g)) as [gl Hg].
  { pose proof (ok_task _ _ _ _ _ Hok) as H4. apply lookup_insert_Some in Hu as [[<- <-] | [_ Hu]].
    - rewrite Ha in Hm. apply list_lookup_insert_Some in Hm as [(_ & ? & _) | [_ Hm]]; [done|].
      destruct (H4 _ _ Ht) as (_ & Hq & _). by eapply Hq.
    - destruct (H4 _ _ Hu) as (_ & Hq & _). by eapply Hq. }
  exists gl. unfold close_file. destruct (1 <? f_ref fl) eqn:E; breflect.
  - destruct (decide (g = f)) as [-> | Hgf]; [rewrite lookup_insert_eq|rewrite lookup_insert_ne by done; eauto].
    assert (gl = fl) as -> by congruence. eexists. done.
  - assert (g <> f).
    { intros ->. pose proof (closing_slots f) as Hz. rewrite bool_decide_eq_true_2 in Hz by done.
      destruct (ok_slots _ _ _ _ _ Hok _ _ Hf) as [Href _]. apply (slots_zero ts' f u c m); [lia|done|done]. }
    exists gl. by rewrite lookup_delete_ne.
Qed.

Lemma closing_opens j : (opens ts' close_file j + (if bool_decide (j = i) then 1 else 0) = opens ts fs j)%nat.
Proof.
  rewrite (opens_ext ts' fs close_file j).
  - pose proof (opens_set ts fs t a a' k (Some f) None j Ht Hk Ha) as Hs. change (to_inode fs j None) with false in Hs.
    unfold to_inode at 1 in Hs. cbn [mbind option_bind] in Hs. rewrite Hf, Hi in Hs.
    rewrite (bool_decide_ext (Some i = Some j) (j = i)) in Hs by (split; congruence). lia.
  - intros u c p Hu [m Hm]%list_elem_of_lookup. destruct p as [g|]; [|done].
    destruct (closing_keep u c m g Hu Hm) as (gl & gl' & E1 & E2 & E3). unfold to_inode. cbn [mbind option_bind].
    by rewrite E1, E2, E3.
Qed.

Lemma closing_inode j jno : ns !! j = Some jno -> exists jno', <[i := close_inode]> ns !! j = Some jno' /\
  i_flags jno' = i_flags jno /\ i_size jno' = i_size jno.
Proof.
  intros Hj. destruct (decide (i = j)) as [<- | ?].
  - eexists. rewrite lookup_insert_eq. split; [done|]. assert (jno = ino) as -> by congruence. done.
  - exists jno. by rewrite lookup_insert_ne.
Qed.

Lemma open_ok_close : open_ok ds (<[i := close_inode]> ns) close_file ts' n.
Proof.
  pose proof Hok as [H1 H2 H3 H4 H5]. split.
  - intros g gl' Hg. destruct (closing_file _ _ Hg) as (gl & Hgl & E1 & E2 & E3 & _).
    destruct (H1 _ _ Hgl) as (? & ? & j & jno & Hj & Hjno & Hx & Ho). split; [done|]. rewrite E3. split; [done|].
    destruct (closing_inode _ _ Hjno) as (jno' & Hj' & Ef & Es). exists j, jno'. rewrite E1, E2, Ef, Es. done.
  - intros g gl' Hg. destruct (closing_file _ _ Hg) as (gl & Hgl & _ & _ & _ & E4 & E5). destruct (H2 _ _ Hgl).
    pose proof (closing_slots g) as Hs. rewrite E4. case_bool_decide as E; [|lia]. specialize (E5 E). subst g.
    assert (gl = fl) as -> by congruence. lia.
  - intros j jno' Hj. pose proof (closing_opens j) as Hs. apply lookup_insert_Some in Hj as [[<- <-] | [Hji Hj]].
    + rewrite bool_decide_eq_true_2 in Hs by done. destruct (H3 _ _ Hino) as [Hr Hr']. split; [simpl; lia|].
      simpl. intros Hd. specialize (Hr' Hd). lia.
    + rewrite bool_decide_eq_false_2 in Hs by congruence. rewrite Nat.add_0_r in Hs. rewrite Hs. by apply H3.
  - intros u c Hu. split; [|split].
    + apply lookup_insert_Some in Hu as [[<- <-] | [_ Hu]]; [rewrite Ha, length_insert|]; [apply (H4 _ _ Ht)|apply (H4 _ _ Hu)].
    + intros m g Hm. destruct (closing_keep u c m g Hu Hm) as (gl & gl' & _ & ? & _). eauto.
    + intros c0 Hc0. assert (exists j jno, inode_of ds c0 = Some j /\ ns !! j = Some jno /\ i_flags jno = VFS_DIR)
        as (j & jno & Hj & Hjno & Hd).
      { apply lookup_insert_Some in Hu as [[<- <-] | [_ Hu]]; [rewrite Hc in Hc0; by apply (H4 _ _ Ht)|by apply (H4 _ _ Hu)]. }
      destruct (closing_inode _ _ Hjno) as (jno' & ? & ? & _). exists j, jno'. split; [done|]. split; [done|]. congruence.
  - rewrite map_size_insert_Some; eauto.
Qed.
End closing.

(** ** Taking an entry and its inode away *)

Section remove.
Context (ds ds' : gmap nat dentry) (ns : gmap nat inode) (rs rs' : gmap nat ramfs_inode) (n x i : nat) (ino : inode).
Context (Hino : ns !! i = Some ino) (Hxi : inode_of ds x = Some i).
Context (Hds : forall y e', ds' !! y = Some e' -> y <> x /\ exists e, ds !! y = Some e /\ dsame e e').
Context (Hds' : forall y e, y <> x -> ds !! y = Some e -> exists e', ds' !! y = Some e' /\ dsame e e').

Lemma remove_inode_of y j : inode_of ds' y = Some j <-> y <> x /\ inode_of ds y = Some j.
Proof.
  rewrite !inode_of_Some. split.
  - intros (e' & He' & Hj). destruct (Hds _ _ He') as (Hy & e & He & _ & Hs & _). split; [done|].
    exists e. split; congruence.
  - intros (Hy & e & He & Hj). destruct (Hds' _ _ Hy He) as (e' & He' & _ & Hs & _). exists e'. split; congruence.
Qed.

Lemma remove_nodes : nodes_ok ds ns rs n ->
  (forall j jno r, ns !! j = Some jno -> j <> i -> i_private jno = Some r -> rs' !! r = rs !! r) ->
  (forall r ram, rs' !! r = Some ram -> rs !! r = Some ram) ->
  nodes_ok ds' (delete i ns) rs' n.
Proof.
  intros Hn Hrs Hrs'. pose proof Hn as [H1 H2 H3 H4 H5 H6]. split.
  - intros y e' He'. destruct (Hds _ _ He') as (Hy & e & He & _ & Hs & _).
    destruct (H1 _ _ He) as (j & jno & Hj & Hjno & Hd). exists j, jno. split; [congruence|]. split; [|done].
    apply lookup_delete_Some. split; [|done]. intros ->. apply Hy. apply (H3 y x j); [|done]. apply inode_of_Some. eauto.
  - intros y e' p j jno He' Hp Hj Hjno. destruct (Hds _ _ He') as (Hy & e & He & _ & _ & Hs & _).
    apply remove_inode_of in Hj as [_ Hj]. apply lookup_delete_Some in Hjno as [_ Hjno].
    eapply (H2 y e p); eauto. congruence.
  - intros y z j. rewrite !remove_inode_of. intros [_ ?] [_ ?]. eauto.
  - intros j jno [Hij Hj]%lookup_delete_Some. destruct (H4 _ _ Hj) as (? & Hk). split; [done|].
    destruct Hk as [(? & ? & r & ram & Hr & Hram & ?) | ?]; [left|tauto]. split; [done|]. split; [done|].
    exists r, ram. rewrite (Hrs j jno r) by (done || congruence). done.
  - intros j k jno kno r [_ Hj]%lookup_delete_Some [_ Hk]%lookup_delete_Some. eauto.
  - intros r ram Hr. eauto.
Qed.

Lemma remove_open fs ts : nodes_ok ds ns rs n -> open_ok ds ns fs ts n -> i_ref ino = 0 -> i_flags ino <> VFS_DEVICE ->
  (forall t a, ts !! t = Some a -> io_cwd a <> Some x) -> open_ok ds' (delete i ns) fs ts n.
Proof.
  intros Hn [H1 H2 H3 H4 H5] Href Hdev Hcwd.
  assert (Hno : forall f fl, fs !! f = Some fl -> f_inode fl <> Some i).
  { intros f fl Hf Hi. destruct (H2 _ _ Hf) as [_ Hp]. pose proof (slots_le_opens ts fs f fl i Hf Hi).
    destruct (H3 _ _ Hino) as [_ Hr]. specialize (Hr Hdev). lia. }
  split; try done.
  - intros f fl Hf. destruct (H1 _ _ Hf) as (? & ? & j & jno & Hj & Hjno & Hx & Ho). split; [done|]. split; [done|].
    exists j, jno. split; [done|]. assert (j <> i) by (intros ->; by eapply Hno).
    split; [by apply lookup_delete_Some|]. split; [|done]. intros Hd. destruct (Hx Hd) as (y & ? & Hy). exists y.
    split; [done|]. apply remove_inode_of. split; [|done]. intros ->. congruence.
  - intros j jno [_ Hj]%lookup_delete_Some. eauto.
  - intros t a Ht. destruct (H4 _ _ Ht) as (? & ? & Hc). split; [done|]. split; [done|]. intros c Hcc.
    destruct (Hc _ Hcc) as (j & jno & Hj & Hjno & ?). assert (c <> x) by (intros ->; by eapply Hcwd).
    exists j, jno. split; [by apply remove_inode_of|]. split; [|done]. apply lookup_delete_Some. split; [|done].
    intros ->. by pose proof (nk_inj _ _ _ _ Hn c x j Hj Hxi).
Qed.
End remove.

(** ** The block and the size of a file, and the offset of a descriptor *)

Lemma nodes_ok_ram ds ns rs n n' i ino ino' r ram' : nodes_ok ds ns rs n -> (n <= n')%nat -> ns !! i = Some ino ->
  file_node rs ino -> i_private ino = Some r -> i_flags ino' = i_flags ino -> i_ops ino' = i_ops ino ->
  i_private ino' = i_private ino -> ram_ok ram' -> 0 <= i_size ino' <= rm_capacity ram' ->
  nodes_ok ds (<[i := ino']> ns) (<[r := ram']> rs) n'.
Proof.
  intros Hn Hle Hi Hf Hr Ef Eo Ep Hram Hsz. pose proof Hf as (Hf1 & Hf2 & q & ram & Hq & Hqr & _).
  assert (q = r) as -> by congruence.
  assert (Hn1 : nodes_ok ds (<[i := ino']> ns) (<[r := ram']> rs) n).
  { pose proof Hn as [H1 H2 H3 H4 H5 H6].
    assert (Hlk : forall j jno', <[i := ino']> ns !! j = Some jno' -> exists jno, ns !! j = Some jno /\
      i_flags jno' = i_flags jno /\ i_private jno' = i_private jno).
    { intros j jno' [[<- <-] | [_ Hj]]%lookup_insert_Some; eauto. }
    split; try done.
    - intros x d Hx. destruct (H1 x d Hx) as (j & jno & Hj & Hjno & Hd). exists j.
      destruct (decide (i = j)) as [<- | Hij].
      + exists ino'. rewrite lookup_insert_eq. split; [done|]. split; [done|]. congruence.
      + exists jno. by rewrite lookup_insert_ne.
    - intros x d p j jno' Hx Hpx Hj Hjno'. destruct (Hlk _ _ Hjno') as (jno & Hjno & -> & _). by eapply H2.
    - intros j jno' [[<- <-] | [Hij Hj]]%lookup_insert_Some.
      + split; [apply (H4 _ _ Hi)|]. left. split; [congruence|]. split; [congruence|].
        exists r, ram'. rewrite lookup_insert_eq. split; [congruence|]. done.
      + destruct (H4 _ _ Hj) as (? & Hk). split; [done|].
        destruct Hk as [(? & ? & q & qram & Hq' & Hqram & ?) | ?]; [left|tauto]. split; [done|]. split; [done|].
        exists q, qram. rewrite lookup_insert_ne; [done|]. intros <-. apply Hij. by eapply H5.
    - intros j k jno kno q Hj Hk Hjr Hkr. destruct (Hlk _ _ Hj) as (jno0 & ? & _ & E1), (Hlk _ _ Hk) as (kno0 & ? & _ & E2).
      eapply (H5 j k jno0 kno0 q); congruence.
    - intros q qram [[<- _] | [_ Hq']]%lookup_insert_Some; [|by eapply H6]. by eapply H6. }
  by eapply nodes_ok_fresh.
Qed.

Lemma open_ok_offset ds ns fs ts n f fl fl' : open_ok ds ns fs ts n -> fs !! f = Some fl ->
  f_inode fl' = f_inode fl -> f_dentry fl' = f_dentry fl -> f_ref fl' = f_ref fl -> is_u32 (f_offset fl') ->
  (forall i ino, f_inode fl = Some i -> ns !! i = Some ino -> i_flags ino = VFS_FILE -> f_offset fl' <= i_size ino) ->
  open_ok ds ns (<[f := fl']> fs) ts n.
Proof.
  intros [H1 H2 H3 H4 H5] Hf Ei Ed Er Hu Hsz. split.
  - intros g gl [[<- <-] | [_ Hg]]%lookup_insert_Some; [|by apply H1].
    destruct (H1 _ _ Hf) as (? & ? & i & ino & Hi & Hino & Hx & _). split; [done|]. split; [done|].
    exists i, ino. rewrite Ei, Ed. split; [done|]. split; [done|]. split; [done|]. eauto.
  - intros g gl [[<- <-] | [_ Hg]]%lookup_insert_Some; [|by apply H2]. rewrite Er. by apply H2.
  - intros i ino Hi. rewrite (opens_ext ts fs); [by apply H3|]. intros t a p _ _. unfold to_inode.
    destruct p as [g|]; [|done]. cbn [mbind option_bind]. destruct (decide (g = f)) as [-> | ?].
    + rewrite lookup_insert_eq, Hf. by rewrite Ei.
    + by rewrite lookup_insert_ne.
  - intros t a Ht. destruct (H4 _ _ Ht) as (? & Hfs & ?). split; [done|]. split; [|done]. intros k g Hk.
    destruct (Hfs _ _ Hk) as [gl Hg]. destruct (decide (g = f)) as [-> | ?]; [rewrite lookup_insert_eq|rewrite lookup_insert_ne by done]; eauto.
  - done.
Qed.

(** A task with the same descriptors, and a working directory that is one. *)
Lemma io_inv root s t a a' : fs_inv root s -> v_tasks s !! t = Some a -> io_fds a' = io_fds a ->
  (forall c, io_cwd a' = Some c -> exists i ino, inode_of (v_dentries s) c = Some i /\ v_inodes s !! i = Some ino /\ i_flags ino = VFS_DIR) ->
  fs_inv root (set_tasks (insert t a') s).
Proof.
  intros Hs Ha Hf Hc. pose proof (fi_open _ _ Hs) as [H1 H2 H3 H4 H5].
  split; cbn; try apply Hs; [|destruct (decide (t = v_current s)) as [-> | ?];
    [rewrite lookup_insert_eq; eauto|rewrite lookup_insert_ne by done; apply Hs]].
  assert (Hsum : forall g : option nat -> bool,
    tsum (fun t => count_if g (io_fds t)) (<[t := a']> (v_tasks s)) = tsum (fun t => count_if g (io_fds t)) (v_tasks s)).
  { intros g. pose proof (tsum_insert (fun t => count_if g (io_fds t)) _ _ a a' Ha) as Hx. simpl in Hx. rewrite Hf in Hx. lia. }
  split; [done| | | |].
  - intros g gl Hg. unfold slots. rewrite Hsum. by apply H2.
  - intros j jno Hj. unfold opens. rewrite Hsum. by apply H3.
  - intros u c [[<- <-] | [_ Hu]]%lookup_insert_Some; [|by eapply H4]. destruct (H4 _ _ Ha) as (E1 & E2 & E3).
    rewrite <- Hf in E1, E2. done.
  - by rewrite map_size_insert_Some by eauto.
Qed.
