(* ===== verification/VfsCalls.v ===== *)
(** * The system calls of the file system

    Each call of [kernel/VFS/vfs.c] from a state that satisfies the invariant:
    it returns, the invariant holds after it, and what it did. *)

From stdpp Require Import gmap.
From S2P Require Import Prelude StateMonad SlotTable Vfs VfsTree VfsInv.

#[local] Open Scope Z_scope.

(** ** Entries stay where they are *)

Lemma grows_child root s s' x n y : fs_inv root s -> fs_inv root s' -> grows s s' ->
  child_of (v_dentries s) root x n = Some y -> child_of (v_dentries s') root x n = Some y.
Proof.
  intros Hs Hs' (Hg & _) Hc. apply (child_of_Some _ _ _ _ _ _ (fi_tree _ _ Hs)) in Hc as (Hr & e & He & Hp & Hn).
  apply (child_of_Some _ _ _ _ _ _ (fi_tree _ _ Hs')). split; [done|].
  destruct (Hg _ _ He) as (e' & He' & Hsm). exists e'. split; [done|]. rewrite (dsame_name _ _ Hsm).
  destruct Hsm as (_ & _ & Hsm & _). split; congruence.
Qed.

Lemma grows_dir root s s' x : fs_inv root s -> grows s s' -> is_Some (v_dentries s !! x) -> dir_entry s' x = dir_entry s x.
Proof.
  intros Hs (Hg & Hi & _) Hx. destruct (inv_entry root s Hs x Hx) as (d & i & ino & Hd & Hdi & Hino & _).
  destruct (Hg _ _ Hd) as (d' & Hd' & _ & Hs2 & _). unfold dir_entry. rewrite Hd, Hd'. cbn [mbind option_bind].
  rewrite Hs2, Hdi. cbn [mbind option_bind]. by rewrite Hino, (Hi _ _ Hino).
Qed.

(** A path that led somewhere leads there still. *)
Lemma grows_walk root s s' segs x y : fs_inv root s -> fs_inv root s' -> grows s s' -> is_Some (v_dentries s !! x) ->
  walk s root x segs = Some y -> walk s' root x segs = Some y.
Proof.
  intros Hs Hs' Hg. revert x. induction segs as [|seg segs IH]; intros x Hx; simpl; [done|].
  destruct (walk_step s root x seg) as [z|] eqn:Hz; cbn [mbind option_bind]; [|done]. intros Hy.
  assert (Hz' : walk_step s' root x seg = Some z).
  { unfold walk_step in *. rewrite (grows_dir root s s' x Hs Hg Hx). case_bool_decide; [done|]. case_bool_decide.
    - destruct Hx as [d Hd], Hg as (Hg & _). destruct (Hg _ _ Hd) as (d' & Hd' & _ & _ & Hp & _).
      rewrite Hd in Hz. rewrite Hd'. cbn [mbind option_bind] in *. by rewrite Hp.
    - destruct (dir_entry s x); [|done]. by eapply (grows_child root s s'). }
  rewrite Hz'. cbn [mbind option_bind]. apply IH; [|done]. eapply walk_step_mem; [apply Hs|done|done].
Qed.

Lemma grows_meaning root s s' path x : fs_inv root s -> fs_inv root s' -> grows s s' -> io_same s s' ->
  meaning s root path = Some x -> meaning s' root path = Some x.
Proof.
  intros Hs Hs' Hg (_ & Ht & Hc & Hr & _). unfold meaning.
  assert (start_dir s' path = start_dir s path) as -> by (unfold start_dir; by rewrite Ht, Hc, Hr).
  destruct (start_dir s path) as [dir|] eqn:Hd; cbn [mbind option_bind]; [|done].
  apply (grows_walk root s s'); try done. by eapply inv_start.
Qed.

(** The new entry is what its path leads to. *)
Lemma new_entry_meaning root s s' path par x flags : fs_inv root s -> fs_inv root s' -> grows s s' -> io_same s s' ->
  (length path < PATH_BUF)%nat ->
  parent_meaning s root path = Some par -> dir_entry s par = true -> meaning s root path = None ->
  new_entry s s' par (leaf_name path) flags x -> meaning s' root path = Some x.
Proof.
  intros Hs Hs' Hg Hio Hlen Hp Hd Hno (Hfresh & _ & d & i & ino & Hx & Hdp & Hn & _).
  destruct (meaning_parent s root path par Hlen Hp Hd Hno) as (Hgood & _).
  assert (Hc : child_of (v_dentries s') root par (leaf_name path) = Some x).
  { apply (child_of_Some _ _ _ _ _ _ (fi_tree _ _ Hs')). split; [|eauto].
    intros ->. destruct (tk_root _ _ _ (fi_tree _ _ Hs)) as (rd & ? & _). congruence. }
  assert (Hstep : walk_step s' root par (leaf_name path) = Some x).
  { unfold walk_step. destruct Hgood as (_ & _ & H1 & H2 & _).
    rewrite !bool_decide_eq_false_2 by done. rewrite (grows_dir root s s' par Hs Hg), Hd; [done|].
    apply (inv_dir_entry root s Hs) in Hd as (j & jno & Hj & _). apply inode_of_Some in Hj as (pd & ? & _). eauto. }
  assert (Hne : leaf_name path <> []) by apply Hgood.
  unfold parent_meaning, leaf_name in *. destruct (has_slash path) eqn:Hsl.
  - apply (grows_meaning root s s' _ _ Hs Hs' Hg Hio) in Hp.
    destruct (has_slash_split path Hsl) as (pre & base & -> & Hb). rewrite length_app in Hlen. simpl in Hlen.
    unfold parent_path in Hp. rewrite parent_dirname_app in Hp by (done || lia). rewrite basename_app in * by done.
    unfold meaning in *. rewrite (start_dir_parent s' pre base) in Hp.
    destruct (start_dir s' _) as [d0|]; [|done]. cbn [mbind option_bind] in *.
    rewrite path_segs_slash, walk_app, (path_segs_single base) by done.
    replace (path_segs (match pre with [] => [SLASH] | _ => pre end)) with (path_segs pre) in Hp by by destruct pre.
    rewrite Hp. cbn [mbind option_bind]. destruct base; [done|]. cbn [walk]. by rewrite Hstep.
  - apply has_slash_false in Hsl. unfold meaning.
    assert (start_dir s' path = Some par) as ->.
    { destruct Hio as (_ & Ht & Hcu & Hr & _). unfold start_dir in *. by rewrite Ht, Hcu, Hr. }
    cbn [mbind option_bind]. rewrite path_segs_single by done. destruct path; [done|]. cbn [walk]. by rewrite Hstep.
Qed.

Section calls.
Context `{Machine} (Hstr : forall n, grants AString n = true).

(** ** [sys_mkdir] *)

Definition mkdir_done (root : nat) (s : vfs) (path : list Z) (r : Z) (s' : vfs) : Prop :=
  fs_inv root s' /\ io_same s s' /\ grows s s' /\
  ((r = VFS_ERR /\ v_dentries s' = v_dentries s) \/
   (r = VFS_OK /\ meaning s root path = None /\ exists par x, parent_meaning s root path = Some par /\
      dir_entry s par = true /\ new_entry s s' par (leaf_name path) VFS_DIR x)).

Lemma mkdir_refused root s path : fs_inv root s -> mkdir_done root s path VFS_ERR s.
Proof. intros Hs. split; [done|]. split; [done|]. split; [by apply grows_refl|auto]. Qed.

Lemma sys_mkdir_spec root s path : fs_inv root s -> path_ok s path ->
  exists r s', sys_mkdir path s = Some (r, s') /\ mkdir_done root s path r s'.
Proof.
  intros Hs Hp. unfold sys_mkdir. rewrite (run_bind _ _ _ _ _ (parent_spec root s Hs path Hp)). cbv beta iota.
  destruct (parent_meaning s root path) as [par|] eqn:Hpar; [|eexists _, _; split; [reflexivity|by apply mkdir_refused]].
  destruct (inv_entry root s Hs par (inv_parent root s Hs path par Hp Hpar)) as (d & i & ino & Hd & Hi & Hino & _ & Hdir & _).
  rewrite (run_dentry _ _ _ _ _ eq_refl Hd), (run_inode _ _ _ _ _ Hi Hino). rewrite <- Hdir.
  destruct (dir_entry s par) eqn:Hde; simpl; [|eexists _, _; split; [reflexivity|by apply mkdir_refused]].
  rewrite run_gets, (run_bind _ _ _ _ _ (lookup_spec root s Hs path Hp)).
  destruct (meaning s root path) as [y|] eqn:Hm; [eexists _, _; split; [reflexivity|by apply mkdir_refused]|].
  destruct (meaning_parent s root path par (proj1 Hp) Hpar Hde Hm) as [Hgood Hnew].
  destruct (mkdir_spec Hstr root s Hs par _ Hde Hgood Hnew) as (o & s' & Hrun & Hinv & Hio & Hg & Ho).
  rewrite (run_bind _ _ _ _ _ Hrun). eexists _, _. split; [reflexivity|]. split; [done|]. split; [done|]. split; [done|].
  destruct o as [x|]; [right|left; done]. split; [done|]. split; [done|]. eauto.
Qed.

(** ** [sys_open] *)

(** The descriptor table after an open; [k] is the slot taken. *)
Definition opened (s s' : vfs) (x : nat) (flags : Z) (k : nat) : Prop :=
  exists a f i ino, v_tasks s !! v_current s = Some a /\ io_fds a !! k = Some None /\ (k < TASK_MAX_FDS)%nat /\
    inode_of (v_dentries s) x = Some i /\ v_inodes s !! i = Some ino /\ v_files s !! f = None /\
    v_tasks s' = <[v_current s := task_log_event (v_ticks s) (io_set_fd a k (Some f)) EVT_FD_OPEN (Z.of_nat k)]> (v_tasks s) /\
    v_files s' = <[f := File (Some i) (Some x) 0 flags 1]> (v_files s) /\
    v_inodes s' = <[i := inode_set_ref ino (i_ref ino + 1)]> (v_inodes s) /\
    v_dentries s' = v_dentries s /\ v_rams s' = v_rams s /\ v_current s' = v_current s /\ v_root s' = v_root s.

Definition not_opened (s s' : vfs) : Prop :=
  v_tasks s' = v_tasks s /\ v_files s' = v_files s /\ v_inodes s' = v_inodes s /\ v_dentries s' = v_dentries s /\
  v_rams s' = v_rams s /\ v_current s' = v_current s /\ v_root s' = v_root s.

Lemma task_log_io now t e v : io_fds (task_log_event now t e v) = io_fds t /\ io_cwd (task_log_event now t e v) = io_cwd t.
Proof. unfold task_log_event. by destruct (TASK_MAX_EVENTS <=? _)%nat. Qed.

Lemma node_size root s i ino : fs_inv root s -> v_inodes s !! i = Some ino -> i_flags ino = VFS_FILE -> 0 <= i_size ino.
Proof.
  intros Hs Hi Hf. destruct (nk_node _ _ _ _ (fi_nodes _ _ Hs) _ _ Hi) as (_ & [(_ & _ & r & ram & _ & _ & _ & ?) | [(Hd & _) | (Hd & _)]]);
    [lia|by rewrite Hd in Hf|by rewrite Hd in Hf].
Qed.

Lemma open_dentry_spec root s x flags : fs_inv root s -> is_Some (v_dentries s !! x) ->
  exists r s', open_dentry x flags s = Some (r, s') /\ fs_inv root s' /\
    ((r = VFS_ERR /\ not_opened s s') \/ exists k, r = Z.of_nat k /\ opened s s' x flags k).
Proof.
  intros Hs Hx. destruct (inv_entry root s Hs x Hx) as (d & i & ino & Hd & Hi & Hino & Hmt & _ & Hk).
  destruct (fi_current _ _ Hs) as [a Ha].
  unfold open_dentry. rewrite (run_dentry _ _ _ _ _ eq_refl Hd), run_kmalloc.
  destruct (grants AStruct (v_fresh s)).
  2: { eexists _, _. split; [reflexivity|]. split; [apply fs_inv_fresh; [done|lia]|]. left. done. }
  unfold vfs_follow_mount. rewrite run_assoc, (run_dentry _ x d) by done. rewrite Hmt, run_ret.
  unfold put_file. rewrite run_modify, (run_current a) by done.
  assert (Hff : v_files s !! v_fresh s = None).
  { destruct (v_files s !! v_fresh s) as [g|] eqn:E; [|done]. destruct (ok_file _ _ _ _ _ (fi_open _ _ Hs) _ _ E) as (? & _). lia. }
  destruct (find_idx _ (io_fds a)) as [k|] eqn:Hfd.
  - apply find_idx_Some in Hfd as (p & Hp & Hnone & _). apply bool_decide_eq_true in Hnone as ->.
    assert (Hk32 : (k < TASK_MAX_FDS)%nat).
    { destruct (ok_task _ _ _ _ _ (fi_open _ _ Hs) _ _ Ha) as (<- & _). by eapply lookup_lt_Some. }
    rewrite run_put_current, (run_inode _ i ino) by done. rewrite Hi.
    unfold put_inode. rewrite run_modify.
    erewrite run_current by (cbn; apply lookup_insert_eq). rewrite run_gets.
    rewrite run_put_current.
    eexists _, _. split; [reflexivity|].
    assert (Hwrap : i_ref ino +32 1 = i_ref ino + 1).
    { apply u32_small. destruct (ok_opens _ _ _ _ _ (fi_open _ _ Hs) _ _ Hino) as [Hr _].
      pose proof (opens_bound _ _ _ _ _ i (fi_open _ _ Hs)). unfold is_u32. lia. }
    rewrite Hwrap. split.
    + split; cbn; rewrite ?insert_insert_eq; try apply Hs.
      * eapply tree_ok_fresh; [|apply Hs]. lia.
      * eapply nodes_ok_inode; [|done|apply same_node_ref]. eapply nodes_ok_fresh; [|apply Hs]. lia.
      * eapply (open_ok_open _ _ _ _ (v_fresh s) _ i ino _ _ _ x _ a _ k); try done; try lia; try apply Hs.
        -- apply inode_of_Some. eauto.
        -- intros Hf. by eapply node_size.
        -- simpl. by rewrite (proj1 (task_log_io _ _ _ _)).
        -- simpl. by rewrite (proj2 (task_log_io _ _ _ _)).
      * rewrite lookup_insert_eq. eauto.
    + right. exists k. split; [done|]. exists a, (v_fresh s), i, ino. cbn. rewrite insert_insert_eq.
      repeat (split; [done|]). split; [apply inode_of_Some; eauto|]. done.
  - unfold free_file. rewrite run_assoc, (run_file _ (v_fresh s) (File (d_inode d) (Some x) 0 flags 1)) by
      (done || apply lookup_insert_eq).
    rewrite run_modify. eexists _, _. split; [reflexivity|].
    assert (Hdel : delete (v_fresh s) (<[v_fresh s := File (d_inode d) (Some x) 0 flags 1]> (v_files s)) = v_files s)
      by (rewrite delete_insert_eq; by apply delete_id).
    split; [|left; split; [done|]; unfold not_opened; cbn; by rewrite Hdel].
    pose proof (fs_inv_fresh root s (S (v_fresh s)) Hs ltac:(lia)) as [H1 H2 H3 H4 H5 H6].
    split; cbn in *; try done. by rewrite Hdel.
Qed.

(** A file is made first where the path leads nowhere and [CREAT] is given. *)
Definition open_done (root : nat) (s : vfs) (path : list Z) (flags r : Z) (s' : vfs) : Prop :=
  fs_inv root s' /\ exists s1, fs_inv root s1 /\ grows s s1 /\ io_same s s1 /\
    (v_dentries s1 = v_dentries s \/
     (Z.land flags CREAT <> 0 /\ meaning s root path = None /\ exists par x, parent_meaning s root path = Some par /\
        new_entry s s1 par (leaf_name path) VFS_FILE x)) /\
    ((r = VFS_ERR /\ not_opened s1 s') \/
     exists k x, r = Z.of_nat k /\ meaning s1 root path = Some x /\ opened s1 s' x flags k).

Lemma open_refused root s path flags : fs_inv root s -> open_done root s path flags VFS_ERR s.
Proof.
  intros Hs. split; [done|]. exists s. split; [done|]. split; [by apply grows_refl|]. split; [done|].
  split; [by left|]. by left.
Qed.

Lemma open_create_spec root s path : fs_inv root s -> path_ok s path -> meaning s root path = None ->
  exists o s', open_create path s = Some (o, s') /\ fs_inv root s' /\ grows s s' /\ io_same s s' /\
    match o with
    | None => v_dentries s' = v_dentries s
    | Some x => meaning s' root path = Some x /\
        exists par, parent_meaning s root path = Some par /\ new_entry s s' par (leaf_name path) VFS_FILE x
    end.
Proof.
  intros Hs Hp Hm. unfold open_create. rewrite (run_bind _ _ _ _ _ (parent_spec root s Hs path Hp)). cbv beta iota.
  assert (Hno : fs_inv root s /\ grows s s /\ io_same s s /\ v_dentries s = v_dentries s)
    by (split; [done|]; split; [by apply grows_refl|done]).
  destruct (parent_meaning s root path) as [par|] eqn:Hpar; [|eexists _, _; split; [reflexivity|done]].
  destruct (inv_entry root s Hs par (inv_parent root s Hs path par Hp Hpar)) as (d & i & ino & Hd & Hi & Hino & _ & Hdir & _).
  rewrite (run_dentry _ _ _ _ _ eq_refl Hd), (run_inode _ _ _ _ _ Hi Hino). rewrite <- Hdir.
  destruct (dir_entry s par) eqn:Hde; [|eexists _, _; split; [reflexivity|done]].
  destruct (meaning_parent s root path par (proj1 Hp) Hpar Hde Hm) as [Hgood Hnew].
  destruct (create_files_spec Hstr root s Hs par _ Hde Hgood Hnew) as (o & s' & Hrun & Hinv & Hio & Hg & Ho).
  eexists o, s'. split; [done|]. do 3 (split; [done|]). destruct o as [x|]; [|done]. split; [|eauto].
  eapply (new_entry_meaning root s s'); eauto. apply Hp.
Qed.

Lemma sys_open_spec root s path flags : fs_inv root s -> path_ok s path ->
  exists r s', sys_open path flags s = Some (r, s') /\ open_done root s path flags r s'.
Proof.
  intros Hs Hp. unfold sys_open. rewrite run_gets, (run_bind _ _ _ _ _ (lookup_spec root s Hs path Hp)).
  destruct (meaning s root path) as [x|] eqn:Hm.
  - rewrite run_ret. destruct (open_dentry_spec root s x flags Hs (inv_meaning root s Hs path x Hm)) as (r & s' & Hrun & Hs' & Ho).
    eexists r, s'. split; [done|]. split; [done|]. exists s. split; [done|]. split; [by apply grows_refl|].
    split; [done|]. split; [by left|]. destruct Ho as [? | (k & ? & ?)]; [by left|right]. eauto.
  - destruct (Z.land flags CREAT =? 0) eqn:Hfl.
    + rewrite run_ret. eexists _, _. split; [reflexivity|]. by apply open_refused.
    + destruct (open_create_spec root s path Hs Hp Hm) as (o & s1 & Hrun & Hs1 & Hg & Hio & Ho).
      rewrite (run_bind _ _ _ _ _ Hrun). destruct o as [x|].
      * destruct Ho as [Hm1 Hpar].
        destruct (open_dentry_spec root s1 x flags Hs1 (inv_meaning root s1 Hs1 path x Hm1)) as (r & s' & Hr & Hs' & Ho).
        eexists r, s'. split; [done|]. split; [done|]. exists s1. do 3 (split; [done|]). split.
        -- right. breflect. split; [done|]. split; [done|]. destruct Hpar as (par & ? & ?). eauto.
        -- destruct Ho as [? | (k & ? & ?)]; [by left|right]. eauto.
      * eexists _, _. split; [reflexivity|]. split; [done|]. exists s1. do 3 (split; [done|]).
        split; [by left|]. by left.
Qed.

(** ** [sys_close] *)

(** What a descriptor leads to. *)
Lemma fd_file_spec root s fd : fs_inv root s -> exists a, v_tasks s !! v_current s = Some a /\
  ((fd_file fd s = Some (None, s)) \/
   exists k f, fd = Z.of_nat k /\ (k < TASK_MAX_FDS)%nat /\ io_fds a !! k = Some (Some f) /\
     fd_file fd s = Some (Some f, s)).
Proof.
  intros Hs. destruct (fi_current _ _ Hs) as [a Ha]. exists a. split; [done|]. unfold fd_file, TASK_MAX_FDS.
  destruct (fd <? 0) eqn:H1; [by left|]. destruct (Z.of_nat 32 <=? fd) eqn:H2; [by left|]. simpl. breflect.
  rewrite (run_current a) by done. destruct (ok_task _ _ _ _ _ (fi_open _ _ Hs) _ _ Ha) as (Hl & _).
  unfold TASK_MAX_FDS in Hl. destruct (lookup_lt_is_Some_2 (io_fds a) (Z.to_nat fd)) as [p Hp]; [lia|].
  unfold reads. rewrite Hp. destruct p as [f|]; [right|by left].
  exists (Z.to_nat fd), f. rewrite Hp. split; [lia|]. split; [lia|]. done.
Qed.

Lemma fd_open root s a k f : fs_inv root s -> v_tasks s !! v_current s = Some a -> io_fds a !! k = Some (Some f) ->
  exists fl i ino, v_files s !! f = Some fl /\ f_inode fl = Some i /\ v_inodes s !! i = Some ino /\
    file_ok (v_dentries s) (v_inodes s) (v_fresh s) f fl.
Proof.
  intros Hs Ha Hk. destruct (ok_task _ _ _ _ _ (fi_open _ _ Hs) _ _ Ha) as (_ & Hf & _). destruct (Hf _ _ Hk) as [fl Hfl].
  pose proof (ok_file _ _ _ _ _ (fi_open _ _ Hs) _ _ Hfl) as Hok. destruct (Hok) as (_ & _ & i & ino & ? & ? & _). eauto 10.
Qed.

(** One descriptor fewer; the file goes with its last one. *)
Definition closed (s s' : vfs) (k : nat) : Prop :=
  exists a f fl i ino, v_tasks s !! v_current s = Some a /\ io_fds a !! k = Some (Some f) /\
    v_files s !! f = Some fl /\ f_inode fl = Some i /\ v_inodes s !! i = Some ino /\
    v_tasks s' = <[v_current s := io_set_fd a k None]> (v_tasks s) /\
    v_files s' = close_file (v_files s) f fl /\ v_inodes s' = <[i := close_inode ino]> (v_inodes s) /\
    v_dentries s' = v_dentries s /\ v_rams s' = v_rams s /\ v_root s' = v_root s /\ v_current s' = v_current s /\
    v_fresh s' = v_fresh s.

Lemma sys_close_spec root s fd : fs_inv root s -> exists r s', sys_close fd s = Some (r, s') /\ fs_inv root s' /\
  ((r = VFS_ERR /\ s' = s /\ fd_file fd s = Some (None, s)) \/
   exists k, fd = Z.of_nat k /\ r = VFS_OK /\ closed s s' k).
Proof.
  intros Hs. destruct (fd_file_spec root s fd Hs) as (a & Ha & [Hfd | (k & f & -> & Hk & Hf & Hfd)]);
    unfold sys_close; rewrite (run_bind _ _ _ _ _ Hfd).
  { eexists _, _. split; [reflexivity|]. split; [done|]. by left. }
  destruct (fd_open root s a k f Hs Ha Hf) as (fl & i & ino & Hfl & Hi & Hino & _).
  pose proof (open_ok_close _ _ _ _ _ (fi_open _ _ Hs) _ a (io_set_fd a k None) k f i fl ino Ha Hf Hfl Hi Hino eq_refl eq_refl) as Hok.
  rewrite (run_file _ f fl) by done. rewrite Nat2Z.id. set (s1 := set_inodes (insert i (close_inode ino)) s).
  assert (Hput : inode_put (f_inode fl) s = Some (tt, s1)).
  { unfold inode_put, s1, close_inode. rewrite Hi, (run_inode _ i ino) by done.
    destruct (ok_opens _ _ _ _ _ (fi_open _ _ Hs) _ _ Hino) as [Hr _].
    destruct (0 <? i_ref ino) eqn:E; breflect; [by rewrite Z.max_r by lia|]. rewrite Z.max_l by lia.
    unfold mret, ST_ret. do 2 f_equal. destruct s, ino. unfold set_inodes, inode_set_ref. cbn in *. f_equal. symmetry.
    apply insert_id. rewrite Hino. do 2 f_equal. lia. }
  rewrite (run_bind _ _ _ _ _ Hput).
  assert (Hdrop : (if 1 <? f_ref fl then put_file f (file_set_ref fl (f_ref fl - 1)) else free_file f) s1 =
    Some (tt, set_files (fun m => close_file m f fl) s1)).
  { unfold close_file. destruct (1 <? f_ref fl); [done|]. unfold free_file. by rewrite (run_file _ f fl) by done. }
  rewrite (run_bind _ _ _ _ _ Hdrop), (run_current a), run_put_current by done.
  eexists _, _. split; [reflexivity|]. split.
  - split; cbn; try apply Hs.
    + eapply nodes_ok_inode; [apply Hs|done|apply same_node_ref].
    + exact Hok.
    + rewrite lookup_insert_eq. eauto.
  - right. exists k. split; [done|]. split; [done|]. exists a, f, fl, i, ino. done.
Qed.

(** ** [sys_chdir] *)

Lemma sys_chdir_spec root s path : fs_inv root s -> path_ok s path ->
  exists r s', sys_chdir path s = Some (r, s') /\ fs_inv root s' /\
  ((r = VFS_ERR /\ s' = s) \/
   (r = VFS_OK /\ exists a x, v_tasks s !! v_current s = Some a /\ meaning s root path = Some x /\ dir_entry s x = true /\
      s' = set_tasks (insert (v_current s) (io_set_cwd a (Some x))) s)).
Proof.
  intros Hs Hp. unfold sys_chdir. rewrite run_gets, (run_bind _ _ _ _ _ (lookup_spec root s Hs path Hp)).
  destruct (meaning s root path) as [x|] eqn:Hm; [|eexists _, _; split; [reflexivity|]; split; [done|by left]].
  destruct (inv_entry root s Hs x (inv_meaning root s Hs path x Hm)) as (d & i & ino & Hd & Hi & Hino & _ & Hdir & Hk).
  rewrite (run_dentry _ x d), (run_inode _ i ino) by done. rewrite <- Hdir.
  destruct (dir_entry s x) eqn:Hde; [|eexists _, _; split; [reflexivity|]; split; [done|by left]].
  destruct (fi_current _ _ Hs) as [a Ha]. rewrite (run_current a), run_put_current by done.
  eexists _, _. split; [reflexivity|]. split; [|right; split; [done|]; by exists a, x].
  apply (io_inv root s _ a); [done..|]. intros c [= <-]. by apply (inv_dir_entry root s Hs).
Qed.

(** ** [sys_unlink] *)

(** What the call does not check: the entry is no directory with entries of
    its own, nobody has it open or works in it, and it is not [/dev]. *)
Definition unlinkable (root : nat) (s : vfs) (path : list Z) : Prop :=
  forall x, meaning s root path = Some x -> x <> root ->
    v_devfs_root s <> Some x /\
    (forall y e, v_dentries s !! y = Some e -> d_parent e <> Some x) /\
    (forall t a, v_tasks s !! t = Some a -> io_cwd a <> Some x) /\
    (forall i ino, inode_of (v_dentries s) x = Some i -> v_inodes s !! i = Some ino -> i_ref ino = 0).

Definition removed (s s' : vfs) (x : nat) : Prop :=
  io_same s s' /\ v_dentries s' !! x = None /\ grows s' s /\
  forall y, y <> x -> is_Some (v_dentries s !! y) -> is_Some (v_dentries s' !! y).

(** The chain of an entry, cut at the entry. *)
Lemma entry_chain root s x d : fs_inv root s -> v_dentries s !! x = Some d -> x <> root ->
  exists par pd p l1 l2, d_parent d = Some par /\ v_dentries s !! par = Some pd /\
    d_bucket pd !! Z.to_nat (dentry_hash (dname d)) = Some p /\ linked (v_dentries s) p (l1 ++ x :: l2) /\
    NoDup (l1 ++ x :: l2) /\
    (forall y, y ∈ l1 ++ x :: l2 <-> child_in (v_dentries s) root par (Z.to_nat (dentry_hash (dname d))) y).
Proof.
  intros Hs Hd Hr. pose proof (fi_tree _ _ Hs) as Ht.
  destruct (tk_dentry _ _ _ Ht _ _ Hd) as (_ & _ & _ & (par & Hp & [pd Hpd]) & _).
  destruct (tk_dentry _ _ _ Ht _ _ Hpd) as (_ & _ & _ & _ & Hlen & _).
  pose proof (hash_range (dname d)) as Hh. rewrite <- Hlen in Hh. destruct (lookup_lt_is_Some_2 _ _ Hh) as [p Hb].
  destruct (tk_chain _ _ _ Ht _ _ _ _ Hpd Hb) as (l & Hl & Hnd & Hm).
  assert (Hin : x ∈ l) by (apply Hm; split; [done|]; eauto).
  apply list_elem_of_split in Hin as (l1 & l2 & ->). exists par, pd, p, l1, l2. done.
Qed.

Lemma unhang_run root s x d par pd p l1 l2 : fs_inv root s -> v_dentries s !! x = Some d ->
  v_dentries s !! par = Some pd -> d_bucket pd !! Z.to_nat (dentry_hash (dname d)) = Some p ->
  linked (v_dentries s) p (l1 ++ x :: l2) -> NoDup (l1 ++ x :: l2) ->
  unhang x par (Z.to_nat (dentry_hash (dname d))) s =
    Some (tt, set_dentries (fun _ => unlinked (v_dentries s) par d pd l1) s).
Proof.
  clear Hstr. intros Hs Hd Hpd Hb Hl Hnd. unfold unhang. rewrite (run_dentry _ par pd), (run_reads _ _ _ p) by done.
  pose proof (linked_size _ _ _ Hl Hnd) as Hsz. rewrite length_app in Hsz. simpl in Hsz.
  apply list.NoDup_app in Hnd as (_ & Hdis & _).
  rewrite (run_reads _ _ _ (Some (prev_of None l1))).
  2: { apply (find_prev_linked _ _ _ _ _ l1 l2); [done| |lia]. intros Hx. apply (Hdis x Hx). apply elem_of_cons; auto. }
  rewrite (run_dentry _ x d) by done. unfold unlinked. destruct (prev_of None l1) as [q|] eqn:Hq; [|done].
  assert (Hqin : q ∈ l1).
  { unfold prev_of in Hq. destruct (list.last l1) as [q'|] eqn:E; [|done]. injection Hq as ->.
    apply last_Some in E as [k ->]. set_solver. }
  destruct (linked_mem _ _ _ q Hl ltac:(apply elem_of_app; auto)) as [qd Hqd].
  rewrite Hqd, (run_dentry _ q qd) by done. done.
Qed.

Lemma drop_inode_run root s i ino : fs_inv root s -> v_inodes s !! i = Some ino -> i_ref ino = 0 ->
  forall ds, exists rs', drop_inode i (set_dentries ds s) =
    Some (tt, set_inodes (delete i) (set_rams (fun _ => rs') (set_dentries ds s))) /\
    (forall j jno r, v_inodes s !! j = Some jno -> j <> i -> i_private jno = Some r -> rs' !! r = v_rams s !! r) /\
    (forall r ram, rs' !! r = Some ram -> v_rams s !! r = Some ram).
Proof.
  intros Hs Hi Hr ds. unfold drop_inode, inode_put. rewrite run_assoc, (run_inode _ i ino) by done. rewrite Hr.
  change (0 <? 0) with false. cbv iota. rewrite run_ret, (run_inode _ i ino) by done. rewrite Hr. change (0 =? 0) with true. cbv iota.
  pose proof (nk_node _ _ _ _ (fi_nodes _ _ Hs) _ _ Hi) as (_ & Hk). unfold free_inode, free_ram.
  destruct (i_private ino) as [r|] eqn:Hp.
  - destruct Hk as [(Hf & _ & q & ram & Hq & Hram & _) | [(_ & ? & _) | (_ & ? & _)]]; [|congruence..].
    rewrite Hf. change (Z.land VFS_FILE VFS_FILE =? 0) with false. cbv iota.
    assert (q = r) as -> by congruence.
    rewrite run_assoc, (run_ram r ram), run_modify, (run_inode _ i ino) by done.
    exists (delete r (v_rams s)). split; [done|]. split.
    + intros j jno r' Hj Hji Hr'. rewrite lookup_delete_ne; [done|]. intros <-. apply Hji.
      by eapply (nk_private _ _ _ _ (fi_nodes _ _ Hs)).
    + intros r' ram' Hr'. by apply lookup_delete_Some in Hr' as [_ ?].
  - rewrite run_ret, (run_inode _ i ino) by done. exists (v_rams s). split; [|done].
    by destruct s.
Qed.

Lemma sys_unlink_spec root s path : fs_inv root s -> path_ok s path -> unlinkable root s path ->
  exists r s', sys_unlink path s = Some (r, s') /\ fs_inv root s' /\
  ((r = VFS_ERR /\ s' = s) \/ (r = VFS_OK /\ exists x, meaning s root path = Some x /\ removed s s' x)).
Proof.
  clear Hstr. intros Hs Hp Hun. unfold sys_unlink. rewrite run_gets, (run_bind _ _ _ _ _ (lookup_spec root s Hs path Hp)).
  destruct (meaning s root path) as [x|] eqn:Hm; [|eexists _, _; split; [reflexivity|]; split; [done|by left]].
  rewrite (fi_root _ _ Hs). case_bool_decide as Hr; [eexists _, _; split; [reflexivity|]; split; [done|by left]|].
  assert (Hxr : x <> root) by congruence. destruct (Hun x Hm Hxr) as (Hdev & Hleaf & Hcwd & Href).
  destruct (inv_entry root s Hs x (inv_meaning root s Hs path x Hm)) as (d & i & ino & Hd & Hi & Hino & _ & Hdir & Hk).
  destruct (entry_chain root s x d Hs Hd Hxr) as (par & pd & p & l1 & l2 & Hpar & Hpd & Hb & Hl & Hnd & Hmem).
  rewrite (run_dentry _ x d) by done. rewrite Hpar, Hi.
  destruct (fi_names _ _ Hs _ _ Hd Hxr Hdev) as [n Hn].
  assert (Hdn : name_chars (d_name d) = Some (dname d)) by (unfold dname; by rewrite Hn).
  rewrite (run_reads _ _ _ (dname d)), (run_inode _ i ino) by done.
  destruct (tk_dentry _ _ _ (fi_tree _ _ Hs) _ _ Hd) as (_ & _ & _ & _ & _ & _ & Hch). rewrite Hch.
  rewrite (bool_decide_eq_false_2 (None <> None)) by congruence. rewrite andb_false_r. cbv iota.
  rewrite (run_bind _ _ _ _ _ (unhang_run root s x d par pd p l1 l2 Hs Hd Hpd Hb Hl Hnd)).
  assert (Hxi : inode_of (v_dentries s) x = Some i) by (apply inode_of_Some; eauto).
  destruct (drop_inode_run root s i ino Hs Hino (Href _ _ Hxi Hino) (fun _ => unlinked (v_dentries s) par d pd l1))
    as (rs' & Hdrop & Hrs1 & Hrs2). rewrite (run_bind _ _ _ _ _ Hdrop).
  rewrite Hn. unfold free_name. rewrite run_ret. unfold free_dentry.
  assert (Hx' : is_Some (unlinked (v_dentries s) par d pd l1 !! x)).
  { unfold unlinked. destruct (prev_of None l1) as [q|]; [destruct (v_dentries s !! q); [|eauto]|];
      by apply lookup_insert_is_Some'; right; eauto. }
  destruct Hx' as [dx Hdx]. rewrite run_assoc, (run_dentry _ x dx), run_modify by done.
  eexists _, _. split; [reflexivity|].
  assert (Hnd' : i_flags ino <> VFS_DEVICE) by (destruct Hk as [(-> & _) | (-> & _)]; done).
  pose proof (unhung_tree _ _ _ x par d pd p l1 l2 (fi_tree _ _ Hs) Hd Hxr Hpar Hpd Hleaf Hb Hl Hnd Hmem) as Htree.
  set (ds' := unhung _ _ _ _ _ _) in Htree.
  assert (Hold : forall y e, y <> x -> v_dentries s !! y = Some e -> exists e', ds' !! y = Some e' /\ dsame e e').
  { intros y e Hy He. destruct (unhung_old _ _ _ _ _ _ _ _ Hpd Hmem y e Hy He) as (e' & ? & ? & _). eauto. }
  assert (Hinv : forall y e', ds' !! y = Some e' -> y <> x /\ exists e, v_dentries s !! y = Some e /\ dsame e e').
  { intros y e' He'. destruct (unhung_inv _ _ _ _ _ _ Hpd y e' He') as (Hy & e & He). split; [done|].
    exists e. split; [done|]. destruct (Hold y e Hy He) as (e2 & ? & ?). congruence. }
  split.
  - split; cbn; try apply Hs.
    + exact Htree.
    + eapply (remove_nodes (v_dentries s) ds'); eauto using fi_nodes.
    + eapply (remove_open (v_dentries s) ds'); eauto using fi_nodes, fi_open.
    + intros y e' He' Hyr Hyd. destruct (Hinv _ _ He') as (_ & e & He & -> & _). by eapply (fi_names _ _ Hs).
  - right. split; [done|]. exists x. split; [done|]. split; [done|]. split; [apply lookup_delete_eq|]. split.
    + split; [|split]; cbn.
      * intros y e' He'. destruct (Hinv _ _ He') as (_ & e & He & Hsm). exists e. split; [done|].
        unfold dsame in *. naive_solver.
      * intros j jno Hj. by apply lookup_delete_Some in Hj as [_ ?].
      * done.
    + intros y Hy [e He]. destruct (Hold y e Hy He) as (e' & ? & _). cbn. eauto.
Qed.
End calls.
