(* ===== verification/VfsData.v ===== *)
(** * File contents

    Reading and writing through a descriptor: [ramfs_read], [ramfs_write] and
    [ramfs_expand] of [kernel/VFS/RAMFS.c] behind [sys_read] and [sys_write],
    seen as operations on the list of bytes a file holds. *)

From stdpp Require Import gmap.
From S2P Require Import Prelude StateMonad SlotTable Vfs VfsTree VfsInv VfsCalls.

#[local] Open Scope Z_scope.

(** The bytes of a file. *)
Definition ram_content (ino : inode) (ram : ramfs_inode) : list Z := take (Z.to_nat (i_size ino)) (rm_data ram).
Definition content (s : vfs) (i : nat) : option (list Z) :=
  ino ← v_inodes s !! i; r ← i_private ino; ram ← v_rams s !! r; Some (ram_content ino ram).

(** [buf] written over [c] at [off]. *)
Definition splice (c : list Z) (off : Z) (buf : list Z) : list Z :=
  take (Z.to_nat off) c ++ buf ++ drop (Z.to_nat off + length buf) c.

(** ** The doubling loop *)

Lemma pow2_split k m : 0 <= k -> k <= m -> 2 ^ m = 2 ^ k * 2 ^ (m - k).
Proof. intros Hk Hm. rewrite <- Z.pow_add_r by lia. f_equal. lia. Qed.

Lemma grow_spec fuel k needed : 0 <= k <= 31 -> needed <= 2147483648 -> 31 - k <= Z.of_nat fuel ->
  exists m, k <= m <= 31 /\ grow fuel (2 ^ k) needed = Some (2 ^ m) /\ needed <= 2 ^ m.
Proof.
  revert k. induction fuel as [|fuel IH]; intros k Hk Hn Hf; simpl; destruct (needed <=? 2 ^ k) eqn:E; breflect.
  - exists k. split; [lia|done].
  - assert (k = 31) as -> by lia. change (2 ^ 31) with 2147483648 in E. lia.
  - exists k. split; [lia|done].
  - assert (k < 31).
    { destruct (decide (k = 31)) as [-> | ?]; [|lia]. change (2 ^ 31) with 2147483648 in E. lia. }
    assert (2 ^ k *32 2 = 2 ^ (k + 1)) as ->.
    { rewrite Z.pow_add_r by lia. apply u32_small. unfold is_u32.
      pose proof (Z.pow_le_mono_r 2 k 30). pose proof (Z.pow_pos_nonneg 2 k). change (2 ^ 30) with 1073741824 in *. lia. }
    destruct (IH (k + 1)) as (m & ? & ? & ?); [lia|done|lia|]. exists m. split; [lia|done].
Qed.

(** Past 2 GiB the loop never ends: the capacity wraps to zero and stays. *)
Lemma grow_zero fuel needed : 0 < needed -> grow fuel 0 needed = None.
Proof. intros Hn. induction fuel as [|fuel IH]; simpl; rewrite (proj2 (Z.leb_gt _ _)) by lia; [done|]. apply IH. Qed.

Lemma grow_diverges fuel k needed : 0 <= k <= 31 -> 2147483648 < needed -> grow fuel (2 ^ k) needed = None.
Proof.
  revert k. induction fuel as [|fuel IH]; intros k Hk Hn; simpl.
  all: assert (Hle : 2 ^ k <= 2147483648) by (change 2147483648 with (2 ^ 31); apply Z.pow_le_mono_r; lia).
  all: rewrite (proj2 (Z.leb_gt _ _)) by lia.
  { done. }
  destruct (decide (k = 31)) as [-> | ?].
  - change (2 ^ 31 *32 2) with 0. apply grow_zero. lia.
  - assert (2 ^ k *32 2 = 2 ^ (k + 1)) as ->; [|apply IH; lia].
    rewrite Z.pow_add_r by lia. apply u32_small. unfold is_u32.
    pose proof (Z.pow_le_mono_r 2 k 30). pose proof (Z.pow_pos_nonneg 2 k). change (2 ^ 30) with 1073741824 in *. lia.
Qed.

(** ** Bytes *)

Lemma ram_bound ram : ram_ok ram -> 0 < rm_capacity ram <= 2147483648.
Proof.
  intros (_ & k & Hk & ->). change 2147483648 with (2 ^ 31). split; [lia|]. apply Z.pow_le_mono_r; lia.
Qed.

Lemma wr_some buf i src : (i + length src <= length buf)%nat ->
  wr buf i src = Some (take i buf ++ src ++ drop (i + length src) buf).
Proof. intros Hl. unfold wr. by rewrite (proj2 (Nat.leb_le _ _)). Qed.

Lemma splice_content data size off buf : (size <= length data)%nat -> 0 <= off -> (Z.to_nat off <= size)%nat ->
  (Z.to_nat off + length buf <= length data)%nat ->
  take (Nat.max size (Z.to_nat off + length buf)) (take (Z.to_nat off) data ++ buf ++ drop (Z.to_nat off + length buf) data) =
  splice (take size data) off buf.
Proof.
  intros Hs Ho Hos Hl. unfold splice. rewrite take_take, Nat.min_l by done.
  rewrite take_app, length_take, Nat.min_l by lia. rewrite take_take, Nat.min_r by lia. f_equal.
  rewrite take_app. rewrite take_ge by lia. f_equal. rewrite skipn_firstn_comm. f_equal. lia.
Qed.

Section data.
Context `{Machine}.

(** ** [ramfs_read] and [ramfs_write] *)

Lemma ramfs_read_spec s x d i ino r ram off sz : v_dentries s !! x = Some d -> d_inode d = Some i ->
  v_inodes s !! i = Some ino -> i_private ino = Some r -> v_rams s !! r = Some ram -> ram_ok ram ->
  0 <= off <= i_size ino -> i_size ino <= rm_capacity ram -> 0 <= sz < 2147483648 ->
  let out := take (Z.to_nat sz) (drop (Z.to_nat off) (ram_content ino ram)) in
  ramfs_read (Some x) off sz s = Some ((zlen out, out), s).
Proof.
  intros Hd Hi Hino Hr Hram Hok Ho Hsz Hn out. pose proof (ram_bound _ Hok) as Hcap. destruct Hok as [Hlen _].
  unfold ramfs_read. rewrite (run_dentry _ x d), (run_inode _ i ino) by done. rewrite Hr.
  rewrite (proj2 (Z.ltb_ge _ _)) by lia. rewrite (run_ram r ram) by done.
  assert (E : off +32 sz = off + sz) by (apply u32_small; unfold is_u32; lia). rewrite E.
  set (n := if i_size ino <? off + sz then _ else _).
  assert (Hn' : n = Z.min sz (i_size ino - off)).
  { unfold n. destruct (i_size ino <? off + sz) eqn:E2; breflect; [|lia]. rewrite u32_small; unfold is_u32; lia. }
  assert (Hout : slice (rm_data ram) (Z.to_nat off) (Z.to_nat n) = Some out).
  { unfold zlen in Hlen. rewrite slice_in_range by lia. f_equal. unfold out, ram_content.
    rewrite skipn_firstn_comm, take_take. f_equal. lia. }
  assert (Hzo : zlen out = n). { apply slice_length in Hout. unfold zlen. lia. }
  rewrite (run_reads _ _ _ out) by done. rewrite Hzo. done.
Qed.

Lemma expand_spec s r ram needed : v_rams s !! r = Some ram -> ram_ok ram -> rm_capacity ram < needed <= 2147483648 ->
  (exists n, ramfs_expand r needed s = Some (VFS_ERR, set_fresh n s) /\ (v_fresh s <= n)%nat /\ grants AData (v_fresh s) = false) \/
  (exists n ram', ramfs_expand r needed s = Some (VFS_OK, set_rams (insert r ram') (set_fresh n s)) /\ grants AData (v_fresh s) = true /\
     (v_fresh s <= n)%nat /\ ram_ok ram' /\ needed <= rm_capacity ram' /\
     take (Z.to_nat (rm_capacity ram)) (rm_data ram') = rm_data ram).
Proof.
  intros Hr [Hlen (k & Hk & Hcap)] Hn. unfold ramfs_expand. rewrite (run_ram r ram) by done.
  rewrite (proj2 (Z.leb_gt _ _)) by lia.
  destruct (grow_spec 32 k needed) as (m & Hm & Hg & Hge); [lia|lia|lia|].
  rewrite (run_reads _ _ _ (2 ^ m)) by by rewrite Hcap. rewrite run_kmalloc.
  destruct (grants AData (v_fresh s)); [right|left; eexists; split; [reflexivity|]; split; [lia|done]].
  assert (Hpos : 0 < 2 ^ m) by (apply Z.pow_pos_nonneg; lia).
  pose proof (fresh_block_length (v_fresh s) (2 ^ m) ltac:(lia)) as Hbl. unfold zlen in *.
  rewrite take_ge by lia. rewrite (run_reads _ _ _ (rm_data ram ++ drop (length (rm_data ram)) (fresh_block (v_fresh s) (2 ^ m)))).
  2: { rewrite wr_some by lia. done. }
  unfold put_ram. rewrite run_modify. eexists _, _. split; [reflexivity|]. split; [done|]. cbn [rm_capacity rm_data].
  split; [lia|]. split; [|split; [done|]].
  - split; [|by exists m; split; [lia|]]. unfold zlen. cbn. rewrite length_app, length_drop. lia.
  - rewrite take_app_le by lia. by rewrite take_ge by lia.
Qed.

(** The room of the block behind an inode, and when a write up to [needed] is served:
    it fits in the block, or memory for a larger one is granted. *)
Definition capacity (s : vfs) (i : nat) : Z := from_option rm_capacity 0 (ino ← v_inodes s !! i; r ← i_private ino; v_rams s !! r).
Definition served (s : vfs) (i : nat) (needed : Z) : bool := (needed <=? capacity s i) || grants AData (v_fresh s).

(** A write that finds room, or grows the block, or is refused. *)
Definition written (s s' : vfs) (i : nat) (off : Z) (buf : list Z) : Prop :=
  exists ino r ram ram', v_inodes s !! i = Some ino /\ i_private ino = Some r /\ v_rams s !! r = Some ram /\
    ram_ok ram' /\ Z.max (i_size ino) (off + zlen buf) <= rm_capacity ram' /\
    ram_content (inode_set_size ino (Z.max (i_size ino) (off + zlen buf))) ram' = splice (ram_content ino ram) off buf /\
    v_rams s' = <[r := ram']> (v_rams s) /\
    v_inodes s' = <[i := inode_set_size ino (Z.max (i_size ino) (off + zlen buf))]> (v_inodes s) /\
    v_dentries s' = v_dentries s /\ io_same s s' /\ (v_fresh s <= v_fresh s')%nat.

Lemma ramfs_write_room s x d i ino r ram off buf : v_dentries s !! x = Some d -> d_inode d = Some i ->
  v_inodes s !! i = Some ino -> v_rams s !! r = Some ram -> ram_ok ram ->
  0 <= off <= i_size ino -> i_size ino <= rm_capacity ram -> off + zlen buf <= rm_capacity ram ->
  exists s', (ram ← get_ram (Some r);
     data ← reads (fun _ => wr (rm_data ram) (Z.to_nat off) buf);
     put_ram r (Ram data (rm_capacity ram)) ≫= fun _ =>
     (match d_inode d with
      | Some i => if i_size ino <? off +32 zlen buf then put_inode i (inode_set_size ino (off +32 zlen buf)) else mret tt
      | None => fault
      end) ≫= fun _ => mret (zlen buf)) s = Some (zlen buf, s') /\
    exists ram', ram_ok ram' /\ rm_capacity ram' = rm_capacity ram /\
      ram_content (inode_set_size ino (Z.max (i_size ino) (off + zlen buf))) ram' = splice (ram_content ino ram) off buf /\
      v_rams s' = <[r := ram']> (v_rams s) /\
      v_inodes s' = <[i := inode_set_size ino (Z.max (i_size ino) (off + zlen buf))]> (v_inodes s) /\
      v_dentries s' = v_dentries s /\ io_same s s' /\ v_fresh s' = v_fresh s.
Proof.
  intros Hd Hi Hino Hram Hok Ho Hsz Hroom. pose proof (ram_bound _ Hok) as Hcap. destruct Hok as [Hlen Hk].
  rewrite (run_ram r ram) by done. unfold zlen in *.
  rewrite (run_reads _ _ _ (take (Z.to_nat off) (rm_data ram) ++ buf ++ drop (Z.to_nat off + length buf) (rm_data ram)))
    by (apply wr_some; lia).
  unfold put_ram. rewrite run_modify, Hi.
  assert (E : off +32 Z.of_nat (length buf) = off + Z.of_nat (length buf)) by (apply u32_small; unfold is_u32; lia). rewrite E.
  set (data := take _ _ ++ _). eexists. split.
  { instantiate (1 := set_inodes (insert i (inode_set_size ino (Z.max (i_size ino) (off + Z.of_nat (length buf)))))
      (set_rams (insert r (Ram data (rm_capacity ram))) s)).
    destruct (i_size ino <? off + Z.of_nat (length buf)) eqn:E2; breflect.
    - unfold put_inode. rewrite run_modify, Z.max_r by lia. done.
    - rewrite run_ret, Z.max_l by lia. unfold mret, ST_ret. do 2 f_equal.
      destruct s, ino. unfold set_inodes, set_rams, inode_set_size. cbn in *. f_equal. symmetry. by apply insert_id. }
  exists (Ram data (rm_capacity ram)). split; [|split; [done|split; [|done]]].
  - split; [|done]. cbn. unfold data, zlen. rewrite !length_app, length_take, length_drop. lia.
  - unfold ram_content. cbn. unfold data.
    replace (Z.to_nat (Z.max (i_size ino) (off + Z.of_nat (length buf)))) with
      (Nat.max (Z.to_nat (i_size ino)) (Z.to_nat off + length buf)) by lia.
    apply splice_content; lia.
Qed.

Lemma ramfs_write_spec root s x d i ino off buf : fs_inv root s -> v_dentries s !! x = Some d -> d_inode d = Some i ->
  v_inodes s !! i = Some ino -> file_node (v_rams s) ino ->
  0 <= off <= i_size ino -> off + zlen buf <= 2147483648 ->
  (exists n, ramfs_write (Some x) off buf s = Some (u32 (-1), set_fresh n s) /\ (v_fresh s <= n)%nat /\ served s i (off + zlen buf) = false) \/
  (exists s', ramfs_write (Some x) off buf s = Some (zlen buf, s') /\ written s s' i off buf /\ served s i (off + zlen buf) = true).
Proof.
  intros Hs Hd Hi Hino (_ & _ & r & ram & Hr & Hram & Hok & Hsz) Ho Hfit. pose proof (ram_bound _ Hok) as Hcap.
  unfold ramfs_write. rewrite (run_dentry _ x d), (run_inode _ i ino) by done. rewrite Hr, (run_ram r ram) by done.
  assert (Hz : 0 <= zlen buf) by (unfold zlen; lia).
  assert (E : off +32 zlen buf = off + zlen buf) by (apply u32_small; unfold is_u32; lia).
  assert (Hcp : capacity s i = rm_capacity ram) by (unfold capacity; rewrite Hino; cbn [mbind option_bind]; rewrite Hr; cbn [mbind option_bind]; by rewrite Hram).
  unfold served. rewrite Hcp. cbv zeta. rewrite E. destruct (rm_capacity ram <? off + zlen buf) eqn:Hc; breflect.
  - rewrite (proj2 (Z.leb_gt _ _)) by lia. cbn [orb]. destruct (expand_spec s r ram (off + zlen buf) Hram Hok ltac:(lia)) as
      [(n & Hrun & Hn & Hgr) | (n & ram1 & Hrun & Hgr & Hn & Hok1 & Hge & Hkeep)]; rewrite (run_bind _ _ _ _ _ Hrun).
    + left. exists n. split; [done|]. split; [lia|done].
    + right. change (VFS_OK <? 0) with false. cbv iota.
      assert (Hr1 : v_rams (set_rams (insert r ram1) (set_fresh n s)) !! r = Some ram1) by apply lookup_insert_eq.
      destruct (ramfs_write_room (set_rams (insert r ram1) (set_fresh n s)) x d i ino r ram1 off buf Hd Hi Hino Hr1 Hok1
        Ho ltac:(lia) Hge) as (s' & Hrun' & ram' & Hok' & Hcap' & Hcon & E1 & E2 & E3 & E4 & E5).
      exists s'. split; [by rewrite E in Hrun'|]. split; [|done]. exists ino, r, ram, ram'. do 4 (split; [done|]). split; [lia|]. split.
      { rewrite Hcon. f_equal. unfold ram_content. destruct Hok as [Hlen _]. rewrite <- Hkeep, take_take. f_equal. lia. }
      cbn in *. rewrite insert_insert_eq in E1. split; [done|]. split; [done|]. split; [done|]. split; [done|]. lia.
  - right. rewrite run_ret. change (0 <? 0) with false. cbv iota.
    destruct (ramfs_write_room s x d i ino r ram off buf Hd Hi Hino Hram Hok Ho ltac:(lia) ltac:(lia))
      as (s' & Hrun' & ram' & Hok' & Hcap' & Hcon & E1 & E2 & E3 & E4 & E5).
    exists s'. split; [by rewrite E in Hrun'|]. split; [|by rewrite (proj2 (Z.leb_le _ _))]. exists ino, r, ram, ram'. do 4 (split; [done|]). split; [lia|]. split; [done|].
    split; [done|]. split; [done|]. split; [done|]. split; [done|]. lia.
Qed.

Lemma written_inv root s s' i off buf ino : fs_inv root s -> v_inodes s !! i = Some ino -> file_node (v_rams s) ino ->
  written s s' i off buf -> fs_inv root s'.
Proof.
  intros Hs Hi Hf (ino0 & r & ram & ram' & Hi0 & Hr & Hram & Hok & Hcap & _ & E1 & E2 & E3 & Hio & E5).
  assert (ino0 = ino) as -> by congruence. pose proof Hf as (Hf1 & _ & q & qram & Hq & Hqr & _ & Hsz).
  destruct Hio as (F1 & F2 & F3 & F4 & F5 & _).
  split; rewrite ?E1, ?E2, ?E3, ?F1, ?F2, ?F3, ?F4, ?F5; try apply Hs.
  - eapply tree_ok_fresh; [|apply Hs]. done.
  - eapply (nodes_ok_ram _ _ _ (v_fresh s)); try done; [apply Hs|]. cbn. lia.
  - eapply open_ok_grow; [apply Hs|done|done| |].
    + intros j jno Hj. destruct (decide (i = j)) as [<- | ?].
      * eexists. rewrite lookup_insert_eq. split; [done|]. assert (jno = ino) as -> by congruence. split; [done|]. cbn. lia.
      * exists jno. rewrite lookup_insert_ne by done. split; [done|]. split; [done|]. lia.
    + intros j jno' Hj. left. apply lookup_insert_Some in Hj as [[<- <-] | [_ Hj]]; eauto.
Qed.

(** ** [sys_write] and [sys_read] *)

(** Descriptor [fd] of the current task is open on inode [i], at [fl]. *)
Definition fd_at (s : vfs) (fd : Z) (f : nat) (fl : file) (i : nat) (ino : inode) : Prop :=
  exists a k, fd = Z.of_nat k /\ (k < TASK_MAX_FDS)%nat /\ v_tasks s !! v_current s = Some a /\
    io_fds a !! k = Some (Some f) /\ v_files s !! f = Some fl /\ f_inode fl = Some i /\ v_inodes s !! i = Some ino.

Lemma fd_at_ops s fd f fl i ino : fd_at s fd f fl i ino -> fd_ops fd s = Some ((fun o => (f, fl, o)) <$> i_ops ino, s).
Proof.
  intros (a & k & -> & Hk & Ha & Hf & Hfl & Hi & Hino). unfold fd_ops.
  assert (Hfd : fd_file (Z.of_nat k) s = Some (Some f, s)).
  { unfold fd_file, TASK_MAX_FDS in *. rewrite (proj2 (Z.ltb_ge _ _)), (proj2 (Z.leb_gt _ _)) by lia. cbn [orb].
    rewrite (run_current a), Nat2Z.id by done. unfold reads. by rewrite Hf. }
  rewrite (run_bind _ _ _ _ _ Hfd), (run_file _ f fl) by done. rewrite Hi, (run_inode _ i ino) by done.
  by destruct (i_ops ino).
Qed.

Lemma fd_ops_spec root s fd : fs_inv root s ->
  fd_ops fd s = Some (None, s) \/
  exists f fl i ino, fd_at s fd f fl i ino /\ fd_ops fd s = Some ((fun o => (f, fl, o)) <$> i_ops ino, s).
Proof.
  intros Hs. destruct (fd_file_spec root s fd Hs) as (a & Ha & [Hfd | (k & f & -> & Hk & Hf & _)]);
    [left; unfold fd_ops; by rewrite (run_bind _ _ _ _ _ Hfd)|right].
  destruct (fd_open root s a k f Hs Ha Hf) as (fl & i & ino & Hfl & Hi & Hino & _).
  exists f, fl, i, ino. assert (Hat : fd_at s (Z.of_nat k) f fl i ino) by by exists a, k. split; [done|].
  by eapply fd_at_ops.
Qed.

Lemma advance_run x fl n s : v_files s !! x = Some fl -> is_u32 (f_offset fl) -> 0 <= n ->
  advance x n s = Some (tt, set_files (insert x (file_set_offset fl (f_offset fl +32 n))) s).
Proof.
  intros Hx Hu Hn. unfold advance. destruct (0 <? n) eqn:E; breflect.
  - by rewrite (run_file _ x fl) by done.
  - assert (n = 0) as -> by lia. rewrite Z.add_0_r, u32_small by done. unfold mret, ST_ret. do 2 f_equal.
    destruct s, fl. unfold set_files, file_set_offset. cbn in *. f_equal. symmetry. by apply insert_id.
Qed.

Lemma s32_small n : 0 <= n < 2147483648 -> s32 n = n.
Proof. intros Hn. unfold s32. rewrite u32_small by (unfold is_u32; lia). by rewrite (proj2 (Z.ltb_lt _ _)) by lia. Qed.

Lemma fd_at_ok root s fd f fl i ino : fs_inv root s -> fd_at s fd f fl i ino ->
  file_ok (v_dentries s) (v_inodes s) (v_fresh s) f fl.
Proof. intros Hs (a & k & _ & _ & _ & _ & Hf & _). by apply (ok_file _ _ _ _ _ (fi_open _ _ Hs)). Qed.

(** The three kinds of inode behind a descriptor. *)
Lemma fd_kind root s fd f fl i ino : fs_inv root s -> fd_at s fd f fl i ino ->
  is_u32 (f_offset fl) /\
  ((file_node (v_rams s) ino /\ 0 <= f_offset fl <= i_size ino /\
     exists x d, f_dentry fl = Some x /\ v_dentries s !! x = Some d /\ d_inode d = Some i) \/
   (dir_node ino /\ exists x d, f_dentry fl = Some x /\ v_dentries s !! x = Some d /\ d_inode d = Some i) \/
   dev_node ino).
Proof.
  intros Hs Hat. destruct (fd_at_ok _ _ _ _ _ _ _ Hs Hat) as (_ & Hu & j & jno & Hj & Hjno & Hx & Ho).
  destruct Hat as (a & k & _ & _ & _ & _ & _ & Hi & Hino). assert (j = i) as -> by congruence.
  assert (jno = ino) as -> by congruence. split; [done|]. unfold is_u32 in Hu.
  destruct (nk_node _ _ _ _ (fi_nodes _ _ Hs) _ _ Hino) as (_ & [Hk | [Hk | Hk]]); [left|right; left|by right; right].
  - split; [done|]. destruct Hk as (Hk & _). split; [split; [lia|auto]|].
    destruct Hx as (x & ? & Hx); [by rewrite Hk|]. apply inode_of_Some in Hx as (d & ? & ?). eauto.
  - split; [done|]. destruct Hk as (Hk & _). destruct Hx as (x & ? & Hx); [by rewrite Hk|].
    apply inode_of_Some in Hx as (d & ? & ?). eauto.
Qed.

Definition unchanged (s s' : vfs) : Prop :=
  v_dentries s' = v_dentries s /\ v_inodes s' = v_inodes s /\ v_rams s' = v_rams s /\ io_same s s' /\
  (v_fresh s <= v_fresh s')%nat.

Lemma unchanged_inv root s s' : fs_inv root s -> unchanged s s' -> fs_inv root s'.
Proof.
  intros Hs (E1 & E2 & E3 & (F1 & F2 & F3 & F4 & F5 & _) & E5). pose proof (fs_inv_fresh root s _ Hs E5) as [H1 H2 H3 H4 H5 H6].
  split; cbn in *; rewrite ?E1, ?E2, ?E3, ?F1, ?F2, ?F3, ?F4, ?F5; done.
Qed.

(** Moving the offset of an open file. *)
Lemma advance_inv root s fd f fl i ino n : fs_inv root s -> fd_at s fd f fl i ino ->
  (i_flags ino = VFS_FILE -> 0 <= n /\ f_offset fl + n <= i_size ino) ->
  fs_inv root (set_files (insert f (file_set_offset fl (f_offset fl +32 n))) s).
Proof.
  intros Hs Hat Hn. destruct (fd_at_ok _ _ _ _ _ _ _ Hs Hat) as (_ & Hu & _).
  destruct Hat as (a & k & _ & _ & _ & _ & Hf & Hi & Hino).
  split; cbn; try apply Hs. eapply open_ok_offset; try done; [apply Hs|apply u32_range|].
  intros j jno Hj Hjno Hfl. assert (j = i) as -> by congruence. assert (jno = ino) as -> by congruence.
  destruct (Hn Hfl) as [Hn0 Hle]. cbn.
  destruct (nk_node _ _ _ _ (fi_nodes _ _ Hs) _ _ Hino) as (_ & [(_ & _ & r & ram & _ & _ & Hok & Hsz) | [(Hd & _) | (Hd & _)]]).
  - pose proof (ram_bound _ Hok). rewrite u32_small; unfold is_u32 in *; lia.
  - by rewrite Hd in Hfl.
  - by rewrite Hd in Hfl.
Qed.

(** What a write did: nothing, characters on the screen, or bytes in a file. *)
Definition write_done (s : vfs) (fd : Z) (buf : list Z) (r : Z) (s' : vfs) : Prop :=
  (r = VFS_ERR /\ unchanged s s') \/
  (exists f fl i ino s1, fd_at s fd f fl i ino /\ may_write (f_flags fl) = true /\ r = zlen buf /\
     s' = set_files (insert f (file_set_offset fl (f_offset fl +32 zlen buf))) s1 /\
     ((file_node (v_rams s) ino /\ written s s1 i (f_offset fl) buf) \/
      (dev_node ino /\ s1 = set_console (v_typed s) (v_screen s ++ buf) s))).

Lemma sys_write_spec root s fd buf : fs_inv root s -> zlen buf < 2147483648 ->
  (forall f fl i ino, fd_at s fd f fl i ino -> i_flags ino = VFS_FILE -> f_offset fl + zlen buf <= 2147483648) ->
  exists r s', sys_write fd buf s = Some (r, s') /\ fs_inv root s' /\ write_done s fd buf r s'.
Proof.
  intros Hs Hlen Hfit. assert (Hz : 0 <= zlen buf) by (unfold zlen; lia).
  assert (Hun : unchanged s s) by (split; [done|]; split; [done|]; split; [done|]; split; [done|]; lia).
  unfold sys_write. destruct (fd_ops_spec root s fd Hs) as [Hno | (f & fl & i & ino & Hat & Hops)].
  { rewrite (run_bind _ _ _ _ _ Hno). eexists _, _. split; [reflexivity|]. split; [done|]. by left. }
  rewrite (run_bind _ _ _ _ _ Hops). destruct (fd_kind root s fd f fl i ino Hs Hat) as (Hu & Hk).
  assert (Hfl : v_files s !! f = Some fl) by (destruct Hat as (? & ? & ? & ? & ? & ? & ? & _); done).
  assert (Hino : v_inodes s !! i = Some ino) by (destruct Hat as (? & ? & ? & ? & ? & ? & ? & ? & ?); done).
  destruct (i_ops ino) as [o|] eqn:Ho; cbn [fmap option_fmap option_map].
  2: { eexists _, _. split; [reflexivity|]. split; [done|]. by left. }
  destruct (may_write (f_flags fl)) eqn:Hmw; cbn [negb].
  2: { eexists _, _. split; [reflexivity|]. split; [done|]. by left. }
  destruct Hk as [(Hf & Hoff & x & d & Hx & Hd & Hdi) | [(Hf & x & d & Hx & Hd & Hdi) | Hf]].
  - pose proof Hf as (Hff & Hfo & _). assert (o = ramfs_ops) as -> by congruence. cbn [ops_write]. rewrite Hx.
    destruct (ramfs_write_spec root s x d i ino (f_offset fl) buf Hs Hd Hdi Hino Hf Hoff (Hfit _ _ _ _ Hat Hff))
      as [(n & Hrun & Hn & _) | (s1 & Hrun & Hw & _)]; rewrite (run_bind _ _ _ _ _ Hrun).
    + change (s32 (u32 (-1))) with (-1). eexists _, _. split; [reflexivity|].
      assert (Hun' : unchanged s (set_fresh n s)) by (repeat (split; [done|]); done).
      split; [by eapply unchanged_inv|]. left. done.
    + rewrite s32_small by lia. assert (Hw' := Hw).
      destruct Hw' as (ino0 & r & ram & ram' & Hi0 & _ & _ & _ & _ & _ & _ & E2 & _ & Hio & _).
      assert (ino0 = ino) as -> by congruence. pose proof Hio as (F1 & F2 & F3 & _).
      assert (Hs1 : fs_inv root s1) by by eapply written_inv.
      rewrite (run_bind _ _ _ _ _ (advance_run f fl (zlen buf) s1 ltac:(by rewrite F1) Hu Hz)).
      eexists _, _. split; [reflexivity|]. split.
      * eapply (advance_inv root s1 fd f fl i (inode_set_size ino (Z.max (i_size ino) (f_offset fl + zlen buf)))); [done| |cbn; lia].
        destruct Hat as (a & k & ? & ? & ? & ? & ? & ? & ?). exists a, k. rewrite F1, F2, F3, E2.
        repeat (split; [done|]). apply lookup_insert_eq.
      * right. exists f, fl, i, ino, s1. repeat (split; [done|]). by left.
  - pose proof Hf as (_ & Hp & [Hop | Hop]); [congruence|]. assert (o = ramfs_ops) as -> by congruence.
    cbn [ops_write]. rewrite Hx. unfold ramfs_write. rewrite run_assoc, (run_dentry _ x d) by done.
    rewrite run_assoc, (run_inode _ i ino) by done. rewrite Hp, run_ret. change (s32 (u32 (-1))) with (-1).
    eexists _, _. split; [reflexivity|]. split; [done|]. by left.
  - pose proof Hf as (_ & _ & Hop). assert (o = tty_ops) as -> by congruence. cbn [ops_write]. unfold tty_write.
    rewrite run_assoc, run_modify, run_ret, s32_small by lia. set (s1 := set_console _ _ s).
    rewrite (run_bind _ _ _ _ _ (advance_run f fl (zlen buf) s1 Hfl Hu Hz)).
    eexists _, _. split; [reflexivity|]. split; [|right; exists f, fl, i, ino, s1; repeat (split; [done|]); by right].
    assert (Hs1 : fs_inv root s1) by (destruct Hs as [H1 H2 H3 H4 H5 H6]; split; done).
    eapply (advance_inv root s1 fd f fl i ino); [done|done|]. intros Hd. destruct Hf as (Hf & _). by rewrite Hf in Hd.
Qed.

(** A line from the keyboard: up to [todo] characters, through the newline. *)
Lemma tty_loop_spec todo : forall got s, exists out,
  tty_read_loop todo got s = Some (got ++ out, set_console (v_typed s + length out) (v_screen s) s) /\
  (length out <= todo)%nat /\ out = (fun n => u8 (typed n)) <$> seq (v_typed s) (length out) /\
  (length out = todo \/ list.last out = Some 10).
Proof.
  induction todo as [|todo IH]; intros got s; cbn [tty_read_loop].
  - exists []. rewrite app_nil_r, Nat.add_0_r. split; [by destruct s|]. split; [done|]. split; [done|]. by left.
  - unfold keyboard_getchar. erewrite run_bind by reflexivity.
    set (c := u8 (typed (v_typed s))). destruct (c =? 10) eqn:E; breflect.
    + exists [c]. cbn [length]. rewrite Nat.add_1_r. split; [done|]. split; [lia|]. split; [done|]. right. by rewrite E.
    + destruct (IH (got ++ [c]) (set_console (S (v_typed s)) (v_screen s) s)) as (out & Hrun & Hl & Hout & Hend).
      exists (c :: out). rewrite Hrun. cbn [length v_typed v_screen set_console] in *. split.
      { rewrite <- app_assoc, Nat.add_succ_r. done. }
      split; [lia|]. split; [cbn; by f_equal|]. destruct Hend as [? | Hend]; [left; lia|right]. rewrite last_cons, Hend. done.
Qed.

Definition read_done (s : vfs) (fd sz r : Z) (out : list Z) (s' : vfs) : Prop :=
  (r = VFS_ERR /\ out = [] /\ s' = s) \/
  (exists f fl i ino s1, fd_at s fd f fl i ino /\ may_read (f_flags fl) = true /\ r = zlen out /\
     s' = set_files (insert f (file_set_offset fl (f_offset fl +32 zlen out))) s1 /\
     ((s1 = s /\ exists c, content s i = Some c /\ out = take (Z.to_nat sz) (drop (Z.to_nat (f_offset fl)) c)) \/
      (dev_node ino /\ zlen out <= sz /\ s1 = set_console (v_typed s + length out) (v_screen s) s /\
       out = (fun n => u8 (typed n)) <$> seq (v_typed s) (length out)))).

Lemma sys_read_spec root s fd sz : fs_inv root s -> 0 <= sz < 2147483648 ->
  exists r out s', sys_read fd sz s = Some ((r, out), s') /\ fs_inv root s' /\ read_done s fd sz r out s'.
Proof.
  intros Hs Hsz. unfold sys_read. destruct (fd_ops_spec root s fd Hs) as [Hno | (f & fl & i & ino & Hat & Hops)].
  { rewrite (run_bind _ _ _ _ _ Hno). eexists _, _, _. split; [reflexivity|]. split; [done|]. by left. }
  rewrite (run_bind _ _ _ _ _ Hops). destruct (fd_kind root s fd f fl i ino Hs Hat) as (Hu & Hk).
  assert (Hfl : v_files s !! f = Some fl) by (destruct Hat as (? & ? & ? & ? & ? & ? & ? & _); done).
  assert (Hino : v_inodes s !! i = Some ino) by (destruct Hat as (? & ? & ? & ? & ? & ? & ? & ? & ?); done).
  destruct (i_ops ino) as [o|] eqn:Ho; cbn [fmap option_fmap option_map].
  2: { eexists _, _, _. split; [reflexivity|]. split; [done|]. by left. }
  destruct (may_read (f_flags fl)) eqn:Hmw; cbn [negb].
  2: { eexists _, _, _. split; [reflexivity|]. split; [done|]. by left. }
  destruct Hk as [(Hf & Hoff & x & d & Hx & Hd & Hdi) | [(Hf & x & d & Hx & Hd & Hdi) | Hf]].
  - pose proof Hf as (Hff & Hfo & r & ram & Hr & Hram & Hok & Hszi). assert (o = ramfs_ops) as -> by congruence.
    cbn [ops_read]. rewrite Hx.
    pose proof (ramfs_read_spec s x d i ino r ram (f_offset fl) sz Hd Hdi Hino Hr Hram Hok Hoff ltac:(lia) Hsz) as Hrun.
    cbv zeta in Hrun. set (out := take _ _) in Hrun. rewrite (run_bind _ _ _ _ _ Hrun). cbv beta iota.
    assert (Hlo : zlen out <= sz /\ f_offset fl + zlen out <= i_size ino).
    { unfold out, zlen, ram_content. rewrite length_take, length_drop, length_take. destruct Hok as [Hl _]. unfold zlen in Hl. lia. }
    assert (Hz : 0 <= zlen out) by (unfold zlen; lia).
    rewrite s32_small by lia. rewrite (run_bind _ _ _ _ _ (advance_run f fl (zlen out) s Hfl Hu Hz)).
    eexists _, _, _. split; [reflexivity|]. split.
    + eapply (advance_inv root s fd f fl i ino); [done|done|lia].
    + right. exists f, fl, i, ino, s. repeat (split; [done|]). left. split; [done|]. exists (ram_content ino ram).
      split; [|done]. unfold content. rewrite Hino. cbn [mbind option_bind]. rewrite Hr. cbn [mbind option_bind]. by rewrite Hram.
  - pose proof Hf as (_ & Hp & [Hop | Hop]); [congruence|]. assert (o = ramfs_ops) as -> by congruence.
    cbn [ops_read]. rewrite Hx. unfold ramfs_read. rewrite run_assoc, (run_dentry _ x d) by done.
    rewrite run_assoc, (run_inode _ i ino) by done. rewrite Hp, run_ret. change (s32 (u32 (-1))) with (-1).
    eexists _, _, _. split; [reflexivity|]. split; [done|]. by left.
  - pose proof Hf as (_ & _ & Hop). assert (o = tty_ops) as -> by congruence. cbn [ops_read]. unfold tty_read.
    destruct (tty_loop_spec (Z.to_nat sz) [] s) as (out & Hrun & Hl & Hout & _). simpl in Hrun.
    rewrite run_assoc, (run_bind _ _ _ _ _ Hrun), run_ret. cbv beta iota.
    assert (Hz : 0 <= zlen out <= sz) by (unfold zlen; lia). rewrite s32_small by lia. set (s1 := set_console _ _ s).
    rewrite (run_bind _ _ _ _ _ (advance_run f fl (zlen out) s1 Hfl Hu (proj1 Hz))).
    eexists _, _, _. split; [reflexivity|].
    split; [|right; exists f, fl, i, ino, s1; repeat (split; [done|]); right; split; [done|]; split; [lia|done]].
    assert (Hs1 : fs_inv root s1) by (destruct Hs as [H1 H2 H3 H4 H5 H6]; split; done).
    eapply (advance_inv root s1 fd f fl i ino); [done|done|]. intros Hd. destruct Hf as (Hf & _). by rewrite Hf in Hd.
Qed.
End data.

(** ** The contract of a file: a list of bytes, read and overwritten in place *)

Lemma fd_at_unique s fd f fl i ino f' fl' i' ino' : fd_at s fd f fl i ino -> fd_at s fd f' fl' i' ino' ->
  f' = f /\ fl' = fl /\ i' = i /\ ino' = ino.
Proof.
  intros (a & k & E1 & _ & Ha & Hk & Hf & Hi & Hino) (a' & k' & E2 & _ & Ha' & Hk' & Hf' & Hi' & Hino').
  assert (k' = k) as -> by lia. assert (a' = a) as -> by congruence. assert (f' = f) as -> by congruence.
  assert (fl' = fl) as -> by congruence. assert (i' = i) as -> by congruence. assert (ino' = ino) as -> by congruence. done.
Qed.

Lemma unchanged_content s s' i : unchanged s s' -> content s' i = content s i.
Proof. intros (_ & E2 & E3 & _). unfold content. by rewrite E2, E3. Qed.

Lemma written_content root s s' i off buf c : fs_inv root s -> written s s' i off buf -> content s i = Some c ->
  content s' i = Some (splice c off buf) /\ forall j, j <> i -> content s' j = content s j.
Proof.
  intros Hs (ino & r & ram & ram' & Hi & Hr & Hram & _ & _ & Hcon & E1 & E2 & _) Hc.
  unfold content in *. rewrite Hi in Hc. cbn [mbind option_bind] in Hc. rewrite Hr in Hc. cbn [mbind option_bind] in Hc.
  rewrite Hram in Hc. cbn [mbind option_bind] in Hc. injection Hc as <-. rewrite E1, E2. split.
  - rewrite lookup_insert_eq. cbn [mbind option_bind]. replace (i_private (inode_set_size _ _)) with (Some r) by done.
    cbn [mbind option_bind]. rewrite lookup_insert_eq. cbn [mbind option_bind]. by rewrite Hcon.
  - intros j Hj. rewrite lookup_insert_ne by done. destruct (v_inodes s !! j) as [jno|] eqn:Hjno; [|done].
    cbn [mbind option_bind]. destruct (i_private jno) as [q|] eqn:Hq; [|done]. cbn [mbind option_bind].
    rewrite lookup_insert_ne; [done|]. intros <-. apply Hj. by eapply (nk_private _ _ _ _ (fi_nodes _ _ Hs)).
Qed.

(** The result of a write to a file is settled by the room and the memory. *)
Lemma write_result `{Machine} root s fd buf f fl i ino : fs_inv root s -> fd_at s fd f fl i ino ->
  i_flags ino = VFS_FILE -> may_write (f_flags fl) = true -> zlen buf < 2147483648 -> f_offset fl + zlen buf <= 2147483648 ->
  fst <$> sys_write fd buf s = Some (if served s i (f_offset fl + zlen buf) then zlen buf else VFS_ERR).
Proof.
  intros Hs Hat Hf Hmw Hl Hfit. unfold sys_write. rewrite (run_bind _ _ _ _ _ (fd_at_ops _ _ _ _ _ _ Hat)). destruct (fd_kind root s fd f fl i ino Hs Hat) as (Hu & Hk).
  assert (Hz : 0 <= zlen buf) by (unfold zlen; lia). pose proof Hat as (_ & _ & _ & _ & _ & _ & Hfl & _ & Hino).
  destruct Hk as [(Hn & Hoff & x & d & Hx & Hd & Hdi) | [((E & _) & _) | (E & _)]]; [|by rewrite E in Hf..].
  pose proof Hn as (_ & -> & _). cbn [fmap option_fmap option_map]. rewrite Hmw, Hx. cbn [negb ops_write].
  destruct (ramfs_write_spec root s x d i ino (f_offset fl) buf Hs Hd Hdi Hino Hn Hoff Hfit) as [(n & Hrun & _ & ->) | (s1 & Hrun & Hw & ->)]; rewrite (run_bind _ _ _ _ _ Hrun); [done|].
  destruct Hw as (_ & _ & _ & _ & _ & _ & _ & _ & _ & _ & _ & _ & _ & (F1 & _) & _). rewrite s32_small by lia.
  by rewrite (run_bind _ _ _ _ _ (advance_run f fl (zlen buf) s1 ltac:(by rewrite F1) Hu Hz)).
Qed.

Lemma write_contract `{Machine} root s fd buf f fl i ino c : fs_inv root s -> fd_at s fd f fl i ino ->
  i_flags ino = VFS_FILE -> may_write (f_flags fl) = true -> content s i = Some c ->
  zlen buf < 2147483648 -> f_offset fl + zlen buf <= 2147483648 ->
  exists r s', sys_write fd buf s = Some (r, s') /\ fs_inv root s' /\ v_tasks s' = v_tasks s /\ v_current s' = v_current s /\
    ((r = VFS_ERR /\ (forall j, content s' j = content s j) /\ v_files s' = v_files s) \/
     (r = zlen buf /\ content s' i = Some (splice c (f_offset fl) buf) /\
      (forall j, j <> i -> content s' j = content s j) /\
      v_files s' = <[f := file_set_offset fl (f_offset fl + zlen buf)]> (v_files s) /\
      exists ino', v_inodes s' !! i = Some ino' /\ i_flags ino' = VFS_FILE)).
Proof.
  intros Hs Hat Hf Hmw Hc Hl Hfit. destruct (sys_write_spec root s fd buf Hs Hl) as (r & s' & Hrun & Hs' & Hw).
  { intros f' fl' i' ino' Hat' _. by destruct (fd_at_unique _ _ _ _ _ _ _ _ _ _ Hat Hat') as (_ & -> & _). }
  exists r, s'. split; [done|]. split; [done|].
  destruct Hw as [[-> Hun] | (f' & fl' & i' & ino' & s1 & Hat' & _ & -> & -> & Hk)].
  - pose proof Hun as (_ & _ & _ & (F1 & F2 & F3 & _) & _). do 2 (split; [done|]). left. split; [done|].
    split; [|done]. intros j. by apply unchanged_content.
  - destruct (fd_at_unique _ _ _ _ _ _ _ _ _ _ Hat Hat') as (-> & -> & -> & ->).
    destruct Hk as [[_ Hw] | [(Hd & _) _]]; [|by rewrite Hd in Hf].
    destruct (written_content root s s1 i (f_offset fl) buf c Hs Hw Hc) as [W1 W2].
    destruct Hw as (ino0 & r0 & ram & ram' & Hi0 & _ & _ & _ & _ & _ & _ & E2 & _ & (F1 & F2 & F3 & _) & _).
    cbn. do 2 (split; [done|]). right. split; [done|]. split; [done|]. split; [done|].
    destruct (fd_kind root s fd f fl i ino Hs Hat) as (Hu & _). unfold is_u32 in Hu. assert (0 <= zlen buf) by (unfold zlen; lia).
    rewrite F1, u32_small by (unfold is_u32; lia). split; [done|]. rewrite E2, lookup_insert_eq. eexists. split; [done|].
    destruct Hat as (_ & _ & _ & _ & _ & _ & _ & _ & Hino). assert (ino0 = ino) as -> by congruence. done.
Qed.

Lemma read_contract `{Machine} root s fd sz f fl i ino c : fs_inv root s -> fd_at s fd f fl i ino ->
  i_flags ino = VFS_FILE -> may_read (f_flags fl) = true -> content s i = Some c -> 0 <= sz < 2147483648 ->
  let out := take (Z.to_nat sz) (drop (Z.to_nat (f_offset fl)) c) in
  exists s', sys_read fd sz s = Some ((zlen out, out), s') /\ fs_inv root s' /\ (forall j, content s' j = content s j) /\
    v_files s' = <[f := file_set_offset fl (f_offset fl + zlen out)]> (v_files s).
Proof.
  intros Hs Hat Hf Hmr Hc Hsz out. destruct (fd_kind root s fd f fl i ino Hs Hat) as (Hu & Hk).
  destruct Hk as [(Hn & Hoff & x & d & Hx & Hd & Hdi) | [((E & _) & _) | (E & _)]]; [|by rewrite E in Hf|by rewrite E in Hf].
  pose proof Hn as (_ & Ho & r & ram & Hr & Hram & Hrok & Hszi). pose proof (ram_bound _ Hrok) as Hcap.
  assert (Hat' := Hat). destruct Hat' as (_ & _ & _ & _ & _ & _ & Hfl & _ & Hino).
  assert (c = ram_content ino ram) as ->.
  { unfold content in Hc. rewrite Hino in Hc. cbn [mbind option_bind] in Hc. rewrite Hr in Hc. cbn [mbind option_bind] in Hc.
    rewrite Hram in Hc. cbn [mbind option_bind] in Hc. congruence. }
  assert (Hlo : 0 <= zlen out /\ zlen out <= sz /\ f_offset fl + zlen out <= i_size ino).
  { unfold out, zlen, ram_content. rewrite length_take, length_drop, length_take. destruct Hrok as [Hl _]. unfold zlen in Hl. lia. }
  pose proof (ramfs_read_spec s x d i ino r ram _ sz Hd Hdi Hino Hr Hram Hrok Hoff ltac:(lia) Hsz) as Hrun.
  cbv zeta in Hrun. fold out in Hrun. unfold sys_read. rewrite (run_bind _ _ _ _ _ (fd_at_ops s fd f fl i ino Hat)), Ho.
  cbn [fmap option_fmap option_map]. rewrite Hmr. cbn [negb ops_read]. rewrite Hx, (run_bind _ _ _ _ _ Hrun). cbv beta iota.
  rewrite s32_small by lia. rewrite (run_bind _ _ _ _ _ (advance_run f fl (zlen out) s Hfl Hu (proj1 Hlo))).
  eexists. split; [reflexivity|]. split; [eapply (advance_inv root s fd f fl i ino); [done|done|lia]|]. split; [done|].
  cbn. by rewrite u32_small by (unfold is_u32; lia).
Qed.
