(* ===== verification/VfsDir.v ===== *)
(** * Listing a directory

    [sys_readdir] of [kernel/VFS/vfs.c], and the loop of the shell's [ls]
    around it: every entry of the directory once, and then the end. *)

From stdpp Require Import gmap.
From S2P Require Import Prelude StateMonad SlotTable Vfs VfsTree VfsInv VfsCalls VfsData.

#[local] Open Scope Z_scope.

(** [L] lists the entries of directory [x]. *)
Definition lists (ds : gmap nat dentry) (root x : nat) (L : list nat) : Prop :=
  NoDup L /\ forall y, y ∈ L <-> y <> root /\ exists e, ds !! y = Some e /\ d_parent e = Some x.

(** ** The two loops *)

Lemma readdir_chain_spec ds off : forall l fuel count p, linked ds p l -> (length l <= fuel)%nat ->
  0 <= count <= off -> count + zlen l < 4294967296 ->
  readdir_chain fuel ds off count p =
    Some (match l !! Z.to_nat (off - count) with Some y => inr y | None => inl (count + zlen l) end).
Proof.
  unfold zlen. induction l as [|x l IH]; intros fuel count p Hl Hf Hc Hb; cbn [linked length] in *.
  - subst p. destruct fuel; simpl; do 2 f_equal; lia.
  - destruct Hl as (-> & d & Hd & Hl). destruct fuel as [|fuel]; [lia|]. cbn [readdir_chain].
    destruct (count =? off) eqn:E; breflect.
    + subst off. by rewrite Z.sub_diag.
    + rewrite Hd. cbn [mbind option_bind]. assert (count +32 1 = count + 1) as -> by (apply u32_small; unfold is_u32; lia).
      rewrite (IH fuel (count + 1) _ Hl) by lia.
      replace (Z.to_nat (off - count)) with (S (Z.to_nat (off - (count + 1)))) by lia. cbn.
      destruct (l !! _); [done|]. do 2 f_equal. lia.
Qed.

Lemma readdir_buckets_spec ds off bs ls : Forall2 (linked ds) bs ls -> Forall (fun l => (length l <= size ds)%nat) ls ->
  forall count, 0 <= count <= off -> count + zlen (concat ls) < 4294967296 ->
  readdir_buckets ds off count bs =
    Some (match concat ls !! Z.to_nat (off - count) with Some y => inr y | None => inl (count + zlen (concat ls)) end).
Proof.
  unfold zlen. induction 1 as [|p l bs ls Hl _ IH]; intros Hsz count Hc Hb; cbn [readdir_buckets concat] in *.
  - cbn. do 2 f_equal. lia.
  - apply Forall_cons_1 in Hsz as [Hsz Hszs]. rewrite length_app in Hb.
    rewrite (readdir_chain_spec ds off l _ count p Hl Hsz Hc) by (unfold zlen; lia). unfold zlen. cbn [mbind option_bind].
    destruct (l !! Z.to_nat (off - count)) as [y|] eqn:E.
    + by rewrite (lookup_app_l_Some _ _ _ _ E).
    + apply lookup_ge_None in E. rewrite lookup_app_r by lia. rewrite (IH Hszs) by lia. rewrite length_app.
      replace (Z.to_nat (off - count) - length l)%nat with (Z.to_nat (off - (count + Z.of_nat (length l)))) by lia.
      destruct (concat ls !! _); [done|]. do 2 f_equal. lia.
Qed.

(** ** The listing *)

Lemma choose_all {A B} (P : nat -> A -> B -> Prop) (l : list A) : (forall i x, l !! i = Some x -> exists y, P i x y) ->
  exists k, length k = length l /\ forall i x y, l !! i = Some x -> k !! i = Some y -> P i x y.
Proof.
  revert P. induction l as [|a l IH]; intros P Hp; [by exists []|].
  destruct (Hp 0%nat a eq_refl) as [b Hb]. destruct (IH (fun i => P (S i))) as (k & Hk & Hall).
  { intros i x Hx. by apply (Hp (S i)). }
  exists (b :: k). split; [by cbn; rewrite Hk|]. intros [|i] x y Hx Hy; cbn in *; [congruence|by eapply Hall].
Qed.

Lemma elem_of_concat {A} (ls : list (list A)) x : x ∈ concat ls <-> exists i l, ls !! i = Some l /\ x ∈ l.
Proof.
  induction ls as [|l ls IH]; cbn [concat].
  - split; [by intros ?%elem_of_nil|]. intros (i & l & Hl & _). done.
  - rewrite elem_of_app, IH. split.
    + intros [Hx | (i & k & Hk & Hx)]; [by exists 0%nat, l | by exists (S i), k].
    + intros ([|i] & k & Hk & Hx); cbn in Hk; [left; congruence|right; eauto].
Qed.

Lemma NoDup_concat {A} (ls : list (list A)) : (forall i l, ls !! i = Some l -> NoDup l) ->
  (forall i j l k x, ls !! i = Some l -> ls !! j = Some k -> x ∈ l -> x ∈ k -> i = j) -> NoDup (concat ls).
Proof.
  induction ls as [|l ls IH]; cbn [concat]; intros H1 H2; [constructor|]. apply list.NoDup_app.
  split; [by apply (H1 0%nat)|]. split.
  - intros x Hx Hin. apply elem_of_concat in Hin as (j & k & Hk & Hxk).
    by pose proof (H2 0%nat (S j) l k x eq_refl Hk Hx Hxk).
  - apply IH; [intros i; apply (H1 (S i))|]. intros i j k k' x Hi Hj Hx Hx'.
    by injection (H2 (S i) (S j) k k' x Hi Hj Hx Hx').
Qed.

Lemma dir_listing root s x d : fs_inv root s -> v_dentries s !! x = Some d ->
  exists ls, Forall2 (linked (v_dentries s)) (d_bucket d) ls /\
    Forall (fun l => (length l <= size (v_dentries s))%nat) ls /\ lists (v_dentries s) root x (concat ls) /\
    (length (concat ls) <= size (v_dentries s))%nat.
Proof.
  intros Hs Hd. pose proof (fi_tree _ _ Hs) as Ht.
  destruct (choose_all (fun b p l => linked (v_dentries s) p l /\ NoDup l /\ forall y, y ∈ l <-> child_in (v_dentries s) root x b y)
    (d_bucket d)) as (ls & Hlen & Hall).
  { intros b p Hp. by apply (tk_chain _ _ _ Ht x d b p). }
  assert (Hat : forall b l, ls !! b = Some l -> exists p, d_bucket d !! b = Some p /\ linked (v_dentries s) p l /\ NoDup l /\
    forall y, y ∈ l <-> child_in (v_dentries s) root x b y).
  { intros b l Hl. destruct (lookup_lt_is_Some_2 (d_bucket d) b) as [p Hp]; [rewrite <- Hlen; by eapply lookup_lt_Some|]. eauto. }
  assert (Hlists : lists (v_dentries s) root x (concat ls)).
  { split.
    - apply NoDup_concat; [intros b l Hl; by destruct (Hat b l Hl) as (p & _ & _ & ? & _)|].
      intros i j l k y Hl Hk Hy1 Hy2. destruct (Hat i l Hl) as (_ & _ & _ & _ & M1), (Hat j k Hk) as (_ & _ & _ & _ & M2).
      apply M1 in Hy1 as (_ & e & He & _ & <-). apply M2 in Hy2 as (_ & e' & He' & _ & <-). congruence.
    - intros y. rewrite elem_of_concat. split.
      + intros (b & l & Hl & Hy). destruct (Hat b l Hl) as (_ & _ & _ & _ & Hm). apply Hm in Hy as (? & e & ? & ? & _). eauto.
      + intros (Hr & e & He & Hp). pose proof (hash_range (dname e)) as Hh.
        destruct (tk_dentry _ _ _ Ht _ _ Hd) as (_ & _ & _ & _ & Hbl & _). rewrite <- Hbl, <- Hlen in Hh.
        destruct (lookup_lt_is_Some_2 _ _ Hh) as [l Hl]. exists (Z.to_nat (dentry_hash (dname e))), l. split; [done|].
        destruct (Hat _ _ Hl) as (_ & _ & _ & _ & Hm). apply Hm. split; [done|]. eauto. }
  exists ls. split; [|split; [|split; [done|]]].
  - apply Forall2_same_length_lookup. split; [done|]. intros b p l Hp Hl. by destruct (Hall b p l Hp Hl).
  - apply Forall_lookup. intros b l Hl. destruct (Hat b l Hl) as (p & _ & ? & ? & _). by eapply linked_size.
  - destruct Hlists as [Hnd Hm]. rewrite <- (size_dom (v_dentries s)), <- (size_list_to_set (C := gset nat) _ Hnd).
    apply subseteq_size. intros y Hy. apply elem_of_list_to_set, Hm in Hy as (_ & e & He & _). apply elem_of_dom. eauto.
Qed.

(** ** [sys_readdir] *)

(** What [sys_readdir] reports of an entry. *)
Definition report (s : vfs) (y : nat) : option (list Z * Z) :=
  d ← v_dentries s !! y; i ← d_inode d; ino ← v_inodes s !! i; Some (dname d, i_flags ino).

(** [L] is the directory in the order of the two loops. *)
Definition chained (s : vfs) (root x : nat) (d : dentry) (L : list nat) : Prop :=
  exists ls, L = concat ls /\ Forall2 (linked (v_dentries s)) (d_bucket d) ls /\
    Forall (fun l => (length l <= size (v_dentries s))%nat) ls /\ lists (v_dentries s) root x (concat ls) /\
    (length (concat ls) <= size (v_dentries s))%nat.

(** A descriptor open on a directory. *)
Lemma dir_fd root s fd f fl i ino : fs_inv root s -> fd_at s fd f fl i ino -> is_dir ino = true ->
  exists x d L, f_dentry fl = Some x /\ v_dentries s !! x = Some d /\ d_inode d = Some i /\ chained s root x d L.
Proof.
  intros Hs Hat Hdir. destruct (fd_kind root s fd f fl i ino Hs Hat) as (_ & Hk).
  destruct Hat as (_ & _ & _ & _ & _ & _ & _ & _ & Hino).
  destruct (nk_node _ _ _ _ (fi_nodes _ _ Hs) _ _ Hino) as (_ & Hnode). rewrite (node_is_dir _ _ Hnode) in Hdir.
  apply bool_decide_eq_true in Hdir.
  destruct Hk as [((Hff & _) & _) | [(_ & x & d & Hx & Hd & Hdi) | (Hff & _)]]; [by rewrite Hff in Hdir| |by rewrite Hff in Hdir].
  destruct (dir_listing root s x d Hs Hd) as (ls & ? & ? & ? & ?). exists x, d, (concat ls). repeat (split; [done|]). by exists ls.
Qed.

Lemma readdir_dir root s fd f fl i ino x d L room : fs_inv root s -> fd_at s fd f fl i ino -> is_dir ino = true ->
  f_dentry fl = Some x -> v_dentries s !! x = Some d -> chained s root x d L ->
  (PATH_BUF <= room)%nat -> Z.of_nat (size (v_dentries s)) < 4294967296 ->
  sys_readdir fd room s =
    match L !! Z.to_nat (f_offset fl) with
    | Some y => Some ((1, report s y), set_files (insert f (file_set_offset fl (f_offset fl +32 1))) s)
    | None => Some ((0, None), s)
    end /\ (forall y, y ∈ L -> is_Some (report s y)).
Proof.
  intros Hs Hat Hdir Hx Hd (ls & -> & Hl2 & Hls & Hlists & Hcnt) Hroom Hsz.
  destruct (fd_kind root s fd f fl i ino Hs Hat) as (Hu & _).
  destruct Hat as (a & k & -> & Hk32 & Ha & Hf & Hfl & Hi & Hino).
  assert (Hrep : forall y, y ∈ concat ls -> exists e j jno, v_dentries s !! y = Some e /\ d_inode e = Some j /\
    v_inodes s !! j = Some jno /\ name_chars (d_name e) = Some (dname e) /\ (length (dname e) < PATH_BUF)%nat /\
    report s y = Some (dname e, i_flags jno)).
  { intros y Hy. apply Hlists in Hy as (Hr & e & He & _).
    destruct (nk_entry _ _ _ _ (fi_nodes _ _ Hs) _ _ He) as (j & jno & Hj & Hjno & _). exists e, j, jno.
    destruct (tk_dentry _ _ _ (fi_tree _ _ Hs) _ _ He) as (_ & [nm Hnm] & Hg & _). do 3 (split; [done|]).
    split; [unfold dname; by rewrite Hnm|]. split; [apply (Hg Hr)|]. unfold report. rewrite He. cbn [mbind option_bind].
    rewrite Hj. cbn [mbind option_bind]. by rewrite Hjno. }
  split; [|intros y Hy; destruct (Hrep y Hy) as (e & j & jno & _ & _ & _ & _ & _ & ->); eauto].
  assert (Hfd : fd_file (Z.of_nat k) s = Some (Some f, s)).
  { unfold fd_file, TASK_MAX_FDS in *. rewrite (proj2 (Z.ltb_ge _ _)), (proj2 (Z.leb_gt _ _)) by lia. cbn [orb].
    rewrite (run_current a), Nat2Z.id by done. unfold reads. by rewrite Hf. }
  unfold sys_readdir. rewrite (run_bind _ _ _ _ _ Hfd), (run_file _ f fl) by done. rewrite Hi, (run_inode _ i ino) by done.
  rewrite Hdir. cbn [negb]. rewrite Hx, (run_dentry _ x d) by done.
  unfold is_u32 in Hu.
  rewrite (run_reads (fun s => readdir_buckets (v_dentries s) (f_offset fl) 0 (d_bucket d)) _ s _ (readdir_buckets_spec _ (f_offset fl) _ _ Hl2 Hls 0 ltac:(lia) ltac:(unfold zlen; lia))).
  rewrite Z.sub_0_r. destruct (concat ls !! Z.to_nat (f_offset fl)) as [y|] eqn:Hy; [|done].
  destruct (Hrep y ltac:(by eapply list_elem_of_lookup_2)) as (e & j & jno & He & Hj & Hjno & Hnm & Hlen & Hr).
  rewrite (run_dentry _ y e), (run_reads _ _ _ (dname e)), (run_inode _ j jno) by done.
  rewrite (proj2 (Nat.leb_gt _ _)) by lia. unfold put_file. rewrite run_modify, Hr. done.
Qed.

(** [while (sys_readdir(fd, &entry) > 0)]: the loop of [cmd_ls]. *)
Fixpoint ls_loop (fuel : nat) (fd : Z) (room : nat) : M (list (list Z * Z)) :=
  match fuel with
  | O => fault
  | S fuel' =>
      '(r, entry) ← sys_readdir fd room;
      match entry with
      | Some e => if 0 <? r then rest ← ls_loop fuel' fd room; mret (e :: rest) else mret []
      | None => mret []
      end
  end.

(** Moving the offset of the descriptor keeps what the listing depends on. *)
Lemma readdir_step root s fd f fl i ino x d L n : fs_inv root s -> fd_at s fd f fl i ino -> is_dir ino = true ->
  f_dentry fl = Some x -> v_dentries s !! x = Some d -> chained s root x d L ->
  let fl' := file_set_offset fl (f_offset fl +32 n) in let s' := set_files (insert f fl') s in
  fs_inv root s' /\ fd_at s' fd f fl' i ino /\ chained s' root x d L.
Proof.
  intros Hs Hat Hdir Hx Hd Hc. cbv zeta. split; [|split; [|done]].
  - eapply (advance_inv root s fd f fl i ino); [done|done|]. intros Hff. unfold is_dir in Hdir. by rewrite Hff in Hdir.
  - destruct Hat as (a & k & ? & ? & ? & ? & ? & ? & ?). exists a, k. repeat (split; [done|]).
    cbn. by rewrite lookup_insert_eq.
Qed.

Lemma ls_loop_spec root i ino x d room fd f : (PATH_BUF <= room)%nat -> is_dir ino = true -> forall L2 L1 fuel s fl,
  fs_inv root s -> fd_at s fd f fl i ino -> f_dentry fl = Some x -> v_dentries s !! x = Some d ->
  chained s root x d (L1 ++ L2) -> f_offset fl = zlen L1 -> Z.of_nat (size (v_dentries s)) < 4294967296 ->
  (length L2 < fuel)%nat ->
  exists s', ls_loop fuel fd room s = Some (omap (report s) L2, s') /\ fs_inv root s' /\
    v_dentries s' = v_dentries s /\ length (omap (report s) L2) = length L2.
Proof.
  intros Hroom Hdir. induction L2 as [|y L2 IH]; intros L1 fuel s fl Hs Hat Hx Hd Hc Hoff Hsz Hfuel;
    (destruct fuel as [|fuel]; [cbn in Hfuel; lia|]); cbn [ls_loop];
    destruct (readdir_dir root s fd f fl i ino x d _ room Hs Hat Hdir Hx Hd Hc Hroom Hsz) as [Hrun Hrep];
    rewrite Hoff in Hrun; unfold zlen in Hrun; rewrite Nat2Z.id in Hrun.
  - rewrite app_nil_r, (proj2 (lookup_ge_None L1 _)) in Hrun by done. rewrite (run_bind _ _ _ _ _ Hrun). by exists s.
  - rewrite list_lookup_middle in Hrun by done. rewrite (run_bind _ _ _ _ _ Hrun). cbv beta iota.
    destruct (Hrep y ltac:(set_solver)) as [e He]. cbn [omap list_omap]. rewrite He. change (0 <? 1) with true. cbv iota.
    destruct (readdir_step root s fd f fl i ino x d _ 1 Hs Hat Hdir Hx Hd Hc) as (Hs1 & Hat1 & Hc1).
    rewrite cons_middle, app_assoc in Hc1.
    assert (Hlen : zlen (L1 ++ y :: L2) < 4294967296).
    { destruct Hc as (ls & E & _ & _ & _ & Hcnt). rewrite E. unfold zlen. lia. }
    destruct (IH (L1 ++ [y]) fuel _ _ Hs1 Hat1 Hx Hd Hc1) as (s' & Hrun' & Hs' & Hds & Hl); [|done|cbn in Hfuel; lia|].
    { cbn. rewrite Hoff. unfold zlen in *. rewrite length_app in *. cbn in *. rewrite u32_small; unfold is_u32; lia. }
    rewrite Hoff in Hrun'. unfold zlen in Hrun'. rewrite (run_bind _ _ _ _ _ Hrun'). exists s'.
    split; [done|]. split; [done|]. split; [done|]. exact (f_equal S Hl).
Qed.
