(* ===== verification/VfsRun.v ===== *)
(** * Runs of the file system

    Directory listings, the descriptors of new and ending tasks, and any
    sequence of system calls by any tasks: no use of freed or missing memory,
    no endless loop, and exact reference counts throughout. *)

From stdpp Require Import gmap relations.
From S2P Require Import Prelude StateMonad SlotTable Vfs VfsTree VfsInv VfsCalls VfsData VfsDir.

#[local] Open Scope Z_scope.

(** ** Inherited descriptors *)

Definition file_bump (ps : list (option nat)) (f : nat) (fl : file) : file :=
  file_set_ref fl (f_ref fl + Z.of_nat (count_if (to_file f) ps)).
Definition inode_bump (fs : gmap nat file) (ps : list (option nat)) (i : nat) (ino : inode) : inode :=
  inode_set_ref ino (i_ref ino + Z.of_nat (count_if (to_inode fs i) ps)).

(** Both counts grow by the descriptors in [ps]; nothing else changes. *)
Definition bumped (s s' : vfs) (ps : list (option nat)) : Prop :=
  v_dentries s' = v_dentries s /\ v_rams s' = v_rams s /\ v_tasks s' = v_tasks s /\ v_current s' = v_current s /\
  v_root s' = v_root s /\ v_devfs_root s' = v_devfs_root s /\ v_fresh s' = v_fresh s /\
  (forall f, v_files s' !! f = file_bump ps f <$> v_files s !! f) /\
  (forall i, v_inodes s' !! i = inode_bump (v_files s) ps i <$> v_inodes s !! i).

(** What [share_create] and [share_exec] do with an open file. *)
Definition shares (share : nat -> M (option nat)) : Prop :=
  forall s f fl i ino, v_files s !! f = Some fl -> f_inode fl = Some i -> v_inodes s !! i = Some ino ->
    0 <= i_ref ino -> i_ref ino + 1 < 4294967296 ->
    share f s = Some (None, s) \/
    share f s = Some (Some f, set_inodes (insert i (inode_set_ref ino (i_ref ino + 1)))
      (set_files (insert f (file_set_ref fl (f_ref fl + 1))) s)).

Lemma share_create_ok : shares share_create.
Proof.
  intros s f fl i ino Hf Hi Hino H0 H1. right. unfold share_create. rewrite (run_file _ f fl) by done.
  unfold put_file, put_inode. rewrite run_modify, Hi, (run_inode _ i ino) by done.
  by rewrite run_modify, u32_small by (unfold is_u32; lia).
Qed.

Lemma share_exec_ok : shares share_exec.
Proof.
  intros s f fl i ino Hf Hi Hino H0 H1. unfold share_exec. rewrite (run_file _ f fl) by done.
  destruct (negb _); [by left|right]. unfold put_file, put_inode. rewrite run_modify, (run_inode _ i ino) by done.
  rewrite Hi. by rewrite run_modify, u32_small by (unfold is_u32; lia).
Qed.

Lemma file_set_ref_id fl : file_set_ref fl (f_ref fl + Z.of_nat 0) = fl.
Proof. destruct fl. unfold file_set_ref. cbn. f_equal. lia. Qed.
Lemma inode_set_ref_id ino : inode_set_ref ino (i_ref ino + Z.of_nat 0) = ino.
Proof. destruct ino. unfold inode_set_ref. cbn. f_equal. lia. Qed.

Lemma bumped_nil s : bumped s s [].
Proof.
  repeat (split; [done|]). split.
  - intros f. destruct (v_files s !! f) as [fl|]; [|done]. cbn. unfold file_bump. cbn. by rewrite file_set_ref_id.
  - intros i. destruct (v_inodes s !! i) as [ino|]; [|done]. cbn. unfold inode_bump. cbn. by rewrite inode_set_ref_id.
Qed.

Lemma to_inode_bump fs fs' ps i p : (forall f, fs' !! f = file_bump ps f <$> fs !! f) -> to_inode fs' i p = to_inode fs i p.
Proof.
  intros Hf. unfold to_inode. destruct p as [f|]; [|done]. cbn [mbind option_bind]. rewrite Hf. by destruct (fs !! f).
Qed.

Lemma bumped_cons s s1 s2 p ps : bumped s s1 [p] -> bumped s1 s2 ps -> bumped s s2 (p :: ps).
Proof.
  intros (A1 & A2 & A3 & A4 & A5 & A6 & A7 & A8 & A9) (B1 & B2 & B3 & B4 & B5 & B6 & B7 & B8 & B9).
  do 7 (split; [congruence|]). split.
  - intros f. rewrite B8, A8. destruct (v_files s !! f) as [fl|]; [|done]. cbn. f_equal.
    unfold file_bump, file_set_ref. cbn. f_equal. lia.
  - intros i. rewrite B9, A9. destruct (v_inodes s !! i) as [ino|]; [|done]. cbn. f_equal.
    unfold inode_bump, inode_set_ref. cbn. f_equal.
    rewrite (count_if_ext (to_inode (v_files s1) i) (to_inode (v_files s) i)) by (intros q _; by apply (to_inode_bump _ _ [p])). lia.
Qed.

Lemma bumped_one s f fl i ino : v_files s !! f = Some fl -> f_inode fl = Some i -> v_inodes s !! i = Some ino ->
  bumped s (set_inodes (insert i (inode_set_ref ino (i_ref ino + 1))) (set_files (insert f (file_set_ref fl (f_ref fl + 1))) s)) [Some f].
Proof.
  intros Hf Hi Hino. repeat (split; [done|]). cbn. split.
  - intros g. destruct (decide (f = g)) as [<- | Hg].
    + rewrite lookup_insert_eq, Hf. cbn. unfold file_bump, to_file. cbn. by rewrite bool_decide_eq_true_2.
    + rewrite lookup_insert_ne by done. destruct (v_files s !! g) as [gl|]; [|done]. cbn. f_equal.
      unfold file_bump, to_file. cbn. rewrite bool_decide_eq_false_2 by congruence. by rewrite file_set_ref_id.
  - intros j. unfold inode_bump, to_inode. cbn [count_if mbind option_bind]. rewrite Hf, Hi. destruct (decide (i = j)) as [<- | Hj].
    + rewrite lookup_insert_eq, Hino. cbn. by rewrite bool_decide_eq_true_2.
    + rewrite lookup_insert_ne by done. destruct (v_inodes s !! j) as [jno|]; [|done]. cbn. f_equal.
      rewrite bool_decide_eq_false_2 by congruence. by rewrite inode_set_ref_id.
Qed.

Lemma bumped_none s : bumped s s [None].
Proof. pose proof (bumped_nil s) as (? & ? & ? & ? & ? & ? & ? & B8 & B9). repeat (split; [done|]). done. Qed.

Lemma inherit_spec share fds : shares share -> forall s,
  (forall f, Some f ∈ fds -> exists fl i ino, v_files s !! f = Some fl /\ f_inode fl = Some i /\ v_inodes s !! i = Some ino) ->
  (forall i ino, v_inodes s !! i = Some ino -> 0 <= i_ref ino /\ i_ref ino + zlen fds < 4294967296) ->
  exists ps s', inherit_loop share fds s = Some (ps, s') /\ bumped s s' ps /\ length ps = length fds /\
    (forall f, Some f ∈ ps -> Some f ∈ fds).
Proof.
  intros Hsh. induction fds as [|p fds IH]; intros s Hopen Hroom; cbn [inherit_loop].
  { exists [], s. split; [done|]. split; [apply bumped_nil|]. done. }
  assert (Hrest : forall s1 q, bumped s s1 [q] -> exists ps s', inherit_loop share fds s1 = Some (ps, s') /\
    bumped s s' (q :: ps) /\ length ps = length fds /\ (forall f, Some f ∈ ps -> Some f ∈ fds)).
  { intros s1 q Hb. assert (Hb' := Hb). destruct Hb' as (_ & _ & _ & _ & _ & _ & _ & B8 & B9).
    destruct (IH s1) as (ps & s' & Hrun & Hb2 & Hl & Hin).
    - intros f Hf. destruct (Hopen f ltac:(apply elem_of_cons; auto)) as (fl & i & ino & Hfl & Hi & Hino).
      exists (file_bump [q] f fl), i, (inode_bump (v_files s) [q] i ino). rewrite B8, B9, Hfl, Hino. done.
    - intros i ino1 Hi. rewrite B9 in Hi. apply fmap_Some in Hi as (ino & Hi & ->). destruct (Hroom i ino Hi) as [H0 H1].
      unfold inode_bump, zlen in *. cbn in *. destruct (to_inode (v_files s) i q); lia.
    - exists ps, s'. split; [done|]. split; [by eapply bumped_cons|]. done. }
  destruct p as [f|].
  - destruct (Hopen f ltac:(apply elem_of_cons; auto)) as (fl & i & ino & Hfl & Hi & Hino).
    destruct (Hroom i ino Hino) as [H0 H1]. unfold zlen in H1. cbn in H1.
    destruct (Hsh s f fl i ino Hfl Hi Hino H0 ltac:(lia)) as [Hrun | Hrun]; rewrite (run_bind _ _ _ _ _ Hrun).
    + destruct (Hrest s None (bumped_none s)) as (ps & s' & Hr & Hb & Hl & Hin).
      rewrite (run_bind _ _ _ _ _ Hr). eexists (None :: ps), s'. split; [done|]. split; [done|].
      split; [cbn; lia|]. intros g [? | Hg]%elem_of_cons; [done|]. apply elem_of_cons; auto.
    + destruct (Hrest _ (Some f) (bumped_one s f fl i ino Hfl Hi Hino)) as (ps & s' & Hr & Hb & Hl & Hin).
      rewrite (run_bind _ _ _ _ _ Hr). eexists (Some f :: ps), s'. split; [done|]. split; [done|].
      split; [cbn; lia|]. intros g [-> | Hg]%elem_of_cons; apply elem_of_cons; auto.
  - destruct (Hrest s None (bumped_none s)) as (ps & s' & Hr & Hb & Hl & Hin).
    rewrite (run_bind _ _ _ _ _ Hr). eexists (None :: ps), s'. split; [done|]. split; [done|].
    split; [cbn; lia|]. intros g [? | Hg]%elem_of_cons; [done|]. apply elem_of_cons; auto.
Qed.

(** ** New tasks, switches, and the end of a task *)

Lemma bumped_nodes ds ns ns' rs n fs ps : nodes_ok ds ns rs n ->
  (forall i, ns' !! i = inode_bump fs ps i <$> ns !! i) -> nodes_ok ds ns' rs n.
Proof.
  intros [H1 H2 H3 H4 H5 H6] Hns.
  assert (Hlk : forall i ino', ns' !! i = Some ino' -> exists ino, ns !! i = Some ino /\ ino' = inode_bump fs ps i ino).
  { intros i ino' Hi. rewrite Hns in Hi. apply fmap_Some in Hi as (ino & ? & ->). eauto. }
  split; try done.
  - intros x d Hx. destruct (H1 x d Hx) as (i & ino & Hi & Hino & ?). exists i, (inode_bump fs ps i ino).
    rewrite Hns, Hino. done.
  - intros x d p i ino' Hx Hp Hi Hino'. destruct (Hlk _ _ Hino') as (ino & Hino & ->). by eapply (H2 x d p i ino).
  - intros i ino' Hi. destruct (Hlk _ _ Hi) as (ino & Hino & ->). exact (H4 _ _ Hino).
  - intros i j ii jj r Hi Hj. destruct (Hlk _ _ Hi) as (ino & ? & ->), (Hlk _ _ Hj) as (jno & ? & ->). cbn. eauto.
Qed.

Lemma bumped_open ds ns ns' fs fs' ts n t a ps : open_ok ds ns fs ts n ->
  (forall f, fs' !! f = file_bump ps f <$> fs !! f) -> (forall i, ns' !! i = inode_bump fs ps i <$> ns !! i) ->
  ts !! t = None -> Z.of_nat (size ts) < MAX_TASKS -> io_fds a = ps -> length ps = TASK_MAX_FDS ->
  (forall f, Some f ∈ ps -> is_Some (fs !! f)) ->
  (forall c, io_cwd a = Some c -> exists i ino, inode_of ds c = Some i /\ ns !! i = Some ino /\ i_flags ino = VFS_DIR) ->
  open_ok ds ns' fs' (<[t := a]> ts) n.
Proof.
  intros [H1 H2 H3 H4 H5] Hfs Hns Ht Hroom Ha Hl Hopen Hcwd.
  assert (Hns' : forall i ino, ns !! i = Some ino -> exists ino', ns' !! i = Some ino' /\ i_flags ino' = i_flags ino /\ i_size ino' = i_size ino).
  { intros i ino Hi. exists (inode_bump fs ps i ino). by rewrite Hns, Hi. }
  assert (Hdir : forall c, (exists i ino, inode_of ds c = Some i /\ ns !! i = Some ino /\ i_flags ino = VFS_DIR) ->
    exists i ino, inode_of ds c = Some i /\ ns' !! i = Some ino /\ i_flags ino = VFS_DIR).
  { intros c (i & ino & Hi & Hino & Hd). destruct (Hns' _ _ Hino) as (ino' & ? & ? & _). exists i, ino'.
    split; [done|]. split; [done|]. congruence. }
  split.
  - intros f fl' Hf. rewrite Hfs in Hf. apply fmap_Some in Hf as (fl & Hf & ->).
    destruct (H1 _ _ Hf) as (? & ? & i & ino & Hi & Hino & Hx & Ho). split; [done|]. split; [done|].
    destruct (Hns' _ _ Hino) as (ino' & ? & Ef & Es). exists i, ino'. rewrite Ef, Es. done.
  - intros f fl' Hf. rewrite Hfs in Hf. apply fmap_Some in Hf as (fl & Hf & ->). destruct (H2 _ _ Hf) as [E ?].
    unfold slots. rewrite tsum_new by done. fold (slots ts f). rewrite Ha. cbn. rewrite E. lia.
  - intros i ino' Hi. rewrite Hns in Hi. apply fmap_Some in Hi as (ino & Hi & ->). destruct (H3 _ _ Hi) as [Hr Hr'].
    rewrite (opens_ext _ fs fs' i) by (intros; by apply (to_inode_bump _ _ ps)).
    unfold opens in *. rewrite tsum_new by done. rewrite Ha. split; [cbn; lia|]. intros Hd. specialize (Hr' Hd). cbn. lia.
  - intros u c [[<- <-] | [_ Hu]]%lookup_insert_Some.
    + split; [congruence|]. split; [|auto]. rewrite Ha. intros k f Hk.
      destruct (Hopen f) as [fl Hf]; [by eapply list_elem_of_lookup_2|]. rewrite Hfs, Hf. eauto.
    + destruct (H4 _ _ Hu) as (? & Hq & ?). split; [done|]. split; [|auto]. intros k f Hk.
      destruct (Hq _ _ Hk) as [fl Hf]. rewrite Hfs, Hf. eauto.
  - rewrite map_size_insert_None by done. lia.
Qed.

Lemma spawn_spec root s share t pid cwd : fs_inv root s -> shares share -> v_tasks s !! t = None ->
  Z.of_nat (size (v_tasks s)) < MAX_TASKS -> (forall a c, cwd a = Some c -> io_cwd a = Some c) ->
  exists s' b, spawn_io share t pid cwd s = Some (tt, s') /\ fs_inv root s' /\
    v_tasks s' = <[t := b]> (v_tasks s) /\ v_current s' = v_current s /\ v_fresh s' = v_fresh s.
Proof.
  intros Hs Hsh Ht Hroom Hcwd. pose proof (fi_open _ _ Hs) as Hopen. destruct (fi_current _ _ Hs) as [a Ha].
  destruct (ok_task _ _ _ _ _ Hopen _ _ Ha) as (Hl & Hfs & Hc).
  unfold spawn_io. rewrite (run_current a) by done.
  destruct (inherit_spec share (io_fds a) Hsh s) as (ps & s1 & Hrun & Hb & Hps & Hin).
  - intros f [k Hk]%list_elem_of_lookup. destruct (fd_open root s a k f Hs Ha Hk) as (fl & i & ino & ? & ? & ? & _). by exists fl, i, ino.
  - intros i ino Hi. destruct (ok_opens _ _ _ _ _ Hopen _ _ Hi) as [Hr _]. pose proof (opens_bound _ _ _ _ _ i Hopen).
    unfold zlen. rewrite Hl. unfold TASK_MAX_FDS. lia.
  - rewrite (run_bind _ _ _ _ _ Hrun). eexists _, _. split; [reflexivity|].
    destruct Hb as (B1 & B2 & B3 & B4 & B5 & B6 & B7 & B8 & B9). split; [|cbn; by rewrite B3, B4, B7].
    split; cbn; rewrite ?B1, ?B2, ?B3, ?B4, ?B5, ?B6, ?B7; try apply Hs.
    + eapply bumped_nodes; [apply Hs|done].
    + eapply (bumped_open _ (v_inodes s) _ (v_files s) _ _ _ _ _ ps); try done; [congruence| |].
      * intros f Hf. apply Hin in Hf as [k Hk]%list_elem_of_lookup. by eapply Hfs.
      * intros c Hcc. apply Hc. by apply Hcwd.
    + rewrite lookup_insert_ne; [apply Hs|]. intros ->. destruct (fi_current _ _ Hs). congruence.
Qed.

(** The working directory of a new task is counted in its entry, which nothing
    else looks at. *)
Lemma count_cwd_spec root s : fs_inv root s -> exists s', count_cwd s = Some (tt, s') /\ fs_inv root s' /\
  v_tasks s' = v_tasks s /\ v_current s' = v_current s.
Proof.
  intros Hs. unfold count_cwd. destruct (fi_current _ _ Hs) as [a Ha]. rewrite (run_current a) by done.
  destruct (io_cwd a) as [c|] eqn:Hc; [|by exists s].
  destruct (ok_task _ _ _ _ _ (fi_open _ _ Hs) _ _ Ha) as (_ & _ & Hcwd). destruct (Hcwd _ Hc) as (i & ino & Hi & _).
  apply inode_of_Some in Hi as (d & Hd & _). rewrite (run_dentry _ c d) by done. eexists. split; [reflexivity|].
  split; [|done]. cbn. set (d' := Dentry _ _ _ _ _ _ _ _). set (ds' := <[c := d']> (v_dentries s)).
  assert (Hfwd : forall x e, v_dentries s !! x = Some e -> exists e', ds' !! x = Some e' /\ dsame e e' /\ d_next e' = d_next e /\ d_bucket e' = d_bucket e).
  { intros x e He. unfold ds'. destruct (decide (c = x)) as [<- | ?].
    - rewrite lookup_insert_eq. assert (e = d) as -> by congruence. exists d'. done.
    - rewrite lookup_insert_ne by done. exists e. done. }
  assert (Hback : forall x e', ds' !! x = Some e' -> exists e, v_dentries s !! x = Some e /\ dsame e e' /\ d_next e' = d_next e /\ d_bucket e' = d_bucket e).
  { intros x e' He'. assert (exists e, v_dentries s !! x = Some e) as [e He].
    { unfold ds' in He'. apply lookup_insert_Some in He' as [[<- _] | [_ ?]]; eauto. }
    exists e. destruct (Hfwd x e He) as (e2 & ? & ?). split; [done|]. congruence. }
  assert (Hio : forall x j, inode_of ds' x = Some j <-> inode_of (v_dentries s) x = Some j).
  { intros x j. rewrite !inode_of_Some. split; [intros (e' & He' & Hj); destruct (Hback _ _ He') as (e & ? & (_ & E & _) & _)|
      intros (e & He & Hj); destruct (Hfwd _ _ He) as (e' & ? & (_ & E & _) & _)]; eexists; split; eauto; congruence. }
  assert (Hch : forall x b y, child_in ds' root x b y <-> child_in (v_dentries s) root x b y).
  { intros x b y. unfold child_in. split; (intros (Hr & e & He & Hp & Hh); split; [done|]).
    - destruct (Hback _ _ He) as (e0 & ? & Hsm & _). exists e0. rewrite <- (dsame_name _ _ Hsm).
      destruct Hsm as (_ & _ & E & _). split; [done|]. split; congruence.
    - destruct (Hfwd _ _ He) as (e0 & ? & Hsm & _). exists e0. rewrite (dsame_name _ _ Hsm).
      destruct Hsm as (_ & _ & E & _). split; [done|]. split; congruence. }
  pose proof (fi_tree _ _ Hs) as Ht. pose proof (fi_nodes _ _ Hs) as Hn. split; cbn; try apply Hs; fold ds'.
  - split.
    + destruct (tk_root _ _ _ Ht) as (rd & Hr & Hp). destruct (Hfwd _ _ Hr) as (rd' & ? & (_ & _ & E & _) & _).
      exists rd'. split; [done|]. congruence.
    + intros x e' He'. destruct (Hback _ _ He') as (e & He & (E1 & E2 & E3 & E4 & E5 & E6) & _).
      destruct (tk_dentry _ _ _ Ht _ _ He) as (? & ? & ? & (p & Hp & [q Hq]) & ? & ? & ?). unfold dentry_ok, dname in *.
      rewrite E1, E3, E4, E5, E6. repeat (split; [done|]). split; [|done]. exists p. split; [done|].
      destruct (Hfwd _ _ Hq) as (q' & ? & _). eauto.
    + intros x e' b p He' Hp. destruct (Hback _ _ He') as (e & He & _ & _ & Eb). rewrite Eb in Hp.
      destruct (tk_chain _ _ _ Ht _ _ _ _ He Hp) as (l & Hl & Hnd & Hm). exists l. split; [|split; [done|]].
      * apply (linked_frame _ _ _ _ Hl). intros y ey _ Hey. destruct (Hfwd _ _ Hey) as (ey' & ? & _ & ? & _). eauto.
      * intros y. by rewrite Hch.
    + intros x y ex' ey' Hxr Hyr Hx Hy Hp Hnm. destruct (Hback _ _ Hx) as (ex & ? & Sx & _), (Hback _ _ Hy) as (ey & ? & Sy & _).
      rewrite (dsame_name _ _ Sx), (dsame_name _ _ Sy) in Hnm. destruct Sx as (_ & _ & Sx & _), Sy as (_ & _ & Sy & _).
      apply (tk_uniq _ _ _ Ht x y ex ey); congruence.
  - destruct Hn as [H1 H2 H3 H4 H5 H6]. split; try done.
    + intros x e' He'. destruct (Hback _ _ He') as (e & He & (_ & -> & _) & _). eauto.
    + intros x e' p j jno He' Hp Hj Hjno. destruct (Hback _ _ He') as (e & He & (_ & _ & E & _) & _).
      apply Hio in Hj. eapply (H2 x e p); eauto. congruence.
    + intros x y j Hx Hy. apply Hio in Hx, Hy. eauto.
  - eapply open_ok_grow; [apply Hs|done|intros x j; apply Hio| |].
    + intros j jno Hj. exists jno. split; [done|]. split; [done|]. lia.
    + intros j jno Hj. eauto.
  - intros x e' He' Hr Hdv. destruct (Hback _ _ He') as (e & He & (-> & _) & _). by eapply (fi_names _ _ Hs).
Qed.

Lemma close_from_spec root todo : forall i s, fs_inv root s -> exists s', close_from i todo s = Some (tt, s') /\
  fs_inv root s' /\ v_current s' = v_current s /\ v_fresh s' = v_fresh s /\
  (forall t, t <> v_current s -> v_tasks s' !! t = v_tasks s !! t) /\
  forall a a' k, v_tasks s !! v_current s = Some a -> v_tasks s' !! v_current s = Some a' ->
    ((i <= k < i + todo)%nat -> (k < TASK_MAX_FDS)%nat -> io_fds a' !! k = Some None) /\
    (~ (i <= k < i + todo)%nat -> io_fds a' !! k = io_fds a !! k).
Proof.
  induction todo as [|todo IH]; intros i s Hs; cbn [close_from].
  { exists s. do 5 (split; [done|]). intros a a' k Ha Ha'.
    assert (a' = a) as -> by congruence. split; [lia|done]. }
  assert (Hone : exists s1, (p ← fd_file (Z.of_nat i);
      match p with Some _ => sys_close (Z.of_nat i) ≫= fun _ => mret tt | None => mret tt end) s = Some (tt, s1) /\
    fs_inv root s1 /\ v_current s1 = v_current s /\ v_fresh s1 = v_fresh s /\ (forall t, t <> v_current s -> v_tasks s1 !! t = v_tasks s !! t) /\
    forall a a1 k, v_tasks s !! v_current s = Some a -> v_tasks s1 !! v_current s = Some a1 ->
      ((k = i)%nat -> (k < TASK_MAX_FDS)%nat -> io_fds a1 !! k = Some None) /\ (k <> i -> io_fds a1 !! k = io_fds a !! k)).
  { destruct (fd_file_spec root s (Z.of_nat i) Hs) as (a & Ha & Hcase).
    destruct (ok_task _ _ _ _ _ (fi_open _ _ Hs) _ _ Ha) as (Hlen & _).
    destruct Hcase as [Hfd | (k & f & Hik & Hk & Hf & Hfd)]; rewrite (run_bind _ _ _ _ _ Hfd).
    - exists s. repeat (split; [done|]). intros a0 a1 k Ha0 Ha1. assert (a1 = a0) as -> by congruence.
      assert (a0 = a) as -> by congruence. split; [|done]. intros -> Hk. unfold fd_file, TASK_MAX_FDS in *.
      rewrite (proj2 (Z.ltb_ge _ _)), (proj2 (Z.leb_gt _ _)) in Hfd by lia. cbn [orb] in Hfd.
      rewrite (run_current a), Nat2Z.id in Hfd by done. unfold reads in Hfd.
      destruct (io_fds a !! i) as [p|] eqn:E; [|apply lookup_ge_None in E; lia]. cbn in Hfd. congruence.
    - assert (k = i) as -> by lia. destruct (sys_close_spec root s (Z.of_nat i) Hs) as (r & s1 & Hrun & Hs1 & Hres).
      rewrite (run_bind _ _ _ _ _ Hrun). exists s1. split; [done|]. split; [done|].
      destruct Hres as [(-> & -> & Hno) | (k & Hki & _ & a0 & f0 & fl & j & jno & Ha0 & Hf0 & _ & _ & _ & Ht & _ & _ & _ & _ & _ & Hcur & Hfr)];
        [congruence|].
      assert (k = i) as -> by lia. assert (a0 = a) as -> by congruence. rewrite Ht. split; [done|]. split; [done|]. split.
      { intros t Hne. by rewrite lookup_insert_ne. }
      intros a2 a1 k Ha2 Ha1. assert (a2 = a) as -> by congruence. rewrite lookup_insert_eq in Ha1. injection Ha1 as <-. cbn.
      split; [intros -> _; apply list_lookup_insert_eq; lia|]. intros Hne. by rewrite list_lookup_insert_ne. }
  destruct Hone as (s1 & Hrun & Hs1 & Hc1 & Hf1 & Ho1 & Hk1). rewrite <- run_assoc, (run_bind _ _ _ _ _ Hrun).
  destruct (IH (S i) s1 Hs1) as (s' & Hrun' & Hs' & Hc' & Hf' & Ho' & Hk'). exists s'. split; [done|]. split; [done|].
  rewrite Hc1 in *. split; [congruence|]. split; [congruence|]. split.
  { intros t Ht. rewrite Ho', Ho1 by congruence. done. }
  intros a a' k Ha Ha'. destruct (fi_current _ _ Hs1) as [a1 Ha1]. rewrite Hc1 in Ha1.
  destruct (Hk1 a a1 k Ha Ha1) as [K1 K2], (Hk' a1 a' k Ha1 Ha') as [K3 K4]. split.
  - intros Hr Hk. destruct (decide (k = i)) as [-> | ?]; [rewrite K4 by lia; auto|apply K3; lia].
  - intros Hr. rewrite K4, K2 by lia. done.
Qed.

(** A finished task leaves with no descriptor. *)
Lemma reap_inv root s t a : fs_inv root s -> v_tasks s !! t = Some a -> t <> v_current s ->
  (forall k, (k < TASK_MAX_FDS)%nat -> io_fds a !! k = Some None) -> fs_inv root (set_tasks (delete t) s).
Proof.
  intros Hs Ht Hne Hnone. pose proof (fi_open _ _ Hs) as [H1 H2 H3 H4 H5].
  assert (Hno : forall p, p ∈ io_fds a -> p = None).
  { intros p [k Hk]%list_elem_of_lookup. destruct (H4 _ _ Ht) as (Hl & _).
    rewrite (Hnone k) in Hk by (rewrite <- Hl; by eapply lookup_lt_Some). congruence. }
  assert (Hsum : forall g : option nat -> bool, g None = false ->
    tsum (fun t => count_if g (io_fds t)) (delete t (v_tasks s)) = tsum (fun t => count_if g (io_fds t)) (v_tasks s)).
  { intros g Hg. rewrite <- (insert_delete_id (v_tasks s) t a Ht) at 2. rewrite tsum_new by apply lookup_delete_eq.
    rewrite (proj2 (count_if_0 g (io_fds a))); [done|]. intros p Hp. by rewrite (Hno p Hp). }
  split; cbn; try apply Hs; [|rewrite lookup_delete_ne by done; apply Hs]. split; [done| | | |].
  - intros f fl Hf. unfold slots. rewrite Hsum by done. by apply H2.
  - intros i ino Hi. unfold opens. rewrite Hsum by done. by apply H3.
  - intros u c [_ Hu]%lookup_delete_Some. by eapply H4.
  - rewrite map_size_delete_Some by eauto. lia.
Qed.

(** ** The machine *)

Section run.
Context `{Machine}.

Inductive fs_event :=
  | FOpen (path : list Z) (flags : Z)
  | FRead (fd sz : Z)
  | FWrite (fd : Z) (buf : list Z)
  | FClose (fd : Z)
  | FMkdir (path : list Z)
  | FUnlink (path : list Z)
  | FChdir (path : list Z)
  | FReaddir (fd : Z) (room : nat)
  | FSwitch (t : nat)                 (* the scheduler runs another task *)
  | FCreate (t : nat) (pid : Z)       (* create_process *)
  | FExec (t : nat) (pid : Z)         (* exec_user, sys_exec *)
  | FExit                             (* the descriptors of sys_exit *)
  | FReap (t : nat).                  (* sys_waitpid *)

Definition fs_exec (e : fs_event) : M unit :=
  match e with
  | FOpen path flags => sys_open path flags ≫= fun _ => mret tt
  | FRead fd sz => sys_read fd sz ≫= fun _ => mret tt
  | FWrite fd buf => sys_write fd buf ≫= fun _ => mret tt
  | FClose fd => sys_close fd ≫= fun _ => mret tt
  | FMkdir path => sys_mkdir path ≫= fun _ => mret tt
  | FUnlink path => sys_unlink path ≫= fun _ => mret tt
  | FChdir path => sys_chdir path ≫= fun _ => mret tt
  | FReaddir fd room => sys_readdir fd room ≫= fun _ => mret tt
  | FSwitch t => modify (set_current t)
  | FCreate t pid => create_io t pid
  | FExec t pid => exec_io t pid
  | FExit => close_all
  | FReap t => modify (set_tasks (delete t))
  end.

(** What the callers must not do, as the code does not check it. *)
Definition allowed (root : nat) (s : vfs) (e : fs_event) : Prop :=
  match e with
  | FOpen path _ | FMkdir path | FChdir path => path_ok s path
  | FUnlink path => path_ok s path /\ unlinkable root s path
  | FRead _ sz => 0 <= sz < 2147483648
  | FWrite fd buf => zlen buf < 2147483648 /\
      forall f fl i ino, fd_at s fd f fl i ino -> i_flags ino = VFS_FILE -> f_offset fl + zlen buf <= 2147483648
  | FReaddir _ room => (PATH_BUF <= room)%nat /\ Z.of_nat (size (v_dentries s)) < 4294967296
  | FSwitch t => is_Some (v_tasks s !! t)
  | FCreate t _ | FExec t _ => v_tasks s !! t = None /\ Z.of_nat (size (v_tasks s)) < MAX_TASKS
  | FReap t => t <> v_current s /\ exists a, v_tasks s !! t = Some a /\
      forall k, (k < TASK_MAX_FDS)%nat -> io_fds a !! k = Some None
  | FClose _ | FExit => True
  end.

Lemma ignore_result {A} (m : M A) s r s' : m s = Some (r, s') -> (m ≫= fun _ => mret tt) s = Some (tt, s').
Proof. intros Hm. by rewrite (run_bind _ _ _ _ _ Hm). Qed.

Lemma sys_readdir_ok root s fd room : fs_inv root s -> (PATH_BUF <= room)%nat ->
  Z.of_nat (size (v_dentries s)) < 4294967296 -> exists r s', sys_readdir fd room s = Some (r, s') /\ fs_inv root s'.
Proof.
  intros Hs Hroom Hsz. destruct (fd_file_spec root s fd Hs) as (a & Ha & [Hfd | (k & f & -> & Hk & Hf & Hfd)]).
  { unfold sys_readdir. rewrite (run_bind _ _ _ _ _ Hfd). eauto. }
  destruct (fd_open root s a k f Hs Ha Hf) as (fl & i & ino & Hfl & Hi & Hino & _).
  assert (Hat : fd_at s (Z.of_nat k) f fl i ino) by by exists a, k.
  destruct (is_dir ino) eqn:Hdir.
  - destruct (dir_fd root s _ f fl i ino Hs Hat Hdir) as (x & d & L & Hx & Hd & _ & Hc).
    destruct (readdir_dir root s _ f fl i ino x d L room Hs Hat Hdir Hx Hd Hc Hroom Hsz) as [-> _].
    destruct (L !! _); [|eauto]. eexists _, _. split; [reflexivity|].
    by apply (readdir_step root s _ f fl i ino x d L 1 Hs Hat Hdir Hx Hd Hc).
  - unfold sys_readdir. rewrite (run_bind _ _ _ _ _ Hfd), (run_file _ f fl) by done. rewrite Hi, (run_inode _ i ino) by done.
    rewrite Hdir. cbn [negb]. eauto.
Qed.

Context (Hstr : forall n, grants AString n = true).

(** Every allowed event runs to its end and keeps the invariant. *)
Lemma fs_exec_ok root s e : fs_inv root s -> allowed root s e -> exists s', fs_exec e s = Some (tt, s') /\ fs_inv root s'.
Proof.
  intros Hs Hal. destruct e; cbn [fs_exec allowed] in *.
  - destruct (sys_open_spec Hstr root s path flags Hs Hal) as (r & s' & Hrun & Hs' & _). eauto using ignore_result.
  - destruct (sys_read_spec root s fd sz Hs Hal) as (r & out & s' & Hrun & Hs' & _). eauto using ignore_result.
  - destruct Hal as [Hl Hfit]. destruct (sys_write_spec root s fd buf Hs Hl Hfit) as (r & s' & Hrun & Hs' & _). eauto using ignore_result.
  - destruct (sys_close_spec root s fd Hs) as (r & s' & Hrun & Hs' & _). eauto using ignore_result.
  - destruct (sys_mkdir_spec Hstr root s path Hs Hal) as (r & s' & Hrun & Hs' & _). eauto using ignore_result.
  - destruct Hal as [Hp Hun]. destruct (sys_unlink_spec root s path Hs Hp Hun) as (r & s' & Hrun & Hs' & _). eauto using ignore_result.
  - destruct (sys_chdir_spec root s path Hs Hal) as (r & s' & Hrun & Hs' & _). eauto using ignore_result.
  - destruct Hal as [Hr Hsz]. destruct (sys_readdir_ok root s fd room Hs Hr Hsz) as (r & s' & Hrun & Hs'). eauto using ignore_result.
  - eexists. split; [reflexivity|]. destruct Hs as [H1 H2 H3 H4 H5 H6]. by split.
  - destruct Hal as [Hn Hr]. destruct (spawn_spec root s share_create t pid (fun _ => None) Hs) as (s' & b & ? & ? & _); try done;
      [apply share_create_ok|by exists s'].
  - destruct Hal as [Hn Hr]. unfold exec_io. destruct (count_cwd_spec root s Hs) as (s1 & Hrun & Hs1 & Ht & Hc).
    rewrite (run_bind _ _ _ _ _ Hrun). destruct (spawn_spec root s1 share_exec t pid io_cwd Hs1) as (s' & b & ? & ? & _); rewrite ?Ht; try done;
      [apply share_exec_ok|by exists s'].
  - destruct (close_from_spec root TASK_MAX_FDS 0 s Hs) as (s' & Hrun & Hs' & _). eauto.
  - destruct Hal as [Hne (a & Ha & Hnone)]. eexists. split; [reflexivity|]. by eapply reap_inv.
Qed.

Definition fs_step (root : nat) (s s' : vfs) : Prop := exists e, allowed root s e /\ fs_exec e s = Some (tt, s').
End run.
