(* ===== verification/VfsBoot.v ===== *)
(** * The file system at start-up, and what holds of every run

    [vfs_init], [ramfs_init], [tty_init], [devfs_init] and the streams of the
    first task establish the invariant; the theorems about the file system. *)

From stdpp Require Import gmap relations.
From S2P Require Import Prelude StateMonad SlotTable Vfs VfsTree VfsInv VfsCalls VfsData VfsDir VfsRun.

#[local] Open Scope Z_scope.

Definition root_dentry : dentry :=
  Dentry (Literal [SLASH]) (Some 1%nat) (Some 0%nat) None None (replicate DENTRY_HASH None) None 0.
Definition dev_dentry : dentry :=
  Dentry (Literal DEV) (Some 5%nat) (Some 0%nat) None None (replicate DENTRY_HASH None) None 0.
Definition boot_dentries : gmap nat dentry := hung {[ 0%nat := root_dentry ]} 4 0 dev_dentry root_dentry None.
Definition tty_inode : inode := Inode 0 VFS_DEVICE 0 (Some tty_ops) None 0 0.
Definition boot_inodes : gmap nat inode :=
  <[5%nat := Inode 0 VFS_DIR 0 None None 0 0]> (<[2%nat := tty_inode]>
    {[ 1%nat := Inode 0 VFS_DIR 0 (Some ramfs_ops) None 0 0 ]}).
Definition boot_files (dent : option nat) : gmap nat file :=
  <[9%nat := File (Some 2%nat) dent 0 WRITE_ONLY 1]> (<[8%nat := File (Some 2%nat) None 0 WRITE_ONLY 1]>
    {[ 7%nat := File (Some 2%nat) None 0 READ_ONLY 1 ]}).
Definition boot_io : io :=
  Io 1 (Some 0%nat) ([Some 7; Some 8; Some 9]%nat ++ replicate (TASK_MAX_FDS - 3) None) [].
Definition boot_state (dent : option nat) (ticks : Z) : vfs :=
  Vfs boot_dentries boot_inodes ∅ (boot_files dent) (Some 0%nat) (Some 4%nat) [(TTY, 2%nat)] {[ 6%nat := boot_io ]}
    6 10 0 [] ticks.

(** Before the first task. *)
Definition fs_started (ticks : Z) : vfs :=
  Vfs boot_dentries boot_inodes ∅ ∅ (Some 0%nat) (Some 4%nat) [(TTY, 2%nat)] ∅ 0 6 0 [] ticks.

Lemma boot_root_tree : tree_ok {[ 0%nat := root_dentry ]} 0 1.
Proof.
  assert (Hone : forall x d, ({[ 0%nat := root_dentry ]} : gmap nat dentry) !! x = Some d -> x = 0%nat /\ d = root_dentry).
  { intros x d Hx. by apply lookup_singleton_Some in Hx as [<- <-]. }
  split.
  - exists root_dentry. by rewrite lookup_singleton_eq.
  - intros x d Hx. destruct (Hone _ _ Hx) as [-> ->]. split; [lia|]. split; [done|]. split; [done|]. split; [|done].
    exists 0%nat. by rewrite lookup_singleton_eq.
  - intros x d b p Hx Hb. destruct (Hone _ _ Hx) as [-> ->]. apply lookup_replicate in Hb as [-> _]. exists [].
    split; [done|]. split; [constructor|]. intros y. split; [by intros ?%elem_of_nil|].
    intros (Hr & e & He & _). by destruct (Hone _ _ He).
  - intros x y dx dy Hx _ Hdx. by destruct (Hone _ _ Hdx).
Qed.

Lemma boot_tree : tree_ok boot_dentries 0 10.
Proof.
  unfold boot_dentries. apply (hung_tree _ 0 1 10 4 0 dev_dentry root_dentry None boot_root_tree); try done; try lia.
  unfold good_name. split; [done|]. split; [set_solver|]. split; [done|]. split; [done|]. unfold PATH_BUF. simpl. lia.
Qed.

Lemma boot_nodes : nodes_ok boot_dentries boot_inodes ∅ 10.
Proof.
  assert (Hd : forall x d, boot_dentries !! x = Some d ->
    d_parent d = Some 0%nat /\ ((x = 0%nat /\ d_inode d = Some 1%nat) \/ (x = 4%nat /\ d_inode d = Some 5%nat))).
  { intros x d Hx. unfold boot_dentries, hung in Hx. apply lookup_insert_Some in Hx as [[<- <-] | [_ Hx]]; [by auto|].
    apply lookup_insert_Some in Hx as [[<- <-] | [H0 Hx]]; [by auto|]. apply lookup_singleton_Some in Hx as [<- <-]. auto. }
  assert (Hi : forall i ino, boot_inodes !! i = Some ino -> (i < 10)%nat /\ (dir_node ino \/ (i = 2%nat /\ dev_node ino))).
  { intros i ino Hx. unfold boot_inodes in Hx.
    apply lookup_insert_Some in Hx as [[<- <-] | [_ Hx]]; [split; [lia|]; left; unfold dir_node; cbn; auto|].
    apply lookup_insert_Some in Hx as [[<- <-] | [_ Hx]]; [split; [lia|]; right; done|].
    apply lookup_singleton_Some in Hx as [<- <-]. split; [lia|]. left. unfold dir_node; cbn; auto. }
  split.
  - intros x d Hx. destruct (Hd _ _ Hx) as (_ & [[-> ->] | [-> ->]]).
    + exists 1%nat. eexists. split; [done|]. by vm_compute.
    + exists 5%nat. eexists. split; [done|]. by vm_compute.
  - intros x d p i ino Hx Hp Hpi Hino. destruct (Hd _ _ Hx) as (Hp0 & _). assert (p = 0%nat) as -> by congruence.
    apply inode_of_Some in Hpi as (d0 & Hd0 & Hi0). destruct (Hd _ _ Hd0) as (_ & [[_ E] | [? _]]); [|done].
    assert (i = 1%nat) as -> by congruence. vm_compute in Hino. by injection Hino as <-.
  - intros x y i (dx & Hx & Hxi)%inode_of_Some (dy & Hy & Hyi)%inode_of_Some.
    destruct (Hd _ _ Hx) as (_ & [[-> ?] | [-> ?]]), (Hd _ _ Hy) as (_ & [[-> ?] | [-> ?]]); congruence.
  - intros i ino Hx. destruct (Hi _ _ Hx) as (? & [? | [_ ?]]); auto.
  - intros i j ii jj r Hii _ Hr. destruct (Hi _ _ Hii) as (_ & [(_ & ? & _) | (_ & _ & ? & _)]); congruence.
  - intros r ram Hr. by rewrite lookup_empty in Hr.
Qed.

Lemma boot_open dent : open_ok boot_dentries boot_inodes (boot_files dent) {[ 6%nat := boot_io ]} 10.
Proof.
  assert (Hf : forall f fl, boot_files dent !! f = Some fl -> f ∈ [7; 8; 9]%nat /\ f_inode fl = Some 2%nat /\
    f_offset fl = 0 /\ f_ref fl = 1).
  { intros f fl Hx. unfold boot_files in Hx.
    apply lookup_insert_Some in Hx as [[<- <-] | [_ Hx]]; [split; [set_solver|done]|].
    apply lookup_insert_Some in Hx as [[<- <-] | [_ Hx]]; [split; [set_solver|done]|].
    apply lookup_singleton_Some in Hx as [<- <-]. split; [set_solver|done]. }
  split.
  - intros f fl Hx. destruct (Hf _ _ Hx) as (Hin & Hi & Ho & _). split; [set_unfold in Hin; lia|]. rewrite Ho.
    split; [unfold is_u32; lia|]. exists 2%nat, tty_inode. by rewrite Hi.
  - intros f fl Hx. destruct (Hf _ _ Hx) as (Hin & _ & _ & Hr). rewrite Hr. unfold slots.
    rewrite <- (insert_empty (6%nat) boot_io), tsum_new by apply lookup_empty.
    set_unfold in Hin. destruct Hin as [-> | [-> | [-> | []]]]; split; vm_compute; (done || lia).
  - intros i ino Hx. unfold opens. rewrite <- (insert_empty (6%nat) boot_io), tsum_new by apply lookup_empty.
    unfold boot_inodes in Hx. apply lookup_insert_Some in Hx as [[<- <-] | [_ Hx]]; [split; [|intros _]; by vm_compute|].
    apply lookup_insert_Some in Hx as [[<- <-] | [_ Hx]]; [split; [cbn; lia|done]|].
    apply lookup_singleton_Some in Hx as [<- <-]. split; [|intros _]; by vm_compute.
  - intros t a [<- <-]%lookup_singleton_Some. split; [done|]. split.
    + intros k f Hk. unfold boot_io in Hk. cbn [io_fds] in Hk. apply lookup_app_Some in Hk as [Hk | [_ Hk]].
      * destruct k as [|[|[|k]]]; simplify_eq/=; unfold boot_files; eauto.
      * by apply lookup_replicate in Hk as [? _].
    + intros c [= <-]. exists 1%nat. eexists. split; [by vm_compute|]. by vm_compute.
  - by vm_compute.
Qed.

Lemma boot_inv dent ticks : fs_inv 0 (boot_state dent ticks).
Proof.
  split; cbn; [done|apply boot_tree|apply boot_nodes|apply boot_open|by rewrite lookup_singleton_eq|].
  intros x d Hx H0 H4. unfold boot_dentries, hung in Hx. apply lookup_insert_Some in Hx as [[<- _] | [_ Hx]]; [done|].
  apply lookup_insert_Some in Hx as [[<- <-] | [_ Hx]]; [done|]. by apply lookup_singleton_Some in Hx as [<- _].
Qed.

(** The start-up code ends in that state. *)
Section start.
Context `{Machine} (Hg : forall k n, (n < 10)%nat -> grants k n = true).

Lemma start_alloc {B} kd (k : option nat -> M B) s : (v_fresh s < 10)%nat ->
  (kmalloc kd ≫= k) s = k (Some (v_fresh s)) (set_fresh (S (v_fresh s)) s).
Proof. intros Hn. by rewrite run_kmalloc, Hg. Qed.

Ltac compute_state := cbv beta iota;
  cbn [v_fresh set_fresh set_inodes set_dentries set_files set_root set_devfs v_root v_devfs_root v_devfs_table vfs_zero].
Ltac start :=
  repeat (compute_state; first [ rewrite start_alloc by (cbn; lia) | rewrite run_gets | rewrite run_modify | rewrite run_ret | rewrite run_assoc ]); compute_state.

Lemma fs_start_run ticks : fs_start (vfs_zero ticks) = Some (tt, fs_started ticks).
Proof.
  unfold fs_start, vfs_init, put_inode, put_dentry. start.
  unfold ramfs_init, put_inode. start.
  erewrite run_dentry by reflexivity. start. erewrite run_inode by reflexivity. cbn [d_inode]. start.
  unfold tty_init, put_inode, devfs_register, strdup. start.
  change (MAX_DEVICES <=? length (@nil (list Z * nat)))%nat with false. cbn [existsb]. start.
  unfold devfs_init, put_inode. start.
  etransitivity; [eapply hang_run; reflexivity|]. by vm_compute.
Qed.

Lemma streams_run c ticks : init_streams 6 1 (set_current c (set_fresh 7 (fs_started ticks))) = Some (tt, boot_state (stray 9) ticks).
Proof.
  unfold init_streams, devfs_get, std_stream, put_file. cbn [set_current fs_started set_fresh]. start.
  change (snd <$> List.find _ _) with (Some 2%nat). start. by vm_compute.
Qed.

Lemma boot_run ticks : vfs_boot (vfs_zero ticks) = Some (tt, boot_state (stray 9) ticks).
Proof.
  unfold vfs_boot. rewrite (run_bind _ _ _ _ _ (fs_start_run ticks)), start_alloc by (cbn; lia).
  apply (streams_run 0).
Qed.
End start.

(** ** The theorems *)

(** A machine that grants every request, for the examples. *)
#[local] Instance full_machine : Machine :=
  {| grants := fun _ _ => true; junk := fun _ _ => 165; stray := fun _ => None; typed := fun _ => 10 |}.

Definition example_boot : vfs := boot_state None 0.
Definition after {A} (m : M A) (s : vfs) : vfs := match m s with Some (_, s') => s' | None => s end.
Definition PATH_A : list Z := [47; 97].
Definition PATH_AB : list Z := [47; 97; 47; 98].

Ltac concrete_path := split; [unfold PATH_BUF; simpl; lia|eexists; vm_compute; reflexivity].

(** C15: looking a path up means what the path says.  In every well-formed state, for a
    path of under 256 characters that is absolute or whose task has a working directory
    (the code does not check either: a longer path overflows its buffer), the
    bucket-and-chain search of [vfs_lookup] returns, changing nothing and without touching
    anything freed, the entry reached from the root or the working directory by following
    the names between the slashes, [.] staying, [..] going up, and NULL exactly where a
    name is missing or is asked of a file. *)
Theorem vfs_lookup_equivalent root s path : fs_inv root s -> path_ok s path ->
  vfs_lookup (v_root s) path s = Some (meaning s root path, s).
Proof. intros Hs Hp. by apply lookup_spec. Qed.

Lemma vfs_lookup_equivalent_witness :
  vfs_lookup (v_root example_boot) [47; 47; 100; 101; 118; 47; 46; 46; 47; 100; 101; 118] example_boot = Some (Some 4%nat, example_boot).
Proof.
  rewrite (vfs_lookup_equivalent 0 example_boot); [by vm_compute|apply boot_inv|].
  concrete_path.
Defined.

(** C14: from start-up on, through any sequence of the calls sys_open, read, write, close,
    mkdir, unlink, chdir and readdir, task switches, creations, exits and reaps, by any
    tasks, the file system stays well formed: no entry, inode, block or file is used after
    it is freed, and the reference counts are the numbers of descriptors that lead there
    (of every file, and every inode but the terminal's); the next call runs to its end.
    Each step must be [allowed], for the code does not check it: paths have under 256
    characters and a relative one a working directory; an entry unlinked is not /dev, not
    a directory with entries, not open and no task's working directory (unlinking those is
    a use after free); reads and files stay below 2 GiB; readdir has a buffer for a name;
    a task created is new and below MAX_TASKS; one reaped is not running and has closed
    its files.  Fork is left out; strings and the first ten allocations are granted, any
    other may fail. *)
Theorem vfs_run_sound `{Machine} ticks s : (forall n, grants AString n = true) ->
  (forall k n, (n < 10)%nat -> grants k n = true) ->
  (exists s0, vfs_boot (vfs_zero ticks) = Some (tt, s0) /\ rtc (fs_step 0) s0 s) ->
  fs_inv 0 s /\ forall e, allowed 0 s e -> exists s', fs_exec e s = Some (tt, s').
Proof.
  intros Hstr Hg (s0 & Hboot & Hrun). rewrite (boot_run Hg) in Hboot. injection Hboot as <-.
  assert (Hs : fs_inv 0 s).
  { pose proof (boot_inv (stray 9) ticks) as H0. induction Hrun as [|x y z (e & Hal & He) _ IH]; [done|]. apply IH.
    destruct (fs_exec_ok Hstr 0 x e H0 Hal) as (s' & He' & Hs'). congruence. }
  split; [done|]. intros e Hal. destruct (fs_exec_ok Hstr 0 s e Hs Hal) as (s' & ? & _). eauto.
Qed.

Lemma vfs_run_sound_witness : let s := after (sys_mkdir PATH_A) example_boot in
  exists s', fs_exec (FOpen PATH_AB (READ_WRITE + CREAT)) s = Some (tt, s').
Proof.
  cbv zeta. apply (vfs_run_sound 0); [done|done| |].
  - exists example_boot. split; [by apply (@boot_run full_machine (fun _ _ _ => eq_refl))|]. apply rtc_once. exists (FMkdir PATH_A).
    split; [|by vm_compute]. concrete_path.
  - concrete_path.
Defined.

(** C18: a file is a list of bytes.  Take a descriptor open for writing on a file and a
    buffer with which the file stays within 2 GiB (the buffer below 2 GiB itself).  If the
    block behind the file has room up to the end of the write, or else the allocator
    grants one larger block, the write returns the number of bytes, replaces the bytes at
    the offset, extends the file past its end, moves the offset by the bytes written and
    changes no other file and no other open file.  If there is neither room nor memory
    (and only then), it returns an error, and every file and every offset is as it was. *)
Theorem sys_write_refines `{Machine} root s fd buf f fl i ino c : fs_inv root s -> fd_at s fd f fl i ino ->
  i_flags ino = VFS_FILE -> may_write (f_flags fl) = true -> content s i = Some c ->
  zlen buf < 2147483648 -> f_offset fl + zlen buf <= 2147483648 ->
  exists s', fs_inv root s' /\
    if served s i (f_offset fl + zlen buf)
    then sys_write fd buf s = Some (zlen buf, s') /\ content s' i = Some (splice c (f_offset fl) buf) /\ (forall j, j <> i -> content s' j = content s j) /\
         v_files s' = <[f := file_set_offset fl (f_offset fl + zlen buf)]> (v_files s)
    else sys_write fd buf s = Some (VFS_ERR, s') /\ (forall j, content s' j = content s j) /\ v_files s' = v_files s.
Proof.
  intros Hs Hat Hf Hmw Hc Hl Hfit. pose proof (write_result root s fd buf f fl i ino Hs Hat Hf Hmw Hl Hfit) as Hr.
  destruct (write_contract root s fd buf f fl i ino c Hs Hat Hf Hmw Hc Hl Hfit) as (r & s' & Hrun & Hs' & _ & _ & Hcase).
  exists s'. split; [done|]. rewrite Hrun in Hr. cbn in Hr. apply (inj Some) in Hr. assert (0 <= zlen buf) by (unfold zlen; lia). unfold VFS_ERR in *.
  destruct (served _ _ _); subst r; (destruct Hcase as [(E & ? & ?) | (E & ? & ? & ? & _)]; [|]; (lia || done)).
Qed.

(** What is written is read back: after a successful write through one
    descriptor, another descriptor on the same file, at the same offset, reads
    exactly the bytes written. *)
Lemma vfs_write_read root s fd fd' buf f fl f' fl' i ino c r s' : fs_inv root s ->
  fd_at s fd f fl i ino -> fd_at s fd' f' fl' i ino -> f' <> f -> f_offset fl' = f_offset fl ->
  i_flags ino = VFS_FILE -> may_write (f_flags fl) = true -> may_read (f_flags fl') = true -> content s i = Some c ->
  zlen buf < 2147483648 -> f_offset fl + zlen buf <= 2147483648 ->
  sys_write fd buf s = Some (r, s') -> 0 <= r ->
  exists s'', sys_read fd' (zlen buf) s' = Some ((zlen buf, buf), s'').
Proof.
  intros Hs Hat Hat' Hne Hoff Hf Hmw Hmr Hc Hl Hfit Hrun Hr.
  destruct (write_contract root s fd buf f fl i ino c Hs Hat Hf Hmw Hc Hl Hfit) as (r' & s1 & Hrun' & Hs1 & Ht & Hcu & Hcase).
  rewrite Hrun in Hrun'. injection Hrun' as <- <-.
  destruct Hcase as [(-> & _) | (_ & Hc' & _ & Hfs & ino' & Hino' & Hf')]; [unfold VFS_ERR in Hr; lia|].
  assert (Hat1 : fd_at s' fd' f' fl' i ino').
  { destruct Hat' as (a & k & ? & ? & ? & ? & ? & ? & ?). exists a, k. rewrite Ht, Hcu, Hfs, lookup_insert_ne by done. done. }
  assert (Hz : 0 <= zlen buf) by (unfold zlen; lia).
  destruct (read_contract root s' fd' (zlen buf) f' fl' i ino' _ Hs1 Hat1 Hf' Hmr Hc' (conj Hz Hl)) as (s'' & Hrd & _).
  rewrite Hoff in Hrd.
  assert (Hout : take (Z.to_nat (zlen buf)) (drop (Z.to_nat (f_offset fl)) (splice c (f_offset fl) buf)) = buf).
  { unfold splice, zlen. rewrite Nat2Z.id.
    assert (Hle : f_offset fl <= zlen c).
    { destruct (fd_kind root s fd f fl i ino Hs Hat) as (_ & [((_ & _ & q & ram & Hq & Hram & [Hrl _] & Hsz) & Hoff' & _) | [((E & _) & _) | (E & _)]]);
        [|by rewrite E in Hf|by rewrite E in Hf].
      destruct Hat as (_ & _ & _ & _ & _ & _ & _ & _ & Hino). unfold content in Hc. rewrite Hino in Hc. cbn [mbind option_bind] in Hc.
      rewrite Hq in Hc. cbn [mbind option_bind] in Hc. rewrite Hram in Hc. cbn [mbind option_bind] in Hc. injection Hc as <-.
      unfold zlen, ram_content in *. rewrite length_take. lia. }
    unfold zlen in Hle. rewrite drop_app_length' by (rewrite length_take; lia). by rewrite take_app_length. }
  rewrite Hout in Hrd. eauto.
Qed.

(** Two descriptors on one new file. *)
Definition opened_once : vfs := after (sys_open PATH_A (READ_WRITE + CREAT)) example_boot.
Definition opened_twice : vfs := after (sys_open PATH_A (READ_WRITE + CREAT)) opened_once.
Definition example_inode : inode := Inode 0 VFS_FILE 2 (Some ramfs_ops) (Some 12%nat) 0 1.
Definition example_file : file := File (Some 11%nat) (Some 10%nat) 0 7 1.

Lemma open_after root s path flags : fs_inv root s -> path_ok s path -> fs_inv root (after (sys_open path flags) s).
Proof.
  intros Hs Hp. destruct (@sys_open_spec full_machine (fun _ => eq_refl) root s path flags Hs Hp) as (r & s' & Hrun & Hs' & _).
  unfold after. by rewrite Hrun.
Qed.

Lemma opened_twice_inv : fs_inv 0 opened_twice.
Proof.
  unfold opened_twice, opened_once. apply open_after; [apply open_after; [apply boot_inv|concrete_path]|concrete_path].
Qed.

Lemma example_fd fd f : (fd = 3 /\ f = 15%nat) \/ (fd = 4 /\ f = 16%nat) -> fd_at opened_twice fd f example_file 11 example_inode.
Proof.
  intros [[-> ->] | [-> ->]]; eexists; [exists 3%nat|exists 4%nat];
    repeat (split; [vm_compute; (reflexivity || lia)|]); vm_compute; reflexivity.
Qed.

Lemma sys_write_refines_witness : exists s', sys_write 3 [1; 2; 3] opened_twice = Some (3, s') /\ fs_inv 0 s' /\ content s' 11 = Some [1; 2; 3] /\
  v_files s' = <[15%nat := file_set_offset example_file 3]> (v_files opened_twice).
Proof.
  destruct (sys_write_refines 0 opened_twice 3 [1; 2; 3] 15 example_file 11 example_inode []) as (s' & Hs & Hw);
    [apply opened_twice_inv|apply example_fd; auto|reflexivity|reflexivity|vm_compute; reflexivity|vm_compute; reflexivity|vm_compute; discriminate|].
  replace (served _ _ _) with true in Hw by (vm_compute; reflexivity). destruct Hw as (Hr & Hc & _ & Hf). exists s'. auto.
Defined.

Lemma vfs_write_read_witness : exists s'',
  sys_read 4 3 (after (sys_write 3 [1; 2; 3]) opened_twice) = Some ((3, [1; 2; 3]), s'').
Proof.
  apply (vfs_write_read 0 opened_twice 3 4 [1; 2; 3] 15 example_file 16 example_file 11 example_inode [] 3);
    [apply opened_twice_inv|apply example_fd; auto|apply example_fd; auto|done|done|done|done|done|by vm_compute|done|done|
     by vm_compute|done].
Defined.

(** Listing a directory through a fresh descriptor, the loop of the shell's
    [ls], reports every entry of that directory exactly once, with its name and
    type, and ends. *)
Lemma vfs_ls_complete root s fd f fl i ino x room : fs_inv root s -> fd_at s fd f fl i ino -> is_dir ino = true ->
  f_dentry fl = Some x -> f_offset fl = 0 -> (PATH_BUF <= room)%nat -> Z.of_nat (size (v_dentries s)) < 4294967296 ->
  exists L s', lists (v_dentries s) root x L /\ length (omap (report s) L) = length L /\
    ls_loop (S (size (v_dentries s))) fd room s = Some (omap (report s) L, s').
Proof.
  intros Hs Hat Hdir Hx Hoff Hroom Hsz. destruct (dir_fd root s fd f fl i ino Hs Hat Hdir) as (x' & d & L & Hx' & Hd & _ & Hc).
  assert (x' = x) as -> by congruence. pose proof Hc as (ls & E & _ & _ & Hl & Hcnt).
  destruct (ls_loop_spec root i ino x d room fd f Hroom Hdir L [] (S (size (v_dentries s))) s fl Hs Hat Hx Hd Hc Hoff Hsz)
    as (s' & Hrun & _ & _ & Hlen); [rewrite E; lia|].
  exists L, s'. split; [by rewrite E|]. done.
Qed.

Definition root_opened : vfs := after (sys_open [47] READ_ONLY) opened_twice.

Lemma vfs_ls_complete_witness : exists L s', lists (v_dentries root_opened) 0 0 L /\
  length (omap (report root_opened) L) = length L /\
  ls_loop (S (size (v_dentries root_opened))) 5 256 root_opened = Some (omap (report root_opened) L, s').
Proof.
  apply (vfs_ls_complete 0 root_opened 5 17 (File (Some 1%nat) (Some 0%nat) 0 READ_ONLY 1) 1
    (Inode 0 VFS_DIR 1 (Some ramfs_ops) None 0 0) 0 256); [|eexists; exists 5%nat|done|done|done|done|by vm_compute].
  - apply open_after; [apply opened_twice_inv|concrete_path].
  - repeat (split; [vm_compute; (reflexivity || lia)|]); vm_compute; reflexivity.
Defined.

(** Making a directory.  The call either reports an error and leaves the
    tree alone, or the path, which led nowhere, now leads to a new empty
    directory; in both cases every path that led somewhere leads there still. *)
Lemma sys_mkdir_adds `{Machine} root s path : (forall n, grants AString n = true) -> fs_inv root s -> path_ok s path ->
  exists r s', sys_mkdir path s = Some (r, s') /\ fs_inv root s' /\
    (forall p y, meaning s root p = Some y -> meaning s' root p = Some y) /\
    ((r = VFS_ERR /\ v_dentries s' = v_dentries s) \/
     (r = VFS_OK /\ meaning s root path = None /\ exists x, meaning s' root path = Some x /\ dir_entry s' x = true /\
        v_dentries s !! x = None /\ lists (v_dentries s') root x [])).
Proof.
  intros Hstr Hs Hp. destruct (sys_mkdir_spec Hstr root s path Hs Hp) as (r & s' & Hrun & Hs' & Hio & Hg & Hcase).
  exists r, s'. split; [done|]. split; [done|]. split; [intros p y; by apply grows_meaning|].
  destruct Hcase as [? | (-> & Hno & par & x & Hpar & Hde & Hnew)]; [by left|right]. split; [done|]. split; [done|].
  exists x. split; [eapply (new_entry_meaning root s s'); eauto; apply Hp|].
  destruct Hnew as (Hfresh & Hold & d & i & ino & Hx & Hdp & Hn & Hi & Hino & Hfl & _). split; [|split; [done|]].
  - apply (inv_dir_entry root s' Hs'). exists i, ino. split; [apply inode_of_Some; eauto|done].
  - split; [constructor|]. intros y. split; [by intros ?%elem_of_nil|]. intros (Hyr & e & He & Hpe). exfalso.
    destruct (Hold y ltac:(eauto)) as [-> | [e0 He0]].
    + assert (par = x) as -> by congruence. destruct (inv_parent root s Hs path x Hp Hpar). congruence.
    + destruct (proj1 Hg _ _ He0) as (e1 & He1 & _ & _ & Hp1 & _). assert (e1 = e) as -> by congruence.
      destruct (tk_dentry _ _ _ (fi_tree _ _ Hs) _ _ He0) as (_ & _ & _ & (q & Hq & [? ?]) & _). congruence.
Qed.

Lemma sys_mkdir_adds_witness : exists r s', sys_mkdir PATH_A example_boot = Some (r, s') /\ fs_inv 0 s' /\
  (forall p y, meaning example_boot 0 p = Some y -> meaning s' 0 p = Some y) /\
  ((r = VFS_ERR /\ v_dentries s' = v_dentries example_boot) \/
   (r = VFS_OK /\ meaning example_boot 0 PATH_A = None /\ exists x, meaning s' 0 PATH_A = Some x /\ dir_entry s' x = true /\
      v_dentries example_boot !! x = None /\ lists (v_dentries s') 0 x [])).
Proof. apply sys_mkdir_adds; [done|apply boot_inv|concrete_path]. Defined.

(** Removing an entry nobody uses.  The call either reports an error and
    changes nothing, or the path leads nowhere afterwards, every other entry is
    still there, and every path that still leads somewhere led there before. *)
Lemma sys_unlink_removes root s path : fs_inv root s -> path_ok s path -> unlinkable root s path ->
  exists r s', sys_unlink path s = Some (r, s') /\ fs_inv root s' /\
    (forall p y, meaning s' root p = Some y -> meaning s root p = Some y) /\
    ((r = VFS_ERR /\ s' = s) \/
     (r = VFS_OK /\ meaning s' root path = None /\ exists x, meaning s root path = Some x /\ v_dentries s' !! x = None /\
        forall y, y <> x -> is_Some (v_dentries s !! y) -> is_Some (v_dentries s' !! y))).
Proof.
  intros Hs Hp Hun. destruct (sys_unlink_spec root s path Hs Hp Hun) as (r & s' & Hrun & Hs' & Hcase).
  exists r, s'. split; [done|]. split; [done|].
  destruct Hcase as [[-> ->] | (-> & x & Hm & Hio & Hx & Hg & Hrest)]; [split; [done|by left]|].
  assert (Hback : forall p y, meaning s' root p = Some y -> meaning s root p = Some y).
  { intros p y. apply grows_meaning; try done. unfold io_same in *. naive_solver. }
  split; [done|]. right. split; [done|]. split; [|by exists x].
  destruct (meaning s' root path) as [y|] eqn:Hy; [|done]. pose proof (Hback _ _ Hy) as Hy0.
  assert (y = x) as -> by congruence. destruct (inv_meaning root s' Hs' path x Hy). congruence.
Qed.

Lemma sys_unlink_removes_witness : let s := after (sys_mkdir PATH_A) example_boot in
  exists r s', sys_unlink PATH_A s = Some (r, s') /\ meaning s' 0 PATH_A = None.
Proof.
  cbv zeta. edestruct (sys_unlink_removes 0 (after (sys_mkdir PATH_A) example_boot) PATH_A) as (r & s' & Hrun & _ & _ & Hcase).
  - destruct (@sys_mkdir_spec full_machine (fun _ => eq_refl) 0 example_boot PATH_A (boot_inv None 0)) as (r & s' & Hrun & Hs' & _); [concrete_path|].
    unfold after. by rewrite Hrun.
  - concrete_path.
  - intros x Hx _. assert (x = 10%nat) as -> by (vm_compute in Hx; congruence).
    split; [by vm_compute|]. split; [|split].
    + change (map_Forall (fun _ e => d_parent e <> Some 10%nat) (v_dentries (after (sys_mkdir PATH_A) example_boot))).
      apply (bool_decide_unpack _). by vm_compute.
    + change (map_Forall (fun _ a => io_cwd a <> Some 10%nat) (v_tasks (after (sys_mkdir PATH_A) example_boot))).
      apply (bool_decide_unpack _). by vm_compute.
    + intros i ino Hi Hino. assert (i = 11%nat) as -> by (vm_compute in Hi; congruence). vm_compute in Hino. by injection Hino as <-.
  - exists r, s'. split; [done|]. destruct Hcase as [[-> ->] | (_ & ? & _)]; [|done]. by vm_compute in Hrun.
Defined.

(** ** Where the code goes wrong *)

(** A task opens a file and makes a second task; then each closes its copy of
    the descriptor, the maker first. *)
Definition both_close (make : nat -> Z -> M unit) : M Z :=
  fd ← sys_open PATH_A (READ_WRITE + CREAT);
  make 100%nat 1 ≫= fun _ =>
  sys_close fd ≫= fun _ =>
  modify (set_current 100) ≫= fun _ =>
  sys_close fd.

(** [do_fork] copies the descriptors without counting them in the open
    files, so the parent's close frees a file the child still points to and the
    child's close works on freed memory; a task made by [create_process] or
    [exec], which do count, closes its descriptor without a fault. *)
Lemma fork_frees_shared_file : both_close fork_io example_boot = None /\
  (exists s, both_close create_io example_boot = Some (VFS_OK, s)) /\
  (exists s, both_close exec_io example_boot = Some (VFS_OK, s)).
Proof. split; [by vm_compute|]. split; eexists; vm_compute; reflexivity. Qed.

(** [sys_unlink] of a file that is open takes the descriptor's count for
    its own, frees the entry and the inode, and leaves the descriptor dangling:
    the next read through it works on freed memory.  Without the unlink the
    same read returns. *)
Lemma unlink_frees_open_file :
  (fd ← sys_open PATH_A (READ_WRITE + CREAT); r ← sys_unlink PATH_A; sys_read fd 1) example_boot = None /\
  (exists s, (fd ← sys_open PATH_A (READ_WRITE + CREAT); sys_unlink PATH_A) example_boot = Some (VFS_OK, s)) /\
  (exists s, (fd ← sys_open PATH_A (READ_WRITE + CREAT); sys_read fd 1) example_boot = Some ((0, []), s)).
Proof. split; [by vm_compute|]. split; eexists; vm_compute; reflexivity. Qed.

(** The terminal is registered before [/dev] exists, so it has no entry. *)
Lemma tty_has_no_entry dent ticks : meaning (boot_state dent ticks) 0 (SLASH :: DEV ++ SLASH :: TTY) = None.
Proof. by vm_compute. Qed.
