(* ===== verification/Task.v ===== *)
(** * Tasks and the scheduler

    [kernel/Process/task.c], the task side of [kernel/Process/fork.c], and
    [kernel/Process/Quarantine/Quarantine.c]: the ring of ready tasks, the list
    of all tasks, creation, exit and reaping.

    A task is an entry of [k_tasks] until it is freed; its descriptors, working
    directory and event log are those of [Vfs].  Page directories, stacks and
    register frames are not modelled: [cr3] is a number the caller brings, and
    a context switch is the change of [current_task].  [critical_enter] and
    [critical_leave] bracket code that runs undisturbed here. *)

From stdpp Require Import gmap.
From S2P Require Import Prelude StateMonad SlotTable Vfs.

#[local] Open Scope Z_scope.

Inductive task_state :=
  | TASK_READY | TASK_RUNNING | TASK_BLOCKED | TASK_ZOMBIE | TASK_SUSPENDED | TASK_QUARANTINED.
#[global] Instance task_state_eq_dec : EqDecision task_state.
Proof. solve_decision. Defined.

Record task := Task {
  t_pid : Z;
  t_state : task_state;
  t_next : option nat;
  t_all_next : option nat;
  t_parent : option nat;
  t_exit_code : Z;
  t_destroy_time : Z;
  t_cr3 : Z;
  t_is_user : bool;
  t_name : list Z }.

Record kern := Kern {
  k_fs : vfs;
  k_tasks : gmap nat task;
  k_current : option nat;
  k_ready : option nat;
  k_all : option nat;
  k_next_pid : Z }.

(** ** The monad *)

Notation K := (ST kern).

Definition set_fs (v : vfs) (s : kern) : kern :=
  Kern v (k_tasks s) (k_current s) (k_ready s) (k_all s) (k_next_pid s).
Definition set_ktasks (f : gmap nat task -> gmap nat task) (s : kern) : kern :=
  Kern (k_fs s) (f (k_tasks s)) (k_current s) (k_ready s) (k_all s) (k_next_pid s).
Definition set_ready (p : option nat) (s : kern) : kern :=
  Kern (k_fs s) (k_tasks s) (k_current s) p (k_all s) (k_next_pid s).
Definition set_all (p : option nat) (s : kern) : kern :=
  Kern (k_fs s) (k_tasks s) (k_current s) (k_ready s) p (k_next_pid s).
Definition set_next_pid (n : Z) (s : kern) : kern :=
  Kern (k_fs s) (k_tasks s) (k_current s) (k_ready s) (k_all s) n.

(** A call into the file system. *)
Definition fs {A} (m : M A) : K A := fun s =>
  match m (k_fs s) with Some (a, v) => Some (a, set_fs v s) | None => None end.

Definition get_task (p : option nat) : K task := reads (fun s => p ≫= fun t => k_tasks s !! t).
Definition put_task (t : nat) (a : task) : K unit := modify (set_ktasks (insert t a)).
Definition put_current_task (p : option nat) : K unit := fun s =>
  Some (tt, Kern (match p with Some t => set_current t (k_fs s) | None => k_fs s end)
    (k_tasks s) p (k_ready s) (k_all s) (k_next_pid s)).

Definition task_set_state (a : task) (x : task_state) : task :=
  Task (t_pid a) x (t_next a) (t_all_next a) (t_parent a) (t_exit_code a) (t_destroy_time a) (t_cr3 a) (t_is_user a) (t_name a).
Definition task_set_next (a : task) (p : option nat) : task :=
  Task (t_pid a) (t_state a) p (t_all_next a) (t_parent a) (t_exit_code a) (t_destroy_time a) (t_cr3 a) (t_is_user a) (t_name a).
Definition task_set_all_next (a : task) (p : option nat) : task :=
  Task (t_pid a) (t_state a) (t_next a) p (t_parent a) (t_exit_code a) (t_destroy_time a) (t_cr3 a) (t_is_user a) (t_name a).
Definition task_set_exit (a : task) (code time : Z) (x : task_state) : task :=
  Task (t_pid a) x (t_next a) (t_all_next a) (t_parent a) code time (t_cr3 a) (t_is_user a) (t_name a).
Definition task_set_name (a : task) (n : list Z) : task :=
  Task (t_pid a) (t_state a) (t_next a) (t_all_next a) (t_parent a) (t_exit_code a) (t_destroy_time a) (t_cr3 a) (t_is_user a) n.

(** [task_log_event(task, type, data)]. *)
Definition log_event (t : nat) (type : task_event_type) (data : Z) : K unit := fs (fun v =>
  match v_tasks v !! t with
  | Some a => Some (tt, set_tasks (insert t (task_log_event (v_ticks v) a type data)) v)
  | None => None
  end).

(** ** The ready ring *)

(** [while (temp->next != stop) temp = temp->next]: the task before [stop].
    The loop ends only at [stop]; a ring of [fuel] tasks has been walked through
    after [fuel] steps. *)
Fixpoint before (fuel : nat) (ts : gmap nat task) (stop : nat) (temp : option nat) : option nat :=
  match fuel with
  | O => None
  | S fuel' =>
      x ← temp;
      a ← ts !! x;
      if bool_decide (t_next a = Some stop) then Some x else before fuel' ts stop (t_next a)
  end.

Definition task_add_ready (t : nat) : K unit :=
  a ← get_task (Some t);
  put_task t (task_set_state a TASK_READY) ≫= fun _ =>
  q ← gets k_ready;
  match q with
  | None =>
      modify (set_ready (Some t)) ≫= fun _ =>
      a ← get_task (Some t); put_task t (task_set_next a (Some t))
  | Some head =>
      temp ← reads (fun s => before (S (size (k_tasks s))) (k_tasks s) head q);
      tail ← get_task (Some temp);
      put_task temp (task_set_next tail (Some t)) ≫= fun _ =>
      a ← get_task (Some t);
      put_task t (task_set_next a q)
  end.

(** The do-while loop of [task_remove_ready]: the task the loop stops at. *)
Fixpoint remove_walk (fuel : nat) (ts : gmap nat task) (t : nat) (head temp : option nat) : option nat :=
  match fuel with
  | O => None
  | S fuel' =>
      x ← temp;
      a ← ts !! x;
      if bool_decide (t_next a = Some t) then Some x
      else
        b ← t_next a ≫= fun y => ts !! y;
        if bool_decide (t_next b = head) then t_next a else remove_walk fuel' ts t head (t_next a)
  end.

(** Its critical section. *)
Definition take_out (t : nat) (q : option nat) : K unit :=
  h ← get_task q;
  if bool_decide (q = Some t) && bool_decide (t_next h = q) then modify (set_ready None)
  else
    temp ← reads (fun s => remove_walk (S (size (k_tasks s))) (k_tasks s) t q q);
    b ← get_task (Some temp);
    if bool_decide (t_next b = Some t) then
      a ← get_task (Some t);
      put_task temp (task_set_next b (t_next a)) ≫= fun _ =>
      if bool_decide (q = Some t) then modify (set_ready (t_next a)) else mret tt
    else mret tt.

Definition task_remove_ready (t : nat) : K unit :=
  q ← gets k_ready;
  match q with
  | None => mret tt
  | Some _ =>
      log_event t EVT_BLOCKED 0 ≫= fun _ =>
      a ← get_task (Some t);
      put_task t (task_set_state a TASK_BLOCKED) ≫= fun _ =>
      take_out t q
  end.

(** The loop of [pick_next_task]; [guard] counts down from [0xFFFF].  The first
    task that is ready and not the current one, and whether the current one was
    met ready. *)
Fixpoint pick_walk (guard : nat) (ts : gmap nat task) (cur start : option nat) (temp : nat) (fallback : option nat) :
    option (option nat * option nat) :=
  match guard with
  | O => Some (None, fallback)
  | S guard' =>
      a ← ts !! temp;
      if bool_decide (t_state a = TASK_READY) && bool_decide (cur <> Some temp) then Some (Some temp, fallback)
      else
        let fallback := match fallback with
                        | None => if bool_decide (t_state a = TASK_READY) then Some temp else None
                        | Some _ => fallback
                        end in
        match t_next a with
        | None => Some (None, fallback)
        | Some n => if bool_decide (Some n = start) then Some (None, fallback)
                    else pick_walk guard' ts cur start n fallback
        end
  end.

Definition PICK_GUARD : nat := Z.to_nat 0xFFFF.

Definition pick_next_task : K (option nat) :=
  q ← gets k_ready;
  match q with
  | None => mret None
  | Some head =>
      cur ← gets k_current;
      start ← (match cur with
               | None => mret head
               | Some _ => c ← get_task cur; mret (match t_next c with Some n => n | None => head end)
               end);
      '(found, fallback) ← reads (fun s => pick_walk PICK_GUARD (k_tasks s) cur (Some start) start None);
      match found with
      | Some t => mret (Some t)
      | None =>
          match cur with
          | None => mret fallback
          | Some c => a ← get_task cur; mret (if bool_decide (t_state a = TASK_READY) then cur else fallback)
          end
      end
  end.

Definition schedule : K unit :=
  prev ← gets k_current;
  next ← pick_next_task;
  match next, prev with
  | Some n, Some p =>
      if bool_decide (n = p) then mret tt
      else
        a ← get_task prev;
        (if bool_decide (t_state a = TASK_RUNNING) then put_task p (task_set_state a TASK_READY) else mret tt) ≫= fun _ =>
        b ← get_task next;
        put_task n (task_set_state b TASK_RUNNING) ≫= fun _ =>
        put_current_task next
  | _, _ => mret tt
  end.

Definition switch_to_task_state (target : nat) (leave_prev_as : task_state) : K unit :=
  prev ← gets k_current;
  match prev with
  | None => mret tt
  | Some p =>
      if bool_decide (p = target) then mret tt
      else
        a ← get_task prev;
        put_task p (task_set_state a leave_prev_as) ≫= fun _ =>
        b ← get_task (Some target);
        put_task target (task_set_state b TASK_RUNNING) ≫= fun _ =>
        put_current_task (Some target)
  end.

Definition task_wake (t : nat) : K unit :=
  log_event t EVT_WOKE 0 ≫= fun _ =>
  a ← get_task (Some t);
  put_task t (task_set_state a TASK_READY).

(** ** Creation *)

Definition task_register_all (t : nat) : K unit :=
  a ← get_task (Some t);
  all ← gets k_all;
  put_task t (task_set_all_next a all) ≫= fun _ =>
  modify (set_all (Some t)).

Section machine.
Context `{Machine}.

(** [next_pid++]. *)
Definition take_pid : K Z :=
  n ← gets k_next_pid; modify (set_next_pid (n + 1)) ≫= fun _ => mret n.

(** [kernel_cr3] is what [read_cr3] returns; [page_dir] is 0 for a kernel task. *)
Definition create_process (page_dir kernel_cr3 : Z) : K (option nat) :=
  mem ← fs (kmalloc AStruct);
  match mem with
  | None => mret None
  | Some t =>
      pid ← take_pid;
      stack ← fs (kmalloc AData);
      match stack with
      | None => mret None
      | Some _ =>
          cur ← gets k_current;
          put_task t (Task pid TASK_READY None None cur 0 0
            (if page_dir =? 0 then kernel_cr3 else page_dir) (negb (page_dir =? 0)) []) ≫= fun _ =>
          fs (create_io t pid) ≫= fun _ =>
          task_register_all t ≫= fun _ =>
          mret (Some t)
      end
  end.

Definition SHELL : list Z := [115; 104; 101; 108; 108].

(** The first task, running, alone on the ring. *)
Definition init_tasking (kernel_cr3 : Z) : K unit :=
  mem ← fs (kmalloc AStruct);
  match mem with
  | None => put_current_task None
  | Some t =>
      pid ← take_pid;
      put_current_task mem ≫= fun _ =>
      fs (init_streams t pid) ≫= fun _ =>
      stack ← fs (kmalloc AData);
      match stack with
      | None => fs (modify (set_tasks (delete t))) ≫= fun _ => put_current_task None
      | Some _ =>
          put_task t (Task pid TASK_RUNNING (Some t) None None 0 0 kernel_cr3 false SHELL) ≫= fun _ =>
          modify (set_ready (Some t)) ≫= fun _ =>
          task_register_all t ≫= fun _ =>
          log_event t EVT_CREATED 0
      end
  end.

Definition KERNEL : list Z := [107; 101; 114; 110; 101; 108].

Definition task_create_kernel (kernel_cr3 : Z) : K (option nat) :=
  p ← create_process 0 kernel_cr3;
  match p with
  | None => mret None
  | Some t =>
      a ← get_task p;
      put_task t (task_set_name a KERNEL) ≫= fun _ =>
      task_add_ready t ≫= fun _ =>
      mret p
  end.

(** [cloned] is what [clone_page_directory] returns; [VFS_ENOMEM] is -5. *)
Definition VFS_ENOMEM : Z := -5.

Definition do_fork (cloned : Z) : K Z :=
  cur ← gets k_current;
  match cur with
  | None => mret (- VFS_ENOMEM)
  | Some p =>
      mem ← fs (kmalloc AStruct);
      match mem with
      | None => mret VFS_ERR
      | Some t =>
          if cloned =? 0 then mret VFS_ERR
          else
            stack ← fs (kmalloc AData);
            match stack with
            | None => mret (- VFS_ENOMEM)
            | Some _ =>
                pid ← take_pid;
                parent ← get_task cur;
                put_task t (Task pid TASK_READY None None cur 0 0 cloned true (t_name parent)) ≫= fun _ =>
                fs (fork_io t pid) ≫= fun _ =>
                log_event p EVT_FORKED pid ≫= fun _ =>
                log_event t EVT_CREATED (t_pid parent) ≫= fun _ =>
                task_register_all t ≫= fun _ =>
                task_add_ready t ≫= fun _ =>
                mret pid
            end
      end
  end.
End machine.

(** ** Exit and reaping *)

Inductive exit_outcome := Halted | Switched.

(** The dead task leaves the ring. *)
Definition exit_unlink (dead : nat) (succ : option nat) : K unit :=
  q ← gets k_ready;
  temp ← reads (fun s => before (S (size (k_tasks s))) (k_tasks s) dead q);
  b ← get_task (Some temp);
  put_task temp (task_set_next b succ) ≫= fun _ =>
  if bool_decide (q = Some dead) then modify (set_ready succ) else mret tt.

(** A parent that waits is woken. *)
Definition wake_parent (p : option nat) : K unit :=
  match p with
  | Some x =>
      pa ← get_task p;
      if bool_decide (t_state pa = TASK_BLOCKED) then put_task x (task_set_state pa TASK_READY) else mret tt
  | None => mret tt
  end.

(** The machine goes on with another task, or stops. *)
Definition exit_switch (dead : nat) : K exit_outcome :=
  next ← pick_next_task;
  match next with
  | None => mret Halted
  | Some n =>
      if bool_decide (n = dead) then mret Halted
      else
        c ← get_task next;
        put_task n (task_set_state c TASK_RUNNING) ≫= fun _ =>
        put_current_task next ≫= fun _ =>
        mret Switched
  end.

Definition sys_exit (status : Z) : K exit_outcome :=
  cur ← gets k_current;
  match cur with
  | None => mret Switched
  | Some dead =>
      log_event dead EVT_EXITED (u32 status) ≫= fun _ =>
      a ← get_task cur;
      now ← gets (fun s => v_ticks (k_fs s));
      put_task dead (task_set_exit a status now TASK_ZOMBIE) ≫= fun _ =>
      (match t_parent a with
       | Some p => log_event p EVT_CHILD_DIED (t_pid a)
       | None => mret tt
       end) ≫= fun _ =>
      fs close_all ≫= fun _ =>
      if bool_decide (t_next a = cur) then mret Halted
      else
        exit_unlink dead (t_next a) ≫= fun _ =>
        wake_parent (t_parent a) ≫= fun _ =>
        exit_switch dead
  end.

(** One turn of the scan in [sys_waitpid]: the first finished child on the list
    of all tasks, and whether there is any child at all. *)
Fixpoint wait_scan (fuel : nat) (ts : gmap nat task) (parent : nat) (target : Z) (curr : option nat) (has : bool) :
    option (option nat * bool) :=
  match curr with
  | None => Some (None, has)
  | Some x =>
      match fuel with
      | O => None
      | S fuel' =>
          a ← ts !! x;
          if bool_decide (t_parent a = Some parent) && ((target =? -1) || (t_pid a =? u32 target)) then
            if bool_decide (t_state a = TASK_ZOMBIE) then Some (Some x, true)
            else wait_scan fuel' ts parent target (t_all_next a) true
          else wait_scan fuel' ts parent target (t_all_next a) has
      end
  end.

(** [while (linker->all_next != curr) linker = linker->all_next]. *)
Fixpoint all_before (fuel : nat) (ts : gmap nat task) (stop : nat) (linker : option nat) : option nat :=
  match fuel with
  | O => None
  | S fuel' =>
      x ← linker;
      a ← ts !! x;
      if bool_decide (t_all_next a = Some stop) then Some x else all_before fuel' ts stop (t_all_next a)
  end.

(** The child leaves the list of all tasks, and its memory is freed. *)
Definition reap (x : nat) : K (Z * Z) :=
  a ← get_task (Some x);
  all ← gets k_all;
  (if bool_decide (all = Some x) then modify (set_all (t_all_next a))
   else
     l ← reads (fun s => all_before (S (size (k_tasks s))) (k_tasks s) x all);
     b ← get_task (Some l);
     put_task l (task_set_all_next b (t_all_next a))) ≫= fun _ =>
  modify (set_ktasks (delete x)) ≫= fun _ =>
  fs (modify (set_tasks (delete x))) ≫= fun _ =>
  mret (t_pid a, t_exit_code a).

Inductive wait_outcome := Reaped (pid status : Z) | NoChildren | Waiting.

(** One turn of the [while (1)] of [sys_waitpid]: up to its return, or up to the
    [schedule] from which it comes back, when its task runs again, to scan again.  The
    call itself is the turns its task takes; it need not end. *)
Definition waitpid_turn (target : Z) : K wait_outcome :=
  cur ← gets k_current;
  match cur with
  | None => mret NoChildren
  | Some parent =>
      '(found, has) ← reads (fun s => wait_scan (size (k_tasks s)) (k_tasks s) parent target (k_all s) false);
      match found with
      | Some x => '(pid, status) ← reap x; mret (Reaped pid status)
      | None =>
          if negb has then mret NoChildren
          else
            a ← get_task cur;
            put_task parent (task_set_state a TASK_BLOCKED) ≫= fun _ =>
            schedule ≫= fun _ =>
            mret Waiting
      end
  end.

(** ** Quarantine *)

Definition QUARANTINE_FD_THRESHOLD_OPENS : nat := 9.
Definition QUARANTINE_FD_THRESHOLD_CLOSES : nat := 1.
Definition QUARANTINE_WINDOW_TICKS : Z := 200.

Definition is_open (e : task_event) : bool := match e_type e with EVT_FD_OPEN => true | _ => false end.
Definition is_close (e : task_event) : bool := match e_type e with EVT_FD_CLOSE => true | _ => false end.
Definition in_window (now : Z) (e : task_event) : bool := (now -32 e_tick e) <=? QUARANTINE_WINDOW_TICKS.

Definition suspicious (now : Z) (events : list task_event) : bool :=
  let recent := List.filter (in_window now) events in
  (QUARANTINE_FD_THRESHOLD_OPENS <=? count_if is_open recent)%nat &&
  (count_if is_close recent <=? QUARANTINE_FD_THRESHOLD_CLOSES)%nat.

Definition try_quarantine (t : nat) (now : Z) : K unit :=
  a ← get_task (Some t);
  match t_state a with
  | TASK_QUARANTINED | TASK_ZOMBIE => mret tt
  | _ =>
      i ← fs (reads (fun v => v_tasks v !! t));
      if suspicious now (io_events i) then
        put_task t (task_set_state a TASK_QUARANTINED) ≫= fun _ =>
        log_event t EVT_QUARANTINED (Z.of_nat (count_if is_open (List.filter (in_window now) (io_events i))))
      else mret tt
  end.

Fixpoint quarantine_walk (fuel : nat) (t : nat) (now : Z) (stop : option nat) : K unit :=
  match fuel with
  | O => fault
  | S fuel' =>
      try_quarantine t now ≫= fun _ =>
      a ← get_task (Some t);
      if bool_decide (t_next a = stop) then mret tt
      else match t_next a with
           | None => fault
           | Some n => quarantine_walk fuel' n now stop
           end
  end.

Definition quarantine_check_and_act : K unit :=
  q ← gets k_ready;
  match q with
  | None => mret tt
  | Some head =>
      now ← gets (fun s => v_ticks (k_fs s));
      n ← gets (fun s => S (size (k_tasks s)));
      quarantine_walk n head now q
  end.

(** [strcmp(a, b) == 0]: names are kept without their final zero. *)
Definition same_name (a b : list Z) : bool := bool_decide (a = b).

(** The first quarantined task of that name on the ring is ready again; the
    result is its pid. *)
Fixpoint release_walk (fuel : nat) (t : nat) (name : list Z) (stop : option nat) : K (option Z) :=
  match fuel with
  | O => fault
  | S fuel' =>
      a ← get_task (Some t);
      if same_name (t_name a) name && bool_decide (t_state a = TASK_QUARANTINED) then
        put_task t (task_set_state a TASK_READY) ≫= fun _ => mret (Some (t_pid a))
      else if bool_decide (t_next a = stop) then mret None
      else match t_next a with
           | None => fault
           | Some n => release_walk fuel' n name stop
           end
  end.

Definition quarantine_release (name : list Z) : K (option Z) :=
  q ← gets k_ready;
  match q with
  | None => mret None
  | Some head =>
      n ← gets (fun s => S (size (k_tasks s)));
      release_walk n head name q
  end.
