(* ===== verification/TaskRing.v ===== *)
(** * The ready ring is a ring, and it is fair

    [task_add_ready], [task_remove_ready], [pick_next_task] and [schedule] of
    [kernel/Process/task.c] as operations on the list of tasks round the ring. *)

From stdpp Require Import gmap.
From S2P Require Import Prelude StateMonad SlotTable Vfs Task.

#[local] Open Scope Z_scope.

(** ** Paths along [next] *)

(** From [p] along [next], through the tasks [l], to [e]. *)
Fixpoint path (ts : gmap nat task) (p : option nat) (l : list nat) (e : option nat) : Prop :=
  match l with
  | [] => p = e
  | x :: l' => p = Some x /\ exists a, ts !! x = Some a /\ path ts (t_next a) l' e
  end.

(** [l] is the ring, from [ready_queue] on. *)
Definition ring (ts : gmap nat task) (q : option nat) (l : list nat) : Prop :=
  NoDup l /\ match l with [] => q = None | x :: _ => q = Some x /\ path ts q l q end.

Lemma path_app ts p l1 l2 e : path ts p (l1 ++ l2) e <-> exists m, path ts p l1 m /\ path ts m l2 e.
Proof.
  revert p. induction l1 as [|x l1 IH]; intros p; simpl.
  - split; [eauto|]. by intros (m & -> & ?).
  - split.
    + intros (-> & a & Ha & Hp). apply IH in Hp as (m & ? & ?). exists m. split; [|done]. split; [done|]. eauto.
    + intros (m & (-> & a & Ha & Hp) & Hm). split; [done|]. exists a. split; [done|]. apply IH. eauto.
Qed.

Lemma path_mem ts p l e x : path ts p l e -> x ∈ l -> is_Some (ts !! x).
Proof.
  revert p. induction l as [|y l IH]; intros p Hp Hx; [by apply elem_of_nil in Hx|].
  destruct Hp as (_ & a & Ha & Hp). apply elem_of_cons in Hx as [-> | Hx]; [eauto|by eapply IH].
Qed.

(** A path does not depend on tasks off it, nor on the states of those on it. *)
Lemma path_frame ts ts' p l e : path ts p l e ->
  (forall x a, x ∈ l -> ts !! x = Some a -> exists a', ts' !! x = Some a' /\ t_next a' = t_next a) -> path ts' p l e.
Proof.
  revert p. induction l as [|y l IH]; intros p Hp Hf; [done|]. destruct Hp as (-> & a & Ha & Hp). split; [done|].
  destruct (Hf y a ltac:(apply elem_of_cons; auto) Ha) as (a' & Ha' & Hn). exists a'. split; [done|]. rewrite Hn.
  apply (IH _ Hp). intros x b Hx. apply Hf. apply elem_of_cons; auto.
Qed.

Lemma path_size ts p l e : path ts p l e -> NoDup l -> (length l <= size ts)%nat.
Proof.
  intros Hp Hnd. rewrite <- (size_dom ts), <- (size_list_to_set (C := gset nat) l) by done.
  apply subseteq_size. intros x Hx. apply elem_of_list_to_set in Hx. apply elem_of_dom. by eapply path_mem.
Qed.

(** The last task of a path, once its link is changed. *)
Lemma path_relink ts p l z e e' a : path ts p (l ++ [z]) e -> z ∉ l -> ts !! z = Some a ->
  path (<[z := task_set_next a e']> ts) p (l ++ [z]) e'.
Proof.
  intros Hp Hz Ha. apply path_app in Hp as (m & Hl & (-> & b & Hb & _)). apply path_app. exists (Some z). split.
  - apply (path_frame _ _ _ _ _ Hl). intros x c Hx Hc. exists c. rewrite lookup_insert_ne by (by intros <-). done.
  - split; [done|]. rewrite lookup_insert_eq. by eexists.
Qed.

(** The search for the task before [stop]. *)
Lemma before_spec ts stop : forall l fuel p z, path ts p (l ++ [z]) (Some stop) -> stop ∉ tail (l ++ [z]) ->
  (length l < fuel)%nat -> before fuel ts stop p = Some z.
Proof.
  induction l as [|x l IH]; intros fuel p z Hp Hs Hf; (destruct fuel as [|fuel]; [simpl in Hf; lia|]); cbn [app] in Hp.
  - destruct Hp as (-> & a & Ha & Hn). cbn [before mbind option_bind]. rewrite Ha. cbn [mbind option_bind].
    simpl in Hn. by rewrite Hn, bool_decide_eq_true_2.
  - destruct Hp as (-> & a & Ha & Hp). cbn [before mbind option_bind]. rewrite Ha. cbn [mbind option_bind].
    cbn [app tail] in Hs. rewrite bool_decide_eq_false_2.
    + apply (IH _ _ _ Hp); [|simpl in Hf; lia]. intros Hin. apply Hs. destruct l; simpl in *; [by apply elem_of_nil in Hin|].
      apply elem_of_cons; auto.
    + intros Hn. rewrite Hn in Hp. destruct l as [|y l]; cbn [app] in Hp, Hs; destruct Hp as ([= ->] & _); apply Hs; apply elem_of_cons; auto.
Qed.

(** ** The ring from any of its tasks *)

Lemma ring_rotate ts q l1 c l2 : ring ts q (l1 ++ c :: l2) -> path ts (Some c) (c :: l2 ++ l1) (Some c).
Proof.
  intros [Hnd Hr]. assert (Hq : path ts q (l1 ++ c :: l2) q) by (destruct l1; simpl in *; tauto).
  apply path_app in Hq as (m & H1 & H2). assert (m = Some c) as -> by by destruct H2.
  change (c :: l2 ++ l1) with ((c :: l2) ++ l1). apply path_app. exists q. done.
Qed.

Lemma ring_in ts q l c : ring ts q l -> c ∈ l -> exists l1 l2, l = l1 ++ c :: l2.
Proof. intros _ Hc. by apply list_elem_of_split in Hc. Qed.

(** ** Running the monad *)

Lemma krun_put {B} t a (k : unit -> K B) s : (put_task t a ≫= k) s = k tt (set_ktasks (insert t a) s).
Proof. done. Qed.
Lemma krun_task {B} p t a (k : task -> K B) s : p = Some t -> k_tasks s !! t = Some a -> (get_task p ≫= k) s = k a s.
Proof. intros -> Ht. by apply run_reads. Qed.

(** ** [pick_next_task] *)

Definition runnable (ts : gmap nat task) (cur : option nat) (t : nat) : bool :=
  match ts !! t with
  | Some a => bool_decide (t_state a = TASK_READY) && bool_decide (cur <> Some t)
  | None => false
  end.

Lemma pick_walk_spec ts cur start : forall o guard fb temp o', path ts (Some temp) o start -> o = temp :: o' ->
  NoDup o -> start ∉ (Some <$> o') -> (length o <= guard)%nat ->
  exists fb', pick_walk guard ts cur start temp fb = Some (List.find (runnable ts cur) o, fb') /\
    (List.find (runnable ts cur) o = None -> fb' = fb \/ exists x a, x ∈ o /\ fb' = Some x /\ ts !! x = Some a /\ t_state a = TASK_READY).
Proof.
  induction o as [|x o IH]; intros guard fb temp o' Hp Ho Hnd Hs Hg; [done|]. injection Ho as -> <-.
  destruct guard as [|guard]; [simpl in Hg; lia|]. destruct Hp as (_ & a & Ha & Hp).
  cbn [pick_walk List.find]. unfold runnable at 1 3. rewrite Ha. cbn [mbind option_bind].
  destruct (bool_decide (t_state a = TASK_READY) && bool_decide (cur <> Some temp)) eqn:Hr.
  { eexists. split; [reflexivity|]. done. }
  set (fb1 := match fb with None => _ | Some _ => _ end).
  assert (Hfb1 : fb1 = fb \/ exists x b, x ∈ temp :: o /\ fb1 = Some x /\ ts !! x = Some b /\ t_state b = TASK_READY).
  { unfold fb1. destruct fb as [f|]; [by left|]. case_bool_decide; [right|by left]. exists temp, a.
    split; [apply elem_of_cons; auto|]. done. }
  destruct o as [|y o2].
  - simpl in Hp. rewrite Hp. destruct start as [st|].
    + rewrite bool_decide_eq_true_2 by done. eexists. split; [reflexivity|]. done.
    + eexists. split; [reflexivity|]. done.
  - assert (Hn : t_next a = Some y) by by destruct Hp. rewrite Hn in Hp |- *.
    rewrite bool_decide_eq_false_2 by (intros <-; apply Hs; cbn; apply elem_of_cons; auto).
    destruct (IH guard fb1 y o2 Hp eq_refl) as (fb' & Hrun & Hfb').
    { by apply NoDup_cons_1_2 in Hnd. }
    { intros Hin. apply Hs. cbn. apply elem_of_cons; auto. }
    { simpl in *. lia. }
    exists fb'. split; [done|]. intros Hno. destruct (Hfb' Hno) as [-> | (z & b & Hz & ? & ? & ?)]; [done|].
    right. exists z, b. split; [apply elem_of_cons; auto|]. done.
Qed.

(** [o] is the order in which the scheduler looks at the tasks: from the one
    behind the current task [c] round to [c] itself. *)
Definition turns (ts : gmap nat task) (c : nat) (o : list nat) : Prop :=
  NoDup o /\ exists a o', ts !! c = Some a /\ o = o' ++ [c] /\ path ts (t_next a) o (t_next a).

(** Round robin: the first ready task in that order; else the current one if it
    is ready; else none. *)
Definition round_robin (ts : gmap nat task) (c : nat) (o : list nat) : option nat :=
  match List.find (runnable ts (Some c)) o with
  | Some t => Some t
  | None => if bool_decide (t_state <$> ts !! c = Some TASK_READY) then Some c else None
  end.

Lemma ring_turns ts q l1 c l2 : ring ts q (l1 ++ c :: l2) -> turns ts c (l2 ++ l1 ++ [c]).
Proof.
  intros Hr. pose proof (ring_rotate _ _ _ _ _ Hr) as (_ & a & Ha & Hp). destruct Hr as [Hnd _]. split.
  - apply (NoDup_Permutation_proper _ (l1 ++ c :: l2)); [|done].
    rewrite app_assoc, (Permutation_app_comm l2 l1), <- app_assoc. f_equiv. symmetry. apply Permutation_cons_append.
  - exists a, (l2 ++ l1). split; [done|]. split; [by rewrite app_assoc|]. rewrite app_assoc. apply path_app.
    exists (Some c). split; [done|]. split; [done|]. by exists a.
Qed.

Lemma turns_from ts c n p p2 : turns ts c (p ++ n :: p2) -> turns ts n (p2 ++ p ++ [n]).
Proof.
  intros (Hnd & a & o' & Ha & _ & Hp). apply path_app in Hp as (m & Hp & (-> & b & Hb & Hp2)). split.
  - apply (NoDup_Permutation_proper _ (p ++ n :: p2)); [|done].
    rewrite app_assoc, (Permutation_app_comm p2 p), <- app_assoc. f_equiv. symmetry. apply Permutation_cons_append.
  - exists b, (p2 ++ p). split; [done|]. split; [by rewrite app_assoc|]. apply path_app. exists (t_next a). split; [done|].
    apply path_app. exists (Some n). split; [done|]. split; [done|]. by exists b.
Qed.

Lemma turns_frame ts ts' c o : turns ts c o ->
  (forall x a, ts !! x = Some a -> exists a', ts' !! x = Some a' /\ t_next a' = t_next a) -> turns ts' c o.
Proof.
  intros (Hnd & a & o' & Ha & Ho & Hp) Hf. split; [done|]. destruct (Hf _ _ Ha) as (a' & Ha' & Hn). exists a', o'.
  split; [done|]. split; [done|]. rewrite Hn. apply (path_frame _ _ _ _ _ Hp). intros x b _. apply Hf.
Qed.

Lemma pick_next_spec s c o : turns (k_tasks s) c o -> is_Some (k_ready s) -> k_current s = Some c ->
  (length o <= PICK_GUARD)%nat -> pick_next_task s = Some (round_robin (k_tasks s) c o, s).
Proof.
  intros (Hnd & a & o' & Ha & Ho & Hp) [h Hh] Hc Hlen.
  assert (exists st o2, o = st :: o2) as (st & o2 & ->) by (rewrite Ho; destruct o'; simpl; eauto).
  pose proof Hp as (Hst & _). rewrite Hst in Hp.
  unfold pick_next_task. rewrite run_gets, Hh. rewrite run_gets, Hc, run_assoc, (krun_task _ c a), run_ret by done.
  rewrite Hst.
  destruct (pick_walk_spec (k_tasks s) (Some c) (Some st) (st :: o2) PICK_GUARD None st o2 Hp eq_refl Hnd) as (fb & Hrun & Hfb).
  { intros Hin. apply list_elem_of_fmap in Hin as (y & [= <-] & Hy). by apply list.NoDup_cons in Hnd as [? _]. }
  { done. }
  rewrite (run_reads (fun s => pick_walk PICK_GUARD (k_tasks s) (Some c) (Some st) st None) _ s _ Hrun). cbv beta iota. unfold round_robin.
  destruct (List.find _ _) as [t|] eqn:Hf; [done|]. rewrite (krun_task _ c a) by done. rewrite Ha. cbn [fmap option_fmap option_map].
  case_bool_decide as Hready; [by rewrite bool_decide_eq_true_2 by congruence|].
  rewrite (bool_decide_eq_false_2 (Some _ = _)) by congruence. unfold mret, ST_ret. do 2 f_equal.
  destruct (Hfb eq_refl) as [-> | (x & b & Hx & -> & Hb & Hbr)]; [done|]. exfalso.
  apply list_elem_of_In in Hx. pose proof (List.find_none _ _ Hf x Hx) as Hno. unfold runnable in Hno. rewrite Hb in Hno.
  rewrite bool_decide_eq_true_2 in Hno by done. simpl in Hno. apply bool_decide_eq_false in Hno.
  apply Hno. intros [= <-]. congruence.
Qed.

(** ** [schedule] *)

(** The states after a switch from [c] to [n]. *)
Definition switched (ts : gmap nat task) (c n : nat) (a b : task) : gmap nat task :=
  <[n := task_set_state b TASK_RUNNING]> (<[c := task_set_state a TASK_READY]> ts).

Lemma schedule_spec s c o a : turns (k_tasks s) c o -> is_Some (k_ready s) -> k_current s = Some c ->
  (length o <= PICK_GUARD)%nat -> k_tasks s !! c = Some a -> t_state a = TASK_RUNNING ->
  match List.find (runnable (k_tasks s) (Some c)) o with
  | None => schedule s = Some (tt, s)
  | Some n => exists b s', k_tasks s !! n = Some b /\ t_state b = TASK_READY /\ n <> c /\ schedule s = Some (tt, s') /\
      k_tasks s' = switched (k_tasks s) c n a b /\ k_current s' = Some n /\ k_ready s' = k_ready s /\ k_all s' = k_all s
  end.
Proof.
  intros Ho Hq Hc Hlen Ha Hrun. unfold schedule. rewrite run_gets, (run_bind _ _ _ _ _ (pick_next_spec s c o Ho Hq Hc Hlen)).
  unfold round_robin. destruct (List.find _ _) as [n|] eqn:Hf.
  - apply List.find_some in Hf as [_ Hn]. unfold runnable in Hn. destruct (k_tasks s !! n) as [b|] eqn:Hb; [|done].
    apply andb_true_iff in Hn as [Hn1 Hn2]. apply bool_decide_eq_true in Hn1, Hn2. assert (Hnc : n <> c) by congruence.
    rewrite Hc. rewrite (bool_decide_eq_false_2 (n = c)) by done. rewrite (krun_task _ c a) by done.
    rewrite Hrun, bool_decide_eq_true_2 by done. rewrite krun_put, (krun_task _ n b) by (done || (cbn; by rewrite lookup_insert_ne)).
    rewrite krun_put. eexists b, _. split; [done|]. split; [done|]. split; [done|]. split; [reflexivity|]. done.
  - rewrite Ha. cbn [fmap option_fmap option_map]. rewrite bool_decide_eq_false_2 by congruence. done.
Qed.

Lemma switched_next ts c n a b : ts !! c = Some a -> ts !! n = Some b -> n <> c ->
  forall x d, ts !! x = Some d -> exists d', switched ts c n a b !! x = Some d' /\ t_next d' = t_next d /\
    (x <> c -> x <> n -> d' = d).
Proof.
  intros Ha Hb Hne x d Hd. unfold switched.
  destruct (decide (n = x)) as [<- | Hny]; [rewrite lookup_insert_eq; eexists; split; [done|]; split; [simpl; congruence|done]|].
  rewrite lookup_insert_ne by done.
  destruct (decide (c = x)) as [<- | Hcy]; [rewrite lookup_insert_eq; eexists; split; [done|]; split; [simpl; congruence|done]|].
  rewrite lookup_insert_ne by done. eauto.
Qed.

Fixpoint schedules (n : nat) : K unit :=
  match n with O => mret tt | S n' => schedule ≫= fun _ => schedules n' end.

(** A ready task with [length o1] tasks between it and the current one runs
    after at most one turn more. *)
Lemma no_starvation d : forall s c o1 t o2 a,
  turns (k_tasks s) c (o1 ++ t :: o2) -> is_Some (k_ready s) -> k_current s = Some c ->
  (length (o1 ++ t :: o2) <= PICK_GUARD)%nat -> k_tasks s !! c = Some a -> t_state a = TASK_RUNNING ->
  runnable (k_tasks s) (Some c) t = true -> (length o1 <= d)%nat ->
  exists k s', (k <= S d)%nat /\ schedules k s = Some (tt, s') /\ k_current s' = Some t.
Proof.
  induction d as [d IH] using lt_wf_ind. intros s c o1 t o2 a Ho Hq Hc Hlen Ha Hrun Ht Hd.
  pose proof (schedule_spec s c _ a Ho Hq Hc Hlen Ha Hrun) as Hs.
  destruct (List.find _ _) as [n|] eqn:Hf.
  2: { pose proof (List.find_none _ _ Hf t) as Hno. rewrite Hno in Ht; [done|]. apply list_elem_of_In. set_solver. }
  destruct Hs as (b & s' & Hb & Hbr & Hnc & Hrun' & Hts & Hcur & Hrd & _).
  destruct (decide (n = t)) as [-> | Hnt].
  { exists 1%nat, s'. split; [lia|]. cbn [schedules]. rewrite (run_bind _ _ _ _ _ Hrun'). done. }
  assert (Hn1 : n ∈ o1).
  { clear - Hf Hnt Ht. induction o1 as [|x o1 IH]; simpl in Hf; [rewrite Ht in Hf; congruence|].
    destruct (runnable _ _ x); [injection Hf as ->; apply elem_of_cons; auto|]. apply elem_of_cons; auto. }
  apply list_elem_of_split in Hn1 as (p & p2 & ->).
  pose proof (switched_next _ _ _ _ _ Ha Hb Hnc) as Hsw.
  assert (Ho' : turns (k_tasks s') n (p2 ++ t :: (o2 ++ p ++ [n]))).
  { rewrite <- app_assoc in Ho. simpl in Ho. apply turns_from in Ho. rewrite Hts.
    apply (turns_frame (k_tasks s)); [|intros x e He; destruct (Hsw x e He) as (e' & ? & ? & _); eauto].
    by rewrite <- app_assoc in Ho. }
  unfold runnable in Ht. destruct (k_tasks s !! t) as [e|] eqn:He; [|done]. apply andb_true_iff in Ht as [Ht1 Ht2].
  apply bool_decide_eq_true in Ht1, Ht2. destruct (Hsw t e He) as (e' & He' & _ & Hsame).
  assert (e' = e) as -> by (apply Hsame; congruence).
  rewrite !length_app in Hlen, Hd. simpl in Hlen, Hd. rewrite length_app in Hlen. simpl in Hlen.
  destruct (IH (length p2) ltac:(lia) s' n p2 t (o2 ++ p ++ [n]) (task_set_state b TASK_RUNNING)) as (k & s2 & Hk & Hr2 & Hc2); try done.
  - by rewrite Hrd.
  - rewrite !length_app. simpl. rewrite !length_app. simpl. lia.
  - rewrite Hts. unfold switched. apply lookup_insert_eq.
  - unfold runnable. rewrite Hts, He', bool_decide_eq_true_2 by done. apply bool_decide_eq_true. congruence.
  - exists (S k), s2. split; [lia|]. cbn [schedules]. rewrite (run_bind _ _ _ _ _ Hrun'). done.
Qed.

(** ** Joining and leaving the ring *)

Lemma remove_walk_spec ts t head : forall l fuel p z, path ts p (l ++ [z]) (Some t) -> t ∉ tail (l ++ [z]) ->
  head ∉ (Some <$> tail (l ++ [z])) -> (length l < fuel)%nat -> remove_walk fuel ts t head p = Some z.
Proof.
  induction l as [|x l IH]; intros fuel p z Hp Ht Hh Hf; (destruct fuel as [|fuel]; [simpl in Hf; lia|]); cbn [app] in Hp.
  - destruct Hp as (-> & a & Ha & Hn). cbn [remove_walk mbind option_bind]. rewrite Ha. cbn [mbind option_bind].
    simpl in Hn. by rewrite Hn, bool_decide_eq_true_2.
  - destruct Hp as (-> & a & Ha & Hp). cbn [remove_walk mbind option_bind]. rewrite Ha. cbn [mbind option_bind].
    cbn [app tail] in Ht, Hh. destruct (l ++ [z]) as [|y r] eqn:E; [by destruct l|].
    pose proof Hp as (Hn & b & Hb & Hr). rewrite Hn.
    rewrite bool_decide_eq_false_2 by (intros [= ->]; apply Ht; apply elem_of_cons; auto).
    cbn [mbind option_bind]. rewrite Hb. cbn [mbind option_bind]. rewrite Hn in Hp. case_bool_decide as Hend.
    + destruct r as [|w r].
      * destruct l as [|? [|]]; simplify_eq/=. done.
      * exfalso. destruct Hr as (Hw & _). apply Hh. rewrite <- Hend, Hw. cbn. apply elem_of_cons; right. apply elem_of_cons; auto.
    + rewrite <- E in Hp. apply (IH fuel (Some y) z Hp); rewrite ?E; [| |simpl in Hf; lia].
      * intros Hin. apply Ht. apply elem_of_cons; auto.
      * intros Hin. apply Hh. cbn. apply elem_of_cons; auto.
Qed.

(** The task before [t] on the ring, and the ring without [t]. *)
Section leave.
Context (ts : gmap nat task) (q : option nat) (l1 l2 : list nat) (t : nat) (a : task).
Context (Hr : ring ts q (l1 ++ t :: l2)) (Ha : ts !! t = Some a) (Hne : l1 ++ l2 <> []).

(** The path that ends at [t]: up to it, or all the way round. *)
Definition up_to : list nat := match l1 with [] => t :: l2 | _ => l1 end.

Lemma up_to_spec : exists h r, up_to = h :: r /\ q = Some h /\ NoDup up_to /\ path ts q up_to (Some t) /\ t ∉ r /\
  forall k z, up_to = k ++ [z] -> z ∈ l1 ++ l2.
Proof.
  pose proof Hr as [Hnd Hq]. unfold up_to. destruct l1 as [|h k1]; cbn [app] in *.
  - destruct Hq as [-> Hp]. exists t, l2. repeat (split; [done|]). split; [by apply list.NoDup_cons in Hnd as [? _]|].
    intros k z Hk. destruct k as [|y k]; simplify_eq/=. set_solver.
  - destruct Hq as [-> Hp]. exists h, k1. change (h :: k1 ++ t :: l2) with ((h :: k1) ++ t :: l2) in *.
    apply path_app in Hp as (m & Hp & (-> & _)). apply list.NoDup_app in Hnd as (Hnd1 & Hd & _).
    repeat (split; [done|]). split; [intros Hin; apply (Hd t); set_solver|].
    intros k z Hk. change (h :: k1 ++ l2) with ((h :: k1) ++ l2). rewrite Hk. set_solver.
Qed.

(** Its link goes past [t]. *)
Lemma leave_ring k z b : up_to = k ++ [z] -> ts !! z = Some b -> z <> t ->
  ring (<[z := task_set_next b (t_next a)]> ts) (match l1 with [] => t_next a | _ => q end) (l1 ++ l2).
Proof.
  intros E Hb Hzt. pose proof Hr as [Hnd Hq]. unfold up_to in E.
  assert (Hp : path ts q (l1 ++ t :: l2) q) by (destruct l1; simpl in Hq |- *; tauto).
  apply path_app in Hp as (m & Hp1 & (-> & a' & Ha' & Hp2)). assert (a' = a) as -> by congruence.
  apply list.NoDup_app in Hnd as (Hnd1 & Hd & Hnd2). apply list.NoDup_cons in Hnd2 as [Ht2 Hnd2].
  destruct l1 as [|h k1]; cbn [app] in *.
  - split; [done|]. destruct Hq as [-> _]. destruct k as [|y k]; simplify_eq/=.
    assert (Hz : z ∉ k) by (apply list.NoDup_app in Hnd2 as (_ & Hd2 & _); intros Hin; apply (Hd2 z Hin); set_solver).
    pose proof (path_relink _ _ _ _ _ (t_next a) _ Hp2 Hz Hb) as Hp'.
    destruct (k ++ [z]) as [|w r] eqn:Ek; [by destruct k|]. pose proof Hp2 as (Hw & _). rewrite Hw in *. done.
  - destruct Hq as [-> _]. rewrite E in *.
    assert (Hz : z ∉ k) by (apply list.NoDup_app in Hnd1 as (_ & Hd1 & _); intros Hin; apply (Hd1 z Hin); set_solver).
    split.
    + rewrite <- E in *. change (h :: k1 ++ l2) with ((h :: k1) ++ l2). apply list.NoDup_app. split; [done|].
      split; [|done]. intros x Hx1 Hx2. apply (Hd x Hx1). set_solver.
    + split; [done|]. change (h :: k1 ++ l2) with ((h :: k1) ++ l2). rewrite E. apply path_app. exists (t_next a).
      split; [by eapply path_relink|]. apply (path_frame _ _ _ _ _ Hp2). intros x c Hx Hc. exists c.
      rewrite lookup_insert_ne; [done|]. intros <-. apply (Hd z); set_solver.
Qed.

(** The task in front of [t], found by either loop, and what it leads to. *)
Lemma leave_spec : exists z b, ts !! z = Some b /\ t_next b = Some t /\ z <> t /\ z ∈ l1 ++ l2 /\
  before (S (size ts)) ts t q = Some z /\ remove_walk (S (size ts)) ts t q q = Some z /\
  ring (<[z := task_set_next b (t_next a)]> ts) (match l1 with [] => t_next a | _ => q end) (l1 ++ l2).
Proof.
  destruct up_to_spec as (h & r & Hu & Hqh & Hnd & Hp & Ht & Hz). destruct (snoc_cases up_to) as [E | (k & z & E)]; [congruence|].
  specialize (Hz k z E). assert (Htl : tail (k ++ [z]) = r) by (rewrite <- E, Hu; done).
  assert (Hqr : q ∉ (Some <$> r)).
  { rewrite Hqh. intros (w & [= <-] & Hw)%list_elem_of_fmap. rewrite Hu in Hnd. by apply list.NoDup_cons in Hnd as [? _]. }
  assert (Hlen : (length k < S (size ts))%nat).
  { pose proof (path_size _ _ _ _ Hp Hnd) as Hs. rewrite E, length_app in Hs. simpl in Hs. lia. }
  rewrite E in Hp. assert (Hp0 := Hp). apply path_app in Hp0 as (m & _ & (-> & b & Hb & Hnb)). simpl in Hnb.
  assert (Hzt : z <> t).
  { intros ->. pose proof Hr as [Hnd0 _]. apply list.NoDup_app in Hnd0 as (_ & Hd & Hnd2). apply list.NoDup_cons in Hnd2 as [Ht2 _].
    apply elem_of_app in Hz as [Hz | Hz]; [apply (Hd t Hz); set_solver|done]. }
  exists z, b. split; [done|]. split; [done|]. split; [done|]. split; [done|].
  split; [apply (before_spec ts t k _ q z Hp); [by rewrite Htl|done]|].
  split; [apply (remove_walk_spec ts t q k _ q z Hp); rewrite ?Htl; done|].
  by apply (leave_ring k z b).
Qed.
End leave.

(** What an operation on the ring leaves alone. *)
Definition others_same (s s' : kern) (t : nat) : Prop :=
  k_current s' = k_current s /\ k_all s' = k_all s /\ k_next_pid s' = k_next_pid s /\
  forall x, match k_tasks s !! x with
    | Some a => exists a', k_tasks s' !! x = Some a' /\ (x <> t -> t_state a' = t_state a) /\ t_parent a' = t_parent a /\
        t_pid a' = t_pid a /\ t_exit_code a' = t_exit_code a /\ t_all_next a' = t_all_next a
    | None => k_tasks s' !! x = None
    end.

Lemma ring_frame ts ts' q l : ring ts q l ->
  (forall x a, x ∈ l -> ts !! x = Some a -> exists a', ts' !! x = Some a' /\ t_next a' = t_next a) -> ring ts' q l.
Proof.
  intros [Hnd Hr] Hf. split; [done|]. destruct l as [|h l]; [done|]. destruct Hr as [-> Hp]. split; [done|].
  by apply (path_frame _ _ _ _ _ Hp).
Qed.

Lemma set_state_ring ts q l t a x : ring ts q l -> ts !! t = Some a -> ring (<[t := task_set_state a x]> ts) q l.
Proof.
  intros Hr Ha. apply (ring_frame _ _ _ _ Hr). intros y b _ Hb. destruct (decide (t = y)) as [<- | ?].
  - rewrite lookup_insert_eq. eexists. split; [done|]. simpl. congruence.
  - rewrite lookup_insert_ne by done. eauto.
Qed.

(** The last task of the ring. *)
Lemma ring_last ts h l : ring ts (Some h) l -> exists k z b, l = k ++ [z] /\ ts !! z = Some b /\ t_next b = Some h /\ z ∉ k /\
  before (S (size ts)) ts h (Some h) = Some z.
Proof.
  intros [Hnd Hr]. destruct (snoc_cases l) as [-> | (k & z & ->)]; [done|].
  assert (Hp : path ts (Some h) (k ++ [z]) (Some h) /\ exists r, k ++ [z] = h :: r).
  { destruct (k ++ [z]) as [|w r] eqn:E; [by destruct k|]. destruct Hr as [[= ->] ?]. eauto. }
  destruct Hp as [Hp (r & E)]. assert (Hp0 := Hp). apply path_app in Hp0 as (m & _ & (-> & b & Hb & Hn)).
  exists k, z, b. split; [done|]. split; [done|]. split; [done|]. split.
  { apply list.NoDup_app in Hnd as (_ & Hd & _). intros Hin. apply (Hd z Hin). set_solver. }
  pose proof (path_size _ _ _ _ Hp Hnd) as Hs. rewrite length_app in Hs. simpl in Hs.
  apply (before_spec ts h k _ _ z Hp); [|lia]. rewrite E in Hnd |- *. by apply list.NoDup_cons in Hnd as [? _].
Qed.

Lemma add_ready_run s h l t a : ring (k_tasks s) (Some h) l -> k_ready s = Some h -> k_tasks s !! t = Some a ->
  let ts1 := <[t := task_set_state a TASK_READY]> (k_tasks s) in
  exists k z b c, l = k ++ [z] /\ z ∉ k /\ ts1 !! z = Some b /\ t_next b = Some h /\
    <[z := task_set_next b (Some t)]> ts1 !! t = Some c /\ t_state c = TASK_READY /\
    task_add_ready t s = Some (tt, set_ktasks (fun _ => <[t := task_set_next c (Some h)]> (<[z := task_set_next b (Some t)]> ts1)) s).
Proof.
  intros Hr Hq Ha ts1. assert (Hr1 : ring ts1 (Some h) l) by by apply set_state_ring.
  destruct (ring_last _ _ _ Hr1) as (k & z & b & Hl & Hb & Hn & Hz & Hbef).
  assert (Hc : exists c, <[z := task_set_next b (Some t)]> ts1 !! t = Some c /\ t_state c = TASK_READY).
  { destruct (decide (z = t)) as [-> | ?].
    - rewrite lookup_insert_eq. eexists. split; [done|]. unfold ts1 in Hb. rewrite lookup_insert_eq in Hb. by injection Hb as <-.
    - rewrite lookup_insert_ne by done. unfold ts1. rewrite lookup_insert_eq. by eexists. }
  destruct Hc as (c & Hc & Hcr). exists k, z, b, c. do 6 (split; [done|]).
  unfold task_add_ready. rewrite (krun_task _ t a), krun_put, run_gets by done. cbn [k_ready set_ktasks]. rewrite Hq.
  rewrite (run_reads _ _ _ z) by done. rewrite (krun_task _ z b), krun_put by done. rewrite (krun_task _ t c) by done.
  done.
Qed.

Lemma add_ready_same s t a z b c h : let ts1 := <[t := task_set_state a TASK_READY]> (k_tasks s) in
  k_tasks s !! t = Some a -> ts1 !! z = Some b -> <[z := task_set_next b (Some t)]> ts1 !! t = Some c ->
  others_same s (set_ktasks (fun _ => <[t := task_set_next c h]> (<[z := task_set_next b (Some t)]> ts1)) s) t.
Proof.
  intros ts1 Ha Hb Hc. do 3 (split; [done|]). intros x. cbn.
  destruct (decide (t = x)) as [<- | Hx].
  - rewrite lookup_insert_eq, Ha. eexists. split; [done|]. split; [done|]. cbn.
    destruct (decide (z = t)) as [-> | ?].
    + rewrite lookup_insert_eq in Hc. injection Hc as <-. unfold ts1 in Hb. rewrite lookup_insert_eq in Hb. by injection Hb as <-.
    + rewrite lookup_insert_ne in Hc by done. unfold ts1 in Hc. rewrite lookup_insert_eq in Hc. by injection Hc as <-.
  - rewrite lookup_insert_ne by done. destruct (decide (z = x)) as [<- | Hzx].
    + rewrite lookup_insert_eq. unfold ts1 in Hb. rewrite lookup_insert_ne in Hb by done. rewrite Hb. by eexists.
    + rewrite lookup_insert_ne by done. unfold ts1. rewrite lookup_insert_ne by done. destruct (k_tasks s !! x) as [e|]; [by exists e|done].
Qed.

(** A task that is not on the ring joins at its end. *)
Lemma add_ready_spec s l t a : ring (k_tasks s) (k_ready s) l -> k_tasks s !! t = Some a -> t ∉ l ->
  exists s' c, task_add_ready t s = Some (tt, s') /\ ring (k_tasks s') (k_ready s') (l ++ [t]) /\ others_same s s' t /\
    k_tasks s' !! t = Some c /\ t_state c = TASK_READY /\ k_fs s' = k_fs s.
Proof.
  intros Hr Ha Ht. destruct (k_ready s) as [h|] eqn:Hq.
  - destruct (add_ready_run s h l t a Hr Hq Ha) as (k & z & b & c & -> & Hz & Hb & Hn & Hc & Hcr & Hrun).
    set (ts1 := <[t := task_set_state a TASK_READY]> (k_tasks s)) in *.
    eexists _, _. split; [exact Hrun|]. split; [|split; [by eapply (add_ready_same s t a z b c)|]].
    2: { cbn. rewrite lookup_insert_eq. split; [done|]. done. }
    cbn. rewrite Hq. pose proof (set_state_ring _ _ _ t a TASK_READY Hr Ha) as [Hnd Hr1]. fold ts1 in Hr1.
    assert (Hp : path ts1 (Some h) (k ++ [z]) (Some h)) by (destruct (k ++ [z]); simpl in *; tauto).
    split.
    + apply list.NoDup_app. split; [done|]. split; [set_solver|]. apply NoDup_singleton.
    + assert (Hp' : path (<[t := task_set_next c (Some h)]> (<[z := task_set_next b (Some t)]> ts1)) (Some h) ((k ++ [z]) ++ [t]) (Some h)).
      { apply path_app. exists (Some t). split.
        - pose proof (path_relink _ _ _ _ _ (Some t) _ Hp Hz Hb) as Hp1. apply (path_frame _ _ _ _ _ Hp1).
          intros x e Hx He. exists e. rewrite lookup_insert_ne; [done|]. by intros <-.
        - split; [done|]. rewrite lookup_insert_eq. eexists. done. }
      destruct (k ++ [z]) as [|w r] eqn:E; [by destruct k|]. destruct Hr1 as [[= ->] _]. done.
  - assert (l = []) as -> by (destruct Hr as [_ Hr]; destruct l; [done|]; by destruct Hr).
    unfold task_add_ready. rewrite (krun_task _ t a), krun_put, run_gets by done. cbn [k_ready set_ktasks]. rewrite Hq, run_modify.
    erewrite krun_task; [|done|apply lookup_insert_eq].
    eexists _, _. split; [reflexivity|]. cbn. rewrite lookup_insert_eq. split; [|split; [|done]].
    + split; [apply NoDup_singleton|]. split; [done|]. split; [done|]. rewrite lookup_insert_eq. eexists. done.
    + do 3 (split; [done|]). intros x. cbn. rewrite insert_insert_eq. destruct (decide (t = x)) as [<- | ?].
      * rewrite lookup_insert_eq, Ha. by eexists.
      * rewrite lookup_insert_ne by done. destruct (k_tasks s !! x) as [e|]; [by exists e|done].
Qed.

(** A task that is on the ring already cuts off all the tasks behind it. *)
Lemma add_ready_again s l1 t l2 : ring (k_tasks s) (k_ready s) (l1 ++ t :: l2) ->
  exists s', task_add_ready t s = Some (tt, s') /\ ring (k_tasks s') (k_ready s') (l1 ++ [t]).
Proof.
  intros Hr. pose proof Hr as [Hnd Hr0].
  assert (exists h, k_ready s = Some h) as [h Hq] by (destruct l1; simpl in Hr0; destruct Hr0; eauto). rewrite Hq in Hr.
  destruct (path_mem _ _ _ _ t (ring_rotate _ _ _ _ _ Hr)) as [a Ha]; [apply elem_of_cons; auto|].
  destruct (add_ready_run s h _ t a Hr Hq Ha) as (k & z & b & c & El & Hz & Hb & Hn & Hc & Hcr & Hrun).
  set (ts1 := <[t := task_set_state a TASK_READY]> (k_tasks s)) in *. eexists. split; [exact Hrun|]. cbn. rewrite Hq.
  pose proof (set_state_ring _ _ _ t a TASK_READY Hr Ha) as [_ Hr1]. fold ts1 in Hr1.
  assert (Hp : path ts1 (Some h) (l1 ++ t :: l2) (Some h)) by (destruct (l1 ++ t :: l2) eqn:E; [by destruct l1|]; tauto).
  apply path_app in Hp as (m & Hp1 & (-> & _)).
  apply list.NoDup_app in Hnd as (Hnd1 & Hd & Hnd2). apply list.NoDup_cons in Hnd2 as [Ht2 _]. split.
  - apply list.NoDup_app. split; [done|]. split; [|apply NoDup_singleton]. intros x Hx [->|?%elem_of_nil]%elem_of_cons; [|done].
    apply (Hd t Hx). apply elem_of_cons; auto.
  - assert (Hz1 : z ∉ l1).
    { intros Hin. destruct (snoc_cases (t :: l2)) as [? | (k2 & z2 & E2)]; [done|]. rewrite E2 in *.
      rewrite app_assoc in El. apply app_inj_tail in El as [_ ->]. apply (Hd z Hin). set_solver. }
    assert (Hp' : path (<[t := task_set_next c (Some h)]> (<[z := task_set_next b (Some t)]> ts1)) (Some h) (l1 ++ [t]) (Some h)).
    { apply path_app. exists (Some t). split.
      - apply (path_frame _ _ _ _ _ Hp1). intros x e Hx He. exists e.
        rewrite lookup_insert_ne by (intros <-; apply (Hd t Hx); apply elem_of_cons; auto).
        rewrite lookup_insert_ne by (by intros <-). done.
      - split; [done|]. rewrite lookup_insert_eq. eexists. done. }
    destruct l1 as [|w r]; simpl in *; [destruct Hr1 as [[= ->] _]|destruct Hr1 as [[= ->] _]]; done.
Qed.
