(* ===== verification/TaskLife.v ===== *)
(** * A task's life: the ready queue, exit and [waitpid]

    What [task_remove_ready], [sys_exit] and [sys_waitpid] of
    [kernel/Process/task.c] do to the ring of ready tasks, to the list of all
    tasks and to the file system. *)

From stdpp Require Import gmap.
From S2P Require Import Prelude StateMonad SlotTable Vfs VfsTree VfsInv VfsCalls VfsRun Task TaskRing.

#[local] Open Scope Z_scope.

(** ** The event log *)

Definition logged (t : nat) (e : task_event_type) (d : Z) (a : io) (v : vfs) : vfs :=
  set_tasks (insert t (task_log_event (v_ticks v) a e d)) v.

Lemma log_run {B} t e d a (k : unit -> K B) s : v_tasks (k_fs s) !! t = Some a ->
  (log_event t e d ≫= k) s = k tt (set_fs (logged t e d a (k_fs s)) s).
Proof. intros Ha. unfold log_event, fs, mbind, ST_bind. by rewrite Ha. Qed.

(** The file system after a call that keeps its tasks. *)
Definition fs_kept (root : nat) (v v' : vfs) : Prop :=
  fs_inv root v' /\ v_current v' = v_current v /\ v_fresh v' = v_fresh v /\ forall u, is_Some (v_tasks v' !! u) <-> is_Some (v_tasks v !! u).

Lemma logged_kept root t e d a v : fs_inv root v -> v_tasks v !! t = Some a -> fs_kept root v (logged t e d a v).
Proof.
  intros Hv Ha. destruct (task_log_io (v_ticks v) a e d) as [Hf Hc]. split; [|split; [done|split; [done|]]].
  - apply (io_inv root v t a); [done..|]. rewrite Hc. apply (ok_task _ _ _ _ _ (fi_open _ _ Hv) _ _ Ha).
  - intros u. cbn. destruct (decide (t = u)) as [<- | ?]; [rewrite lookup_insert_eq, Ha; split; eauto|by rewrite lookup_insert_ne].
Qed.

(** The file systems differ at most in the event logs of the tasks. *)
Definition but_events (a : io) : Z * option nat * list (option nat) := (io_pid a, io_cwd a, io_fds a).
Definition only_logs (v v' : vfs) : Prop := exists ts, v' = set_tasks (fun _ => ts) v /\ forall u, but_events <$> ts !! u = but_events <$> v_tasks v !! u.

Lemma only_logs_refl v : only_logs v v.
Proof. exists (v_tasks v). by destruct v. Qed.
Lemma only_logs_trans v v1 v2 : only_logs v v1 -> only_logs v1 v2 -> only_logs v v2.
Proof. intros (t1 & -> & H1) (t2 & -> & H2). exists t2. split; [done|]. intros u. by rewrite H2, <- H1. Qed.
Lemma logged_only t e d a v : v_tasks v !! t = Some a -> only_logs v (logged t e d a v).
Proof.
  intros Ha. exists (<[t := task_log_event (v_ticks v) a e d]> (v_tasks v)). split; [done|]. intros u. destruct (decide (t = u)) as [<- | ?]; [|by rewrite lookup_insert_ne].
  rewrite lookup_insert_eq, Ha. unfold task_log_event. by destruct (TASK_MAX_EVENTS <=? _)%nat.
Qed.

Lemma kept_trans root v v1 v2 : fs_kept root v v1 -> fs_kept root v1 v2 -> fs_kept root v v2.
Proof.
  intros (_ & H1 & H1' & H2) (H3 & H4 & H4' & H5). split; [done|]. split; [congruence|]. split; [congruence|]. intros u. by rewrite H5.
Qed.

(** ** [task_remove_ready] *)

Lemma remove_walk_absent ts t h : h <> t -> forall l fuel p z, path ts p (l ++ [z]) (Some h) -> t ∉ l ++ [z] ->
  Some h ∉ (Some <$> tail (l ++ [z])) -> (l = [] -> z = h) -> (length l < fuel)%nat ->
  remove_walk fuel ts t (Some h) p = Some z.
Proof.
  intros Hht. induction l as [|x l IH]; intros fuel p z Hp Ht Hh H0 Hf; (destruct fuel as [|fuel]; [simpl in Hf; lia|]); cbn [app] in Hp.
  - rewrite (H0 eq_refl) in *. destruct Hp as (-> & a & Ha & Hn). cbn [remove_walk mbind option_bind]. rewrite Ha.
    simpl in Hn. cbn [mbind option_bind]. rewrite Hn, bool_decide_eq_false_2 by congruence. cbn [mbind option_bind].
    rewrite Ha. cbn [mbind option_bind]. by rewrite Hn, bool_decide_eq_true_2.
  - destruct Hp as (-> & a & Ha & Hp). cbn [remove_walk mbind option_bind]. rewrite Ha. cbn [mbind option_bind].
    cbn [app tail] in Ht, Hh. apply not_elem_of_cons in Ht as [_ Ht]. destruct (l ++ [z]) as [|y r] eqn:E; [by destruct l|].
    pose proof Hp as (Hn & b & Hb & Hr). rewrite Hn.
    rewrite bool_decide_eq_false_2 by (intros [= ->]; apply Ht; apply elem_of_cons; auto).
    cbn [mbind option_bind]. rewrite Hb. cbn [mbind option_bind]. rewrite Hn in Hp.
    destruct l as [|x2 l].
    { cbn [app] in E. injection E as <- <-. simpl in Hr. by rewrite Hr, bool_decide_eq_true_2. }
    cbn [app] in E. injection E as <- <-. destruct (l ++ [z]) as [|w r] eqn:E; [by destruct l|].
    pose proof Hr as (Hw & _). rewrite Hw. rewrite bool_decide_eq_false_2.
    2: { intros [= ->]. apply Hh. cbn. apply elem_of_cons; right. apply elem_of_cons; auto. }
    apply IH; [by cbn [app]; rewrite E|by cbn [app]; rewrite E| |done|simpl in Hf |- *; lia].
    cbn [app tail]. rewrite E. intros Hin. apply Hh. cbn. apply elem_of_cons; auto.
Qed.

(** What a task leaves behind on the ring: itself, wherever it was. *)
Definition without (t : nat) (l : list nat) : list nat := List.filter (fun x => negb (bool_decide (x = t))) l.

Lemma without_absent t l : t ∉ l -> without t l = l.
Proof.
  induction l as [|x l IH]; intros Ht; [done|]. apply not_elem_of_cons in Ht as [Hx Ht]. cbn.
  rewrite bool_decide_eq_false_2 by congruence. cbn. f_equal. by apply IH.
Qed.

Lemma without_mid t l1 l2 : NoDup (l1 ++ t :: l2) -> without t (l1 ++ t :: l2) = l1 ++ l2.
Proof.
  intros Hnd. apply list.NoDup_app in Hnd as (_ & Hd & Hnd). apply list.NoDup_cons in Hnd as [Ht _].
  unfold without. rewrite List.filter_app. cbn. rewrite bool_decide_eq_true_2 by done. cbn.
  fold (without t l1) (without t l2). rewrite !without_absent; [done|done|]. intros Hin. apply (Hd t Hin). apply elem_of_cons; auto.
Qed.

Lemma insert_state_same s v t a x : k_tasks s !! t = Some a ->
  others_same s (set_ktasks (insert t (task_set_state a x)) (set_fs v s)) t.
Proof.
  intros Ha. do 3 (split; [done|]). intros y. cbn. destruct (decide (t = y)) as [<- | ?].
  - rewrite lookup_insert_eq, Ha. by eexists.
  - rewrite lookup_insert_ne by done. destruct (k_tasks s !! y) as [e|]; [by exists e|done].
Qed.

(** A link that changes is no change to the other fields. *)
Lemma others_relink s s1 t z b p q : others_same s s1 t -> k_tasks s1 !! z = Some b ->
  others_same s (set_ready q (set_ktasks (insert z (task_set_next b p)) s1)) t.
Proof.
  intros (H1 & H2 & H3 & H4) Hb. do 3 (split; [done|]). intros x. specialize (H4 x). cbn.
  destruct (decide (z = x)) as [<- | ?]; [|by rewrite lookup_insert_ne].
  rewrite lookup_insert_eq. destruct (k_tasks s !! z) as [e|]; [|congruence]. destruct H4 as (e' & He' & Hrest).
  assert (e' = b) as -> by congruence. by eexists.
Qed.

Lemma set_ready_id s : set_ready (k_ready s) s = s.
Proof. by destruct s. Qed.

Section take_out.
Context (s0 s : kern) (h : nat) (l : list nat) (t : nat) (a : task).
Context (Hr : ring (k_tasks s) (Some h) l) (Hq : k_ready s = Some h) (Ha : k_tasks s !! t = Some a).
Context (Hsame : others_same s0 s t).

Definition taken (s' : kern) (l' : list nat) : Prop :=
  ring (k_tasks s') (k_ready s') l' /\ others_same s0 s' t /\ k_tasks s' !! t = Some a /\ k_fs s' = k_fs s.

Lemma ring_head : exists l' b, l = h :: l' /\ k_tasks s !! h = Some b /\ path (k_tasks s) (t_next b) l' (Some h).
Proof.
  destruct Hr as [_ Hx]. destruct l as [|x l']; [done|]. destruct Hx as [[= <-] (_ & b & Hb & Hp)]. by exists l', b.
Qed.

Lemma take_out_alone : l = [t] -> exists s', take_out t (Some h) s = Some (tt, s') /\ taken s' [].
Proof.
  intros El. destruct ring_head as (l' & b & Eh & Hb & Hp). rewrite Eh in El. injection El as Et ->. unfold take_out. rewrite (krun_task _ h b) by done.
  cbn [path] in Hp. rewrite Hp, !bool_decide_eq_true_2 by congruence. cbn [andb]. eexists. split; [reflexivity|].
  split; [split; [apply NoDup_nil_2|done]|]. split; [exact Hsame|]. done.
Qed.

Lemma take_out_member l1 l2 : l = l1 ++ t :: l2 -> l1 ++ l2 <> [] ->
  exists s', take_out t (Some h) s = Some (tt, s') /\ taken s' (l1 ++ l2).
Proof.
  intros El Hne. destruct ring_head as (l' & b & Eh & Hb & Hp). unfold take_out. rewrite (krun_task _ h b) by done.
  pose proof Hr as Hr1. rewrite El in Hr1. pose proof Hr as [Hnd _]. rewrite Eh in Hnd.
  destruct (leave_spec _ _ _ _ _ _ Hr1 Ha Hne) as (z & c & Hz & Hzt & Hzn & _ & _ & Hw & Hr2).
  assert (Hsplit : bool_decide (Some h = Some t) && bool_decide (t_next b = Some h) = false).
  { apply andb_false_iff. destruct (decide (h = t)) as [-> | ?]; [right|left; by apply bool_decide_eq_false_2; congruence].
    apply bool_decide_eq_false_2. intros Hb1. destruct l' as [|w l'].
    { rewrite Eh in El. destruct l1 as [|? [|]]; naive_solver. }
    destruct Hp as [Hw1 _]. rewrite Hb1 in Hw1. injection Hw1 as <-. apply list.NoDup_cons in Hnd as [Hx _]. set_solver. }
  rewrite Hsplit, (run_reads _ _ _ z) by done. rewrite (krun_task _ z c) by done.
  rewrite bool_decide_eq_true_2, (krun_task _ t a), krun_put by done.
  assert (Hz2 : k_tasks (set_ktasks (insert z (task_set_next c (t_next a))) s) !! t = Some a) by (cbn; by rewrite lookup_insert_ne).
  rewrite Eh in El. destruct l1 as [|w l1]; cbn [app] in El.
  - injection El as Et ->. rewrite bool_decide_eq_true_2 by congruence. eexists. split; [reflexivity|]. split; [done|].
    split; [by apply (others_relink s0 s t z c (t_next a) (t_next a))|]. done.
  - injection El as <- ->. rewrite bool_decide_eq_false_2 by (intros [= ->]; apply list.NoDup_cons in Hnd as [Hx _]; set_solver).
    eexists. split; [reflexivity|]. split; [cbn [k_tasks k_ready set_ktasks]; by rewrite Hq|]. split; [|done].
    rewrite <- (set_ready_id (set_ktasks _ s)). by apply (others_relink s0 s t z c (t_next a)).
Qed.

Lemma take_out_absent : t ∉ l -> take_out t (Some h) s = Some (tt, s) /\ taken s l.
Proof.
  intros Hout. split; [|split; [by rewrite Hq|done]].
  destruct ring_head as (l' & b & Eh & Hb & Hp). unfold take_out. rewrite (krun_task _ h b) by done.
  assert (Hth : h <> t) by (intros ->; apply Hout; rewrite Eh; apply elem_of_cons; auto).
  rewrite (bool_decide_eq_false_2 (Some h = Some t)) by congruence. cbn [andb].
  destruct (ring_last _ _ _ Hr) as (k & z & c & El & Hz & Hzn & Hzk & _).
  assert (Hw : remove_walk (S (size (k_tasks s))) (k_tasks s) t (Some h) (Some h) = Some z).
  { pose proof Hr as [Hnd Hpp]. rewrite Eh in Hpp. destruct Hpp as [_ Hpp]. rewrite <- Eh in Hpp.
    pose proof (path_size _ _ _ _ Hpp Hnd) as Hsz. rewrite El in Hpp, Hsz.
    rewrite length_app in Hsz. simpl in Hsz. apply (remove_walk_absent _ t h Hth k); [done|by rewrite <- El| | |lia].
    - rewrite <- El, Eh. cbn. intros (y & [= <-] & Hy)%list_elem_of_fmap. rewrite Eh in Hnd. by apply list.NoDup_cons in Hnd as [? _].
    - intros ->. rewrite Eh in El. by injection El as -> _. }
  rewrite (run_reads _ _ _ z), (krun_task _ z c) by done. by rewrite Hzn, bool_decide_eq_false_2 by congruence.
Qed.

Lemma take_out_spec : exists s', take_out t (Some h) s = Some (tt, s') /\ taken s' (without t l).
Proof.
  destruct (decide (t ∈ l)) as [Hin | Hout].
  - pose proof (proj1 Hr) as Hnd. apply list_elem_of_split in Hin as (l1 & l2 & El). rewrite El, without_mid by (by rewrite <- El).
    destruct (decide (l1 ++ l2 = [])) as [[-> ->]%app_nil | Hne]; [by apply take_out_alone|by apply take_out_member].
  - rewrite without_absent by done. exists s. by apply take_out_absent.
Qed.
End take_out.

(** A task leaves the ring, or was not on it; it is blocked either way. *)
Lemma remove_ready_spec root s l t a : ring (k_tasks s) (k_ready s) l -> is_Some (k_ready s) -> k_tasks s !! t = Some a ->
  fs_inv root (k_fs s) -> is_Some (v_tasks (k_fs s) !! t) ->
  exists s' a', task_remove_ready t s = Some (tt, s') /\ ring (k_tasks s') (k_ready s') (without t l) /\ others_same s s' t /\
    k_tasks s' !! t = Some a' /\ t_state a' = TASK_BLOCKED /\ fs_kept root (k_fs s) (k_fs s') /\ only_logs (k_fs s) (k_fs s').
Proof.
  intros Hr [h Hq] Ha Hv [i Hi]. unfold task_remove_ready. rewrite run_gets, Hq, (log_run _ _ _ i) by done.
  pose proof (logged_kept root t EVT_BLOCKED 0 i _ Hv Hi) as Hk. pose proof (logged_only t EVT_BLOCKED 0 i _ Hi) as Ho. set (v := logged _ _ _ _ _) in *.
  rewrite (krun_task _ t a), krun_put by done.
  pose proof (set_state_ring _ _ _ t a TASK_BLOCKED Hr Ha) as Hr1. rewrite Hq in Hr1.
  destruct (take_out_spec s (set_ktasks (insert t (task_set_state a TASK_BLOCKED)) (set_fs v s)) h l t (task_set_state a TASK_BLOCKED))
    as (s' & Hrun & Hr' & Hs' & Ha' & Hv'); [done|done|apply lookup_insert_eq|by apply insert_state_same|].
  eexists s', _. split; [exact Hrun|]. split; [done|]. split; [done|]. split; [exact Ha'|]. split; [done|]. rewrite Hv'. by split.
Qed.

(** ** The ready queue as a list *)

Inductive ready_event := Join (t : nat) | Leave (t : nat).

Definition ready_exec (e : ready_event) : K unit :=
  match e with Join t => task_add_ready t | Leave t => task_remove_ready t end.
Definition ready_step (l : list nat) (e : ready_event) : list nat :=
  match e with Join t => l ++ [t] | Leave t => without t l end.
Fixpoint ready_run (es : list ready_event) : K unit :=
  match es with [] => mret tt | e :: es' => ready_exec e ≫= fun _ => ready_run es' end.

Definition subject (e : ready_event) : nat := match e with Join t | Leave t => t end.
Definition known (s : kern) (t : nat) : Prop := is_Some (k_tasks s !! t) /\ is_Some (v_tasks (k_fs s) !! t).

(** Nobody joins twice. *)
Fixpoint fits (l : list nat) (es : list ready_event) : Prop :=
  match es with
  | [] => True
  | e :: es' => (match e with Join t => t ∉ l | Leave _ => True end) /\ fits (ready_step l e) es'
  end.

Lemma ready_exec_spec root s l e : ring (k_tasks s) (k_ready s) l -> fs_inv root (k_fs s) -> known s (subject e) -> fits l [e] ->
  exists s', ready_exec e s = Some (tt, s') /\ ring (k_tasks s') (k_ready s') (ready_step l e) /\ fs_inv root (k_fs s') /\
    k_current s' = k_current s /\ (forall u, known s u -> known s' u) /\ only_logs (k_fs s) (k_fs s').
Proof.
  intros Hr Hv [[a Ha] Hi] [Hf _]. destruct e as [t | t]; cbn [ready_exec ready_step subject] in *.
  - destruct (add_ready_spec s l t a Hr Ha Hf) as (s' & c & Hrun & Hr' & (H1 & _ & _ & H4) & _ & _ & Hv').
    exists s'. rewrite Hv'. do 4 (split; [done|]). split; [|apply only_logs_refl]. intros u [[b Hb] Hu]. split; [|by rewrite Hv'].
    specialize (H4 u). rewrite Hb in H4. destruct H4 as (b' & Hb' & _). eauto.
  - destruct (k_ready s) as [h|] eqn:Hq.
    + rewrite <- Hq in Hr. destruct (remove_ready_spec root s l t a Hr ltac:(eauto) Ha Hv Hi)
        as (s' & c & Hrun & Hr' & (H1 & _ & _ & H4) & _ & _ & (Hv' & _ & _ & Hi') & Hlog).
      exists s'. do 4 (split; [done|]). split; [|done]. intros u [[b Hb] Hu]. split; [|by apply Hi']. specialize (H4 u).
      rewrite Hb in H4. destruct H4 as (b' & Hb' & _). eauto.
    + destruct l as [|x l]; [|by destruct Hr as [_ [? _]]]. exists s. unfold task_remove_ready. rewrite run_gets, Hq.
      do 5 (split; [done|]). apply only_logs_refl.
Qed.

Lemma ready_run_spec root es : forall s l, ring (k_tasks s) (k_ready s) l -> fs_inv root (k_fs s) ->
  (forall e, e ∈ es -> known s (subject e)) -> fits l es ->
  exists s', ready_run es s = Some (tt, s') /\ ring (k_tasks s') (k_ready s') (fold_left ready_step es l) /\
    fs_inv root (k_fs s') /\ only_logs (k_fs s) (k_fs s') /\ k_current s' = k_current s.
Proof.
  induction es as [|e es IH]; intros s l Hr Hv Hk Hf; cbn [ready_run fold_left]; [exists s; do 3 (split; [done|]); split; [apply only_logs_refl|done]|].
  destruct Hf as [Hf1 Hf2]. destruct (ready_exec_spec root s l e Hr Hv) as (s1 & Hrun & Hr1 & Hv1 & Hc1 & Hk1 & Hl1).
  { apply Hk. apply elem_of_cons; auto. }
  { by split. }
  rewrite (run_bind _ _ _ _ _ Hrun). destruct (IH s1 _ Hr1 Hv1) as (s' & Hrun' & Hr' & Hv' & Hl' & Hc'); [|done|].
  { intros e' He'. apply Hk1, Hk. apply elem_of_cons; auto. }
  exists s'. do 3 (split; [done|]). split; [by eapply only_logs_trans|]. congruence.
Qed.

(** ** The list of all tasks *)

Fixpoint all_list (ts : gmap nat task) (p : option nat) (l : list nat) : Prop :=
  match l with
  | [] => p = None
  | x :: l' => p = Some x /\ exists a, ts !! x = Some a /\ all_list ts (t_all_next a) l'
  end.

Lemma all_list_mem ts p l x : all_list ts p l -> x ∈ l -> is_Some (ts !! x).
Proof.
  revert p. induction l as [|y l IH]; intros p Hp Hx; [by apply elem_of_nil in Hx|].
  destruct Hp as (_ & a & Ha & Hp). apply elem_of_cons in Hx as [-> | Hx]; [eauto|by eapply IH].
Qed.

Lemma all_list_frame ts ts' p l : all_list ts p l ->
  (forall x a, x ∈ l -> ts !! x = Some a -> exists a', ts' !! x = Some a' /\ t_all_next a' = t_all_next a) -> all_list ts' p l.
Proof.
  revert p. induction l as [|y l IH]; intros p Hp Hf; [done|]. destruct Hp as (-> & a & Ha & Hp). split; [done|].
  destruct (Hf y a ltac:(apply elem_of_cons; auto) Ha) as (a' & Ha' & Hn). exists a'. split; [done|]. rewrite Hn.
  apply (IH _ Hp). intros x b Hx. apply Hf. apply elem_of_cons; auto.
Qed.

Lemma all_list_size ts p l : all_list ts p l -> NoDup l -> (length l <= size ts)%nat.
Proof.
  intros Hp Hnd. rewrite <- (size_dom ts), <- (size_list_to_set (C := gset nat) l) by done.
  apply subseteq_size. intros x Hx. apply elem_of_list_to_set in Hx. apply elem_of_dom. by eapply all_list_mem.
Qed.

(** A child [sys_waitpid] waits for; one that has finished. *)
Definition awaited (ts : gmap nat task) (parent : nat) (target : Z) (x : nat) : bool :=
  match ts !! x with
  | Some a => bool_decide (t_parent a = Some parent) && ((target =? -1) || (t_pid a =? u32 target))
  | None => false
  end.
Definition finished (ts : gmap nat task) (parent : nat) (target : Z) (x : nat) : bool :=
  awaited ts parent target x && bool_decide (t_state <$> ts !! x = Some TASK_ZOMBIE).

Lemma wait_scan_spec ts parent target : forall l fuel p has, all_list ts p l -> (length l <= fuel)%nat ->
  wait_scan fuel ts parent target p has = Some (match List.find (finished ts parent target) l with
    | Some x => (Some x, true)
    | None => (None, has || existsb (awaited ts parent target) l)
    end).
Proof.
  induction l as [|x l IH]; intros fuel p has Hp Hf.
  { simpl in Hp. subst p. destruct fuel; simpl; by rewrite orb_false_r. }
  destruct fuel as [|fuel]; [simpl in Hf; lia|]. destruct Hp as (-> & a & Ha & Hp). cbn [wait_scan List.find existsb].
  unfold finished at 1, awaited at 1 2. rewrite Ha. cbn [mbind option_bind fmap option_fmap option_map].
  simpl in Hf. destruct (bool_decide (t_parent a = Some parent) && _) eqn:Haw; cbn [andb].
  - destruct (decide (t_state a = TASK_ZOMBIE)) as [Hz | Hz]; [by rewrite !bool_decide_eq_true_2 by congruence|].
    rewrite !bool_decide_eq_false_2 by congruence. rewrite (IH fuel _ true Hp) by lia.
    destruct (List.find _ l); [done|]. by destruct has.
  - rewrite (IH fuel _ has Hp) by lia. done.
Qed.

Lemma all_before_spec ts x l2 : forall l1 fuel p z, all_list ts p (l1 ++ z :: x :: l2) -> x ∉ tail (l1 ++ [z]) ->
  (length l1 < fuel)%nat -> all_before fuel ts x p = Some z.
Proof.
  induction l1 as [|y l1 IH]; intros fuel p z Hp Hx Hf; (destruct fuel as [|fuel]; [simpl in Hf; lia|]); cbn [app] in Hp.
  - destruct Hp as (-> & a & Ha & Hn & _). cbn [all_before mbind option_bind]. rewrite Ha. cbn [mbind option_bind].
    by rewrite Hn, bool_decide_eq_true_2.
  - destruct Hp as (-> & a & Ha & Hp). cbn [all_before mbind option_bind]. rewrite Ha. cbn [mbind option_bind].
    cbn [app tail] in Hx. rewrite bool_decide_eq_false_2.
    + apply (IH _ _ _ Hp); [|simpl in Hf; lia]. intros Hin. apply Hx. destruct l1; simpl in *; [by apply elem_of_nil in Hin|].
      apply elem_of_cons; auto.
    + intros Hn. rewrite Hn in Hp. destruct l1 as [|w l1]; cbn [app] in Hp, Hx; destruct Hp as ([= ->] & _); apply Hx; apply elem_of_cons; auto.
Qed.

Lemma all_list_cut ts x z l2 a b : forall l1 p, all_list ts p (l1 ++ z :: x :: l2) -> NoDup (l1 ++ z :: x :: l2) ->
  ts !! x = Some a -> ts !! z = Some b ->
  all_list (delete x (<[z := task_set_all_next b (t_all_next a)]> ts)) p (l1 ++ z :: l2).
Proof.
  induction l1 as [|y l1 IH]; intros p Hp Hnd Ha Hb; cbn [app] in *; destruct Hp as (-> & c & Hc & Hp); (split; [done|]).
  - apply list.NoDup_cons in Hnd as [Hz Hnd]. apply not_elem_of_cons in Hz as [Hzx Hz]. apply list.NoDup_cons in Hnd as [Hx _].
    rewrite lookup_delete_ne, lookup_insert_eq by done. eexists. split; [done|]. cbn.
    destruct Hp as (_ & a' & Ha' & Hp). assert (a' = a) as -> by congruence. apply (all_list_frame _ _ _ _ Hp).
    intros y d Hy Hd. exists d. rewrite lookup_delete_ne, lookup_insert_ne by (by intros <-). done.
  - apply list.NoDup_cons in Hnd as [Hy Hnd]. rewrite lookup_delete_ne, lookup_insert_ne by (intros <-; apply Hy; set_solver).
    exists c. split; [done|]. by apply IH.
Qed.

(** A task as it was, but for its place on the list of all tasks. *)
Definition relisted (ts ts' : gmap nat task) (x : nat) : Prop := forall y, y <> x ->
  match ts !! y with
  | Some b => exists p, ts' !! y = Some (task_set_all_next b p)
  | None => ts' !! y = None
  end.

Lemma relisted_delete ts x : relisted ts (delete x ts) x.
Proof.
  intros y Hy. rewrite lookup_delete_ne by done. destruct (ts !! y) as [b|]; [|done]. exists (t_all_next b). by destruct b.
Qed.

Lemma reap_spec s l x a : all_list (k_tasks s) (k_all s) l -> NoDup l -> x ∈ l -> k_tasks s !! x = Some a ->
  exists s', reap x s = Some ((t_pid a, t_exit_code a), s') /\ all_list (k_tasks s') (k_all s') (without x l) /\
    k_tasks s' !! x = None /\ relisted (k_tasks s) (k_tasks s') x /\ k_fs s' = set_tasks (delete x) (k_fs s) /\
    k_ready s' = k_ready s /\ k_current s' = k_current s.
Proof.
  intros Hl Hnd Hin Ha. unfold reap. rewrite (krun_task _ x a), run_gets by done.
  apply list_elem_of_split in Hin as (l1 & l2 & ->). rewrite without_mid by done.
  destruct (snoc_cases l1) as [-> | (k & z & ->)]; cbn [app] in *.
  - destruct Hl as (Hq & a' & Ha' & Hl). assert (a' = a) as -> by congruence. rewrite Hq, bool_decide_eq_true_2 by done.
    rewrite run_modify, run_modify. eexists. split; [reflexivity|]. cbn. split; [|split; [apply lookup_delete_eq|]].
    + apply (all_list_frame _ _ _ _ Hl). intros y b Hy Hb. exists b. split; [|done]. rewrite lookup_delete_ne; [done|].
      intros <-. by apply list.NoDup_cons in Hnd as [? _].
    + split; [apply relisted_delete|]. done.
  - rewrite <- app_assoc in *. cbn [app] in *.
    destruct (all_list_mem _ _ _ z Hl ltac:(set_solver)) as [b Hb]. assert (Hnd0 := Hnd).
    apply list.NoDup_app in Hnd0 as (_ & Hd & Hnd0). apply list.NoDup_cons in Hnd0 as [Hzx _]. apply not_elem_of_cons in Hzx as [Hzx _].
    rewrite bool_decide_eq_false_2.
    2: { destruct k; cbn [app] in *; destruct Hl as [-> _]; [congruence|]. intros [= ->]. apply (Hd x); set_solver. }
    rewrite !run_assoc, (run_reads _ _ _ z).
    2: { pose proof (all_list_size _ _ _ Hl Hnd) as Hsz. rewrite length_app in Hsz. simpl in Hsz.
         apply (all_before_spec _ x l2 k _ _ z Hl); [|lia]. intros Hx.
         assert (x ∈ k ++ [z]) by (destruct (k ++ [z]); [done|]; simpl in Hx; apply elem_of_cons; auto).
         apply elem_of_app in H as [Hk | Hk%list_elem_of_singleton]; [apply (Hd x Hk); set_solver|congruence]. }
    rewrite run_assoc, (krun_task _ z b), krun_put, run_modify by done. eexists. split; [reflexivity|]. cbn.
    split; [by apply all_list_cut|]. split; [apply lookup_delete_eq|]. split; [|done].
    intros y Hy. rewrite lookup_delete_ne by done. destruct (decide (z = y)) as [<- | ?].
    + rewrite lookup_insert_eq, Hb. eauto.
    + rewrite lookup_insert_ne by done. destruct (k_tasks s !! y) as [c|]; [|done]. exists (t_all_next c). by destruct c.
Qed.
