(* ===== verification/TaskRun.v ===== *)
(** * The tasks in any run

    One invariant over the ring, the list of all tasks and the file system, and
    the calls of [kernel/Process/task.c] that keep it: creation, [schedule],
    [sys_exit] and [sys_waitpid]. *)

From stdpp Require Import gmap.
From S2P Require Import Prelude StateMonad SlotTable Vfs VfsTree VfsInv VfsCalls VfsRun Task TaskRing TaskLife.

#[local] Open Scope Z_scope.

(** ** States that change while all else stays *)

Definition restated (ts ts' : gmap nat task) : Prop := forall x,
  match ts !! x with
  | Some a => exists st, ts' !! x = Some (task_set_state a st) /\ (st = TASK_ZOMBIE <-> t_state a = TASK_ZOMBIE)
  | None => ts' !! x = None
  end.

Lemma restated_refl ts : restated ts ts.
Proof. intros x. destruct (ts !! x) as [a|]; [|done]. exists (t_state a). by destruct a. Qed.

Lemma restated_set ts ts' x a st : restated ts ts' -> ts' !! x = Some a -> t_state a <> TASK_ZOMBIE -> st <> TASK_ZOMBIE ->
  restated ts (<[x := task_set_state a st]> ts').
Proof.
  intros Hr Ha Hz Hst y. specialize (Hr y). destruct (decide (x = y)) as [<- | Hne].
  - rewrite lookup_insert_eq. destruct (ts !! x) as [b|]; [|congruence]. destruct Hr as (st' & Hx & Hb).
    rewrite Ha in Hx. injection Hx as ->. exists st. split; [done|]. simpl in Hz. tauto.
  - by rewrite lookup_insert_ne.
Qed.

Lemma restated_next ts ts' : restated ts ts' -> forall x a, ts !! x = Some a ->
  exists a', ts' !! x = Some a' /\ t_next a' = t_next a /\ t_all_next a' = t_all_next a.
Proof. intros Hr x a Ha. specialize (Hr x). rewrite Ha in Hr. destruct Hr as (st & Hx & _). by eexists. Qed.

Lemma restated_ring ts ts' q l : restated ts ts' -> ring ts q l -> ring ts' q l.
Proof.
  intros Hr Hl. apply (ring_frame _ _ _ _ Hl). intros y a _ Ha. destruct (restated_next _ _ Hr y a Ha) as (a' & ? & ? & _). eauto.
Qed.

Lemma restated_all ts ts' p l : restated ts ts' -> all_list ts p l -> all_list ts' p l.
Proof.
  intros Hr Hp. apply (all_list_frame _ _ _ _ Hp). intros y a _ Ha.
  destruct (restated_next _ _ Hr y a Ha) as (a' & ? & _ & ?). eauto.
Qed.

Lemma restated_some ts ts' x : restated ts ts' -> is_Some (ts' !! x) <-> is_Some (ts !! x).
Proof.
  intros Hr. specialize (Hr x). destruct (ts !! x) as [a|]; [destruct Hr as (st & -> & _); split; eauto|rewrite Hr; done].
Qed.

(** ** [schedule], whatever the state of the current task *)

Definition rescheduled (s : kern) (c : nat) (o : list nat) (a : task) (s' : kern) (n : nat) : Prop :=
  restated (k_tasks s) (k_tasks s') /\ k_current s' = Some n /\ n ∈ o /\
  k_ready s' = k_ready s /\ k_all s' = k_all s /\ k_next_pid s' = k_next_pid s /\
  (n = c /\ s' = s \/ k_fs s' = set_current n (k_fs s)) /\
  (t_state a <> TASK_READY -> n = default c (List.find (runnable (k_tasks s) (Some c)) o)) /\
  (t_state a = TASK_BLOCKED -> k_tasks s' !! c = Some a).

Lemma schedule_any s c o a : turns (k_tasks s) c o -> is_Some (k_ready s) -> k_current s = Some c ->
  (length o <= PICK_GUARD)%nat -> k_tasks s !! c = Some a -> t_state a <> TASK_ZOMBIE ->
  exists s' n, schedule s = Some (tt, s') /\ rescheduled s c o a s' n.
Proof.
  intros Ho Hq Hc Hlen Ha Hz. unfold schedule. rewrite run_gets, (run_bind _ _ _ _ _ (pick_next_spec s c o Ho Hq Hc Hlen)).
  assert (Hco : c ∈ o) by (destruct Ho as (_ & ? & o' & _ & -> & _); set_solver). unfold rescheduled, round_robin.
  destruct (List.find (runnable (k_tasks s) (Some c)) o) as [n|] eqn:Hf.
  - apply List.find_some in Hf as [Hno Hn]. apply list_elem_of_In in Hno. unfold runnable in Hn.
    destruct (k_tasks s !! n) as [b|] eqn:Hb; [|done].
    apply andb_true_iff in Hn as [Hn1 Hn2]. apply bool_decide_eq_true in Hn1, Hn2. assert (Hnc : n <> c) by congruence.
    rewrite Hc, (bool_decide_eq_false_2 (n = c)), (krun_task _ c a) by done.
    destruct (decide (t_state a = TASK_RUNNING)) as [Hrun | Hrun].
    + rewrite bool_decide_eq_true_2 by done. rewrite krun_put, (krun_task _ n b) by (done || (cbn; by rewrite lookup_insert_ne)).
      rewrite krun_put. eexists _, n. split; [reflexivity|]. cbn. split.
      { apply restated_set; [apply restated_set; [apply restated_refl|done..]|by rewrite lookup_insert_ne|congruence|done]. }
      do 5 (split; [done|]). split; [by right|]. split; [done|]. congruence.
    + rewrite bool_decide_eq_false_2 by done. rewrite run_ret, (krun_task _ n b), krun_put by done.
      eexists _, n. split; [reflexivity|]. cbn. split; [apply restated_set; [apply restated_refl|done|congruence|done]|].
      do 5 (split; [done|]). split; [by right|]. split; [done|]. intros _. by rewrite lookup_insert_ne.
  - rewrite Ha. cbn [fmap option_fmap option_map]. exists s, c. split.
    { case_bool_decide; [by rewrite Hc, bool_decide_eq_true_2|done]. }
    split; [apply restated_refl|]. do 5 (split; [done|]). split; [by left|]. done.
Qed.

(** ** The invariant *)

(** A finished task has no descriptors left. *)
Definition bare (i : io) : Prop := forall k, (k < TASK_MAX_FDS)%nat -> io_fds i !! k = Some None.

(** [c] is the current task, [l] the ring, [al] the list of all tasks. *)
Record task_inv (root : nat) (s : kern) (c : nat) (l al : list nat) : Prop := {
  ti_fs : fs_inv root (k_fs s);
  ti_current : k_current s = Some c;
  ti_same : v_current (k_fs s) = c;
  ti_ring : ring (k_tasks s) (k_ready s) l;
  ti_on : c ∈ l;
  ti_all : all_list (k_tasks s) (k_all s) al;
  ti_once : NoDup al;
  ti_listed : forall x, is_Some (k_tasks s !! x) -> x ∈ al;
  ti_io : forall x, is_Some (k_tasks s !! x) <-> is_Some (v_tasks (k_fs s) !! x);
  ti_fresh : forall x, is_Some (k_tasks s !! x) -> (x < v_fresh (k_fs s))%nat;
  ti_alive : forall x a, x ∈ l -> k_tasks s !! x = Some a -> t_state a <> TASK_ZOMBIE;
  ti_bare : forall x a i, k_tasks s !! x = Some a -> t_state a = TASK_ZOMBIE -> v_tasks (k_fs s) !! x = Some i -> bare i }.

Section inv.
Context (root : nat) (s : kern) (c : nat) (l al : list nat).
Context (Hs : task_inv root s c l al).

Lemma ti_split : exists l1 l2 a, l = l1 ++ c :: l2 /\ k_tasks s !! c = Some a /\ turns (k_tasks s) c (l2 ++ l1 ++ [c]) /\ is_Some (k_ready s).
Proof.
  destruct (list_elem_of_split _ _ (ti_on _ _ _ _ _ Hs)) as (l1 & l2 & El).
  pose proof (ti_ring _ _ _ _ _ Hs) as Hr. rewrite El in Hr.
  pose proof (ring_turns _ _ _ _ _ Hr) as Ht. pose proof Ht as (_ & a & _ & Ha & _). exists l1, l2, a.
  do 3 (split; [done|]). destruct Hr as [_ Hq]. destruct l1; simpl in Hq; destruct Hq as [-> _]; eauto.
Qed.

Lemma ti_ring_io x : x ∈ l -> known s x.
Proof.
  intros Hx. pose proof (ti_ring _ _ _ _ _ Hs) as [_ Hq]. assert (Hk : is_Some (k_tasks s !! x)).
  { destruct l as [|h l']; [by apply elem_of_nil in Hx|]. destruct Hq as [_ Hp]. by eapply path_mem. }
  split; [done|]. by apply (ti_io _ _ _ _ _ Hs).
Qed.

(** States change, and the machine goes on with another task of the ring. *)
Lemma ti_restate s' n : restated (k_tasks s) (k_tasks s') -> k_current s' = Some n -> n ∈ l ->
  k_ready s' = k_ready s -> k_all s' = k_all s -> k_fs s' = set_current n (k_fs s) -> task_inv root s' n l al.
Proof.
  intros Hst Hn Hnl Hq Hal Hv. destruct Hs as [H1 H2 H3 H4 H5 H6 H7 H8 H9 Hfr H10 H11].
  split; rewrite ?Hq, ?Hal, ?Hv; cbn; try done.
  - destruct H1 as [F1 F2 F3 F4 F5 F6]. split; try done. cbn. by apply (ti_ring_io n Hnl).
  - by apply (restated_ring (k_tasks s)).
  - by apply (restated_all (k_tasks s)).
  - intros x Hx. apply H8. by apply (restated_some _ _ x Hst).
  - intros x. rewrite (restated_some _ _ x Hst). apply H9.
  - intros x Hx. apply Hfr. by apply (restated_some _ _ x Hst).
  - intros x a' Hx Ha'. specialize (Hst x). destruct (k_tasks s !! x) as [a|] eqn:Ha; [|congruence].
    destruct Hst as (st & E & Hz). assert (a' = task_set_state a st) as -> by congruence. cbn. rewrite Hz. eauto.
  - intros x a' i Ha' Hz' Hi. specialize (Hst x). destruct (k_tasks s !! x) as [a|] eqn:Ha; [|congruence].
    destruct Hst as (st & E & Hz). assert (a' = task_set_state a st) as -> by congruence. cbn in Hz'. apply Hz in Hz'. eauto.
Qed.
End inv.

Lemma set_current_id v c : v_current v = c -> set_current c v = v.
Proof. intros <-. by destruct v. Qed.

Lemma schedule_inv root s c l al : task_inv root s c l al -> (length l <= PICK_GUARD)%nat ->
  exists s' n, schedule s = Some (tt, s') /\ task_inv root s' n l al.
Proof.
  intros Hs Hlen. destruct (ti_split _ _ _ _ _ Hs) as (l1 & l2 & a & El & Ha & Ht & Hq).
  destruct (schedule_any s c _ a Ht Hq (ti_current _ _ _ _ _ Hs)) as (s' & n & Hrun & H1 & H2 & H3 & H4 & H5 & _ & H7 & _); [|done| |].
  { rewrite El, length_app in Hlen. simpl in Hlen. rewrite !length_app. simpl. lia. }
  { apply (ti_alive _ _ _ _ _ Hs c); [apply Hs|done]. }
  exists s', n. split; [done|]. apply (ti_restate root s c l al Hs); try done; [rewrite El; set_solver|].
  destruct H7 as [[-> ->] | ?]; [|done]. symmetry. apply set_current_id, Hs.
Qed.

(** ** [sys_waitpid] *)

Lemma without_spec x y l : y ∈ without x l <-> y <> x /\ y ∈ l.
Proof. unfold without. rewrite !list_elem_of_In, List.filter_In, negb_true_iff, bool_decide_eq_false. tauto. Qed.

Lemma without_nodup x l : NoDup l -> NoDup (without x l).
Proof. intros Hl. apply NoDup_ListNoDup, List.NoDup_filter, NoDup_ListNoDup, Hl. Qed.

Lemma finished_spec ts c target x : finished ts c target x = true ->
  exists b, ts !! x = Some b /\ t_parent b = Some c /\ t_state b = TASK_ZOMBIE /\ (target = -1 \/ t_pid b = u32 target).
Proof.
  unfold finished, awaited. destruct (ts !! x) as [b|]; [|done]. intros [[H1 H2]%andb_true_iff H3]%andb_true_iff.
  apply bool_decide_eq_true in H1, H3. cbn in H3. exists b. do 2 (split; [done|]). split; [congruence|].
  apply orb_true_iff in H2 as [H2 | H2]; apply Z.eqb_eq in H2; tauto.
Qed.

Lemma reaped_inv root s c l al x b : task_inv root s c l al -> k_tasks s !! x = Some b -> t_state b = TASK_ZOMBIE ->
  exists s', reap x s = Some ((t_pid b, t_exit_code b), s') /\ k_tasks s' !! x = None /\ relisted (k_tasks s) (k_tasks s') x /\
    task_inv root s' c l (without x al).
Proof.
  intros Hs Hb Hz. pose proof Hs as [H1 H2 H3 H4 H5 H6 H7 H8 H9 Hfr H10 H11].
  destruct (reap_spec s al x b H6 H7 (H8 x ltac:(eauto)) Hb) as (s' & Hrun & Hal & Hx & Hre & Hv & Hq & Hc).
  exists s'. do 3 (split; [done|]). assert (Hxl : x ∉ l) by (intros Hin; by apply (H10 x b)).
  assert (Hxc : x <> c) by (intros ->; done).
  assert (Hget : forall y a', k_tasks s' !! y = Some a' -> y <> x /\ exists a, k_tasks s !! y = Some a /\ t_state a' = t_state a).
  { intros y a' Ha'. assert (Hyx : y <> x) by (intros ->; congruence). split; [done|]. specialize (Hre y Hyx).
    destruct (k_tasks s !! y) as [a|]; [|congruence]. destruct Hre as [p Hp]. exists a. split; [done|]. rewrite Hp in Ha'. by injection Ha' as <-. }
  split; rewrite ?Hq, ?Hc, ?Hv; cbn; try done.
  - destruct (proj1 (H9 x) ltac:(eauto)) as [i Hi]. apply (reap_inv root _ x i); [done|done|congruence|]. intros k. by apply (H11 x b).
  - apply (ring_frame _ _ _ _ H4). intros y a Hy Ha. specialize (Hre y ltac:(by intros ->)). rewrite Ha in Hre.
    destruct Hre as [p Hp']. by eexists.
  - by apply without_nodup.
  - intros y [a' Ha']. destruct (Hget y a' Ha') as (Hyx & a & Ha & _). apply without_spec. split; [done|]. eauto.
  - intros y. destruct (decide (y = x)) as [-> | Hyx]; [by rewrite Hx, lookup_delete_eq|]. rewrite lookup_delete_ne, <- H9 by done.
    specialize (Hre y Hyx). destruct (k_tasks s !! y) as [a|]; [destruct Hre as [p ->]; split; eauto|by rewrite Hre].
  - intros y [a' Ha']. destruct (Hget y a' Ha') as (_ & a & Ha & _). eauto.
  - intros y a' Hy Ha'. destruct (Hget y a' Ha') as (_ & a & Ha & ->). eauto.
  - intros y a' i Ha' Hz' Hi. destruct (Hget y a' Ha') as (Hyx & a & Ha & Hst). rewrite lookup_delete_ne in Hi by done.
    apply (H11 y a i Ha); [congruence|done].
Qed.

Lemma runnable_self ts c a x : runnable (<[c := a]> ts) (Some c) x = runnable ts (Some c) x.
Proof.
  unfold runnable. destruct (decide (c = x)) as [<- | ?]; [|by rewrite lookup_insert_ne].
  rewrite lookup_insert_eq, (bool_decide_eq_false_2 (Some c <> Some c)), andb_false_r by tauto. destruct (ts !! c); [|done].
  by rewrite andb_false_r.
Qed.

Lemma find_ext {A} (f g : A -> bool) l : (forall x, f x = g x) -> List.find f l = List.find g l.
Proof. intros Hfg. induction l as [|x l IH]; [done|]. cbn. by rewrite Hfg, IH. Qed.

Lemma find_self ts c l : List.find (runnable ts (Some c)) (l ++ [c]) = List.find (runnable ts (Some c)) l.
Proof.
  induction l as [|x l IH]; cbn; [|by rewrite IH]. unfold runnable. destruct (ts !! c); [|done].
  by rewrite (bool_decide_eq_false_2 (Some c <> Some c)), andb_false_r by tauto.
Qed.

(** What a call of [sys_waitpid] does until it returns or lets others run. *)
Definition waited (root : nat) (s : kern) (c : nat) (l al : list nat) (target : Z) (r : wait_outcome) (s' : kern) : Prop :=
  match List.find (finished (k_tasks s) c target) al with
  | Some x => exists b, k_tasks s !! x = Some b /\ r = Reaped (t_pid b) (t_exit_code b) /\
      k_tasks s' !! x = None /\ relisted (k_tasks s) (k_tasks s') x /\ task_inv root s' c l (without x al)
  | None =>
      if existsb (awaited (k_tasks s) c target) al then
        r = Waiting /\ exists l1 l2 a n, l = l1 ++ c :: l2 /\ task_inv root s' n l al /\
          k_tasks s' !! c = Some a /\ t_state a = TASK_BLOCKED /\
          n = default c (List.find (runnable (k_tasks s) (Some c)) (l2 ++ l1))
      else r = NoChildren /\ s' = s
  end.

Lemma waitpid_turn_spec root s c l al target : task_inv root s c l al -> (length l <= PICK_GUARD)%nat ->
  exists r s', waitpid_turn target s = Some (r, s') /\ waited root s c l al target r s'.
Proof.
  intros Hs Hlen. unfold waitpid_turn, waited. rewrite run_gets, (ti_current _ _ _ _ _ Hs).
  pose proof (all_list_size _ _ _ (ti_all _ _ _ _ _ Hs) (ti_once _ _ _ _ _ Hs)) as Hsz.
  rewrite (run_reads (fun s => wait_scan (size (k_tasks s)) (k_tasks s) c target (k_all s) false) _ s _ (wait_scan_spec _ c target al _ _ false (ti_all _ _ _ _ _ Hs) Hsz)).
  destruct (List.find (finished _ _ _) al) as [x|] eqn:Hf.
  { apply List.find_some in Hf as [_ Hf]. apply finished_spec in Hf as (b & Hb & _ & Hz & _).
    destruct (reaped_inv root s c l al x b Hs Hb Hz) as (s' & Hrun & Hx & Hre & Hs').
    rewrite (run_bind _ _ _ _ _ Hrun). eexists _, s'. split; [reflexivity|]. by exists b. }
  cbn [orb]. destruct (existsb _ al); cbn [negb]; [|by eexists _, _].
  destruct (ti_split _ _ _ _ _ Hs) as (l1 & l2 & a & El & Ha & Ht & Hq).
  rewrite (krun_task _ c a), krun_put by done. set (a1 := task_set_state a TASK_BLOCKED). set (s1 := set_ktasks _ s).
  assert (Hre : restated (k_tasks s) (k_tasks s1)).
  { apply (restated_set _ _ c a TASK_BLOCKED); [apply restated_refl|done| |done]. apply (ti_alive _ _ _ _ _ Hs c); [apply Hs|done]. }
  assert (Hs1 : task_inv root s1 c l al).
  { apply (ti_restate root s c l al Hs); try done; [apply Hs|apply Hs|]. symmetry. apply set_current_id, Hs. }
  assert (Ha1 : k_tasks s1 !! c = Some a1) by apply lookup_insert_eq.
  assert (Ht1 : turns (k_tasks s1) c (l2 ++ l1 ++ [c])).
  { apply (turns_frame _ _ _ _ Ht). intros x b Hb. destruct (restated_next _ _ Hre x b Hb) as (b' & ? & ? & _). eauto. }
  destruct (schedule_any s1 c _ a1 Ht1 Hq (ti_current _ _ _ _ _ Hs)) as (s' & n & Hrun & G1 & G2 & G3 & G4 & G5 & _ & G7 & G8 & G9); [|done|done|].
  { rewrite El, length_app in Hlen. simpl in Hlen. rewrite !length_app. simpl. lia. }
  rewrite (run_bind _ _ _ _ _ Hrun). eexists _, s'. split; [reflexivity|]. split; [done|]. exists l1, l2, a1, n.
  split; [done|]. split.
  { apply (ti_restate root s1 c l al Hs1); try done; [rewrite El; set_solver|].
    destruct G7 as [[-> ->] | ?]; [|done]. symmetry. apply set_current_id, Hs. }
  split; [by apply G9|]. split; [done|]. rewrite G8 by done. rewrite app_assoc, find_self. f_equal. apply find_ext, runnable_self.
Qed.

(** ** [sys_exit] *)

(** A task that has left the ring still knows its successor. *)
Lemma pick_next_left s c a o : k_current s = Some c -> k_tasks s !! c = Some a -> t_state a <> TASK_READY ->
  is_Some (k_ready s) -> o <> [] -> path (k_tasks s) (t_next a) o (t_next a) -> NoDup o -> c ∉ o -> (length o <= PICK_GUARD)%nat ->
  pick_next_task s = Some (List.find (runnable (k_tasks s) (Some c)) o, s).
Proof.
  intros Hc Ha Hst [h Hq] Ho Hp Hnd Hco Hlen. destruct o as [|st o2]; [done|]. pose proof Hp as (Hn & _). rewrite Hn in Hp.
  unfold pick_next_task. rewrite run_gets, Hq, run_gets, Hc, run_assoc, (krun_task _ c a), run_ret by done. rewrite Hn.
  destruct (pick_walk_spec (k_tasks s) (Some c) (Some st) (st :: o2) PICK_GUARD None st o2 Hp eq_refl Hnd) as (fb & Hrun & Hfb).
  { intros Hin. apply list_elem_of_fmap in Hin as (y & [= <-] & Hy). by apply list.NoDup_cons in Hnd as [? _]. }
  { done. }
  rewrite (run_reads (fun s => pick_walk PICK_GUARD (k_tasks s) (Some c) (Some st) st None) _ s _ Hrun). cbv beta iota. destruct (List.find _ _) as [t|] eqn:Hf; [done|].
  rewrite (krun_task _ c a), bool_decide_eq_false_2 by done. unfold mret, ST_ret. do 2 f_equal.
  destruct (Hfb eq_refl) as [-> | (x & b & Hx & -> & Hb & Hbr)]; [done|]. exfalso. assert (Hxc : x <> c) by (by intros ->).
  apply list_elem_of_In in Hx. pose proof (List.find_none _ _ Hf x Hx) as Hno. unfold runnable in Hno. rewrite Hb in Hno.
  rewrite !bool_decide_eq_true_2 in Hno by congruence. done.
Qed.

(** The successor of a task, and the way round the ring without it. *)
Lemma ring_skip ts q l1 c l2 a : ring ts q (l1 ++ c :: l2) -> ts !! c = Some a -> l1 ++ l2 <> [] ->
  exists n o, l2 ++ l1 = n :: o /\ t_next a = Some n /\ n <> c.
Proof.
  intros Hr Ha Hne. destruct (ring_turns _ _ _ _ _ Hr) as (Hnd & a' & o' & Ha' & _ & Hp). assert (a' = a) as -> by congruence.
  destruct (l2 ++ l1) as [|n o] eqn:E; [apply app_nil in E as [-> ->]; done|]. rewrite app_assoc, E in Hp, Hnd.
  destruct Hp as [Hn _]. exists n, o. split; [done|]. split; [done|]. intros ->. apply list.NoDup_cons in Hnd as [Hx _]. set_solver.
Qed.

Lemma ring_round ts q l1 l2 n o : ring ts q (l1 ++ l2) -> l2 ++ l1 = n :: o -> path ts (Some n) (l2 ++ l1) (Some n) /\ NoDup (l2 ++ l1).
Proof.
  intros [Hnd Hq] E. assert (Hp : path ts q (l1 ++ l2) q).
  { destruct (l1 ++ l2) eqn:E2; [|tauto]. apply app_nil in E2 as [-> ->]. done. }
  apply path_app in Hp as (m & H1 & H2). assert (Hp : path ts m (l2 ++ l1) m) by (apply path_app; eauto).
  split; [|by rewrite Permutation_app_comm in Hnd]. rewrite E in Hp |- *. pose proof Hp as [Hm _]. by rewrite Hm in Hp.
Qed.

(** A parent that waits is woken. *)
Definition woken (ts : gmap nat task) (p : option nat) : gmap nat task :=
  match p with
  | Some x => match ts !! x with
              | Some a => if bool_decide (t_state a = TASK_BLOCKED) then <[x := task_set_state a TASK_READY]> ts else ts
              | None => ts
              end
  | None => ts
  end.

Lemma woken_restated ts p : restated ts (woken ts p).
Proof.
  destruct p as [x|]; [|apply restated_refl]. cbn. destruct (ts !! x) as [a|] eqn:Ha; [|apply restated_refl].
  case_bool_decide as Hb; [|apply restated_refl]. apply restated_set; [apply restated_refl|done|congruence|done].
Qed.

Lemma krun_fs {A B} (m : M A) (k : A -> K B) s r v : m (k_fs s) = Some (r, v) -> (fs m ≫= k) s = k r (set_fs v s).
Proof. intros Hm. unfold fs, mbind, ST_bind. by rewrite Hm. Qed.

Lemma woken_run {B} s p (k : unit -> K B) : (forall x, p = Some x -> is_Some (k_tasks s !! x)) ->
  (wake_parent p ≫= k) s = k tt (set_ktasks (fun _ => woken (k_tasks s) p) s).
Proof.
  intros Hp. destruct p as [x|]; [|by destruct s]. destruct (Hp x eq_refl) as [a Ha]. unfold wake_parent, woken.
  rewrite run_assoc, (krun_task _ x a) by done. rewrite Ha. case_bool_decide; [done|]. by destruct s.
Qed.

Lemma exit_unlink_spec s c a l1 l2 : ring (k_tasks s) (k_ready s) (l1 ++ c :: l2) -> k_tasks s !! c = Some a -> l1 ++ l2 <> [] ->
  exists s', exit_unlink c (t_next a) s = Some (tt, s') /\ taken s s c a s' (l1 ++ l2).
Proof.
  intros Hr Ha Hne. destruct (leave_spec _ _ _ _ _ _ Hr Ha Hne) as (z & b & Hz & _ & Hzn & _ & Hw & _ & Hr2).
  unfold exit_unlink. rewrite run_gets, (run_reads _ _ _ z), (krun_task _ z b), krun_put by done.
  assert (Hsame : others_same s s c).
  { do 3 (split; [done|]). intros x. destruct (k_tasks s !! x) as [e|]; [by exists e|done]. }
  assert (Hz2 : k_tasks (set_ktasks (insert z (task_set_next b (t_next a))) s) !! c = Some a) by (cbn; by rewrite lookup_insert_ne).
  destruct Hr as [Hnd Hq]. destruct l1 as [|w l1]; cbn [app] in Hq, Hnd; destruct Hq as [Hq _]; rewrite Hq in *.
  - rewrite bool_decide_eq_true_2 by done. eexists. split; [reflexivity|]. split; [done|].
    split; [by apply (others_relink s s c z b (t_next a) (t_next a))|]. done.
  - rewrite bool_decide_eq_false_2 by (intros [= ->]; apply list.NoDup_cons in Hnd as [Hx _]; set_solver).
    eexists. split; [reflexivity|]. split; [cbn; by rewrite Hq|]. split; [|done].
    rewrite <- (set_ready_id (set_ktasks _ s)). by apply (others_relink s s c z b (t_next a)).
Qed.

Lemma exit_switch_spec s c a l1 l2 : k_current s = Some c -> k_tasks s !! c = Some a -> t_state a = TASK_ZOMBIE ->
  ring (k_tasks s) (k_ready s) (l1 ++ l2) -> (exists n o, l2 ++ l1 = n :: o /\ t_next a = Some n) -> c ∉ l1 ++ l2 ->
  (length (l1 ++ l2) <= PICK_GUARD)%nat ->
  match List.find (runnable (k_tasks s) (Some c)) (l2 ++ l1) with
  | None => exit_switch c s = Some (Halted, s)
  | Some n => exists b s', k_tasks s !! n = Some b /\ t_state b = TASK_READY /\ n ∈ l1 ++ l2 /\ n <> c /\ exit_switch c s = Some (Switched, s') /\
      k_tasks s' = <[n := task_set_state b TASK_RUNNING]> (k_tasks s) /\ k_current s' = Some n /\ k_ready s' = k_ready s /\
      k_all s' = k_all s /\ k_fs s' = set_current n (k_fs s)
  end.
Proof.
  intros Hc Ha Hz Hr (m & o & Eo & Hm) Hcl Hlen. destruct (ring_round _ _ _ _ m o Hr Eo) as [Hp Hnd].
  unfold exit_switch. rewrite (run_bind _ _ _ _ _ (pick_next_left s c a (l2 ++ l1) Hc Ha ltac:(congruence)
    ltac:(destruct Hr as [_ Hq]; destruct (l1 ++ l2) eqn:E; [apply app_nil in E as [-> ->]; done|destruct Hq as [-> _]; eauto])
    ltac:(by rewrite Eo) ltac:(by rewrite Hm) Hnd ltac:(set_solver) ltac:(rewrite length_app in *; lia))).
  destruct (List.find _ _) as [n|] eqn:Hf; [|done].
  apply List.find_some in Hf as [Hno Hn]. apply list_elem_of_In in Hno. unfold runnable in Hn.
  destruct (k_tasks s !! n) as [b|] eqn:Hb; [|done].
  apply andb_true_iff in Hn as [Hn1 Hn2]. apply bool_decide_eq_true in Hn1, Hn2. assert (Hnc : n <> c) by congruence.
  rewrite (bool_decide_eq_false_2 (n = c)), (krun_task _ n b), krun_put by done. eexists b, _. do 2 (split; [done|]).
  split; [set_solver|]. split; [done|]. split; [reflexivity|]. done.
Qed.

(** What the other tasks keep. *)
Definition survive (ts ts' : gmap nat task) (c : nat) : Prop := forall x, x <> c ->
  match ts !! x with
  | Some b => exists b', ts' !! x = Some b' /\ (t_state b' = TASK_ZOMBIE <-> t_state b = TASK_ZOMBIE) /\
      t_pid b' = t_pid b /\ t_parent b' = t_parent b /\ t_exit_code b' = t_exit_code b /\ t_all_next b' = t_all_next b
  | None => ts' !! x = None
  end.

Lemma survive_trans ts ts1 ts2 c : survive ts ts1 c -> survive ts1 ts2 c -> survive ts ts2 c.
Proof.
  intros H1 H2 x Hx. specialize (H1 x Hx). specialize (H2 x Hx). destruct (ts !! x) as [b|]; [|by rewrite H1 in H2].
  destruct H1 as (b1 & Hb1 & E1 & E2 & E3 & E4 & E5). rewrite Hb1 in H2. destruct H2 as (b2 & Hb2 & F1 & F2 & F3 & F4 & F5).
  exists b2. split; [done|]. split; [tauto|]. split; [congruence|]. split; [congruence|]. split; congruence.
Qed.

Lemma restated_survive ts ts' c : restated ts ts' -> survive ts ts' c.
Proof.
  intros Hr x _. specialize (Hr x). destruct (ts !! x) as [b|]; [|done]. destruct Hr as (st & Hx & Hz).
  eexists. split; [exact Hx|]. done.
Qed.

Lemma others_survive s s' c : others_same s s' c -> survive (k_tasks s) (k_tasks s') c.
Proof.
  intros (_ & _ & _ & Ho) x Hx. specialize (Ho x). destruct (k_tasks s !! x) as [b|]; [|done].
  destruct Ho as (b' & Hb' & H1 & H2 & H3 & H4 & H5). exists b'. split; [done|]. rewrite (H1 Hx). done.
Qed.

Lemma insert_survive ts c a : survive ts (<[c := a]> ts) c.
Proof. intros x Hx. rewrite lookup_insert_ne by done. destruct (ts !! x) as [b|]; [|done]. by exists b. Qed.

(** What remains of the dead task, and who runs. *)
Definition exited (root : nat) (s : kern) (c : nat) (l1 l2 al : list nat) (a : task) (status : Z) (out : exit_outcome) (s' : kern) : Prop :=
  ring (k_tasks s') (k_ready s') (l1 ++ l2) /\ fs_inv root (k_fs s') /\
  k_tasks s' !! c = Some (task_set_exit a status (v_ticks (k_fs s)) TASK_ZOMBIE) /\
  survive (k_tasks s) (k_tasks s') c /\
  match List.find (runnable (woken (k_tasks s) (t_parent a)) (Some c)) (l2 ++ l1) with
  | Some n => out = Switched /\ task_inv root s' n (l1 ++ l2) al
  | None => out = Halted
  end.

Lemma close_kept root v : fs_inv root v -> exists v', close_all v = Some (tt, v') /\ fs_kept root v v' /\
  (forall i, v_tasks v' !! v_current v = Some i -> bare i) /\ forall x, x <> v_current v -> v_tasks v' !! x = v_tasks v !! x.
Proof.
  intros Hv. destruct (close_from_spec root TASK_MAX_FDS 0 v Hv) as (v' & Hrun & Hv' & Hc & Hfr & Ho & Hk). exists v'. split; [done|].
  split; [|split; [|done]].
  - do 3 (split; [done|]). intros u. destruct (decide (u = v_current v)) as [-> | ?]; [|by rewrite Ho].
    pose proof (fi_current _ _ Hv') as H1. rewrite Hc in H1. pose proof (fi_current _ _ Hv). tauto.
  - intros i Hi k Hlt. destruct (fi_current _ _ Hv) as [i0 Hi0]. apply (Hk i0 i k Hi0 Hi); lia.
Qed.

Lemma logged_fds t e d a v x i : v_tasks v !! t = Some a -> v_tasks (logged t e d a v) !! x = Some i ->
  exists i0, v_tasks v !! x = Some i0 /\ io_fds i = io_fds i0.
Proof.
  intros Ha. cbn. intros [[<- <-] | [_ Hi]]%lookup_insert_Some; [|by exists i]. exists a. split; [done|]. apply task_log_io.
Qed.

(** The records of the death: the two logs, the task's fields, its descriptors. *)
Lemma exit_prefix root s c l al a status : task_inv root s c l al -> k_tasks s !! c = Some a ->
  (forall p, t_parent a = Some p -> is_Some (k_tasks s !! p)) ->
  exists v, fs_kept root (k_fs s) v /\ (forall i, v_tasks v !! c = Some i -> bare i) /\
    (forall x i, x <> c -> v_tasks v !! x = Some i -> exists i0, v_tasks (k_fs s) !! x = Some i0 /\ io_fds i = io_fds i0) /\
    sys_exit status s = (if bool_decide (t_next a = Some c) then mret Halted
      else exit_unlink c (t_next a) ≫= fun _ => wake_parent (t_parent a) ≫= fun _ => exit_switch c)
      (set_ktasks (insert c (task_set_exit a status (v_ticks (k_fs s)) TASK_ZOMBIE)) (set_fs v s)).
Proof.
  intros Hs Ha Hpar. destruct (proj1 (ti_io _ _ _ _ _ Hs c) ltac:(eauto)) as [i Hi].
  unfold sys_exit. rewrite run_gets, (ti_current _ _ _ _ _ Hs), (log_run _ _ _ i) by done.
  rewrite (krun_task _ c a), run_gets, krun_put by done.
  pose proof (logged_kept root c EVT_EXITED (u32 status) i _ (ti_fs _ _ _ _ _ Hs) Hi) as Hk1.
  pose proof (logged_fds c EVT_EXITED (u32 status) i (k_fs s)) as Hf1. set (v1 := logged c _ _ _ _) in *.
  assert (Hlog : exists v2, fs_kept root v1 v2 /\ (forall x j, v_tasks v2 !! x = Some j -> exists j0, v_tasks v1 !! x = Some j0 /\ io_fds j = io_fds j0) /\
    forall B (k : unit -> K B) ex, (match t_parent a with Some p => log_event p EVT_CHILD_DIED (t_pid a) | None => mret tt end ≫= k)
      (set_ktasks (insert c ex) (set_fs v1 s)) = k tt (set_ktasks (insert c ex) (set_fs v2 s))).
  { destruct (t_parent a) as [p|].
    - destruct (proj1 (ti_io _ _ _ _ _ Hs p) (Hpar p eq_refl)) as [j0 Hj0]. apply mk_is_Some in Hj0. apply Hk1 in Hj0 as [j Hj].
      exists (logged p EVT_CHILD_DIED (t_pid a) j v1). split; [apply logged_kept; [apply Hk1|done]|].
      split; [intros x j'; by apply logged_fds|]. intros B k ex. by rewrite (log_run _ _ _ j).
    - exists v1. split; [split; [apply Hk1|done]|]. split; [eauto|]. done. }
  destruct Hlog as (v2 & Hk2 & Hf2 & Hrun2). rewrite Hrun2.
  destruct (close_kept root v2 (proj1 Hk2)) as (v3 & Hrun3 & Hk3 & Hb3 & Ho3).
  rewrite (krun_fs _ _ _ tt v3) by exact Hrun3. exists v3.
  assert (Hc2 : v_current v2 = c) by (destruct Hk2 as (_ & -> & _), Hk1 as (_ & -> & _); apply Hs). rewrite Hc2 in *.
  split; [by eapply kept_trans, kept_trans|]. split; [done|]. split; [|done].
  intros x j Hx Hj. rewrite Ho3 in Hj by done. destruct (Hf2 x j Hj) as (j1 & Hj1 & ->). by apply Hf1.
Qed.

Lemma woken_states ts ts' p c : p <> Some c -> (forall x, x <> c -> t_state <$> ts' !! x = t_state <$> ts !! x) ->
  forall x, x <> c -> runnable (woken ts' p) (Some c) x = runnable (woken ts p) (Some c) x.
Proof.
  intros Hp Hst x Hx. assert (Hw : t_state <$> woken ts' p !! x = t_state <$> woken ts p !! x).
  { destruct p as [y|]; [|by apply Hst]. cbn. assert (Hyc : y <> c) by congruence. pose proof (Hst y Hyc) as Hy.
    destruct (ts' !! y) as [b'|] eqn:Hb', (ts !! y) as [b|] eqn:Hb; try done; [|by apply Hst]. injection Hy as Hy. rewrite Hy.
    case_bool_decide; [|by apply Hst]. destruct (decide (y = x)) as [<- | ?]; [by rewrite !lookup_insert_eq|].
    rewrite !lookup_insert_ne by done. by apply Hst. }
  unfold runnable. destruct (woken ts' p !! x), (woken ts p !! x); try done. cbn in Hw. injection Hw as ->. done.
Qed.

Lemma find_ext_in {A} (f g : A -> bool) l : (forall x, x ∈ l -> f x = g x) -> List.find f l = List.find g l.
Proof.
  induction l as [|x l IH]; intros Hfg; [done|]. cbn. rewrite (Hfg x) by (apply elem_of_cons; auto).
  rewrite IH; [done|]. intros y Hy. apply Hfg. apply elem_of_cons; auto.
Qed.

(** The invariant once the dead task is off the ring. *)
Lemma exit_inv root s c l1 l2 al a ex s' n v : task_inv root s c (l1 ++ c :: l2) al -> k_tasks s !! c = Some a ->
  fs_kept root (k_fs s) v -> (forall i, v_tasks v !! c = Some i -> bare i) ->
  (forall x i, x <> c -> v_tasks v !! x = Some i -> exists i0, v_tasks (k_fs s) !! x = Some i0 /\ io_fds i = io_fds i0) ->
  ring (k_tasks s') (k_ready s') (l1 ++ l2) -> survive (k_tasks s) (k_tasks s') c -> k_tasks s' !! c = Some ex ->
  t_all_next ex = t_all_next a -> k_all s' = k_all s -> k_current s' = Some n -> n ∈ l1 ++ l2 -> n <> c -> k_fs s' = set_current n v ->
  task_inv root s' n (l1 ++ l2) al.
Proof.
  intros [H1 H2 H3 H4 H5 H6 H7 H8 H9 Hfr H10 H11] Ha (Hv1 & _ & Hv3 & Hv2) Hbare Hfds Hr Hsu Hex Hn Hall Hcur Hnl Hnc Hv.
  assert (Hc : c ∉ l1 ++ l2).
  { destruct H4 as [Hnd _]. apply list.NoDup_app in Hnd as (_ & Hd & Hnd). apply list.NoDup_cons in Hnd as [Hx _].
    intros [Hin | Hin]%elem_of_app; [|done]. apply (Hd c Hin). apply elem_of_cons; auto. }
  assert (Hsome : forall x, is_Some (k_tasks s' !! x) <-> is_Some (k_tasks s !! x)).
  { intros x. destruct (decide (x = c)) as [-> | Hx]; [rewrite Hex, Ha; split; eauto|]. specialize (Hsu x Hx).
    destruct (k_tasks s !! x) as [b|]; [destruct Hsu as (b' & -> & _); split; eauto|by rewrite Hsu]. }
  split; rewrite ?Hall, ?Hv; cbn; try done.
  - destruct Hv1 as [F1 F2 F3 F4 F5 F6]. split; try done. cbn. apply Hv2, H9, Hsome.
    destruct Hr as [_ Hr]. destruct (l1 ++ l2); [by apply elem_of_nil in Hnl|].
    destruct Hr as [_ Hp]. by eapply path_mem.
  - apply (all_list_frame _ _ _ _ H6). intros x b _ Hb. destruct (decide (x = c)) as [-> | Hx].
    + exists ex. split; [done|]. congruence.
    + specialize (Hsu x Hx). rewrite Hb in Hsu. destruct Hsu as (b' & ? & _ & _ & _ & _ & ?). eauto.
  - intros x Hx. by apply H8, Hsome.
  - intros x. by rewrite Hsome, H9, Hv2.
  - intros x Hx. rewrite Hv3. by apply Hfr, Hsome.
  - intros x b' Hx Hb'. assert (Hxc : x <> c) by (by intros ->). specialize (Hsu x Hxc).
    destruct (k_tasks s !! x) as [b|] eqn:Hb; [|congruence]. destruct Hsu as (b2 & Hb2 & Hz & _).
    assert (b2 = b') as -> by congruence. rewrite Hz. apply (H10 x); [set_solver|done].
  - intros x b' i Hb' Hz' Hi. destruct (decide (x = c)) as [-> | Hx]; [by apply Hbare|]. specialize (Hsu x Hx).
    destruct (k_tasks s !! x) as [b|] eqn:Hb; [|congruence]. destruct Hsu as (b2 & Hb2 & Hz & _).
    assert (b2 = b') as -> by congruence. destruct (Hfds x i Hx Hi) as (i0 & Hi0 & E). unfold bare. rewrite E.
    by apply (H11 x b); [done|apply Hz|done].
Qed.

Lemma ring_insert ts q l c a ex : ring ts q l -> ts !! c = Some a -> t_next ex = t_next a -> ring (<[c := ex]> ts) q l.
Proof.
  intros Hr Ha Hn. apply (ring_frame _ _ _ _ Hr). intros x b _ Hb. destruct (decide (c = x)) as [<- | ?].
  - rewrite lookup_insert_eq. exists ex. split; [done|]. congruence.
  - rewrite lookup_insert_ne by done. eauto.
Qed.

Lemma sys_exit_spec root s c l1 l2 al a status : task_inv root s c (l1 ++ c :: l2) al -> k_tasks s !! c = Some a ->
  l1 ++ l2 <> [] -> (length (l1 ++ l2) <= PICK_GUARD)%nat ->
  (forall p, t_parent a = Some p -> p <> c /\ is_Some (k_tasks s !! p)) ->
  exists out s', sys_exit status s = Some (out, s') /\ exited root s c l1 l2 al a status out s'.
Proof.
  intros Hs Ha Hne Hlen Hpar. set (ex := task_set_exit a status (v_ticks (k_fs s)) TASK_ZOMBIE).
  destruct (exit_prefix root s c _ al a status Hs Ha ltac:(intros p E; by destruct (Hpar p E))) as (v & Hk & Hbare & Hfds & ->).
  pose proof (ti_ring _ _ _ _ _ Hs) as Hr. destruct (ring_skip _ _ _ _ _ _ Hr Ha Hne) as (m & o & Eo & Hm & Hmc).
  rewrite Hm, bool_decide_eq_false_2 by congruence. rewrite <- Hm. fold ex. set (s1 := set_ktasks (insert c ex) (set_fs v s)).
  assert (Hex1 : k_tasks s1 !! c = Some ex) by apply lookup_insert_eq.
  assert (Hr1 : ring (k_tasks s1) (k_ready s1) (l1 ++ c :: l2)) by (by apply (ring_insert _ _ _ _ a)).
  destruct (exit_unlink_spec s1 c ex l1 l2 Hr1 Hex1 Hne) as (s2 & Hrun2 & Hr2 & Ho2 & Hex2 & Hv2).
  change (t_next ex) with (t_next a) in Hrun2. rewrite (run_bind _ _ _ _ _ Hrun2).
  pose proof (survive_trans _ _ _ _ (insert_survive (k_tasks s) c ex) (others_survive _ _ _ Ho2)) as Hsu2.
  assert (Hp2 : forall p, t_parent a = Some p -> is_Some (k_tasks s2 !! p)).
  { intros p E. destruct (Hpar p E) as [Hpc [b Hb]]. specialize (Hsu2 p Hpc). rewrite Hb in Hsu2. destruct Hsu2 as (b' & ? & _). eauto. }
  rewrite woken_run by done. pose proof (woken_restated (k_tasks s2) (t_parent a)) as Hre.
  set (s3 := set_ktasks (fun _ => woken (k_tasks s2) (t_parent a)) s2).
  assert (Hex3 : k_tasks s3 !! c = Some ex).
  { cbn. unfold woken. destruct (t_parent a) as [p|]; [|done]. destruct (Hpar p eq_refl) as [Hpc _].
    destruct (k_tasks s2 !! p); [|done]. case_bool_decide; [|done]. by rewrite lookup_insert_ne. }
  assert (Hr3 : ring (k_tasks s3) (k_ready s3) (l1 ++ l2)) by (by apply (restated_ring (k_tasks s2))).
  pose proof (survive_trans _ _ _ _ Hsu2 (restated_survive _ _ c Hre)) as Hsu3.
  destruct Ho2 as (Hc2 & Hall2 & _ & Ho2).
  assert (Hcl : c ∉ l1 ++ l2).
  { destruct Hr as [Hnd _]. apply list.NoDup_app in Hnd as (_ & Hd & Hnd). apply list.NoDup_cons in Hnd as [Hx _].
    intros [Hin | Hin]%elem_of_app; [|done]. apply (Hd c Hin). apply elem_of_cons; auto. }
  pose proof (exit_switch_spec s3 c ex l1 l2 ltac:(cbn; rewrite Hc2; apply Hs) Hex3 eq_refl Hr3 ltac:(by exists m, o) Hcl Hlen) as Hsw.
  assert (Hfind : List.find (runnable (k_tasks s3) (Some c)) (l2 ++ l1) = List.find (runnable (woken (k_tasks s) (t_parent a)) (Some c)) (l2 ++ l1)).
  { apply find_ext_in. intros x Hx. assert (Hxc : x <> c) by (intros ->; apply Hcl; set_solver). cbn.
    apply (woken_states (k_tasks s) (k_tasks s2) _ c); [intros E; by destruct (Hpar c E)| |done].
    intros y Hy. specialize (Ho2 y). cbn in Ho2. rewrite lookup_insert_ne in Ho2 by done.
    destruct (k_tasks s !! y) as [b|]; [|by rewrite Ho2]. destruct Ho2 as (b' & -> & E & _). cbn. by rewrite (E Hy). }
  unfold exited. rewrite Hfind in Hsw. destruct (List.find _ _) as [n|].
  - destruct Hsw as (b & s' & Hb & Hbs & Hnl & Hnc & Hrun & Hts & Hcur & Hq & Hall & Hfs). eexists _, s'. split; [exact Hrun|].
    assert (Hre' : restated (k_tasks s3) (k_tasks s')) by (rewrite Hts; apply restated_set; [apply restated_refl|done|congruence|done]).
    assert (Hr' : ring (k_tasks s') (k_ready s') (l1 ++ l2)) by (rewrite Hq; by apply (restated_ring (k_tasks s3))).
    assert (Hex' : k_tasks s' !! c = Some ex) by (by rewrite Hts, lookup_insert_ne).
    pose proof (survive_trans _ _ _ _ Hsu3 (restated_survive _ _ c Hre')) as Hsu'.
    assert (Hinv : task_inv root s' n (l1 ++ l2) al).
    { apply (exit_inv root s c l1 l2 al a ex s' n v); try done; [by rewrite Hall; cbn; rewrite Hall2|]. by rewrite Hfs; cbn; rewrite Hv2. }
    split; [done|]. split; [apply Hinv|]. done.
  - eexists _, s3. split; [exact Hsw|]. split; [done|]. split; [cbn; rewrite Hv2; apply Hk|]. done.
Qed.

(** ** New tasks *)

Section create.
Context `{Machine}.

(** A new task, on the list of all tasks and not yet on the ring. *)
Lemma ti_new root s c l al t a b s' : task_inv root s c l al -> k_tasks s !! t = None ->
  k_tasks s' = <[t := a]> (k_tasks s) -> t_all_next a = k_all s -> k_all s' = Some t -> t_state a = TASK_READY ->
  k_ready s' = k_ready s -> k_current s' = k_current s -> v_tasks (k_fs s') = <[t := b]> (v_tasks (k_fs s)) ->
  v_current (k_fs s') = v_current (k_fs s) -> fs_inv root (k_fs s') -> (v_fresh (k_fs s) <= v_fresh (k_fs s'))%nat ->
  (t < v_fresh (k_fs s'))%nat -> task_inv root s' c l (t :: al).
Proof.
  intros Hs Ht Hts Hn Hall Hst Hq Hc Hio Hvc Hv Hf Htf. pose proof (ti_ring_io _ _ _ _ _ Hs) as Hring.
  destruct Hs as [H1 H2 H3 H4 H5 H6 H7 H8 H9 Hfr H10 H11].
  assert (Hout : forall x, is_Some (k_tasks s !! x) -> x <> t) by (intros x [d Hd] ->; congruence).
  assert (Hal : t ∉ al) by (intros Hin; by apply (Hout t); [apply (all_list_mem _ _ _ _ H6 Hin)|]).
  split; rewrite ?Hts, ?Hq, ?Hc, ?Hio, ?Hvc, ?Hall; try done.
  - apply (ring_frame _ _ _ _ H4). intros x d Hx Hd. exists d. rewrite lookup_insert_ne; [done|]. intros <-. congruence.
  - split; [done|]. rewrite lookup_insert_eq. exists a. split; [done|]. rewrite Hn. apply (all_list_frame _ _ _ _ H6).
    intros x d Hx Hd. exists d. rewrite lookup_insert_ne; [done|]. by intros <-.
  - by apply list.NoDup_cons.
  - intros x [d Hd]. apply elem_of_cons. apply lookup_insert_Some in Hd as [[<- _] | [_ Hd]]; [by left|right; eauto].
  - intros x. destruct (decide (t = x)) as [<- | ?]; [rewrite !lookup_insert_eq; split; eauto|]. rewrite !lookup_insert_ne by done. apply H9.
  - intros x [d Hd]. apply lookup_insert_Some in Hd as [[<- _] | [_ Hd]]; [done|]. specialize (Hfr x ltac:(eauto)). lia.
  - intros x d Hx. rewrite lookup_insert_ne by (intros <-; by apply (Hout t); [apply Hring|]). by apply H10.
  - intros x d i [[<- <-] | [Hne Hd]]%lookup_insert_Some; [congruence|]. rewrite lookup_insert_ne by done. by apply H11.
Qed.

(** Memory was asked for, and a pid may be gone; no task came of it. *)
Lemma ti_spent root s c l al n pid : task_inv root s c l al -> (v_fresh (k_fs s) <= n)%nat ->
  task_inv root (set_next_pid pid (set_fs (set_fresh n (k_fs s)) s)) c l al.
Proof.
  intros [H1 H2 H3 H4 H5 H6 H7 H8 H9 Hfr H10 H11] Hn. split; try done; [by apply fs_inv_fresh|].
  intros x Hx. specialize (Hfr x Hx). cbn. lia.
Qed.

(** It joins the ring. *)
Lemma add_ready_inv root s c l al t a : task_inv root s c l al -> k_tasks s !! t = Some a -> t_state a <> TASK_ZOMBIE -> t ∉ l ->
  exists s' a', task_add_ready t s = Some (tt, s') /\ task_inv root s' c (l ++ [t]) al /\ others_same s s' t /\
    k_tasks s' !! t = Some a' /\ t_state a' = TASK_READY.
Proof.
  intros Hs Ha Hz Ht. destruct (add_ready_spec s l t a (ti_ring _ _ _ _ _ Hs) Ha Ht) as (s' & a' & Hrun & Hr & Ho & Ha' & Hst & Hv).
  exists s', a'. split; [done|]. split; [|done]. destruct Ho as (Hc & Hall & _ & Ho).
  destruct Hs as [H1 H2 H3 H4 H5 H6 H7 H8 H9 Hfr H10 H11].
  assert (Hsome : forall x, is_Some (k_tasks s' !! x) <-> is_Some (k_tasks s !! x)).
  { intros x. specialize (Ho x). destruct (k_tasks s !! x) as [b|]; [destruct Ho as (b' & -> & _); split; eauto|by rewrite Ho]. }
  assert (Hzs : forall x b', k_tasks s' !! x = Some b' -> exists b, k_tasks s !! x = Some b /\ (t_state b' = TASK_ZOMBIE <-> t_state b = TASK_ZOMBIE)).
  { intros x b' Hb'. specialize (Ho x). destruct (k_tasks s !! x) as [b|] eqn:Hb; [|congruence]. destruct Ho as (b2 & Hb2 & E & _).
    assert (b2 = b') as -> by congruence. exists b. split; [done|]. destruct (decide (x = t)) as [-> | Hx]; [|by rewrite (E Hx)].
    split; congruence. }
  split; rewrite ?Hc, ?Hall, ?Hv; try done.
  - set_solver.
  - apply (all_list_frame _ _ _ _ H6). intros x b _ Hb. specialize (Ho x). rewrite Hb in Ho. destruct Ho as (b' & ? & _ & _ & _ & _ & ?). eauto.
  - intros x Hx. by apply H8, Hsome.
  - intros x. rewrite Hsome. apply H9.
  - intros x Hx. by apply Hfr, Hsome.
  - intros x b' [Hx | ->%list_elem_of_singleton]%elem_of_app Hb'; [|congruence].
    destruct (Hzs x b' Hb') as (b & Hb & ->). by apply (H10 x).
  - intros x b' i Hb' Hz'. destruct (Hzs x b' Hb') as (b & Hb & Hbz). apply (H11 x b); [done|by apply Hbz].
Qed.
Lemma krun_alloc {B} kd (k : option nat -> K B) s : (fs (kmalloc kd) ≫= k) s =
  k (if grants kd (v_fresh (k_fs s)) then Some (v_fresh (k_fs s)) else None) (set_fs (set_fresh (S (v_fresh (k_fs s))) (k_fs s)) s).
Proof. done. Qed.

(** The entry [task_create_kernel] makes. *)
Definition new_kernel_task (s : kern) (cr3 : Z) (a : task) : Prop :=
  t_pid a = k_next_pid s /\ t_parent a = k_current s /\ t_state a = TASK_READY /\ t_exit_code a = 0.

Lemma kernel_spec root s c l al cr3 : task_inv root s c l al -> Z.of_nat (size (v_tasks (k_fs s))) < MAX_TASKS ->
  exists r s', task_create_kernel cr3 s = Some (r, s') /\
  match r with
  | None => task_inv root s' c l al
  | Some t => k_tasks s !! t = None /\ task_inv root s' c (l ++ [t]) (t :: al) /\
      exists a, k_tasks s' !! t = Some a /\ new_kernel_task s cr3 a
  end.
Proof.
  intros Hs Hroom. unfold task_create_kernel, create_process. rewrite run_assoc.
  rewrite krun_alloc.
  destruct (grants AStruct (v_fresh (k_fs s))).
  2: { eexists None, _. split; [reflexivity|]. pose proof (ti_spent root s c l al (S (v_fresh (k_fs s))) (k_next_pid s) Hs ltac:(lia)) as Hx.
       by destruct s. }
  unfold take_pid. rewrite !run_assoc, run_gets, run_assoc, run_modify, run_ret. rewrite run_assoc.
  set (t := v_fresh (k_fs s)).
  rewrite krun_alloc. cbn [k_fs set_fs set_next_pid v_fresh set_fresh].
  destruct (grants AData (S t)).
  2: { eexists None, _. split; [reflexivity|]. apply (ti_spent root s c l al (S (S t)) (k_next_pid s + 1) Hs). unfold t. lia. }
  rewrite run_assoc, run_gets, run_assoc, krun_put, run_assoc.
  set (v1 := set_fresh (S (S t)) (k_fs s)). assert (Hv1 : fs_inv root v1) by (apply fs_inv_fresh; [apply Hs|unfold t; lia]).
  assert (Ht : k_tasks s !! t = None).
  { destruct (k_tasks s !! t) eqn:E; [|done]. pose proof (ti_fresh _ _ _ _ _ Hs t ltac:(eauto)). unfold t in *. lia. }
  assert (Htv : v_tasks v1 !! t = None).
  { destruct (v_tasks v1 !! t) eqn:E; [|done]. pose proof (proj2 (ti_io _ _ _ _ _ Hs t) (mk_is_Some _ _ E)) as [? ?]. congruence. }
  destruct (spawn_spec root v1 share_create t (k_next_pid s) (fun _ => None) Hv1 share_create_ok Htv) as (v2 & b & Hrun & Hv2 & Hio & Hvc & Hfr);
    [done|done|].
  rewrite (krun_fs _ _ _ tt v2) by exact Hrun. unfold task_register_all. rewrite !run_assoc.
  erewrite krun_task; [|done|apply lookup_insert_eq]. rewrite run_assoc, run_gets, run_assoc, krun_put, run_modify, run_ret.
  erewrite krun_task; [|done|apply lookup_insert_eq]. rewrite krun_put. set (a3 := task_set_name _ _). set (s3 := set_ktasks _ _).
  assert (Hs3 : task_inv root s3 c l (t :: al)).
  { apply (ti_new root s c l al t a3 b); try done; [cbn; by rewrite !insert_insert_eq|cbn; rewrite Hfr; unfold v1, t; cbn; lia..]. }
  destruct (add_ready_inv root s3 c l (t :: al) t a3 Hs3) as (s' & a' & Hrun' & Hs' & (_ & _ & _ & Ho) & Ha' & Hst).
  { apply lookup_insert_eq. }
  { done. }
  { intros Hin. destruct (ti_ring_io _ _ _ _ _ Hs t Hin) as [[? ?] _]. congruence. }
  rewrite (run_bind _ _ _ _ _ Hrun'). eexists _, s'. split; [reflexivity|]. split; [done|]. split; [done|]. exists a'. split; [done|].
  specialize (Ho t). cbn in Ho. rewrite lookup_insert_eq in Ho. destruct Ho as (a2 & Ha2 & _ & E1 & E2 & E3 & _).
  assert (a2 = a') as -> by congruence. split; [done|]. split; [|done]. done.
Qed.

(** ** Any run *)


End create.
