(* ===== verification/TaskBoot.v ===== *)
(** * The tasks from start-up on, and the theorems about them

    [init_tasking] establishes the invariant of [TaskRun] after the file system
    has started; every call keeps it and returns. *)

From stdpp Require Import gmap relations.
From S2P Require Import Prelude StateMonad SlotTable Vfs VfsTree VfsInv VfsCalls VfsRun VfsBoot Task TaskRing TaskLife TaskRun.

#[local] Open Scope Z_scope.

(** ** Start-up *)

Definition kern_zero (ticks : Z) : kern := Kern (vfs_zero ticks) ∅ None None None 0.

(** [aevrospoint_init] gives the first pid to its worker; the worker's task,
    which sleeps until a checkpoint is taken, is left out. *)
Definition kernel_start `{Machine} (cr3 : Z) : K unit :=
  fs fs_start ≫= fun _ => take_pid ≫= fun _ => init_tasking cr3.

Definition shell_task (cr3 : Z) : task := Task 1 TASK_RUNNING (Some 6%nat) None None 0 0 cr3 false SHELL.
Definition started (dent : option nat) (ticks cr3 : Z) : kern :=
  Kern (logged 6 EVT_CREATED 0 boot_io (set_fresh 11 (boot_state dent ticks)))
    {[ 6%nat := shell_task cr3 ]} (Some 6%nat) (Some 6%nat) (Some 6%nat) 2.

Lemma start_run `{Machine} ticks cr3 : (forall k n, (n < 11)%nat -> grants k n = true) ->
  kernel_start cr3 (kern_zero ticks) = Some (tt, started (stray 9) ticks cr3).
Proof.
  intros Hg. assert (Hg10 : forall k n, (n < 10)%nat -> grants k n = true) by (intros; apply Hg; lia).
  unfold kernel_start, init_tasking. rewrite (krun_fs _ _ _ tt (fs_started ticks)) by apply (fs_start_run Hg10).
  unfold take_pid. rewrite run_assoc, run_gets, run_assoc, run_modify, run_ret.
  rewrite krun_alloc. cbn [k_fs set_fs set_next_pid fs_started v_fresh]. rewrite Hg by lia.
  rewrite run_assoc, run_gets, run_assoc, run_modify, run_ret.
  erewrite (run_bind (put_current_task _)) by reflexivity. cbv beta.
  erewrite krun_fs by (apply (streams_run Hg10)). rewrite krun_alloc. cbn [k_fs set_fs boot_state v_fresh]. rewrite Hg by lia.
  rewrite krun_put, run_modify. unfold task_register_all. rewrite run_assoc.
  erewrite krun_task; [|done|apply lookup_insert_eq]. rewrite run_assoc, run_gets, run_assoc, krun_put, run_modify.
  by vm_compute.
Qed.

Lemma started_inv dent ticks cr3 : task_inv 0 (started dent ticks cr3) 6 [6%nat] [6%nat].
Proof.
  assert (Hfs : fs_inv 0 (set_fresh 11 (boot_state dent ticks))) by (apply fs_inv_fresh; [apply boot_inv|cbn; lia]).
  destruct (logged_kept 0 6 EVT_CREATED 0 boot_io _ Hfs) as (H1 & H2 & _ & H4); [apply lookup_singleton_eq|].
  assert (Hone : forall x, is_Some (k_tasks (started dent ticks cr3) !! x) <-> x = 6%nat).
  { intros x. cbn. destruct (decide (x = 6%nat)) as [-> | ?]; [rewrite lookup_singleton_eq; split; eauto|].
    rewrite lookup_singleton_ne by done. split; [by intros []|done]. }
  assert (Htask : forall x a, k_tasks (started dent ticks cr3) !! x = Some a -> t_state a = TASK_RUNNING).
  { intros x a Hx. cbn in Hx. by apply lookup_singleton_Some in Hx as [_ <-]. }
  split; try done.
  - split; [apply NoDup_singleton|]. split; [done|]. split; [done|]. exists (shell_task cr3). split; [apply lookup_singleton_eq|done].
  - set_solver.
  - split; [done|]. exists (shell_task cr3). split; [apply lookup_singleton_eq|done].
  - apply NoDup_singleton.
  - intros x ->%Hone. set_solver.
  - intros x. rewrite Hone. change (x = 6%nat <-> is_Some (v_tasks (logged 6 EVT_CREATED 0 boot_io (set_fresh 11 (boot_state dent ticks))) !! x)).
    rewrite H4. cbn. destruct (decide (x = 6%nat)) as [-> | ?]; [rewrite lookup_singleton_eq; split; eauto|].
    rewrite lookup_singleton_ne by done. split; [done|by intros []].
  - intros x ->%Hone. cbn. lia.
  - intros x a _ Hx. rewrite (Htask x a Hx). done.
  - intros x a i Hx Hz. rewrite (Htask x a Hx) in Hz. done.
Qed.

(** ** Any run *)

(** [sys_exit] follows the pointer to the parent, which nobody clears when the
    parent is freed. *)
Definition parent_alive (s : kern) : Prop := forall c a p, k_current s = Some c -> k_tasks s !! c = Some a ->
  t_parent a = Some p -> p <> c /\ is_Some (k_tasks s !! p).

Section steps.
Context `{Machine}.

Inductive sys_step : kern -> kern -> Prop :=
  | step_create cr3 r s s' : Z.of_nat (size (k_tasks s)) < 65535 -> task_create_kernel cr3 s = Some (r, s') -> sys_step s s'
  | step_yield s s' : schedule s = Some (tt, s') -> sys_step s s'
  | step_exit status s s' : parent_alive s -> sys_exit status s = Some (Switched, s') -> sys_step s s'
  | step_wait target r s s' : waitpid_turn target s = Some (r, s') -> sys_step s s'.

Definition sound (s : kern) : Prop := exists c l al, task_inv 0 s c l al /\ (length al <= PICK_GUARD)%nat.

Lemma ring_short root s c l al : task_inv root s c l al -> (length l <= length al)%nat.
Proof.
  intros Hs. pose proof (ti_ring_io _ _ _ _ _ Hs) as Hk. destruct Hs as [_ _ _ [Hnd _] _ _ _ Hl _ _ _ _].
  apply submseteq_length, NoDup_submseteq; [done|]. intros x Hx. apply Hl, Hk, Hx.
Qed.

Lemma tasks_listed root s c l al : task_inv root s c l al -> size (k_tasks s) = length al /\ size (v_tasks (k_fs s)) = length al.
Proof.
  intros [_ _ _ _ _ Hal Hnd Hl Hio _ _ _]. assert (Hk : dom (k_tasks s) = list_to_set al).
  { apply set_eq. intros x. rewrite elem_of_dom, elem_of_list_to_set. split; [apply Hl|]. by apply all_list_mem with (1 := Hal). }
  assert (Hv : dom (v_tasks (k_fs s)) = dom (k_tasks s)).
  { apply set_eq. intros x. rewrite !elem_of_dom. symmetry. apply Hio. }
  split; [|rewrite <- (size_dom (v_tasks _)), Hv]; rewrite <- ?(size_dom (k_tasks s)), Hk; by apply size_list_to_set.
Qed.

(** A task that is alone on the ring does not leave it: the machine stops. *)
Lemma exit_alone root s c l1 l2 al a status : task_inv root s c (l1 ++ c :: l2) al -> k_tasks s !! c = Some a -> l1 ++ l2 = [] ->
  parent_alive s -> exists s', sys_exit status s = Some (Halted, s').
Proof.
  intros Hs Ha E Hp. destruct (exit_prefix root s c _ al a status Hs Ha) as (v & _ & _ & _ & ->).
  { intros p Epar. by destruct (Hp c a p (ti_current _ _ _ _ _ Hs) Ha Epar). }
  apply app_nil in E as [-> ->]. destruct (ti_ring _ _ _ _ _ Hs) as [_ [_ (_ & a' & Ha' & Hn)]]. assert (a' = a) as -> by congruence.
  cbn [path] in Hn. pose proof (ti_ring _ _ _ _ _ Hs) as [_ [Hq _]].
  rewrite Hn, Hq, bool_decide_eq_true_2 by done. eauto.
Qed.
Lemma exit_ok root s c l al status : task_inv root s c l al -> (length al <= PICK_GUARD)%nat -> parent_alive s ->
  exists out s', sys_exit status s = Some (out, s') /\ (out = Switched -> exists n l', task_inv root s' n l' al).
Proof.
  intros Hs Hlen Hp. pose proof (ring_short _ _ _ _ _ Hs) as Hsh.
  destruct (ti_split _ _ _ _ _ Hs) as (l1 & l2 & a & -> & Ha & _ & _).
  destruct (decide (l1 ++ l2 = [])) as [E | Hne].
  - destruct (exit_alone root s c l1 l2 al a status Hs Ha E Hp) as (s' & Hrun). by exists Halted, s'.
  - destruct (sys_exit_spec root s c l1 l2 al a status Hs Ha Hne) as (out & s' & Hrun & _ & _ & _ & _ & Hout).
    { rewrite length_app in *. simpl in Hsh. lia. }
    { intros p. by apply (Hp c a p (ti_current _ _ _ _ _ Hs)). }
    exists out, s'. split; [done|]. intros ->. destruct (List.find _ _) as [n|]; [|done]. destruct Hout as [_ Hi]. eauto.
Qed.

Lemma sys_step_sound s s' : sound s -> sys_step s s' -> sound s'.
Proof.
  intros (c & l & al & Hs & Hlen) Hstep. pose proof (ring_short _ _ _ _ _ Hs) as Hsh.
  destruct Hstep as [cr3 r s s' Hroom Hrun | s s' Hrun | status s s' Hp Hrun | target r s s' Hrun].
  - destruct (tasks_listed _ _ _ _ _ Hs) as [E1 E2].
    destruct (kernel_spec 0 s c l al cr3 Hs) as (r' & s2 & Hrun' & Hr); [unfold MAX_TASKS; lia|].
    rewrite Hrun' in Hrun. injection Hrun as -> ->. destruct r as [t|]; [|by exists c, l, al].
    destruct Hr as (_ & Hr & _). exists c, (l ++ [t]), (t :: al). split; [done|]. cbn [length]. unfold PICK_GUARD. lia.
  - destruct (schedule_inv 0 s c l al Hs) as (s2 & n & Hrun' & Hi); [lia|]. rewrite Hrun' in Hrun. injection Hrun as ->. by exists n, l, al.
  - destruct (exit_ok 0 s c l al status Hs Hlen Hp) as (out & s2 & Hrun' & Hi). rewrite Hrun' in Hrun. injection Hrun as -> ->.
    destruct (Hi eq_refl) as (n & l' & Hi'). by exists n, l', al.
  - destruct (waitpid_turn_spec 0 s c l al target Hs) as (r' & s2 & Hrun' & Hw); [lia|]. rewrite Hrun' in Hrun. injection Hrun as -> ->.
    unfold waited in Hw. destruct (List.find _ al) as [x|].
    + destruct Hw as (b & _ & _ & _ & _ & Hi). exists c, l, (without x al). split; [done|].
      pose proof (List.filter_length_le (fun y => negb (bool_decide (y = x))) al). unfold without. lia.
    + destruct (existsb _ al); [destruct Hw as (_ & l1 & l2 & a & n & _ & Hi & _); by exists n, l, al|].
      destruct Hw as [_ ->]. by exists c, l, al.
Qed.
End steps.

(** ** The theorems *)

(** C16: the tasks stay consistent in every run.  Start up (the first eleven allocations
    granted), then take any number of steps: creations of kernel tasks while there are
    fewer than 65535, time slices, exits that switch to another task (of tasks whose parent
    has not been freed), and turns of the loop of [sys_waitpid].  Then the ready ring is a
    ring of live tasks with the current one on it, the list of all tasks holds every task
    once, the dead have no descriptors, and the file system is well formed; [schedule]
    returns, as does [sys_exit] while the parent has not been freed.  A turn of
    [sys_waitpid] runs to its end: with a finished child it awaits, it frees the first one
    and returns its pid and exit code; with none that it awaits, it returns an error; else
    its task is blocked, the next ready task runs, and the loop goes on (whether it ever
    ends is up to the children).  Nothing faults and no walk over a list runs for ever. *)
Theorem task_run_sound `{Machine} ticks cr3 s : (forall k n, (n < 11)%nat -> grants k n = true) ->
  (exists s0, kernel_start cr3 (kern_zero ticks) = Some (tt, s0) /\ rtc sys_step s0 s) ->
  exists c l al, task_inv 0 s c l al /\ (exists s', schedule s = Some (tt, s')) /\
    (forall target, exists r s', waitpid_turn target s = Some (r, s') /\ waited 0 s c l al target r s') /\
    (parent_alive s -> forall status, exists out s', sys_exit status s = Some (out, s')).
Proof.
  intros Hg (s0 & Hrun & Hsteps). rewrite (start_run ticks cr3 Hg) in Hrun. injection Hrun as <-.
  assert (Hs : sound s).
  { assert (H0 : sound (started (stray 9) ticks cr3)).
    { exists 6%nat, [6%nat], [6%nat]. split; [apply started_inv|]. unfold PICK_GUARD. cbn [length]. lia. }
    revert H0. clear -Hsteps. induction Hsteps as [|x y z Hxy _ IH]; [done|]. intros Hx. by apply IH, (sys_step_sound x). }
  destruct Hs as (c & l & al & Hs & Hlen). pose proof (ring_short _ _ _ _ _ Hs) as Hsh. exists c, l, al. split; [done|]. split.
  - destruct (schedule_inv 0 s c l al Hs) as (s' & n & ? & _); [lia|eauto].
  - split; [intros target; apply waitpid_turn_spec; [done|lia]|].
    intros Hp status. destruct (exit_ok 0 s c l al status Hs Hlen Hp) as (out & s' & ? & _). eauto.
Qed.

(** A machine that grants every request, for the examples. *)
#[local] Instance example_machine : Machine :=
  {| grants := fun _ _ => true; junk := fun _ _ => 165; stray := fun _ => None; typed := fun _ => 10 |}.
Definition kafter {A} (m : K A) (s : kern) : kern := match m s with Some (_, s') => s' | None => s end.

(** The shell makes a task, which then runs. *)
Definition shell_only : kern := kafter (kernel_start 0) (kern_zero 0).
Definition shell_and_one : kern := kafter (task_create_kernel 0) shell_only.
Definition one_runs : kern := kafter schedule shell_and_one.

Lemma task_run_sound_witness : exists c l al, task_inv 0 one_runs c l al /\ (exists s', schedule one_runs = Some (tt, s')) /\
  (forall target, exists r s', waitpid_turn target one_runs = Some (r, s') /\ waited 0 one_runs c l al target r s') /\
  (parent_alive one_runs -> forall status, exists out s', sys_exit status one_runs = Some (out, s')).
Proof.
  apply (task_run_sound 0 0 one_runs); [done|]. exists shell_only. split; [by vm_compute|].
  apply (rtc_l _ _ shell_and_one); [eapply (step_create 0); [vm_compute; reflexivity|vm_compute; reflexivity]|].
  apply rtc_once, step_yield. by vm_compute.
Defined.

(** [pick_next_task] is round robin.  With the current task on a ring of at
    most 65535 tasks, the pointer walk with its guard and fallback returns the
    first ready task met going round the ring from the one behind the current
    task, the current task itself if it alone is ready, and none otherwise; it
    changes nothing. *)
Lemma pick_next_round_robin s c l1 l2 : ring (k_tasks s) (k_ready s) (l1 ++ c :: l2) -> k_current s = Some c ->
  (length (l1 ++ c :: l2) <= PICK_GUARD)%nat ->
  pick_next_task s = Some (round_robin (k_tasks s) c (l2 ++ l1 ++ [c]), s).
Proof.
  intros Hr Hc Hlen. apply pick_next_spec; [by apply (ring_turns _ _ _ _ _ Hr)| |done|].
  - destruct Hr as [_ Hq]. destruct l1; simpl in Hq; destruct Hq as [-> _]; eauto.
  - rewrite length_app in Hlen. simpl in Hlen. rewrite !length_app. simpl. lia.
Qed.

Lemma one_runs_inv : task_inv 0 one_runs 11 [6; 11]%nat [11; 6]%nat.
Proof.
  assert (H1 : shell_only = started None 0 0) by (unfold shell_only, kafter; by rewrite (start_run 0 0) by done).
  pose proof (started_inv None 0 0) as Hs. rewrite <- H1 in Hs.
  destruct (kernel_spec 0 shell_only 6 _ _ 0 Hs) as (r & s2 & Hrun & Hr); [by vm_compute|].
  assert (H2 : r = Some 11%nat) by (assert (E : fst <$> task_create_kernel 0 shell_only = Some (Some 11%nat)) by (by vm_compute);
    rewrite Hrun in E; cbn in E; by injection E).
  subst r. destruct Hr as (_ & Hi & _). assert (H3 : shell_and_one = s2) by (unfold shell_and_one, kafter; by rewrite Hrun).
  rewrite <- H3 in Hi. cbn [app] in Hi. destruct (schedule_inv 0 shell_and_one 6 _ _ Hi) as (s3 & n & Hrun3 & Hi3).
  { unfold PICK_GUARD. cbn [length]. lia. }
  assert (H4 : one_runs = s3) by (unfold one_runs, kafter; by rewrite Hrun3). rewrite <- H4 in Hi3.
  assert (n = 11%nat) as ->; [|done]. pose proof (ti_current _ _ _ _ _ Hi3) as Hc. vm_compute in Hc. congruence.
Qed.

Lemma pick_next_round_robin_witness : pick_next_task one_runs = Some (Some 6%nat, one_runs).
Proof.
  rewrite (pick_next_round_robin one_runs 11 [6%nat] []); [by vm_compute|apply (ti_ring _ _ _ _ _ one_runs_inv)|by vm_compute|].
  unfold PICK_GUARD. cbn [length app]. lia.
Defined.

(** C20: No ready task starves.  On a ring of at most 65535 tasks whose current
    task is running, a ready task runs after at most as many time slices as
    there are tasks between it and the current one, plus one: whatever the
    states of the others, the slices go round the ring in order. *)
Theorem schedule_no_starvation s c l1 l2 o1 t o2 a : ring (k_tasks s) (k_ready s) (l1 ++ c :: l2) -> k_current s = Some c ->
  (length (l1 ++ c :: l2) <= PICK_GUARD)%nat -> k_tasks s !! c = Some a -> t_state a = TASK_RUNNING ->
  l2 ++ l1 = o1 ++ t :: o2 -> t_state <$> k_tasks s !! t = Some TASK_READY ->
  exists k s', (1 <= k <= S (length o1))%nat /\ schedules k s = Some (tt, s') /\ k_current s' = Some t.
Proof.
  intros Hr Hc Hlen Ha Hrun Ho Ht. pose proof (ring_turns _ _ _ _ _ Hr) as Htn.
  assert (Htc : t <> c) by (intros ->; rewrite Ha in Ht; cbn in Ht; congruence).
  destruct (no_starvation (length o1) s c o1 t (o2 ++ [c]) a) as (k & s' & Hk & Hrun' & Hc'); try done.
  - rewrite app_assoc, Ho, <- app_assoc in Htn. done.
  - destruct Hr as [_ Hq]. destruct l1; simpl in Hq; destruct Hq as [-> _]; eauto.
  - apply (f_equal length) in Ho. rewrite !length_app in *. cbn [length] in *. rewrite length_app. cbn [length]. lia.
  - unfold runnable. destruct (k_tasks s !! t) as [b|]; [|done]. injection Ht as ->. rewrite !bool_decide_eq_true_2 by congruence. done.
  - exists k, s'. split; [|done]. destruct k; [|lia]. injection Hrun' as <-. congruence.
Qed.

Lemma schedule_no_starvation_witness : exists k s', (1 <= k <= 1)%nat /\ schedules k one_runs = Some (tt, s') /\ k_current s' = Some 6%nat.
Proof.
  apply (schedule_no_starvation one_runs 11 [6%nat] [] [] 6 [] (default (shell_task 0) (k_tasks one_runs !! 11%nat)));
    [apply (ti_ring _ _ _ _ _ one_runs_inv)|by vm_compute|unfold PICK_GUARD; cbn [length app]; lia|by vm_compute|by vm_compute|done|by vm_compute].
Defined.

(** C19: the ready queue is a list.  Whatever sequence of [task_add_ready] and
    [task_remove_ready] of existing tasks is applied, with no task added that is there
    already, the circular pointers end up holding exactly the list that appending and
    deleting give; a removal of a task that is not there, and the removal of the last one,
    included.  No call faults, the current task stays, and the file system is as it was
    but for the event logs of the tasks, to which a removal writes: every entry, inode,
    block and open file, and each task's descriptors and working directory, are the same. *)
Theorem ready_queue_refines root s l es : ring (k_tasks s) (k_ready s) l -> fs_inv root (k_fs s) ->
  (forall e, e ∈ es -> known s (subject e)) -> fits l es ->
  exists s', ready_run es s = Some (tt, s') /\ ring (k_tasks s') (k_ready s') (fold_left ready_step es l) /\
    fs_inv root (k_fs s') /\ only_logs (k_fs s) (k_fs s') /\ k_current s' = k_current s.
Proof. apply ready_run_spec. Qed.

Lemma ready_queue_refines_witness : exists s', ready_run [Leave 6; Leave 11; Leave 6; Join 11]%nat one_runs = Some (tt, s') /\
  ring (k_tasks s') (k_ready s') [11%nat] /\ fs_inv 0 (k_fs s') /\ only_logs (k_fs one_runs) (k_fs s') /\ k_current s' = Some 11%nat.
Proof.
  pose proof one_runs_inv as Hi.
  apply (ready_queue_refines 0 one_runs [6; 11]%nat [Leave 6; Leave 11; Leave 6; Join 11]%nat); [apply Hi|apply Hi| |].
  - intros e He. apply (ti_ring_io _ _ _ _ _ Hi). set_unfold in He. destruct He as [-> | [-> | [-> | [-> | []]]]]; cbn; set_solver.
  - vm_compute. repeat (split; [done|]). split; [|done]. set_solver.
Defined.

(** [sys_exit] ends a task and nothing else.  A task that is not alone on
    the ring becomes a zombie with its exit status and its time of death, leaves
    the ring, and keeps no descriptor; every other task keeps its identity; its
    parent is woken if it was blocked; and the next ready task round the ring
    runs, or the machine stops when there is none. *)
Lemma sys_exit_contract root s c l1 l2 al a status : task_inv root s c (l1 ++ c :: l2) al -> k_tasks s !! c = Some a ->
  l1 ++ l2 <> [] -> (length (l1 ++ l2) <= PICK_GUARD)%nat ->
  (forall p, t_parent a = Some p -> p <> c /\ is_Some (k_tasks s !! p)) ->
  exists out s', sys_exit status s = Some (out, s') /\
    ring (k_tasks s') (k_ready s') (l1 ++ l2) /\ fs_inv root (k_fs s') /\
    k_tasks s' !! c = Some (task_set_exit a status (v_ticks (k_fs s)) TASK_ZOMBIE) /\
    survive (k_tasks s) (k_tasks s') c /\
    match List.find (runnable (woken (k_tasks s) (t_parent a)) (Some c)) (l2 ++ l1) with
    | Some n => out = Switched /\ task_inv root s' n (l1 ++ l2) al
    | None => out = Halted
    end.
Proof. apply sys_exit_spec. Qed.

Lemma one_alive p : t_parent (default (shell_task 0) (k_tasks one_runs !! 11%nat)) = Some p -> p <> 11%nat /\ is_Some (k_tasks one_runs !! p).
Proof. intros Hp. vm_compute in Hp. injection Hp as <-. split; [done|]. eexists. by vm_compute. Qed.

Definition the_one : task := default (shell_task 0) (k_tasks one_runs !! 11%nat).

Lemma sys_exit_contract_witness : exists out s', sys_exit 7 one_runs = Some (out, s') /\
  ring (k_tasks s') (k_ready s') [6%nat] /\ fs_inv 0 (k_fs s') /\
  k_tasks s' !! 11%nat = Some (task_set_exit the_one 7 (v_ticks (k_fs one_runs)) TASK_ZOMBIE) /\
  survive (k_tasks one_runs) (k_tasks s') 11 /\ out = Switched /\ task_inv 0 s' 6 [6%nat] [11; 6]%nat.
Proof.
  destruct (sys_exit_contract 0 one_runs 11 [6%nat] [] [11; 6]%nat the_one 7) as (out & s' & H1 & H2 & H3 & H4 & H5 & H6);
    [apply one_runs_inv|by vm_compute|done|unfold PICK_GUARD; cbn [length app]; lia|exact one_alive|].
  exists out, s'. do 5 (split; [done|]). by vm_compute in H6.
Defined.

(** What a child left, its parent collects.  After a task with a live parent
    has exited and the parent runs, [sys_waitpid] for its pid returns at once
    with that pid and the status the child gave to [sys_exit], and the child is
    gone from the system. *)
Lemma exit_then_wait root s c l1 l2 al a status p s' : task_inv root s c (l1 ++ c :: l2) al -> k_tasks s !! c = Some a ->
  l1 ++ l2 <> [] -> (length al <= PICK_GUARD)%nat -> t_parent a = Some p -> p <> c -> is_Some (k_tasks s !! p) ->
  is_u32 (t_pid a) -> (forall x b, k_tasks s !! x = Some b -> t_pid b = t_pid a -> x = c) ->
  sys_exit status s = Some (Switched, s') -> k_current s' = Some p ->
  exists s'', waitpid_turn (t_pid a) s' = Some (Reaped (t_pid a) status, s'') /\ k_tasks s'' !! c = None.
Proof.
  intros Hs Ha Hne Hlen Hp Hpc Hpl Hu Huniq Hrun Hcur. pose proof (ring_short _ _ _ _ _ Hs) as Hsh.
  destruct (sys_exit_spec root s c l1 l2 al a status Hs Ha Hne) as (out & s2 & Hrun2 & _ & _ & Hex & Hsu & Hout).
  { rewrite length_app in *. simpl in Hsh. lia. }
  { intros q E. assert (q = p) as -> by congruence. done. }
  rewrite Hrun2 in Hrun. injection Hrun as -> ->. destruct (List.find _ _) as [n|]; [|done]. destruct Hout as [_ Hi].
  assert (n = p) as -> by (pose proof (ti_current _ _ _ _ _ Hi); congruence).
  pose proof (ring_short _ _ _ _ _ Hi) as Hsh2.
  destruct (waitpid_turn_spec root s' p _ al (t_pid a) Hi) as (r & s3 & Hrun3 & Hw); [lia|].
  assert (Hfin : finished (k_tasks s') p (t_pid a) c = true).
  { unfold finished, awaited. rewrite Hex. cbn. rewrite Hp, !bool_decide_eq_true_2 by done. unfold is_u32 in Hu.
    rewrite u32_small by done. rewrite Z.eqb_refl, orb_true_r. done. }
  unfold waited in Hw. destruct (List.find _ al) as [x|] eqn:Hf.
  2: { pose proof (List.find_none _ _ Hf c) as Hno. rewrite Hno in Hfin; [done|].
       apply list_elem_of_In, (ti_listed _ _ _ _ _ Hi). eauto. }
  apply List.find_some in Hf as [_ Hfx]. apply finished_spec in Hfx as (b & Hb & _ & _ & Hpid).
  assert (x = c) as ->.
  { destruct (decide (x = c)) as [-> | Hxc]; [done|]. pose proof (Hsu x Hxc) as Hx. destruct (k_tasks s !! x) as [b0|] eqn:Hb0; [|congruence].
    destruct Hx as (b' & Hb' & _ & Epid & _). apply (Huniq x b0 Hb0). unfold is_u32 in Hu. rewrite u32_small in Hpid by done.
    destruct Hpid as [? | ?]; [lia|congruence]. }
  destruct Hw as (b' & Hb' & -> & Hgone & _). rewrite Hex in Hb'. injection Hb' as <-. exists s3. done.
Qed.

Lemma exit_then_wait_witness : exists s'', waitpid_turn 2 (kafter (sys_exit 7) one_runs) = Some (Reaped 2 7, s'') /\ k_tasks s'' !! 11%nat = None.
Proof.
  apply (exit_then_wait 0 one_runs 11 [6%nat] [] [11; 6]%nat the_one 7 6 (kafter (sys_exit 7) one_runs));
    [apply one_runs_inv|by vm_compute|done|unfold PICK_GUARD; cbn [length]; lia|by vm_compute|done|eexists; by vm_compute|by vm_compute| |by vm_compute|by vm_compute].
  change (map_Forall (fun x b => t_pid b = t_pid the_one -> x = 11%nat) (k_tasks one_runs)). apply (bool_decide_unpack _). by vm_compute.
Defined.

(** A task added to the ready ring while it is still on it cuts off every
    task behind it: the tail of the ring points back to the task and the task to
    the head.  The checkpoint worker does this to the task it wakes. *)
Lemma add_ready_twice_drops s l1 t l2 : ring (k_tasks s) (k_ready s) (l1 ++ t :: l2) ->
  exists s', task_add_ready t s = Some (tt, s') /\ ring (k_tasks s') (k_ready s') (l1 ++ [t]).
Proof. apply add_ready_again. Qed.

Lemma add_ready_twice_drops_witness : exists s', task_add_ready 6 one_runs = Some (tt, s') /\ ring (k_tasks s') (k_ready s') [6%nat].
Proof. apply (add_ready_twice_drops one_runs [] 6 [11%nat]), (ti_ring _ _ _ _ _ one_runs_inv). Defined.
