(* ===== verification/Paging.v ===== *)
(** * Page tables

    [kernel/Paging/paging.c] and
    [kernel/Process/process-memory/process_memory.c].  The kernel reaches the
    page tables of the running address space through the tables themselves: the
    last entry of the directory points back to it, so the directory appears at
    [0xFFFFF000] and the tables at [0xFFC00000].

    Physical memory is a function from addresses to bytes.  [translate] is the
    two-level walk of the processor (no large pages, no permission checks: the
    kernel runs with write protection off); every load and store of the code
    below goes through it, and one that is not mapped is a fault.  The
    translation cache is left out: the code invalidates each page it changes. *)

From S2P Require Import Prelude StateMonad Pmm.

#[local] Open Scope Z_scope.

(** ** Physical memory *)

Notation ram := (Z -> Z).

Definition load32 (r : ram) (a : Z) : Z := r a + 256 * r (a + 1) + 65536 * r (a + 2) + 16777216 * r (a + 3).
Definition byte_of (v k : Z) : Z := Z.land (Z.shiftr v (8 * k)) 0xFF.
Definition store32 (a v : Z) (r : ram) : ram := fun x => if (a <=? x) && (x <? a + 4) then byte_of v (x - a) else r x.
Definition fill (a n b : Z) (r : ram) : ram := fun x => if (a <=? x) && (x <? a + n) then b else r x.
Definition copy (dst src n : Z) (r : ram) : ram := fun x => if (dst <=? x) && (x <? dst + n) then r (src + (x - dst)) else r x.

(** ** The processor's walk *)

Definition PAGE_PRESENT : Z := 1.
Definition PAGE_WRITE : Z := 2.
Definition PAGE_USER : Z := 4.

Definition present (e : Z) : bool := negb (Z.land e PAGE_PRESENT =? 0).
Definition frame_of (e : Z) : Z := Z.land e 0xFFFFF000.
Definition pd_idx (virt : Z) : Z := Z.shiftr virt 22.
Definition pt_idx (virt : Z) : Z := Z.land (Z.shiftr virt 12) 0x3FF.

Definition pde (r : ram) (cr3 i : Z) : Z := load32 r (cr3 + 4 * i).
Definition pte (r : ram) (table j : Z) : Z := load32 r (table + 4 * j).

Definition translate (r : ram) (cr3 virt : Z) : option Z :=
  let d := pde r cr3 (pd_idx virt) in
  if negb (present d) then None
  else
    let e := pte r (frame_of d) (pt_idx virt) in
    if negb (present e) then None else Some (frame_of e + Z.land virt 0xFFF).

(** ** The machine *)

Record machine := Mach { m_ram : ram; m_cr3 : Z; m_pmm : pmm }.
Notation P := (ST machine).

Definition set_ram (f : ram -> ram) (m : machine) : machine := Mach (f (m_ram m)) (m_cr3 m) (m_pmm m).

Definition walk (virt : Z) : P Z := reads (fun m => translate (m_ram m) (m_cr3 m) virt).
Definition vload (virt : Z) : P Z := p ← walk virt; gets (fun m => load32 (m_ram m) p).
Definition vstore (virt v : Z) : P unit := p ← walk virt; modify (set_ram (store32 p v)).

(** [memset(virt, 0, 4096)] and [memcpy(dst, src, 4096)] of whole pages. *)
Definition vclear (virt : Z) : P unit := p ← walk virt; modify (set_ram (fill p 4096 0)).
Definition vcopy (dst src : Z) : P unit := d ← walk dst; s ← walk src; modify (set_ram (copy d s 4096)).

Definition alloc_frame : P Z := fun m =>
  let '(f, a) := pmm_alloc (m_pmm m) in Some (f, Mach (m_ram m) (m_cr3 m) a).
Definition free_frame (f : Z) : P unit := modify (fun m => Mach (m_ram m) (m_cr3 m) (pmm_free f (m_pmm m))).

(** ** The running address space *)

Definition PAGE_RECURSIVE : Z := 0xFFFFF000.
Definition RECURSIVE_PT_BASE : Z := 0xFFC00000.
Definition TEMP_SRC_PAGE : Z := 0xFF800000.
Definition TEMP_DST_PAGE : Z := 0xFF801000.
Definition TEMP_PD_VIRT : Z := 0xFFBFF000.
Definition TEMP_PT_VIRT : Z := 0xFFBFE000.
Definition TEMP_MAP_VIRT : Z := 0xFFBFD000.

(** [&pd[i]], and [&pt[j]] of the table at index [i]. *)
Definition pd_slot (i : Z) : Z := PAGE_RECURSIVE +32 4 * i.
Definition pt_slot (i j : Z) : Z := RECURSIVE_PT_BASE +32 i * 0x1000 +32 4 * j.

(** The directory entry for [i], made present; false when memory is out. *)
Definition ensure_table (i flags : Z) : P bool :=
  d ← vload (pd_slot i);
  if negb (present d) then
    new_pt ← alloc_frame;
    if new_pt =? 0 then mret false
    else
      vstore (pd_slot i) (Z.lor (Z.lor (Z.lor new_pt PAGE_PRESENT) PAGE_WRITE) (Z.land flags PAGE_USER)) ≫= fun _ =>
      vclear (pt_slot i 0) ≫= fun _ =>
      mret true
  else
    vstore (pd_slot i) (Z.lor d (Z.land flags PAGE_USER)) ≫= fun _ =>
    mret true.

Definition map_page (virt phys flags : Z) : P unit :=
  ok ← ensure_table (pd_idx virt) flags;
  if negb ok then mret tt
  else vstore (pt_slot (pd_idx virt) (pt_idx virt)) (Z.lor (Z.lor phys flags) PAGE_PRESENT).

Definition unmap (virt : Z) : P unit :=
  d ← vload (pd_slot (pd_idx virt));
  if negb (present d) then mret tt
  else vstore (pt_slot (pd_idx virt) (pt_idx virt)) 0.

Definition KERNEL_RW : Z := Z.lor PAGE_PRESENT PAGE_WRITE.

Definition memcpy_page_physical (dst src : Z) : P unit :=
  map_page TEMP_SRC_PAGE src KERNEL_RW ≫= fun _ =>
  map_page TEMP_DST_PAGE dst KERNEL_RW ≫= fun _ =>
  vcopy TEMP_DST_PAGE TEMP_SRC_PAGE ≫= fun _ =>
  unmap TEMP_SRC_PAGE ≫= fun _ =>
  unmap TEMP_DST_PAGE.

(** ** Other address spaces, through the temporary windows *)

(** The table for [i] in the directory shown at [TEMP_PD_VIRT]; none when memory
    is out. *)
Definition target_table (i flags : Z) : P (option Z) :=
  d ← vload (TEMP_PD_VIRT + 4 * i);
  if negb (present d) then
    new_pt ← alloc_frame;
    if new_pt =? 0 then mret None
    else
      map_page TEMP_SRC_PAGE new_pt KERNEL_RW ≫= fun _ =>
      vclear TEMP_SRC_PAGE ≫= fun _ =>
      unmap TEMP_SRC_PAGE ≫= fun _ =>
      vstore (TEMP_PD_VIRT + 4 * i) (Z.lor (Z.lor new_pt flags) PAGE_PRESENT) ≫= fun _ =>
      mret (Some new_pt)
  else mret (Some (frame_of d)).

Definition map_page_in_directory (tar_cr3 vir phy flags : Z) : P bool :=
  map_page TEMP_PD_VIRT tar_cr3 KERNEL_RW ≫= fun _ =>
  table ← target_table (pd_idx vir) flags;
  match table with
  | None => unmap TEMP_PD_VIRT ≫= fun _ => mret false
  | Some pt_phys =>
      map_page TEMP_SRC_PAGE pt_phys KERNEL_RW ≫= fun _ =>
      vstore (TEMP_SRC_PAGE + 4 * pt_idx vir) (Z.lor (Z.lor phy flags) PAGE_PRESENT) ≫= fun _ =>
      unmap TEMP_PD_VIRT ≫= fun _ =>
      unmap TEMP_SRC_PAGE ≫= fun _ =>
      mret true
  end.

(** The first ten entries, the kernel's own, are shared with the running space. *)
Fixpoint share_kernel (todo : list Z) : P unit :=
  match todo with
  | [] => mret tt
  | i :: todo' =>
      d ← vload (PAGE_RECURSIVE + 4 * i);
      vstore (TEMP_PD_VIRT + 4 * i) d ≫= fun _ =>
      share_kernel todo'
  end.

Definition KERNEL_ENTRIES : list Z := seqZ 0 10.
Definition USER_ENTRIES : list Z := seqZ 10 758.
Definition TABLE_ENTRIES : list Z := seqZ 0 1024.

Definition create_user_space : P Z :=
  pd_phy ← alloc_frame;
  if pd_phy =? 0 then mret 0
  else
    map_page TEMP_PD_VIRT pd_phy KERNEL_RW ≫= fun _ =>
    vclear TEMP_PD_VIRT ≫= fun _ =>
    share_kernel KERNEL_ENTRIES ≫= fun _ =>
    vstore (TEMP_PD_VIRT + 4 * 1023) (Z.lor (Z.lor pd_phy PAGE_PRESENT) PAGE_WRITE) ≫= fun _ =>
    unmap TEMP_PD_VIRT ≫= fun _ =>
    mret pd_phy.

(** The frames of the table shown at [TEMP_PT_VIRT] go back to the pool. *)
Fixpoint free_pages (clear : bool) (todo : list Z) : P unit :=
  match todo with
  | [] => mret tt
  | j :: todo' =>
      e ← vload (TEMP_PT_VIRT + 4 * j);
      (if present e then
         free_frame (frame_of e) ≫= fun _ =>
         (if clear then vstore (TEMP_PT_VIRT + 4 * j) 0 else mret tt)
       else mret tt) ≫= fun _ =>
      free_pages clear todo'
  end.

(** So do the tables of the directory shown at [TEMP_PD_VIRT]. *)
Fixpoint free_tables (clear : bool) (todo : list Z) : P unit :=
  match todo with
  | [] => mret tt
  | i :: todo' =>
      d ← vload (TEMP_PD_VIRT + 4 * i);
      (if present d then
         map_page TEMP_PT_VIRT (frame_of d) KERNEL_RW ≫= fun _ =>
         free_pages clear TABLE_ENTRIES ≫= fun _ =>
         unmap TEMP_PT_VIRT ≫= fun _ =>
         free_frame (frame_of d) ≫= fun _ =>
         (if clear then vstore (TEMP_PD_VIRT + 4 * i) 0 else mret tt)
       else mret tt) ≫= fun _ =>
      free_tables clear todo'
  end.

Definition destroy_user_space (cr3 : Z) : P unit :=
  if cr3 =? 0 then mret tt
  else
    map_page TEMP_PD_VIRT cr3 KERNEL_RW ≫= fun _ =>
    free_tables true USER_ENTRIES ≫= fun _ =>
    unmap TEMP_PD_VIRT ≫= fun _ =>
    free_frame cr3.

Definition clone_rollback (new_pd_phys pd_built : Z) : P unit :=
  if new_pd_phys =? 0 then mret tt
  else
    map_page TEMP_PD_VIRT new_pd_phys KERNEL_RW ≫= fun _ =>
    free_tables false (seqZ 10 pd_built) ≫= fun _ =>
    unmap TEMP_PD_VIRT ≫= fun _ =>
    free_frame new_pd_phys.

(** The pages of one table, each copied to a frame of its own; false when memory
    is out. *)
Fixpoint clone_pages (pd : Z) (todo : list Z) : P bool :=
  match todo with
  | [] => mret true
  | j :: todo' =>
      e ← vload (pt_slot pd j);
      if negb (present e) then clone_pages pd todo'
      else
        new_phy ← alloc_frame;
        if new_phy =? 0 then mret false
        else
          memcpy_page_physical new_phy (frame_of e) ≫= fun _ =>
          vstore (TEMP_PT_VIRT + 4 * j) (Z.lor (Z.lor (Z.lor new_phy PAGE_PRESENT) PAGE_WRITE) PAGE_USER) ≫= fun _ =>
          clone_pages pd todo'
  end.

(** The tables, [pd_built] of them so far; false after a rollback. *)
Fixpoint clone_tables (new_pd_phys pd_built : Z) (todo : list Z) : P bool :=
  match todo with
  | [] => mret true
  | pd :: todo' =>
      d ← vload (PAGE_RECURSIVE + 4 * pd);
      if negb (present d) then clone_tables new_pd_phys pd_built todo'
      else
        new_pt_phys ← alloc_frame;
        if new_pt_phys =? 0 then
          unmap TEMP_PD_VIRT ≫= fun _ =>
          clone_rollback new_pd_phys pd_built ≫= fun _ =>
          mret false
        else
          map_page TEMP_PT_VIRT new_pt_phys KERNEL_RW ≫= fun _ =>
          vclear TEMP_PT_VIRT ≫= fun _ =>
          vstore (TEMP_PD_VIRT + 4 * pd) (Z.lor (Z.lor (Z.lor new_pt_phys PAGE_PRESENT) PAGE_WRITE) PAGE_USER) ≫= fun _ =>
          ok ← clone_pages pd TABLE_ENTRIES;
          if negb ok then
            unmap TEMP_PT_VIRT ≫= fun _ =>
            unmap TEMP_PD_VIRT ≫= fun _ =>
            clone_rollback new_pd_phys (pd_built + 1) ≫= fun _ =>
            mret false
          else
            unmap TEMP_PT_VIRT ≫= fun _ =>
            clone_tables new_pd_phys (pd_built + 1) todo'
  end.

Definition clone_page_directory : P Z :=
  new_pd_phys ← alloc_frame;
  if new_pd_phys =? 0 then mret 0
  else
    map_page TEMP_PD_VIRT new_pd_phys KERNEL_RW ≫= fun _ =>
    vclear TEMP_PD_VIRT ≫= fun _ =>
    share_kernel KERNEL_ENTRIES ≫= fun _ =>
    ok ← clone_tables new_pd_phys 0 USER_ENTRIES;
    if negb ok then mret 0
    else
      vstore (TEMP_PD_VIRT + 4 * 1023) (Z.lor (Z.lor new_pd_phys PAGE_PRESENT) PAGE_WRITE) ≫= fun _ =>
      unmap TEMP_PD_VIRT ≫= fun _ =>
      mret new_pd_phys.

(** ** Start-up: the first 40 megabytes mapped to themselves *)

Definition PD_ADDR : Z := 0x9000.
Definition PT_BASE : Z := 0xA000.
Definition ALL_RW : Z := Z.lor (Z.lor PAGE_PRESENT PAGE_WRITE) PAGE_USER.

Definition identity_table (t : Z) (r : ram) : ram :=
  foldl (fun r i => store32 (PT_BASE + t * 4096 + 4 * i) (Z.lor (t * 0x400000 + i * 0x1000) ALL_RW) r) r TABLE_ENTRIES.

Definition paging_init (m : machine) : machine :=
  let r := fill PD_ADDR 4096 0 (m_ram m) in
  let r := foldl (fun r t => store32 (PD_ADDR + 4 * t) (Z.lor (PT_BASE + t * 4096) ALL_RW) (identity_table t r)) r (seqZ 0 10) in
  Mach (store32 (PD_ADDR + 4 * 1023) (Z.lor PD_ADDR KERNEL_RW) r) PD_ADDR (m_pmm m).
