(* ===== verification/PagingMem.v ===== *)
(** * Words, pages and the recursive window

    What the loads and stores of [Paging] do to words and pages, and that the
    addresses the kernel computes from [0xFFFFF000] and [0xFFC00000] really lead
    to its page tables. *)

From S2P Require Import Prelude StateMonad Pmm Paging.

#[local] Open Scope Z_scope.

(** ** Address arithmetic *)

Definition is_frame (f : Z) : Prop := 0 <= f < 4294967296 /\ f mod 4096 = 0.

Lemma shiftr_div a k : 0 <= k -> Z.shiftr a k = a / 2 ^ k.
Proof. intros. by apply Z.shiftr_div_pow2. Qed.
Lemma pd_idx_div v : pd_idx v = v / 4194304.
Proof. unfold pd_idx. by rewrite shiftr_div by lia. Qed.
Lemma pt_idx_div v : pt_idx v = (v / 4096) mod 1024.
Proof. unfold pt_idx. rewrite shiftr_div by lia. change 0x3FF with (Z.ones 10). by rewrite Z.land_ones by lia. Qed.
Lemma low12 v : Z.land v 0xFFF = v mod 4096.
Proof. change 0xFFF with (Z.ones 12). by rewrite Z.land_ones by lia. Qed.
Lemma frame_of_sub e : 0 <= e < 4294967296 -> frame_of e = e - e mod 4096.
Proof.
  intros He. unfold frame_of. rewrite <- ldiff_4095. apply Z.bits_inj_iff'. intros n Hn.
  rewrite Z.land_spec, Z.ldiff_spec. change 4095 with (Z.ones 12). change 0xFFFFF000 with (Z.shiftl (Z.ones 20) 12).
  rewrite Z.shiftl_spec, !Z.testbit_ones by lia. destruct (Z.testbit e n) eqn:E; [|done]. cbn [andb].
  assert (n < 32).
  { destruct (decide (n < 32)); [done|]. rewrite Z.bits_above_log2 in E; [done|lia|].
    apply Z.log2_lt_pow2; [|]; destruct (decide (e = 0)) as [-> | ?]; try (by rewrite Z.bits_0 in E); try lia.
    apply Z.lt_le_trans with (2 ^ 32); [lia|]. apply Z.pow_le_mono_r; lia. }
  apply eq_true_iff_eq. rewrite andb_true_iff, negb_true_iff, !Z.leb_le, Z.ltb_lt, andb_false_iff, Z.leb_gt, Z.ltb_ge. lia.
Qed.

Lemma present_odd e : present e = Z.odd e.
Proof.
  unfold present, PAGE_PRESENT. change 1 with (Z.ones 1). rewrite Z.land_ones by lia. change (2 ^ 1) with 2. rewrite Zmod_odd.
  by destruct (Z.odd e).
Qed.

Lemma lor_small f fl : f mod 4096 = 0 -> 0 <= fl < 4096 -> Z.lor f fl = f + fl.
Proof.
  intros Hf Hfl. symmetry. apply Z.add_nocarry_lor. apply Z.bits_inj'. intros n Hn. rewrite Z.land_spec, Z.bits_0.
  destruct (decide (n < 12)).
  - replace f with ((f / 4096) * 2 ^ 12) by lia_mod. by rewrite Z.mul_pow2_bits_low by lia.
  - rewrite (Z.bits_above_log2 fl n), andb_false_r; [done|lia|]. destruct (decide (fl = 0)) as [-> | ?]; [simpl; lia|].
    apply Z.log2_lt_pow2; [lia|]. apply Z.lt_le_trans with (2 ^ 12); [lia|]. apply Z.pow_le_mono_r; lia.
Qed.

(** An entry built from a frame and flags. *)
Lemma entry_frame f fl : is_frame f -> 0 <= fl < 4096 -> frame_of (Z.lor f fl) = f /\ present (Z.lor f fl) = Z.odd fl /\
  0 <= Z.lor f fl < 4294967296.
Proof.
  intros [Hr Hf] Hfl. rewrite lor_small by done. assert (Hle : f + fl < 4294967296) by lia_mod.
  split; [rewrite frame_of_sub by lia; lia_mod|]. split; [|lia]. rewrite present_odd, Z.odd_add.
  assert (Z.odd f = false) as -> by (rewrite <- Z.negb_even; apply negb_false_iff, Z.even_spec; exists (f / 2); lia_mod).
  by rewrite xorb_false_l.
Qed.

Lemma frame_of_frame e : 0 <= e < 4294967296 -> is_frame (frame_of e).
Proof. intros He. rewrite frame_of_sub by done. split; lia_mod. Qed.

(** More permissions for the same frame. *)
Lemma entry_more d fl : 0 <= d < 4294967296 -> 0 <= fl < 4096 -> Z.odd fl = false ->
  frame_of (Z.lor d fl) = frame_of d /\ present (Z.lor d fl) = present d /\ 0 <= Z.lor d fl < 4294967296.
Proof.
  intros Hd Hfl Ho. assert (Hdec : d = Z.lor (frame_of d) (d mod 4096)).
  { rewrite lor_small; [rewrite frame_of_sub by done; lia|rewrite frame_of_sub by done; lia_mod|lia_mod]. }
  assert (Hmod : 0 <= Z.lor (d mod 4096) fl < 4096).
  { split; [apply Z.lor_nonneg; lia_mod|]. destruct (decide (Z.lor (d mod 4096) fl = 0)) as [E | ?]; [lia|].
    apply (Z.log2_lt_cancel _ 4096). rewrite Z.log2_lor by lia_mod. apply Z.max_lub_lt; apply (Z.le_lt_trans _ (Z.log2 4095));
      try done; apply Z.log2_le_mono; lia_mod. }
  destruct (entry_frame (frame_of d) (Z.lor (d mod 4096) fl) (frame_of_frame d Hd) Hmod) as (E1 & E2 & E3).
  rewrite Z.lor_assoc, <- Hdec in E1, E2, E3. split; [done|]. split; [|done]. rewrite E2, present_odd.
  rewrite <- !Z.bit0_odd, Z.lor_spec, (Z.bit0_odd fl), Ho, orb_false_r. change 4096 with (2 ^ 12). by rewrite Z.mod_pow2_bits_low by lia.
Qed.

Lemma pd_slot_at i : 0 <= i < 1024 -> pd_slot i = PAGE_RECURSIVE + 4 * i.
Proof. intros. unfold pd_slot, PAGE_RECURSIVE. apply u32_small. unfold is_u32. lia. Qed.
Lemma pt_slot_at i j : 0 <= i < 1024 -> 0 <= j < 1024 -> pt_slot i j = RECURSIVE_PT_BASE + 4096 * i + 4 * j.
Proof. intros. unfold pt_slot, RECURSIVE_PT_BASE. rewrite !u32_small; unfold is_u32; rewrite ?u32_small; unfold is_u32; lia. Qed.

(** ** Words *)

Definition bytes_ok (r : ram) : Prop := forall x, 0 <= r x < 256.

Lemma byte_of_mod v k : 0 <= k -> byte_of v k = (v / 2 ^ (8 * k)) mod 256.
Proof. intros. unfold byte_of. rewrite shiftr_div by lia. change 0xFF with (Z.ones 8). by rewrite Z.land_ones by lia. Qed.

Lemma load_range r a : bytes_ok r -> 0 <= load32 r a < 4294967296.
Proof. intros Hr. unfold load32. pose proof (Hr a). pose proof (Hr (a + 1)). pose proof (Hr (a + 2)). pose proof (Hr (a + 3)). lia. Qed.

Lemma store_same r a v : 0 <= v < 4294967296 -> load32 (store32 a v r) a = v.
Proof.
  intros Hv. unfold load32, store32.
  repeat match goal with |- context [(?x <=? ?y) && (?y <? ?z)] =>
    rewrite (proj2 (Z.leb_le x y)), (proj2 (Z.ltb_lt y z)) by lia end. cbn [andb].
  rewrite !byte_of_mod by lia. replace (a - a) with 0 by lia. replace (a + 1 - a) with 1 by lia.
  replace (a + 2 - a) with 2 by lia. replace (a + 3 - a) with 3 by lia.
  change (2 ^ (8 * 0)) with 1. change (2 ^ (8 * 1)) with 256. change (2 ^ (8 * 2)) with 65536. change (2 ^ (8 * 3)) with 16777216.
  lia_mod.
Qed.

Lemma store_off r a v x : ~ (a <= x < a + 4) -> store32 a v r x = r x.
Proof. intros. unfold store32. destruct (Z.leb_spec a x), (Z.ltb_spec x (a + 4)); cbn [andb]; (lia || done). Qed.

Lemma load_ext r r' a : (forall x, a <= x < a + 4 -> r' x = r x) -> load32 r' a = load32 r a.
Proof. intros Hx. unfold load32. by rewrite !Hx by lia. Qed.

Lemma store_other r a v b : b + 4 <= a \/ a + 4 <= b -> load32 (store32 a v r) b = load32 r b.
Proof. intros. apply load_ext. intros x Hx. apply store_off. lia. Qed.

Lemma store_bytes r a v : bytes_ok r -> bytes_ok (store32 a v r).
Proof.
  intros Hr x. unfold store32. destruct (_ && _) eqn:E; [|done]. apply andb_true_iff in E as [E1 E2].
  apply Z.leb_le in E1. rewrite byte_of_mod by lia. lia_mod.
Qed.

(** Storing what is there already changes nothing. *)
Lemma store_id r a x : bytes_ok r -> store32 a (load32 r a) r x = r x.
Proof.
  intros Hr. unfold store32. destruct (Z.leb_spec a x), (Z.ltb_spec x (a + 4)); cbn [andb]; try done.
  pose proof (Hr a). pose proof (Hr (a + 1)). pose proof (Hr (a + 2)). pose proof (Hr (a + 3)). rewrite byte_of_mod by lia. unfold load32.
  assert (Hx : x = a \/ x = a + 1 \/ x = a + 2 \/ x = a + 3) by lia.
  destruct Hx as [-> | [-> | [-> | ->]]]; [replace (a - a) with 0 by lia|replace (a + 1 - a) with 1 by lia|
    replace (a + 2 - a) with 2 by lia|replace (a + 3 - a) with 3 by lia].
  - change (2 ^ (8 * 0)) with 1. lia_mod.
  - change (2 ^ (8 * 1)) with 256. lia_mod.
  - change (2 ^ (8 * 2)) with 65536. lia_mod.
  - change (2 ^ (8 * 3)) with 16777216. lia_mod.
Qed.

(** ** Pages *)

Definition in_page (f x : Z) : Prop := f <= x < f + 4096.

Lemma pages_apart f g x y : is_frame f -> is_frame g -> f <> g -> in_page f x -> in_page g y -> x <> y.
Proof. unfold is_frame, in_page. intros [_ Hf] [_ Hg] Hne Hx Hy ->. apply Hne. lia_mod. Qed.

Lemma word_in_page f i x : is_frame f -> 0 <= i < 1024 -> f + 4 * i <= x < f + 4 * i + 4 -> in_page f x.
Proof. unfold in_page. lia. Qed.

Lemma page_load r r' f i : 0 <= i < 1024 -> (forall x, in_page f x -> r' x = r x) -> load32 r' (f + 4 * i) = load32 r (f + 4 * i).
Proof. intros Hi Hf. apply load_ext. intros x Hx. apply Hf. unfold in_page. lia. Qed.

Lemma store_page r f i v x : 0 <= i < 1024 -> ~ in_page f x -> store32 (f + 4 * i) v r x = r x.
Proof. intros Hi Hx. apply store_off. unfold in_page in Hx. lia. Qed.

Lemma store_word r f i j v : 0 <= i < 1024 -> 0 <= j < 1024 -> i <> j -> load32 (store32 (f + 4 * i) v r) (f + 4 * j) = load32 r (f + 4 * j).
Proof. intros. apply store_other. lia. Qed.

Lemma fill_page f b r x : ~ in_page f x -> fill f 4096 b r x = r x.
Proof. intros Hx. unfold fill, in_page in *. destruct (Z.leb_spec f x), (Z.ltb_spec x (f + 4096)); cbn [andb]; (lia || done). Qed.

Lemma fill_in f b r x : in_page f x -> fill f 4096 b r x = b.
Proof. intros Hx. unfold fill, in_page in *. destruct (Z.leb_spec f x), (Z.ltb_spec x (f + 4096)); cbn [andb]; (lia || done). Qed.

Lemma fill_load f r i : 0 <= i < 1024 -> load32 (fill f 4096 0 r) (f + 4 * i) = 0.
Proof. intros Hi. unfold load32. rewrite !fill_in by (unfold in_page; lia). done. Qed.

Lemma fill_bytes f r : bytes_ok r -> bytes_ok (fill f 4096 0 r).
Proof. intros Hr x. unfold fill. destruct (_ && _); [lia|done]. Qed.

Lemma copy_page d s r x : ~ in_page d x -> copy d s 4096 r x = r x.
Proof. intros Hx. unfold copy, in_page in *. destruct (Z.leb_spec d x), (Z.ltb_spec x (d + 4096)); cbn [andb]; (lia || done). Qed.

Lemma copy_in d s r k : 0 <= k < 4096 -> copy d s 4096 r (d + k) = r (s + k).
Proof.
  intros Hk. unfold copy. rewrite (proj2 (Z.leb_le d (d + k))), (proj2 (Z.ltb_lt (d + k) (d + 4096))) by lia. cbn [andb]. f_equal. lia.
Qed.

Lemma copy_bytes d s r : bytes_ok r -> bytes_ok (copy d s 4096 r).
Proof. intros Hr x. unfold copy. destruct (_ && _); apply Hr. Qed.

(** ** The walk *)

(** A page at virtual address [v] whose directory and table entries are known. *)
Lemma translate_at r cr3 v d e k : v mod 4096 = 0 -> 0 <= v -> 0 <= k < 4096 -> pde r cr3 (v / 4194304) = d -> present d = true ->
  pte r (frame_of d) ((v / 4096) mod 1024) = e ->
  translate r cr3 (v + k) = if present e then Some (frame_of e + k) else None.
Proof.
  intros Hv H0 Hk Hd Hpd He. unfold translate. rewrite pd_idx_div, pt_idx_div, low12.
  replace ((v + k) / 4194304) with (v / 4194304) by lia_mod. replace ((v + k) / 4096) with (v / 4096) by lia_mod.
  replace ((v + k) mod 4096) with k by lia_mod. rewrite Hd, Hpd. cbn [negb]. rewrite He. by destruct (present e).
Qed.

(** The running directory: it points to itself, and its tables are different
    frames. *)
Record dir_ok (r : ram) (cr3 : Z) : Prop := {
  dk_cr3 : is_frame cr3;
  dk_self : pde r cr3 1023 = cr3 + 3;
  dk_table : forall i, 0 <= i < 1023 -> present (pde r cr3 i) = true -> frame_of (pde r cr3 i) <> cr3;
  dk_apart : forall i j, 0 <= i < 1023 -> 0 <= j < 1023 -> i <> j -> present (pde r cr3 i) = true -> present (pde r cr3 j) = true ->
    frame_of (pde r cr3 i) <> frame_of (pde r cr3 j) }.

Lemma plus3 f : is_frame f -> frame_of (f + 3) = f /\ present (f + 3) = true.
Proof.
  intros Hf. destruct (entry_frame f 3 Hf ltac:(lia)) as (E1 & E2 & _). rewrite lor_small in E1, E2 by (apply Hf || lia). done.
Qed.

(** The directory appears at [0xFFFFF000]... *)
Lemma window_pd r cr3 i : dir_ok r cr3 -> 0 <= i < 1024 -> translate r cr3 (pd_slot i) = Some (cr3 + 4 * i).
Proof.
  intros Hd Hi. destruct (plus3 cr3 (dk_cr3 _ _ Hd)) as [E1 E2]. rewrite pd_slot_at by done. unfold PAGE_RECURSIVE.
  rewrite (translate_at r cr3 4294963200 (cr3 + 3) (cr3 + 3) (4 * i)); try done; try lia; [by rewrite E1, E2|apply (dk_self _ _ Hd)|].
  rewrite E1. apply (dk_self _ _ Hd).
Qed.

(** ...and its tables at [0xFFC00000]. *)
Lemma window_pt r cr3 i j : dir_ok r cr3 -> 0 <= i < 1023 -> 0 <= j < 1024 -> present (pde r cr3 i) = true ->
  translate r cr3 (pt_slot i j) = Some (frame_of (pde r cr3 i) + 4 * j).
Proof.
  intros Hd Hi Hj Hp. destruct (plus3 cr3 (dk_cr3 _ _ Hd)) as [E1 E2]. rewrite pt_slot_at by lia. unfold RECURSIVE_PT_BASE.
  rewrite (translate_at r cr3 (4290772992 + 4096 * i) (cr3 + 3) (pde r cr3 i) (4 * j)); try done; try lia; [by rewrite Hp| |].
  - replace ((4290772992 + 4096 * i) / 4194304) with 1023 by lia_mod. apply (dk_self _ _ Hd).
  - rewrite E1. replace (((4290772992 + 4096 * i) / 4096) mod 1024) with i by lia_mod. done.
Qed.

(** ** Running the machine *)

Lemma run_vload {B} v p (k : Z -> P B) m : translate (m_ram m) (m_cr3 m) v = Some p -> (vload v ≫= k) m = k (load32 (m_ram m) p) m.
Proof. intros Hp. unfold vload. rewrite run_assoc. unfold walk. rewrite (run_reads _ _ m p) by done. done. Qed.
Lemma run_vstore {B} v w p (k : unit -> P B) m : translate (m_ram m) (m_cr3 m) v = Some p ->
  (vstore v w ≫= k) m = k tt (set_ram (store32 p w) m).
Proof. intros Hp. unfold vstore. rewrite run_assoc. unfold walk. rewrite (run_reads _ _ m p) by done. done. Qed.
Lemma run_vstore_last v w p m : translate (m_ram m) (m_cr3 m) v = Some p -> vstore v w m = Some (tt, set_ram (store32 p w) m).
Proof. intros Hp. unfold vstore, walk. rewrite (run_reads _ _ m p) by done. done. Qed.
Lemma run_vclear {B} v p (k : unit -> P B) m : translate (m_ram m) (m_cr3 m) v = Some p ->
  (vclear v ≫= k) m = k tt (set_ram (fill p 4096 0) m).
Proof. intros Hp. unfold vclear. rewrite run_assoc. unfold walk. rewrite (run_reads _ _ m p) by done. done. Qed.
