(* ===== verification/PagingMap.v ===== *)
(** * Mapping pages in the running address space

    [map_page] and [unmap] of [kernel/Paging/paging.c]. *)

From S2P Require Import Prelude StateMonad Pmm Paging PagingMem.

#[local] Open Scope Z_scope.

(** ** The invariant of the machine *)

(** [f] is neither the directory nor one of its tables. *)
Definition no_table (r : ram) (cr3 f : Z) : Prop :=
  f <> cr3 /\ forall i, 0 <= i < 1023 -> present (pde r cr3 i) = true -> frame_of (pde r cr3 i) <> f.

Record mach_ok (m : machine) : Prop := {
  mk_bytes : bytes_ok (m_ram m);
  mk_dir : dir_ok (m_ram m) (m_cr3 m);
  mk_once : NoDup (pm_stack (m_pmm m));
  mk_pool : forall f, f ∈ pm_stack (m_pmm m) -> is_frame f /\ f <> 0 /\ no_table (m_ram m) (m_cr3 m) f }.

(** A frame in use for something else. *)
Definition other (m : machine) (f : Z) : Prop :=
  is_frame f /\ no_table (m_ram m) (m_cr3 m) f /\ f ∉ pm_stack (m_pmm m).

(** Equal directories. *)
Definition same_dir (r r' : ram) (cr3 : Z) : Prop := forall i, 0 <= i < 1024 -> pde r' cr3 i = pde r cr3 i.

Lemma same_dir_ok r r' cr3 : same_dir r r' cr3 -> dir_ok r cr3 -> dir_ok r' cr3.
Proof.
  intros Hs [H1 H2 H3 H4]. split; [done|rewrite Hs by lia; done| |].
  - intros i Hi. rewrite Hs by lia. by apply H3.
  - intros i j Hi Hj. rewrite !Hs by lia. by apply H4.
Qed.

Lemma same_no_table r r' cr3 f : same_dir r r' cr3 -> no_table r cr3 f -> no_table r' cr3 f.
Proof. intros Hs [H1 H2]. split; [done|]. intros i Hi. rewrite Hs by lia. by apply H2. Qed.

Lemma off_page_dir r r' cr3 : (forall x, in_page cr3 x -> r' x = r x) -> same_dir r r' cr3.
Proof. intros Hx i Hi. by apply page_load. Qed.

(** A change of memory outside the directory. *)
Lemma mach_ok_ram m f : mach_ok m -> bytes_ok (f (m_ram m)) -> same_dir (m_ram m) (f (m_ram m)) (m_cr3 m) -> mach_ok (set_ram f m).
Proof.
  intros [H1 H2 H3 H4] Hb Hs. split; cbn; [done|by apply (same_dir_ok (m_ram m))|done|].
  intros g Hg. destruct (H4 g Hg) as (? & ? & ?). split; [done|]. split; [done|]. by apply (same_no_table (m_ram m)).
Qed.

Lemma table_frame m i : mach_ok m -> is_frame (frame_of (pde (m_ram m) (m_cr3 m) i)).
Proof. intros Hm. apply frame_of_frame, load_range, Hm. Qed.

(** One entry of the directory is replaced. *)
Lemma dir_replace r cr3 i e r' : dir_ok r cr3 -> 0 <= i < 1023 -> present e = true -> frame_of e <> cr3 ->
  (forall j, 0 <= j < 1023 -> j <> i -> present (pde r cr3 j) = true -> frame_of (pde r cr3 j) <> frame_of e) ->
  pde r' cr3 i = e -> (forall j, 0 <= j < 1024 -> j <> i -> pde r' cr3 j = pde r cr3 j) -> dir_ok r' cr3.
Proof.
  intros [H1 H2 H3 H4] Hi Hp Hne Hfr Hei Hej. split; [done|rewrite Hej by lia; done| |].
  - intros j Hj Hpj. destruct (decide (j = i)) as [-> | ?]; [by rewrite Hei|]. rewrite Hej in * by lia. by apply H3.
  - intros j k Hj Hk Hjk. destruct (decide (j = i)) as [-> | ?], (decide (k = i)) as [-> | ?]; try done.
    + rewrite Hei, Hej by lia. intros _ Hpk E. by apply (Hfr k Hk).
    + rewrite Hei, Hej by lia. intros Hpj _. by apply Hfr.
    + rewrite !Hej by lia. by apply H4.
Qed.

(** ** The table for an entry *)

(** [t] is the table at entry [i] afterwards; [word j] are its entries. *)
Record tabled (m m' : machine) (i t : Z) (word : Z -> Z) : Prop := {
  tb_ok : mach_ok m';
  tb_cr3 : m_cr3 m' = m_cr3 m;
  tb_here : present (pde (m_ram m') (m_cr3 m) i) = true /\ frame_of (pde (m_ram m') (m_cr3 m) i) = t;
  tb_there : forall j, 0 <= j < 1024 -> j <> i -> pde (m_ram m') (m_cr3 m) j = pde (m_ram m) (m_cr3 m) j;
  tb_word : forall j, 0 <= j < 1024 -> pte (m_ram m') t j = word j;
  tb_rest : forall x, ~ in_page (m_cr3 m) x -> ~ in_page t x -> m_ram m' x = m_ram m x }.

Definition old_word (m : machine) (i j : Z) : Z :=
  if present (pde (m_ram m) (m_cr3 m) i) then pte (m_ram m) (frame_of (pde (m_ram m) (m_cr3 m) i)) j else 0.

(** The table was there already, or comes from the pool. *)
Definition table_from (m m' : machine) (i t : Z) : Prop :=
  if present (pde (m_ram m) (m_cr3 m) i) then t = frame_of (pde (m_ram m) (m_cr3 m) i) /\ m_pmm m' = m_pmm m
  else pm_stack (m_pmm m) = t :: pm_stack (m_pmm m') /\ pm_total_frames (m_pmm m') = pm_total_frames (m_pmm m).

Lemma user_flag flags : 0 <= flags -> 0 <= Z.land flags PAGE_USER < 4096 /\ Z.odd (Z.land flags PAGE_USER) = false.
Proof.
  intros. unfold PAGE_USER. split.
  - split; [apply Z.land_nonneg; lia|]. destruct (decide (Z.land flags 4 = 0)) as [-> | ?]; [lia|].
    apply Z.le_lt_trans with 4; [|lia]. apply Z.ldiff_le; [lia|]. apply Z.bits_inj'. intros q Hq.
    rewrite Z.ldiff_spec, Z.land_spec, Z.bits_0. by destruct (Z.testbit flags q), (Z.testbit 4 q).
  - rewrite <- Z.bit0_odd, Z.land_spec. change (Z.testbit 4 0) with false. apply andb_false_r.
Qed.

(** The flags of a new table. *)
Lemma table_entry t flags : is_frame t -> 0 <= flags ->
  let e := Z.lor (Z.lor (Z.lor t PAGE_PRESENT) PAGE_WRITE) (Z.land flags PAGE_USER) in
  frame_of e = t /\ present e = true /\ 0 <= e < 4294967296.
Proof.
  intros Ht Hf e. destruct (user_flag flags Hf) as [Hu Ho]. destruct (entry_frame t 3 Ht ltac:(lia)) as (E1 & E2 & E3).
  assert (Hl : Z.lor (Z.lor t PAGE_PRESENT) PAGE_WRITE = Z.lor t 3) by (rewrite <- Z.lor_assoc; done).
  unfold e. rewrite Hl. destruct (entry_more (Z.lor t 3) (Z.land flags PAGE_USER) E3 Hu Ho) as (F1 & F2 & F3).
  rewrite F1, F2, E1, E2. done.
Qed.

Lemma ensure_old m i flags : mach_ok m -> 0 <= i < 1023 -> 0 <= flags -> present (pde (m_ram m) (m_cr3 m) i) = true ->
  exists m', ensure_table i flags m = Some (true, m') /\ tabled m m' i (frame_of (pde (m_ram m) (m_cr3 m) i)) (old_word m i) /\ m_pmm m' = m_pmm m.
Proof.
  intros Hm Hi Hf Hp. pose proof (window_pd _ _ i (mk_dir _ Hm) ltac:(lia)) as Hw. unfold ensure_table.
  rewrite (run_vload _ _ _ m Hw). change (load32 (m_ram m) (m_cr3 m + 4 * i)) with (pde (m_ram m) (m_cr3 m) i). rewrite Hp. cbn [negb].
  rewrite (run_vstore _ _ _ _ m Hw). eexists. split; [reflexivity|]. split; [|done].
  set (d := pde (m_ram m) (m_cr3 m) i). destruct (user_flag flags Hf) as [Hu Ho].
  destruct (entry_more d (Z.land flags PAGE_USER) (load_range _ _ (mk_bytes _ Hm)) Hu Ho) as (E1 & E2 & E3).
  set (e := Z.lor d (Z.land flags PAGE_USER)) in *.
  assert (Hhere : pde (store32 (m_cr3 m + 4 * i) e (m_ram m)) (m_cr3 m) i = e) by by apply store_same.
  assert (Hthere : forall j, 0 <= j < 1024 -> j <> i -> pde (store32 (m_cr3 m + 4 * i) e (m_ram m)) (m_cr3 m) j = pde (m_ram m) (m_cr3 m) j).
  { intros j Hj Hji. apply store_word; lia. }
  pose proof (table_frame m i Hm) as Htf. fold d in Htf. pose proof (dk_table _ _ (mk_dir _ Hm) i Hi Hp) as Hdt. fold d in Hdt.
  split; cbn; rewrite ?Hhere; try done.
  - split; cbn; [apply store_bytes, Hm| |apply Hm|].
    + apply (dir_replace (m_ram m) (m_cr3 m) i e); [apply Hm|done|by rewrite E2|by rewrite E1| |done|done].
      intros j Hj Hji Hpj. rewrite E1. apply not_eq_sym. by apply (dk_apart _ _ (mk_dir _ Hm)).
    + intros g Hg. destruct (mk_pool _ Hm g Hg) as (H1 & H2 & H3 & H4). split; [done|]. split; [done|]. split; [done|].
      intros j Hj Hpj. destruct (decide (j = i)) as [-> | ?]; [rewrite Hhere, E1; by apply H4|]. rewrite Hthere in * by lia. by apply H4.
  - rewrite E1, E2. done.
  - intros j Hj. unfold old_word. rewrite Hp. fold d. apply page_load; [done|]. intros x Hx. apply store_page; [lia|].
    intros Hx2. by apply (pages_apart (frame_of d) (m_cr3 m) x x); [done|apply (dk_cr3 _ _ (mk_dir _ Hm))|..].
  - intros x Hx1 _. apply store_page; [lia|done].
Qed.

Lemma alloc_run {B} t rest (k : Z -> P B) m : pm_stack (m_pmm m) = t :: rest ->
  (alloc_frame ≫= k) m = k t (Mach (m_ram m) (m_cr3 m) (mkPmm rest (pm_total_frames (m_pmm m)))).
Proof. intros Hs. unfold alloc_frame, mbind, ST_bind, pmm_alloc. by rewrite Hs. Qed.
Lemma alloc_none {B} (k : Z -> P B) m : pm_stack (m_pmm m) = [] -> (alloc_frame ≫= k) m = k 0 m.
Proof. intros Hs. unfold alloc_frame, mbind, ST_bind, pmm_alloc. rewrite Hs. by destruct m. Qed.

Lemma alloc_ok m t rest : mach_ok m -> pm_stack (m_pmm m) = t :: rest ->
  let m' := Mach (m_ram m) (m_cr3 m) (mkPmm rest (pm_total_frames (m_pmm m))) in mach_ok m' /\ other m' t /\ t <> 0.
Proof.
  intros [H1 H2 H3 H4] Hs m'. rewrite Hs in H3, H4. apply list.NoDup_cons in H3 as [Ht H3].
  destruct (H4 t ltac:(apply elem_of_cons; auto)) as (T1 & T2 & T3). split; [|done].
  split; cbn; try done. intros f Hf. apply H4. apply elem_of_cons; auto.
Qed.

(** A store into a directory with a fresh table. *)
Lemma ensure_new m i flags t rest : mach_ok m -> 0 <= i < 1023 -> 0 <= flags -> present (pde (m_ram m) (m_cr3 m) i) = false ->
  pm_stack (m_pmm m) = t :: rest ->
  exists m', ensure_table i flags m = Some (true, m') /\ tabled m m' i t (old_word m i) /\
    m_pmm m' = mkPmm rest (pm_total_frames (m_pmm m)).
Proof.
  intros Hm Hi Hf Hp Hst. pose proof (window_pd _ _ i (mk_dir _ Hm) ltac:(lia)) as Hw. unfold ensure_table.
  rewrite (run_vload _ _ _ m Hw). change (load32 (m_ram m) (m_cr3 m + 4 * i)) with (pde (m_ram m) (m_cr3 m) i). rewrite Hp. cbn [negb].
  rewrite (alloc_run t rest) by done. destruct (alloc_ok m t rest Hm Hst) as (Hm1 & (Tf & (T1 & T2) & T3) & T0).
  rewrite (proj2 (Z.eqb_neq t 0)) by done.
  set (m1 := Mach (m_ram m) (m_cr3 m) (mkPmm rest (pm_total_frames (m_pmm m)))) in *.
  rewrite (run_vstore _ _ _ _ m1 Hw). destruct (table_entry t flags Tf Hf) as (E1 & E2 & E3). set (e := Z.lor _ (Z.land flags PAGE_USER)) in *.
  set (r2 := store32 (m_cr3 m + 4 * i) e (m_ram m)).
  assert (Hhere : pde r2 (m_cr3 m) i = e) by by apply store_same.
  assert (Hthere : forall j, 0 <= j < 1024 -> j <> i -> pde r2 (m_cr3 m) j = pde (m_ram m) (m_cr3 m) j).
  { intros j Hj Hji. apply store_word; lia. }
  assert (Hd2 : dir_ok r2 (m_cr3 m)).
  { apply (dir_replace (m_ram m) (m_cr3 m) i e); [apply Hm|done..|by rewrite E1| |done|done]. intros j Hj Hji Hpj. rewrite E1. by apply T2. }
  change (set_ram (store32 (m_cr3 m + 4 * i) e) m1) with (Mach r2 (m_cr3 m) (m_pmm m1)).
  pose proof (window_pt r2 (m_cr3 m) i 0 Hd2 Hi ltac:(lia) ltac:(by rewrite Hhere)) as Hw2. rewrite Hhere, E1, Z.add_0_r in Hw2.
  rewrite (run_vclear _ t) by done. eexists. split; [reflexivity|]. split; [|done].
  assert (Hsame : same_dir r2 (fill t 4096 0 r2) (m_cr3 m)).
  { apply off_page_dir. intros x Hx. apply fill_page. intros Hx2. by apply (pages_apart (m_cr3 m) t x x); [apply (dk_cr3 _ _ Hd2)|..]. }
  split; cbn; rewrite ?Hsame, ?Hhere by lia; try done.
  - split; cbn; [apply fill_bytes, store_bytes, Hm|by apply (same_dir_ok r2)|apply Hm1|].
    intros g Hg. destruct (mk_pool _ Hm1 g Hg) as (H1 & H2 & H3 & H4). split; [done|]. split; [done|].
    apply (same_no_table r2); [done|]. split; [done|]. intros j Hj Hpj.
    destruct (decide (j = i)) as [-> | ?]; [rewrite Hhere, E1; by intros ->|]. rewrite Hthere in * by lia. by apply H4.
  - intros j Hj Hji. rewrite Hsame by lia. by apply Hthere.
  - intros j Hj. unfold old_word. rewrite Hp. by apply fill_load.
  - intros x Hx1 Hx2. rewrite fill_page by done. apply store_page; [lia|done].
Qed.

Lemma ensure_none m i flags : mach_ok m -> 0 <= i < 1023 -> present (pde (m_ram m) (m_cr3 m) i) = false ->
  pm_stack (m_pmm m) = [] -> ensure_table i flags m = Some (false, m).
Proof.
  intros Hm Hi Hp Hst. pose proof (window_pd _ _ i (mk_dir _ Hm) ltac:(lia)) as Hw. unfold ensure_table.
  rewrite (run_vload _ _ _ m Hw). change (load32 (m_ram m) (m_cr3 m + 4 * i)) with (pde (m_ram m) (m_cr3 m) i). rewrite Hp. cbn [negb].
  by rewrite alloc_none.
Qed.

(** A store into a table of the running directory. *)
Lemma tabled_store m m1 i t w j v : tabled m m1 i t w -> 0 <= i < 1023 -> 0 <= j < 1024 -> 0 <= v < 4294967296 ->
  vstore (pt_slot i j) v m1 = Some (tt, set_ram (store32 (t + 4 * j) v) m1) /\
  tabled m (set_ram (store32 (t + 4 * j) v) m1) i t (fun k => if decide (k = j) then v else w k).
Proof.
  intros [H1 H2 [H3 H4] H5 H6 H7] Hi Hj Hv. rewrite <- H2 in H3, H4.
  assert (Hft : is_frame t) by (rewrite <- H4; by apply table_frame).
  assert (Htc : t <> m_cr3 m1) by (rewrite <- H4; by apply (dk_table _ _ (mk_dir _ H1))).
  assert (Hsame : same_dir (m_ram m1) (store32 (t + 4 * j) v (m_ram m1)) (m_cr3 m1)).
  { apply off_page_dir. intros x Hx. apply store_page; [done|]. intros Hx2.
    by apply (pages_apart (m_cr3 m1) t x x); [apply (dk_cr3 _ _ (mk_dir _ H1))|..]. }
  split.
  - apply run_vstore_last. rewrite <- H4. by apply window_pt; [apply (mk_dir _ H1)|..].
  - split; cbn; rewrite <- ?H2; try done.
    + apply mach_ok_ram; [done|apply store_bytes, H1|done].
    + by rewrite Hsame by lia.
    + intros k Hk Hki. rewrite Hsame by lia. rewrite H2. by apply H5.
    + intros k Hk. destruct (decide (k = j)) as [-> | Hkj]; [by apply store_same|]. rewrite <- H6 by done. apply store_word; lia.
    + intros x Hx1 Hx2. rewrite store_page by done. apply H7; [by rewrite <- H2|done].
Qed.

Lemma idx_range v : 0 <= v < 4294967296 -> 0 <= pd_idx v < 1024 /\ 0 <= pt_idx v < 1024.
Proof. intros. rewrite pd_idx_div, pt_idx_div. split; lia_mod. Qed.

(** The entry [map_page] writes. *)
Definition page_entry (phys flags : Z) : Z := Z.lor (Z.lor phys flags) PAGE_PRESENT.

Lemma page_entry_spec phys flags : is_frame phys -> 0 <= flags < 4096 ->
  frame_of (page_entry phys flags) = phys /\ present (page_entry phys flags) = true /\ 0 <= page_entry phys flags < 4294967296.
Proof.
  intros Hp Hf. unfold page_entry. rewrite <- Z.lor_assoc.
  assert (Hl : 0 <= Z.lor flags PAGE_PRESENT < 4096 /\ Z.odd (Z.lor flags PAGE_PRESENT) = true).
  { unfold PAGE_PRESENT. split; [|by rewrite <- Z.bit0_odd, Z.lor_spec, orb_true_r]. split; [apply Z.lor_nonneg; lia|].
    apply (Z.log2_lt_cancel _ 4096). rewrite Z.log2_lor by lia. apply Z.max_lub_lt; [|done].
    apply (Z.le_lt_trans _ (Z.log2 4095)); [apply Z.log2_le_mono; lia|done]. }
  destruct (entry_frame phys _ Hp (proj1 Hl)) as (E1 & E2 & E3). by rewrite E1, E2, (proj2 Hl).
Qed.

Definition new_word (m : machine) (virt e j : Z) : Z := if decide (j = pt_idx virt) then e else old_word m (pd_idx virt) j.

Lemma ensure_spec m i flags : mach_ok m -> 0 <= i < 1023 -> 0 <= flags ->
  (present (pde (m_ram m) (m_cr3 m) i) = false /\ pm_stack (m_pmm m) = [] /\ ensure_table i flags m = Some (false, m)) \/
  exists m' t, ensure_table i flags m = Some (true, m') /\ tabled m m' i t (old_word m i) /\ table_from m m' i t.
Proof.
  intros Hm Hi Hf. unfold table_from. destruct (present (pde (m_ram m) (m_cr3 m) i)) eqn:Hp.
  - right. destruct (ensure_old m i flags Hm Hi Hf Hp) as (m' & Hrun & Ht & Hpm). by exists m', (frame_of (pde (m_ram m) (m_cr3 m) i)).
  - destruct (pm_stack (m_pmm m)) as [|t rest] eqn:Hst; [left; split; [done|]; split; [done|]; by apply ensure_none|].
    right. destruct (ensure_new m i flags t rest Hm Hi Hf Hp Hst) as (m' & Hrun & Ht & Hpm). exists m', t.
    split; [done|]. split; [done|]. by rewrite Hpm.
Qed.

Lemma map_page_spec m virt phys flags : mach_ok m -> 0 <= virt < 4294967296 -> pd_idx virt <> 1023 -> is_frame phys -> 0 <= flags < 4096 ->
  (present (pde (m_ram m) (m_cr3 m) (pd_idx virt)) = false /\ pm_stack (m_pmm m) = [] /\ map_page virt phys flags m = Some (tt, m)) \/
  exists m' t, map_page virt phys flags m = Some (tt, m') /\
    tabled m m' (pd_idx virt) t (new_word m virt (page_entry phys flags)) /\ table_from m m' (pd_idx virt) t.
Proof.
  intros Hm Hv Hi Hph Hf. destruct (idx_range virt Hv) as [Ri Rj]. unfold map_page.
  destruct (ensure_spec m (pd_idx virt) flags Hm ltac:(lia) ltac:(lia)) as [(Hp & Hst & Hrun) | (m1 & t & Hrun & Ht & Hfrom)];
    rewrite (run_bind _ _ _ _ _ Hrun); cbn [negb]; [by left|right].
  destruct (page_entry_spec phys flags Hph Hf) as (_ & _ & E3).
  destruct (tabled_store m m1 _ t _ (pt_idx virt) (page_entry phys flags) Ht ltac:(lia) Rj E3) as [Hrun2 Ht2].
  eexists _, t. split; [exact Hrun2|]. split; [exact Ht2|]. unfold table_from in *. by destruct (present _).
Qed.

Lemma unmap_spec m virt : mach_ok m -> 0 <= virt < 4294967296 -> pd_idx virt <> 1023 ->
  if present (pde (m_ram m) (m_cr3 m) (pd_idx virt)) then
    exists m', unmap virt m = Some (tt, m') /\ tabled m m' (pd_idx virt) (frame_of (pde (m_ram m) (m_cr3 m) (pd_idx virt))) (new_word m virt 0) /\
      m_pmm m' = m_pmm m
  else unmap virt m = Some (tt, m).
Proof.
  intros Hm Hv Hi. destruct (idx_range virt Hv) as [Ri Rj]. unfold unmap. rewrite (run_vload _ _ _ m (window_pd _ _ _ (mk_dir _ Hm) Ri)).
  change (load32 (m_ram m) (m_cr3 m + 4 * pd_idx virt)) with (pde (m_ram m) (m_cr3 m) (pd_idx virt)).
  destruct (present _) eqn:Hp; [|done]. cbn [negb].
  assert (Ht : tabled m m (pd_idx virt) (frame_of (pde (m_ram m) (m_cr3 m) (pd_idx virt))) (old_word m (pd_idx virt))).
  { split; try done. intros j Hj. unfold old_word. by rewrite Hp. }
  destruct (tabled_store m m _ _ _ (pt_idx virt) 0 Ht ltac:(lia) Rj ltac:(lia)) as [Hrun Ht2].
  eexists. split; [exact Hrun|]. split; [exact Ht2|done].
Qed.

(** What a change of one table means for the walk. *)
Lemma tabled_translate m m' virt t e v : mach_ok m -> tabled m m' (pd_idx virt) t (new_word m virt e) ->
  table_from m m' (pd_idx virt) t -> 0 <= virt < 4294967296 -> pd_idx virt <> 1023 -> 0 <= v < 4294967296 -> pd_idx v <> 1023 ->
  translate (m_ram m') (m_cr3 m) v =
    if decide (v / 4096 = virt / 4096) then (if present e then Some (frame_of e + v mod 4096) else None)
    else translate (m_ram m) (m_cr3 m) v.
Proof.
  intros Hm [H1 H2 [H3 H4] H5 H6 H7] Hfrom Hvr Hvi Hv Hvn. destruct (idx_range v Hv) as [Ri Rj], (idx_range virt Hvr) as [Si Sj].
  unfold translate. rewrite low12. destruct (decide (pd_idx v = pd_idx virt)) as [E | Hne].
  - rewrite E, H3, H4, H6 by done. cbn [negb]. unfold new_word.
    assert (Hj : pt_idx v = pt_idx virt <-> v / 4096 = virt / 4096).
    { rewrite !pd_idx_div in E. rewrite !pt_idx_div. split; [intros; lia_mod|congruence]. }
    destruct (decide (v / 4096 = virt / 4096)) as [Hs | Hs]; destruct (decide (pt_idx v = pt_idx virt)) as [Hx | Hx]; try tauto.
    + by destruct (present e).
    + unfold old_word. by destruct (present (pde (m_ram m) (m_cr3 m) (pd_idx virt))).
  - destruct (decide (v / 4096 = virt / 4096)) as [Hs | Hs].
    { exfalso. apply Hne. rewrite !pd_idx_div. lia_mod. }
    rewrite H5 by done. destruct (present (pde (m_ram m) (m_cr3 m) (pd_idx v))) eqn:Hp; [|done]. cbn [negb].
    set (u := frame_of (pde (m_ram m) (m_cr3 m) (pd_idx v))).
    assert (Huf : is_frame u) by by apply table_frame. assert (Huc : u <> m_cr3 m) by (by apply (dk_table _ _ (mk_dir _ Hm)); [lia|]).
    assert (Hut : u <> t).
    { unfold table_from in Hfrom. destruct (present (pde (m_ram m) (m_cr3 m) (pd_idx virt))) eqn:Hp2.
      - destruct Hfrom as [-> _]. apply (dk_apart _ _ (mk_dir _ Hm)); [lia|lia|done|done|done].
      - destruct Hfrom as [Hst _]. destruct (mk_pool _ Hm t) as (_ & _ & _ & Hno); [rewrite Hst; apply elem_of_cons; auto|].
        apply Hno; [lia|done]. }
    assert (Hft : is_frame t) by (rewrite <- H4, <- H2; by apply table_frame).
    assert (Hpage : pte (m_ram m') u (pt_idx v) = pte (m_ram m) u (pt_idx v)); [|by rewrite Hpage].
    apply page_load; [done|]. intros x Hx. apply H7; intros Hx2.
    + by apply (pages_apart u (m_cr3 m) x x); [done|apply (dk_cr3 _ _ (mk_dir _ Hm))|..].
    + by apply (pages_apart u t x x).
Qed.
