(* ===== verification/PagingWin.v ===== *)
(** * The temporary windows

    To reach a frame that the running address space does not map, the kernel maps
    it at a window address under entry 1022.  [rep] is a machine seen apart from
    the table of that entry: what the windows show, and the memory; each step of
    the code changes one of the two. *)

From S2P Require Import Prelude StateMonad Pmm Paging PagingMem PagingMap.

#[local] Open Scope Z_scope.

Definition is_window (v : Z) : Prop := 0 <= v < 4294967296 /\ v mod 4096 = 0 /\ pd_idx v = 1022.

Lemma temp_windows : is_window TEMP_SRC_PAGE /\ is_window TEMP_DST_PAGE /\ is_window TEMP_PD_VIRT /\ is_window TEMP_PT_VIRT /\ is_window TEMP_MAP_VIRT.
Proof. unfold is_window. repeat split; vm_compute; done. Qed.

(** [w v] is the entry of window [v], [T] their table; [r] is the memory but for
    that table. *)
Record rep (c T : Z) (p : pmm) (w : Z -> Z) (r : ram) (m : machine) : Prop := {
  rp_cr3 : m_cr3 m = c;
  rp_pmm : m_pmm m = p;
  rp_ok : mach_ok m;
  rp_win : present (pde (m_ram m) c 1022) = true /\ frame_of (pde (m_ram m) c 1022) = T;
  rp_entry : forall v, is_window v -> pte (m_ram m) T (pt_idx v) = w v;
  rp_ram : forall x, ~ in_page T x -> m_ram m x = r x }.

Definition upd (w : Z -> Z) (v e : Z) : Z -> Z := fun u => if decide (u = v) then e else w u.
Lemma upd_same w v e : upd w v e v = e.
Proof. unfold upd. by rewrite decide_True. Qed.
Lemma upd_other w v e u : u <> v -> upd w v e u = w u.
Proof. intros. unfold upd. by rewrite decide_False. Qed.

Lemma window_idx u v : is_window u -> is_window v -> pt_idx u = pt_idx v -> u = v.
Proof. unfold is_window. rewrite !pd_idx_div, !pt_idx_div. intros (? & ? & ?) (? & ? & ?) ?. lia_mod. Qed.

Section rep.
Context (c T : Z) (p : pmm) (w : Z -> Z) (r : ram) (m : machine) (Hm : rep c T p w r m).

Lemma rep_T : is_frame T /\ T <> c /\ is_frame c.
Proof.
  destruct Hm as [<- _ Hok [Hp <-] _ _]. split; [by apply table_frame|]. split; [by apply (dk_table _ _ (mk_dir _ Hok))|].
  apply (dk_cr3 _ _ (mk_dir _ Hok)).
Qed.

Lemma rep_page f x : is_frame f -> f <> T -> in_page f x -> m_ram m x = r x.
Proof. intros Hf Hne Hx. apply (rp_ram _ _ _ _ _ _ Hm). intros Hx2. destruct rep_T as (HT & _). by apply (pages_apart f T x x). Qed.

Lemma rep_word f i : is_frame f -> f <> T -> 0 <= i < 1024 -> load32 (m_ram m) (f + 4 * i) = load32 r (f + 4 * i).
Proof. intros Hf Hne Hi. apply page_load; [done|]. intros x. by apply rep_page. Qed.

Lemma rep_dir : same_dir r (m_ram m) c.
Proof. intros i Hi. destruct rep_T as (_ & H1 & H2). by apply rep_word. Qed.

Lemma rep_dir_ok : dir_ok (m_ram m) c.
Proof. destruct Hm as [<- _ Hok _ _ _]. apply Hok. Qed.

(** What the windows show. *)
Lemma rep_shows v f k : is_window v -> is_frame f -> w v = f + 3 -> 0 <= k < 4096 -> translate (m_ram m) (m_cr3 m) (v + k) = Some (f + k).
Proof.
  intros Hv Hf Hw Hk. destruct Hm as [-> _ _ [Hp HT] He _]. destruct Hv as (V1 & V2 & V3). destruct (plus3 f Hf) as [F1 F2].
  rewrite (translate_at (m_ram m) c v (pde (m_ram m) c 1022) (f + 3) k); try done; [by rewrite F2, F1|lia|by rewrite <- pd_idx_div, V3|].
  rewrite <- pt_idx_div, HT, He by done. done.
Qed.

(** A store outside the directory and the window table. *)
Lemma rep_write g r' : (forall x, ~ in_page T x -> g (m_ram m) x = r' x) -> bytes_ok (g (m_ram m)) ->
  (forall x, in_page c x \/ in_page T x -> g (m_ram m) x = m_ram m x) -> rep c T p w r' (set_ram g m).
Proof.
  intros Hr Hb Hx. pose proof rep_dir as Hd. destruct Hm as [Hc Hpm Hok [Hp HT] He Hrr].
  assert (Hs : same_dir (m_ram m) (g (m_ram m)) c) by (apply off_page_dir; auto).
  split; cbn; try done; [|by rewrite Hs by lia|].
  - apply mach_ok_ram; [done|done|by rewrite Hc].
  - intros v Hv. rewrite <- He by done. apply page_load; [apply idx_range, Hv|auto].
Qed.
End rep.

(** ** One step at a time *)

Section steps.
Context (c T : Z) (p : pmm) (w : Z -> Z) (r : ram) (m : machine) (Hm : rep c T p w r m).

(** A store into the window table. *)
Lemma rep_entry_store v e m1 : rep c T p w r m1 -> is_window v -> 0 <= e < 4294967296 ->
  vstore (pt_slot 1022 (pt_idx v)) e m1 = Some (tt, set_ram (store32 (T + 4 * pt_idx v) e) m1) /\
  rep c T p (upd w v e) r (set_ram (store32 (T + 4 * pt_idx v) e) m1).
Proof.
  intros Hm1 Hv He. pose proof (idx_range v ltac:(apply Hv)) as [_ Hj]. pose proof (rep_T _ _ _ _ _ _ Hm1) as (HT & HTc & Hcf).
  pose proof (rep_dir_ok _ _ _ _ _ _ Hm1) as Hd. destruct Hm1 as [Hc Hpm Hok [Hp HTe] Hent Hram]. split.
  - apply run_vstore_last. rewrite Hc, <- HTe. apply window_pt; [done|lia|done|done].
  - assert (Hs : same_dir (m_ram m1) (store32 (T + 4 * pt_idx v) e (m_ram m1)) c).
    { apply off_page_dir. intros x Hx. apply store_page; [done|]. intros Hx2. by apply (pages_apart c T x x). }
    split; cbn; try done; [|by rewrite Hs by lia| |].
    + apply mach_ok_ram; [done|apply store_bytes, Hok|by rewrite Hc].
    + intros u Hu. destruct (decide (u = v)) as [-> | Hne]; [rewrite upd_same; by apply store_same|]. rewrite upd_other, <- Hent by done.
      apply store_word; [done|apply idx_range, Hu|]. intros E. apply Hne. by apply window_idx.
    + intros x Hx. rewrite store_page by done. by apply Hram.
Qed.

Lemma rep_map v f : is_window v -> is_frame f ->
  exists m', map_page v f KERNEL_RW m = Some (tt, m') /\ rep c T p (upd w v (f + 3)) r m'.
Proof.
  intros Hv Hf. unfold map_page. rewrite (proj2 (proj2 Hv)). pose proof (rep_dir_ok _ _ _ _ _ _ Hm) as Hd.
  pose proof (rp_win _ _ _ _ _ _ Hm) as [Hp _]. pose proof (rp_cr3 _ _ _ _ _ _ Hm) as Hc.
  pose proof (window_pd _ _ 1022 Hd ltac:(lia)) as Hw. rewrite <- Hc in Hw. unfold ensure_table.
  rewrite run_assoc, (run_vload _ _ _ m Hw). rewrite Hc. change (load32 (m_ram m) (c + 4 * 1022)) with (pde (m_ram m) c 1022). rewrite Hp. cbn [negb].
  rewrite run_assoc, (run_vstore _ _ _ _ m Hw), run_ret. cbn [negb]. change (Z.land KERNEL_RW PAGE_USER) with 0. rewrite Z.lor_0_r, Hc.
  assert (Hid : forall x, store32 (c + 4 * 1022) (pde (m_ram m) c 1022) (m_ram m) x = m_ram m x).
  { intros x. apply store_id, (mk_bytes _ (rp_ok _ _ _ _ _ _ Hm)). }
  assert (Hm1 : rep c T p w r (set_ram (store32 (c + 4 * 1022) (pde (m_ram m) c 1022)) m)).
  { apply (rep_write c T p w r m Hm); [|apply store_bytes, (mk_bytes _ (rp_ok _ _ _ _ _ _ Hm))|auto].
    intros x Hx. rewrite Hid. by apply (rp_ram _ _ _ _ _ _ Hm). }
  assert (E : Z.lor (Z.lor f KERNEL_RW) PAGE_PRESENT = f + 3).
  { rewrite <- Z.lor_assoc. change (Z.lor KERNEL_RW PAGE_PRESENT) with 3. apply lor_small; [apply Hf|lia]. }
  rewrite E. destruct (rep_entry_store v (f + 3) _ Hm1 Hv) as [Hrun Hr]; [destruct Hf; lia_mod|]. eauto.
Qed.

Lemma rep_unmap v : is_window v -> exists m', unmap v m = Some (tt, m') /\ rep c T p (upd w v 0) r m'.
Proof.
  intros Hv. unfold unmap. rewrite (proj2 (proj2 Hv)). pose proof (rep_dir_ok _ _ _ _ _ _ Hm) as Hd.
  pose proof (rp_win _ _ _ _ _ _ Hm) as [Hp _]. pose proof (rp_cr3 _ _ _ _ _ _ Hm) as Hc.
  pose proof (window_pd _ _ 1022 Hd ltac:(lia)) as Hw. rewrite <- Hc in Hw. rewrite (run_vload _ _ _ m Hw), Hc.
  change (load32 (m_ram m) (c + 4 * 1022)) with (pde (m_ram m) c 1022). rewrite Hp. cbn [negb].
  destruct (rep_entry_store v 0 m Hm Hv ltac:(lia)) as [Hrun Hr]. eauto.
Qed.

(** Loads: through a window, of the running directory, of one of its tables. *)
Lemma rep_load {B} v f i (k : Z -> P B) : is_window v -> is_frame f -> w v = f + 3 -> f <> T -> 0 <= i < 1024 ->
  (vload (v + 4 * i) ≫= k) m = k (load32 r (f + 4 * i)) m.
Proof.
  intros Hv Hf Hw HfT Hi. rewrite (run_vload _ (f + 4 * i)) by (eapply rep_shows; eauto; lia).
  by rewrite (rep_word c T p w r m Hm).
Qed.

Lemma rep_load_pd {B} i (k : Z -> P B) : 0 <= i < 1024 -> (vload (PAGE_RECURSIVE + 4 * i) ≫= k) m = k (pde r c i) m.
Proof.
  intros Hi. rewrite <- pd_slot_at by done. pose proof (rp_cr3 _ _ _ _ _ _ Hm) as Hc.
  rewrite (run_vload _ (c + 4 * i)) by (rewrite Hc; by apply window_pd; [apply (rep_dir_ok _ _ _ _ _ _ Hm)|]).
  f_equal. by apply (rep_dir c T p w r m Hm).
Qed.

Lemma rep_load_pt {B} i j (k : Z -> P B) : 0 <= i < 1022 -> 0 <= j < 1024 -> present (pde r c i) = true ->
  (vload (pt_slot i j) ≫= k) m = k (pte r (frame_of (pde r c i)) j) m.
Proof.
  intros Hi Hj Hp. pose proof (rp_cr3 _ _ _ _ _ _ Hm) as Hc. pose proof (rep_dir c T p w r m Hm i ltac:(lia)) as Hd. rewrite <- Hd in Hp |- *.
  rewrite (run_vload _ (frame_of (pde (m_ram m) c i) + 4 * j)).
  2: { rewrite Hc. apply window_pt; [apply (rep_dir_ok _ _ _ _ _ _ Hm)|lia|done|done]. }
  f_equal. apply (rep_word c T p w r m Hm); [rewrite <- Hc; apply table_frame, (rp_ok _ _ _ _ _ _ Hm)| |done].
  destruct (rp_win _ _ _ _ _ _ Hm) as [Hp2 <-]. apply (dk_apart _ _ (rep_dir_ok _ _ _ _ _ _ Hm)); (lia || done).
Qed.

(** Stores through a window, into a frame of no table. *)
Lemma rep_store {B} v f i e (k : unit -> P B) : is_window v -> is_frame f -> w v = f + 3 -> f <> T -> f <> c -> 0 <= i < 1024 ->
  exists m', (vstore (v + 4 * i) e ≫= k) m = k tt m' /\ rep c T p w (store32 (f + 4 * i) e r) m'.
Proof.
  intros Hv Hf Hw HfT Hfc Hi. rewrite (run_vstore _ _ (f + 4 * i)) by (eapply rep_shows; eauto; lia). eexists. split; [reflexivity|].
  destruct (rep_T c T p w r m Hm) as (HT & _ & Hcf). apply (rep_write c T p w r m Hm).
  - intros x Hx. unfold store32. rewrite <- (rp_ram _ _ _ _ _ _ Hm x Hx). done.
  - apply store_bytes, (mk_bytes _ (rp_ok _ _ _ _ _ _ Hm)).
  - intros x [Hx | Hx]; apply store_page; try done; intros Hx2; [by apply (pages_apart c f x x)|by apply (pages_apart T f x x)].
Qed.

Lemma rep_clear {B} v f (k : unit -> P B) : is_window v -> is_frame f -> w v = f + 3 -> f <> T -> f <> c ->
  exists m', (vclear v ≫= k) m = k tt m' /\ rep c T p w (fill f 4096 0 r) m'.
Proof.
  intros Hv Hf Hw HfT Hfc. pose proof (rep_shows c T p w r m Hm v f 0 Hv Hf Hw ltac:(lia)) as Hs. rewrite !Z.add_0_r in Hs.
  rewrite (run_vclear _ f) by done. eexists. split; [reflexivity|].
  destruct (rep_T c T p w r m Hm) as (HT & _ & Hcf). apply (rep_write c T p w r m Hm).
  - intros x Hx. unfold fill. by rewrite <- (rp_ram _ _ _ _ _ _ Hm x Hx).
  - apply fill_bytes, (mk_bytes _ (rp_ok _ _ _ _ _ _ Hm)).
  - intros x [Hx | Hx]; apply fill_page; intros Hx2; [by apply (pages_apart c f x x)|by apply (pages_apart T f x x)].
Qed.
End steps.

Section pool.
Context (c T : Z) (p : pmm) (w : Z -> Z) (r : ram) (m : machine) (Hm : rep c T p w r m).

Lemma rep_no_table f : no_table (m_ram m) c f <-> no_table r c f.
Proof.
  pose proof (rep_dir c T p w r m Hm) as Hd. split; intros [H1 H2]; (split; [done|]); intros i Hi Hp.
  - rewrite <- Hd in * by lia. by apply H2.
  - rewrite Hd in * by lia. by apply H2.
Qed.

Lemma no_table_T f : no_table r c f -> f <> T.
Proof. intros [_ Hf] ->. destruct (rp_win _ _ _ _ _ _ Hm) as [Hp HT]. rewrite (rep_dir c T p w r m Hm) in Hp, HT by lia. by apply (Hf 1022). Qed.

(** A frame from the pool is no table. *)
Lemma rep_pool f : f ∈ pm_stack p -> is_frame f /\ f <> 0 /\ no_table r c f.
Proof.
  destruct Hm as [Hc Hpm Hok _ _ _]. rewrite <- Hpm. intros Hf. destruct (mk_pool _ Hok f Hf) as (? & ? & ?).
  rewrite Hc in *. split; [done|]. split; [done|]. by apply rep_no_table.
Qed.

Lemma rep_alloc {B} f rest (k : Z -> P B) : pm_stack p = f :: rest ->
  exists m', (alloc_frame ≫= k) m = k f m' /\ rep c T (mkPmm rest (pm_total_frames p)) w r m' /\ f ∉ rest.
Proof.
  intros Hst. destruct Hm as [Hc Hpm Hok Hw He Hr]. rewrite <- Hpm in Hst. rewrite (alloc_run f rest) by done. eexists. split; [reflexivity|].
  split; [|pose proof (mk_once _ Hok) as Hnd; rewrite Hst in Hnd; by apply list.NoDup_cons in Hnd as [? _]].
  destruct (alloc_ok m f rest Hok Hst) as (Hok' & _). split; cbn; try done. by rewrite Hpm.
Qed.

Lemma rep_alloc_none {B} (k : Z -> P B) : pm_stack p = [] -> (alloc_frame ≫= k) m = k 0 m.
Proof. intros Hst. apply alloc_none. by rewrite (rp_pmm _ _ _ _ _ _ Hm). Qed.

Lemma pmm_free_stack f : pm_stack (pmm_free f p) = pm_stack p \/ pm_stack (pmm_free f p) = f :: pm_stack p /\ f <> 0 /\ f ∉ pm_stack p.
Proof.
  unfold pmm_free. destruct (f =? 0) eqn:E0; [by left|]. destruct (negb _); [by left|]. case_bool_decide; [by left|].
  destruct (_ <=? _)%nat; [by left|]. right. apply Z.eqb_neq in E0. done.
Qed.

Lemma rep_free f : is_frame f -> no_table r c f -> exists m', free_frame f m = Some (tt, m') /\ rep c T (pmm_free f p) w r m'.
Proof.
  intros Hf Hn. eexists. split; [reflexivity|]. pose proof (proj2 (rep_no_table f) Hn) as Hn'.
  destruct Hm as [Hc Hpm Hok Hw He Hr]. split; cbn; try done; [by rewrite Hpm|].
  destruct Hok as [H1 H2 H3 H4]. destruct (pmm_free_stack f) as [E | (E & H0 & Hnot)]; (split; cbn; rewrite ?Hpm, ?E; rewrite ?Hpm in H3, H4; try done).
  - by apply list.NoDup_cons.
  - intros g [-> | Hg]%elem_of_cons; [|by apply H4]. rewrite Hc. done.
Qed.

Lemma rep_copy {B} d s fd fs (k : unit -> P B) : is_window d -> is_window s -> is_frame fd -> is_frame fs -> w d = fd + 3 -> w s = fs + 3 ->
  fd <> T -> fd <> c -> fs <> T ->
  exists m', (vcopy d s ≫= k) m = k tt m' /\ rep c T p w (copy fd fs 4096 r) m'.
Proof.
  intros Hd Hs Hfd Hfs Wd Ws HdT Hdc HsT. pose proof (rep_shows c T p w r m Hm d fd 0 Hd Hfd Wd ltac:(lia)) as Td.
  pose proof (rep_shows c T p w r m Hm s fs 0 Hs Hfs Ws ltac:(lia)) as Ts. rewrite !Z.add_0_r in Td, Ts.
  unfold vcopy, walk. rewrite run_assoc, (run_reads _ _ m fd), run_assoc, (run_reads _ _ m fs) by done. eexists. split; [reflexivity|].
  destruct (rep_T c T p w r m Hm) as (HT & _ & Hcf). apply (rep_write c T p w r m Hm).
  - intros x Hx. unfold copy. destruct (_ && _) eqn:E; [|by apply (rp_ram _ _ _ _ _ _ Hm)]. apply andb_true_iff in E as [E1 E2].
    apply Z.leb_le in E1. apply Z.ltb_lt in E2. apply (rep_page c T p w r m Hm fs); [done|done|unfold in_page; lia].
  - apply copy_bytes, (mk_bytes _ (rp_ok _ _ _ _ _ _ Hm)).
  - intros x [Hx | Hx]; apply copy_page; intros Hx2; [by apply (pages_apart c fd x x)|by apply (pages_apart T fd x x)].
Qed.
End pool.
