(* ===== verification/PagingSpace.v ===== *)
(** * Making address spaces

    [create_user_space], [map_page_in_directory] and [memcpy_page_physical], step
    by step through the temporary windows. *)

From stdpp Require Import list_numbers.
From S2P Require Import Prelude StateMonad Pmm Paging PagingMem PagingMap PagingWin.

#[local] Open Scope Z_scope.

Lemma window_src : is_window TEMP_SRC_PAGE. Proof. apply temp_windows. Qed.
Lemma window_dst : is_window TEMP_DST_PAGE. Proof. apply temp_windows. Qed.
Lemma window_dir : is_window TEMP_PD_VIRT. Proof. apply temp_windows. Qed.
Lemma window_tab : is_window TEMP_PT_VIRT. Proof. apply temp_windows. Qed.
Lemma window_map : is_window TEMP_MAP_VIRT. Proof. apply temp_windows. Qed.
#[export] Hint Resolve window_src window_dst window_dir window_tab window_map : paging.

Lemma rep_ext c T p w w' r r' m : rep c T p w r m -> (forall v, is_window v -> w' v = w v) -> (forall x, r' x = r x) -> rep c T p w' r' m.
Proof. intros [H1 H2 H3 H4 H5 H6] Hw Hr. split; try done; intros; [rewrite Hw by done; by apply H5|rewrite Hr; by apply H6]. Qed.

(** Entries read through the model of the memory are words. *)
Lemma rep_range c T p w r m f i : rep c T p w r m -> is_frame f -> f <> T -> 0 <= i < 1024 -> 0 <= load32 r (f + 4 * i) < 4294967296.
Proof. intros Hm Hf HT Hi. rewrite <- (rep_word c T p w r m Hm) by done. apply load_range, (rp_ok _ _ _ _ _ _ Hm). Qed.

Lemma rep_frame c T p w r m f i : rep c T p w r m -> is_frame f -> f <> T -> 0 <= i < 1024 -> is_frame (frame_of (load32 r (f + 4 * i))).
Proof. intros. by apply frame_of_frame, (rep_range c T p w r m). Qed.

(** A change of frames that are neither the directory nor its tables. *)
Lemma no_table_off r r' c f g : no_table r c f -> is_frame f -> is_frame c -> (forall x, ~ in_page f x -> r' x = r x) -> no_table r c g -> no_table r' c g.
Proof.
  intros [Hf _] Hff Hc Hx. apply same_no_table, off_page_dir. intros x Hi. apply Hx. intros Hi2. by apply (pages_apart c f x x).
Qed.

(** ** The windows open *)

(** Whether or not the running space had a table for the windows, it has now. *)
Record opens (m m' : machine) (T : Z) : Prop := {
  op_cr3 : m_cr3 m' = m_cr3 m;
  op_dir : forall i, 0 <= i < 1024 -> i <> 1022 -> pde (m_ram m') (m_cr3 m) i = pde (m_ram m) (m_cr3 m) i;
  op_rest : forall x, ~ in_page (m_cr3 m) x -> ~ in_page T x -> m_ram m' x = m_ram m x;
  op_pool : table_from m m' 1022 T }.

Definition can_open (m : machine) : Prop := present (pde (m_ram m) (m_cr3 m) 1022) = true \/ pm_stack (m_pmm m) <> [].

Definition window_words (m : machine) (v : Z) : Z := old_word m 1022 (pt_idx v).

Lemma rep_open m v f : mach_ok m -> can_open m -> is_window v -> is_frame f ->
  exists m' T, map_page v f KERNEL_RW m = Some (tt, m') /\ opens m m' T /\
    rep (m_cr3 m) T (m_pmm m') (upd (window_words m) v (f + 3)) (m_ram m') m'.
Proof.
  intros Hm Ho Hv Hf. pose proof (proj2 (proj2 Hv)) as Hi.
  destruct (map_page_spec m v f KERNEL_RW Hm (proj1 Hv) ltac:(lia) Hf ltac:(by vm_compute)) as [(Hp & Hst & _) | (m' & T & Hrun & Ht & Hfrom)].
  { rewrite Hi in Hp. destruct Ho as [Ho | Ho]; congruence. }
  rewrite Hi in Ht, Hfrom. exists m', T. split; [done|]. destruct Ht as [H1 H2 [H3 H4] H5 H6 H7]. split; [done|]. split; try done.
  intros u Hu. rewrite H6 by apply idx_range, Hu. unfold new_word, upd, window_words. rewrite Hi.
  destruct (decide (pt_idx u = pt_idx v)) as [E | E].
  - rewrite decide_True by by apply window_idx. unfold page_entry. rewrite <- Z.lor_assoc.
    change (Z.lor KERNEL_RW PAGE_PRESENT) with 3. apply lor_small; [apply Hf|lia].
  - rewrite decide_False; [done|]. by intros ->.
Qed.

(** What is known of a frame stays known when the windows open. *)
Lemma opens_no_table m m' T f : mach_ok m -> opens m m' T -> no_table (m_ram m) (m_cr3 m) f -> f <> T -> is_frame T ->
  frame_of (pde (m_ram m') (m_cr3 m) 1022) = T -> no_table (m_ram m') (m_cr3 m) f.
Proof.
  intros Hm Ho [H1 H2] HfT HT HT2. split; [done|]. intros i Hi Hp.
  destruct (decide (i = 1022)) as [-> | ?]; [rewrite HT2; by apply not_eq_sym|]. rewrite (op_dir _ _ _ Ho) in * by lia. by apply H2.
Qed.

(** ** The running space is left alone *)

Definition same_space (r r' : ram) (c : Z) : Prop := forall v, 0 <= v -> pd_idx v < 1022 -> translate r' c v = translate r c v.

Lemma same_space_intro r r' c : (forall i, 0 <= i < 1022 -> pde r' c i = pde r c i) ->
  (forall i x, 0 <= i < 1022 -> present (pde r c i) = true -> in_page (frame_of (pde r c i)) x -> r' x = r x) -> same_space r r' c.
Proof.
  intros Hd Hx v H0 Hv. assert (Hi : 0 <= pd_idx v) by (rewrite pd_idx_div; lia_mod). unfold translate. rewrite Hd by lia.
  destruct (present (pde r c (pd_idx v))) eqn:Hp; [|done]. cbn [negb].
  assert (E : pte r' (frame_of (pde r c (pd_idx v))) (pt_idx v) = pte r (frame_of (pde r c (pd_idx v))) (pt_idx v)); [|by rewrite E].
  apply page_load; [rewrite pt_idx_div; lia_mod|]. intros x Hp2. by apply (Hx (pd_idx v)).
Qed.

Lemma same_space_trans r r' r'' c : same_space r r' c -> same_space r' r'' c -> same_space r r'' c.
Proof. intros H1 H2 v H0 Hv. rewrite H2 by done. by apply H1. Qed.

(** A change outside the directory and the tables, those of the windows apart. *)
Lemma same_space_off m r' : mach_ok m ->
  (forall x, r' x <> m_ram m x -> exists f, is_frame f /\ f <> m_cr3 m /\ in_page f x /\
    forall i, 0 <= i < 1022 -> present (pde (m_ram m) (m_cr3 m) i) = true -> frame_of (pde (m_ram m) (m_cr3 m) i) <> f) ->
  same_space (m_ram m) r' (m_cr3 m).
Proof.
  intros Hm Hx. pose proof (dk_cr3 _ _ (mk_dir _ Hm)) as Hc. apply same_space_intro.
  - intros i Hi. apply page_load; [lia|]. intros x Hp. destruct (decide (r' x = m_ram m x)) as [|Hd]; [done|exfalso].
    destruct (Hx x Hd) as (f & F1 & F2 & F3 & _). by apply (pages_apart (m_cr3 m) f x x).
  - intros i x Hi Hp Hin. destruct (decide (r' x = m_ram m x)) as [|Hd]; [done|exfalso].
    destruct (Hx x Hd) as (f & F1 & F2 & F3 & F4). apply (pages_apart (frame_of (pde (m_ram m) (m_cr3 m) i)) f x x); try done.
    + by apply table_frame. + by apply F4.
Qed.

Lemma opens_space m m' T v : mach_ok m -> opens m m' T -> is_frame T -> T <> m_cr3 m -> 
  (forall i, 0 <= i < 1022 -> present (pde (m_ram m) (m_cr3 m) i) = true -> frame_of (pde (m_ram m) (m_cr3 m) i) <> T) ->
  0 <= v -> pd_idx v < 1022 -> translate (m_ram m') (m_cr3 m) v = translate (m_ram m) (m_cr3 m) v.
Proof.
  intros Hm Ho HT HTc Hno H0 Hv. revert v H0 Hv. change (same_space (m_ram m) (m_ram m') (m_cr3 m)). apply same_space_intro.
  - intros i Hi. apply (op_dir _ _ _ Ho); lia.
  - intros i x Hi Hp Hx. pose proof (table_frame m i Hm) as Hf. apply (op_rest _ _ _ Ho); intros Hx2.
    + apply (pages_apart (frame_of (pde (m_ram m) (m_cr3 m) i)) (m_cr3 m) x x); try done; [apply (dk_cr3 _ _ (mk_dir _ Hm))|].
      apply (dk_table _ _ (mk_dir _ Hm)); [lia|done].
    + apply (pages_apart (frame_of (pde (m_ram m) (m_cr3 m) i)) T x x); try done. by apply Hno.
Qed.

(** The window table is none of the others. *)
Lemma opens_table m m' T : mach_ok m -> mach_ok m' -> opens m m' T -> present (pde (m_ram m') (m_cr3 m) 1022) = true ->
  frame_of (pde (m_ram m') (m_cr3 m) 1022) = T ->
  is_frame T /\ T <> m_cr3 m /\ forall i, 0 <= i < 1022 -> present (pde (m_ram m) (m_cr3 m) i) = true -> frame_of (pde (m_ram m) (m_cr3 m) i) <> T.
Proof.
  intros Hm Hm' Ho Hp <-. rewrite <- (op_cr3 _ _ _ Ho) in Hp |- *. split; [by apply table_frame|].
  split; [by apply (dk_table _ _ (mk_dir _ Hm'))|]. rewrite (op_cr3 _ _ _ Ho) in *. intros i Hi Hpi.
  rewrite <- (op_dir _ _ _ Ho) in * by lia. rewrite <- (op_cr3 _ _ _ Ho) in *. by apply (dk_apart _ _ (mk_dir _ Hm')); try lia.
Qed.

(** An operation that opens the windows and changes frames of no table leaves the
    running space alone. *)
Lemma opens_same_space m m1 T p w w' r' m' p1 : mach_ok m -> opens m m1 T -> rep (m_cr3 m) T p1 w (m_ram m1) m1 -> rep (m_cr3 m) T p w' r' m' ->
  (forall x, r' x <> m_ram m1 x -> exists f, is_frame f /\ no_table (m_ram m1) (m_cr3 m) f /\ in_page f x) ->
  same_space (m_ram m) (m_ram m') (m_cr3 m).
Proof.
  intros Hm Ho Hr1 Hr' Hx. destruct (rp_win _ _ _ _ _ _ Hr1) as [Hp HTe]. pose proof (rp_ok _ _ _ _ _ _ Hr1) as Hm1.
  destruct (opens_table m m1 T Hm Hm1 Ho Hp HTe) as (HT & HTc & HTn).
  apply (same_space_trans _ (m_ram m1)); [intros v Hv Hpv; by apply (opens_space m m1 T v)|].
  rewrite <- (op_cr3 _ _ _ Ho). apply same_space_off; [done|]. rewrite (op_cr3 _ _ _ Ho). intros x Hd.
  destruct (decide (T <= x < T + 4096)) as [HxT | HxT].
  - exists T. split; [done|]. split; [done|]. split; [done|]. intros i Hi. rewrite (op_dir _ _ _ Ho) by lia. by apply HTn.
  - rewrite (rp_ram _ _ _ _ _ _ Hr' x HxT) in Hd. destruct (Hx x Hd) as (f & F1 & [F2 F3] & F4).
    exists f. split; [done|]. split; [done|]. split; [done|]. intros i Hi. apply F3. lia.
Qed.

Section copying.
Context (c T : Z) (p : pmm) (w : Z -> Z) (r : ram) (m : machine) (Hm : rep c T p w r m).

Lemma rep_memcpy dst src : is_frame dst -> is_frame src -> dst <> T -> dst <> c -> src <> T ->
  exists m', memcpy_page_physical dst src m = Some (tt, m') /\ rep c T p (upd (upd w TEMP_SRC_PAGE 0) TEMP_DST_PAGE 0) (copy dst src 4096 r) m'.
Proof.
  intros Hd Hs HdT Hdc HsT. unfold memcpy_page_physical.
  destruct (rep_map _ _ _ _ _ _ Hm TEMP_SRC_PAGE src window_src Hs) as (m1 & Hrun & Hm1). rewrite (run_bind _ _ _ _ _ Hrun). clear Hrun.
  destruct (rep_map _ _ _ _ _ _ Hm1 TEMP_DST_PAGE dst window_dst Hd) as (m2 & Hrun & Hm2). rewrite (run_bind _ _ _ _ _ Hrun). clear Hrun.
  destruct (rep_copy _ _ _ _ _ _ Hm2 TEMP_DST_PAGE TEMP_SRC_PAGE dst src (fun _ => unmap TEMP_SRC_PAGE ≫= fun _ => unmap TEMP_DST_PAGE)
    window_dst window_src Hd Hs ltac:(by rewrite upd_same) ltac:(rewrite upd_other, upd_same; done) HdT Hdc HsT) as (m3 & -> & Hm3).
  destruct (rep_unmap _ _ _ _ _ _ Hm3 TEMP_SRC_PAGE window_src) as (m4 & Hrun & Hm4). rewrite (run_bind _ _ _ _ _ Hrun). clear Hrun.
  destruct (rep_unmap _ _ _ _ _ _ Hm4 TEMP_DST_PAGE window_dst) as (m5 & -> & Hm5). eexists. split; [done|].
  apply (rep_ext _ _ _ _ _ _ _ _ Hm5); [|done]. intros v Hv. unfold upd. repeat case_decide; done.
Qed.

(** The kernel's entries in another directory. *)
Lemma rep_share d todo : w TEMP_PD_VIRT = d + 3 -> is_frame d -> no_table r c d -> Forall (fun i => 0 <= i < 1024) todo ->
  exists m' r', share_kernel todo m = Some (tt, m') /\ rep c T p w r' m' /\ (forall x, ~ in_page d x -> r' x = r x) /\
    (forall i, 0 <= i < 1024 -> pde r' d i = if decide (i ∈ todo) then pde r c i else pde r d i).
Proof.
  intros Hw Hd Hn Hall. revert r m Hm Hn. induction todo as [|i todo IH]; intros r0 m0 Hm0 Hn; cbn.
  { exists m0, r0. split; [done|]. split; [done|]. split; [done|]. intros i _. rewrite decide_False; [done|apply not_elem_of_nil]. }
  apply Forall_cons_1 in Hall as [Hi Hall]. rewrite (rep_load_pd _ _ _ _ _ _ Hm0) by done. pose proof (no_table_T _ _ _ _ _ _ Hm0 d Hn) as HdT.
  destruct (rep_store _ _ _ _ _ _ Hm0 TEMP_PD_VIRT d i (pde r0 c i) (fun _ => share_kernel todo) window_dir Hd Hw HdT (proj1 Hn) Hi) as (m1 & -> & Hm1).
  pose proof (rep_T _ _ _ _ _ _ Hm0) as (_ & HTc & Hc).
  assert (Hoff : forall x, ~ in_page d x -> store32 (d + 4 * i) (pde r0 c i) r0 x = r0 x) by (intros x Hx; by apply store_page).
  destruct (IH Hall _ m1 Hm1) as (m' & r' & -> & Hm' & Hx & Hent); [by apply (no_table_off r0 _ c d d)|].
  exists m', r'. split; [done|]. split; [done|]. split; [intros x Hnx; rewrite Hx by done; by apply Hoff|].
  assert (Hcc : forall j, 0 <= j < 1024 -> pde (store32 (d + 4 * i) (pde r0 c i) r0) c j = pde r0 c j).
  { intros j Hj. apply page_load; [done|]. intros x Hin. apply Hoff. intros Hin2. apply (pages_apart c d x x); try done. apply not_eq_sym, Hn. }
  intros j Hj. rewrite Hent by done. rewrite Hcc by done. destruct (decide (j ∈ todo)) as [Hin | Hin].
  - rewrite decide_True; [done|]. apply elem_of_cons; auto.
  - destruct (decide (j = i)) as [-> | Hne].
    + rewrite decide_True by (apply elem_of_cons; auto). apply store_same. by apply (rep_range c T p w r0 m0).
    + rewrite decide_False by (rewrite elem_of_cons; tauto). apply store_word; [done|done|lia].
Qed.
End copying.

(** ** A new address space *)

Lemma seqZ_in a n i : i ∈ seqZ a n <-> a <= i < a + n.
Proof. apply elem_of_seqZ. Qed.

Lemma kernel_entries_range : Forall (fun i => 0 <= i < 1024) KERNEL_ENTRIES.
Proof. apply list.Forall_forall. intros i Hi. apply seqZ_in in Hi. lia. Qed.

(** The entry of the directory for itself. *)
Lemma self_entry d : is_frame d -> Z.lor (Z.lor d PAGE_PRESENT) PAGE_WRITE = d + 3.
Proof. intros Hd. rewrite <- Z.lor_assoc. change (Z.lor PAGE_PRESENT PAGE_WRITE) with 3. apply lor_small; [apply Hd|lia]. Qed.

(** What a directory made by [create_user_space] holds. *)
Record fresh_space (r r' : ram) (c d : Z) : Prop := {
  fs_kernel : forall i, 0 <= i < 10 -> pde r' d i = pde r c i;
  fs_user : forall i, 10 <= i < 1023 -> pde r' d i = 0;
  fs_self : pde r' d 1023 = d + 3 }.

Lemma rep_create c T p w r m d : rep c T p w r m -> w TEMP_PD_VIRT = d + 3 -> is_frame d -> no_table r c d ->
  exists m' r', (vclear TEMP_PD_VIRT ≫= fun _ => share_kernel KERNEL_ENTRIES) m = Some (tt, m') /\ rep c T p w r' m' /\
    (forall x, ~ in_page d x -> r' x = r x) /\ (forall i, 0 <= i < 10 -> pde r' d i = pde r c i) /\ (forall i, 10 <= i < 1024 -> pde r' d i = 0).
Proof.
  intros Hm Hw Hd Hn. pose proof (no_table_T _ _ _ _ _ _ Hm d Hn) as HdT. pose proof (rep_T _ _ _ _ _ _ Hm) as (_ & _ & Hc).
  destruct (rep_clear _ _ _ _ _ _ Hm TEMP_PD_VIRT d (fun _ => share_kernel KERNEL_ENTRIES) window_dir Hd Hw HdT (proj1 Hn)) as (m1 & -> & Hm1).
  assert (Hoff : forall x, ~ in_page d x -> fill d 4096 0 r x = r x) by apply fill_page.
  pose proof (no_table_off r _ c d d Hn Hd Hc Hoff Hn) as Hn1.
  destruct (rep_share _ _ _ _ _ _ Hm1 d KERNEL_ENTRIES Hw Hd Hn1 kernel_entries_range) as (m2 & r2 & -> & Hm2 & Hx & Hent).
  exists m2, r2. split; [done|]. split; [done|]. split; [intros x Hnx; rewrite Hx by done; by apply Hoff|].
  split; intros i Hi; rewrite Hent by lia.
  - rewrite decide_True by (apply seqZ_in; lia). apply page_load; [lia|]. intros x Hin. apply Hoff. intros Hin2.
    apply (pages_apart c d x x); try done. apply not_eq_sym, Hn.
  - rewrite decide_False by (intros Hin%seqZ_in; lia). apply fill_load. lia.
Qed.

Lemma pool_word m d rest : mach_ok m -> pm_stack (m_pmm m) = d :: rest ->
  is_frame d /\ d <> 0 /\ no_table (m_ram m) (m_cr3 m) d /\ d ∉ rest.
Proof.
  intros Hm Hst. destruct (mk_pool _ Hm d) as (H1 & H2 & H3); [rewrite Hst; apply elem_of_cons; auto|].
  pose proof (mk_once _ Hm) as Hnd. rewrite Hst in Hnd. apply list.NoDup_cons in Hnd as [? _]. done.
Qed.

(** A frame just taken from the pool, and the window table, differ. *)
Lemma opens_apart m m' T d rest : mach_ok m -> pm_stack (m_pmm m) = d :: rest ->
  opens (Mach (m_ram m) (m_cr3 m) (mkPmm rest (pm_total_frames (m_pmm m)))) m' T -> d <> T.
Proof.
  intros Hm Hst Ho. destruct (pool_word m d rest Hm Hst) as (_ & _ & [_ Hn] & Hd). pose proof (op_pool _ _ _ Ho) as Hp.
  unfold table_from in Hp. cbn in Hp. destruct (present _) eqn:E.
  - destruct Hp as [-> _]. apply not_eq_sym, Hn; [lia|done].
  - destruct Hp as [Hp _]. intros ->. apply Hd. rewrite Hp. apply elem_of_cons; auto.
Qed.

(** The pool after the windows opened. *)
Definition pool_left (m m' : machine) (T : Z) (free : list Z) : Prop :=
  if present (pde (m_ram m) (m_cr3 m) 1022) then pm_stack (m_pmm m') = free else free = T :: pm_stack (m_pmm m').

Lemma create_user_space_spec m d rest : mach_ok m -> pm_stack (m_pmm m) = d :: rest ->
  present (pde (m_ram m) (m_cr3 m) 1022) = true \/ rest <> [] ->
  exists m' T, create_user_space m = Some (d, m') /\ mach_ok m' /\ m_cr3 m' = m_cr3 m /\ d <> 0 /\
    fresh_space (m_ram m) (m_ram m') (m_cr3 m) d /\ same_space (m_ram m) (m_ram m') (m_cr3 m) /\ other m' d /\ pool_left m m' T rest /\
    present (pde (m_ram m') (m_cr3 m) 1022) = true /\ (forall x, ~ in_page d x -> ~ in_page (m_cr3 m) x -> ~ in_page T x -> m_ram m' x = m_ram m x).
Proof.
  intros Hm Hst Hcan. destruct (pool_word m d rest Hm Hst) as (Hd & H0 & Hn & Hdr). unfold create_user_space.
  rewrite (alloc_run d rest) by done. rewrite (proj2 (Z.eqb_neq d 0)) by done. destruct (alloc_ok m d rest Hm Hst) as (Hm1 & _ & _).
  set (m1 := Mach (m_ram m) (m_cr3 m) _) in *.
  destruct (rep_open m1 TEMP_PD_VIRT d Hm1 Hcan window_dir Hd) as (m2 & T & Hrun & Ho & Hr2). rewrite (run_bind _ _ _ _ _ Hrun). clear Hrun.
  pose proof (opens_apart m m2 T d rest Hm Hst Ho) as HdT. destruct (rp_win _ _ _ _ _ _ Hr2) as [Hp HTe].
  destruct (opens_table m1 m2 T Hm1 (rp_ok _ _ _ _ _ _ Hr2) Ho Hp HTe) as (HT & HTc & HTn).
  pose proof (opens_no_table m1 m2 T d Hm1 Ho Hn HdT HT HTe) as Hn2.
  destruct (rep_create _ _ _ _ _ _ d Hr2 ltac:(by rewrite upd_same) Hd Hn2) as (m3 & r3 & Hrun & Hr3 & Hx3 & Hk & Hu).
  rewrite <- run_assoc, (run_bind _ _ _ _ _ Hrun). clear Hrun.
  pose proof (no_table_off _ r3 _ d d Hn2 Hd (dk_cr3 _ _ (mk_dir _ Hm)) Hx3 Hn2) as Hn3. rewrite (self_entry d Hd).
  destruct (rep_store _ _ _ _ _ _ Hr3 TEMP_PD_VIRT d 1023 (d + 3) (fun _ => unmap TEMP_PD_VIRT ≫= fun _ => mret d) window_dir Hd ltac:(by rewrite upd_same)
    HdT (proj1 Hn3) ltac:(lia)) as (m4 & -> & Hr4).
  destruct (rep_unmap _ _ _ _ _ _ Hr4 TEMP_PD_VIRT window_dir) as (m5 & Hrun & Hr5). rewrite (run_bind _ _ _ _ _ Hrun). clear Hrun.
  set (r4 := store32 (d + 4 * 1023) (d + 3) r3) in *. exists m5, T. split; [done|]. split; [apply (rp_ok _ _ _ _ _ _ Hr5)|].
  split; [apply (rp_cr3 _ _ _ _ _ _ Hr5)|]. split; [done|].
  assert (Hx4 : forall x, ~ in_page d x -> r4 x = m_ram m2 x) by (intros x Hx; unfold r4; rewrite store_page by done; by apply Hx3).
  assert (Hw4 : forall i, 0 <= i < 1024 -> pde (m_ram m5) d i = if decide (i = 1023) then d + 3 else pde r3 d i).
  { intros i Hi. unfold pde. rewrite (rep_word _ _ _ _ _ _ Hr5 d i Hd HdT Hi). destruct (decide (i = 1023)) as [-> | ?].
    - apply store_same. destruct Hd. lia_mod.
    - apply store_word; lia. }
  split; [split|].
  { intros i Hi. rewrite Hw4, decide_False, Hk by lia. apply (op_dir _ _ _ Ho); lia. }
  { intros i Hi. rewrite Hw4, decide_False by lia. apply Hu. lia. }
  { by rewrite Hw4, decide_True. }
  split.
  { apply (opens_same_space m1 m2 T _ _ _ r4 m5 _ Hm1 Ho Hr2 Hr5). intros x Hx. exists d. split; [done|]. split; [done|].
    destruct (decide (d <= x < d + 4096)) as [|Hnx]; [done|]. exfalso. by apply Hx, Hx4. }
  split; [|split].
  { split; [done|]. rewrite (rp_cr3 _ _ _ _ _ _ Hr5). split.
    - apply (rep_no_table _ _ _ _ _ _ Hr5). apply (no_table_off (m_ram m2) r4 _ d d); try done. apply (dk_cr3 _ _ (mk_dir _ Hm)).
    - rewrite (rp_pmm _ _ _ _ _ _ Hr5). pose proof (op_pool _ _ _ Ho) as Hpool. unfold table_from in Hpool. cbn in Hpool.
      destruct (present _); [destruct Hpool as [_ ->]; done|]. destruct Hpool as [E _]. cbn in E. rewrite E in Hdr. intros Hin. apply Hdr, elem_of_cons. auto. }
  { unfold pool_left. rewrite (rp_pmm _ _ _ _ _ _ Hr5). pose proof (op_pool _ _ _ Ho) as Hpool. unfold table_from in Hpool. cbn in Hpool.
    destruct (present _); [by destruct Hpool as [_ ->]|apply Hpool]. }
  split; [apply (rp_win _ _ _ _ _ _ Hr5)|]. intros x Hx1 Hx2 Hx3'. rewrite (rp_ram _ _ _ _ _ _ Hr5), Hx4 by done. by apply (op_rest _ _ _ Ho).
Qed.

(** With an empty pool and no table for the windows, [map_page] gives up without
    saying so, and the first access through the window faults. *)
Lemma closed_window_faults {B} m v f (k : unit -> P B) : mach_ok m -> is_window v -> is_frame f -> pm_stack (m_pmm m) = [] ->
  present (pde (m_ram m) (m_cr3 m) 1022) = false -> (map_page v f KERNEL_RW ≫= fun _ => vclear v ≫= k) m = None.
Proof.
  intros Hm Hv Hf Hst Hp. destruct (map_page_spec m v f KERNEL_RW Hm) as [(_ & _ & Hrun) | (m' & t & _ & _ & Hfrom)];
    [apply Hv|rewrite (proj2 (proj2 Hv)); lia|done|by vm_compute| |].
  - rewrite (run_bind _ _ _ _ _ Hrun). unfold vclear, walk, reads, mbind, ST_bind, translate. rewrite (proj2 (proj2 Hv)). by rewrite Hp.
  - exfalso. unfold table_from in Hfrom. rewrite (proj2 (proj2 Hv)), Hp, Hst in Hfrom. by destruct Hfrom.
Qed.

Lemma create_last_frame m d : mach_ok m -> pm_stack (m_pmm m) = [d] -> present (pde (m_ram m) (m_cr3 m) 1022) = false ->
  create_user_space m = None /\ clone_page_directory m = None.
Proof.
  intros Hm Hst Hp. destruct (pool_word m d [] Hm Hst) as (Hd & H0 & _). unfold create_user_space, clone_page_directory. rewrite !(alloc_run d []) by done.
  rewrite (proj2 (Z.eqb_neq d 0)) by done. destruct (alloc_ok m d [] Hm Hst) as (Hm1 & _). split; by apply closed_window_faults; auto using window_dir.
Qed.

Lemma create_no_memory m : pm_stack (m_pmm m) = [] -> create_user_space m = Some (0, m).
Proof. intros Hst. unfold create_user_space. by rewrite alloc_none. Qed.

(** ** A page of another space *)

(** The directory of a space that is not running, and its own tables. *)
Record user_space (r : ram) (c d : Z) : Prop := {
  us_frame : is_frame d;
  us_dir : no_table r c d;
  us_table : forall i, 10 <= i < 1023 -> present (pde r d i) = true -> no_table r c (frame_of (pde r d i)) /\ frame_of (pde r d i) <> d;
  us_apart : forall i j, 10 <= i < 1023 -> 10 <= j < 1023 -> i <> j -> present (pde r d i) = true -> present (pde r d j) = true ->
    frame_of (pde r d i) <> frame_of (pde r d j) }.

(** [t] is the table at entry [i] of [d] afterwards. *)
Record table_set (r r' : ram) (d i t : Z) (word : Z -> Z) : Prop := {
  ts_here : present (pde r' d i) = true /\ frame_of (pde r' d i) = t;
  ts_there : forall j, 0 <= j < 1024 -> j <> i -> pde r' d j = pde r d j;
  ts_word : forall j, 0 <= j < 1024 -> pte r' t j = word j;
  ts_rest : forall x, ~ in_page d x -> ~ in_page t x -> r' x = r x }.

Definition space_word (r : ram) (d i j : Z) : Z := if present (pde r d i) then pte r (frame_of (pde r d i)) j else 0.

(** Where the table comes from. *)
Definition table_taken (r : ram) (d i t : Z) (p p' : pmm) : Prop :=
  if present (pde r d i) then t = frame_of (pde r d i) /\ p' = p
  else pm_stack p = t :: pm_stack p' /\ pm_total_frames p' = pm_total_frames p.

Section target.
Context (c T : Z) (p : pmm) (w : Z -> Z) (r : ram) (m : machine) (Hm : rep c T p w r m).
Context (d : Z) (Hw : w TEMP_PD_VIRT = d + 3) (Hs : user_space r c d) (Hpd : d ∉ pm_stack p).

Lemma rep_target_table i flags : 10 <= i < 1023 -> 0 <= flags < 4096 ->
  (present (pde r d i) = false /\ pm_stack p = [] /\ target_table i flags m = Some (None, m)) \/
  exists m' p' r' t w', target_table i flags m = Some (Some t, m') /\ rep c T p' w' r' m' /\ (forall v, v <> TEMP_SRC_PAGE -> w' v = w v) /\
    table_set r r' d i t (space_word r d i) /\ table_taken r d i t p p' /\ is_frame t /\ no_table r c t /\ t <> d.
Proof.
  intros Hi Hf. pose proof (us_frame _ _ _ Hs) as Hd. pose proof (us_dir _ _ _ Hs) as Hn. pose proof (no_table_T _ _ _ _ _ _ Hm d Hn) as HdT.
  unfold target_table, table_taken. rewrite (rep_load _ _ _ _ _ _ Hm _ d i _ window_dir Hd Hw HdT ltac:(lia)). fold (pde r d i).
  destruct (present (pde r d i)) eqn:Hp; cbn [negb].
  - right. destruct (us_table _ _ _ Hs i ltac:(lia) Hp) as [Ht Htd]. exists m, p, r, (frame_of (pde r d i)), w.
    split; [done|]. split; [done|]. split; [done|]. split; [split; try done|].
    + intros j Hj. unfold space_word. by rewrite Hp.
    + split; [done|]. split; [|done]. by apply (rep_frame c T p w r m); [..|lia].
  - destruct (pm_stack p) as [|t rest] eqn:Hst; [left; rewrite (rep_alloc_none _ _ _ _ _ _ Hm) by done; done|right].
    destruct (rep_pool _ _ _ _ _ _ Hm t) as (Ht & H0 & Htn); [rewrite Hst; apply elem_of_cons; auto|].
    pose proof (no_table_T _ _ _ _ _ _ Hm t Htn) as HtT. assert (Htd : t <> d) by (intros ->; apply Hpd, elem_of_cons; auto).
    destruct (rep_alloc _ _ _ _ _ _ Hm t rest (fun new_pt => if new_pt =? 0 then mret None else
      map_page TEMP_SRC_PAGE new_pt KERNEL_RW ≫= fun _ => vclear TEMP_SRC_PAGE ≫= fun _ => unmap TEMP_SRC_PAGE ≫= fun _ =>
      vstore (TEMP_PD_VIRT + 4 * i) (Z.lor (Z.lor new_pt flags) PAGE_PRESENT) ≫= fun _ => mret (Some new_pt)) Hst) as (m1 & -> & Hm1 & Hnr).
    rewrite (proj2 (Z.eqb_neq t 0)) by done.
    destruct (rep_map _ _ _ _ _ _ Hm1 TEMP_SRC_PAGE t window_src Ht) as (m2 & Hrun & Hm2). rewrite (run_bind _ _ _ _ _ Hrun). clear Hrun.
    destruct (rep_clear _ _ _ _ _ _ Hm2 TEMP_SRC_PAGE t (fun _ => unmap TEMP_SRC_PAGE ≫= fun _ =>
      vstore (TEMP_PD_VIRT + 4 * i) (Z.lor (Z.lor t flags) PAGE_PRESENT) ≫= fun _ => mret (Some t)) window_src Ht ltac:(by rewrite upd_same) HtT (proj1 Htn)) as (m3 & -> & Hm3).
    destruct (rep_unmap _ _ _ _ _ _ Hm3 TEMP_SRC_PAGE window_src) as (m4 & Hrun & Hm4). rewrite (run_bind _ _ _ _ _ Hrun). clear Hrun.
    change (Z.lor (Z.lor t flags) PAGE_PRESENT) with (page_entry t flags). destruct (page_entry_spec t flags Ht Hf) as (E1 & E2 & E3).
    destruct (rep_store _ _ _ _ _ _ Hm4 TEMP_PD_VIRT d i (page_entry t flags) (fun _ => mret (Some t)) window_dir Hd
      ltac:(rewrite !upd_other by done; exact Hw) HdT (proj1 Hn) ltac:(lia)) as (m5 & -> & Hm5).
    eexists m5, _, _, t, _. split; [done|]. split; [exact Hm5|]. split; [intros v Hv; by rewrite !upd_other|].
    split; [split|done].
    + unfold pde. rewrite store_same by done. done.
    + intros j Hj Hji. unfold pde. rewrite store_word by lia. apply page_load; [done|]. intros x Hx. apply fill_page. intros Hx2.
      by apply (pages_apart d t x x).
    + intros j Hj. unfold space_word. rewrite Hp. unfold pte. rewrite (page_load (fill t 4096 0 r)); [by apply fill_load|done|].
      intros x Hx. apply store_page; [lia|]. intros Hx2. by apply (pages_apart t d x x).
    + intros x Hx1 Hx2. rewrite store_page by (done || lia). by apply fill_page.
Qed.
End target.

(** The walk of a space after one of its tables is set. *)
Lemma table_set_translate r r' c d i j t e v : user_space r c d -> table_set r r' d i t (fun k => if decide (k = j) then e else space_word r d i k) ->
  is_frame t -> t <> d -> (forall k, 10 <= k < 1023 -> k <> i -> present (pde r d k) = true -> frame_of (pde r d k) <> t) ->
  (forall k, 0 <= k < 1024 -> is_frame (frame_of (pde r d k))) -> present e = true ->
  10 <= i < 1023 -> 0 <= v -> 10 <= pd_idx v < 1023 ->
  translate r' d v = if decide (pd_idx v = i /\ pt_idx v = j) then Some (frame_of e + Z.land v 0xFFF) else translate r d v.
Proof.
  intros Hs [[H1 H2] H3 H4 H5] Ht Htd Hap Hfr He Hi Hv Hp. assert (Hj : 0 <= pt_idx v < 1024) by (rewrite pt_idx_div; lia_mod).
  unfold translate. destruct (decide (pd_idx v = i)) as [Hpi | Hne].
  - rewrite Hpi, H1, H2, H4 by done. cbn [negb]. destruct (decide (pt_idx v = j)) as [-> | Hnj].
    + rewrite decide_True by done. by rewrite He.
    + rewrite decide_False by tauto. unfold space_word. destruct (present (pde r d i)) eqn:E; [done|]. by vm_compute.
  - rewrite decide_False by tauto. rewrite H3 by lia. destruct (present (pde r d (pd_idx v))) eqn:E; [|done]. cbn [negb].
    assert (Hw : pte r' (frame_of (pde r d (pd_idx v))) (pt_idx v) = pte r (frame_of (pde r d (pd_idx v))) (pt_idx v)); [|by rewrite Hw].
    pose proof (Hfr (pd_idx v) ltac:(lia)) as Hvf. apply page_load; [done|]. intros x Hx. apply H5; intros Hx2.
    + apply (pages_apart (frame_of (pde r d (pd_idx v))) d x x); try done; [apply Hs|]. by apply (us_table _ _ _ Hs).
    + apply (pages_apart (frame_of (pde r d (pd_idx v))) t x x); try done. apply Hap; [lia|done|done].
Qed.

(** The pool holds nothing of the space. *)
Definition off_pool (r : ram) (d : Z) (p : pmm) : Prop :=
  d ∉ pm_stack p /\ forall i, 10 <= i < 1023 -> present (pde r d i) = true -> frame_of (pde r d i) ∉ pm_stack p.

Lemma taken_apart r c d i t p p' : user_space r c d -> off_pool r d p -> table_taken r d i t p p' -> 10 <= i < 1023 ->
  forall k, 10 <= k < 1023 -> k <> i -> present (pde r d k) = true -> frame_of (pde r d k) <> t.
Proof.
  intros Hs [_ Ho] Ht Hi k Hk Hki Hp. unfold table_taken in Ht. destruct (present (pde r d i)) eqn:E.
  - destruct Ht as [-> _]. by apply (us_apart _ _ _ Hs).
  - destruct Ht as [Hst _]. intros <-. apply (Ho k Hk Hp). rewrite Hst. apply elem_of_cons; auto.
Qed.

(** The space is one afterwards. *)
Lemma table_set_space r r' c d i t wd : user_space r c d -> table_set r r' d i t wd -> same_dir r r' c -> no_table r c t -> t <> d -> 10 <= i < 1023 ->
  (forall k, 10 <= k < 1023 -> k <> i -> present (pde r d k) = true -> frame_of (pde r d k) <> t) -> user_space r' c d.
Proof.
  intros Hs [[H1 H2] H3 _ _] Hsd Ht Htd Hi Hap. split; [apply Hs|by apply (same_no_table r), Hs| |].
  - intros k Hk Hp. destruct (decide (k = i)) as [-> | Hne]; [rewrite H2; split; [by apply (same_no_table r)|done]|].
    rewrite H3 in * by lia. destruct (us_table _ _ _ Hs k Hk Hp). split; [by apply (same_no_table r)|done].
  - intros k l Hk Hl Hkl. destruct (decide (k = i)) as [-> | Hki], (decide (l = i)) as [-> | Hli]; [done|..].
    + rewrite H2, (H3 l) by lia. intros _ Hp. by apply not_eq_sym, Hap.
    + rewrite H2, (H3 k) by lia. intros Hp _. by apply Hap.
    + rewrite !H3 by lia. by apply (us_apart _ _ _ Hs).
Qed.

Lemma rep_map_in c T p w r m d vir phy flags : rep c T p w r m -> w TEMP_PD_VIRT = d + 3 -> user_space r c d -> off_pool r d p ->
  0 <= vir < 4294967296 -> 10 <= pd_idx vir < 1023 -> is_frame phy -> 0 <= flags < 4096 ->
  exists b m' p' r' w',
    (table ← target_table (pd_idx vir) flags;
     match table with
     | None => unmap TEMP_PD_VIRT ≫= fun _ => mret false
     | Some pt_phys =>
         map_page TEMP_SRC_PAGE pt_phys KERNEL_RW ≫= fun _ =>
         vstore (TEMP_SRC_PAGE + 4 * pt_idx vir) (Z.lor (Z.lor phy flags) PAGE_PRESENT) ≫= fun _ =>
         unmap TEMP_PD_VIRT ≫= fun _ => unmap TEMP_SRC_PAGE ≫= fun _ => mret true
     end) m = Some (b, m') /\ rep c T p' w' r' m' /\
    (if b then exists t, is_frame t /\ no_table r c t /\ t <> d /\ table_taken r d (pd_idx vir) t p p' /\
       table_set r r' d (pd_idx vir) t (fun k => if decide (k = pt_idx vir) then page_entry phy flags else space_word r d (pd_idx vir) k)
     else pm_stack p = [] /\ present (pde r d (pd_idx vir)) = false /\ p' = p /\ r' = r).
Proof.
  intros Hm Hw Hs [Ho _] Hv Hi Hph Hf. destruct (idx_range vir Hv) as [_ Hj]. pose proof (us_frame _ _ _ Hs) as Hd.
  destruct (rep_target_table _ _ _ _ _ _ Hm d Hw Hs Ho (pd_idx vir) flags ltac:(lia) Hf)
    as [(Hp & Hst & Hrun) | (m1 & p1 & r1 & t & w1 & Hrun & Hm1 & Hw1 & Hts & Htk & Ht & Htn & Htd)]; rewrite (run_bind _ _ _ _ _ Hrun); clear Hrun.
  { destruct (rep_unmap _ _ _ _ _ _ Hm TEMP_PD_VIRT window_dir) as (m' & Hrun & Hm'). rewrite (run_bind _ _ _ _ _ Hrun).
    exists false, m', p, r, (upd w TEMP_PD_VIRT 0). by rewrite Hp. }
  pose proof (no_table_T _ _ _ _ _ _ Hm t Htn) as HtT.
  destruct (rep_map _ _ _ _ _ _ Hm1 TEMP_SRC_PAGE t window_src Ht) as (m2 & Hrun & Hm2). rewrite (run_bind _ _ _ _ _ Hrun). clear Hrun.
  change (Z.lor (Z.lor phy flags) PAGE_PRESENT) with (page_entry phy flags). destruct (page_entry_spec phy flags Hph Hf) as (_ & _ & E3).
  destruct (rep_store _ _ _ _ _ _ Hm2 TEMP_SRC_PAGE t (pt_idx vir) (page_entry phy flags)
    (fun _ => unmap TEMP_PD_VIRT ≫= fun _ => unmap TEMP_SRC_PAGE ≫= fun _ => mret true) window_src Ht ltac:(by rewrite upd_same) HtT (proj1 Htn) Hj) as (m3 & -> & Hm3).
  destruct (rep_unmap _ _ _ _ _ _ Hm3 TEMP_PD_VIRT window_dir) as (m4 & Hrun & Hm4). rewrite (run_bind _ _ _ _ _ Hrun). clear Hrun.
  destruct (rep_unmap _ _ _ _ _ _ Hm4 TEMP_SRC_PAGE window_src) as (m5 & Hrun & Hm5). rewrite (run_bind _ _ _ _ _ Hrun). clear Hrun.
  eexists true, m5, p1, _, _. split; [done|]. split; [exact Hm5|]. exists t. split; [done|]. split; [done|]. split; [done|]. split; [done|].
  assert (Hdd : forall k, 0 <= k < 1024 -> pde (store32 (t + 4 * pt_idx vir) (page_entry phy flags) r1) d k = pde r1 d k).
  { intros k Hk. apply page_load; [done|]. intros x Hx. apply store_page; [done|]. intros Hx2. by apply (pages_apart d t x x). }
  destruct Hts as [H1 H2 H3 H4]. split.
  - rewrite Hdd by lia. done.
  - intros k Hk Hki. rewrite Hdd by done. by apply H2.
  - intros k Hk. unfold pte. destruct (decide (k = pt_idx vir)) as [-> | Hne]; [by apply store_same|]. rewrite store_word by (done || lia). by apply H3.
  - intros x Hx1 Hx2. rewrite store_page by done. by apply H4.
Qed.

(** ** Frames in use are not touched when the windows open *)

Lemma opens_keep m m1 T p w f : mach_ok m -> opens m m1 T -> rep (m_cr3 m) T p w (m_ram m1) m1 -> other m f ->
  f <> T /\ other m1 f /\ forall x, in_page f x -> m_ram m1 x = m_ram m x.
Proof.
  intros Hm Ho Hr (Hf & Hn & Hp). destruct (rp_win _ _ _ _ _ _ Hr) as [Hp1 HTe]. pose proof (rp_ok _ _ _ _ _ _ Hr) as Hm1.
  destruct (opens_table m m1 T Hm Hm1 Ho Hp1 HTe) as (HT & HTc & HTn). pose proof (op_pool _ _ _ Ho) as Hpool. unfold table_from in Hpool.
  assert (HfT : f <> T /\ f ∉ pm_stack (m_pmm m1)).
  { destruct (present (pde (m_ram m) (m_cr3 m) 1022)) eqn:E.
    - destruct Hpool as [-> ->]. split; [|done]. apply not_eq_sym, (proj2 Hn); [lia|done].
    - destruct Hpool as [Hst _]. rewrite Hst in Hp. apply not_elem_of_cons in Hp. done. }
  destruct HfT as [HfT Hp']. split; [done|]. split.
  - split; [done|]. split; [|done]. rewrite (op_cr3 _ _ _ Ho). by apply (opens_no_table m m1 T).
  - intros x Hx. apply (op_rest _ _ _ Ho); intros Hx2.
    + apply (pages_apart f (m_cr3 m) x x); try done; [apply (dk_cr3 _ _ (mk_dir _ Hm))|apply Hn].
    + by apply (pages_apart f T x x).
Qed.

(** The frames of a space that is not running, its directory and tables. *)
Definition space_other (m : machine) (d : Z) : Prop :=
  other m d /\ forall i, 10 <= i < 1023 -> present (pde (m_ram m) d i) = true -> other m (frame_of (pde (m_ram m) d i)).

Lemma space_other_of m d : mach_ok m -> user_space (m_ram m) (m_cr3 m) d -> off_pool (m_ram m) d (m_pmm m) -> space_other m d.
Proof.
  intros Hm Hs [Ho1 Ho2]. split; [split; [apply Hs|split; [apply Hs|done]]|]. intros i Hi Hp. split.
  - apply frame_of_frame, load_range, Hm.
  - split; [by apply (us_table _ _ _ Hs)|by apply Ho2].
Qed.

Lemma opens_user m m1 T p w d : mach_ok m -> opens m m1 T -> rep (m_cr3 m) T p w (m_ram m1) m1 -> user_space (m_ram m) (m_cr3 m) d ->
  off_pool (m_ram m) d (m_pmm m) ->
  user_space (m_ram m1) (m_cr3 m) d /\ off_pool (m_ram m1) d (m_pmm m1) /\ (forall i, 0 <= i < 1024 -> pde (m_ram m1) d i = pde (m_ram m) d i) /\
  (forall i j, 10 <= i < 1023 -> 0 <= j < 1024 -> space_word (m_ram m1) d i j = space_word (m_ram m) d i j) /\ d <> T.
Proof.
  intros Hm Ho Hr Hs Hoff. destruct (space_other_of m d Hm Hs Hoff) as [Hd Ht].
  destruct (opens_keep m m1 T p w d Hm Ho Hr Hd) as (HdT & (D1 & D2 & D3) & D4). rewrite (op_cr3 _ _ _ Ho) in D2.
  assert (Hpde : forall i, 0 <= i < 1024 -> pde (m_ram m1) d i = pde (m_ram m) d i) by (intros i Hi; by apply page_load).
  split; [split; [done|done| |]|split; [split; [done|]|split; [done|split; [|done]]]].
  - intros i Hi. rewrite Hpde by lia. intros Hp. split; [|by apply (us_table _ _ _ Hs)].
    destruct (opens_keep m m1 T p w _ Hm Ho Hr (Ht i Hi Hp)) as (_ & (_ & H & _) & _). by rewrite (op_cr3 _ _ _ Ho) in H.
  - intros i j Hi Hj. rewrite !Hpde by lia. by apply (us_apart _ _ _ Hs).
  - intros i Hi. rewrite Hpde by lia. intros Hp. by destruct (opens_keep m m1 T p w _ Hm Ho Hr (Ht i Hi Hp)) as (_ & (_ & _ & H) & _).
  - intros i j Hi Hj. unfold space_word. rewrite Hpde by lia. destruct (present (pde (m_ram m) d i)) eqn:E; [|done].
    destruct (opens_keep m m1 T p w _ Hm Ho Hr (Ht i Hi E)) as (_ & _ & H). by apply page_load.
Qed.

(** The walk in terms of the words. *)
Lemma translate_word r d v : translate r d v =
  if present (pde r d (pd_idx v)) then
    if present (space_word r d (pd_idx v) (pt_idx v)) then Some (frame_of (space_word r d (pd_idx v) (pt_idx v)) + Z.land v 0xFFF) else None
  else None.
Proof. unfold translate, space_word. destruct (present (pde r d (pd_idx v))); [|done]. cbn [negb]. by destruct (present _). Qed.

Lemma same_page v vir : 0 <= v -> 0 <= vir -> (pd_idx v = pd_idx vir /\ pt_idx v = pt_idx vir) <-> v / 4096 = vir / 4096.
Proof. intros. rewrite !pd_idx_div, !pt_idx_div. split; [intros []|intros; split]; lia_mod. Qed.

(** What [map_page_in_directory] promises. *)
Record mapped_in (m m' : machine) (d vir phy : Z) : Prop := {
  mi_ok : mach_ok m';
  mi_cr3 : m_cr3 m' = m_cr3 m;
  mi_running : same_space (m_ram m) (m_ram m') (m_cr3 m);
  mi_space : user_space (m_ram m') (m_cr3 m) d;
  mi_page : forall v, 0 <= v -> 10 <= pd_idx v < 1023 ->
    translate (m_ram m') d v = if decide (v / 4096 = vir / 4096) then Some (phy + v mod 4096) else translate (m_ram m) d v }.

Lemma translate_same r r' d v : 0 <= v -> 10 <= pd_idx v < 1023 -> (forall i, 0 <= i < 1024 -> pde r' d i = pde r d i) ->
  (forall i j, 10 <= i < 1023 -> 0 <= j < 1024 -> space_word r' d i j = space_word r d i j) -> translate r' d v = translate r d v.
Proof.
  intros Hv Hi Hd Hw. assert (Hj : 0 <= pt_idx v < 1024) by (rewrite pt_idx_div; lia_mod). rewrite !translate_word, Hd, Hw by lia. done.
Qed.

Lemma table_set_dir r r' c d i t wd : table_set r r' d i t wd -> is_frame c -> is_frame d -> is_frame t -> c <> d -> c <> t -> same_dir r r' c.
Proof.
  intros Hts Hc Hd Ht Hcd Hct. apply off_page_dir. intros x Hx. apply (ts_rest _ _ _ _ _ _ Hts); intros Hx2;
    [by apply (pages_apart c d x x)|by apply (pages_apart c t x x)].
Qed.

(** The space of a machine, off the window table. *)
Lemma rep_user c T p w r m d : rep c T p w r m -> user_space r c d ->
  user_space (m_ram m) c d /\ (forall i, 0 <= i < 1024 -> pde (m_ram m) d i = pde r d i) /\
  (forall i j, 10 <= i < 1023 -> 0 <= j < 1024 -> space_word (m_ram m) d i j = space_word r d i j).
Proof.
  intros Hm Hs. pose proof (no_table_T _ _ _ _ _ _ Hm d (us_dir _ _ _ Hs)) as HdT. pose proof (us_frame _ _ _ Hs) as Hd.
  assert (Hpde : forall i, 0 <= i < 1024 -> pde (m_ram m) d i = pde r d i) by (intros i Hi; by apply (rep_word c T p w r m Hm)).
  split; [split; [done|by apply (rep_no_table _ _ _ _ _ _ Hm), Hs| |]|split; [done|]].
  - intros i Hi. rewrite Hpde by lia. intros Hp. destruct (us_table _ _ _ Hs i Hi Hp). split; [by apply (rep_no_table _ _ _ _ _ _ Hm)|done].
  - intros i j Hi Hj. rewrite !Hpde by lia. by apply (us_apart _ _ _ Hs).
  - intros i j Hi Hj. unfold space_word. rewrite Hpde by lia. destruct (present (pde r d i)) eqn:E; [|done].
    apply (rep_word c T p w r m Hm); [|by apply (no_table_T _ _ _ _ _ _ Hm), (us_table _ _ _ Hs)|done].
    apply (rep_frame c T p w r m); try done. lia.
Qed.

Lemma map_page_in_directory_spec m d vir phy flags : mach_ok m -> can_open m -> user_space (m_ram m) (m_cr3 m) d -> off_pool (m_ram m) d (m_pmm m) ->
  0 <= vir < 4294967296 -> 10 <= pd_idx vir < 1023 -> is_frame phy -> 0 <= flags < 4096 ->
  exists b m', map_page_in_directory d vir phy flags m = Some (b, m') /\ mach_ok m' /\
    if b then mapped_in m m' d vir phy
    else pm_stack (m_pmm m') = [] /\ present (pde (m_ram m) d (pd_idx vir)) = false /\ same_space (m_ram m) (m_ram m') (m_cr3 m) /\
      forall v, 0 <= v -> 10 <= pd_idx v < 1023 -> translate (m_ram m') d v = translate (m_ram m) d v.
Proof.
  intros Hm Hcan Hs Hoff Hv Hi Hph Hf. unfold map_page_in_directory. pose proof (us_frame _ _ _ Hs) as Hd.
  destruct (rep_open m TEMP_PD_VIRT d Hm Hcan window_dir Hd) as (m1 & T & Hrun & Ho & Hr1). rewrite (run_bind _ _ _ _ _ Hrun). clear Hrun.
  destruct (opens_user m m1 T _ _ d Hm Ho Hr1 Hs Hoff) as (Hs1 & Hoff1 & Hpd & Hwd & HdT). pose proof (dk_cr3 _ _ (mk_dir _ Hm)) as Hc.
  destruct (rep_map_in _ _ _ _ _ _ d vir phy flags Hr1 ltac:(by rewrite upd_same) Hs1 Hoff1 Hv Hi Hph Hf) as (b & m' & p' & r' & w' & -> & Hr' & Hb).
  exists b, m'. split; [done|]. split; [apply (rp_ok _ _ _ _ _ _ Hr')|]. destruct b.
  - destruct Hb as (t & Ht & Htn & Htd & Htk & Hts). pose proof (taken_apart _ _ _ _ _ _ _ Hs1 Hoff1 Htk ltac:(lia)) as Hap.
    assert (Hsd : same_dir (m_ram m1) r' (m_cr3 m)).
    { apply (table_set_dir _ _ _ _ _ _ _ Hts); try done; [apply not_eq_sym, Hs|apply not_eq_sym, Htn]. }
    pose proof (table_set_space _ _ _ _ _ _ _ Hs1 Hts Hsd Htn Htd ltac:(lia) Hap) as Hs'.
    destruct (rep_user _ _ _ _ _ _ d Hr' Hs') as (Hs2 & Hpd2 & Hwd2).
    split; [apply (rp_ok _ _ _ _ _ _ Hr')|apply (rp_cr3 _ _ _ _ _ _ Hr')| |done|].
    + apply (opens_same_space m m1 T _ _ _ r' m' _ Hm Ho Hr1 Hr'). intros x Hx. destruct (decide (d <= x < d + 4096)) as [Hx1 | Hx1].
      { exists d. split; [done|]. split; [apply Hs1|done]. }
      exists t. split; [done|]. split; [done|]. destruct (decide (t <= x < t + 4096)) as [Hx2 | Hx2]; [done|]. exfalso. apply Hx. by apply (ts_rest _ _ _ _ _ _ Hts).
    + intros v H0 Hpv. rewrite (translate_same r' (m_ram m') d v) by done. destruct (page_entry_spec phy flags Hph Hf) as (E1 & E2 & _).
      rewrite (table_set_translate (m_ram m1) r' (m_cr3 m) d (pd_idx vir) (pt_idx vir) t (page_entry phy flags) v); try done;
        [|intros k _; apply frame_of_frame, load_range, (rp_ok _ _ _ _ _ _ Hr1)].
      rewrite E1, low12. pose proof (same_page v vir ltac:(lia) ltac:(lia)). rewrite (translate_same (m_ram m) (m_ram m1) d v) by done.
      destruct (decide (pd_idx v = pd_idx vir /\ pt_idx v = pt_idx vir)), (decide (v / 4096 = vir / 4096)); tauto.
  - destruct Hb as (Hst & Hp & -> & ->). rewrite (rp_pmm _ _ _ _ _ _ Hr'). split; [done|]. rewrite <- Hpd by lia. split; [done|].
    split; [apply (opens_same_space m m1 T _ _ _ _ m' _ Hm Ho Hr1 Hr'); intros x Hx; done|].
    intros v H0 Hpv. destruct (rep_user _ _ _ _ _ _ d Hr' Hs1) as (_ & Hpd2 & Hwd2). rewrite (translate_same (m_ram m1) (m_ram m')) by done.
    by apply translate_same.
Qed.
