(* ===== verification/PagingFree.v ===== *)
(** * Taking address spaces apart

    [destroy_user_space] and [clone_rollback]: the frames of a space, in the order
    in which they go back to the pool. *)

From stdpp Require Import list_numbers.
From S2P Require Import Prelude StateMonad Pmm Paging PagingMem PagingMap PagingWin PagingSpace.

#[local] Open Scope Z_scope.

(** ** The frames of a space *)

Definition page_at (r : ram) (t j : Z) : list Z := if present (pte r t j) then [frame_of (pte r t j)] else [].
Definition pages_on (r : ram) (t : Z) (todo : list Z) : list Z := flat_map (page_at r t) todo.
Definition table_at (r : ram) (d i : Z) : list Z :=
  if present (pde r d i) then pages_on r (frame_of (pde r d i)) TABLE_ENTRIES ++ [frame_of (pde r d i)] else [].
Definition frames_on (r : ram) (d : Z) (todo : list Z) : list Z := flat_map (table_at r d) todo.

(** All frames of a space, its directory last. *)
Definition space_frames (r : ram) (d : Z) : list Z := frames_on r d USER_ENTRIES ++ [d].

Definition free_all (fs : list Z) (p : pmm) : pmm := foldl (fun p f => pmm_free f p) p fs.

Lemma free_all_app fs gs p : free_all (fs ++ gs) p = free_all gs (free_all fs p).
Proof. apply foldl_app. Qed.

Lemma pages_on_ext r r' t todo : (forall j, j ∈ todo -> pte r' t j = pte r t j) -> pages_on r' t todo = pages_on r t todo.
Proof.
  induction todo as [|j todo IH]; intros Hx; [done|]. cbn [pages_on flat_map]. f_equal.
  - unfold page_at. by rewrite (Hx j) by (apply elem_of_cons; auto).
  - apply IH. intros k Hk. apply Hx, elem_of_cons. auto.
Qed.

(** ** One table *)

Section pages.
Context (c T : Z) (w : Z -> Z) (t : Z) (Hw : w TEMP_PT_VIRT = t + 3) (Ht : is_frame t).

Lemma rep_free_pages clear todo p r m : rep c T p w r m -> no_table r c t -> NoDup todo -> Forall (fun j => 0 <= j < 1024) todo ->
  Forall (no_table r c) (pages_on r t todo) ->
  exists m' r', free_pages clear todo m = Some (tt, m') /\ rep c T (free_all (pages_on r t todo) p) w r' m' /\ (forall x, ~ in_page t x -> r' x = r x).
Proof.
  revert p r m. induction todo as [|j todo IH]; intros p r m Hm Hn Hnd Hall Hpg; cbn [free_pages]; [by exists m, r|].
  apply list.NoDup_cons in Hnd as [Hj Hnd]. apply Forall_cons_1 in Hall as [Hr Hall]. pose proof (no_table_T _ _ _ _ _ _ Hm t Hn) as HtT.
  rewrite (rep_load _ _ _ _ _ _ Hm _ t j _ window_tab Ht Hw HtT Hr). fold (pte r t j). cbn [pages_on flat_map] in *. unfold page_at in Hpg at 1 |- * at 1.
  pose proof (rep_frame _ _ _ _ _ _ t j Hm Ht HtT Hr) as Hef. fold (pte r t j) in Hef.
  destruct (present (pte r t j)) eqn:E.
  2: { rewrite run_ret. apply IH; done. }
  cbn [app] in Hpg |- *. apply Forall_cons_1 in Hpg as [Hen Hpg]. cbn [free_all foldl]. rewrite run_assoc.
  destruct (rep_free _ _ _ _ _ _ Hm (frame_of (pte r t j)) Hef Hen) as (m1 & Hrun & Hm1). rewrite (run_bind _ _ _ _ _ Hrun). clear Hrun.
  destruct clear; [|rewrite run_ret; apply IH; done].
  destruct (rep_store _ _ _ _ _ _ Hm1 TEMP_PT_VIRT t j 0 (fun _ => free_pages true todo) window_tab Ht Hw HtT (proj1 Hn) Hr) as (m2 & -> & Hm2).
  assert (Hoff : forall x, ~ in_page t x -> store32 (t + 4 * j) 0 r x = r x) by (intros x Hx; by apply store_page).
  pose proof (rep_T _ _ _ _ _ _ Hm) as (_ & _ & Hc).
  assert (Hpp : pages_on (store32 (t + 4 * j) 0 r) t todo = pages_on r t todo).
  { apply pages_on_ext. intros k Hk. apply store_word; [done|by apply (proj1 (list.Forall_forall _ _) Hall)|]. by intros ->. }
  destruct (IH _ _ m2 Hm2) as (m' & r' & -> & Hm' & Hx); [by apply (no_table_off r _ c t t)|done|done| |].
  - rewrite Hpp. eapply Forall_impl; [|exact Hpg]. intros g Hg. by apply (no_table_off r _ c t g).
  - exists m', r'. split; [done|]. rewrite Hpp in Hm'. split; [done|]. intros x Hnx. rewrite Hx by done. by apply Hoff.
Qed.
End pages.

Lemma table_entries : NoDup TABLE_ENTRIES /\ Forall (fun j => 0 <= j < 1024) TABLE_ENTRIES.
Proof. split; [apply NoDup_seqZ|]. apply list.Forall_forall. intros j Hj%seqZ_in. lia. Qed.

(** ** The tables of a directory *)

(** The entries named are of tables that are nobody else's. *)
Record own_tables (r : ram) (c d : Z) (todo : list Z) : Prop := {
  ow_range : Forall (fun i => 0 <= i < 1024) todo;
  ow_frames : Forall (no_table r c) (frames_on r d todo);
  ow_dir : Forall (fun i => present (pde r d i) = true -> frame_of (pde r d i) <> d) todo;
  ow_apart : forall i j, i ∈ todo -> j ∈ todo -> i <> j -> present (pde r d i) = true -> present (pde r d j) = true ->
    frame_of (pde r d i) <> frame_of (pde r d j) }.

Lemma own_tables_cons r c d i todo : own_tables r c d (i :: todo) -> own_tables r c d todo.
Proof.
  intros [H1 H2 H3 H4]. apply Forall_cons_1 in H1 as [_ H1]. apply Forall_cons_1 in H3 as [_ H3]. cbn in H2. apply Forall_app in H2 as [_ H2].
  split; try done. intros j k Hj Hk. apply H4; apply elem_of_cons; auto.
Qed.

Lemma frames_on_ext r r' d todo : (forall i, i ∈ todo -> pde r' d i = pde r d i) ->
  (forall i j, i ∈ todo -> present (pde r d i) = true -> 0 <= j < 1024 -> pte r' (frame_of (pde r d i)) j = pte r (frame_of (pde r d i)) j) ->
  frames_on r' d todo = frames_on r d todo.
Proof.
  induction todo as [|i todo IH]; intros Hd Ht; [done|]. cbn [frames_on flat_map]. f_equal.
  2: { apply IH; [intros k Hk; apply Hd|intros k j Hk; apply Ht]; apply elem_of_cons; auto. }
  unfold table_at. rewrite Hd by (apply elem_of_cons; auto). destruct (present (pde r d i)) eqn:E; [|done]. f_equal. apply pages_on_ext.
  intros j Hj%seqZ_in. apply Ht; [apply elem_of_cons; auto|done|lia].
Qed.

Lemma frames_none r d todo : (forall i, i ∈ todo -> pde r d i = 0) -> frames_on r d todo = [].
Proof.
  induction todo as [|i todo IH]; intros Hz; [done|]. cbn [frames_on flat_map]. unfold frames_on in IH. rewrite IH by (intros k Hk; apply Hz, elem_of_cons; auto).
  unfold table_at. by rewrite Hz by (apply elem_of_cons; auto).
Qed.

(** A change of one table and of its entry. *)
Lemma own_tables_off r r' c d i t todo : own_tables r c d todo -> is_frame d -> is_frame c -> is_frame t -> no_table r c d -> no_table r c t ->
  (forall k, k ∈ todo -> is_frame (frame_of (pde r d k))) ->
  i ∉ todo -> d <> t -> (forall k, k ∈ todo -> present (pde r d k) = true -> frame_of (pde r d k) <> t) ->
  (forall x, ~ in_page t x -> ~ (d + 4 * i <= x < d + 4 * i + 4) -> r' x = r x) -> 0 <= i < 1024 ->
  own_tables r' c d todo /\ frames_on r' d todo = frames_on r d todo /\ same_dir r r' c.
Proof.
  intros [H1 H2 H3 H4] Hd Hc Ht Hdn Htn Hfr Hi Hdt Hap Hx Hir.
  assert (Hpd : forall k, k ∈ todo -> pde r' d k = pde r d k).
  { intros k Hk. assert (0 <= k < 1024) by exact (proj1 (list.Forall_forall _ _) H1 k Hk). apply load_ext. intros x Hk2. apply Hx.
    - intros Hx2. apply (pages_apart d t x x); try done. unfold in_page. lia.
    - assert (k <> i) by by intros ->. lia. }
  assert (Hpt : forall k j, k ∈ todo -> present (pde r d k) = true -> 0 <= j < 1024 -> pte r' (frame_of (pde r d k)) j = pte r (frame_of (pde r d k)) j).
  { intros k j Hk Hp Hj. apply page_load; [done|]. intros x Hin. apply Hx.
    - intros Hx2. apply (pages_apart (frame_of (pde r d k)) t x x); try done; [by apply Hfr|by apply Hap].
    - intros Hx2. apply (pages_apart (frame_of (pde r d k)) d x x); try done; [by apply Hfr|by apply (proj1 (list.Forall_forall _ _) H3)|].
      unfold in_page. lia. }
  assert (Hsd : same_dir r r' c).
  { apply off_page_dir. intros x Hin. apply Hx; intros Hx2.
    - apply (pages_apart c t x x); try done. apply not_eq_sym, Htn.
    - apply (pages_apart c d x x); try done; [apply not_eq_sym, Hdn|unfold in_page; lia]. }
  pose proof (frames_on_ext r r' d todo Hpd Hpt) as Hf. split; [|done]. split; [done| | |].
  - rewrite Hf. eapply Forall_impl; [|exact H2]. intros g. by apply same_no_table.
  - apply list.Forall_forall. intros k Hk. rewrite Hpd by done. by apply (proj1 (list.Forall_forall _ _) H3).
  - intros j k Hj Hk. rewrite !Hpd by done. by apply H4.
Qed.

(** The memory differs only in frames of no table. *)
Definition off_tables (r r' : ram) (c : Z) : Prop := forall x, r' x <> r x -> exists f, is_frame f /\ no_table r c f /\ in_page f x.

Lemma off_tables_trans r r' r'' c : same_dir r r' c -> off_tables r r' c -> off_tables r' r'' c -> off_tables r r'' c.
Proof.
  intros Hs H1 H2 x Hx. destruct (decide (r'' x = r' x)) as [E | E]; [rewrite E in Hx; by apply H1|].
  destruct (H2 x E) as (f & ? & Hf & ?). exists f. split; [done|]. split; [|done]. apply (same_no_table r'); [|done]. intros i Hi. by rewrite Hs.
Qed.

Lemma off_page_tables r r' c f : is_frame f -> no_table r c f -> (forall x, ~ in_page f x -> r' x = r x) -> off_tables r r' c.
Proof.
  intros Hf Hn Hx x Hd. exists f. split; [done|]. split; [done|]. destruct (decide (f <= x < f + 4096)) as [|Hno]; [done|]. exfalso. by apply Hd, Hx.
Qed.

Lemma same_dir_refl r c : same_dir r r c. Proof. by intros i Hi. Qed.
Lemma same_dir_trans r r' r'' c : same_dir r r' c -> same_dir r' r'' c -> same_dir r r'' c.
Proof. intros H1 H2 i Hi. rewrite H2 by done. by apply H1. Qed.

Lemma page_same_dir r r' c f : is_frame c -> is_frame f -> f <> c -> (forall x, ~ in_page f x -> r' x = r x) -> same_dir r r' c.
Proof. intros Hc Hf Hne Hx. apply off_page_dir. intros x Hin. apply Hx. intros Hin2. by apply (pages_apart c f x x). Qed.

Lemma run_last {B} (n : P unit) (b : B) m m' : (n ≫= fun _ => mret b) m = Some (b, m') -> n m = Some (tt, m').
Proof. unfold mbind, ST_bind. destruct (n m) as [[[] m1]|]; [|done]. intros H. by injection H as ->. Qed.

Section tables.
Context (c T d : Z) (Hd : is_frame d).

(** One table, its pages and its entry. *)
Lemma rep_free_table (clear : bool) i p w r m : rep c T p w r m -> w TEMP_PD_VIRT = d + 3 -> no_table r c d -> 0 <= i < 1024 -> present (pde r d i) = true ->
  frame_of (pde r d i) <> d -> Forall (no_table r c) (table_at r d i) ->
  exists m' r',
    (map_page TEMP_PT_VIRT (frame_of (pde r d i)) KERNEL_RW ≫= fun _ => free_pages clear TABLE_ENTRIES ≫= fun _ => unmap TEMP_PT_VIRT ≫= fun _ =>
     free_frame (frame_of (pde r d i)) ≫= fun _ => (if clear then vstore (TEMP_PD_VIRT + 4 * i) 0 else mret tt)) m = Some (tt, m') /\
    rep c T (free_all (table_at r d i) p) (upd w TEMP_PT_VIRT 0) r' m' /\
    (forall x, ~ in_page (frame_of (pde r d i)) x -> ~ (d + 4 * i <= x < d + 4 * i + 4) -> r' x = r x).
Proof.
  intros Hm Hw Hn Hi Hp Htd Hall. pose proof (no_table_T _ _ _ _ _ _ Hm d Hn) as HdT. pose proof (rep_frame _ _ _ _ _ _ d i Hm Hd HdT Hi) as Ht.
  fold (pde r d i) in Ht. unfold table_at in Hall |- *. rewrite Hp in Hall |- *. set (t := frame_of (pde r d i)) in *.
  apply Forall_app in Hall as [Hpg Htn]. apply Forall_cons_1 in Htn as [Htn _].
  destruct (rep_map _ _ _ _ _ _ Hm TEMP_PT_VIRT t window_tab Ht) as (m1 & Hrun & Hm1). rewrite (run_bind _ _ _ _ _ Hrun). clear Hrun.
  destruct (rep_free_pages c T _ t ltac:(by rewrite upd_same) Ht clear TABLE_ENTRIES p r m1 Hm1 Htn (proj1 table_entries) (proj2 table_entries) Hpg)
    as (m2 & r2 & Hrun & Hm2 & Hx2). rewrite (run_bind _ _ _ _ _ Hrun). clear Hrun.
  destruct (rep_unmap _ _ _ _ _ _ Hm2 TEMP_PT_VIRT window_tab) as (m3 & Hrun & Hm3). rewrite (run_bind _ _ _ _ _ Hrun). clear Hrun.
  pose proof (rep_T _ _ _ _ _ _ Hm) as (_ & _ & Hc). pose proof (no_table_off r r2 c t t Htn Ht Hc Hx2 Htn) as Htn2.
  destruct (rep_free _ _ _ _ _ _ Hm3 t Ht Htn2) as (m4 & Hrun & Hm4). rewrite (run_bind _ _ _ _ _ Hrun). clear Hrun.
  rewrite free_all_app.
  assert (Hext : forall p' r' m', rep c T p' (upd (upd w TEMP_PT_VIRT (t + 3)) TEMP_PT_VIRT 0) r' m' -> rep c T p' (upd w TEMP_PT_VIRT 0) r' m').
  { intros p' r' m' H. apply (rep_ext _ _ _ _ _ _ _ _ H); [|done]. intros v _. unfold upd. by case_decide. }
  destruct clear.
  - destruct (rep_store _ _ _ _ _ _ Hm4 TEMP_PD_VIRT d i 0 (fun _ => mret tt) window_dir Hd ltac:(rewrite !upd_other by done; exact Hw) HdT (proj1 Hn) Hi)
      as (m5 & Hrun & Hm5). exists m5. eexists. split; [|split; [apply Hext, Hm5|]].
    + apply (run_last _ tt). exact Hrun.
    + intros x H1 H2. rewrite store_off by done. by apply Hx2.
  - exists m4, r2. split; [done|]. split; [by apply Hext|]. intros x H1 _. by apply Hx2.
Qed.
End tables.

Section walk.
Context (c T d : Z) (Hd : is_frame d).

Lemma rep_free_tables (clear : bool) todo p w r m : rep c T p w r m -> w TEMP_PD_VIRT = d + 3 -> no_table r c d -> NoDup todo -> own_tables r c d todo ->
  exists m' r' w', free_tables clear todo m = Some (tt, m') /\ rep c T (free_all (frames_on r d todo) p) w' r' m' /\
    (forall v, v <> TEMP_PT_VIRT -> w' v = w v) /\ same_dir r r' c /\ off_tables r r' c.
Proof.
  revert p w r m. induction todo as [|i todo IH]; intros p w r m Hm Hw Hn Hnd Hown; cbn [free_tables].
  { exists m, r, w. split; [done|]. split; [done|]. split; [done|]. split; [apply same_dir_refl|]. by intros x Hx. }
  apply list.NoDup_cons in Hnd as [Hi Hnd]. pose proof (own_tables_cons _ _ _ _ _ Hown) as Hown'. destruct Hown as [H1 H2 H3 H4].
  apply Forall_cons_1 in H1 as [Hir _]. apply Forall_cons_1 in H3 as [Htd _]. cbn [frames_on flat_map] in H2 |- *. apply Forall_app in H2 as [Hti _].
  pose proof (no_table_T _ _ _ _ _ _ Hm d Hn) as HdT. rewrite (rep_load _ _ _ _ _ _ Hm _ d i _ window_dir Hd Hw HdT Hir). fold (pde r d i).
  destruct (present (pde r d i)) eqn:Hp.
  2: { rewrite run_ret. assert (E : table_at r d i = []) by (unfold table_at; by rewrite Hp). rewrite E. by apply IH. }
  specialize (Htd eq_refl). destruct (rep_free_table c T d Hd clear i p w r m Hm Hw Hn Hir Hp Htd Hti) as (m1 & r1 & Hrun & Hm1 & Hx1).
  rewrite (run_bind _ _ _ _ _ Hrun). clear Hrun. pose proof (rep_T _ _ _ _ _ _ Hm) as (_ & _ & Hc).
  pose proof (rep_frame _ _ _ _ _ _ d i Hm Hd HdT Hir) as Ht. fold (pde r d i) in Ht.
  assert (Htn : no_table r c (frame_of (pde r d i))).
  { unfold table_at in Hti. rewrite Hp in Hti. apply Forall_app in Hti as [_ Hti]. apply Forall_cons_1 in Hti. apply Hti. }
  destruct (own_tables_off r r1 c d i (frame_of (pde r d i)) todo Hown' Hd Hc Ht Hn Htn) as (Hown1 & Hfr & Hsd); try done.
  { intros k Hk. apply (rep_frame c T p w r m d k); try done. by apply (proj1 (list.Forall_forall _ _) (ow_range _ _ _ _ Hown')). }
  { intros k Hk Hpk. apply not_eq_sym. apply H4; [apply elem_of_cons; auto..| |done|done]. by intros ->. }
  destruct (IH _ _ r1 m1 Hm1) as (m' & r' & w' & -> & Hm' & Hw' & Hsd' & Hoff'); [by rewrite upd_other|by apply (same_no_table r)|done|done|].
  exists m', r', w'. split; [done|]. rewrite free_all_app. rewrite Hfr in Hm'. split; [done|].
  split; [intros v Hv; rewrite Hw' by done; by apply upd_other|]. split; [by apply (same_dir_trans _ r1)|].
  apply (off_tables_trans _ r1); [done| |done]. intros x Hx. destruct (decide (frame_of (pde r d i) <= x < frame_of (pde r d i) + 4096)) as [Hin | Hin].
  - by exists (frame_of (pde r d i)).
  - exists d. split; [done|]. split; [done|]. destruct (decide (d + 4 * i <= x < d + 4 * i + 4)); [unfold in_page; lia|]. exfalso. by apply Hx, Hx1.
Qed.
End walk.

(** ** The whole space *)

Lemma in_flat_map {A B} (f : A -> list B) l y : y ∈ flat_map f l <-> exists x, x ∈ l /\ y ∈ f x.
Proof.
  induction l as [|a l IH]; cbn.
  - split; [by intros ?%elem_of_nil|]. intros (x & Hx & _). by apply elem_of_nil in Hx.
  - rewrite elem_of_app, IH. split.
    + intros [H | (x & Hx & Hy)]; [exists a|exists x]; (split; [apply elem_of_cons; auto|done]).
    + intros (x & [-> | Hx]%elem_of_cons & Hy); [by left|right; by exists x].
Qed.

Lemma nodup_flat_map {A B} (f : A -> list B) l a b x y : NoDup (flat_map f l) -> a ∈ l -> b ∈ l -> a <> b -> x ∈ f a -> y ∈ f b -> x <> y.
Proof.
  induction l as [|c l IH]; cbn; [by intros _ ?%elem_of_nil|]. intros (H1 & H2 & H3)%list.NoDup_app Ha Hb Hab Hx Hy <-.
  apply elem_of_cons in Ha as [Ea | Ha]; apply elem_of_cons in Hb as [Eb | Hb]; [congruence|subst a|subst b|].
  - apply (H2 x Hx), in_flat_map. by exists b.
  - apply (H2 x Hy), in_flat_map. by exists a.
  - by apply (IH H3 Ha Hb Hab Hx Hy).
Qed.

Lemma table_in r d i : present (pde r d i) = true -> frame_of (pde r d i) ∈ table_at r d i.
Proof. intros Hp. unfold table_at. rewrite Hp. apply elem_of_app. right. apply elem_of_cons. auto. Qed.

Lemma own_of_nodup r c d todo : Forall (fun i => 0 <= i < 1024) todo -> NoDup (frames_on r d todo ++ [d]) -> Forall (no_table r c) (frames_on r d todo) ->
  own_tables r c d todo.
Proof.
  intros Hr (H1 & H2 & _)%list.NoDup_app Hn. split; [done|done| |].
  - apply list.Forall_forall. intros i Hi Hp E. apply (H2 (frame_of (pde r d i))); [|rewrite E; apply elem_of_cons; auto].
    apply in_flat_map. exists i. split; [done|by apply table_in].
  - intros i j Hi Hj Hij Pi Pj. apply (nodup_flat_map (table_at r d) todo i j); auto using table_in.
Qed.

Lemma frame_aligned f : is_frame f -> Z.land f (FRAME_SIZE - 1) = 0.
Proof. intros [_ H]. change (FRAME_SIZE - 1) with 0xFFF. by rewrite low12. Qed.

(** Frames in use and given back once are all in the pool afterwards. *)
Lemma free_all_stack fs p : NoDup fs -> (forall f, f ∈ fs -> is_frame f /\ f <> 0 /\ f ∉ pm_stack p) ->
  (length fs + length (pm_stack p) <= MAX_FRAMES)%nat ->
  pm_stack (free_all fs p) = rev fs ++ pm_stack p /\ pm_total_frames (free_all fs p) = pm_total_frames p.
Proof.
  revert p. induction fs as [|f fs IH]; intros p Hnd Hf Hl; [done|]. apply list.NoDup_cons in Hnd as [Hnf Hnd]. cbn in Hl.
  destruct (Hf f) as (F1 & F2 & F3); [apply elem_of_cons; auto|].
  assert (E : pmm_free f p = mkPmm (f :: pm_stack p) (pm_total_frames p)).
  { unfold pmm_free. rewrite (proj2 (Z.eqb_neq f 0)), frame_aligned, bool_decide_false by done. cbn [negb Z.eqb]. by rewrite (proj2 (Nat.leb_gt _ _)) by lia. }
  cbn [free_all foldl rev]. rewrite E. destruct (IH (mkPmm (f :: pm_stack p) (pm_total_frames p)) Hnd) as [E1 E2].
  - intros g Hg. destruct (Hf g) as (G1 & G2 & G3); [apply elem_of_cons; auto|]. split; [done|]. split; [done|]. cbn.
    intros [-> | Hin]%elem_of_cons; done.
  - cbn. lia.
  - unfold free_all in E1, E2. rewrite E1, E2. split; [|done]. cbn. by rewrite <- app_assoc.
Qed.

Lemma user_entries : NoDup USER_ENTRIES /\ Forall (fun i => 0 <= i < 1024) USER_ENTRIES.
Proof. split; [apply NoDup_seqZ|]. apply list.Forall_forall. intros j Hj%seqZ_in. lia. Qed.

(** Opening the windows changes nothing of a space in use. *)
Lemma opens_frames m m1 T p w d todo : mach_ok m -> opens m m1 T -> rep (m_cr3 m) T p w (m_ram m1) m1 ->
  Forall (fun i => 0 <= i < 1024) todo -> other m d -> Forall (other m) (frames_on (m_ram m) d todo) ->
  frames_on (m_ram m1) d todo = frames_on (m_ram m) d todo /\ other m1 d /\ Forall (other m1) (frames_on (m_ram m1) d todo) /\ d <> T.
Proof.
  intros Hm Ho Hr Hall Hd Hf. destruct (opens_keep m m1 T p w d Hm Ho Hr Hd) as (HdT & Hd1 & Hx).
  assert (E : frames_on (m_ram m1) d todo = frames_on (m_ram m) d todo).
  { apply frames_on_ext.
    - intros i Hi. apply page_load; [by apply (proj1 (list.Forall_forall _ _) Hall)|done].
    - intros i j Hi Hp Hj. apply page_load; [done|]. apply (opens_keep m m1 T p w _ Hm Ho Hr).
      apply (proj1 (list.Forall_forall _ _) Hf), in_flat_map. exists i. split; [done|by apply table_in]. }
  split; [done|]. split; [done|]. split; [|done]. rewrite E. eapply Forall_impl; [|exact Hf]. intros f Hff. by apply (opens_keep m m1 T p w f Hm Ho Hr).
Qed.

Lemma destroy_user_space_spec m d : mach_ok m -> can_open m -> d <> 0 ->
  NoDup (space_frames (m_ram m) d) -> Forall (fun f => other m f /\ f <> 0) (space_frames (m_ram m) d) ->
  (length (space_frames (m_ram m) d) + length (pm_stack (m_pmm m)) <= MAX_FRAMES)%nat ->
  exists m' T rest, destroy_user_space d m = Some (tt, m') /\ mach_ok m' /\ m_cr3 m' = m_cr3 m /\
    same_space (m_ram m) (m_ram m') (m_cr3 m) /\ pm_stack (m_pmm m') = rev (space_frames (m_ram m) d) ++ rest /\
    (if present (pde (m_ram m) (m_cr3 m) 1022) then rest = pm_stack (m_pmm m) else pm_stack (m_pmm m) = T :: rest).
Proof.
  intros Hm Hcan H0 Hnd Hall Hlen. unfold destroy_user_space. rewrite (proj2 (Z.eqb_neq d 0)) by done. unfold space_frames in *.
  apply Forall_app in Hall as [Hfr Hdo]. apply Forall_cons_1 in Hdo as [[Hdo _] _]. assert (Hd : is_frame d) by apply Hdo.
  destruct (rep_open m TEMP_PD_VIRT d Hm Hcan window_dir Hd) as (m1 & T & Hrun & Ho & Hr1). rewrite (run_bind _ _ _ _ _ Hrun). clear Hrun.
  assert (Hfr1 : Forall (other m) (frames_on (m_ram m) d USER_ENTRIES)) by (eapply Forall_impl; [|exact Hfr]; intros f [Hf _]; exact Hf).
  destruct (opens_frames m m1 T _ _ d USER_ENTRIES Hm Ho Hr1 (proj2 user_entries) Hdo Hfr1) as (Ef & Hd1 & Hf1 & HdT).
  rewrite <- (op_cr3 _ _ _ Ho) in Hr1.
  assert (Hown : own_tables (m_ram m1) (m_cr3 m1) d USER_ENTRIES).
  { apply own_of_nodup; [apply user_entries|by rewrite Ef|]. eapply Forall_impl; [|exact Hf1]. intros f Hf. apply Hf. }
  destruct (rep_free_tables _ T d Hd true USER_ENTRIES _ _ _ _ Hr1 ltac:(by rewrite upd_same) (proj1 (proj2 Hd1)) (proj1 user_entries) Hown)
    as (m2 & r2 & w2 & Hrun & Hr2 & _ & Hsd & Hoff). rewrite (run_bind _ _ _ _ _ Hrun). clear Hrun.
  destruct (rep_unmap _ _ _ _ _ _ Hr2 TEMP_PD_VIRT window_dir) as (m3 & Hrun & Hr3). rewrite (run_bind _ _ _ _ _ Hrun). clear Hrun.
  destruct (rep_free _ _ _ _ _ _ Hr3 d Hd) as (m4 & -> & Hr4); [by apply (same_no_table (m_ram m1)), Hd1|]. rewrite Ef in Hr4.
  exists m4, T, (pm_stack (m_pmm m1)). split; [done|]. split; [apply (rp_ok _ _ _ _ _ _ Hr4)|].
  split; [rewrite (rp_cr3 _ _ _ _ _ _ Hr4); apply (op_cr3 _ _ _ Ho)|].
  rewrite (op_cr3 _ _ _ Ho) in Hr1, Hr4, Hoff. pose proof (op_pool _ _ _ Ho) as Hpool. unfold table_from in Hpool.
  split; [by apply (opens_same_space m m1 T _ _ _ r2 m4 _ Hm Ho Hr1 Hr4)|]. split.
  - rewrite (rp_pmm _ _ _ _ _ _ Hr4). change (pmm_free d (free_all (frames_on (m_ram m) d USER_ENTRIES) (m_pmm m1)))
      with (free_all [d] (free_all (frames_on (m_ram m) d USER_ENTRIES) (m_pmm m1))). rewrite <- free_all_app. apply free_all_stack; [done| |].
    + intros f Hf. assert (Hff : other m1 f /\ f <> 0); [|split; [apply Hff|split; apply Hff]].
      apply elem_of_app in Hf as [Hf | [-> | Hf%elem_of_nil]%elem_of_cons]; [|done|done]. split; [|by apply (proj1 (list.Forall_forall _ _) Hfr f Hf)].
      rewrite Ef in Hf1. by apply (proj1 (list.Forall_forall _ _) Hf1).
    + destruct (present _); [destruct Hpool as [_ ->]; done|]. destruct Hpool as [E _]. rewrite E in Hlen. cbn in Hlen. lia.
  - destruct (present _); [by destruct Hpool as [_ ->]|apply Hpool].
Qed.
