(* ===== verification/PagingClone.v ===== *)
(** * Copying an address space

    [clone_page_directory]: every page of the running user space is copied to a
    frame of its own under a new directory.  The frames come from the pool as it
    was at the start ([pool]); memory outside them stays as it was ([r0]). *)

From stdpp Require Import list_numbers.
From S2P Require Import Prelude StateMonad Pmm Paging PagingMem PagingMap PagingWin PagingSpace PagingFree.

#[local] Open Scope Z_scope.

(** One element of a concatenation grows from nothing. *)
Lemma flat_map_grow `{EqDecision A} {B} (f g : A -> list B) l a : NoDup l -> a ∈ l -> f a = [] -> (forall b, b ∈ l -> b <> a -> g b = f b) ->
  flat_map g l ≡ₚ g a ++ flat_map f l.
Proof.
  induction l as [|b l IH]; cbn; [by intros _ ?%elem_of_nil|]. intros [Hb Hnd]%list.NoDup_cons Ha Hfa Hx.
  assert (Hext : forall k, a ∉ k -> (forall c, c ∈ k -> c ∈ b :: l) -> flat_map g k = flat_map f k).
  { induction k as [|c k IHk]; [done|]. intros Hac Hsub. apply not_elem_of_cons in Hac as [Hac Hk]. cbn. f_equal.
    - apply Hx; [apply Hsub, elem_of_cons; auto|]. by intros ->.
    - apply IHk; [done|]. intros e He. apply Hsub, elem_of_cons. auto. }
  destruct (decide (a = b)) as [-> | Hne].
  - rewrite Hfa. cbn. rewrite (Hext l); [done|done|]. intros e He. apply elem_of_cons. auto.
  - apply elem_of_cons in Ha as [? | Ha]; [done|]. rewrite (Hx b) by (try (apply elem_of_cons; auto); auto).
    rewrite IH by (try done; intros e He; apply Hx, elem_of_cons; auto). rewrite !app_assoc. by rewrite (Permutation_app_comm (f b)).
Qed.

(** ** Copying the pages of one table *)

Section clone.
Context (c T : Z) (pool : list Z) (r0 : ram).
Context (Hpool : forall f, f ∈ pool -> is_frame f /\ f <> 0 /\ no_table r0 c f).

(** The table at entry [i] of the running space. *)
Definition source (i : Z) : Z := frame_of (pde r0 c i).

Context (Hsrc : forall i j, i ∈ USER_ENTRIES -> 0 <= j < 1024 -> present (pde r0 c i) = true -> present (pte r0 (source i) j) = true ->
  is_frame (frame_of (pte r0 (source i) j)) /\ no_table r0 c (frame_of (pte r0 (source i) j)) /\ frame_of (pte r0 (source i) j) ∉ pool).
Context (Htab : forall i, i ∈ USER_ENTRIES -> present (pde r0 c i) = true -> is_frame (source i) /\ source i ∉ pool).
Context (Hc : is_frame c).

(** Memory outside the pool is as it was. *)
Definition kept (r : ram) : Prop := forall x, (forall f, f ∈ pool -> ~ in_page f x) -> r x = r0 x.

Lemma kept_page r f : kept r -> is_frame f -> f ∉ pool -> forall x, in_page f x -> r x = r0 x.
Proof.
  intros Hk Hf Hn x Hx. apply Hk. intros g Hg Hx2. apply (pages_apart f g x x); try done; [by apply Hpool|]. by intros ->.
Qed.

Lemma kept_dir r : kept r -> same_dir r0 r c.
Proof. intros Hk. apply off_page_dir. apply kept_page; try done. intros Hin. by destruct (Hpool c Hin) as (_ & _ & [? _]). Qed.

Lemma kept_no_table r f : kept r -> f ∈ pool -> is_frame f /\ f <> 0 /\ no_table r c f.
Proof. intros Hk Hf. destruct (Hpool f Hf) as (H1 & H2 & H3). split; [done|]. split; [done|]. by apply (same_no_table r0); [apply kept_dir|]. Qed.

Lemma kept_step r r' (fs : list Z) : kept r -> (forall f, f ∈ fs -> f ∈ pool) -> (forall x, (forall f, f ∈ fs -> ~ in_page f x) -> r' x = r x) -> kept r'.
Proof. intros Hk Hsub Hx x Hno. rewrite Hx by (intros f Hf; apply Hno; auto). by apply Hk. Qed.

Lemma kept_off r : kept r -> off_tables r0 r c.
Proof.
  intros Hk x Hx. destruct (decide (Exists (fun f => f <= x < f + 4096) pool)) as [He | Hne].
  - apply list.Exists_exists in He as (f & Hf & Hin). destruct (Hpool f Hf) as (H1 & H2 & H3). by exists f.
  - exfalso. apply Hx, Hk. intros f Hf Hin. apply Hne, list.Exists_exists. by exists f.
Qed.

(** The page [j] of table [i], copied under table [t]. *)
Definition copied (r : ram) (t i j : Z) : Prop :=
  if present (pte r0 (source i) j) then
    pte r t j = frame_of (pte r t j) + 7 /\ present (pte r t j) = true /\ is_frame (frame_of (pte r t j)) /\
    forall k, 0 <= k < 4096 -> r (frame_of (pte r t j) + k) = r0 (frame_of (pte r0 (source i) j) + k)
  else pte r t j = 0.

Lemma user_entry f : is_frame f -> Z.lor (Z.lor (Z.lor f PAGE_PRESENT) PAGE_WRITE) PAGE_USER = f + 7 /\ frame_of (f + 7) = f /\
  present (f + 7) = true /\ 0 <= f + 7 < 4294967296.
Proof.
  intros Hf. assert (E : Z.lor f 7 = f + 7) by (apply lor_small; [apply Hf|lia]).
  destruct (entry_frame f 7 Hf ltac:(lia)) as (E1 & E2 & E3). rewrite E in E1, E2, E3. split; [|done].
  rewrite <- !Z.lor_assoc. exact E.
Qed.

Lemma copied_ext r r' t i j : copied r t i j -> (forall x, in_page t x -> r' x = r x) -> 0 <= j < 1024 ->
  (present (pte r t j) = true -> forall x, in_page (frame_of (pte r t j)) x -> r' x = r x) -> copied r' t i j.
Proof.
  unfold copied. intros Hcp Ht Hj Hpg. assert (E : pte r' t j = pte r t j) by by apply page_load. rewrite E.
  destruct (present (pte r0 (source i) j)); [|done]. destruct Hcp as (H1 & H2 & H3 & H4). split; [done|]. split; [done|]. split; [done|].
  intros k Hk. rewrite <- H4 by done. apply Hpg; [done|]. unfold in_page. lia.
Qed.

Definition off_copy_windows (w w' : Z -> Z) : Prop := forall v, v <> TEMP_SRC_PAGE -> v <> TEMP_DST_PAGE -> w' v = w v.

Record pages_cloned (t i : Z) (todo : list Z) (b : bool) (p p' : pmm) (r r' : ram) (fs : list Z) : Prop := {
  pc_pool : pm_stack p = fs ++ pm_stack p';
  pc_total : pm_total_frames p' = pm_total_frames p;
  pc_off : forall x, ~ in_page t x -> (forall f, f ∈ fs -> ~ in_page f x) -> r' x = r x;
  pc_frames : pages_on r' t TABLE_ENTRIES ≡ₚ fs ++ pages_on r t TABLE_ENTRIES;
  pc_others : forall j, 0 <= j < 1024 -> j ∉ todo -> pte r' t j = pte r t j;
  pc_done : if b then forall j, j ∈ todo -> copied r' t i j else pm_stack p' = [];
  pc_count : let n := length (pages_on r0 (source i) todo) in if b then length fs = n else (length fs < n)%nat }.

Lemma pages_cloned_skip t i j todo b p p' r r' fs : j ∉ todo -> 0 <= j < 1024 -> present (pte r0 (source i) j) = false -> pte r t j = 0 ->
  pages_cloned t i todo b p p' r r' fs -> pages_cloned t i (j :: todo) b p p' r r' fs.
Proof.
  intros Hj Hr Hp Hz [H1 H2 H3 H4 H5 H6 H7]. split; try done.
  - intros k Hk Hn. apply not_elem_of_cons in Hn as [_ Hn]. by apply H5.
  - destruct b; [|done]. intros k [-> | Hk]%elem_of_cons; [|by apply H6]. unfold copied. rewrite Hp. by rewrite H5.
  - cbn [pages_on flat_map]. unfold page_at. by rewrite Hp.
Qed.
(** One page more. *)
Lemma pages_cloned_more t i j todo b p p' r r1 r' f fs : j ∉ todo -> 0 <= j < 1024 -> is_frame t -> is_frame f -> f <> t -> f ∉ fs ->
  (forall g, g ∈ fs -> is_frame g) -> present (pte r0 (source i) j) = true -> pte r t j = 0 ->
  pte r1 t j = f + 7 -> (forall k, 0 <= k < 1024 -> k <> j -> pte r1 t k = pte r t k) ->
  (forall x, ~ in_page t x -> ~ in_page f x -> r1 x = r x) ->
  (forall k, 0 <= k < 4096 -> r1 (f + k) = r0 (frame_of (pte r0 (source i) j) + k)) ->
  pages_cloned t i todo b (mkPmm (fs ++ pm_stack p') (pm_total_frames p)) p' r1 r' fs ->
  pm_stack p = (f :: fs) ++ pm_stack p' ->
  pages_cloned t i (j :: todo) b p p' r r' (f :: fs).
Proof.
  intros Hj Hr Ht Hf Hft Hffs Hfs Hp Hz He Hk Hx Hcp [H1 H2 H3 H4 H5 H6 H7] Hst. destruct (user_entry f Hf) as (_ & E1 & E2 & E3).
  split; try done.
  - intros x Hx1 Hx2. rewrite H3; [|done|intros g Hg; apply Hx2, elem_of_cons; auto]. apply Hx; [done|]. apply Hx2, elem_of_cons. auto.
  - rewrite H4. transitivity (fs ++ f :: pages_on r t TABLE_ENTRIES); [|by rewrite <- Permutation_middle]. apply Permutation_app_head.
    unfold pages_on at 1. rewrite (flat_map_grow (page_at r t) (page_at r1 t) TABLE_ENTRIES j); [| apply table_entries | apply seqZ_in; lia | |].
    + unfold page_at at 1. by rewrite He, E1, E2.
    + unfold page_at. by rewrite Hz.
    + intros k Hin Hne. apply seqZ_in in Hin. unfold page_at. by rewrite Hk by lia.
  - intros k Hkr Hn. apply not_elem_of_cons in Hn as [Hne Hn]. rewrite H5 by done. by apply Hk.
  - destruct b; [|done]. intros k [-> | Hin]%elem_of_cons; [|by apply H6]. unfold copied. rewrite Hp, H5, He, E1, E2 by done.
    split; [done|]. split; [done|]. split; [done|]. intros q Hq. rewrite <- Hcp by done. apply H3.
    + intros Hin. apply (pages_apart f t (f + q) (f + q)); try done. unfold in_page. lia.
    + intros g Hg Hin. apply (pages_apart f g (f + q) (f + q)); try done; [by apply Hfs|by intros ->|unfold in_page; lia].
  - assert (E : length (pages_on r0 (source i) (j :: todo)) = S (length (pages_on r0 (source i) todo))).
    { cbn [pages_on flat_map]. rewrite length_app. unfold page_at at 1. by rewrite Hp. }
    rewrite E. cbn zeta in H7 |- *. cbn [length]. destruct b; lia.
Qed.

Lemma rep_clone_pages i t todo p w r m : rep c T p w r m -> w TEMP_PT_VIRT = t + 3 -> t ∈ pool -> t ∉ pm_stack p ->
  (forall f, f ∈ pm_stack p -> f ∈ pool) -> kept r -> i ∈ USER_ENTRIES -> present (pde r0 c i) = true -> NoDup todo ->
  Forall (fun j => 0 <= j < 1024 /\ pte r t j = 0) todo ->
  exists b m' p' w' r' fs, clone_pages i todo m = Some (b, m') /\ rep c T p' w' r' m' /\ off_copy_windows w w' /\ pages_cloned t i todo b p p' r r' fs.
Proof.
  intros Hm Hw Ht Htp Hsub Hk Hi Hp Hnd Hall. revert p w r m Hm Hw Htp Hsub Hk Hall.
  induction todo as [|j todo IH]; intros p w r m Hm Hw Htp Hsub Hk Hall; cbn [clone_pages].
  { exists true, m, p, w, r, []. split; [done|]. split; [done|]. split; [done|].
    split; [done|done|done|rewrite app_nil_l; apply Permutation_refl|done|by intros j ?%elem_of_nil|done]. }
  apply list.NoDup_cons in Hnd as [Hj Hnd]. apply Forall_cons_1 in Hall as [[Hjr Hz] Hall]. pose proof Hi as Hir. apply seqZ_in in Hir.
  pose proof (kept_dir r Hk) as Hsd. destruct (Htab i Hi Hp) as [Hsf Hsp]. destruct (kept_no_table r t Hk Ht) as (Htf & Ht0 & Htn).
  assert (Epd : pde r c i = pde r0 c i) by (apply Hsd; lia).
  assert (Ept : pte r (source i) j = pte r0 (source i) j) by (apply page_load; [done|by apply kept_page]).
  rewrite (rep_load_pt _ _ _ _ _ _ Hm i j) by (try rewrite Epd; done || lia). rewrite Epd. fold (source i). rewrite Ept.
  destruct (present (pte r0 (source i) j)) eqn:Hpj; cbn [negb].
  2: { destruct (IH Hnd p w r m Hm Hw Htp Hsub Hk Hall) as (b & m' & p' & w' & r' & fs & H1 & H2 & H3 & H4).
       exists b, m', p', w', r', fs. split; [done|]. split; [done|]. split; [done|]. by apply pages_cloned_skip. }
  destruct (pm_stack p) as [|f rest] eqn:Hst.
  { rewrite (rep_alloc_none _ _ _ _ _ _ Hm) by done. exists false, m, p, w, r, []. split; [done|]. split; [done|]. split; [done|].
    split; [done|done|done|rewrite app_nil_l; apply Permutation_refl|done|done|]. cbn. unfold page_at at 1. rewrite Hpj. cbn. lia. }
  match goal with |- context [(alloc_frame ≫= ?k) m] => destruct (rep_alloc _ _ _ _ _ _ Hm f rest k Hst) as (m1 & -> & Hm1 & Hfr) end.
  assert (Hfp : f ∈ pool) by (apply Hsub, elem_of_cons; auto). destruct (kept_no_table r f Hk Hfp) as (Hff & Hf0 & Hfn).
  rewrite (proj2 (Z.eqb_neq f 0)) by done. destruct (Hsrc i j Hi Hjr Hp Hpj) as (Gf & Gn & Gp). set (g := frame_of (pte r0 (source i) j)) in *.
  assert (Gn' : no_table r c g) by by apply (same_no_table r0).
  destruct (rep_memcpy _ _ _ _ _ _ Hm1 f g) as (m2 & Hrun & Hm2);
    [done|done|by apply (no_table_T _ _ _ _ _ _ Hm)|apply Hfn|by apply (no_table_T _ _ _ _ _ _ Hm)|]. rewrite (run_bind _ _ _ _ _ Hrun). clear Hrun.
  destruct (user_entry f Hff) as (-> & E1 & E2 & E3).
  match goal with |- context [(vstore _ _ ≫= ?k) m2] => destruct (rep_store _ _ _ _ _ _ Hm2 TEMP_PT_VIRT t j (f + 7) k) as (m3 & -> & Hm3) end;
    [apply window_tab|done|by rewrite !upd_other|by apply (no_table_T _ _ _ _ _ _ Hm)|apply Htn|done|].
  assert (Hft : f <> t) by (intros ->; apply Htp, elem_of_cons; auto).
  set (r1 := store32 (t + 4 * j) (f + 7) (copy f g 4096 r)) in *.
  assert (Hx1 : forall x, ~ in_page t x -> ~ in_page f x -> r1 x = r x).
  { intros x H1 H2. unfold r1. rewrite store_page by done. by apply copy_page. }
  assert (Htw : forall k, 0 <= k < 1024 -> k <> j -> pte r1 t k = pte r t k).
  { intros k Hkr Hne. unfold r1, pte. rewrite store_word by (done || lia). apply page_load; [done|]. intros x Hx. apply copy_page. intros Hx2.
    apply (pages_apart f t x x); done. }
  assert (Hk1 : kept r1).
  { apply (kept_step r r1 [t; f]); [done| |].
    - intros e [-> | [-> | ?%elem_of_nil]%elem_of_cons]%elem_of_cons; done.
    - intros x Hx. apply Hx1; apply Hx; rewrite !elem_of_cons; auto. }
  destruct (IH Hnd (mkPmm rest (pm_total_frames p)) _ r1 m3 Hm3) as (b & m' & p' & w' & r' & fs & -> & Hm' & Hw' & Hcl); cbn [pm_stack].
  { by rewrite !upd_other. } { intros Hin. apply Htp, elem_of_cons. auto. } { intros e He. apply Hsub, elem_of_cons. auto. } { done. }
  { apply list.Forall_forall. intros k Hin. destruct (proj1 (list.Forall_forall _ _) Hall k Hin). split; [done|].
    rewrite Htw; [done|done|]. by intros ->. }
  exists b, m', p', w', r', (f :: fs). split; [done|]. split; [done|].
  split; [intros v Hv1 Hv2; rewrite Hw' by done; by rewrite !upd_other|]. pose proof (pc_pool _ _ _ _ _ _ _ _ _ Hcl) as Hrest. cbn in Hrest. subst rest.
  apply (pages_cloned_more t i j todo b p p' r r1 r' f fs); try done.
  - intros Hin. apply Hfr, elem_of_app. auto.
  - intros e He. apply Hpool, Hsub. apply elem_of_cons. right. apply elem_of_app. auto.
  - by apply store_same.
  - intros k Hkr. unfold r1. rewrite store_page; [|done|].
    + rewrite copy_in by done. apply (kept_page r g); try done. unfold in_page. lia.
    + intros Hin. apply (pages_apart f t (f + k) (f + k)); try done. unfold in_page. lia.
Qed.

(** ** The tables *)

Definition table_cloned (r : ram) (d i : Z) : Prop :=
  if present (pde r0 c i) then
    present (pde r d i) = true /\ is_frame (frame_of (pde r d i)) /\ forall j, 0 <= j < 1024 -> copied r (frame_of (pde r d i)) i j
  else pde r d i = 0.

(** The directory under construction: its frames came from the pool, each once. *)
Record growing (p : pmm) (r : ram) (d : Z) : Prop := {
  gr_pool : forall f, f ∈ pm_stack p -> f ∈ pool;
  gr_kept : kept r;
  gr_once : NoDup (space_frames r d);
  gr_own : forall f, f ∈ space_frames r d -> f ∈ pool /\ f ∉ pm_stack p }.

Lemma growing_dir p r d : growing p r d -> d ∈ pool /\ d ∉ pm_stack p.
Proof. intros H. apply (gr_own _ _ _ H). apply elem_of_app. right. apply elem_of_cons. auto. Qed.

Lemma table_of_space r d k : k ∈ USER_ENTRIES -> present (pde r d k) = true -> frame_of (pde r d k) ∈ frames_on r d USER_ENTRIES.
Proof. intros Hk Hp. apply in_flat_map. exists k. split; [done|by apply table_in]. Qed.

Lemma frames_not_dir r d f : NoDup (space_frames r d) -> f ∈ frames_on r d USER_ENTRIES -> f <> d.
Proof. intros (_ & H & _)%list.NoDup_app Hf ->. apply (H d Hf), elem_of_cons. auto. Qed.

(** A table more in the directory. *)
Lemma table_built d i t fs p p2 r r2 : growing p r d -> NoDup (pm_stack p) -> pm_stack p = (t :: fs) ++ pm_stack p2 -> i ∈ USER_ENTRIES ->
  pde r d i = 0 -> pde r2 d i = t + 7 -> (forall k, 0 <= k < 1024 -> k <> i -> pde r2 d k = pde r d k) ->
  (forall x, ~ in_page d x -> ~ in_page t x -> (forall f, f ∈ fs -> ~ in_page f x) -> r2 x = r x) ->
  pages_on r2 t TABLE_ENTRIES ≡ₚ fs ->
  growing p2 r2 d /\ space_frames r2 d ≡ₚ (t :: fs) ++ space_frames r d.
Proof.
  intros Hg Hnd Hst Hi Hz He Hk Hx Hpg. destruct (growing_dir p r d Hg) as [Hdp Hdn]. destruct (Hpool d Hdp) as (Hdf & _).
  assert (Hnew : forall f, f ∈ t :: fs -> f ∈ pool /\ f ∈ pm_stack p).
  { intros f Hf. assert (f ∈ pm_stack p) by (rewrite Hst; apply elem_of_app; auto). split; [by apply (gr_pool _ _ _ Hg)|done]. }
  destruct (Hpool t) as (Htf & _); [apply Hnew, elem_of_cons; auto|]. destruct (user_entry t Htf) as (_ & E1 & E2 & _).
  assert (Hfr : space_frames r2 d ≡ₚ (t :: fs) ++ space_frames r d).
  { unfold space_frames. rewrite app_assoc. apply Permutation_app_tail. unfold frames_on.
    rewrite (flat_map_grow (table_at r d) (table_at r2 d) USER_ENTRIES i); [|apply user_entries|done| |].
    - apply Permutation_app_tail. unfold table_at. rewrite He, E1, E2, Hpg. symmetry. apply Permutation_cons_append.
    - unfold table_at. by rewrite Hz.
    - intros k Hku Hne. pose proof Hku as Hkr. apply seqZ_in in Hkr. unfold table_at. rewrite Hk by lia. destruct (present (pde r d k)) eqn:Hp; [|done].
      pose proof (table_of_space r d k Hku Hp) as Hin. pose proof (frames_not_dir r d _ (gr_once _ _ _ Hg) Hin) as Hnd2.
      assert (Hin2 : frame_of (pde r d k) ∈ space_frames r d) by (apply elem_of_app; auto). destruct (gr_own _ _ _ Hg _ Hin2) as [Hkp Hkn].
      destruct (Hpool _ Hkp) as (Hkf & _). f_equal. apply pages_on_ext. intros j Hj%seqZ_in. apply page_load; [lia|]. intros x Hxk. apply Hx.
      + intros Hx2. by apply (pages_apart (frame_of (pde r d k)) d x x).
      + intros Hx2. apply (pages_apart (frame_of (pde r d k)) t x x); try done. intros E. apply Hkn. rewrite E. apply Hnew, elem_of_cons. auto.
      + intros f Hf Hx2. destruct (Hnew f) as [Hfp Hfs]; [apply elem_of_cons; auto|]. apply (pages_apart (frame_of (pde r d k)) f x x); try done; [by apply Hpool|].
        intros E. apply Hkn. by rewrite E. }
  split; [|done]. rewrite Hst in Hnd. apply list.NoDup_app in Hnd as (N1 & N2 & N3). split.
  - intros f Hf. apply (gr_pool _ _ _ Hg). rewrite Hst. apply elem_of_app. auto.
  - apply (kept_step r r2 (d :: t :: fs)); [apply Hg| |].
    + intros f [-> | Hf]%elem_of_cons; [done|by apply Hnew].
    + intros x Hno. apply Hx; [apply Hno; rewrite !elem_of_cons; auto..|]. intros f Hf. apply Hno. rewrite !elem_of_cons. auto.
  - rewrite Hfr. apply list.NoDup_app. split; [done|]. split; [|apply Hg]. intros f Hf Hf2. by apply (gr_own _ _ _ Hg f Hf2), Hnew.
  - intros f Hf. rewrite Hfr in Hf. apply elem_of_app in Hf as [Hf | Hf]; [split; [by apply Hnew|by apply N2]|].
    destruct (gr_own _ _ _ Hg f Hf) as [H1 H2]. split; [done|]. intros Hin. apply H2. rewrite Hst. apply elem_of_app. auto.
Qed.

(** ** Giving up *)

Lemma own_prefix p r d n : growing p r d -> 0 <= n <= 758 -> own_tables r c d (seqZ 10 n).
Proof.
  intros Hg Hn. assert (E : USER_ENTRIES = seqZ 10 n ++ seqZ (10 + n) (758 - n)).
  { unfold USER_ENTRIES. rewrite <- seqZ_app by lia. f_equal. lia. }
  pose proof (gr_once _ _ _ Hg) as Hnd. unfold space_frames, frames_on in Hnd. rewrite E, flat_map_app in Hnd.
  apply own_of_nodup.
  - apply list.Forall_forall. intros i Hi%seqZ_in. lia.
  - rewrite <- app_assoc, (Permutation_app_comm (flat_map _ (seqZ (10 + n) _)) [d]), app_assoc in Hnd. apply list.NoDup_app in Hnd. apply Hnd.
  - apply list.Forall_forall. intros f Hf. apply (kept_no_table r f); [apply Hg|]. apply (gr_own _ _ _ Hg). apply elem_of_app. left.
    unfold frames_on. rewrite E, flat_map_app. apply elem_of_app. auto.
Qed.

Lemma rep_rollback d n p w r m : rep c T p w r m -> growing p r d -> 0 <= n <= 758 ->
  exists m' p' r' w', clone_rollback d n m = Some (tt, m') /\ rep c T p' w' r' m' /\ off_tables r r' c.
Proof.
  intros Hm Hg Hn. destruct (growing_dir p r d Hg) as [Hdp _]. destruct (kept_no_table r d (gr_kept _ _ _ Hg) Hdp) as (Hdf & Hd0 & Hdn).
  unfold clone_rollback. rewrite (proj2 (Z.eqb_neq d 0)) by done.
  destruct (rep_map _ _ _ _ _ _ Hm TEMP_PD_VIRT d window_dir Hdf) as (m1 & Hrun & Hm1). rewrite (run_bind _ _ _ _ _ Hrun). clear Hrun.
  destruct (rep_free_tables c T d Hdf false (seqZ 10 n) p _ r m1 Hm1 ltac:(by rewrite upd_same) Hdn ltac:(apply NoDup_seqZ) (own_prefix p r d n Hg Hn))
    as (m2 & r2 & w2 & Hrun & Hm2 & _ & Hsd & Hoff). rewrite (run_bind _ _ _ _ _ Hrun). clear Hrun.
  destruct (rep_unmap _ _ _ _ _ _ Hm2 TEMP_PD_VIRT window_dir) as (m3 & Hrun & Hm3). rewrite (run_bind _ _ _ _ _ Hrun). clear Hrun.
  destruct (rep_free _ _ _ _ _ _ Hm3 d Hdf) as (m4 & -> & Hm4); [by apply (same_no_table r)|]. by eexists m4, _, r2, _.
Qed.

(** ** One table *)

(** What a step that took [fs] from the pool did to the directory. *)
Record grown (d : Z) (done : list Z) (p p' : pmm) (r r' : ram) (fs : list Z) : Prop := {
  gw_space : growing p' r' d;
  gw_pool : pm_stack p = fs ++ pm_stack p';
  gw_total : pm_total_frames p' = pm_total_frames p;
  gw_frames : space_frames r' d ≡ₚ fs ++ space_frames r d;
  gw_others : forall k, 0 <= k < 1024 -> k ∉ done -> pde r' d k = pde r d k;
  gw_off : forall x, ~ in_page d x -> (forall f, f ∈ fs -> ~ in_page f x) -> r' x = r x }.

Lemma rep_clone_table {B} i t rest d p w r m (k : bool -> P B) : rep c T p w r m -> w TEMP_PD_VIRT = d + 3 -> growing p r d ->
  i ∈ USER_ENTRIES -> pde r d i = 0 -> present (pde r0 c i) = true -> pm_stack p = t :: rest ->
  forall m1, rep c T (mkPmm rest (pm_total_frames p)) w r m1 ->
  exists b m' p' w' r' fs,
    (map_page TEMP_PT_VIRT t KERNEL_RW ≫= fun _ => vclear TEMP_PT_VIRT ≫= fun _ =>
     vstore (TEMP_PD_VIRT + 4 * i) (Z.lor (Z.lor (Z.lor t PAGE_PRESENT) PAGE_WRITE) PAGE_USER) ≫= fun _ => clone_pages i TABLE_ENTRIES ≫= k) m1 = k b m' /\
    rep c T p' w' r' m' /\ w' TEMP_PD_VIRT = d + 3 /\ grown d [i] p p' r r' (t :: fs) /\ (b = true -> table_cloned r' d i) /\
    (let n := length (table_at r0 c i) in if b then length (t :: fs) = n else (length (pm_stack p) < n)%nat).
Proof.
  intros Hm Hw Hg Hi Hz Hp Hst m1 Hm1. pose proof Hi as Hir. apply seqZ_in in Hir.
  assert (Hnd : NoDup (pm_stack p)) by (rewrite <- (rp_pmm _ _ _ _ _ _ Hm); apply (mk_once _ (rp_ok _ _ _ _ _ _ Hm))).
  assert (Htp : t ∈ pool) by (apply (gr_pool _ _ _ Hg); rewrite Hst; apply elem_of_cons; auto).
  destruct (kept_no_table r t (gr_kept _ _ _ Hg) Htp) as (Htf & _ & Htn). destruct (growing_dir p r d Hg) as [Hdp Hdn].
  destruct (kept_no_table r d (gr_kept _ _ _ Hg) Hdp) as (Hdf & _ & Hdt). pose proof (no_table_T _ _ _ _ _ _ Hm t Htn) as HtT.
  pose proof (no_table_T _ _ _ _ _ _ Hm d Hdt) as HdT. assert (Htd : t <> d) by (intros ->; apply Hdn; rewrite Hst; apply elem_of_cons; auto).
  destruct (rep_map _ _ _ _ _ _ Hm1 TEMP_PT_VIRT t window_tab Htf) as (m2 & Hrun & Hm2). rewrite (run_bind _ _ _ _ _ Hrun). clear Hrun.
  match goal with |- context [(vclear _ ≫= ?k) m2] => destruct (rep_clear _ _ _ _ _ _ Hm2 TEMP_PT_VIRT t k) as (m3 & -> & Hm3) end;
    [apply window_tab|done|by rewrite upd_same|done|apply Htn|]. destruct (user_entry t Htf) as (-> & E1 & E2 & E3).
  match goal with |- context [(vstore _ _ ≫= ?k) m3] => destruct (rep_store _ _ _ _ _ _ Hm3 TEMP_PD_VIRT d i (t + 7) k) as (m4 & -> & Hm4) end;
    [apply window_dir|done|by rewrite upd_other|done|apply Hdt|lia|].
  set (r1 := store32 (d + 4 * i) (t + 7) (fill t 4096 0 r)) in *.
  assert (Hx1 : forall x, ~ in_page d x -> ~ in_page t x -> r1 x = r x).
  { intros x H1 H2. unfold r1. rewrite store_page by (done || lia). by apply fill_page. }
  assert (Hz1 : forall j, 0 <= j < 1024 -> pte r1 t j = 0).
  { intros j Hj. unfold r1, pte. rewrite (page_load (fill t 4096 0 r)); [by apply fill_load|done|]. intros x Hx. apply store_page; [lia|].
    intros Hx2. by apply (pages_apart t d x x). }
  assert (Hk1 : kept r1).
  { apply (kept_step r r1 [d; t]); [apply Hg| |].
    - intros f [-> | [-> | ?%elem_of_nil]%elem_of_cons]%elem_of_cons; done.
    - intros x Hx. apply Hx1; apply Hx; rewrite !elem_of_cons; auto. }
  rewrite Hst in Hnd. apply list.NoDup_cons in Hnd as [Htr Hnd].
  destruct (rep_clone_pages i t TABLE_ENTRIES _ _ r1 m4 Hm4 ltac:(by rewrite upd_same) Htp Htr) as (b & m' & p' & w' & r' & fs & Hrun & Hm' & Hw' & Hcl); try done.
  { intros f Hf. apply (gr_pool _ _ _ Hg). rewrite Hst. apply elem_of_cons. auto. }
  { apply table_entries. }
  { apply list.Forall_forall. intros j Hj%seqZ_in. split; [lia|]. apply Hz1. lia. }
  rewrite (run_bind _ _ _ _ _ Hrun). clear Hrun. destruct Hcl as [C1 C2 C3 C4 C5 C6 C7]. cbn in C1, C2.
  assert (Hdx : forall x, in_page d x -> r' x = r1 x).
  { intros x Hx. apply C3; [intros Hx2; by apply (pages_apart d t x x)|]. intros f Hf Hx2.
    assert (Hfp : f ∈ pm_stack p) by (rewrite Hst, C1; apply elem_of_cons; right; apply elem_of_app; auto).
    apply (pages_apart d f x x); try done; [by apply Hpool, (gr_pool _ _ _ Hg)|]. by intros ->. }
  assert (Hdw : forall k, 0 <= k < 1024 -> k <> i -> pde r' d k = pde r d k).
  { intros q Hq Hqi. unfold pde. rewrite (page_load r1 r') by done. unfold r1. rewrite store_word by lia. apply page_load; [done|].
    intros x Hx. apply fill_page. intros Hx2. by apply (pages_apart d t x x). }
  assert (Hdi : pde r' d i = t + 7) by (unfold pde; rewrite (page_load r1 r') by (done || lia); by apply store_same).
  assert (Hoff : forall x, ~ in_page d x -> ~ in_page t x -> (forall f, f ∈ fs -> ~ in_page f x) -> r' x = r x).
  { intros x H1 H2 H3. rewrite C3 by done. by apply Hx1. }
  assert (Hpg : pages_on r' t TABLE_ENTRIES ≡ₚ fs).
  { rewrite C4. assert (E : pages_on r1 t TABLE_ENTRIES = []); [|by rewrite E, app_nil_r].
    assert (Hl : Forall (fun j => 0 <= j < 1024) TABLE_ENTRIES) by apply table_entries. clear -Hl Hz1. induction Hl as [|j l Hj Hl IH]; [done|].
    cbn [pages_on flat_map]. unfold page_at at 1. rewrite Hz1 by done. exact IH. }
  rewrite C1 in Hst. destruct (table_built d i t fs p p' r r' Hg) as [Hg' Hfr]; try done.
  { rewrite Hst, <- C1. by apply list.NoDup_cons. }
  exists b, m', p', w', r', fs. split; [done|]. split; [done|]. split; [rewrite Hw' by done; by rewrite upd_other|]. split; [split; try done|split].
  - intros q Hq Hn. apply not_elem_of_cons in Hn as [Hn _]. by apply Hdw.
  - intros x H1 H2. apply Hoff; [done|apply H2, elem_of_cons; auto|]. intros f Hf. apply H2, elem_of_cons. auto.
  - intros ->. unfold table_cloned. rewrite Hp, Hdi, E1, E2. split; [done|]. split; [done|]. intros j Hj. apply C6, seqZ_in. lia.
  - unfold table_at. rewrite Hp, length_app. fold (source i). destruct b; cbn in C7 |- *; [lia|]. rewrite Hst, C6, app_nil_r. cbn. lia.
Qed.

(** ** All tables *)

Lemma grown_refl d p r : growing p r d -> grown d [] p p r r [].
Proof. intros Hg. split; done. Qed.

Lemma grown_skip d i todo p p' r r' fs : grown d todo p p' r r' fs -> grown d (i :: todo) p p' r r' fs.
Proof. intros [H1 H2 H3 H4 H5 H6]. split; try done. intros k Hk Hn. apply not_elem_of_cons in Hn as [_ Hn]. by apply H5. Qed.

Lemma grown_trans d i todo p p1 p2 r r1 r2 fs gs : grown d [i] p p1 r r1 fs -> grown d todo p1 p2 r1 r2 gs -> grown d (i :: todo) p p2 r r2 (fs ++ gs).
Proof.
  intros [H1 H2 H3 H4 H5 H6] [G1 G2 G3 G4 G5 G6]. split; [done| |congruence| | |].
  - by rewrite H2, G2, app_assoc.
  - rewrite G4, H4, !app_assoc. by rewrite (Permutation_app_comm gs fs).
  - intros k Hk Hn. apply not_elem_of_cons in Hn as [Hn1 Hn2]. rewrite G5 by done. apply H5; [done|]. rewrite elem_of_cons. intros [? | ?%elem_of_nil]; done.
  - intros x Hd Hf. rewrite G6; [|done|intros f Hin; apply Hf, elem_of_app; auto]. apply H6; [done|]. intros f Hin. apply Hf, elem_of_app. auto.
Qed.

Lemma page_of_space r d i j : i ∈ USER_ENTRIES -> 0 <= j < 1024 -> present (pde r d i) = true -> present (pte r (frame_of (pde r d i)) j) = true ->
  frame_of (pte r (frame_of (pde r d i)) j) ∈ frames_on r d USER_ENTRIES.
Proof.
  intros Hi Hj Hp Hpj. apply in_flat_map. exists i. split; [done|]. unfold table_at. rewrite Hp. apply elem_of_app. left.
  apply in_flat_map. exists j. split; [apply seqZ_in; lia|]. unfold page_at. rewrite Hpj. apply elem_of_cons. auto.
Qed.

(** Frames of the directory are not changed by further steps. *)
Lemma grown_frame d todo p p' r r' fs f : growing p r d -> grown d todo p p' r r' fs -> f ∈ frames_on r d USER_ENTRIES ->
  forall x, in_page f x -> r' x = r x.
Proof.
  intros Hg Hgr Hf x Hx. assert (Hf2 : f ∈ space_frames r d) by (apply elem_of_app; auto). destruct (gr_own _ _ _ Hg f Hf2) as [Hfp Hfn].
  destruct (Hpool f Hfp) as (Hff & _). destruct (growing_dir p r d Hg) as [Hdp _]. apply (gw_off _ _ _ _ _ _ _ Hgr).
  - intros Hx2. apply (pages_apart f d x x); try done; [by apply Hpool|]. apply (frames_not_dir r); [apply Hg|done].
  - intros g Hin Hx2. assert (Hgp : g ∈ pm_stack p) by (rewrite (gw_pool _ _ _ _ _ _ _ Hgr); apply elem_of_app; auto).
    apply (pages_apart f g x x); try done; [by apply Hpool, (gr_pool _ _ _ Hg)|]. by intros ->.
Qed.

Lemma table_cloned_ext r r' d i : i ∈ USER_ENTRIES -> table_cloned r d i -> pde r' d i = pde r d i ->
  (forall f x, f ∈ frames_on r d USER_ENTRIES -> in_page f x -> r' x = r x) -> table_cloned r' d i.
Proof.
  intros Hi Hcl He Hx. unfold table_cloned in *. rewrite He. destruct (present (pde r0 c i)); [|done]. destruct Hcl as (H1 & H2 & H3).
  split; [done|]. split; [done|]. intros j Hj. apply (copied_ext r); [by apply H3| |done|].
  - intros x. by apply Hx, table_of_space.
  - intros Hpj x. by apply Hx, page_of_space.
Qed.

Lemma table_cloned_keep d i todo p p' r r' fs : growing p r d -> grown d todo p p' r r' fs -> i ∉ todo -> i ∈ USER_ENTRIES ->
  table_cloned r d i -> table_cloned r' d i.
Proof.
  intros Hg Hgr Hn Hi Hcl. pose proof Hi as Hir. apply seqZ_in in Hir. apply (table_cloned_ext r); [done|done| |].
  - apply (gw_others _ _ _ _ _ _ _ Hgr); [lia|done].
  - intros f x Hf. by apply (grown_frame d todo p p' r r' fs).
Qed.

Lemma rep_clone_tables d built todo p w r m : rep c T p w r m -> w TEMP_PD_VIRT = d + 3 -> growing p r d -> NoDup todo ->
  Forall (fun i => i ∈ USER_ENTRIES /\ pde r d i = 0) todo -> 0 <= built -> built + zlen todo <= 758 ->
  exists b m' p' w' r', clone_tables d built todo m = Some (b, m') /\ rep c T p' w' r' m' /\ off_tables r0 r' c /\
    (b = true -> w' TEMP_PD_VIRT = d + 3 /\ exists fs, grown d todo p p' r r' fs /\ forall i, i ∈ todo -> table_cloned r' d i) /\
    (b = false -> (length (pm_stack p) < length (frames_on r0 c todo))%nat).
Proof.
  revert built p w r m. induction todo as [|i todo IH]; intros built p w r m Hm Hw Hg Hnd Hall Hb0 Hb; cbn [clone_tables].
  { exists true, m, p, w, r. split; [done|]. split; [done|]. split; [by apply kept_off, Hg|]. split; [|done]. intros _. split; [done|]. exists [].
    split; [by apply grown_refl|]. by intros i ?%elem_of_nil. }
  apply list.NoDup_cons in Hnd as [Hi Hnd]. apply Forall_cons_1 in Hall as [[Hiu Hz] Hall]. pose proof Hiu as Hir. apply seqZ_in in Hir.
  unfold zlen in Hb. cbn [length] in Hb. pose proof (kept_dir r (gr_kept _ _ _ Hg)) as Hsd.
  rewrite (rep_load_pd _ _ _ _ _ _ Hm) by lia. rewrite Hsd by lia. destruct (present (pde r0 c i)) eqn:Hp; cbn [negb].
  2: { destruct (IH built p w r m Hm Hw Hg Hnd Hall Hb0) as (b & m' & p' & w' & r' & H1 & H2 & H3 & H4 & H8); [unfold zlen; lia|].
       exists b, m', p', w', r'. split; [done|]. split; [done|]. split; [done|].
       split; [|cbn [frames_on flat_map]; unfold table_at at 1; rewrite Hp; exact H8]. intros Hbt. destruct (H4 Hbt) as (H5 & fs & H6 & H7). split; [done|].
       exists fs. split; [by apply grown_skip|]. intros k [-> | Hk]%elem_of_cons; [|by apply H7]. unfold table_cloned. rewrite Hp.
       rewrite (gw_others _ _ _ _ _ _ _ H6) by (done || lia). done. }
  destruct (pm_stack p) as [|t rest] eqn:Hst.
  { rewrite (rep_alloc_none _ _ _ _ _ _ Hm) by done. cbn [Z.eqb].
    destruct (rep_unmap _ _ _ _ _ _ Hm TEMP_PD_VIRT window_dir) as (m1 & Hrun & Hm1). rewrite (run_bind _ _ _ _ _ Hrun). clear Hrun.
    destruct (rep_rollback d built p _ r m1 Hm1 Hg ltac:(lia)) as (m2 & p2 & r2 & w2 & Hrun & Hm2 & Hoff). rewrite (run_bind _ _ _ _ _ Hrun).
    exists false, m2, p2, w2, r2. split; [done|]. split; [done|].
    split; [apply (off_tables_trans _ r); [done| |done]; by apply kept_off, Hg|]. split; [done|]. intros _. cbn [frames_on flat_map].
    unfold table_at at 1. rewrite Hp, !length_app. cbn. lia. }
  match goal with |- context [(alloc_frame ≫= ?k) m] => destruct (rep_alloc _ _ _ _ _ _ Hm t rest k Hst) as (m1 & -> & Hm1 & Htr) end.
  destruct (Hpool t) as (_ & Ht0 & _); [apply (gr_pool _ _ _ Hg); rewrite Hst; apply elem_of_cons; auto|].
  rewrite (proj2 (Z.eqb_neq t 0)) by done.
  match goal with |- context [clone_pages i TABLE_ENTRIES ≫= ?k] =>
    destruct (rep_clone_table i t rest d p w r m k Hm Hw Hg Hiu Hz Hp Hst m1 Hm1) as (b & m2 & p2 & w2 & r2 & fs & -> & Hm2 & Hw2 & Hgr & Hcl & Hcnt) end.
  destruct b; cbn [negb].
  - destruct (rep_unmap _ _ _ _ _ _ Hm2 TEMP_PT_VIRT window_tab) as (m3 & Hrun & Hm3). rewrite (run_bind _ _ _ _ _ Hrun). clear Hrun.
    destruct (IH (built + 1) p2 _ r2 m3 Hm3) as (b & m' & p' & w' & r' & -> & Hm' & Hoff & Hdone & Hfail); [by rewrite upd_other|apply Hgr|done| |lia|unfold zlen; lia|].
    { apply list.Forall_forall. intros k Hk. destruct (proj1 (list.Forall_forall _ _) Hall k Hk) as [Hku Hkz]. split; [done|].
      pose proof Hku as Hkr. apply seqZ_in in Hkr. rewrite (gw_others _ _ _ _ _ _ _ Hgr); [done|lia|]. intros [-> | ?%elem_of_nil]%elem_of_cons; done. }
    exists b, m', p', w', r'. split; [done|]. split; [done|]. split; [done|]. split.
    2: { intros Hbf. specialize (Hfail Hbf). cbn [frames_on flat_map]. rewrite length_app, <- Hst, (gw_pool _ _ _ _ _ _ _ Hgr), length_app.
         unfold frames_on in Hfail. cbn zeta in Hcnt. lia. }
    intros Hbt. destruct (Hdone Hbt) as (H5 & gs & H6 & H7). split; [done|].
    exists ((t :: fs) ++ gs). split; [by apply (grown_trans d i todo p p2 p' r r2 r')|]. intros k [-> | Hk]%elem_of_cons; [|by apply H7].
    apply (table_cloned_keep d i todo p2 p' r2 r' gs); [apply Hgr|done|done|done|by apply Hcl].
  - destruct (rep_unmap _ _ _ _ _ _ Hm2 TEMP_PT_VIRT window_tab) as (m3 & Hrun & Hm3). rewrite (run_bind _ _ _ _ _ Hrun). clear Hrun.
    destruct (rep_unmap _ _ _ _ _ _ Hm3 TEMP_PD_VIRT window_dir) as (m4 & Hrun & Hm4). rewrite (run_bind _ _ _ _ _ Hrun). clear Hrun.
    pose proof (gw_space _ _ _ _ _ _ _ Hgr) as Hg2.
    destruct (rep_rollback d (built + 1) p2 _ r2 m4 Hm4 Hg2 ltac:(lia)) as (m5 & p5 & r5 & w5 & Hrun & Hm5 & Hoff). rewrite (run_bind _ _ _ _ _ Hrun).
    exists false, m5, p5, w5, r5. split; [done|]. split; [done|].
    split; [apply (off_tables_trans _ r2); [by apply kept_dir, Hg2|by apply kept_off, Hg2|done]|]. split; [done|]. intros _.
    cbn [frames_on flat_map]. rewrite length_app. cbn zeta in Hcnt. rewrite Hst in Hcnt. lia.
Qed.
End clone.
