(* ===== verification/PagingCopy.v ===== *)
(** * Forking an address space

    The contract of [clone_page_directory], from the steps of [PagingClone]. *)

From stdpp Require Import list_numbers.
From S2P Require Import Prelude StateMonad Pmm Paging PagingMem PagingMap PagingWin PagingSpace PagingFree PagingClone.

#[local] Open Scope Z_scope.

(** Every page of the running user space is in use for nothing else. *)
Definition pages_in_use (m : machine) : Prop := forall i j, i ∈ USER_ENTRIES -> 0 <= j < 1024 -> present (pde (m_ram m) (m_cr3 m) i) = true ->
  present (pte (m_ram m) (frame_of (pde (m_ram m) (m_cr3 m) i)) j) = true -> other m (frame_of (pte (m_ram m) (frame_of (pde (m_ram m) (m_cr3 m) i)) j)).

(** ** After the windows opened *)

Section opened.
Context (m m2 : machine) (d T : Z) (rest : list Z) (w : Z -> Z).
Context (Hm : mach_ok m) (Hst : pm_stack (m_pmm m) = d :: rest) (Huse : pages_in_use m).

Let m1 : machine := Mach (m_ram m) (m_cr3 m) (mkPmm rest (pm_total_frames (m_pmm m))).
Context (Ho : opens m1 m2 T) (Hr : rep (m_cr3 m) T (m_pmm m2) w (m_ram m2) m2).

Let Hm1 : mach_ok m1 := proj1 (alloc_ok m d rest Hm Hst).

Lemma opened_frame_T : is_frame T /\ T <> m_cr3 m /\ d <> T /\
  (forall i, 0 <= i < 1022 -> present (pde (m_ram m) (m_cr3 m) i) = true -> frame_of (pde (m_ram m) (m_cr3 m) i) <> T).
Proof.
  destruct (rp_win _ _ _ _ _ _ Hr) as [Hp HTe]. destruct (opens_table m1 m2 T Hm1 (rp_ok _ _ _ _ _ _ Hr) Ho Hp HTe) as (H1 & H2 & H3).
  split; [done|]. split; [done|]. split; [|done]. by apply (opens_apart m m2 T d rest).
Qed.

Lemma opened_pool f : f ∈ d :: pm_stack (m_pmm m2) -> is_frame f /\ f <> 0 /\ no_table (m_ram m2) (m_cr3 m) f.
Proof.
  intros [-> | Hf]%elem_of_cons; [|by apply (rep_pool _ _ _ _ _ _ Hr)]. destruct (pool_word m d rest Hm Hst) as (H1 & H2 & H3 & _).
  split; [done|]. split; [done|]. destruct opened_frame_T as (HT & _ & HdT & _). destruct (rp_win _ _ _ _ _ _ Hr) as [_ HTe].
  by apply (opens_no_table m1 m2 T d).
Qed.

Lemma opened_entry i : 0 <= i < 1022 -> pde (m_ram m2) (m_cr3 m) i = pde (m_ram m) (m_cr3 m) i.
Proof. intros Hi. apply (op_dir _ _ _ Ho); lia. Qed.

Lemma opened_table i x : 0 <= i < 1022 -> present (pde (m_ram m) (m_cr3 m) i) = true -> in_page (frame_of (pde (m_ram m) (m_cr3 m) i)) x ->
  m_ram m2 x = m_ram m x.
Proof.
  intros Hi Hp Hx. destruct opened_frame_T as (HT & HTc & _ & HTn). apply (op_rest _ _ _ Ho); intros Hx2.
  - apply (pages_apart (frame_of (pde (m_ram m) (m_cr3 m) i)) (m_cr3 m) x x); try done; [by apply table_frame|apply (dk_cr3 _ _ (mk_dir _ Hm))|].
    apply (dk_table _ _ (mk_dir _ Hm)); [lia|done].
  - apply (pages_apart (frame_of (pde (m_ram m) (m_cr3 m) i)) T x x); try done; [by apply table_frame|by apply HTn].
Qed.

Lemma opened_word i j : 0 <= i < 1022 -> 0 <= j < 1024 -> present (pde (m_ram m) (m_cr3 m) i) = true ->
  pte (m_ram m2) (frame_of (pde (m_ram m) (m_cr3 m) i)) j = pte (m_ram m) (frame_of (pde (m_ram m) (m_cr3 m) i)) j.
Proof. intros Hi Hj Hp. apply page_load; [done|]. intros x. by apply opened_table. Qed.

Lemma opened_other f : other m f -> is_frame f /\ no_table (m_ram m2) (m_cr3 m) f /\ f ∉ d :: pm_stack (m_pmm m2) /\ forall x, in_page f x -> m_ram m2 x = m_ram m x.
Proof.
  intros (H1 & H2 & H3). rewrite Hst in H3. apply not_elem_of_cons in H3 as [H3 H4]. assert (Ho1 : other m1 f) by done.
  destruct (opens_keep m1 m2 T _ _ f Hm1 Ho Hr Ho1) as (HfT & (_ & G2 & G3) & G4). rewrite (op_cr3 _ _ _ Ho) in G2.
  split; [done|]. split; [done|]. split; [|done]. apply not_elem_of_cons. done.
Qed.

Lemma opened_source i j : i ∈ USER_ENTRIES -> 0 <= j < 1024 -> present (pde (m_ram m2) (m_cr3 m) i) = true ->
  let t := source (m_cr3 m) (m_ram m2) i in present (pte (m_ram m2) t j) = true ->
  is_frame (frame_of (pte (m_ram m2) t j)) /\ no_table (m_ram m2) (m_cr3 m) (frame_of (pte (m_ram m2) t j)) /\ frame_of (pte (m_ram m2) t j) ∉ d :: pm_stack (m_pmm m2).
Proof.
  intros Hi Hj Hp t. pose proof Hi as Hir. apply seqZ_in in Hir. unfold t, source. rewrite opened_entry in * by lia. rewrite opened_word by (done || lia). intros Hpj.
  destruct (opened_other _ (Huse i j Hi Hj Hp Hpj)) as (H1 & H2 & H3 & _). done.
Qed.

Lemma opened_tables i : i ∈ USER_ENTRIES -> present (pde (m_ram m2) (m_cr3 m) i) = true ->
  is_frame (source (m_cr3 m) (m_ram m2) i) /\ source (m_cr3 m) (m_ram m2) i ∉ d :: pm_stack (m_pmm m2).
Proof.
  intros Hi Hp. pose proof Hi as Hir. apply seqZ_in in Hir. unfold source. split.
  - apply frame_of_frame, load_range, (rp_ok _ _ _ _ _ _ Hr).
  - intros Hin. destruct (opened_pool _ Hin) as (_ & _ & [_ Hn]). apply (Hn i); [lia|done|done].
Qed.

(** The frames the copy needs are counted alike. *)
Lemma opened_frames : frames_on (m_ram m2) (m_cr3 m) USER_ENTRIES = frames_on (m_ram m) (m_cr3 m) USER_ENTRIES.
Proof.
  apply frames_on_ext.
  - intros i Hi%seqZ_in. apply opened_entry. lia.
  - intros i j Hi%seqZ_in Hp Hj. apply opened_word; [lia|done|done].
Qed.
End opened.

(** ** The contract *)

(** [d] is a copy of the running user space: each mapped byte is at the same
    address, in a frame of [pool]; nothing else is mapped. *)
Record cloned_space (pool : list Z) (r r' : ram) (c d : Z) : Prop := {
  cs_kernel : forall i, 0 <= i < 10 -> pde r' d i = pde r c i;
  cs_none : forall a, 0 <= a -> 10 <= pd_idx a < 768 -> translate r c a = None -> translate r' d a = None;
  cs_some : forall a x, 0 <= a -> 10 <= pd_idx a < 768 -> translate r c a = Some x ->
    exists y, translate r' d a = Some y /\ r' y = r x /\ y - y mod 4096 ∈ pool;
  cs_rest : forall i, 768 <= i < 1023 -> pde r' d i = 0;
  cs_self : pde r' d 1023 = d + 3 }.

Lemma growing_start p c r0 pool r d : d ∈ pool -> d ∉ pm_stack p -> (forall f, f ∈ pm_stack p -> f ∈ pool) -> kept pool r0 r ->
  (forall i, 10 <= i < 1024 -> pde r d i = 0) -> (forall f, f ∈ pool -> is_frame f /\ f <> 0 /\ no_table r0 c f) -> growing pool r0 p r d /\ space_frames r d = [d].
Proof.
  intros Hd Hn Hsub Hk Hz Hpool. assert (E : space_frames r d = [d]).
  { unfold space_frames. rewrite frames_none; [done|]. intros i Hi%seqZ_in. apply Hz. lia. }
  split; [|done]. split; [done|done| |].
  - rewrite E. apply NoDup_singleton.
  - intros f Hf. rewrite E in Hf. apply elem_of_cons in Hf as [-> | Hf%elem_of_nil]; done.
Qed.

(** What the copy of one table means for the walk. *)
Lemma table_cloned_walk c r0 r d a i : table_cloned c r0 r d i -> pd_idx a = i -> 0 <= a -> (forall j, is_frame (frame_of (pte r0 (source c r0 i) j))) ->
  match translate r0 c a with
  | None => translate r d a = None
  | Some x => exists y f, translate r d a = Some y /\ r y = r0 x /\ y - y mod 4096 = f /\ f = frame_of (pte r (frame_of (pde r d i)) (pt_idx a)) /\
      present (pde r d i) = true /\ present (pte r (frame_of (pde r d i)) (pt_idx a)) = true
  end.
Proof.
  intros Hcl <- Ha Hsf. assert (Hj : 0 <= pt_idx a < 1024) by (rewrite pt_idx_div; lia_mod). unfold table_cloned in Hcl. unfold translate.
  destruct (present (pde r0 c (pd_idx a))) eqn:Hp; cbn [negb]; [|by rewrite Hcl]. destruct Hcl as (H1 & H2 & H3). rewrite H1. cbn [negb].
  specialize (H3 (pt_idx a) Hj). unfold copied, source in H3. destruct (present (pte r0 (frame_of (pde r0 c (pd_idx a))) (pt_idx a))) eqn:Hpj; cbn [negb]; [|by rewrite H3].
  destruct H3 as (G1 & G2 & G3 & G4). rewrite G2. cbn [negb]. eexists _, _. split; [reflexivity|].
  assert (Hlow : 0 <= Z.land a 4095 < 4096) by (rewrite low12; lia_mod). split; [by apply G4|]. split; [|done].
  destruct G3 as [G3 G5]. rewrite low12 in *. lia_mod.
Qed.

Lemma clone_user_entries : Forall (fun i => i ∈ USER_ENTRIES) USER_ENTRIES.
Proof. by apply list.Forall_forall. Qed.

Definition window_cost (m : machine) : nat := if present (pde (m_ram m) (m_cr3 m) 1022) then 0 else 1.

(** The outcome of [clone_page_directory]: [free] is the pool but for the table of
    the windows, if that had to be made. *)
Record forked (m m' : machine) (d : Z) (free : list Z) : Prop := {
  fk_copy : cloned_space (pm_stack (m_pmm m)) (m_ram m) (m_ram m') (m_cr3 m) d;
  fk_once : NoDup (space_frames (m_ram m') d);
  fk_own : Forall (fun f => other m' f /\ f <> 0) (space_frames (m_ram m') d);
  fk_pool : free ≡ₚ space_frames (m_ram m') d ++ pm_stack (m_pmm m') }.

(** The last two stores. *)
Lemma rep_finish c T p w r m d pool r0 : rep c T p w r m -> w TEMP_PD_VIRT = d + 3 -> growing pool r0 p r d ->
  (forall f, f ∈ pool -> is_frame f /\ f <> 0 /\ no_table r0 c f) -> is_frame c ->
  exists m', (vstore (TEMP_PD_VIRT + 4 * 1023) (Z.lor (Z.lor d PAGE_PRESENT) PAGE_WRITE) ≫= fun _ => unmap TEMP_PD_VIRT ≫= fun _ => mret d) m = Some (d, m') /\
    rep c T p (upd w TEMP_PD_VIRT 0) (store32 (d + 4 * 1023) (d + 3) r) m' /\
    (forall i, 0 <= i < 1023 -> pde (m_ram m') d i = pde r d i) /\ pde (m_ram m') d 1023 = d + 3 /\
    (forall f x, f ∈ frames_on r d USER_ENTRIES -> in_page f x -> m_ram m' x = r x) /\ space_frames (m_ram m') d = space_frames r d /\
    (forall f, f ∈ space_frames r d -> other m' f /\ f <> 0).
Proof.
  intros Hm Hw Hg Hpool Hc. destruct (growing_dir pool r0 p r d Hg) as [Hdp Hdn].
  assert (Hk : forall f, f ∈ pool -> is_frame f /\ f <> 0 /\ no_table r c f) by (intros f Hf; eapply kept_no_table; [exact Hpool|done|apply Hg|done]).
  destruct (Hk d Hdp) as (Hd & Hd0 & Hdt). pose proof (no_table_T _ _ _ _ _ _ Hm d Hdt) as HdT. rewrite (self_entry d Hd).
  match goal with |- context [(vstore _ _ ≫= ?k) m] => destruct (rep_store _ _ _ _ _ _ Hm TEMP_PD_VIRT d 1023 (d + 3) k) as (m1 & -> & Hm1) end;
    [apply window_dir|done|done|done|apply Hdt|lia|].
  destruct (rep_unmap _ _ _ _ _ _ Hm1 TEMP_PD_VIRT window_dir) as (m2 & Hrun & Hm2). rewrite (run_bind _ _ _ _ _ Hrun). clear Hrun.
  exists m2. split; [done|]. split; [done|].
  assert (Hent : forall i, 0 <= i < 1023 -> pde (m_ram m2) d i = pde r d i).
  { intros i Hi. unfold pde. rewrite (rep_word _ _ _ _ _ _ Hm2 d i Hd HdT ltac:(lia)). apply store_word; lia. }
  assert (Hpg : forall f x, f ∈ frames_on r d USER_ENTRIES -> in_page f x -> m_ram m2 x = r x).
  { intros f x Hf Hx. assert (Hf2 : f ∈ space_frames r d) by (apply elem_of_app; auto). destruct (Hk f) as (F1 & F2 & F3); [by apply (gr_own _ _ _ _ _ Hg)|].
    rewrite (rep_page _ _ _ _ _ _ Hm2 f x F1 (no_table_T _ _ _ _ _ _ Hm f F3) Hx). apply store_page; [lia|]. intros Hx2.
    apply (pages_apart f d x x); try done. apply (frames_not_dir r); [apply Hg|done]. }
  split; [done|]. split; [unfold pde; rewrite (rep_word _ _ _ _ _ _ Hm2 d 1023 Hd HdT ltac:(lia)); apply store_same; destruct Hd; lia_mod|]. split; [done|].
  assert (E : space_frames (m_ram m2) d = space_frames r d).
  { unfold space_frames. f_equal. apply frames_on_ext.
    - intros i Hi%seqZ_in. apply Hent. lia.
    - intros i j Hi Hp Hj. apply page_load; [done|]. intros x. by apply Hpg, table_of_space. }
  split; [done|]. intros f Hf. destruct (gr_own _ _ _ _ _ Hg f Hf) as [Hfp Hfn]. destruct (Hk f Hfp) as (F1 & F2 & F3). split; [|done]. split; [done|].
  rewrite (rp_cr3 _ _ _ _ _ _ Hm2), (rp_pmm _ _ _ _ _ _ Hm2). split; [|done]. apply (rep_no_table _ _ _ _ _ _ Hm2).
  apply (no_table_off r _ c d f); try done. intros x Hx. apply store_page; [lia|done].
Qed.

(** The copied tables, as a copy of the space. *)
Lemma cloned_space_of m m2 m' d T rest w r' : mach_ok m -> pm_stack (m_pmm m) = d :: rest -> pages_in_use m ->
  opens (Mach (m_ram m) (m_cr3 m) (mkPmm rest (pm_total_frames (m_pmm m)))) m2 T -> rep (m_cr3 m) T (m_pmm m2) w (m_ram m2) m2 ->
  (forall i, i ∈ USER_ENTRIES -> table_cloned (m_cr3 m) (m_ram m2) r' d i) ->
  (forall i, 0 <= i < 1023 -> pde (m_ram m') d i = pde r' d i) -> pde (m_ram m') d 1023 = d + 3 ->
  (forall i, 0 <= i < 10 -> pde r' d i = pde (m_ram m2) (m_cr3 m) i) -> (forall i, 768 <= i < 1023 -> pde r' d i = 0) ->
  (forall f x, f ∈ frames_on r' d USER_ENTRIES -> in_page f x -> m_ram m' x = r' x) ->
  (forall f, f ∈ frames_on r' d USER_ENTRIES -> f ∈ pm_stack (m_pmm m)) -> (forall f, f ∈ frames_on (m_ram m') d USER_ENTRIES -> f ∈ frames_on r' d USER_ENTRIES) ->
  cloned_space (pm_stack (m_pmm m)) (m_ram m) (m_ram m') (m_cr3 m) d.
Proof.
  intros Hm Hst Huse Ho Hr Hcl Hent Hself Hker Hz Hpg Hin Hsame.
  assert (Hw : forall a, 0 <= a -> 10 <= pd_idx a < 768 -> match translate (m_ram m2) (m_cr3 m) a with
    | None => translate (m_ram m') d a = None
    | Some x => exists y, translate (m_ram m') d a = Some y /\ m_ram m' y = m_ram m2 x /\ y - y mod 4096 ∈ pm_stack (m_pmm m) end).
  { intros a Ha Hi. assert (Hiu : pd_idx a ∈ USER_ENTRIES) by (apply seqZ_in; lia).
    pose proof (table_cloned_ext (m_cr3 m) (m_ram m2) r' (m_ram m') d (pd_idx a) Hiu (Hcl _ Hiu) (Hent (pd_idx a) ltac:(lia)) Hpg) as Hc2.
    pose proof (table_cloned_walk _ _ _ _ a _ Hc2 eq_refl Ha) as Hwalk. destruct (translate (m_ram m2) (m_cr3 m) a) as [x|].
    - destruct Hwalk as (y & f & H1 & H2 & H3 & H4 & H5 & H6); [intros j; apply frame_of_frame, load_range, (rp_ok _ _ _ _ _ _ Hr)|].
      exists y. split; [done|]. split; [done|]. rewrite H3, H4. apply Hin, Hsame, page_of_space; try done. rewrite pt_idx_div. lia_mod.
    - apply Hwalk. intros j. apply frame_of_frame, load_range, (rp_ok _ _ _ _ _ _ Hr). }
  assert (Htr : forall a, 0 <= a -> pd_idx a < 1022 -> translate (m_ram m2) (m_cr3 m) a = translate (m_ram m) (m_cr3 m) a).
  { intros a Ha Hi. destruct (opened_frame_T m m2 d T rest w Hm Hst Ho Hr) as (HT & HTc & _ & HTn).
    by apply (opens_space (Mach (m_ram m) (m_cr3 m) (mkPmm rest (pm_total_frames (m_pmm m)))) m2 T a); [apply (alloc_ok m d rest Hm Hst)|..]. }
  split.
  - intros i Hi. rewrite Hent, Hker by lia. apply (opened_entry m m2 T rest Ho); lia.
  - intros a Ha Hi Hn. specialize (Hw a Ha Hi). rewrite Htr, Hn in Hw by lia. done.
  - intros a x Ha Hi Hs. specialize (Hw a Ha Hi). rewrite Htr, Hs in Hw by lia. destruct Hw as (y & H1 & H2 & H3). exists y. split; [done|].
    split; [|done]. rewrite H2. assert (Hiu : pd_idx a ∈ USER_ENTRIES) by (apply seqZ_in; lia). assert (Hj : 0 <= pt_idx a < 1024) by (rewrite pt_idx_div; lia_mod).
    unfold translate in Hs. destruct (present (pde (m_ram m) (m_cr3 m) (pd_idx a))) eqn:Hp; [|done].
    destruct (present (pte (m_ram m) (frame_of (pde (m_ram m) (m_cr3 m) (pd_idx a))) (pt_idx a))) eqn:Hpj; [|done]. cbn [negb] in Hs. injection Hs as <-.
    destruct (opened_other m m2 d T rest w Hm Hst Ho Hr _ (Huse _ _ Hiu Hj Hp Hpj)) as (_ & _ & _ & Hx). apply Hx. rewrite low12. unfold in_page. lia_mod.
  - intros i Hi. rewrite Hent by lia. by apply Hz.
  - done.
Qed.

Lemma clone_page_directory_spec m d rest : mach_ok m -> pages_in_use m -> pm_stack (m_pmm m) = d :: rest ->
  present (pde (m_ram m) (m_cr3 m) 1022) = true \/ rest <> [] ->
  exists v m' free, clone_page_directory m = Some (v, m') /\ mach_ok m' /\ m_cr3 m' = m_cr3 m /\ same_space (m_ram m) (m_ram m') (m_cr3 m) /\
    present (pde (m_ram m') (m_cr3 m) 1022) = true /\ (exists taken, rest = taken ++ free /\ length taken = window_cost m) /\
    ((v = 0 /\ (length free < length (frames_on (m_ram m) (m_cr3 m) USER_ENTRIES))%nat) \/ (v = d /\ d <> 0 /\ forked m m' d (d :: free))).
Proof.
  intros Hm Huse Hst Hcan. destruct (pool_word m d rest Hm Hst) as (Hd & H0 & Hn & Hdr). unfold clone_page_directory.
  rewrite (alloc_run d rest) by done. rewrite (proj2 (Z.eqb_neq d 0)) by done. destruct (alloc_ok m d rest Hm Hst) as (Hm1 & _ & _).
  set (m1 := Mach (m_ram m) (m_cr3 m) _) in *. pose proof (dk_cr3 _ _ (mk_dir _ Hm)) as Hc.
  destruct (rep_open m1 TEMP_PD_VIRT d Hm1 Hcan window_dir Hd) as (m2 & T & Hrun & Ho & Hr2). rewrite (run_bind _ _ _ _ _ Hrun). clear Hrun.
  change (m_cr3 m1) with (m_cr3 m) in Hr2. pose proof (opened_pool m m2 d T rest _ Hm Hst Ho Hr2) as Hpool. set (pool := d :: pm_stack (m_pmm m2)) in *.
  destruct (Hpool d ltac:(apply elem_of_cons; auto)) as (_ & _ & Hn2).
  destruct (rep_create _ _ _ _ _ _ d Hr2 ltac:(by rewrite upd_same) Hd Hn2) as (m3 & r3 & Hrun & Hr3 & Hx3 & Hk3 & Hu3).
  rewrite <- run_assoc, (run_bind _ _ _ _ _ Hrun). clear Hrun. pose proof (op_pool _ _ _ Ho) as Hp2. unfold table_from in Hp2.
  change (m_ram m1) with (m_ram m) in Hp2. change (m_cr3 m1) with (m_cr3 m) in Hp2. cbn [m_pmm pm_stack m1] in Hp2.
  assert (Hfree : (exists taken, rest = taken ++ pm_stack (m_pmm m2) /\ length taken = window_cost m) /\ d ∉ pm_stack (m_pmm m2) /\ forall f, f ∈ pm_stack (m_pmm m2) -> f ∈ rest).
  { unfold window_cost. destruct (present (pde (m_ram m) (m_cr3 m) 1022)).
    - destruct Hp2 as [_ ->]. split; [by exists []|done].
    - destruct Hp2 as [E _]. rewrite E in Hdr |- *. apply not_elem_of_cons in Hdr as [_ Hdr]. split; [by exists [T]|]. split; [done|].
      intros f Hf. apply elem_of_cons. auto. }
  destruct Hfree as (Hlen & Hdn & Hsub).
  destruct (growing_start (m_pmm m2) (m_cr3 m) (m_ram m2) pool r3 d) as [Hg Esp]; try done.
  { apply elem_of_cons; auto. } { intros f Hf. apply elem_of_cons. auto. }
  { intros x Hx. apply Hx3. apply Hx, elem_of_cons. auto. }
  destruct (rep_clone_tables (m_cr3 m) T pool (m_ram m2) Hpool (opened_source m m2 d T rest _ Hm Hst Huse Ho Hr2)
    (opened_tables m m2 d T rest _ Hm Hst Ho Hr2) Hc d 0 USER_ENTRIES _ _ r3 m3 Hr3 ltac:(by rewrite upd_same) Hg (proj1 user_entries))
    as (b & m4 & p4 & w4 & r4 & Hrun & Hr4 & Hoff & Hdone & Hfail).
  { apply list.Forall_forall. intros i Hi. split; [done|]. apply seqZ_in in Hi. apply Hu3. lia. } { lia. } { by vm_compute. }
  rewrite (run_bind _ _ _ _ _ Hrun). clear Hrun. destruct b; cbn [negb].
  - destruct (Hdone eq_refl) as (Hw4 & fs & Hgr & Hcl). pose proof (gw_space _ _ _ _ _ _ _ _ _ Hgr) as Hg4.
    destruct (rep_finish _ _ _ _ _ _ d pool (m_ram m2) Hr4 Hw4 Hg4 Hpool Hc) as (m5 & -> & Hr5 & F1 & F2 & F3 & F4 & F5).
    assert (Hsp : space_frames r4 d ≡ₚ fs ++ [d]) by (rewrite <- Esp; apply (gw_frames _ _ _ _ _ _ _ _ _ Hgr)).
    exists d, m5, (pm_stack (m_pmm m2)). split; [done|]. split; [apply (rp_ok _ _ _ _ _ _ Hr5)|]. split; [apply (rp_cr3 _ _ _ _ _ _ Hr5)|].
    split; [|split; [apply (rp_win _ _ _ _ _ _ Hr5)|split; [done|right; split; [done|split; [done|]]]]].
    + apply (opens_same_space m1 m2 T _ _ _ _ m5 _ Hm1 Ho Hr2 Hr5). apply (off_tables_trans _ r4); [|done|].
      * apply (kept_dir (m_cr3 m) pool); [done|done|apply Hg4].
      * apply (off_page_tables _ _ _ d); [done| |intros x Hx; apply store_page; [lia|done]].
        apply (kept_no_table (m_cr3 m) pool (m_ram m2)); [done|done|apply Hg4|apply elem_of_cons; auto].
    + split.
      * assert (Hfr : forall f, f ∈ frames_on r4 d USER_ENTRIES -> f ∈ pm_stack (m_pmm m)).
        { intros f Hf. destruct (gr_own _ _ _ _ _ Hg4 f) as [Hfp _]; [apply elem_of_app; auto|]. rewrite Hst.
          apply elem_of_cons in Hfp as [-> | Hfp]; apply elem_of_cons; auto. }
        apply (cloned_space_of m m2 m5 d T rest _ r4 Hm Hst Huse Ho Hr2); try done.
        -- intros i Hi. rewrite (gw_others _ _ _ _ _ _ _ _ _ Hgr), Hk3; [done|lia|lia|]. intros Hin%seqZ_in. lia.
        -- intros i Hi. rewrite (gw_others _ _ _ _ _ _ _ _ _ Hgr), Hu3; [done|lia|lia|]. intros Hin%seqZ_in. lia.
        -- intros f Hf. unfold space_frames in F4. apply (inj (fun l => l ++ [d])) in F4. by rewrite <- F4.
      * rewrite F4. apply Hg4.
      * rewrite F4. by apply list.Forall_forall.
      * rewrite F4, (rp_pmm _ _ _ _ _ _ Hr5), Hsp, (gw_pool _ _ _ _ _ _ _ _ _ Hgr). rewrite <- app_assoc. cbn. by rewrite Permutation_middle.
  - exists 0, m4, (pm_stack (m_pmm m2)). split; [done|]. split; [apply (rp_ok _ _ _ _ _ _ Hr4)|]. split; [apply (rp_cr3 _ _ _ _ _ _ Hr4)|].
    split; [by apply (opens_same_space m1 m2 T _ _ _ _ m4 _ Hm1 Ho Hr2 Hr4)|]. split; [apply (rp_win _ _ _ _ _ _ Hr4)|]. split; [done|].
    left. split; [done|]. rewrite <- (opened_frames m m2 d T rest _ Hm Hst Ho Hr2). by apply Hfail.
Qed.
