(* ===== verification/PagingBoot.v ===== *)
(** * Paging: what holds from start-up on

    [paging_init] maps the first 40 megabytes to themselves and establishes the
    invariant of the machine; then the contracts of the calls of
    [kernel/Paging/paging.c] and
    [kernel/Process/process-memory/process_memory.c]. *)

From stdpp Require Import list_numbers.
From S2P Require Import Prelude StateMonad Pmm Paging PagingMem PagingMap PagingWin PagingSpace PagingFree PagingClone PagingCopy.

#[local] Open Scope Z_scope.

(** ** The tables [paging_init] writes *)

Lemma foldl_store f (g : Z -> Z) todo : forall r, Forall (fun i => 0 <= i < 1024 /\ 0 <= g i < 4294967296) todo -> bytes_ok r ->
  let r' := foldl (fun r i => store32 (f + 4 * i) (g i) r) r todo in
  bytes_ok r' /\ (forall x, ~ in_page f x -> r' x = r x) /\
  (forall j, 0 <= j < 1024 -> load32 r' (f + 4 * j) = if decide (j ∈ todo) then g j else load32 r (f + 4 * j)).
Proof.
  induction todo as [|i todo IH]; intros r Hall Hb r'.
  { split; [done|]. split; [done|]. intros j Hj. rewrite decide_False; [done|apply not_elem_of_nil]. }
  apply Forall_cons_1 in Hall as [[Hi Hg] Hall]. destruct (IH (store32 (f + 4 * i) (g i) r) Hall) as (H1 & H2 & H3); [by apply store_bytes|].
  split; [done|]. split; [intros x Hx; unfold r'; cbn [foldl]; rewrite H2 by done; by apply store_page|].
  intros j Hj. unfold r'. cbn [foldl]. rewrite H3 by done. destruct (decide (j ∈ todo)) as [Hin | Hin].
  - by rewrite decide_True by (apply elem_of_cons; auto).
  - destruct (decide (j = i)) as [-> | Hne].
    + rewrite decide_True by (apply elem_of_cons; auto). by apply store_same.
    + rewrite decide_False by (rewrite elem_of_cons; tauto). apply store_word; [done|done|lia].
Qed.

Definition first_table (t : Z) : Z := PT_BASE + t * 4096.
Definition first_page (t i : Z) : Z := t * 0x400000 + i * 0x1000.

Lemma first_table_frame t : 0 <= t < 10 -> is_frame (first_table t).
Proof. unfold is_frame, first_table, PT_BASE. intros. split; lia_mod. Qed.
Lemma first_page_frame t i : 0 <= t < 10 -> 0 <= i < 1024 -> is_frame (first_page t i).
Proof. unfold is_frame, first_page. intros. split; lia_mod. Qed.
Lemma pd_frame : is_frame PD_ADDR. Proof. by vm_compute. Qed.

Lemma all_rw f : is_frame f -> Z.lor f ALL_RW = f + 7 /\ frame_of (f + 7) = f /\ present (f + 7) = true /\ 0 <= f + 7 < 4294967296.
Proof.
  intros Hf. destruct (user_entry f Hf) as (E & H). split; [|done]. rewrite <- E. unfold ALL_RW. by rewrite !Z.lor_assoc.
Qed.

Lemma identity_table_spec t r : 0 <= t < 10 -> bytes_ok r -> bytes_ok (identity_table t r) /\ (forall x, ~ in_page (first_table t) x -> identity_table t r x = r x) /\
  (forall j, 0 <= j < 1024 -> pte (identity_table t r) (first_table t) j = first_page t j + 7).
Proof.
  intros Ht Hb. destruct (foldl_store (first_table t) (fun i => Z.lor (first_page t i) ALL_RW) TABLE_ENTRIES r) as (H1 & H2 & H3); [|done|].
  - apply list.Forall_forall. intros i Hi%seqZ_in. split; [lia|]. destruct (all_rw (first_page t i)) as (-> & _ & _ & H); [|done]. apply first_page_frame; lia.
  - split; [done|]. split; [done|]. intros j Hj. unfold pte. etransitivity; [by apply H3|]. rewrite decide_True by (apply seqZ_in; lia).
    apply all_rw, first_page_frame; lia.
Qed.

Definition boot_step (r : ram) (t : Z) : ram := store32 (PD_ADDR + 4 * t) (Z.lor (PT_BASE + t * 4096) ALL_RW) (identity_table t r).

Lemma table_apart t : 0 <= t < 10 -> first_table t <> PD_ADDR.
Proof. unfold first_table, PD_ADDR, PT_BASE. lia. Qed.

Lemma boot_steps todo : forall r, NoDup todo -> Forall (fun t => 0 <= t < 10) todo -> bytes_ok r ->
  let r' := foldl boot_step r todo in
  bytes_ok r' /\ (forall x, ~ in_page PD_ADDR x -> (forall t, t ∈ todo -> ~ in_page (first_table t) x) -> r' x = r x) /\
  (forall i, 0 <= i < 1024 -> pde r' PD_ADDR i = if decide (i ∈ todo) then first_table i + 7 else pde r PD_ADDR i) /\
  (forall t j, t ∈ todo -> 0 <= j < 1024 -> pte r' (first_table t) j = first_page t j + 7).
Proof.
  induction todo as [|t todo IH]; intros r Hnd Hall Hb r'.
  { split; [done|]. split; [done|]. split; [|by intros t j ?%elem_of_nil]. intros i Hi. rewrite decide_False; [done|apply not_elem_of_nil]. }
  apply list.NoDup_cons in Hnd as [Hnt Hnd]. apply Forall_cons_1 in Hall as [Ht Hall].
  destruct (identity_table_spec t r Ht Hb) as (I1 & I2 & I3). pose proof (first_table_frame t Ht) as Hf. destruct (all_rw (first_table t) Hf) as (E1 & _ & _ & E2).
  assert (Hb1 : bytes_ok (boot_step r t)) by by apply store_bytes.
  destruct (IH (boot_step r t) Hnd Hall Hb1) as (H1 & H2 & H3 & H4). split; [done|].
  assert (Hpd : forall x, in_page PD_ADDR x -> identity_table t r x = r x).
  { intros x Hx. apply I2. intros Hx2. apply (pages_apart PD_ADDR (first_table t) x x); auto using pd_frame, table_apart, not_eq_sym. }
  split; [|split].
  - intros x Hx Hn. unfold r'. cbn [foldl]. rewrite H2; [|done|intros u Hu; apply Hn, elem_of_cons; auto]. unfold boot_step.
    rewrite store_page by (done || lia). apply I2, Hn, elem_of_cons. auto.
  - intros i Hi. unfold r'. cbn [foldl]. rewrite H3 by done. destruct (decide (i ∈ todo)) as [Hin | Hin]; [by rewrite decide_True by (apply elem_of_cons; auto)|].
    destruct (decide (i = t)) as [-> | Hne].
    + rewrite decide_True by (apply elem_of_cons; auto). unfold boot_step, pde. fold (first_table t). rewrite E1. by apply store_same.
    + rewrite decide_False by (rewrite elem_of_cons; tauto). unfold boot_step, pde. rewrite store_word by lia. by apply page_load.
  - intros u j Hu Hj. unfold r'. cbn [foldl]. apply elem_of_cons in Hu as [-> | Hu]; [|by apply H4]. rewrite <- I3 by done. apply page_load; [done|].
    intros x Hx. assert (Hnp : ~ in_page PD_ADDR x).
    { intros Hx2. apply (pages_apart (first_table t) PD_ADDR x x); auto using pd_frame, table_apart. }
    rewrite H2; [apply store_page; [lia|done]|done|]. intros v Hv Hx2. assert (Hvr : 0 <= v < 10) by by apply (proj1 (list.Forall_forall _ _) Hall).
    apply (pages_apart (first_table t) (first_table v) x x); try done; [by apply first_table_frame|]. unfold first_table. intros E. apply Hnt.
    assert (t = v) by lia. by subst.
Qed.

(** ** Start-up *)

(** The memory set-up of [kernel_main]: the pool is the four megabytes after the
    kernel. *)
Definition kernel_memory (kernel_end : Z) (r : ram) : machine :=
  let free_start := Z.ldiff (kernel_end +32 0xFFF) 0xFFF in
  let pmm_size := 0x400000 in
  paging_init (Mach r 0 (pmm_init free_start pmm_size pmm_zero)).

Lemma paging_init_tables m : bytes_ok (m_ram m) ->
  let r := m_ram (paging_init m) in
  bytes_ok r /\ (forall i, 0 <= i < 10 -> pde r PD_ADDR i = first_table i + 7) /\ (forall i, 10 <= i < 1023 -> pde r PD_ADDR i = 0) /\
  pde r PD_ADDR 1023 = PD_ADDR + 3 /\ (forall t j, 0 <= t < 10 -> 0 <= j < 1024 -> pte r (first_table t) j = first_page t j + 7).
Proof.
  intros Hb r. set (r1 := fill PD_ADDR 4096 0 (m_ram m)). assert (Hb1 : bytes_ok r1) by by apply fill_bytes.
  destruct (boot_steps (seqZ 0 10) r1 ltac:(apply NoDup_seqZ)) as (H1 & _ & H3 & H4); [apply list.Forall_forall; intros t Ht%seqZ_in; lia|done|].
  assert (E : r = store32 (PD_ADDR + 4 * 1023) (PD_ADDR + 3) (foldl boot_step r1 (seqZ 0 10))) by done. clearbody r. subst r.
  split; [by apply store_bytes|].
  assert (Hlow : forall i, 0 <= i < 1023 -> pde (store32 (PD_ADDR + 4 * 1023) (PD_ADDR + 3) (foldl boot_step r1 (seqZ 0 10))) PD_ADDR i =
    if decide (i ∈ seqZ 0 10) then first_table i + 7 else 0).
  { intros i Hi. unfold pde at 1. rewrite store_word by lia. fold (pde (foldl boot_step r1 (seqZ 0 10)) PD_ADDR i). rewrite H3 by lia.
    unfold r1, pde. by rewrite fill_load by lia. }
  split; [|split; [|split]].
  - intros i Hi. rewrite Hlow, decide_True by (lia || apply seqZ_in; lia). done.
  - intros i Hi. rewrite Hlow, decide_False by (lia || intros ?%seqZ_in; lia). done.
  - apply store_same. by vm_compute.
  - intros t j Ht Hj. rewrite <- H4; [|apply seqZ_in; lia|done]. apply page_load; [done|]. intros x Hx. apply store_page; [lia|]. intros Hx2.
    apply (pages_apart (first_table t) PD_ADDR x x); auto using first_table_frame, pd_frame, table_apart.
Qed.

Lemma paging_init_ok m : bytes_ok (m_ram m) -> NoDup (pm_stack (m_pmm m)) -> (forall f, f ∈ pm_stack (m_pmm m) -> is_frame f /\ 0x14000 <= f) ->
  mach_ok (paging_init m).
Proof.
  intros Hb Hnd Hf. destruct (paging_init_tables m Hb) as (H1 & H2 & H3 & H4 & _).
  assert (Hpr : forall i, 0 <= i < 1023 -> present (pde (m_ram (paging_init m)) PD_ADDR i) = true ->
    0 <= i < 10 /\ frame_of (pde (m_ram (paging_init m)) PD_ADDR i) = first_table i).
  { intros i Hi. destruct (decide (i < 10)) as [Hlt | Hge].
    - rewrite H2 by lia. intros _. split; [lia|]. apply all_rw, first_table_frame. lia.
    - rewrite H3 by lia. done. }
  assert (Ec : m_cr3 (paging_init m) = PD_ADDR) by done. assert (Ep : m_pmm (paging_init m) = m_pmm m) by done.
  split; rewrite ?Ec, ?Ep; [done| |done|].
  - split; [apply pd_frame|done| |].
    + intros i Hi Hp. destruct (Hpr i Hi Hp) as [Hlt ->]. by apply table_apart.
    + intros i j Hi Hj Hij Pi Pj. destruct (Hpr i Hi Pi) as [_ ->], (Hpr j Hj Pj) as [_ ->]. unfold first_table. lia.
  - intros f Hin. destruct (Hf f Hin) as [Hff Hlo]. split; [done|]. split; [lia|]. split; [unfold PD_ADDR; lia|].
    intros i Hi Hp. destruct (Hpr i Hi Hp) as [Hlt ->]. unfold first_table, PT_BASE. lia.
Qed.

Lemma kernel_pool kernel_end : 0x14000 <= kernel_end <= 0x2000000 -> let p := pmm_init (Z.ldiff (kernel_end +32 0xFFF) 0xFFF) 0x400000 pmm_zero in
  NoDup (pm_stack p) /\ (forall f, f ∈ pm_stack p -> is_frame f /\ 0x14000 <= f) /\ length (pm_stack p) = 1024%nat.
Proof.
  intros Hk. cbv zeta. rewrite (u32_small (kernel_end + 0xFFF)) by (unfold is_u32; lia). rewrite ldiff_4095.
  set (st := kernel_end + 0xFFF - (kernel_end + 0xFFF) mod 4096). set (p := pmm_init st 0x400000 pmm_zero). assert (Hst : kernel_end <= st < kernel_end + 4096 /\ st mod 4096 = 0) by (unfold st; lia_mod).
  pose proof (pmm_init_inv st 0x400000 ltac:(lia) ltac:(lia) ltac:(lia) ltac:(lia)) as [I1 I2 I3 _ _]. fold p in I1. rewrite app_nil_r in I1.
  assert (Hps : pool_start st = st) by (unfold pool_start; lia_mod). assert (Hn : pool_size 0 0x400000 = 1024%nat) by by vm_compute.
  split; [by rewrite I1|]. split.
  - intros f Hf. rewrite I1, Hn, Hps in Hf. rewrite elem_of_reverse in Hf. unfold frames_from in Hf. apply list_elem_of_fmap in Hf as (i & -> & Hi%seqZ_in).
    unfold is_frame. split; [split; lia_mod|lia].
  - rewrite I1, length_reverse. unfold frames_from. rewrite length_fmap, length_seqZ, Hn. done.
Qed.

Lemma kernel_memory_ok kernel_end r : 0x14000 <= kernel_end <= 0x2000000 -> bytes_ok r -> mach_ok (kernel_memory kernel_end r).
Proof. intros Hk Hr. destruct (kernel_pool kernel_end Hk) as (H1 & H2 & _). by apply paging_init_ok. Qed.

(** ** The contracts *)

(** Paging starts with the identity.  Whatever is in memory, after
    [kernel_main] has set the pool up behind the kernel and called [paging_init],
    every address below 40 megabytes translates to itself, the rest of the user
    range is unmapped, the invariant of the machine holds and the pool has its
    1024 frames. *)
Lemma kernel_memory_identity kernel_end r : 0x14000 <= kernel_end <= 0x2000000 -> bytes_ok r ->
  let m := kernel_memory kernel_end r in
  mach_ok m /\ length (pm_stack (m_pmm m)) = 1024%nat /\
  (forall v, 0 <= v < 0x2800000 -> translate (m_ram m) (m_cr3 m) v = Some v) /\
  (forall v, 0x2800000 <= v < 0xFFC00000 -> translate (m_ram m) (m_cr3 m) v = None).
Proof.
  intros Hk Hr m. split; [by apply kernel_memory_ok|]. split; [apply (kernel_pool kernel_end Hk)|].
  destruct (paging_init_tables (Mach r 0 (pmm_init (Z.ldiff (kernel_end +32 0xFFF) 0xFFF) 0x400000 pmm_zero)) Hr) as (_ & H2 & H3 & _ & H5).
  split; intros v Hv; unfold translate; change (m_cr3 m) with PD_ADDR.
  - assert (Hi : 0 <= pd_idx v < 10) by (rewrite pd_idx_div; lia_mod). assert (Hj : 0 <= pt_idx v < 1024) by (rewrite pt_idx_div; lia_mod).
    unfold m, kernel_memory. rewrite H2 by done. destruct (all_rw (first_table (pd_idx v)) (first_table_frame _ Hi)) as (_ & -> & -> & _). cbn [negb].
    rewrite H5 by done. destruct (all_rw (first_page (pd_idx v) (pt_idx v)) (first_page_frame _ _ Hi Hj)) as (_ & -> & -> & _). cbn [negb]. f_equal.
    unfold first_page. rewrite low12, pd_idx_div, pt_idx_div. lia_mod.
  - assert (Hi : 10 <= pd_idx v < 1023) by (rewrite pd_idx_div; lia_mod). unfold m, kernel_memory. by rewrite H3.
Qed.

Definition no_ram : ram := fun _ => 0.
Lemma no_ram_bytes : bytes_ok no_ram. Proof. by intros x. Qed.

Lemma kernel_memory_identity_witness : mach_ok (kernel_memory 0x180000 no_ram) /\
  translate (m_ram (kernel_memory 0x180000 no_ram)) (m_cr3 (kernel_memory 0x180000 no_ram)) 0xB8000 = Some 0xB8000.
Proof. destruct (kernel_memory_identity 0x180000 no_ram ltac:(lia) no_ram_bytes) as (H1 & _ & H3 & _). split; [exact H1|]. apply H3. lia. Defined.

(** [map_page] maps one page.  With a table for the address or a frame for a
    new one, the page translates to the frame given and every other address, the
    windows on the tables apart, translates as before; a table taken comes from the
    top of the pool; the invariant of the machine is kept. *)
Lemma map_page_translates m virt phys flags : mach_ok m -> 0 <= virt < 0xFFC00000 -> is_frame phys -> 0 <= flags < 4096 ->
  present (pde (m_ram m) (m_cr3 m) (pd_idx virt)) = true \/ pm_stack (m_pmm m) <> [] ->
  exists m', map_page virt phys flags m = Some (tt, m') /\ mach_ok m' /\ m_cr3 m' = m_cr3 m /\
    (forall v, 0 <= v < 0xFFC00000 -> translate (m_ram m') (m_cr3 m) v =
      if decide (v / 4096 = virt / 4096) then Some (phys + v mod 4096) else translate (m_ram m) (m_cr3 m) v) /\
    (if present (pde (m_ram m) (m_cr3 m) (pd_idx virt)) then m_pmm m' = m_pmm m
     else exists t, pm_stack (m_pmm m) = t :: pm_stack (m_pmm m')).
Proof.
  intros Hm Hv Hp Hf Hcan. assert (Hi : pd_idx virt <> 1023) by (rewrite pd_idx_div; lia_mod).
  destruct (map_page_spec m virt phys flags Hm ltac:(lia) Hi Hp Hf) as [(H1 & H2 & _) | (m' & t & Hrun & Ht & Hfrom)]; [destruct Hcan; congruence|].
  exists m'. split; [done|]. split; [apply Ht|]. split; [apply Ht|]. destruct (page_entry_spec phys flags Hp Hf) as (E1 & E2 & _). split.
  - intros v Hv2. assert (Hi2 : pd_idx v <> 1023) by (rewrite pd_idx_div; lia_mod).
    rewrite (tabled_translate m m' virt t (page_entry phys flags) v) by (done || lia). by rewrite E1, E2.
  - unfold table_from in Hfrom. destruct (present _); [apply Hfrom|]. exists t. apply Hfrom.
Qed.

Definition boot : machine := kernel_memory 0x180000 no_ram.
Lemma boot_ok : mach_ok boot. Proof. apply kernel_memory_ok; [lia|apply no_ram_bytes]. Qed.
Lemma boot_pool : length (pm_stack (m_pmm boot)) = 1024%nat. Proof. by apply (kernel_pool 0x180000). Qed.
Lemma boot_entry i : 10 <= i < 1023 -> pde (m_ram boot) (m_cr3 boot) i = 0.
Proof. intros Hi. by apply (paging_init_tables (Mach no_ram 0 (pmm_init (Z.ldiff (0x180000 +32 0xFFF) 0xFFF) 0x400000 pmm_zero)) no_ram_bytes). Qed.
#[global] Opaque boot.

Lemma map_page_translates_witness : exists m', map_page 0x2801000 0x7000 7 boot = Some (tt, m') /\
  translate (m_ram m') (m_cr3 boot) 0x2801234 = Some 0x7234.
Proof.
  destruct (map_page_translates boot 0x2801000 0x7000 7 boot_ok ltac:(lia) ltac:(by vm_compute) ltac:(lia)) as (m' & Hrun & _ & _ & Ht & _).
  - right. intros E. pose proof boot_pool as Hl. rewrite E in Hl. discriminate Hl.
  - exists m'. split; [exact Hrun|]. rewrite (Ht 0x2801234) by lia. reflexivity.
Defined.

(** [create_user_space] makes an empty user space.  Its directory is the top
    of the pool: the kernel's ten entries are the running space's, the last entry
    is the directory itself, nothing else is mapped; the running space is left
    alone.  With an empty pool it returns 0 and changes nothing. *)
Lemma create_user_space_contract m : mach_ok m ->
  (pm_stack (m_pmm m) = [] -> create_user_space m = Some (0, m)) /\
  forall d rest, pm_stack (m_pmm m) = d :: rest -> present (pde (m_ram m) (m_cr3 m) 1022) = true \/ rest <> [] ->
  exists m' T, create_user_space m = Some (d, m') /\ mach_ok m' /\ m_cr3 m' = m_cr3 m /\ d <> 0 /\
    fresh_space (m_ram m) (m_ram m') (m_cr3 m) d /\ same_space (m_ram m) (m_ram m') (m_cr3 m) /\ other m' d /\ pool_left m m' T rest.
Proof.
  intros Hm. split; [apply create_no_memory|]. intros d rest Hst Hcan.
  destruct (create_user_space_spec m d rest Hm Hst Hcan) as (m' & T & H1 & H2 & H3 & H4 & H5 & H6 & H7 & H8 & _ & _). exists m', T. done.
Qed.

Lemma create_user_space_contract_witness : exists d m', create_user_space boot = Some (d, m') /\ d <> 0 /\ pde (m_ram m') d 1023 = d + 3.
Proof.
  pose proof boot_pool as Hl. destruct (pm_stack (m_pmm boot)) as [|d [|e rest]] eqn:Hst; [discriminate Hl..|].
  destruct (proj2 (create_user_space_contract boot boot_ok) d (e :: rest) Hst ltac:(by right)) as (m' & T & H1 & _ & _ & H4 & H5 & _).
  exists d, m'. split; [exact H1|]. split; [exact H4|]. exact (fs_self _ _ _ _ H5).
Defined.

(** The last frame of the pool cannot be used for an address space.  When the
    running space has no table for the windows yet and one frame is left,
    [create_user_space] and [clone_page_directory] take it, [map_page] cannot make
    the window and returns as if it had, and clearing the new directory through the
    window faults: neither returns the 0 that means out of memory. *)
Lemma last_frame_faults m d : mach_ok m -> pm_stack (m_pmm m) = [d] -> present (pde (m_ram m) (m_cr3 m) 1022) = false ->
  create_user_space m = None /\ clone_page_directory m = None.
Proof. apply create_last_frame. Qed.

Definition one_frame : machine := paging_init (Mach no_ram 0 (mkPmm [0x180000] 1)).

Lemma last_frame_faults_witness : create_user_space one_frame = None /\ clone_page_directory one_frame = None.
Proof.
  apply (last_frame_faults one_frame 0x180000).
  - apply paging_init_ok; [apply no_ram_bytes|apply NoDup_singleton|]. intros f [-> | Hf%elem_of_nil]%elem_of_cons; [|destruct Hf]. by vm_compute.
  - reflexivity.
  - destruct (paging_init_tables (Mach no_ram 0 (mkPmm [0x180000] 1)) no_ram_bytes) as (_ & _ & H & _). unfold one_frame.
    change (m_cr3 (paging_init (Mach no_ram 0 (mkPmm [0x180000] 1)))) with PD_ADDR. rewrite H by lia. reflexivity.
Defined.

(** [map_page_in_directory] maps one page of a space that is not running.
    It always returns, and the running space is left alone.  When it returns 1 the
    page translates to the frame given and every other user address of that space
    as before; it returns 0 only with the pool empty and no table for the page, and
    then that space is as it was. *)
Lemma map_page_in_directory_contract m d vir phy flags : mach_ok m -> can_open m -> user_space (m_ram m) (m_cr3 m) d -> off_pool (m_ram m) d (m_pmm m) ->
  0 <= vir < 4294967296 -> 10 <= pd_idx vir < 1023 -> is_frame phy -> 0 <= flags < 4096 ->
  exists b m', map_page_in_directory d vir phy flags m = Some (b, m') /\ mach_ok m' /\
    if b then mapped_in m m' d vir phy
    else pm_stack (m_pmm m') = [] /\ present (pde (m_ram m) d (pd_idx vir)) = false /\ same_space (m_ram m) (m_ram m') (m_cr3 m) /\
      forall v, 0 <= v -> 10 <= pd_idx v < 1023 -> translate (m_ram m') d v = translate (m_ram m) d v.
Proof. apply map_page_in_directory_spec. Qed.

(** A new space has no tables of its own. *)
Lemma fresh_user_space m m' d : mach_ok m' -> m_cr3 m' = m_cr3 m -> other m' d -> fresh_space (m_ram m) (m_ram m') (m_cr3 m) d ->
  user_space (m_ram m') (m_cr3 m') d /\ off_pool (m_ram m') d (m_pmm m').
Proof.
  intros Hm' Hc (H1 & H2 & H3) [_ Hu _]. split; [split; [done|done| |]|split; [done|]].
  - intros i Hi. by rewrite Hu by lia.
  - intros i j Hi Hj Hij. by rewrite Hu by lia.
  - intros i Hi. by rewrite Hu by lia.
Qed.

Lemma text_page v : 0x8048000 <= v < 0x8049000 -> 10 <= pd_idx v < 1023.
Proof. intros Hv. rewrite pd_idx_div. lia_mod. Qed.

Lemma map_page_in_directory_contract_witness : exists d m1 b m2, create_user_space boot = Some (d, m1) /\
  map_page_in_directory d 0x8048000 0x7000 7 m1 = Some (b, m2) /\ (b = true -> translate (m_ram m2) d 0x8048010 = Some 0x7010).
Proof.
  pose proof boot_pool as Hl. destruct (pm_stack (m_pmm boot)) as [|d [|e [|e2 rest]]] eqn:Hst; [discriminate Hl..|].
  destruct (create_user_space_spec boot d (e :: e2 :: rest) boot_ok Hst ltac:(by right)) as (m1 & T & H1 & H2 & H3 & H4 & H5 & _ & H7 & H8 & _).
  destruct (fresh_user_space boot m1 d H2 H3 H7 H5) as [Hs Hoff].
  assert (Hcan : can_open m1).
  { right. unfold pool_left in H8. rewrite boot_entry in H8 by lia. change (present 0) with false in H8. cbv iota in H8. injection H8 as _ E. rewrite <- E. discriminate. }
  destruct (map_page_in_directory_contract m1 d 0x8048000 0x7000 7 H2 Hcan Hs Hoff ltac:(lia) (text_page 0x8048000 ltac:(lia)) ltac:(split; [lia|reflexivity]) ltac:(lia))
    as (b & m2 & R1 & _ & R3).
  exists d, m1, b, m2. split; [exact H1|]. split; [exact R1|]. intros ->. rewrite (mi_page _ _ _ _ _ R3 0x8048010 ltac:(lia) (text_page 0x8048010 ltac:(lia))). reflexivity.
Defined.

(** A running space with one user page, after start-up. *)
Record one_page (m : machine) (f : Z) : Prop := {
  op_run : (f ← alloc_frame; map_page 0x2800000 f 7 ≫= fun _ => mret f) boot = Some (f, m);
  op_mach : mach_ok m;
  op_use : pages_in_use m;
  op_left : length (pm_stack (m_pmm m)) = 1022%nat;
  op_need : (length (frames_on (m_ram m) (m_cr3 m) USER_ENTRIES) <= 2)%nat;
  op_at : translate (m_ram m) (m_cr3 m) 0x2800000 = Some f }.

Lemma flat_map_one {B} (g : Z -> list B) l a : NoDup l -> a ∈ l -> (forall b, b ∈ l -> b <> a -> g b = []) -> flat_map g l ≡ₚ g a.
Proof.
  intros Hnd Ha Hg. rewrite (flat_map_grow (fun _ => []) g l a); try done. assert (E : flat_map (fun _ : Z => [] : list B) l = []) by (clear; induction l; auto).
  by rewrite E, app_nil_r.
Qed.

Lemma boot_one_page : exists m f, one_page m f.
Proof.
  pose proof boot_pool as Hl. destruct (pm_stack (m_pmm boot)) as [|f [|e rest]] eqn:Hst; [discriminate Hl..|]. set (rest1 := e :: rest) in *.
  destruct (alloc_ok boot f rest1 boot_ok Hst) as (Hm0 & (Hf & Hfn & Hfp) & _). set (m0 := Mach (m_ram boot) (m_cr3 boot) _) in *.
  destruct (map_page_spec m0 0x2800000 f 7 Hm0 ltac:(lia) ltac:(by vm_compute) Hf ltac:(lia)) as [(_ & E & _) | (m & t & Hrun & Ht & Hfrom)]; [discriminate E|].
  change (pd_idx 0x2800000) with 10 in *. assert (Hz : forall i, 10 <= i < 1023 -> pde (m_ram m0) (m_cr3 m0) i = 0) by apply boot_entry.
  pose proof Ht as Ht0. destruct Ht as [T1 T2 [T3 T4] T5 T6 _]. unfold table_from in Hfrom. rewrite Hz in Hfrom by lia. destruct Hfrom as [Hfr _].
  change (pm_stack (m_pmm m0)) with rest1 in Hfr. destruct (page_entry_spec f 7 Hf ltac:(lia)) as (E1 & E2 & _).
  assert (Hw : forall j, 0 <= j < 1024 -> pte (m_ram m) t j = if decide (j = 0) then page_entry f 7 else 0).
  { intros j Hj. rewrite T6 by done. unfold new_word, old_word. change (pt_idx 0x2800000) with 0. change (pd_idx 0x2800000) with 10. by rewrite Hz by lia. }
  assert (Hpr : forall i, i ∈ USER_ENTRIES -> present (pde (m_ram m) (m_cr3 m) i) = true -> i = 10).
  { intros i Hi%seqZ_in Hp. destruct (decide (i = 10)) as [|Hne]; [done|]. rewrite T2, T5, Hz in Hp by lia. done. }
  assert (Hother : other m f).
  { split; [done|]. rewrite T2. split; [split; [apply Hfn|]|].
    - intros i Hi Hp. destruct (decide (i = 10)) as [-> | Hne]; [rewrite T4; intros ->; apply Hfp; change (pm_stack (m_pmm m0)) with rest1; rewrite Hfr; apply elem_of_cons; auto|].
      rewrite T5 in * by lia. by apply Hfn.
    - intros Hin. apply Hfp. change (pm_stack (m_pmm m0)) with rest1. rewrite Hfr. apply elem_of_cons. auto. }
  exists m, f. split.
  - rewrite (alloc_run f rest1) by done. fold m0. by rewrite (run_bind _ _ _ _ _ Hrun).
  - done.
  - intros i j Hi Hj Hp Hpj. pose proof (Hpr i Hi Hp) as ->. rewrite T2, T4, Hw in * by done. destruct (decide (j = 0)); [by rewrite E1|done].
  - rewrite Hfr in Hl. cbn in Hl. lia.
  - unfold frames_on. rewrite (flat_map_one (table_at (m_ram m) (m_cr3 m)) USER_ENTRIES 10); [|apply user_entries|apply seqZ_in; lia|].
    + unfold table_at. rewrite T2, T3, T4, length_app. unfold pages_on. rewrite (flat_map_one (page_at (m_ram m) t) TABLE_ENTRIES 0); [|apply table_entries|apply seqZ_in; lia|].
      * unfold page_at. rewrite Hw, decide_True, E2 by lia. cbn. lia.
      * intros j Hj%seqZ_in Hne. unfold page_at. by rewrite Hw, decide_False by lia.
    + intros i Hi Hne. unfold table_at. destruct (present (pde (m_ram m) (m_cr3 m) i)) eqn:Hp; [|done]. by destruct Hne; apply Hpr.
  - unfold translate. change (pd_idx 0x2800000) with 10. change (pt_idx 0x2800000) with 0. rewrite T2, T3, T4, Hw, decide_True, E1, E2 by lia.
    cbn [negb]. f_equal. apply Z.add_0_r.
Qed.

(** C13: [clone_page_directory] copies the running user space.  With a frame in the pool,
    and a second one if the table of the windows is not there yet (with exactly one then,
    the code faults), it returns, and every address of the running space below the windows
    translates as before.  It returns 0 only when the pool is smaller than the directory,
    the tables and the pages to copy; otherwise it returns a directory with the kernel's
    entries in which each user address is mapped exactly when it is in the running space,
    to a byte of the same value in a frame from the pool. *)
Theorem clone_page_directory_copies m d rest : mach_ok m -> pages_in_use m -> pm_stack (m_pmm m) = d :: rest ->
  present (pde (m_ram m) (m_cr3 m) 1022) = true \/ rest <> [] ->
  exists v m', clone_page_directory m = Some (v, m') /\ mach_ok m' /\ m_cr3 m' = m_cr3 m /\ same_space (m_ram m) (m_ram m') (m_cr3 m) /\
    (v = 0 /\ (length rest < window_cost m + length (frames_on (m_ram m) (m_cr3 m) USER_ENTRIES))%nat \/
     v = d /\ d <> 0 /\ cloned_space (pm_stack (m_pmm m)) (m_ram m) (m_ram m') (m_cr3 m) d).
Proof.
  intros Hm Huse Hst Hcan. destruct (clone_page_directory_spec m d rest Hm Huse Hst Hcan) as (v & m' & free & H1 & H2 & H3 & H4 & _ & (taken & Ht & Hl) & H7).
  exists v, m'. split; [done|]. split; [done|]. split; [done|]. split; [done|]. destruct H7 as [[-> H7] | (-> & H0 & H7)]; [left|right].
  - split; [done|]. rewrite Ht, length_app. lia.
  - split; [done|]. split; [done|apply H7].
Qed.

(** C17: a copy taken apart again gives every frame back.  After
    [clone_page_directory] has made a space, [destroy_user_space] of it leaves the
    running space mapped as it was before both, and the pool is a permutation of what it
    was, but for the table of the windows if the first call had to make it. *)
Theorem clone_destroy_roundtrip m d m1 : mach_ok m -> pages_in_use m -> (length (pm_stack (m_pmm m)) <= MAX_FRAMES)%nat ->
  clone_page_directory m = Some (d, m1) -> d <> 0 ->
  exists m2 taken, destroy_user_space d m1 = Some (tt, m2) /\ mach_ok m2 /\ same_space (m_ram m) (m_ram m2) (m_cr3 m) /\
    pm_stack (m_pmm m) ≡ₚ taken ++ pm_stack (m_pmm m2) /\ length taken = window_cost m.
Proof.
  intros Hm Huse Hmax Hrun H0. destruct (pm_stack (m_pmm m)) as [|e rest] eqn:Hst.
  { unfold clone_page_directory in Hrun. rewrite alloc_none in Hrun by done. change (Some (0, m) = Some (d, m1)) in Hrun. congruence. }
  assert (Hcan : present (pde (m_ram m) (m_cr3 m) 1022) = true \/ rest <> []).
  { destruct (present (pde (m_ram m) (m_cr3 m) 1022)) eqn:Hp; [by left|right]. intros ->. destruct (create_last_frame m e Hm Hst Hp) as [_ Hno]. congruence. }
  destruct (clone_page_directory_spec m e rest Hm Huse Hst Hcan) as (v & m' & free & R1 & R2 & R3 & R4 & R5 & (taken & Ht & Hl) & R7).
  rewrite Hrun in R1. injection R1 as <- <-. destruct R7 as [[? _] | (-> & _ & [_ F2 F3 F4])]; [done|].
  assert (Hlen : (length (space_frames (m_ram m1) e) + length (pm_stack (m_pmm m1)) <= MAX_FRAMES)%nat).
  { apply Permutation_length in F4. rewrite length_app in F4. cbn in F4, Hmax. rewrite Ht, length_app in Hmax. lia. }
  rewrite <- R3 in R5. destruct (destroy_user_space_spec m1 e R2 (or_introl R5) H0 F2 F3 Hlen) as (m2 & T & left & D1 & D2 & D3 & D4 & D5 & D6).
  rewrite R5 in D6. subst left. exists m2, taken. split; [done|]. split; [done|]. rewrite R3 in D4. split; [by apply (same_space_trans _ (m_ram m1))|].
  split; [|done]. rewrite D5, <- Permutation_rev, <- F4, Ht. by rewrite Permutation_middle.
Qed.

Lemma clone_page_directory_copies_witness : exists m f v m' y, one_page m f /\ clone_page_directory m = Some (v, m') /\ v <> 0 /\
  translate (m_ram m') v 0x2800000 = Some y /\ m_ram m' y = m_ram m f.
Proof.
  destruct boot_one_page as (m & f & Hone). pose proof (op_left m f Hone) as Hl. destruct (pm_stack (m_pmm m)) as [|d [|e rest]] eqn:Hst; [discriminate Hl..|].
  destruct (clone_page_directory_copies m d (e :: rest) (op_mach m f Hone) (op_use m f Hone) Hst ltac:(by right)) as (v & m' & H1 & _ & _ & _ & H5).
  destruct H5 as [[_ Hs] | (-> & H0 & Hc)].
  - exfalso. pose proof (op_need m f Hone) as Hn. unfold window_cost in Hs. cbn in Hl, Hs. destruct (present _); lia.
  - assert (Hi : pd_idx 0x2800000 = 10) by reflexivity.
    destruct (cs_some _ _ _ _ _ Hc 0x2800000 f ltac:(lia) ltac:(rewrite Hi; lia) (op_at m f Hone)) as (y & Hy & Hb & _).
    exists m, f, d, m', y. split; [exact Hone|]. split; [exact H1|]. split; [exact H0|]. split; [exact Hy|exact Hb].
Defined.

Lemma clone_destroy_roundtrip_witness : exists m f d m1 m2, one_page m f /\ clone_page_directory m = Some (d, m1) /\ destroy_user_space d m1 = Some (tt, m2) /\
  same_space (m_ram m) (m_ram m2) (m_cr3 m).
Proof.
  destruct boot_one_page as (m & f & Hone). pose proof (op_left m f Hone) as Hl. destruct (pm_stack (m_pmm m)) as [|d [|e rest]] eqn:Hst; [discriminate Hl..|].
  destruct (clone_page_directory_spec m d (e :: rest) (op_mach m f Hone) (op_use m f Hone) Hst ltac:(by right)) as (v & m1 & free & H1 & _ & _ & _ & _ & (taken & Ht & Hlt) & H7).
  destruct H7 as [[_ Hs] | (-> & H0 & _)].
  - exfalso. pose proof (op_need m f Hone) as Hn. apply (f_equal length) in Ht. rewrite length_app in Ht. unfold window_cost in Hlt.
    cbn in Hl, Ht. destruct (present _); lia.
  - assert (Hmax : (length (pm_stack (m_pmm m)) <= MAX_FRAMES)%nat) by (rewrite Hst; pose proof max_frames; lia).
    destruct (clone_destroy_roundtrip m d m1 (op_mach m f Hone) (op_use m f Hone) Hmax H1 H0) as (m2 & tk & D1 & _ & D3 & _).
    exists m, f, d, m1, m2. split; [exact Hone|]. split; [exact H1|]. split; [exact D1|exact D3].
Defined.
