(* ===== verification/Elf.v ===== *)
(** * The ELF loader

    [kernel/ELF/elf.c], and the part of [kernel/Process/exec.c] that builds the
    address space of a program.  A binary is the list of its bytes; a read past
    its end is a fault, since the code checks no offset against the size. *)

From S2P Require Import Prelude StateMonad Pmm Paging.

#[local] Open Scope Z_scope.

Definition ELF_MAGIC_NUMBER : Z := 0x464C457F.
Definition PT_LOAD : Z := 1.
Definition PAGE_SIZE : Z := 4096.
Definition PAGE_ALIGN_DOWN (x : Z) : Z := Z.land x 0xFFFFF000.
Definition PAGE_ALIGN_UP (y : Z) : Z := Z.land (y +32 (PAGE_SIZE - 1)) 0xFFFFF000.

(** Little-endian fields. *)
Definition le16 (l : list Z) (i : Z) : option Z := a ← rd l i; b ← rd l (i + 1); Some (a + 256 * b).
Definition le32 (l : list Z) (i : Z) : option Z := a ← le16 l i; b ← le16 l (i + 2); Some (a + 65536 * b).

(** The fields of a program header that the loader reads.  The structure has
    [phy_address] before [vir_address]. *)
Record ELF32_Phdr := mkPhdr { ph_offset : Z; ph_vir_address : Z; ph_file_size : Z; ph_mem_size : Z }.

Definition entry_point (hdr : list Z) : option Z := le32 hdr 24.
Definition program_header_offset (hdr : list Z) : option Z := le32 hdr 28.
Definition program_header_count (hdr : list Z) : option Z := le16 hdr 44.

Definition elf_validate (hdr : option (list Z)) : option bool :=
  match hdr with
  | None => Some false
  | Some h => magic ← le32 h 0; Some (magic =? ELF_MAGIC_NUMBER)
  end.

(** Where the program headers start in the binary. *)
Definition elf_prog_headers (hdr : list Z) : option Z := program_header_offset hdr.

Definition phdr_type (hdr : list Z) (phdrs i : Z) : option Z := le32 hdr (phdrs + 32 * i).
Definition phdr (hdr : list Z) (phdrs i : Z) : option ELF32_Phdr :=
  let a := phdrs + 32 * i in
  offset ← le32 hdr (a + 4); vir ← le32 hdr (a + 12); file_size ← le32 hdr (a + 16); mem_size ← le32 hdr (a + 20);
  Some (mkPhdr offset vir file_size mem_size).

(** Bytes written to a page through a mapped address. *)
Definition blit (p : Z) (l : list Z) (r : ram) : ram := fun x => if (p <=? x) && (x <? p + zlen l) then default 0 (l !! Z.to_nat (x - p)) else r x.
Definition vwrite (virt : Z) (l : list Z) : P unit := p ← walk virt; modify (set_ram (blit p l)).

(** [src_off] bytes into the binary. *)
Definition source_bytes (hdr : list Z) (src_off n : Z) : P (list Z) := reads (fun _ => slice hdr (Z.to_nat src_off) (Z.to_nat n)).

(** One page of a segment: the new [src_off] and [file_remaining], or none when
    memory is out.  What [map_page_in_directory] returns is not looked at. *)
Definition load_page (hdr : list Z) (target_cr3 vir addr src_off file_remaining : Z) : P (option (Z * Z)) :=
  phys ← alloc_frame;
  if phys =? 0 then mret None
  else
    map_page_in_directory target_cr3 addr phys (Z.lor (Z.lor PAGE_PRESENT PAGE_WRITE) PAGE_USER) ≫= fun _ =>
    map_page TEMP_MAP_VIRT phys KERNEL_RW ≫= fun _ =>
    let copy_start := if addr <? vir then vir -32 addr else 0 in
    let copy_bytes :=
      if (0 <? file_remaining) && (copy_start <? PAGE_SIZE) then
        let n := PAGE_SIZE - copy_start in if file_remaining <? n then file_remaining else n
      else 0 in
    vclear TEMP_MAP_VIRT ≫= fun _ =>
    (if 0 <? copy_bytes then
       src ← source_bytes hdr src_off copy_bytes;
       vwrite (TEMP_MAP_VIRT + copy_start) src
     else mret tt) ≫= fun _ =>
    unmap TEMP_MAP_VIRT ≫= fun _ =>
    mret (Some (src_off +32 copy_bytes, file_remaining -32 copy_bytes)).

(** [for (addr = start; addr < end; addr += PAGE_SIZE)], both aligned. *)
Definition page_addresses (start end_ : Z) : list Z := (fun k => start + PAGE_SIZE * k) <$> seqZ 0 ((end_ - start) / PAGE_SIZE).

Fixpoint load_pages (hdr : list Z) (target_cr3 vir : Z) (todo : list Z) (src_off file_remaining : Z) : P bool :=
  match todo with
  | [] => mret true
  | addr :: todo' =>
      st ← load_page hdr target_cr3 vir addr src_off file_remaining;
      match st with
      | None => mret false
      | Some (src_off', file_remaining') => load_pages hdr target_cr3 vir todo' src_off' file_remaining'
      end
  end.

Definition seg_start (ph : ELF32_Phdr) : Z := PAGE_ALIGN_DOWN (ph_vir_address ph).
Definition seg_end (ph : ELF32_Phdr) : Z := PAGE_ALIGN_UP (ph_vir_address ph +32 ph_mem_size ph).

Definition load_segment (hdr : list Z) (target_cr3 : Z) (ph : ELF32_Phdr) : P bool :=
  load_pages hdr target_cr3 (ph_vir_address ph) (page_addresses (seg_start ph) (seg_end ph)) (ph_offset ph) (ph_file_size ph).

Fixpoint load_segments (hdr : list Z) (phdrs target_cr3 : Z) (todo : list Z) : P bool :=
  match todo with
  | [] => mret true
  | i :: todo' =>
      type ← reads (fun _ => phdr_type hdr phdrs i);
      if negb (type =? PT_LOAD) then load_segments hdr phdrs target_cr3 todo'
      else
        ph ← reads (fun _ => phdr hdr phdrs i);
        ok ← load_segment hdr target_cr3 ph;
        if negb ok then mret false else load_segments hdr phdrs target_cr3 todo'
  end.

Definition elf_load_segs (hdr : option (list Z)) (target_cr3 : Z) : P bool :=
  match hdr with
  | None => mret false
  | Some h =>
      if target_cr3 =? 0 then mret false
      else
        phdrs ← reads (fun _ => elf_prog_headers h);
        n ← reads (fun _ => program_header_count h);
        load_segments h phdrs target_cr3 (seqZ 0 n)
  end.

(** ** The address space of a program *)

Definition USER_STACK_TOP : Z := 0xBFFFF000.
Definition USER_STACK_SIZE : Z := 4096.

(** [exec_user] up to the new task: the directory of the loaded program and its
    entry point, or none after giving the space up. *)
Definition exec_space (binary : list Z) : P (option (Z * Z)) :=
  if zlen binary =? 0 then mret None
  else
    new_cr3 ← create_user_space;
    if new_cr3 =? 0 then mret None
    else
      valid ← reads (fun _ => elf_validate (Some binary));
      if negb valid then destroy_user_space new_cr3 ≫= fun _ => mret None
      else
        ok ← elf_load_segs (Some binary) new_cr3;
        if negb ok then destroy_user_space new_cr3 ≫= fun _ => mret None
        else
          stack_phy ← alloc_frame;
          if stack_phy =? 0 then destroy_user_space new_cr3 ≫= fun _ => mret None
          else
            mapped ← map_page_in_directory new_cr3 (USER_STACK_TOP - USER_STACK_SIZE) stack_phy (Z.lor (Z.lor PAGE_PRESENT PAGE_USER) PAGE_WRITE);
            if negb mapped then
              free_frame stack_phy ≫= fun _ => destroy_user_space new_cr3 ≫= fun _ => mret None
            else
              eip ← reads (fun _ => entry_point binary);
              mret (Some (new_cr3, eip)).
