(* ===== verification/ElfLoad.v ===== *)
(** * Loading a program

    What [elf_load_segs] puts into a new address space, byte by byte. *)

From stdpp Require Import list_numbers.
From S2P Require Import Prelude StateMonad Pmm Paging PagingMem PagingMap PagingWin PagingSpace PagingFree Elf.

#[local] Open Scope Z_scope.

(** The byte at [v] in the space [d]. *)
Definition peek (r : ram) (d v : Z) : option Z := r <$> translate r d v.

Definition user_page (v : Z) : Prop := 0 <= v < 4294967296 /\ 10 <= pd_idx v < 1023.

Section space.
Context (c d : Z).

(** A space under construction: its pages are nobody else's. *)
Record space_inv (p : pmm) (r : ram) : Prop := {
  si_space : user_space r c d;
  si_pool : off_pool r d p;
  si_frame : forall i j, 10 <= i < 1023 -> 0 <= j < 1024 -> present (pde r d i) = true -> present (pte r (frame_of (pde r d i)) j) = true ->
    let f := frame_of (pte r (frame_of (pde r d i)) j) in
    is_frame f /\ no_table r c f /\ f ∉ pm_stack p /\ f <> d /\ (forall k, 10 <= k < 1023 -> present (pde r d k) = true -> frame_of (pde r d k) <> f);
  si_words : forall i, 0 <= i < 1024 -> is_frame (frame_of (pde r d i)) }.

(** One page is mapped, to the frame [f] from the pool. *)
Section step.
Context (p p' : pmm) (r r1 r' : ram) (addr f t e : Z).
Context (Hi : user_page addr) (Hinv : space_inv p r) (Hf : is_frame f) (Hft : no_table r c f) (Hfd : f <> d) (Hc : is_frame c).
Context (Hfp : f ∉ pm_stack p) (Hfree : forall k, 10 <= k < 1023 -> present (pde r d k) = true -> frame_of (pde r d k) <> f).
Context (Hfresh : forall i j, 10 <= i < 1023 -> 0 <= j < 1024 -> present (pde r d i) = true -> present (pte r (frame_of (pde r d i)) j) = true ->
  frame_of (pte r (frame_of (pde r d i)) j) <> f).
Context (Ht : is_frame t) (Htn : no_table r c t) (Htd : t <> d) (Htf : t <> f).
Context (Htk : table_taken r d (pd_idx addr) t p p').
Context (He : frame_of e = f /\ present e = true).
Context (Hts : table_set r r1 d (pd_idx addr) t (fun k => if decide (k = pt_idx addr) then e else space_word r d (pd_idx addr) k)).
Context (Hx : forall x, ~ in_page f x -> r' x = r1 x) (Hbytes : forall i, 0 <= i < 1024 -> is_frame (frame_of (pde r1 d i))).
Context (Honce : NoDup (pm_stack p)) (Hwords : forall i, 0 <= i < 1024 -> is_frame (frame_of (pde r' d i))).

Let Hd : is_frame d := us_frame _ _ _ (si_space _ _ Hinv).

Lemma step_pool g : g ∈ pm_stack p' -> g ∈ pm_stack p.
Proof.
  unfold table_taken in Htk. destruct (present (pde r d (pd_idx addr))); [by destruct Htk as [_ ->]|]. destruct Htk as [-> _]. intros. apply elem_of_cons. auto.
Qed.

Lemma step_dir k : 0 <= k < 1024 -> pde r' d k = pde r1 d k.
Proof. intros Hk. apply page_load; [done|]. intros x Hin. apply Hx. intros Hin2. by apply (pages_apart d f x x). Qed.

Lemma step_apart k : 10 <= k < 1023 -> k <> pd_idx addr -> present (pde r d k) = true -> frame_of (pde r d k) <> t.
Proof. apply (taken_apart r c d (pd_idx addr) t p p' (si_space _ _ Hinv) (si_pool _ _ Hinv) Htk). apply Hi. Qed.

(** The tables of the space afterwards. *)
Lemma step_table k : 10 <= k < 1023 -> present (pde r1 d k) = true -> (k = pd_idx addr /\ frame_of (pde r1 d k) = t) \/
  (k <> pd_idx addr /\ pde r1 d k = pde r d k /\ present (pde r d k) = true).
Proof.
  intros Hk Hp. destruct (decide (k = pd_idx addr)) as [-> | Hne]; [left; split; [done|apply Hts]|right]. rewrite (ts_there _ _ _ _ _ _ Hts) in * by lia. done.
Qed.

Lemma step_no_f k : 10 <= k < 1023 -> present (pde r1 d k) = true -> frame_of (pde r1 d k) <> f.
Proof. intros Hk Hp. destruct (step_table k Hk Hp) as [[_ ->] | (_ & -> & Hp2)]; [done|by apply Hfree]. Qed.

Lemma step_word k j : 10 <= k < 1023 -> 0 <= j < 1024 -> present (pde r1 d k) = true -> pte r' (frame_of (pde r1 d k)) j = pte r1 (frame_of (pde r1 d k)) j.
Proof.
  intros Hk Hj Hp. apply page_load; [done|]. intros x Hin. apply Hx. intros Hin2. apply (pages_apart (frame_of (pde r1 d k)) f x x); try done; [apply Hbytes; lia|by apply step_no_f].
Qed.

Lemma step_walk v : user_page v -> translate r' d v = if decide (v / 4096 = addr / 4096) then Some (f + v mod 4096) else translate r d v.
Proof.
  intros [Hv Hvi]. assert (Hj : 0 <= pt_idx v < 1024) by (rewrite pt_idx_div; lia_mod).
  assert (E : translate r' d v = translate r1 d v).
  { unfold translate. rewrite step_dir by lia. destruct (present (pde r1 d (pd_idx v))) eqn:Hp; [|done]. cbn [negb]. by rewrite step_word. }
  rewrite E, (table_set_translate r r1 c d (pd_idx addr) (pt_idx addr) t e v (si_space _ _ Hinv) Hts); try done; try lia.
  - destruct He as [-> _]. rewrite low12. pose proof (same_page v addr ltac:(lia) ltac:(destruct Hi; lia)).
    destruct (decide (pd_idx v = pd_idx addr /\ pt_idx v = pt_idx addr)), (decide (v / 4096 = addr / 4096)); tauto.
  - apply step_apart. - apply (si_words _ _ Hinv). - apply He. - apply Hi.
Qed.

(** The mapped pages of the space afterwards. *)
Lemma step_page i j : 10 <= i < 1023 -> 0 <= j < 1024 -> present (pde r1 d i) = true -> present (pte r1 (frame_of (pde r1 d i)) j) = true ->
  frame_of (pte r1 (frame_of (pde r1 d i)) j) = f \/
  exists g, frame_of (pte r1 (frame_of (pde r1 d i)) j) = g /\ present (pde r d i) = true /\ present (pte r (frame_of (pde r d i)) j) = true /\
    g = frame_of (pte r (frame_of (pde r d i)) j).
Proof.
  intros Hir Hj Hp. destruct (step_table i Hir Hp) as [[-> ->] | (Hne & -> & Hp2)].
  - rewrite (ts_word _ _ _ _ _ _ Hts) by done. destruct (decide (j = pt_idx addr)); [left; apply He|]. unfold space_word.
    destruct (present (pde r d (pd_idx addr))); [|done]. intros Hpj. right. eexists. done.
  - assert (E : pte r1 (frame_of (pde r d i)) j = pte r (frame_of (pde r d i)) j); [|rewrite E; intros Hpj; right; by eexists].
    pose proof (si_words _ _ Hinv i ltac:(lia)) as Hif. apply page_load; [done|]. intros x Hin. apply (ts_rest _ _ _ _ _ _ Hts); intros Hin2.
    + apply (pages_apart (frame_of (pde r d i)) d x x); try done. by apply (us_table _ _ _ (si_space _ _ Hinv)).
    + apply (pages_apart (frame_of (pde r d i)) t x x); try done. by apply step_apart.
Qed.

Lemma step_same_dir : same_dir r r' c.
Proof.
  apply (same_dir_trans _ r1).
  - apply (table_set_dir _ _ _ _ _ _ _ Hts); try done; [apply not_eq_sym, (si_space _ _ Hinv)|apply not_eq_sym, Htn].
  - apply (page_same_dir r1 r' c f); try done. apply Hft.
Qed.

(** A page mapped before is another frame than all that changed. *)
Lemma step_old i j : 10 <= i < 1023 -> 0 <= j < 1024 -> present (pde r d i) = true -> present (pte r (frame_of (pde r d i)) j) = true ->
  let g := frame_of (pte r (frame_of (pde r d i)) j) in is_frame g /\ g <> t /\ g <> d /\ g <> f.
Proof.
  intros Hir Hj Hp Hpj g. destruct (si_frame _ _ Hinv i j Hir Hj Hp Hpj) as (G1 & G2 & G3 & G4 & G5). split; [done|]. split; [|split; [done|by apply Hfresh]].
  pose proof (proj2 Hi) as Hai. unfold table_taken in Htk. destruct (present (pde r d (pd_idx addr))) eqn:Hpa.
  - destruct Htk as [-> _]. apply not_eq_sym. by apply G5.
  - destruct Htk as [Hst _]. intros E. apply G3. fold g. rewrite E, Hst. apply elem_of_cons. auto.
Qed.

Lemma step_inv : space_inv p' r'.
Proof.
  pose proof (proj2 Hi) as Hai. pose proof step_same_dir as Hsd. pose proof (si_space _ _ Hinv) as Hus.
  assert (Hs1 : user_space r1 c d).
  { apply (table_set_space r r1 c d (pd_idx addr) t _ Hus Hts); try done; [|apply step_apart]. 
    apply (table_set_dir _ _ _ _ _ _ _ Hts); try done; [apply not_eq_sym, Hus|apply not_eq_sym, Htn]. }
  assert (Hsd1 : same_dir r1 r' c) by (apply (page_same_dir r1 r' c f); try done; apply Hft).
  split.
  - split; [done|by apply (same_no_table r1), Hs1| |].
    + intros i Hir. rewrite step_dir by lia. intros Hp. destruct (us_table _ _ _ Hs1 i Hir Hp). split; [by apply (same_no_table r1)|done].
    + intros i j Hir Hjr. rewrite !step_dir by lia. by apply (us_apart _ _ _ Hs1).
  - split; [intros Hin; by apply (si_pool _ _ Hinv), step_pool|]. intros i Hir. rewrite step_dir by lia. intros Hp Hin.
    destruct (step_table i Hir Hp) as [[-> E] | (_ & E & Hp2)].
    + rewrite E in Hin. unfold table_taken in Htk. destruct (present (pde r d (pd_idx addr))) eqn:Hpa.
      * destruct Htk as [E2 E3]. rewrite E2, E3 in Hin. by apply (proj2 (si_pool _ _ Hinv) (pd_idx addr) Hai Hpa).
      * destruct Htk as [Hst _]. apply (NoDup_cons_1_1 t (pm_stack p')); [|done]. rewrite <- Hst. exact Honce.
    + rewrite E in Hin. by apply (proj2 (si_pool _ _ Hinv) i Hir Hp2), step_pool.
  - intros i j Hir Hj. rewrite step_dir by lia. intros Hp. rewrite step_word by done. intros Hpj g.
    assert (Hg : g = f \/ (g = frame_of (pte r (frame_of (pde r d i)) j) /\ present (pde r d i) = true /\ present (pte r (frame_of (pde r d i)) j) = true)).
    { destruct (step_page i j Hir Hj Hp Hpj) as [E | (h & E1 & E2 & E3 & E4)]; [by left|right]. unfold g. by rewrite E1. }
    destruct Hg as [-> | (-> & Hp0 & Hpj0)].
    + split; [done|]. split; [by apply (same_no_table r)|]. split; [intros Hin; by apply Hfp, step_pool|]. split; [done|].
      intros k Hk. rewrite step_dir by lia. apply step_no_f. done.
    + destruct (si_frame _ _ Hinv i j Hir Hj Hp0 Hpj0) as (G1 & G2 & G3 & G4 & G5). destruct (step_old i j Hir Hj Hp0 Hpj0) as (_ & Gt & _ & _).
      split; [done|]. split; [by apply (same_no_table r)|]. split; [intros Hin; by apply G3, step_pool|]. split; [done|].
      intros k Hk. rewrite step_dir by lia. intros Hpk. destruct (step_table k Hk Hpk) as [[_ ->] | (_ & -> & Hpk2)]; [by apply not_eq_sym|by apply G5].
  - intros i. apply Hwords.
Qed.

Lemma step_peek v : user_page v -> peek r' d v = if decide (v / 4096 = addr / 4096) then Some (r' (f + v mod 4096)) else peek r d v.
Proof.
  intros Hv. unfold peek. rewrite step_walk by done. destruct (decide (v / 4096 = addr / 4096)); [done|].
  destruct Hv as [Hv Hvi]. assert (Hj : 0 <= pt_idx v < 1024) by (rewrite pt_idx_div; lia_mod).
  unfold translate. destruct (present (pde r d (pd_idx v))) eqn:Hp; [|done]. cbn [negb].
  destruct (present (pte r (frame_of (pde r d (pd_idx v))) (pt_idx v))) eqn:Hpj; [|done]. cbn. f_equal.
  destruct (step_old (pd_idx v) (pt_idx v) Hvi Hj Hp Hpj) as (G1 & G2 & G3 & G4). set (g := frame_of (pte r (frame_of (pde r d (pd_idx v))) (pt_idx v))) in *.
  assert (Hin : in_page g (g + Z.land v 4095)) by (rewrite low12; unfold in_page; lia_mod).
  rewrite Hx by (intros Hin2; by apply (pages_apart g f (g + Z.land v 4095) (g + Z.land v 4095))).
  apply (ts_rest _ _ _ _ _ _ Hts); intros Hin2; [by apply (pages_apart g d (g + Z.land v 4095) (g + Z.land v 4095))|by apply (pages_apart g t (g + Z.land v 4095) (g + Z.land v 4095))].
Qed.
End step.
End space.

(** ** One page of a segment *)

Lemma blit_off p l r x : ~ (p <= x < p + zlen l) -> blit p l r x = r x.
Proof. intros H. unfold blit. destruct ((p <=? x) && (x <? p + zlen l)) eqn:E; [|done]. exfalso. apply H. apply andb_true_iff in E as [E1 E2]. lia. Qed.
Lemma blit_in p l r x y : p <= x < p + zlen l -> l !! Z.to_nat (x - p) = Some y -> blit p l r x = y.
Proof.
  intros H Hl. unfold blit. destruct ((p <=? x) && (x <? p + zlen l)) eqn:E; [by rewrite Hl|]. exfalso. apply andb_false_iff in E as [E | E]; lia.
Qed.
Lemma blit_bytes p l r : bytes l -> bytes_ok r -> bytes_ok (blit p l r).
Proof.
  intros Hl Hr x. unfold blit. destruct (_ && _); [|apply Hr]. destruct (l !! Z.to_nat (x - p)) as [y|] eqn:E; [|by cbn].
  cbn. pose proof (proj1 (list.Forall_forall _ _) Hl y (list_elem_of_lookup_2 _ _ _ E)) as Hy. unfold is_u8 in Hy. lia.
Qed.

Lemma rep_vwrite {B} c T p w r m v f o l (k : unit -> P B) : rep c T p w r m -> is_window v -> is_frame f -> w v = f + 3 -> f <> T -> f <> c ->
  0 <= o < 4096 -> o + zlen l <= 4096 -> bytes l ->
  exists m', (vwrite (v + o) l ≫= k) m = k tt m' /\ rep c T p w (blit (f + o) l r) m'.
Proof.
  intros Hm Hv Hf Hw HfT Hfc Ho Hl Hb. pose proof (rep_shows c T p w r m Hm v f o Hv Hf Hw Ho) as Hs. unfold vwrite, walk.
  rewrite run_assoc, (run_reads _ _ m (f + o)) by done. eexists. split; [reflexivity|]. destruct (rep_T c T p w r m Hm) as (HT & _ & Hcf).
  apply (rep_write c T p w r m Hm).
  - intros x Hx. unfold blit. by rewrite <- (rp_ram _ _ _ _ _ _ Hm x Hx).
  - apply blit_bytes; [done|apply (mk_bytes _ (rp_ok _ _ _ _ _ _ Hm))].
  - intros x [Hx | Hx]; apply blit_off; intros Hx2; [apply (pages_apart c f x x)|apply (pages_apart T f x x)]; try done; unfold in_page; lia.
Qed.

(** [map_page_in_directory] once the windows are open, with a frame to spare. *)
Lemma rep_map_dir c T p w r m d addr f flags : rep c T p w r m -> space_inv c d p r -> user_page addr -> is_frame f -> 0 <= flags < 4096 -> pm_stack p <> [] ->
  exists m' p' r' w' t, map_page_in_directory d addr f flags m = Some (true, m') /\ rep c T p' w' r' m' /\ is_frame t /\ no_table r c t /\ t <> d /\
    table_taken r d (pd_idx addr) t p p' /\
    table_set r r' d (pd_idx addr) t (fun k => if decide (k = pt_idx addr) then page_entry f flags else space_word r d (pd_idx addr) k).
Proof.
  intros Hm Hinv [Ha Hai] Hf Hfl Hst. pose proof (si_space _ _ _ _ Hinv) as Hs. unfold map_page_in_directory.
  destruct (rep_map _ _ _ _ _ _ Hm TEMP_PD_VIRT d window_dir (us_frame _ _ _ Hs)) as (m1 & Hrun & Hm1). rewrite (run_bind _ _ _ _ _ Hrun). clear Hrun.
  destruct (rep_map_in _ _ _ _ _ _ d addr f flags Hm1 ltac:(by rewrite upd_same) Hs (si_pool _ _ _ _ Hinv) Ha Hai Hf Hfl) as (b & m' & p' & r' & w' & -> & Hm' & Hb).
  destruct b; [|by destruct Hb]. destruct Hb as (t & H1 & H2 & H3 & H4 & H5). by exists m', p', r', w', t.
Qed.

(** The byte of a segment at [v]. *)
Definition seg_byte (img : list Z) (ph : ELF32_Phdr) (v : Z) : Z :=
  if (ph_vir_address ph <=? v) && (v <? ph_vir_address ph + ph_file_size ph) then default 0 (img !! Z.to_nat (ph_offset ph + (v - ph_vir_address ph))) else 0.

(** What is left of the file when the page at [addr] is reached. *)
Definition left_at (ph : ELF32_Phdr) (addr : Z) : Z := Z.max 0 (ph_file_size ph - Z.max 0 (addr - ph_vir_address ph)).

(** A segment whose bytes are in the binary. *)
Definition seg_ok (img : list Z) (ph : ELF32_Phdr) : Prop :=
  0 <= ph_offset ph /\ 0 <= ph_file_size ph /\ 0 <= ph_mem_size ph /\ 0 <= ph_vir_address ph < 4294967296 /\ ph_offset ph + ph_file_size ph <= zlen img.

Lemma copy_plan ph addr : 0 <= ph_file_size ph -> 0 <= addr < 4294967296 -> 0 <= ph_vir_address ph < 4294967296 -> ph_vir_address ph - addr < 4096 ->
  let vir := ph_vir_address ph in
  let copy_start := if addr <? vir then vir -32 addr else 0 in
  let copy_bytes := if (0 <? left_at ph addr) && (copy_start <? PAGE_SIZE) then
      let n := PAGE_SIZE - copy_start in if left_at ph addr <? n then left_at ph addr else n else 0 in
  copy_start = Z.max 0 (vir - addr) /\ copy_bytes = Z.min (left_at ph addr) (4096 - copy_start).
Proof.
  intros H1 H2 H3 H4 vir copy_start copy_bytes. assert (E : copy_start = Z.max 0 (vir - addr)).
  { unfold copy_start. destruct (Z.ltb_spec addr vir); [rewrite u32_small by (unfold is_u32, vir in *; lia); lia|lia]. }
  split; [done|]. unfold copy_bytes. unfold PAGE_SIZE. rewrite E. unfold left_at, vir in *.
  destruct (Z.ltb_spec 0 (Z.max 0 (ph_file_size ph - Z.max 0 (addr - ph_vir_address ph)))); cbn [andb]; [|lia].
  destruct (Z.ltb_spec (Z.max 0 (ph_vir_address ph - addr)) 4096); [|lia].
  destruct (Z.ltb_spec (Z.max 0 (ph_file_size ph - Z.max 0 (addr - ph_vir_address ph))) (4096 - Z.max 0 (ph_vir_address ph - addr))); lia.
Qed.

Lemma left_next ph addr : 0 <= ph_file_size ph -> ph_vir_address ph - addr < 4096 ->
  left_at ph addr - Z.min (left_at ph addr) (4096 - Z.max 0 (ph_vir_address ph - addr)) = left_at ph (addr + 4096).
Proof. intros. unfold left_at. lia. Qed.

(** The bytes the page gets. *)
Lemma page_bytes img ph addr f r k : seg_ok img ph -> 0 <= addr -> ph_vir_address ph - addr < 4096 -> 0 <= k < 4096 ->
  let o := Z.max 0 (ph_vir_address ph - addr) in
  let n := Z.min (left_at ph addr) (4096 - o) in
  let src := take (Z.to_nat n) (drop (Z.to_nat (ph_offset ph + (ph_file_size ph - left_at ph addr))) img) in
  zlen src = n /\ (if 0 <? n then blit (f + o) src (fill f 4096 0 r) else fill f 4096 0 r) (f + k) = seg_byte img ph (addr + k).
Proof.
  intros (S1 & S2 & S3 & S4 & S5) Ha Hlt Hk o n src. assert (Hn : 0 <= n) by (unfold n, o, left_at; lia).
  assert (Hlen : zlen src = n). { unfold zlen, src in *. rewrite length_take, length_drop. unfold zlen in S5. unfold n, o, left_at in *. lia. }
  split; [done|]. set (a := ph_offset ph + (ph_file_size ph - left_at ph addr)) in *.
  assert (Hz : fill f 4096 0 r (f + k) = 0) by (apply fill_in; unfold in_page; lia). unfold seg_byte.
  destruct ((ph_vir_address ph <=? addr + k) && (addr + k <? ph_vir_address ph + ph_file_size ph)) eqn:E.
  - apply andb_true_iff in E as [E1 E2]. rewrite (proj2 (Z.ltb_lt 0 n)) by (unfold n, o, left_at; lia).
    assert (Hx : 0 <= a + (k - o) < zlen img) by (unfold a, o, left_at; lia).
    destruct (lookup_lt_is_Some_2 img (Z.to_nat (a + (k - o)))) as [y Hy]; [unfold zlen in Hx; lia|].
    rewrite (blit_in _ _ _ _ y).
    + replace (ph_offset ph + (addr + k - ph_vir_address ph)) with (a + (k - o)) by (unfold a, o, left_at; lia). by rewrite Hy.
    + rewrite Hlen. unfold n, o, left_at. lia.
    + unfold src. rewrite lookup_take_lt by (unfold n, o, left_at; lia). rewrite lookup_drop. rewrite <- Hy. f_equal. unfold a, o, left_at. lia.
  - apply andb_false_iff in E. destruct (Z.ltb_spec 0 n) as [Hp | Hp]; [|done]. rewrite blit_off; [done|]. rewrite Hlen. unfold n, o, left_at. lia.
Qed.

(** The state of a load: the machine, the pool and the space. *)
Record loaded (c d : Z) (p p' : pmm) (r r' : ram) (byte : Z -> option Z) (cost : nat) : Prop := {
  ld_inv : space_inv c d p' r';
  ld_pool : (length (pm_stack p) <= length (pm_stack p') + cost)%nat;
  ld_sub : forall f, f ∈ pm_stack p' -> f ∈ pm_stack p;
  ld_dir : same_dir r r' c;
  ld_kernel : forall i, 0 <= i < 10 -> pde r' d i = pde r d i;
  ld_off : off_tables r r' c;
  ld_byte : forall v, user_page v -> peek r' d v = byte v }.

Lemma rep_nodup c T p w r m : rep c T p w r m -> NoDup (pm_stack p).
Proof. intros Hm. rewrite <- (rp_pmm _ _ _ _ _ _ Hm). apply (mk_once _ (rp_ok _ _ _ _ _ _ Hm)). Qed.

(** A frame taken from the pool is not in the space. *)
Lemma space_inv_alloc c d p r f rest : space_inv c d p r -> pm_stack p = f :: rest -> NoDup (pm_stack p) ->
  space_inv c d (mkPmm rest (pm_total_frames p)) r /\ f <> d /\ f ∉ rest /\
  (forall k, 10 <= k < 1023 -> present (pde r d k) = true -> frame_of (pde r d k) <> f) /\
  (forall i j, 10 <= i < 1023 -> 0 <= j < 1024 -> present (pde r d i) = true -> present (pte r (frame_of (pde r d i)) j) = true ->
    frame_of (pte r (frame_of (pde r d i)) j) <> f).
Proof.
  intros [H1 H2 H3 H4] Hst Hnd. unfold off_pool in H2. rewrite Hst in *. apply list.NoDup_cons in Hnd as [Hf Hnd].
  assert (Hsub : forall g, g ∉ f :: rest -> g ∉ rest /\ g <> f) by (intros g Hg; apply not_elem_of_cons in Hg as [? ?]; done).
  split; [split|split; [|split; [done|split]]]; try done.
  - split; cbn [pm_stack]; [exact (proj1 (Hsub _ (proj1 H2)))|]. intros i Hi Hp. exact (proj1 (Hsub _ (proj2 H2 i Hi Hp))).
  - intros i j Hi Hj Hp Hpj. destruct (H3 i j Hi Hj Hp Hpj) as (G1 & G2 & G3 & G4 & G5). split; [done|]. split; [done|]. split; [|done]. exact (proj1 (Hsub _ G3)).
  - exact (not_eq_sym (proj2 (Hsub _ (proj1 H2)))).
  - intros k Hk Hp. exact (proj2 (Hsub _ (proj2 H2 k Hk Hp))).
  - intros i j Hi Hj Hp Hpj. destruct (H3 i j Hi Hj Hp Hpj) as (_ & _ & G3 & _). exact (proj2 (Hsub _ G3)).
Qed.

Lemma rep_load_page c T d p w r m img ph addr : rep c T p w r m -> space_inv c d p r -> bytes img -> zlen img < 4294967296 -> seg_ok img ph ->
  user_page addr -> addr mod 4096 = 0 -> ph_vir_address ph - addr < 4096 -> (2 <= length (pm_stack p))%nat ->
  exists m' p' w' r', load_page img d (ph_vir_address ph) addr (ph_offset ph + (ph_file_size ph - left_at ph addr)) (left_at ph addr) m =
      Some (Some (ph_offset ph + (ph_file_size ph - left_at ph (addr + 4096)), left_at ph (addr + 4096)), m') /\ rep c T p' w' r' m' /\
    loaded c d p p' r r' (fun v => if decide (v / 4096 = addr / 4096) then Some (seg_byte img ph v) else peek r d v) 2.
Proof.
  intros Hm Hinv Hb Hz Hseg Hu Hal Hlt Hl. destruct (pm_stack p) as [|f rest] eqn:Hst; [cbn in Hl; lia|]. pose proof (rep_nodup _ _ _ _ _ _ Hm) as Hnd.
  destruct (rep_pool _ _ _ _ _ _ Hm f) as (Hf & Hf0 & Hfn); [rewrite Hst; apply elem_of_cons; auto|]. pose proof (no_table_T _ _ _ _ _ _ Hm f Hfn) as HfT.
  destruct (space_inv_alloc c d p r f rest Hinv Hst Hnd) as (Hinv1 & Hfd & Hfr & Hft & Hfpg). pose proof (rep_T _ _ _ _ _ _ Hm) as (_ & _ & Hc).
  unfold load_page. match goal with |- context [(alloc_frame ≫= ?k) m] => destruct (rep_alloc _ _ _ _ _ _ Hm f rest k Hst) as (m1 & -> & Hm1 & _) end.
  rewrite (proj2 (Z.eqb_neq f 0)) by done. change (Z.lor (Z.lor PAGE_PRESENT PAGE_WRITE) PAGE_USER) with 7.
  destruct (rep_map_dir _ _ _ _ _ _ d addr f 7 Hm1 Hinv1 Hu Hf ltac:(lia)) as (m2 & p2 & r2 & w2 & t & Hrun & Hm2 & Ht & Htn & Htd & Htk & Hts).
  { cbn in Hl |- *. destruct rest; [cbn in Hl; lia|done]. }
  rewrite (run_bind _ _ _ _ _ Hrun). clear Hrun.
  destruct (rep_map _ _ _ _ _ _ Hm2 TEMP_MAP_VIRT f window_map Hf) as (m3 & Hrun & Hm3). rewrite (run_bind _ _ _ _ _ Hrun). clear Hrun.
  match goal with |- context [(vclear _ ≫= ?k) m3] => destruct (rep_clear _ _ _ _ _ _ Hm3 TEMP_MAP_VIRT f k) as (m4 & -> & Hm4) end;
    [apply window_map|done|by rewrite upd_same|done|apply Hfn|].
  destruct Hseg as (S1 & S2 & S3 & S4 & S5). pose proof (copy_plan ph addr S2 ltac:(apply Hu) S4 Hlt) as [Es En].
  cbv zeta in Es, En |- *. rewrite Es in En |- *. rewrite En. clear Es En.
  set (o := Z.max 0 (ph_vir_address ph - addr)). set (n := Z.min (left_at ph addr) (4096 - o)). set (a := ph_offset ph + (ph_file_size ph - left_at ph addr)).
  assert (Hseg : seg_ok img ph) by done. assert (Hla : 0 <= left_at ph addr <= ph_file_size ph) by (unfold left_at; lia).
  set (src := take (Z.to_nat n) (drop (Z.to_nat a) img)).
  assert (Hlen : zlen src = n) by by apply (page_bytes img ph addr f r 0 Hseg ltac:(destruct Hu; lia) Hlt ltac:(lia)).
  set (r4 := if 0 <? n then blit (f + o) src (fill f 4096 0 r2) else fill f 4096 0 r2).
  assert (Hstep : exists m5, (if 0 <? n then src ← source_bytes img a n; vwrite (TEMP_MAP_VIRT + o) src else mret tt) m4 = Some (tt, m5) /\
    rep c T p2 (upd w2 TEMP_MAP_VIRT (f + 3)) r4 m5).
  { unfold r4. destruct (Z.ltb_spec 0 n) as [Hn | Hn]; [|by exists m4]. unfold source_bytes.
    rewrite (run_reads _ _ m4 src).
    2: { apply slice_in_range. unfold a, n, o in *. unfold zlen in S5. lia. }
    destruct (rep_vwrite _ _ _ _ _ _ TEMP_MAP_VIRT f o src (fun _ => mret tt) Hm4 window_map Hf ltac:(by rewrite upd_same) HfT (proj1 Hfn)) as (m5 & Hrun & Hm5);
      [unfold n, o in *; lia|rewrite Hlen; unfold n, o in *; lia|by apply bytes_take, bytes_drop|]. exists m5. split; [by apply (run_last _ tt)|done]. }
  destruct Hstep as (m5 & Hrun & Hm5). rewrite (run_bind _ _ _ _ _ Hrun). clear Hrun.
  destruct (rep_unmap _ _ _ _ _ _ Hm5 TEMP_MAP_VIRT window_map) as (m6 & Hrun & Hm6). rewrite (run_bind _ _ _ _ _ Hrun). clear Hrun.
  pose proof (left_next ph addr S2 Hlt) as Hnext. fold o n in Hnext.
  assert (Hx4 : forall x, ~ in_page f x -> r4 x = r2 x).
  { intros x Hx. unfold r4. destruct (0 <? n); [rewrite blit_off; [by apply fill_page|]|by apply fill_page]. intros Hin. apply Hx. unfold in_page, n, o in *. rewrite Hlen in Hin. lia. }
  eexists m6, p2, _, r4. split; [|split; [exact Hm6|]].
  { assert (E1 : a +32 n = ph_offset ph + (ph_file_size ph - left_at ph (addr + 4096))).
    { rewrite <- Hnext. rewrite u32_small; [unfold a; lia|]. unfold is_u32, a, n, o in *. lia. }
    assert (E2 : left_at ph addr -32 n = left_at ph (addr + 4096)).
    { rewrite u32_small; [done|]. unfold is_u32, n, o in *. lia. }
    by rewrite E1, E2. }
  assert (Htf : t <> f).
  { unfold table_taken in Htk. cbn [pm_stack] in Htk. destruct (present (pde r d (pd_idx addr))) eqn:Hp; [destruct Htk as [-> _]; apply Hft; [apply Hu|done]|].
    destruct Htk as [E _]. intros ->. apply Hfr. rewrite E. apply elem_of_cons. auto. }
  destruct (page_entry_spec f 7 Hf ltac:(lia)) as (E1 & E2 & _). pose proof (si_space _ _ _ _ Hinv1) as Hus.
  assert (Hus2 : is_frame d /\ d <> T) by (split; [apply Hus|by apply (no_table_T _ _ _ _ _ _ Hm), Hus]). destruct Hus2 as [Hd HdT].
  assert (Hw2 : forall i, 0 <= i < 1024 -> is_frame (frame_of (pde r2 d i))) by (intros i Hi; by apply (rep_frame _ _ _ _ _ _ d i Hm2)).
  assert (Hw4 : forall i, 0 <= i < 1024 -> is_frame (frame_of (pde r4 d i))) by (intros i Hi; by apply (rep_frame _ _ _ _ _ _ d i Hm6)).
  pose proof (rep_nodup _ _ _ _ _ _ Hm1) as Hnd1. assert (Hfp : f ∉ pm_stack (mkPmm rest (pm_total_frames p))) by done.
  split.
  - by apply (step_inv c d (mkPmm rest (pm_total_frames p)) p2 r r2 r4 addr f t (page_entry f 7)).
  - unfold table_taken in Htk. cbn [pm_stack] in Htk. rewrite Hst. destruct (present (pde r d (pd_idx addr))); [destruct Htk as [_ ->]; cbn; lia|].
    destruct Htk as [-> _]. cbn. lia.
  - intros g Hg. rewrite Hst. apply elem_of_cons. right. by apply (step_pool d (mkPmm rest (pm_total_frames p)) p2 r addr t Htk).
  - eapply step_same_dir; [exact Hinv1|exact Hf|exact Hfn|exact Hc|exact Ht|exact Htn|exact Hts|exact Hx4].
  - intros i Hi. transitivity (pde r2 d i).
    + apply page_load; [lia|]. intros x Hx. apply Hx4. intros Hx2. by apply (pages_apart d f x x).
    + apply (ts_there _ _ _ _ _ _ Hts); [lia|]. pose proof (proj2 Hu). lia.
  - intros x Hx. destruct (decide (f <= x < f + 4096)) as [Hin | Hin]; [by exists f|].
    destruct (decide (d <= x < d + 4096)) as [Hin2 | Hin2]; [exists d; split; [done|]; split; [apply Hus|done]|].
    exists t. split; [done|]. split; [done|]. destruct (decide (t <= x < t + 4096)) as [Hin3 | Hin3]; [done|]. exfalso. apply Hx. rewrite Hx4 by done.
    by apply (ts_rest _ _ _ _ _ _ Hts).
  - intros v Hv. rewrite (step_peek c d (mkPmm rest (pm_total_frames p)) p2 r r2 r4 addr f t (page_entry f 7)); try done.
    destruct (decide (v / 4096 = addr / 4096)) as [Hpg | Hpg]; [|done]. f_equal.
    replace v with (addr + v mod 4096) at 2 by lia_mod. apply (page_bytes img ph addr f r2 (v mod 4096) Hseg); [destruct Hu; lia|done|lia_mod].
Qed.

(** ** A segment *)

Lemma loaded_trans c d p p1 p2 r r1 r2 b1 b2 k1 k2 : loaded c d p p1 r r1 b1 k1 -> loaded c d p1 p2 r1 r2 b2 k2 -> loaded c d p p2 r r2 b2 (k1 + k2).
Proof.
  intros [H1 H2 H3 H4 H5 H6 H7] [G1 G2 G3 G4 G5 G6 G7]. split; [done|lia|auto|by apply (same_dir_trans _ r1)| |by apply (off_tables_trans _ r1)|done].
  intros i Hi. rewrite G5 by done. by apply H5.
Qed.

Lemma loaded_ext c d p p' r r' b b' k : loaded c d p p' r r' b k -> (forall v, user_page v -> b v = b' v) -> loaded c d p p' r r' b' k.
Proof. intros [H1 H2 H3 H4 H5 H6 H7] Hb. split; try done. intros v Hv. rewrite <- Hb by done. by apply H7. Qed.

Lemma loaded_none c d p r : space_inv c d p r -> loaded c d p p r r (peek r d) 0.
Proof. intros H. split; [done|lia|done|apply same_dir_refl|done|by intros x Hx|done]. Qed.

Definition in_pages (addr : Z) (n : nat) (v : Z) : bool := (addr / 4096 <=? v / 4096) && (v / 4096 <? addr / 4096 + Z.of_nat n).

Lemma in_pages_S addr n v : addr mod 4096 = 0 -> in_pages addr (S n) v = bool_decide (v / 4096 = addr / 4096) || in_pages (addr + 4096) n v.
Proof.
  intros Ha. unfold in_pages. assert (E : (addr + 4096) / 4096 = addr / 4096 + 1) by lia_mod. rewrite E.
  destruct (bool_decide_reflect (v / 4096 = addr / 4096)) as [-> | Hne]; cbn [orb].
  - apply andb_true_iff. split; [apply Z.leb_le; lia|apply Z.ltb_lt; lia].
  - destruct (Z.leb_spec (addr / 4096) (v / 4096)), (Z.leb_spec (addr / 4096 + 1) (v / 4096)), (Z.ltb_spec (v / 4096) (addr / 4096 + Z.of_nat (S n))),
      (Z.ltb_spec (v / 4096) (addr / 4096 + 1 + Z.of_nat n)); done || lia.
Qed.

Lemma rep_load_pages c T d img ph n : forall p w r m addr, rep c T p w r m -> space_inv c d p r -> bytes img -> zlen img < 4294967296 -> seg_ok img ph ->
  0x2800000 <= addr -> addr + 4096 * Z.of_nat n <= 0xFFC00000 -> addr mod 4096 = 0 -> ph_vir_address ph - addr < 4096 -> (2 * n <= length (pm_stack p))%nat ->
  exists m' p' w' r', load_pages img d (ph_vir_address ph) (frames_from addr n) (ph_offset ph + (ph_file_size ph - left_at ph addr)) (left_at ph addr) m =
      Some (true, m') /\ rep c T p' w' r' m' /\
    loaded c d p p' r r' (fun v => if in_pages addr n v then Some (seg_byte img ph v) else peek r d v) (2 * n).
Proof.
  induction n as [|n IH]; intros p w r m addr Hm Hinv Hb Hz Hseg Hlo Hhi Hal Hlt Hl.
  { exists m, p, w, r. split; [done|]. split; [done|]. apply (loaded_ext _ _ _ _ _ _ (peek r d)); [by apply loaded_none|]. intros v _.
    unfold in_pages. destruct (Z.leb_spec (addr / 4096) (v / 4096)), (Z.ltb_spec (v / 4096) (addr / 4096 + Z.of_nat 0)); done || lia. }
  rewrite frames_from_S. cbn [load_pages]. assert (Hu : user_page addr) by (split; [lia|rewrite pd_idx_div; lia_mod]).
  destruct (rep_load_page c T d p w r m img ph addr Hm Hinv Hb Hz Hseg Hu Hal Hlt ltac:(lia)) as (m1 & p1 & w1 & r1 & Hrun & Hm1 & Hld).
  rewrite (run_bind _ _ _ _ _ Hrun). clear Hrun.
  destruct (IH p1 w1 r1 m1 (addr + 4096) Hm1 (ld_inv _ _ _ _ _ _ _ _ Hld) Hb Hz Hseg) as (m' & p' & w' & r' & -> & Hm' & Hld'); [lia|lia|lia_mod|lia| |].
  { pose proof (ld_pool _ _ _ _ _ _ _ _ Hld). lia. }
  exists m', p', w', r'. split; [done|]. split; [done|]. replace (2 * S n)%nat with (2 + 2 * n)%nat by lia.
  eapply loaded_ext; [by apply (loaded_trans _ _ _ _ _ _ _ _ _ _ _ _ Hld Hld')|]. intros v Hv. cbn beta. rewrite in_pages_S by done.
  rewrite (ld_byte _ _ _ _ _ _ _ _ Hld v Hv). destruct (in_pages (addr + 4096) n v); [by rewrite orb_true_r|]. rewrite orb_false_r.
  case_bool_decide; [by rewrite decide_True|by rewrite decide_False].
Qed.

(** ** All segments *)

Definition covers (ph : ELF32_Phdr) (v : Z) : bool := (seg_start ph <=? v) && (v <? seg_end ph).
Definition seg_pages (ph : ELF32_Phdr) : nat := Z.to_nat ((seg_end ph - seg_start ph) / PAGE_SIZE).

(** What the loader leaves at [v]: the last segment that covers its page. *)
Definition image_at (img : list Z) (segs : list ELF32_Phdr) (old : option Z) (v : Z) : option Z :=
  foldl (fun acc ph => if covers ph v then Some (seg_byte img ph v) else acc) old segs.

(** The loadable segments of a binary. *)
Fixpoint segments (img : list Z) (phdrs : Z) (todo : list Z) : option (list ELF32_Phdr) :=
  match todo with
  | [] => Some []
  | i :: todo' =>
      type ← phdr_type img phdrs i;
      if negb (type =? PT_LOAD) then segments img phdrs todo'
      else ph ← phdr img phdrs i; rest ← segments img phdrs todo'; Some (ph :: rest)
  end.

(** A segment of the user's part of the address space. *)
Definition seg_fits (img : list Z) (ph : ELF32_Phdr) : Prop :=
  seg_ok img ph /\ 0x2800000 <= ph_vir_address ph /\ ph_vir_address ph + ph_mem_size ph + 4095 < 0xFFC00000.

Lemma align_down x : 0 <= x < 4294967296 -> PAGE_ALIGN_DOWN x = x - x mod 4096.
Proof. intros. by apply frame_of_sub. Qed.

Lemma seg_bounds img ph : seg_fits img ph -> seg_start ph = ph_vir_address ph - ph_vir_address ph mod 4096 /\
  seg_end ph = (ph_vir_address ph + ph_mem_size ph + 4095) / 4096 * 4096.
Proof.
  intros ((S1 & S2 & S3 & S4 & S5) & Hlo & Hhi). unfold seg_start, seg_end, PAGE_ALIGN_UP, PAGE_SIZE. split; [by apply align_down|].
  rewrite (u32_small (ph_vir_address ph + ph_mem_size ph)), u32_small by (unfold is_u32; lia). change (4096 - 1) with 4095.
  etransitivity; [apply (align_down (ph_vir_address ph + ph_mem_size ph + 4095)); lia|lia_mod].
Qed.

Lemma covers_pages img ph v : seg_fits img ph -> 0 <= v -> covers ph v = in_pages (seg_start ph) (seg_pages ph) v.
Proof.
  intros Hf Hv. destruct (seg_bounds img ph Hf) as [E1 E2]. destruct Hf as ((S1 & S2 & S3 & S4 & S5) & Hlo & Hhi). unfold covers, in_pages, seg_pages, PAGE_SIZE.
  rewrite E1, E2. set (a := ph_vir_address ph) in *. set (e := (a + ph_mem_size ph + 4095) / 4096) in *.
  replace (e * 4096 - (a - a mod 4096)) with ((e - a / 4096) * 4096) by lia_mod. rewrite Z.div_mul by lia.
  assert (He : a / 4096 <= e) by (unfold e; apply Z.div_le_mono; lia). rewrite Z2Nat.id by lia.
  replace ((a - a mod 4096) / 4096) with (a / 4096) by lia_mod. replace (a / 4096 + (e - a / 4096)) with e by lia.
  f_equal; apply eq_true_iff_eq; rewrite ?Z.leb_le, ?Z.ltb_lt; lia_mod.
Qed.

Definition all_pages (segs : list ELF32_Phdr) : nat := sum_list_with seg_pages segs.

Lemma rep_load_segment c T d img ph p w r m : rep c T p w r m -> space_inv c d p r -> bytes img -> zlen img < 4294967296 -> seg_fits img ph ->
  (2 * seg_pages ph <= length (pm_stack p))%nat ->
  exists m' p' w' r', load_segment img d ph m = Some (true, m') /\ rep c T p' w' r' m' /\
    loaded c d p p' r r' (fun v => if covers ph v then Some (seg_byte img ph v) else peek r d v) (2 * seg_pages ph).
Proof.
  intros Hm Hinv Hb Hz Hf Hl. destruct (seg_bounds img ph Hf) as [E1 E2]. pose proof Hf as (Hseg & Hlo & Hhi). pose proof Hseg as (S1 & S2 & S3 & S4 & S5).
  assert (Hpg : page_addresses (seg_start ph) (seg_end ph) = frames_from (seg_start ph) (seg_pages ph)).
  { unfold page_addresses, frames_from, seg_pages. rewrite Z2Nat.id; [done|]. unfold PAGE_SIZE. apply Z.div_pos; [|lia]. rewrite E1, E2. lia_mod. }
  assert (Hstart : left_at ph (seg_start ph) = ph_file_size ph) by (unfold left_at; lia_mod).
  destruct (rep_load_pages c T d img ph (seg_pages ph) p w r m (seg_start ph) Hm Hinv Hb Hz Hseg) as (m' & p' & w' & r' & Hrun & Hm' & Hld);
    [lia_mod| |lia_mod|lia_mod|done|].
  { unfold seg_pages, PAGE_SIZE. rewrite Z2Nat.id by (apply Z.div_pos; [|lia]; rewrite E1, E2; lia_mod). rewrite E1, E2. lia_mod. }
  rewrite Hstart, Z.sub_diag, Z.add_0_r in Hrun. exists m', p', w', r'. split; [unfold load_segment; by rewrite Hpg|]. split; [done|].
  eapply loaded_ext; [exact Hld|]. intros v [Hv _]. cbn beta. by rewrite (covers_pages img ph v Hf) by lia.
Qed.

Lemma rep_load_segments c T d img phdrs todo : forall segs p w r m, rep c T p w r m -> space_inv c d p r -> bytes img -> zlen img < 4294967296 ->
  segments img phdrs todo = Some segs -> Forall (seg_fits img) segs -> (2 * all_pages segs <= length (pm_stack p))%nat ->
  exists m' p' w' r', load_segments img phdrs d todo m = Some (true, m') /\ rep c T p' w' r' m' /\
    loaded c d p p' r r' (fun v => image_at img segs (peek r d v) v) (2 * all_pages segs).
Proof.
  induction todo as [|i todo IH]; intros segs p w r m Hm Hinv Hb Hz Hs Hf Hl; cbn [segments load_segments] in *.
  { injection Hs as <-. exists m, p, w, r. split; [done|]. split; [done|]. by apply loaded_none. }
  destruct (phdr_type img phdrs i) as [ty|] eqn:Hty; [|done]. cbn in Hs. rewrite (run_reads _ _ m ty) by done.
  destruct (ty =? PT_LOAD); cbn [negb] in Hs |- *; [|by apply (IH segs p w r m)].
  destruct (phdr img phdrs i) as [ph|] eqn:Hph; [|done]. cbn in Hs. destruct (segments img phdrs todo) as [segs'|] eqn:Hsegs; [|done]. injection Hs as <-.
  apply Forall_cons_1 in Hf as [Hf1 Hf]. unfold all_pages in Hl. cbn [sum_list_with foldr] in Hl.
  rewrite (run_reads _ _ m ph) by done.
  destruct (rep_load_segment c T d img ph p w r m Hm Hinv Hb Hz Hf1 ltac:(unfold sum_list_with in *; lia)) as (m1 & p1 & w1 & r1 & Hrun & Hm1 & Hld).
  rewrite (run_bind _ _ _ _ _ Hrun). clear Hrun. cbn [negb].
  destruct (IH segs' p1 w1 r1 m1 Hm1 (ld_inv _ _ _ _ _ _ _ _ Hld) Hb Hz eq_refl Hf) as (m' & p' & w' & r' & -> & Hm' & Hld').
  { pose proof (ld_pool _ _ _ _ _ _ _ _ Hld). unfold all_pages, sum_list_with in *. lia. }
  exists m', p', w', r'. split; [done|]. split; [done|]. replace (2 * all_pages (ph :: segs'))%nat with (2 * seg_pages ph + 2 * all_pages segs')%nat by (unfold all_pages; cbn; lia).
  eapply loaded_ext; [by apply (loaded_trans _ _ _ _ _ _ _ _ _ _ _ _ Hld Hld')|]. intros v Hv. cbn beta. by rewrite (ld_byte _ _ _ _ _ _ _ _ Hld v Hv).
Qed.

(** The segments a binary declares. *)
Definition elf_segments (img : list Z) : option (list ELF32_Phdr) :=
  phdrs ← elf_prog_headers img; n ← program_header_count img; segments img phdrs (seqZ 0 n).

Lemma rep_start m : mach_ok m -> present (pde (m_ram m) (m_cr3 m) 1022) = true ->
  exists T w, rep (m_cr3 m) T (m_pmm m) w (m_ram m) m.
Proof.
  intros Hm Hp. exists (frame_of (pde (m_ram m) (m_cr3 m) 1022)), (window_words m). split; try done.
  intros v Hv. unfold window_words, old_word. by rewrite Hp.
Qed.

Lemma rep_elf c T d img segs p w r m : rep c T p w r m -> space_inv c d p r -> d <> 0 -> bytes img -> zlen img < 4294967296 ->
  elf_segments img = Some segs -> Forall (seg_fits img) segs -> (2 * all_pages segs <= length (pm_stack p))%nat ->
  exists m' p' w' r', elf_load_segs (Some img) d m = Some (true, m') /\ rep c T p' w' r' m' /\
    loaded c d p p' r r' (fun v => image_at img segs (peek r d v) v) (2 * all_pages segs).
Proof.
  intros Hm Hinv H0 Hb Hz Hs Hf Hl. unfold elf_load_segs. rewrite (proj2 (Z.eqb_neq d 0)) by done. unfold elf_segments in Hs.
  apply bind_Some in Hs as (phdrs & Hph & Hs). apply bind_Some in Hs as (n & Hn & Hs).
  rewrite (run_reads _ _ m phdrs), (run_reads _ _ m n) by done. by apply (rep_load_segments c T d img phdrs (seqZ 0 n) segs p w r m).
Qed.
