(* ===== verification/Exec.v ===== *)
(** * Starting a program

    The address space [exec_user] builds from a binary: the program's segments and
    its stack, or nothing. *)

From stdpp Require Import list_numbers.
From S2P Require Import Prelude StateMonad Pmm Paging PagingMem PagingMap PagingWin PagingSpace PagingFree PagingBoot Elf ElfLoad.

#[local] Open Scope Z_scope.

(** ** Between the calls *)

(** The bytes of the space, in the whole memory. *)
Lemma rep_peek c T p w r m d v : rep c T p w r m -> space_inv c d p r -> user_page v -> peek (m_ram m) d v = peek r d v.
Proof.
  intros Hm Hinv [Hv Hi]. assert (Hj : 0 <= pt_idx v < 1024) by (rewrite pt_idx_div; lia_mod).
  destruct (rep_user c T p w r m d Hm (si_space _ _ _ _ Hinv)) as (_ & Hpd & Hwd). unfold peek.
  rewrite (translate_same r (m_ram m) d v) by (done || lia). rewrite translate_word. destruct (present (pde r d (pd_idx v))) eqn:Hp; [|done].
  unfold space_word. rewrite Hp. destruct (present (pte r (frame_of (pde r d (pd_idx v))) (pt_idx v))) eqn:Hpj; [|done]. cbn. f_equal.
  destruct (si_frame _ _ _ _ Hinv _ _ Hi Hj Hp Hpj) as (G1 & G2 & _). eapply rep_page; [exact Hm|exact G1|by apply (no_table_T _ _ _ _ _ _ Hm)|].
  rewrite low12. unfold in_page. lia_mod.
Qed.

Lemma fresh_inv m m' d : mach_ok m' -> m_cr3 m' = m_cr3 m -> other m' d -> fresh_space (m_ram m) (m_ram m') (m_cr3 m) d ->
  space_inv (m_cr3 m') d (m_pmm m') (m_ram m') /\ forall v, user_page v -> peek (m_ram m') d v = None.
Proof.
  intros Hm' Hc Ho Hfs. destruct (fresh_user_space m m' d Hm' Hc Ho Hfs) as [Hs Hoff]. split; [split; [done|done| |]|].
  - intros i j Hi Hj. by rewrite (fs_user _ _ _ _ Hfs) by lia.
  - intros i _. apply frame_of_frame, load_range, Hm'.
  - intros v [Hv Hi]. unfold peek, translate. by rewrite (fs_user _ _ _ _ Hfs) by lia.
Qed.

Definition STACK_PAGE : Z := USER_STACK_TOP - USER_STACK_SIZE.
Lemma stack_page : user_page STACK_PAGE. Proof. by vm_compute. Qed.

(** A frame from the pool, mapped for the stack. *)
Lemma rep_stack c T p w r m d f rest : rep c T p w r m -> space_inv c d p r -> pm_stack p = f :: rest -> rest <> [] ->
  forall m1, rep c T (mkPmm rest (pm_total_frames p)) w r m1 ->
  exists m' p' r' w', map_page_in_directory d STACK_PAGE f 7 m1 = Some (true, m') /\ rep c T p' w' r' m' /\ space_inv c d p' r' /\ same_dir r r' c /\ off_tables r r' c /\
    (forall v, user_page v -> translate r' d v = if decide (v / 4096 = STACK_PAGE / 4096) then Some (f + v mod 4096) else translate r d v) /\
    (forall v, user_page v -> v / 4096 <> STACK_PAGE / 4096 -> peek r' d v = peek r d v) /\
    (forall i, 0 <= i < 10 -> pde r' d i = pde r d i).
Proof.
  intros Hm Hinv Hst Hne m1 Hm1. pose proof (rep_nodup _ _ _ _ _ _ Hm) as Hnd. pose proof (rep_T _ _ _ _ _ _ Hm) as (_ & _ & Hc).
  destruct (rep_pool _ _ _ _ _ _ Hm f) as (Hf & _ & Hfn); [rewrite Hst; apply elem_of_cons; auto|].
  destruct (space_inv_alloc c d p r f rest Hinv Hst Hnd) as (Hinv1 & Hfd & Hfr & Hft & Hfpg).
  destruct (rep_map_dir _ _ _ _ _ _ d STACK_PAGE f 7 Hm1 Hinv1 stack_page Hf ltac:(lia) Hne) as (m' & p' & r' & w' & t & Hrun & Hm' & Ht & Htn & Htd & Htk & Hts).
  assert (Htf : t <> f).
  { unfold table_taken in Htk. cbn [pm_stack] in Htk. destruct (present (pde r d (pd_idx STACK_PAGE))) eqn:Hp; [destruct Htk as [-> _]; apply Hft; [apply stack_page|done]|].
    destruct Htk as [E _]. intros ->. apply Hfr. rewrite E. apply elem_of_cons. auto. }
  destruct (page_entry_spec f 7 Hf ltac:(lia)) as (E1 & E2 & _). pose proof (si_space _ _ _ _ Hinv1) as Hus.
  assert (Hd : is_frame d /\ d <> T) by (split; [apply Hus|by apply (no_table_T _ _ _ _ _ _ Hm), Hus]). destruct Hd as [Hd HdT].
  assert (Hw' : forall i, 0 <= i < 1024 -> is_frame (frame_of (pde r' d i))) by (intros i Hi; by apply (rep_frame _ _ _ _ _ _ d i Hm')).
  pose proof (rep_nodup _ _ _ _ _ _ Hm1) as Hnd1. assert (Hfp : f ∉ pm_stack (mkPmm rest (pm_total_frames p))) by done.
  exists m', p', r', w'. split; [done|]. split; [done|].
  split; [by apply (step_inv c d (mkPmm rest (pm_total_frames p)) p' r r' r' STACK_PAGE f t (page_entry f 7) stack_page)|].
  split; [eapply step_same_dir; [exact Hinv1|exact Hf|exact Hfn|exact Hc|exact Ht|exact Htn|exact Hts|done]|]. split; [|split; [|split]].
  - intros x Hx. destruct (decide (d <= x < d + 4096)) as [Hin2 | Hin2]; [exists d; split; [done|]; split; [apply Hus|done]|].
    exists t. split; [done|]. split; [done|]. destruct (decide (t <= x < t + 4096)) as [Hin3 | Hin3]; [done|]. exfalso. apply Hx. by apply (ts_rest _ _ _ _ _ _ Hts).
  - intros v Hv. by apply (step_walk c d (mkPmm rest (pm_total_frames p)) p' r r' r' STACK_PAGE f t (page_entry f 7) stack_page).
  - intros v Hv Hp. rewrite (step_peek c d (mkPmm rest (pm_total_frames p)) p' r r' r' STACK_PAGE f t (page_entry f 7) stack_page) by done. by rewrite decide_False.
  - intros i Hi. apply (ts_there _ _ _ _ _ _ Hts); [lia|]. pose proof (proj2 stack_page). lia.
Qed.

(** ** A program starts *)

(** What [exec_user] promises of the space [d] it built: the bytes [content] of the
    program, and a page for the stack. *)
Record program_loaded (content : Z -> option Z) (m m' : machine) (d : Z) : Prop := {
  pl_ok : mach_ok m';
  pl_cr3 : m_cr3 m' = m_cr3 m;
  pl_running : same_space (m_ram m) (m_ram m') (m_cr3 m);
  pl_kernel : forall i, 0 <= i < 10 -> pde (m_ram m') d i = pde (m_ram m) (m_cr3 m) i;
  pl_image : forall v, user_page v -> v / 4096 <> STACK_PAGE / 4096 -> peek (m_ram m') d v = content v;
  pl_stack : exists f, f ∈ pm_stack (m_pmm m) /\ forall k, 0 <= k < 4096 -> translate (m_ram m') d (STACK_PAGE + k) = Some (f + k) }.

(** The frames [exec_user] may need: the directory, the table of the windows, each
    page and a table for it, the stack and its table. *)
Definition exec_need (segs : list ELF32_Phdr) : nat := 4 + 2 * all_pages segs.

Lemma off_space m1 m' T p p' w w' r' : mach_ok m1 -> rep (m_cr3 m1) T p w (m_ram m1) m1 -> rep (m_cr3 m1) T p' w' r' m' -> off_tables (m_ram m1) r' (m_cr3 m1) ->
  same_space (m_ram m1) (m_ram m') (m_cr3 m1).
Proof.
  intros Hm1 Hr1 Hr' Hoff. destruct (rep_T _ _ _ _ _ _ Hr1) as (HT & HTc & _). destruct (rp_win _ _ _ _ _ _ Hr1) as [Hp HTe]. apply same_space_off; [done|].
  intros x Hx. destruct (decide (T <= x < T + 4096)) as [HxT | HxT].
  - exists T. split; [done|]. split; [done|]. split; [done|]. intros i Hi Hpi. rewrite <- HTe. by apply (dk_apart _ _ (mk_dir _ Hm1)); try lia.
  - rewrite (rp_ram _ _ _ _ _ _ Hr' x HxT) in Hx. destruct (Hoff x Hx) as (f & F1 & [F2 F3] & F4). exists f. split; [done|]. split; [done|]. split; [done|].
    intros i Hi. apply F3. lia.
Qed.

Lemma stack_page_at k : 0 <= k < 4096 -> user_page (STACK_PAGE + k) /\ (STACK_PAGE + k) / 4096 = STACK_PAGE / 4096 /\ (STACK_PAGE + k) mod 4096 = k.
Proof. intros Hk. change STACK_PAGE with 0xBFFFE000. unfold user_page. rewrite pd_idx_div. split; [split|split]; lia_mod. Qed.

Lemma exec_space_spec m img segs eip : mach_ok m -> (exec_need segs <= length (pm_stack (m_pmm m)))%nat -> bytes img -> 0 < zlen img < 4294967296 ->
  elf_validate (Some img) = Some true -> elf_segments img = Some segs -> Forall (seg_fits img) segs -> entry_point img = Some eip ->
  exists d m', exec_space img m = Some (Some (d, eip), m') /\ d <> 0 /\ program_loaded (image_at img segs None) m m' d.
Proof.
  intros Hm Hl Hb Hz Hval Hsegs Hfit Heip. unfold exec_need in Hl. destruct (pm_stack (m_pmm m)) as [|d rest] eqn:Hst; [cbn in Hl; lia|].
  assert (Hr0 : rest <> []) by (intros ->; cbn in Hl; lia).
  destruct (create_user_space_spec m d rest Hm Hst (or_intror Hr0)) as (m1 & T0 & Hrun & Hm1 & Hc1 & H0 & Hfs & Hsp1 & Ho1 & Hpl & Hw1 & _).
  unfold exec_space. rewrite (proj2 (Z.eqb_neq (zlen img) 0)) by lia. rewrite (run_bind _ _ _ _ _ Hrun). clear Hrun.
  rewrite (proj2 (Z.eqb_neq d 0)) by done. rewrite (run_reads (fun _ => elf_validate (Some img)) _ m1 true Hval). cbn [negb].
  destruct (fresh_inv m m1 d Hm1 Hc1 Ho1 Hfs) as [Hinv1 Hnone]. rewrite <- Hc1 in Hw1. destruct (rep_start m1 Hm1 Hw1) as (T & w1 & Hr1).
  assert (Hlen1 : (2 + 2 * all_pages segs <= length (pm_stack (m_pmm m1)))%nat).
  { unfold pool_left in Hpl. cbn in Hl. destruct (present _); [rewrite Hpl; lia|]. rewrite Hpl in Hl. cbn in Hl. lia. }
  destruct (rep_elf _ T d img segs _ w1 _ m1 Hr1 Hinv1 H0 Hb ltac:(lia) Hsegs Hfit ltac:(lia)) as (m2 & p2 & w2 & r2 & Hrun & Hr2 & Hld).
  rewrite (run_bind _ _ _ _ _ Hrun). clear Hrun. cbn [negb]. pose proof (ld_pool _ _ _ _ _ _ _ _ Hld) as Hlen2.
  destruct (pm_stack p2) as [|f rest2] eqn:Hst2; [cbn in Hlen2; lia|].
  match goal with |- context [(alloc_frame ≫= ?k) m2] => destruct (rep_alloc _ _ _ _ _ _ Hr2 f rest2 k Hst2) as (m3 & -> & Hr3 & _) end.
  destruct (rep_pool _ _ _ _ _ _ Hr2 f) as (_ & Hf0 & _); [rewrite Hst2; apply elem_of_cons; auto|]. rewrite (proj2 (Z.eqb_neq f 0)) by done.
  assert (Hne2 : rest2 <> []) by (intros ->; cbn in Hlen2; lia).
  destruct (rep_stack _ T p2 w2 r2 m2 d f rest2 Hr2 (ld_inv _ _ _ _ _ _ _ _ Hld) Hst2 Hne2 m3 Hr3) as (m4 & p4 & r4 & w4 & Hrun & Hr4 & Hinv4 & Hsd4 & Hoff4 & Hwalk & Hpk & Hk4).
  change (Z.lor (Z.lor PAGE_PRESENT PAGE_USER) PAGE_WRITE) with 7. fold STACK_PAGE. rewrite (run_bind _ _ _ _ _ Hrun). clear Hrun. cbn [negb].
  rewrite (run_reads (fun _ => entry_point img) _ m4 eip Heip). exists d, m4. split; [done|]. split; [done|].
  pose proof (off_tables_trans _ _ _ _ (ld_dir _ _ _ _ _ _ _ _ Hld) (ld_off _ _ _ _ _ _ _ _ Hld) Hoff4) as Hoff.
  assert (Hsub : forall g, g ∈ pm_stack (m_pmm m1) -> g ∈ pm_stack (m_pmm m)).
  { intros g Hg. rewrite Hst. apply elem_of_cons. right. unfold pool_left in Hpl. destruct (present _); [by rewrite <- Hpl|]. rewrite Hpl. apply elem_of_cons. auto. }
  pose proof (si_space _ _ _ _ Hinv4) as Hus. destruct (rep_user _ _ _ _ _ _ d Hr4 Hus) as (_ & Hpd4 & Hwd4).
  split; [apply (rp_ok _ _ _ _ _ _ Hr4)|rewrite <- Hc1; apply (rp_cr3 _ _ _ _ _ _ Hr4)| | | |].
  - apply (same_space_trans _ (m_ram m1)); [done|]. rewrite <- Hc1. by apply (off_space m1 m4 T _ _ _ _ r4 Hm1 Hr1 Hr4).
  - intros i Hi. rewrite Hpd4, Hk4 by lia. rewrite (ld_kernel _ _ _ _ _ _ _ _ Hld) by done. by apply (fs_kernel _ _ _ _ Hfs).
  - intros v Hv Hp. rewrite (rep_peek _ _ _ _ _ _ d v Hr4 Hinv4 Hv), Hpk by done. rewrite (ld_byte _ _ _ _ _ _ _ _ Hld v Hv). by rewrite Hnone.
  - exists f. split; [apply Hsub, (ld_sub _ _ _ _ _ _ _ _ Hld); rewrite Hst2; apply elem_of_cons; auto|]. intros k Hk.
    destruct (stack_page_at k Hk) as (Hu & Hp & Hmod). destruct Hu as [Hv Hi]. rewrite (translate_same r4 (m_ram m4) d) by (done || lia).
    rewrite Hwalk by done. by rewrite decide_True, Hmod.
Qed.

(** ** The binary, as the ELF format has it *)

(** A program header of the format (TIS ELF 1.2, figure 2-1), its 32 bytes, and what
    a file with the headers [hs] at offset [off] has in it. *)
Record program_header := mkHeader { p_type : Z; p_offset : Z; p_vaddr : Z; p_paddr : Z; p_filesz : Z; p_memsz : Z; p_flags : Z; p_align : Z }.
Definition le_bytes (x : Z) : list Z := [x mod 256; x / 256 mod 256; x / 65536 mod 256; x / 16777216].
Definition header_words (h : program_header) : list Z := [p_type h; p_offset h; p_vaddr h; p_paddr h; p_filesz h; p_memsz h; p_flags h; p_align h].
Definition header_bytes (h : program_header) : list Z := concat (le_bytes <$> header_words h).
Record elf_file (img : list Z) (entry off : Z) (hs : list program_header) : Prop := {
  ef_magic : slice img 0 4 = Some [0x7F; 0x45; 0x4C; 0x46];
  ef_entry : slice img 24 4 = Some (le_bytes entry);
  ef_off : slice img 28 4 = Some (le_bytes off);
  ef_num : slice img 44 2 = Some (take 2 (le_bytes (zlen hs)));
  ef_heads : forall i h, hs !! i = Some h -> slice img (Z.to_nat off + 32 * i) 32 = Some (header_bytes h);
  ef_words : is_u32 entry /\ is_u32 off /\ zlen hs < 65536 /\ Forall (fun h => Forall is_u32 (header_words h)) hs }.

(** Its loadable segments put bytes on whole pages; the last one wins a page. *)
Definition on_pages (h : program_header) (v : Z) : bool := (p_vaddr h / 4096 <=? v / 4096) && (v / 4096 <? (p_vaddr h + p_memsz h + 4095) / 4096).
Definition header_byte (img : list Z) (h : program_header) (v : Z) : Z :=
  if (p_vaddr h <=? v) && (v <? p_vaddr h + p_filesz h) then default 0 (img !! Z.to_nat (p_offset h + (v - p_vaddr h))) else 0.
Definition declared_at (img : list Z) (hs : list program_header) (v : Z) : option Z :=
  foldl (fun acc h => if (p_type h =? 1) && on_pages h v then Some (header_byte img h v) else acc) None hs.
Definition header_pages (h : program_header) : nat := if p_type h =? 1 then Z.to_nat ((p_vaddr h + p_memsz h + 4095) / 4096 - p_vaddr h / 4096) else 0.
Definition frames_needed (hs : list program_header) : nat := 4 + 2 * sum_list_with header_pages hs.

(** A header this loader places where the format says: its bytes are in the file, it
    is in the user's part of the address space, and its two addresses agree. *)
Definition header_fits (img : list Z) (h : program_header) : Prop :=
  p_type h = 1 -> p_paddr h = p_vaddr h /\ p_offset h + p_filesz h <= zlen img /\ 0x2800000 <= p_vaddr h /\ p_vaddr h + p_memsz h + 4095 < 0xFFC00000.

Lemma slice_rd l i n x k : slice l i n = Some x -> 0 <= k < Z.of_nat n -> rd l (Z.of_nat i + k) = rd x k.
Proof.
  unfold slice. destruct (Nat.leb_spec (i + n) (length l)); [|done]. intros [= <-] Hk. unfold rd. rewrite !(proj2 (Z.leb_le 0 _)) by lia.
  rewrite lookup_take_lt, lookup_drop by lia. f_equal. lia.
Qed.
Lemma le16_slice l i a b : 0 <= i -> slice l (Z.to_nat i) 2 = Some [a; b] -> le16 l i = Some (a + 256 * b).
Proof.
  intros Hi Hs. unfold le16. pose proof (fun k => slice_rd l (Z.to_nat i) 2 _ k Hs) as Hr. rewrite Z2Nat.id in Hr by done. cbv beta in Hr.
  rewrite <- (Z.add_0_r i) at 1. by rewrite (Hr 0), (Hr 1) by lia.
Qed.
Lemma le32_slice l i x : 0 <= i -> is_u32 x -> slice l (Z.to_nat i) 4 = Some (le_bytes x) -> le32 l i = Some x.
Proof.
  intros Hi Hx Hs. unfold le32. pose proof (fun k => slice_rd l (Z.to_nat i) 4 _ k Hs) as Hr. rewrite Z2Nat.id in Hr by done. cbv beta in Hr.
  unfold le16. rewrite <- (Z.add_0_r i) at 1. replace (i + 2 + 1) with (i + 3) by lia. rewrite (Hr 0), (Hr 1), (Hr 2), (Hr 3) by lia. unfold le_bytes.
  set (a := x mod 256). set (b := x / 256 mod 256). set (c := x / 65536 mod 256). set (e := x / 16777216). change (Some (a + 256 * b + 65536 * (c + 256 * e)) = Some x). f_equal. subst a b c e.
  replace (x / 65536) with (x / 256 / 256) by (by rewrite Z.div_div). replace (x / 16777216) with (x / 256 / 256 / 256) by (by rewrite !Z.div_div).
  pose proof (Z.div_mod x 256). pose proof (Z.div_mod (x / 256) 256). pose proof (Z.div_mod (x / 256 / 256) 256). lia.
Qed.

(** The loader's header of [h]: its address is the one the format calls physical. *)
Definition loader_header (h : program_header) : ELF32_Phdr := mkPhdr (p_offset h) (p_paddr h) (p_filesz h) (p_memsz h).
Definition loadable (hs : list program_header) : list program_header := filter (fun h => p_type h = 1) hs.

Lemma header_field img off i h k w : 0 <= off -> slice img (Z.to_nat off + 32 * i) 32 = Some (header_bytes h) -> Forall is_u32 (header_words h) ->
  header_words h !! k = Some w -> le32 img (off + 32 * Z.of_nat i + 4 * Z.of_nat k) = Some w.
Proof.
  intros Hoff Hs Hu Hk. pose proof (proj1 (list.Forall_lookup _ _) Hu _ _ Hk) as Hw. apply le32_slice; [lia|done|].
  assert (Hk8 : (k < 8)%nat) by (apply lookup_lt_Some in Hk; exact Hk).
  unfold slice in *. destruct (Nat.leb_spec (Z.to_nat off + 32 * i + 32) (length img)) as [Hin|]; [|done]. apply (inj Some) in Hs.
  destruct (Nat.leb_spec (Z.to_nat (off + 32 * Z.of_nat i + 4 * Z.of_nat k) + 4) (length img)); [|lia]. f_equal.
  replace (Z.to_nat (off + 32 * Z.of_nat i + 4 * Z.of_nat k)) with (Z.to_nat off + 32 * i + 4 * k)%nat by lia. rewrite <- drop_drop.
  transitivity (take 4 (drop (4 * k) (take 32 (drop (Z.to_nat off + 32 * i) img)))).
  { generalize (drop (Z.to_nat off + 32 * i) img). intros l. rewrite !take_drop_commute, take_take. do 2 f_equal. lia. }
  rewrite Hs. unfold header_bytes. do 8 (destruct k as [|k]; [injection Hk as <-; reflexivity|]). lia.
Qed.

Lemma file_segments img off hs : 0 <= off -> forall k, (forall i h, hs !! i = Some h -> slice img (Z.to_nat off + 32 * (k + i)) 32 = Some (header_bytes h)) ->
  Forall (fun h => Forall is_u32 (header_words h)) hs -> segments img off (seqZ (Z.of_nat k) (zlen hs)) = Some (loader_header <$> loadable hs).
Proof.
  intros Hoff. induction hs as [|h hs IH]; intros k Hh Hw; [done|]. apply Forall_cons_1 in Hw as [Hw Hws]. unfold zlen. cbn [length]. rewrite seqZ_cons by lia.
  pose proof (Hh 0%nat h eq_refl) as H0. rewrite Nat.add_0_r in H0. pose proof (fun j w => header_field img off k h j w Hoff H0 Hw) as F. cbn [segments]. unfold phdr_type.
  pose proof (F 0%nat (p_type h) eq_refl) as F0. rewrite Z.add_0_r in F0. rewrite F0. cbn [mbind option_bind]. rewrite <- (Nat2Z.inj_succ k).
  replace (Z.pred (Z.of_nat (S (length hs)))) with (zlen hs) by (unfold zlen; lia). assert (IHk := IH (S k) ltac:(intros i h' Hi; rewrite Nat.add_succ_comm; by apply (Hh (S i))) Hws).
  unfold loadable in *. rewrite filter_cons. unfold PT_LOAD. destruct (decide (p_type h = 1)) as [->|Hn]; [|by rewrite (proj2 (Z.eqb_neq _ _) Hn)].
  cbn [Z.eqb Pos.eqb negb]. unfold phdr. set (a := off + 32 * Z.of_nat k) in *.
  rewrite (F 1%nat (p_offset h) eq_refl : le32 img (a + 4) = _), (F 3%nat (p_paddr h) eq_refl : le32 img (a + 12) = _), (F 4%nat (p_filesz h) eq_refl : le32 img (a + 16) = _), (F 5%nat (p_memsz h) eq_refl : le32 img (a + 20) = _). cbn [mbind option_bind]. by rewrite IHk.
Qed.

Lemma file_fields img entry off hs : elf_file img entry off hs -> elf_validate (Some img) = Some true /\ entry_point img = Some entry /\ elf_segments img = Some (loader_header <$> loadable hs).
Proof.
  intros [Hm He Ho Hn Hh (Ue & Uo & Un & Uh)]. unfold is_u32 in Uo. split; [|split].
  - unfold elf_validate. rewrite (le32_slice img 0 0x464C457F) by (done || (unfold is_u32; lia)). done.
  - by apply le32_slice.
  - unfold elf_segments, elf_prog_headers, program_header_offset, program_header_count. rewrite (le32_slice img 28 off) by (done || lia). cbn [mbind option_bind].
    rewrite (le16_slice img 44 _ _ ltac:(lia) Hn). cbn [mbind option_bind]. assert (0 <= zlen hs) by (unfold zlen; lia).
    replace (zlen hs mod 256 + 256 * (zlen hs / 256 mod 256)) with (zlen hs) by lia_mod. by apply (file_segments img off hs ltac:(lia) 0).
Qed.

Lemma header_fits_seg img h : p_type h = 1 -> header_fits img h -> Forall is_u32 (header_words h) -> seg_fits img (loader_header h).
Proof.
  intros Ht Hf Hu. destruct (Hf Ht) as (Ep & H1 & H2 & H3). repeat (apply Forall_cons_1 in Hu as [? Hu]). unfold is_u32 in *. unfold seg_fits, seg_ok. cbn. lia.
Qed.
Lemma fits_at img h : p_type h = 1 -> header_fits img h -> Forall is_u32 (header_words h) ->
  seg_pages (loader_header h) = header_pages h /\ forall v, 0 <= v -> covers (loader_header h) v = on_pages h v /\ seg_byte img (loader_header h) v = header_byte img h v.
Proof.
  intros Ht Hf Hu. pose proof (header_fits_seg img h Ht Hf Hu) as Hs. destruct (seg_bounds img _ Hs) as [E1 E2]. destruct (Hf Ht) as (Ep & H1 & H2 & H3).
  cbn [loader_header ph_vir_address ph_mem_size] in E1, E2. rewrite Ep in E1, E2. split.
  - unfold seg_pages, header_pages. rewrite Ht, E1, E2. cbn [Z.eqb Pos.eqb]. f_equal. unfold PAGE_SIZE. lia_mod.
  - intros v Hv. unfold covers, on_pages. rewrite E1, E2. split; [f_equal; apply eq_true_iff_eq; rewrite ?Z.leb_le, ?Z.ltb_lt; lia_mod|].
    unfold seg_byte, header_byte. cbn [loader_header ph_vir_address ph_file_size ph_offset]. by rewrite Ep.
Qed.

(** What the loader leaves is what the headers declare. *)
Lemma loads_declared img hs : Forall (header_fits img) hs -> Forall (fun h => Forall is_u32 (header_words h)) hs ->
  Forall (seg_fits img) (loader_header <$> loadable hs) /\ all_pages (loader_header <$> loadable hs) = sum_list_with header_pages hs /\
  forall v, 0 <= v -> image_at img (loader_header <$> loadable hs) None v = declared_at img hs v.
Proof.
  intros Hf Hw. unfold image_at, declared_at, all_pages, loadable. generalize (@None Z). revert Hf Hw. induction hs as [|h hs IH]; intros Hf Hw old; [done|].
  apply Forall_cons_1 in Hf as [Hf Hfs]. apply Forall_cons_1 in Hw as [Hw Hws]. specialize (IH Hfs Hws). rewrite filter_cons. cbn [foldl sum_list_with foldr compose].
  destruct (decide (p_type h = 1)) as [Ht|Ht].
  - destruct (fits_at img h Ht Hf Hw) as [Hp Hv]. rewrite fmap_cons. cbn [foldl sum_list_with]. rewrite Ht. cbn [Z.eqb Pos.eqb andb]. split; [constructor; [by apply header_fits_seg|apply (IH old)]|].
    split; [cbn; rewrite Hp; f_equal; apply (IH old)|]. intros v H0. destruct (Hv v H0) as [-> ->]. by apply IH.
  - rewrite (proj2 (Z.eqb_neq _ _) Ht). cbn [andb]. destruct (IH old) as (A & B & C). split; [done|]. split; [|done]. cbn. unfold header_pages at 1. by rewrite (proj2 (Z.eqb_neq _ _) Ht).
Qed.

(** C12: a valid binary is loaded as it declares.  The binary is described by the ELF
    format itself: magic number, entry, and program headers of 32 bytes with p_vaddr at
    offset 8 and p_paddr at 12.  Suppose each loadable header has p_paddr = p_vaddr (the
    loader's structure swaps the two fields), its bytes in the file and its pages in the
    user's part, 40 MiB to 0xFFC00000, and there are as many free frames as
    [frames_needed].  Then [exec_user] returns the entry point and builds a space that
    has the kernel's entries and in which every user address off the stack page holds
    what the headers put there: the byte of the last loadable segment whose pages cover
    it (from the file, or zero past the file's part), unmapped when there is none; the
    stack page is mapped to a frame of the pool, and the running space translates as
    before. *)
Theorem exec_loads_program m img entry off hs : mach_ok m -> bytes img -> 0 < zlen img < 4294967296 -> elf_file img entry off hs -> Forall (header_fits img) hs ->
  (frames_needed hs <= length (pm_stack (m_pmm m)))%nat ->
  exists d m', exec_space img m = Some (Some (d, entry), m') /\ d <> 0 /\ program_loaded (declared_at img hs) m m' d.
Proof.
  intros Hm Hb Hz He Hf Hl. destruct (file_fields img entry off hs He) as (Hv & Hen & Hsg). destruct He as [_ _ _ _ _ (_ & _ & _ & Hw)].
  destruct (loads_declared img hs Hf Hw) as (Hfit & Hpg & Him). unfold frames_needed in Hl. rewrite <- Hpg in Hl.
  destruct (exec_space_spec m img _ entry Hm Hl Hb Hz Hv Hsg Hfit Hen) as (d & m' & Hrun & H0 & [P1 P2 P3 P4 P5 P6]). exists d, m'. split; [done|]. split; [done|].
  split; [done..| |done]. intros v Hu Hp. rewrite P5 by done. apply Him. destruct Hu. lia.
Qed.

(** With the two addresses different, the segment goes to the physical one. *)
Example loader_takes_paddr : ph_vir_address (loader_header (mkHeader 1 84 0x8048054 0x9048054 4 8 5 4096)) = 0x9048054 /\
  phdr (header_bytes (mkHeader 1 84 0x8048054 0x9048054 4 8 5 4096)) 0 0 = Some (mkPhdr 84 0x9048054 4 8).
Proof. by vm_compute. Qed.

(** A program of four bytes, in memory of eight. *)
Definition tiny_header : program_header := mkHeader 1 84 0x8048054 0x8048054 4 8 5 4096.
Definition tiny_program : list Z :=
  [0x7F; 0x45; 0x4C; 0x46; 1; 1; 1; 0; 0; 0; 0; 0; 0; 0; 0; 0] ++ [2; 0; 3; 0; 1; 0; 0; 0] ++ [0x54; 0x80; 4; 8] ++ [52; 0; 0; 0] ++ [0; 0; 0; 0] ++ [0; 0; 0; 0] ++
  [52; 0; 32; 0; 1; 0; 0; 0; 0; 0; 0; 0] ++
  [1; 0; 0; 0] ++ [84; 0; 0; 0] ++ [0x54; 0x80; 4; 8] ++ [0x54; 0x80; 4; 8] ++ [4; 0; 0; 0] ++ [8; 0; 0; 0] ++ [5; 0; 0; 0] ++ [0; 0x10; 0; 0] ++
  [0xCD; 0x80; 0xEB; 0xFE].

Lemma tiny_bytes : bytes tiny_program. Proof. unfold tiny_program. cbn [app]. byte_list. Qed.
Lemma tiny_file : elf_file tiny_program 0x8048054 52 [tiny_header].
Proof.
  split; try reflexivity.
  - intros [|i] h; [intros [= <-]; reflexivity|done].
  - unfold is_u32. split; [lia|]. split; [lia|]. split; [reflexivity|]. constructor; [|constructor]. repeat (apply Forall_cons_2; [cbn; unfold is_u32; lia|]). constructor.
Qed.
Lemma tiny_fits : Forall (header_fits tiny_program) [tiny_header].
Proof. constructor; [|constructor]. intros _. cbn. unfold zlen. cbn. lia. Qed.

Lemma exec_loads_program_witness : exists d m', exec_space tiny_program boot = Some (Some (d, 0x8048054), m') /\
  peek (m_ram m') d 0x8048054 = Some 0xCD /\ peek (m_ram m') d 0x8048057 = Some 0xFE /\ peek (m_ram m') d 0x8048058 = Some 0 /\ peek (m_ram m') d 0x9000000 = None.
Proof.
  destruct (exec_loads_program boot tiny_program 0x8048054 52 [tiny_header] boot_ok) as (d & m' & Hrun & _ & Hpl).
  - exact tiny_bytes.
  - vm_compute. split; reflexivity.
  - exact tiny_file.
  - exact tiny_fits.
  - rewrite boot_pool. vm_compute. repeat constructor.
  - exists d, m'. split; [exact Hrun|]. rewrite !(pl_image _ _ _ _ Hpl) by (vm_compute; intuition discriminate). vm_compute. repeat split.
Defined.

(** A binary without the magic number leaves nothing behind: [exec_user] fails,
    the running space is as it was, and every frame taken is back in the pool, but
    for the table of the windows if there was none. *)
Lemma exec_rejects_bad_magic m img d rest : mach_ok m -> pm_stack (m_pmm m) = d :: rest ->
  present (pde (m_ram m) (m_cr3 m) 1022) = true \/ rest <> [] -> (length (pm_stack (m_pmm m)) <= MAX_FRAMES)%nat -> 0 < zlen img -> elf_validate (Some img) = Some false ->
  exists m' taken, exec_space img m = Some (None, m') /\ mach_ok m' /\ same_space (m_ram m) (m_ram m') (m_cr3 m) /\
    pm_stack (m_pmm m) ≡ₚ taken ++ pm_stack (m_pmm m') /\ (length taken <= 1)%nat.
Proof.
  intros Hm Hst Hcan Hmax Hz Hval. rewrite Hst in Hmax |- *.
  destruct (create_user_space_spec m d rest Hm Hst Hcan) as (m1 & T0 & Hrun & Hm1 & Hc1 & H0 & Hfs & Hsp1 & Ho1 & Hpl & Hw1 & _).
  unfold exec_space. rewrite (proj2 (Z.eqb_neq (zlen img) 0)) by lia. rewrite (run_bind _ _ _ _ _ Hrun). clear Hrun.
  rewrite (proj2 (Z.eqb_neq d 0)) by done. rewrite (run_reads (fun _ => elf_validate (Some img)) _ m1 false Hval). cbn [negb].
  assert (Hfr : space_frames (m_ram m1) d = [d]).
  { unfold space_frames. rewrite (frames_none (m_ram m1) d USER_ENTRIES); [done|]. intros i Hi%seqZ_in. apply (fs_user _ _ _ _ Hfs). lia. }
  rewrite <- Hc1 in Hw1. assert (Hl1 : exists taken, rest = taken ++ pm_stack (m_pmm m1) /\ (length taken <= 1)%nat).
  { unfold pool_left in Hpl. destruct (present (pde (m_ram m) (m_cr3 m) 1022)); [exists []; cbn; split; [by rewrite Hpl|lia]|exists [T0]; cbn; split; [done|lia]]. }
  destruct Hl1 as (taken & Ht & Hlt).
  destruct (destroy_user_space_spec m1 d Hm1 (or_introl Hw1) H0) as (m2 & T & left & D1 & D2 & D3 & D4 & D5 & D6); rewrite ?Hfr.
  - apply NoDup_singleton.
  - by apply Forall_cons_2; [|apply Forall_nil_2].
  - cbn in Hmax |- *. rewrite Ht, length_app in Hmax. lia.
  - rewrite (run_bind _ _ _ _ _ D1). exists m2, taken. split; [done|]. split; [done|]. rewrite Hc1 in D4. split; [by apply (same_space_trans _ (m_ram m1))|].
    split; [|done]. rewrite Hw1 in D6. subst left. rewrite D5, Hfr, Ht. cbn. by rewrite Permutation_middle.
Qed.

Lemma exec_rejects_bad_magic_witness : exists m' taken, exec_space [0x23; 0x21; 0x2F; 0x62] boot = Some (None, m') /\
  pm_stack (m_pmm boot) ≡ₚ taken ++ pm_stack (m_pmm m') /\ (length taken <= 1)%nat.
Proof.
  pose proof boot_pool as Hl. destruct (pm_stack (m_pmm boot)) as [|d [|e rest]] eqn:Hst; [discriminate Hl..|]. rewrite <- Hst.
  destruct (exec_rejects_bad_magic boot [0x23; 0x21; 0x2F; 0x62] d (e :: rest) boot_ok Hst) as (m' & taken & H1 & _ & _ & H4 & H5).
  - right. discriminate.
  - pose proof max_frames. rewrite Hst, Hl. lia.
  - reflexivity.
  - reflexivity.
  - exists m', taken. split; [exact H1|]. split; [exact H4|exact H5].
Defined.
