(* ===== verification/Fragment6.v ===== *)
(** * Reassembly of IPv6 fragments

    [Networking/IPv6/Fragment6/fragment6.c]: a table of packets being put
    together, each with a buffer and a bitmap of the 8-byte units received. *)

From stdpp Require Import list_numbers.
From S2P Require Import Prelude SlotTable.

#[local] Open Scope Z_scope.

Definition FRAGMENT6_MAX_REASSEMBLIES : nat := 4.
Definition FRAGMENT6_MAX_TOTAL_BYTES : Z := 2048.
Definition FRAGMENT6_TIMEOUT_TICKS : Z := 500.
Definition UNITS : Z := FRAGMENT6_MAX_TOTAL_BYTES / 8.
Definition UNIT_BYTES : Z := (UNITS + 7) / 8.

Record reassembly := mkReasm {
  re_src_ip : list Z; re_dst_ip : list Z; re_id : Z; re_next_header : Z; re_buf : list Z; re_unit_bitmap : list Z;
  re_total_len : Z; re_have_last : bool; re_created_tick : Z; re_in_use : bool }.

#[export] Instance reassembly_slot : Slot reassembly (list Z * list Z * Z) :=
  { used := re_in_use; key := fun s => (re_src_ip s, re_dst_ip s, re_id s) }.

Record frag6 := mkFrag6 { fr_slots : list reassembly; fr_completed : Z; fr_overlap : Z; fr_timeout : Z }.

Definition reassembly_zero : reassembly :=
  mkReasm (replicate 16 0) (replicate 16 0) 0 0 (replicate (Z.to_nat FRAGMENT6_MAX_TOTAL_BYTES) 0) (replicate (Z.to_nat UNIT_BYTES) 0) 0 false 0 false.
Definition frag6_init : frag6 := mkFrag6 (replicate FRAGMENT6_MAX_REASSEMBLIES reassembly_zero) 0 0 0.

(** ** The bitmap *)

Definition bit_test (bitmap : list Z) (unit : Z) : option bool :=
  b ← rd bitmap (unit / 8); Some (negb (Z.land (Z.shiftr b (unit mod 8)) 1 =? 0)).
Definition bit_set (unit : Z) (bitmap : list Z) : option (list Z) :=
  b ← rd bitmap (unit / 8); Some (<[Z.to_nat (unit / 8) := Z.lor b (u8 (Z.shiftl 1 (unit mod 8)))]> bitmap).

(** The loops over a range of units. *)
Fixpoint range_overlaps (bitmap : list Z) (todo : list Z) : option bool :=
  match todo with
  | [] => Some false
  | i :: todo' => b ← bit_test bitmap i; if (b : bool) then Some true else range_overlaps bitmap todo'
  end.
Fixpoint range_set (todo : list Z) (bitmap : list Z) : option (list Z) :=
  match todo with
  | [] => Some bitmap
  | i :: todo' => bitmap' ← bit_set i bitmap; range_set todo' bitmap'
  end.
Fixpoint range_full (bitmap : list Z) (todo : list Z) : option bool :=
  match todo with
  | [] => Some true
  | i :: todo' => b ← bit_test bitmap i; if (b : bool) then range_full bitmap todo' else Some false
  end.

(** ** Receiving *)

Definition set_slots (f : list reassembly -> list reassembly) (st : frag6) : frag6 := mkFrag6 (f (fr_slots st)) (fr_completed st) (fr_overlap st) (fr_timeout st).

Definition find_slot (src dst : list Z) (id : Z) (st : frag6) : option nat := find_key (src, dst, id) (fr_slots st).
Definition re_abort (s : reassembly) : reassembly :=
  mkReasm (re_src_ip s) (re_dst_ip s) (re_id s) (re_next_header s) (re_buf s) (re_unit_bitmap s) (re_total_len s) (re_have_last s) (re_created_tick s) false.
Definition abort_slot (i : nat) : frag6 -> frag6 := set_slots (alter re_abort i).

(** A slot started afresh; the buffer keeps what it held. *)
Definition re_start (src dst : list Z) (id next_header now : Z) (s : reassembly) : reassembly :=
  mkReasm src dst id next_header (re_buf s) (replicate (Z.to_nat UNIT_BYTES) 0) 0 false now true.

(** [memcpy(buf + off, data, len)]. *)
Definition buf_write (off : Z) (data buf : list Z) : option (list Z) :=
  if (off + zlen data <=? zlen buf) then Some (take (Z.to_nat off) buf ++ data ++ drop (Z.to_nat (off + zlen data)) buf) else None.

(** The slot for a fragment: the one in use, or a free one; none when the table is
    full or the fragment disagrees about what follows. *)
Definition claim_slot (src dst : list Z) (id next_header now : Z) (st : frag6) : option nat * frag6 :=
  match find_slot src dst id st with
  | None =>
      match find_free (fr_slots st) with
      | None => (None, st)
      | Some i => (Some i, set_slots (alter (re_start src dst id next_header now) i) st)
      end
  | Some i =>
      match fr_slots st !! i with
      | Some s => if negb (re_next_header s =? next_header) then (None, abort_slot i st) else (Some i, st)
      | None => (None, st)
      end
  end.

(** The fragment's bytes go into its slot; what comes out is the next header and
    the packet, when it is complete. *)
Definition store_fragment (i : nat) (offset_units : Z) (more_fragments : bool) (data : list Z) (st : frag6) : option (option (Z * list Z) * frag6) :=
  s ← fr_slots st !! i;
  let offset_bytes := u16 (offset_units * 8) in
  let start_unit := offset_units in
  let end_unit := Z.min ((offset_bytes + zlen data + 7) / 8) UNITS in
  overlaps ← range_overlaps (re_unit_bitmap s) (seqZ start_unit (end_unit - start_unit));
  if (overlaps : bool) then Some (None, mkFrag6 (fr_slots (abort_slot i st)) (fr_completed st) (fr_overlap st +32 1) (fr_timeout st))
  else
    buf ← buf_write offset_bytes data (re_buf s);
    bitmap ← range_set (seqZ start_unit (end_unit - start_unit)) (re_unit_bitmap s);
    let total := if more_fragments then re_total_len s else u16 (offset_bytes + zlen data) in
    let keep last t := mkReasm (re_src_ip s) (re_dst_ip s) (re_id s) (re_next_header s) buf bitmap t last (re_created_tick s) true in
    if negb more_fragments && re_have_last s then
      Some (None, abort_slot i (set_slots <[i := keep true (re_total_len s)]> st))
    else
      let last := re_have_last s || negb more_fragments in
      let st := set_slots <[i := keep last total]> st in
      if negb last then Some (None, st)
      else
        full ← range_full bitmap (seqZ 0 ((total + 7) / 8));
        if negb full then Some (None, st)
        else
          packet ← slice buf 0 (Z.to_nat total);
          Some (Some (re_next_header s, packet), mkFrag6 (fr_slots (abort_slot i st)) (fr_completed st +32 1) (fr_overlap st) (fr_timeout st)).

(** [fragment] is the fragment header and what follows it, [remaining_len] bytes. *)
Definition fragment6_receive (src dst fragment : list Z) (now : Z) (st : frag6) : option (option (Z * list Z) * frag6) :=
  if zlen fragment <? 8 then Some (None, st)
  else
    frag_next_header ← rd fragment 0;
    b2 ← rd fragment 2; b3 ← rd fragment 3;
    b4 ← rd fragment 4; b5 ← rd fragment 5; b6 ← rd fragment 6; b7 ← rd fragment 7;
    let offset_flags := be16 b2 b3 in
    let offset_units := Z.shiftr offset_flags 3 in
    let more_fragments := negb (Z.land offset_flags 1 =? 0) in
    let id := be32 b4 b5 b6 b7 in
    let data := drop 8 fragment in
    let offset_bytes := u16 (offset_units * 8) in
    if more_fragments && negb (zlen data mod 8 =? 0) then Some (None, st)
    else if FRAGMENT6_MAX_TOTAL_BYTES <? offset_bytes + zlen data then
      Some (None, match find_slot src dst id st with Some i => abort_slot i st | None => st end)
    else
      let '(slot, st) := claim_slot src dst id frag_next_header now st in
      match slot with
      | None => Some (None, st)
      | Some i => store_fragment i offset_units more_fragments data st
      end.

Definition re_expired (now : Z) (s : reassembly) : bool := re_in_use s && (FRAGMENT6_TIMEOUT_TICKS <? now -32 re_created_tick s).
Definition fragment6_tick (now : Z) (st : frag6) : frag6 :=
  mkFrag6 ((fun s => if re_expired now s then re_abort s else s) <$> fr_slots st) (fr_completed st) (fr_overlap st)
    (fr_timeout st +32 Z.of_nat (count_if (re_expired now) (fr_slots st))).

Definition fragment6_completed_count (st : frag6) : Z := fr_completed st.
Definition fragment6_overlap_count (st : frag6) : Z := fr_overlap st.
Definition fragment6_timeout_count (st : frag6) : Z := fr_timeout st.

(** ** The bitmap as a set of units *)

Definition got (bitmap : list Z) (u : Z) : bool := Z.testbit (default 0 (bitmap !! Z.to_nat (u / 8))) (u mod 8).

Lemma units : UNITS = 256 /\ UNIT_BYTES = 32. Proof. done. Qed.

Lemma low_bit b k : 0 <= k -> negb (Z.land (Z.shiftr b k) 1 =? 0) = Z.testbit b k.
Proof.
  intros Hk. change 1 with (Z.ones 1). rewrite Z.land_ones by lia. change (2 ^ 1) with 2. rewrite Zmod_odd, <- Z.bit0_odd, Z.shiftr_spec, Z.add_0_l by lia.
  by destruct (Z.testbit b k).
Qed.

Lemma bitmap_byte bitmap u : zlen bitmap = 32 -> 0 <= u < 256 -> rd bitmap (u / 8) = Some (default 0 (bitmap !! Z.to_nat (u / 8))).
Proof.
  intros Hl Hu. unfold rd. rewrite (proj2 (Z.leb_le 0 (u / 8))) by lia_mod. destruct (lookup_lt_is_Some_2 bitmap (Z.to_nat (u / 8))) as [b Hb]; [unfold zlen in Hl; lia_mod|].
  by rewrite Hb.
Qed.

Lemma bit_test_got bitmap u : zlen bitmap = 32 -> 0 <= u < 256 -> bit_test bitmap u = Some (got bitmap u).
Proof. intros Hl Hu. unfold bit_test. rewrite bitmap_byte by done. cbn. unfold got. f_equal. apply low_bit. lia_mod. Qed.

Lemma bit_set_got bitmap u : zlen bitmap = 32 -> 0 <= u < 256 ->
  exists bitmap', bit_set u bitmap = Some bitmap' /\ zlen bitmap' = 32 /\ forall v, 0 <= v < 256 -> got bitmap' v = bool_decide (v = u) || got bitmap v.
Proof.
  intros Hl Hu. unfold bit_set. rewrite bitmap_byte by done. cbn. eexists. split; [reflexivity|]. unfold zlen in *. rewrite length_insert. split; [done|].
  intros v Hv. unfold got. assert (Hk : 0 <= u mod 8 < 8 /\ 0 <= v mod 8 < 8) by lia_mod.
  assert (E8 : u8 (Z.shiftl 1 (u mod 8)) = 2 ^ (u mod 8)).
  { rewrite Z.shiftl_1_l. unfold u8. apply Z.mod_small. split; [apply Z.pow_nonneg; lia|]. change 256 with (2 ^ 8). apply Z.pow_lt_mono_r; lia. }
  rewrite E8. destruct (decide (v / 8 = u / 8)) as [E | E].
  - rewrite E, list_lookup_insert_eq by lia_mod. cbn. rewrite Z.lor_spec, Z.pow2_bits_eqb by lia. rewrite orb_comm. f_equal.
    destruct (bool_decide_reflect (v = u)) as [-> | Hne]; [apply Z.eqb_refl|]. apply Z.eqb_neq. lia_mod.
  - rewrite list_lookup_insert_ne by lia_mod. case_bool_decide; [by subst|done].
Qed.

Definition in_range (l : list Z) : Prop := Forall (fun u => 0 <= u < 256) l.

Lemma range_overlaps_spec bitmap l : zlen bitmap = 32 -> in_range l -> range_overlaps bitmap l = Some (existsb (got bitmap) l).
Proof.
  intros Hl Hr. induction Hr as [|u l Hu Hr IH]; [done|]. cbn. rewrite bit_test_got by done. cbn. destruct (got bitmap u); [done|]. exact IH.
Qed.
Lemma range_full_spec bitmap l : zlen bitmap = 32 -> in_range l -> range_full bitmap l = Some (forallb (got bitmap) l).
Proof.
  intros Hl Hr. induction Hr as [|u l Hu Hr IH]; [done|]. cbn. rewrite bit_test_got by done. cbn. destruct (got bitmap u); [exact IH|done].
Qed.
Lemma range_set_spec l : forall bitmap, zlen bitmap = 32 -> in_range l ->
  exists bitmap', range_set l bitmap = Some bitmap' /\ zlen bitmap' = 32 /\ forall v, 0 <= v < 256 -> got bitmap' v = bool_decide (v ∈ l) || got bitmap v.
Proof.
  induction l as [|u l IH]; intros bitmap Hl Hr.
  { exists bitmap. split; [done|]. split; [done|]. intros v _. by rewrite bool_decide_false by apply not_elem_of_nil. }
  apply Forall_cons_1 in Hr as [Hu Hr]. cbn. destruct (bit_set_got bitmap u Hl Hu) as (b1 & -> & Hl1 & Hg1). cbn.
  destruct (IH b1 Hl1 Hr) as (b2 & -> & Hl2 & Hg2). exists b2. split; [done|]. split; [done|]. intros v Hv. rewrite Hg2, Hg1 by done. rewrite orb_assoc. f_equal.
  apply eq_true_iff_eq. rewrite orb_true_iff, !bool_decide_eq_true, elem_of_cons. tauto.
Qed.

Lemma seq_in_range a n : 0 <= a -> a + n <= 256 -> in_range (seqZ a n).
Proof. intros Ha Hn. apply list.Forall_forall. intros u Hu%elem_of_seqZ. lia. Qed.

(** ** Every fragment is handled *)

Definition re_wf (s : reassembly) : Prop := zlen (re_buf s) = 2048 /\ zlen (re_unit_bitmap s) = 32 /\ 0 <= re_total_len s <= 2048.
Definition frag6_wf (st : frag6) : Prop := Forall re_wf (fr_slots st) /\ length (fr_slots st) = FRAGMENT6_MAX_REASSEMBLIES.

Lemma frag6_init_wf : frag6_wf frag6_init.
Proof. split; [|done]. apply list.Forall_forall. intros s Hs. apply elem_of_replicate in Hs as [-> _]. by vm_compute. Qed.

Lemma buf_write_spec off data buf : zlen buf = 2048 -> 0 <= off -> off + zlen data <= 2048 ->
  exists buf', buf_write off data buf = Some buf' /\ zlen buf' = 2048 /\
    forall k, 0 <= k < 2048 -> buf' !! Z.to_nat k = if (off <=? k) && (k <? off + zlen data) then data !! Z.to_nat (k - off) else buf !! Z.to_nat k.
Proof.
  intros Hl Ho Hd. unfold buf_write. rewrite Hl, (proj2 (Z.leb_le _ _)) by lia. eexists. split; [reflexivity|]. unfold zlen in *.
  split; [rewrite !length_app, length_take, length_drop; lia|]. intros k Hk.
  destruct (Z.leb_spec off k) as [H1 | H1]; cbn [andb].
  - rewrite lookup_app_r by (rewrite length_take; lia). rewrite length_take, Nat.min_l by lia.
    destruct (Z.ltb_spec k (off + Z.of_nat (length data))) as [H2 | H2].
    + rewrite lookup_app_l by lia. f_equal. lia.
    + rewrite lookup_app_r by lia. rewrite lookup_drop. f_equal. lia.
  - rewrite lookup_app_l by (rewrite length_take; lia). apply lookup_take_lt. lia.
Qed.

Lemma slots_alter_wf f i st : frag6_wf st -> (forall s, fr_slots st !! i = Some s -> re_wf s -> re_wf (f s)) -> frag6_wf (set_slots (alter f i) st).
Proof.
  intros [H1 H2] Hf. split; cbn; [|by rewrite length_alter]. apply Forall_alter; [done|]. intros s Hs. eauto.
Qed.

Lemma slots_insert_wf s i st : frag6_wf st -> re_wf s -> frag6_wf (set_slots <[i := s]> st).
Proof. intros [H1 H2] Hs. split; cbn; [by apply Forall_insert|by rewrite length_insert]. Qed.

Lemma abort_wf i st : frag6_wf st -> frag6_wf (abort_slot i st).
Proof. intros H. apply slots_alter_wf; [done|]. by intros s _ Hs. Qed.

Lemma counts_wf st c o t : frag6_wf st -> frag6_wf (mkFrag6 (fr_slots st) c o t). Proof. done. Qed.

(** The units a fragment covers. *)
Definition unit_range (off len : Z) : list Z := seqZ off ((8 * off + len + 7) / 8 - off).

Lemma in_unit_range off len u : 0 <= len -> u ∈ unit_range off len <-> off <= u /\ 8 * u < 8 * off + len.
Proof. intros. unfold unit_range. rewrite elem_of_seqZ. lia_mod. Qed.

Lemma unit_range_ok off len : 0 <= off -> 0 <= len -> 8 * off + len <= 2048 -> in_range (unit_range off len).
Proof. intros. apply seq_in_range; [lia|]. lia_mod. Qed.

(** The slot after the bytes went in. *)
Definition re_filled (s : reassembly) (buf bitmap : list Z) (total : Z) (last : bool) : reassembly :=
  mkReasm (re_src_ip s) (re_dst_ip s) (re_id s) (re_next_header s) buf bitmap total last (re_created_tick s) true.

Lemma store_runs i off (more : bool) data st s : frag6_wf st -> fr_slots st !! i = Some s -> 0 <= off -> 8 * off + zlen data <= 2048 ->
  exists buf bitmap, zlen buf = 2048 /\ zlen bitmap = 32 /\
    (forall k, 0 <= k < 2048 -> buf !! Z.to_nat k = if (8 * off <=? k) && (k <? 8 * off + zlen data) then data !! Z.to_nat (k - 8 * off) else re_buf s !! Z.to_nat k) /\
    (forall v, 0 <= v < 256 -> got bitmap v = bool_decide (v ∈ unit_range off (zlen data)) || got (re_unit_bitmap s) v) /\
    let total := if more then re_total_len s else 8 * off + zlen data in
    let last := re_have_last s || negb more in
    let st1 := set_slots <[i := re_filled s buf bitmap total last]> st in
    store_fragment i off more data st =
      if existsb (got (re_unit_bitmap s)) (unit_range off (zlen data)) then
        Some (None, mkFrag6 (fr_slots (abort_slot i st)) (fr_completed st) (fr_overlap st +32 1) (fr_timeout st))
      else if negb more && re_have_last s then Some (None, abort_slot i (set_slots <[i := re_filled s buf bitmap (re_total_len s) true]> st))
      else if negb last then Some (None, st1)
      else if forallb (got bitmap) (seqZ 0 ((total + 7) / 8)) then
        Some (Some (re_next_header s, take (Z.to_nat total) buf), mkFrag6 (fr_slots (abort_slot i st1)) (fr_completed st +32 1) (fr_overlap st) (fr_timeout st))
      else Some (None, st1).
Proof.
  intros [Hwf _] Hs Ho Hd. assert (Hz : 0 <= zlen data) by (unfold zlen; lia). pose proof (Forall_lookup_1 _ _ _ _ Hwf Hs) as (W1 & W2 & W3).
  assert (E16 : u16 (off * 8) = 8 * off) by (rewrite u16_small by (unfold is_u16; lia); lia).
  assert (Eend : Z.min ((8 * off + zlen data + 7) / 8) UNITS = (8 * off + zlen data + 7) / 8) by (rewrite (proj1 units); lia_mod).
  pose proof (unit_range_ok off (zlen data) Ho Hz Hd) as Hr.
  destruct (buf_write_spec (8 * off) data (re_buf s) W1 ltac:(lia) Hd) as (buf & Eb & Lb & Hb).
  destruct (range_set_spec (unit_range off (zlen data)) (re_unit_bitmap s) W2 Hr) as (bm & Em & Lm & Hg).
  exists buf, bm. split; [done|]. split; [done|]. split; [done|]. split; [done|]. cbv zeta. unfold store_fragment. rewrite Hs. cbn [mbind option_bind].
  rewrite E16, Eend. fold (unit_range off (zlen data)). rewrite range_overlaps_spec by done. cbn [mbind option_bind].
  destruct (existsb (got (re_unit_bitmap s)) (unit_range off (zlen data))); [done|]. rewrite Eb, Em. cbn [mbind option_bind].
  rewrite (u16_small (8 * off + zlen data)) by (unfold is_u16; lia). destruct (negb more && re_have_last s) eqn:Econf; [done|].
  destruct (negb (re_have_last s || negb more)) eqn:Elast; [done|].
  set (total := if more then re_total_len s else 8 * off + zlen data). assert (Ht : 0 <= total <= 2048) by (unfold total; destruct more; lia).
  rewrite range_full_spec; [|done|apply seq_in_range; [lia|lia_mod]]. cbn [mbind option_bind]. destruct (forallb (got bm) (seqZ 0 ((total + 7) / 8))); [|done].
  cbn [negb]. rewrite slice_in_range by (unfold zlen in Lb; lia). cbn [mbind option_bind]. by rewrite drop_0.
Qed.

Lemma re_filled_wf s buf bitmap total last : zlen buf = 2048 -> zlen bitmap = 32 -> 0 <= total <= 2048 -> re_wf (re_filled s buf bitmap total last).
Proof. done. Qed.

(** It leaves one slot changed, under its key. *)
Lemma store_total i off more data st s : frag6_wf st -> fr_slots st !! i = Some s -> 0 <= off -> 8 * off + zlen data <= 2048 ->
  exists out st' s', store_fragment i off more data st = Some (out, st') /\ fr_slots st' = <[i := s']> (fr_slots st) /\ re_wf s' /\ key s' = key s /\
    (forall nh l, out = Some (nh, l) -> zlen l <= 2048).
Proof.
  intros Hwf Hs Ho Hd. assert (Hz : 0 <= zlen data) by (unfold zlen; lia).
  pose proof (Forall_lookup_1 _ _ _ _ (proj1 Hwf) Hs) as (W1 & W2 & W3). pose proof (lookup_lt_Some _ _ _ Hs) as Hlt.
  destruct (store_runs i off more data st s Hwf Hs Ho Hd) as (buf & bm & Lb & Lm & _ & _ & ->). cbv zeta.
  set (total := if more then re_total_len s else 8 * off + zlen data). assert (Ht : 0 <= total <= 2048) by (unfold total; destruct more; lia).
  assert (Hab : forall x l, alter re_abort i (<[i := x]> l) = <[i := re_abort x]> (l : list reassembly) \/ ~ (i < length l)%nat).
  { intros x l. destruct (decide (i < length l)%nat); [left|by right]. rewrite (alter_insert _ _ _ x) by (by apply list_lookup_insert_eq). apply list_insert_insert_eq. }
  destruct (existsb _ _).
  { eexists _, _, (re_abort s). split; [done|]. split; [cbn; by apply alter_insert|]. done. }
  destruct (negb more && re_have_last s); [|destruct (negb (re_have_last s || negb more)); [|destruct (forallb _ _)]].
  - eexists _, _, (re_abort (re_filled s buf bm (re_total_len s) true)). split; [done|]. split; [cbn; by destruct (Hab (re_filled s buf bm (re_total_len s) true) (fr_slots st))|]. done.
  - eexists _, _, (re_filled s buf bm total _). done.
  - eexists _, _, (re_abort (re_filled s buf bm total (re_have_last s || negb more))). split; [done|].
    split; [cbn; by destruct (Hab (re_filled s buf bm total (re_have_last s || negb more)) (fr_slots st))|]. split; [done|]. split; [done|].
    intros nh l [= <- <-]. unfold zlen. rewrite length_take. unfold zlen in Lb. lia.
  - eexists _, _, (re_filled s buf bm total _). done.
Qed.

(** The table as the receiver keeps it. *)
Definition frag6_ok (st : frag6) : Prop := frag6_wf st /\ uniq (fr_slots st).

Lemma frag6_init_ok : frag6_ok frag6_init.
Proof. split; [apply frag6_init_wf|]. by apply uniq_replicate. Qed.

Lemma slots_update_ok i s st st' : frag6_ok st -> fr_slots st' = <[i := s]> (fr_slots st) -> re_wf s -> (used s = true -> slot_for (fr_slots st) i (key s)) -> frag6_ok st'.
Proof.
  intros [[H1 H2] Hq] E Hs Hf. split; [split|]; rewrite E; [by apply Forall_insert|by rewrite length_insert|by apply uniq_insert].
Qed.

Lemma uniq_slot_for l i (s : reassembly) : uniq l -> l !! i = Some s -> used s = true -> slot_for l i (key s).
Proof. intros Hq Hs Hu j e Hj Hue Hk. by eapply Hq. Qed.

Lemma abort_ok i st : frag6_ok st -> frag6_ok (abort_slot i st).
Proof.
  intros Hok. destruct (fr_slots st !! i) as [s|] eqn:Hs.
  - apply (slots_update_ok i (re_abort s) st); [done|cbn; by apply alter_insert| |done]. apply (Forall_lookup_1 _ _ _ _ (proj1 (proj1 Hok)) Hs).
  - destruct st as [l c o t]. unfold abort_slot, set_slots. cbn in *. by rewrite alter_out.
Qed.

Lemma re_start_wf src dst id nh now s : re_wf s -> re_wf (re_start src dst id nh now s).
Proof. intros (W1 & _). repeat split; [done|..]; cbn; lia. Qed.

(** The slot that [claim_slot] hands out, and what it did to the table. *)
Lemma claim_cases src dst id nh now st : frag6_ok st ->
  (exists i s, find_slot src dst id st = Some i /\ fr_slots st !! i = Some s /\ re_in_use s = true /\ key s = (src, dst, id) /\
     claim_slot src dst id nh now st = if re_next_header s =? nh then (Some i, st) else (None, abort_slot i st)) \/
  (find_slot src dst id st = None /\ find_free (fr_slots st) = None /\ claim_slot src dst id nh now st = (None, st)) \/
  (exists i s st', find_slot src dst id st = None /\ fr_slots st !! i = Some s /\ re_in_use s = false /\ claim_slot src dst id nh now st = (Some i, st') /\
     fr_slots st' = <[i := re_start src dst id nh now s]> (fr_slots st) /\ frag6_ok st').
Proof.
  intros Hok. unfold claim_slot. destruct (find_slot src dst id st) as [i|] eqn:E.
  - left. destruct (find_key_sound _ _ _ E) as (s & Hs & Hu & Hk). exists i, s. split; [done|]. split; [done|]. split; [done|]. split; [done|]. rewrite Hs.
    by destruct (re_next_header s =? nh).
  - right. destruct (find_free (fr_slots st)) as [i|] eqn:F; [right|left; done].
    destruct (find_free_sound _ _ F) as (s & Hs & Hu). eexists i, s, _. split; [done|]. split; [done|]. split; [exact Hu|]. split; [done|].
    assert (Es : fr_slots (set_slots (alter (re_start src dst id nh now) i) st) = <[i := re_start src dst id nh now s]> (fr_slots st)) by (cbn; by apply alter_insert).
    split; [exact Es|]. apply (slots_update_ok i _ st _ Hok Es).
    + apply re_start_wf, (Forall_lookup_1 _ _ _ _ (proj1 (proj1 Hok)) Hs).
    + intros _. by apply slot_for_new.
Qed.

(** The slots of other packets stay. *)
Definition keeps_others (k : list Z * list Z * Z) (st st' : frag6) : Prop :=
  forall j e, fr_slots st !! j = Some e -> re_in_use e = true -> key e <> k -> fr_slots st' !! j = Some e.

Lemma frag_rest_refl k st : keeps_others k st st.
Proof. by intros j e Hj _ _. Qed.
#[local] Hint Resolve frag_rest_refl : core.

Lemma frag_rest_trans k st1 st2 st3 : keeps_others k st1 st2 -> keeps_others k st2 st3 -> keeps_others k st1 st3.
Proof. intros H1 H2 j e Hj Hu Hk. apply H2; [by apply H1|done..]. Qed.

Lemma keeps_update k i s st st' : fr_slots st !! i = Some s -> re_in_use s = false \/ key s = k ->
  (forall j, j <> i -> fr_slots st' !! j = fr_slots st !! j) -> keeps_others k st st'.
Proof. intros Hs Hor Ho j e Hj Hu Hk. destruct (decide (j = i)) as [-> | Hne]; [|by rewrite Ho]. rewrite Hs in Hj. injection Hj as <-. destruct Hor; congruence. Qed.

Lemma abort_keeps i src dst id st : find_slot src dst id st = Some i -> keeps_others (src, dst, id) st (abort_slot i st).
Proof.
  intros (s & Hs & Hu & Hk)%find_key_sound. apply (keeps_update _ i s); [done|by right|]. intros j Hj. cbn. by apply list_lookup_alter_ne.
Qed.

(** The header of a fragment. *)
Definition frag_id (f : list Z) : Z := default 0 (b4 ← rd f 4; b5 ← rd f 5; b6 ← rd f 6; b7 ← rd f 7; Some (be32 b4 b5 b6 b7)).
Definition frag_offset (f : list Z) : Z := default 0 (b2 ← rd f 2; b3 ← rd f 3; Some (Z.shiftr (be16 b2 b3) 3)).
Definition frag_more (f : list Z) : bool := default false (b2 ← rd f 2; b3 ← rd f 3; Some (negb (Z.land (be16 b2 b3) 1 =? 0))).
Definition frag_next (f : list Z) : Z := default 0 (rd f 0).

Lemma receive_runs src dst f now st : 8 <= zlen f -> let data := drop 8 f in
  0 <= frag_offset f < 8192 /\
  fragment6_receive src dst f now st =
    if frag_more f && negb (zlen data mod 8 =? 0) then Some (None, st)
    else if 2048 <? 8 * frag_offset f + zlen data then Some (None, match find_slot src dst (frag_id f) st with Some i => abort_slot i st | None => st end)
    else let '(slot, st) := claim_slot src dst (frag_id f) (frag_next f) now st in
      match slot with None => Some (None, st) | Some i => store_fragment i (frag_offset f) (frag_more f) data st end.
Proof.
  intros Hl data. unfold fragment6_receive, frag_offset, frag_more, frag_id, frag_next. rewrite (proj2 (Z.ltb_ge _ _)) by lia.
  destruct (rd_in_range f 0 ltac:(lia)) as [b0 ->], (rd_in_range f 2 ltac:(lia)) as [b2 ->], (rd_in_range f 3 ltac:(lia)) as [b3 ->].
  destruct (rd_in_range f 4 ltac:(lia)) as [b4 ->], (rd_in_range f 5 ltac:(lia)) as [b5 ->], (rd_in_range f 6 ltac:(lia)) as [b6 ->], (rd_in_range f 7 ltac:(lia)) as [b7 ->].
  cbn [mbind option_bind default from_option]. fold data. pose proof (be16_range b2 b3) as Hr. set (w := be16 b2 b3) in *. unfold is_u16 in Hr.
  assert (Hs : 0 <= Z.shiftr w 3 < 8192) by (rewrite Z.shiftr_div_pow2 by lia; change (2 ^ 3) with 8; lia_mod).
  change (id (Z.shiftr w 3)) with (Z.shiftr w 3). split; [exact Hs|]. rewrite (u16_small (Z.shiftr w 3 * 8)) by (unfold is_u16; lia).
  rewrite (Z.mul_comm (Z.shiftr w 3) 8). reflexivity.
Qed.

Lemma receive_total src dst f now st : frag6_ok st ->
  exists out st', fragment6_receive src dst f now st = Some (out, st') /\ frag6_ok st' /\ keeps_others (src, dst, frag_id f) st st' /\
    (forall nh l, out = Some (nh, l) -> zlen l <= 2048).
Proof.
  intros Hok. destruct (Z.ltb_spec (zlen f) 8) as [Hl | Hl].
  { exists None, st. unfold fragment6_receive. rewrite (proj2 (Z.ltb_lt _ _)) by done. done. }
  destruct (receive_runs src dst f now st Hl) as [Ho ->]. cbv zeta. set (data := drop 8 f). assert (Hz : 0 <= zlen data) by (unfold zlen; lia).
  destruct (frag_more f && negb (zlen data mod 8 =? 0)); [by exists None, st|].
  destruct (Z.ltb_spec 2048 (8 * frag_offset f + zlen data)) as [Hb | Hb].
  { eexists None, _. split; [done|]. destruct (find_slot src dst (frag_id f) st) as [i|] eqn:E; [|done]. split; [by apply abort_ok|]. split; [by apply abort_keeps|done]. }
  destruct (claim_cases src dst (frag_id f) (frag_next f) now st Hok) as [(i & s & E & Hs & Hu & Hk & ->) | [(E & F & ->) | (i & s & st1 & E & Hs & Hu & -> & Es & Hok1)]].
  - destruct (re_next_header s =? frag_next f).
    + destruct (store_total i (frag_offset f) (frag_more f) data st s (proj1 Hok) Hs ltac:(lia) Hb) as (out & st' & s' & -> & Es' & Ws' & Ks' & Hout).
      exists out, st'. split; [done|]. split; [|split; [|done]].
      * apply (slots_update_ok i s' st); [done..|]. intros _. rewrite Ks'. apply uniq_slot_for; [apply Hok|done..].
      * apply (keeps_update _ i s); [done|by right|]. intros j Hj. rewrite Es'. by apply list_lookup_insert_ne.
    + eexists None, _. split; [done|]. split; [by apply abort_ok|]. split; [by apply abort_keeps|done].
  - by exists None, st.
  - pose proof (lookup_lt_Some _ _ _ Hs) as Hlt.
    assert (Hs1 : fr_slots st1 !! i = Some (re_start src dst (frag_id f) (frag_next f) now s)) by (rewrite Es; by apply list_lookup_insert_eq).
    destruct (store_total i (frag_offset f) (frag_more f) data st1 _ (proj1 Hok1) Hs1 ltac:(lia) Hb) as (out & st' & s' & -> & Es' & Ws' & Ks' & Hout).
    exists out, st'. split; [done|]. split; [|split; [|done]].
    + apply (slots_update_ok i s' st1); [done..|]. intros _. rewrite Ks'. apply uniq_slot_for; [apply Hok1|done..].
    + apply (keeps_update _ i s); [done|by left|]. intros j Hj. rewrite Es', Es. by rewrite !list_lookup_insert_ne.
Qed.

Lemma expire_keeps now (l : list reassembly) (i : nat) s : l !! i = Some s -> re_expired now s = false -> ((fun s => if re_expired now s then re_abort s else s) <$> l) !! i = Some s.
Proof. intros Hs He. rewrite list_lookup_fmap, Hs. cbn. by rewrite He. Qed.

Lemma tick_ok now st : frag6_ok st -> frag6_ok (fragment6_tick now st).
Proof.
  intros [[H1 H2] Hq]. split; [split|]; cbn.
  - apply Forall_fmap. eapply Forall_impl; [|exact H1]. intros s Hs. cbn. by destruct (re_expired now s).
  - by rewrite length_fmap.
  - apply uniq_fmap; [|done]. intros e. by destruct (re_expired now e).
Qed.

(** ** Sequences of fragments and ticks *)

Inductive frag_event := Fragment (src dst f : list Z) (now : Z) | Tick (now : Z).

(** A packet put together: whose it is, what follows the header, and its bytes. *)
Record packet := mkPacket { pk_key : list Z * list Z * Z; pk_next : Z; pk_bytes : list Z }.

Definition frag_step (e : frag_event) (st : frag6) : option (list packet * frag6) :=
  match e with
  | Fragment src dst f now =>
      '(out, st') ← fragment6_receive src dst f now st;
      Some (match out with Some (nh, l) => [mkPacket (src, dst, frag_id f) nh l] | None => [] end, st')
  | Tick now => Some ([], fragment6_tick now st)
  end.
(** What comes out of a run, in order. *)
Fixpoint frag_run (es : list frag_event) (st : frag6) : option (list packet * frag6) :=
  match es with
  | [] => Some ([], st)
  | e :: es' => '(o1, st1) ← frag_step e st; '(o2, st2) ← frag_run es' st1; Some (o1 ++ o2, st2)
  end.

Lemma step_total e st : frag6_ok st -> exists o st', frag_step e st = Some (o, st') /\ frag6_ok st' /\ Forall (fun p => zlen (pk_bytes p) <= 2048) o.
Proof.
  intros Hok. destruct e as [src dst f now|now]; cbn.
  - destruct (receive_total src dst f now st Hok) as (out & st' & -> & Hok' & _ & Hout). cbn. eexists _, _. split; [done|]. split; [done|].
    destruct out as [[nh l]|]; cbn; [|constructor]. constructor; [by eapply Hout|constructor].
  - eexists _, _. split; [done|]. split; [by apply tick_ok|constructor].
Qed.

(** C30: whatever fragments arrive, with any bytes in any order, and however the
    ticks fall between them, every call returns without reading or writing outside
    the fragment and the table's buffers, the table keeps its shape with at most one
    reassembly per packet, and nothing longer than 2048 bytes is ever handed out. *)
Theorem fragment6_run_safe es : exists out st', frag_run es frag6_init = Some (out, st') /\ frag6_ok st' /\ Forall (fun p => zlen (pk_bytes p) <= 2048) out.
Proof.
  generalize frag6_init_ok. generalize frag6_init. induction es as [|e es IH]; intros st Hok; cbn; [by eexists _, _|].
  destruct (step_total e st Hok) as (o & st1 & -> & Hok1 & Ho). cbn. destruct (IH st1 Hok1) as (o2 & st2 & -> & Hok2 & Ho2). cbn.
  eexists _, _. split; [done|]. split; [done|]. by apply Forall_app.
Qed.

(** ** A packet put together again *)

(** A packet of [D] cut into pieces, each given by its offset in units, whether
    more follow, and its bytes. *)
Record piece := mkPiece { p_off : Z; p_more : bool; p_data : list Z }.

(** The sender's side: every piece but the last carries some whole units. *)
Fixpoint cut_packet (off : Z) (sizes : list nat) (D : list Z) : list piece :=
  match sizes with
  | [] => [mkPiece off false D]
  | n :: sizes' => mkPiece off true (take (8 * S n) D) :: cut_packet (off + Z.of_nat (S n)) sizes' (drop (8 * S n) D)
  end.
(** ... and there is something left for the last. *)
Definition cut_fits (sizes : list nat) (D : list Z) : Prop := 8 * (Z.of_nat (length sizes) + Z.of_nat (sum_list sizes)) < zlen D.

(** The fragment header before a piece. *)
Definition frag_bytes (nh id : Z) (p : piece) : list Z :=
  [nh; 0] ++ put16 (Z.lor (Z.shiftl (p_off p) 3) (if p_more p then 1 else 0)) ++ put32 id ++ p_data p.

Lemma frag_bytes_fields nh id p : 0 <= p_off p < 8192 -> is_u32 id -> let f := frag_bytes nh id p in
  8 <= zlen f /\ frag_next f = nh /\ frag_id f = id /\ frag_offset f = p_off p /\ frag_more f = p_more p /\ drop 8 f = p_data p.
Proof.
  intros Ho Hid f. split; [unfold f, frag_bytes, zlen; cbn; lia|]. split; [done|].
  assert (Eid : frag_id f = id) by (change (frag_id f) with (be32 (u8 (Z.shiftr id 24)) (u8 (Z.shiftr id 16)) (u8 (Z.shiftr id 8)) (u8 id)); by apply be32_put32).
  split; [exact Eid|]. set (b := if p_more p then 1 else 0). assert (Hb : 0 <= b < 2) by (unfold b; destruct (p_more p); lia).
  assert (Ew : Z.lor (Z.shiftl (p_off p) 3) b = p_off p * 8 + b) by (rewrite lor_shift_add by (cbn; lia); change (2 ^ 3) with 8; lia).
  assert (Hw : be16 (hi8 (p_off p * 8 + b)) (lo8 (p_off p * 8 + b)) = p_off p * 8 + b) by (apply be16_put16; unfold is_u16; lia).
  assert (Eo : frag_offset f = Z.shiftr (be16 (hi8 (Z.lor (Z.shiftl (p_off p) 3) b)) (lo8 (Z.lor (Z.shiftl (p_off p) 3) b))) 3) by reflexivity.
  assert (Em : frag_more f = negb (Z.land (be16 (hi8 (Z.lor (Z.shiftl (p_off p) 3) b)) (lo8 (Z.lor (Z.shiftl (p_off p) 3) b))) 1 =? 0)) by reflexivity.
  rewrite Ew, Hw in Eo, Em. split; [rewrite Eo, Z.shiftr_div_pow2 by lia; change (2 ^ 3) with 8; lia_mod|]. split; [|done].
  rewrite Em. change 1 with (Z.ones 1). rewrite Z.land_ones by lia. change (2 ^ 1) with 2. unfold b. destruct (p_more p); [apply negb_true_iff, Z.eqb_neq|apply negb_false_iff, Z.eqb_eq]; lia_mod.
Qed.

(** *** The pieces of a packet *)

Definition p_units (p : piece) : list Z := unit_range (p_off p) (zlen (p_data p)).
Definition p_last (p : piece) : bool := negb (p_more p).

(** A piece is the part of [D] at its offset, of whole units unless it is the last. *)
Definition piece_of (D : list Z) (p : piece) : Prop :=
  let len := zlen (p_data p) in
  0 <= p_off p /\ 0 < len /\ 8 * p_off p + len <= zlen D /\
  (forall k, 0 <= k < len -> p_data p !! Z.to_nat k = D !! Z.to_nat (8 * p_off p + k)) /\
  if p_more p then len mod 8 = 0 else 8 * p_off p + len = zlen D.

(** Pieces that make up [D], in any order. *)
Definition pieces_of (D : list Z) (ps : list piece) : Prop :=
  Forall (piece_of D) ps /\ ps ≫= p_units ≡ₚ seqZ 0 ((zlen D + 7) / 8) /\ count_if p_last ps = 1%nat.

Lemma count_if_permutation {A} (f : A -> bool) l l' : l ≡ₚ l' -> count_if f l = count_if f l'.
Proof. induction 1; cbn; lia. Qed.

Lemma pieces_of_permutation D ps ps' : ps ≡ₚ ps' -> pieces_of D ps -> pieces_of D ps'.
Proof.
  intros Hp (H1 & H2 & H3). split; [by rewrite <- Hp|]. split; [by rewrite <- Hp|]. by rewrite <- (count_if_permutation _ _ _ Hp).
Qed.

Lemma cut_pieces sizes : forall A D, 0 < zlen D -> zlen A mod 8 = 0 -> cut_fits sizes D ->
  let ps := cut_packet (zlen A / 8) sizes D in
  Forall (piece_of (A ++ D)) ps /\ ps ≫= p_units = seqZ (zlen A / 8) ((zlen (A ++ D) + 7) / 8 - zlen A / 8) /\ count_if p_last ps = 1%nat.
Proof.
  induction sizes as [|n sizes IH]; intros A D HD HA Hf.
  - cbn. assert (E8 : 8 * (zlen A / 8) = zlen A) by lia_mod. assert (El : zlen (A ++ D) = zlen A + zlen D) by (unfold zlen; rewrite length_app; lia).
    split; [|split; [|done]].
    + constructor; [|constructor]. unfold piece_of. cbn. split; [unfold zlen; lia_mod|]. split; [done|]. split; [lia|]. split; [|lia].
      intros k Hk. rewrite E8, lookup_app_r by (unfold zlen; lia). f_equal. unfold zlen. lia.
    + unfold p_units. cbn. rewrite app_nil_r. unfold unit_range. f_equal. rewrite E8, El. done.
  - unfold cut_fits in Hf. cbn in Hf. pose proof (take_drop (8 * S n) D) as ED. set (D1 := take (8 * S n) D) in *. set (D2 := drop (8 * S n) D) in *.
    assert (L1 : zlen D1 = 8 * Z.of_nat (S n)) by (unfold zlen, D1 in *; rewrite length_take; lia).
    assert (L2 : zlen D2 = zlen D - 8 * Z.of_nat (S n)) by (unfold zlen, D2 in *; rewrite length_drop; lia).
    assert (LA : zlen (A ++ D1) = zlen A + 8 * Z.of_nat (S n)) by (unfold zlen in *; rewrite length_app; lia).
    assert (Eo : zlen (A ++ D1) / 8 = zlen A / 8 + Z.of_nat (S n)) by (rewrite LA; lia_mod).
    destruct (IH (A ++ D1) D2 ltac:(lia) ltac:(rewrite LA; lia_mod) ltac:(unfold cut_fits; lia)) as (H1 & H2 & H3).
    rewrite Eo in H1, H2, H3. rewrite <- app_assoc, ED in H1, H2. cbn [cut_packet]. fold D1 D2. cbn [count_if].
    assert (E8 : 8 * (zlen A / 8) = zlen A) by lia_mod. assert (El : zlen (A ++ D) = zlen A + zlen D) by (unfold zlen; rewrite length_app; lia).
    split; [|split; [|exact H3]].
    + constructor; [|exact H1]. unfold piece_of. cbn [p_off p_data p_more]. rewrite E8, L1, El. split; [unfold zlen; lia_mod|]. split; [lia|]. split; [lia|].
      split; [|lia_mod]. intros k Hk. rewrite lookup_app_r by (unfold zlen; lia). unfold D1. rewrite lookup_take_lt by lia. f_equal. unfold zlen. lia.
    + rewrite bind_cons, H2. unfold p_units, unit_range. cbn [p_off p_data]. rewrite L1, E8.
      replace ((zlen A + 8 * Z.of_nat (S n) + 7) / 8 - zlen A / 8) with (Z.of_nat (S n)) by lia_mod.
      rewrite <- seqZ_app by lia_mod. f_equal. lia.
Qed.

Lemma cut_packet_pieces sizes D : 0 < zlen D -> cut_fits sizes D -> pieces_of D (cut_packet 0 sizes D).
Proof.
  intros HD Hf. destruct (cut_pieces sizes [] D HD eq_refl Hf) as (H1 & H2 & H3). change (zlen [] / 8) with 0 in H1, H2, H3. cbn [app] in H1, H2, H3.
  split; [exact H1|]. split; [|exact H3]. by rewrite H2, Z.sub_0_r.
Qed.

(** *** The slot while the pieces come in *)

Section Reassembly.
Context (src dst : list Z) (id nh t0 : Z) (D : list Z).
Context (Hid : is_u32 id) (HD : zlen D <= 2048).
#[local] Notation k := (src, dst, id).

(** The slot after the pieces [rcv]. *)
Definition content (rcv : list piece) (s : reassembly) : Prop :=
  re_in_use s = true /\ key s = k /\ re_next_header s = nh /\ re_created_tick s = t0 /\
  re_have_last s = existsb p_last rcv /\ (re_have_last s = true -> re_total_len s = zlen D) /\
  (forall u, 0 <= u < 256 -> got (re_unit_bitmap s) u = bool_decide (u ∈ rcv ≫= p_units)) /\
  (forall x, 0 <= x < zlen D -> got (re_unit_bitmap s) (x / 8) = true -> re_buf s !! Z.to_nat x = D !! Z.to_nat x).

Lemma start_content s : content [] (re_start src dst id nh t0 s).
Proof.
  assert (Hg : forall u, 0 <= u < 256 -> got (replicate (Z.to_nat UNIT_BYTES) 0) u = false).
  { intros u Hu. unfold got. rewrite lookup_replicate_2; [apply Z.bits_0|]. change (Z.to_nat UNIT_BYTES) with 32%nat. lia_mod. }
  do 6 (split; [done|]). split.
  - intros u Hu. cbn [re_start re_unit_bitmap]. rewrite Hg by done. symmetry. apply bool_decide_false, not_elem_of_nil.
  - intros x Hx. cbn [re_start re_unit_bitmap]. rewrite Hg; [done|lia_mod].
Qed.

Lemma existsb_false {A} (f : A -> bool) l : (forall x, x ∈ l -> f x = false) -> existsb f l = false.
Proof. induction l as [|x l IH]; intros H; cbn; [done|]. rewrite H by left. apply IH. intros y Hy. apply H. by right. Qed.

Lemma count_pos {A} (f : A -> bool) l : existsb f l = true -> (1 <= count_if f l)%nat.
Proof. induction l as [|x l IH]; cbn; [done|]. destruct (f x); [lia|]. intros H. specialize (IH H). lia. Qed.

Lemma count_if_app {A} (f : A -> bool) l l' : count_if f (l ++ l') = (count_if f l + count_if f l')%nat.
Proof. induction l; cbn; lia. Qed.

(** A piece in a list of pieces that make up [D]. *)
Lemma next_piece rcv p rest : pieces_of D (rcv ++ p :: rest) ->
  piece_of D p /\ (forall u, u ∈ p_units p -> u ∉ rcv ≫= p_units) /\ (p_last p = true -> existsb p_last rcv = false) /\
  (forall q, q ∈ rest -> exists u, 8 * u < zlen D /\ 0 <= u /\ u ∉ (rcv ++ [p]) ≫= p_units).
Proof.
  intros (H1 & H2 & H3). apply Forall_app in H1 as [_ H1]. apply Forall_cons_1 in H1 as [Hp Hr]. split; [done|].
  assert (Hnd : NoDup ((rcv ++ p :: rest) ≫= p_units)) by (rewrite H2; apply NoDup_seqZ).
  split; [|split].
  - intros u Hu Hin. rewrite bind_app in Hnd. apply list.NoDup_app in Hnd as (_ & Hnd & _). apply (Hnd u Hin). rewrite bind_cons. apply elem_of_app. by left.
  - intros Hl. apply not_true_iff_false. intros Hc%count_pos. rewrite count_if_app in H3. cbn in H3. rewrite Hl in H3. lia.
  - intros q Hq. pose proof (proj1 (list.Forall_forall _ _) Hr q Hq) as (Q1 & Q2 & Q3 & _). exists (p_off q).
    split; [lia|]. split; [lia|]. intros Hin. replace (rcv ++ p :: rest) with ((rcv ++ [p]) ++ rest) in Hnd by (by rewrite <- app_assoc).
    rewrite bind_app in Hnd. apply list.NoDup_app in Hnd as (_ & Hnd & _). apply (Hnd _ Hin). apply list_elem_of_bind. exists q. split; [|done].
    apply in_unit_range; lia.
Qed.

Lemma all_units rcv p : pieces_of D (rcv ++ [p]) -> forall u, 0 <= u -> 8 * u < zlen D -> u ∈ (rcv ++ [p]) ≫= p_units.
Proof. intros (_ & H2 & _) u Hu1 Hu2. rewrite H2. apply elem_of_seqZ. lia_mod. Qed.

(** A piece that is not there yet. *)
Definition next_fits (rcv : list piece) (p : piece) : Prop :=
  piece_of D p /\ (forall u, u ∈ p_units p -> u ∉ rcv ≫= p_units) /\ (p_last p = true -> existsb p_last rcv = false).

(** The slot that takes a piece. *)
Lemma filled_content rcv p s buf bitmap : next_fits rcv p -> content rcv s ->
  (forall k, 0 <= k < 2048 -> buf !! Z.to_nat k =
     if (8 * p_off p <=? k) && (k <? 8 * p_off p + zlen (p_data p)) then p_data p !! Z.to_nat (k - 8 * p_off p) else re_buf s !! Z.to_nat k) ->
  (forall v, 0 <= v < 256 -> got bitmap v = bool_decide (v ∈ p_units p) || got (re_unit_bitmap s) v) ->
  content (rcv ++ [p]) (re_filled s buf bitmap (if p_more p then re_total_len s else 8 * p_off p + zlen (p_data p)) (re_have_last s || negb (p_more p))).
Proof.
  intros (Hp & Hno & Hlast) (C1 & C2 & C3 & C4 & C5 & C6 & C7 & C8) Hbuf Hgot. pose proof Hp as (P1 & P2 & P3 & P4 & P5).
  split; [done|]. split; [done|]. split; [done|]. split; [done|]. cbn [re_filled re_have_last re_total_len re_unit_bitmap re_buf].
  split; [rewrite existsb_app, C5; cbn; unfold p_last; by rewrite orb_false_r|]. split.
  { destruct (p_more p); [|done]. cbn [negb]. rewrite orb_false_r. exact C6. }
  assert (Hset : forall u, 0 <= u < 256 -> got bitmap u = bool_decide (u ∈ (rcv ++ [p]) ≫= p_units)).
  { intros u Hu. rewrite Hgot, C7 by done. apply eq_true_iff_eq. rewrite orb_true_iff, !bool_decide_eq_true, bind_app, elem_of_app, bind_singleton. tauto. }
  split; [exact Hset|]. intros x Hx Hg. rewrite Hbuf by lia.
  destruct (Z.leb_spec (8 * p_off p) x) as [Ha | Ha], (Z.ltb_spec x (8 * p_off p + zlen (p_data p))) as [Hb | Hb]; cbn [andb].
  1: rewrite P4 by lia; f_equal; lia.
  all: apply C8; [done|]; rewrite Hgot in Hg by lia_mod; apply orb_true_iff in Hg as [Hg | Hg]; [|exact Hg].
  all: apply bool_decide_eq_true, in_unit_range in Hg; [|lia]; exfalso.
  all: destruct (p_more p); lia_mod.
Qed.

Lemma store_piece rcv p rest i s st : frag6_wf st -> fr_slots st !! i = Some s -> content rcv s -> pieces_of D (rcv ++ p :: rest) ->
  exists out st' s', store_fragment i (p_off p) (p_more p) (p_data p) st = Some (out, st') /\ fr_slots st' = <[i := s']> (fr_slots st) /\
    match rest with
    | [] => out = Some (nh, D) /\ re_in_use s' = false
    | _ => out = None /\ content (rcv ++ [p]) s'
    end.
Proof.
  intros Hwf Hs Hc Hps. pose proof (next_piece rcv p rest Hps) as (Hp & Hno & Hlast & Hrest). pose proof Hp as (P1 & P2 & P3 & P4 & P5).
  pose proof Hc as (C1 & C2 & C3 & C4 & C5 & C6 & C7 & C8). pose proof (lookup_lt_Some _ _ _ Hs) as Hlt.
  destruct (store_runs i (p_off p) (p_more p) (p_data p) st s Hwf Hs ltac:(lia) ltac:(lia)) as (buf & bm & Lb & Lm & Hbuf & Hgot & ->). cbv zeta.
  pose proof (filled_content rcv p s buf bm (conj Hp (conj Hno Hlast)) Hc Hbuf Hgot) as Hc'.
  set (total := if p_more p then re_total_len s else 8 * p_off p + zlen (p_data p)) in *. set (last := re_have_last s || negb (p_more p)) in *.
  rewrite existsb_false; [|intros u Hu; pose proof (unit_range_ok _ _ P1 (Z.lt_le_incl _ _ P2) ltac:(lia)) as Hr;
    rewrite C7 by (apply (proj1 (list.Forall_forall _ _) Hr u Hu)); by apply bool_decide_false, Hno].
  replace (negb (p_more p) && re_have_last s) with false by (rewrite C5; destruct (p_last p) eqn:E; unfold p_last in E; rewrite E; [by rewrite Hlast|done]).
  pose proof Hc' as (_ & _ & _ & _ & D5 & D6 & D7 & D8). cbn [re_filled re_have_last re_total_len re_unit_bitmap re_buf] in D5, D6, D7, D8.
  destruct rest as [|q rest].
  - assert (El : last = true).
    { rewrite D5. destruct (existsb p_last (rcv ++ [p])) eqn:E; [done|]. destruct Hps as (_ & _ & H3). exfalso.
      assert (count_if p_last (rcv ++ [p]) = 0%nat); [|lia]. apply count_if_0. intros x Hx. apply not_true_iff_false. intros Hx'.
      apply not_true_iff_false in E. apply E, existsb_exists. exists x. split; [by apply list_elem_of_In|done]. }
    rewrite El in *. cbn [negb]. pose proof (D6 eq_refl) as Et. rewrite Et.
    assert (Hall : forallb (got bm) (seqZ 0 ((zlen D + 7) / 8)) = true).
    { apply forallb_forall. intros u Hu. apply list_elem_of_In, elem_of_seqZ in Hu. rewrite D7 by lia_mod. apply bool_decide_true, (all_units _ _ Hps); lia_mod. }
    rewrite Hall. eexists _, _, (re_abort _). split; [reflexivity|].
    split; [cbn; rewrite (alter_insert _ _ _ (re_filled s buf bm (zlen D) true)) by (by apply list_lookup_insert_eq); apply list_insert_insert_eq|]. split; [|done].
    rewrite C3. do 2 f_equal. apply list_eq. intros x. destruct (decide (x < length D)%nat) as [Hx | Hx].
    + rewrite lookup_take_lt by (unfold zlen; lia). rewrite <- (Nat2Z.id x). apply D8; [unfold zlen; lia|].
      rewrite D7 by (unfold zlen in HD; lia_mod). apply bool_decide_true, (all_units _ _ Hps); unfold zlen; lia_mod.
    + rewrite lookup_take_ge by (unfold zlen; lia). symmetry. apply lookup_ge_None. lia.
  - destruct (Hrest q ltac:(left)) as (u & Hu1 & Hu2 & Hu3).
    assert (Hne : last = true -> forallb (got bm) (seqZ 0 ((total + 7) / 8)) = false).
    { intros El. rewrite (D6 El). apply not_true_iff_false. intros Hf. rewrite forallb_forall in Hf. specialize (Hf u ltac:(apply list_elem_of_In, elem_of_seqZ; lia_mod)).
      rewrite D7 in Hf by lia. by apply bool_decide_eq_true in Hf. }
    exists None. destruct last; cbn [negb]; [rewrite Hne by done|]; by eexists _, _.
Qed.
(** The state between two pieces. *)
Definition holding (rcv : list piece) (st : frag6) : Prop :=
  frag6_ok st /\
  match rcv with
  | [] => find_slot src dst id st = None /\ is_Some (find_free (fr_slots st))
  | _ => exists i s, fr_slots st !! i = Some s /\ content rcv s
  end.

Lemma holding_claim rcv now st : holding rcv st -> (rcv = [] -> now = t0) ->
  exists i s st1, claim_slot src dst id nh now st = (Some i, st1) /\ frag6_ok st1 /\ fr_slots st1 !! i = Some s /\ content rcv s.
Proof.
  intros [Hok Hh] Hnow. destruct (claim_cases src dst id nh now st Hok) as [(i & s & E & Hs & Hu & Hk & Ec) | [(E & F & Ec) | (i & s & st1 & E & Hs & Hu & Ec & Es & Hok1)]].
  - destruct rcv as [|q rcv]; [by destruct Hh; congruence|]. destruct Hh as (j & s' & Hj & Hc). pose proof Hc as (C1 & C2 & C3 & _).
    assert (j = i) as -> by (eapply (proj2 Hok); [exact Hj|exact Hs|done|done|congruence]). assert (s' = s) as -> by congruence.
    exists i, s, st. rewrite Ec, (proj2 (Z.eqb_eq _ _) C3). done.
  - exfalso. destruct rcv as [|q rcv]; [destruct Hh as [_ [x Hx]]; congruence|]. destruct Hh as (j & s' & Hj & C1 & C2 & _).
    apply (proj1 (find_key_None k (fr_slots st)) E j s' Hj C1 C2).
  - destruct rcv as [|q rcv].
    + exists i, (re_start src dst id nh now s), st1. split; [done|]. split; [done|]. split; [rewrite Es; apply list_lookup_insert_eq; by eapply lookup_lt_Some|].
      rewrite (Hnow eq_refl). apply start_content.
    + exfalso. destruct Hh as (j & s' & Hj & C1 & C2 & _). apply (proj1 (find_key_None k (fr_slots st)) E j s' Hj C1 C2).
Qed.

Lemma receive_piece rcv p rest now st : holding rcv st -> (rcv = [] -> now = t0) -> pieces_of D (rcv ++ p :: rest) ->
  exists out st', fragment6_receive src dst (frag_bytes nh id p) now st = Some (out, st') /\ frag6_ok st' /\
    match rest with
    | [] => out = Some (nh, D) /\ find_slot src dst id st' = None
    | _ => out = None /\ holding (rcv ++ [p]) st'
    end.
Proof.
  intros Hh Hnow Hps. destruct (next_piece rcv p rest Hps) as ((P1 & P2 & P3 & P4 & P5) & _).
  destruct (frag_bytes_fields nh id p ltac:(lia) Hid) as (F1 & F2 & F3 & F4 & F5 & F6).
  destruct (receive_total src dst (frag_bytes nh id p) now st (proj1 Hh)) as (out & st' & E & Hok' & _).
  exists out, st'. split; [done|]. split; [done|]. rewrite (proj2 (receive_runs src dst _ now st F1)) in E. cbv zeta in E. rewrite F2, F3, F4, F5, F6 in E.
  replace (p_more p && negb (zlen (p_data p) mod 8 =? 0)) with false in E by (destruct (p_more p); [by rewrite P5|done]).
  rewrite (proj2 (Z.ltb_ge _ _)) in E by lia. destruct (holding_claim rcv now st Hh Hnow) as (i & s & st1 & Ec & Hok1 & Hs & Hc). rewrite Ec in E.
  destruct (store_piece rcv p rest i s st1 (proj1 Hok1) Hs Hc Hps) as (out' & st'' & s' & E' & Es & Hend). rewrite E' in E. injection E as <- <-.
  pose proof (lookup_lt_Some _ _ _ Hs) as Hlt. assert (Hs' : fr_slots st'' !! i = Some s') by (rewrite Es; by apply list_lookup_insert_eq).
  destruct rest as [|q rest]; destruct Hend as [-> Hend]; (split; [done|]).
  - apply find_key_None. intros j e Hj Hu Hk. rewrite Es in Hj. destruct (decide (j = i)) as [-> | Hne].
    + rewrite list_lookup_insert_eq in Hj by done. injection Hj as <-. cbn in Hu. congruence.
    + rewrite list_lookup_insert_ne in Hj by done. apply Hne. eapply (proj2 Hok1); [exact Hj|exact Hs|done|apply Hc|]. destruct Hc as (_ & -> & _). exact Hk.
  - split; [done|]. destruct (rcv ++ [p]) as [|q' l] eqn:Eq; [by destruct rcv|]. by exists i, s'.
Qed.

(** *** The arrival of the pieces among other traffic *)

(** The events after the first piece: the other pieces in their order, fragments of
    other packets, and ticks before the reassembly times out. *)
Inductive arrival : list piece -> list frag_event -> Prop :=
| arrival_nil : arrival [] []
| arrival_piece p ps es now : arrival ps es -> arrival (p :: ps) (Fragment src dst (frag_bytes nh id p) now :: es)
| arrival_other ps es src' dst' f now : (src', dst', frag_id f) <> k -> arrival ps es -> arrival ps (Fragment src' dst' f now :: es)
| arrival_tick ps es now : now -32 t0 <= FRAGMENT6_TIMEOUT_TICKS -> arrival ps es -> arrival ps (Tick now :: es).

Lemma other_holding rcv src' dst' f now st : rcv <> [] -> (src', dst', frag_id f) <> k -> holding rcv st ->
  exists out st', fragment6_receive src' dst' f now st = Some (out, st') /\ holding rcv st'.
Proof.
  intros Hne Hk [Hok Hh]. destruct rcv as [|q rcv]; [done|]. destruct Hh as (i & s & Hi & Hc).
  destruct (receive_total src' dst' f now st Hok) as (out & st' & E & Hok' & Hkeep & _). exists out, st'. split; [done|]. split; [done|].
  exists i, s. split; [|done]. apply Hkeep; [done|apply Hc|]. destruct Hc as (_ & -> & _). congruence.
Qed.

Lemma tick_holding rcv now st : rcv <> [] -> now -32 t0 <= FRAGMENT6_TIMEOUT_TICKS -> holding rcv st -> holding rcv (fragment6_tick now st).
Proof.
  intros Hne Hnow [Hok Hh]. destruct rcv as [|q rcv]; [done|]. destruct Hh as (i & s & Hi & Hc). split; [by apply tick_ok|]. exists i, s. split; [|done].
  apply expire_keeps; [done|]. unfold re_expired. destruct Hc as (-> & _ & _ & -> & _). cbn [andb]. apply Z.ltb_ge. done.
Qed.
(** The packets of this key among those that came out. *)
Definition ours (o : list packet) : list packet := filter (fun p => pk_key p = k) o.

Lemma other_step src' dst' f now st out st' : fragment6_receive src' dst' f now st = Some (out, st') -> (src', dst', frag_id f) <> k ->
  exists o, frag_step (Fragment src' dst' f now) st = Some (o, st') /\ ours o = [].
Proof.
  intros E Hk. cbn. rewrite E. cbn. eexists. split; [done|]. destruct out as [[h l]|]; [|done]. unfold ours. by rewrite filter_cons_False, filter_nil.
Qed.

Lemma run_cons e es st o1 st1 o2 st2 : frag_step e st = Some (o1, st1) -> frag_run es st1 = Some (o2, st2) -> frag_run (e :: es) st = Some (o1 ++ o2, st2).
Proof. intros E1 E2. cbn. rewrite E1. cbn. by rewrite E2. Qed.

Lemma run_after es st : arrival [] es -> frag6_ok st -> exists o st', frag_run es st = Some (o, st') /\ frag6_ok st' /\ ours o = [].
Proof.
  remember [] as ps eqn:Eps. intros Ha. revert st. induction Ha as [|p ps es now Ha IH|ps es src' dst' f now Hk Ha IH|ps es now Hnow Ha IH]; intros st Hok.
  - by exists [], st.
  - done.
  - destruct (receive_total src' dst' f now st Hok) as (out & st1 & E & Hok1 & _). destruct (other_step _ _ _ _ _ _ _ E Hk) as (o1 & E1 & Ho1).
    destruct (IH Eps st1 Hok1) as (o2 & st2 & E2 & Hok2 & Ho2). exists (o1 ++ o2), st2. split; [by eapply run_cons|]. split; [done|]. unfold ours in *. by rewrite list.filter_app, Ho1, Ho2.
  - destruct (IH Eps _ (tick_ok now st Hok)) as (o2 & st2 & E2 & Hok2 & Ho2). exists o2, st2. split; [by apply (run_cons (Tick now) es st [] _ _ _ eq_refl E2)|done].
Qed.

Definition delivered (o : list packet) : Prop := ours o = [mkPacket k nh D].

Lemma own_step p now st out st' : fragment6_receive src dst (frag_bytes nh id p) now st = Some (out, st') -> frag_id (frag_bytes nh id p) = id ->
  frag_step (Fragment src dst (frag_bytes nh id p) now) st = Some (match out with Some (h, l) => [mkPacket k h l] | None => [] end, st').
Proof. intros E Ei. cbn [frag_step]. rewrite E, Ei. done. Qed.

(** From a piece on: the first one, or one among others. *)
Lemma run_piece rcv p ps es now st : holding rcv st -> (rcv = [] -> now = t0) -> pieces_of D (rcv ++ p :: ps) -> arrival ps es ->
  (forall st', ps <> [] -> holding (rcv ++ [p]) st' -> exists o st'', frag_run es st' = Some (o, st'') /\ frag6_ok st'' /\ delivered o) ->
  exists o st', frag_run (Fragment src dst (frag_bytes nh id p) now :: es) st = Some (o, st') /\ frag6_ok st' /\ delivered o.
Proof.
  intros Hh Hnow Hps Ha Hgo. destruct (next_piece rcv p ps Hps) as ((P1 & P2 & P3 & _) & _).
  destruct (frag_bytes_fields nh id p ltac:(lia) Hid) as (_ & _ & F3 & _).
  destruct (receive_piece rcv p ps now st Hh Hnow Hps) as (out & st1 & E & Hok1 & Hend). pose proof (own_step _ _ _ _ _ E F3) as E1.
  destruct ps as [|q ps]; destruct Hend as [-> Hend].
  - destruct (run_after es st1 Ha Hok1) as (o2 & st2 & E2 & Hok2 & Ho2). eexists _, st2. split; [by eapply run_cons|]. split; [done|].
    unfold delivered, ours in *. rewrite list.filter_app, Ho2, filter_cons_True by done. done.
  - destruct (Hgo st1 ltac:(done) Hend) as (o2 & st2 & E2 & Hok2 & Ho2). exists o2, st2. split; [by apply (run_cons _ _ _ [] st1)|done].
Qed.

Lemma run_arrival ps es : arrival ps es -> forall rcv st, rcv <> [] -> ps <> [] -> holding rcv st -> pieces_of D (rcv ++ ps) ->
  exists o st', frag_run es st = Some (o, st') /\ frag6_ok st' /\ delivered o.
Proof.
  induction 1 as [|p ps es now Ha IH|ps es src' dst' f now Hk Ha IH|ps es now Hnow Ha IH]; intros rcv st Hr Hne Hh Hps; [done|..].
  - apply (run_piece rcv p ps es now st Hh); [done|done|done|]. intros st' Hne' Hh'. apply (IH (rcv ++ [p]) st'); [by destruct rcv|done|done|by rewrite <- app_assoc].
  - destruct (other_holding rcv src' dst' f now st Hr Hk Hh) as (out & st1 & E & Hh1). destruct (other_step _ _ _ _ _ _ _ E Hk) as (o1 & E1 & Ho1).
    destruct (IH rcv st1 Hr Hne Hh1 Hps) as (o2 & st2 & E2 & Hok2 & Ho2). exists (o1 ++ o2), st2. split; [by eapply run_cons|]. split; [done|].
    unfold delivered, ours in *. by rewrite list.filter_app, Ho1.
  - destruct (IH rcv _ Hr Hne (tick_holding rcv now st Hr Hnow Hh) Hps) as (o2 & st2 & E2 & Hok2 & Ho2). exists o2, st2.
    split; [by apply (run_cons (Tick now) es st [] _ _ _ eq_refl E2)|done].
Qed.
End Reassembly.

(** C29: a packet of at most 2048 bytes, cut into pieces of whole units, comes out
    again exactly once and byte for byte, whatever the order in which the pieces
    arrive and whatever fragments of other packets come in between, as long as the
    ticks fall before the reassembly times out and the first piece found a free
    slot. *)
Theorem fragment6_reassembles src dst id nh now D sizes p ps es st : is_u32 id -> 0 < zlen D <= 2048 -> cut_fits sizes D ->
  p :: ps ≡ₚ cut_packet 0 sizes D -> arrival src dst id nh now ps es ->
  frag6_ok st -> find_slot src dst id st = None -> (count_if re_in_use (fr_slots st) < FRAGMENT6_MAX_REASSEMBLIES)%nat ->
  exists out st', frag_run (Fragment src dst (frag_bytes nh id p) now :: es) st = Some (out, st') /\ frag6_ok st' /\
    filter (fun o => pk_key o = (src, dst, id)) out = [mkPacket (src, dst, id) nh D].
Proof.
  intros Hid HD Hf Hperm Ha Hok Hnone Hroom. pose proof (cut_packet_pieces sizes D ltac:(lia) Hf) as Hps. apply (pieces_of_permutation D _ (p :: ps)) in Hps; [|done].
  assert (Hh : holding src dst id nh now D [] st). { split; [done|]. split; [done|]. apply find_free_room. by rewrite (proj2 (proj1 Hok)). }
  apply (run_piece src dst id nh now D Hid (proj2 HD) [] p ps es now st Hh); [done|done|done|]. intros st' Hne Hh'.
  by apply (run_arrival src dst id nh now D Hid (proj2 HD) ps es Ha [p]).
Qed.

(** Ten bytes in two pieces, the last one first, with a foreign fragment and a tick
    between them. *)
Lemma fragment6_reassembles_witness :
  let D := [1; 2; 3; 4; 5; 6; 7; 8; 9; 10] in let a := replicate 16 1 in let b := replicate 16 2 in
  exists out st', frag_run [Fragment a b (frag_bytes 17 7 (mkPiece 1 false [9; 10])) 100; Tick 200; Fragment b a (frag_bytes 17 7 (mkPiece 0 true (replicate 8 0))) 201;
      Fragment a b (frag_bytes 17 7 (mkPiece 0 true [1; 2; 3; 4; 5; 6; 7; 8])) 300] frag6_init = Some (out, st') /\ frag6_ok st' /\
    filter (fun o => pk_key o = (a, b, 7)) out = [mkPacket (a, b, 7) 17 D].
Proof.
  intros D a b. apply (fragment6_reassembles a b 7 17 100 D [0%nat] (mkPiece 1 false [9; 10]) [mkPiece 0 true [1; 2; 3; 4; 5; 6; 7; 8]]).
  - unfold is_u32. lia.
  - done.
  - done.
  - apply Permutation_swap.
  - apply arrival_tick; [done|]. apply arrival_other; [done|]. apply arrival_piece, arrival_nil.
  - apply frag6_init_ok.
  - done.
  - vm_compute. lia.
Defined.
