(* ===== verification/Atlas6.v ===== *)
(** * Atlas6, the IPv6 routing table

    [Networking/IPv6/Atlas6/atlas6.c]: sixteen routes, each a network, a prefix
    length and a gateway, and a default gateway.  Unlike its IPv4 twin ([Atlas]) the
    lookup here is the longest-prefix match. *)

From stdpp Require Import list_numbers.
From S2P Require Import Prelude SlotTable.

#[local] Open Scope Z_scope.

(** An address: sixteen bytes. *)
Definition ip6 : Type := list Z.

Definition ATLAS6_MAX_ROUTES : nat := 16.

Record atlas6_route := mkRoute6 { r6_network : ip6; r6_prefix_len : Z; r6_gateway : ip6; r6_in_use : bool }.
#[export] Instance route6_slot : Slot atlas6_route (Z * ip6) :=
  {| used := r6_in_use; key := fun r => (r6_prefix_len r, r6_network r) |}.

Record atlas6 := mkAtlas6 { a6_routes : list atlas6_route; a6_default_gateway : ip6; a6_have_default_gateway : bool }.

Definition ip6_zero : ip6 := replicate 16 0.
Definition atlas6_init : atlas6 := mkAtlas6 (replicate ATLAS6_MAX_ROUTES (mkRoute6 ip6_zero 0 ip6_zero false)) ip6_zero false.

Definition is_zero16 (ip : ip6) : bool := forallb (fun x => x =? 0) ip.

(** The loop over the whole bytes of the prefix. *)
Fixpoint prefix_bytes (dest_ip network : ip6) (todo : list Z) : option bool :=
  match todo with
  | [] => Some true
  | i :: todo' => a ← rd dest_ip i; b ← rd network i; if a =? b then prefix_bytes dest_ip network todo' else Some false
  end.

Definition matches_prefix (dest_ip network : ip6) (prefix_len : Z) : option bool :=
  if 128 <? prefix_len then Some false
  else
    let full_bytes := prefix_len / 8 in
    let rem_bits := prefix_len mod 8 in
    same ← prefix_bytes dest_ip network (seqZ 0 full_bytes);
    if negb same then Some false
    else if 0 <? rem_bits then
      let mask := u8 (Z.shiftl 0xFF (8 - rem_bits)) in
      a ← rd dest_ip full_bytes; b ← rd network full_bytes;
      Some (Z.land a mask =? Z.land b mask)
    else Some true.

Definition set_routes6 (t : list atlas6_route) (a : atlas6) : atlas6 := mkAtlas6 t (a6_default_gateway a) (a6_have_default_gateway a).

Definition atlas6_add_route (network : ip6) (prefix_len : Z) (gateway : ip6) (a : atlas6) : bool * atlas6 :=
  let t := a6_routes a in
  match find_key (prefix_len, network) t with
  | Some i => (true, set_routes6 (alter (fun r => mkRoute6 (r6_network r) (r6_prefix_len r) gateway (r6_in_use r)) i t) a)
  | None =>
      match find_free t with
      | None => (false, a)
      | Some i => (true, set_routes6 (<[i := mkRoute6 network prefix_len gateway true]> t) a)
      end
  end.

Definition atlas6_remove_route (network : ip6) (prefix_len : Z) (a : atlas6) : bool * atlas6 :=
  let t := a6_routes a in
  match find_key (prefix_len, network) t with
  | Some i => (true, set_routes6 (alter (fun r => mkRoute6 (r6_network r) (r6_prefix_len r) (r6_gateway r) false) i t) a)
  | None => (false, a)
  end.

Definition atlas6_set_default_gateway (gateway : ip6) (a : atlas6) : atlas6 := mkAtlas6 (a6_routes a) gateway (negb (is_zero16 gateway)).

(** The loop of [atlas6_lookup]: the best route so far and its prefix length. *)
Fixpoint atlas6_scan (dest_ip : ip6) (best : option atlas6_route) (best_prefix : Z) (todo : list atlas6_route) : option (option atlas6_route) :=
  match todo with
  | [] => Some best
  | r :: todo' =>
      if negb (r6_in_use r) then atlas6_scan dest_ip best best_prefix todo'
      else
        m ← matches_prefix dest_ip (r6_network r) (r6_prefix_len r);
        if negb m then atlas6_scan dest_ip best best_prefix todo'
        else if best_prefix <? r6_prefix_len r then atlas6_scan dest_ip (Some r) (r6_prefix_len r) todo'
        else atlas6_scan dest_ip best best_prefix todo'
  end.

(** The next hop, or none when the destination is unreachable. *)
Definition atlas6_lookup (dest_ip : ip6) (a : atlas6) : option (option ip6) :=
  best ← atlas6_scan dest_ip None (-1) (a6_routes a);
  match best with
  | Some r => Some (Some (if is_zero16 (r6_gateway r) then dest_ip else r6_gateway r))
  | None => Some (if a6_have_default_gateway a then Some (a6_default_gateway a) else None)
  end.

Definition atlas6_route_count (a : atlas6) : Z := Z.of_nat (count_if r6_in_use (a6_routes a)).

(** ** Addresses as 128-bit numbers *)

(** The number that bytes spell, the most significant first. *)
Fixpoint num (l : list Z) : Z := match l with [] => 0 | b :: l' => b * 256 ^ zlen l' + num l' end.

Lemma num_range l : bytes l -> 0 <= num l < 256 ^ zlen l.
Proof.
  induction 1 as [|b l Hb Hl IH]; cbn [num]; [done|]. unfold is_u8 in Hb. replace (zlen (b :: l)) with (Z.succ (zlen l)) by (unfold zlen; cbn; lia).
  rewrite Z.pow_succ_r by (unfold zlen; lia). nia.
Qed.

Lemma num_app l k : num (l ++ k) = num l * 256 ^ zlen k + num k.
Proof.
  induction l as [|b l IH]; cbn [num app]; [done|]. rewrite IH. replace (zlen (l ++ k)) with (zlen l + zlen k) by (unfold zlen; rewrite length_app; lia).
  rewrite Z.pow_add_r by (unfold zlen; lia). lia.
Qed.

Lemma num_inj l : forall k, bytes l -> bytes k -> length l = length k -> num l = num k -> l = k.
Proof.
  induction l as [|b l IH]; intros [|c k] Hl Hk Elen E; try done. apply Forall_cons_1 in Hl as [Hb Hl]. apply Forall_cons_1 in Hk as [Hc Hk].
  injection Elen as Elen. cbn in E. pose proof (num_range l Hl) as R1. pose proof (num_range k Hk) as R2. assert (Ez : zlen l = zlen k) by (unfold zlen; lia).
  rewrite Ez in *. set (P := 256 ^ zlen k) in *. assert (b = c) as -> by nia. f_equal. apply IH; [done..|]. lia.
Qed.

(** The routes that cover an address: same leading bits. *)
Definition covers (network : ip6) (prefix_len : Z) (dest_ip : ip6) : Prop :=
  prefix_len <= 128 /\ num dest_ip / 2 ^ (128 - prefix_len) = num network / 2 ^ (128 - prefix_len).

Definition is_ip6 (a : ip6) : Prop := length a = 16%nat /\ bytes a.

Lemma prefix_bytes_spec d n todo : length d = 16%nat -> length n = 16%nat -> Forall (fun i => 0 <= i < 16) todo ->
  prefix_bytes d n todo = Some (forallb (fun i => bool_decide (d !! Z.to_nat i = n !! Z.to_nat i)) todo).
Proof.
  intros Hd Hn. induction 1 as [|i todo Hi Ht IH]; [done|]. cbn. unfold rd. rewrite (proj2 (Z.leb_le 0 i)) by lia.
  destruct (lookup_lt_is_Some_2 d (Z.to_nat i) ltac:(lia)) as [x ->], (lookup_lt_is_Some_2 n (Z.to_nat i) ltac:(lia)) as [y ->]. cbn. rewrite IH.
  destruct (Z.eqb_spec x y) as [-> | Hne]; [by rewrite bool_decide_true|]. rewrite bool_decide_false; [done|congruence].
Qed.

Lemma same_bytes d n f : 0 <= f <= 16 -> length d = 16%nat -> length n = 16%nat ->
  prefix_bytes d n (seqZ 0 f) = Some (bool_decide (take (Z.to_nat f) d = take (Z.to_nat f) n)).
Proof.
  intros Hf Hd Hn. rewrite prefix_bytes_spec; [|done|done|apply list.Forall_forall; intros i Hi%elem_of_seqZ; lia].
  f_equal. apply eq_true_iff_eq. rewrite forallb_forall, bool_decide_eq_true. split.
  - intros H. apply list_eq. intros i. destruct (decide (i < Z.to_nat f)%nat) as [Hi | Hi].
    + rewrite !lookup_take_lt by done. specialize (H (Z.of_nat i) ltac:(apply list_elem_of_In, elem_of_seqZ; lia)). apply bool_decide_eq_true in H. by rewrite Nat2Z.id in H.
    + by rewrite !lookup_take_ge by lia.
  - intros H i Hi. apply list_elem_of_In, elem_of_seqZ in Hi. apply bool_decide_eq_true.
    rewrite <- (lookup_take_lt d (Z.to_nat f)), <- (lookup_take_lt n (Z.to_nat f)) by lia. by rewrite H.
Qed.

(** The bits a mask of [r] leading ones leaves. *)
Lemma mask_bits r x : 0 < r < 8 -> is_u8 x -> Z.land x (u8 (Z.shiftl 0xFF (8 - r))) = x / 2 ^ (8 - r) * 2 ^ (8 - r).
Proof.
  intros Hr Hx. assert (H : forallb (fun r => forallb (fun x => Z.land x (u8 (Z.shiftl 0xFF (8 - r))) =? x / 2 ^ (8 - r) * 2 ^ (8 - r)) (seqZ 0 256)) (seqZ 1 7) = true) by (by vm_compute).
  rewrite forallb_forall in H. specialize (H r ltac:(apply list_elem_of_In, elem_of_seqZ; lia)). rewrite forallb_forall in H.
  apply Z.eqb_eq, H, list_elem_of_In, elem_of_seqZ. unfold is_u8 in Hx. lia.
Qed.

(** The number cut after [f] bytes and [r] bits. *)
Lemma num_prefix d f r x : is_ip6 d -> 0 <= f -> 0 < r < 8 -> d !! Z.to_nat f = Some x ->
  num d / 2 ^ (128 - (8 * f + r)) = num (take (Z.to_nat f) d) * 2 ^ r + x / 2 ^ (8 - r).
Proof.
  intros [Hl Hb] Hf Hr Hx. pose proof (lookup_lt_Some _ _ _ Hx) as Hlt. pose proof (Forall_lookup_1 _ _ _ _ Hb Hx) as Ux.
  rewrite <- (take_drop_middle d _ _ Hx) at 1. rewrite num_app. cbn [num]. set (rest := drop (S (Z.to_nat f)) d).
  assert (Lr : zlen rest = 15 - f) by (unfold zlen, rest; rewrite length_drop; lia).
  replace (zlen (x :: rest)) with (Z.succ (zlen rest)) by (unfold zlen; cbn; lia). rewrite Lr, Z.pow_succ_r by lia.
  replace (128 - (8 * f + r)) with (8 * (15 - f) + (8 - r)) by lia. rewrite Z.pow_add_r by lia. rewrite (Z.pow_mul_r 2 8) by lia. change (2 ^ 8) with 256.
  pose proof (num_range rest ltac:(by apply bytes_drop)) as Rr. rewrite Lr in Rr. set (P := 256 ^ (15 - f)) in *.
  rewrite <- Z.div_div by lia. replace (num (take (Z.to_nat f) d) * (256 * P) + (x * P + num rest)) with (num rest + (num (take (Z.to_nat f) d) * 256 + x) * P) by lia.
  rewrite Z.div_add by lia. rewrite (Z.div_small (num rest)) by lia. rewrite Z.add_0_l.
  replace 256 with (2 ^ r * 2 ^ (8 - r)) by (rewrite <- Z.pow_add_r by lia; by replace (r + (8 - r)) with 8 by lia).
  rewrite Z.add_comm, Z.mul_assoc, Z.div_add by (apply Z.pow_nonzero; lia). lia.
Qed.

Lemma num_whole d f : is_ip6 d -> 0 <= f <= 16 -> num d / 2 ^ (128 - 8 * f) = num (take (Z.to_nat f) d).
Proof.
  intros [Hl Hb] Hf. rewrite <- (take_drop (Z.to_nat f) d) at 1. rewrite num_app. pose proof (num_range (drop (Z.to_nat f) d) ltac:(by apply bytes_drop)) as Rr.
  replace (zlen (drop (Z.to_nat f) d)) with (16 - f) in * by (unfold zlen; rewrite length_drop; lia).
  replace (128 - 8 * f) with (8 * (16 - f)) by lia. rewrite Z.pow_mul_r by lia. change (2 ^ 8) with 256.
  rewrite Z.add_comm, Z.div_add by lia. rewrite Z.div_small by lia. lia.
Qed.

Lemma take_num d n k : is_ip6 d -> is_ip6 n -> num (take k d) = num (take k n) <-> take k d = take k n.
Proof.
  intros [L1 B1] [L2 B2]. split; [|by intros ->]. apply num_inj; [by apply bytes_take..|]. rewrite !length_take. lia.
Qed.

#[export] Instance covers_dec n p d : Decision (covers n p d) := ltac:(unfold covers; apply _).

(** The bytewise comparison is the comparison of the leading bits. *)
Lemma matches_prefix_covers d n p : is_ip6 d -> is_ip6 n -> is_u8 p -> matches_prefix d n p = Some (bool_decide (covers n p d)).
Proof.
  intros Hd Hn Hp. unfold is_u8 in Hp. unfold matches_prefix. destruct (Z.ltb_spec 128 p) as [H | H]; [rewrite bool_decide_false; [done|unfold covers; lia]|].
  assert (Hf : 0 <= p / 8 <= 16 /\ 0 <= p mod 8 < 8 /\ p = 8 * (p / 8) + p mod 8) by lia_mod. destruct Hf as (Hf & Hr & Ep). set (f := p / 8) in *. set (r := p mod 8) in *.
  rewrite same_bytes; [|done|apply Hd|apply Hn]. cbn [mbind option_bind].
  destruct (Z.ltb_spec 0 r) as [Hr0 | Hr0].
  - destruct (lookup_lt_is_Some_2 d (Z.to_nat f) ltac:(destruct Hd; lia)) as [x Hx], (lookup_lt_is_Some_2 n (Z.to_nat f) ltac:(destruct Hn; lia)) as [y Hy].
    unfold rd. rewrite (proj2 (Z.leb_le 0 f)), Hx, Hy by lia. cbn [mbind option_bind].
    pose proof (Forall_lookup_1 _ _ _ _ (proj2 Hd) Hx) as Ux. pose proof (Forall_lookup_1 _ _ _ _ (proj2 Hn) Hy) as Uy.
    rewrite !mask_bits by (done || lia).
    assert (Hiff : covers n p d <-> take (Z.to_nat f) d = take (Z.to_nat f) n /\ x / 2 ^ (8 - r) = y / 2 ^ (8 - r)).
    { unfold covers. rewrite Ep, (num_prefix d f r x), (num_prefix n f r y), <- (take_num d n) by (done || lia).
      unfold is_u8 in Ux, Uy. assert (E256 : 2 ^ r * 2 ^ (8 - r) = 256) by (rewrite <- Z.pow_add_r by lia; by replace (r + (8 - r)) with 8 by lia).
      pose proof (Z.pow_pos_nonneg 2 (8 - r) ltac:(lia) ltac:(lia)) as HP.
      assert (0 <= x / 2 ^ (8 - r) < 2 ^ r) by (split; [apply Z.div_pos; lia|apply Z.div_lt_upper_bound; lia]).
      assert (0 <= y / 2 ^ (8 - r) < 2 ^ r) by (split; [apply Z.div_pos; lia|apply Z.div_lt_upper_bound; lia]).
      split; [|intros [-> ->]; lia]. intros [_ E]. assert (num (take (Z.to_nat f) d) = num (take (Z.to_nat f) n)) by nia. nia. }
    rewrite (bool_decide_ext _ _ Hiff). pose proof (Z.pow_nonzero 2 (8 - r) ltac:(lia) ltac:(lia)) as HP.
    destruct (bool_decide_reflect (take (Z.to_nat f) d = take (Z.to_nat f) n)) as [Ht | Ht]; cbn [negb].
    + f_equal. apply eq_true_iff_eq. rewrite Z.eqb_eq, bool_decide_eq_true. split; [intros E; split; [done|nia]|intros [_ ->]; done].
    + rewrite bool_decide_false; [done|tauto].
  - assert (Hiff : covers n p d <-> take (Z.to_nat f) d = take (Z.to_nat f) n).
    { unfold covers. rewrite Ep. replace (8 * f + r) with (8 * f) by lia. rewrite !num_whole by (done || lia). rewrite take_num by done. intuition lia. }
    rewrite (bool_decide_ext _ _ Hiff). by destruct (bool_decide (take (Z.to_nat f) d = take (Z.to_nat f) n)).
Qed.

(** ** The table *)

Definition route6_ok (r : atlas6_route) : Prop := is_ip6 (r6_network r) /\ is_u8 (r6_prefix_len r) /\ is_ip6 (r6_gateway r).
Definition atlas6_wf (a : atlas6) : Prop := Forall route6_ok (a6_routes a) /\ uniq (a6_routes a) /\ length (a6_routes a) = ATLAS6_MAX_ROUTES.

Lemma ip6_zero_ok : is_ip6 ip6_zero.
Proof. split; [done|]. apply Forall_replicate. unfold is_u8. lia. Qed.

Lemma atlas6_init_wf : atlas6_wf atlas6_init.
Proof.
  split; [|split; [by apply uniq_replicate|done]]. apply Forall_replicate. split; [apply ip6_zero_ok|]. split; [unfold is_u8; cbn; lia|apply ip6_zero_ok].
Qed.

Lemma route6_write i r a : atlas6_wf a -> route6_ok r -> (r6_in_use r = true -> slot_for (a6_routes a) i (key r)) -> atlas6_wf (set_routes6 (<[i := r]> (a6_routes a)) a).
Proof. intros (H1 & H2 & H3) Hr Hs. split; [by apply Forall_insert|]. split; [by apply uniq_insert|]. cbn. by rewrite length_insert. Qed.

Lemma atlas6_add_wf network p gateway a : atlas6_wf a -> is_ip6 network -> is_u8 p -> is_ip6 gateway -> atlas6_wf (snd (atlas6_add_route network p gateway a)).
Proof.
  intros Hwf Hn Hp Hg. pose proof Hwf as (H1 & H2 & _). unfold atlas6_add_route. destruct (find_key (p, network) (a6_routes a)) as [i|] eqn:E; cbn.
  - destruct (find_key_sound _ _ _ E) as (r & Hi & Hu & Hk). rewrite (alter_insert _ _ _ _ Hi). pose proof (Forall_lookup_1 _ _ _ _ H1 Hi) as (R1 & R2 & R3).
    apply route6_write; [done|done|]. intros _. cbn in *. rewrite Hk. by apply slot_for_found.
  - destruct (find_free (a6_routes a)) as [i|] eqn:F; cbn; [|done]. apply route6_write; [done|done|]. intros _. by apply slot_for_new.
Qed.

Lemma atlas6_remove_wf network p a : atlas6_wf a -> atlas6_wf (snd (atlas6_remove_route network p a)).
Proof.
  intros Hwf. pose proof Hwf as (H1 & H2 & _). unfold atlas6_remove_route. destruct (find_key (p, network) (a6_routes a)) as [i|] eqn:E; cbn; [|done].
  destruct (find_key_sound _ _ _ E) as (r & Hi & _). rewrite (alter_insert _ _ _ _ Hi). pose proof (Forall_lookup_1 _ _ _ _ H1 Hi) as (R1 & R2 & R3). by apply route6_write.
Qed.

(** ** Longest-prefix match *)

Definition route_covers (dest : ip6) (r : atlas6_route) : Prop := r6_in_use r = true /\ covers (r6_network r) (r6_prefix_len r) dest.

(** The best route of a list: it covers the address and no covering route is longer. *)
Definition best_of (dest : ip6) (l : list atlas6_route) (r : atlas6_route) : Prop :=
  r ∈ l /\ route_covers dest r /\ forall r', r' ∈ l -> route_covers dest r' -> r6_prefix_len r' <= r6_prefix_len r.

Definition best_opt (dest : ip6) (l : list atlas6_route) (b : option atlas6_route) : Prop :=
  match b with Some r => best_of dest l r | None => forall r', r' ∈ l -> ~ route_covers dest r' end.

Lemma atlas6_scan_best dest todo : is_ip6 dest -> Forall route6_ok todo -> forall seen best bp,
  best_opt dest seen best -> bp = from_option r6_prefix_len (-1) best ->
  exists b, atlas6_scan dest best bp todo = Some b /\ best_opt dest (seen ++ todo) b.
Proof.
  intros Hd Hok. induction Hok as [|r todo (R1 & R2 & R3) Hok IH]; intros seen best bp Hb Ebp; cbn [atlas6_scan].
  { exists best. by rewrite app_nil_r. }
  assert (Hskip : ~ route_covers dest r \/ (exists b, best = Some b /\ r6_prefix_len r <= r6_prefix_len b) -> best_opt dest (seen ++ [r]) best).
  { intros Hs. destruct best as [b|]; cbn in *.
    - destruct Hb as (B1 & B2 & B3). split; [apply elem_of_app; by left|]. split; [done|]. intros r' [Hr' | ->%list_elem_of_singleton]%elem_of_app Hc; [by apply B3|].
      destruct Hs as [Hs | (b' & [= <-] & Hle)]; [done|lia].
    - intros r' [Hr' | ->%list_elem_of_singleton]%elem_of_app; [by apply Hb|]. destruct Hs as [Hs | (b' & E & _)]; done. }
  rewrite cons_middle, app_assoc. destruct (r6_in_use r) eqn:Eu; cbn [negb].
  2: { apply IH; [apply Hskip; left; intros [? _]; congruence|done]. }
  rewrite matches_prefix_covers by done. cbn [mbind option_bind]. destruct (bool_decide_reflect (covers (r6_network r) (r6_prefix_len r) dest)) as [Hc | Hc]; cbn [negb].
  2: { apply IH; [apply Hskip; left; intros [_ ?]; done|done]. }
  destruct (Z.ltb_spec bp (r6_prefix_len r)) as [Hlt | Hge].
  - apply IH; [|done]. cbn. split; [apply elem_of_app; right; by apply list_elem_of_singleton|]. split; [done|].
    intros r' [Hr' | ->%list_elem_of_singleton]%elem_of_app Hc'; [|lia]. destruct best as [b|]; cbn in *; [|exfalso; by eapply Hb].
    destruct Hb as (_ & _ & B3). specialize (B3 r' Hr' Hc'). lia.
  - apply IH; [|done]. apply Hskip. right. destruct best as [b|]; cbn in *; [exists b; split; [done|lia]|]. unfold is_u8 in R2. lia.
Qed.

(** C31: the lookup is the longest-prefix match.  When some route covers the
    destination (same leading bits, as many as its prefix length), the answer comes
    from a covering route that no other covering route is longer than: its gateway,
    or the destination itself when the route is on-link; when none covers it, the
    answer is the default gateway, or that the destination is unreachable. *)
Theorem atlas6_lookup_longest_prefix dest a : is_ip6 dest -> atlas6_wf a ->
  (exists r, best_of dest (a6_routes a) r /\ atlas6_lookup dest a = Some (Some (if is_zero16 (r6_gateway r) then dest else r6_gateway r))) \/
  ((forall r, r ∈ a6_routes a -> ~ route_covers dest r) /\
   atlas6_lookup dest a = Some (if a6_have_default_gateway a then Some (a6_default_gateway a) else None)).
Proof.
  intros Hd (Hok & _). destruct (atlas6_scan_best dest (a6_routes a) Hd Hok [] None (-1)) as (b & E & Hb); [intros r' Hr'; by apply not_elem_of_nil in Hr'|done|].
  unfold atlas6_lookup. rewrite E. cbn. destruct b as [r|]; [left; by exists r|by right].
Qed.

(** Two routes, the longer one behind a gateway: an address under both goes through
    it, one under the shorter alone is on-link. *)
Definition demo6 (x y z : Z) : ip6 := [0x20; 1; x; y; 0; 0; 0; 0; 0; 0; 0; 0; 0; 0; 0; z].
Definition demo6_table : atlas6 :=
  snd (atlas6_add_route (demo6 5 0x40 0) 26 (demo6 0 0 9) (snd (atlas6_add_route (demo6 0 0 0) 16 ip6_zero atlas6_init))).

Lemma demo6_ok x y z : is_u8 x -> is_u8 y -> is_u8 z -> is_ip6 (demo6 x y z).
Proof. intros. split; [done|]. repeat (apply Forall_cons_2; [assumption || (unfold is_u8; lia)|]). constructor. Qed.

Lemma demo6_wf : atlas6_wf demo6_table.
Proof.
  assert (U : forall k, (0 <=? k) && (k <? 256) = true -> is_u8 k) by (intros k Hk; unfold is_u8; lia).
  apply atlas6_add_wf; [|apply demo6_ok; by apply U|by apply U|apply demo6_ok; by apply U]. apply atlas6_add_wf; [apply atlas6_init_wf|apply demo6_ok; by apply U|by apply U|apply ip6_zero_ok].
Qed.

Lemma atlas6_lookup_longest_prefix_witness :
  (exists r, best_of (demo6 5 0x7f 1) (a6_routes demo6_table) r /\ r6_prefix_len r = 26) /\ atlas6_lookup (demo6 5 0x7f 1) demo6_table = Some (Some (demo6 0 0 9)).
Proof.
  assert (U : forall k, (0 <=? k) && (k <? 256) = true -> is_u8 k) by (intros k Hk; unfold is_u8; lia).
  destruct (atlas6_lookup_longest_prefix (demo6 5 0x7f 1) demo6_table) as [(r & Hr & E) | (_ & E)].
  - apply demo6_ok; by apply U.
  - apply demo6_wf.
  - split; [|by vm_compute]. exists r. split; [done|]. destruct Hr as (Hin & _). vm_compute in E. injection E as E.
    repeat (apply elem_of_cons in Hin as [-> | Hin]; [by vm_compute in E |- *|]). by apply elem_of_nil in Hin.
  - vm_compute in E. done.
Defined.
