(* ===== verification/Guard6.v ===== *)
(** * Screening of IPv6 packets

    [Networking/IPv6/GuestList6], [Curfew6], [IDS6] and [Audit6] are the IPv4
    components line for line, over sixteen-byte addresses and with tables of their
    own; an address is a list of bytes, so they are the same functions here.
    [Networking/IPv6/Sentry6/sentry6.c] differs from its twin in the choice of the
    slot to overwrite, and does ban port scanners. *)

From stdpp Require Import list_numbers sorting.
From S2P Require Import Prelude SlotTable GuestList Ids RateLimit Sentry Atlas6.
Import GuestList Ids Audit Curfew.

#[local] Open Scope Z_scope.

(** ** The twins *)

Definition guestlist6_init : list guestlist_entry := replicate GUESTLIST_CAPACITY (mkGuest ip6_zero GUESTLIST_NO_RULE 0 false).
Definition guestlist6_set : ip6 -> guestlist_verdict -> list guestlist_entry -> bool * list guestlist_entry := guestlist_set.
Definition guestlist6_set_timed : Z -> ip6 -> guestlist_verdict -> Z -> list guestlist_entry -> bool * list guestlist_entry := guestlist_set_timed.
Definition guestlist6_clear : ip6 -> list guestlist_entry -> list guestlist_entry := guestlist_clear.
Definition guestlist6_check : ip6 -> list guestlist_entry -> guestlist_verdict := guestlist_check.
Definition guestlist6_tick : Z -> list guestlist_entry -> list guestlist_entry := guestlist_tick.
Definition guestlist6_count : list guestlist_entry -> Z := guestlist_count.

Definition curfew6_init : curfew := mkCurfewSt (replicate CURFEW_CAPACITY (mkCurfew ip6_zero 0 0 0 false false)) 0.
Definition curfew6_check : Z -> ip6 -> curfew -> bool * curfew := curfew_check.
Definition curfew6_strike : Z -> ip6 -> curfew -> curfew := curfew_strike.
Definition curfew6_denied_count : curfew -> Z := curfew_denied_count.

Definition ids6_register_hook : ids_hook audit -> list (ids_hook audit) -> bool * list (ids_hook audit) := ids_register_hook.
(** A null address is passed on as sixteen zero bytes. *)
Definition ids6_notify (now : Z) (hooks : list (ids_hook audit)) (type : ids_event_type) (ip : option ip6) (w : audit) : audit :=
  foldl (fun w h => h now type (default ip6_zero ip) w) w hooks.

Definition audit6_on_event : ids_hook audit := on_event.
Definition audit6_start : list (ids_hook audit) -> list (ids_hook audit) := audit_start.
Definition audit6_count : audit -> Z := audit_count.
Definition audit6_get : nat -> audit -> option audit_record := audit_get.

(** ** Sentry6 *)

Definition SENTRY6_CAPACITY : nat := 16.
Definition SENTRY6_PORT_HISTORY : nat := 8.
Definition SENTRY6_WINDOW_TICKS : Z := 200.
Definition SENTRY6_DISTINCT_PORT_THRESHOLD : nat := 6.
Definition SENTRY6_BAN_TICKS : Z := 3000.

Definition sentry6_init : sentry := mkSentrySt (replicate SENTRY6_CAPACITY (mkSentry ip6_zero hits_zero false)) 0.

Definition guard6_init : guard := mkGuard guestlist6_init curfew6_init sentry6_init (audit6_start []) audit_init.

Definition guard6_notify (now : Z) (type : ids_event_type) (ip : option ip6) (g : guard) : guard := set_audit (ids6_notify now (gd_hooks g) type ip (gd_audit g)) g.

Definition sentry6_find_or_create (ip : ip6) (t : list sentry_entry) : option (nat * list sentry_entry) :=
  match find_key ip t with
  | Some i => Some (i, t)
  | None => i ← find_free t; Some (i, <[i := mkSentry ip hits_zero true]> t)
  end.

Definition hit6_expire (now : Z) (h : port_hit) : port_hit :=
  if ph_in_use h && (SENTRY6_WINDOW_TICKS <=? (now -32 ph_tick h)) then mkHit (ph_port h) (ph_tick h) false else h.

(** The slot to overwrite: the first free one, else the oldest. *)
Fixpoint sentry6_target (i : nat) (oldest_tick : Z) (target : option nat) (hits : list port_hit) : option nat :=
  match hits with
  | [] => target
  | h :: r =>
      if negb (ph_in_use h) then Some i
      else if ph_tick h <? oldest_tick then sentry6_target (S i) (ph_tick h) (Some i) r
      else sentry6_target (S i) oldest_tick target r
  end.

(** [None]: the write [e->hits[-1]] when no slot was chosen. *)
Definition sentry6_observe (now : Z) (src_ip : ip6) (dst_port : Z) (g : guard) : option (bool * guard) :=
  let s := gd_sentry g in
  match sentry6_find_or_create src_ip (sn_entries s) with
  | None => Some (false, g)
  | Some (k, t) =>
      e ← t !! k;
      let hits := hit6_expire now <$> se_hits e in
      let store hs total := set_sentry (mkSentrySt (<[k := mkSentry (se_ip e) hs (se_in_use e)]> t) total) g in
      match find_idx (fun h => ph_in_use h && (ph_port h =? dst_port)) hits with
      | Some i => Some (false, store (alter (fun h => mkHit (ph_port h) now (ph_in_use h)) i hits) (sn_flagged_total s))
      | None =>
          target ← sentry6_target 0 0xFFFFFFFF None hits;
          let hits' := <[target := mkHit dst_port now true]> hits in
          if (SENTRY6_DISTINCT_PORT_THRESHOLD <=? count_if ph_in_use hits')%nat then
            let g1 := store hits' (sn_flagged_total s) in
            let g2 := set_guests (snd (guestlist6_set_timed now src_ip GUESTLIST_DENIED SENTRY6_BAN_TICKS (gd_guests g1))) g1 in
            let g3 := guard6_notify now IDS_EVENT_PORT_SCAN_BAN (Some src_ip) g2 in
            Some (true, set_sentry (mkSentrySt (sn_entries (gd_sentry g3)) (sn_flagged_total (gd_sentry g3) +32 1)) g3)
          else Some (false, store hits' (sn_flagged_total s))
      end
  end.

Definition sentry6_flagged_count (s : sentry) : Z := sn_flagged_total s.

(** At the last tick before the counter wraps no slot is older than the start of
    the search: the ninth port is written to [hits[-1]]. *)
Example sentry6_last_tick_faults :
  foldl (fun g port => g ← g; '(_, g') ← sentry6_observe 0xFFFFFFFF ip6_zero port g; Some g') (Some guard6_init) [1; 2; 3; 4; 5; 6; 7; 8; 9] = None.
Proof. vm_compute. reflexivity. Qed.

(** ** A table of ports never faults *)

Definition hits6_ok (hs : list port_hit) : Prop := length hs = SENTRY6_PORT_HISTORY /\ Forall (fun h => 0 <= ph_tick h < 0xFFFFFFFF) hs.
Definition sentry6_wf (s : sentry) : Prop := Forall (fun e => hits6_ok (se_hits e)) (sn_entries s) /\ uniq (sn_entries s).

Lemma hits6_zero : hits6_ok hits_zero.
Proof. split; [done|]. apply Forall_replicate. done. Qed.

Lemma sentry6_init_wf : sentry6_wf sentry6_init.
Proof. split; [apply Forall_replicate, hits6_zero|by apply uniq_replicate]. Qed.

Lemma sentry6_target_lt hs : forall i old target, (forall k, target = Some k -> (k < i)%nat) ->
  match sentry6_target i old target hs with Some k => (k < i + length hs)%nat | None => target = None end.
Proof.
  induction hs as [|h hs IH]; intros i old target Ht; cbn.
  - destruct target as [k|]; [specialize (Ht k eq_refl); lia|done].
  - destruct (ph_in_use h); cbn [negb]; [|lia]. destruct (ph_tick h <? old).
    + specialize (IH (S i) (ph_tick h) (Some i) ltac:(intros k [= <-]; lia)). destruct (sentry6_target _ _ _ hs); [lia|done].
    + specialize (IH (S i) old target ltac:(intros k Hk; specialize (Ht k Hk); lia)). destruct (sentry6_target _ _ _ hs); [lia|done].
Qed.

Lemma sentry6_target_keeps hs : forall i old k, is_Some (sentry6_target i old (Some k) hs).
Proof. induction hs as [|h hs IH]; intros i old k; cbn; [done|]. destruct (negb (ph_in_use h)); [done|]. by destruct (ph_tick h <? old). Qed.

Lemma sentry6_target_some hs : hits6_ok hs -> exists k, sentry6_target 0 0xFFFFFFFF None hs = Some k /\ (k < length hs)%nat.
Proof.
  intros [Hl Ht]. pose proof (sentry6_target_lt hs 0 0xFFFFFFFF None ltac:(done)) as Hlt.
  assert (is_Some (sentry6_target 0 0xFFFFFFFF None hs)) as [k Hk].
  { destruct hs as [|h hs]; [done|]. apply Forall_cons_1 in Ht as [Ht _]. cbn [sentry6_target]. destruct (negb (ph_in_use h)); [done|].
    rewrite (proj2 (Z.ltb_lt _ _)) by lia. apply sentry6_target_keeps. }
  rewrite Hk in Hlt. exists k. split; [done|lia].
Qed.

Lemma hits6_expire_ok now hs : hits6_ok hs -> hits6_ok (hit6_expire now <$> hs).
Proof.
  intros [Hl Ht]. split; [by rewrite length_fmap|]. apply Forall_fmap. eapply Forall_impl; [|exact Ht]. intros h Hh. cbn. unfold hit6_expire. by destruct (_ && _).
Qed.

Lemma sentry6_slot ip s : sentry6_wf s ->
  match sentry6_find_or_create ip (sn_entries s) with
  | None => lookup_key ip (sn_entries s) = None
  | Some (k, t) => exists e, t !! k = Some e /\ se_in_use e = true /\ se_ip e = ip /\ hits6_ok (se_hits e) /\ sentry6_wf (mkSentrySt t (sn_flagged_total s)) /\
      se_hits e = default hits_zero (se_hits <$> lookup_key ip (sn_entries s)) /\ forall j, j <> k -> t !! j = sn_entries s !! j
  end.
Proof.
  intros [Hf Hq]. unfold sentry6_find_or_create, lookup_key. destruct (find_key ip (sn_entries s)) as [i|] eqn:E.
  - destruct (find_key_sound _ _ _ E) as (e & He & Hu & Hk). exists e. split; [done|]. split; [exact Hu|]. split; [exact Hk|]. split; [apply (Forall_lookup_1 _ _ _ _ Hf He)|].
    split; [done|]. cbn. rewrite He. done.
  - destruct (find_free (sn_entries s)) as [i|] eqn:F; cbn; [|done]. destruct (find_free_sound _ _ F) as (x & Hx & Hu). pose proof (lookup_lt_Some _ _ _ Hx) as Hlt.
    eexists. split; [by apply list_lookup_insert_eq|]. cbn. split; [done|]. split; [done|]. split; [apply hits6_zero|]. split; [|split; [done|]].
    + split; cbn; [apply Forall_insert; [done|apply hits6_zero]|]. apply uniq_insert; [done|]. intros _. by apply slot_for_new.
    + intros j Hj. by apply list_lookup_insert_ne.
Qed.

(** ** A port scan is banned *)

(** The table of an address after the ports [obs], with their ticks. *)
Definition hits_of (obs : list (Z * Z)) : list port_hit :=
  ((fun o => mkHit o.2 o.1 true) <$> obs) ++ replicate (SENTRY6_PORT_HISTORY - length obs) (mkHit 0 0 false).

Lemma hits_of_target obs : forall i old target, (length obs < 8)%nat -> sentry6_target i old target (hits_of obs) = Some (i + length obs)%nat.
Proof.
  unfold hits_of. change SENTRY6_PORT_HISTORY with 8%nat. intros i old target Hl. remember (8 - length obs)%nat as n eqn:En. assert (Hn : (0 < n)%nat) by lia. clear En Hl.
  revert i old target. induction obs as [|[t p] obs IH]; intros i old target; cbn.
  - destruct n; [lia|]. cbn. f_equal. lia.
  - destruct (t <? old); rewrite IH; f_equal; lia.
Qed.

Lemma hits_of_write obs t p : (length obs < 8)%nat -> <[length obs := mkHit p t true]> (hits_of obs) = hits_of (obs ++ [(t, p)]).
Proof.
  intros Hl. unfold hits_of. change SENTRY6_PORT_HISTORY with 8%nat. rewrite length_app, fmap_app. cbn [length].
  replace (8 - length obs)%nat with (S (8 - (length obs + 1)))%nat by lia. rewrite <- (length_fmap (fun o : Z * Z => mkHit o.2 o.1 true) obs) at 1.
  rewrite insert_app_r_alt by lia. rewrite Nat.sub_diag. cbn. by rewrite <- app_assoc.
Qed.

Lemma hits_of_count obs : count_if ph_in_use (hits_of obs) = length obs.
Proof.
  unfold hits_of. generalize (SENTRY6_PORT_HISTORY - length obs)%nat as n. intros n. induction obs as [|o obs IH]; cbn; [by apply count_if_replicate|]. by rewrite IH.
Qed.

Lemma hits_of_expire now obs : Forall (fun o => now -32 o.1 < 200) obs -> hit6_expire now <$> hits_of obs = hits_of obs.
Proof.
  intros Hf. unfold hits_of. rewrite fmap_app, fmap_replicate. f_equal. induction Hf as [|o obs Ho Hf IH]; cbn; [done|]. f_equal; [|exact IH].
  unfold hit6_expire. cbn [ph_in_use ph_tick andb]. unfold SENTRY6_WINDOW_TICKS. by rewrite (proj2 (Z.leb_gt _ _)).
Qed.

Lemma hits_of_new p obs : p ∉ obs.*2 -> find_idx (fun h => ph_in_use h && (ph_port h =? p)) (hits_of obs) = None.
Proof.
  intros Hp. apply find_idx_None. intros i h Hi. unfold hits_of in Hi. apply lookup_app_Some in Hi as [Hi | [_ Hi]].
  - apply list_lookup_fmap_Some in Hi as (o & -> & Ho). cbn. apply Z.eqb_neq. intros E. apply Hp. rewrite <- E. apply list_elem_of_fmap. exists o. split; [done|]. by eapply list_elem_of_lookup_2.
  - apply lookup_replicate in Hi as [-> _]. done.
Qed.

(** What Sentry6 remembers of an address: nothing, with room for it, or its ports. *)
Definition scanned (ip : ip6) (obs : list (Z * Z)) (g : guard) : Prop :=
  sentry6_wf (gd_sentry g) /\
  match obs with
  | [] => lookup_key ip (sn_entries (gd_sentry g)) = None /\ is_Some (find_free (sn_entries (gd_sentry g)))
  | _ => exists e, lookup_key ip (sn_entries (gd_sentry g)) = Some e /\ se_hits e = hits_of obs
  end.

Lemma hits_of_ok obs : (length obs <= 8)%nat -> Forall (fun o => 0 <= o.1 < 0xFFFFFFFF) obs -> hits6_ok (hits_of obs).
Proof.
  intros Hl Hf. unfold hits_of. change SENTRY6_PORT_HISTORY with 8%nat. split; [rewrite length_app, length_fmap, length_replicate; unfold SENTRY6_PORT_HISTORY; lia|].
  apply Forall_app. split; [|by apply Forall_replicate]. apply Forall_fmap. eapply Forall_impl; [|exact Hf]. by intros o Ho.
Qed.

(** One more distinct port within the window. *)
Lemma sentry6_step ip obs now port g : scanned ip obs g -> (length obs < 6)%nat -> port ∉ obs.*2 ->
  0 <= now < 0xFFFFFFFF -> Forall (fun o => 0 <= o.1 < 0xFFFFFFFF /\ now -32 o.1 < 200) obs -> guest_wf (gd_guests g) ->
  exists g', sentry6_observe now ip port g = Some ((5 =? length obs)%nat, g') /\ scanned ip (obs ++ [(now, port)]) g' /\
    if (5 =? length obs)%nat then gd_guests g' = snd (guestlist_set_timed now ip GUESTLIST_DENIED SENTRY6_BAN_TICKS (gd_guests g)) else gd_guests g' = gd_guests g.
Proof.
  intros [Hwf Hsc] Hl Hp Hnow Hobs Hg. unfold sentry6_observe. pose proof (sentry6_slot ip (gd_sentry g) Hwf) as Hslot.
  assert (Hold : Forall (fun o : Z * Z => 0 <= o.1 < 0xFFFFFFFF) obs) by (eapply Forall_impl; [|exact Hobs]; by intros o [Ho _]).
  destruct (sentry6_find_or_create ip (sn_entries (gd_sentry g))) as [[k t]|] eqn:E.
  2: { exfalso. unfold sentry6_find_or_create in E. destruct obs as [|o obs].
    - destruct Hsc as [Hn [i Hi]]. rewrite lookup_key_None in Hn. rewrite Hn, Hi in E. done.
    - destruct Hsc as (e & He & _). congruence. }
  destruct Hslot as (e & He & Hu & Hk & Hok & [Wf Wq] & Hhits & _). rewrite He. cbn [mbind option_bind]. cbn in Wf, Wq.
  assert (Hh : se_hits e = hits_of obs).
  { destruct obs as [|o obs]; [destruct Hsc as [Hn _]; by rewrite Hhits, Hn|]. destruct Hsc as (e' & He' & Hh'). by rewrite Hhits, He', <- Hh'. }
  rewrite Hh, hits_of_expire by (eapply Forall_impl; [|exact Hobs]; by intros o [_ Ho]). rewrite hits_of_new by done.
  rewrite hits_of_target by lia. cbn [mbind option_bind Nat.add]. rewrite hits_of_write by lia. rewrite hits_of_count, length_app. cbn [length].
  set (t' := <[k := mkSentry (se_ip e) (hits_of (obs ++ [(now, port)])) (se_in_use e)]> t). pose proof (lookup_lt_Some _ _ _ He) as Hlt.
  assert (Hwf' : forall n, sentry6_wf (mkSentrySt t' n)).
  { intros n. split; cbn.
    - apply Forall_insert; [done|]. apply hits_of_ok; [rewrite length_app; cbn; lia|]. apply Forall_app. split; [done|]. by constructor.
    - apply uniq_insert; [done|]. intros _ j x Hj Hux Hkx. by eapply Wq. }
  assert (Hlk : lookup_key ip t' = Some (mkSentry (se_ip e) (hits_of (obs ++ [(now, port)])) (se_in_use e))).
  { apply (lookup_key_uniq _ _ k); [apply (Hwf' 0)|by apply list_lookup_insert_eq|done|done]. }
  assert (Hne : obs ++ [(now, port)] <> []) by (by destruct obs).
  destruct (Nat.eqb_spec 5 (length obs)) as [E5 | E5].
  - rewrite <- E5. cbn [SENTRY6_DISTINCT_PORT_THRESHOLD Nat.leb Nat.add]. eexists. split; [reflexivity|]. split; [|done]. split; [apply Hwf'|].
    destruct (obs ++ [(now, port)]) as [|x l]; [done|]. cbn. by eexists.
  - rewrite (proj2 (Nat.leb_gt _ _)) by (unfold SENTRY6_DISTINCT_PORT_THRESHOLD; lia). eexists. split; [reflexivity|]. split; [|done]. split; [apply Hwf'|].
    destruct (obs ++ [(now, port)]) as [|x l]; [done|]. cbn. by eexists.
Qed.

(** The observations of one address, with what each returned. *)
Fixpoint sentry6_run (ip : ip6) (obs : list (Z * Z)) (g : guard) : option (list bool * guard) :=
  match obs with
  | [] => Some ([], g)
  | (now, port) :: r => '(b, g1) ← sentry6_observe now ip port g; '(bs, g2) ← sentry6_run ip r g1; Some (b :: bs, g2)
  end.

(** Ticks in order, all within one window. *)
Definition within_window (obs : list (Z * Z)) : Prop :=
  StronglySorted Z.le obs.*1 /\ exists t0, 0 <= t0 /\ t0 + 200 <= 0xFFFFFFFF /\ Forall (fun o => t0 <= o.1 < t0 + 200) obs.

Lemma within_window_old obs now port todo : within_window (obs ++ (now, port) :: todo) ->
  0 <= now < 0xFFFFFFFF /\ Forall (fun o => 0 <= o.1 < 0xFFFFFFFF /\ now -32 o.1 < 200) obs.
Proof.
  intros [Hs (t0 & Ht0 & Ht1 & Hf)]. apply Forall_app in Hf as [Hf1 Hf2]. apply Forall_cons_1 in Hf2 as [Hn _]. cbn in Hn. split; [lia|].
  apply list.Forall_forall. intros o Ho. pose proof (proj1 (list.Forall_forall _ _) Hf1 o Ho) as Ho'. cbn in Ho'. split; [lia|].
  assert (Hle : o.1 <= now).
  { rewrite fmap_app in Hs. apply (StronglySorted_app_1_elem_of Z.le _ _ _ _ Hs); [|by left]. apply list_elem_of_fmap. by exists o. }
  rewrite u32_small; unfold is_u32; lia.
Qed.

Lemma sentry6_run_scan ip todo : forall obs g, scanned ip obs g -> (length obs + length todo = 6)%nat -> todo <> [] -> NoDup ((obs ++ todo).*2) ->
  within_window (obs ++ todo) -> guest_wf (gd_guests g) ->
  exists g' t, sentry6_run ip todo g = Some (replicate (5 - length obs) false ++ [true], g') /\
    gd_guests g' = snd (guestlist_set_timed t ip GUESTLIST_DENIED SENTRY6_BAN_TICKS (gd_guests g)).
Proof.
  induction todo as [|[now port] todo IH]; intros obs g Hsc Hl Hne Hnd Hw Hg; [done|]. cbn in Hl. cbn [sentry6_run].
  destruct (within_window_old _ _ _ _ Hw) as [Hnow Hold]. assert (Hp : port ∉ obs.*2).
  { rewrite fmap_app in Hnd. apply list.NoDup_app in Hnd as (_ & Hd & _). intros Hin. apply (Hd port Hin). by left. }
  destruct (sentry6_step ip obs now port g Hsc ltac:(lia) Hp Hnow Hold Hg) as (g1 & -> & Hsc1 & Hgu). cbn [mbind option_bind].
  destruct todo as [|o todo].
  - cbn in Hl. assert (E : length obs = 5%nat) by lia. rewrite E in *. cbn. exists g1, now. split; [done|]. exact Hgu.
  - cbn in Hl. destruct (Nat.eqb_spec 5 (length obs)) as [E | E]; [lia|].
    destruct (IH (obs ++ [(now, port)]) g1 Hsc1) as (g2 & t & -> & Hgu2); [rewrite length_app; cbn; lia|done|by rewrite <- app_assoc|by rewrite <- app_assoc|by rewrite Hgu|].
    cbn [mbind option_bind]. exists g2, t. split; [|by rewrite <- Hgu]. rewrite length_app. cbn [length]. do 2 f_equal.
    replace (5 - length obs)%nat with (S (5 - (length obs + 1)))%nat by lia. done.
Qed.

(** An address that tries six distinct ports within one window of 200 ticks is
    banned at the sixth: it and only it is reported, and from then on the GuestList
    denies the address.  (Its IPv4 twin never bans anyone.) *)
Lemma sentry6_bans_scan ip obs g : sentry6_wf (gd_sentry g) -> lookup_key ip (sn_entries (gd_sentry g)) = None ->
  is_Some (find_free (sn_entries (gd_sentry g))) -> guest_wf (gd_guests g) -> guestlist6_count (gd_guests g) < 32 ->
  length obs = 6%nat -> NoDup obs.*2 -> within_window obs ->
  exists g', sentry6_run ip obs g = Some ([false; false; false; false; false; true], g') /\ guestlist6_check ip (gd_guests g') = GUESTLIST_DENIED.
Proof.
  intros Hwf Hn Hf Hg Hroom Hl Hnd Hw. assert (Hne : obs <> []) by (by destruct obs).
  destruct (sentry6_run_scan ip obs [] g (conj Hwf (conj Hn Hf)) Hl Hne Hnd Hw Hg) as (g' & t & -> & Hgu). exists g'. split; [done|].
  rewrite Hgu. unfold guestlist6_check. rewrite guestlist_check_spec. pose proof (guestlist_set_timed_rule t ip GUESTLIST_DENIED SENTRY6_BAN_TICKS (gd_guests g) Hg) as Hs.
  pose proof (guestlist_set_rule ip GUESTLIST_DENIED (gd_guests g) Hg) as Hr. unfold guestlist6_count in Hroom.
  destruct (guestlist_set ip GUESTLIST_DENIED (gd_guests g)) as [ok t0]. destruct Hr as (_ & Hok & _). rewrite bool_decide_true in Hok by (by right).
  destruct (guestlist_set_timed t ip GUESTLIST_DENIED SENTRY6_BAN_TICKS (gd_guests g)) as [ok' t1]. destruct Hs as (_ & Eok & Hlk). cbn in Eok. cbn [snd].
  rewrite Hlk, decide_True by (split; [done|congruence]). done.
Qed.

Lemma sentry6_bans_scan_witness : exists g',
  sentry6_run (demo6 0 0 9) [(10, 22); (20, 23); (30, 25); (40, 80); (50, 110); (60, 443)] guard6_init = Some ([false; false; false; false; false; true], g') /\
  guestlist6_check (demo6 0 0 9) (gd_guests g') = GUESTLIST_DENIED.
Proof.
  apply sentry6_bans_scan.
  - apply sentry6_init_wf.
  - done.
  - vm_compute. eauto.
  - split; [by apply uniq_replicate|done].
  - done.
  - done.
  - apply (bool_decide_unpack _). by vm_compute.
  - split; [cbn; repeat constructor; lia|]. exists 10. split; [lia|]. split; [lia|]. repeat constructor; cbn; lia.
Defined.
