(* ===== verification/Link6.v ===== *)
(** * Neighbours, ICMPv6 and waiting frames

    [Networking/IPv6/Rolodex6/rolodex6.c], the table of neighbours;
    [Networking/IPv6/Echo6/echo6.c], ping, neighbour discovery and router
    advertisements; [Networking/IPv6/Foyer6/foyer6.c], frames that wait for a
    neighbour's address. *)

From stdpp Require Import list_numbers.
From S2P Require Import Prelude SlotTable Bailiff Rolodex Foyer Checksum Atlas6.

#[local] Open Scope Z_scope.

(** ** Rolodex6 *)

Definition ROLODEX6_CAPACITY : nat := 16.
Definition ROLODEX6_ENTRY_TIMEOUT_TICKS : Z := 6000.

Record rolodex6 := mkRolodex6 { r6_book : list rolodex_entry; r6_our_ip : ip6; r6_have_our_ip : bool; r6_contradictions : Z }.

Definition rolodex6_init : rolodex6 := mkRolodex6 (replicate ROLODEX6_CAPACITY (mkRolo ip6_zero (replicate 6 0) 0 false false)) ip6_zero false 0.

Definition set_book6 (book : list rolodex_entry) (c : Z) (r : rolodex6) : rolodex6 := mkRolodex6 book (r6_our_ip r) (r6_have_our_ip r) c.

Definition find_entry6 (ip : ip6) (r : rolodex6) : option rolodex_entry := lookup_key ip (r6_book r).
Definition rolodex6_set_ip (ip : ip6) (r : rolodex6) : rolodex6 := mkRolodex6 (r6_book r) ip true (r6_contradictions r).
Definition rolodex6_get_ip (r : rolodex6) : ip6 := r6_our_ip r.
Definition rolodex6_have_ip (r : rolodex6) : bool := r6_have_our_ip r.

Definition rolodex6_learn (now : Z) (ip : ip6) (mac : list Z) (r : rolodex6) : rolodex6 :=
  match find_key ip (r6_book r) with
  | Some i =>
      match r6_book r !! i with
      | Some e =>
          if bool_decide (ro_mac e = mac)
          then set_book6 (<[i := mkRolo (ro_ip e) (ro_mac e) now (ro_in_use e) (ro_disputed e)]> (r6_book r)) (r6_contradictions r) r
          else set_book6 (<[i := mkRolo (ro_ip e) (ro_mac e) (ro_last_seen e) (ro_in_use e) true]> (r6_book r)) (r6_contradictions r +32 1) r
      | None => r
      end
  | None =>
      match find_free (r6_book r) with
      | None => r
      | Some i => set_book6 (<[i := mkRolo ip mac now true false]> (r6_book r)) (r6_contradictions r) r
      end
  end.

Definition rolodex6_lookup (ip : ip6) (r : rolodex6) : option (list Z) := ro_mac <$> find_entry6 ip r.
Definition rolodex6_disputed (ip : ip6) (r : rolodex6) : bool := match find_entry6 ip r with None => false | Some e => ro_disputed e end.
Definition rolodex6_contradiction_count (r : rolodex6) : Z := r6_contradictions r.

Definition expire_entry6 (now : Z) (e : rolodex_entry) : rolodex_entry :=
  if ro_in_use e && (ROLODEX6_ENTRY_TIMEOUT_TICKS <? (now -32 ro_last_seen e)) then mkRolo (ro_ip e) (ro_mac e) (ro_last_seen e) false false else e.
Definition rolodex6_tick (now : Z) (r : rolodex6) : rolodex6 := set_book6 (expire_entry6 now <$> r6_book r) (r6_contradictions r) r.
Definition rolodex6_entry_count (r : rolodex6) : Z := Z.of_nat (count_if ro_in_use (r6_book r)).

(** ** The way out: transmitter, Bailiff and the neighbours *)

Record link6 (D : Type) := mkLink6 { l6_driver : D; l6_bailiff : bailiff; l6_rolodex : rolodex6 }.
Arguments mkLink6 {D} _ _ _.
Arguments l6_driver {D} _.
Arguments l6_bailiff {D} _.
Arguments l6_rolodex {D} _.

Definition set_rolodex6 {D} (r : rolodex6) (l : link6 D) : link6 D := mkLink6 (l6_driver l) (l6_bailiff l) r.

Section Send.
Context `{TxDriver D}.

Definition request6 (now : Z) (frame : list Z) (l : link6 D) : option Z * link6 D :=
  let '(id, b) := bailiff_request_pass now frame (l6_bailiff l) in (id, mkLink6 (l6_driver l) b (l6_rolodex l)).
Definition present6 (now : Z) (id : Z) (frame : list Z) (l : link6 D) : bool * link6 D :=
  let '(ok, (b, d)) := bailiff_present_pass now id frame (l6_bailiff l, l6_driver l) in (ok, mkLink6 d b (l6_rolodex l)).
(** [if (bailiff_request_pass(...)) return bailiff_present_pass(...); return 0;] *)
Definition send6 (now : Z) (frame : list Z) (l : link6 D) : bool * link6 D :=
  match request6 now frame l with
  | (None, l) => (false, l)
  | (Some id, l) => present6 now id frame l
  end.
End Send.

(** ** Frames *)

Definition eth6 (dest_mac our_mac : list Z) : list Z := dest_mac ++ our_mac ++ [0x86; 0xDD].
Definition ip6_header (len next_header hop_limit : Z) (src dst : ip6) : list Z := [0x60; 0; 0; 0] ++ put16 len ++ [next_header; hop_limit] ++ src ++ dst.

(** The pseudo-header: both addresses, the length in two halves, the protocol. *)
Definition pseudo6_sum (src dst : ip6) (proto len : Z) : Z :=
  sum_words (sum_words 0 src) dst +32 Z.land (Z.shiftr len 16) 0xFFFF +32 Z.land len 0xFFFF +32 proto.

(** ** Echo6 *)

Definition ICMP6_MIN_HEADER : Z := 8.
Definition ECHO6_MAX_PAYLOAD : Z := 64.
Definition ECHO6_MAX_PENDING : nat := 8.
Definition ICMP6_ECHO_REQUEST : Z := 128.
Definition ICMP6_ECHO_REPLY : Z := 129.
Definition ICMP6_ROUTER_SOLICITATION : Z := 133.
Definition ICMP6_ROUTER_ADVERTISEMENT : Z := 134.
Definition ICMP6_NEIGHBOR_SOLICITATION : Z := 135.
Definition ICMP6_NEIGHBOR_ADVERTISEMENT : Z := 136.
Definition DEST_UNREACHABLE_EMBED_CAP : Z := 200.

Inductive icmp6_verdict := ICMP6_ACCEPT | ICMP6_REJECT_TOO_SHORT | ICMP6_REJECT_BAD_CHECKSUM | ICMP6_REJECT_UNHANDLED_TYPE | ICMP6_REJECT_PAYLOAD_TOO_LARGE.
#[export] Instance icmp6_verdict_eq : EqDecision icmp6_verdict.
Proof. solve_decision. Defined.

(** [pp6_payload] is the first [payload_len] bytes of the buffer. *)
Record pending_ping6 := mkPing6 { pp6_src_ip : ip6; pp6_identifier : Z; pp6_sequence : Z; pp6_payload : list Z }.

Record echo6 := mkEcho6 {
  e6_queue : list pending_ping6; e6_head : nat; e6_tail : nat; e6_pending : nat;
  e6_have_ra : bool; e6_ra_prefix : ip6; e6_ra_prefix_len : Z; e6_ra_router_ip : ip6;
  e6_dad_watch_ip : ip6; e6_dad_watching : bool; e6_dad_conflict : bool;
  e6_last_reply_frame : list Z; e6_counts : Z * Z }.

Definition echo6_init : echo6 := mkEcho6 (replicate ECHO6_MAX_PENDING (mkPing6 ip6_zero 0 0 [])) 0 0 0 false ip6_zero 0 ip6_zero ip6_zero false false [] (0, 0).

Definition set_queue6 (q : list pending_ping6) (h t n : nat) (e : echo6) : echo6 :=
  mkEcho6 q h t n (e6_have_ra e) (e6_ra_prefix e) (e6_ra_prefix_len e) (e6_ra_router_ip e) (e6_dad_watch_ip e) (e6_dad_watching e) (e6_dad_conflict e)
    (e6_last_reply_frame e) (e6_counts e).
Definition set_ra6 (have : bool) (prefix : ip6) (len : Z) (router : ip6) (e : echo6) : echo6 :=
  mkEcho6 (e6_queue e) (e6_head e) (e6_tail e) (e6_pending e) have prefix len router (e6_dad_watch_ip e) (e6_dad_watching e) (e6_dad_conflict e)
    (e6_last_reply_frame e) (e6_counts e).
Definition set_dad6 (ip : ip6) (watching conflict : bool) (e : echo6) : echo6 :=
  mkEcho6 (e6_queue e) (e6_head e) (e6_tail e) (e6_pending e) (e6_have_ra e) (e6_ra_prefix e) (e6_ra_prefix_len e) (e6_ra_router_ip e) ip watching conflict
    (e6_last_reply_frame e) (e6_counts e).
Definition set_reply6 (f : list Z) (e : echo6) : echo6 :=
  mkEcho6 (e6_queue e) (e6_head e) (e6_tail e) (e6_pending e) (e6_have_ra e) (e6_ra_prefix e) (e6_ra_prefix_len e) (e6_ra_router_ip e) (e6_dad_watch_ip e)
    (e6_dad_watching e) (e6_dad_conflict e) f (e6_counts e).
Definition set_counts6 (c : Z * Z) (e : echo6) : echo6 :=
  mkEcho6 (e6_queue e) (e6_head e) (e6_tail e) (e6_pending e) (e6_have_ra e) (e6_ra_prefix e) (e6_ra_prefix_len e) (e6_ra_router_ip e) (e6_dad_watch_ip e)
    (e6_dad_watching e) (e6_dad_conflict e) (e6_last_reply_frame e) c.

Definition echo6_dad_watch (target_ip : ip6) (e : echo6) : echo6 := set_dad6 target_ip true false e.
Definition echo6_dad_conflict (e : echo6) : bool := e6_dad_conflict e.
Definition echo6_dad_clear (e : echo6) : echo6 := set_dad6 (e6_dad_watch_ip e) false false e.

Definition icmp6_checksum (src dst : ip6) (msg : list Z) : Z := complement (fold_carry (sum_words (pseudo6_sum src dst 58 (zlen msg)) msg)).

(** A message with its checksum field filled in. *)
Definition icmp6_with (csum type code : Z) (rest : list Z) : list Z := [type; code] ++ put16 csum ++ rest.
Definition icmp6_message (src dst : ip6) (type code : Z) (rest : list Z) : list Z :=
  icmp6_with (icmp6_checksum src dst (icmp6_with 0 type code rest)) type code rest.

(** [None]: a read outside the message. *)
Definition echo6_check (payload : list Z) (src dst : ip6) : option icmp6_verdict :=
  if zlen payload <? ICMP6_MIN_HEADER then Some ICMP6_REJECT_TOO_SHORT
  else if negb (icmp6_checksum src dst payload =? 0) then Some ICMP6_REJECT_BAD_CHECKSUM
  else
    type ← rd payload 0;
    if negb (type =? ICMP6_ECHO_REQUEST) && negb (type =? ICMP6_NEIGHBOR_SOLICITATION) &&
       negb (type =? ICMP6_NEIGHBOR_ADVERTISEMENT) && negb (type =? ICMP6_ROUTER_ADVERTISEMENT) then Some ICMP6_REJECT_UNHANDLED_TYPE
    else if (type =? ICMP6_ECHO_REQUEST) && (ECHO6_MAX_PAYLOAD <? zlen payload - ICMP6_MIN_HEADER) then Some ICMP6_REJECT_PAYLOAD_TOO_LARGE
    else Some ICMP6_ACCEPT.

(** [memcmp(payload + i, bytes, n) == 0]: it stops at the first difference. *)
Fixpoint mem_eq (payload : list Z) (i : Z) (with_ : list Z) : option bool :=
  match with_ with
  | [] => Some true
  | b :: r => x ← rd payload i; if x =? b then mem_eq payload (i + 1) r else Some false
  end.

(** The options of a router advertisement. *)
Fixpoint ra_options (fuel : nat) (payload : list Z) (src : ip6) (lifetime i : Z) (e : echo6) : option echo6 :=
  match fuel with
  | O => None
  | S fuel' =>
      if zlen payload <? i + 2 then Some e
      else
        opt_type ← rd payload i; opt_len_units ← rd payload (i + 1);
        if opt_len_units =? 0 then Some e
        else
          let opt_len_bytes := u16 (opt_len_units * 8) in
          if zlen payload <? i + opt_len_bytes then Some e
          else
            e ← (if (opt_type =? 3) && (opt_len_bytes =? 32) then
                   prefix_len_bits ← rd payload (i + 2); flags ← rd payload (i + 3);
                   if negb (Z.land flags 0x80 =? 0) && negb (Z.land flags 0x40 =? 0) && (prefix_len_bits <=? 128) then
                     prefix ← slice payload (Z.to_nat (i + 16)) 16;
                     Some (set_ra6 (0 <? lifetime) prefix prefix_len_bits src e)
                   else Some e
                 else Some e);
            ra_options fuel' payload src lifetime (u16 (i + opt_len_bytes)) e
  end.

Section Ops.
Context `{TxDriver D}.

Definition send_neighbor_advertisement (now : Z) (solicitor_ip : ip6) (solicitor_mac : list Z) (our_ip : ip6) (our_mac : list Z) (l : link6 D) : link6 D :=
  let icmp := icmp6_message our_ip solicitor_ip ICMP6_NEIGHBOR_ADVERTISEMENT 0 ([0x60; 0; 0; 0] ++ our_ip ++ [2; 1] ++ our_mac ++ [0; 0; 0; 0]) in
  snd (send6 now (eth6 solicitor_mac our_mac ++ ip6_header 36 58 64 our_ip solicitor_ip ++ icmp) l).

(** The four kinds of message, after the checks. *)
Definition handle_echo_request (payload : list Z) (src : ip6) (e : echo6) : option echo6 :=
  b4 ← rd payload 4; b5 ← rd payload 5; b6 ← rd payload 6; b7 ← rd payload 7;
  if (ECHO6_MAX_PENDING <=? e6_pending e)%nat then Some e
  else Some (set_queue6 (<[e6_tail e := mkPing6 src (be16 b4 b5) (be16 b6 b7) (drop 8 payload)]> (e6_queue e)) (e6_head e)
               ((e6_tail e + 1) mod ECHO6_MAX_PENDING)%nat (S (e6_pending e)) e).

Definition handle_neighbor_solicitation (now : Z) (our_mac payload : list Z) (src : ip6) (l : link6 D) : option (link6 D) :=
  if negb (rolodex6_have_ip (l6_rolodex l)) then Some l
  else
    let our_ip := rolodex6_get_ip (l6_rolodex l) in
    same ← mem_eq payload 8 our_ip;
    if negb same then Some l
    else if zlen payload <? 24 + 8 then Some l
    else
      b24 ← rd payload 24; b25 ← rd payload 25;
      if (b24 =? 1) && (b25 =? 1) then
        solicitor_mac ← slice payload 26 6;
        Some (send_neighbor_advertisement now src solicitor_mac our_ip our_mac (set_rolodex6 (rolodex6_learn now src solicitor_mac (l6_rolodex l)) l))
      else Some l.

Definition handle_neighbor_advertisement (now : Z) (payload : list Z) (src : ip6) (e : echo6) (l : link6 D) : option (echo6 * link6 D) :=
  conflict ← (if e6_dad_watching e && (24 <=? zlen payload) then mem_eq payload 8 (e6_dad_watch_ip e) else Some false);
  let e := if (conflict : bool) then set_dad6 (e6_dad_watch_ip e) (e6_dad_watching e) true e else e in
  if zlen payload <? 24 + 8 then Some (e, l)
  else
    b24 ← rd payload 24; b25 ← rd payload 25;
    if (b24 =? 2) && (b25 =? 1) then
      mac ← slice payload 26 6;
      Some (e, set_rolodex6 (rolodex6_learn now src mac (l6_rolodex l)) l)
    else Some (e, l).

Definition handle_router_advertisement (payload : list Z) (src : ip6) (e : echo6) : option echo6 :=
  if zlen payload <? 16 then Some e
  else
    b6 ← rd payload 6; b7 ← rd payload 7;
    ra_options (length payload) payload src (be16 b6 b7) 16 e.

Definition echo6_handle (now : Z) (our_mac payload : list Z) (src dst : ip6) (st : echo6 * link6 D) : option (echo6 * link6 D) :=
  let '(e, l) := st in
  v ← echo6_check payload src dst;
  if negb (bool_decide (v = ICMP6_ACCEPT)) then Some (set_counts6 (fst (e6_counts e), snd (e6_counts e) +32 1) e, l)
  else
    let e := set_counts6 (fst (e6_counts e) +32 1, snd (e6_counts e)) e in
    type ← rd payload 0;
    if type =? ICMP6_ECHO_REQUEST then e ← handle_echo_request payload src e; Some (e, l)
    else if type =? ICMP6_NEIGHBOR_SOLICITATION then l ← handle_neighbor_solicitation now our_mac payload src l; Some (e, l)
    else if type =? ICMP6_NEIGHBOR_ADVERTISEMENT then handle_neighbor_advertisement now payload src e l
    else if type =? ICMP6_ROUTER_ADVERTISEMENT then e ← handle_router_advertisement payload src e; Some (e, l)
    else Some (e, l).

Definition echo6_have_router_advertisement (e : echo6) : bool := e6_have_ra e.
Definition echo6_get_prefix (e : echo6) : ip6 * Z := (e6_ra_prefix e, e6_ra_prefix_len e).
Definition echo6_get_router (e : echo6) : ip6 := e6_ra_router_ip e.

Definition all_routers : ip6 := [0xff; 0x02; 0; 0; 0; 0; 0; 0; 0; 0; 0; 0; 0; 0; 0; 2].

Definition echo6_dispatch_router_solicitation (now : Z) (our_mac : list Z) (our_ip : ip6) (l : link6 D) : bool * link6 D :=
  let include_slla := negb (bool_decide (our_ip = ip6_zero)) in
  let msg_len := u16 (ICMP6_MIN_HEADER + (if include_slla then 8 else 0)) in
  let icmp := icmp6_message our_ip all_routers ICMP6_ROUTER_SOLICITATION 0 ([0; 0; 0; 0] ++ if include_slla then [1; 1] ++ our_mac else []) in
  send6 now (eth6 [0x33; 0x33; 0; 0; 0; 2] our_mac ++ ip6_header msg_len 58 255 our_ip all_routers ++ icmp) l.

(** The address a neighbour solicitation goes to, from the last bytes of the target. *)
Definition solicited_node (target_ip : ip6) : option (ip6 * list Z) :=
  a ← rd target_ip 13; b ← rd target_ip 14; c ← rd target_ip 15;
  Some ([0xff; 0x02; 0; 0; 0; 0; 0; 0; 0; 0; 0; 1; 0xff; a; b; c], [0x33; 0x33; 0xff; a; b; c]).

Definition echo6_dispatch_neighbor_solicitation (now : Z) (target_ip : ip6) (our_mac : list Z) (our_ip : ip6) (l : link6 D) : option (bool * link6 D) :=
  let include_slla := negb (bool_decide (our_ip = ip6_zero)) in
  let msg_len := u16 (24 + (if include_slla then 8 else 0)) in
  '(dest_ip, dest_mac) ← solicited_node target_ip;
  let icmp := icmp6_message our_ip dest_ip ICMP6_NEIGHBOR_SOLICITATION 0 ([0; 0; 0; 0] ++ target_ip ++ if include_slla then [1; 1] ++ our_mac else []) in
  Some (send6 now (eth6 dest_mac our_mac ++ ip6_header msg_len 58 255 our_ip dest_ip ++ icmp) l).

(** The outer option is an access outside the queue, the inner one the pass. *)
Definition echo6_dispatch_reply (now : Z) (our_mac : list Z) (our_ip : ip6) (st : echo6 * link6 D) : option (option Z * (echo6 * link6 D)) :=
  let '(e, l) := st in
  if (e6_pending e =? 0)%nat then Some (None, (e, l))
  else
    p ← e6_queue e !! e6_head e;
    let e := set_queue6 (e6_queue e) ((e6_head e + 1) mod ECHO6_MAX_PENDING)%nat (e6_tail e) (e6_pending e - 1)%nat e in
    match rolodex6_lookup (pp6_src_ip p) (l6_rolodex l) with
    | None => Some (None, (e, l))
    | Some dest_mac =>
        let icmp := icmp6_message our_ip (pp6_src_ip p) ICMP6_ECHO_REPLY 0 (put16 (pp6_identifier p) ++ put16 (pp6_sequence p) ++ pp6_payload p) in
        let msg_len := u16 (ICMP6_MIN_HEADER + zlen (pp6_payload p)) in
        let frame := eth6 dest_mac our_mac ++ ip6_header msg_len 58 64 our_ip (pp6_src_ip p) ++ icmp in
        let '(id, l) := request6 now frame l in
        Some (id, (set_reply6 frame e, l))
    end.
Definition echo6_last_frame (e : echo6) : list Z := e6_last_reply_frame e.
Definition echo6_accepted_count (e : echo6) : Z := fst (e6_counts e).
Definition echo6_rejected_count (e : echo6) : Z := snd (e6_counts e).

Definition echo6_dispatch_dest_unreachable (now code : Z) (our_mac : list Z) (our_ip sender_ip : ip6) (original_next_header : Z) (original_payload : list Z)
    (l : link6 D) : bool * link6 D :=
  match rolodex6_lookup sender_ip (l6_rolodex l) with
  | None => (false, l)
  | Some dest_mac =>
      let embed_len := if zlen original_payload <? DEST_UNREACHABLE_EMBED_CAP then zlen original_payload else DEST_UNREACHABLE_EMBED_CAP in
      let msg_len := u16 (8 + 40 + embed_len) in
      let icmp := icmp6_message our_ip sender_ip 1 code
        ([0; 0; 0; 0] ++ ip6_header (zlen original_payload) original_next_header 64 sender_ip our_ip ++ take (Z.to_nat embed_len) original_payload) in
      send6 now (eth6 dest_mac our_mac ++ ip6_header msg_len 58 64 our_ip sender_ip ++ icmp) l
  end.
End Ops.

#[global] Arguments send6 : simpl never.
#[global] Arguments request6 : simpl never.
#[global] Arguments present6 : simpl never.
