(* ===== verification/Echo6.v ===== *)
(** * What ICMPv6 guarantees

    The checksum of the messages built, when the handler reads outside a message,
    and neighbour discovery between two hosts. *)

From stdpp Require Import list_numbers.
From S2P Require Import Prelude SlotTable Bailiff Rolodex Foyer Ring Checksum Atlas6 Link6.

#[local] Open Scope Z_scope.

(** ** Checksums *)

Lemma pseudo6_total src dst proto len data : is_ip6 src -> is_ip6 dst -> bytes data -> is_u8 proto -> is_u16 len -> zlen data <= 60000 ->
  sum_words (pseudo6_sum src dst proto len) data = words_total src + words_total dst + proto + len + words_total data /\
  0 <= words_total src + words_total dst + proto + len + words_total data < 4294967296 - 65536.
Proof.
  intros [Ls Bs] [Ld Bd] Hb Hp Hl Hz. pose proof (words_total_range src Bs) as R1. pose proof (words_total_range dst Bd) as R2.
  pose proof (words_total_range data Hb) as R3. unfold zlen in R1, R2. rewrite Ls in R1. rewrite Ld in R2. unfold is_u8, is_u16 in *.
  assert (R : 0 <= words_total src + words_total dst + proto + len + words_total data < 4294967296 - 65536) by lia. split; [|exact R].
  unfold pseudo6_sum. rewrite (sum_words_total src), (sum_words_total dst) by (done || lia). rewrite Z.add_0_l.
  rewrite Z.shiftr_div_pow2 by lia. change (2 ^ 16) with 65536. rewrite (Z.div_small len) by lia. change 65535 with (Z.ones 16). rewrite !Z.land_ones by lia.
  change (2 ^ 16) with 65536. rewrite Z.mod_0_l by lia. rewrite (Z.mod_small len) by lia. unfold is_u32.
  rewrite (u32_small (_ + 0)) by (unfold is_u32; lia). rewrite (u32_small (_ + len)) by (unfold is_u32; lia). rewrite u32_small by (unfold is_u32; lia).
  rewrite sum_words_total by (done || lia). lia.
Qed.

(** Storing the complement of the sum in a field makes the message check. *)
Lemma sum6_checks src dst proto pre post c : is_ip6 src -> is_ip6 dst -> is_u8 proto -> Nat.Even (length pre) -> bytes pre -> bytes post ->
  zlen pre + zlen post <= 50000 -> let m x := pre ++ put16 x ++ post in
  c = complement (fold_carry (sum_words (pseudo6_sum src dst proto (zlen (m 0))) (m 0))) ->
  fold_carry (sum_words (pseudo6_sum src dst proto (zlen (m c))) (m c)) = 0xFFFF /\ is_u16 c.
Proof.
  intros Hs Hd Hp He Bp Bq Hz m Hc.
  assert (Hlen : forall x, zlen (m x) = zlen pre + zlen post + 2) by (intros x; unfold m, zlen; rewrite !length_app; cbn; lia).
  assert (Hb : forall x, bytes (m x)) by (intros x; unfold m; rewrite !bytes_app; auto with aevros).
  assert (U : is_u16 c) by (rewrite Hc; unfold complement; apply u16_range). split; [|exact U].
  assert (Hz' : 0 <= zlen pre + zlen post) by (unfold zlen; lia).
  destruct (pseudo6_total src dst proto (zlen (m 0)) (m 0) Hs Hd (Hb 0) Hp) as [E0 R0]; [rewrite Hlen; unfold is_u16; lia|rewrite Hlen; lia|].
  destruct (pseudo6_total src dst proto (zlen (m c)) (m c) Hs Hd (Hb c) Hp) as [E1 R1]; [rewrite Hlen; unfold is_u16; lia|rewrite Hlen; lia|].
  assert (Hf : words_total (m c) = words_total (m 0) + c) by (by apply words_total_field). rewrite E1, Hf, !Hlen. rewrite E0, !Hlen in Hc. rewrite Hlen in R0.
  set (S0 := words_total src + words_total dst + proto + (zlen pre + zlen post + 2) + words_total (m 0)) in *.
  replace (words_total src + words_total dst + proto + (zlen pre + zlen post + 2) + (words_total (m 0) + c)) with (S0 + c) by (unfold S0; lia).
  unfold is_u16 in U. rewrite fold_carry_spec by (unfold is_u32; lia). rewrite Hc, fold_carry_spec by (unfold is_u32; lia). apply fold16_complement. lia.
Qed.

Lemma icmp6_message_shape src dst type code rest : exists c, is_u16 c /\ icmp6_message src dst type code rest = [type; code] ++ put16 c ++ rest.
Proof. eexists. split; [|reflexivity]. unfold icmp6_checksum, complement. apply u16_range. Qed.

Lemma icmp6_message_checks src dst type code rest : is_ip6 src -> is_ip6 dst -> is_u8 type -> is_u8 code -> bytes rest -> zlen rest <= 40000 ->
  icmp6_checksum src dst (icmp6_message src dst type code rest) = 0.
Proof.
  intros Hs Hd Ht Hc Hb Hz. unfold icmp6_message, icmp6_checksum at 1, icmp6_with at 1 3.
  destruct (sum6_checks src dst 58 [type; code] rest (icmp6_checksum src dst (icmp6_with 0 type code rest)) Hs Hd) as [E _];
    [unfold is_u8; lia|by apply Nat.even_spec|by apply Forall_cons_2, Forall_cons_2, Forall_nil_2|done|unfold zlen in *; cbn; lia|reflexivity|]. by rewrite E.
Qed.

(** ** Reading outside a message *)

Lemma mem_eq_total payload l : forall i, 0 <= i -> i + zlen l <= zlen payload -> is_Some (mem_eq payload i l).
Proof.
  induction l as [|b l IH]; intros i Hi Hl; cbn [mem_eq]; [done|]. replace (zlen (b :: l)) with (1 + zlen l) in Hl by (unfold zlen; cbn; lia).
  destruct (rd_in_range payload i ltac:(unfold zlen in *; lia)) as [x ->]. cbn. destruct (x =? b); [|done]. apply IH; lia.
Qed.

Lemma mem_eq_spec payload l : forall i, 0 <= i -> i + zlen l <= zlen payload -> mem_eq payload i l = Some (bool_decide (take (length l) (drop (Z.to_nat i) payload) = l)).
Proof.
  induction l as [|b l IH]; intros i Hi Hl; cbn [mem_eq]; [done|]. replace (zlen (b :: l)) with (1 + zlen l) in Hl by (unfold zlen; cbn; lia).
  assert (Hlt : (Z.to_nat i < length payload)%nat) by (unfold zlen in *; lia). unfold rd. rewrite (proj2 (Z.leb_le 0 i)) by lia.
  destruct (lookup_lt_is_Some_2 payload _ Hlt) as [x Hx]. rewrite Hx. cbn [mbind option_bind]. rewrite (drop_S _ _ _ Hx). cbn [length take].
  destruct (Z.eqb_spec x b) as [-> | Hne].
  - rewrite IH by lia. replace (Z.to_nat (i + 1)) with (S (Z.to_nat i)) by lia. f_equal. apply bool_decide_ext. split; [by intros ->|]. by intros [= ->].
  - f_equal. symmetry. apply bool_decide_false. congruence.
Qed.

(** When the comparison runs off the end: what there is of the message agrees. *)
Lemma mem_eq_None payload l : forall i, 0 <= i -> i <= zlen payload -> mem_eq payload i l = None <-> zlen payload < i + zlen l /\ drop (Z.to_nat i) payload `prefix_of` l.
Proof.
  induction l as [|b l IH]; intros i Hi Hl; cbn [mem_eq].
  { split; [done|]. unfold zlen in *. cbn. lia. }
  unfold rd. rewrite (proj2 (Z.leb_le 0 i)) by lia. replace (zlen (b :: l)) with (1 + zlen l) by (unfold zlen; cbn; lia).
  destruct (payload !! Z.to_nat i) as [x|] eqn:Hx; cbn [mbind option_bind].
  - pose proof (lookup_lt_Some _ _ _ Hx) as Hlt. rewrite (drop_S _ _ _ Hx). destruct (Z.eqb_spec x b) as [-> | Hne].
    + rewrite IH by (unfold zlen in *; lia). replace (Z.to_nat (i + 1)) with (S (Z.to_nat i)) by lia. replace (i + 1 + zlen l) with (i + (1 + zlen l)) by lia.
      split; intros [H1 H2]; (split; [done|]); [by apply prefix_cons|by apply prefix_cons_inv_2 in H2].
    + split; [done|]. intros [_ H2]. by apply prefix_cons_inv_1 in H2.
  - apply lookup_ge_None in Hx. split; [|done]. intros _. split; [unfold zlen in *; lia|]. rewrite drop_ge by lia. apply prefix_nil.
Qed.

(** A solicitation too short for the address it asks about. *)
Definition short_solicitation (payload : list Z) (r : rolodex6) : Prop :=
  payload !! 0%nat = Some ICMP6_NEIGHBOR_SOLICITATION /\ zlen payload < 24 /\ rolodex6_have_ip r = true /\ drop 8 payload `prefix_of` rolodex6_get_ip r.

Lemma ra_options_total payload src lt fuel : is_u16 (zlen payload) -> bytes payload -> forall i e, 0 <= i -> zlen payload < i + 8 * Z.of_nat fuel -> 
  (0 < fuel)%nat -> i <= zlen payload -> exists e', ra_options fuel payload src lt i e = Some e' /\ e6_pending e' = e6_pending e /\ e6_queue e' = e6_queue e /\
    e6_head e' = e6_head e /\ e6_tail e' = e6_tail e.
Proof.
  intros Hu Hb. unfold is_u16 in Hu. induction fuel as [|fuel IH]; intros i e Hi Hf H0 Hle; [lia|]. cbn [ra_options].
  destruct (Z.ltb_spec (zlen payload) (i + 2)) as [|H2]; [by exists e|].
  destruct (rd_in_range payload i ltac:(lia)) as [ty ->], (rd_in_range payload (i + 1) ltac:(lia)) as [un Eun]. rewrite Eun. cbn [mbind option_bind].
  pose proof (rd_bytes _ _ _ Hb Eun) as Hun. unfold is_u8 in Hun. destruct (Z.eqb_spec un 0) as [|Hn0]; [by exists e|].
  rewrite (u16_small (un * 8)) by (unfold is_u16; lia). destruct (Z.ltb_spec (zlen payload) (i + un * 8)) as [|Hfit]; [by exists e|].
  assert (Hopt : exists e1, (if (ty =? 3) && (un * 8 =? 32) then
        prefix_len_bits ← rd payload (i + 2); flags ← rd payload (i + 3);
        if negb (Z.land flags 0x80 =? 0) && negb (Z.land flags 0x40 =? 0) && (prefix_len_bits <=? 128) then
          prefix ← slice payload (Z.to_nat (i + 16)) 16; Some (set_ra6 (0 <? lt) prefix prefix_len_bits src e)
        else Some e else Some e) = Some e1 /\ e6_pending e1 = e6_pending e /\ e6_queue e1 = e6_queue e /\ e6_head e1 = e6_head e /\ e6_tail e1 = e6_tail e).
  { destruct ((ty =? 3) && (un * 8 =? 32)) eqn:E3; [|by exists e]. apply andb_true_iff in E3 as [_ E3%Z.eqb_eq].
    destruct (rd_in_range payload (i + 2) ltac:(lia)) as [pl ->], (rd_in_range payload (i + 3) ltac:(lia)) as [fl ->]. cbn [mbind option_bind].
    destruct (_ && _); [|by exists e]. rewrite slice_in_range by (unfold zlen in *; lia). cbn. by eexists. }
  destruct Hopt as (e1 & -> & Q1 & Q2 & Q3 & Q4). cbn [mbind option_bind]. rewrite u16_small by (unfold is_u16; lia).
  destruct (IH (i + un * 8) e1 ltac:(lia) ltac:(lia)) as (e2 & -> & S1 & S2 & S3 & S4); [destruct fuel; [lia|lia]|lia|].
  exists e2. split; [done|]. repeat split; congruence.
Qed.

Lemma echo6_checked payload src dst v : echo6_check payload src dst = Some v -> v = ICMP6_ACCEPT -> 8 <= zlen payload.
Proof. unfold echo6_check, ICMP6_MIN_HEADER. destruct (Z.ltb_spec (zlen payload) 8); [intros [= <-]; done|done]. Qed.

Lemma echo6_check_total payload src dst : is_Some (echo6_check payload src dst).
Proof.
  unfold echo6_check. destruct (Z.ltb_spec (zlen payload) ICMP6_MIN_HEADER) as [|H8]; [done|]. destruct (negb _); [done|]. unfold ICMP6_MIN_HEADER in H8.
  destruct (rd_in_range payload 0 ltac:(lia)) as [t ->]. cbn. destruct (_ && _); [done|]. by destruct (_ && _).
Qed.

Section Faults.
Context `{TxDriver D}.

Lemma solicitation_None now our_mac payload src (l : link6 D) : 8 <= zlen payload -> length (rolodex6_get_ip (l6_rolodex l)) = 16%nat ->
  handle_neighbor_solicitation now our_mac payload src l = None <->
  zlen payload < 24 /\ rolodex6_have_ip (l6_rolodex l) = true /\ drop 8 payload `prefix_of` rolodex6_get_ip (l6_rolodex l).
Proof.
  intros H8 Hip. unfold handle_neighbor_solicitation. set (ip := rolodex6_get_ip (l6_rolodex l)) in *.
  destruct (rolodex6_have_ip (l6_rolodex l)); cbn [negb]; [|split; [done|intros (_ & ? & _); done]].
  pose proof (mem_eq_None payload ip 8 ltac:(lia) H8) as HN. replace (8 + zlen ip) with 24 in HN by (unfold zlen; lia). change (Z.to_nat 8) with 8%nat in HN.
  destruct (mem_eq payload 8 ip) as [same|] eqn:Em; cbn [mbind option_bind].
  - split.
    + intros E. exfalso. destruct same; cbn [negb] in E; [|done]. destruct (Z.ltb_spec (zlen payload) (24 + 8)) as [|H32]; [done|].
      destruct (rd_in_range payload 24 ltac:(lia)) as [x Hx], (rd_in_range payload 25 ltac:(lia)) as [y Hy]. rewrite Hx, Hy in E. cbn in E. destruct (_ && _); [|done].
      rewrite slice_in_range in E by (unfold zlen in *; lia). done.
    + intros (H1 & _ & H3). pose proof (proj2 HN (conj H1 H3)). done.
  - split; [|done]. intros _. destruct (proj1 HN eq_refl) as [H1 H2]. done.
Qed.

Lemma advertisement_total now payload src e (l : link6 D) : length (e6_dad_watch_ip e) = 16%nat -> is_Some (handle_neighbor_advertisement now payload src e l).
Proof.
  intros Hip. unfold handle_neighbor_advertisement.
  assert (Hc : is_Some (if e6_dad_watching e && (24 <=? zlen payload) then mem_eq payload 8 (e6_dad_watch_ip e) else Some false)).
  { destruct (e6_dad_watching e); cbn [andb]; [|done]. destruct (Z.leb_spec 24 (zlen payload)); [|done]. apply mem_eq_total; [lia|unfold zlen in *; lia]. }
  destruct Hc as [c ->]. cbn [mbind option_bind]. destruct (Z.ltb_spec (zlen payload) (24 + 8)) as [|H32]; [done|].
  destruct (rd_in_range payload 24 ltac:(lia)) as [x ->], (rd_in_range payload 25 ltac:(lia)) as [y ->]. cbn. destruct (_ && _); [|done].
  by rewrite slice_in_range by (unfold zlen in *; lia).
Qed.

(** The ICMPv6 handler reads outside the message in exactly one case: a
    neighbour solicitation that passes the checksum but is shorter than the 24 bytes
    its target address needs, and agrees with our address as far as it goes (an
    eight-byte one always does).  Every other message is handled, whatever its
    options say: the walk over a router advertisement's options stops. *)
Lemma echo6_handle_faults now our_mac payload src dst e (l : link6 D) : bytes payload -> is_u16 (zlen payload) ->
  length (rolodex6_get_ip (l6_rolodex l)) = 16%nat -> length (e6_dad_watch_ip e) = 16%nat ->
  echo6_handle now our_mac payload src dst (e, l) = None <-> echo6_check payload src dst = Some ICMP6_ACCEPT /\ short_solicitation payload (l6_rolodex l).
Proof.
  intros Hb Hu Hip Hdad. unfold echo6_handle. destruct (echo6_check_total payload src dst) as [v Ev]. rewrite Ev. cbn [mbind option_bind].
  destruct (bool_decide_reflect (v = ICMP6_ACCEPT)) as [-> | Hv]; cbn [negb]; [|split; [done|intros [[= ->] _]; done]].
  pose proof (echo6_checked _ _ _ _ Ev eq_refl) as H8. destruct (rd_in_range payload 0 ltac:(lia)) as [ty Hty]. rewrite Hty. cbn [mbind option_bind].
  assert (H0 : payload !! 0%nat = Some ty) by exact Hty. set (e1 := set_counts6 _ e). unfold short_solicitation. rewrite H0.
  assert (Hfour : forall i, 0 <= i < 8 -> is_Some (rd payload i)) by (intros i Hi; apply rd_in_range; lia).
  destruct (Z.eqb_spec ty ICMP6_ECHO_REQUEST) as [-> | N1].
  { split; [|by intros [_ ([= ?] & _)]]. intros E. exfalso. unfold handle_echo_request in E.
    destruct (Hfour 4 ltac:(lia)) as [? Q], (Hfour 5 ltac:(lia)) as [? Q1], (Hfour 6 ltac:(lia)) as [? Q2], (Hfour 7 ltac:(lia)) as [? Q3]. rewrite Q, Q1, Q2, Q3 in E. cbn in E.
    by destruct (ECHO6_MAX_PENDING <=? e6_pending e)%nat. }
  destruct (Z.eqb_spec ty ICMP6_NEIGHBOR_SOLICITATION) as [-> | N2].
  { pose proof (solicitation_None now our_mac payload src l H8 Hip) as HN. destruct (handle_neighbor_solicitation now our_mac payload src l) eqn:E; cbn [mbind option_bind].
    - split; [done|]. intros (_ & _ & Hs). pose proof (proj2 HN Hs). done.
    - split; [|done]. intros _. by destruct (proj1 HN eq_refl) as (? & ? & ?). }
  destruct (Z.eqb_spec ty ICMP6_NEIGHBOR_ADVERTISEMENT) as [-> | N3].
  { destruct (advertisement_total now payload src e1 l Hdad) as [st ->]. split; [done|]. by intros [_ ([= ?] & _)]. }
  destruct (Z.eqb_spec ty ICMP6_ROUTER_ADVERTISEMENT) as [-> | N4]; [|split; [done|intros [_ ([= ?] & _)]; done]].
  split; [|by intros [_ ([= ?] & _)]]. intros E. exfalso. unfold handle_router_advertisement in E. destruct (Z.ltb_spec (zlen payload) 16) as [|H16]; [done|].
  destruct (Hfour 6 ltac:(lia)) as [? Q2], (Hfour 7 ltac:(lia)) as [? Q3]. rewrite Q2, Q3 in E. cbn [mbind option_bind] in E.
  destruct (ra_options_total payload src (be16 x x0) (length payload) Hu Hb 16 e1) as (e2 & E2 & _); [lia|unfold zlen in *; lia|unfold zlen in *; lia|lia|].
  rewrite E2 in E. done.
Qed.
End Faults.

(** Eight bytes are enough. *)
Definition demo_link6 : link6 (list (list Z)) := mkLink6 [] bailiff_init (rolodex6_set_ip (demo6 0 0 1) rolodex6_init).

Lemma echo6_handle_faults_witness :
  echo6_handle 5 (replicate 6 2) (icmp6_message (demo6 0 0 9) (demo6 0 0 1) ICMP6_NEIGHBOR_SOLICITATION 0 [0; 0; 0; 0]) (demo6 0 0 9) (demo6 0 0 1) (echo6_init, demo_link6) = None.
Proof.
  apply echo6_handle_faults.
  - apply (bool_decide_unpack (Forall (fun x => is_u8 x) _)). by vm_compute.
  - split; by vm_compute.
  - done.
  - done.
  - split; [by vm_compute|]. split; [done|]. split; [by vm_compute|]. split; [done|]. vm_compute. eexists. reflexivity.
Defined.

(** ** Neighbour discovery *)

(** The fields of an Ethernet frame that carries IPv6. *)
Definition frame_src (f : list Z) : ip6 := take 16 (drop 22 f).
Definition frame_dst (f : list Z) : ip6 := take 16 (drop 38 f).
Definition frame_body (f : list Z) : list Z := drop 54 f.

Definition is_mac (m : list Z) : Prop := length m = 6%nat /\ bytes m.

Lemma frame_fields dm om len nh hop src dst body : length dm = 6%nat -> length om = 6%nat -> length src = 16%nat -> length dst = 16%nat ->
  let f := eth6 dm om ++ ip6_header len nh hop src dst ++ body in
  frame_src f = src /\ frame_dst f = dst /\ frame_body f = body /\ zlen f = 54 + zlen body.
Proof.
  intros L1 L2 L3 L4 f. assert (E1 : f = (dm ++ om ++ [134; 221] ++ [96; 0; 0; 0] ++ put16 len ++ [nh; hop]) ++ src ++ dst ++ body).
  { unfold f, eth6, ip6_header. by rewrite <- !app_assoc. }
  assert (P : length (dm ++ om ++ [134; 221] ++ [96; 0; 0; 0] ++ put16 len ++ [nh; hop]) = 22%nat) by (rewrite !length_app, L1, L2; done).
  assert (Hd : forall k l, (22 <= k)%nat -> drop k ((dm ++ om ++ [134; 221] ++ [96; 0; 0; 0] ++ put16 len ++ [nh; hop]) ++ l) = drop (k - 22) l).
  { intros k l Hk. rewrite drop_app_ge by lia. by rewrite P. }
  unfold frame_src, frame_dst, frame_body. rewrite E1, !Hd by lia. cbn [Nat.sub]. rewrite drop_0.
  split; [by rewrite take_app_le, take_ge by lia|]. split; [rewrite drop_app_ge, L3, Nat.sub_diag by lia; by rewrite drop_0, take_app_le, take_ge by lia|].
  split; [rewrite drop_app_ge, L3 by lia; rewrite drop_app_ge, L4 by lia; done|]. unfold zlen. rewrite length_app, P, !length_app, L3, L4. lia.
Qed.

(** A way out that takes frames. *)
Definition out_ready (now : Z) (l : link6 (list (list Z))) : Prop :=
  bailiff_wf (l6_bailiff l) /\ bl_next_pass_id (l6_bailiff l) < 4294967295 /\ is_Some (find_free (reclaim_expired now (bl_passes (l6_bailiff l)))).

Lemma send6_log now f l : out_ready now l -> 0 < zlen f <= 1600 ->
  exists l', send6 now f l = (true, l') /\ l6_driver l' = l6_driver l ++ [f] /\ l6_rolodex l' = l6_rolodex l.
Proof.
  intros (Hwf & Hn & [i Hi]) Hz. unfold send6, request6. destruct (bailiff_request_pass now f (l6_bailiff l)) as [id b] eqn:E.
  assert (exists i, id = Some i) as [j ->].
  { unfold bailiff_request_pass, BAILIFF_MAX_FRAME in E. rewrite (proj2 (Z.eqb_neq _ _)), (proj2 (Z.ltb_ge _ _)), Hi in E by lia. injection E as <- _. eauto. }
  unfold present6. cbn [l6_bailiff l6_driver l6_rolodex].
  destruct (bailiff_fresh_pass (D := list (list Z)) now f (l6_bailiff l) j b (l6_driver l) (l6_driver l ++ [f]) Hwf Hn E eq_refl) as (b2 & E2).
  rewrite E2. by eexists.
Qed.

(** A neighbour not known yet, with room for it. *)
Definition unknown6 (ip : ip6) (r : rolodex6) : Prop := uniq (r6_book r) /\ find_entry6 ip r = None /\ is_Some (find_free (r6_book r)).

Lemma rolodex6_learn_new now ip mac r : unknown6 ip r -> rolodex6_lookup ip (rolodex6_learn now ip mac r) = Some mac /\ rolodex6_get_ip (rolodex6_learn now ip mac r) = rolodex6_get_ip r.
Proof.
  intros (Hq & Hn & [i Hi]). unfold find_entry6 in Hn. rewrite lookup_key_None in Hn. unfold rolodex6_learn. rewrite Hn, Hi. split; [|done].
  destruct (find_free_sound _ _ Hi) as (x & Hx & _). unfold rolodex6_lookup, find_entry6. cbn [r6_book set_book6].
  rewrite (lookup_key_uniq ip _ i (mkRolo ip mac now true false)); [done| |apply list_lookup_insert_eq; by eapply lookup_lt_Some|done|done].
  apply uniq_insert; [done|]. intros _. by apply slot_for_new.
Qed.

Lemma solicited_node_ok target : is_ip6 target -> exists d m, solicited_node target = Some (d, m) /\ is_ip6 d /\ length m = 6%nat.
Proof.
  intros [Hl Hb]. unfold solicited_node. unfold zlen. destruct (rd_in_range target 13 ltac:(unfold zlen; lia)) as [a Ha], (rd_in_range target 14 ltac:(unfold zlen; lia)) as [b Hb'],
    (rd_in_range target 15 ltac:(unfold zlen; lia)) as [c Hc]. rewrite Ha, Hb', Hc. cbn. eexists _, _. split; [done|]. split; [|done]. split; [done|].
  pose proof (rd_bytes _ _ _ Hb Ha). pose proof (rd_bytes _ _ _ Hb Hb'). pose proof (rd_bytes _ _ _ Hb Hc).
  repeat (apply Forall_cons_2; [assumption || (unfold is_u8; lia)|]). apply Forall_nil_2.
Qed.

(** A message is handled according to its first byte. *)
Lemma echo6_check_accepts src dst type rest : is_ip6 src -> is_ip6 dst -> is_u8 type -> bytes rest -> 4 <= zlen rest <= 40000 ->
  type = ICMP6_NEIGHBOR_SOLICITATION \/ type = ICMP6_NEIGHBOR_ADVERTISEMENT -> echo6_check (icmp6_message src dst type 0 rest) src dst = Some ICMP6_ACCEPT.
Proof.
  intros Hs Hd Ht Hb Hz Hor. unfold echo6_check. destruct (icmp6_message_shape src dst type 0 rest) as (c & _ & E).
  rewrite icmp6_message_checks by (done || (unfold is_u8; lia) || lia). rewrite E. rewrite (proj2 (Z.ltb_ge _ _)) by (unfold ICMP6_MIN_HEADER, zlen in *; cbn; lia).
  cbn. by destruct Hor as [-> | ->].
Qed.

(** The target address and the link-layer option of a message. *)
Lemma message_fields src dst type flags target opt mac tail : length flags = 4%nat -> length target = 16%nat -> length mac = 6%nat ->
  let m := icmp6_message src dst type 0 (flags ++ target ++ [opt; 1] ++ mac ++ tail) in
  rd m 0 = Some type /\ mem_eq m 8 target = Some true /\ rd m 24 = Some opt /\ rd m 25 = Some 1 /\ slice m 26 6 = Some mac /\ zlen m = 32 + zlen tail.
Proof.
  intros Lf Lt Lm m. destruct (icmp6_message_shape src dst type 0 (flags ++ target ++ [opt; 1] ++ mac ++ tail)) as (c & _ & E). fold m in E.
  assert (Em : m = ([type; 0] ++ put16 c ++ flags) ++ target ++ ([opt; 1] ++ mac ++ tail)) by (rewrite E; by rewrite <- !app_assoc).
  assert (P : length ([type; 0] ++ put16 c ++ flags) = 8%nat) by (rewrite !length_app, Lf; done).
  assert (Hz : zlen m = 32 + zlen tail) by (rewrite Em; unfold zlen; rewrite length_app, P, !length_app, Lt, Lm; cbn; lia).
  assert (H24 : drop 24 m = [opt; 1] ++ mac ++ tail) by (rewrite Em, app_assoc, drop_app_ge by (rewrite length_app, P, Lt; lia); by rewrite length_app, P, Lt).
  assert (Hrd : forall k, (24 <= k)%nat -> rd m (Z.of_nat k) = ([opt; 1] ++ mac ++ tail) !! (k - 24)%nat).
  { intros k Hk. unfold rd. rewrite (proj2 (Z.leb_le 0 _)), Nat2Z.id by lia. rewrite <- H24, lookup_drop. f_equal. lia. }
  split; [by rewrite E|]. split; [|split; [change 24 with (Z.of_nat 24); by rewrite Hrd|split; [change 25 with (Z.of_nat 25); by rewrite Hrd by lia|split; [|exact Hz]]]].
  - rewrite mem_eq_spec by (rewrite ?Hz; unfold zlen in *; lia). f_equal. apply bool_decide_true. change (Z.to_nat 8) with 8%nat.
    rewrite Em, drop_app_ge, P by lia. rewrite drop_0. by rewrite take_app_le, take_ge by lia.
  - rewrite slice_in_range by (unfold zlen in Hz; lia). f_equal. replace 26%nat with (24 + 2)%nat by lia. rewrite <- drop_drop, H24. change (drop 2 ([opt; 1] ++ mac ++ tail)) with (mac ++ tail). by rewrite take_app_le, take_ge by lia.
Qed.

Lemma solicitation_answered now mac_b src dst mac_a tail e (l : link6 (list (list Z))) : is_ip6 src -> is_ip6 dst -> is_mac mac_a -> is_mac mac_b -> bytes tail -> zlen tail <= 1000 ->
  is_ip6 (rolodex6_get_ip (l6_rolodex l)) -> rolodex6_have_ip (l6_rolodex l) = true -> unknown6 src (l6_rolodex l) -> out_ready now l ->
  let ip_b := rolodex6_get_ip (l6_rolodex l) in
  exists e' l', echo6_handle now mac_b (icmp6_message src dst ICMP6_NEIGHBOR_SOLICITATION 0 ([0; 0; 0; 0] ++ ip_b ++ [1; 1] ++ mac_a ++ tail)) src dst (e, l) = Some (e', l') /\
    rolodex6_lookup src (l6_rolodex l') = Some mac_a /\
    l6_driver l' = l6_driver l ++ [eth6 mac_a mac_b ++ ip6_header 36 58 64 ip_b src ++
      icmp6_message ip_b src ICMP6_NEIGHBOR_ADVERTISEMENT 0 ([0x60; 0; 0; 0] ++ ip_b ++ [2; 1] ++ mac_b ++ [0; 0; 0; 0])].
Proof.
  intros Hs Hd Ma Mb Ht Hzt Hip Hhave Hunk Hready ip_b. destruct Ma as [La Ba], Mb as [Lb Bb]. pose proof Hip as [Li Bi].
  pose proof (message_fields src dst ICMP6_NEIGHBOR_SOLICITATION [0; 0; 0; 0] ip_b 1 mac_a tail eq_refl Li La) as (F1 & F2 & F3 & F4 & F5 & F6).
  set (m := icmp6_message src dst ICMP6_NEIGHBOR_SOLICITATION 0 ([0; 0; 0; 0] ++ ip_b ++ [1; 1] ++ mac_a ++ tail)) in *.
  assert (Hck : echo6_check m src dst = Some ICMP6_ACCEPT).
  { apply echo6_check_accepts; [done|done|unfold is_u8, ICMP6_NEIGHBOR_SOLICITATION; lia| | |by left].
    - rewrite !bytes_app. repeat split; try done; byte_list.
    - unfold zlen in *. rewrite !length_app. cbn. fold ip_b in Li. lia. }
  unfold echo6_handle. rewrite Hck. cbn [mbind option_bind]. rewrite bool_decide_true by done. cbn [negb]. rewrite F1. cbn [mbind option_bind].
  change (ICMP6_NEIGHBOR_SOLICITATION =? ICMP6_ECHO_REQUEST) with false. change (ICMP6_NEIGHBOR_SOLICITATION =? ICMP6_NEIGHBOR_SOLICITATION) with true. cbn iota.
  unfold handle_neighbor_solicitation. rewrite Hhave. cbn [negb]. fold ip_b. rewrite F2. cbn [mbind option_bind negb].
  rewrite (proj2 (Z.ltb_ge _ _)) by (unfold zlen in *; lia). rewrite F3, F4. cbn [mbind option_bind]. cbn [Z.eqb Pos.eqb andb]. rewrite F5. cbn [mbind option_bind].
  destruct (rolodex6_learn_new now src mac_a (l6_rolodex l) Hunk) as [Hlk _].
  unfold send_neighbor_advertisement. destruct Hs as [Ls Bs]. match goal with |- context [snd (send6 now ?f ?l0)] => destruct (send6_log now f l0 Hready) as (l' & -> & Hdrv & Hrol) end.
  { rewrite (proj2 (proj2 (proj2 (frame_fields mac_a mac_b 36 58 64 ip_b src _ La Lb Li Ls)))).
    rewrite (proj2 (proj2 (proj2 (proj2 (proj2 (message_fields ip_b src ICMP6_NEIGHBOR_ADVERTISEMENT [96; 0; 0; 0] ip_b 2 mac_b [0; 0; 0; 0] eq_refl Li Lb)))))). unfold zlen. cbn. lia. }
  cbn [snd]. eexists _, _. split; [reflexivity|]. rewrite Hrol, Hdrv. split; [exact Hlk|done].
Qed.

Lemma advertisement_learned now mac our_ip src mac_b tail e (l : link6 (list (list Z))) : is_ip6 src -> is_ip6 our_ip -> is_mac mac_b -> bytes tail -> zlen tail <= 1000 ->
  length (e6_dad_watch_ip e) = 16%nat -> unknown6 src (l6_rolodex l) ->
  exists e' l', echo6_handle now mac (icmp6_message src our_ip ICMP6_NEIGHBOR_ADVERTISEMENT 0 ([0x60; 0; 0; 0] ++ src ++ [2; 1] ++ mac_b ++ tail)) src our_ip (e, l) = Some (e', l') /\
    rolodex6_lookup src (l6_rolodex l') = Some mac_b.
Proof.
  intros Hs Ho [Lb Bb] Ht Hzt Hdad Hunk. pose proof Hs as [Ls Bs].
  pose proof (message_fields src our_ip ICMP6_NEIGHBOR_ADVERTISEMENT [96; 0; 0; 0] src 2 mac_b tail eq_refl Ls Lb) as (F1 & _ & F3 & F4 & F5 & F6).
  set (m := icmp6_message src our_ip ICMP6_NEIGHBOR_ADVERTISEMENT 0 ([0x60; 0; 0; 0] ++ src ++ [2; 1] ++ mac_b ++ tail)) in *.
  assert (Hck : echo6_check m src our_ip = Some ICMP6_ACCEPT).
  { apply echo6_check_accepts; [done|done|unfold is_u8, ICMP6_NEIGHBOR_ADVERTISEMENT; lia| | |by right].
    - rewrite !bytes_app. repeat split; try done; byte_list.
    - unfold zlen in *. rewrite !length_app. cbn. lia. }
  unfold echo6_handle. rewrite Hck. cbn [mbind option_bind]. rewrite bool_decide_true by done. cbn [negb]. rewrite F1. cbn [mbind option_bind].
  change (ICMP6_NEIGHBOR_ADVERTISEMENT =? ICMP6_ECHO_REQUEST) with false. change (ICMP6_NEIGHBOR_ADVERTISEMENT =? ICMP6_NEIGHBOR_SOLICITATION) with false.
  change (ICMP6_NEIGHBOR_ADVERTISEMENT =? ICMP6_NEIGHBOR_ADVERTISEMENT) with true. cbn iota. unfold handle_neighbor_advertisement. cbn [e6_dad_watching e6_dad_watch_ip set_counts6].
  assert (Hc : is_Some (if e6_dad_watching e && (24 <=? zlen m) then mem_eq m 8 (e6_dad_watch_ip e) else Some false)).
  { destruct (e6_dad_watching e); cbn [andb]; [|done]. destruct (Z.leb_spec 24 (zlen m)); [|done]. apply mem_eq_total; [lia|unfold zlen in *; lia]. }
  destruct Hc as [c ->]. cbn [mbind option_bind]. rewrite (proj2 (Z.ltb_ge _ _)) by (unfold zlen in *; lia). rewrite F3, F4. cbn [mbind option_bind]. cbn [Z.eqb Pos.eqb andb].
  rewrite F5. cbn [mbind option_bind]. eexists _, _. split; [reflexivity|]. apply rolodex6_learn_new. done.
Qed.

(** Neighbour discovery works between two hosts.  Host A solicits the address of
    host B: the frame it sends carries a message that B answers, having learned A's
    hardware address from it; and the frame B answers with carries a message from
    which A learns B's hardware address. *)
Lemma neighbor_discovery now_a now_b now_c mac_a mac_b ip_a e_a (l_a : link6 (list (list Z))) e_b (l_b : link6 (list (list Z))) :
  let ip_b := rolodex6_get_ip (l6_rolodex l_b) in
  is_mac mac_a -> is_mac mac_b -> is_ip6 ip_a -> ip_a <> ip6_zero -> is_ip6 ip_b -> rolodex6_have_ip (l6_rolodex l_b) = true ->
  unknown6 ip_b (l6_rolodex l_a) -> unknown6 ip_a (l6_rolodex l_b) -> length (e6_dad_watch_ip e_a) = 16%nat -> out_ready now_a l_a -> out_ready now_b l_b ->
  exists l_a1 f1 e_b1 l_b1 f2 e_a1 l_a2,
    echo6_dispatch_neighbor_solicitation now_a ip_b mac_a ip_a l_a = Some (true, l_a1) /\ l6_driver l_a1 = l6_driver l_a ++ [f1] /\
    echo6_handle now_b mac_b (frame_body f1) (frame_src f1) (frame_dst f1) (e_b, l_b) = Some (e_b1, l_b1) /\
    rolodex6_lookup ip_a (l6_rolodex l_b1) = Some mac_a /\ l6_driver l_b1 = l6_driver l_b ++ [f2] /\
    echo6_handle now_c mac_a (frame_body f2) (frame_src f2) (frame_dst f2) (e_a, l_a1) = Some (e_a1, l_a2) /\
    rolodex6_lookup ip_b (l6_rolodex l_a2) = Some mac_b.
Proof.
  intros ip_b Ma Mb Ha Hnz Hb Hhave Ua Ub Hdad Ra Rb. pose proof Ma as [La Ba]. pose proof Mb as [Lb Bb]. pose proof Ha as [Lia Bia]. pose proof Hb as [Lib Bib].
  destruct (solicited_node_ok ip_b Hb) as (d & m & Ed & [Ld Bd] & Lm). unfold echo6_dispatch_neighbor_solicitation. rewrite Ed. cbn [mbind option_bind].
  rewrite bool_decide_false by done. cbn [negb].
  set (ns := icmp6_message ip_a d ICMP6_NEIGHBOR_SOLICITATION 0 ([0; 0; 0; 0] ++ ip_b ++ [1; 1] ++ mac_a)).
  assert (Ens : ns = icmp6_message ip_a d ICMP6_NEIGHBOR_SOLICITATION 0 ([0; 0; 0; 0] ++ ip_b ++ [1; 1] ++ mac_a ++ [])) by (unfold ns; by rewrite app_nil_r).
  destruct (frame_fields m mac_a (u16 (24 + 8)) 58 255 ip_a d ns Lm La Lia Ld) as (S1 & S2 & S3 & S4). set (f1 := eth6 m mac_a ++ ip6_header (u16 (24 + 8)) 58 255 ip_a d ++ ns) in *.
  destruct (send6_log now_a f1 l_a Ra) as (l_a1 & E1 & D1 & R1).
  { rewrite S4, Ens. rewrite (proj2 (proj2 (proj2 (proj2 (proj2 (message_fields ip_a d ICMP6_NEIGHBOR_SOLICITATION [0; 0; 0; 0] ip_b 1 mac_a [] eq_refl Lib La)))))). unfold zlen. cbn. lia. }
  destruct (solicitation_answered now_b mac_b ip_a d mac_a [] e_b l_b Ha (conj Ld Bd) Ma Mb) as (e_b1 & l_b1 & E2 & K2 & D2);
    [constructor|unfold zlen; cbn; lia|done|done|done|done|]. cbv zeta in E2, D2. fold ip_b in E2, D2.
  destruct (frame_fields mac_a mac_b 36 58 64 ip_b ip_a (icmp6_message ip_b ip_a ICMP6_NEIGHBOR_ADVERTISEMENT 0 ([0x60; 0; 0; 0] ++ ip_b ++ [2; 1] ++ mac_b ++ [0; 0; 0; 0]))
    La Lb Lib Lia) as (T1 & T2 & T3 & T4).
  destruct (advertisement_learned now_c mac_a ip_a ip_b mac_b [0; 0; 0; 0] e_a l_a1 Hb Ha Mb) as (e_a1 & l_a2 & E3 & K3); [byte_list|unfold zlen; cbn; lia|done|by rewrite R1|].
  eexists l_a1, f1, e_b1, l_b1, _, e_a1, l_a2. split; [by rewrite E1|]. split; [done|]. split; [rewrite S1, S2, S3, Ens; exact E2|]. split; [done|]. split; [exact D2|].
  split; [rewrite T1, T2, T3; exact E3|exact K3].
Qed.

Lemma out_ready_boot now drv r : 0 <= now -> out_ready now (mkLink6 drv bailiff_init r).
Proof.
  intros _. split; [apply bailiff_wf_init|]. split; [cbn; lia|]. vm_compute. eauto.
Qed.

Lemma unknown6_boot ip our : unknown6 ip (rolodex6_set_ip our rolodex6_init).
Proof.
  split; [by apply uniq_replicate|]. split; [|vm_compute; eauto]. apply lookup_key_None, find_key_None. intros i e Hi. apply lookup_replicate in Hi as [-> _]. done.
Qed.

Lemma neighbor_discovery_witness : exists l_a1 f1 e_b1 l_b1 f2 e_a1 l_a2,
    echo6_dispatch_neighbor_solicitation 10 (demo6 0 0 1) (replicate 6 4) (demo6 0 0 9) (mkLink6 [] bailiff_init (rolodex6_set_ip (demo6 0 0 9) rolodex6_init)) = Some (true, l_a1) /\
    l6_driver l_a1 = [f1] /\ echo6_handle 11 (replicate 6 2) (frame_body f1) (frame_src f1) (frame_dst f1) (echo6_init, demo_link6) = Some (e_b1, l_b1) /\
    l6_driver l_b1 = [f2] /\ echo6_handle 12 (replicate 6 4) (frame_body f2) (frame_src f2) (frame_dst f2) (echo6_init, l_a1) = Some (e_a1, l_a2) /\
    rolodex6_lookup (demo6 0 0 1) (l6_rolodex l_a2) = Some (replicate 6 2).
Proof.
  assert (U : forall k, (0 <=? k) && (k <? 256) = true -> is_u8 k) by (intros k Hk; unfold is_u8; lia).
  destruct (neighbor_discovery 10 11 12 (replicate 6 4) (replicate 6 2) (demo6 0 0 9) echo6_init (mkLink6 [] bailiff_init (rolodex6_set_ip (demo6 0 0 9) rolodex6_init))
    echo6_init demo_link6) as (a1 & f1 & b1 & lb1 & f2 & ea & la & H1 & H2 & H3 & _ & H4 & H5 & H6).
  - split; [done|]. apply Forall_replicate. by apply U.
  - split; [done|]. apply Forall_replicate. by apply U.
  - apply demo6_ok; by apply U.
  - done.
  - apply demo6_ok; by apply U.
  - done.
  - apply unknown6_boot.
  - apply unknown6_boot.
  - done.
  - by apply out_ready_boot.
  - by apply out_ready_boot.
  - exists a1, f1, b1, lb1, f2, ea, la. split; [exact H1|]. split; [exact H2|]. split; [exact H3|]. split; [exact H4|]. split; [exact H5|exact H6].
Defined.
