(* ===== verification/Tcp6.v ===== *)
(** * The transport components of IPv6

    [Networking/IPv6/LockBox6], [Inbox6], [Postbox6] and [WayStation6] are their IPv4
    twins with other capacities; [Networking/IPv6/Scheduler6/scheduler6.c] keeps one
    unacknowledged frame per connection; [Networking/IPv6/Conversation6/rapport6.c] is
    the TCP state machine and [Networking/IPv6/SynCookie6/SynCookie6.c] the cookies
    that replace connection slots under load. *)

From stdpp Require Import list_numbers.
From S2P Require Import Prelude SlotTable GuestList Bailiff Rolodex Foyer LockBox Ring Inbox Why Scheduler Rapport Transport Checksum Atlas6 Link6.
Import Inbox Postbox Lottery.

#[local] Open Scope Z_scope.

(** ** LockBox6 *)

Definition LOCKBOX6_CAPACITY : nat := 32.
Definition LOCKBOX6_MAX_PER_IP : nat := 8.
Definition LOCKBOX6_MAX_BUFFERED : Z := 4096.

Definition lockbox6_init : lockbox := mkLockbox (replicate LOCKBOX6_CAPACITY (mkBox 0 ip6_zero 0 0 0 false)) (replicate LOCKBOX6_CAPACITY 0) 0.

(** The searches return [LOCKBOX6_CAPACITY] for "none". *)
Definition or_capacity6 (o : option nat) : nat := default LOCKBOX6_CAPACITY o.

Definition lockbox6_next_for_port (local_port protocol : Z) (after_id : nat) (x : lockbox) : nat :=
  let start := if (LOCKBOX6_CAPACITY <=? after_id)%nat then 0%nat else (after_id + 1)%nat in
  or_capacity6 ((fun i => start + i)%nat <$> find_idx (on_port local_port protocol) (drop start (lx_table x))).
Definition lockbox6_find_connection (local_port : Z) (remote_ip : ip6) (remote_port protocol : Z) (x : lockbox) : nat :=
  or_capacity6 (find_key (local_port, remote_ip, remote_port, protocol) (lx_table x)).

Definition lockbox6_claim (local_port : Z) (remote_ip : ip6) (remote_port protocol : Z) (x : lockbox) : lockbox_result * option nat * lockbox :=
  if negb (lockbox6_find_connection local_port remote_ip remote_port protocol x =? LOCKBOX6_CAPACITY)%nat
  then (LOCKBOX_REJECT_ALREADY_EXISTS, None, lockbox_reject x)
  else if (LOCKBOX6_MAX_PER_IP <=? count_for_ip remote_ip (lx_table x))%nat then (LOCKBOX_REJECT_IP_QUOTA, None, lockbox_reject x)
  else match find_free (lx_table x) with
       | Some i =>
           (LOCKBOX_OK, Some i,
            mkLockbox (<[i := mkBox local_port remote_ip remote_port protocol 0 true]> (lx_table x)) (alter (fun g => g +32 1) i (lx_generation x)) (lx_rejected_count x))
       | None => (LOCKBOX_REJECT_TABLE_FULL, None, lockbox_reject x)
       end.

Definition lockbox6_deposit : nat -> Z -> lockbox -> bool * lockbox := lockbox_deposit.
Definition lockbox6_consume : nat -> Z -> lockbox -> lockbox := lockbox_consume.
Definition lockbox6_release : nat -> lockbox -> lockbox := lockbox_release.
Definition lockbox6_active_count : lockbox -> Z := lockbox_active_count.
Definition lockbox6_rejected_count : lockbox -> Z := lockbox_rejected_count.
Definition lockbox6_get_generation : nat -> lockbox -> Z := lockbox_get_generation.
Definition lockbox6_get_tuple : nat -> lockbox -> option (Z * ip6 * Z) := lockbox_get_tuple.
Definition lockbox6_listen (local_port protocol : Z) (x : lockbox) : lockbox_result * option nat * lockbox := lockbox6_claim local_port ip6_zero 0 protocol x.
Definition lockbox6_find_listener (local_port protocol : Z) (x : lockbox) : nat := or_capacity6 (find_idx (on_port local_port protocol) (lx_table x)).

(** ** Inbox6 and Postbox6 *)

Definition inbox6_init : list inbox_slot := replicate LOCKBOX6_CAPACITY (mkInbox (replicate INBOX_SIZE 0) 0 0 0 0).
Definition inbox6_deposit : nat -> list Z -> lockbox -> list inbox_slot -> bool * lockbox * list inbox_slot := inbox_deposit.
Definition inbox6_read : nat -> nat -> lockbox -> list inbox_slot -> option (list Z * lockbox * list inbox_slot) := inbox_read.
Definition inbox6_available : nat -> lockbox -> list inbox_slot -> nat * list inbox_slot := inbox_available.

Definition POSTBOX6_MAX_PENDING : nat := 8.
Definition POSTBOX6_MAX_DATAGRAM : Z := 512.
Definition postbox6_init : list postbox_slot := replicate LOCKBOX6_CAPACITY (mkPostbox (replicate POSTBOX6_MAX_PENDING (mkEnvelope ip6_zero 0 [])) 0 0 0).
(** [data] is what can be read at the pointer; [None] is a copy past it. *)
Definition postbox6_deposit (slot : nat) (src_ip : ip6) (src_port : Z) (data : list Z) (len : Z) (pb : list postbox_slot) : option (bool * list postbox_slot) :=
  match pb !! slot with
  | None => Some (false, pb)
  | Some s =>
      if POSTBOX6_MAX_DATAGRAM <? len then Some (false, pb)
      else if (POSTBOX6_MAX_PENDING <=? pb_pending s)%nat then Some (false, pb)
      else
        bytes ← slice data 0 (Z.to_nat len);
        Some (true, <[slot := mkPostbox (<[pb_tail s := mkEnvelope src_ip src_port bytes]> (pb_queue s)) (pb_head s) ((pb_tail s + 1) mod POSTBOX6_MAX_PENDING)%nat (S (pb_pending s))]> pb)
  end.
Definition postbox6_read : nat -> nat -> list postbox_slot -> option (option (ip6 * Z * list Z) * list postbox_slot) := postbox_read.
Definition postbox6_pending_count : nat -> list postbox_slot -> nat := postbox_pending_count.

(** ** Scheduler6 *)

Definition SCHED6_RETRY_LIMIT : Z := 8.
Definition SCHED6_INITIAL_RTO : Z := 100.
Definition SCHED6_MIN_RTO : Z := 20.
Definition SCHED6_MAX_RTO : Z := 1000.
Definition SCHED6_DUP_ACK_THRESHOLD : Z := 3.
Definition SCHED6_MAX_FRAME : Z := BAILIFF_MAX_FRAME.

(** [p6_frame] is the first [length] bytes of the stored frame. *)
Record packet6 := mkPacket6 {
  p6_seq : Z; p6_start_timer : Z; p6_retry_track : Z; p6_state : packet_sched_state; p6_frame : list Z;
  p6_srtt : Z; p6_rttvar : Z; p6_rto : Z; p6_retransmitted : bool; p6_last_ack_seen : Z; p6_dup_ack_count : Z }.
Record scheduler6 := mkSched6 { s6_entries : list packet6; s6_retransmit_total : Z; s6_giveup_total : Z }.

Definition packet6_zero : packet6 := mkPacket6 0 0 0 PACKET_STATE_IDLE [] 0 0 0 false 0 0.
Definition scheduler6_init : scheduler6 := mkSched6 (replicate LOCKBOX6_CAPACITY packet6_zero) 0 0.

Definition set_entry6 (id : nat) (e : packet6) (s : scheduler6) : scheduler6 := mkSched6 (<[id := e]> (s6_entries s)) (s6_retransmit_total s) (s6_giveup_total s).

Definition scheduler6_track (now : Z) (conn_id : nat) (seq : Z) (frame : list Z) (s : scheduler6) : bool * scheduler6 :=
  match s6_entries s !! conn_id with
  | None => (false, s)
  | Some e =>
      if (zlen frame =? 0) || (SCHED6_MAX_FRAME <? zlen frame) then (false, s)
      else (true, set_entry6 conn_id (mkPacket6 seq now 0 PACKET_STATE_RETRY frame (p6_srtt e) (p6_rttvar e)
                                        (if p6_rto e =? 0 then SCHED6_INITIAL_RTO else p6_rto e) false (p6_last_ack_seen e) 0) s)
  end.

(** The round-trip estimate after a sample. *)
Definition rtt6_update (sample : Z) (e : packet6) : Z * Z * Z :=
  let '(srtt, rttvar) :=
    if p6_srtt e =? 0 then (sample, sample / 2)
    else
      let diff := if p6_srtt e <? sample then sample -32 p6_srtt e else p6_srtt e -32 sample in
      (u32 (p6_srtt e - p6_srtt e / 8 + sample / 8), u32 (p6_rttvar e - p6_rttvar e / 4 + diff / 4)) in
  let rto := u32 (srtt + 4 * rttvar) in
  let rto := if rto <? SCHED6_MIN_RTO then SCHED6_MIN_RTO else rto in
  (srtt, rttvar, if SCHED6_MAX_RTO <? rto then SCHED6_MAX_RTO else rto).

Definition scheduler6_cancel (conn_id : nat) (s : scheduler6) : scheduler6 :=
  mkSched6 (alter (fun e => mkPacket6 (p6_seq e) (p6_start_timer e) 0 PACKET_STATE_IDLE (p6_frame e) 0 0 0 (p6_retransmitted e) (p6_last_ack_seen e) 0) conn_id (s6_entries s))
    (s6_retransmit_total s) (s6_giveup_total s).

Definition scheduler6_bytes_in_flight (conn_id : nat) (s : scheduler6) : Z :=
  match s6_entries s !! conn_id with
  | None => 0
  | Some e => if bool_decide (p6_state e = PACKET_STATE_RETRY) then zlen (p6_frame e) else 0
  end.
Definition scheduler6_retransmit_count (s : scheduler6) : Z := s6_retransmit_total s.
Definition scheduler6_giveup_count (s : scheduler6) : Z := s6_giveup_total s.

Section Resend.
Context `{TxDriver D}.

Definition resend6 (now : Z) (e : packet6) (st : scheduler6 * link6 D) : bool * (scheduler6 * link6 D) :=
  let '(s, l) := st in
  let '(ok, l) := send6 now (p6_frame e) l in
  (ok, (if ok : bool then mkSched6 (s6_entries s) (s6_retransmit_total s +32 1) (s6_giveup_total s) else s, l)).

Definition scheduler6_ack (now : Z) (conn_id : nat) (acked_seq : Z) (st : scheduler6 * link6 D) : scheduler6 * link6 D :=
  let '(s, l) := st in
  match s6_entries s !! conn_id with
  | None => st
  | Some e =>
      if negb (bool_decide (p6_state e = PACKET_STATE_RETRY)) then st
      else if (p6_seq e +32 zlen (p6_frame e)) <=? acked_seq then
        let '(srtt, rttvar, rto) := if negb (p6_retransmitted e) then rtt6_update (now -32 p6_start_timer e) e else (p6_srtt e, p6_rttvar e, p6_rto e) in
        (set_entry6 conn_id (mkPacket6 (p6_seq e) (p6_start_timer e) 0 PACKET_STATE_IDLE (p6_frame e) srtt rttvar rto (p6_retransmitted e) acked_seq 0) s, l)
      else if acked_seq =? p6_last_ack_seen e then
        let n := p6_dup_ack_count e +32 1 in
        if SCHED6_DUP_ACK_THRESHOLD <=? n then
          let '(_, (s, l)) := resend6 now e (s, l) in
          (set_entry6 conn_id (mkPacket6 (p6_seq e) (p6_start_timer e) (p6_retry_track e) (p6_state e) (p6_frame e) (p6_srtt e) (p6_rttvar e) (p6_rto e)
                                 (p6_retransmitted e) (p6_last_ack_seen e) 0) s, l)
        else
          (set_entry6 conn_id (mkPacket6 (p6_seq e) (p6_start_timer e) (p6_retry_track e) (p6_state e) (p6_frame e) (p6_srtt e) (p6_rttvar e) (p6_rto e)
                                 (p6_retransmitted e) (p6_last_ack_seen e) n) s, l)
      else
        (set_entry6 conn_id (mkPacket6 (p6_seq e) (p6_start_timer e) (p6_retry_track e) (p6_state e) (p6_frame e) (p6_srtt e) (p6_rttvar e) (p6_rto e)
                               (p6_retransmitted e) acked_seq 0) s, l)
  end.
End Resend.

(** ** Rapport6 *)

Definition CONV6_TIME_WAIT_TICKS : Z := 400.
Definition rapport6_init : list conv := replicate LOCKBOX6_CAPACITY (mkConv CONV_CLOSED 0 0 0 0 0 0).

(** [send_seq] is left as it was. *)
Definition rapport6_on_syn (conn_id : nat) (peer_isn our_isn : Z) (r : list conv) : list conv :=
  alter (fun c => mkConv CONV_SYN_RECEIVED (peer_isn +32 1) our_isn (cv_our_fin_seq c) (cv_time_wait_started c) (cv_peer_window c) (cv_send_seq c)) conn_id r.

(** These are as in IPv4. *)
Definition rapport6_initiate_close : nat -> Z -> list conv -> list conv := rapport_initiate_close.
Definition rapport6_on_fin : Z -> nat -> list conv -> list conv := rapport_on_fin.
Definition rapport6_set_peer_window : nat -> Z -> list conv -> list conv := rapport_set_peer_window.
Definition rapport6_get_peer_window : nat -> list conv -> Z := rapport_get_peer_window.
Definition rapport6_initiate_connect : nat -> Z -> list conv -> list conv := rapport_initiate_connect.
Definition rapport6_on_syn_ack : nat -> Z -> Z -> list conv -> bool * list conv := rapport_on_syn_ack.
Definition rapport6_seq_expected : nat -> Z -> list conv -> bool := rapport_seq_expected.
Definition rapport6_get_expected_seq : nat -> list conv -> Z := rapport_get_expected_seq.
Definition rapport6_get_send_seq : nat -> list conv -> Z := rapport_get_send_seq.
Definition rapport6_advance_send_seq : nat -> Z -> list conv -> list conv := rapport_advance_send_seq.
Definition rapport6_get_our_isn : nat -> list conv -> Z := rapport_get_our_isn.
Definition rapport6_seq_is_stale_retransmit : nat -> Z -> Z -> list conv -> bool := rapport_seq_is_stale_retransmit.
Definition rapport6_advance_seq : nat -> Z -> list conv -> list conv := rapport_advance_seq.
Definition rapport6_get_state : nat -> list conv -> conversation_state := rapport_get_state.
Definition rapport6_send_allowed (conn_id : nat) (length : Z) (r : list conv) (s : scheduler6) : bool :=
  from_option (fun c => (scheduler6_bytes_in_flight conn_id s +32 length) <=? cv_peer_window c) false (r !! conn_id).

(** The state of the transport components. *)
Record tcp6 := mkTcp6 { t6_lockbox : lockbox; t6_inbox : list inbox_slot; t6_way : list way_row; t6_rapport : list conv; t6_sched : scheduler6 }.

Definition waystation6_init : list way_row := replicate LOCKBOX6_CAPACITY (mkWay (replicate WAYSTATION_MAX_PENDING (mkHeld 0 [] false)) 0).
Definition tcp6_init : tcp6 := mkTcp6 lockbox6_init inbox6_init waystation6_init rapport6_init scheduler6_init.

Definition set_t6_lockbox (x : lockbox) (t : tcp6) : tcp6 := mkTcp6 x (t6_inbox t) (t6_way t) (t6_rapport t) (t6_sched t).
Definition set_t6_inbox (x : lockbox) (ib : list inbox_slot) (t : tcp6) : tcp6 := mkTcp6 x ib (t6_way t) (t6_rapport t) (t6_sched t).
Definition set_t6_way (w : list way_row) (t : tcp6) : tcp6 := mkTcp6 (t6_lockbox t) (t6_inbox t) w (t6_rapport t) (t6_sched t).
Definition set_t6_rapport (r : list conv) (t : tcp6) : tcp6 := mkTcp6 (t6_lockbox t) (t6_inbox t) (t6_way t) r (t6_sched t).
Definition set_t6_sched (s : scheduler6) (t : tcp6) : tcp6 := mkTcp6 (t6_lockbox t) (t6_inbox t) (t6_way t) (t6_rapport t) s.

(** [status = CONV_CLOSED; scheduler6_cancel(...); lockbox6_release(...)] *)
Definition close6 (conn_id : nat) (t : tcp6) : tcp6 :=
  set_t6_lockbox (lockbox6_release conn_id (t6_lockbox t)) (set_t6_sched (scheduler6_cancel conn_id (t6_sched t)) (set_t6_rapport (alter (set_status CONV_CLOSED) conn_id (t6_rapport t)) t)).

(** Any acknowledgement completes the handshake. *)
Definition rapport6_on_ack (now : Z) (conn_id : nat) (ack_num : Z) (t : tcp6) : tcp6 :=
  match t6_rapport t !! conn_id with
  | None => t
  | Some c =>
      let put c' := set_t6_rapport (<[conn_id := c']> (t6_rapport t)) t in
      match cv_status c with
      | CONV_SYN_RECEIVED => put (set_status CONV_ESTABLISHED c)
      | CONV_FIN_WAIT_1 => if (cv_our_fin_seq c +32 1) <=? ack_num then put (set_status CONV_FIN_WAIT_2 c) else t
      | CONV_CLOSING => if (cv_our_fin_seq c +32 1) <=? ack_num then put (enter_time_wait now c) else t
      | CONV_LAST_ACK => if (cv_our_fin_seq c +32 1) <=? ack_num then close6 conn_id t else t
      | _ => t
      end
  end.

Definition rapport6_on_rst (conn_id : nat) (t : tcp6) : tcp6 :=
  match t6_rapport t !! conn_id with
  | None => t
  | Some c => if bool_decide (cv_status c = CONV_CLOSED) then t else close6 conn_id t
  end.

(** The body of [rapport6_tick] for slot [i]. *)
Definition rapport6_tick_slot (now : Z) (i : nat) (t : tcp6) : tcp6 :=
  match t6_rapport t !! i with
  | None => t
  | Some c =>
      if negb (bool_decide (cv_status c = CONV_TIME_WAIT)) then t
      else if (now -32 cv_time_wait_started c) <? CONV6_TIME_WAIT_TICKS then t
      else set_t6_lockbox (lockbox6_release i (t6_lockbox t)) (set_t6_rapport (<[i := set_status CONV_CLOSED c]> (t6_rapport t)) t)
  end.
Definition rapport6_tick (now : Z) (t : tcp6) : tcp6 := fold_left (fun t i => rapport6_tick_slot now i t) (seq 0 LOCKBOX6_CAPACITY) t.

Section SchedTick.
Context `{TxDriver D}.

(** The body of [scheduler6_tick] for slot [i]; giving up resets the connection. *)
Definition scheduler6_tick_slot (now : Z) (i : nat) (st : tcp6 * link6 D) : tcp6 * link6 D :=
  let '(t, l) := st in
  match s6_entries (t6_sched t) !! i with
  | None => st
  | Some e =>
      if negb (bool_decide (p6_state e = PACKET_STATE_RETRY)) then st
      else if (now -32 p6_start_timer e) <? p6_rto e then st
      else if SCHED6_RETRY_LIMIT <=? p6_retry_track e then
        let s := set_entry6 i (mkPacket6 (p6_seq e) (p6_start_timer e) (p6_retry_track e) PACKET_STATE_FAILURE (p6_frame e) (p6_srtt e) (p6_rttvar e) (p6_rto e)
                                 (p6_retransmitted e) (p6_last_ack_seen e) (p6_dup_ack_count e)) (t6_sched t) in
        (rapport6_on_rst i (set_t6_sched (mkSched6 (s6_entries s) (s6_retransmit_total s) (s6_giveup_total s +32 1)) t), l)
      else
        let '(_, (s, l)) := resend6 now e (t6_sched t, l) in
        let rto := if SCHED6_MAX_RTO <? p6_rto e *32 2 then SCHED6_MAX_RTO else p6_rto e *32 2 in
        (set_t6_sched (set_entry6 i (mkPacket6 (p6_seq e) now (p6_retry_track e +32 1) (p6_state e) (p6_frame e) (p6_srtt e) (p6_rttvar e) rto true
                                       (p6_last_ack_seen e) (p6_dup_ack_count e)) s) t, l)
  end.
Definition scheduler6_tick (now : Z) (st : tcp6 * link6 D) : tcp6 * link6 D := fold_left (fun st i => scheduler6_tick_slot now i st) (seq 0 LOCKBOX6_CAPACITY) st.
End SchedTick.

(** ** WayStation6 *)

Definition WAYSTATION6_MAX_SEGMENT : Z := 1440.
Definition WAYSTATION6_MAX_PENDING : nat := 4.

Definition waystation6_hold (conn_id : nat) (seq : Z) (payload : list Z) (x : lockbox) (ws : list way_row) : bool * list way_row :=
  match ws !! conn_id with
  | None => (false, ws)
  | Some w =>
      if (zlen payload =? 0) || (WAYSTATION6_MAX_SEGMENT <? zlen payload) then (false, ws) else
      let w := way_reset_if_stale (lockbox6_get_generation conn_id x) w in
      match find_idx (fun h => hs_in_use h && (hs_seq h =? seq)) (wr_slots w) with
      | Some _ => (true, <[conn_id := w]> ws)
      | None =>
          match find_idx (fun h => negb (hs_in_use h)) (wr_slots w) with
          | None => (false, <[conn_id := w]> ws)
          | Some i => (true, <[conn_id := mkWay (<[i := mkHeld seq payload true]> (wr_slots w)) (wr_seen_generation w)]> ws)
          end
      end
  end.

(** The loop is the one of IPv4, over these components. *)
Definition waystation6_drain (conn_id : nat) (t : tcp6) : option (nat * tcp6) :=
  match t6_way t !! conn_id with
  | None => Some (0%nat, t)
  | Some w =>
      let w := way_reset_if_stale (lockbox6_get_generation conn_id (t6_lockbox t)) w in
      '(row, x, ib, r, n) ← drain_loop (S WAYSTATION6_MAX_PENDING) conn_id (wr_slots w) (t6_lockbox t) (t6_inbox t) (t6_rapport t) 0;
      Some (n, mkTcp6 x ib (<[conn_id := mkWay row (wr_seen_generation w)]> (t6_way t)) r (t6_sched t))
  end.

Definition waystation6_receive_window (conn_id : nat) (t : tcp6) : Z * tcp6 :=
  match t6_way t !! conn_id with
  | None => (0, t)
  | Some w =>
      let w := way_reset_if_stale (lockbox6_get_generation conn_id (t6_lockbox t)) w in
      let '(avail, ib) := inbox6_available conn_id (t6_lockbox t) (t6_inbox t) in
      let t := set_t6_way (<[conn_id := w]> (t6_way t)) (set_t6_inbox (t6_lockbox t) ib t) in
      let free_space := LOCKBOX6_MAX_BUFFERED -32 Z.of_nat avail in
      let held := u32 (held_bytes (wr_slots w)) in
      if free_space <=? held then (0, t) else
      let window := free_space -32 held in
      (if 0xFFFF <? window then 0xFFFF else window, t)
  end.

Definition waystation6_pending_count (conn_id : nat) (t : tcp6) : nat * tcp6 :=
  match t6_way t !! conn_id with
  | None => (0%nat, t)
  | Some w =>
      let w := way_reset_if_stale (lockbox6_get_generation conn_id (t6_lockbox t)) w in
      (count_if hs_in_use (wr_slots w), set_t6_way (<[conn_id := w]> (t6_way t)) t)
  end.

(** ** SynCookie6 *)

Definition SYNCOOKIE6_LOAD_NUM : Z := 3.
Definition SYNCOOKIE6_LOAD_DEN : Z := 4.
Definition TIME_BUCKET6_SHIFT : Z := 5.

Record syncookie6 := mkCookie6 { c6_secret : Z; c6_secret_ready : bool; c6_lottery : lottery }.

Definition ensure_secret6 (now : Z) (s : syncookie6) : syncookie6 :=
  if c6_secret_ready s then s
  else let '(isn, l) := lottery_draw_isn now [10; 0; 2; 15] 12345 [1; 2; 3; 4] 54321 (c6_lottery s) in mkCookie6 (Z.lxor isn now) true l.

Definition fold_address (ip : ip6) (seed : Z) : Z := foldl (fun h b => Z.lxor h b *32 0x9E3779B1) seed ip.

Definition mix6 (secret a b c d : Z) : Z :=
  let h := Z.lxor secret a *32 0x9E3779B1 in
  let h := Z.lxor h b *32 0x85EBCA77 in
  let h := Z.lxor h c *32 0xC2B2AE3D in
  let h := Z.lxor h d *32 0x27D4EB2F in
  Z.lxor h (Z.shiftr h 15).

Definition compute6 (now : Z) (src_ip : ip6) (src_port : Z) (dst_ip : ip6) (dst_port time_bucket : Z) (s : syncookie6) : Z * syncookie6 :=
  let s := ensure_secret6 now s in
  (mix6 (c6_secret s) (fold_address src_ip 0x811C9DC5) (fold_address dst_ip 0x01000193) (Z.lor (Z.shiftl src_port 16) dst_port) time_bucket, s).

Definition syncookie6_should_activate (x : lockbox) : bool := Z.of_nat LOCKBOX6_CAPACITY * SYNCOOKIE6_LOAD_NUM <=? lockbox6_active_count x * SYNCOOKIE6_LOAD_DEN.

Definition syncookie6_generate (now : Z) (src_ip : ip6) (src_port : Z) (dst_ip : ip6) (dst_port : Z) (s : syncookie6) : Z * syncookie6 :=
  compute6 now src_ip src_port dst_ip dst_port (Z.shiftr now TIME_BUCKET6_SHIFT) s.

Definition syncookie6_validate (now : Z) (src_ip : ip6) (src_port : Z) (dst_ip : ip6) (dst_port ack_num : Z) (s : syncookie6) : bool * syncookie6 :=
  let bucket := Z.shiftr now TIME_BUCKET6_SHIFT in
  let expected_seq := ack_num -32 1 in
  let '(c, s) := compute6 now src_ip src_port dst_ip dst_port bucket s in
  if expected_seq =? c then (true, s) else
  if 0 <? bucket then
    let '(c, s) := compute6 now src_ip src_port dst_ip dst_port (bucket -32 1) s in (expected_seq =? c, s)
  else (false, s).

#[global] Arguments scheduler6_tick_slot : simpl never.
#[global] Arguments scheduler6_tick : simpl never.
#[global] Arguments rapport6_tick : simpl never.
#[global] Arguments waystation6_drain : simpl never.
#[global] Arguments waystation6_receive_window : simpl never.
