(* ===== verification/Net6.v ===== *)
(** * The state of the IPv6 stack, waiting frames and UDP

    The components that IPv6 packets pass through, as one record;
    [Networking/IPv6/Foyer6/foyer6.c], frames that wait for a neighbour's address;
    [Networking/IPv6/PostCard6/postcard6.c], UDP. *)

From stdpp Require Import list_numbers.
From S2P Require Import Prelude SlotTable GuestList Ids RateLimit Sentry Bailiff Rolodex Foyer LockBox Ring Inbox Why Scheduler Rapport Transport Checksum.
From S2P Require Import Fragment6 Atlas6 Guard6 Link6 Tcp6.
Import GuestList Menu Inbox Postbox.

#[local] Open Scope Z_scope.

(** ** Foyer6 *)

Definition FOYER6_CAPACITY : nat := 16.
Definition FOYER6_MAX_FRAME : Z := BAILIFF_MAX_FRAME.
Definition FOYER6_MAX_RETRIES : Z := 5.
Definition FOYER6_RETRY_INTERVAL_TICK : Z := 100.

(** [f6_frame] is the first [len] bytes of the stored frame. *)
Record foyer6_entry := mkFoyer6E { f6_target_ip : ip6; f6_frame : list Z; f6_in_use : bool; f6_last_attempt : Z; f6_retry_count : Z }.
#[export] Instance foyer6_slot : Slot foyer6_entry ip6 := {| used := f6_in_use; key := f6_target_ip |}.

Record foyer6 := mkFoyer6 { f6_slots : list foyer6_entry; f6_flushed_total : Z; f6_dropped_total : Z }.
Definition foyer6_init : foyer6 := mkFoyer6 (replicate FOYER6_CAPACITY (mkFoyer6E ip6_zero [] false 0 0)) 0 0.

Definition foyer6_put (i : nat) (e : foyer6_entry) (f : foyer6) : foyer6 := mkFoyer6 (<[i := e]> (f6_slots f)) (f6_flushed_total f) (f6_dropped_total f).
Definition foyer6_flush (f : foyer6) : foyer6 := mkFoyer6 (f6_slots f) (f6_flushed_total f +32 1) (f6_dropped_total f).
Definition foyer6_drop (f : foyer6) : foyer6 := mkFoyer6 (f6_slots f) (f6_flushed_total f) (f6_dropped_total f +32 1).

(** [memcpy(frame, mac, 6)] in a buffer of which [length frame] bytes are sent. *)
Definition readdress (mac frame : list Z) : list Z := take (length frame) (mac ++ drop 6 frame).

(** ** All components *)

Record net6 (D : Type) := mkNet6 {
  m_link : link6 D;
  m_foyer : foyer6;
  m_guard : guard;
  m_tcp : tcp6;
  m_menu : list menu_entry;
  m_atlas : atlas6;
  m_cookie : syncookie6;
  m_postbox : list postbox_slot;
  m_echo : echo6;
  m_frag : frag6;
  m_mac : list Z;
  m_last_frame : list Z;
  m_ip_counts : Z * Z;
  m_tcp_counts : Z * Z;
  m_udp_counts : Z * Z }.
Arguments mkNet6 {D} _ _ _ _ _ _ _ _ _ _ _ _ _ _ _.
Arguments m_link {D} _.
Arguments m_foyer {D} _.
Arguments m_guard {D} _.
Arguments m_tcp {D} _.
Arguments m_menu {D} _.
Arguments m_atlas {D} _.
Arguments m_cookie {D} _.
Arguments m_postbox {D} _.
Arguments m_echo {D} _.
Arguments m_frag {D} _.
Arguments m_mac {D} _.
Arguments m_last_frame {D} _.
Arguments m_ip_counts {D} _.
Arguments m_tcp_counts {D} _.
Arguments m_udp_counts {D} _.

Section Setters.
Context {D : Type}.
Implicit Types (n : net6 D).
Definition set_m_link (x : link6 D) n : net6 D :=
  mkNet6 x (m_foyer n) (m_guard n) (m_tcp n) (m_menu n) (m_atlas n) (m_cookie n) (m_postbox n) (m_echo n) (m_frag n) (m_mac n) (m_last_frame n) (m_ip_counts n) (m_tcp_counts n) (m_udp_counts n).
Definition set_m_foyer (x : foyer6) n : net6 D :=
  mkNet6 (m_link n) x (m_guard n) (m_tcp n) (m_menu n) (m_atlas n) (m_cookie n) (m_postbox n) (m_echo n) (m_frag n) (m_mac n) (m_last_frame n) (m_ip_counts n) (m_tcp_counts n) (m_udp_counts n).
Definition set_m_guard (x : guard) n : net6 D :=
  mkNet6 (m_link n) (m_foyer n) x (m_tcp n) (m_menu n) (m_atlas n) (m_cookie n) (m_postbox n) (m_echo n) (m_frag n) (m_mac n) (m_last_frame n) (m_ip_counts n) (m_tcp_counts n) (m_udp_counts n).
Definition set_m_tcp (x : tcp6) n : net6 D :=
  mkNet6 (m_link n) (m_foyer n) (m_guard n) x (m_menu n) (m_atlas n) (m_cookie n) (m_postbox n) (m_echo n) (m_frag n) (m_mac n) (m_last_frame n) (m_ip_counts n) (m_tcp_counts n) (m_udp_counts n).
Definition set_m_menu (x : list menu_entry) n : net6 D :=
  mkNet6 (m_link n) (m_foyer n) (m_guard n) (m_tcp n) x (m_atlas n) (m_cookie n) (m_postbox n) (m_echo n) (m_frag n) (m_mac n) (m_last_frame n) (m_ip_counts n) (m_tcp_counts n) (m_udp_counts n).
Definition set_m_atlas (x : atlas6) n : net6 D :=
  mkNet6 (m_link n) (m_foyer n) (m_guard n) (m_tcp n) (m_menu n) x (m_cookie n) (m_postbox n) (m_echo n) (m_frag n) (m_mac n) (m_last_frame n) (m_ip_counts n) (m_tcp_counts n) (m_udp_counts n).
Definition set_m_cookie (x : syncookie6) n : net6 D :=
  mkNet6 (m_link n) (m_foyer n) (m_guard n) (m_tcp n) (m_menu n) (m_atlas n) x (m_postbox n) (m_echo n) (m_frag n) (m_mac n) (m_last_frame n) (m_ip_counts n) (m_tcp_counts n) (m_udp_counts n).
Definition set_m_postbox (x : list postbox_slot) n : net6 D :=
  mkNet6 (m_link n) (m_foyer n) (m_guard n) (m_tcp n) (m_menu n) (m_atlas n) (m_cookie n) x (m_echo n) (m_frag n) (m_mac n) (m_last_frame n) (m_ip_counts n) (m_tcp_counts n) (m_udp_counts n).
Definition set_m_echo (x : echo6) n : net6 D :=
  mkNet6 (m_link n) (m_foyer n) (m_guard n) (m_tcp n) (m_menu n) (m_atlas n) (m_cookie n) (m_postbox n) x (m_frag n) (m_mac n) (m_last_frame n) (m_ip_counts n) (m_tcp_counts n) (m_udp_counts n).
Definition set_m_frag (x : frag6) n : net6 D :=
  mkNet6 (m_link n) (m_foyer n) (m_guard n) (m_tcp n) (m_menu n) (m_atlas n) (m_cookie n) (m_postbox n) (m_echo n) x (m_mac n) (m_last_frame n) (m_ip_counts n) (m_tcp_counts n) (m_udp_counts n).
Definition set_m_last_frame (x : list Z) n : net6 D :=
  mkNet6 (m_link n) (m_foyer n) (m_guard n) (m_tcp n) (m_menu n) (m_atlas n) (m_cookie n) (m_postbox n) (m_echo n) (m_frag n) (m_mac n) x (m_ip_counts n) (m_tcp_counts n) (m_udp_counts n).
Definition set_m_ip_counts (x : Z * Z) n : net6 D :=
  mkNet6 (m_link n) (m_foyer n) (m_guard n) (m_tcp n) (m_menu n) (m_atlas n) (m_cookie n) (m_postbox n) (m_echo n) (m_frag n) (m_mac n) (m_last_frame n) x (m_tcp_counts n) (m_udp_counts n).
Definition set_m_tcp_counts (x : Z * Z) n : net6 D :=
  mkNet6 (m_link n) (m_foyer n) (m_guard n) (m_tcp n) (m_menu n) (m_atlas n) (m_cookie n) (m_postbox n) (m_echo n) (m_frag n) (m_mac n) (m_last_frame n) (m_ip_counts n) x (m_udp_counts n).
Definition set_m_udp_counts (x : Z * Z) n : net6 D :=
  mkNet6 (m_link n) (m_foyer n) (m_guard n) (m_tcp n) (m_menu n) (m_atlas n) (m_cookie n) (m_postbox n) (m_echo n) (m_frag n) (m_mac n) (m_last_frame n) (m_ip_counts n) (m_tcp_counts n) x.
End Setters.

Definition count6_accept (c : Z * Z) : Z * Z := (fst c +32 1, snd c).
Definition count6_reject (c : Z * Z) : Z * Z := (fst c, snd c +32 1).

Section Ops.
Context `{TxDriver D}.
Implicit Types (n : net6 D).

(** [send_neighbor_solicitation] ignores whether the message was sent. *)
Definition send_neighbor_solicitation (now : Z) (our_mac : list Z) (our_ip target_ip : ip6) n : option (net6 D) :=
  '(_, l) ← echo6_dispatch_neighbor_solicitation now target_ip our_mac our_ip (m_link n);
  Some (set_m_link l n).

(** The result of the code, and [None] for a read outside the address. *)
Definition foyer6_queue (now : Z) (target_ip : ip6) (our_mac : list Z) (our_ip : ip6) (frame : list Z) n : option (bool * net6 D) :=
  if (zlen frame =? 0) || (FOYER6_MAX_FRAME <? zlen frame) then Some (false, n)
  else match rolodex6_lookup target_ip (l6_rolodex (m_link n)) with
  | Some mac =>
      let '(ok, l) := send6 now (readdress mac frame) (m_link n) in
      Some (true, set_m_foyer (if ok : bool then foyer6_flush (m_foyer n) else m_foyer n) (set_m_link l n))
  | None =>
      let f := m_foyer n in
      let requested_already := find_key target_ip (f6_slots f) in
      match find_free (f6_slots f) with
      | None => Some (false, set_m_foyer (foyer6_drop f) n)
      | Some i =>
          let n := set_m_foyer (foyer6_put i (mkFoyer6E target_ip frame true now 0) f) n in
          match requested_already with
          | Some _ => Some (true, n)
          | None => n ← send_neighbor_solicitation now our_mac our_ip target_ip n; Some (true, n)
          end
      end
  end.

(** The body of the loop of [foyer6_tick] for slot [i]. *)
Definition foyer6_tick_slot (now : Z) (our_mac : list Z) (our_ip : ip6) (i : nat) n : option (net6 D) :=
  match f6_slots (m_foyer n) !! i with
  | None => Some n
  | Some e =>
      let with_entry fr u t r f := foyer6_put i (mkFoyer6E (f6_target_ip e) fr u t r) f in
      if negb (f6_in_use e) then Some n
      else match rolodex6_lookup (f6_target_ip e) (l6_rolodex (m_link n)) with
      | Some mac =>
          let frame := readdress mac (f6_frame e) in
          let '(ok, l) := send6 now frame (m_link n) in
          let f := if ok : bool then foyer6_flush (m_foyer n) else m_foyer n in
          Some (set_m_foyer (with_entry frame false (f6_last_attempt e) (f6_retry_count e) f) (set_m_link l n))
      | None =>
          if (now -32 f6_last_attempt e) <? FOYER6_RETRY_INTERVAL_TICK then Some n
          else if FOYER6_MAX_RETRIES <=? f6_retry_count e then
            Some (set_m_foyer (with_entry (f6_frame e) false (f6_last_attempt e) (f6_retry_count e) (foyer6_drop (m_foyer n))) n)
          else
            n ← send_neighbor_solicitation now our_mac our_ip (f6_target_ip e) n;
            Some (set_m_foyer (with_entry (f6_frame e) true now (f6_retry_count e +32 1) (m_foyer n)) n)
      end
  end.
Fixpoint foyer6_loop (now : Z) (our_mac : list Z) (our_ip : ip6) (todo : list nat) n : option (net6 D) :=
  match todo with
  | [] => Some n
  | i :: todo' => n ← foyer6_tick_slot now our_mac our_ip i n; foyer6_loop now our_mac our_ip todo' n
  end.
Definition foyer6_tick (now : Z) (our_mac : list Z) (our_ip : ip6) n : option (net6 D) := foyer6_loop now our_mac our_ip (seq 0 FOYER6_CAPACITY) n.
Definition foyer6_flushed_count n : Z := f6_flushed_total (m_foyer n).
Definition foyer6_dropped_count n : Z := f6_dropped_total (m_foyer n).
End Ops.

(** ** PostCard6 *)

Definition UDP6_HEADER_LEN : Z := 8.
Definition POSTCARD6_MAX_PAYLOAD : Z := 1432.

Inductive udp6_verdict := UDP6_ACCEPT | UDP6_REJECT_TOO_SHORT | UDP6_REJECT_LENGTH_MISMATCH | UDP6_REJECT_BAD_CHECKSUM.
#[export] Instance udp6_verdict_eq : EqDecision udp6_verdict.
Proof. solve_decision. Defined.

Definition udp6_checksum (src dst : ip6) (udp : list Z) : Z := complement (fold_carry (sum_words (pseudo6_sum src dst 17 (zlen udp)) udp)).

Definition postcard6_check (payload : list Z) (src dst : ip6) : option udp6_verdict :=
  if zlen payload <? UDP6_HEADER_LEN then Some UDP6_REJECT_TOO_SHORT
  else
    b4 ← rd payload 4; b5 ← rd payload 5;
    let declared_len := be16 b4 b5 in
    if (declared_len <? UDP6_HEADER_LEN) || (zlen payload <? declared_len) then Some UDP6_REJECT_LENGTH_MISMATCH
    else
      b6 ← rd payload 6; b7 ← rd payload 7;
      if be16 b6 b7 =? 0 then Some UDP6_REJECT_BAD_CHECKSUM
      else
        udp ← slice payload 0 (Z.to_nat declared_len);
        if negb (udp6_checksum src dst udp =? 0) then Some UDP6_REJECT_BAD_CHECKSUM else Some UDP6_ACCEPT.

(** A datagram with its checksum field filled in; zero is sent as 0xFFFF. *)
Definition udp6_with (csum src_port dest_port : Z) (data : list Z) : list Z :=
  put16 src_port ++ put16 dest_port ++ put16 (u16 (UDP6_HEADER_LEN + zlen data)) ++ put16 csum ++ data.
Definition udp6_datagram (src_port dest_port : Z) (our_ip dest_ip : ip6) (data : list Z) : list Z :=
  let csum := udp6_checksum our_ip dest_ip (udp6_with 0 src_port dest_port data) in
  udp6_with (if csum =? 0 then 0xFFFF else csum) src_port dest_port data.

Section Udp.
Context `{TxDriver D}.
Implicit Types (n : net6 D).

(** The declared length, header included, is what the queue is told to copy. *)
Definition postcard6_handle (now : Z) (payload : list Z) (src dst : ip6) n : option (net6 D) :=
  v ← postcard6_check payload src dst;
  if negb (bool_decide (v = UDP6_ACCEPT)) then Some (set_m_udp_counts (count6_reject (m_udp_counts n)) n)
  else
    let n := set_m_udp_counts (count6_accept (m_udp_counts n)) n in
    b0 ← rd payload 0; b1 ← rd payload 1; b2 ← rd payload 2; b3 ← rd payload 3;
    let src_port := be16 b0 b1 in
    let dst_port := be16 b2 b3 in
    if negb (menu_is_open dst_port 17 (m_menu n)) then Some n
    else
      let slot := lockbox6_find_listener dst_port 17 (t6_lockbox (m_tcp n)) in
      if (slot =? LOCKBOX6_CAPACITY)%nat then
        Some (set_m_link (snd (echo6_dispatch_dest_unreachable now 4 (m_mac n) dst src 17 payload (m_link n))) n)
      else
        b4 ← rd payload 4; b5 ← rd payload 5;
        let udp_payload_len := be16 b4 b5 in
        '(_, pb) ← postbox6_deposit slot src src_port (drop 8 payload) udp_payload_len (m_postbox n);
        Some (set_m_postbox pb n).

(** The Ethernet address of a multicast destination. *)
Definition multicast_mac (dest_ip : ip6) : option (list Z) :=
  a ← rd dest_ip 12; b ← rd dest_ip 13; c ← rd dest_ip 14; d ← rd dest_ip 15; Some [0x33; 0x33; a; b; c; d].

Definition postcard6_dispatch (now : Z) (dest_ip : ip6) (dest_port src_port : Z) (our_mac : list Z) (our_ip : ip6) (data : list Z) n
    : option (bool * net6 D) :=
  if POSTCARD6_MAX_PAYLOAD <? zlen data then Some (false, n)
  else
    b0 ← rd dest_ip 0;
    dest_mac ← (if b0 =? 0xFF then mac ← multicast_mac dest_ip; Some (Some mac) else Some (rolodex6_lookup dest_ip (l6_rolodex (m_link n))));
    match dest_mac with
    | None => Some (false, n)
    | Some dest_mac =>
        let udp := udp6_datagram src_port dest_port our_ip dest_ip data in
        let udp_len := u16 (UDP6_HEADER_LEN + zlen data) in
        let '(ok, l) := send6 now (eth6 dest_mac our_mac ++ ip6_header udp_len 17 64 our_ip dest_ip ++ udp) (m_link n) in
        Some (ok, set_m_link l n)
    end.
Definition postcard6_accepted_count n : Z := fst (m_udp_counts n).
Definition postcard6_rejected_count n : Z := snd (m_udp_counts n).
End Udp.

#[global] Arguments foyer6_tick : simpl never.
