(* ===== verification/Conversation6.v ===== *)
(** * Conversation6, TCP segments over IPv6

    [Networking/IPv6/Conversation6/conversation6.c]: checks incoming segments, drives
    Rapport6, Scheduler6, WayStation6 and Inbox6 with them, and builds and sends
    segments.  The header of a segment is the one of IPv4 ([tcp_with]); only the
    pseudo-header of the checksum differs. *)

From stdpp Require Import list_numbers.
From S2P Require Import Prelude SlotTable GuestList Ids RateLimit Sentry Bailiff Rolodex Foyer LockBox Ring Inbox Why Scheduler Rapport Transport Checksum.
From S2P Require Import Compass Conversation.
From S2P Require Import Fragment6 Atlas6 Guard6 Link6 Echo6 Tcp6 Net6.
Import GuestList Menu Inbox Postbox Lottery.

#[local] Open Scope Z_scope.

Definition TCP6_MAX_PAYLOAD : Z := 1440.
Definition TCP6_MIN_HEADER : Z := 20.

Definition tcp6_sum (tcp : list Z) (src dst : ip6) : Z := fold_carry (sum_words (pseudo6_sum src dst 6 (zlen tcp)) tcp).
Definition tcp6_checksum_ok (tcp : list Z) (src dst : ip6) : bool := tcp6_sum tcp src dst =? 0xFFFF.
Definition compute_tcp6_checksum (tcp : list Z) (src dst : ip6) : Z := complement (tcp6_sum tcp src dst).

(** Bytes 12 .. 15 of an address as a number. *)
Definition tail32 (ip : ip6) : option Z := a ← rd ip 12; b ← rd ip 13; c ← rd ip 14; d ← rd ip 15; Some (be32 a b c d).
Definition draw_isn6 (now : Z) (local_ip : ip6) (local_port : Z) (remote_ip : ip6) (remote_port : Z) : option Z :=
  l ← tail32 local_ip; r ← tail32 remote_ip;
  let mix := Z.lxor (Z.lxor (Z.lxor (now *32 2654435761) l) r) (Z.lor (Z.shiftl local_port 16) remote_port) in
  Some (mix *32 2246822519 +32 3266489917).

(** [None] is a read outside the segment. *)
Definition conversation6_check (payload : list Z) (src dst : ip6) : option tcp_verdict :=
  if zlen payload <? TCP6_MIN_HEADER then Some TCP_REJECT_TOO_SHORT
  else
    b12 ← rd payload 12;
    let data_offset := Z.land (Z.shiftr b12 4) 0x0F in
    let header_len := u16 (data_offset * 4) in
    if (data_offset <? 5) || (zlen payload <? header_len) then Some TCP_REJECT_BAD_HEADER_LENGTH
    else
      flags ← rd payload 13;
      if negb (flag_make_sense flags) then Some TCP_REJECT_NONSENSE_FLAGS
      else if negb (tcp6_checksum_ok payload src dst) then Some TCP_REJECT_BAD_CHECKSUM
      else Some TCP_ACCEPT.

Definition tcp6_segment (our_ip remote_ip : ip6) (local_port remote_port seq ack flags window : Z) (data : list Z) : list Z :=
  tcp_with (compute_tcp6_checksum (tcp_with 0 local_port remote_port seq ack flags window data) our_ip remote_ip)
    local_port remote_port seq ack flags window data.
Definition tcp6_frame (dest_mac our_mac : list Z) (our_ip remote_ip : ip6) (segment : list Z) : list Z :=
  eth6 dest_mac our_mac ++ ip6_header (u16 (zlen segment)) 6 64 our_ip remote_ip ++ segment.

Section Send.
Context `{TxDriver D}.
Implicit Types (n : net6 D).

Definition send_cookie_syn_ack6 (now : Z) (peer_ip : ip6) (peer_port : Z) (our_ip : ip6) (our_port cookie_isn peer_isn : Z) (our_mac : list Z) n : net6 D :=
  match rolodex6_lookup peer_ip (l6_rolodex (m_link n)) with
  | None => n
  | Some dest_mac =>
      let tcp := tcp6_segment our_ip peer_ip our_port peer_port cookie_isn (peer_isn +32 1) (Z.lor FLAG_SYN FLAG_ACK) LOCKBOX6_MAX_BUFFERED [] in
      set_m_link (snd (send6 now (tcp6_frame dest_mac our_mac our_ip peer_ip tcp) (m_link n))) n
  end.

(** [Some id]: returned 1 with [*out_pass_id = id].  The frame built stays in
    [last_dispatched_frame]. *)
Definition conversation6_dispatch (now : Z) (conn_id : nat) (flags seq ack : Z) (payload our_mac : list Z) (our_ip : ip6) n : option Z * net6 D :=
  if TCP6_MAX_PAYLOAD <? zlen payload then (None, n)
  else if negb (flag_make_sense flags) then (None, n)
  else match lockbox6_get_tuple conn_id (t6_lockbox (m_tcp n)) with
  | None => (None, n)
  | Some (local_port, remote_ip, remote_port) =>
      match rolodex6_lookup remote_ip (l6_rolodex (m_link n)) with
      | None => (None, n)
      | Some dest_mac =>
          let '(recv_window, t) := waystation6_receive_window conn_id (m_tcp n) in
          let tcp := tcp6_segment our_ip remote_ip local_port remote_port seq ack flags recv_window payload in
          let frame := tcp6_frame dest_mac our_mac our_ip remote_ip tcp in
          let '(id, l) := request6 now frame (m_link n) in
          (id, set_m_last_frame frame (set_m_link l (set_m_tcp t n)))
      end
  end.

(** [scheduler6_track(conn_id, seq, last_dispatched_frame, last_dispatched_len)] *)
Definition track6_last (now : Z) (conn_id : nat) (seq : Z) n : net6 D :=
  set_m_tcp (set_t6_sched (snd (scheduler6_track now conn_id seq (m_last_frame n) (t6_sched (m_tcp n)))) (m_tcp n)) n.
Definition on_rapport6 (f : list conv -> list conv) n : net6 D := set_m_tcp (set_t6_rapport (f (t6_rapport (m_tcp n))) (m_tcp n)) n.

Definition conversation6_dispatch_syn_ack (now : Z) (conn_id : nat) (our_mac : list Z) (our_ip : ip6) n : option Z * net6 D :=
  let our_isn := rapport6_get_our_isn conn_id (t6_rapport (m_tcp n)) in
  let ack := rapport6_get_expected_seq conn_id (t6_rapport (m_tcp n)) in
  match conversation6_dispatch now conn_id (Z.lor FLAG_SYN FLAG_ACK) our_isn ack [] our_mac our_ip n with
  | (None, n) => (None, n)
  | (Some id, n) => (Some id, track6_last now conn_id our_isn n)
  end.

Definition conversation6_dispatch_data (now : Z) (conn_id : nat) (data our_mac : list Z) (our_ip : ip6) n : option Z * net6 D :=
  if (zlen data =? 0) || (TCP6_MAX_PAYLOAD <? zlen data) then (None, n)
  else if negb (bool_decide (rapport6_get_state conn_id (t6_rapport (m_tcp n)) = CONV_ESTABLISHED)) then (None, n)
  else if 0 <? scheduler6_bytes_in_flight conn_id (t6_sched (m_tcp n)) then (None, n)
  else if negb (rapport6_send_allowed conn_id (zlen data) (t6_rapport (m_tcp n)) (t6_sched (m_tcp n))) then (None, n)
  else
    let seq := rapport6_get_send_seq conn_id (t6_rapport (m_tcp n)) in
    let ack := rapport6_get_expected_seq conn_id (t6_rapport (m_tcp n)) in
    match conversation6_dispatch now conn_id FLAG_ACK seq ack data our_mac our_ip n with
    | (None, n) => (None, n)
    | (Some id, n) => (Some id, on_rapport6 (rapport6_advance_send_seq conn_id (zlen data)) (track6_last now conn_id seq n))
    end.

Definition conversation6_dispatch_syn (now : Z) (conn_id : nat) (our_isn : Z) (our_mac : list Z) (our_ip : ip6) n : option Z * net6 D :=
  match conversation6_dispatch now conn_id FLAG_SYN our_isn 0 [] our_mac our_ip n with
  | (None, n) => (None, n)
  | (Some id, n) => (Some id, track6_last now conn_id our_isn n)
  end.

Definition conversation6_last_frame n : list Z := m_last_frame n.

Definition conversation6_dispatch_fin (now : Z) (conn_id : nat) (our_mac : list Z) (our_ip : ip6) n : option Z * net6 D :=
  let state := rapport6_get_state conn_id (t6_rapport (m_tcp n)) in
  if negb (bool_decide (state = CONV_ESTABLISHED)) && negb (bool_decide (state = CONV_CLOSE_WAIT)) then (None, n)
  else if 0 <? scheduler6_bytes_in_flight conn_id (t6_sched (m_tcp n)) then (None, n)
  else
    let seq := rapport6_get_send_seq conn_id (t6_rapport (m_tcp n)) in
    let ack := rapport6_get_expected_seq conn_id (t6_rapport (m_tcp n)) in
    match conversation6_dispatch now conn_id (Z.lor FLAG_FIN FLAG_ACK) seq ack [] our_mac our_ip n with
    | (None, n) => (None, n)
    | (Some id, n) =>
        (Some id, on_rapport6 (rapport6_initiate_close conn_id seq) (on_rapport6 (rapport6_advance_send_seq conn_id 1) (track6_last now conn_id seq n)))
    end.

Definition conversation6_dispatch_ack (now : Z) (conn_id : nat) (our_mac : list Z) (our_ip : ip6) n : option Z * net6 D :=
  let our_isn := rapport6_get_our_isn conn_id (t6_rapport (m_tcp n)) in
  let ack := rapport6_get_expected_seq conn_id (t6_rapport (m_tcp n)) in
  conversation6_dispatch now conn_id FLAG_ACK our_isn ack [] our_mac our_ip n.

(** [bailiff_present_pass(pass_id, conversation6_last_frame(), conversation6_last_len())] *)
Definition present6_last (now : Z) (pass_id : Z) n : bool * net6 D :=
  let '(ok, l) := present6 now pass_id (m_last_frame n) (m_link n) in (ok, set_m_link l n).

(** ** Incoming segments *)

(** The branch for a SYN; what the port-scan detector answers is not used. *)
Definition handle_syn6 (now : Z) (src : ip6) (src_port : Z) (dst : ip6) (dst_port seq : Z) n : option (net6 D) :=
  let our_mac := m_mac n in
  '(_, g) ← sentry6_observe now src dst_port (m_guard n);
  let n := set_m_guard g n in
  if syncookie6_should_activate (t6_lockbox (m_tcp n)) then
    let '(cookie_isn, c) := syncookie6_generate now src src_port dst dst_port (m_cookie n) in
    Some (send_cookie_syn_ack6 now src src_port dst dst_port cookie_isn seq our_mac (set_m_cookie c n))
  else
    let '(_, out, x) := lockbox6_claim dst_port src src_port 6 (t6_lockbox (m_tcp n)) in
    let n := set_m_tcp (set_t6_lockbox x (m_tcp n)) n in
    match out with
    | None => Some n
    | Some conn_id =>
        our_isn ← draw_isn6 now dst dst_port src src_port;
        let n := on_rapport6 (rapport6_on_syn conn_id seq our_isn) n in
        match conversation6_dispatch_syn_ack now conn_id our_mac dst n with
        | (Some id, n) => Some (snd (present6_last now id n))
        | (None, n) => Some n
        end
    end.

Definition net6_sched_ack (now : Z) (conn_id : nat) (ack : Z) n : net6 D :=
  let '(s, l) := scheduler6_ack now conn_id ack (t6_sched (m_tcp n), m_link n) in
  set_m_link l (set_m_tcp (set_t6_sched s (m_tcp n)) n).

(** A segment out of sequence: an old copy, an early one to hold, or nothing. *)
Definition handle_unexpected6 (conn_id : nat) (seq : Z) (data : list Z) n : net6 D :=
  if rapport6_seq_is_stale_retransmit conn_id seq (zlen data) (t6_rapport (m_tcp n)) then n
  else if 0 <? zlen data then
    set_m_tcp (set_t6_way (snd (waystation6_hold conn_id seq data (t6_lockbox (m_tcp n)) (t6_way (m_tcp n)))) (m_tcp n)) n
  else n.

(** [if (data_len > 0 && inbox6_deposit(...)) { rapport6_advance_seq(...); waystation6_drain(...); }] *)
Definition deposit_data6 (conn_id : nat) (data : list Z) n : option (net6 D) :=
  if 0 <? zlen data then
    let '(ok, x, ib) := inbox6_deposit conn_id data (t6_lockbox (m_tcp n)) (t6_inbox (m_tcp n)) in
    let t := set_t6_inbox x ib (m_tcp n) in
    if ok : bool then
      '(_, t) ← waystation6_drain conn_id (set_t6_rapport (rapport6_advance_seq conn_id (zlen data) (t6_rapport t)) t);
      Some (set_m_tcp t n)
    else Some (set_m_tcp t n)
  else Some n.

(** A segment of a known connection, from the peer-window update on. *)
Definition handle_known6 (now : Z) (conn_id : nat) (payload : list Z) (seq flags : Z) n : option (net6 D) :=
  b12 ← rd payload 12;
  let header_len := u16 (Z.land (Z.shiftr b12 4) 0x0F * 4) in
  b14 ← rd payload 14; b15 ← rd payload 15;
  data ← slice payload (Z.to_nat header_len) (Z.to_nat (u16 (zlen payload - header_len)));
  let n := on_rapport6 (rapport6_set_peer_window conn_id (be16 b14 b15)) n in
  if negb (rapport6_seq_expected conn_id seq (t6_rapport (m_tcp n))) then Some (handle_unexpected6 conn_id seq data n)
  else if has_flag FLAG_RST flags then Some (set_m_tcp (rapport6_on_rst conn_id (m_tcp n)) n)
  else if has_flag FLAG_FIN flags then Some (on_rapport6 (rapport6_on_fin now conn_id) n)
  else
    ack_num ← rd32 payload 8;
    let n := if has_flag FLAG_ACK flags then net6_sched_ack now conn_id ack_num (set_m_tcp (rapport6_on_ack now conn_id ack_num (m_tcp n)) n) else n in
    deposit_data6 conn_id data n.

(** A segment that answers our own SYN. *)
Definition handle_syn_sent6 (conn_id : nat) (payload : list Z) (seq flags : Z) n : option (net6 D) :=
  if has_flag FLAG_RST flags then Some (set_m_tcp (rapport6_on_rst conn_id (m_tcp n)) n)
  else if has_flag FLAG_SYN flags && has_flag FLAG_ACK flags then
    ack_num ← rd32 payload 8;
    Some (on_rapport6 (fun r => snd (rapport6_on_syn_ack conn_id seq ack_num r)) n)
  else Some n.

(** A segment of no known connection may complete a cookie handshake. *)
Definition handle_unknown6 (now : Z) (payload : list Z) (src : ip6) (src_port : Z) (dst : ip6) (dst_port seq flags : Z) n : option (net6 D) :=
  if negb (has_flag FLAG_ACK flags && negb (has_flag FLAG_SYN flags)) then Some n
  else
    ack_num ← rd32 payload 8;
    let '(valid, c) := syncookie6_validate now src src_port dst dst_port ack_num (m_cookie n) in
    let n := set_m_cookie c n in
    if negb valid then Some n
    else
      let '(_, out, x) := lockbox6_claim dst_port src src_port 6 (t6_lockbox (m_tcp n)) in
      let n := set_m_tcp (set_t6_lockbox x (m_tcp n)) n in
      match out with
      | None => Some n
      | Some conn_id =>
          let n := on_rapport6 (rapport6_on_syn conn_id (seq -32 1) (ack_num -32 1)) n in
          handle_known6 now conn_id payload seq flags (set_m_tcp (rapport6_on_ack now conn_id ack_num (m_tcp n)) n)
      end.

Definition conversation6_handle (now : Z) (payload : list Z) (src dst : ip6) n : option (net6 D) :=
  v ← conversation6_check payload src dst;
  if negb (bool_decide (v = TCP_ACCEPT)) then Some (set_m_tcp_counts (count6_reject (m_tcp_counts n)) n)
  else
    let n := set_m_tcp_counts (count6_accept (m_tcp_counts n)) n in
    b0 ← rd payload 0; b1 ← rd payload 1; b2 ← rd payload 2; b3 ← rd payload 3;
    let src_port := be16 b0 b1 in
    let dst_port := be16 b2 b3 in
    flags ← rd payload 13;
    if negb (menu_is_open dst_port 6 (m_menu n)) then Some n
    else
      let x := t6_lockbox (m_tcp n) in
      if (lockbox6_find_listener dst_port 6 x =? LOCKBOX6_CAPACITY)%nat then Some n
      else
        seq ← rd32 payload 4;
        let existing_conn := lockbox6_find_connection dst_port src src_port 6 x in
        if negb (existing_conn =? LOCKBOX6_CAPACITY)%nat && bool_decide (rapport6_get_state existing_conn (t6_rapport (m_tcp n)) = CONV_SYN_SENT)
        then handle_syn_sent6 existing_conn payload seq flags n
        else if has_flag FLAG_SYN flags then handle_syn6 now src src_port dst dst_port seq n
        else if (existing_conn =? LOCKBOX6_CAPACITY)%nat then handle_unknown6 now payload src src_port dst dst_port seq flags n
        else handle_known6 now existing_conn payload seq flags n.

Definition tcp6_accepted_count n : Z := fst (m_tcp_counts n).
Definition tcp6_rejected_count n : Z := snd (m_tcp_counts n).
End Send.

#[global] Arguments conversation6_dispatch : simpl never.
#[global] Arguments conversation6_check : simpl never.
#[global] Arguments tcp6_segment : simpl never.
