(* ===== verification/Compass6.v ===== *)
(** * Compass6, the IPv6 input path

    [Networking/IPv6/Compass6/compass6.c]: checks the header of a packet, screens its
    source, walks the extension headers, hands fragments to Fragment6 and calls the
    handler of the protocol. *)

From stdpp Require Import list_numbers.
From S2P Require Import Prelude SlotTable GuestList Ids RateLimit Sentry Bailiff Rolodex Foyer LockBox Ring Inbox Why Scheduler Rapport Transport Checksum.
From S2P Require Import Compass Conversation.
From S2P Require Import Fragment6 Atlas6 Guard6 Link6 Echo6 Tcp6 Net6 Conversation6.
Import GuestList Menu Ids Curfew Inbox Postbox.

#[local] Open Scope Z_scope.

Definition MIN_IP6_HEADER : Z := 40.
Definition NEXT_HEADER_HOP_BY_HOP : Z := 0.
Definition NEXT_HEADER_ROUTING : Z := 43.
Definition NEXT_HEADER_FRAGMENT : Z := 44.
Definition NEXT_HEADER_ESP : Z := 50.
Definition NEXT_HEADER_AH : Z := 51.
Definition NEXT_HEADER_DEST_OPTS : Z := 60.
Definition MAX_EXT_HEADERS : nat := 8.

Inductive ip6_verdict := IP6_ACCEPT | IP6_REJECT_TOO_SHORT | IP6_REJECT_BAD_VERSION | IP6_REJECT_LENGTH_MISMATCH | IP6_REJECT_FRAGMENTED.
#[export] Instance ip6_verdict_eq : EqDecision ip6_verdict.
Proof. solve_decision. Defined.

Definition compass6_check (payload : list Z) : option ip6_verdict :=
  if zlen payload <? MIN_IP6_HEADER then Some IP6_REJECT_TOO_SHORT
  else
    b0 ← rd payload 0;
    if negb (Z.shiftr b0 4 =? 6) then Some IP6_REJECT_BAD_VERSION
    else
      b4 ← rd payload 4; b5 ← rd payload 5;
      if zlen payload <? MIN_IP6_HEADER + be16 b4 b5 then Some IP6_REJECT_LENGTH_MISMATCH else Some IP6_ACCEPT.

(** ** Extension headers *)

Definition is_extension (nh : Z) : bool := (nh =? NEXT_HEADER_HOP_BY_HOP) || (nh =? NEXT_HEADER_ROUTING) || (nh =? NEXT_HEADER_DEST_OPTS).

Inductive ext_outcome := ExtReject | ExtDone (next_header : Z) (rest : list Z).

(** The loop over the extension headers: [left] more are allowed, [cursor] is the
    [remaining] bytes. *)
Fixpoint ext_loop (left : nat) (first_header : bool) (next_header : Z) (cursor : list Z) : option ext_outcome :=
  if is_extension next_header then
    if (next_header =? NEXT_HEADER_HOP_BY_HOP) && negb first_header then Some ExtReject
    else match left with
    | O => Some ExtReject
    | S left' =>
        if zlen cursor <? 2 then Some ExtReject
        else
          following ← rd cursor 0; b1 ← rd cursor 1;
          let hdr_len := u16 ((b1 + 1) * 8) in
          if zlen cursor <? hdr_len then Some ExtReject
          else ext_loop left' false following (drop (Z.to_nat hdr_len) cursor)
    end
  else Some (ExtDone next_header cursor).

(** ** The input path *)

Section Input.
Context `{TxDriver D}.
Implicit Types (n : net6 D).

Definition compass6_reject n : net6 D := set_m_ip_counts (count6_reject (m_ip_counts n)) n.
Definition notify6 (now : Z) (type : ids_event_type) (src : ip6) n : net6 D := set_m_guard (guard6_notify now type (Some src) (m_guard n)) n.

(** The screening of the source; an allow rule bypasses the rate limit.  The sender
    of an admitted packet is a neighbour from then on. *)
Definition compass6_screen (now : Z) (src : ip6) (src_mac : list Z) n : bool * net6 D :=
  match guestlist6_check src (gd_guests (m_guard n)) with
  | GUESTLIST_DENIED => (false, compass6_reject (notify6 now IDS_EVENT_GUESTLIST_DENY src n))
  | verdict =>
      let '(pass, n) :=
        if bool_decide (verdict = GUESTLIST_ALLOWED) then (true, n)
        else let '(ok, c) := curfew6_check now src (gd_curfew (m_guard n)) in (ok, set_m_guard (set_curfew c (m_guard n)) n) in
      if negb pass then (false, compass6_reject (notify6 now IDS_EVENT_CURFEW_REJECT src n))
      else if rolodex6_disputed src (l6_rolodex (m_link n)) then (false, compass6_reject (notify6 now IDS_EVENT_ROLODEX_DISPUTED src n))
      else (true, set_m_link (set_rolodex6 (rolodex6_learn now src src_mac (l6_rolodex (m_link n))) (m_link n)) n)
  end.

(** The packet ends here, or goes on to the handler of a protocol. *)
Inductive ip6_outcome := Ip6Drop | Ip6Deliver (next_header : Z) (message : list Z) (src dst : ip6).

(** From the extension headers to the call of [dispatch]. *)
Definition compass6_unwrap (now : Z) (next_header : Z) (cursor : list Z) (src dst : ip6) n : option (ip6_outcome * net6 D) :=
  r ← ext_loop MAX_EXT_HEADERS true next_header cursor;
  match r with
  | ExtReject => Some (Ip6Drop, compass6_reject n)
  | ExtDone nh rest =>
      if (nh =? NEXT_HEADER_AH) || (nh =? NEXT_HEADER_ESP) then Some (Ip6Drop, compass6_reject n)
      else if nh =? NEXT_HEADER_FRAGMENT then
        '(out, f) ← fragment6_receive src dst rest now (m_frag n);
        let n := set_m_frag f n in
        Some (match out with None => Ip6Drop | Some (nh, packet) => Ip6Deliver nh packet src dst end, n)
      else Some (Ip6Deliver nh rest src dst, n)
  end.

(** [compass6_handle] up to the call of the handler. *)
Definition compass6_admit (now : Z) (payload src_mac : list Z) n : option (ip6_outcome * net6 D) :=
  v ← compass6_check payload;
  if negb (bool_decide (v = IP6_ACCEPT)) then
    n ← (if 40 <=? zlen payload
         then src ← slice payload 8 16; Some (set_m_guard (set_curfew (curfew6_strike now src (gd_curfew (m_guard n))) (m_guard n)) n)
         else Some n);
    Some (Ip6Drop, compass6_reject n)
  else
    let n := set_m_ip_counts (count6_accept (m_ip_counts n)) n in
    next_header ← rd payload 6;
    src ← slice payload 8 16;
    dst ← slice payload 24 16;
    b4 ← rd payload 4; b5 ← rd payload 5;
    match compass6_screen now src src_mac n with
    | (false, n) => Some (Ip6Drop, n)
    | (true, n) =>
        cursor ← slice payload 40 (Z.to_nat (be16 b4 b5));
        compass6_unwrap now next_header cursor src dst n
    end.

(** ** The handlers *)

Definition echo6_department (now : Z) (payload : list Z) (src dst : ip6) n : option (net6 D) :=
  '(e, l) ← echo6_handle now (m_mac n) payload src dst (m_echo n, m_link n);
  Some (set_m_echo e (set_m_link l n)).

(** The entries of the section [.aevros_ip6_directory]. *)
Definition ip6_directory : list (Z * (Z -> list Z -> ip6 -> ip6 -> net6 D -> option (net6 D))) :=
  [(6, conversation6_handle); (17, postcard6_handle); (58, echo6_department)].

Fixpoint dispatch6 (directory : list (Z * (Z -> list Z -> ip6 -> ip6 -> net6 D -> option (net6 D)))) (now next_header : Z) (payload : list Z) (src dst : ip6) n
    : option (net6 D) :=
  match directory with
  | [] => Some n
  | (p, handler) :: rest => if p =? next_header then handler now payload src dst n else dispatch6 rest now next_header payload src dst n
  end.

Definition compass6_handle (now : Z) (payload src_mac : list Z) n : option (net6 D) :=
  '(o, n) ← compass6_admit now payload src_mac n;
  match o with
  | Ip6Drop => Some n
  | Ip6Deliver nh message src dst => dispatch6 ip6_directory now nh message src dst n
  end.

Definition compass6_accepted_count n : Z := fst (m_ip_counts n).
Definition compass6_rejected_count n : Z := snd (m_ip_counts n).
End Input.

#[global] Arguments compass6_admit : simpl never.
#[global] Arguments compass6_check : simpl never.
#[global] Arguments compass6_screen : simpl never.
