(* ===== verification/Input6.v ===== *)
(** * The IPv6 receive path never leaves a buffer, but for two messages

    What every handler of an IPv6 packet keeps intact, and the exact list of
    messages that make one of them read outside the message. *)

From stdpp Require Import list_numbers.
From S2P Require Import Prelude SlotTable GuestList Ids RateLimit Sentry Bailiff Rolodex Foyer LockBox Ring Inbox Why Scheduler Rapport Transport Checksum.
From S2P Require Import TcpInv Compass Conversation.
From S2P Require Import Fragment6 Atlas6 Guard6 Link6 Echo6 Tcp6 Net6 Conversation6 Compass6.
Import GuestList Menu Ids Curfew Inbox Postbox.

#[local] Open Scope Z_scope.

(** ** Held segments *)

Definition way6_ok (ws : list way_row) : Prop := Forall (fun w => length (wr_slots w) = WAYSTATION6_MAX_PENDING) ws.

(** The byte queues: positions stay inside the buffers. *)
Definition inbox6_ok (ib : list inbox_slot) : Prop :=
  Forall (fun s => length (ib_storage s) = INBOX_SIZE /\ (ib_read_pos s < INBOX_SIZE)%nat /\ (ib_write_pos s < INBOX_SIZE)%nat) ib.

Lemma push_all_shape N (xs : list Z) : N <> 0%nat -> forall st w, length st = N -> (w < N)%nat -> length (push_all N xs st w).1 = N /\ ((push_all N xs st w).2 < N)%nat.
Proof.
  intros HN. induction xs as [|x xs IH]; intros st w Hs Hw; [done|]. cbn [push_all]. apply IH; [by rewrite length_insert|by apply Nat.mod_upper_bound].
Qed.

Lemma pop_n_shape N k : N <> 0%nat -> forall (st : list Z) r, length st = N -> (r < N)%nat -> exists out r', pop_n N k st r = Some (out, r') /\ (r' < N)%nat.
Proof.
  intros HN. induction k as [|k IH]; intros st r Hs Hr; cbn [pop_n]; [by eexists _, _|]. destruct (lookup_lt_is_Some_2 st r) as [x Hx]; [lia|]. rewrite Hx. cbn [mbind option_bind].
  destruct (IH st ((r + 1) mod N)%nat Hs) as (out & r' & -> & Hr'); [by apply Nat.mod_upper_bound|]. cbn. by eexists _, _.
Qed.

Lemma inbox_size_pos : INBOX_SIZE <> 0%nat.
Proof. discriminate. Qed.

Lemma reset_shape gen s : length (ib_storage s) = INBOX_SIZE /\ (ib_read_pos s < INBOX_SIZE)%nat /\ (ib_write_pos s < INBOX_SIZE)%nat ->
  length (ib_storage (reset_if_stale gen s)) = INBOX_SIZE /\ (ib_read_pos (reset_if_stale gen s) < INBOX_SIZE)%nat /\ (ib_write_pos (reset_if_stale gen s) < INBOX_SIZE)%nat.
Proof. intros (H1 & H2 & H3). unfold reset_if_stale. destruct (_ =? _); [done|]. cbn. pose proof inbox_size_pos. split; [done|]. lia. Qed.

Lemma inbox_deposit_shape id data x ib : inbox6_ok ib -> inbox6_ok (snd (inbox_deposit id data x ib)).
Proof.
  intros Hi. unfold inbox_deposit. destruct (ib !! id) as [s|] eqn:E; [|done]. pose proof (reset_shape (lockbox_get_generation id x) s (Forall_lookup_1 _ _ _ _ Hi E)) as Hs.
  set (s1 := reset_if_stale _ s) in *. destruct (lockbox_deposit id (zlen data) x) as [ok x1]. destruct ok; cbn [negb]; [|by apply Forall_insert].
  destruct Hs as (H1 & H2 & H3). pose proof (push_all_shape INBOX_SIZE data inbox_size_pos (ib_storage s1) (ib_write_pos s1) H1 H3) as [P1 P2]. destruct (push_all _ _ _ _) as [st w]. by apply Forall_insert.
Qed.

Lemma inbox_available_shape id x ib : inbox6_ok ib -> inbox6_ok (snd (inbox_available id x ib)).
Proof. intros Hi. unfold inbox_available. destruct (ib !! id) as [s|] eqn:E; [|done]. apply Forall_insert; [done|]. apply reset_shape, (Forall_lookup_1 _ _ _ _ Hi E). Qed.

Lemma inbox_read_shape id k x ib : inbox6_ok ib ->
  exists out x' ib', inbox_read id k x ib = Some (out, x', ib') /\ inbox6_ok ib' /\ length (lx_table x') = length (lx_table x).
Proof.
  intros Hi. unfold inbox_read. destruct (ib !! id) as [s|] eqn:E; [|by eexists _, _, _]. pose proof (reset_shape (lockbox_get_generation id x) s (Forall_lookup_1 _ _ _ _ Hi E)) as (H1 & H2 & H3).
  cbn zeta. set (s1 := reset_if_stale _ s) in *. match goal with |- context [pop_n INBOX_SIZE ?e] => set (m := e) end. destruct (pop_n_shape INBOX_SIZE m inbox_size_pos (ib_storage s1) (ib_read_pos s1) H1 H2) as (out & r' & -> & Hr). cbn [mbind option_bind].
  eexists _, _, _. split; [done|]. split; [by apply Forall_insert|]. destruct (0 <? m)%nat; [|done]. cbn. by rewrite length_alter.
Qed.

(** Each round of the loop releases one of the held segments. *)
Lemma drain_loop_total id fuel : forall row x ib r k, (count_if hs_in_use row < fuel)%nat ->
  exists row' x' ib' r' k', drain_loop fuel id row x ib r k = Some (row', x', ib', r', k') /\ length row' = length row /\
    (inbox6_ok ib -> inbox6_ok ib') /\ length (lx_table x') = length (lx_table x).
Proof.
  induction fuel as [|fuel IH]; intros row x ib r k Hf; [lia|]. cbn [drain_loop]. destruct (find_idx _ row) as [i|] eqn:Ei; [|by eexists _, _, _, _, _].
  apply find_idx_Some in Ei as (h & Hh & Hu & _). rewrite Hh. pose proof (inbox_deposit_shape id (hs_data h) x ib) as Hsh. pose proof (inbox_deposit_box id (hs_data h) x ib) as Hbx.
  destruct (inbox_deposit id (hs_data h) x ib) as [[ok x1] ib1]. destruct Hbx as (_ & Hbx & _). cbn in Hsh. destruct ok; cbn [negb]; [|by eexists _, _, _, _, _].
  apply andb_true_iff in Hu as [Hu _]. pose proof (count_if_insert hs_in_use row i h (held_clear h) Hh) as Hc. rewrite Hu in Hc. cbn in Hc.
  destruct (IH (<[i := held_clear h]> row) x1 ib1 (rapport_advance_seq id (zlen (hs_data h)) r) (S k)) as (row' & x' & ib' & r' & k' & E & Hl & Hi & Hx); [lia|].
  exists row', x', ib', r', k'. split; [exact E|]. split; [by rewrite Hl, length_insert|]. split; [by auto|]. by rewrite Hx.
Qed.

Lemma way_reset_slots gen w : length (wr_slots (way_reset_if_stale gen w)) = length (wr_slots w).
Proof. unfold way_reset_if_stale. destruct (_ =? _); [done|]. cbn. by rewrite length_fmap. Qed.

(** The tables of the connections have their size. *)
Record tcp6_ok (t : tcp6) : Prop := {
  tk_way : way6_ok (t6_way t); tk_inbox : inbox6_ok (t6_inbox t); tk_table : length (lx_table (t6_lockbox t)) = LOCKBOX6_CAPACITY }.

Lemma tcp6_ok_box x t : tcp6_ok t -> length (lx_table x) = length (lx_table (t6_lockbox t)) -> tcp6_ok (set_t6_lockbox x t).
Proof. intros [] E. split; [done|done|]. cbn. congruence. Qed.

Lemma drain6_total id t : tcp6_ok t -> exists k t', waystation6_drain id t = Some (k, t') /\ tcp6_ok t'.
Proof.
  intros [Hw Hi Ht]. unfold waystation6_drain. destruct (t6_way t !! id) as [w|] eqn:E; [|by eexists _, _]. pose proof (Forall_lookup_1 _ _ _ _ Hw E) as Hl. cbn in Hl.
  set (w1 := way_reset_if_stale _ w). assert (Hl1 : length (wr_slots w1) = WAYSTATION6_MAX_PENDING) by (unfold w1; by rewrite way_reset_slots).
  pose proof (count_if_length hs_in_use (wr_slots w1)) as Hc.
  destruct (drain_loop_total id (S WAYSTATION6_MAX_PENDING) (wr_slots w1) (t6_lockbox t) (t6_inbox t) (t6_rapport t) 0) as (row & x & ib & r & k & -> & Hr & Hib & Hx); [lia|].
  cbn [mbind option_bind]. eexists _, _. split; [done|]. split; cbn; [|by auto|by rewrite Hx]. apply Forall_insert; [done|]. cbn. by rewrite Hr.
Qed.

Lemma hold6_ok id seq data x ws : way6_ok ws -> way6_ok (snd (waystation6_hold id seq data x ws)).
Proof.
  intros Hw. unfold waystation6_hold. destruct (ws !! id) as [w|] eqn:E; [|done]. destruct (_ || _); [done|]. pose proof (Forall_lookup_1 _ _ _ _ Hw E) as Hl. cbn in Hl.
  destruct (find_idx _ _); [|destruct (find_idx _ _)]; cbn; apply Forall_insert; try done; cbn; by rewrite ?length_insert, way_reset_slots.
Qed.

Lemma window6_ok id t : tcp6_ok t -> tcp6_ok (snd (waystation6_receive_window id t)).
Proof.
  intros [Hw Hi Ht]. unfold waystation6_receive_window. destruct (t6_way t !! id) as [w|] eqn:E; [|done]. pose proof (Forall_lookup_1 _ _ _ _ Hw E) as Hl. cbn in Hl.
  pose proof (inbox_available_shape id (t6_lockbox t) (t6_inbox t) Hi) as Ha. unfold inbox6_available. destruct (inbox_available _ _ _) as [a ib]. cbn in Ha.
  assert (H1 : way6_ok (<[id := way_reset_if_stale (lockbox6_get_generation id (t6_lockbox t)) w]> (t6_way t))) by (apply Forall_insert; [done|]; cbn; by rewrite way_reset_slots).
  destruct (_ <=? _); by split.
Qed.

(** ** What TCP leaves alone *)

Section Tcp.
Context `{TxDriver D}.
Implicit Types (n : net6 D).

(** Only the connections, the frame built last and the way out change. *)
Record tcp_only n n' : Prop := {
  to_frag : m_frag n' = m_frag n; to_echo : m_echo n' = m_echo n; to_foyer : m_foyer n' = m_foyer n; to_guard : m_guard n' = m_guard n;
  to_atlas : m_atlas n' = m_atlas n; to_mac : m_mac n' = m_mac n;
  to_menu : m_menu n' = m_menu n; to_postbox : m_postbox n' = m_postbox n; to_neighbours : l6_rolodex (m_link n') = l6_rolodex (m_link n);
  to_tcp : tcp6_ok (m_tcp n) -> tcp6_ok (m_tcp n') }.

Lemma tcp_only_refl n : tcp_only n n.
Proof. by split. Qed.
Lemma tcp_only_trans n1 n2 n3 : tcp_only n1 n2 -> tcp_only n2 n3 -> tcp_only n1 n3.
Proof. intros [] []. split; (congruence || auto). Qed.

(** A change that leaves the held segments and the queues as they are. *)
Definition same_tables (t t' : tcp6) : Prop :=
  t6_way t' = t6_way t /\ t6_inbox t' = t6_inbox t /\ length (lx_table (t6_lockbox t')) = length (lx_table (t6_lockbox t)).

Lemma tcp_only_ok t n : (tcp6_ok (m_tcp n) -> tcp6_ok t) -> tcp_only n (set_m_tcp t n).
Proof. by split. Qed.
Lemma tcp_only_set t n : same_tables (m_tcp n) t -> tcp_only n (set_m_tcp t n).
Proof. intros (E1 & E2 & E3). apply tcp_only_ok. intros []. split; congruence. Qed.
Lemma tcp_only_link l n : l6_rolodex l = l6_rolodex (m_link n) -> tcp_only n (set_m_link l n).
Proof. by split. Qed.

Lemma close6_tables id t : same_tables t (close6 id t).
Proof. split; [done|]. split; [done|]. cbn. by rewrite length_alter. Qed.
Lemma on_rst6_tables id t : same_tables t (rapport6_on_rst id t).
Proof. unfold rapport6_on_rst. destruct (_ !! id); [|done]. case_bool_decide; [done|apply close6_tables]. Qed.
Lemma on_ack6_tables now id a t : same_tables t (rapport6_on_ack now id a t).
Proof. unfold rapport6_on_ack. destruct (_ !! id) as [c|]; [|done]. destruct (cv_status c); try done; destruct (_ <=? _); (done || apply close6_tables). Qed.
Lemma claim6_table lp ip rp pr x : length (lx_table (lockbox6_claim lp ip rp pr x).2) = length (lx_table x).
Proof. unfold lockbox6_claim. destruct (negb _); [done|]. destruct (_ <=? _)%nat; [done|]. destruct (find_free _); [|done]. cbn. by rewrite length_insert. Qed.

Lemma request6_rolodex now f (l : link6 D) : l6_rolodex (snd (request6 now f l)) = l6_rolodex l.
Proof. unfold request6. by destruct (bailiff_request_pass _ _ _). Qed.
Lemma present6_rolodex now id f (l : link6 D) : l6_rolodex (snd (present6 now id f l)) = l6_rolodex l.
Proof. unfold present6. by destruct (bailiff_present_pass _ _ _ _) as [? [? ?]]. Qed.
Lemma send6_rolodex now f (l : link6 D) : l6_rolodex (snd (send6 now f l)) = l6_rolodex l.
Proof.
  unfold send6. pose proof (request6_rolodex now f l) as E. destruct (request6 now f l) as [[id|] l1]; [|done]. cbn in E. by rewrite present6_rolodex.
Qed.

Lemma dispatch6_only now id flags seq ack data mac ip n : tcp_only n (snd (conversation6_dispatch now id flags seq ack data mac ip n)).
Proof.
  unfold conversation6_dispatch. destruct (_ <? _); [apply tcp_only_refl|]. destruct (negb _); [apply tcp_only_refl|].
  destruct (lockbox6_get_tuple _ _) as [[[lp rip] rp]|]; [|apply tcp_only_refl]. destruct (rolodex6_lookup _ _) as [dm|]; [|apply tcp_only_refl].
  pose proof (window6_ok id (m_tcp n)) as Hw. destruct (waystation6_receive_window id (m_tcp n)) as [win t]. set (f := tcp6_frame _ _ _ _ _).
  pose proof (request6_rolodex now f (m_link n)) as Hr. destruct (request6 now f (m_link n)) as [p l]. by split.
Qed.

Lemma on_rapport6_only f n : tcp_only n (on_rapport6 f n).
Proof. by apply tcp_only_set. Qed.
Lemma track6_only now id seq n : tcp_only n (track6_last now id seq n).
Proof. by apply tcp_only_set. Qed.

Lemma syn_ack6_only now id mac ip n : tcp_only n (snd (conversation6_dispatch_syn_ack now id mac ip n)).
Proof.
  unfold conversation6_dispatch_syn_ack. match goal with |- context [conversation6_dispatch ?a ?b ?c ?d ?e ?f ?g ?h ?i] => pose proof (dispatch6_only a b c d e f g h i) as Hd;
    destruct (conversation6_dispatch a b c d e f g h i) as [[p|] n1] end; [|done]. cbn in *. eapply tcp_only_trans; [exact Hd|apply track6_only].
Qed.

Lemma present6_last_only now p n : tcp_only n (snd (present6_last now p n)).
Proof.
  unfold present6_last. pose proof (present6_rolodex now p (m_last_frame n) (m_link n)) as E. destruct (present6 _ _ _ _) as [ok l]. by apply tcp_only_link.
Qed.

Lemma sched_ack6_only now id a n : tcp_only n (net6_sched_ack now id a n).
Proof.
  unfold net6_sched_ack. assert (E : l6_rolodex (snd (scheduler6_ack now id a (t6_sched (m_tcp n), m_link n))) = l6_rolodex (m_link n)).
  { unfold scheduler6_ack. destruct (_ !! id) as [e|]; [|done]. destruct (negb _); [done|]. destruct (_ <=? _).
    - by destruct (if negb _ then _ else _) as [[? ?] ?].
    - destruct (_ =? _); [|done]. destruct (_ <=? _); [|done]. unfold resend6. pose proof (send6_rolodex now (p6_frame e) (m_link n)) as E. by destruct (send6 _ _ _). }
  destruct (scheduler6_ack _ _ _ _) as [s l]. split; try done. by intros [].
Qed.

Lemma unexpected6_only id seq data n : tcp_only n (handle_unexpected6 id seq data n).
Proof.
  unfold handle_unexpected6. destruct (rapport6_seq_is_stale_retransmit _ _ _ _); [apply tcp_only_refl|]. destruct (_ <? _); [|apply tcp_only_refl].
  apply tcp_only_ok. intros []. split; try done. by apply hold6_ok.
Qed.

Lemma deposit6_total id data n : tcp6_ok (m_tcp n) -> exists n', deposit_data6 id data n = Some n' /\ tcp_only n n'.
Proof.
  intros [Hw Hi Ht]. unfold deposit_data6, inbox6_deposit. destruct (_ <? _); [|eexists; split; [done|apply tcp_only_refl]].
  pose proof (inbox_deposit_shape id data (t6_lockbox (m_tcp n)) (t6_inbox (m_tcp n)) Hi) as Hs. pose proof (inbox_deposit_box id data (t6_lockbox (m_tcp n)) (t6_inbox (m_tcp n))) as Hb.
  destruct (inbox_deposit _ _ _ _) as [[ok x] ib]. destruct Hb as (_ & Hb & _). cbn in Hs.
  assert (K : forall r, tcp6_ok (set_t6_rapport r (set_t6_inbox x ib (m_tcp n)))) by (intros r; split; [done|done|cbn; congruence]). destruct ok.
  - destruct (drain6_total id _ (K (rapport6_advance_seq id (zlen data) (t6_rapport (set_t6_inbox x ib (m_tcp n)))))) as (k & t' & -> & Hw').
    cbn [mbind option_bind]. eexists. split; [done|]. by apply tcp_only_ok.
  - eexists. split; [done|]. apply tcp_only_ok. intros _. apply (K (t6_rapport (m_tcp n))).
Qed.
End Tcp.

(** ** TCP segments *)

Section Segments.
Context `{TxDriver D}.
Implicit Types (n : net6 D).

Lemma check6_fits payload src dst : zlen payload < 65536 -> exists v, conversation6_check payload src dst = Some v /\ (v = TCP_ACCEPT -> seg_fits payload).
Proof.
  intros Hl. unfold conversation6_check, TCP6_MIN_HEADER. destruct (Z.ltb_spec (zlen payload) 20); [eexists; split; [reflexivity|done]|].
  rewrite (rd_at payload 12 12) by (unfold zlen in *; lia). cbn [mbind option_bind]. set (off := Z.land _ _).
  destruct (Z.ltb_spec off 5), (Z.ltb_spec (zlen payload) (u16 (off * 4))); cbn [orb]; try (eexists; split; [reflexivity|done]).
  rewrite (rd_at payload 13 13) by (unfold zlen in *; lia). cbn [mbind option_bind].
  destruct (negb (flag_make_sense _)); [eexists; split; [reflexivity|done]|]. destruct (negb _); [eexists; split; [reflexivity|done]|].
  eexists; split; [reflexivity|]. intros _. split; [lia|done].
Qed.

Lemma known6_total now id payload seq flags n : tcp6_ok (m_tcp n) -> seg_fits payload ->
  exists n', handle_known6 now id payload seq flags n = Some n' /\ tcp_only n n'.
Proof.
  intros Hw [Hl Hh]. unfold handle_known6. rewrite (rd_at payload 12 12), (rd_at payload 14 14), (rd_at payload 15 15) by (unfold zlen in *; lia). cbn [mbind option_bind].
  set (hl := u16 _) in *. assert (H0 : 0 <= hl) by (unfold hl, u16; lia_mod).
  rewrite (u16_small (zlen payload - hl)) by (unfold is_u16; lia). rewrite slice_in_range by (unfold zlen in *; lia). cbn [mbind option_bind]. set (data := take _ _).
  set (n1 := on_rapport6 _ n). assert (T1 : tcp_only n n1) by apply on_rapport6_only. pose proof (to_tcp _ _ T1 Hw) as Hw1.
  assert (Hcont : forall o, (exists n', o = Some n' /\ tcp_only n1 n') -> exists n', o = Some n' /\ tcp_only n n').
  { intros o (n' & -> & T). exists n'. split; [done|]. by eapply tcp_only_trans. }
  apply Hcont. destruct (negb _); [eexists; split; [done|apply unexpected6_only]|].
  destruct (has_flag FLAG_RST flags); [eexists; split; [done|apply tcp_only_set, on_rst6_tables]|].
  destruct (has_flag FLAG_FIN flags); [eexists; split; [done|apply on_rapport6_only]|].
  destruct (rd32_fits payload 8) as [a ->]; [lia|lia|]. cbn [mbind option_bind]. set (n2 := if has_flag FLAG_ACK flags then _ else n1).
  assert (T2 : tcp_only n1 n2).
  { unfold n2. destruct (has_flag FLAG_ACK flags); [|apply tcp_only_refl]. eapply tcp_only_trans; [|apply sched_ack6_only]. apply tcp_only_set, on_ack6_tables. }
  destruct (deposit6_total id data n2 (to_tcp _ _ T2 Hw1)) as (n3 & -> & T3). exists n3. split; [done|]. by eapply tcp_only_trans.
Qed.

Lemma syn_sent6_total id payload seq flags n : seg_fits payload -> exists n', handle_syn_sent6 id payload seq flags n = Some n' /\ tcp_only n n'.
Proof.
  intros [Hl _]. unfold handle_syn_sent6. destruct (has_flag FLAG_RST flags); [eexists; split; [done|apply tcp_only_set, on_rst6_tables]|].
  destruct (_ && _); [|eexists; split; [done|apply tcp_only_refl]]. destruct (rd32_fits payload 8) as [a ->]; [lia|lia|]. cbn. eexists. split; [done|apply on_rapport6_only].
Qed.

Lemma unknown6_total now payload src sp dst dp seq flags n : tcp6_ok (m_tcp n) -> seg_fits payload ->
  exists n', handle_unknown6 now payload src sp dst dp seq flags n = Some n' /\ tcp_only n n'.
Proof.
  intros Hw Hf. unfold handle_unknown6. destruct (negb _); [eexists; split; [done|apply tcp_only_refl]|]. destruct (rd32_fits payload 8) as [a ->]; [destruct Hf; lia..|]. cbn [mbind option_bind].
  destruct (syncookie6_validate _ _ _ _ _ _ _) as [valid c]. destruct (negb valid); [eexists; split; [done|by split]|].
  pose proof (claim6_table dp src sp 6 (t6_lockbox (m_tcp (set_m_cookie c n)))) as Hct. destruct (lockbox6_claim _ _ _ _ _) as [[res [id|]] x]; cbn in Hct.
  2: { eexists; split; [done|]. split; try done. intros K. exact (tcp6_ok_box x _ K Hct). } cbn zeta. set (n1 := set_m_tcp (rapport6_on_ack _ _ _ _) _).
  assert (T1 : tcp_only n n1).
  { split; try done. intros [? ? Ht]. destruct (on_ack6_tables now id a (m_tcp (on_rapport6 (rapport6_on_syn id (seq -32 1) (a -32 1)) (set_m_tcp (set_t6_lockbox x (m_tcp (set_m_cookie c n))) (set_m_cookie c n))))) as (E1 & E2 & E3).
    split; cbn in *; congruence. }
  destruct (known6_total now id payload seq flags n1 (to_tcp _ _ T1 Hw) Hf) as (n2 & -> & T2). exists n2. split; [done|]. by eapply tcp_only_trans.
Qed.

(** Any port, any time below the last tick. *)
Lemma sentry6_total now ip port g : 0 <= now < 0xFFFFFFFF -> sentry6_wf (gd_sentry g) ->
  exists b g', sentry6_observe now ip port g = Some (b, g') /\ sentry6_wf (gd_sentry g').
Proof.
  intros Hnow Hwf. unfold sentry6_observe. pose proof (sentry6_slot ip (gd_sentry g) Hwf) as Hs. destruct (sentry6_find_or_create ip (sn_entries (gd_sentry g))) as [[k t]|]; [|by eexists _, _].
  destruct Hs as (e & He & Hu & Hk & Hok & [Wf Wq] & _). rewrite He. cbn [mbind option_bind]. cbn in Wf, Wq. pose proof (hits6_expire_ok now _ Hok) as Hok1. set (hits := hit6_expire now <$> se_hits e) in *.
  assert (Hstore : forall hs m, hits6_ok hs -> sentry6_wf (mkSentrySt (<[k := mkSentry (se_ip e) hs (se_in_use e)]> t) m)).
  { intros hs m Hh. split; cbn; [by apply Forall_insert|]. apply uniq_insert; [done|]. intros _ j x Hj Hux Hkx. by eapply Wq. }
  assert (Hput : forall i p, hits6_ok (<[i := mkHit p now true]> hits)).
  { intros i p. destruct Hok1 as [Hl Ht]. split; [by rewrite length_insert|]. by apply Forall_insert. }
  destruct (find_idx _ hits) as [i|].
  - eexists _, _. split; [done|]. apply Hstore. destruct Hok1 as [Hl Ht]. split; [by rewrite length_alter|]. apply Forall_alter; [done|]. by intros h Hh _.
  - destruct (sentry6_target_some _ Hok1) as (target & -> & _). cbn [mbind option_bind]. destruct (_ <=? _)%nat; eexists _, _; (split; [done|]); by apply Hstore.
Qed.

Lemma tail32_total ip : length ip = 16%nat -> is_Some (tail32 ip).
Proof.
  intros Hl. unfold tail32. destruct (rd_in_range ip 12) as [? ->]; [unfold zlen; lia|]. destruct (rd_in_range ip 13) as [? ->]; [unfold zlen; lia|].
  destruct (rd_in_range ip 14) as [? ->]; [unfold zlen; lia|]. destruct (rd_in_range ip 15) as [? ->]; [unfold zlen; lia|]. done.
Qed.

Lemma syn6_total now src sp dst dp seq n : 0 <= now < 0xFFFFFFFF -> sentry6_wf (gd_sentry (m_guard n)) -> length src = 16%nat -> length dst = 16%nat ->
  exists g n', sentry6_wf (gd_sentry g) /\ handle_syn6 now src sp dst dp seq n = Some n' /\ tcp_only (set_m_guard g n) n'.
Proof.
  intros Hnow Hs Hls Hld. unfold handle_syn6. destruct (sentry6_total now src dp (m_guard n) Hnow Hs) as (b & g & -> & Hg). cbn [mbind option_bind]. exists g. set (n1 := set_m_guard g n).
  destruct (syncookie6_should_activate _).
  { destruct (syncookie6_generate _ _ _ _ _ _) as [isn c]. eexists. split; [done|]. split; [done|]. unfold send_cookie_syn_ack6. destruct (rolodex6_lookup _ _); [|by split].
    split; try done. cbn. by rewrite send6_rolodex. }
  pose proof (claim6_table dp src sp 6 (t6_lockbox (m_tcp n1))) as Hct. destruct (lockbox6_claim _ _ _ _ _) as [[res [id|]] x]; cbn in Hct.
  2: { eexists; split; [done|]; split; [done|]. split; try done. intros K. exact (tcp6_ok_box x _ K Hct). }
  unfold draw_isn6. destruct (tail32_total dst Hld) as [u ->], (tail32_total src Hls) as [v ->]. cbn [mbind option_bind]. set (n2 := on_rapport6 _ _). assert (T2 : tcp_only n1 n2) by (split; try done; intros K; by destruct (tcp6_ok_box x _ K Hct)).
  pose proof (syn_ack6_only now id (m_mac n) dst n2) as T3. destruct (conversation6_dispatch_syn_ack now id (m_mac n) dst n2) as [[p|] n3]; cbn in T3; eexists; (split; [done|]); (split; [done|]).
  - eapply tcp_only_trans; [exact T2|]. eapply tcp_only_trans; [exact T3|]. apply present6_last_only.
  - by eapply tcp_only_trans.
Qed.

(** A segment, whatever it holds, is handled; besides the connections it can only
    change what the port-scan detector remembers. *)
Lemma conversation6_total now payload src dst n : 0 <= now < 0xFFFFFFFF -> zlen payload < 65536 -> length src = 16%nat -> length dst = 16%nat ->
  sentry6_wf (gd_sentry (m_guard n)) -> tcp6_ok (m_tcp n) ->
  exists g n', sentry6_wf (gd_sentry g) /\ conversation6_handle now payload src dst n = Some n' /\ tcp_only (set_m_guard g n) n'.
Proof.
  intros Hnow Hl Hs Hd Hse Hw. unfold conversation6_handle. destruct (check6_fits payload src dst Hl) as (v & -> & Hf). cbn [mbind option_bind].
  assert (Hsame : forall n', tcp_only n n' -> exists g n'', sentry6_wf (gd_sentry g) /\ Some n' = Some n'' /\ tcp_only (set_m_guard g n) n'').
  { intros n' T. exists (m_guard n), n'. split; [done|]. split; [done|]. by destruct T. }
  case_bool_decide as Hv; cbn [negb]; [|apply Hsame; by split]. specialize (Hf Hv). pose proof Hf as [H20 _].
  rewrite (rd_at payload 0 0), (rd_at payload 1 1), (rd_at payload 2 2), (rd_at payload 3 3), (rd_at payload 13 13) by (unfold zlen in *; lia). cbn [mbind option_bind].
  set (n1 := set_m_tcp_counts _ n). assert (T1 : tcp_only n n1) by (by split). destruct (negb (menu_is_open _ _ _)); [by apply Hsame|]. destruct (_ =? _)%nat; [by apply Hsame|].
  destruct (rd32_fits payload 4) as [seq ->]; [lia|lia|]. cbn [mbind option_bind]. destruct (_ && _).
  { edestruct syn_sent6_total as (n2 & -> & T2); [exact Hf|]. apply Hsame. by eapply tcp_only_trans. }
  destruct (has_flag FLAG_SYN _); [destruct (syn6_total now src (be16 (default 0 (payload !! 0%nat)) (default 0 (payload !! 1%nat))) dst (be16 (default 0 (payload !! 2%nat)) (default 0 (payload !! 3%nat))) seq n1 Hnow Hse Hs Hd) as (g & n2 & Hg & -> & T2)|].
  { exists g, n2. split; [done|]. split; [done|]. by destruct T2; split. }
  destruct (_ =? _)%nat.
  - edestruct (unknown6_total now payload) as (n2 & -> & T2); [exact Hw|exact Hf|]. apply Hsame. by eapply tcp_only_trans.
  - edestruct (known6_total now) as (n2 & -> & T2); [exact Hw|exact Hf|]. apply Hsame. by eapply tcp_only_trans.
Qed.
End Segments.

(** ** Reassembled packets *)

Definition frag6_bytes (st : frag6) : Prop := Forall (fun s => bytes (re_buf s)) (fr_slots st).

Lemma bytes_slice buf i k l : bytes buf -> slice buf i k = Some l -> bytes l.
Proof. unfold slice. intros Hb. destruct (_ <=? _)%nat; [|done]. intros [= <-]. by apply bytes_take, bytes_drop. Qed.

Lemma abort_slot_bytes i st : frag6_bytes st -> frag6_bytes (abort_slot i st).
Proof. intros Hb. apply Forall_alter; [done|]. by intros x _ Hx. Qed.

Lemma claim_slot_bytes src dst id nh now st : frag6_bytes st -> frag6_bytes (snd (claim_slot src dst id nh now st)).
Proof.
  intros Hb. unfold claim_slot. destruct (find_slot src dst id st) as [i|].
  - destruct (_ !! i); [|done]. destruct (negb _); [by apply abort_slot_bytes|done].
  - destruct (find_free _) as [i|]; [|done]. apply Forall_alter; [done|]. by intros x _ Hx.
Qed.

Lemma store_fragment_bytes i off more data st out st' : frag6_bytes st -> bytes data -> store_fragment i off more data st = Some (out, st') ->
  frag6_bytes st' /\ forall nh l, out = Some (nh, l) -> bytes l.
Proof.
  intros Hb Hd E. unfold store_fragment in E. apply bind_Some in E as (s & Hs & E). pose proof (Forall_lookup_1 _ _ _ _ Hb Hs) as Hs'. cbv beta zeta in Hs', E.
  apply bind_Some in E as (ov & _ & E). destruct ov; [injection E as <- <-; split; [by apply abort_slot_bytes|done]|].
  apply bind_Some in E as (buf & Eb & E). apply bind_Some in E as (bm & _ & E). assert (Bb : bytes buf).
  { unfold buf_write in Eb. destruct (_ <=? _); [|done]. injection Eb as <-. rewrite !bytes_app. split; [by apply bytes_take|]. split; [done|by apply bytes_drop]. }
  assert (Hput : forall r, re_buf r = buf -> frag6_bytes (set_slots <[i := r]> st)) by (intros r Hr; apply Forall_insert; [done|]; by rewrite Hr).
  destruct (_ && _); [injection E as <- <-; split; [by apply abort_slot_bytes, Hput|done]|]. destruct (negb _); [injection E as <- <-; split; [by apply Hput|done]|].
  apply bind_Some in E as (full & _ & E). destruct (negb full); [injection E as <- <-; split; [by apply Hput|done]|]. apply bind_Some in E as (p & Ep & E). injection E as <- <-.
  split. { unfold frag6_bytes. cbn. apply Forall_alter; [apply Forall_insert; done|]. by intros x _ Hx. } intros nh l [= <- <-]. by eapply bytes_slice.
Qed.

Lemma receive_bytes src dst f now st out st' : frag6_bytes st -> bytes f -> fragment6_receive src dst f now st = Some (out, st') ->
  frag6_bytes st' /\ forall nh l, out = Some (nh, l) -> bytes l.
Proof.
  intros Hb Hf E. unfold fragment6_receive in E. destruct (_ <? _); [by injection E as <- <-|]. do 7 (apply bind_Some in E as (? & _ & E)). cbn zeta in E.
  destruct (_ && _); [by injection E as <- <-|]. destruct (_ <? _).
  { injection E as <- <-. split; [|done]. destruct (find_slot _ _ _ _); [by apply abort_slot_bytes|done]. }
  match type of E with context [claim_slot ?a ?b ?c ?d ?e ?g] => pose proof (claim_slot_bytes a b c d e g Hb) as Hc; destruct (claim_slot a b c d e g) as [[i|] st1] end;
    [|by injection E as <- <-]. eapply store_fragment_bytes; [exact Hc| |exact E]. by apply bytes_drop.
Qed.

(** ** UDP and ICMP *)

Definition postbox6_ok (pb : list postbox_slot) : Prop := Forall (fun s => length (pb_queue s) = POSTBOX6_MAX_PENDING /\ (pb_head s < POSTBOX6_MAX_PENDING)%nat) pb.

(** What the receive path needs of the state. *)
Record net6_ok {D} (n : net6 D) : Prop := {
  ok_frag : frag6_ok (m_frag n);
  ok_bytes : frag6_bytes (m_frag n);
  ok_sentry : sentry6_wf (gd_sentry (m_guard n));
  ok_tcp : tcp6_ok (m_tcp n);
  ok_ip : length (rolodex6_get_ip (l6_rolodex (m_link n))) = 16%nat;
  ok_dad : length (e6_dad_watch_ip (m_echo n)) = 16%nat;
  ok_ra : length (e6_ra_prefix (m_echo n)) = 16%nat;
  ok_postbox : postbox6_ok (m_postbox n);
  ok_foyer : Forall (fun e => length (f6_target_ip e) = 16%nat) (f6_slots (m_foyer n));
  ok_mac : length (m_mac n) = 6%nat }.

Section Messages.
Context `{TxDriver D}.
Implicit Types (n : net6 D).

Definition udp_dst_port (m : list Z) : Z := be16 (default 0 (m !! 2%nat)) (default 0 (m !! 3%nat)).
Definition udp_length (m : list Z) : Z := be16 (default 0 (m !! 4%nat)) (default 0 (m !! 5%nat)).

(** The datagram reaches the copy into the queue of its listener. *)
Definition udp6_copied (m : list Z) (src dst : ip6) n : Prop :=
  postcard6_check m src dst = Some UDP6_ACCEPT /\ menu_is_open (udp_dst_port m) 17 (m_menu n) = true /\
  lockbox6_find_listener (udp_dst_port m) 17 (t6_lockbox (m_tcp n)) <> LOCKBOX6_CAPACITY /\ udp_length m <= POSTBOX6_MAX_DATAGRAM /\
  exists s, m_postbox n !! lockbox6_find_listener (udp_dst_port m) 17 (t6_lockbox (m_tcp n)) = Some s /\ (pb_pending s < POSTBOX6_MAX_PENDING)%nat.

Lemma postcard6_check_total m src dst : exists v, postcard6_check m src dst = Some v /\ (v = UDP6_ACCEPT -> 8 <= zlen m).
Proof.
  unfold postcard6_check, UDP6_HEADER_LEN. destruct (Z.ltb_spec (zlen m) 8); [by eexists|]. rewrite (rd_at m 4 4), (rd_at m 5 5), (rd_at m 6 6), (rd_at m 7 7) by (unfold zlen in *; lia).
  cbn [mbind option_bind]. set (dl := be16 _ _). destruct (Z.ltb_spec dl 8), (Z.ltb_spec (zlen m) dl); cbn [orb]; try by eexists. destruct (_ =? 0); [by eexists|].
  rewrite slice_in_range by (unfold zlen in *; lia). cbn [mbind option_bind]. destruct (negb _); by eexists.
Qed.

(** The outcome of a datagram: past its end exactly when the eight bytes that the
    length counts twice are not there. *)
Lemma postcard6_faults now m src dst n :
  match postcard6_handle now m src dst n with
  | None => udp6_copied m src dst n /\ zlen m < 8 + udp_length m
  | Some n' => ~ (udp6_copied m src dst n /\ zlen m < 8 + udp_length m) /\ (net6_ok n -> net6_ok n')
  end.
Proof.
  unfold postcard6_handle. destruct (postcard6_check_total m src dst) as (v & E & H8). rewrite E. cbn [mbind option_bind]. unfold udp6_copied. rewrite E.
  case_bool_decide as Hv; cbn [negb]; [|split; [intros [[? _] _]; congruence|by intros []]]. specialize (H8 Hv).
  rewrite (rd_at m 0 0), (rd_at m 1 1), (rd_at m 2 2), (rd_at m 3 3), (rd_at m 4 4), (rd_at m 5 5) by (unfold zlen in *; lia). cbn [mbind option_bind].
  change (be16 (default 0 (m !! 2%nat)) (default 0 (m !! 3%nat))) with (udp_dst_port m). change (be16 (default 0 (m !! 4%nat)) (default 0 (m !! 5%nat))) with (udp_length m).
  set (n1 := set_m_udp_counts _ n). change (m_menu n1) with (m_menu n). change (m_tcp n1) with (m_tcp n). change (m_postbox n1) with (m_postbox n).
  assert (K1 : net6_ok n -> net6_ok n1) by (by intros []). destruct (menu_is_open (udp_dst_port m) 17 (m_menu n)); cbn [negb]; [|split; [by intros [(_ & ? & _) _]|done]].
  set (slot := lockbox6_find_listener _ _ _). destruct (Nat.eqb_spec slot LOCKBOX6_CAPACITY) as [Es | Es].
  { split; [by intros [(_ & _ & ? & _) _]|]. intros K. destruct (K1 K) as [? ? ? ? Hip ? ? ? ?]. split; try done. cbn. unfold echo6_dispatch_dest_unreachable.
    destruct (rolodex6_lookup _ _); [|done]. by rewrite send6_rolodex. }
  unfold postbox6_deposit. destruct (m_postbox n !! slot) as [s|] eqn:Hsl; cbn [mbind option_bind].
  2: { split; [intros [(_ & _ & _ & _ & s & ? & _) _]; done|]. intros K. by destruct (K1 K). }
  destruct (Z.ltb_spec POSTBOX6_MAX_DATAGRAM (udp_length m)) as [Hl | Hl]; cbn [mbind option_bind].
  { split; [intros [(_ & _ & _ & ? & _) _]; lia|]. intros K. by destruct (K1 K). }
  destruct (Nat.leb_spec POSTBOX6_MAX_PENDING (pb_pending s)) as [Hp | Hp]; cbn [mbind option_bind].
  { split; [intros [(_ & _ & _ & _ & s' & [= <-] & ?) _]; lia|]. intros K. by destruct (K1 K). }
  assert (H0 : 0 <= udp_length m) by (unfold udp_length, be16, u16; lia_mod).
  unfold slice. rewrite length_drop. destruct (Nat.leb_spec (0 + Z.to_nat (udp_length m)) (length m - 8)) as [Hc | Hc]; cbn [mbind option_bind].
  - split; [intros [_ ?]; unfold zlen in *; lia|]. intros K. destruct (K1 K) as [? ? ? ? ? ? ? Kp ?]. split; try done. cbn. apply Forall_insert; [done|]. cbn.
    rewrite length_insert. exact (Forall_lookup_1 _ _ _ _ Kp Hsl).
  - split; [|unfold zlen in *; lia]. split; [congruence|]. split; [done|]. split; [done|]. split; [done|]. by exists s.
Qed.

Lemma ra_options_dad payload src lt fuel : forall i e e', ra_options fuel payload src lt i e = Some e' ->
  e6_dad_watch_ip e' = e6_dad_watch_ip e /\ (length (e6_ra_prefix e) = 16%nat -> length (e6_ra_prefix e') = 16%nat).
Proof.
  induction fuel as [|fuel IH]; intros i e e'; cbn [ra_options]; [done|]. destruct (_ <? _); [by intros [= <-]|]. destruct (rd payload i) as [ty|]; [|done]. cbn [mbind option_bind].
  destruct (rd payload (i + 1)) as [u|]; [|done]. cbn [mbind option_bind]. destruct (u =? 0); [by intros [= <-]|]. cbn zeta. destruct (_ <? _); [by intros [= <-]|].
  intros E. apply bind_Some in E as (e1 & E1 & E2). apply IH in E2 as [E2 E3]. rewrite E2. clear E2. destruct (_ && _); [|by injection E1 as <-].
  destruct (rd payload (i + 2)) as [a|]; [|done]. cbn [mbind option_bind] in E1. destruct (rd payload (i + 3)) as [b|]; [|done]. cbn [mbind option_bind] in E1.
  destruct (_ && _); [|by injection E1 as <-]. destruct (slice _ _ _) as [p|] eqn:Ep; [|done]. cbn in E1. injection E1 as <-. split; [done|]. intros _. apply E3. cbn.
  by apply slice_length in Ep.
Qed.

Lemma learn6_ip now ip mac r : rolodex6_get_ip (rolodex6_learn now ip mac r) = rolodex6_get_ip r.
Proof.
  unfold rolodex6_learn, rolodex6_get_ip. destruct (find_key ip _) as [i|]; [|by destruct (find_free _)]. destruct (_ !! i); [|done]. by case_bool_decide.
Qed.

Lemma echo6_keeps now mac m src dst e (l : link6 D) e' l' : echo6_handle now mac m src dst (e, l) = Some (e', l') ->
  e6_dad_watch_ip e' = e6_dad_watch_ip e /\ rolodex6_get_ip (l6_rolodex l') = rolodex6_get_ip (l6_rolodex l) /\
  (length (e6_ra_prefix e) = 16%nat -> length (e6_ra_prefix e') = 16%nat).
Proof.
  unfold echo6_handle. destruct (echo6_check m src dst) as [v|]; [|done]. cbn [mbind option_bind]. case_bool_decide; cbn [negb]; [|by intros [= <- <-]].
  destruct (rd m 0) as [ty|]; [|done]. cbn [mbind option_bind]. set (e1 := set_counts6 _ e).
  destruct (ty =? _). { intros E. apply bind_Some in E as (e2 & E2 & [= <- <-]). unfold handle_echo_request in E2.
    destruct (rd m 4); [|done]. destruct (rd m 5); [|done]. destruct (rd m 6); [|done]. destruct (rd m 7); [|done]. cbn in E2. destruct (_ <=? _)%nat; by injection E2 as <-. }
  destruct (ty =? _). { intros E. apply bind_Some in E as (l2 & E2 & [= <- <-]). split; [done|]. split; [|done]. unfold handle_neighbor_solicitation in E2. destruct (negb _); [by injection E2 as <-|].
    destruct (mem_eq _ _ _) as [b|]; [|done]. cbn [mbind option_bind] in E2. destruct (negb b); [by injection E2 as <-|]. destruct (_ <? _); [by injection E2 as <-|].
    destruct (rd m 24); [|done]. destruct (rd m 25); [|done]. cbn [mbind option_bind] in E2. destruct (_ && _); [|by injection E2 as <-].
    destruct (slice _ _ _); [|done]. cbn in E2. injection E2 as <-. unfold send_neighbor_advertisement. rewrite send6_rolodex. cbn. apply learn6_ip. }
  destruct (ty =? _). { unfold handle_neighbor_advertisement. intros E. apply bind_Some in E as (c & _ & E). cbn zeta in E. set (e2 := if c then _ else e1) in E.
    assert (He : e6_dad_watch_ip e2 = e6_dad_watch_ip e /\ e6_ra_prefix e2 = e6_ra_prefix e) by (unfold e2; by destruct c). destruct He as [He He']. destruct (_ <? _); [injection E as <- <-; by rewrite He, He'|].
    destruct (rd m 24); [|done]. destruct (rd m 25); [|done]. cbn [mbind option_bind] in E. destruct (_ && _); [|injection E as <- <-; by rewrite He, He']. destruct (slice _ _ _); [|done]. cbn in E. injection E as <- <-.
    split; [done|]. split; [apply learn6_ip|by rewrite He']. }
  destruct (ty =? _); [|by intros [= <- <-]]. intros E. apply bind_Some in E as (e2 & E2 & [= <- <-]). unfold handle_router_advertisement in E2. destruct (_ <? _); [by injection E2 as <-|].
  destruct (rd m 6); [|done]. destruct (rd m 7); [|done]. cbn [mbind option_bind] in E2. apply ra_options_dad in E2 as [? ?]. done.
Qed.
End Messages.

(** ** The whole path *)

Section Path.
Context `{TxDriver D}.
Implicit Types (n : net6 D).

(** The two messages that are read past their end: a neighbour solicitation that is
    cut off inside its target address, and a datagram for a listening port, whose
    header length counts towards the data. *)
Definition overread6 (nh : Z) (m : list Z) (src dst : ip6) n : Prop :=
  (nh = 58 /\ echo6_check m src dst = Some ICMP6_ACCEPT /\ short_solicitation m (l6_rolodex (m_link n))) \/
  (nh = 17 /\ udp6_copied m src dst n /\ zlen m < 8 + udp_length m).

Lemma net6_ok_tcp n n' : net6_ok n -> tcp_only n n' -> net6_ok n'.
Proof. intros [] []. split; try congruence; auto. Qed.

Lemma dispatch6_faults now nh m src dst n : 0 <= now < 0xFFFFFFFF -> bytes m -> zlen m < 65536 -> length src = 16%nat -> length dst = 16%nat -> net6_ok n ->
  match dispatch6 ip6_directory now nh m src dst n with None => overread6 nh m src dst n | Some n' => ~ overread6 nh m src dst n /\ net6_ok n' end.
Proof.
  intros Hnow Hb Hl Hs Hd K. cbn [dispatch6 ip6_directory]. unfold overread6. destruct (Z.eqb_spec 6 nh) as [<- | N6].
  { destruct (conversation6_total now m src dst n Hnow Hl Hs Hd (ok_sentry _ K) (ok_tcp _ K)) as (g & n' & Hg & -> & T). split; [intros [[? _]|[? _]]; lia|].
    eapply net6_ok_tcp; [|exact T]. by destruct K. }
  destruct (Z.eqb_spec 17 nh) as [<- | N17].
  { pose proof (postcard6_faults now m src dst n) as Hf. destruct (postcard6_handle now m src dst n) as [n'|]; [|tauto]. destruct Hf as [Hf Hk]. split; [|by apply Hk]. intros [[? _]|[_ ?]]; [lia|done]. }
  destruct (Z.eqb_spec 58 nh) as [<- | N58]; [|split; [intros [[? _]|[? _]]; congruence|done]].
  unfold echo6_department. pose proof (echo6_handle_faults now (m_mac n) m src dst (m_echo n) (m_link n) Hb) as Hf.
  destruct (echo6_handle now (m_mac n) m src dst (m_echo n, m_link n)) as [[e l]|] eqn:E; cbn [mbind option_bind].
  - split.
    + intros [[_ Ho]|[? _]]; [|lia]. rewrite <- Hf in Ho; [done|unfold is_u16, zlen in *; lia|apply K|apply K].
    + destruct (echo6_keeps _ _ _ _ _ _ _ _ _ E) as (E1 & E2 & E3). destruct K. split; cbn; try congruence. by apply E3.
  - left. split; [done|]. apply Hf; [unfold is_u16, zlen in *; lia|apply K|apply K|done].
Qed.

Lemma ext_loop_total left : forall first nh cursor, bytes cursor -> zlen cursor < 65536 ->
  exists r, ext_loop left first nh cursor = Some r /\ forall nh' rest, r = ExtDone nh' rest -> bytes rest /\ zlen rest < 65536.
Proof.
  induction left as [|left IH]; intros first nh cursor Hb Hl; cbn [ext_loop]; destruct (is_extension nh); try (eexists; split; [done|by intros ? ? [= <- <-]]);
    destruct (_ && _); try (by eexists); try (by exists ExtReject). destruct (Z.ltb_spec (zlen cursor) 2); [by exists ExtReject|].
  rewrite (rd_at cursor 0 0), (rd_at cursor 1 1) by (unfold zlen in *; lia). cbn [mbind option_bind]. destruct (_ <? _); [by exists ExtReject|].
  apply IH; [by apply bytes_drop|]. unfold zlen in *. rewrite length_drop. lia.
Qed.

Lemma screen6_ok now src mac n b n' : net6_ok n -> compass6_screen now src mac n = (b, n') -> net6_ok n'.
Proof.
  intros K E. assert (Hstep : forall v, v <> GUESTLIST_DENIED ->
    (let '(pass, n) := if bool_decide (v = GUESTLIST_ALLOWED) then (true, n) else let '(ok, c) := curfew6_check now src (gd_curfew (m_guard n)) in (ok, set_m_guard (set_curfew c (m_guard n)) n) in
     if negb pass then (false, compass6_reject (notify6 now IDS_EVENT_CURFEW_REJECT src n))
     else if rolodex6_disputed src (l6_rolodex (m_link n)) then (false, compass6_reject (notify6 now IDS_EVENT_ROLODEX_DISPUTED src n))
     else (true, set_m_link (set_rolodex6 (rolodex6_learn now src mac (l6_rolodex (m_link n))) (m_link n)) n)) = (b, n') -> net6_ok n').
  { intros v _ E1. set (s := if bool_decide (v = GUESTLIST_ALLOWED) then _ else _) in E1. assert (Ks : net6_ok (snd s)).
    { unfold s. case_bool_decide; [exact K|]. destruct (curfew6_check _ _ _). destruct K. by split. }
    destruct s as [pass n1]. cbn in Ks. destruct (negb pass); [injection E1 as <- <-; destruct Ks; by split|]. destruct (rolodex6_disputed _ _); injection E1 as <- <-; destruct Ks; split; try done.
    cbn. by rewrite learn6_ip. }
  unfold compass6_screen in E. destruct (guestlist6_check _ _) eqn:Eg; [by apply (Hstep GUESTLIST_NO_RULE)|by apply (Hstep GUESTLIST_ALLOWED)|]. injection E as <- <-. by destruct K.
Qed.

Lemma admit6_total now payload mac n : bytes payload -> zlen payload < 65536 -> net6_ok n ->
  exists o n', compass6_admit now payload mac n = Some (o, n') /\ net6_ok n' /\
    forall nh m src dst, o = Ip6Deliver nh m src dst -> bytes m /\ zlen m < 65536 /\ length src = 16%nat /\ length dst = 16%nat.
Proof.
  intros Hb Hl K. unfold compass6_admit, compass6_check, MIN_IP6_HEADER.
  destruct (Z.ltb_spec (zlen payload) 40) as [Hs | Hs].
  { cbn [mbind option_bind]. rewrite bool_decide_false by done. cbn [negb]. destruct (Z.leb_spec 40 (zlen payload)); [lia|]. cbn. eexists _, _. split; [done|]. split; [by destruct K|done]. }
  assert (Hsrc : forall i, (i <= 24)%nat -> slice payload i 16 = Some (take 16 (drop i payload))) by (intros i Hi; apply slice_in_range; unfold zlen in *; lia).
  assert (Hsl : forall i, (i <= 24)%nat -> length (take 16 (drop i payload)) = 16%nat) by (intros i Hi; rewrite length_take, length_drop; unfold zlen in *; lia).
  rewrite (rd_at payload 0 0), (rd_at payload 4 4), (rd_at payload 5 5), (rd_at payload 6 6), (Hsrc 8%nat), (Hsrc 24%nat) by (unfold zlen in *; lia). cbn [mbind option_bind].
  assert (Hrej : forall v, v <> IP6_ACCEPT -> exists o n', (if negb (bool_decide (v = IP6_ACCEPT)) then
      n ← (if 40 <=? zlen payload then Some (set_m_guard (set_curfew (curfew6_strike now (take 16 (drop 8 payload)) (gd_curfew (m_guard n))) (m_guard n)) n) else Some n); Some (Ip6Drop, compass6_reject n)
      else None) = Some (o, n') /\ net6_ok n' /\ forall nh m src dst, o = Ip6Deliver nh m src dst -> bytes m /\ zlen m < 65536 /\ length src = 16%nat /\ length dst = 16%nat).
  { intros v Hv. rewrite bool_decide_false by done. cbn [negb]. destruct (40 <=? zlen payload); cbn; eexists _, _; (split; [done|]); (split; [by destruct K|done]). }
  destruct (negb (_ =? 6)); [apply (Hrej IP6_REJECT_BAD_VERSION); done|]. set (len := be16 _ _). destruct (Z.ltb_spec (zlen payload) (40 + len)) as [Hm | Hm]; [apply (Hrej IP6_REJECT_LENGTH_MISMATCH); done|].
  cbn [mbind option_bind]. rewrite bool_decide_true by done. cbn [negb]. set (n1 := set_m_ip_counts _ n). assert (K1 : net6_ok n1) by (by destruct K).
  destruct (compass6_screen now (take 16 (drop 8 payload)) mac n1) as [b n2] eqn:Es. pose proof (screen6_ok _ _ _ _ _ _ K1 Es) as K2. destruct b; [|eexists _, _; split; [done|]; split; [done|done]].
  assert (H0 : 0 <= len) by (unfold len, be16, u16; lia_mod). rewrite slice_in_range by (unfold zlen in *; lia). cbn [mbind option_bind]. set (cursor := take _ (drop 40 payload)).
  assert (Bc : bytes cursor) by (by apply bytes_take, bytes_drop). assert (Lc : zlen cursor < 65536) by (unfold cursor, zlen in *; rewrite length_take, length_drop; lia).
  unfold compass6_unwrap. destruct (ext_loop_total MAX_EXT_HEADERS true (default 0 (payload !! 6%nat)) cursor Bc Lc) as (r & -> & Hr). cbn [mbind option_bind].
  destruct r as [|nh rest]; [eexists _, _; split; [done|]; split; [by destruct K2|done]|]. destruct (Hr nh rest eq_refl) as [Br Lr].
  destruct (_ || _); [eexists _, _; split; [done|]; split; [by destruct K2|done]|]. destruct (nh =? NEXT_HEADER_FRAGMENT).
  - destruct (receive_total (take 16 (drop 8 payload)) (take 16 (drop 24 payload)) rest now (m_frag n2) (ok_frag _ K2)) as (out & st & E & Hok & _ & Hout). rewrite E. cbn [mbind option_bind].
    destruct (receive_bytes _ _ _ _ _ _ _ (ok_bytes _ K2) Br E) as [Hby Hob]. eexists _, _. split; [done|]. split; [by destruct K2|]. intros nh' m s d Em. destruct out as [[nh2 p]|]; [|done].
    injection Em as <- <- <- <-. specialize (Hout _ _ eq_refl). specialize (Hob _ _ eq_refl). split; [done|]. split; [lia|]. split; apply Hsl; lia.
  - eexists _, _. split; [done|]. split; [done|]. intros nh' m s d [= <- <- <- <-]. split; [done|]. split; [done|]. split; apply Hsl; lia.
Qed.
End Path.
