(* ===== verification/Board6.v ===== *)
(** * Sockets and address configuration of IPv6

    [Networking/IPv6/SwitchBoard6/switchboard6.c], the socket calls;
    [Networking/IPv6/Landlord6/landlord6.c], the DHCPv6 client;
    [Networking/IPv6/Concierge6/concierge6.c], stateless address configuration;
    [Networking/IPv6/Ledger6/ledger6.c], the statistics; and the IPv6 part of
    [Networking/Concierge/concierge.c], the periodic tick. *)

From stdpp Require Import list_numbers.
From S2P Require Import Prelude SlotTable GuestList Ids RateLimit Sentry Bailiff Rolodex Foyer LockBox Ring Inbox Why Scheduler Rapport Transport Checksum.
From S2P Require Import Compass Conversation.
From S2P Require Import Fragment6 Atlas6 Guard6 Link6 Tcp6 Net6 Conversation6 Compass6.
Import GuestList Menu Ids Audit Curfew Inbox Postbox.

#[local] Open Scope Z_scope.

(** ** The states *)

Definition EPHEMERAL6_PORT_LOW : Z := 49152.
Definition EPHEMERAL6_PORT_HIGH : Z := 65535.

Inductive landlord6_state := LANDLORD6_IDLE | LANDLORD6_INFO_REQUESTING | LANDLORD6_BOUND.
#[export] Instance landlord6_state_eq : EqDecision landlord6_state.
Proof. solve_decision. Defined.

(** [ll_dns] is the first [dns_server_count] entries of the table. *)
Record landlord6 := mkLandlord6 {
  ll_state : landlord6_state; ll_duid : list Z; ll_xid : Z; ll_first_send_tick : Z; ll_next_retry_tick : Z; ll_retry_interval : Z;
  ll_dns : list ip6; ll_refresh_at_tick : Z }.
Definition landlord6_init : landlord6 := mkLandlord6 LANDLORD6_IDLE (replicate 10 0) 0 0 0 0 [] 0.

Inductive concierge6_state := CONCIERGE6_DAD_LINK_LOCAL | CONCIERGE6_SOLICITING_ROUTER | CONCIERGE6_DAD_GLOBAL | CONCIERGE6_READY.
#[export] Instance concierge6_state_eq : EqDecision concierge6_state.
Proof. solve_decision. Defined.

Record concierge6 := mkConcierge6 {
  cg_state : concierge6_state; cg_link_local_ip : ip6; cg_global_ip : ip6; cg_active_ip : ip6;
  cg_next_rs_tick : Z; cg_rs_attempts : Z; cg_dad_deadline : Z; cg_dad_retries : Z; cg_pending_prefix : ip6 }.
Definition concierge6_init : concierge6 := mkConcierge6 CONCIERGE6_DAD_LINK_LOCAL ip6_zero ip6_zero ip6_zero 0 0 0 0 ip6_zero.

Record board6 (D : Type) := mkBoard6 {
  b6_net : net6 D; b6_next_ephemeral : Z; b6_accepted_generation : list Z; b6_landlord : landlord6; b6_concierge : concierge6 }.
Arguments mkBoard6 {D} _ _ _ _ _.
Arguments b6_net {D} _.
Arguments b6_next_ephemeral {D} _.
Arguments b6_accepted_generation {D} _.
Arguments b6_landlord {D} _.
Arguments b6_concierge {D} _.

Definition set_b6_net {D} (n : net6 D) (b : board6 D) : board6 D := mkBoard6 n (b6_next_ephemeral b) (b6_accepted_generation b) (b6_landlord b) (b6_concierge b).
Definition set_b6_landlord {D} (x : landlord6) (b : board6 D) : board6 D := mkBoard6 (b6_net b) (b6_next_ephemeral b) (b6_accepted_generation b) x (b6_concierge b).
Definition set_b6_concierge {D} (x : concierge6) (b : board6 D) : board6 D := mkBoard6 (b6_net b) (b6_next_ephemeral b) (b6_accepted_generation b) (b6_landlord b) x.

Definition net6_boot {D} (mac : list Z) (menu : list menu_entry) (entropy : Z) (d : D) : net6 D :=
  mkNet6 (mkLink6 d bailiff_init rolodex6_init) foyer6_init guard6_init tcp6_init menu atlas6_init
    (mkCookie6 0 false (Lottery.lottery_init entropy)) postbox6_init echo6_init frag6_init mac [] (0, 0) (0, 0) (0, 0).
Definition board6_boot {D} (n : net6 D) : board6 D := mkBoard6 n EPHEMERAL6_PORT_LOW (replicate LOCKBOX6_CAPACITY 0) landlord6_init concierge6_init.

Notation box6 b := (t6_lockbox (m_tcp (b6_net b))).

(** ** SwitchBoard6 *)

Fixpoint pick6_loop (tries : nat) (next : Z) (x : lockbox) : Z * Z :=
  match tries with
  | O => (0, next)
  | S tries' =>
      let candidate := next in
      let next := if EPHEMERAL6_PORT_HIGH <=? next then EPHEMERAL6_PORT_LOW else u16 (next + 1) in
      if (lockbox6_find_listener candidate 6 x =? LOCKBOX6_CAPACITY)%nat then (candidate, next) else pick6_loop tries' next x
  end.
(** The port, 0 for none, and the next candidate. *)
Definition pick_ephemeral6_port (next : Z) (x : lockbox) : Z * Z := pick6_loop (Z.to_nat (EPHEMERAL6_PORT_HIGH - EPHEMERAL6_PORT_LOW)) next x.

Definition draw_isn6_outbound (now : Z) (local_ip : ip6) (local_port : Z) (remote_ip : ip6) (remote_port : Z) : option Z :=
  l ← tail32 local_ip; r ← tail32 remote_ip;
  let mix := Z.lxor (Z.lxor (Z.lxor (Z.lxor now 0x9E3779B9 *32 2654435761) l) r) (Z.lor (Z.shiftl local_port 16) remote_port) in
  Some (mix *32 2246822519 +32 3266489917).

Section Calls.
Context `{TxDriver D}.
Implicit Types (b : board6 D).

(** [Some (Some id)]: returned 1 with [*out_conn_id = id]. *)
Definition switchboard6_connect (now : Z) (dest_ip : ip6) (dest_port : Z) (our_mac : list Z) (our_ip : ip6) b : option (option nat * board6 D) :=
  let '(local_port, next) := pick_ephemeral6_port (b6_next_ephemeral b) (box6 b) in
  let b := mkBoard6 (b6_net b) next (b6_accepted_generation b) (b6_landlord b) (b6_concierge b) in
  if local_port =? 0 then Some (None, b)
  else
    let n := b6_net b in
    let '(_, out, x) := lockbox6_claim local_port dest_ip dest_port 6 (t6_lockbox (m_tcp n)) in
    let n := set_m_tcp (set_t6_lockbox x (m_tcp n)) n in
    match out with
    | None => Some (None, set_b6_net n b)
    | Some conn_id =>
        our_isn ← draw_isn6_outbound now our_ip local_port dest_ip dest_port;
        let n := on_rapport6 (rapport6_initiate_connect conn_id our_isn) n in
        let n := match conversation6_dispatch_syn now conn_id our_isn our_mac our_ip n with
                 | (Some id, n) => snd (present6_last now id n)
                 | (None, n) => n
                 end in
        Some (Some conn_id, set_b6_net n b)
    end.

Definition switchboard6_send (now : Z) (conn_id : nat) (data our_mac : list Z) (our_ip : ip6) b : bool * board6 D :=
  match conversation6_dispatch_data now conn_id data our_mac our_ip (b6_net b) with
  | (None, n) => (false, set_b6_net n b)
  | (Some id, n) => let '(ok, n) := present6_last now id n in (ok, set_b6_net n b)
  end.

Definition switchboard6_close (now : Z) (conn_id : nat) (our_mac : list Z) (our_ip : ip6) b : bool * board6 D :=
  match conversation6_dispatch_fin now conn_id our_mac our_ip (b6_net b) with
  | (None, n) => (false, set_b6_net n b)
  | (Some id, n) => let '(ok, n) := present6_last now id n in (ok, set_b6_net n b)
  end.

Definition switchboard6_bind (port : Z) b : bool * board6 D :=
  let n := b6_net b in
  let '(r, _, x) := lockbox6_listen port 6 (t6_lockbox (m_tcp n)) in
  (bool_decide (r = LOCKBOX_OK), set_b6_net (set_m_tcp (set_t6_lockbox x (m_tcp n)) n) b).

(** The loop of [switchboard6_accept] after slot [id]; [Some None] is
    [SWITCHBOARD6_NONE]. *)
Fixpoint accept6_loop (fuel : nat) (port : Z) (id : nat) b : option (option nat * board6 D) :=
  let id := lockbox6_next_for_port port 6 id (box6 b) in
  if (id =? LOCKBOX6_CAPACITY)%nat then Some (None, b)
  else
    let gen := lockbox6_get_generation id (box6 b) in
    acc ← b6_accepted_generation b !! id;
    if negb (acc =? gen) && bool_decide (rapport6_get_state id (t6_rapport (m_tcp (b6_net b))) = CONV_ESTABLISHED)
    then Some (Some id, mkBoard6 (b6_net b) (b6_next_ephemeral b) (<[id := gen]> (b6_accepted_generation b)) (b6_landlord b) (b6_concierge b))
    else match fuel with O => None | S fuel' => accept6_loop fuel' port id b end.
Definition switchboard6_accept (port : Z) b : option (option nat * board6 D) := accept6_loop LOCKBOX6_CAPACITY port LOCKBOX6_CAPACITY b.

(** The bytes copied to [out]. *)
Definition switchboard6_recv (conn_id max_len : nat) b : option (list Z * board6 D) :=
  if (LOCKBOX6_CAPACITY <=? conn_id)%nat then Some ([], b)
  else
    acc ← b6_accepted_generation b !! conn_id;
    if negb (acc =? lockbox6_get_generation conn_id (box6 b)) then Some ([], b)
    else
      let t := m_tcp (b6_net b) in
      '(out, x, ib) ← inbox6_read conn_id max_len (t6_lockbox t) (t6_inbox t);
      Some (out, set_b6_net (set_m_tcp (set_t6_inbox x ib t) (b6_net b)) b).

Definition switchboard6_send_udp (now local_port : Z) (dest_ip : ip6) (dest_port : Z) (our_mac : list Z) (our_ip : ip6) (data : list Z) b : option (bool * board6 D) :=
  '(ok, n) ← postcard6_dispatch now dest_ip dest_port local_port our_mac our_ip data (b6_net b);
  Some (ok, set_b6_net n b).

Definition switchboard6_recv_udp (port : Z) (max_len : nat) b : option (option (ip6 * Z * list Z) * board6 D) :=
  let slot := lockbox6_find_listener port 17 (box6 b) in
  if (slot =? LOCKBOX6_CAPACITY)%nat then Some (None, b)
  else
    '(out, pb) ← postbox6_read slot max_len (m_postbox (b6_net b));
    Some (out, set_b6_net (set_m_postbox pb (b6_net b)) b).
End Calls.

(** ** Landlord6 *)

Definition PIT_HZ : Z := 100.
Definition DHCPV6_MSG_INFORMATION_REQUEST : Z := 11.
Definition DHCPV6_MSG_REPLY : Z := 7.
Definition OPT_CLIENTID : Z := 1.
Definition OPT_ORO : Z := 6.
Definition OPT_ELAPSED_TIME : Z := 8.
Definition OPT_DNS_SERVERS : Z := 23.
Definition OPT_DOMAIN_LIST : Z := 24.
Definition OPT_INFO_REFRESH_TIME : Z := 32.
Definition LANDLORD6_MAX_PACKET : nat := 256.
Definition LANDLORD6_DEFAULT_REFRESH_SEC : Z := 86400.
Definition IRT_TICKS : Z := 1 * PIT_HZ.
Definition MRT_TICKS : Z := 120 * PIT_HZ.
Definition LANDLORD6_CLIENT_PORT : Z := 546.
Definition LANDLORD6_SERVER_PORT : Z := 547.
Definition LANDLORD6_MAX_DNS_SERVERS : nat := 2.
Definition dhcpv6_all_servers : ip6 := [0xff; 0x02; 0; 0; 0; 0; 0; 0; 0; 0; 0; 0; 0; 1; 0; 2].

Definition build_duid (our_mac : list Z) : list Z := [0x00; 0x03; 0x00; 0x01] ++ our_mac.

Definition new_xid (now : Z) (our_mac : list Z) : option Z :=
  a ← rd our_mac 2; b ← rd our_mac 3; c ← rd our_mac 4; d ← rd our_mac 5;
  let mix := Z.lxor (Z.lxor now 0x9E3779B9 *32 2654435761) (be32 a b c d) in
  Some (Z.land (mix *32 2246822519 +32 3266489917) 0x00FFFFFF).

Definition append_option (code : Z) (data : list Z) : list Z := put16 code ++ put16 (zlen data) ++ data.

Definition information_request (now : Z) (s : landlord6) : list Z :=
  let elapsed_cs := if ll_first_send_tick s =? 0 then 0 else (now -32 ll_first_send_tick s) *32 100 / PIT_HZ in
  let elapsed_cs := if 0xFFFF <? elapsed_cs then 0xFFFF else elapsed_cs in
  [DHCPV6_MSG_INFORMATION_REQUEST; u8 (Z.shiftr (ll_xid s) 16); u8 (Z.shiftr (ll_xid s) 8); u8 (ll_xid s)] ++
  append_option OPT_CLIENTID (ll_duid s) ++ append_option OPT_ORO [0x00; OPT_DNS_SERVERS; 0x00; OPT_DOMAIN_LIST] ++
  append_option OPT_ELAPSED_TIME [u8 (Z.shiftr elapsed_cs 8); Z.land elapsed_cs 0xFF].

(** The addresses in an option, as far as the table has room. *)
Fixpoint take_dns (packet : list Z) (data_off : Z) (ks : list nat) (dns : list ip6) : option (list ip6) :=
  match ks with
  | [] => Some dns
  | k :: ks' =>
      if (length dns <? LANDLORD6_MAX_DNS_SERVERS)%nat then
        a ← slice packet (Z.to_nat (data_off + u16 (Z.of_nat k * 16))) 16;
        take_dns packet data_off ks' (dns ++ [a])
      else Some dns
  end.

(** The options of a reply: whether our identifier was among them, the servers and
    the refresh time. *)
Fixpoint reply_options (fuel : nat) (packet duid : list Z) (i : Z) (seen : bool) (dns : list ip6) (refresh : Z) : option (bool * list ip6 * Z) :=
  match fuel with
  | O => None
  | S fuel' =>
      if zlen packet <? i + 4 then Some (seen, dns, refresh)
      else
        c0 ← rd packet i; c1 ← rd packet (i + 1); l0 ← rd packet (i + 2); l1 ← rd packet (i + 3);
        let code := be16 c0 c1 in
        let opt_len := be16 l0 l1 in
        let data_off := u16 (i + 4) in
        if zlen packet <? data_off + opt_len then Some (seen, dns, refresh)
        else
          let next := u16 (data_off + opt_len) in
          if code =? OPT_CLIENTID then
            seen ← (if opt_len =? 10 then same ← mem_eq packet data_off duid; Some (seen || same) else Some seen);
            reply_options fuel' packet duid next seen dns refresh
          else if code =? OPT_DNS_SERVERS then
            dns ← take_dns packet data_off (seq 0 (Z.to_nat (opt_len / 16))) dns;
            reply_options fuel' packet duid next seen dns refresh
          else if code =? OPT_INFO_REFRESH_TIME then
            refresh ← (if opt_len =? 4 then rd32 packet data_off else Some refresh);
            reply_options fuel' packet duid next seen dns refresh
          else reply_options fuel' packet duid next seen dns refresh
  end.

(** The servers are replaced even when the reply turns out to be for another
    client. *)
Definition parse_reply (now : Z) (packet : list Z) (s : landlord6) : option landlord6 :=
  if zlen packet <? 4 then Some s
  else
    b0 ← rd packet 0; b1 ← rd packet 1; b2 ← rd packet 2; b3 ← rd packet 3;
    let reply_xid := Z.lor (Z.lor (Z.shiftl b1 16) (Z.shiftl b2 8)) b3 in
    if negb (b0 =? DHCPV6_MSG_REPLY) || negb (reply_xid =? ll_xid s) then Some s
    else
      '(seen, dns, refresh) ← reply_options (length packet) packet (ll_duid s) 4 false [] LANDLORD6_DEFAULT_REFRESH_SEC;
      if negb seen then
        Some (mkLandlord6 (ll_state s) (ll_duid s) (ll_xid s) (ll_first_send_tick s) (ll_next_retry_tick s) (ll_retry_interval s) dns (ll_refresh_at_tick s))
      else
        Some (mkLandlord6 LANDLORD6_BOUND (ll_duid s) (ll_xid s) (ll_first_send_tick s) (ll_next_retry_tick s) (ll_retry_interval s) dns
                (now +32 refresh *32 PIT_HZ)).

Section Landlord.
Context `{TxDriver D}.
Implicit Types (b : board6 D).

Definition send_information_request (now : Z) (our_mac : list Z) (our_ip : ip6) b : option (board6 D) :=
  '(_, b) ← switchboard6_send_udp now LANDLORD6_CLIENT_PORT dhcpv6_all_servers LANDLORD6_SERVER_PORT our_mac our_ip (information_request now (b6_landlord b)) b;
  Some b.

Definition landlord6_start (now : Z) (our_mac : list Z) (our_ip : ip6) b : option (board6 D) :=
  let n := b6_net b in
  let n := set_m_menu (snd (menu_open_port LANDLORD6_CLIENT_PORT 17 (m_menu n))) n in
  let '(_, _, x) := lockbox6_listen LANDLORD6_CLIENT_PORT 17 (t6_lockbox (m_tcp n)) in
  let n := set_m_tcp (set_t6_lockbox x (m_tcp n)) n in
  xid ← new_xid now our_mac;
  let s := b6_landlord b in
  let s := mkLandlord6 (ll_state s) (build_duid our_mac) xid now (ll_next_retry_tick s) IRT_TICKS (ll_dns s) (ll_refresh_at_tick s) in
  b ← send_information_request now our_mac our_ip (set_b6_landlord s (set_b6_net n b));
  Some (set_b6_landlord (mkLandlord6 LANDLORD6_INFO_REQUESTING (ll_duid s) xid now (now +32 IRT_TICKS) IRT_TICKS (ll_dns s) (ll_refresh_at_tick s)) b).

(** A new request with retry interval [interval]. *)
Definition ask_again (now : Z) (our_mac : list Z) (our_ip : ip6) (first_send interval : Z) b : option (board6 D) :=
  xid ← new_xid now our_mac;
  let s := b6_landlord b in
  let s' st retry := mkLandlord6 st (ll_duid s) xid first_send retry interval (ll_dns s) (ll_refresh_at_tick s) in
  b ← send_information_request now our_mac our_ip (set_b6_landlord (s' (ll_state s) (ll_next_retry_tick s)) b);
  Some (set_b6_landlord (s' LANDLORD6_INFO_REQUESTING (now +32 interval)) b).

(** What [landlord6_tick] does with a datagram from the client port. *)
Definition landlord6_receive (now : Z) (got : option (ip6 * Z * list Z)) (s : landlord6) : option landlord6 :=
  match got with
  | Some (_, _, packet) =>
      if (0 <? zlen packet) && bool_decide (ll_state s = LANDLORD6_INFO_REQUESTING) then parse_reply now packet s else Some s
  | None => Some s
  end.

Definition landlord6_tick (now : Z) (our_mac : list Z) (our_ip : ip6) b : option (board6 D) :=
  '(got, b) ← switchboard6_recv_udp LANDLORD6_CLIENT_PORT LANDLORD6_MAX_PACKET b;
  let s := b6_landlord b in
  s' ← landlord6_receive now got s;
  let b := set_b6_landlord s' b in
  if bool_decide (ll_state s = LANDLORD6_INFO_REQUESTING) && bool_decide (ll_state s' = LANDLORD6_BOUND) then Some b
  else if bool_decide (ll_state s' = LANDLORD6_INFO_REQUESTING) && (ll_next_retry_tick s' <=? now) then
    let interval := if MRT_TICKS <? ll_retry_interval s' *32 2 then MRT_TICKS else ll_retry_interval s' *32 2 in
    ask_again now our_mac our_ip (ll_first_send_tick s') interval b
  else if bool_decide (ll_state s' = LANDLORD6_BOUND) && (ll_refresh_at_tick s' <=? now) then ask_again now our_mac our_ip now IRT_TICKS b
  else Some b.
Definition landlord6_get_state b : landlord6_state := ll_state (b6_landlord b).
Definition landlord6_get_dns_servers b : list ip6 := ll_dns (b6_landlord b).
End Landlord.

(** ** Concierge6 *)

Definition RS_RETRY_TICKS : Z := 4 * PIT_HZ.
Definition RS_MAX_ATTEMPTS : Z := 3.
Definition DAD_WAIT_TICKS : Z := 1 * PIT_HZ.
Definition DAD_MAX_RETRIES : Z := 3.

Definition form_link_local (mac : list Z) : option ip6 :=
  m0 ← rd mac 0; m1 ← rd mac 1; m2 ← rd mac 2; m3 ← rd mac 3; m4 ← rd mac 4; m5 ← rd mac 5;
  Some [0xfe; 0x80; 0; 0; 0; 0; 0; 0; Z.lxor m0 0x02; m1; m2; 0xff; 0xfe; m3; m4; m5].

Definition suffix_mix (h : Z * Z) (x : Z) : Z * Z := (Z.lxor (fst h) x *32 2654435761, Z.lxor (snd h) x *32 2246822519).
Definition derive_privacy_suffix (mac : list Z) (prefix : ip6) (attempt : Z) : list Z :=
  let '(h1, h2) := foldl suffix_mix (foldl suffix_mix (Z.lxor 0x9E3779B9 attempt, Z.lxor 0x85EBCA6B attempt) (take 6 mac)) (take 8 prefix) in
  put32 (Z.lxor h1 (Z.shiftr h1 15)) ++ put32 (Z.lxor h2 (Z.shiftr h2 13)).

Section Concierge.
Context `{TxDriver D}.
Implicit Types (b : board6 D).

Definition on_net6 (f : net6 D -> net6 D) b : board6 D := set_b6_net (f (b6_net b)) b.
Definition on_echo6 (f : echo6 -> echo6) b : board6 D := on_net6 (fun n => set_m_echo (f (m_echo n)) n) b.
Definition on_rolodex6 (f : rolodex6 -> rolodex6) b : board6 D := on_net6 (fun n => set_m_link (set_rolodex6 (f (l6_rolodex (m_link n))) (m_link n)) n) b.
Definition on_atlas6 (f : atlas6 -> atlas6) b : board6 D := on_net6 (fun n => set_m_atlas (f (m_atlas n)) n) b.

Definition cg_with (st : concierge6_state) (deadline : Z) (c : concierge6) : concierge6 :=
  mkConcierge6 st (cg_link_local_ip c) (cg_global_ip c) (cg_active_ip c) (cg_next_rs_tick c) (cg_rs_attempts c) deadline (cg_dad_retries c) (cg_pending_prefix c).

(** The deadline set by [start_dad] and the state after it. *)
Definition start_dad (now : Z) (our_mac : list Z) (candidate_ip : ip6) b : option (board6 D) :=
  let b := on_echo6 (echo6_dad_watch candidate_ip) b in
  '(_, l) ← echo6_dispatch_neighbor_solicitation now candidate_ip our_mac ip6_zero (m_link (b6_net b));
  let b := on_net6 (set_m_link l) b in
  Some (set_b6_concierge (cg_with (cg_state (b6_concierge b)) (now +32 DAD_WAIT_TICKS) (b6_concierge b)) b).

Definition concierge6_start (now : Z) (our_mac : list Z) b : option (board6 D) :=
  ll ← form_link_local our_mac;
  let c := b6_concierge b in
  let b := set_b6_concierge (mkConcierge6 (cg_state c) ll (cg_global_ip c) (cg_active_ip c) (cg_next_rs_tick c) (cg_rs_attempts c) (cg_dad_deadline c) (cg_dad_retries c) (cg_pending_prefix c)) b in
  b ← start_dad now our_mac ll b;
  Some (set_b6_concierge (cg_with CONCIERGE6_DAD_LINK_LOCAL (cg_dad_deadline (b6_concierge b)) (b6_concierge b)) b).

Definition solicit_router (now : Z) (our_mac : list Z) b : board6 D :=
  on_net6 (fun n => set_m_link (snd (echo6_dispatch_router_solicitation now our_mac (cg_link_local_ip (b6_concierge b)) (m_link n))) n) b.

(** The link-local address passes into use. *)
Definition tick_dad_link_local (now : Z) (our_mac : list Z) b : option (board6 D) :=
  if negb (echo6_dad_conflict (m_echo (b6_net b))) && (now <? cg_dad_deadline (b6_concierge b)) then Some b
  else
    let ip := cg_link_local_ip (b6_concierge b) in
    let b := on_echo6 echo6_dad_clear (on_rolodex6 (rolodex6_set_ip ip) b) in
    let b := solicit_router now our_mac b in
    let c := b6_concierge b in
    Some (set_b6_concierge (mkConcierge6 CONCIERGE6_SOLICITING_ROUTER ip (cg_global_ip c) ip (now +32 RS_RETRY_TICKS) 1 (cg_dad_deadline c) (cg_dad_retries c) (cg_pending_prefix c)) b).

(** A candidate for the global address: eight bytes of prefix, eight derived. *)
Definition try_global (now : Z) (our_mac : list Z) (prefix : ip6) (attempt retries : Z) b : option (board6 D) :=
  let ip := take 8 prefix ++ derive_privacy_suffix our_mac prefix attempt in
  let c := b6_concierge b in
  start_dad now our_mac ip (set_b6_concierge (mkConcierge6 (cg_state c) (cg_link_local_ip c) ip (cg_active_ip c) (cg_next_rs_tick c) (cg_rs_attempts c) (cg_dad_deadline c) retries prefix) b).

Definition to_ready (now : Z) (our_mac : list Z) b : option (board6 D) :=
  b ← landlord6_start now our_mac (cg_active_ip (b6_concierge b)) b;
  Some (set_b6_concierge (cg_with CONCIERGE6_READY (cg_dad_deadline (b6_concierge b)) (b6_concierge b)) b).

Definition tick_soliciting (now : Z) (our_mac : list Z) b : option (board6 D) :=
  if echo6_have_router_advertisement (m_echo (b6_net b)) then
    let '(prefix, prefix_len) := echo6_get_prefix (m_echo (b6_net b)) in
    if negb (prefix_len =? 64) then to_ready now our_mac b
    else
      b ← try_global now our_mac prefix 0 0 b;
      Some (set_b6_concierge (cg_with CONCIERGE6_DAD_GLOBAL (cg_dad_deadline (b6_concierge b)) (b6_concierge b)) b)
  else if (cg_next_rs_tick (b6_concierge b) <=? now) && (cg_rs_attempts (b6_concierge b) <? RS_MAX_ATTEMPTS) then
    let b := solicit_router now our_mac b in
    let c := b6_concierge b in
    Some (set_b6_concierge (mkConcierge6 (cg_state c) (cg_link_local_ip c) (cg_global_ip c) (cg_active_ip c) (now +32 RS_RETRY_TICKS) (cg_rs_attempts c +32 1) (cg_dad_deadline c)
                              (cg_dad_retries c) (cg_pending_prefix c)) b)
  else Some b.

Definition tick_dad_global (now : Z) (our_mac : list Z) b : option (board6 D) :=
  let c := b6_concierge b in
  if echo6_dad_conflict (m_echo (b6_net b)) then
    let retries := cg_dad_retries c +32 1 in
    let b := on_echo6 echo6_dad_clear b in
    if DAD_MAX_RETRIES <=? retries then
      to_ready now our_mac (set_b6_concierge (mkConcierge6 (cg_state c) (cg_link_local_ip c) (cg_global_ip c) (cg_active_ip c) (cg_next_rs_tick c) (cg_rs_attempts c) (cg_dad_deadline c)
                                                 retries (cg_pending_prefix c)) b)
    else try_global now our_mac (cg_pending_prefix c) (u8 retries) retries b
  else if now <? cg_dad_deadline c then Some b
  else
    let ip := cg_global_ip c in
    let b := on_echo6 echo6_dad_clear (on_rolodex6 (rolodex6_set_ip ip) b) in
    let b := on_atlas6 (fun a => snd (atlas6_add_route (cg_pending_prefix c) 64 ip6_zero (atlas6_set_default_gateway (echo6_get_router (m_echo (b6_net b))) a))) b in
    to_ready now our_mac (set_b6_concierge (mkConcierge6 (cg_state c) (cg_link_local_ip c) ip ip (cg_next_rs_tick c) (cg_rs_attempts c) (cg_dad_deadline c) (cg_dad_retries c)
                                               (cg_pending_prefix c)) b).

Definition concierge6_tick (now : Z) (our_mac : list Z) b : option (board6 D) :=
  match cg_state (b6_concierge b) with
  | CONCIERGE6_DAD_LINK_LOCAL => tick_dad_link_local now our_mac b
  | CONCIERGE6_SOLICITING_ROUTER => tick_soliciting now our_mac b
  | CONCIERGE6_DAD_GLOBAL => tick_dad_global now our_mac b
  | CONCIERGE6_READY => landlord6_tick now our_mac (cg_active_ip (b6_concierge b)) b
  end.
Definition concierge6_get_state b : concierge6_state := cg_state (b6_concierge b).
Definition concierge6_get_global_ip b : ip6 := cg_global_ip (b6_concierge b).

(** ** The periodic tick *)

Definition concierge_tick_ipv6 (now : Z) (our_mac : list Z) b : option (board6 D) :=
  let n := b6_net b in
  let '(t, l) := scheduler6_tick now (rapport6_tick now (m_tcp n), m_link n) in
  let n := set_m_link (set_rolodex6 (rolodex6_tick now (l6_rolodex l)) l) (set_m_tcp t n) in
  let n := set_m_guard (set_guests (guestlist6_tick now (gd_guests (m_guard n))) (m_guard n)) n in
  n ← foyer6_tick now our_mac (rolodex6_get_ip (l6_rolodex (m_link n))) n;
  let n := set_m_frag (fragment6_tick now (m_frag n)) n in
  concierge6_tick now our_mac (set_b6_net n b).

(** ** Ledger6 *)

Record ledger6 := mkLedger6 {
  l6_ip : Z * Z; l6_tcp : Z * Z; l6_udp : Z * Z; l6_icmp : Z * Z;
  l6_curfew_denied : Z; l6_rolodex_entries : Z; l6_rolodex_contradiction : Z; l6_guestlist_entries : Z; l6_menu_entries : Z;
  l6_bailiff_transmitted : Z; l6_bailiff_denied : Z; l6_lockbox_active : Z; l6_atlas_routes : Z;
  l6_scheduler_retransmit : Z; l6_scheduler_gaveup : Z; l6_sentry_flagged : Z;
  l6_fragment_completed : Z; l6_fragment_overlap : Z; l6_fragment_timeout : Z }.

Definition ledger6_snapshot (n : net6 D) : ledger6 :=
  mkLedger6 (compass6_accepted_count n, compass6_rejected_count n) (tcp6_accepted_count n, tcp6_rejected_count n)
    (postcard6_accepted_count n, postcard6_rejected_count n) (echo6_accepted_count (m_echo n), echo6_rejected_count (m_echo n))
    (curfew6_denied_count (gd_curfew (m_guard n))) (rolodex6_entry_count (l6_rolodex (m_link n))) (rolodex6_contradiction_count (l6_rolodex (m_link n)))
    (guestlist6_count (gd_guests (m_guard n))) (menu_count (m_menu n))
    (bailiff_transmitted_count (l6_bailiff (m_link n))) (bailiff_denied_count (l6_bailiff (m_link n)))
    (lockbox6_active_count (t6_lockbox (m_tcp n))) (atlas6_route_count (m_atlas n))
    (scheduler6_retransmit_count (t6_sched (m_tcp n))) (scheduler6_giveup_count (t6_sched (m_tcp n))) (sentry6_flagged_count (gd_sentry (m_guard n)))
    (fragment6_completed_count (m_frag n)) (fragment6_overlap_count (m_frag n)) (fragment6_timeout_count (m_frag n)).
End Concierge.
