(* ===== verification/Host6.v ===== *)
(** * The IPv6 side as one transition system

    Packets from the card, ticks and socket calls in any order: only two kinds of
    packet make the code leave a buffer. *)

From stdpp Require Import list_numbers.
From S2P Require Import Prelude SlotTable GuestList Ids RateLimit Sentry Bailiff Rolodex Foyer LockBox Ring Inbox Why Scheduler Rapport Transport Checksum.
From S2P Require Import TcpInv Compass Conversation.
From S2P Require Import Fragment6 Atlas6 Guard6 Link6 Echo6 Tcp6 Net6 Conversation6 Compass6 Input6 Board6.
Import GuestList Menu Ids Curfew Inbox Postbox.

#[local] Open Scope Z_scope.

(** ** The transition system *)

Inductive event6 :=
| Packet6 (now : Z) (payload src_mac : list Z) | Tick6 (now : Z) | Start6 (now : Z)
| Connect6 (now : Z) (ip : ip6) (port : Z) | Send6 (now : Z) (id : nat) (data : list Z) | Close6 (now : Z) (id : nat)
| Bind6 (port : Z) | Accept6 (port : Z) | Recv6 (id max_len : nat)
| SendUdp6 (now local_port : Z) (ip : ip6) (port : Z) (data : list Z) | RecvUdp6 (port : Z) (max_len : nat).

Section Exec.
Context `{TxDriver D}.

Definition exec6 (e : event6) (b : board6 D) : option (board6 D) :=
  let mac := m_mac (b6_net b) in
  let our := rolodex6_get_ip (l6_rolodex (m_link (b6_net b))) in
  match e with
  | Packet6 now payload src_mac => n ← compass6_handle now payload src_mac (b6_net b); Some (set_b6_net n b)
  | Tick6 now => concierge_tick_ipv6 now mac b
  | Start6 now => concierge6_start now mac b
  | Connect6 now ip port => snd <$> switchboard6_connect now ip port mac our b
  | Send6 now id data => Some (snd (switchboard6_send now id data mac our b))
  | Close6 now id => Some (snd (switchboard6_close now id mac our b))
  | Bind6 port => Some (snd (switchboard6_bind port b))
  | Accept6 port => snd <$> switchboard6_accept port b
  | Recv6 id max_len => snd <$> switchboard6_recv id max_len b
  | SendUdp6 now lp ip port data => snd <$> switchboard6_send_udp now lp ip port mac our data b
  | RecvUdp6 port max_len => snd <$> switchboard6_recv_udp port max_len b
  end.

Fixpoint run6 (es : list event6) (b : board6 D) : option (board6 D) :=
  match es with [] => Some b | e :: es' => b' ← exec6 e b; run6 es' b' end.

(** Packets are bytes, at most 65535 of them; addresses have sixteen; the clock has
    not run out. *)
Definition event6_ok (e : event6) : Prop :=
  match e with
  | Packet6 now payload _ => 0 <= now < 0xFFFFFFFF /\ bytes payload /\ zlen payload < 65536
  | Connect6 _ ip _ | SendUdp6 _ _ ip _ _ => length ip = 16%nat
  | _ => True
  end.

(** The packet carries a message that is read past its end. *)
Definition overreads (e : event6) (b : board6 D) : Prop :=
  match e with
  | Packet6 now payload mac => exists nh m src dst n1, compass6_admit now payload mac (b6_net b) = Some (Ip6Deliver nh m src dst, n1) /\ overread6 nh m src dst n1
  | _ => False
  end.
End Exec.

Record board6_ok {D} (b : board6 D) : Prop := {
  bk_net : net6_ok (b6_net b);
  bk_accepted : length (b6_accepted_generation b) = LOCKBOX6_CAPACITY;
  bk_link_local : length (cg_link_local_ip (b6_concierge b)) = 16%nat;
  bk_global : length (cg_global_ip (b6_concierge b)) = 16%nat;
  bk_active : length (cg_active_ip (b6_concierge b)) = 16%nat;
  bk_prefix : length (cg_pending_prefix (b6_concierge b)) = 16%nat;
  bk_duid : length (ll_duid (b6_landlord b)) = 10%nat }.

(** ** Sending *)

Section Out.
Context `{TxDriver D}.
Implicit Types (n : net6 D) (b : board6 D).

Lemma board6_net_ok n b : board6_ok b -> net6_ok n -> board6_ok (set_b6_net n b).
Proof. intros [] Hn. by split. Qed.

Lemma board6_tcp n b : board6_ok b -> tcp_only (b6_net b) n -> board6_ok (set_b6_net n b).
Proof. intros K T. apply board6_net_ok; [done|]. by eapply net6_ok_tcp; [apply K|]. Qed.

Lemma solicited_node_some ip : length ip = 16%nat -> is_Some (solicited_node ip).
Proof.
  intros Hl. unfold solicited_node. destruct (rd_in_range ip 13) as [? ->]; [unfold zlen; lia|]. destruct (rd_in_range ip 14) as [? ->]; [unfold zlen; lia|].
  destruct (rd_in_range ip 15) as [? ->]; [unfold zlen; lia|]. done.
Qed.

Lemma solicitation_total now ip mac our (l : link6 D) : length ip = 16%nat ->
  exists ok l', echo6_dispatch_neighbor_solicitation now ip mac our l = Some (ok, l') /\ l6_rolodex l' = l6_rolodex l.
Proof.
  intros Hl. unfold echo6_dispatch_neighbor_solicitation. destruct (solicited_node_some ip Hl) as [[d m] ->]. cbn [mbind option_bind].
  match goal with |- context [send6 now ?f l] => pose proof (send6_rolodex now f l) as E; destruct (send6 now f l) as [ok l'] end. by exists ok, l'.
Qed.

Lemma postcard6_dispatch_total now ip port sp mac our data n : length ip = 16%nat ->
  exists ok l, postcard6_dispatch now ip port sp mac our data n = Some (ok, set_m_link l n) /\ l6_rolodex l = l6_rolodex (m_link n).
Proof.
  intros Hl. assert (E0 : n = set_m_link (m_link n) n) by (by destruct n). unfold postcard6_dispatch. destruct (_ <? _); [exists false, (m_link n); by rewrite <- E0|].
  destruct (rd_in_range ip 0) as [b0 ->]; [unfold zlen; lia|]. cbn [mbind option_bind]. unfold multicast_mac.
  destruct (rd_in_range ip 12) as [? ->]; [unfold zlen; lia|]. destruct (rd_in_range ip 13) as [? ->]; [unfold zlen; lia|].
  destruct (rd_in_range ip 14) as [? ->]; [unfold zlen; lia|]. destruct (rd_in_range ip 15) as [? ->]; [unfold zlen; lia|]. cbn [mbind option_bind].
  match goal with |- context [if b0 =? 255 then ?x else ?y] => assert (exists dm, (if b0 =? 255 then x else y) = Some dm) as [dm ->] by (destruct (b0 =? 255); eauto) end.
  cbn [mbind option_bind]. destruct dm as [dm|]; [|exists false, (m_link n); by rewrite <- E0].
  match goal with |- context [send6 now ?f (m_link n)] => pose proof (send6_rolodex now f (m_link n)) as E; destruct (send6 now f (m_link n)) as [ok l] end. by exists ok, l.
Qed.

Lemma dispatch_then_present now n (o : option Z * net6 D) : tcp_only n (snd o) ->
  tcp_only n (match o with (None, n) => n | (Some id, n) => snd (present6_last now id n) end).
Proof. destruct o as [[id|] n1]; cbn; intros T; [|done]. eapply tcp_only_trans; [exact T|]. apply present6_last_only. Qed.

Lemma send_data6_only now id data mac ip n : tcp_only n (snd (conversation6_dispatch_data now id data mac ip n)).
Proof.
  unfold conversation6_dispatch_data. destruct (_ || _); [apply tcp_only_refl|]. destruct (negb _); [apply tcp_only_refl|]. destruct (_ <? _); [apply tcp_only_refl|]. destruct (negb _); [apply tcp_only_refl|].
  match goal with |- context [conversation6_dispatch ?a ?b ?c ?d ?e ?f ?g ?h ?i] => pose proof (dispatch6_only a b c d e f g h i) as Hd; destruct (conversation6_dispatch a b c d e f g h i) as [[p|] n1] end; [|done].
  cbn in *. eapply tcp_only_trans; [exact Hd|]. eapply tcp_only_trans; [apply track6_only|apply on_rapport6_only].
Qed.

Lemma send_fin6_only now id mac ip n : tcp_only n (snd (conversation6_dispatch_fin now id mac ip n)).
Proof.
  unfold conversation6_dispatch_fin. destruct (_ && _); [apply tcp_only_refl|]. destruct (_ <? _); [apply tcp_only_refl|].
  match goal with |- context [conversation6_dispatch ?a ?b ?c ?d ?e ?f ?g ?h ?i] => pose proof (dispatch6_only a b c d e f g h i) as Hd; destruct (conversation6_dispatch a b c d e f g h i) as [[p|] n1] end; [|done].
  cbn in *. eapply tcp_only_trans; [exact Hd|]. eapply tcp_only_trans; [apply track6_only|]. eapply tcp_only_trans; apply on_rapport6_only.
Qed.

Lemma send_syn6_only now id isn mac ip n : tcp_only n (snd (conversation6_dispatch_syn now id isn mac ip n)).
Proof.
  unfold conversation6_dispatch_syn.
  match goal with |- context [conversation6_dispatch ?a ?b ?c ?d ?e ?f ?g ?h ?i] => pose proof (dispatch6_only a b c d e f g h i) as Hd; destruct (conversation6_dispatch a b c d e f g h i) as [[p|] n1] end; [|done].
  cbn in *. eapply tcp_only_trans; [exact Hd|apply track6_only].
Qed.

(** ** The socket calls *)

Lemma connect6_ok now ip port mac our b : board6_ok b -> length ip = 16%nat -> length our = 16%nat ->
  exists o b', switchboard6_connect now ip port mac our b = Some (o, b') /\ board6_ok b'.
Proof.
  intros K Hip Hour. unfold switchboard6_connect. destruct (pick_ephemeral6_port _ _) as [lp next]. set (b1 := mkBoard6 _ next _ _ _). assert (K1 : board6_ok b1) by (by destruct K).
  destruct (lp =? 0); [by eexists _, _|]. pose proof (claim6_table lp ip port 6 (t6_lockbox (m_tcp (b6_net b1)))) as Hct. destruct (lockbox6_claim _ _ _ _ _) as [[res out] x]. cbn in Hct. cbn zeta.
  set (n1 := set_m_tcp (set_t6_lockbox x (m_tcp (b6_net b1))) (b6_net b1)). assert (T1 : tcp_only (b6_net b1) n1) by (apply tcp_only_ok; intros Kt; exact (tcp6_ok_box x _ Kt Hct)).
  destruct out as [id|]; [|eexists _, _; split; [done|by apply board6_tcp]].
  unfold draw_isn6_outbound. destruct (tail32_total our Hour) as [u ->], (tail32_total ip Hip) as [v ->]. cbn [mbind option_bind]. eexists _, _. split; [done|]. apply board6_tcp; [done|].
  eapply tcp_only_trans; [exact T1|]. eapply tcp_only_trans; [apply on_rapport6_only|]. apply dispatch_then_present, send_syn6_only.
Qed.

Lemma send6_ok now id data mac our b : board6_ok b -> board6_ok (snd (switchboard6_send now id data mac our b)).
Proof.
  intros K. unfold switchboard6_send. pose proof (send_data6_only now id data mac our (b6_net b)) as T. destruct (conversation6_dispatch_data _ _ _ _ _ _) as [[p|] n1]; cbn in T; [|by apply board6_tcp].
  pose proof (present6_last_only now p n1) as T2. destruct (present6_last now p n1) as [ok n2]. cbn in *. apply board6_tcp; [done|]. by eapply tcp_only_trans.
Qed.

Lemma close6_ok now id mac our b : board6_ok b -> board6_ok (snd (switchboard6_close now id mac our b)).
Proof.
  intros K. unfold switchboard6_close. pose proof (send_fin6_only now id mac our (b6_net b)) as T. destruct (conversation6_dispatch_fin _ _ _ _ _) as [[p|] n1]; cbn in T; [|by apply board6_tcp].
  pose proof (present6_last_only now p n1) as T2. destruct (present6_last now p n1) as [ok n2]. cbn in *. apply board6_tcp; [done|]. by eapply tcp_only_trans.
Qed.

Lemma bind6_ok port b : board6_ok b -> board6_ok (snd (switchboard6_bind port b)).
Proof.
  intros K. unfold switchboard6_bind, lockbox6_listen. pose proof (claim6_table port ip6_zero 0 6 (box6 b)) as Hct. destruct (lockbox6_claim _ _ _ _ _) as [[r out] x]. cbn in *.
  apply board6_tcp; [done|]. apply tcp_only_ok. intros Kt. exact (tcp6_ok_box x _ Kt Hct).
Qed.

Lemma next_for_port6 port id x : length (lx_table x) = LOCKBOX6_CAPACITY ->
  lockbox6_next_for_port port 6 id x = LOCKBOX6_CAPACITY \/
  ((if (LOCKBOX6_CAPACITY <=? id)%nat then 0 else S id) <= lockbox6_next_for_port port 6 id x < LOCKBOX6_CAPACITY)%nat.
Proof.
  intros Hl. unfold lockbox6_next_for_port, or_capacity6. replace (id + 1)%nat with (S id) by lia. set (start := if (LOCKBOX6_CAPACITY <=? id)%nat then 0%nat else S id).
  destruct (find_idx _ (drop start (lx_table x))) as [i|] eqn:E; [|by left]. right. apply find_idx_lt in E. rewrite length_drop in E. cbn. lia.
Qed.

Lemma accept6_total port b : board6_ok b -> exists o b', switchboard6_accept port b = Some (o, b') /\ board6_ok b'.
Proof.
  intros K. unfold switchboard6_accept. pose proof (tk_table _ (ok_tcp _ (bk_net _ K))) as Hl. assert (Hgo : forall fuel id, (LOCKBOX6_CAPACITY - (if (LOCKBOX6_CAPACITY <=? id)%nat then 0 else S id) <= fuel)%nat ->
    exists o b', accept6_loop fuel port id b = Some (o, b') /\ board6_ok b').
  { induction fuel as [|fuel IH]; intros id Hf; cbn [accept6_loop]; destruct (next_for_port6 port id (box6 b) Hl) as [-> | Hi];
      try (rewrite Nat.eqb_refl; by eexists _, _); set (i := lockbox6_next_for_port port 6 id (box6 b)) in *; [lia|].
    destruct (Nat.eqb_spec i LOCKBOX6_CAPACITY); [lia|]. destruct (lookup_lt_is_Some_2 (b6_accepted_generation b) i) as [g ->]; [rewrite (bk_accepted _ K); lia|]. cbn [mbind option_bind].
    destruct (_ && _); [|apply IH; destruct (Nat.leb_spec LOCKBOX6_CAPACITY i); lia]. eexists _, _. split; [done|]. destruct K. split; try done. cbn. by rewrite length_insert. }
  apply Hgo. rewrite Nat.leb_refl. lia.
Qed.

Lemma recv6_total id k b : board6_ok b -> exists out b', switchboard6_recv id k b = Some (out, b') /\ board6_ok b'.
Proof.
  intros K. unfold switchboard6_recv. destruct (Nat.leb_spec LOCKBOX6_CAPACITY id) as [|Hid]; [by eexists _, _|].
  destruct (lookup_lt_is_Some_2 (b6_accepted_generation b) id) as [g ->]; [rewrite (bk_accepted _ K); lia|]. cbn [mbind option_bind]. destruct (negb _); [by eexists _, _|].
  destruct (ok_tcp _ (bk_net _ K)) as [Hw Hi Ht]. unfold inbox6_read. destruct (inbox_read_shape id k (box6 b) (t6_inbox (m_tcp (b6_net b))) Hi) as (out & x & ib & -> & Hib & Hx). cbn [mbind option_bind].
  eexists _, _. split; [done|]. apply board6_tcp; [done|]. apply tcp_only_ok. intros _. split; [done|done|cbn; congruence].
Qed.

Lemma recv_udp6_total port k b : board6_ok b -> exists o b', switchboard6_recv_udp port k b = Some (o, b') /\ board6_ok b' /\
  b6_landlord b' = b6_landlord b /\ b6_concierge b' = b6_concierge b /\ m_mac (b6_net b') = m_mac (b6_net b) /\
  forall ip p data, o = Some (ip, p, data) -> (length data <= k)%nat.
Proof.
  intros K. unfold switchboard6_recv_udp. destruct (_ =? _)%nat; [by eexists _, _|]. set (slot := lockbox6_find_listener _ _ _). unfold postbox6_read, postbox_read.
  assert (Hsame : exists o b', Some (None, set_b6_net (set_m_postbox (m_postbox (b6_net b)) (b6_net b)) b) = Some (o, b') /\ board6_ok b' /\ b6_landlord b' = b6_landlord b /\ b6_concierge b' = b6_concierge b /\
    m_mac (b6_net b') = m_mac (b6_net b) /\ forall (ip : ip6) (p : Z) (data : list Z), o = Some (ip, p, data) -> (length data <= k)%nat).
  { eexists _, _. split; [done|]. split; [|done]. apply board6_net_ok; [done|]. by destruct (bk_net _ K). }
  destruct (m_postbox (b6_net b) !! slot) as [s|] eqn:E; [|exact Hsame]. destruct (pb_pending s =? 0)%nat; [exact Hsame|].
  pose proof (Forall_lookup_1 _ _ _ _ (ok_postbox _ (bk_net _ K)) E) as [Hq Hh]. destruct (lookup_lt_is_Some_2 (pb_queue s) (pb_head s)) as [e ->]; [lia|]. cbn [mbind option_bind].
  eexists _, _. split; [done|]. split; [|split; [done|]; split; [done|]; split; [done|]].
  - apply board6_net_ok; [done|]. destruct (bk_net _ K). split; try done. cbn. apply Forall_insert; [done|]. cbn. split; [done|]. apply Nat.mod_upper_bound. done.
  - intros ip p data [= <- <- <-]. rewrite length_take. destruct (Nat.ltb_spec k (length (ev_data e))); lia.
Qed.

Lemma send_udp6_total now lp ip port mac our data b : board6_ok b -> length ip = 16%nat ->
  exists o b', switchboard6_send_udp now lp ip port mac our data b = Some (o, b') /\ board6_ok b' /\ b6_landlord b' = b6_landlord b /\ b6_concierge b' = b6_concierge b /\
    m_mac (b6_net b') = m_mac (b6_net b).
Proof.
  intros K Hl. unfold switchboard6_send_udp. destruct (postcard6_dispatch_total now ip port lp mac our data (b6_net b) Hl) as (ok & l & -> & El). cbn [mbind option_bind].
  eexists _, _. split; [done|]. split; [|done]. apply board6_tcp; [done|]. by apply tcp_only_link.
Qed.
End Out.

(** ** The DHCPv6 client *)

Section Landlord.
Context `{TxDriver D}.
Implicit Types (b : board6 D).

Lemma be16_nonneg a c : 0 <= be16 a c < 65536.
Proof. unfold be16, u16. lia_mod. Qed.

Lemma take_dns_total packet off ks : forall dns, (forall k, k ∈ ks -> 0 <= off /\ Z.of_nat k * 16 < 65536 /\ off + Z.of_nat k * 16 + 16 <= zlen packet) -> is_Some (take_dns packet off ks dns).
Proof.
  induction ks as [|k ks IH]; intros dns Hk; cbn [take_dns]; [done|]. destruct (_ <? _)%nat; [|done]. destruct (Hk k) as (H0 & H1 & H2); [by left|].
  rewrite u16_small by (unfold is_u16; lia). rewrite slice_in_range by (unfold zlen in *; lia). cbn [mbind option_bind]. apply IH. intros j Hj. apply Hk. by right.
Qed.

Lemma reply_options_total packet duid fuel : zlen packet <= 256 -> length duid = 10%nat -> forall i seen dns refresh, 0 <= i -> zlen packet < i + 4 * Z.of_nat fuel -> (0 < fuel)%nat ->
  is_Some (reply_options fuel packet duid i seen dns refresh).
Proof.
  intros Hz Hd. induction fuel as [|fuel IH]; intros i seen dns refresh Hi Hf H0; [lia|]. cbn [reply_options]. destruct (Z.ltb_spec (zlen packet) (i + 4)) as [|H4]; [done|].
  destruct (rd_in_range packet i) as [c0 ->]; [lia|]. destruct (rd_in_range packet (i + 1)) as [c1 ->]; [lia|]. destruct (rd_in_range packet (i + 2)) as [l0 ->]; [lia|].
  destruct (rd_in_range packet (i + 3)) as [l1 ->]; [lia|]. cbn [mbind option_bind]. rewrite (u16_small (i + 4)) by (unfold is_u16; lia). pose proof (be16_nonneg l0 l1) as Hlen. set (len := be16 l0 l1) in *.
  destruct (Z.ltb_spec (zlen packet) (i + 4 + len)) as [|Hin]; [done|]. rewrite (u16_small (i + 4 + len)) by (unfold is_u16; lia).
  assert (Hnext : forall s d r, is_Some (reply_options fuel packet duid (i + 4 + len) s d r)) by (intros; apply IH; lia).
  destruct (_ =? OPT_CLIENTID).
  { destruct (Z.eqb_spec len 10) as [E|]; [|apply Hnext]. destruct (mem_eq_total packet duid (i + 4)) as [s ->]; [lia|unfold zlen in *; lia|]. cbn [mbind option_bind]. apply Hnext. }
  destruct (_ =? OPT_DNS_SERVERS).
  { destruct (take_dns_total packet (i + 4) (seq 0 (Z.to_nat (len / 16))) dns) as [d ->]; [|cbn [mbind option_bind]; apply Hnext].
    intros k Hk. apply elem_of_seq in Hk. assert (Z.of_nat k + 1 <= len / 16) by lia. pose proof (Z.mul_div_le len 16 ltac:(lia)). lia. }
  destruct (_ =? OPT_INFO_REFRESH_TIME); [|apply Hnext]. destruct (Z.eqb_spec len 4) as [E|]; [|apply Hnext].
  destruct (rd32_fits packet (i + 4)) as [r ->]; [lia|lia|]. cbn [mbind option_bind]. apply Hnext.
Qed.

Lemma parse_reply_total now packet s : zlen packet <= 256 -> length (ll_duid s) = 10%nat -> exists s', parse_reply now packet s = Some s' /\ ll_duid s' = ll_duid s.
Proof.
  intros Hz Hd. unfold parse_reply. destruct (Z.ltb_spec (zlen packet) 4) as [|H4]; [by eexists|].
  destruct (rd_in_range packet 0) as [b0 ->]; [lia|]. destruct (rd_in_range packet 1) as [b1 ->]; [lia|]. destruct (rd_in_range packet 2) as [b2 ->]; [lia|].
  destruct (rd_in_range packet 3) as [b3 ->]; [lia|]. cbn [mbind option_bind]. destruct (_ || _); [by eexists|].
  destruct (reply_options_total packet (ll_duid s) (length packet) Hz Hd 4 false [] LANDLORD6_DEFAULT_REFRESH_SEC) as [[[seen dns] refresh] ->]; [lia|unfold zlen in *; lia|unfold zlen in *; lia|].
  cbn [mbind option_bind]. destruct (negb seen); by eexists.
Qed.

Lemma new_xid_total now mac : length mac = 6%nat -> is_Some (new_xid now mac).
Proof.
  intros Hl. unfold new_xid. destruct (rd_in_range mac 2) as [? ->]; [unfold zlen; lia|]. destruct (rd_in_range mac 3) as [? ->]; [unfold zlen; lia|].
  destruct (rd_in_range mac 4) as [? ->]; [unfold zlen; lia|]. destruct (rd_in_range mac 5) as [? ->]; [unfold zlen; lia|]. done.
Qed.

Lemma board6_landlord s b : board6_ok b -> length (ll_duid s) = 10%nat -> board6_ok (set_b6_landlord s b).
Proof. intros [] Hs. by split. Qed.
Lemma board6_concierge c b : board6_ok b -> length (cg_link_local_ip c) = 16%nat -> length (cg_global_ip c) = 16%nat -> length (cg_active_ip c) = 16%nat ->
  length (cg_pending_prefix c) = 16%nat -> board6_ok (set_b6_concierge c b).
Proof. intros [] ? ? ? ?. by split. Qed.

Lemma request6_total now mac our b : board6_ok b ->
  exists b', send_information_request now mac our b = Some b' /\ board6_ok b' /\ b6_landlord b' = b6_landlord b /\ b6_concierge b' = b6_concierge b.
Proof.
  intros K. unfold send_information_request.
  destruct (send_udp6_total now LANDLORD6_CLIENT_PORT dhcpv6_all_servers LANDLORD6_SERVER_PORT mac our (information_request now (b6_landlord b)) b K eq_refl) as (o & b' & -> & K' & E1 & E2 & _).
  by exists b'.
Qed.

Lemma landlord6_start_total now mac our b : board6_ok b -> length mac = 6%nat -> exists b', landlord6_start now mac our b = Some b' /\ board6_ok b' /\ b6_concierge b' = b6_concierge b.
Proof.
  intros K Hm. unfold landlord6_start, lockbox6_listen. set (n1 := set_m_menu _ _). pose proof (claim6_table LANDLORD6_CLIENT_PORT ip6_zero 0 17 (t6_lockbox (m_tcp n1))) as Hct.
  destruct (lockbox6_claim _ _ _ _ _) as [[r out] x]. cbn in Hct. destruct (new_xid_total now mac Hm) as [xid ->]. cbn [mbind option_bind].
  assert (Hd : length (build_duid mac) = 10%nat) by (unfold build_duid; rewrite length_app; cbn; lia).
  assert (Kn : net6_ok (set_m_tcp (set_t6_lockbox x (m_tcp n1)) n1)). { destruct (bk_net _ K) as [? ? ? Kt]. split; try done. exact (tcp6_ok_box x _ Kt Hct). }
  pose proof (board6_net_ok _ b K Kn) as K1.
  match goal with |- context [send_information_request now mac our (set_b6_landlord ?s ?bb)] => destruct (request6_total now mac our (set_b6_landlord s bb)) as (b2 & -> & K2 & _ & Ec);
    [by apply board6_landlord|] end. cbn [mbind option_bind]. eexists. split; [done|]. split; [by apply board6_landlord|]. cbn. by rewrite Ec.
Qed.

Lemma ask_again_total now mac our first interval b : board6_ok b -> length mac = 6%nat ->
  exists b', ask_again now mac our first interval b = Some b' /\ board6_ok b' /\ b6_concierge b' = b6_concierge b.
Proof.
  intros K Hm. unfold ask_again. destruct (new_xid_total now mac Hm) as [xid ->]. cbn [mbind option_bind]. pose proof (bk_duid _ K) as Hd.
  match goal with |- context [send_information_request now mac our (set_b6_landlord ?s ?bb)] => destruct (request6_total now mac our (set_b6_landlord s bb)) as (b2 & -> & K2 & _ & Ec);
    [by apply board6_landlord|] end. cbn [mbind option_bind]. eexists. split; [done|]. split; [by apply board6_landlord|]. cbn. by rewrite Ec.
Qed.

Lemma landlord6_tick_total now mac our b : board6_ok b -> length mac = 6%nat -> exists b', landlord6_tick now mac our b = Some b' /\ board6_ok b' /\ b6_concierge b' = b6_concierge b.
Proof.
  intros K Hm. unfold landlord6_tick. destruct (recv_udp6_total LANDLORD6_CLIENT_PORT LANDLORD6_MAX_PACKET b K) as (o & b1 & -> & K1 & El & Ec & _ & Hlen). cbn [mbind option_bind].
  assert (exists s', landlord6_receive now o (b6_landlord b1) = Some s' /\ ll_duid s' = ll_duid (b6_landlord b1)) as (s' & -> & Es).
  { unfold landlord6_receive. destruct o as [[[ip p] data]|]; [|by eexists]. destruct (_ && _); [|by eexists]. apply parse_reply_total; [|apply K1]. specialize (Hlen _ _ _ eq_refl). unfold zlen, LANDLORD6_MAX_PACKET in *. lia. }
  cbn [mbind option_bind]. assert (K2 : board6_ok (set_b6_landlord s' b1)) by (apply board6_landlord; [done|]; rewrite Es; apply K1). rewrite <- Ec.
  destruct (_ && _); [by eexists|]. destruct (_ && _); [apply (ask_again_total _ _ _ _ _ (set_b6_landlord s' b1)); done|]. destruct (_ && _); [apply (ask_again_total _ _ _ _ _ (set_b6_landlord s' b1)); done|by eexists].
Qed.
End Landlord.

(** ** Address configuration *)

Section Concierge.
Context `{TxDriver D}.
Implicit Types (b : board6 D).

Lemma on_echo6_ok f b : board6_ok b -> length (e6_dad_watch_ip (f (m_echo (b6_net b)))) = 16%nat -> e6_ra_prefix (f (m_echo (b6_net b))) = e6_ra_prefix (m_echo (b6_net b)) ->
  board6_ok (on_echo6 f b).
Proof. intros K Hf Hr. apply board6_net_ok; [done|]. destruct (bk_net _ K). split; try done. cbn. congruence. Qed.

Lemma on_rolodex6_ok ip b : board6_ok b -> length ip = 16%nat -> board6_ok (on_rolodex6 (rolodex6_set_ip ip) b).
Proof. intros K Hip. apply board6_net_ok; [done|]. by destruct (bk_net _ K). Qed.

Lemma start_dad_total now mac ip b : board6_ok b -> length ip = 16%nat ->
  exists b', start_dad now mac ip b = Some b' /\ board6_ok b' /\ b6_concierge b' = cg_with (cg_state (b6_concierge b)) (now +32 DAD_WAIT_TICKS) (b6_concierge b).
Proof.
  intros K Hip. unfold start_dad. assert (K1 : board6_ok (on_echo6 (echo6_dad_watch ip) b)) by (by apply on_echo6_ok).
  destruct (solicitation_total now ip mac ip6_zero (m_link (b6_net (on_echo6 (echo6_dad_watch ip) b))) Hip) as (ok & l & -> & El). cbn [mbind option_bind].
  assert (K2 : board6_ok (on_net6 (set_m_link l) (on_echo6 (echo6_dad_watch ip) b))) by (apply board6_tcp; [done|]; by apply tcp_only_link).
  eexists. split; [done|]. split; [|done]. destruct K2. by apply board6_concierge.
Qed.

Lemma suffix_length mac prefix k : length (derive_privacy_suffix mac prefix k) = 8%nat.
Proof. unfold derive_privacy_suffix. by destruct (foldl _ _ _). Qed.

Lemma try_global_total now mac prefix k r b : board6_ok b -> length prefix = 16%nat -> exists b', try_global now mac prefix k r b = Some b' /\ board6_ok b'.
Proof.
  intros K Hp. unfold try_global. assert (Hip : length (take 8 prefix ++ derive_privacy_suffix mac prefix k) = 16%nat) by (rewrite length_app, length_take, suffix_length; lia).
  match goal with |- context [start_dad now mac ?ip ?bb] => destruct (start_dad_total now mac ip bb) as (b' & -> & K' & _); [|done|by eexists] end.
  destruct K. by apply board6_concierge.
Qed.

Lemma to_ready_total now mac b : board6_ok b -> length mac = 6%nat -> exists b', to_ready now mac b = Some b' /\ board6_ok b'.
Proof.
  intros K Hm. unfold to_ready. destruct (landlord6_start_total now mac (cg_active_ip (b6_concierge b)) b K Hm) as (b1 & -> & K1 & _). cbn [mbind option_bind]. eexists. split; [done|].
  destruct K1. by apply board6_concierge.
Qed.

Lemma solicit_router_ok now mac b : board6_ok b -> board6_ok (solicit_router now mac b).
Proof.
  intros K. unfold solicit_router, on_net6. apply board6_tcp; [done|]. apply tcp_only_link. unfold echo6_dispatch_router_solicitation. apply send6_rolodex.
Qed.

Lemma concierge6_tick_total now mac b : board6_ok b -> length mac = 6%nat -> exists b', concierge6_tick now mac b = Some b' /\ board6_ok b'.
Proof.
  intros K Hm. pose proof (bk_link_local _ K) as H1. pose proof (bk_global _ K) as H2. pose proof (bk_active _ K) as H3. pose proof (bk_prefix _ K) as H4. pose proof (bk_net _ K) as Kn.
  unfold concierge6_tick. destruct (cg_state (b6_concierge b)).
  - unfold tick_dad_link_local. destruct (_ && _); [by eexists|]. eexists. split; [done|]. apply board6_concierge; try done. apply solicit_router_ok.
    apply on_echo6_ok; [by apply on_rolodex6_ok|apply Kn|done].
  - unfold tick_soliciting. destruct (echo6_have_router_advertisement _).
    + unfold echo6_get_prefix. destruct (negb _); [by apply to_ready_total|].
      destruct (try_global_total now mac (e6_ra_prefix (m_echo (b6_net b))) 0 0 b K (ok_ra _ Kn)) as (b1 & -> & K1). cbn [mbind option_bind]. eexists. split; [done|]. destruct K1. by apply board6_concierge.
    + destruct (_ && _); [|by eexists]. eexists. split; [done|]. apply board6_concierge; try done. by apply solicit_router_ok.
  - unfold tick_dad_global. destruct (echo6_dad_conflict _).
    + assert (K1 : board6_ok (on_echo6 echo6_dad_clear b)) by (apply on_echo6_ok; [done|apply Kn|done]).
      destruct (_ <=? _); [apply to_ready_total; [by apply board6_concierge|done]|by apply try_global_total].
    + destruct (_ <? _); [by eexists|]. apply to_ready_total; [|done]. apply board6_concierge; try done.
      match goal with |- board6_ok (on_atlas6 _ ?bb) => assert (K1 : board6_ok bb) by (apply on_echo6_ok; [by apply on_rolodex6_ok|apply Kn|done]) end.
      apply board6_net_ok; [done|]. by destruct (bk_net _ K1).
  - destruct (landlord6_tick_total now mac (cg_active_ip (b6_concierge b)) b K Hm) as (b' & E & K' & _). by exists b'.
Qed.

Lemma concierge6_start_total now mac b : board6_ok b -> length mac = 6%nat -> exists b', concierge6_start now mac b = Some b' /\ board6_ok b'.
Proof.
  intros K Hm. unfold concierge6_start, form_link_local.
  destruct (rd_in_range mac 0) as [? ->]; [unfold zlen; lia|]. destruct (rd_in_range mac 1) as [? ->]; [unfold zlen; lia|]. destruct (rd_in_range mac 2) as [? ->]; [unfold zlen; lia|].
  destruct (rd_in_range mac 3) as [? ->]; [unfold zlen; lia|]. destruct (rd_in_range mac 4) as [? ->]; [unfold zlen; lia|]. destruct (rd_in_range mac 5) as [? ->]; [unfold zlen; lia|].
  cbn [mbind option_bind]. set (b1 := set_b6_concierge _ b). assert (K1 : board6_ok b1) by (destruct K; by apply board6_concierge).
  match goal with |- context [start_dad now mac ?ip b1] => destruct (start_dad_total now mac ip b1 K1 eq_refl) as (b2 & -> & K2 & _) end. cbn [mbind option_bind].
  eexists. split; [done|]. destruct K2. by apply board6_concierge.
Qed.

(** ** The tick *)

Lemma foyer6_slot_total now mac our i (n : net6 D) : net6_ok n -> exists n', foyer6_tick_slot now mac our i n = Some n' /\ net6_ok n' /\ m_mac n' = m_mac n.
Proof.
  intros K. unfold foyer6_tick_slot. destruct (f6_slots (m_foyer n) !! i) as [e|] eqn:E; [|by eexists]. pose proof (Forall_lookup_1 _ _ _ _ (ok_foyer _ K) E) as Ht. cbn in Ht.
  assert (Hput : forall fr u t r, Forall (fun e => length (f6_target_ip e) = 16%nat) (<[i := mkFoyer6E (f6_target_ip e) fr u t r]> (f6_slots (m_foyer n)))) by (intros; apply Forall_insert; [apply K|done]).
  destruct (negb _); [by eexists|]. destruct (rolodex6_lookup _ _) as [m|].
  - pose proof (send6_rolodex now (readdress m (f6_frame e)) (m_link n)) as El. destruct (send6 _ _ _) as [ok l]. cbn in El. eexists. split; [done|]. split; [|done].
    destruct K. split; try done; [cbn; congruence|]. cbn. by destruct ok.
  - destruct (_ <? _); [by eexists|]. destruct (_ <=? _); [eexists; split; [done|]; split; [|done]; destruct K; split; try done; apply Hput|].
    unfold send_neighbor_solicitation. destruct (solicitation_total now (f6_target_ip e) mac our (m_link n) Ht) as (ok & l & -> & El). cbn [mbind option_bind].
    eexists. split; [done|]. split; [|done]. destruct K. split; try done; [cbn; congruence|apply Hput].
Qed.

Lemma foyer6_tick_total now mac our (n : net6 D) : net6_ok n -> exists n', foyer6_tick now mac our n = Some n' /\ net6_ok n' /\ m_mac n' = m_mac n.
Proof.
  unfold foyer6_tick. generalize (seq 0 FOYER6_CAPACITY). intros todo. revert n. induction todo as [|i todo IH]; intros n K; cbn [foyer6_loop]; [by eexists|].
  destruct (foyer6_slot_total now mac our i n K) as (n1 & -> & K1 & E1). cbn [mbind option_bind]. rewrite <- E1. by apply IH.
Qed.

Lemma rapport6_tick_tables now t : same_tables t (rapport6_tick now t).
Proof.
  unfold rapport6_tick. generalize (seq 0 LOCKBOX6_CAPACITY). intros ids. revert t. induction ids as [|i ids IH]; intros t; cbn; [done|].
  assert (E : same_tables t (rapport6_tick_slot now i t)).
  { unfold rapport6_tick_slot. destruct (_ !! i); [|done]. destruct (negb _); [done|]. destruct (_ <? _); [done|]. split; [done|]. split; [done|]. cbn. by rewrite length_alter. }
  destruct E as (E1 & E2 & E3), (IH (rapport6_tick_slot now i t)) as (F1 & F2 & F3). split; [congruence|]. split; congruence.
Qed.

Lemma sched6_tick_tables now t (l : link6 D) : same_tables t (fst (scheduler6_tick now (t, l))) /\ l6_rolodex (snd (scheduler6_tick now (t, l))) = l6_rolodex l.
Proof.
  unfold scheduler6_tick. generalize (seq 0 LOCKBOX6_CAPACITY). intros ids. revert t l. induction ids as [|i ids IH]; intros t l; cbn; [done|].
  assert (E : same_tables t (fst (scheduler6_tick_slot now i (t, l))) /\ l6_rolodex (snd (scheduler6_tick_slot now i (t, l))) = l6_rolodex l).
  { unfold scheduler6_tick_slot. destruct (_ !! i) as [e|]; [|done]. destruct (negb _); [done|]. destruct (_ <? _); [done|]. destruct (_ <=? _).
    - split; [|done]. cbn. destruct (on_rst6_tables i (set_t6_sched (mkSched6 (<[i:=mkPacket6 (p6_seq e) (p6_start_timer e) (p6_retry_track e) PACKET_STATE_FAILURE (p6_frame e) (p6_srtt e) (p6_rttvar e) (p6_rto e)
        (p6_retransmitted e) (p6_last_ack_seen e) (p6_dup_ack_count e)]> (s6_entries (t6_sched t))) (s6_retransmit_total (t6_sched t)) (s6_giveup_total (t6_sched t) +32 1)) t)) as (E1 & E2 & E3). done.
    - unfold resend6. pose proof (send6_rolodex now (p6_frame e) l) as El. destruct (send6 _ _ _) as [ok l1]. by destruct ok. }
  destruct (scheduler6_tick_slot now i (t, l)) as [t1 l1]. cbn in E. destruct E as ((E1 & E2 & E3) & E4), (IH t1 l1) as ((F1 & F2 & F3) & F4).
  split; [|congruence]. split; [congruence|]. split; congruence.
Qed.

Lemma tick6_total now mac b : board6_ok b -> length mac = 6%nat -> exists b', concierge_tick_ipv6 now mac b = Some b' /\ board6_ok b'.
Proof.
  intros K Hm. unfold concierge_tick_ipv6. destruct (sched6_tick_tables now (rapport6_tick now (m_tcp (b6_net b))) (m_link (b6_net b))) as [(E1 & E2 & E3) E4].
  destruct (rapport6_tick_tables now (m_tcp (b6_net b))) as (F1 & F2 & F3). destruct (scheduler6_tick _ _) as [t l]. cbn in E1, E2, E3, E4. cbn zeta.
  match goal with |- context [foyer6_tick now mac ?our ?n] => destruct (foyer6_tick_total now mac our n) as (n1 & -> & K1 & Em) end.
  { destruct (bk_net _ K) as [? ? ? [? ? ?]]. split; try done; [split; cbn; congruence|]. cbn. unfold rolodex6_get_ip in *. cbn. congruence. }
  cbn [mbind option_bind]. apply concierge6_tick_total; [|done]. apply board6_net_ok; [done|]. destruct K1 as [Kf Kb]. split; try done; cbn; [by apply tick_ok|].
  apply Forall_fmap. eapply Forall_impl; [|exact Kb]. intros s Hs. cbn. by destruct (re_expired now s).
Qed.
End Concierge.

(** ** One event and many *)

Section Run.
Context `{TxDriver D}.
Implicit Types (b : board6 D).

Lemma packet6_step now payload mac b : event6_ok (Packet6 now payload mac) -> board6_ok b ->
  match exec6 (Packet6 now payload mac) b with None => overreads (Packet6 now payload mac) b | Some b' => ~ overreads (Packet6 now payload mac) b /\ board6_ok b' end.
Proof.
  intros (Hnow & Hb & Hl) K. cbn [exec6 overreads]. unfold compass6_handle.
  destruct (admit6_total now payload mac (b6_net b) Hb Hl (bk_net _ K)) as (o & n1 & E & K1 & Hm). rewrite E. cbn [mbind option_bind].
  destruct o as [|nh m src dst]; [split; [by intros (? & ? & ? & ? & ? & ? & ?)|by apply board6_net_ok]|].
  destruct (Hm _ _ _ _ eq_refl) as (Bm & Lm & Ls & Ld). pose proof (dispatch6_faults now nh m src dst n1 Hnow Bm Lm Ls Ld K1) as Hf.
  destruct (dispatch6 ip6_directory now nh m src dst n1) as [n2|] eqn:Ed; cbn [mbind option_bind]; [|by exists nh, m, src, dst, n1]. destruct Hf as [Hf K2].
  split; [by intros (? & ? & ? & ? & ? & [= <- <- <- <- <-] & ?)|]. by apply board6_net_ok.
Qed.

Lemma exec6_step e b : event6_ok e -> board6_ok b -> match exec6 e b with None => overreads e b | Some b' => ~ overreads e b /\ board6_ok b' end.
Proof.
  intros He K. pose proof (ok_ip _ (bk_net _ K)) as Hip. pose proof (ok_mac _ (bk_net _ K)) as Hm. destruct e; [by apply packet6_step|..]; cbn [exec6 overreads event6_ok] in *.
  - destruct (tick6_total now _ b K Hm) as (b' & -> & K'). by split; [intros []|].
  - destruct (concierge6_start_total now _ b K Hm) as (b' & -> & K'). by split; [intros []|].
  - destruct (connect6_ok now ip port (m_mac (b6_net b)) _ b K He Hip) as (o & b' & -> & K'). by split; [intros []|].
  - split; [by intros []|by apply send6_ok].
  - split; [by intros []|by apply close6_ok].
  - split; [by intros []|by apply bind6_ok].
  - destruct (accept6_total port b K) as (o & b' & -> & K'). by split; [intros []|].
  - destruct (recv6_total id max_len b K) as (o & b' & -> & K'). by split; [intros []|].
  - destruct (send_udp6_total now local_port ip port (m_mac (b6_net b)) (rolodex6_get_ip (l6_rolodex (m_link (b6_net b)))) data b K He) as (o & b' & -> & K' & _). by split; [intros []|].
  - destruct (recv_udp6_total port max_len b K) as (o & b' & -> & K' & _). by split; [intros []|].
Qed.

Lemma run6_step es b : Forall event6_ok es -> board6_ok b ->
  match run6 es b with
  | Some b' => board6_ok b'
  | None => exists es1 e es2 b1, es = es1 ++ e :: es2 /\ run6 es1 b = Some b1 /\ overreads e b1
  end.
Proof.
  intros He. revert b. induction He as [|e es He _ IH]; intros b K; cbn [run6]; [done|]. pose proof (exec6_step e b He K) as Hs.
  destruct (exec6 e b) as [b1|] eqn:E; cbn [mbind option_bind]; [|by exists [], e, es, b]. destruct Hs as [_ K1]. specialize (IH b1 K1).
  destruct (run6 es b1) as [b'|]; [done|]. destruct IH as (es1 & e' & es2 & b2 & -> & E2 & Ho). exists (e :: es1), e', es2, b2. split; [done|]. split; [|done]. cbn [run6]. rewrite E. exact E2.
Qed.

Lemma run6_faults es1 e es2 b b1 : Forall event6_ok (es1 ++ e :: es2) -> board6_ok b -> run6 es1 b = Some b1 -> overreads e b1 -> run6 (es1 ++ e :: es2) b = None.
Proof.
  revert b. induction es1 as [|x es1 IH]; intros b He K E Ho; apply Forall_cons_1 in He as [Hx He]; pose proof (exec6_step _ b Hx K) as Hs; cbn [run6 app] in *.
  - injection E as <-. destruct (exec6 e b) as [b'|]; [|done]. by destruct Hs.
  - destruct (exec6 x b) as [b'|]; [|done]. cbn [mbind option_bind] in *. apply IH; [done|apply Hs|done|done].
Qed.

Lemma boot6_ok mac menu entropy (d : D) : length mac = 6%nat -> board6_ok (board6_boot (net6_boot mac menu entropy d)).
Proof.
  intros Hm. split; try done. split; try done.
  - apply frag6_init_ok.
  - apply Forall_replicate. apply Forall_replicate. done.
  - apply sentry6_init_wf.
  - split; [by apply Forall_replicate|apply Forall_replicate|done]. split; [apply length_replicate|]. pose proof inbox_size_pos. split; cbn [ib_read_pos ib_write_pos]; lia.
  - apply Forall_replicate. split; [done|]. cbn. unfold POSTBOX6_MAX_PENDING. lia.
  - by apply Forall_replicate.
Qed.

(** C4: the IPv6 side of the host, booted and given any sequence of packets of any
    content (up to 65535 bytes, at any clock but the last value 2^32 - 1 of the
    counter), ticks and socket calls in any order, never leaves a buffer and never
    loops, except at a packet whose message is read past its end: a neighbour
    solicitation cut off inside its target address, or a datagram for a listening
    port.  The run stops exactly when it meets such a packet.  (At the excluded tick
    the scan detector can write [hits[-1]]: [sentry6_last_tick_faults].) *)
Theorem host6_faults mac menu entropy (d : D) es : length mac = 6%nat -> Forall event6_ok es ->
  let boot := board6_boot (net6_boot mac menu entropy d) in
  (run6 es boot = None <-> exists es1 e es2 b, es = es1 ++ e :: es2 /\ run6 es1 boot = Some b /\ overreads e b) /\
  (forall b, run6 es boot = Some b -> board6_ok b).
Proof.
  intros Hm He. pose proof (boot6_ok mac menu entropy d Hm) as K. cbn zeta. pose proof (run6_step es _ He K) as Hs. split; [split|].
  - intros E. rewrite E in Hs. exact Hs.
  - intros (es1 & e & es2 & b & -> & E & Ho). by eapply run6_faults.
  - intros b E. rewrite E in Hs. exact Hs.
Qed.
End Run.

(** The host configures itself from a router advertisement; then the answer of the
    DHCPv6 server, a datagram that fills its packet, is read past its end. *)
Definition demo_router : ip6 := [0xfe; 0x80; 0; 0; 0; 0; 0; 0; 0; 0; 0; 0; 0; 0; 0; 9].
Definition demo_host : ip6 := [0xfe; 0x80; 0; 0; 0; 0; 0; 0; 0; 2; 2; 0xff; 0xfe; 2; 2; 2].
Definition demo_ra : list Z :=
  let m := icmp6_message demo_router demo_host ICMP6_ROUTER_ADVERTISEMENT 0 ([64; 0; 7; 8] ++ replicate 8 0 ++ [3; 4; 64; 0xC0] ++ replicate 12 0 ++ demo6 1 2 0) in
  ip6_header (zlen m) 58 255 demo_router demo_host ++ m.
Definition demo_reply : list Z := ip6_header 12 17 64 demo_router demo_host ++ udp6_datagram 547 546 demo_router demo_host [7; 1; 2; 3].
Definition demo_events6 : list event6 :=
  [Start6 1; Tick6 200; Packet6 210 demo_ra (replicate 6 4); Tick6 220; Tick6 400].
Definition demo_board6 : board6 (list (list Z)) := board6_boot (net6_boot (replicate 6 2) menu_init 7 []).

Lemma host6_faults_witness : exists es1 e es2 b, demo_events6 ++ [Packet6 410 demo_reply (replicate 6 4)] = es1 ++ e :: es2 /\ run6 es1 demo_board6 = Some b /\ overreads e b.
Proof.
  apply (host6_faults (replicate 6 2) menu_init 7 ([] : list (list Z)) (demo_events6 ++ [Packet6 410 demo_reply (replicate 6 4)])); [done| |by vm_compute].
  assert (B : forall l, bool_decide (Forall (fun x => is_u8 x) l) = true -> bytes l) by (intros l Hl; by apply bool_decide_eq_true_1 in Hl).
  apply list.Forall_forall. intros e He. unfold demo_events6 in He. cbn [app] in He.
  repeat (apply list.elem_of_cons in He as [-> | He]; [first [exact I | split; [lia|]; split; [apply B; by vm_compute|by vm_compute]]|]). by apply elem_of_nil in He.
Defined.
