(* ===== verification/Session6.v ===== *)
(** * A TCP session over IPv6

    A peer opens a connection to a listening port and sends data: what the
    application receives, and what becomes of its answer. *)

From stdpp Require Import list_numbers.
From S2P Require Import Prelude SlotTable GuestList Ids RateLimit Sentry Bailiff Rolodex Foyer LockBox Ring Inbox Why Scheduler Rapport Transport Checksum.
From S2P Require Import TcpInv Compass Conversation.
From S2P Require Import Fragment6 Atlas6 Guard6 Link6 Echo6 Tcp6 Net6 Conversation6 Compass6 Input6 Board6 Host6.
Import GuestList Menu Ids Curfew Inbox Postbox.

#[local] Open Scope Z_scope.

(** ** Segments *)

Lemma tcp6_segment_checks src dst lp rp seq ack flags win data : is_ip6 src -> is_ip6 dst -> bytes data -> is_u8 flags -> zlen data <= TCP6_MAX_PAYLOAD ->
  exists c, is_u16 c /\ tcp6_segment src dst lp rp seq ack flags win data = tcp_with c lp rp seq ack flags win data /\
    tcp6_checksum_ok (tcp_with c lp rp seq ack flags win data) src dst = true.
Proof.
  intros Hs Hd Hb Hf Hz. unfold tcp6_segment, tcp6_checksum_ok, TCP6_MAX_PAYLOAD in *. set (c := compute_tcp6_checksum _ _ _).
  set (pre := put16 lp ++ put16 rp ++ put32 seq ++ put32 ack ++ [0x50; flags] ++ put16 win). assert (E : forall x, tcp_with x lp rp seq ack flags win data = pre ++ put16 x ++ put16 0 ++ data) by done.
  destruct (sum6_checks src dst 6 pre (put16 0 ++ data) c Hs Hd) as [Ec Uc]; [unfold is_u8; lia|by apply Nat.even_spec| |by apply bytes_app; auto with aevros| |done|].
  - unfold pre. rewrite !bytes_app. repeat (split; [first [solve [auto with aevros] | byte_list]|]). auto with aevros.
  - unfold zlen in *. rewrite length_app. cbn [length pre put16 put32 app]. lia.
  - exists c. split; [done|]. split; [done|]. rewrite E. unfold tcp6_sum. by rewrite Ec.
Qed.

(** A segment that is built by one side is accepted and read back by the other. *)
Lemma tcp6_checked src dst lp rp seq ack flags win data : is_ip6 src -> is_ip6 dst -> bytes data -> is_u8 flags -> zlen data <= TCP6_MAX_PAYLOAD -> flag_make_sense flags = true ->
  is_u16 lp -> is_u16 rp -> is_u32 seq -> is_u32 ack -> is_u16 win ->
  conversation6_check (tcp6_segment src dst lp rp seq ack flags win data) src dst = Some TCP_ACCEPT /\
  tcp_reads (tcp6_segment src dst lp rp seq ack flags win data) lp rp seq ack flags win data.
Proof.
  intros Hs Hd Hb Hf Hz Hm Hl Hr Hsq Hak Hw. destruct (tcp6_segment_checks src dst lp rp seq ack flags win data) as (c & Hc & -> & Hck); [done..|]. assert (0 <= zlen data) by (unfold zlen; lia).
  split; [|apply tcp_with_reads; try done; unfold TCP_MAX_PAYLOAD, TCP6_MAX_PAYLOAD in *; lia].
  unfold conversation6_check, TCP6_MIN_HEADER. rewrite tcp_with_zlen. destruct (Z.ltb_spec (20 + zlen data) 20); [lia|].
  change (rd (tcp_with c lp rp seq ack flags win data) 12) with (Some 0x50). change (rd (tcp_with c lp rp seq ack flags win data) 13) with (Some flags). cbn [mbind option_bind].
  change (Z.land (Z.shiftr 0x50 4) 0x0F) with 5. change (u16 (5 * 4)) with 20. destruct (Z.ltb_spec (20 + zlen data) 20); [lia|]. cbn [orb]. change (5 <? 5) with false. cbn [orb]. by rewrite Hm, Hck.
Qed.

(** ** The queue of one connection *)

Lemma find_idx_insert {A} (p : A -> bool) (l : list A) : forall i x y, l !! i = Some x -> p y = p x -> find_idx p (<[i := y]> l) = find_idx p l.
Proof.
  induction l as [|a l IH]; intros i x y Hi Hp; [done|]. destruct i as [|i]; cbn in *; [injection Hi as <-; by rewrite Hp|]. destruct (p a); [done|]. f_equal. exact (IH i x y Hi Hp).
Qed.

Lemma slot_holds_claimed gen s : (length (ib_storage s) = INBOX_SIZE) -> ib_seen_generation s <> gen -> slot_holds gen s [].
Proof.
  intros Hl Hne. pose proof inbox_size_pos. assert (E : reset_if_stale gen s = mkInbox (ib_storage s) 0 0 0 gen). { unfold reset_if_stale. apply Z.eqb_neq in Hne. by rewrite Hne. }
  split; rewrite E; cbn [ib_storage ib_read_pos ib_count ib_write_pos]; [|by rewrite Nat.Div0.mod_0_l]. apply ring_empty; [done|lia].
Qed.

Lemma inbox_deposit_slot id data x ib s e q : ib !! id = Some s -> slot_holds (lockbox_get_generation id x) s q -> lx_table x !! id = Some e -> lb_in_use e = true ->
  lb_buffered_bytes e = zlen q -> zlen q + zlen data <= 4096 ->
  exists s', inbox_deposit id data x ib = (true, mkLockbox (<[id := set_buffered (zlen (q ++ data)) e]> (lx_table x)) (lx_generation x) (lx_rejected_count x), <[id := s']> ib) /\
    slot_holds (lockbox_get_generation id x) s' (q ++ data).
Proof.
  intros Hs [Hr Hw] He Hu Hb Hz. unfold inbox_deposit, lockbox_deposit. rewrite Hs, He, Hu, Hb. cbn [negb]. assert (0 <= zlen q /\ 0 <= zlen data) by (unfold zlen; lia).
  rewrite u32_small by (unfold is_u32; lia). unfold LOCKBOX_MAX_BUFFERED. destruct (Z.ltb_spec 4096 (zlen q + zlen data)); [lia|]. cbn [negb].
  set (g := lockbox_get_generation id x) in *. pose proof (rh_cnt _ _ _ _ _ Hr) as Hc. set (s1 := reset_if_stale g s) in *.
  assert (HN : Z.of_nat INBOX_SIZE = 4096) by reflexivity. pose proof inbox_size_pos.
  pose proof (push_all_spec INBOX_SIZE ltac:(lia) data (ib_storage s1) (ib_read_pos s1) (ib_count s1) q Hr) as Hp. rewrite <- Hw in Hp.
  destruct (push_all INBOX_SIZE data (ib_storage s1) (ib_write_pos s1)) as [st w]. destruct Hp as [Hr' Hw']; [unfold zlen in *; lia|].
  eexists. split; [replace (zlen q + zlen data) with (zlen (q ++ data)) by (unfold zlen; rewrite length_app; lia); reflexivity|]. unfold s1 in *. rewrite reset_seen. 
  assert (u16n (ib_count (reset_if_stale g s) + length data) = (ib_count (reset_if_stale g s) + length data)%nat) as ->.
  { unfold u16n. rewrite u16_small by (unfold is_u16, zlen in *; lia). lia. }
  by apply slot_holds_fresh.
Qed.

Lemma inbox_read_slot id k x ib s q : ib !! id = Some s -> slot_holds (lockbox_get_generation id x) s q -> (length q <= k)%nat ->
  exists x' ib', inbox_read id k x ib = Some (q, x', ib').
Proof.
  intros Hs [Hr _] Hk. unfold inbox_read. rewrite Hs. set (s1 := reset_if_stale _ s) in *. pose proof (rh_cnt _ _ _ _ _ Hr) as Hc. pose proof inbox_size_pos.
  destruct (Nat.ltb_spec k (ib_count s1)); [lia|]. destruct (pop_n_spec INBOX_SIZE ltac:(lia) (ib_count s1) _ _ _ _ Hr (Nat.le_refl _)) as [-> _]. cbn [mbind option_bind].
  rewrite firstn_all2 by lia. by eexists _, _.
Qed.

(** ** A connection *)

(** Slot [id] is the connection of the peer with our port [dp]: its state, the
    sequence number it expects and the bytes waiting for the application. *)
Record conn6 (dp : Z) (src : ip6) (sp : Z) (id : nat) (st : conversation_state) (expected : Z) (q : list Z) (t : tcp6) : Prop := {
  c6_id : (id < LOCKBOX6_CAPACITY)%nat;
  c6_find : lockbox6_find_connection dp src sp 6 (t6_lockbox t) = id;
  c6_box : exists e, lx_table (t6_lockbox t) !! id = Some e /\ lb_in_use e = true /\ lb_buffered_bytes e = zlen q;
  c6_inbox : exists s, t6_inbox t !! id = Some s /\ slot_holds (lockbox6_get_generation id (t6_lockbox t)) s q;
  c6_way : exists w, t6_way t !! id = Some w /\ count_if hs_in_use (wr_slots (way_reset_if_stale (lockbox6_get_generation id (t6_lockbox t)) w)) = 0%nat;
  c6_conv : exists c, t6_rapport t !! id = Some c /\ cv_status c = st /\ cv_expected_seq c = expected }.

(** The frame of [id] that waits for its acknowledgement starts at [isn] and counts
    for more than one number. *)
Definition in_flight6 (id : nat) (isn : Z) (s : scheduler6) : Prop :=
  exists e, s6_entries s !! id = Some e /\ p6_state e = PACKET_STATE_RETRY /\ p6_seq e = isn /\ 1 < zlen (p6_frame e) <= 65535.

Lemma way_reset_idem gen w : way_reset_if_stale gen (way_reset_if_stale gen w) = way_reset_if_stale gen w.
Proof. unfold way_reset_if_stale. destruct (wr_seen_generation w =? gen) eqn:E; [by rewrite E|]. cbn. by rewrite Z.eqb_refl. Qed.

Lemma conn6_window dp src sp id st ex q t : conn6 dp src sp id st ex q t -> conn6 dp src sp id st ex q (snd (waystation6_receive_window id t)).
Proof.
  intros [Hid Hf Hb (s & Hs & Hh) (w & Hw & Hn) Hc]. unfold waystation6_receive_window, inbox6_available, inbox_available. rewrite Hw, Hs. set (g := lockbox6_get_generation id (t6_lockbox t)) in *.
  set (t' := set_t6_way _ _). assert (K : conn6 dp src sp id st ex q t'); [|by destruct (_ <=? _)].
  split; try done; cbn [t' set_t6_way set_t6_inbox t6_inbox t6_way t6_lockbox].
  - eexists. rewrite list_lookup_insert_eq by (by eapply lookup_lt_Some). split; [done|]. by apply slot_holds_reset.
  - eexists. rewrite list_lookup_insert_eq by (by eapply lookup_lt_Some). split; [done|]. by rewrite way_reset_idem.
Qed.

Lemma conn6_rapport f dp src sp id st ex q t : conn6 dp src sp id st ex q t -> (forall c, cv_status (f c) = cv_status c /\ cv_expected_seq (f c) = cv_expected_seq c) ->
  conn6 dp src sp id st ex q (set_t6_rapport (alter f id (t6_rapport t)) t).
Proof. intros [? ? ? ? ? (c & Hc & E1 & E2)] Hf. split; try done. exists (f c). cbn. rewrite list_lookup_alter_eq, Hc. destruct (Hf c). split; [done|]. split; congruence. Qed.

(** Data in sequence joins the queue. *)
Lemma conn6_deposit `{TxDriver D} dp src sp id st ex q data (n : net6 D) : conn6 dp src sp id st ex q (m_tcp n) -> is_u32 ex -> zlen q + zlen data <= 4096 ->
  exists t', deposit_data6 id data n = Some (set_m_tcp t' n) /\ conn6 dp src sp id st (ex +32 zlen data) (q ++ data) t' /\ t6_sched t' = t6_sched (m_tcp n) /\
    (forall j, j <> id -> t6_rapport t' !! j = t6_rapport (m_tcp n) !! j) /\ (forall j, lockbox6_get_generation j (t6_lockbox t') = lockbox6_get_generation j (t6_lockbox (m_tcp n))).
Proof.
  intros K Hex Hz. unfold deposit_data6. destruct (Z.ltb_spec 0 (zlen data)) as [Hpos|Hneg].
  2:{ exists (m_tcp n). assert (data = []) as -> by (destruct data; [done|unfold zlen in *; cbn in *; lia]). change (zlen []) with 0. rewrite Z.add_0_r, u32_small, app_nil_r by done. by destruct n. }
  destruct K as [Hid Hf (e & He & Hu & Hb) (s & Hs & Hh) (w & Hw & Hn) (c & Hc & Hst & Hcx)]. unfold inbox6_deposit.
  destruct (inbox_deposit_slot id data (t6_lockbox (m_tcp n)) (t6_inbox (m_tcp n)) s e q Hs Hh He Hu Hb Hz) as (s' & -> & Hh'). set (x' := mkLockbox _ _ _).
  unfold waystation6_drain. cbn [set_t6_inbox set_t6_rapport t6_way t6_lockbox t6_rapport t6_inbox t6_sched]. rewrite Hw.
  change (lockbox6_get_generation id x') with (lockbox6_get_generation id (t6_lockbox (m_tcp n))). set (g := lockbox6_get_generation id (t6_lockbox (m_tcp n))) in *.
  cbn [drain_loop]. match goal with |- context [find_idx ?p (wr_slots ?r)] => assert (E : find_idx p (wr_slots r) = None) end.
  { apply find_idx_None. intros i h Hi. apply find_idx_count in Hn. rewrite find_idx_None in Hn. by rewrite (Hn i h Hi). }
  rewrite E. cbn [mbind option_bind]. eexists. split; [done|]. split; [|split; [done|]; split; [|done]].
  - split; cbn [t6_lockbox t6_inbox t6_way t6_rapport]; change (lockbox6_get_generation id x') with g; [done|..].
    + unfold lockbox6_find_connection, find_key in *. cbn [x' lx_table]. by rewrite (find_idx_insert _ _ _ e).
    + eexists. cbn [x' lx_table]. rewrite list_lookup_insert_eq by (by eapply lookup_lt_Some). split; [done|]. by split.
    + exists s'. rewrite list_lookup_insert_eq by (by eapply lookup_lt_Some). by split.
    + eexists. rewrite list_lookup_insert_eq by (by eapply lookup_lt_Some). split; [done|]. assert (mkWay (wr_slots (way_reset_if_stale g w)) (wr_seen_generation (way_reset_if_stale g w)) = way_reset_if_stale g w) as -> by (by destruct (way_reset_if_stale g w)).
      by rewrite way_reset_idem.
    + eexists. unfold rapport6_advance_seq, rapport_advance_seq. rewrite list_lookup_alter_eq, Hc. split; [done|]. cbn. split; congruence.
  - intros j Hj. cbn [t6_rapport]. unfold rapport6_advance_seq, rapport_advance_seq. by rewrite list_lookup_alter_ne.
Qed.

(** ** One segment *)

Section Segment.
Context `{TxDriver D}.
Implicit Types (n : net6 D).

(** An acknowledgement inside the frame that waits leaves it waiting. *)
Lemma sched_ack6_waits now id isn ack n : in_flight6 id isn (t6_sched (m_tcp n)) -> 0 <= isn -> isn + 65536 < 4294967296 -> ack <= isn + 1 ->
  in_flight6 id isn (t6_sched (m_tcp (net6_sched_ack now id ack n))).
Proof.
  intros (e & He & Hst & Hsq & Hl) H0 Hi Ha. unfold net6_sched_ack, scheduler6_ack. rewrite He, Hst, Hsq. rewrite bool_decide_true by done. cbn [negb].
  rewrite u32_small by (unfold is_u32; lia). destruct (Z.leb_spec (isn + zlen (p6_frame e)) ack); [lia|].
  assert (Hin : (id < length (s6_entries (t6_sched (m_tcp n))))%nat) by (by eapply lookup_lt_Some).
  destruct (ack =? _); [destruct (_ <=? _)|].
  - unfold resend6. destruct (send6 _ _ _) as [ok l]. eexists. destruct ok; cbn; rewrite list_lookup_insert_eq by done; by split.
  - eexists. cbn. rewrite list_lookup_insert_eq by done. by split.
  - eexists. cbn. rewrite list_lookup_insert_eq by done. by split.
Qed.

Lemma sched_ack6_conn now id ack n : exists s l, net6_sched_ack now id ack n = set_m_link l (set_m_tcp (set_t6_sched s (m_tcp n)) n).
Proof. unfold net6_sched_ack. destruct (scheduler6_ack _ _ _ _) as [s l]. by eexists _, _. Qed.

(** A segment that carries the acknowledgement bit, with or without data. *)
Lemma known6_segment now dp src sp id st ex q seg ack win data n : tcp_reads seg sp dp ex ack FLAG_ACK win data -> conn6 dp src sp id st ex q (m_tcp n) ->
  st = CONV_SYN_RECEIVED \/ st = CONV_ESTABLISHED -> is_u32 ex -> zlen q + zlen data <= 4096 ->
  exists n', handle_known6 now id seg ex FLAG_ACK n = Some n' /\ m_menu n' = m_menu n /\ conn6 dp src sp id CONV_ESTABLISHED (ex +32 zlen data) (q ++ data) (m_tcp n') /\
    (forall isn, in_flight6 id isn (t6_sched (m_tcp n)) -> 0 <= isn -> isn + 65536 < 4294967296 -> ack <= isn + 1 -> in_flight6 id isn (t6_sched (m_tcp n'))) /\
    (forall j, j <> id -> t6_rapport (m_tcp n') !! j = t6_rapport (m_tcp n) !! j) /\ (forall j, lockbox6_get_generation j (t6_lockbox (m_tcp n')) = lockbox6_get_generation j (t6_lockbox (m_tcp n))).
Proof.
  intros [_ _ Hack _ (b14 & b15 & R14 & R15 & Hwin) (b12 & R12 & Hdata)] K Hst Hex Hz. unfold handle_known6. rewrite R12, R14, R15, Hack. cbn [mbind option_bind]. rewrite Hdata, Hwin. cbn [mbind option_bind].
  set (n1 := on_rapport6 _ n). assert (K1 : conn6 dp src sp id st ex q (m_tcp n1)) by (by apply conn6_rapport).
  assert (Hexp : rapport6_seq_expected id ex (t6_rapport (m_tcp n1)) = true). { destruct (c6_conv _ _ _ _ _ _ _ _ K1) as (c & Hc & _ & Ec). unfold rapport6_seq_expected, rapport_seq_expected. rewrite Hc. cbn. by apply Z.eqb_eq. }
  rewrite Hexp. change (has_flag FLAG_RST FLAG_ACK) with false. change (has_flag FLAG_FIN FLAG_ACK) with false. change (has_flag FLAG_ACK FLAG_ACK) with true. cbn [negb].
  set (t2 := rapport6_on_ack now id ack (m_tcp n1)).
  assert (K2 : conn6 dp src sp id CONV_ESTABLISHED ex q t2 /\ t6_sched t2 = t6_sched (m_tcp n1) /\ t6_lockbox t2 = t6_lockbox (m_tcp n1) /\ forall j, j <> id -> t6_rapport t2 !! j = t6_rapport (m_tcp n1) !! j).
  { unfold t2, rapport6_on_ack. destruct K1 as [? ? ? ? ? (c & Hc & Es & Ec)]. rewrite Hc, Es. destruct Hst as [-> | ->]; [|split; [|done]; split; try done; by exists c].
    split; [|split; [done|]; split; [done|]; intros j Hj; cbn; by rewrite list_lookup_insert_ne]. split; try done. eexists. cbn. rewrite list_lookup_insert_eq by (by eapply lookup_lt_Some). by split. }
  destruct K2 as (K2 & Es2 & Ex2 & Er2). destruct (sched_ack6_conn now id ack (set_m_tcp t2 n1)) as (s & l & Es). rewrite Es. set (n3 := set_m_link l _).
  assert (K3 : conn6 dp src sp id CONV_ESTABLISHED ex q (m_tcp n3)) by (by destruct K2).
  destruct (conn6_deposit dp src sp id CONV_ESTABLISHED ex q data n3 K3 Hex Hz) as (t4 & -> & K4 & Es4 & Er4 & Eg4). eexists. split; [done|]. split; [done|]. split; [done|]. split; [|split].
  - intros isn Hi H0 H1 H2. cbn [m_tcp set_m_tcp]. rewrite Es4. change (in_flight6 id isn (t6_sched (m_tcp n3))). unfold n3. rewrite <- Es. apply sched_ack6_waits; try done. cbn. by rewrite Es2.
  - intros j Hj. cbn [m_tcp set_m_tcp]. rewrite Er4 by done. cbn. rewrite Er2 by done. cbn. unfold rapport6_set_peer_window, rapport_set_peer_window. by rewrite list_lookup_alter_ne.
  - intros j. cbn [m_tcp set_m_tcp]. rewrite Eg4. cbn. by rewrite Ex2.
Qed.

Lemma conn6_listener dp src sp id st ex q t : conn6 dp src sp id st ex q t -> (lockbox6_find_listener dp 6 (t6_lockbox t) < LOCKBOX6_CAPACITY)%nat.
Proof.
  intros [Hid Hf _ _ _ _]. unfold lockbox6_find_connection, lockbox6_find_listener, or_capacity6 in *. destruct (find_key _ _) as [i|] eqn:Ek; cbn in Hf; [subst i|lia].
  apply find_key_sound in Ek as (e & He & Hu & Hk). cbn in Hu, Hk. injection Hk as E1 E2 E3 E4.
  assert (Hp : on_port dp 6 e = true) by (unfold on_port; rewrite Hu, E1, E4, !Z.eqb_refl; done).
  destruct (find_idx (on_port dp 6) _) as [j|] eqn:Ej; [|rewrite find_idx_None in Ej; by rewrite (Ej _ _ He) in Hp]. cbn. apply find_idx_Some in Ej as (x & _ & _ & Hmin).
  destruct (Nat.le_gt_cases j id); [lia|]. rewrite (Hmin id e) in Hp by done. done.
Qed.

Lemma handle6_known now seg src dst sp dp ex ack win data id st q n : conversation6_check seg src dst = Some TCP_ACCEPT -> tcp_reads seg sp dp ex ack FLAG_ACK win data ->
  menu_is_open dp 6 (m_menu n) = true -> conn6 dp src sp id st ex q (m_tcp n) -> st <> CONV_SYN_SENT ->
  conversation6_handle now seg src dst n = handle_known6 now id seg ex FLAG_ACK (set_m_tcp_counts (count6_accept (m_tcp_counts n)) n).
Proof.
  intros Hck [(b0 & b1 & b2 & b3 & R0 & R1 & R2 & R3 & E1 & E2) Hseq Hack Hfl _ _] Hmenu K Hst. pose proof (conn6_listener _ _ _ _ _ _ _ _ K) as Hlis.
  destruct K as [Hid Hf _ _ _ (c & Hc & Hs & _)]. unfold conversation6_handle. rewrite Hck, Hfl, Hseq, R0, R1, R2, R3. cbn [mbind option_bind]. rewrite bool_decide_true by done. rewrite E1, E2.
  cbn [negb set_m_tcp_counts m_menu m_tcp]. rewrite Hmenu, Hf. cbn [negb]. destruct (Nat.eqb_spec (lockbox6_find_listener dp 6 (t6_lockbox (m_tcp n))) LOCKBOX6_CAPACITY); [lia|].
  destruct (Nat.eqb_spec id LOCKBOX6_CAPACITY); [lia|]. rewrite bool_decide_false; [done|]. unfold rapport6_get_state, rapport_get_state. rewrite Hc. cbn. congruence.
Qed.

(** ** The peer's SYN *)

Lemma dispatch6_conn now dp src sp id st ex q flags seq ack data mac ip n : conn6 dp src sp id st ex q (m_tcp n) ->
  let n' := snd (conversation6_dispatch now id flags seq ack data mac ip n) in
  conn6 dp src sp id st ex q (m_tcp n') /\ t6_rapport (m_tcp n') = t6_rapport (m_tcp n) /\ t6_lockbox (m_tcp n') = t6_lockbox (m_tcp n) /\ t6_sched (m_tcp n') = t6_sched (m_tcp n).
Proof.
  intros K. unfold conversation6_dispatch. destruct (_ <? _); [done|]. destruct (negb _); [done|]. destruct (lockbox6_get_tuple _ _) as [[[lp ri] rp]|]; [|done].
  destruct (rolodex6_lookup _ _) as [dm|]; [|done]. pose proof (conn6_window _ _ _ _ _ _ _ _ K) as Kw.
  assert (E : t6_rapport (snd (waystation6_receive_window id (m_tcp n))) = t6_rapport (m_tcp n) /\ t6_lockbox (snd (waystation6_receive_window id (m_tcp n))) = t6_lockbox (m_tcp n) /\
    t6_sched (snd (waystation6_receive_window id (m_tcp n))) = t6_sched (m_tcp n)).
  { unfold waystation6_receive_window. destruct (t6_way _ !! id); [|done]. destruct (inbox6_available _ _ _). by destruct (_ <=? _). }
  destruct (waystation6_receive_window id (m_tcp n)) as [w t]. destruct (request6 _ _ _) as [o l]. cbn in *. done.
Qed.

(** A SYN-ACK can go out: the peer's Ethernet address is known and a pass is free. *)
Definition sends6 (now : Z) (ip : ip6) (l : link6 D) : Prop :=
  (exists mac, rolodex6_lookup ip (l6_rolodex l) = Some mac /\ length mac = 6%nat) /\ is_Some (find_free (reclaim_expired now (bl_passes (l6_bailiff l)))).

Lemma dispatch6_sends now id flags seq ack mac ip dp src sp st ex q n : conn6 dp src sp id st ex q (m_tcp n) -> sends6 now src (m_link n) -> length mac = 6%nat -> length ip = 16%nat -> length src = 16%nat ->
  flag_make_sense flags = true ->
  exists p n', conversation6_dispatch now id flags seq ack [] mac ip n = (Some p, n') /\ zlen (m_last_frame n') = 74.
Proof.
  intros [Hid Hf (e & He & Hu & _) _ _ _] ((dm & Hm & Hdm) & i & Hfree) Hmac Hip Hsrc Hfl. unfold conversation6_dispatch. change (TCP6_MAX_PAYLOAD <? zlen []) with false. rewrite Hfl. cbn [negb].
  unfold lockbox6_find_connection, or_capacity6 in Hf. destruct (find_key _ _) as [j|] eqn:Ek; cbn in Hf; [subst j|lia]. apply find_key_sound in Ek as (e2 & He2 & _ & Hk). rewrite He in He2. injection He2 as <-.
  cbn in Hk. injection Hk as E1 E2 E3 E4. unfold lockbox6_get_tuple, lockbox_get_tuple. rewrite He. cbn [mbind option_bind]. rewrite Hu, E1, E2, E3, Hm.
  destruct (waystation6_receive_window id (m_tcp n)) as [w t]. match goal with |- context [request6 now ?fr _] => set (f := fr) end. assert (Hl : zlen f = 74).
  { unfold f, tcp6_frame, eth6, ip6_header, tcp6_segment, zlen. rewrite !length_app, Hdm, Hmac, Hip, Hsrc. pose proof (tcp_with_zlen (compute_tcp6_checksum (tcp_with 0 dp sp seq ack flags w []) ip src) dp sp seq ack flags w []) as Hz.
    unfold zlen in Hz. cbn [length put16] in *. lia. }
  unfold request6, bailiff_request_pass. rewrite Hl. change ((74 =? 0) || (BAILIFF_MAX_FRAME <? 74)) with false. cbv iota. rewrite Hfree. by eexists _, _.
Qed.

(** A listening port, room for the connection, and a slot [id] for it that its
    queues have not seen at the generation it will get. *)
Record ready6 (src : ip6) (sp dp : Z) (id : nat) (n : net6 D) : Prop := {
  y6_menu : menu_is_open dp 6 (m_menu n) = true;
  y6_listen : (lockbox6_find_listener dp 6 (t6_lockbox (m_tcp n)) < LOCKBOX6_CAPACITY)%nat;
  y6_new : find_key (dp, src, sp, 6) (lx_table (t6_lockbox (m_tcp n))) = None;
  y6_quota : (count_for_ip src (lx_table (t6_lockbox (m_tcp n))) < LOCKBOX6_MAX_PER_IP)%nat;
  y6_free : find_free (lx_table (t6_lockbox (m_tcp n))) = Some id;
  y6_id : (id < LOCKBOX6_CAPACITY)%nat;
  y6_load : syncookie6_should_activate (t6_lockbox (m_tcp n)) = false;
  y6_slot : exists g s w, lx_generation (t6_lockbox (m_tcp n)) !! id = Some g /\ t6_inbox (m_tcp n) !! id = Some s /\ length (ib_storage s) = INBOX_SIZE /\
    ib_seen_generation s <> g +32 1 /\ t6_way (m_tcp n) !! id = Some w /\ wr_seen_generation w <> g +32 1;
  y6_conv : is_Some (t6_rapport (m_tcp n) !! id);
  y6_sched : is_Some (s6_entries (t6_sched (m_tcp n)) !! id);
  y6_sentry : sentry6_wf (gd_sentry (m_guard n));
  y6_mac : length (m_mac n) = 6%nat }.

Lemma claim6_conn src sp dp id isn our_isn n : ready6 src sp dp id n ->
  exists x, lockbox6_claim dp src sp 6 (t6_lockbox (m_tcp n)) = (LOCKBOX_OK, Some id, x) /\
    conn6 dp src sp id CONV_SYN_RECEIVED (isn +32 1) [] (set_t6_rapport (rapport6_on_syn id isn our_isn (t6_rapport (m_tcp n))) (set_t6_lockbox x (m_tcp n))) /\
    lockbox6_get_generation id x = lockbox6_get_generation id (t6_lockbox (m_tcp n)) +32 1 /\
    forall j, j <> id -> lockbox6_get_generation j x = lockbox6_get_generation j (t6_lockbox (m_tcp n)).
Proof.
  intros R. unfold lockbox6_claim, lockbox6_find_connection. rewrite (y6_new _ _ _ _ _ R). cbn [or_capacity6 default from_option]. rewrite Nat.eqb_refl. cbn [negb].
  destruct (Nat.leb_spec LOCKBOX6_MAX_PER_IP (count_for_ip src (lx_table (t6_lockbox (m_tcp n))))) as [Hq|_]; [pose proof (y6_quota _ _ _ _ _ R); lia|]. rewrite (y6_free _ _ _ _ _ R).
  eexists. split; [done|]. set (x := mkLockbox _ _ _). destruct (y6_slot _ _ _ _ _ R) as (g & s & w & Hg & Hs & Hl & Hsg & Hw & Hwg). destruct (find_free_sound _ _ (y6_free _ _ _ _ _ R)) as (e0 & He0 & Hu0).
  assert (Eg : lockbox6_get_generation id x = g +32 1) by (unfold lockbox6_get_generation, lockbox_get_generation; cbn; by rewrite list_lookup_alter_eq, Hg).
  assert (Hid : (id < length (lx_table (t6_lockbox (m_tcp n))))%nat) by (by eapply lookup_lt_Some). split; [|split; [rewrite Eg; unfold lockbox6_get_generation, lockbox_get_generation; by rewrite Hg|]; intros j Hj; unfold lockbox6_get_generation, lockbox_get_generation; cbn; by rewrite list_lookup_alter_ne].
  split; cbn [set_t6_rapport set_t6_lockbox t6_lockbox t6_inbox t6_way t6_rapport]; rewrite ?Eg.
  - apply R.
  - unfold lockbox6_find_connection, or_capacity6. replace (find_key _ (lx_table x)) with (Some id); [done|]. symmetry. apply find_idx_Some. cbn [x lx_table]. eexists. rewrite list_lookup_insert_eq by done.
    split; [done|]. cbn. rewrite bool_decide_true by done. split; [done|]. intros j y Hj Hy. rewrite list_lookup_insert_ne in Hy by lia. pose proof (y6_new _ _ _ _ _ R) as Hn. unfold find_key in Hn. rewrite find_idx_None in Hn. by apply (Hn j y).
  - eexists. cbn [x lx_table]. by rewrite list_lookup_insert_eq by done.
  - exists s. split; [done|]. by apply slot_holds_claimed.
  - exists w. split; [done|]. unfold way_reset_if_stale. apply Z.eqb_neq in Hwg. rewrite Hwg. cbn. apply count_if_0. intros h Hh. apply list_elem_of_fmap in Hh as (h0 & -> & _). done.
  - destruct (y6_conv _ _ _ _ _ R) as [c Hc]. eexists. unfold rapport6_on_syn. rewrite list_lookup_alter_eq, Hc. split; [done|]. done.
Qed.

Lemma handle6_syn now src sp dst dp isn win id n : 0 <= now < 0xFFFFFFFF -> ready6 src sp dp id n -> is_ip6 src -> is_ip6 dst -> is_u16 sp -> is_u16 dp -> is_u32 isn -> is_u16 win ->
  exists n', conversation6_handle now (tcp6_segment src dst sp dp isn 0 FLAG_SYN win []) src dst n = Some n' /\ m_menu n' = m_menu n /\
    conn6 dp src sp id CONV_SYN_RECEIVED (isn +32 1) [] (m_tcp n') /\ (forall j, j <> id -> t6_rapport (m_tcp n') !! j = t6_rapport (m_tcp n) !! j) /\
    lockbox6_get_generation id (t6_lockbox (m_tcp n')) = lockbox6_get_generation id (t6_lockbox (m_tcp n)) +32 1 /\
    (forall j, j <> id -> lockbox6_get_generation j (t6_lockbox (m_tcp n')) = lockbox6_get_generation j (t6_lockbox (m_tcp n))) /\
    (sends6 now src (m_link n) -> in_flight6 id (rapport6_get_our_isn id (t6_rapport (m_tcp n'))) (t6_sched (m_tcp n'))).
Proof.
  intros Hnow R Hs Hd Hsp Hdp Hisn Hwin. destruct (tcp6_checked src dst sp dp isn 0 FLAG_SYN win []) as [Hck Hrd]; try first [done | by apply Forall_nil_2 | by split].
  destruct Hrd as [(b0 & b1 & b2 & b3 & R0 & R1 & R2 & R3 & E1 & E2) Hseq Hack Hfl _ _]. unfold conversation6_handle. rewrite Hck, Hfl, Hseq, R0, R1, R2, R3. cbn [mbind option_bind]. rewrite bool_decide_true by done. rewrite E1, E2.
  cbv zeta. set (n0 := set_m_tcp_counts (count6_accept (m_tcp_counts n)) n). assert (R' : ready6 src sp dp id n0) by (by destruct R). cbn [negb]. change (m_tcp n0) with (m_tcp n). rewrite (y6_menu _ _ _ _ _ R'). cbn [negb].
  pose proof (y6_listen _ _ _ _ _ R). destruct (Nat.eqb_spec (lockbox6_find_listener dp 6 (t6_lockbox (m_tcp n))) LOCKBOX6_CAPACITY); [lia|].
  unfold lockbox6_find_connection. rewrite (y6_new _ _ _ _ _ R). cbn [or_capacity6 default from_option]. rewrite Nat.eqb_refl. cbn [negb andb]. change (has_flag FLAG_SYN FLAG_SYN) with true. cbv iota.
  unfold handle_syn6. destruct (sentry6_total now src dp (m_guard n0) Hnow (y6_sentry _ _ _ _ _ R')) as (b & g & -> & Hg). cbn [mbind option_bind]. cbn [set_m_guard m_tcp m_link]. change (m_tcp n0) with (m_tcp n). rewrite (y6_load _ _ _ _ _ R).
  unfold draw_isn6. destruct (tail32_total dst (proj1 Hd)) as [u ->], (tail32_total src (proj1 Hs)) as [v ->]. cbn [mbind option_bind].
  match goal with |- context [rapport6_on_syn _ isn ?i] => set (our := i) end. destruct (claim6_conn src sp dp id isn our n R) as (x & -> & K & Hgen & Hgens). set (n2 := on_rapport6 _ _). change (set_t6_rapport _ _) with (m_tcp n2) in K.
  pose proof (dispatch6_conn now dp src sp id _ _ _ (Z.lor FLAG_SYN FLAG_ACK) (rapport6_get_our_isn id (t6_rapport (m_tcp n2))) (rapport6_get_expected_seq id (t6_rapport (m_tcp n2))) [] (m_mac n0) dst n2 K) as (K3 & Er & Ex & Es).
  pose proof (dispatch6_only now id (Z.lor FLAG_SYN FLAG_ACK) (rapport6_get_our_isn id (t6_rapport (m_tcp n2))) (rapport6_get_expected_seq id (t6_rapport (m_tcp n2))) [] (m_mac n0) dst n2) as T.
  assert (Hother : forall j, j <> id -> t6_rapport (m_tcp n2) !! j = t6_rapport (m_tcp n) !! j) by (intros j Hj; cbn; unfold rapport6_on_syn; by rewrite list_lookup_alter_ne).
  unfold conversation6_dispatch_syn_ack. change (m_mac (set_m_guard g n0)) with (m_mac n0).
  assert (Hsend : sends6 now src (m_link n) -> exists p n', conversation6_dispatch now id (Z.lor FLAG_SYN FLAG_ACK) (rapport6_get_our_isn id (t6_rapport (m_tcp n2))) (rapport6_get_expected_seq id (t6_rapport (m_tcp n2))) [] (m_mac n0) dst n2 = (Some p, n') /\ zlen (m_last_frame n') = 74).
  { intros Hsd. eapply dispatch6_sends; [exact K|exact Hsd|apply R|apply Hd|apply Hs|done]. }
  destruct (conversation6_dispatch _ _ _ _ _ _ _ _ n2) as [[p|] n3]; cbn [snd] in *.
  - unfold present6_last. destruct (present6 _ _ _ _) as [ok l]. eexists. split; [done|]. split; [apply T|]. split; [|split; [|split; [|split]]].
    + destruct K3. by split.
    + intros j Hj. cbn. rewrite Er. by apply Hother.
    + cbn. rewrite Ex. exact Hgen.
    + intros j Hj. cbn. rewrite Ex. by apply Hgens.
    + intros Hsd. destruct (Hsend Hsd) as (p' & n' & [= <- <-] & Hl). cbn. rewrite Er, Es. cbn [m_tcp n2 on_rapport6 set_m_tcp set_t6_rapport t6_sched]. unfold scheduler6_track. destruct (y6_sched _ _ _ _ _ R) as [e He].
      change (t6_sched (set_t6_lockbox x (m_tcp n))) with (t6_sched (m_tcp n)). rewrite He, Hl. change ((74 =? 0) || (SCHED6_MAX_FRAME <? 74)) with false. cbv iota. eexists. cbn.
      rewrite list_lookup_insert_eq by (by eapply lookup_lt_Some). split; [done|]. split; [done|]. split; [done|]. cbn. rewrite Hl. lia.
  - eexists. split; [done|]. split; [apply T|]. split; [done|]. split; [|split; [|split]].
    + intros j Hj. rewrite Er. by apply Hother.
    + rewrite Ex. exact Hgen.
    + intros j Hj. rewrite Ex. by apply Hgens.
    + intros Hsd. by destruct (Hsend Hsd) as (p' & n' & [=] & _).
Qed.

(** ** The peer's data *)

(** Segments with the data [ds], in order from sequence number [seq] on; each with
    the time of its arrival and acknowledging [ack]. *)
Fixpoint feed6 (src dst : ip6) (sp dp seq ack win : Z) (ds : list (Z * list Z)) n : option (net6 D) :=
  match ds with
  | [] => Some n
  | (now, d) :: ds' =>
      n ← conversation6_handle now (tcp6_segment src dst sp dp seq ack FLAG_ACK win d) src dst n;
      feed6 src dst sp dp (seq +32 zlen d) ack win ds' n
  end.
Definition sent6 (ds : list (Z * list Z)) : list Z := concat (snd <$> ds).

Lemma conversation6_ok now payload src dst n n' : net6_ok n -> 0 <= now < 0xFFFFFFFF -> zlen payload < 65536 -> length src = 16%nat -> length dst = 16%nat ->
  conversation6_handle now payload src dst n = Some n' -> net6_ok n'.
Proof.
  intros K Hnow Hl Hs Hd E. destruct (conversation6_total now payload src dst n Hnow Hl Hs Hd (ok_sentry _ K) (ok_tcp _ K)) as (g & n2 & Hg & E2 & T). rewrite E in E2. injection E2 as <-.
  eapply net6_ok_tcp; [|exact T]. by destruct K.
Qed.

Lemma tcp6_segment_zlen src dst lp rp seq ack flags win data : zlen (tcp6_segment src dst lp rp seq ack flags win data) = 20 + zlen data.
Proof. unfold tcp6_segment. apply tcp_with_zlen. Qed.

Lemma feed6_conn src dst sp dp ack win id ds : is_ip6 src -> is_ip6 dst -> is_u16 sp -> is_u16 dp -> is_u32 ack -> is_u16 win -> Forall (fun d => 0 <= fst d < 0xFFFFFFFF /\ bytes (snd d) /\ zlen (snd d) <= TCP6_MAX_PAYLOAD) ds ->
  forall st ex q n, net6_ok n -> menu_is_open dp 6 (m_menu n) = true -> conn6 dp src sp id st ex q (m_tcp n) -> st = CONV_SYN_RECEIVED \/ st = CONV_ESTABLISHED -> is_u32 ex -> zlen (q ++ sent6 ds) <= 4096 ->
  exists n', feed6 src dst sp dp ex ack win ds n = Some n' /\ net6_ok n' /\ (exists ex', conn6 dp src sp id (match ds with [] => st | _ => CONV_ESTABLISHED end) ex' (q ++ sent6 ds) (m_tcp n')) /\
    (forall isn, in_flight6 id isn (t6_sched (m_tcp n)) -> 0 <= isn -> isn + 65536 < 4294967296 -> ack <= isn + 1 -> in_flight6 id isn (t6_sched (m_tcp n'))) /\
    (forall j, j <> id -> t6_rapport (m_tcp n') !! j = t6_rapport (m_tcp n) !! j) /\ (forall j, lockbox6_get_generation j (t6_lockbox (m_tcp n')) = lockbox6_get_generation j (t6_lockbox (m_tcp n))).
Proof.
  intros Hs Hd Hsp Hdp Hak Hwin Hds. induction Hds as [|[now d] ds (Hnow & Hb & Hz) Hds IH]; intros st ex q n Kn Hm K Hst Hex Hfit; cbn [feed6].
  { exists n. split; [done|]. split; [done|]. split; [exists ex; unfold sent6; cbn; by rewrite app_nil_r|]. done. }
  cbn [fst snd] in *. change (sent6 ((now, d) :: ds)) with (d ++ sent6 ds) in *. rewrite app_assoc in *. assert (Hq : zlen q + zlen d <= 4096) by (unfold zlen in *; rewrite !length_app in Hfit; lia).
  destruct (tcp6_checked src dst sp dp ex ack FLAG_ACK win d) as [Hck Hrd]; try first [done | by split].
  assert (Hnf : st <> CONV_SYN_SENT) by (destruct Hst; congruence). pose proof (handle6_known now _ src dst sp dp ex ack win d id st q n Hck Hrd Hm K Hnf) as E.
  destruct (known6_segment now dp src sp id st ex q _ ack win d (set_m_tcp_counts (count6_accept (m_tcp_counts n)) n) Hrd K Hst Hex Hq) as (n1 & E1 & Em1 & K1 & F1 & O1 & G1).
  rewrite E1 in E. rewrite E. cbn [mbind option_bind]. assert (Kn1 : net6_ok n1). { eapply conversation6_ok; [exact Kn|exact Hnow| |apply Hs|apply Hd|exact E]. rewrite tcp6_segment_zlen. unfold TCP6_MAX_PAYLOAD in Hz. lia. }
  destruct (IH CONV_ESTABLISHED (ex +32 zlen d) (q ++ d) n1) as (n' & E' & Kn' & (ex' & K') & F' & O' & G'); [done|by rewrite Em1|done|by right|apply u32_range|done|].
  exists n'. split; [done|]. split; [done|]. split; [exists ex'; by destruct ds|]. split; [|split].
  - intros isn Hi H0 H1 H2. apply F'; try done. by apply F1.
  - intros j Hj. rewrite O' by done. by apply O1.
  - intros j. rewrite G'. apply G1.
Qed.
End Segment.

(** ** The application *)

Section Application.
Context `{TxDriver D}.
Implicit Types (n : net6 D) (b : board6 D).

Lemma next_upto port id x start : (start <= id)%nat -> (exists e, lx_table x !! id = Some e /\ on_port port 6 e = true) ->
  exists i, (fun i => start + i)%nat <$> find_idx (on_port port 6) (drop start (lx_table x)) = Some i /\ (start <= i <= id)%nat.
Proof.
  intros Hs (e & He & Hp). destruct (find_idx (on_port port 6) (drop start (lx_table x))) as [k|] eqn:E.
  - exists (start + k)%nat. split; [done|]. apply find_idx_Some in E as (y & _ & _ & Hmin). destruct (Nat.le_gt_cases (start + k) id); [lia|].
    rewrite (Hmin (id - start)%nat e) in Hp; [done|lia|]. rewrite lookup_drop. by replace (start + (id - start))%nat with id by lia.
  - rewrite find_idx_None in E. rewrite (E (id - start)%nat e) in Hp; [done|]. rewrite lookup_drop. by replace (start + (id - start))%nat with id by lia.
Qed.

Lemma conn6_on_port dp src sp id st ex q t : conn6 dp src sp id st ex q t -> exists e, lx_table (t6_lockbox t) !! id = Some e /\ on_port dp 6 e = true.
Proof.
  intros [Hid Hf _ _ _ _]. unfold lockbox6_find_connection, or_capacity6 in Hf. destruct (find_key _ _) as [i|] eqn:Ek; cbn in Hf; [subst i|lia].
  apply find_key_sound in Ek as (e & He & Hu & Hk). cbn in Hu, Hk. injection Hk as E1 E2 E3 E4. exists e. split; [done|]. unfold on_port. by rewrite Hu, E1, E4, !Z.eqb_refl.
Qed.

(** Every established connection but [id] has been handed out by accept. *)
Definition others_accepted6 (id : nat) (b : board6 D) : Prop :=
  forall j, j <> id -> rapport6_get_state j (t6_rapport (m_tcp (b6_net b))) = CONV_ESTABLISHED -> b6_accepted_generation b !! j = Some (lockbox6_get_generation j (box6 b)).

(** The one established connection that waits is the one that is accepted. *)
Lemma accept6_first dp src sp id ex q b : board6_ok b -> conn6 dp src sp id CONV_ESTABLISHED ex q (m_tcp (b6_net b)) ->
  others_accepted6 id b -> b6_accepted_generation b !! id <> Some (lockbox6_get_generation id (box6 b)) ->
  switchboard6_accept dp b = Some (Some id, mkBoard6 (b6_net b) (b6_next_ephemeral b) (<[id := lockbox6_get_generation id (box6 b)]> (b6_accepted_generation b)) (b6_landlord b) (b6_concierge b)).
Proof.
  intros Kb K Ho Hacc. pose proof (conn6_on_port _ _ _ _ _ _ _ _ K) as Hp. pose proof (c6_id _ _ _ _ _ _ _ _ K) as Hid. destruct (c6_conv _ _ _ _ _ _ _ _ K) as (c & Hc & Hst & _).
  assert (Hgo : forall fuel after, let start := if (LOCKBOX6_CAPACITY <=? after)%nat then 0%nat else (after + 1)%nat in (start <= id)%nat -> (id - start <= fuel)%nat ->
    accept6_loop fuel dp after b = Some (Some id, mkBoard6 (b6_net b) (b6_next_ephemeral b) (<[id := lockbox6_get_generation id (box6 b)]> (b6_accepted_generation b)) (b6_landlord b) (b6_concierge b))).
  { induction fuel as [|fuel IH]; intros after start Hs Hf; destruct (next_upto dp id (box6 b) start Hs Hp) as (i & Ei & Hi); cbn [accept6_loop]; unfold lockbox6_next_for_port; fold start; rewrite Ei; cbn [or_capacity6 default from_option Datatypes.id];
      (destruct (Nat.eqb_spec i LOCKBOX6_CAPACITY); [lia|]); (destruct (lookup_lt_is_Some_2 (b6_accepted_generation b) i) as [a Ha]; [rewrite (bk_accepted _ Kb); lia|]); rewrite Ha; cbn [mbind option_bind];
      (destruct (decide (i = id)) as [->|Hne]; [rewrite (proj2 (Z.eqb_neq a _)) by congruence; rewrite bool_decide_true; [done|]; unfold rapport6_get_state, rapport_get_state; by rewrite Hc|]); [lia|].
    destruct (decide (rapport6_get_state i (t6_rapport (m_tcp (b6_net b))) = CONV_ESTABLISHED)) as [He|He]; [rewrite (Ho i Hne He) in Ha; injection Ha as <-; rewrite Z.eqb_refl; cbn [negb andb]|rewrite (bool_decide_false (_ = CONV_ESTABLISHED)) by done; rewrite andb_false_r]; apply IH; destruct (Nat.leb_spec LOCKBOX6_CAPACITY i); lia. }
  apply Hgo; rewrite Nat.leb_refl; lia.
Qed.

(** The facts about a session that both theorems below use. *)
Lemma session6 now src sp dst dp isn win id b : board6_ok b -> ready6 src sp dp id (b6_net b) -> 0 <= now < 0xFFFFFFFF -> is_ip6 src -> is_ip6 dst -> is_u16 sp -> is_u16 dp -> is_u32 isn -> is_u16 win ->
  others_accepted6 id b -> b6_accepted_generation b !! id <> Some (lockbox6_get_generation id (box6 b) +32 1) ->
  exists n1, conversation6_handle now (tcp6_segment src dst sp dp isn 0 FLAG_SYN win []) src dst (b6_net b) = Some n1 /\
  forall ack ds, is_u32 ack -> ds <> [] -> Forall (fun d => 0 <= fst d < 0xFFFFFFFF /\ bytes (snd d) /\ zlen (snd d) <= TCP6_MAX_PAYLOAD) ds -> zlen (sent6 ds) <= 4096 ->
  exists n2 b3, feed6 src dst sp dp (isn +32 1) ack win ds n1 = Some n2 /\ switchboard6_accept dp (set_b6_net n2 b) = Some (Some id, b3) /\
    (forall k, (length (sent6 ds) <= k)%nat -> exists b4, switchboard6_recv id k b3 = Some (sent6 ds, b4)) /\
    rapport6_get_state id (t6_rapport (m_tcp (b6_net b3))) = CONV_ESTABLISHED /\
    let our := rapport6_get_our_isn id (t6_rapport (m_tcp n1)) in
    (sends6 now src (m_link (b6_net b)) -> 0 <= our -> our + 65536 < 4294967296 -> ack <= our + 1 -> in_flight6 id our (t6_sched (m_tcp (b6_net b3)))).
Proof.
  intros Kb R Hnow Hs Hd Hsp Hdp Hisn Hwin Ho Hacc. destruct (handle6_syn now src sp dst dp isn win id (b6_net b)) as (n1 & E1 & Em & K1 & O1 & G1 & G1' & F1); [done..|]. exists n1. split; [done|].
  intros ack ds Hak Hne Hds Hz. assert (Kn1 : net6_ok n1). { eapply conversation6_ok; [apply Kb|exact Hnow| |apply Hs|apply Hd|exact E1]. by rewrite tcp6_segment_zlen. }
  destruct (feed6_conn src dst sp dp ack win id ds Hs Hd Hsp Hdp Hak Hwin Hds CONV_SYN_RECEIVED (isn +32 1) [] n1 Kn1) as (n2 & E2 & Kn2 & (ex & K2) & F2 & O2 & G2); [rewrite Em; apply R|done|by left|apply u32_range|done|].
  assert (K2' : conn6 dp src sp id CONV_ESTABLISHED ex (sent6 ds) (m_tcp n2)) by (by destruct ds). exists n2. set (b2 := set_b6_net n2 b). assert (Kb2 : board6_ok b2) by (by apply board6_net_ok).
  eexists. split; [done|]. split; [eapply (accept6_first dp src sp id ex (sent6 ds) b2 Kb2 K2')|split; [|split]].
  - intros j Hj. cbn. unfold rapport6_get_state, rapport_get_state. rewrite O2, O1 by done. intros He. unfold box6. cbn. rewrite G2, G1' by done. by apply Ho.
  - cbn. rewrite G2, G1. done.
  - intros k Hk. unfold switchboard6_recv. destruct (Nat.leb_spec LOCKBOX6_CAPACITY id); [pose proof (c6_id _ _ _ _ _ _ _ _ K2'); lia|]. cbn [b6_accepted_generation b6_net].
    rewrite list_lookup_insert_eq by (rewrite (bk_accepted _ Kb2); lia). cbn [mbind option_bind]. rewrite Z.eqb_refl. cbn [negb]. destruct (c6_inbox _ _ _ _ _ _ _ _ K2') as (s & Hs2 & Hh).
    destruct (inbox_read_slot id k (t6_lockbox (m_tcp n2)) (t6_inbox (m_tcp n2)) s (sent6 ds) Hs2 Hh Hk) as (x & ib & E). unfold inbox6_read. cbn [b2 set_b6_net b6_net]. rewrite E. by eexists.
  - cbn. destruct (c6_conv _ _ _ _ _ _ _ _ K2') as (c & Hc & Hst & _). unfold rapport6_get_state, rapport_get_state. by rewrite Hc.
  - cbn. intros Hsd H0 H1 H2. apply F2; try done. by apply F1.
Qed.


(** C8: the application cannot answer.  Take the conditions of C5 ([tcp6_session]: a host
    with room and below the load for cookies, a slot of a new generation, every other
    established connection accepted, no clock at its last value), and let the SYN-ACK go
    out (the peer's hardware address known, a pass free) with an initial number below
    2^32 - 65536.  When the peer acknowledges it with the number it must use, that number
    plus one, and sends its data, the connection is established and accepted; but every
    [switchboard6_send] on it is refused: the SYN-ACK is tracked with the length of its
    Ethernet frame, so that the acknowledgement does not cover it.  (With a number closer
    to 2^32 the 32-bit comparison wraps and this is not claimed.) *)
Theorem tcp6_answer_refused now src sp dst dp isn win id b ds :
  board6_ok b -> ready6 src sp dp id (b6_net b) -> 0 <= now < 0xFFFFFFFF -> is_ip6 src -> is_ip6 dst -> is_u16 sp -> is_u16 dp -> is_u32 isn -> is_u16 win ->
  others_accepted6 id b ->
  b6_accepted_generation b !! id <> Some (lockbox6_get_generation id (box6 b) +32 1) -> sends6 now src (m_link (b6_net b)) ->
  ds <> [] -> Forall (fun d => 0 <= fst d < 0xFFFFFFFF /\ bytes (snd d) /\ zlen (snd d) <= TCP6_MAX_PAYLOAD) ds -> zlen (sent6 ds) <= 4096 ->
  exists n1, conversation6_handle now (tcp6_segment src dst sp dp isn 0 FLAG_SYN win []) src dst (b6_net b) = Some n1 /\
  let our := rapport6_get_our_isn id (t6_rapport (m_tcp n1)) in
  (0 <= our -> our + 65536 < 4294967296 ->
   exists n2 b3, feed6 src dst sp dp (isn +32 1) (our + 1) win ds n1 = Some n2 /\ switchboard6_accept dp (set_b6_net n2 b) = Some (Some id, b3) /\
     rapport6_get_state id (t6_rapport (m_tcp (b6_net b3))) = CONV_ESTABLISHED /\
     forall later data our_mac our_ip, switchboard6_send later id data our_mac our_ip b3 = (false, b3)).
Proof.
  intros Kb R Hnow Hs Hd Hsp Hdp Hisn Hwin Ho Hacc Hsd Hne Hds Hz. destruct (session6 now src sp dst dp isn win id b) as (n1 & E1 & Hrest); [done..|].
  exists n1. split; [done|]. intros our H0 H1. destruct (Hrest (our + 1) ds) as (n2 & b3 & E2 & E3 & _ & E4 & E5); [unfold is_u32; lia|done..|].
  exists n2, b3. split; [done|]. split; [done|]. split; [done|]. intros later data mac ip. destruct E5 as (e & He & Hst & _ & Hl); [done|done|done|fold our; lia|].
  assert (Hr : conversation6_dispatch_data later id data mac ip (b6_net b3) = (None, b6_net b3)).
  { unfold conversation6_dispatch_data. destruct (_ || _); [done|]. rewrite E4. rewrite bool_decide_true by done. cbn [negb]. unfold scheduler6_bytes_in_flight. rewrite He, Hst. rewrite bool_decide_true by done.
    destruct (Z.ltb_spec 0 (zlen (p6_frame e))); [done|lia]. }
  unfold switchboard6_send. rewrite Hr. by destruct b3.
Qed.
End Application.

(** A server on port 80 that knows its neighbour, the peer. *)
Definition demo_server : board6 (list (list Z)) :=
  on_rolodex6 (rolodex6_learn 1 (demo6 0 0 9) (replicate 6 4))
    (snd (switchboard6_bind 80 (board6_boot (net6_boot (replicate 6 2) (snd (menu_open_port 80 6 menu_init)) 7 [])))).
Definition demo_data : list (Z * list Z) := [(20, []); (21, [72; 105]); (25, [33])].

Lemma demo_server_ok : board6_ok demo_server.
Proof.
  unfold demo_server, on_rolodex6, on_net6. set (b := snd _). assert (K : board6_ok b) by (apply bind6_ok, boot6_ok; done). apply board6_net_ok; [done|]. destruct (bk_net _ K). by split.
Qed.

Lemma demo_server_ready : ready6 (demo6 0 0 9) 4000 80 1 (b6_net demo_server).
Proof.
  split.
  - by vm_compute.
  - apply Nat.ltb_lt. by vm_compute.
  - by vm_compute.
  - apply Nat.ltb_lt. by vm_compute.
  - by vm_compute.
  - unfold LOCKBOX6_CAPACITY. lia.
  - by vm_compute.
  - exists 0, (mkInbox (replicate INBOX_SIZE 0) 0 0 0 0), (mkWay (replicate WAYSTATION_MAX_PENDING (mkHeld 0 [] false)) 0). split; [done|]. split; [done|]. split; [apply length_replicate|]. done.
  - by eexists.
  - by eexists.
  - apply (ok_sentry _ (bk_net _ demo_server_ok)).
  - done.
Qed.

Lemma demo_server_quiet : others_accepted6 1 demo_server.
Proof.
  intros j _ He. exfalso. revert He. change (t6_rapport (m_tcp (b6_net demo_server))) with rapport6_init. unfold rapport6_get_state, rapport_get_state, rapport6_init. destruct (replicate LOCKBOX6_CAPACITY (mkConv CONV_CLOSED 0 0 0 0 0 0) !! j) as [c|] eqn:E; [apply lookup_replicate in E as [-> _]; done|done].
Qed.

Lemma demo_data_ok : Forall (fun d => 0 <= fst d < 0xFFFFFFFF /\ bytes (snd d) /\ zlen (snd d) <= TCP6_MAX_PAYLOAD) demo_data.
Proof. repeat (apply Forall_cons_2; [cbn; split; [lia|]; split; [byte_list|by vm_compute]|]). constructor. Qed.


Lemma tcp6_answer_refused_witness : exists n1, conversation6_handle 10 (tcp6_segment (demo6 0 0 9) (demo6 0 0 1) 4000 80 100 0 FLAG_SYN 4096 []) (demo6 0 0 9) (demo6 0 0 1) (b6_net demo_server) = Some n1 /\
  let our := rapport6_get_our_isn 1 (t6_rapport (m_tcp n1)) in our + 65536 < 4294967296 /\
  exists n2 b3, feed6 (demo6 0 0 9) (demo6 0 0 1) 4000 80 101 (our + 1) 4096 demo_data n1 = Some n2 /\ switchboard6_accept 80 (set_b6_net n2 demo_server) = Some (Some 1%nat, b3) /\
    switchboard6_send 30 1 [1; 2] (replicate 6 2) (demo6 0 0 1) b3 = (false, b3).
Proof.
  destruct (tcp6_answer_refused 10 (demo6 0 0 9) 4000 (demo6 0 0 1) 80 100 4096 1 demo_server demo_data) as (n1 & E1 & Hr).
  - apply demo_server_ok.
  - apply demo_server_ready.
  - lia.
  - apply demo6_ok; unfold is_u8; lia.
  - apply demo6_ok; unfold is_u8; lia.
  - unfold is_u16, is_u32; lia.
  - unfold is_u16, is_u32; lia.
  - unfold is_u16, is_u32; lia.
  - unfold is_u16, is_u32; lia.
  - apply demo_server_quiet.
  - by vm_compute.
  - split; by eexists.
  - done.
  - apply demo_data_ok.
  - by vm_compute.
  - exists n1. split; [exact E1|]. assert (H1 : exists our, rapport6_get_our_isn 1 (t6_rapport (m_tcp n1)) = our /\ 0 <= our /\ our + 65536 < 4294967296).
    { assert (E2 : (fun n => let our := rapport6_get_our_isn 1 (t6_rapport (m_tcp n)) in (0 <=? our) && (our + 65536 <? 4294967296)) <$>
        conversation6_handle 10 (tcp6_segment (demo6 0 0 9) (demo6 0 0 1) 4000 80 100 0 FLAG_SYN 4096 []) (demo6 0 0 9) (demo6 0 0 1) (b6_net demo_server) = Some true) by (by vm_compute).
      rewrite E1 in E2. cbn in E2. injection E2 as E2. apply andb_true_iff in E2 as [H0 H1]. eexists. split; [done|]. lia. }
    destruct H1 as (our & Eo & H0 & H1). cbv zeta in *. rewrite Eo in *. split; [done|]. destruct (Hr H0 H1) as (n2 & b3 & E2 & E3 & _ & E4). exists n2, b3. split; [exact E2|]. split; [exact E3|apply E4].
Defined.
