(* ===== verification/Slaac6.v ===== *)
(** * Address configuration and extension headers of IPv6

    From power on to a usable address: the link-local address, a router's
    advertisement, the global address and the routes; and packets with extension
    headers in front of their message. *)

From stdpp Require Import list_numbers.
From S2P Require Import Prelude SlotTable GuestList Ids RateLimit Sentry Bailiff Rolodex Foyer LockBox Ring Inbox Why Scheduler Rapport Transport Checksum.
From S2P Require Import TcpInv Compass Conversation.
From S2P Require Import Fragment6 Atlas6 Guard6 Link6 Echo6 Tcp6 Net6 Conversation6 Compass6 Input6 Board6 Host6.
Import GuestList Menu Ids Curfew Inbox Postbox.

#[local] Open Scope Z_scope.

(** ** Packets *)

Definition ip6_packet (nh hop : Z) (src dst : ip6) (body : list Z) : list Z := ip6_header (zlen body) nh hop src dst ++ body.

Section Packets.
Context `{TxDriver D}.
Implicit Types (n : net6 D).

(** A well-formed packet gets to the screening of its source, and from there to its
    extension headers. *)
Lemma admit6_screened now mac nh hop src dst body n : length src = 16%nat -> length dst = 16%nat -> zlen body < 65536 ->
  compass6_admit now (ip6_packet nh hop src dst body) mac n =
  match compass6_screen now src mac (set_m_ip_counts (count6_accept (m_ip_counts n)) n) with
  | (false, n') => Some (Ip6Drop, n')
  | (true, n') => compass6_unwrap now nh body src dst n'
  end.
Proof.
  intros Hs Hd Hb. set (p := ip6_packet nh hop src dst body). assert (E : p = ([0x60; 0; 0; 0] ++ put16 (zlen body) ++ [nh; hop]) ++ src ++ dst ++ body) by (unfold p, ip6_packet, ip6_header; by rewrite <- !app_assoc).
  assert (Hlen : zlen p = 40 + zlen body) by (rewrite E; unfold zlen; rewrite !length_app, Hs, Hd; cbn; lia). assert (0 <= zlen body) by (unfold zlen; lia).
  assert (B : be16 (hi8 (zlen body)) (lo8 (zlen body)) = zlen body) by (apply be16_put16; unfold is_u16; lia).
  unfold compass6_admit, compass6_check, MIN_IP6_HEADER. rewrite Hlen. destruct (Z.ltb_spec (40 + zlen body) 40); [lia|].
  change (rd p 0) with (Some 0x60). change (rd p 4) with (Some (hi8 (zlen body))). change (rd p 5) with (Some (lo8 (zlen body))). change (rd p 6) with (Some nh). cbn [mbind option_bind].
  change (Z.shiftr 0x60 4 =? 6) with true. cbn [negb]. rewrite B. destruct (Z.ltb_spec (40 + zlen body) (40 + zlen body)); [lia|]. cbn [mbind option_bind]. rewrite bool_decide_true by done. cbn [negb].
  assert (S1 : slice p 8 16 = Some src). { rewrite slice_in_range by (unfold zlen in *; lia). f_equal. rewrite E, drop_app_ge by (cbn; lia). cbn [length app put16 Nat.sub]. rewrite drop_0, take_app_le, take_ge by lia. done. }
  assert (S2 : slice p 24 16 = Some dst).
  { rewrite slice_in_range by (unfold zlen in *; lia). f_equal. rewrite E, drop_app_ge by (cbn; lia). cbn [length app put16 Nat.sub]. rewrite drop_app_ge, Hs by lia. cbn [Nat.sub]. rewrite drop_0, take_app_le, take_ge by lia. done. }
  assert (S3 : slice p 40 (Z.to_nat (zlen body)) = Some body).
  { rewrite slice_in_range by (unfold zlen in *; lia). f_equal. rewrite E, drop_app_ge by (cbn; lia). cbn [length app put16 Nat.sub]. rewrite drop_app_ge, Hs by lia. rewrite drop_app_ge, Hd by lia. cbn [Nat.sub].
    rewrite drop_0, take_ge by (unfold zlen; lia). done. }
  rewrite S1, S2. cbn [mbind option_bind]. destruct (compass6_screen _ _ _ _) as [[] n']; [|done]. by rewrite S3.
Qed.

Lemma admit6_packet now mac nh hop src dst body n n' : length src = 16%nat -> length dst = 16%nat -> zlen body < 65536 ->
  compass6_screen now src mac (set_m_ip_counts (count6_accept (m_ip_counts n)) n) = (true, n') ->
  compass6_admit now (ip6_packet nh hop src dst body) mac n = compass6_unwrap now nh body src dst n'.
Proof. intros Hs Hd Hb Hsc. by rewrite admit6_screened, Hsc. Qed.

(** ** Extension headers *)

(** A chain of extension headers: each of a kind the code knows, with the length it
    states, and the hop-by-hop header only as the first. *)
Definition ext_kind (k : Z) (content : list Z) : Prop :=
  is_extension k = true /\ exists u, 0 <= u < 256 /\ zlen content = 6 + 8 * u.
Fixpoint chain (exts : list (Z * list Z)) (nh : Z) (body : list Z) : Z * list Z :=
  match exts with
  | [] => (nh, body)
  | (k, content) :: exts' => let '(following, rest) := chain exts' nh body in (k, [following; (zlen content - 6) / 8] ++ content ++ rest)
  end.
Definition exts_ok (exts : list (Z * list Z)) : Prop :=
  Forall (fun e => ext_kind (fst e) (snd e)) exts /\ Forall (fun e => fst e <> NEXT_HEADER_HOP_BY_HOP) (tail exts).

Lemma ext_loop_chain exts nh body : is_extension nh = false -> forall left first, Forall (fun e => ext_kind (fst e) (snd e)) exts ->
  (first = true \/ Forall (fun e => fst e <> NEXT_HEADER_HOP_BY_HOP) exts) -> Forall (fun e => fst e <> NEXT_HEADER_HOP_BY_HOP) (tail exts) -> (length exts <= left)%nat ->
  ext_loop left first (fst (chain exts nh body)) (snd (chain exts nh body)) = Some (ExtDone nh body).
Proof.
  intros Hnh. induction exts as [|[k content] exts IH]; intros left first Hk Hf Ht Hl.
  { cbn. destruct left; cbn [ext_loop]; by rewrite Hnh. }
  apply Forall_cons_1 in Hk as [[Hx (u & Hu & Hz)] Hk]. cbn [fst snd tail length] in *. destruct left as [|left]; [lia|]. cbn [chain]. destruct (chain exts nh body) as [following rest] eqn:Ec. cbn [fst snd ext_loop]. rewrite Hx.
  assert (Hno : (k =? NEXT_HEADER_HOP_BY_HOP) && negb first = false).
  { destruct first; [by rewrite andb_false_r|]. rewrite andb_true_r. apply Z.eqb_neq. destruct Hf as [|Hf]; [done|]. by apply Forall_cons_1 in Hf as [? _]. }
  rewrite Hno. replace ((zlen content - 6) / 8) with u by (rewrite Hz; replace (6 + 8 * u - 6) with (u * 8) by lia; by rewrite Z.div_mul). cbn [app].
  assert (Hlen : zlen (following :: u :: content ++ rest) = 8 * (u + 1) + zlen rest) by (unfold zlen in *; cbn [length]; rewrite length_app; lia). assert (0 <= zlen rest) by (unfold zlen; lia).
  rewrite Hlen. destruct (Z.ltb_spec (8 * (u + 1) + zlen rest) 2); [lia|]. change (rd (following :: u :: content ++ rest) 0) with (Some following). change (rd (following :: u :: content ++ rest) 1) with (Some u). cbn [mbind option_bind].
  rewrite u16_small by (unfold is_u16; lia). destruct (Z.ltb_spec (8 * (u + 1) + zlen rest) ((u + 1) * 8)); [lia|].
  replace (drop (Z.to_nat ((u + 1) * 8)) (following :: u :: content ++ rest)) with rest.
  2:{ replace (Z.to_nat ((u + 1) * 8)) with (S (S (length content))) by (unfold zlen in *; lia). cbn [drop]. by rewrite drop_app_ge, Nat.sub_diag by lia. }
  apply (IH left false); [done|by right| |lia]. destruct exts; [constructor|]. by apply Forall_cons_1 in Ht as [_ ?].
Qed.

(** C7: extension headers are transparent.  Take a packet of less than 64 KiB with up to
    eight extension headers in front of its message, each a hop-by-hop, routing or
    destination-options header of any contents that is as long as it says, a hop-by-hop
    header only in first place (the code drops the packet otherwise), in front of a
    message that is not itself one of these headers.  From any source, screened out or
    not, and in any state, it is handled exactly like the packet without them: it is
    dropped by the screening of its source in the same state, or the same message reaches
    the same handler, or the reassembly of fragments, in the same state. *)
Theorem compass6_extensions_transparent now mac hop src dst exts nh body n : length src = 16%nat -> length dst = 16%nat ->
  exts_ok exts -> (length exts <= MAX_EXT_HEADERS)%nat -> is_extension nh = false -> zlen (snd (chain exts nh body)) < 65536 ->
  compass6_handle now (ip6_packet (fst (chain exts nh body)) hop src dst (snd (chain exts nh body))) mac n = compass6_handle now (ip6_packet nh hop src dst body) mac n.
Proof.
  intros Hs Hd [Hk Ht] Hl Hnh Hz. assert (Hb : zlen body <= zlen (snd (chain exts nh body))).
  { clear. induction exts as [|[k c] exts IH]; [done|]. cbn [chain]. destruct (chain exts nh body) as [f r]. cbn [snd] in *. unfold zlen in *. rewrite !length_app. lia. }
  unfold compass6_handle. rewrite !admit6_screened by (done || lia). destruct (compass6_screen _ _ _ _) as [[] n']; [|done]. unfold compass6_unwrap.
  rewrite (ext_loop_chain exts nh body Hnh MAX_EXT_HEADERS true Hk (or_introl eq_refl) Ht Hl). replace (ext_loop MAX_EXT_HEADERS true nh body) with (Some (ExtDone nh body)); [done|]. cbn [ext_loop MAX_EXT_HEADERS]. by rewrite Hnh.
Qed.
End Packets.

Definition demo_exts : list (Z * list Z) := [(0, replicate 6 0); (60, replicate 14 1); (43, replicate 6 2)].
Definition demo_net6 : net6 (list (list Z)) := b6_net demo_board6.

Lemma compass6_extensions_transparent_witness :
  compass6_handle 5 (ip6_packet 0 64 demo_router demo_host (snd (chain demo_exts 58 [128; 0; 1; 2; 3; 4; 5; 6]))) (replicate 6 4) demo_net6 =
  compass6_handle 5 (ip6_packet 58 64 demo_router demo_host [128; 0; 1; 2; 3; 4; 5; 6]) (replicate 6 4) demo_net6.
Proof.
  apply (compass6_extensions_transparent 5 (replicate 6 4) 64 demo_router demo_host demo_exts 58 [128; 0; 1; 2; 3; 4; 5; 6] demo_net6).
  - done.
  - done.
  - split; [|repeat (apply Forall_cons_2; [done|]); constructor]. repeat (apply Forall_cons_2; [split; [done|]; first [by exists 0 | by exists 1]|]). constructor.
  - cbn. unfold MAX_EXT_HEADERS. lia.
  - done.
  - by vm_compute.
Defined.

(** ** The tick *)

Section Tick.
Context `{TxDriver D}.
Implicit Types (n : net6 D) (b : board6 D).

Lemma foyer6_keeps now mac our todo n n' : foyer6_loop now mac our todo n = Some n' ->
  m_echo n' = m_echo n /\ m_atlas n' = m_atlas n /\ m_guard n' = m_guard n /\ l6_rolodex (m_link n') = l6_rolodex (m_link n) /\ m_mac n' = m_mac n.
Proof.
  revert n. induction todo as [|i todo IH]; intros n E; cbn [foyer6_loop] in E; [by injection E as <-|]. apply bind_Some in E as (n1 & E1 & E). apply IH in E as (-> & -> & -> & -> & ->). clear IH.
  unfold foyer6_tick_slot in E1. destruct (f6_slots (m_foyer n) !! i) as [e|]; [|by injection E1 as <-]. destruct (negb _); [by injection E1 as <-|]. destruct (rolodex6_lookup _ _) as [m|].
  - pose proof (send6_rolodex now (readdress m (f6_frame e)) (m_link n)) as El. destruct (send6 _ _ _) as [ok l]. injection E1 as <-. done.
  - destruct (_ <? _); [by injection E1 as <-|]. destruct (_ <=? _); [by injection E1 as <-|]. apply bind_Some in E1 as (n2 & E2 & [= <-]). unfold send_neighbor_solicitation in E2. apply bind_Some in E2 as ([ok l] & E2 & [= <-]).
    unfold echo6_dispatch_neighbor_solicitation in E2. apply bind_Some in E2 as ([di dm] & _ & [= E2]). split; [done|]. split; [done|]. split; [done|]. split; [|done]. cbn.
    match type of E2 with send6 now ?f (m_link n) = _ => pose proof (send6_rolodex now f (m_link n)) as El; rewrite E2 in El end. exact El.
Qed.

(** What the tick does before it comes to address configuration. *)
Lemma tick6_parts now b : board6_ok b ->
  exists n', concierge_tick_ipv6 now (m_mac (b6_net b)) b = concierge6_tick now (m_mac (b6_net b)) (set_b6_net n' b) /\ net6_ok n' /\ m_echo n' = m_echo (b6_net b) /\ m_atlas n' = m_atlas (b6_net b) /\
    l6_rolodex (m_link n') = rolodex6_tick now (l6_rolodex (m_link (b6_net b))) /\ gd_guests (m_guard n') = guestlist6_tick now (gd_guests (m_guard (b6_net b))) /\ gd_curfew (m_guard n') = gd_curfew (m_guard (b6_net b)) /\
    m_mac n' = m_mac (b6_net b).
Proof.
  intros K. unfold concierge_tick_ipv6. destruct (sched6_tick_tables now (rapport6_tick now (m_tcp (b6_net b))) (m_link (b6_net b))) as [(E1 & E2 & E3) E4].
  destruct (rapport6_tick_tables now (m_tcp (b6_net b))) as (F1 & F2 & F3). destruct (scheduler6_tick _ _) as [t l]. cbn in E1, E2, E3, E4. cbn zeta.
  match goal with |- context [foyer6_tick now ?mac ?our ?n] => destruct (foyer6_tick_total now mac our n) as (n1 & Ef & K1 & Em) end.
  { destruct (bk_net _ K) as [? ? ? [? ? ?]]. split; try done; [split; cbn; congruence|]. cbn. unfold rolodex6_get_ip in *. cbn. congruence. }
  rewrite Ef. unfold foyer6_tick in Ef. apply foyer6_keeps in Ef as (P1 & P2 & P3 & P4 & P5). cbn [mbind option_bind]. eexists. split; [done|]. split.
  - destruct K1 as [Kf Kb]. split; try done; cbn; [by apply tick_ok|]. apply Forall_fmap. eapply Forall_impl; [|exact Kb]. intros s Hs. cbn. by destruct (re_expired now s).
  - cbn. rewrite P1, P2, P3, P4, P5. cbn. rewrite E4. done.
Qed.
End Tick.

(** ** The steps of the configuration *)

Section Steps.
Context `{TxDriver D}.
Implicit Types (n : net6 D) (b : board6 D).

(** What the steps leave alone. *)
Record net_same n n' : Prop := {
  ns_atlas : m_atlas n' = m_atlas n; ns_rolodex : l6_rolodex (m_link n') = l6_rolodex (m_link n); ns_guard : m_guard n' = m_guard n; ns_mac : m_mac n' = m_mac n;
  ns_ra : e6_have_ra (m_echo n') = e6_have_ra (m_echo n) /\ e6_ra_prefix (m_echo n') = e6_ra_prefix (m_echo n) /\ e6_ra_prefix_len (m_echo n') = e6_ra_prefix_len (m_echo n) /\
    e6_ra_router_ip (m_echo n') = e6_ra_router_ip (m_echo n) }.

Lemma start_dad_step now mac ip b : board6_ok b -> length ip = 16%nat ->
  exists n', start_dad now mac ip b = Some (set_b6_concierge (cg_with (cg_state (b6_concierge b)) (now +32 DAD_WAIT_TICKS) (b6_concierge b)) (set_b6_net n' b)) /\
    net_same (b6_net b) n' /\ echo6_dad_conflict (m_echo n') = false.
Proof.
  intros K Hip. unfold start_dad. destruct (solicitation_total now ip mac ip6_zero (m_link (b6_net (on_echo6 (echo6_dad_watch ip) b))) Hip) as (ok & l & -> & El). cbn [mbind option_bind]. eexists. split; [reflexivity|]. by split; [split|].
Qed.

Lemma start_step now b : board6_ok b -> exists b', exec6 (Start6 now) b = Some b' /\ board6_ok b' /\ net_same (b6_net b) (b6_net b') /\ echo6_dad_conflict (m_echo (b6_net b')) = false /\
  cg_state (b6_concierge b') = CONCIERGE6_DAD_LINK_LOCAL /\ cg_dad_deadline (b6_concierge b') = now +32 DAD_WAIT_TICKS /\ form_link_local (m_mac (b6_net b)) = Some (cg_link_local_ip (b6_concierge b')).
Proof.
  intros K. pose proof (ok_mac _ (bk_net _ K)) as Hm. destruct (concierge6_start_total now _ b K Hm) as (b' & E & K'). cbn [exec6]. exists b'. split; [done|]. split; [done|]. revert E.
  unfold concierge6_start. destruct (form_link_local (m_mac (b6_net b))) as [ll|] eqn:El; [|done]. cbn [mbind option_bind]. set (b1 := set_b6_concierge _ b).
  assert (Hll : length ll = 16%nat). { unfold form_link_local in El. repeat (apply bind_Some in El as (? & _ & El)). by injection El as <-. }
  assert (K1 : board6_ok b1) by (destruct K; by apply board6_concierge). destruct (start_dad_step now (m_mac (b6_net b)) ll b1 K1 Hll) as (n' & -> & Hs & Hc). cbn [mbind option_bind]. intros [= <-]. split; [by destruct Hs|]. done.
Qed.

Lemma link_local_step now b : board6_ok b -> cg_state (b6_concierge b) = CONCIERGE6_DAD_LINK_LOCAL -> echo6_dad_conflict (m_echo (b6_net b)) = false -> cg_dad_deadline (b6_concierge b) <= now ->
  exists b', exec6 (Tick6 now) b = Some b' /\ board6_ok b' /\ cg_state (b6_concierge b') = CONCIERGE6_SOLICITING_ROUTER /\ cg_link_local_ip (b6_concierge b') = cg_link_local_ip (b6_concierge b) /\
    m_atlas (b6_net b') = m_atlas (b6_net b) /\ r6_book (l6_rolodex (m_link (b6_net b'))) = r6_book (rolodex6_tick now (l6_rolodex (m_link (b6_net b)))) /\
    rolodex6_get_ip (l6_rolodex (m_link (b6_net b'))) = cg_link_local_ip (b6_concierge b) /\ gd_guests (m_guard (b6_net b')) = guestlist6_tick now (gd_guests (m_guard (b6_net b))) /\
    gd_curfew (m_guard (b6_net b')) = gd_curfew (m_guard (b6_net b)) /\ m_mac (b6_net b') = m_mac (b6_net b).
Proof.
  intros K Hst Hc Hd. cbn [exec6]. destruct (tick6_total now _ b K (ok_mac _ (bk_net _ K))) as (b' & E & K'). exists b'. split; [done|]. split; [done|].
  destruct (tick6_parts now b K) as (n1 & E1 & Kn & Ee & Ea & Er & Eg & Ec & Em). rewrite E1 in E. unfold concierge6_tick in E. cbn [set_b6_net b6_concierge b6_net] in E. rewrite Hst in E.
  unfold tick_dad_link_local in E. cbn [set_b6_net b6_concierge b6_net] in E. rewrite Ee, Hc in E. destruct (Z.ltb_spec now (cg_dad_deadline (b6_concierge b))); [lia|]. cbn [negb andb] in E. injection E as <-.
  split; [done|]. split; [done|]. unfold solicit_router, echo6_dispatch_router_solicitation. cbn [b6_net set_b6_concierge on_net6 on_echo6 on_rolodex6 set_b6_net m_atlas m_link m_guard set_m_link set_m_echo m_mac]. rewrite send6_rolodex.
  cbn. rewrite Er, Ea, Eg, Ec, Em. done.
Qed.

Lemma global_step now b : board6_ok b -> cg_state (b6_concierge b) = CONCIERGE6_SOLICITING_ROUTER -> e6_have_ra (m_echo (b6_net b)) = true -> e6_ra_prefix_len (m_echo (b6_net b)) = 64 ->
  exists b', exec6 (Tick6 now) b = Some b' /\ board6_ok b' /\ cg_state (b6_concierge b') = CONCIERGE6_DAD_GLOBAL /\ cg_dad_deadline (b6_concierge b') = now +32 DAD_WAIT_TICKS /\
    cg_pending_prefix (b6_concierge b') = e6_ra_prefix (m_echo (b6_net b)) /\
    cg_global_ip (b6_concierge b') = take 8 (e6_ra_prefix (m_echo (b6_net b))) ++ derive_privacy_suffix (m_mac (b6_net b)) (e6_ra_prefix (m_echo (b6_net b))) 0 /\
    m_atlas (b6_net b') = m_atlas (b6_net b) /\ e6_ra_router_ip (m_echo (b6_net b')) = e6_ra_router_ip (m_echo (b6_net b)) /\ echo6_dad_conflict (m_echo (b6_net b')) = false.
Proof.
  intros K Hst Hra Hpl. cbn [exec6]. pose proof (ok_mac _ (bk_net _ K)) as Hm. destruct (tick6_total now _ b K Hm) as (b' & E & K'). exists b'. split; [done|]. split; [done|].
  destruct (tick6_parts now b K) as (n1 & E1 & Kn & Ee & Ea & Er & Eg & Ec & Em). rewrite E1 in E. unfold concierge6_tick in E. cbn [set_b6_net b6_concierge b6_net] in E. rewrite Hst in E.
  unfold tick_soliciting, echo6_have_router_advertisement, echo6_get_prefix, try_global in E. cbn [set_b6_net b6_concierge b6_net] in E. rewrite Ee, Hra, Hpl in E. change (negb (64 =? 64)) with false in E. cbv iota in E.
  set (ip := take 8 _ ++ _) in E. assert (Hip : length ip = 16%nat) by (unfold ip; rewrite length_app, length_take, suffix_length, (ok_ra _ (bk_net _ K)); done).
  match type of E with context [start_dad _ _ _ ?bb] => assert (Kb : board6_ok bb) end. { pose proof (board6_net_ok n1 b K Kn) as []. apply board6_concierge; try done. apply K. }
  destruct (start_dad_step now (m_mac (b6_net b)) ip _ Kb Hip) as (n2 & E2 & [Ha _ _ _ (_ & _ & _ & Hr)] & Hc). rewrite E2 in E. cbn [mbind option_bind] in E. injection E as <-. cbn in *. rewrite Ha, Hr, Hc, Ee, Ea. done.
Qed.

Lemma landlord_step now mac our b b' : landlord6_start now mac our b = Some b' ->
  ll_state (b6_landlord b') = LANDLORD6_INFO_REQUESTING /\ m_atlas (b6_net b') = m_atlas (b6_net b) /\ l6_rolodex (m_link (b6_net b')) = l6_rolodex (m_link (b6_net b)) /\ b6_concierge b' = b6_concierge b.
Proof.
  unfold landlord6_start. destruct (lockbox6_listen _ _ _) as [[r o] x]. intros E. apply bind_Some in E as (xid & _ & E). apply bind_Some in E as (b1 & E1 & [= <-]). split; [done|].
  unfold send_information_request in E1. apply bind_Some in E1 as ([ok b2] & E2 & [= <-]). unfold switchboard6_send_udp in E2. apply bind_Some in E2 as ([ok2 n2] & E2 & [= <- <-]). cbn.
  match type of E2 with postcard6_dispatch ?a ?i ?p ?q ?m ?o ?d ?nn = _ => destruct (postcard6_dispatch_total a i p q m o d nn eq_refl) as (ok3 & l & E3 & El); rewrite E3 in E2 end. injection E2 as <- <-. cbn. done.
Qed.

Lemma ready_step now b : board6_ok b -> cg_state (b6_concierge b) = CONCIERGE6_DAD_GLOBAL -> echo6_dad_conflict (m_echo (b6_net b)) = false -> cg_dad_deadline (b6_concierge b) <= now ->
  exists b', exec6 (Tick6 now) b = Some b' /\ board6_ok b' /\ cg_state (b6_concierge b') = CONCIERGE6_READY /\ cg_active_ip (b6_concierge b') = cg_global_ip (b6_concierge b) /\
    rolodex6_get_ip (l6_rolodex (m_link (b6_net b'))) = cg_global_ip (b6_concierge b) /\ ll_state (b6_landlord b') = LANDLORD6_INFO_REQUESTING /\
    m_atlas (b6_net b') = snd (atlas6_add_route (cg_pending_prefix (b6_concierge b)) 64 ip6_zero (atlas6_set_default_gateway (e6_ra_router_ip (m_echo (b6_net b))) (m_atlas (b6_net b)))).
Proof.
  intros K Hst Hc Hd. cbn [exec6]. destruct (tick6_total now _ b K (ok_mac _ (bk_net _ K))) as (b' & E & K'). exists b'. split; [done|]. split; [done|].
  destruct (tick6_parts now b K) as (n1 & E1 & Kn & Ee & Ea & Er & Eg & Ec & Em). rewrite E1 in E. unfold concierge6_tick in E. cbn [set_b6_net b6_concierge b6_net] in E. rewrite Hst in E.
  unfold tick_dad_global in E. cbn [set_b6_net b6_concierge b6_net] in E. rewrite Ee, Hc in E. destruct (Z.ltb_spec now (cg_dad_deadline (b6_concierge b))); [lia|].
  unfold to_ready in E. apply bind_Some in E as (b1 & E2 & [= <-]). apply landlord_step in E2 as (E3 & E4 & E5 & E6). cbn [set_b6_concierge cg_with b6_concierge cg_state cg_active_ip b6_net b6_landlord]. rewrite E3, E4, E5, E6.
  cbn. unfold echo6_get_router. cbn. rewrite Ee, Ea. done.
Qed.
End Steps.

(** ** The router's advertisement *)

(** An advertisement with one prefix of 64 bits, on-link and autonomous. *)
Definition ra_message (router dst : ip6) (lifetime : Z) (prefix : ip6) : list Z :=
  icmp6_message router dst ICMP6_ROUTER_ADVERTISEMENT 0 ([64; 0] ++ put16 lifetime ++ replicate 8 0 ++ [3; 4; 64; 0xC0] ++ replicate 12 0 ++ prefix).

(** The parts of a message are bytes. *)
Ltac byte_parts := rewrite ?bytes_app; repeat match goal with |- _ /\ _ => split end;
  try first [assumption | solve [auto with aevros] | apply Forall_replicate; by split | solve [repeat (apply Forall_cons_2; [by split|]); apply Forall_nil_2]].

Section Router.
Context `{TxDriver D}.
Implicit Types (n : net6 D) (b : board6 D).

Lemma ra_message_fields router dst lifetime prefix : length prefix = 16%nat ->
  exists c, ra_message router dst lifetime prefix = ([ICMP6_ROUTER_ADVERTISEMENT; 0] ++ put16 c ++ [64; 0] ++ put16 lifetime ++ replicate 8 0 ++ [3; 4; 64; 0xC0] ++ replicate 12 0) ++ prefix /\
    zlen (ra_message router dst lifetime prefix) = 48.
Proof.
  intros Hp. destruct (icmp6_message_shape router dst ICMP6_ROUTER_ADVERTISEMENT 0 ([64; 0] ++ put16 lifetime ++ replicate 8 0 ++ [3; 4; 64; 0xC0] ++ replicate 12 0 ++ prefix)) as (c & _ & E).
  exists c. unfold ra_message. rewrite E. split; [done|]. unfold zlen. rewrite !length_app, Hp. done.
Qed.

Lemma ra_bytes router dst lifetime prefix : bytes prefix -> bytes (ra_message router dst lifetime prefix).
Proof.
  intros Hp. unfold ra_message, icmp6_message, icmp6_with. byte_parts.
Qed.

Lemma ra_learned now mac router dst lifetime prefix e (l : link6 D) : is_ip6 router -> is_ip6 dst -> is_ip6 prefix -> is_u16 lifetime ->
  exists c, echo6_handle now mac (ra_message router dst lifetime prefix) router dst (e, l) = Some (set_ra6 (0 <? lifetime) prefix 64 router (set_counts6 c e), l).
Proof.
  intros Hr Hd [Lp Bp] Hl. destruct (ra_message_fields router dst lifetime prefix Lp) as (c & E & Hz). set (m := ra_message router dst lifetime prefix) in *.
  assert (Hck : echo6_check m router dst = Some ICMP6_ACCEPT).
  { unfold echo6_check. rewrite Hz. unfold m at 1, ra_message. rewrite icmp6_message_checks; [by rewrite E|done|done|unfold is_u8, ICMP6_ROUTER_ADVERTISEMENT; lia|unfold is_u8; lia| |unfold zlen; rewrite !length_app, Lp; cbn; lia].
    byte_parts. }
  assert (Hs : slice m 32 16 = Some prefix). { rewrite slice_in_range by (unfold zlen in Hz; lia). rewrite E, drop_app_ge by (cbn; lia). cbn [length app put16 replicate Nat.sub]. rewrite drop_0, take_ge by lia. done. }
  unfold echo6_handle. rewrite Hck. cbn [mbind option_bind]. rewrite bool_decide_true by done. cbn [negb]. set (e1 := set_counts6 _ e). eexists. replace (rd m 0) with (Some ICMP6_ROUTER_ADVERTISEMENT) by (by rewrite E). cbn [mbind option_bind].
  cbn [Z.eqb ICMP6_ROUTER_ADVERTISEMENT ICMP6_ECHO_REQUEST ICMP6_NEIGHBOR_SOLICITATION ICMP6_NEIGHBOR_ADVERTISEMENT Pos.eqb]. unfold handle_router_advertisement. rewrite Hz. change (48 <? 16) with false. cbv iota.
  replace (rd m 6) with (Some (hi8 lifetime)) by (by rewrite E). replace (rd m 7) with (Some (lo8 lifetime)) by (by rewrite E). cbn [mbind option_bind]. rewrite be16_put16 by done.
  replace (length m) with 48%nat by (unfold zlen in Hz; lia). cbn [ra_options]. rewrite Hz. change (48 <? 16 + 2) with false. cbv iota. replace (rd m 16) with (Some 3) by (by rewrite E). replace (rd m (16 + 1)) with (Some 4) by (by rewrite E). cbn [mbind option_bind].
  change (4 =? 0) with false. change (u16 (4 * 8)) with 32. change (48 <? 16 + 32) with false. change ((3 =? 3) && (32 =? 32)) with true. cbv iota. replace (rd m (16 + 2)) with (Some 64) by (by rewrite E). replace (rd m (16 + 3)) with (Some 0xC0) by (by rewrite E).
  cbn [mbind option_bind]. change (negb (Z.land 192 128 =? 0) && negb (Z.land 192 64 =? 0) && (64 <=? 128)) with true. cbv iota. change (Z.to_nat (16 + 16)) with 32%nat. rewrite Hs. cbn [mbind option_bind]. change (48 <? u16 (16 + 32) + 2) with true. cbv iota. cbn [mbind option_bind]. reflexivity.
Qed.

Lemma ra_step now mac hop router dst lifetime prefix b n1 : board6_ok b -> 0 <= now < 0xFFFFFFFF -> is_ip6 router -> is_ip6 dst -> is_ip6 prefix -> is_u16 lifetime -> is_u8 hop ->
  compass6_screen now router mac (set_m_ip_counts (count6_accept (m_ip_counts (b6_net b))) (b6_net b)) = (true, n1) ->
  exists b', exec6 (Packet6 now (ip6_packet 58 hop router dst (ra_message router dst lifetime prefix)) mac) b = Some b' /\ board6_ok b' /\ b6_concierge b' = b6_concierge b /\
    e6_have_ra (m_echo (b6_net b')) = (0 <? lifetime) /\ e6_ra_prefix (m_echo (b6_net b')) = prefix /\ e6_ra_prefix_len (m_echo (b6_net b')) = 64 /\ e6_ra_router_ip (m_echo (b6_net b')) = router /\
    m_atlas (b6_net b') = m_atlas n1 /\ m_mac (b6_net b') = m_mac n1.
Proof.
  intros K Hnow Hr Hd Hp Hl Hh Hsc. pose proof (ra_bytes router dst lifetime prefix (proj2 Hp)) as Bm. destruct (ra_message_fields router dst lifetime prefix (proj1 Hp)) as (_ & _ & Hz). set (m := ra_message router dst lifetime prefix) in *.
  assert (He : event6_ok (Packet6 now (ip6_packet 58 hop router dst m) mac)).
  { split; [done|]. unfold ip6_packet, ip6_header. split; [byte_parts; [apply Forall_cons_2; [by split|]; apply Forall_cons_2; [done|apply Forall_nil_2]|apply Hr|apply Hd]|]. unfold zlen in *. rewrite !length_app, (proj1 Hr), (proj1 Hd). cbn [length put16]. lia. }
  pose proof (exec6_step _ b He K) as Hst. revert Hst. cbn [exec6]. unfold compass6_handle. rewrite (admit6_packet now mac 58 hop router dst m (b6_net b) n1 (proj1 Hr) (proj1 Hd) ltac:(lia) Hsc).
  unfold compass6_unwrap. change (ext_loop MAX_EXT_HEADERS true 58 m) with (Some (ExtDone 58 m)). cbn [mbind option_bind]. change ((58 =? NEXT_HEADER_AH) || (58 =? NEXT_HEADER_ESP)) with false. change (58 =? NEXT_HEADER_FRAGMENT) with false. cbv iota. cbn [mbind option_bind].
  cbn [dispatch6 ip6_directory]. change (6 =? 58) with false. change (17 =? 58) with false. change (58 =? 58) with true. cbv iota. unfold echo6_department.
  destruct (ra_learned now (m_mac n1) router dst lifetime prefix (m_echo n1) (m_link n1) Hr Hd Hp Hl) as (c & E). fold m in E. rewrite E. cbn [mbind option_bind]. intros [_ K']. eexists. split; [done|]. split; [exact K'|]. done.
Qed.
End Router.

(** ** From power on to a global address *)

Lemma slaac_routes prefix router dest : is_ip6 prefix -> is_ip6 dest -> is_zero16 router = false ->
  atlas6_lookup dest (snd (atlas6_add_route prefix 64 ip6_zero (atlas6_set_default_gateway router atlas6_init))) = Some (Some (if bool_decide (take 8 dest = take 8 prefix) then dest else router)).
Proof.
  intros [Lp _] [Ld _] Hr. change (snd (atlas6_add_route prefix 64 ip6_zero (atlas6_set_default_gateway router atlas6_init))) with
    (mkAtlas6 (mkRoute6 prefix 64 ip6_zero true :: replicate (ATLAS6_MAX_ROUTES - 1) (mkRoute6 ip6_zero 0 ip6_zero false)) router (negb (is_zero16 router))).
  assert (Hend : forall best bp, atlas6_scan dest best bp (replicate (ATLAS6_MAX_ROUTES - 1) (mkRoute6 ip6_zero 0 ip6_zero false)) = Some best) by reflexivity.
  unfold atlas6_lookup. cbn [a6_routes a6_have_default_gateway a6_default_gateway atlas6_scan r6_in_use negb r6_network r6_prefix_len]. unfold matches_prefix. change (128 <? 64) with false. change (64 / 8) with 8. change (64 mod 8) with 0. cbv zeta iota.
  rewrite same_bytes by (done || lia). change (Z.to_nat 8) with 8%nat. cbn [mbind option_bind]. change (0 <? 0) with false. change (-1 <? 64) with true. destruct (bool_decide (take 8 dest = take 8 prefix)); cbn [negb mbind option_bind]; rewrite Hend; cbn [mbind option_bind]; [done|]. by rewrite Hr.
Qed.

Lemma curfew_first now ip : exists c, curfew6_check now ip curfew6_init = (true, c).
Proof.
  unfold curfew6_check, curfew_check. change (curfew_find_or_create now ip (cf_entries curfew6_init)) with
    (Some (0%nat, mkCurfew ip now 0 now false true :: replicate (CURFEW_CAPACITY - 1) (mkCurfew ip6_zero 0 0 0 false false))). cbn [lookup list_lookup].
  unfold roll_window. destruct (_ <? _); by eexists.
Qed.

Lemma guest_none now ip : guestlist6_check ip (guestlist6_tick now guestlist6_init) = GUESTLIST_NO_RULE.
Proof. reflexivity. Qed.
Lemma neighbour_none now ip r : r6_book r = r6_book (rolodex6_tick now rolodex6_init) -> rolodex6_disputed ip r = false.
Proof. intros E. unfold rolodex6_disputed, find_entry6. rewrite E. reflexivity. Qed.

Section Slaac.
Context `{TxDriver D}.

Lemma run6_cons e es (b b1 : board6 D) r : exec6 e b = Some b1 -> run6 es b1 = r -> run6 (e :: es) b = r.
Proof. intros E <-. cbn [run6]. by rewrite E. Qed.

(** C6: stateless address configuration.  A host that boots, waits out the check of its
    link-local address, hears one advertisement of a router with a 64-bit prefix and
    waits out the check of its global address is configured: its address is the prefix
    followed by eight derived bytes, the neighbour table answers for it, the DHCPv6
    client has asked for name servers, and every destination with the prefix is reached
    directly, every other one through the router. *)
Theorem slaac_configures mac menu entropy (d : D) t0 t1 t2 t3 t4 hop router router_mac dst lifetime prefix :
  length mac = 6%nat -> 0 <= t0 -> t0 + 100 <= t1 < 4294967296 -> 0 <= t2 < 0xFFFFFFFF -> 0 <= t3 -> t3 + 100 <= t4 < 4294967296 ->
  is_u8 hop -> is_ip6 router -> is_zero16 router = false -> is_ip6 dst -> 0 < lifetime < 65536 -> is_ip6 prefix ->
  let our := take 8 prefix ++ derive_privacy_suffix mac prefix 0 in
  exists b, run6 [Start6 t0; Tick6 t1; Packet6 t2 (ip6_packet 58 hop router dst (ra_message router dst lifetime prefix)) router_mac; Tick6 t3; Tick6 t4]
      (board6_boot (net6_boot mac menu entropy d)) = Some b /\
    concierge6_get_state b = CONCIERGE6_READY /\ cg_active_ip (b6_concierge b) = our /\ rolodex6_get_ip (l6_rolodex (m_link (b6_net b))) = our /\ landlord6_get_state b = LANDLORD6_INFO_REQUESTING /\
    forall dest, is_ip6 dest -> atlas6_lookup dest (m_atlas (b6_net b)) = Some (Some (if bool_decide (take 8 dest = take 8 prefix) then dest else router)).
Proof.
  intros Hm H0 H1 H2 H3 H4 Hh Hr Hnz Hd Hl Hp our. pose proof (boot6_ok mac menu entropy d Hm) as K0. set (b0 := board6_boot _) in *.
  assert (B0 : m_guard (b6_net b0) = guard6_init /\ l6_rolodex (m_link (b6_net b0)) = rolodex6_init /\ m_atlas (b6_net b0) = atlas6_init /\ m_mac (b6_net b0) = mac) by done. destruct B0 as (Bg & Br & Ba & Bm). clearbody b0.
  destruct (start_step t0 b0 K0) as (b1 & E1 & K1 & [Na1 Nr1 Ng1 Nm1 _] & C1 & S1 & D1 & _). rewrite u32_small in D1 by (unfold is_u32, DAD_WAIT_TICKS, PIT_HZ; lia).
  destruct (link_local_step t1 b1 K1 S1 C1) as (b2 & E2 & K2 & S2 & _ & A2 & B2 & _ & G2 & Q2 & M2); [rewrite D1; unfold DAD_WAIT_TICKS, PIT_HZ; lia|].
  assert (exists n3, compass6_screen t2 router router_mac (set_m_ip_counts (count6_accept (m_ip_counts (b6_net b2))) (b6_net b2)) = (true, n3) /\ m_atlas n3 = m_atlas (b6_net b2) /\ m_mac n3 = m_mac (b6_net b2)) as (n3 & E3 & A3 & M3).
  { unfold compass6_screen. cbn [m_guard set_m_ip_counts m_link]. rewrite G2, Ng1, Bg. cbn [guard6_init gd_guests]. rewrite guest_none. cbv iota. rewrite bool_decide_false by done. rewrite Q2, Ng1, Bg.
    destruct (curfew_first t2 router) as [c Ec]. cbn [guard6_init gd_curfew]. rewrite Ec. cbn [negb]. cbn [set_m_guard m_link m_guard].
    assert (rolodex6_disputed router (l6_rolodex (m_link (b6_net b2))) = false) as Hdis by (apply (neighbour_none t1); by rewrite B2, Nr1, Br).
    cbn [set_m_ip_counts m_link]. rewrite Hdis. eexists. split; [reflexivity|]. by split. }
  destruct (ra_step t2 router_mac hop router dst lifetime prefix b2 n3 K2 H2 Hr Hd Hp ltac:(unfold is_u16; lia) Hh E3) as (b3 & E4 & K3 & Cg3 & R3 & P3 & L3 & T3 & A3' & M3').
  destruct (Z.ltb_spec 0 lifetime) as [_|]; [|lia]. destruct (global_step t3 b3 K3) as (b4 & E5 & K4 & S4 & D4 & P4 & I4 & A4 & T4 & C4); [by rewrite Cg3|done|done|].
  rewrite u32_small in D4 by (unfold is_u32, DAD_WAIT_TICKS, PIT_HZ; lia). destruct (ready_step t4 b4 K4 S4 C4) as (b5 & E6 & K5 & S5 & I5 & R5 & L5 & A5); [rewrite D4; unfold DAD_WAIT_TICKS, PIT_HZ; lia|].
  assert (Eip : cg_global_ip (b6_concierge b4) = our) by (by rewrite I4, P3, M3', M3, M2, Nm1, Bm). exists b5. split; [apply (run6_cons _ _ _ _ _ E1), (run6_cons _ _ _ _ _ E2), (run6_cons _ _ _ _ _ E4), (run6_cons _ _ _ _ _ E5), (run6_cons _ _ _ _ _ E6); reflexivity|].
  split; [done|]. split; [by rewrite I5|]. split; [by rewrite R5|]. split; [done|]. intros dest Hdest. rewrite A5, P4, P3, T4, T3, A4, A3', A3, A2, Na1, Ba. by apply slaac_routes.
Qed.
End Slaac.

Lemma slaac_configures_witness : exists b, run6 [Start6 1; Tick6 200; Packet6 210 (ip6_packet 58 255 demo_router demo_host (ra_message demo_router demo_host 1800 (demo6 1 2 0))) (replicate 6 4); Tick6 220; Tick6 400]
    (board6_boot (net6_boot (replicate 6 2) menu_init 7 ([] : list (list Z)))) = Some b /\ concierge6_get_state b = CONCIERGE6_READY /\
  atlas6_lookup (demo6 9 9 9) (m_atlas (b6_net b)) = Some (Some demo_router).
Proof.
  destruct (slaac_configures (replicate 6 2) menu_init 7 ([] : list (list Z)) 1 200 210 220 400 255 demo_router (replicate 6 4) demo_host 1800 (demo6 1 2 0)) as (b & E & S & _ & _ & _ & R).
  1: done. 1-5: lia. 1: unfold is_u8; lia. 1: split; [done|by byte_parts]. 1: done. 1: split; [done|by byte_parts]. 1: lia. 1: apply demo6_ok; unfold is_u8; lia.
  exists b. split; [exact E|]. split; [exact S|]. rewrite R by (apply demo6_ok; unfold is_u8; lia). by rewrite bool_decide_false.
Defined.
