(* ===== verification/Lease.v ===== *)
(** * Landlord, the DHCP client

    [Networking/Landlord/landlord.c]: asks for an address, parses the answers and
    configures Rolodex and Atlas with the lease. *)

From S2P Require Import Prelude SlotTable GuestList Ids RateLimit Sentry Bailiff Rolodex Foyer Atlas.
From S2P Require Import LockBox Ring Inbox Why Scheduler Rapport Transport TcpInv Checksum Echo.
From S2P Require Import Compass Postcard Conversation SwitchBoard Reception Host.
Import Menu Atlas Inbox Postbox Why Lottery SynCookie.

#[local] Open Scope Z_scope.

Definition DHCP_FIXED_LEN : Z := 240.
Definition DHCP_MAX_PACKET : nat := 576.
Definition PIT_HZ : Z := 100.
Definition DHCP_RETRY_TICKS : Z := 5 * PIT_HZ.
Definition DHCP_RENEW_FRACTION_NUM : Z := 1.
Definition DHCP_RENEW_FRACTION_DEN : Z := 2.
Definition LANDLORD_CLIENT_PORT : Z := 68.
Definition LANDLORD_SERVER_PORT : Z := 67.
Definition zero_ip : ip4 := [0; 0; 0; 0].
Definition broadcast_ip : ip4 := [255; 255; 255; 255].

Inductive landlord_state := LANDLORD_INIT | LANDLORD_DISCOVERING | LANDLORD_REQUESTING | LANDLORD_BOUND.
#[export] Instance landlord_state_eq : EqDecision landlord_state.
Proof. solve_decision. Defined.

Record landlord := mkLandlord {
  ld_state : landlord_state; ld_xid : Z; ld_last_action_tick : Z; ld_offered_ip : ip4; ld_server_ip : ip4; ld_subnet_mask : ip4; ld_router_ip : ip4;
  ld_dns_server_ip : ip4; ld_lease_seconds : Z; ld_lease_start_tick : Z }.
Definition landlord_init : landlord := mkLandlord LANDLORD_INIT 0 0 zero_ip zero_ip [255; 255; 255; 0] zero_ip zero_ip 0 0.

Definition set_ld_state (st : landlord_state) (tick : Z) (s : landlord) : landlord :=
  mkLandlord st (ld_xid s) tick (ld_offered_ip s) (ld_server_ip s) (ld_subnet_mask s) (ld_router_ip s) (ld_dns_server_ip s) (ld_lease_seconds s) (ld_lease_start_tick s).
Definition set_ld_xid (x : Z) (s : landlord) : landlord :=
  mkLandlord (ld_state s) x (ld_last_action_tick s) (ld_offered_ip s) (ld_server_ip s) (ld_subnet_mask s) (ld_router_ip s) (ld_dns_server_ip s) (ld_lease_seconds s) (ld_lease_start_tick s).
Definition set_ld_offered (ip : ip4) (s : landlord) : landlord :=
  mkLandlord (ld_state s) (ld_xid s) (ld_last_action_tick s) ip (ld_server_ip s) (ld_subnet_mask s) (ld_router_ip s) (ld_dns_server_ip s) (ld_lease_seconds s) (ld_lease_start_tick s).

(** ** Messages *)

Definition build_header (xid : Z) (our_mac : list Z) (claddr : ip4) : list Z :=
  [1; 1; 6; 0] ++ put32 xid ++ [0; 0; 0x80; 0] ++ claddr ++ replicate 12 0 ++ our_mac ++ replicate 202 0 ++ [99; 130; 83; 99].
Definition append_discover_options : list Z := [53; 1; 1; 55; 3; 1; 3; 6; 255].
(** The server identifier, option 54, goes out without its length byte. *)
Definition append_request_options (s : landlord) : list Z := [53; 1; 3; 50; 4] ++ ld_offered_ip s ++ [54] ++ ld_server_ip s ++ [255].

(** One option: its code and its data. *)
Definition take_option (opt : Z) (data : list Z) (msg_type : Z) (s : landlord) : Z * landlord :=
  let word := take 4 data in
  let put mask router dns server lease :=
    mkLandlord (ld_state s) (ld_xid s) (ld_last_action_tick s) (ld_offered_ip s) server mask router dns lease (ld_lease_start_tick s) in
  if opt =? 53 then ((if 1 <=? zlen data then default 0 (data !! 0%nat) else msg_type), s)
  else if negb (4 <=? zlen data) then (msg_type, s)
  else if opt =? 1 then (msg_type, put word (ld_router_ip s) (ld_dns_server_ip s) (ld_server_ip s) (ld_lease_seconds s))
  else if opt =? 3 then (msg_type, put (ld_subnet_mask s) word (ld_dns_server_ip s) (ld_server_ip s) (ld_lease_seconds s))
  else if opt =? 6 then (msg_type, put (ld_subnet_mask s) (ld_router_ip s) word (ld_server_ip s) (ld_lease_seconds s))
  else if opt =? 54 then (msg_type, put (ld_subnet_mask s) (ld_router_ip s) (ld_dns_server_ip s) word (ld_lease_seconds s))
  else if opt =? 51 then (msg_type, put (ld_subnet_mask s) (ld_router_ip s) (ld_dns_server_ip s) (ld_server_ip s) (ip_word word))
  else (msg_type, s).

(** The loop over the options; [None] is a read outside the packet. *)
Fixpoint options_loop (fuel : nat) (packet : list Z) (i msg_type : Z) (s : landlord) : option (Z * landlord) :=
  match fuel with
  | O => None
  | S fuel' =>
      if negb (i <? zlen packet) then Some (msg_type, s)
      else
        opt ← rd packet i;
        if opt =? 255 then Some (msg_type, s)
        else
          let i := u16 (i + 1) in
          if zlen packet <=? i then Some (msg_type, s)
          else
            opt_len ← rd packet i;
            let i := u16 (i + 1) in
            if zlen packet <? i + opt_len then Some (msg_type, s)
            else
              data ← slice packet (Z.to_nat i) (Z.to_nat opt_len);
              let '(msg_type, s) := take_option opt data msg_type s in
              options_loop fuel' packet (u16 (i + opt_len)) msg_type s
  end.

Definition parse_options (packet : list Z) (s : landlord) : option (Z * landlord) :=
  if zlen packet <? DHCP_FIXED_LEN + 4 then Some (0, s)
  else
    ip ← slice packet 16 4;
    options_loop (length packet) packet DHCP_FIXED_LEN 0 (set_ld_offered ip s).

Definition reply_is_ours (packet our_mac : list Z) (s : landlord) : option bool :=
  if zlen packet <? DHCP_FIXED_LEN + 4 then Some false
  else
    b0 ← rd packet 0;
    if negb (b0 =? 2) then Some false
    else
      reply_xid ← rd32 packet 4;
      mac ← slice packet 28 6;
      Some ((reply_xid =? ld_xid s) && bool_decide (mac = our_mac)).

(** ** The client *)

Section Client.
Context `{TxDriver D}.
Implicit Types (b : board D).

Definition new_xid (now : Z) (our_mac : list Z) (c : syncookie) : option (Z * syncookie) :=
  m0 ← rd our_mac 0; m1 ← rd our_mac 1; m2 ← rd our_mac 2; m3 ← rd our_mac 3; m4 ← rd our_mac 4; m5 ← rd our_mac 5;
  let '(xid, l) := lottery_draw_isn now [m0; m1; m2; m3] m4 [m4; m5; 0; 0] LANDLORD_CLIENT_PORT (sc_lottery c) in
  Some (xid, mkCookie (sc_secret c) (sc_secret_ready c) l).

Definition send_discover (now : Z) (our_mac : list Z) (st : landlord * board D) : option (landlord * board D) :=
  let '(s, b) := st in
  '(xid, c) ← new_xid now our_mac (n_cookie (sb_net b));
  let b := set_board_net (set_cookie c (sb_net b)) b in
  let packet := build_header xid our_mac zero_ip ++ append_discover_options in
  let '(_, b) := switchboard_send_udp now LANDLORD_CLIENT_PORT broadcast_ip LANDLORD_SERVER_PORT our_mac zero_ip packet b in
  Some (set_ld_state LANDLORD_DISCOVERING now (set_ld_xid xid s), b).

Definition send_request (now : Z) (our_mac : list Z) (st : landlord * board D) : landlord * board D :=
  let '(s, b) := st in
  let packet := build_header (ld_xid s) our_mac zero_ip ++ append_request_options s in
  let '(_, b) := switchboard_send_udp now LANDLORD_CLIENT_PORT broadcast_ip LANDLORD_SERVER_PORT our_mac zero_ip packet b in
  (set_ld_state LANDLORD_REQUESTING now s, b).

Definition apply_lease (now : Z) (st : landlord * board D) : landlord * board D :=
  let '(s, b) := st in
  let network := zip_with Z.land (ld_offered_ip s) (ld_subnet_mask s) in
  let n := sb_net b in
  let n := set_net_rolodex (rolodex_set_ip (ld_offered_ip s) (lk_rolodex (n_link n))) n in
  let n := set_atlas (snd (atlas_add_route network (ld_subnet_mask s) [0; 0; 0; 0] (n_atlas n))) n in
  let n := if nonzero (ld_router_ip s) then set_atlas (atlas_set_default_gateway (ld_router_ip s) (n_atlas n)) n else n in
  (mkLandlord LANDLORD_BOUND (ld_xid s) (ld_last_action_tick s) (ld_offered_ip s) (ld_server_ip s) (ld_subnet_mask s) (ld_router_ip s) (ld_dns_server_ip s)
     (if ld_lease_seconds s =? 0 then 3600 else ld_lease_seconds s) now, set_board_net n b).

Definition landlord_start (now : Z) (our_mac : list Z) (st : landlord * board D) : option (landlord * board D) :=
  let '(s, b) := st in
  let n := set_menu (snd (menu_open_port LANDLORD_CLIENT_PORT 17 (n_menu (sb_net b)))) (sb_net b) in
  let '(_, _, x) := lockbox_listen LANDLORD_CLIENT_PORT 17 (tp_lockbox (n_tcp n)) in
  let n := set_tcp (set_tcp_inbox x (tp_inbox (n_tcp n)) (n_tcp n)) n in
  send_discover now our_mac (s, set_board_net n b).

(** The end of [landlord_tick]: nothing came that ends the tick. *)
Definition landlord_wait (now : Z) (our_mac : list Z) (st : landlord * board D) : option (landlord * board D) :=
  let '(s, b) := st in
  if (bool_decide (ld_state s = LANDLORD_DISCOVERING) || bool_decide (ld_state s = LANDLORD_REQUESTING)) && (DHCP_RETRY_TICKS <=? (now -32 ld_last_action_tick s))
  then send_discover now our_mac (s, b)
  else if bool_decide (ld_state s = LANDLORD_BOUND) then
    let renew_at := ld_lease_start_tick s +32 (ld_lease_seconds s *32 PIT_HZ *32 DHCP_RENEW_FRACTION_NUM) / DHCP_RENEW_FRACTION_DEN in
    if renew_at <=? now then send_discover now our_mac (s, b) else Some (s, b)
  else Some (s, b).

Definition landlord_tick (now : Z) (our_mac : list Z) (st : landlord * board D) : option (landlord * board D) :=
  let '(s, b) := st in
  '(got, b) ← switchboard_recv_udp LANDLORD_CLIENT_PORT DHCP_MAX_PACKET b;
  let packet := match got with Some (_, _, data) => data | None => [] end in
  ours ← (if 0 <? zlen packet then reply_is_ours packet our_mac s else Some false);
  if negb ours then landlord_wait now our_mac (s, b)
  else
    '(msg_type, s) ← parse_options packet s;
    if bool_decide (ld_state s = LANDLORD_DISCOVERING) && (msg_type =? 2) then Some (send_request now our_mac (s, b))
    else if bool_decide (ld_state s = LANDLORD_REQUESTING) && (msg_type =? 5) then Some (apply_lease now (s, b))
    else if bool_decide (ld_state s = LANDLORD_REQUESTING) && (msg_type =? 6) then send_discover now our_mac (s, b)
    else landlord_wait now our_mac (s, b).

Definition landlord_get_state (s : landlord) : landlord_state := ld_state s.
Definition landlord_get_dns_server (s : landlord) : ip4 := ld_dns_server_ip s.
End Client.

#[global] Arguments parse_options : simpl never.

(** ** Options *)

(** Options as a server writes them, and what they mean together. *)
Definition encode_options (os : list (Z * list Z)) : list Z := concat ((fun o => [fst o; zlen (snd o)] ++ snd o) <$> os).
Definition apply_options (os : list (Z * list Z)) (acc : Z * landlord) : Z * landlord := foldl (fun a o => take_option (fst o) (snd o) (fst a) (snd a)) acc os.
Definition option_ok (o : Z * list Z) : Prop := 0 <= fst o < 255 /\ zlen (snd o) < 256.

Lemma slice_app pre mid post : slice (pre ++ mid ++ post) (length pre) (length mid) = Some mid.
Proof. rewrite slice_in_range by (rewrite !length_app; lia). by rewrite drop_app_length, take_app_length. Qed.

Lemma rd_app pre x post i : zlen pre = i -> rd (pre ++ x :: post) i = Some x.
Proof. intros <-. unfold rd, zlen. rewrite (proj2 (Z.leb_le 0 _)) by lia. rewrite Nat2Z.id. by apply list_lookup_middle. Qed.

(** The loop reads well-formed options one after the other. *)
Lemma options_loop_prefix os : Forall option_ok os -> forall pre post fuel m s, zlen (pre ++ encode_options os ++ post) < 65536 ->
  options_loop (length os + fuel) (pre ++ encode_options os ++ post) (zlen pre) m s =
  options_loop fuel (pre ++ encode_options os ++ post) (zlen (pre ++ encode_options os)) (fst (apply_options os (m, s))) (snd (apply_options os (m, s))).
Proof.
  induction 1 as [|[code data] os [Hc Hd] _ IH]; intros pre post fuel m s Hz; [by rewrite app_nil_r|].
  cbn [fst snd length Nat.add options_loop] in *. change (encode_options ((code, data) :: os)) with ((code :: zlen data :: data) ++ encode_options os) in *. rewrite <- app_assoc in *. cbn [app] in *. set (rest := encode_options os ++ post) in *.
  assert (Hl : zlen (pre ++ code :: zlen data :: data ++ rest) = zlen pre + 2 + zlen data + zlen rest) by (unfold zlen; rewrite !length_app; cbn; rewrite length_app; lia).
  assert (0 <= zlen pre /\ 0 <= zlen data /\ 0 <= zlen rest) by (unfold rest, zlen; lia). rewrite Hl in Hz |- * at 1. destruct (Z.ltb_spec (zlen pre) (zlen pre + 2 + zlen data + zlen rest)); [|lia]. cbn [negb].
  rewrite (rd_app pre code _ _ eq_refl). cbn [mbind option_bind]. destruct (Z.eqb_spec code 255); [lia|]. rewrite (u16_small (zlen pre + 1)), Hl by (unfold is_u16; lia). destruct (Z.leb_spec (zlen pre + 2 + zlen data + zlen rest) (zlen pre + 1)); [lia|].
  replace (pre ++ code :: zlen data :: data ++ rest) with ((pre ++ [code]) ++ zlen data :: data ++ rest) by (by rewrite <- app_assoc). rewrite rd_app by (unfold zlen; rewrite length_app; cbn; lia). cbn [mbind option_bind].
  rewrite (u16_small (zlen pre + 1 + 1)) by (unfold is_u16; lia). destruct (Z.ltb_spec (zlen pre + 2 + zlen data + zlen rest) (zlen pre + 1 + 1 + zlen data)); [lia|].
  replace ((pre ++ [code]) ++ zlen data :: data ++ rest) with ((pre ++ [code; zlen data]) ++ data ++ rest) by (by rewrite <- !app_assoc).
  replace (Z.to_nat (zlen pre + 1 + 1)) with (length (pre ++ [code; zlen data])) by (unfold zlen; rewrite length_app; cbn; lia). replace (Z.to_nat (zlen data)) with (length data) by (unfold zlen; lia).
  rewrite slice_app. cbn [mbind option_bind]. rewrite u16_small by (unfold is_u16; lia). unfold apply_options. cbn [foldl fst snd]. destruct (take_option code data m s) as [m1 s1]. rewrite app_assoc.
  replace (zlen pre + 1 + 1 + zlen data) with (zlen ((pre ++ [code; zlen data]) ++ data)) by (unfold zlen; rewrite !length_app; cbn; lia).
  pose proof (IH ((pre ++ [code; zlen data]) ++ data) post fuel m1 s1) as IH'. unfold rest. rewrite IH'.
  - f_equal. unfold zlen. rewrite !length_app. cbn [length]. rewrite length_app. lia.
  - unfold rest in *. rewrite <- app_assoc. unfold zlen in *. rewrite !length_app in *. cbn [length] in *. lia.
Qed.

Lemma options_loop_spec os pre junk fuel m s : Forall option_ok os -> zlen (pre ++ encode_options os ++ 255 :: junk) < 65536 -> (length os < fuel)%nat ->
  options_loop fuel (pre ++ encode_options os ++ 255 :: junk) (zlen pre) m s = Some (apply_options os (m, s)).
Proof.
  intros Ho Hz Hf. replace fuel with (length os + S (fuel - S (length os)))%nat by lia. rewrite options_loop_prefix by done. cbn [options_loop]. rewrite app_assoc.
  destruct (Z.ltb_spec (zlen (pre ++ encode_options os)) (zlen ((pre ++ encode_options os) ++ 255 :: junk))) as [_|Hn]; [|unfold zlen in Hn; rewrite !length_app in Hn; cbn [length] in Hn; lia].
  cbn [negb]. rewrite (rd_app (pre ++ encode_options os) 255 junk _ eq_refl). cbn. by destruct (apply_options os (m, s)).
Qed.

Lemma options_loop_total packet : bytes packet -> zlen packet < 65000 -> forall fuel i m s, 0 <= i -> zlen packet < i + 2 * Z.of_nat fuel -> (0 < fuel)%nat -> is_Some (options_loop fuel packet i m s).
Proof.
  intros Hb Hz. induction fuel as [|fuel IH]; intros i m s Hi Hf H0; [lia|]. cbn [options_loop]. destruct (Z.ltb_spec i (zlen packet)) as [H1|]; cbn [negb]; [|done].
  destruct (rd_in_range packet i) as [opt ->]; [lia|]. cbn [mbind option_bind]. destruct (opt =? 255); [done|]. rewrite (u16_small (i + 1)) by (unfold is_u16; lia). destruct (Z.leb_spec (zlen packet) (i + 1)); [done|].
  destruct (rd_in_range packet (i + 1)) as [len Hlen]; [lia|]. rewrite Hlen. cbn [mbind option_bind]. assert (is_u8 len) as Hu. { unfold rd in Hlen. destruct (0 <=? i + 1); [|done]. by eapply (Forall_lookup_1 _ _ _ _ Hb). }
  unfold is_u8 in Hu. rewrite (u16_small (i + 1 + 1)) by (unfold is_u16; lia). destruct (Z.ltb_spec (zlen packet) (i + 1 + 1 + len)); [done|]. rewrite slice_in_range by (unfold zlen in *; lia). cbn [mbind option_bind].
  destruct (take_option _ _ _ _) as [m1 s1]. rewrite u16_small by (unfold is_u16; lia). apply IH; lia.
Qed.

(** The last option with code [c] and at least four bytes, and the last message
    type. *)
Definition opt_word (c : Z) (os : list (Z * list Z)) : option (list Z) :=
  foldl (fun a o => if (fst o =? c) && (4 <=? zlen (snd o)) then Some (take 4 (snd o)) else a) None os.
Definition opt_type (os : list (Z * list Z)) : option Z := foldl (fun a o => if (fst o =? 53) && (1 <=? zlen (snd o)) then Some (default 0 (snd o !! 0%nat)) else a) None os.

(** The landlord with the answer's options. *)
Definition with_options (os : list (Z * list Z)) (s : landlord) : landlord :=
  mkLandlord (ld_state s) (ld_xid s) (ld_last_action_tick s) (ld_offered_ip s) (default (ld_server_ip s) (opt_word 54 os))
    (default (ld_subnet_mask s) (opt_word 1 os)) (default (ld_router_ip s) (opt_word 3 os)) (default (ld_dns_server_ip s) (opt_word 6 os))
    (default (ld_lease_seconds s) (ip_word <$> opt_word 51 os)) (ld_lease_start_tick s).

Lemma opt_word_snoc c os o : opt_word c (os ++ [o]) = if (fst o =? c) && (4 <=? zlen (snd o)) then Some (take 4 (snd o)) else opt_word c os.
Proof. unfold opt_word. by rewrite foldl_app. Qed.
Lemma opt_type_snoc os o : opt_type (os ++ [o]) = if (fst o =? 53) && (1 <=? zlen (snd o)) then Some (default 0 (snd o !! 0%nat)) else opt_type os.
Proof. unfold opt_type. by rewrite foldl_app. Qed.

Lemma apply_options_spec os s : apply_options os (0, s) = (default 0 (opt_type os), with_options os s).
Proof.
  induction os as [|[c data] os IH] using rev_ind; [by destruct s|]. unfold apply_options in *. rewrite foldl_app, IH. cbn [foldl fst snd].
  unfold with_options. rewrite !opt_word_snoc, opt_type_snoc. cbn [fst snd]. unfold take_option.
  destruct (Z.eqb_spec c 53) as [->|]; [cbn; by destruct (1 <=? zlen data)|]. destruct (4 <=? zlen data) eqn:E4; cbn [negb andb]; [|by rewrite !andb_false_r].
  rewrite !andb_true_r. repeat (match goal with |- context [c =? ?k] => destruct (Z.eqb_spec c k); [subst c; done|] end). done.
Qed.

(** ** Answers *)

Definition dhcp_reply (xid : Z) (yiaddr : ip4) (mac : list Z) (os : list (Z * list Z)) : list Z :=
  [2; 1; 6; 0] ++ put32 xid ++ replicate 8 0 ++ yiaddr ++ replicate 8 0 ++ mac ++ replicate 202 0 ++ [99; 130; 83; 99] ++ encode_options os ++ [255].
(** What a server may send: four address bytes, well-formed options, and a
    message that fits the client's buffer. *)
Record reply_ok (xid : Z) (ip mac : list Z) (os : list (Z * list Z)) : Prop := {
  rk_xid : is_u32 xid; rk_ip : length ip = 4%nat; rk_mac : length mac = 6%nat; rk_os : Forall option_ok os;
  rk_min : 3 <= zlen (encode_options os); rk_max : zlen (dhcp_reply xid ip mac os) <= 576 }.

Lemma options_length os : (2 * length os <= length (encode_options os))%nat.
Proof. induction os as [|o os IH]; [done|]. change (encode_options (o :: os)) with (([fst o; zlen (snd o)] ++ snd o) ++ encode_options os). rewrite !length_app. cbn [length]. lia. Qed.

Section Reply.
Context (xid : Z) (ip mac : list Z) (os : list (Z * list Z)) (Hok : reply_ok xid ip mac os).
Let head := [2; 1; 6; 0] ++ put32 xid ++ replicate 8 0 ++ ip ++ replicate 8 0 ++ mac ++ replicate 202 0 ++ [99; 130; 83; 99].
Let Hhead : length head = 240%nat.
Proof. destruct Hok as [_ H1 H2 _ _ _]. unfold head. rewrite !length_app, !length_replicate, H1, H2. done. Qed.
Let Hreply : dhcp_reply xid ip mac os = head ++ encode_options os ++ [255].
Proof. unfold dhcp_reply, head. by rewrite <- !app_assoc. Qed.

Lemma reply_length : zlen (dhcp_reply xid ip mac os) = 241 + zlen (encode_options os).
Proof. rewrite Hreply. unfold zlen. rewrite !length_app, Hhead. cbn [length]. lia. Qed.

Lemma reply_read s : reply_is_ours (dhcp_reply xid ip mac os) mac s = Some (xid =? ld_xid s) /\
  parse_options (dhcp_reply xid ip mac os) s = Some (default 0 (opt_type os), with_options os (set_ld_offered ip s)).
Proof.
  pose proof reply_length as Hl. destruct Hok as [Hx Hi Hm Ho H3 H5]. split.
  - unfold reply_is_ours. rewrite Hl. unfold DHCP_FIXED_LEN. destruct (Z.ltb_spec (241 + zlen (encode_options os)) (240 + 4)); [lia|].
    assert (slice (dhcp_reply xid ip mac os) 28 6 = Some mac) as ->.
    { set (pre := [2; 1; 6; 0] ++ put32 xid ++ replicate 8 0 ++ ip ++ replicate 8 0). replace (dhcp_reply xid ip mac os) with (pre ++ mac ++ replicate 202 0 ++ [99; 130; 83; 99] ++ encode_options os ++ [255]) by (unfold pre; by rewrite <- !app_assoc).
      replace 28%nat with (length pre) by (unfold pre; rewrite !length_app, !length_replicate, Hi; done). rewrite <- Hm at 1. apply slice_app. }
    assert (rd32 (dhcp_reply xid ip mac os) 4 = Some xid) as ->.
    { transitivity (Some (be32 (u8 (Z.shiftr xid 24)) (u8 (Z.shiftr xid 16)) (u8 (Z.shiftr xid 8)) (u8 xid))); [done|]. by rewrite be32_put32. }
    change (rd (dhcp_reply xid ip mac os) 0) with (Some 2). cbn [mbind option_bind negb Z.eqb Pos.eqb]. rewrite bool_decide_eq_true_2 by done. by rewrite andb_true_r.
  - unfold parse_options. rewrite Hl. unfold DHCP_FIXED_LEN. destruct (Z.ltb_spec (241 + zlen (encode_options os)) (240 + 4)); [lia|].
    assert (slice (dhcp_reply xid ip mac os) 16 4 = Some ip) as ->.
    { pose proof (slice_app (([2; 1; 6; 0] ++ put32 xid) ++ replicate 8 0) ip (replicate 8 0 ++ mac ++ replicate 202 0 ++ [99; 130; 83; 99] ++ encode_options os ++ [255])) as Hs.
      rewrite Hi in Hs. rewrite <- !app_assoc in Hs. exact Hs. }
    cbn [mbind option_bind]. pose proof (options_length os). assert (length os < length (dhcp_reply xid ip mac os))%nat by (unfold zlen in Hl; lia).
    rewrite Hreply in *. replace 240 with (zlen head) by (unfold zlen; by rewrite Hhead). rewrite options_loop_spec by (done || lia). by rewrite apply_options_spec.
Qed.
End Reply.

(** ** Leases *)

Section Leases.
Context `{TxDriver D}.
Implicit Types (b : board D).

(** The datagram is the next one for a port. *)
Definition next_datagram (local_port : Z) b (data : list Z) : Prop := exists slot q src port rest,
  lockbox_find_listener local_port 17 (box b) = slot /\ (slot < LOCKBOX_CAPACITY)%nat /\ postbox_inv (n_postbox (sb_net b)) q /\ q slot = mkEnvelope src port data :: rest.

Lemma recv_next local_port max_len b data : next_datagram local_port b data -> (length data <= max_len)%nat -> exists src port pb,
  switchboard_recv_udp local_port max_len b = Some (Some (src, port, data), set_board_net (set_postbox pb (sb_net b)) b).
Proof.
  intros (slot & q & src & port & rest & Hs & Hlt & Hi & Hq) Hl. unfold switchboard_recv_udp. rewrite Hs. destruct (Nat.eqb_spec slot LOCKBOX_CAPACITY); [lia|].
  destruct (postbox_read_spec _ _ slot max_len Hi) as (r & pb & -> & _ & ->). rewrite Hq. cbn [mbind option_bind ev_src_ip ev_src_port ev_data]. rewrite take_ge by lia. by do 3 eexists.
Qed.

(** What a tick does with an answer that is ours. *)
Definition on_reply (now : Z) (mac : list Z) (t : Z) (s : landlord) b : option (landlord * board D) :=
  match ld_state s with
  | LANDLORD_DISCOVERING => if t =? 2 then Some (send_request now mac (s, b)) else landlord_wait now mac (s, b)
  | LANDLORD_REQUESTING => if t =? 5 then Some (apply_lease now (s, b)) else if t =? 6 then send_discover now mac (s, b) else landlord_wait now mac (s, b)
  | _ => landlord_wait now mac (s, b)
  end.

Lemma tick_reply now s b ip mac os : reply_ok (ld_xid s) ip mac os -> next_datagram LANDLORD_CLIENT_PORT b (dhcp_reply (ld_xid s) ip mac os) -> exists pb,
  landlord_tick now mac (s, b) = on_reply now mac (default 0 (opt_type os)) (with_options os (set_ld_offered ip s)) (set_board_net (set_postbox pb (sb_net b)) b).
Proof.
  intros Hok Hn. pose proof Hok as [_ _ _ _ H3 H5]. pose proof (reply_length _ _ _ _ Hok) as Hl. destruct (recv_next _ DHCP_MAX_PACKET _ _ Hn) as (src & port & pb & Hr); [unfold zlen, DHCP_MAX_PACKET in *; lia|]. exists pb.
  unfold landlord_tick. rewrite Hr. cbn [mbind option_bind]. rewrite (proj2 (Z.ltb_lt 0 _)) by lia. destruct (reply_read _ _ _ _ Hok s) as [-> ->]. rewrite Z.eqb_refl. cbn [mbind option_bind negb].
  unfold on_reply. change (ld_state (with_options os (set_ld_offered ip s))) with (ld_state s). by destruct (ld_state s); cbn; repeat case_match.
Qed.


(** ** Faults and forged answers *)

Lemma lease_xid_total now mac c : length mac = 6%nat -> is_Some (new_xid now mac c).
Proof.
  intros Hm. unfold new_xid. repeat (match goal with |- context [rd mac ?i] => destruct (rd_in_range mac i) as [? ->]; [unfold zlen; lia|]; cbn [mbind option_bind] end).
  by destruct (lottery_draw_isn _ _ _ _ _ _).
Qed.

Lemma send_discover_total now mac s b : length mac = 6%nat -> exists s' b', send_discover now mac (s, b) = Some (s', b') /\ ld_state s' = LANDLORD_DISCOVERING.
Proof.
  intros Hm. unfold send_discover. destruct (lease_xid_total now mac (n_cookie (sb_net b)) Hm) as [[xid c] ->]. cbn [mbind option_bind].
  destruct (switchboard_send_udp _ _ _ _ _ _ _ _) as [ok b']. by do 2 eexists.
Qed.

Lemma landlord_wait_total now mac s b : length mac = 6%nat -> exists s' b', landlord_wait now mac (s, b) = Some (s', b') /\ (ld_state s' = ld_state s \/ ld_state s' = LANDLORD_DISCOVERING).
Proof.
  intros Hm. unfold landlord_wait. destruct (send_discover_total now mac s b Hm) as (s' & b' & E & Hs). rewrite E. destruct (_ && _); [eauto|]. destruct (bool_decide _); [|eauto]. cbv zeta. destruct (_ <=? _); eauto.
Qed.

Lemma recv_udp_data b q : postbox_inv (n_postbox (sb_net b)) q -> (forall i e, e ∈ q i -> bytes (ev_data e)) -> exists got b1,
  switchboard_recv_udp LANDLORD_CLIENT_PORT DHCP_MAX_PACKET b = Some (got, b1) /\ match got with Some (_, _, data) => bytes data /\ zlen data <= 576 | None => True end.
Proof.
  intros Hi Hq. unfold switchboard_recv_udp. destruct (_ =? _)%nat; [by do 2 eexists|]. destruct (postbox_read_spec _ _ (lockbox_find_listener LANDLORD_CLIENT_PORT 17 (box b)) DHCP_MAX_PACKET Hi) as (r & pb & -> & _ & ->). cbn [mbind option_bind]. do 2 eexists. split; [done|].
  destruct (q (lockbox_find_listener LANDLORD_CLIENT_PORT 17 (box b))) as [|e l] eqn:E; [done|]. split; [|unfold zlen, DHCP_MAX_PACKET; rewrite length_take; lia]. apply Forall_take, (Hq (lockbox_find_listener LANDLORD_CLIENT_PORT 17 (box b))). rewrite E. left.
Qed.

Lemma reply_is_ours_total packet mac s : is_Some (reply_is_ours packet mac s).
Proof.
  unfold reply_is_ours, DHCP_FIXED_LEN. destruct (Z.ltb_spec (zlen packet) (240 + 4)); [done|]. destruct (rd_in_range packet 0) as [b0 ->]; [lia|]. cbn [mbind option_bind]. destruct (negb _); [done|].
  unfold rd32. repeat (match goal with |- context [rd packet ?i] => destruct (rd_in_range packet i) as [? ->]; [lia|]; cbn [mbind option_bind] end). by rewrite slice_in_range by (unfold zlen in *; lia).
Qed.

Lemma options_keep_state fuel packet : forall i m s r, options_loop fuel packet i m s = Some r -> ld_state (snd r) = ld_state s.
Proof.
  assert (Ht : forall o d m s, ld_state (snd (take_option o d m s)) = ld_state s) by (intros; unfold take_option; by repeat case_match).
  induction fuel as [|fuel IH]; intros i m s r; [done|]. cbn [options_loop]. destruct (negb _); [by intros [= <-]|]. destruct (rd packet i) as [opt|]; [|done]. cbn [mbind option_bind]. destruct (opt =? 255); [by intros [= <-]|]. cbv zeta.
  destruct (_ <=? _); [by intros [= <-]|]. destruct (rd packet _) as [len|]; [|done]. cbn [mbind option_bind]. destruct (_ <? _); [by intros [= <-]|]. destruct (slice _ _ _) as [data|]; [|done]. cbn [mbind option_bind].
  pose proof (Ht opt data m s) as H1. destruct (take_option opt data m s) as [m1 s1]. intros Hr. rewrite (IH _ _ _ _ Hr). exact H1.
Qed.

Lemma parse_options_total packet s : bytes packet -> zlen packet <= 576 -> exists t s', parse_options packet s = Some (t, s') /\ ld_state s' = ld_state s.
Proof.
  intros Hb Hz. unfold parse_options, DHCP_FIXED_LEN. destruct (Z.ltb_spec (zlen packet) (240 + 4)); [by do 2 eexists|]. rewrite slice_in_range by (unfold zlen in *; lia). cbn [mbind option_bind].
  match goal with |- context [options_loop ?f ?p ?i ?m ?s0] => destruct (options_loop_total p Hb ltac:(lia) f i m s0) as [[t s'] E]; [lia|unfold zlen in *; lia|unfold zlen in *; lia|pose proof (options_keep_state _ _ _ _ _ _ E) as Hk] end. rewrite E. by do 2 eexists.
Qed.

(** A DHCP acknowledgement, by its bytes: a BOOTP reply (2) with the transaction id at
    offset 4, the hardware address at 28, and among the options at 240 a message type
    (53) of 5. *)
Record dhcp_ack (xid : Z) (mac packet : list Z) : Prop := {
  da_op : packet !! 0%nat = Some 2;
  da_xid : take 4 (drop 4 packet) = put32 xid;
  da_mac : take 6 (drop 28 packet) = mac;
  da_type : exists os data rest, drop 240 packet = encode_options (os ++ [(53, 5 :: data)]) ++ rest /\ Forall option_ok os }.

(** A message type the loop returns was the one it started with, or is in the packet. *)
Lemma options_found packet : bytes packet -> zlen packet < 65000 -> forall fuel i m s r, 0 <= i -> options_loop fuel packet i m s = Some r ->
  fst r = m \/ exists os data rest, drop (Z.to_nat i) packet = encode_options (os ++ [(53, fst r :: data)]) ++ rest /\ Forall option_ok os.
Proof.
  intros Hb Hz. induction fuel as [|fuel IH]; intros i m s r Hi; [done|]. cbn [options_loop]. destruct (Z.ltb_spec i (zlen packet)) as [H1|]; cbn [negb]; [|intros [= <-]; by left].
  destruct (rd packet i) as [opt|] eqn:Ho; [|done]. cbn [mbind option_bind]. destruct (Z.eqb_spec opt 255) as [|H255]; [intros [= <-]; by left|]. rewrite (u16_small (i + 1)) by (unfold is_u16; lia). destruct (Z.leb_spec (zlen packet) (i + 1)); [intros [= <-]; by left|].
  destruct (rd packet (i + 1)) as [len|] eqn:Hl; [|done]. cbn [mbind option_bind]. pose proof (rd_bytes _ _ _ Hb Ho) as Hou. pose proof (rd_bytes _ _ _ Hb Hl) as Hlu. unfold is_u8 in *.
  rewrite (u16_small (i + 1 + 1)) by (unfold is_u16; lia). destruct (Z.ltb_spec (zlen packet) (i + 1 + 1 + len)); [intros [= <-]; by left|]. rewrite slice_in_range by (unfold zlen in *; lia). cbn [mbind option_bind].
  set (data := take _ _). rewrite (u16_small (i + 1 + 1 + len)) by (unfold is_u16; lia).
  assert (Hd : drop (Z.to_nat i) packet = [opt; len] ++ data ++ drop (Z.to_nat (i + 1 + 1 + len)) packet).
  { unfold rd in Ho, Hl. rewrite (proj2 (Z.leb_le 0 _)) in Ho by lia. rewrite (proj2 (Z.leb_le 0 _)) in Hl by lia. rewrite (drop_S packet opt), (drop_S packet len) by (done || by replace (S (Z.to_nat i)) with (Z.to_nat (i + 1)) by lia). cbn [app]. do 2 f_equal.
    replace (S (S (Z.to_nat i))) with (Z.to_nat (i + 1 + 1)) by lia. unfold data. rewrite <- (take_drop (Z.to_nat len) (drop (Z.to_nat (i + 1 + 1)) packet)) at 1. f_equal. rewrite drop_drop. f_equal. lia. }
  assert (Hdl : zlen data = len) by (unfold data, zlen in *; rewrite length_take, length_drop; lia).
  destruct (take_option opt data m s) as [m1 s1] eqn:Ht. intros Hr. assert (Hi2 : 0 <= i + 1 + 1 + len) by lia. destruct (IH _ _ _ _ Hi2 Hr) as [E | (os & d & rest & E & Hos)].
  - unfold take_option in Ht. destruct (Z.eqb_spec opt 53) as [->|]; [|left; repeat case_match; simplify_eq; done]. injection Ht as Ht _. destruct data as [|x data'] eqn:Edata; [left; change (m = m1) in Ht; congruence|].
    rewrite (proj2 (Z.leb_le _ _)) in Ht by (unfold zlen; cbn [length]; lia). cbn in Ht. right. exists [], data', (drop (Z.to_nat (i + 1 + 1 + len)) packet). split; [|constructor]. rewrite Hd, E, <- Ht, <- Hdl.
    cbn [app encode_options fmap list_fmap concat fst snd]. by rewrite app_nil_r.
  - right. exists ((opt, data) :: os), d, rest. split; [|constructor; [|done]; unfold option_ok; cbn [fst snd]; lia].
    rewrite Hd, E. change (encode_options (((opt, data) :: os) ++ ?x)) with (([opt; zlen data] ++ data) ++ encode_options (os ++ x)). by rewrite Hdl, <- !app_assoc.
Qed.

Lemma put32_be32 (x y z w : Z) : is_u8 x -> is_u8 y -> is_u8 z -> is_u8 w -> put32 (be32 x y z w) = [x; y; z; w].
Proof.
  intros Hx Hy Hz Hw. rewrite be32_add by done. unfold put32, is_u8, u8 in *. rewrite !Z.shiftr_div_pow2 by lia. change (2 ^ 24) with 16777216. change (2 ^ 16) with 65536. change (2 ^ 8) with 256.
  repeat f_equal; lia_mod.
Qed.

Lemma ours_is_ack packet mac s s1 : bytes packet -> zlen packet <= 576 -> reply_is_ours packet mac s = Some true -> parse_options packet s = Some (5, s1) -> dhcp_ack (ld_xid s) mac packet.
Proof.
  intros Hb Hz Ho Hp. unfold reply_is_ours, parse_options, DHCP_FIXED_LEN in *. destruct (Z.ltb_spec (zlen packet) (240 + 4)) as [|Hl]; [done|].
  apply bind_Some in Hp as (ip & _ & Hp). apply bind_Some in Ho as (b0 & H0 & Ho). destruct (Z.eqb_spec b0 2) as [->|]; cbn [negb] in Ho; [|done].
  apply bind_Some in Ho as (x & Hx & Ho). apply bind_Some in Ho as (mc & Hmc & Ho). apply (inj Some) in Ho. apply andb_true_iff in Ho as [Ex Em]. apply Z.eqb_eq in Ex as <-. apply bool_decide_eq_true in Em as ->.
  split.
  - exact H0.
  - unfold rd32 in Hx. apply bind_Some in Hx as (a & Ha & Hx). apply bind_Some in Hx as (b & Hbb & Hx). apply bind_Some in Hx as (c & Hc & Hx). apply bind_Some in Hx as (d & Hd & Hx). apply (inj Some) in Hx as <-.
    rewrite put32_be32 by (eapply rd_bytes; done). unfold rd in *. cbn in Ha, Hbb, Hc, Hd. rewrite (drop_S packet a), (drop_S packet b), (drop_S packet c), (drop_S packet d) by done. done.
  - rewrite slice_in_range in Hmc by (unfold zlen in *; lia). by apply (inj Some) in Hmc.
  - destruct (options_found packet Hb ltac:(lia) _ 240 _ _ _ ltac:(done) Hp) as [E|E]; [discriminate E|exact E].
Qed.

(** C21: whatever bytes the waiting datagrams hold, a tick of Landlord ends without
    reading outside its buffers, and it becomes BOUND only in the state REQUESTING and
    only by the datagram it receives in this tick on its port, when the bytes of that
    datagram are a BOOTP reply (first byte 2) with its own transaction id at offset 4, its
    own MAC at offset 28, and, after well-formed options from offset 240, the option 53
    with the value 5, ACK. *)
Theorem landlord_bound_only_by_ack now mac s b q : length mac = 6%nat -> postbox_inv (n_postbox (sb_net b)) q -> (forall i e, e ∈ q i -> bytes (ev_data e)) ->
  exists s' b', landlord_tick now mac (s, b) = Some (s', b') /\
    (ld_state s' = LANDLORD_BOUND -> ld_state s = LANDLORD_BOUND \/
       ld_state s = LANDLORD_REQUESTING /\ exists src port packet, fst <$> switchboard_recv_udp LANDLORD_CLIENT_PORT DHCP_MAX_PACKET b = Some (Some (src, port, packet)) /\
         dhcp_ack (ld_xid s) mac packet).
Proof.
  intros Hm Hi Hq. destruct (recv_udp_data b q Hi Hq) as (got & b1 & Hr & Hd). unfold landlord_tick. rewrite Hr. cbn [mbind option_bind fmap option_fmap option_map fst].
  assert (W : forall s1, ld_state s1 = ld_state s -> exists s' b', landlord_wait now mac (s1, b1) = Some (s', b') /\ (ld_state s' = LANDLORD_BOUND -> ld_state s = LANDLORD_BOUND)).
  { intros s1 H1. destruct (landlord_wait_total now mac s1 b1 Hm) as (s' & b' & -> & Hs). do 2 eexists. split; [done|]. intros H2. destruct Hs; congruence. }
  assert (W2 : forall s1 (P : Prop), ld_state s1 = ld_state s -> exists s' b', landlord_wait now mac (s1, b1) = Some (s', b') /\ (ld_state s' = LANDLORD_BOUND -> ld_state s = LANDLORD_BOUND \/ P)).
  { intros s1 P H1. destruct (W s1 H1) as (s' & b' & -> & Hs). eauto 6. }
  destruct got as [[[src port] packet]|]; [|cbn; by apply W2]. destruct Hd as [Hb Hz]. destruct (Z.ltb_spec 0 (zlen packet)); [|by apply W2].
  destruct (reply_is_ours_total packet mac s) as [ours Ho]. rewrite Ho. cbn [mbind option_bind]. destruct ours; cbn [negb]; [|by apply W2].
  destruct (parse_options_total packet s Hb Hz) as (t & s1 & Hp & Hs1). rewrite Hp. cbn [mbind option_bind]. rewrite Hs1. destruct (bool_decide _ && _) eqn:E1.
  { unfold send_request. destruct (switchboard_send_udp _ _ _ _ _ _ _ _) as [ok b2]. by do 2 eexists. }
  destruct (bool_decide _ && (t =? 5)) eqn:E2.
  { unfold apply_lease. do 2 eexists. split; [done|]. intros _. right. apply andb_true_iff in E2 as [E3 E4]. apply bool_decide_eq_true in E3. apply Z.eqb_eq in E4 as ->. split; [done|]. exists src, port, packet. split; [done|]. by apply (ours_is_ack packet mac s s1). }
  destruct (bool_decide _ && (t =? 6)); [|by apply W2]. destruct (send_discover_total now mac s1 b1 Hm) as (s' & b' & -> & Hs). do 2 eexists. split; [done|]. congruence.
Qed.
End Leases.

(** The options of a request, behind any header, as the parser reads them. *)
Lemma parse_request head t ip a x y z s : length head = 240%nat -> length t = 15%nat -> t = encode_options [(53, [3]); (50, ip)] ++ [54; a; x; y; z; 255] -> length ip = 4%nat -> slice (head ++ t) 16 4 = Some zero_ip -> 5 <= a ->
  parse_options (head ++ t) s = Some (3, set_ld_offered zero_ip s).
Proof.
  intros Hh Ht E Hi H4 Ha. assert (Hz : zlen (head ++ t) = 255) by (unfold zlen; by rewrite length_app, Hh, Ht). unfold parse_options. rewrite Hz, H4. change (255 <? DHCP_FIXED_LEN + 4) with false. cbv iota. cbn [mbind option_bind].
  destruct (Nat.le_exists_sub 3 (length (head ++ t))) as (f & Hf & _); [unfold zlen in Hz; lia|]. replace (length (head ++ t)) with (Nat.add (length [(53, [3]); (50, ip)]) (S f)) by (cbn [length]; lia). clear Hf. replace DHCP_FIXED_LEN with (zlen head) by (unfold zlen; by rewrite Hh). rewrite E in *.
  rewrite options_loop_prefix; [|repeat constructor; cbn; unfold zlen; try rewrite Hi; cbn; lia|by rewrite Hz].
  assert (Hx : zlen (head ++ encode_options [(53, [3]); (50, ip)]) = 249) by (unfold zlen in *; rewrite !length_app in *; cbn [length] in Ht; lia). rewrite Hx.
  assert (Ho : apply_options [(53, [3]); (50, ip)] (0, set_ld_offered zero_ip s) = (3, set_ld_offered zero_ip s)) by (rewrite apply_options_spec; by destruct s).
  rewrite Ho. cbn [fst snd options_loop]. rewrite Hz. change (negb (249 <? 255)) with false. cbv iota.
  rewrite app_assoc, (rd_app _ 54 _ 249 Hx). cbn [mbind option_bind]. change (54 =? 255) with false. change (u16 (249 + 1)) with 250. change (255 <=? 250) with false. cbv iota zeta.
  change [54; a; x; y; z; 255] with ([54] ++ a :: [x; y; z; 255]). rewrite app_assoc, rd_app by (unfold zlen in *; rewrite length_app, Nat2Z.inj_add, Hx; done). cbn [mbind option_bind].
  change (u16 (250 + 1)) with 251. destruct (Z.ltb_spec 255 (251 + a)); [done|lia].
Qed.

(** The DHCPREQUEST that Landlord sends has no length byte after option 54:
    its own parser, given that request and any other state, reads the message
    type and the requested address and then stops, so the server identifier
    never arrives when the first byte of its address is 5 or more. *)
Lemma dhcp_request_server_lost xid mac s s' a x y z : length mac = 6%nat -> length (ld_offered_ip s) = 4%nat -> ld_server_ip s = [a; x; y; z] -> 5 <= a ->
  parse_options (build_header xid mac zero_ip ++ append_request_options s) s' = Some (3, set_ld_offered zero_ip s').
Proof.
  intros Hm Ho Hs Ha. destruct (list_len_4 _ Ho) as (i1 & i2 & i3 & i4 & Hi). destruct (list_len_6 mac Hm) as (? & ? & ? & ? & ? & ? & ->). apply (parse_request _ _ (ld_offered_ip s) a x y z); try done.
  - unfold append_request_options. by rewrite Hs, Hi.
  - unfold append_request_options. by rewrite Hs, Hi.
Qed.

(** ** A client and a server's two answers *)

Definition lease_mac : list Z := [2; 0; 0; 0; 0; 1].
Definition lease_offer : list Z := dhcp_reply 7 [10; 0; 2; 99] lease_mac [(53, [2]); (54, [10; 0; 2; 2]); (1, [255; 255; 255; 0]); (3, [10; 0; 2; 2])].
Definition lease_ack : list Z := dhcp_reply 7 [10; 0; 2; 99] lease_mac [(53, [5]); (54, [10; 0; 2; 2]); (51, [0; 0; 14; 16])].
Definition lease_client : landlord := mkLandlord LANDLORD_DISCOVERING 7 0 zero_ip zero_ip [255; 255; 255; 0] zero_ip zero_ip 0 0.
Definition lease_board (port : Z) (data : list Z) : board (list (list Z)) :=
  let b := snd (switchboard_bind port 17 (board_boot (net_boot (@nil (list Z)) lease_mac))) in
  set_board_net (set_postbox (snd (postbox_deposit 0 [10; 0; 2; 2] 67 data postbox_init)) (sb_net b)) b.

Lemma lease_board_inv port data : zlen data <= 576 -> postbox_inv (n_postbox (sb_net (lease_board port data))) (updq (fun _ => []) 0 [mkEnvelope [10; 0; 2; 2] 67 data]).
Proof.
  intros Hz. destruct (postbox_deposit_spec postbox_init _ 0 postbox_inv_init [10; 0; 2; 2] 67 data) as [Hf Hi]. rewrite bool_decide_eq_true_2 in Hf by (cbn; lia). rewrite (proj2 (Z.leb_le _ _)) in Hf by lia. rewrite Hf in Hi. exact Hi.
Qed.
Lemma lease_board_next port data : lockbox_find_listener port 17 (box (lease_board port [])) = 0%nat -> zlen data <= 576 -> next_datagram port (lease_board port data) data.
Proof. intros Hp Hz. exists 0%nat, (updq (fun _ => []) 0 [mkEnvelope [10; 0; 2; 2] 67 data]), [10; 0; 2; 2], 67, []. split; [exact Hp|]. split; [unfold LOCKBOX_CAPACITY; lia|]. split; [by apply lease_board_inv|done]. Qed.


Definition lease_asking : landlord := mkLandlord LANDLORD_REQUESTING 7 0 [10; 0; 2; 99] [10; 0; 2; 2] [255; 255; 255; 0] zero_ip zero_ip 0 0.
Lemma landlord_bound_only_by_ack_witness : exists s' b', landlord_tick 5 lease_mac (lease_asking, lease_board 68 lease_ack) = Some (s', b') /\ ld_state s' = LANDLORD_BOUND /\
  exists packet, dhcp_ack 7 lease_mac packet.
Proof.
  destruct (landlord_bound_only_by_ack 5 lease_mac lease_asking (lease_board 68 lease_ack) (updq (fun _ => []) 0 [mkEnvelope [10; 0; 2; 2] 67 lease_ack])) as (s' & b' & E & Hb).
  - reflexivity.
  - apply lease_board_inv. vm_compute. congruence.
  - intros i e. unfold updq. destruct (decide (i = 0%nat)) as [->|]; [|intros H%list.elem_of_nil; destruct H]. intros H%list_elem_of_singleton. subst e. cbn [ev_data]. apply (bool_decide_eq_true_1 (bytes lease_ack)). vm_compute. reflexivity.
  - assert (Hs : ld_state s' = LANDLORD_BOUND). { assert (E2 : (fun r => ld_state (fst r)) <$> landlord_tick 5 lease_mac (lease_asking, lease_board 68 lease_ack) = Some LANDLORD_BOUND) by (vm_compute; reflexivity). rewrite E in E2. cbn in E2. congruence. }
    exists s', b'. split; [exact E|]. split; [exact Hs|]. destruct (Hb Hs) as [H1|(_ & src & port & packet & _ & Hp)]; [discriminate H1|]. exists packet. exact Hp.
Defined.

Lemma dhcp_request_server_lost_witness : fst <$> parse_options (build_header 7 lease_mac zero_ip ++ append_request_options (mkLandlord LANDLORD_REQUESTING 7 0 [10; 0; 2; 99] [10; 0; 2; 2] [255; 255; 255; 0] zero_ip zero_ip 0 0)) landlord_init = Some 3.
Proof. rewrite (dhcp_request_server_lost 7 lease_mac _ landlord_init 10 0 2 2); [reflexivity|reflexivity|reflexivity|reflexivity|lia]. Defined.
