(* ===== verification/CLib.v ===== *)
(** * Libraries: C strings and formatted output

    [Lib/string.c] and [Lib/kprintf.c] on buffers.  A pointer to characters is
    the list of bytes from there to the end of the object; reading or writing
    past that end is undefined, [None]. *)

From S2P Require Import Prelude.
From Stdlib Require Import Ascii String.
From stdpp Require Import list.

#[local] Open Scope Z_scope.

(** The bytes of a string literal, without the final zero. *)
Definition chars (s : string) : list Z := (fun c => Z.of_nat (nat_of_ascii c)) <$> list_ascii_of_string s.
(** The buffer holds the string [s]. *)
Definition cstr (buf s : list Z) : Prop := Forall (fun c => 0 < c < 256) s /\ exists junk, buf = s ++ 0 :: junk.

(** ** Memory *)

Fixpoint memset (dest : list Z) (value : Z) (size : nat) : option (list Z) :=
  match size, dest with
  | O, _ => Some dest
  | S size', _ :: dest' => r ← memset dest' value size'; Some (value :: r)
  | S _, [] => None
  end.

Fixpoint memcpy (dest src : list Z) (size : nat) : option (list Z) :=
  match size, dest, src with
  | O, _, _ => Some dest
  | S size', _ :: dest', s :: src' => r ← memcpy dest' src' size'; Some (s :: r)
  | S _, _, _ => None
  end.

Fixpoint memcmp (a b : list Z) (size : nat) : option Z :=
  match size, a, b with
  | O, _, _ => Some 0
  | S size', x :: a', y :: b' => if negb (x =? y) then Some (x - y) else memcmp a' b' size'
  | S _, _, _ => None
  end.

(** ** Strings *)

(** The index of the character found, [Some None] is [NULL]. *)
Fixpoint strchr_from (i : nat) (s : list Z) (c : Z) : option (option nat) :=
  match s with
  | [] => None
  | x :: s' => if x =? 0 then Some (if c =? 0 then Some i else None) else if x =? u8 c then Some (Some i) else strchr_from (S i) s' c
  end.
Definition strchr (s : list Z) (c : Z) : option (option nat) := strchr_from 0 s c.

Fixpoint strlen_from (len : Z) (str : list Z) : option Z :=
  match str with [] => None | c :: str' => if c =? 0 then Some len else strlen_from (len +32 1) str' end.
Definition strlen (str : list Z) : option Z := strlen_from 0 str.

Fixpoint strcpy (dest src : list Z) : option (list Z) :=
  match src, dest with
  | c :: src', _ :: dest' => if c =? 0 then Some (0 :: dest') else r ← strcpy dest' src'; Some (c :: r)
  | _, _ => None
  end.

(** The loop has [room] turns left. *)
Fixpoint strncpy_loop (room : nat) (dest src : list Z) : option (list Z) :=
  match dest with
  | [] => None
  | _ :: dest' =>
      match room with
      | O => Some (0 :: dest')
      | S room' =>
          match src with
          | [] => None
          | c :: src' => if c =? 0 then Some (0 :: dest') else r ← strncpy_loop room' dest' src'; Some (c :: r)
          end
      end
  end.
Definition strncpy (dest src : list Z) (len : Z) : option (list Z) := if len <=? 0 then Some dest else strncpy_loop (Z.to_nat (len - 1)) dest src.

(** The second loop of [strncat], at the end of [dest]. *)
Fixpoint strncat_loop (n : nat) (dest src : list Z) : option (list Z) :=
  match dest with
  | [] => None
  | _ :: dest' =>
      match n with
      | O => Some (0 :: dest')
      | S n' =>
          match src with
          | [] => None
          | c :: src' => if c =? 0 then Some (0 :: dest') else r ← strncat_loop n' dest' src'; Some (c :: r)
          end
      end
  end.
Fixpoint strncat (dest src : list Z) (n : nat) : option (list Z) :=
  match dest with
  | [] => None
  | c :: dest' => if c =? 0 then strncat_loop n dest src else r ← strncat dest' src n; Some (c :: r)
  end.

Fixpoint strcmp (str1 str2 : list Z) : option Z :=
  match str1, str2 with
  | c1 :: str1', c2 :: str2' => if c1 =? c2 then (if c1 =? 0 then Some 0 else strcmp str1' str2') else Some (c1 - c2)
  | _, _ => None
  end.

Fixpoint strncmp (str1 str2 : list Z) (n : nat) : option Z :=
  match n with
  | O => Some 0
  | S n' =>
      match str1, str2 with
      | c1 :: str1', c2 :: str2' => if negb (c1 =? c2) then Some (c1 - c2) else if c1 =? 0 then Some 0 else strncmp str1' str2' n'
      | _, _ => None
      end
  end.

(** [malloc] says whether [kmalloc_raw] gives memory; [Some None] is [NULL]. *)
Definition strdup (malloc : bool) (str : option (list Z)) : option (option (list Z)) :=
  match str with
  | None => Some None
  | Some str =>
      len ← strlen str;
      if negb malloc then Some None
      else copy ← memcpy (replicate (Z.to_nat (len +32 1)) 0) str (Z.to_nat len); Some (Some (<[Z.to_nat len := 0]> copy))
  end.

(** ** Numbers *)

Definition hex_digit (c : Z) : option Z :=
  if (48 <=? c) && (c <=? 57) then Some (c - 48) else if (97 <=? c) && (c <=? 102) then Some (10 + (c - 97)) else if (65 <=? c) && (c <=? 70) then Some (10 + (c - 65)) else None.

Fixpoint hex_loop (val : Z) (s : list Z) : option Z :=
  match s with
  | [] => None
  | c :: s' => if c =? 0 then Some val else match hex_digit c with Some digit => hex_loop (Z.lor (u32 (Z.shiftl val 4)) digit) s' | None => Some val end
  end.
Definition parse_hex (s : list Z) : option Z :=
  c0 ← s !! 0%nat;
  if negb (c0 =? 48) then hex_loop 0 s
  else c1 ← s !! 1%nat; hex_loop 0 (if (c1 =? 120) || (c1 =? 88) then drop 2 s else s).

(** Signed overflow is undefined. *)
Definition int_ok (x : Z) : bool := (-2147483648 <=? x) && (x <=? 2147483647).

Fixpoint skip_spaces (s : list Z) : list Z := match s with c :: s' => if c =? 32 then skip_spaces s' else s | [] => [] end.
Fixpoint katoi_loop (result : Z) (s : list Z) : option Z :=
  match s with
  | [] => None
  | c :: s' =>
      if (48 <=? c) && (c <=? 57)
      then (let r := result * 10 + (c - 48) in if int_ok (result * 10) && int_ok r then katoi_loop r s' else None)
      else Some result
  end.
Definition katoi (s : option (list Z)) : option Z :=
  match s with
  | None => Some 0
  | Some s =>
      match skip_spaces s with
      | [] => None
      | c :: s' =>
          let '(sign, s) := if c =? 45 then (-1, s') else if c =? 43 then (1, s') else (1, c :: s') in
          result ← katoi_loop 0 s; Some (sign * result)
      end
  end.

(** Turns of [__popcountsi2]; 32 are enough for an [unsigned int]. *)
Fixpoint popcount_loop (fuel : nat) (n count : Z) : option Z :=
  match fuel with
  | O => None
  | S fuel' => if n <=? 0 then Some count else popcount_loop fuel' (Z.shiftr n 1) (if Z.odd n then count + 1 else count)
  end.
Definition popcountsi2 (n : Z) : option Z := popcount_loop 33 n 0.

(** ** Formatted output *)

(** The arguments after the format. *)
Inductive arg := AInt (x : Z) | AStr (s : option (list Z)).
Definition int_arg (args : list arg) : option (Z * list arg) := match args with AInt x :: args' => Some (x, args') | _ => None end.
Definition str_arg (args : list arg) : option (option (list Z) * list arg) := match args with AStr s :: args' => Some (s, args') | _ => None end.

(** The digits of [num], least significant first, in a buffer of [cap]
    characters. *)
Fixpoint digits_rev (cap : nat) (base : Z) (glyph : Z -> Z) (num : Z) : option (list Z) :=
  if num <=? 0 then Some [] else
  match cap with
  | O => None
  | S cap' => r ← digits_rev cap' base glyph (num / base); Some (glyph (num mod base) :: r)
  end.
Definition number (cap : nat) (base : Z) (glyph : Z -> Z) (num : Z) : option (list Z) := if num =? 0 then Some [glyph 0] else r ← digits_rev cap base glyph num; Some (rev r).
Definition decimal (d : Z) : Z := 48 + d.
Definition upper_hex (d : Z) : Z := default 0 (chars "0123456789ABCDEF" !! Z.to_nat d).
Definition lower_hex (d : Z) : Z := default 0 (chars "0123456789abcdef" !! Z.to_nat d).

(** An [int] in decimal; [-INT_MIN] is undefined. *)
Definition signed_number (cap : nat) (num : Z) : option (list Z) :=
  if num <? 0 then (if int_ok (- num) then r ← number cap 10 decimal (- num); Some (45 :: r) else None) else number cap 10 decimal num.

Definition print_decimal (num : Z) : option (list Z) := signed_number 32 num.
Definition print_hex (num : Z) : list Z := (fun i => upper_hex (Z.land (Z.shiftr num i) 0xF)) <$> [28; 24; 20; 16; 12; 8; 4; 0].

Fixpoint starts_with (text prefix : list Z) : option bool :=
  match prefix, text with
  | [], _ => Some true
  | p :: prefix', t :: text' => if negb (t =? p) then Some false else starts_with text' prefix'
  | _ :: _, [] => None
  end.
Fixpoint contains (text needle : list Z) : option bool :=
  match text with
  | [] => None
  | c :: text' => if c =? 0 then Some false else b ← starts_with text needle; if (b : bool) then Some true else contains text' needle
  end.

Definition routine : list (list Z) := chars <$>
  ["[Mailroom] delivered to"; "[Compass] accepted from"; "[Bailiff] issued pass"; "[Postcard] accepted,"; "[Postcard] delivered"; "[Postcard] broadcast"; "[Postcard] sent"; "[Conversation] accepted,"]%string.
Fixpoint routine_loop (rs : list (list Z)) (format : list Z) : option bool :=
  match rs with [] => Some false | r :: rs' => b ← starts_with format r; if (b : bool) then Some true else routine_loop rs' format end.
Definition both (format prefix needle : list Z) : option bool := b ← starts_with format prefix; if (b : bool) then contains format needle else Some false.
Definition is_net_chatter (format : list Z) : option bool :=
  b ← routine_loop routine format;
  if (b : bool) then Some true
  else
    b ← both format (chars "[Bailiff] pass") (chars " honored");
    if (b : bool) then Some true
    else both format (chars "[Switchboard] slot") (chars ": sent ").

(** At most [room] characters of a string. *)
Fixpoint str_prefix (room : nat) (s : list Z) : option (list Z) :=
  match s with
  | [] => None
  | c :: s' => if c =? 0 then Some [] else match room with O => Some [] | S room' => r ← str_prefix room' s'; Some (c :: r) end
  end.

(** [temp] after the [switch] of [kprintf]. *)
Definition convert (c : Z) (args : list arg) : option (list Z * list arg) :=
  if c =? 99 then '(x, args) ← int_arg args; Some ([u8 x], args)
  else if c =? 115 then '(s, args) ← str_arg args; t ← str_prefix 63 (default (chars "NULL" ++ [0]) s); Some (t, args)
  else if c =? 100 then '(x, args) ← int_arg args; t ← signed_number 32 (s32 x); Some (t, args)
  else if c =? 117 then '(x, args) ← int_arg args; t ← number 32 10 decimal (u32 x); Some (t, args)
  else if c =? 120 then '(x, args) ← int_arg args; t ← number 32 16 upper_hex (u32 x); Some (t, args)
  else if c =? 37 then Some ([37], args)
  else Some (if c =? 0 then [37] else [37; c], args).

Fixpoint read_width (width : Z) (format : list Z) : option (Z * list Z) :=
  match format with
  | [] => None
  | c :: format' =>
      if (48 <=? c) && (c <=? 57)
      then (let w := width * 10 + (c - 48) in if int_ok (width * 10) && int_ok w then read_width w format' else None)
      else Some (width, format)
  end.

(** What [kprintf] sends to [kput_char] from [format] on. *)
Fixpoint kprintf_loop (fuel : nat) (format : list Z) (args : list arg) : option (list Z) :=
  match fuel, format with
  | S fuel', c :: format =>
      if c =? 0 then Some []
      else if negb (c =? 37) then out ← kprintf_loop fuel' format args; Some (c :: out)
      else
        c ← format !! 0%nat;
        let '(left_align, format) := if c =? 45 then (true, drop 1 format) else (false, format) in
        '(width, format) ← read_width 0 format;
        c ← format !! 0%nat;
        '(temp, args) ← convert c args;
        let pad := replicate (Z.to_nat (width - zlen temp)) 32 in
        out ← kprintf_loop fuel' (drop 1 format) args;
        Some ((if (left_align : bool) then temp ++ pad else pad ++ temp) ++ out)
  | _, _ => None
  end.

Definition kprintf (net_chatty : bool) (format : list Z) (args : list arg) : option (list Z) :=
  chatter ← (if net_chatty then Some false else is_net_chatter format);
  if (chatter : bool) then Some [] else kprintf_loop (length format) format args.
Definition kprintf_set_net_chatty (on : bool) (net_chatty : bool) : bool := on.
Definition kprintf_net_chatty (net_chatty : bool) : bool := net_chatty.

(** *** Into a buffer *)

(** [buff[pos++] = c]. *)
Definition put (c : Z) (st : list Z * nat) : option (list Z * nat) :=
  let '(buff, pos) := st in if (pos <? length buff)%nat then Some (<[pos := c]> buff, S pos) else None.
(** A loop that copies while [pos < bufsz - 1]. *)
Fixpoint put_all (bufsz : Z) (cs : list Z) (st : list Z * nat) : option (list Z * nat) :=
  match cs with
  | [] => Some st
  | c :: cs' => if Z.of_nat (snd st) <? bufsz - 1 then st ← put c st; put_all bufsz cs' st else Some st
  end.

(** The loop of [%s], which reads the string as it goes. *)
Fixpoint put_str (bufsz : Z) (s : list Z) (st : list Z * nat) : option (list Z * nat) :=
  match s with
  | [] => None
  | c :: s' => if c =? 0 then Some st else if Z.of_nat (snd st) <? bufsz - 1 then st ← put c st; put_str bufsz s' st else Some st
  end.

(** The [switch] of [ksnprintf]; an unknown conversion prints nothing. *)
Definition snconvert (bufsz c : Z) (args : list arg) (st : list Z * nat) : option ((list Z * nat) * list arg) :=
  if c =? 117 then '(x, args) ← int_arg args; t ← number 12 10 decimal (u32 x); st ← put_all bufsz t st; Some (st, args)
  else if c =? 100 then
    '(x, args) ← int_arg args;
    let n := s32 x in
    '(n, st) ← (if (n <? 0) && (Z.of_nat (snd st) <? bufsz - 1) then st ← put 45 st; if int_ok (- n) then Some (- n, st) else None else Some (n, st));
    t ← number 12 10 decimal n; st ← put_all bufsz t st; Some (st, args)
  else if c =? 115 then '(s, args) ← str_arg args; st ← put_str bufsz (default (chars "(null)" ++ [0]) s) st; Some (st, args)
  else if c =? 120 then '(x, args) ← int_arg args; t ← number 8 16 lower_hex (u32 x); st ← put_all bufsz t st; Some (st, args)
  else if c =? 37 then st ← put 37 st; Some (st, args)
  else Some (st, args).

Fixpoint ksnprintf_loop (fuel : nat) (bufsz : Z) (fmt : list Z) (args : list arg) (st : list Z * nat) : option (list Z * nat) :=
  match fuel, fmt with
  | S fuel', c :: fmt =>
      if (c =? 0) || negb (Z.of_nat (snd st) <? bufsz - 1) then Some st
      else if negb (c =? 37) then st ← put c st; ksnprintf_loop fuel' bufsz fmt args st
      else
        c ← fmt !! 0%nat;
        '(st, args) ← snconvert bufsz c args st;
        ksnprintf_loop fuel' bufsz (drop 1 fmt) args st
  | _, _ => None
  end.

Definition ksnprintf (buff : list Z) (bufsz : Z) (fmt : list Z) (args : list arg) : option (list Z) :=
  '(buff, pos) ← ksnprintf_loop (length fmt) bufsz fmt args (buff, 0%nat);
  '(buff, _) ← put 0 (buff, pos); Some buff.

(** ** String lemmas *)

Lemma cstr_cons c buf s : cstr buf (c :: s) -> exists buf', buf = c :: buf' /\ cstr buf' s /\ 0 < c < 256.
Proof. intros [Hs [junk ->]]. apply Forall_cons in Hs as [Hc Hs]. exists (s ++ 0 :: junk). split; [done|]. split; [|done]. split; [done|by exists junk]. Qed.
Lemma cstr_nil buf : cstr buf [] -> exists junk, buf = 0 :: junk.
Proof. by intros [_ [junk ->]]; exists junk. Qed.
Lemma cstr_inj buf s t : cstr buf s -> cstr buf t -> s = t.
Proof.
  revert buf t. induction s as [|c s IH]; intros buf [|d t] Hs Ht; [done| | |].
  - apply cstr_nil in Hs as [? ->]. apply cstr_cons in Ht as (? & [= <- _] & _ & ?). lia.
  - apply cstr_nil in Ht as [? ->]. apply cstr_cons in Hs as (? & [= <- _] & _ & ?). lia.
  - apply cstr_cons in Hs as (b1 & -> & Hs & _). apply cstr_cons in Ht as (b2 & [= <- <-] & Ht & _). f_equal. by eapply IH.
Qed.
Lemma cstr_cons_2 c buf s : 0 < c < 256 -> cstr buf s -> cstr (c :: buf) (c :: s).
Proof. intros Hc [Hs [junk ->]]. split; [by constructor|by exists junk]. Qed.

Lemma strncmp_spec n : forall a b s t, cstr a s -> cstr b t -> exists r, strncmp a b n = Some r /\ (r = 0 <-> take n s = take n t).
Proof.
  induction n as [|n IH]; intros a b s t Ha Hb.
  { exists 0. split; [by destruct a|by rewrite !take_0]. }
  destruct s as [|c s], t as [|d t]; cbn [take].
  - apply cstr_nil in Ha as [? ->]. apply cstr_nil in Hb as [? ->]. exists 0. split; [done|by split].
  - apply cstr_nil in Ha as [? ->]. apply cstr_cons in Hb as (? & -> & _ & Hd). cbn [strncmp]. destruct (Z.eqb_spec 0 d); [lia|]. eexists. split; [done|]. split; [lia|intros [=]].
  - apply cstr_nil in Hb as [? ->]. apply cstr_cons in Ha as (? & -> & _ & Hd). cbn [strncmp]. destruct (Z.eqb_spec c 0); [lia|]. eexists. split; [done|]. split; [lia|intros [=]].
  - apply cstr_cons in Ha as (a' & -> & Ha & Hc). apply cstr_cons in Hb as (b' & -> & Hb & Hd). cbn [strncmp]. destruct (Z.eqb_spec c d) as [->|]; cbn [negb].
    + destruct (Z.eqb_spec d 0); [lia|]. destruct (IH _ _ _ _ Ha Hb) as (r & -> & Hr). exists r. split; [done|]. rewrite Hr. split; [by intros ->|by intros [= ->]].
    + eexists. split; [done|]. split; [lia|intros [=]; lia].
Qed.

Lemma strcmp_spec a b s t : cstr a s -> cstr b t -> exists r, strcmp a b = Some r /\ (r = 0 <-> s = t).
Proof.
  revert a b t. induction s as [|c s IH]; intros a b [|d t] Ha Hb.
  - apply cstr_nil in Ha as [? ->]. apply cstr_nil in Hb as [? ->]. exists 0. split; [done|by split].
  - apply cstr_nil in Ha as [? ->]. apply cstr_cons in Hb as (? & -> & _ & Hd). cbn [strcmp]. destruct (Z.eqb_spec 0 d); [lia|]. eexists. split; [done|]. split; [lia|intros [=]].
  - apply cstr_nil in Hb as [? ->]. apply cstr_cons in Ha as (? & -> & _ & Hd). cbn [strcmp]. destruct (Z.eqb_spec c 0); [lia|]. eexists. split; [done|]. split; [lia|intros [=]].
  - apply cstr_cons in Ha as (a' & -> & Ha & Hc). apply cstr_cons in Hb as (b' & -> & Hb & Hd). cbn [strcmp]. destruct (Z.eqb_spec c d) as [->|].
    + destruct (Z.eqb_spec d 0); [lia|]. destruct (IH _ _ _ Ha Hb) as (r & -> & Hr). exists r. split; [done|]. rewrite Hr. split; [by intros ->|by intros [= ->]].
    + eexists. split; [done|]. split; [lia|intros [=]; lia].
Qed.

(** [strncpy] copies at most [len - 1] characters. *)
Lemma strncpy_loop_spec room : forall dest src s, cstr src s -> (Nat.min room (length s) < length dest)%nat ->
  exists dest', strncpy_loop room dest src = Some dest' /\ cstr dest' (take room s) /\ length dest' = length dest.
Proof.
  induction room as [|room IH]; intros [|d dest] src s Hs Hl; cbn [length] in Hl; try lia; cbn [strncpy_loop].
  - eexists. split; [done|]. split; [|done]. split; [constructor|by exists dest].
  - destruct s as [|c s].
    + apply cstr_nil in Hs as [junk ->]. cbn. eexists. split; [done|]. split; [|done]. split; [constructor|by exists dest].
    + apply cstr_cons in Hs as (b & -> & Hs & Hc). destruct (Z.eqb_spec c 0); [lia|]. cbn [length] in Hl. destruct (IH dest b s Hs) as (r & -> & Hr & Hn); [lia|].
      cbn [mbind option_bind]. eexists. split; [done|]. cbn [take length]. split; [by apply cstr_cons_2|lia].
Qed.

Lemma strncpy_spec dest src s len : cstr src s -> 0 < len <= zlen dest -> exists dest', strncpy dest src len = Some dest' /\ cstr dest' (take (Z.to_nat (len - 1)) s) /\ length dest' = length dest.
Proof. intros Hs Hl. unfold strncpy. destruct (Z.leb_spec len 0); [lia|]. apply strncpy_loop_spec; [done|unfold zlen in *; lia]. Qed.

(** ** Numbers *)

Lemma digits_rev_total base glyph cap : 2 <= base -> forall n, n < base ^ Z.of_nat cap -> exists r, digits_rev cap base glyph n = Some r /\ (length r <= cap)%nat.
Proof.
  intros Hb. induction cap as [|cap IH]; intros n Hn; cbn [digits_rev]; (destruct (Z.leb_spec n 0) as [|Hp]; [eexists; split; [done|cbn; lia]|]); [cbn in Hn; lia|].
  rewrite Nat2Z.inj_succ, Z.pow_succ_r in Hn by lia. destruct (IH (n / base)) as (r & -> & Hr); [apply Z.div_lt_upper_bound; lia|]. cbn [mbind option_bind]. eexists. split; [done|]. cbn [length]. lia.
Qed.

Lemma katoi_digits cap : forall n r rest, 0 <= n <= 2147483647 -> digits_rev cap 10 decimal n = Some r -> katoi_loop 0 (rev r ++ rest) = katoi_loop n rest.
Proof.
  induction cap as [|cap IH]; intros n r rest Hn; cbn [digits_rev]; (destruct (Z.leb_spec n 0); [intros [= <-]; by replace n with 0 by lia|]); [done|].
  destruct (digits_rev cap 10 decimal (n / 10)) as [r'|] eqn:E; [|done]. cbn [mbind option_bind]. intros [= <-]. cbn [rev]. rewrite <- app_assoc. pose proof (Z.div_mod n 10 ltac:(lia)). pose proof (Z.mod_pos_bound n 10 ltac:(lia)).
  rewrite (IH (n / 10) r') by (done || lia). cbn [app katoi_loop]. unfold decimal. rewrite (proj2 (Z.leb_le 48 _)), (proj2 (Z.leb_le _ 57)) by lia. cbn [andb]. cbv zeta.
  replace (n / 10 * 10 + (48 + n mod 10 - 48)) with n by lia. unfold int_ok. rewrite !(proj2 (Z.leb_le _ _)) by lia. done.
Qed.

Lemma hex_digits (glyph : Z -> Z) cap : (forall d, 0 <= d < 16 -> hex_digit (glyph d) = Some d /\ glyph d <> 0) ->
  forall n r rest, is_u32 n -> digits_rev cap 16 glyph n = Some r -> hex_loop 0 (rev r ++ rest) = hex_loop n rest.
Proof.
  intros Hg. induction cap as [|cap IH]; intros n r rest Hn; cbn [digits_rev]; (destruct (Z.leb_spec n 0); [intros [= <-]; unfold is_u32 in Hn; by replace n with 0 by lia|]); [done|].
  destruct (digits_rev cap 16 glyph (n / 16)) as [r'|] eqn:E; [|done]. cbn [mbind option_bind]. intros [= <-]. cbn [rev]. rewrite <- app_assoc. pose proof (Z.div_mod n 16 ltac:(lia)). pose proof (Z.mod_pos_bound n 16 ltac:(lia)).
  unfold is_u32 in Hn. rewrite (IH (n / 16) r') by (done || unfold is_u32; lia). cbn [app hex_loop]. destruct (Hg (n mod 16)) as [-> Hz]; [lia|]. destruct (Z.eqb_spec (glyph (n mod 16)) 0); [done|]. f_equal.
  rewrite u32_small by (unfold is_u32; rewrite Z.shiftl_mul_pow2 by lia; lia). rewrite lor_shift_add by lia. lia.
Qed.

Lemma hex_glyphs d : 0 <= d < 16 -> (hex_digit (lower_hex d) = Some d /\ lower_hex d <> 0) /\ (hex_digit (upper_hex d) = Some d /\ upper_hex d <> 0).
Proof.
  intros Hd. assert (d ∈ [0; 1; 2; 3; 4; 5; 6; 7; 8; 9; 10; 11; 12; 13; 14; 15]) as Hin by (apply list_elem_of_In; cbn; lia).
  clear Hd. revert d Hin. apply (list.Forall_forall (fun d => (hex_digit (lower_hex d) = Some d /\ lower_hex d <> 0) /\ (hex_digit (upper_hex d) = Some d /\ upper_hex d <> 0))).
  repeat constructor; vm_compute; congruence.
Qed.

(** ** Printing into a buffer *)

(** The text of a conversion and of a whole format, without a limit. *)
Fixpoint string_text (s : list Z) : option (list Z) := match s with [] => None | c :: s' => if c =? 0 then Some [] else r ← string_text s'; Some (c :: r) end.
Definition conv_text (c : Z) (args : list arg) : option (list Z * list arg) :=
  if c =? 117 then '(x, args) ← int_arg args; t ← number 12 10 decimal (u32 x); Some (t, args)
  else if c =? 100 then '(x, args) ← int_arg args; t ← signed_number 12 (s32 x); Some (t, args)
  else if c =? 115 then '(s, args) ← str_arg args; t ← string_text (default (chars "(null)" ++ [0]) s); Some (t, args)
  else if c =? 120 then '(x, args) ← int_arg args; t ← number 8 16 lower_hex (u32 x); Some (t, args)
  else if c =? 37 then Some ([37], args) else Some ([], args).
Fixpoint fmt_text (fuel : nat) (fmt : list Z) (args : list arg) : option (list Z) :=
  match fuel, fmt with
  | S fuel', c :: fmt =>
      if c =? 0 then Some []
      else if negb (c =? 37) then r ← fmt_text fuel' fmt args; Some (c :: r)
      else c ← fmt !! 0%nat; '(t, args) ← conv_text c args; r ← fmt_text fuel' (drop 1 fmt) args; Some (t ++ r)
  | _, _ => None
  end.

Section Printed.
Context (buff : list Z) (bufsz : Z) (Hsz : 1 <= bufsz <= zlen buff).
(** The buffer with [out] at its front, and what of a text fits. *)
Let printed (out : list Z) : list Z * nat := (out ++ drop (length out) buff, length out).
Let fits (out : list Z) : Prop := (length out <= Z.to_nat (bufsz - 1))%nat.
Let trunc (out : list Z) : list Z := take (Z.to_nat (bufsz - 1)) out.

Lemma trunc_fits out : fits (trunc out).
Proof. unfold fits, trunc. rewrite length_take. lia. Qed.
Lemma trunc_id out : fits out -> trunc out = out.
Proof. intros H. by apply take_ge. Qed.
Lemma trunc_app out t : trunc (trunc out ++ t) = trunc (out ++ t).
Proof.
  unfold trunc. destruct (Nat.le_gt_cases (length out) (Z.to_nat (bufsz - 1))); [by rewrite (take_ge out)|].
  rewrite !take_app_le by (rewrite ?length_take; lia). rewrite take_take. f_equal. lia.
Qed.

Lemma put_printed c out : (length out < length buff)%nat -> put c (printed out) = Some (printed (out ++ [c])).
Proof.
  intros Hl. unfold put, printed. destruct (Nat.ltb_spec (length out) (length (out ++ drop (length out) buff))) as [_|Hn]; [|rewrite length_app, length_drop in Hn; lia].
  rewrite insert_app_r_alt by lia. rewrite Nat.sub_diag. destruct (drop (length out) buff) as [|x l] eqn:E; [apply (f_equal length) in E; rewrite length_drop in E; cbn in E; lia|].
  cbn [insert list_insert]. rewrite length_app. cbn [length]. rewrite Nat.add_1_r. replace (drop (S (length out)) buff) with l by (by rewrite <- Nat.add_1_r, <- drop_drop, E). by rewrite <- app_assoc.
Qed.

Lemma room_spec out : fits out -> (Z.of_nat (snd (printed out)) <? bufsz - 1) = bool_decide (length out < Z.to_nat (bufsz - 1))%nat.
Proof. intros _. cbn. destruct (Z.ltb_spec (Z.of_nat (length out)) (bufsz - 1)); symmetry; [apply bool_decide_eq_true_2|apply bool_decide_eq_false_2]; lia. Qed.

Lemma put_all_printed cs : forall out, fits out -> put_all bufsz cs (printed out) = Some (printed (trunc (out ++ cs))).
Proof.
  induction cs as [|c cs IH]; intros out Hf; cbn [put_all]; [by rewrite app_nil_r, trunc_id|]. rewrite room_spec by done. unfold fits, zlen in *. case_bool_decide as Hr.
  - rewrite put_printed by lia. cbn [mbind option_bind]. rewrite IH by (rewrite length_app; cbn [length]; lia). by rewrite <- app_assoc.
  - unfold trunc. rewrite take_app_le, take_ge by lia. done.
Qed.

Lemma put_str_printed s : forall t out, string_text s = Some t -> fits out -> put_str bufsz s (printed out) = Some (printed (trunc (out ++ t))).
Proof.
  induction s as [|c s IH]; intros t out; cbn [string_text put_str]; [done|]. destruct (c =? 0); [intros [= <-] Hf; by rewrite app_nil_r, trunc_id|].
  destruct (string_text s) as [r|]; [|done]. cbn [mbind option_bind]. intros [= <-] Hf. rewrite room_spec by done. unfold fits, zlen in *. case_bool_decide as Hr.
  - rewrite put_printed by lia. cbn [mbind option_bind]. rewrite (IH r) by (done || rewrite length_app; cbn [length]; lia). by rewrite <- app_assoc.
  - unfold trunc. rewrite take_app_le, take_ge by lia. done.
Qed.

Lemma snconvert_printed c args out t args' : conv_text c args = Some (t, args') -> (length out < Z.to_nat (bufsz - 1))%nat ->
  snconvert bufsz c args (printed out) = Some (printed (trunc (out ++ t)), args').
Proof.
  intros Hc Hr. assert (Hf : fits out) by (unfold fits; lia). assert (Hl : (length out < length buff)%nat) by (unfold zlen in Hsz; lia). unfold conv_text in Hc. unfold snconvert.
  destruct (c =? 117). { apply bind_Some in Hc as ([x a] & -> & Hc). apply bind_Some in Hc as (n & Hn & [= -> ->]). cbn [mbind option_bind]. rewrite Hn. cbn [mbind option_bind]. by rewrite put_all_printed. }
  destruct (c =? 100).
  { apply bind_Some in Hc as ([x a] & -> & Hc). apply bind_Some in Hc as (n & Hn & [= -> ->]). cbn [mbind option_bind]. cbv zeta. rewrite room_spec, bool_decide_eq_true_2, andb_true_r by done. unfold signed_number in Hn. destruct (s32 x <? 0).
    - destruct (int_ok _); [|done]. apply bind_Some in Hn as (n' & Hn & [= <-]). rewrite put_printed by done. cbn [mbind option_bind]. rewrite Hn. cbn [mbind option_bind]. rewrite put_all_printed by (unfold fits; rewrite length_app; cbn [length]; lia). cbn [mbind option_bind]. by rewrite <- app_assoc.
    - cbn [mbind option_bind]. rewrite Hn. cbn [mbind option_bind]. by rewrite put_all_printed. }
  destruct (c =? 115). { apply bind_Some in Hc as ([x a] & -> & Hc). apply bind_Some in Hc as (n & Hn & [= -> ->]). cbn [mbind option_bind]. by rewrite (put_str_printed _ _ _ Hn). }
  destruct (c =? 120). { apply bind_Some in Hc as ([x a] & -> & Hc). apply bind_Some in Hc as (n & Hn & [= -> ->]). cbn [mbind option_bind]. rewrite Hn. cbn [mbind option_bind]. by rewrite put_all_printed. }
  destruct (c =? 37); injection Hc as <- <-; [rewrite put_printed by done; cbn [mbind option_bind]; rewrite trunc_id by (unfold fits; rewrite length_app; cbn [length]; lia); done|by rewrite app_nil_r, trunc_id].
Qed.

Lemma ksnprintf_loop_printed fuel : forall fmt args out t, fmt_text fuel fmt args = Some t -> fits out ->
  ksnprintf_loop fuel bufsz fmt args (printed out) = Some (printed (trunc (out ++ t))).
Proof.
  induction fuel as [|fuel IH]; intros [|c fmt] args out t Ht Hf; cbn [fmt_text ksnprintf_loop] in *; try done. rewrite room_spec by done.
  destruct (c =? 0); [injection Ht as <-; cbn [orb]; by rewrite app_nil_r, trunc_id|]. cbn [orb]. case_bool_decide as Hr; cbn [negb].
  2:{ unfold trunc, fits in *. rewrite take_app_le, take_ge by lia. done. }
  assert (length out < length buff)%nat by (unfold zlen in Hsz; lia). destruct (negb (c =? 37)).
  - apply bind_Some in Ht as (r & Hr' & [= <-]). rewrite put_printed by done. cbn [mbind option_bind]. rewrite (IH _ _ _ r) by (done || unfold fits; rewrite length_app; cbn [length]; lia). by rewrite <- app_assoc.
  - apply bind_Some in Ht as (d & Hd & Ht). apply bind_Some in Ht as ([t1 args1] & Ht1 & Ht). apply bind_Some in Ht as (r & Hr' & [= <-]). rewrite Hd. cbn [mbind option_bind]. rewrite (snconvert_printed _ _ _ _ _ Ht1) by done. cbn [mbind option_bind].
    rewrite (IH _ _ _ r) by (done || apply trunc_fits). by rewrite trunc_app, app_assoc.
Qed.

Lemma ksnprintf_printed fmt args t : fmt_text (length fmt) fmt args = Some t -> ksnprintf buff bufsz fmt args = Some (take (Z.to_nat (bufsz - 1)) t ++ 0 :: drop (S (length (take (Z.to_nat (bufsz - 1)) t))) buff).
Proof.
  intros Ht. unfold ksnprintf. change (buff, 0%nat) with (printed []). rewrite (ksnprintf_loop_printed _ _ _ [] t) by (done || unfold fits; cbn; lia). cbn [mbind option_bind app]. change (trunc t) with (take (Z.to_nat (bufsz - 1)) t).
  pose proof (put_printed 0 (trunc t)) as Hp. unfold printed at 1 in Hp. unfold printed at 1. fold (trunc t). rewrite Hp by (pose proof (trunc_fits t); unfold fits, zlen in *; lia). cbn [mbind option_bind]. unfold printed. cbn [fst]. rewrite length_app. cbn [length]. by rewrite Nat.add_1_r, <- app_assoc.
Qed.
End Printed.

Lemma glyph_chars (P : Z -> Prop) cap base glyph : (forall d, 0 <= d < base -> P (glyph d)) -> 0 < base -> forall n r, digits_rev cap base glyph n = Some r -> Forall P r.
Proof.
  intros Hg Hb. induction cap as [|cap IH]; intros n r; cbn [digits_rev]; (destruct (n <=? 0); [intros [= <-]; constructor|]); [done|].
  destruct (digits_rev cap base glyph (n / base)) as [r'|] eqn:E; [|done]. intros [= <-]. constructor; [apply Hg, Z.mod_pos_bound; lia|by eapply IH].
Qed.
Lemma number_chars (P : Z -> Prop) cap base glyph n t : (forall d, 0 <= d < base -> P (glyph d)) -> 0 < base -> number cap base glyph n = Some t -> Forall P t.
Proof.
  intros Hg Hb. unfold number. destruct (n =? 0); [intros [= <-]; constructor; [apply Hg; lia|constructor]|]. intros (r & Hr & [= <-])%bind_Some. by apply List.Forall_rev, (glyph_chars P _ _ _ Hg Hb _ _ Hr).
Qed.
Lemma decimal_chars d : 0 <= d < 10 -> 0 < decimal d < 256.
Proof. unfold decimal. lia. Qed.
Lemma lower_hex_chars d : 0 <= d < 16 -> 0 < lower_hex d < 256.
Proof.
  intros Hd. destruct (hex_glyphs d Hd) as [[H1 H2] _]. unfold hex_digit in H1. destruct ((48 <=? lower_hex d) && (lower_hex d <=? 57)) eqn:E1; [lia|]. destruct ((97 <=? lower_hex d) && _) eqn:E2; [lia|]. destruct ((65 <=? lower_hex d) && _) eqn:E3; [lia|done].
Qed.

Definition arg_ok (a : arg) : Prop := match a with AStr (Some s) => bytes s | _ => True end.

Lemma string_chars s t : bytes s -> string_text s = Some t -> Forall (fun c => 0 < c < 256) t.
Proof.
  revert t. induction s as [|c s IH]; intros t Hb; cbn [string_text]; [done|]. apply Forall_cons in Hb as [Hc Hb]. destruct (Z.eqb_spec c 0); [intros [= <-]; constructor|].
  intros (r & Hr & [= <-])%bind_Some. constructor; [unfold is_u8 in Hc; lia|by apply IH].
Qed.

Lemma conv_chars c args t args' : Forall arg_ok args -> conv_text c args = Some (t, args') -> Forall (fun c => 0 < c < 256) t /\ Forall arg_ok args'.
Proof.
  intros Ha. unfold conv_text, int_arg, str_arg.
  destruct (c =? 117). { intros ([x a] & H1 & Hc)%bind_Some. destruct args as [|[y|y] args]; [done| |done]. injection H1 as -> ->. apply bind_Some in Hc as (n & Hn & [= -> ->]). apply Forall_cons in Ha as [_ Ha]. split; [|done]. eapply number_chars; [apply decimal_chars| |exact Hn]; lia. }
  destruct (c =? 100).
  { intros ([x a] & H1 & Hc)%bind_Some. destruct args as [|[y|y] args]; [done| |done]. injection H1 as -> ->. apply bind_Some in Hc as (n & Hn & [= -> ->]). apply Forall_cons in Ha as [_ Ha]. split; [|done]. unfold signed_number in Hn. destruct (_ <? _).
    - destruct (int_ok _); [|done]. apply bind_Some in Hn as (n' & Hn & [= <-]). constructor; [lia|]. eapply number_chars; [apply decimal_chars| |exact Hn]; lia.
    - eapply number_chars; [apply decimal_chars| |exact Hn]; lia. }
  destruct (c =? 115).
  { intros ([x a] & H1 & Hc)%bind_Some. destruct args as [|[y|y] args]; [done|done|]. injection H1 as -> ->. apply bind_Some in Hc as (n & Hn & [= -> ->]). apply Forall_cons in Ha as [Hx Ha]. split; [|done]. eapply string_chars; [|exact Hn]. destruct x; [exact Hx|]. repeat constructor; vm_compute; congruence. }
  destruct (c =? 120). { intros ([x a] & H1 & Hc)%bind_Some. destruct args as [|[y|y] args]; [done| |done]. injection H1 as -> ->. apply bind_Some in Hc as (n & Hn & [= -> ->]). apply Forall_cons in Ha as [_ Ha]. split; [|done]. eapply number_chars; [apply lower_hex_chars| |exact Hn]; lia. }
  destruct (c =? 37); intros [= <- <-]; (split; [|done]); repeat constructor; lia.
Qed.

Lemma fmt_chars fuel : forall fmt args t, bytes fmt -> Forall arg_ok args -> fmt_text fuel fmt args = Some t -> Forall (fun c => 0 < c < 256) t.
Proof.
  induction fuel as [|fuel IH]; intros [|c fmt] args t Hb Ha; cbn [fmt_text]; try done. apply Forall_cons in Hb as [Hc Hb]. destruct (Z.eqb_spec c 0); [intros [= <-]; constructor|]. destruct (negb (c =? 37)).
  - intros (r & Hr & [= <-])%bind_Some. constructor; [unfold is_u8 in Hc; lia|by eapply IH].
  - intros (d & _ & Ht)%bind_Some. apply bind_Some in Ht as ([t1 args1] & Ht1 & Ht). apply bind_Some in Ht as (r & Hr & [= <-]). destruct (conv_chars _ _ _ _ Ha Ht1) as [H1 H2]. apply Forall_app. split; [done|]. eapply IH; [|exact H2|exact Hr]. by apply bytes_drop.
Qed.

(** C22: Formatted printing stays in its buffer.  For a format and arguments
    that mean the text [t], [ksnprintf] with a size of at least one leaves the
    first [bufsz - 1] characters of [t] and a final zero in the buffer, and it
    changes nothing from [buff + bufsz] on. *)
Theorem ksnprintf_bounded buff bufsz fmt args t : 1 <= bufsz <= zlen buff -> bytes fmt -> Forall arg_ok args -> fmt_text (length fmt) fmt args = Some t ->
  exists buff', ksnprintf buff bufsz fmt args = Some buff' /\ cstr buff' (take (Z.to_nat (bufsz - 1)) t) /\
    length buff' = length buff /\ drop (Z.to_nat bufsz) buff' = drop (Z.to_nat bufsz) buff.
Proof.
  intros Hsz Hb Ha Ht. eexists. split; [by apply ksnprintf_printed|]. pose proof (length_take t (Z.to_nat (bufsz - 1))) as Hl. pose proof (fmt_chars _ _ _ _ Hb Ha Ht) as Hc. set (u := take (Z.to_nat (bufsz - 1)) t) in *. unfold zlen in Hsz. split; [|split].
  - split; [by apply Forall_take|by eexists].
  - rewrite length_app. cbn [length]. rewrite length_drop. lia.
  - rewrite drop_app_ge by lia. replace (Z.to_nat bufsz - length u)%nat with (S (Z.to_nat bufsz - S (length u)))%nat by lia. cbn [drop]. rewrite drop_drop. f_equal. lia.
Qed.

Lemma ksnprintf_bounded_witness : exists buff', ksnprintf (replicate 20 7) 16 (chars "%s has %d of %u" ++ [0]) [AStr (Some (chars "tcp" ++ [0])); AInt (-5); AInt 12] = Some buff' /\ cstr buff' (chars "tcp has -5 of 1").
Proof.
  destruct (ksnprintf_bounded (replicate 20 7) 16 (chars "%s has %d of %u" ++ [0]) [AStr (Some (chars "tcp" ++ [0])); AInt (-5); AInt 12] (chars "tcp has -5 of 12")) as (buff' & E & H1 & _).
  - unfold zlen. rewrite length_replicate. lia.
  - apply (bool_decide_eq_true_1 (bytes _)). vm_compute. reflexivity.
  - repeat constructor; vm_compute; congruence.
  - vm_compute. reflexivity.
  - exists buff'. split; [exact E|exact H1].
Defined.

Lemma katoi_number cap n t junk : 0 <= n <= 2147483647 -> number cap 10 decimal n = Some t -> katoi_loop 0 (t ++ 0 :: junk) = Some n /\ exists c t', t = c :: t' /\ 48 <= c <= 57.
Proof.
  intros Hn Ht. assert (Forall (fun c => 48 <= c <= 57) t) as Hf by (eapply (number_chars _ _ 10 decimal); [intros; unfold decimal; lia|lia|exact Ht]). unfold number in Ht. destruct (Z.eqb_spec n 0) as [->|].
  - injection Ht as <-. split; [done|]. do 2 eexists. split; [done|]. unfold decimal. lia.
  - apply bind_Some in Ht as (r & Hr & [= <-]). split; [by rewrite (katoi_digits _ _ _ _ Hn Hr)|]. destruct (rev r) as [|c t'] eqn:E; [|apply Forall_cons in Hf as [Hc _]; by do 2 eexists].
    apply (f_equal length) in E. rewrite length_rev in E. destruct r; [|done]. destruct cap; cbn [digits_rev] in Hr; (destruct (Z.leb_spec n 0); [lia|]); [done|]. by apply bind_Some in Hr as (? & _ & ?).
Qed.

Lemma katoi_signed cap n t junk : -2147483647 <= n <= 2147483647 -> signed_number cap n = Some t -> katoi (Some (t ++ 0 :: junk)) = Some n.
Proof.
  intros Hn. unfold signed_number. destruct (Z.ltb_spec n 0).
  - destruct (int_ok _); [|done]. intros (r & Hr & [= <-])%bind_Some. destruct (katoi_number cap (- n) r junk) as [H1 _]; [lia|done|]. unfold katoi. cbn [app skip_spaces Z.eqb Pos.eqb]. rewrite H1. cbn [mbind option_bind]. f_equal. lia.
  - intros Hr. destruct (katoi_number cap n t junk) as [H1 (c & t' & -> & Hc)]; [lia|done|]. unfold katoi. cbn [app skip_spaces] in *. destruct (Z.eqb_spec c 32); [lia|]. destruct (Z.eqb_spec c 45); [lia|]. destruct (Z.eqb_spec c 43); [lia|]. rewrite H1. cbn [mbind option_bind]. f_equal. lia.
Qed.

Lemma hex_number cap n t junk : is_u32 n -> number cap 16 lower_hex n = Some t -> hex_loop 0 (t ++ 0 :: junk) = Some n.
Proof.
  intros Hn. unfold number. destruct (Z.eqb_spec n 0) as [->|]; [by intros [= <-]|]. intros (r & Hr & [= <-])%bind_Some. rewrite (hex_digits lower_hex _ (fun d Hd => proj1 (hex_glyphs d Hd)) _ _ _ Hn Hr). done.
Qed.

Lemma digits_length base glyph cap : 2 <= base -> forall k n r, n < base ^ Z.of_nat k -> digits_rev cap base glyph n = Some r -> (length r <= k)%nat.
Proof.
  intros Hb. induction cap as [|cap IH]; intros k n r Hk; cbn [digits_rev]; (destruct (Z.leb_spec n 0) as [|Hp]; [intros [= <-]; cbn; lia|]); [done|].
  intros (r' & Hr & [= <-])%bind_Some. destruct k as [|k]; [cbn in Hk; lia|]. rewrite Nat2Z.inj_succ, Z.pow_succ_r in Hk by lia. cbn [length]. assert (length r' <= k)%nat; [|lia]. eapply IH; [|exact Hr]. apply Z.div_lt_upper_bound; lia.
Qed.

(** The text of a number that fits in [k] digits. *)
Lemma number_text base glyph cap k n : 2 <= base -> (1 <= k <= cap)%nat -> n < base ^ Z.of_nat k -> exists t, number cap base glyph n = Some t /\ (length t <= k)%nat.
Proof.
  intros Hb Hk Hn. assert (n < base ^ Z.of_nat cap) as Hc by (pose proof (Z.pow_le_mono_r base (Z.of_nat k) (Z.of_nat cap) ltac:(lia) ltac:(lia)); lia). unfold number.
  destruct (n =? 0); [eexists; split; [done|cbn; lia]|]. destruct (digits_rev_total base glyph cap Hb n Hc) as (r & Hr & _). rewrite Hr. cbn [mbind option_bind]. eexists. split; [done|]. rewrite length_rev. by eapply digits_length.
Qed.

Lemma signed_text n : -2147483647 <= n <= 2147483647 -> exists t, signed_number 12 n = Some t /\ (length t <= 11)%nat.
Proof.
  intros Hn. unfold signed_number. destruct (Z.ltb_spec n 0).
  - unfold int_ok. rewrite !(proj2 (Z.leb_le _ _)) by lia. cbn [andb]. destruct (number_text 10 decimal 12 10 (- n)) as (t & -> & Hl); [lia|lia|change (10 ^ Z.of_nat 10) with 10000000000; lia|]. eexists. split; [done|]. cbn [length]. lia.
  - destruct (number_text 10 decimal 12 10 n) as (t & -> & Hl); [lia|lia|change (10 ^ Z.of_nat 10) with 10000000000; lia|]. eexists. split; [done|lia].
Qed.

Lemma int_s32 n : -2147483648 <= n <= 2147483647 -> s32 n = n.
Proof. intros Hn. unfold s32, u32. destruct (Z.ltb_spec (n mod 4294967296) 2147483648); lia_mod. Qed.

(** C23: Numbers survive printing and parsing.  Whatever the buffer held, every
    [int] but the least one printed with [%d] is what [katoi] reads back, and
    every 32-bit word printed with [0x%x] is what [parse_hex] reads back. *)
Theorem print_parse_roundtrip buff bufsz : 12 <= bufsz <= zlen buff ->
  (forall n, -2147483647 <= n <= 2147483647 -> exists buff', ksnprintf buff bufsz (chars "%d" ++ [0]) [AInt n] = Some buff' /\ katoi (Some buff') = Some n) /\
  (forall n, is_u32 n -> exists buff', ksnprintf buff bufsz (chars "0x%x" ++ [0]) [AInt n] = Some buff' /\ parse_hex buff' = Some n).
Proof.
  intros Hsz. split; intros n Hn.
  - destruct (signed_text n Hn) as (t & Ht & Hl). eexists. split; [apply ksnprintf_printed; [lia|]|].
    + change (fmt_text (length (chars "%d" ++ [0])) (chars "%d" ++ [0]) [AInt n]) with ('(t, args) ← (t ← signed_number 12 (s32 n); Some (t, @nil arg)); r ← Some []; Some (t ++ r)). rewrite int_s32, Ht by lia. cbn [mbind option_bind]. reflexivity.
    + rewrite app_nil_r, take_ge by lia. by apply (katoi_signed 12).
  - destruct (number_text 16 lower_hex 8 8 n) as (t & Ht & Hl); [lia|lia|unfold is_u32 in Hn; change (16 ^ Z.of_nat 8) with 4294967296; lia|]. eexists. split; [apply ksnprintf_printed; [lia|]|].
    + change (fmt_text (length (chars "0x%x" ++ [0])) (chars "0x%x" ++ [0]) [AInt n]) with (r ← (r ← ('(t, args) ← (t ← number 8 16 lower_hex (u32 n); Some (t, @nil arg)); r ← Some []; Some (t ++ r)); Some (120 :: r)); Some (48 :: r)). rewrite u32_small, Ht by done. cbn [mbind option_bind]. reflexivity.
    + rewrite app_nil_r, take_ge by (cbn [length]; lia). unfold parse_hex. cbn [app lookup list_lookup mbind option_bind Z.eqb Pos.eqb negb orb drop]. by apply (hex_number 8).
Qed.

Lemma print_parse_roundtrip_witness : exists buff', ksnprintf (replicate 16 7) 16 (chars "%d" ++ [0]) [AInt (-2040)] = Some buff' /\ katoi (Some buff') = Some (-2040).
Proof.
  destruct (print_parse_roundtrip (replicate 16 7) 16) as [H _]; [unfold zlen; rewrite length_replicate; lia|]. destruct (H (-2040)) as (buff' & E & K); [lia|]. exists buff'. split; [exact E|exact K].
Defined.

(** A format that ends in [%] is read past its end. *)
Example kprintf_trailing_percent : kprintf true (chars "100%" ++ [0]) [] = None.
Proof. reflexivity. Qed.
