(* ===== verification/Directory.v ===== *)
(** * Directory, the DNS client

    [Networking/Directory/directory.c]: one query at a time, an eight-entry cache
    of addresses, and the parser of the answers. *)

From S2P Require Import Prelude SlotTable GuestList Ids RateLimit Sentry Bailiff Rolodex Foyer Atlas.
From S2P Require Import LockBox Ring Inbox Why Scheduler Rapport Transport TcpInv Checksum Echo.
From S2P Require Import Compass Postcard Conversation SwitchBoard Reception Host Lease CLib.
Import Menu Atlas Inbox Postbox.

#[local] Open Scope Z_scope.

Definition DIRECTORY_CLIENT_PORT : Z := 50053.
Definition DIRECTORY_SERVER_PORT : Z := 53.
Definition DIRECTORY_CACHE_CAPACITY : nat := 8.
Definition DIRECTORY_MAX_HOSTNAME : nat := 63.
Definition DIRECTORY_TIMEOUT_TICKS : Z := 300.
Definition DNS_MAX_PACKET : nat := 320.

(** The host names are buffers of [DIRECTORY_MAX_HOSTNAME + 1] characters. *)
Record directory_entry := mkEntry { de_hostname : list Z; de_ip : ip4; de_expired_at_tick : Z; de_in_use : bool }.
Record directory := mkDirectory {
  dy_cache : list directory_entry; dy_dns_server : ip4; dy_have_server : bool; dy_pending_hostname : list Z; dy_pending_id : Z;
  dy_pending_sent_tick : Z; dy_pending_active : bool; dy_pending_retried : bool; dy_next_id : Z }.

Definition empty_entry : directory_entry := mkEntry (replicate 64 0) [0; 0; 0; 0] 0 false.
Definition directory_init : directory := mkDirectory (replicate 8 empty_entry) [0; 0; 0; 0] false (replicate 64 0) 0 0 false false 1.

Definition set_dy_cache (c : list directory_entry) (d : directory) : directory :=
  mkDirectory c (dy_dns_server d) (dy_have_server d) (dy_pending_hostname d) (dy_pending_id d) (dy_pending_sent_tick d) (dy_pending_active d) (dy_pending_retried d) (dy_next_id d).
Definition set_dy_pending (active retried : bool) (sent : Z) (d : directory) : directory :=
  mkDirectory (dy_cache d) (dy_dns_server d) (dy_have_server d) (dy_pending_hostname d) (dy_pending_id d) sent active retried (dy_next_id d).

(** ** The cache *)

(** The loop over the slots from [i]; [Some None] is -1. *)
Fixpoint find_cache_from (i : nat) (cache : list directory_entry) (hostname : list Z) : option (option nat) :=
  match cache with
  | [] => Some None
  | e :: cache' =>
      if negb (de_in_use e) then find_cache_from (S i) cache' hostname
      else
        r ← strncmp (de_hostname e) hostname DIRECTORY_MAX_HOSTNAME;
        if r =? 0 then Some (Some i) else find_cache_from (S i) cache' hostname
  end.
Definition find_cache_slot (hostname : list Z) (d : directory) : option (option nat) := find_cache_from 0 (dy_cache d) hostname.

Definition store_in_cache (now : Z) (hostname : list Z) (ip : ip4) (ttl_seconds : Z) (d : directory) : option directory :=
  slot ← find_cache_slot hostname d;
  let slot := match slot with Some i => i | None => default 0%nat (find_idx (fun e => negb (de_in_use e)) (dy_cache d)) end in
  e ← dy_cache d !! slot;
  name ← strncpy (de_hostname e) hostname 63;
  Some (set_dy_cache (<[slot := mkEntry (<[63%nat := 0]> name) ip (now +32 (ttl_seconds *32 100)) true]> (dy_cache d)) d).

(** ** Names *)

(** The loop of [encode_name]: [i] is the character to look at.  A name longer
    than 65535 characters never ends it. *)
Fixpoint encode_loop (fuel : nat) (hostname : list Z) (label_start i : Z) (out : list Z) : option (list Z) :=
  match fuel with
  | O => None
  | S fuel' =>
      c ← rd hostname i;
      if (c =? 46) || (c =? 0) then
        let label_len := u8 (i - label_start) in
        label ← slice hostname (Z.to_nat label_start) (Z.to_nat label_len);
        let out := out ++ [label_len] ++ label in
        if c =? 0 then Some (out ++ [0]) else encode_loop fuel' hostname (u16 (i + 1)) (u16 (i + 1)) out
      else encode_loop fuel' hostname label_start (u16 (i + 1)) out
  end.
Definition encode_name (hostname : list Z) : option (list Z) := encode_loop (length hostname) hostname 0 0 [].

(** Every turn moves forward, so the loop leaves the packet or ends within
    its length. *)
Fixpoint skip_name_loop (fuel : nat) (packet : list Z) (offset : Z) : option Z :=
  match fuel with
  | O => None
  | S fuel' =>
      c ← rd packet offset;
      if c =? 0 then Some (u16 (offset + 1))
      else if Z.land c 0xC0 =? 0xC0 then Some (u16 (offset + 2))
      else skip_name_loop fuel' packet (u16 (offset + c + 1))
  end.
Definition skip_name (packet : list Z) (offset : Z) : option Z := skip_name_loop (S (length packet)) packet offset.

(** ** Answers *)

Definition rd16 (packet : list Z) (i : Z) : option Z := a ← rd packet i; b ← rd packet (i + 1); Some (be16 a b).

(** The loop over the answer records, [left] of them still to come: the address
    and time to live of the first usable one.  [packet] is the whole buffer, of
    which the datagram fills the first [got] bytes. *)
Fixpoint answer_loop (left : nat) (packet : list Z) (got offset : Z) : option (option (ip4 * Z)) :=
  match left with
  | O => Some None
  | S left' =>
      if negb (offset + 10 <=? got) then Some None
      else
        offset ← skip_name packet offset;
        rtype ← rd16 packet offset;
        rclass ← rd16 packet (offset + 2);
        ttl ← rd32 packet (offset + 4);
        rdlength ← rd16 packet (offset + 8);
        let offset := u16 (offset + 10) in
        if (rtype =? 1) && (rclass =? 1) && (rdlength =? 4) && (offset + 4 <=? got) then
          ip ← slice packet (Z.to_nat offset) 4;
          Some (Some (ip, if ttl =? 0 then 60 else ttl))
        else answer_loop left' packet got (u16 (offset + rdlength))
  end.

(** ** The client *)

Section Client.
Context `{TxDriver D}.
Implicit Types (b : board D).

Definition directory_start b : board D :=
  let n := set_menu (snd (menu_open_port DIRECTORY_CLIENT_PORT 17 (n_menu (sb_net b)))) (sb_net b) in
  let '(_, _, x) := lockbox_listen DIRECTORY_CLIENT_PORT 17 (tp_lockbox (n_tcp n)) in
  set_board_net (set_tcp (set_tcp_inbox x (tp_inbox (n_tcp n)) (n_tcp n)) n) b.

Definition directory_set_server (dns_ip : ip4) (d : directory) : directory :=
  mkDirectory (dy_cache d) dns_ip (nonzero dns_ip) (dy_pending_hostname d) (dy_pending_id d) (dy_pending_sent_tick d) (dy_pending_active d) (dy_pending_retried d) (dy_next_id d).

(** The inner option is the address found. *)
Definition directory_lookup_cached (now : Z) (hostname : list Z) (d : directory) : option (option ip4 * directory) :=
  slot ← find_cache_slot hostname d;
  match slot with
  | None => Some (None, d)
  | Some i =>
      e ← dy_cache d !! i;
      if de_expired_at_tick e <=? now
      then Some (None, set_dy_cache (<[i := mkEntry (de_hostname e) (de_ip e) (de_expired_at_tick e) false]> (dy_cache d)) d)
      else Some (Some (de_ip e), d)
  end.

Definition query_header (id : Z) : list Z := [u8 (Z.shiftr id 8); u8 id; 0x01; 0x00; 0; 1; 0; 0; 0; 0; 0; 0].

Definition directory_query (now : Z) (hostname our_mac : list Z) (our_ip : ip4) (st : directory * board D) : option (bool * (directory * board D)) :=
  let '(d, b) := st in
  '(cached, d) ← directory_lookup_cached now hostname d;
  match cached with
  | Some _ => Some (true, (d, b))
  | None =>
      if negb (dy_have_server d) then Some (false, (d, b))
      else if dy_pending_active d then Some (false, (d, b))
      else
        let id := dy_next_id d in
        name ← encode_name hostname;
        let packet := query_header id ++ name ++ [0; 1; 0; 1] in
        if (DNS_MAX_PACKET <? length packet)%nat then None
        else
          let '(_, b) := switchboard_send_udp now DIRECTORY_CLIENT_PORT (dy_dns_server d) DIRECTORY_SERVER_PORT our_mac our_ip packet b in
          pending ← strncpy (dy_pending_hostname d) hostname 63;
          Some (true, (mkDirectory (dy_cache d) (dy_dns_server d) (dy_have_server d) (<[63%nat := 0]> pending) id now true false (u16 (id + 1)), b))
  end.

(** The end of [directory_tick]: no answer settled the query. *)
Definition directory_timeout (now : Z) (our_mac : list Z) (our_ip : ip4) (st : directory * board D) : option (directory * board D) :=
  let '(d, b) := st in
  if negb (DIRECTORY_TIMEOUT_TICKS <=? (now -32 dy_pending_sent_tick d)) then Some (d, b)
  else if negb (dy_pending_retried d) then
    copy ← strncpy (replicate 64 0) (dy_pending_hostname d) 63;
    '(_, (d, b)) ← directory_query now (<[63%nat := 0]> copy) our_mac our_ip (set_dy_pending false (dy_pending_retried d) now d, b);
    Some (set_dy_pending (dy_pending_active d) true (dy_pending_sent_tick d) d, b)
  else Some (set_dy_pending false (dy_pending_retried d) (dy_pending_sent_tick d) d, b).

(** [stack] is what the 320-byte buffer on the stack held before. *)
Definition directory_tick (now : Z) (stack our_mac : list Z) (our_ip : ip4) (st : directory * board D) : option (directory * board D) :=
  let '(d, b) := st in
  if negb (dy_pending_active d) then Some (d, b)
  else
    '(got, b) ← switchboard_recv_udp DIRECTORY_CLIENT_PORT DNS_MAX_PACKET b;
    let data := match got with Some (_, _, data) => data | None => [] end in
    let packet := blit stack data in
    if negb (12 <=? zlen data) then directory_timeout now our_mac our_ip (d, b)
    else
      reply_id ← rd16 packet 0;
      ancount ← rd16 packet 6;
      if negb ((reply_id =? dy_pending_id d) && (0 <? ancount)) then directory_timeout now our_mac our_ip (d, b)
      else
        offset ← skip_name packet 12;
        found ← answer_loop (Z.to_nat ancount) packet (zlen data) (u16 (offset + 4));
        match found with
        | Some (ip, ttl) =>
            d ← store_in_cache now (dy_pending_hostname d) ip ttl d;
            Some (set_dy_pending false (dy_pending_retried d) (dy_pending_sent_tick d) d, b)
        | None => Some (set_dy_pending false (dy_pending_retried d) (dy_pending_sent_tick d) d, b)
        end.
End Client.

#[global] Arguments skip_name : simpl never.
#[global] Arguments encode_name : simpl never.

(** ** The cache as a table *)

Fixpoint cname (buf : list Z) : list Z := match buf with [] => [] | c :: buf' => if c =? 0 then [] else c :: cname buf' end.
Lemma cname_cstr buf s : cstr buf s -> cname buf = s.
Proof.
  revert buf. induction s as [|c s IH]; intros buf Hs; [by apply cstr_nil in Hs as [? ->]|]. apply cstr_cons in Hs as (b & -> & Hs & Hc). cbn. destruct (Z.eqb_spec c 0); [lia|]. by rewrite (IH b).
Qed.

#[export] Instance entry_slot : Slot directory_entry (list Z) := {| used := de_in_use; key := fun e => cname (de_hostname e) |}.

(** A host name as [strncpy] leaves it: a string of at most 62 characters. *)
Definition name_ok (buf : list Z) : Prop := length buf = 64%nat /\ exists s, cstr buf s /\ (length s <= 62)%nat.
Record directory_wf (d : directory) : Prop := {
  dw_len : length (dy_cache d) = 8%nat; dw_uniq : uniq (dy_cache d);
  dw_names : Forall (fun e => name_ok (de_hostname e)) (dy_cache d); dw_pending : name_ok (dy_pending_hostname d);
  dw_id : is_u16 (dy_next_id d) }.

Lemma copy_name dest src s : length dest = 64%nat -> cstr src s -> exists name, strncpy dest src 63 = Some name /\ cstr (<[63%nat := 0]> name) (take 62 s) /\ length (<[63%nat := 0]> name) = 64%nat.
Proof.
  intros Hd Hs. destruct (strncpy_spec dest src s 63 Hs) as (name & -> & [Hc [junk ->]] & Hl); [unfold zlen; lia|]. exists (take (Z.to_nat (63 - 1)) s ++ 0 :: junk). split; [done|]. change (Z.to_nat (63 - 1)) with 62%nat in *. split.
  - split; [done|]. rewrite insert_app_r_alt by (rewrite length_take; lia). rewrite length_take. destruct (63 - Nat.min 62 (length s))%nat as [|k] eqn:E; [lia|]. by exists (<[k := 0]> junk).
  - rewrite length_insert. lia.
Qed.

Lemma find_cache_from_spec cache host s : Forall (fun e => name_ok (de_hostname e)) cache -> cstr host s -> forall i,
  find_cache_from i cache host = Some (Nat.add i <$> find_key s cache).
Proof.
  intros Hc Hs. induction Hc as [|e cache [_ (n & Hn & Hl)] _ IH]; intros i; [done|]. cbn [find_cache_from]. unfold find_key in *. cbn [find_idx]. cbn [used key entry_slot]. destruct (de_in_use e); cbn [negb andb].
  - destruct (strncmp_spec DIRECTORY_MAX_HOSTNAME _ _ _ _ Hn Hs) as (r & -> & Hr). cbn [mbind option_bind]. rewrite (cname_cstr _ _ Hn). unfold DIRECTORY_MAX_HOSTNAME in Hr. rewrite (take_ge n) in Hr by lia.
    assert (r = 0 <-> n = s) as Hr'. { rewrite Hr. split; [|intros <-; by rewrite take_ge by lia]. intros E. rewrite E in Hl. rewrite length_take in Hl. by rewrite take_ge in E by lia. }
    destruct (Z.eqb_spec r 0) as [Hz|Hz]; rewrite Hr' in Hz.
    + rewrite bool_decide_eq_true_2 by done. cbn. do 2 f_equal. lia.
    + rewrite bool_decide_eq_false_2 by done. rewrite IH. destruct (find_idx _ cache); cbn; [do 2 f_equal; lia|done].
  - rewrite IH. destruct (find_idx _ cache); cbn; [do 2 f_equal; lia|done].
Qed.

Lemma find_slot_spec d host s : directory_wf d -> cstr host s -> find_cache_slot host d = Some (find_key s (dy_cache d)).
Proof. intros Hw Hs. unfold find_cache_slot. rewrite (find_cache_from_spec _ _ s) by (done || apply Hw). by destruct (find_key s (dy_cache d)). Qed.

(** No cached name has 63 characters or more. *)
Lemma long_not_cached d s : directory_wf d -> (63 <= length s)%nat -> find_key s (dy_cache d) = None.
Proof.
  intros Hw Hs. apply find_key_None. intros i e He _ Hk. destruct (Forall_lookup_1 _ _ _ _ (dw_names d Hw) He) as [_ (n & Hn & Hl)]. cbn in Hk. rewrite (cname_cstr _ _ Hn) in Hk. subst. lia.
Qed.

Lemma lookup_cached_spec now d host s : directory_wf d -> cstr host s -> exists d', directory_lookup_cached now host d = Some (match lookup_key s (dy_cache d) with Some e => if de_expired_at_tick e <=? now then None else Some (de_ip e) | None => None end, d') /\
  directory_wf d' /\ dy_pending_active d' = dy_pending_active d /\ dy_have_server d' = dy_have_server d /\ dy_next_id d' = dy_next_id d /\ dy_dns_server d' = dy_dns_server d /\ (lookup_key s (dy_cache d) = None -> d' = d).
Proof.
  intros Hw Hs. unfold directory_lookup_cached, lookup_key. rewrite (find_slot_spec d host s) by done. cbn [mbind option_bind]. destruct (find_key s (dy_cache d)) as [i|] eqn:E; [|by exists d].
  destruct (find_key_sound _ _ _ E) as (e & He & Hu & Hk). cbn [mbind option_bind]. rewrite He. cbn [mbind option_bind]. destruct (de_expired_at_tick e <=? now); [|exists d; split; [done|]; repeat split; try done; apply Hw].
  eexists. split; [done|]. split; [|done]. destruct Hw as [H1 H2 H3 H4 H5]. split; cbn [set_dy_cache dy_cache dy_pending_hostname]; [by rewrite length_insert|by apply uniq_insert| |done|done].
  apply Forall_insert; [done|]. exact (Forall_lookup_1 _ _ _ _ H3 He).
Qed.

Lemma store_spec now d host s ip ttl : directory_wf d -> cstr host s -> (length s <= 62)%nat -> exists d', store_in_cache now host ip ttl d = Some d' /\ directory_wf d' /\
  (exists e, lookup_key s (dy_cache d') = Some e /\ de_ip e = ip /\ de_expired_at_tick e = (now +32 (ttl *32 100))) /\ d' = set_dy_cache (dy_cache d') d.
Proof.
  intros Hw Hs Hn. unfold store_in_cache. rewrite (find_slot_spec d host s) by done. cbn [mbind option_bind].
  set (i := match find_key s (dy_cache d) with Some i => i | None => default 0%nat (find_idx (fun e => negb (de_in_use e)) (dy_cache d)) end).
  assert (Hi : (i < 8)%nat).
  { unfold i. destruct (find_key s (dy_cache d)) eqn:E; [rewrite <- (dw_len d Hw); by eapply find_idx_lt|]. destruct (find_idx _ _) eqn:E2; [rewrite <- (dw_len d Hw); by eapply find_idx_lt|cbn; lia]. }
  destruct (lookup_lt_is_Some_2 (dy_cache d) i) as [x Hx]; [rewrite (dw_len d Hw); lia|]. cbv zeta. rewrite Hx. cbn [mbind option_bind]. destruct (Forall_lookup_1 _ _ _ _ (dw_names d Hw) Hx) as [Hl _].
  destruct (copy_name _ _ _ Hl Hs) as (name & -> & Hname & Hlen). cbn [mbind option_bind]. rewrite take_ge in Hname by lia. set (e := mkEntry _ _ _ _). assert (Hk : key e = s) by (cbn; by apply cname_cstr).
  assert (Hslot : slot_for (dy_cache d) i (key e)). { rewrite Hk. unfold i. destruct (find_key s (dy_cache d)) eqn:E; [apply slot_for_found; [apply Hw|done]|by apply slot_for_new]. }
  eexists. split; [done|]. destruct Hw as [H1 H2 H3 H4 H5]. split; [|split]; [split; cbn [set_dy_cache dy_cache dy_pending_hostname]|..].
  - by rewrite length_insert.
  - by apply uniq_insert.
  - apply Forall_insert; [done|]. split; [done|]. exists s. done.
  - done.
  - done.
  - exists e. split; [|done]. cbn [set_dy_cache dy_cache]. rewrite (lookup_key_write _ _ _ e s H2 Hx (fun _ => Hslot)). by rewrite decide_True by done.
  - done.
Qed.

(** ** Labels *)

(** The labels of a name, the first of them after [cur]. *)
Fixpoint labels (cur s : list Z) : list (list Z) := match s with [] => [cur] | c :: s' => if c =? 46 then cur :: labels [] s' else labels (cur ++ [c]) s' end.
Definition encoded (ls : list (list Z)) : list Z := concat ((fun l => zlen l :: l) <$> ls).
Definition label_ok (l : list Z) : Prop := (1 <= length l <= 63)%nat.

Lemma encode_loop_spec s : forall pre cur junk fuel out, Forall (fun c => 0 < c < 256) s -> (length (pre ++ cur ++ s) < 256)%nat -> (length s < fuel)%nat ->
  encode_loop fuel (pre ++ cur ++ s ++ 0 :: junk) (zlen pre) (zlen pre + zlen cur) out = Some (out ++ encoded (labels cur s) ++ [0]).
Proof.
  induction s as [|c s IH]; intros pre cur junk fuel out Hs Hl Hf; (destruct fuel as [|fuel]; [cbn in Hf; lia|]); cbn [encode_loop].
  - replace (zlen pre + zlen cur) with (zlen (pre ++ cur)) by (unfold zlen; rewrite length_app; lia). cbn [app]. rewrite app_assoc. rewrite (rd_app (pre ++ cur) 0 junk _ eq_refl). cbn [mbind option_bind Z.eqb orb]. rewrite !length_app in Hl. cbn [length] in Hl.
    replace (zlen (pre ++ cur) - zlen pre) with (zlen cur) by (unfold zlen; rewrite length_app; lia). rewrite u8_small by (unfold is_u8, zlen; lia). cbv zeta. rewrite <- app_assoc. replace (Z.to_nat (zlen pre)) with (length pre) by (unfold zlen; lia). replace (Z.to_nat (zlen cur)) with (length cur) by (unfold zlen; lia).
    rewrite slice_app. cbn [mbind option_bind labels]. unfold encoded. cbn. by rewrite app_nil_r, <- app_assoc.
  - apply Forall_cons_1 in Hs as [Hc Hs]. rewrite !length_app in Hl. cbn [length] in Hl. cbn [app]. replace (zlen pre + zlen cur) with (zlen (pre ++ cur)) by (unfold zlen; rewrite length_app; lia). rewrite app_assoc. rewrite (rd_app (pre ++ cur) c _ _ eq_refl). cbn [mbind option_bind].
    assert (Hu : u16 (zlen (pre ++ cur) + 1) = zlen (pre ++ cur ++ [c])) by (rewrite u16_small; unfold is_u16, zlen; rewrite !length_app; cbn [length]; lia). rewrite Hu. cbn [labels]. destruct (Z.eqb_spec c 46) as [->|].
    + cbn [orb]. replace (zlen (pre ++ cur) - zlen pre) with (zlen cur) by (unfold zlen; rewrite length_app; lia). rewrite u8_small by (unfold is_u8, zlen; lia). cbv zeta. rewrite <- app_assoc. replace (Z.to_nat (zlen pre)) with (length pre) by (unfold zlen; lia). replace (Z.to_nat (zlen cur)) with (length cur) by (unfold zlen; lia).
      rewrite slice_app. cbn [mbind option_bind Z.eqb Pos.eqb]. pose proof (IH (pre ++ cur ++ [46]) [] junk fuel (out ++ [zlen cur] ++ cur) Hs) as IH'. rewrite <- !app_assoc in IH'. cbn [app] in IH'. rewrite Z.add_0_r in IH'.
      rewrite IH'; [|rewrite !length_app; cbn [length app]; rewrite ?length_app; cbn [length]; lia|cbn [length] in Hf; lia]. unfold encoded. cbn. by rewrite <- !app_assoc.
    + destruct (Z.eqb_spec c 0); [lia|]. cbn [orb]. pose proof (IH pre (cur ++ [c]) junk fuel out Hs) as IH'. rewrite <- !app_assoc in *. cbn [app] in *. rewrite <- IH'; [|rewrite !length_app; cbn [length]; lia|cbn [length] in Hf; lia]. f_equal. unfold zlen. rewrite !length_app. lia.
Qed.

Lemma encode_name_spec host s : cstr host s -> (length s < 256)%nat -> encode_name host = Some (encoded (labels [] s) ++ [0]).
Proof.
  intros [Hs [junk ->]] Hl. unfold encode_name. pose proof (encode_loop_spec s [] [] junk (length (s ++ 0 :: junk)) [] Hs) as H. cbn [app] in H. apply H; [done|]. rewrite length_app. cbn [length]. lia.
Qed.

Lemma small_label c : 0 <= c < 64 -> Z.land c 0xC0 = 0.
Proof. intros Hc. apply Z.bits_inj'. intros n Hn. rewrite Z.land_spec, Z.bits_0. destruct (Z.lt_ge_cases n 6); [|rewrite (Z.bits_above_log2 c); [done|lia|destruct (Z.eq_dec c 0) as [->|]; [cbn; lia|apply Z.log2_lt_pow2; [lia|]]]].
  - assert (n = 0 \/ n = 1 \/ n = 2 \/ n = 3 \/ n = 4 \/ n = 5) as H6 by lia. destruct H6 as [->|[->|[->|[->|[->| ->]]]]]; apply andb_false_r.
  - apply Z.lt_le_trans with (2 ^ 6); [lia|]. apply Z.pow_le_mono_r; lia.
Qed.

Lemma skip_name_spec ls : Forall label_ok ls -> forall pre post fuel, zlen (pre ++ encoded ls ++ 0 :: post) < 65536 -> (length ls < fuel)%nat ->
  skip_name_loop fuel (pre ++ encoded ls ++ 0 :: post) (zlen pre) = Some (zlen (pre ++ encoded ls) + 1).
Proof.
  induction 1 as [|l ls Hl _ IH]; intros pre post fuel Hz Hf; (destruct fuel as [|fuel]; [cbn in Hf; lia|]); cbn [skip_name_loop].
  - change (encoded [] ++ 0 :: post) with (0 :: post) in *. rewrite app_nil_r, (rd_app pre 0 post _ eq_refl). cbn [mbind option_bind Z.eqb]. rewrite u16_small; [done|]. unfold is_u16, zlen in *. rewrite length_app in Hz. cbn [length] in Hz. lia.
  - change (encoded (l :: ls)) with ((zlen l :: l) ++ encoded ls) in *. rewrite <- app_assoc in *. cbn [app] in *. rewrite (rd_app pre (zlen l) _ _ eq_refl). cbn [mbind option_bind]. unfold label_ok in Hl. destruct (Z.eqb_spec (zlen l) 0); [unfold zlen in *; lia|].
    rewrite small_label by (unfold zlen; lia). cbn [Z.eqb Pos.eqb]. replace (pre ++ zlen l :: l ++ encoded ls ++ 0 :: post) with ((pre ++ zlen l :: l) ++ encoded ls ++ 0 :: post) in * by (by rewrite <- app_assoc).
    rewrite u16_small by (unfold is_u16, zlen in *; rewrite !length_app in Hz; cbn [length] in Hz; lia). replace (zlen pre + zlen l + 1) with (zlen (pre ++ zlen l :: l)) by (unfold zlen; rewrite length_app; cbn [length]; lia).
    rewrite IH; [|done|cbn [length] in Hf; lia]. by rewrite <- app_assoc.
Qed.

(** ** Answers *)

Definition record (typ ttl : Z) (data : list Z) : list Z := [0xC0; 12] ++ put16 typ ++ [0; 1] ++ put32 ttl ++ put16 (zlen data) ++ data.
(** An answer to the question for [name]: records of other types, and then one
    with an address. *)
Definition dns_reply (id : Z) (name : list Z) (rs : list (Z * list Z)) (ttl : Z) (ip : ip4) (more : list Z) : list Z :=
  put16 id ++ [0x81; 0x80; 0; 1] ++ put16 (zlen rs + 1) ++ [0; 0; 0; 0] ++ name ++ [0; 0; 1; 0; 1] ++ concat ((fun r => record (fst r) 0 (snd r)) <$> rs) ++ record 1 ttl ip ++ more.
Definition other_record (r : Z * list Z) : Prop := 2 <= fst r < 65536.

Lemma rd_shift pre l k : 0 <= k -> rd (pre ++ l) (zlen pre + k) = rd l k.
Proof. intros Hk. unfold rd, zlen. rewrite !(proj2 (Z.leb_le 0 _)) by lia. rewrite lookup_app_r by lia. f_equal. lia. Qed.
Lemma rd16_at pre x post i : zlen pre = i -> is_u16 x -> rd16 (pre ++ put16 x ++ post) i = Some x.
Proof.
  intros <- Hx. unfold rd16. rewrite <- (Z.add_0_r (zlen pre)) at 1. rewrite !rd_shift by lia. change (rd (put16 x ++ post) 0) with (Some (hi8 x)). change (rd (put16 x ++ post) 1) with (Some (lo8 x)). cbn [mbind option_bind]. by rewrite be16_put16.
Qed.
Lemma rd32_put pre x post i : zlen pre = i -> is_u32 x -> rd32 (pre ++ put32 x ++ post) i = Some x.
Proof.
  intros <- Hx. unfold rd32. rewrite <- (Z.add_0_r (zlen pre)) at 1. rewrite !rd_shift by lia. change (Some (be32 (u8 (Z.shiftr x 24)) (u8 (Z.shiftr x 16)) (u8 (Z.shiftr x 8)) (u8 x)) = Some x). by rewrite be32_put32.
Qed.

Lemma record_length typ ttl data : length (record typ ttl data) = (12 + length data)%nat.
Proof. done. Qed.

(** One turn of the loop at a record whose name is a pointer. *)
Lemma answer_step left pre typ ttl data post got : is_u16 typ -> is_u32 ttl -> zlen data < 65536 -> zlen pre + 12 + zlen data <= got -> zlen pre + 12 + zlen data < 65536 ->
  answer_loop (S left) (pre ++ record typ ttl data ++ post) got (zlen pre) =
  if (typ =? 1) && (zlen data =? 4) then Some (Some (data, if ttl =? 0 then 60 else ttl)) else answer_loop left (pre ++ record typ ttl data ++ post) got (zlen pre + 12 + zlen data).
Proof.
  intros Ht Hl Hd Hg Hz. cbn [answer_loop]. assert (0 <= zlen pre /\ 0 <= zlen data) by (unfold zlen; lia). rewrite (proj2 (Z.leb_le _ _)) by lia. cbn [negb].
  assert (skip_name (pre ++ record typ ttl data ++ post) (zlen pre) = Some (zlen pre + 2)) as ->.
  { unfold skip_name. cbn [skip_name_loop]. unfold record. cbn [app]. rewrite (rd_app pre 192 _ _ eq_refl). cbn [mbind option_bind]. change (192 =? 0) with false. change (Z.land 192 192 =? 192) with true. cbv iota. by rewrite u16_small by (unfold is_u16; lia). }
  cbn [mbind option_bind]. set (p := pre ++ record typ ttl data ++ post).
  assert (rd16 p (zlen pre + 2) = Some typ) as ->.
  { replace p with ((pre ++ [192; 12]) ++ put16 typ ++ [0; 1] ++ put32 ttl ++ put16 (zlen data) ++ data ++ post) by (unfold p, record; by rewrite <- !app_assoc). apply rd16_at; [unfold zlen; rewrite length_app; cbn [length]; lia|done]. }
  assert (rd16 p (zlen pre + 2 + 2) = Some 1) as ->.
  { replace p with ((pre ++ [192; 12] ++ put16 typ) ++ put16 1 ++ put32 ttl ++ put16 (zlen data) ++ data ++ post) by (unfold p, record; by rewrite <- !app_assoc). apply rd16_at; [unfold zlen; rewrite !length_app; cbn [length put16 put32]; lia|unfold is_u16; lia]. }
  assert (rd32 p (zlen pre + 2 + 4) = Some ttl) as ->.
  { replace p with ((pre ++ [192; 12] ++ put16 typ ++ [0; 1]) ++ put32 ttl ++ put16 (zlen data) ++ data ++ post) by (unfold p, record; by rewrite <- !app_assoc). apply rd32_put; [unfold zlen; rewrite !length_app; cbn [length put16 put32]; lia|done]. }
  assert (rd16 p (zlen pre + 2 + 8) = Some (zlen data)) as ->.
  { replace p with ((pre ++ [192; 12] ++ put16 typ ++ [0; 1] ++ put32 ttl) ++ put16 (zlen data) ++ data ++ post) by (unfold p, record; by rewrite <- !app_assoc). apply rd16_at; [unfold zlen; rewrite !length_app; cbn [length put16 put32]; lia|unfold is_u16; lia]. }
  cbn [mbind option_bind]. cbv zeta. rewrite (u16_small (zlen pre + 2 + 10)) by (unfold is_u16; lia). change (1 =? 1) with true. rewrite andb_true_r. destruct (Z.eqb_spec typ 1) as [->|]; cbn [andb]; [destruct (Z.eqb_spec (zlen data) 4) as [H4|]; cbn [andb]|].
  - rewrite (proj2 (Z.leb_le _ _)) by lia. replace p with ((pre ++ [192; 12] ++ put16 1 ++ [0; 1] ++ put32 ttl ++ put16 (zlen data)) ++ data ++ post) by (unfold p, record; by rewrite <- !app_assoc).
    replace (Z.to_nat (zlen pre + 2 + 10)) with (length (pre ++ [192; 12] ++ put16 1 ++ [0; 1] ++ put32 ttl ++ put16 (zlen data))) by (rewrite !length_app; unfold zlen; cbn [length put16 put32]; lia).
    replace 4%nat with (length data) by (unfold zlen in H4; lia). by rewrite slice_app.
  - rewrite u16_small by (unfold is_u16; lia). f_equal. lia.
  - rewrite u16_small by (unfold is_u16; lia). f_equal. lia.
Qed.

Lemma answer_loop_spec rs ttl ip post got : Forall other_record rs -> is_u32 ttl -> length ip = 4%nat -> forall pre,
  let all := pre ++ concat ((fun r => record (fst r) 0 (snd r)) <$> rs) ++ record 1 ttl ip in zlen all <= got -> zlen all < 65536 ->
  answer_loop (length rs + 1) (all ++ post) got (zlen pre) = Some (Some (ip, if ttl =? 0 then 60 else ttl)).
Proof.
  intros Hrs Ht Hi. cbv zeta. induction Hrs as [|[typ data] rs Hr _ IH]; intros pre Hg Hz.
  - cbn [concat fmap list_fmap app] in *. rewrite <- app_assoc. unfold zlen in Hg, Hz. rewrite length_app, record_length, Hi in Hg, Hz. cbn [length Nat.add]. rewrite answer_step; [|unfold is_u16; lia|done|unfold zlen; lia|unfold zlen; lia|unfold zlen; lia]. unfold zlen. by rewrite Hi.
  - cbn [concat fmap list_fmap length Nat.add fst snd] in *. unfold other_record in Hr. cbn [fst] in Hr. set (cs := concat ((fun r => record r.1 0 r.2) <$> rs)) in *. unfold zlen in Hg, Hz. rewrite !length_app, !record_length, Hi in Hg, Hz.
    rewrite <- !app_assoc. rewrite answer_step; [|unfold is_u16; lia|unfold is_u32; lia|unfold zlen; lia|unfold zlen; lia|unfold zlen; lia]. destruct (Z.eqb_spec typ 1); [lia|]. cbn [andb].
    pose proof (IH (pre ++ record typ 0 data)) as IH'. rewrite <- !app_assoc in IH'. replace (zlen pre + 12 + zlen data) with (zlen (pre ++ record typ 0 data)) by (unfold zlen; rewrite length_app, record_length; lia).
    apply IH'; unfold zlen; rewrite !length_app, !record_length, Hi; lia.
Qed.

(** ** Resolving a name *)

Lemma encoded_length s : forall cur, length (encoded (labels cur s)) = (length cur + length s + 1)%nat.
Proof.
  induction s as [|c s IH]; intros cur; cbn [labels length]; [unfold encoded; cbn; rewrite app_nil_r; lia|]. destruct (c =? 46).
  - change (encoded (cur :: labels [] s)) with ((zlen cur :: cur) ++ encoded (labels [] s)). rewrite length_app, IH. cbn [length]. lia.
  - rewrite IH, length_app. cbn [length]. lia.
Qed.
Lemma labels_length s : forall cur, (length (labels cur s) <= length s + 1)%nat.
Proof. induction s as [|c s IH]; intros cur; cbn [labels length]; [lia|]. destruct (c =? 46); cbn [length]; [specialize (IH [])|specialize (IH (cur ++ [c]))]; lia. Qed.

Lemma records_length (rs : list (Z * list Z)) : (length rs <= length (concat ((fun r => record (fst r) 0 (snd r)) <$> rs)))%nat.
Proof. induction rs as [|r rs IH]; [cbn; lia|]. rewrite fmap_cons. cbn [concat length]. rewrite length_app, record_length. lia. Qed.

Section Resolve.
Context `{TxDriver D}.
Implicit Types (b : board D).

(** The query for a name that is not cached. *)
Definition query_packet (id : Z) (s : list Z) : list Z := query_header id ++ (encoded (labels [] s) ++ [0]) ++ [0; 1; 0; 1].

Lemma query_spec now host s mac our_ip d b : directory_wf d -> cstr host s -> (length s < 256)%nat -> dy_have_server d = true -> dy_pending_active d = false -> lookup_key s (dy_cache d) = None -> exists pending,
  directory_query now host mac our_ip (d, b) = Some (true, (mkDirectory (dy_cache d) (dy_dns_server d) true pending (dy_next_id d) now true false (u16 (dy_next_id d + 1)),
    snd (switchboard_send_udp now DIRECTORY_CLIENT_PORT (dy_dns_server d) DIRECTORY_SERVER_PORT mac our_ip (query_packet (dy_next_id d) s) b))) /\
  cstr pending (take 62 s) /\ length pending = 64%nat.
Proof.
  intros Hw Hs Hl Hh Ha Hk. destruct (lookup_cached_spec now d host s Hw Hs) as (d' & E & _ & _ & _ & _ & _ & Hd). rewrite Hk in E. rewrite (Hd Hk) in E. unfold directory_query. rewrite E. cbn [mbind option_bind]. rewrite Hh, Ha. cbn [negb]. cbv zeta.
  rewrite (encode_name_spec host s) by done. cbn [mbind option_bind]. destruct (dw_pending d Hw) as [Hp _]. destruct (copy_name _ _ _ Hp Hs) as (name & E2 & H1 & H2).
  destruct (Nat.ltb_spec DNS_MAX_PACKET (length (query_header (dy_next_id d) ++ (encoded (labels [] s) ++ [0]) ++ [0; 1; 0; 1]))) as [Hlt|_]; [exfalso; rewrite !length_app, encoded_length in Hlt; unfold DNS_MAX_PACKET in Hlt; cbn [length query_header] in Hlt; lia|].
  unfold query_packet. rewrite E2. destruct (switchboard_send_udp _ _ _ _ _ _ _ _) as [ok b']. cbn [mbind option_bind snd]. exists (<[63%nat := 0]> name). done.
Qed.

(** A good answer to the pending query. *)
Record reply_fits (s : list Z) (rs : list (Z * list Z)) (ttl : Z) (ip more stack : list Z) (id : Z) : Prop := {
  rf_labels : Forall label_ok (labels [] s); rf_name : (length s < 256)%nat; rf_rs : Forall other_record rs; rf_ttl : is_u32 ttl; rf_ip : length ip = 4%nat; rf_id : is_u16 id;
  rf_stack : length stack = 320%nat; rf_len : (length (dns_reply id (encoded (labels [] s)) rs ttl ip more) <= 320)%nat }.

Lemma tick_resolves now s mac our_ip d b rs ttl ip more stack : dy_pending_active d = true -> reply_fits s rs ttl ip more stack (dy_pending_id d) ->
  next_datagram DIRECTORY_CLIENT_PORT b (dns_reply (dy_pending_id d) (encoded (labels [] s)) rs ttl ip more) -> exists b',
  directory_tick now stack mac our_ip (d, b) =
    (d ← store_in_cache now (dy_pending_hostname d) ip (if ttl =? 0 then 60 else ttl) d; Some (set_dy_pending false (dy_pending_retried d) (dy_pending_sent_tick d) d, b')).
Proof.
  intros Ha [Hlab Hs Hrs Ht Hi Hid Hst Hlen] Hn. destruct (recv_next _ DNS_MAX_PACKET _ _ Hn) as (src & port & pb & Hr); [done|]. unfold directory_tick. rewrite Ha, Hr. cbn [negb mbind option_bind]. cbv zeta.
  set (name := encoded (labels [] s)) in *. set (rest := drop (length (dns_reply (dy_pending_id d) name rs ttl ip more)) stack).
  set (head := put16 (dy_pending_id d) ++ [0x81; 0x80; 0; 1] ++ put16 (zlen rs + 1) ++ [0; 0; 0; 0]).
  set (recs := concat ((fun r => record (fst r) 0 (snd r)) <$> rs) ++ record 1 ttl ip).
  assert (Hshape : dns_reply (dy_pending_id d) name rs ttl ip more = ((head ++ name ++ [0; 0; 1; 0; 1]) ++ recs) ++ more) by (unfold dns_reply, head, recs; by rewrite <- !app_assoc).
  assert (Hh : length head = 12%nat) by done. rewrite Hshape, !length_app in Hlen. cbn [length] in Hlen. assert (Hrecs : (12 + length rs <= length recs)%nat).
  { unfold recs. rewrite length_app, record_length, Hi. pose proof (records_length rs). lia. }
  unfold blit. fold rest. assert ((12 <=? zlen (dns_reply (dy_pending_id d) name rs ttl ip more)) = true) as -> by (apply Z.leb_le; unfold zlen; rewrite Hshape, !length_app; cbn [length]; lia). cbn [negb].
  assert (rd16 (dns_reply (dy_pending_id d) name rs ttl ip more ++ rest) 0 = Some (dy_pending_id d)) as ->.
  { unfold dns_reply. rewrite <- app_assoc. by apply (rd16_at []). }
  assert (rd16 (dns_reply (dy_pending_id d) name rs ttl ip more ++ rest) 6 = Some (zlen rs + 1)) as ->.
  { unfold dns_reply. rewrite (app_assoc (put16 (dy_pending_id d))), <- !(app_assoc (put16 (dy_pending_id d) ++ _)), <- (app_assoc (put16 (zlen rs + 1))). apply rd16_at; [done|unfold is_u16, zlen; lia]. }
  cbn [mbind option_bind]. rewrite Z.eqb_refl, (proj2 (Z.ltb_lt 0 (zlen rs + 1))) by (unfold zlen; lia). cbn [andb negb].
  assert (skip_name (dns_reply (dy_pending_id d) name rs ttl ip more ++ rest) 12 = Some (zlen (head ++ name) + 1)) as ->.
  { unfold skip_name. replace (dns_reply (dy_pending_id d) name rs ttl ip more ++ rest) with (head ++ name ++ 0 :: [0; 1; 0; 1] ++ recs ++ more ++ rest) by (rewrite Hshape, <- !app_assoc; done). change 12 with (zlen head).
    pose proof (labels_length s []). pose proof (encoded_length s []) as Hel. fold name in Hel. unfold rest. rewrite Hshape. apply skip_name_spec; [done| |]; rewrite <- Hshape; unfold zlen; repeat (rewrite ?length_app, ?length_drop; cbn [length]); fold name; cbn [length] in Hel; lia. }
  cbn [mbind option_bind]. rewrite u16_small by (unfold is_u16, zlen; rewrite length_app; lia). replace (zlen (head ++ name) + 1 + 4) with (zlen (head ++ name ++ [0; 0; 1; 0; 1])) by (unfold zlen; rewrite !length_app; cbn [length]; lia).
  replace (Z.to_nat (zlen rs + 1)) with (length rs + 1)%nat by (unfold zlen; lia). rewrite Hshape, <- app_assoc. unfold recs in *. rewrite answer_loop_spec; [|done|done|done| |]; unfold zlen; rewrite ?length_app in *; cbn [length] in *; try lia.
  cbn [mbind option_bind]. exists (set_board_net (set_postbox pb (sb_net b)) b). done.
Qed.


(** ** What the client keeps *)

(** What Directory can become: any order of its calls on any boards. *)
Inductive directory_reach : directory -> Prop :=
| reach_boot : directory_reach directory_init
| reach_server d ip : directory_reach d -> directory_reach (directory_set_server ip d)
| reach_lookup d now host s r d' : directory_reach d -> cstr host s -> directory_lookup_cached now host d = Some (r, d') -> directory_reach d'
| reach_query d now host s mac our_ip b r d' b' : directory_reach d -> cstr host s -> directory_query now host mac our_ip (d, b) = Some (r, (d', b')) -> directory_reach d'
| reach_tick d now stack mac our_ip b d' b' : directory_reach d -> directory_tick now stack mac our_ip (d, b) = Some (d', b') -> directory_reach d'.

Lemma pending_wf d active retried sent : directory_wf d -> directory_wf (set_dy_pending active retried sent d).
Proof. by intros []. Qed.

Lemma query_wf d now host s mac our_ip b r d' b' : directory_wf d -> cstr host s -> directory_query now host mac our_ip (d, b) = Some (r, (d', b')) -> directory_wf d'.
Proof.
  intros Hw Hs. unfold directory_query. destruct (lookup_cached_spec now d host s Hw Hs) as (d1 & -> & Hw1 & _). cbn [mbind option_bind]. destruct (match lookup_key s (dy_cache d) with Some _ => _ | None => _ end); [by intros [= _ <- _]|].
  destruct (negb _); [by intros [= _ <- _]|]. destruct (dy_pending_active d1); [by intros [= _ <- _]|]. cbv zeta. destruct (encode_name host) as [name|]; [|done]. cbn [mbind option_bind]. destruct (_ <? _)%nat; [done|].
  destruct (switchboard_send_udp _ _ _ _ _ _ _ _) as [ok b1]. destruct (dw_pending d1 Hw1) as [Hp _]. destruct (copy_name _ _ _ Hp Hs) as (nm & -> & Hn & Hl). cbn [mbind option_bind]. intros [= _ <- _]. destruct Hw1 as [H1 H2 H3 H4 H5].
  split; cbn; [done|done|done| |apply u16_range]. split; [done|]. exists (take 62 s). split; [done|]. rewrite length_take. lia.
Qed.

Lemma timeout_wf d now mac our_ip b d' b' : directory_wf d -> directory_timeout now mac our_ip (d, b) = Some (d', b') -> directory_wf d'.
Proof.
  intros Hw. unfold directory_timeout. destruct (negb _); [by intros [= <- _]|]. destruct (negb _); [|intros [= <- _]; by apply pending_wf]. destruct (dw_pending d Hw) as [_ (s & Hs & Hl)].
  destruct (copy_name (replicate 64 0) _ _ eq_refl Hs) as (nm & -> & Hn & _). cbn [mbind option_bind].
  intros ([r [d1 b1]] & Hq & [= <- _])%bind_Some. apply pending_wf. eapply query_wf; [|exact Hn|exact Hq]. by apply pending_wf.
Qed.

Lemma tick_wf d now stack mac our_ip b d' b' : directory_wf d -> directory_tick now stack mac our_ip (d, b) = Some (d', b') -> directory_wf d'.
Proof.
  intros Hw. unfold directory_tick. destruct (negb _); [by intros [= <- _]|]. destruct (switchboard_recv_udp _ _ _) as [[got b1]|]; [|done]. cbn [mbind option_bind]. cbv zeta. destruct (negb _); [by apply timeout_wf|].
  destruct (rd16 _ 0) as [id|]; [|done]. destruct (rd16 _ 6) as [an|]; [|done]. cbn [mbind option_bind]. destruct (negb _); [by apply timeout_wf|]. destruct (skip_name _ _) as [off|]; [|done]. cbn [mbind option_bind].
  destruct (answer_loop _ _ _ _) as [[[ip ttl]|]|]; [| |done]; cbn [mbind option_bind]; [|intros [= <- _]; by apply pending_wf]. destruct (dw_pending d Hw) as [_ (s & Hs & Hl)].
  destruct (store_spec now d _ s ip ttl Hw Hs Hl) as (d1 & -> & Hw1 & _). cbn [mbind option_bind]. intros [= <- _]. by apply pending_wf.
Qed.

Lemma reach_wf d : directory_reach d -> directory_wf d.
Proof.
  induction 1 as [|d ip _ IH|d now host s r d' _ IH Hs E|d now host s mac our_ip b r d' b' _ IH Hs E|d now stack mac our_ip b d' b' _ IH E].
  - split; [done|by apply (uniq_replicate 8 empty_entry)| | |cbn; unfold is_u16; lia]; [apply (Forall_replicate _ 8 empty_entry)|]; (split; [done|]; exists []; split; [split; [constructor|by exists (replicate 63 0)]|cbn; lia]).
  - by destruct IH.
  - destruct (lookup_cached_spec now d host s IH Hs) as (d1 & E1 & Hw & _). rewrite E1 in E. by injection E as _ <-.
  - by eapply query_wf.
  - by eapply tick_wf.
Qed.

(** Names of 63 characters or more never come from the cache: in every state
    Directory can reach, whatever was resolved before, a cached lookup of such a
    name finds nothing, because [strncpy] keeps only 62 of its characters. *)
Lemma directory_long_name_never_cached d now host s : directory_reach d -> cstr host s -> (63 <= length s)%nat -> directory_lookup_cached now host d = Some (None, d).
Proof.
  intros Hr%reach_wf Hs Hl. unfold directory_lookup_cached. rewrite (find_slot_spec d host s Hr Hs), (long_not_cached d s Hr Hl). done.
Qed.

(** A datagram whose name runs on: 320 bytes, the last of the labels past the end. *)
Definition runaway_reply (id : Z) : list Z := put16 id ++ [0x81; 0x80; 0; 1; 0; 1; 0; 0; 0; 0] ++ replicate 308 63.

Lemma runaway_skip x y : skip_name ([x; y; 0x81; 0x80; 0; 1; 0; 1; 0; 0; 0; 0] ++ replicate 308 63) 12 = None.
Proof. reflexivity. Qed.

(** One datagram makes the DNS client read outside its buffer: whatever
    the host does and whatever the stack holds, while a query is pending a
    320-byte answer with its id whose question name has labels up to the end
    sends [skip_name] past the 320-byte packet. *)
Lemma directory_reads_past_packet now stack mac our_ip d b : dy_pending_active d = true -> is_u16 (dy_pending_id d) -> length stack = 320%nat ->
  next_datagram 50053 b (runaway_reply (dy_pending_id d)) -> directory_tick now stack mac our_ip (d, b) = None.
Proof.
  intros Ha Hi Hst Hn. assert (Hl : length (runaway_reply (dy_pending_id d)) = 320%nat) by reflexivity. destruct (recv_next _ DNS_MAX_PACKET _ _ Hn) as (src & port & pb & Hr); [rewrite Hl; done|].
  unfold directory_tick. rewrite Ha. cbn [negb]. change DIRECTORY_CLIENT_PORT with 50053. rewrite Hr. cbn [mbind option_bind]. cbv zeta. unfold blit. rewrite drop_ge by (rewrite Hl, Hst; done). rewrite app_nil_r. unfold zlen. rewrite Hl. change (negb (12 <=? Z.of_nat 320)) with false. cbv iota.
  assert (rd16 (runaway_reply (dy_pending_id d)) 0 = Some (dy_pending_id d)) as -> by (unfold runaway_reply; by apply (rd16_at [])). change (rd16 (runaway_reply (dy_pending_id d)) 6) with (Some 1). cbn [mbind option_bind]. rewrite Z.eqb_refl. cbn [andb negb Z.ltb Z.compare].
  assert (skip_name (runaway_reply (dy_pending_id d)) 12 = None) as -> by exact (runaway_skip (hi8 (dy_pending_id d)) (lo8 (dy_pending_id d))). done.
Qed.
End Resolve.

(** ** A name and its answer *)

(** "aevros.org". *)
Definition host_name : list Z := [97; 101; 118; 114; 111; 115; 46; 111; 114; 103].
Definition dns_client : directory := directory_set_server [10; 0; 2; 3] directory_init.
Lemma dns_client_wf : directory_wf dns_client.
Proof. apply (reach_wf (D := list (list Z))). apply reach_server, reach_boot. Qed.


Lemma directory_long_name_never_cached_witness : directory_lookup_cached 7 (replicate 63 97 ++ [0]) dns_client = Some (None, dns_client).
Proof.
  apply (directory_long_name_never_cached (D := list (list Z)) dns_client 7 (replicate 63 97 ++ [0]) (replicate 63 97)); [apply reach_server, reach_boot| |reflexivity].
  split; [apply Forall_replicate; lia|exists []; reflexivity].
Defined.

Lemma directory_reads_past_packet_witness : directory_tick 9 (replicate 320 7) lease_mac [10; 0; 2; 15] (set_dy_pending true false 5 dns_client, lease_board 50053 (runaway_reply 0)) = None.
Proof. apply directory_reads_past_packet; [reflexivity|split; vm_compute; congruence|reflexivity|apply lease_board_next; [vm_compute; reflexivity|vm_compute; congruence]]. Defined.
