(* ===== verification/Frontdoor.v ===== *)
(** * Frontdoor, sockets by descriptor

    [Networking/IPv6/Frontdoor6/frontdoor6.c], the calls that programs make, over
    SwitchBoard and SwitchBoard6; and the whole periodic tick of
    [Networking/Concierge/concierge.c].  The two stacks run on one machine: the
    network card, Bailiff, the open ports, the IDS hooks, the audit log and the
    lottery are shared, so a call into one stack is followed by handing the
    shared parts to the other. *)

From S2P Require Import Prelude SlotTable GuestList Ids RateLimit Sentry Bailiff Rolodex Foyer Atlas.
From S2P Require Import LockBox Ring Inbox Why Scheduler Rapport Transport TcpInv Checksum Echo.
From S2P Require Import Compass Postcard Conversation SwitchBoard Reception Host Lease CLib Directory.
From S2P Require Import Fragment6 Atlas6 Guard6 Link6 Tcp6 Net6 Conversation6 Compass6 Board6.
Import Menu Ids Audit Inbox Postbox Lottery.

#[local] Open Scope Z_scope.

Definition FRONTDOOR_MAX_SOCKETS : nat := 32.
Definition SOCK_TYPE_TCP : Z := 1.
Definition SOCK_TYPE_UDP : Z := 2.
Definition SOCK_TYPE_TCP6 : Z := 3.
Definition UDP_EPHEMERAL_LOW : Z := 40000.
Definition UDP_EPHEMERAL_HIGH : Z := 40999.

Inductive sock_kind := SOCK_FREE | SOCK_TCP | SOCK_UDP | SOCK_TCP6.
#[export] Instance sock_kind_eq : EqDecision sock_kind.
Proof. solve_decision. Defined.

Record socket_entry := mkSocket {
  sk_kind : sock_kind; sk_listening : bool; sk_conn_id : nat; sk_local_port : Z; sk_in_use : bool; sk_closing : bool }.
Definition set_sk_port (port : Z) (listening : bool) (e : socket_entry) : socket_entry := mkSocket (sk_kind e) listening (sk_conn_id e) port (sk_in_use e) (sk_closing e).
Definition set_sk_conn (id : nat) (e : socket_entry) : socket_entry := mkSocket (sk_kind e) (sk_listening e) id (sk_local_port e) (sk_in_use e) (sk_closing e).
Definition set_sk_flags (in_use closing : bool) (e : socket_entry) : socket_entry := mkSocket (sk_kind e) (sk_listening e) (sk_conn_id e) (sk_local_port e) in_use closing.

Record door (D : Type) := mkDoor { fr_sockets : list socket_entry; fr_next_udp : Z; fr_b4 : board D; fr_b6 : board6 D }.
Arguments mkDoor {D} _ _ _ _.
Arguments fr_sockets {D} _.
Arguments fr_next_udp {D} _.
Arguments fr_b4 {D} _.
Arguments fr_b6 {D} _.

(** ** The parts both stacks use *)

Definition share_guard (from to : guard) : guard := mkGuard (gd_guests to) (gd_curfew to) (gd_sentry to) (gd_hooks from) (gd_audit from).
Definition lend6 {D} (b : board D) (b6 : board6 D) : board6 D :=
  let n := sb_net b in
  let m := b6_net b6 in
  let m := set_m_link (mkLink6 (lk_driver (n_link n)) (lk_bailiff (n_link n)) (l6_rolodex (m_link m))) m in
  let m := set_m_guard (share_guard (n_guard n) (m_guard m)) m in
  let m := set_m_menu (n_menu n) m in
  let m := set_m_cookie (mkCookie6 (c6_secret (m_cookie m)) (c6_secret_ready (m_cookie m)) (SynCookie.sc_lottery (n_cookie n))) m in
  set_b6_net m b6.
Definition lend4 {D} (b6 : board6 D) (b : board D) : board D :=
  let m := b6_net b6 in
  let n := sb_net b in
  let n := set_link (mkLink (l6_driver (m_link m)) (l6_bailiff (m_link m)) (lk_rolodex (n_link n)) (lk_foyer (n_link n))) n in
  let n := set_guard (share_guard (m_guard m) (n_guard n)) n in
  let n := set_menu (m_menu m) n in
  let n := set_cookie (SynCookie.mkCookie (SynCookie.sc_secret (n_cookie n)) (SynCookie.sc_secret_ready (n_cookie n)) (c6_lottery (m_cookie m))) n in
  set_board_net n b.

Section Calls.
Context `{TxDriver D}.
Implicit Types (s : door D) (b : board D).

Definition on4 b s : door D := mkDoor (fr_sockets s) (fr_next_udp s) b (lend6 b (fr_b6 s)).
Definition on6 (b6 : board6 D) s : door D := mkDoor (fr_sockets s) (fr_next_udp s) (lend4 b6 (fr_b4 s)) b6.
Definition set_socket (i : nat) (e : socket_entry) s : door D := mkDoor (<[i := e]> (fr_sockets s)) (fr_next_udp s) (fr_b4 s) (fr_b6 s).

Definition our_mac s : list Z := n_mac (sb_net (fr_b4 s)).
(** [get_identity] and [get_identity6]. *)
Definition get_identity s : list Z * ip4 := (our_mac s, rolodex_get_ip (lk_rolodex (n_link (sb_net (fr_b4 s))))).
Definition get_identity6 s : list Z * ip6 := (our_mac s, rolodex6_get_ip (l6_rolodex (m_link (b6_net (fr_b6 s))))).

(** [sockets[fd]] when [fd] is an index of the table and in use. *)
Definition open_socket (fd : Z) s : option (nat * socket_entry) :=
  if (fd <? 0) || (Z.of_nat FRONTDOOR_MAX_SOCKETS <=? fd) then None
  else e ← fr_sockets s !! Z.to_nat fd; if sk_in_use e then Some (Z.to_nat fd, e) else None.

(** [None] is -1. *)
Definition find_free_slot s : option nat * door D :=
  match find_idx (fun e => negb (sk_in_use e)) (fr_sockets s) with
  | None => (None, s)
  | Some i => (Some i, mkDoor (alter (fun e => set_sk_flags (sk_in_use e) false e) i (fr_sockets s)) (fr_next_udp s) (fr_b4 s) (fr_b6 s))
  end.

Fixpoint udp_loop (tries : nat) (next : Z) (x : lockbox) : Z * Z :=
  match tries with
  | O => (0, next)
  | S tries' =>
      let candidate := next in
      let next := if UDP_EPHEMERAL_HIGH <=? next then UDP_EPHEMERAL_LOW else u16 (next + 1) in
      if (lockbox_find_listener candidate 17 x =? LOCKBOX_CAPACITY)%nat then (candidate, next) else udp_loop tries' next x
  end.
Definition pick_udp_ephemeral s : Z * door D :=
  let '(port, next) := udp_loop (Z.to_nat (UDP_EPHEMERAL_HIGH - UDP_EPHEMERAL_LOW)) (fr_next_udp s) (box (fr_b4 s)) in
  (port, mkDoor (fr_sockets s) next (fr_b4 s) (fr_b6 s)).

Definition frontdoor_init s : door D := mkDoor ((fun e => set_sk_flags false (sk_closing e) e) <$> fr_sockets s) (fr_next_udp s) (fr_b4 s) (fr_b6 s).

(** The state in which [frontdoor_close] may send a FIN. *)
Definition can_fin (st : conversation_state) : bool := bool_decide (st = CONV_ESTABLISHED) || bool_decide (st = CONV_CLOSE_WAIT).

Definition try_send_fin (now : Z) (e : socket_entry) s : bool * door D :=
  if bool_decide (sk_kind e = SOCK_TCP6) && negb (sk_listening e) && negb (sk_conn_id e =? LOCKBOX6_CAPACITY)%nat then
    if can_fin (rapport6_get_state (sk_conn_id e) (t6_rapport (m_tcp (b6_net (fr_b6 s))))) then
      let '(mac, ip) := get_identity6 s in
      let '(ok, b6) := switchboard6_close now (sk_conn_id e) mac ip (fr_b6 s) in
      (ok, on6 b6 s)
    else (true, s)
  else if bool_decide (sk_kind e = SOCK_TCP) && negb (sk_listening e) && negb (sk_conn_id e =? LOCKBOX_CAPACITY)%nat then
    if can_fin (rapport_get_state (sk_conn_id e) (tp_rapport (n_tcp (sb_net (fr_b4 s))))) then
      let '(mac, ip) := get_identity s in
      let '(ok, b) := switchboard_close now (sk_conn_id e) mac ip (fr_b4 s) in
      (ok, on4 b s)
    else (true, s)
  else (true, s).

Definition frontdoor_tick_slot (now : Z) (i : nat) s : door D :=
  match fr_sockets s !! i with
  | None => s
  | Some e =>
      if sk_in_use e && sk_closing e then
        let '(done, s) := try_send_fin now e s in
        if (done : bool) then set_socket i (set_sk_flags false false e) s else s
      else s
  end.
Definition frontdoor_tick (now : Z) s : door D := foldl (fun s i => frontdoor_tick_slot now i s) s (seq 0 FRONTDOOR_MAX_SOCKETS).

Definition frontdoor_socket (type : Z) s : Z * door D :=
  if negb (type =? SOCK_TYPE_TCP) && negb (type =? SOCK_TYPE_UDP) && negb (type =? SOCK_TYPE_TCP6) then (-1, s)
  else
    match find_free_slot s with
    | (None, s) => (-1, s)
    | (Some slot, s) =>
        let kind := if type =? SOCK_TYPE_TCP then SOCK_TCP else if type =? SOCK_TYPE_TCP6 then SOCK_TCP6 else SOCK_UDP in
        (Z.of_nat slot, set_socket slot (mkSocket kind false (if bool_decide (kind = SOCK_TCP6) then LOCKBOX6_CAPACITY else LOCKBOX_CAPACITY) 0 true false) s)
    end.

Definition frontdoor_bind (fd port : Z) s : Z * door D :=
  match open_socket fd s with
  | None => (-1, s)
  | Some (i, e) =>
      if bool_decide (sk_kind e = SOCK_TCP6) then
        let '(ok, b6) := switchboard6_bind port (fr_b6 s) in
        let s := on6 b6 s in
        if (ok : bool) then (0, set_socket i (set_sk_port port true e) s) else (-1, s)
      else
        let protocol := if bool_decide (sk_kind e = SOCK_TCP) then 6 else 17 in
        let '(ok, b) := switchboard_bind port protocol (fr_b4 s) in
        let s := on4 b s in
        if (ok : bool) then (0, set_socket i (set_sk_port port (if bool_decide (sk_kind e = SOCK_TCP) then true else sk_listening e) e) s) else (-1, s)
  end.

Definition frontdoor_connect (now fd : Z) (ip : ip4) (port : Z) s : Z * door D :=
  match open_socket fd s with
  | None => (-1, s)
  | Some (i, e) =>
      if negb (bool_decide (sk_kind e = SOCK_TCP)) then (-1, s)
      else
        let '(mac, our_ip) := get_identity s in
        let '(out, b) := switchboard_connect now ip port mac our_ip (fr_b4 s) in
        let s := on4 b s in
        match out with None => (-1, s) | Some conn_id => (0, set_socket i (set_sk_conn conn_id e) s) end
  end.

Definition frontdoor_connect6 (now fd : Z) (ip : ip6) (port : Z) s : option (Z * door D) :=
  match open_socket fd s with
  | None => Some (-1, s)
  | Some (i, e) =>
      if negb (bool_decide (sk_kind e = SOCK_TCP6)) then Some (-1, s)
      else
        let '(mac, our_ip) := get_identity6 s in
        '(out, b6) ← switchboard6_connect now ip port mac our_ip (fr_b6 s);
        let s := on6 b6 s in
        Some (match out with None => (-1, s) | Some conn_id => (0, set_socket i (set_sk_conn conn_id e) s) end)
  end.

(** The descriptor for an accepted connection. *)
Definition install (kind : sock_kind) (conn_id : nat) (port : Z) s : Z * door D :=
  match find_free_slot s with
  | (None, s) => (-1, s)
  | (Some slot, s) => (Z.of_nat slot, set_socket slot (mkSocket kind false conn_id port true false) s)
  end.

Definition frontdoor_accept (fd : Z) s : option (Z * door D) :=
  match open_socket fd s with
  | None => Some (-1, s)
  | Some (i, e) =>
      if negb (sk_listening e) then Some (-1, s)
      else if bool_decide (sk_kind e = SOCK_TCP6) then
        '(out, b6) ← switchboard6_accept (sk_local_port e) (fr_b6 s);
        let s := on6 b6 s in
        Some (match out with None => (-1, s) | Some conn_id => install SOCK_TCP6 conn_id (sk_local_port e) s end)
      else
        '(out, b) ← switchboard_accept (sk_local_port e) (fr_b4 s);
        let s := on4 b s in
        Some (match out with None => (-1, s) | Some conn_id => install SOCK_TCP conn_id (sk_local_port e) s end)
  end.

Definition frontdoor_send (now fd : Z) (buf : list Z) s : Z * door D :=
  match open_socket fd s with
  | None => (-1, s)
  | Some (i, e) =>
      if sk_listening e then (-1, s)
      else if bool_decide (sk_kind e = SOCK_TCP6) then
        let '(mac, our_ip) := get_identity6 s in
        let '(ok, b6) := switchboard6_send now (sk_conn_id e) buf mac our_ip (fr_b6 s) in
        ((if (ok : bool) then zlen buf else -1), on6 b6 s)
      else if negb (bool_decide (sk_kind e = SOCK_TCP)) then (-1, s)
      else
        let '(mac, our_ip) := get_identity s in
        let '(ok, b) := switchboard_send now (sk_conn_id e) buf mac our_ip (fr_b4 s) in
        ((if (ok : bool) then zlen buf else -1), on4 b s)
  end.

(** What [frontdoor_recv] returns when nothing was waiting. *)
Definition idle_result (st : conversation_state) : Z :=
  if bool_decide (st = CONV_CLOSED) || bool_decide (st = CONV_TIME_WAIT) || bool_decide (st = CONV_CLOSE_WAIT) then -1 else 0.

(** The return value and the bytes copied. *)
Definition frontdoor_recv (fd : Z) (max_len : nat) s : option (Z * list Z * door D) :=
  match open_socket fd s with
  | None => Some (-1, [], s)
  | Some (i, e) =>
      if sk_listening e then Some (-1, [], s)
      else if bool_decide (sk_kind e = SOCK_TCP6) then
        '(got, b6) ← switchboard6_recv (sk_conn_id e) max_len (fr_b6 s);
        Some ((if 0 <? zlen got then zlen got else idle_result (rapport6_get_state (sk_conn_id e) (t6_rapport (m_tcp (b6_net b6))))), got, on6 b6 s)
      else if negb (bool_decide (sk_kind e = SOCK_TCP)) then Some (-1, [], s)
      else
        '(got, b) ← switchboard_recv (sk_conn_id e) max_len (fr_b4 s);
        Some ((if 0 <? zlen got then zlen got else idle_result (rapport_get_state (sk_conn_id e) (tp_rapport (n_tcp (sb_net b))))), got, on4 b s)
  end.

(** A datagram socket without a port gets one first; [None] is -1. *)
Definition ensure_port (i : nat) (e : socket_entry) s : option Z * door D :=
  if negb (sk_local_port e =? 0) then (Some (sk_local_port e), s)
  else
    let '(port, s) := pick_udp_ephemeral s in
    if port =? 0 then (None, s)
    else
      let '(ok, b) := switchboard_bind port 17 (fr_b4 s) in
      let s := on4 b s in
      if (ok : bool) then (Some port, set_socket i (set_sk_port port (sk_listening e) e) s) else (None, s).

Definition frontdoor_sendto (now fd : Z) (ip : ip4) (port : Z) (buf : list Z) s : Z * door D :=
  match open_socket fd s with
  | None => (-1, s)
  | Some (i, e) =>
      if negb (bool_decide (sk_kind e = SOCK_UDP)) then (-1, s)
      else
        match ensure_port i e s with
        | (None, s) => (-1, s)
        | (Some local_port, s) =>
            let '(mac, our_ip) := get_identity s in
            let '(ok, b) := switchboard_send_udp now local_port ip port mac our_ip buf (fr_b4 s) in
            ((if (ok : bool) then zlen buf else -1), on4 b s)
        end
  end.

Definition frontdoor_sendto6 (now fd : Z) (ip : ip6) (port : Z) (buf : list Z) s : option (Z * door D) :=
  match open_socket fd s with
  | None => Some (-1, s)
  | Some (i, e) =>
      if negb (bool_decide (sk_kind e = SOCK_UDP)) then Some (-1, s)
      else
        match ensure_port i e s with
        | (None, s) => Some (-1, s)
        | (Some local_port, s) =>
            let '(mac, our_ip) := get_identity6 s in
            '(ok, b6) ← switchboard6_send_udp now local_port ip port mac our_ip buf (fr_b6 s);
            Some ((if (ok : bool) then zlen buf else -1), on6 b6 s)
        end
  end.

(** The number of bytes and the datagram. *)
Definition frontdoor_recvfrom (fd : Z) (max_len : nat) s : option (Z * option (ip4 * Z * list Z) * door D) :=
  match open_socket fd s with
  | None => Some (-1, None, s)
  | Some (i, e) =>
      if negb (bool_decide (sk_kind e = SOCK_UDP)) then Some (-1, None, s)
      else
        '(got, b) ← switchboard_recv_udp (sk_local_port e) max_len (fr_b4 s);
        Some (match got with Some (_, _, data) => zlen data | None => 0 end, got, on4 b s)
  end.

Definition frontdoor_close (now fd : Z) s : Z * door D :=
  match open_socket fd s with
  | None => (-1, s)
  | Some (i, e) =>
      let '(done, s) := try_send_fin now e s in
      if (done : bool) then (0, set_socket i (set_sk_flags false (sk_closing e) e) s) else (0, set_socket i (set_sk_flags (sk_in_use e) true e) s)
  end.
End Calls.

(** ** The whole tick *)

(** Everything [concierge_tick] drives. *)
Record machine (D : Type) := mkMachine { mc_door : door D; mc_landlord : landlord; mc_directory : directory; mc_dns_server_applied : bool; mc_counter : Z }.
Arguments mkMachine {D} _ _ _ _ _.
Arguments mc_door {D} _.
Arguments mc_landlord {D} _.
Arguments mc_directory {D} _.
Arguments mc_dns_server_applied {D} _.
Arguments mc_counter {D} _.

Definition CONCIERGE_TICK_DIVISOR : Z := 10.

Section Tick.
Context `{TxDriver D}.

(** The DNS server of the first lease goes to Directory, once. *)
Definition apply_dns (m : machine D) : machine D :=
  if negb (mc_dns_server_applied m) && bool_decide (landlord_get_state (mc_landlord m) = LANDLORD_BOUND)
  then mkMachine (mc_door m) (mc_landlord m) (directory_set_server (landlord_get_dns_server (mc_landlord m)) (mc_directory m)) true (mc_counter m)
  else m.

Definition concierge_tick (now : Z) (stack mac : list Z) (m : machine D) : option (machine D) :=
  let s := mc_door m in
  let s := on4 (set_board_net (concierge_tick_ipv4 now mac (sb_net (fr_b4 s))) (fr_b4 s)) s in
  '(ld, b) ← landlord_tick now mac (mc_landlord m, fr_b4 s);
  let m := apply_dns (mkMachine (on4 b s) ld (mc_directory m) (mc_dns_server_applied m) (mc_counter m)) in
  let s := mc_door m in
  '(dy, b) ← directory_tick now stack mac (rolodex_get_ip (lk_rolodex (n_link (sb_net (fr_b4 s))))) (mc_directory m, fr_b4 s);
  let s := frontdoor_tick now (on4 b s) in
  b6 ← concierge_tick_ipv6 now mac (fr_b6 s);
  Some (mkMachine (on6 b6 s) (mc_landlord m) dy (mc_dns_server_applied m) (mc_counter m)).

Definition concierge_maybe_tick (now : Z) (stack mac : list Z) (m : machine D) : option (machine D) :=
  let counter := mc_counter m +32 1 in
  let m := mkMachine (mc_door m) (mc_landlord m) (mc_directory m) (mc_dns_server_applied m) counter in
  if negb (counter mod CONCIERGE_TICK_DIVISOR =? 0) then Some m else concierge_tick now stack mac m.
End Tick.

(** ** Descriptors *)

(** A descriptor's entry, when it is open. *)
Definition fds {D} (s : door D) (j : nat) : option socket_entry := e ← fr_sockets s !! j; if sk_in_use e then Some e else None.

Section Descriptors.
Context `{TxDriver D}.
Implicit Types (s : door D).

(** The calls a program makes on a descriptor. *)
Inductive call :=
| CBind (port : Z) | CConnect (now : Z) (ip : ip4) (port : Z) | CConnect6 (now : Z) (ip : ip6) (port : Z) | CAccept
| CSend (now : Z) (buf : list Z) | CRecv (max_len : nat) | CSendto (now : Z) (ip : ip4) (port : Z) (buf : list Z)
| CSendto6 (now : Z) (ip : ip6) (port : Z) (buf : list Z) | CRecvfrom (max_len : nat) | CClose (now : Z).
(** The return value and the new state. *)
Definition exec_call (c : call) (fd : Z) s : option (Z * door D) :=
  match c with
  | CBind port => Some (frontdoor_bind fd port s)
  | CConnect now ip port => Some (frontdoor_connect now fd ip port s)
  | CConnect6 now ip port => frontdoor_connect6 now fd ip port s
  | CAccept => frontdoor_accept fd s
  | CSend now buf => Some (frontdoor_send now fd buf s)
  | CRecv max_len => '(r, _, s) ← frontdoor_recv fd max_len s; Some (r, s)
  | CSendto now ip port buf => Some (frontdoor_sendto now fd ip port buf s)
  | CSendto6 now ip port buf => frontdoor_sendto6 now fd ip port buf s
  | CRecvfrom max_len => '(r, _, s) ← frontdoor_recvfrom fd max_len s; Some (r, s)
  | CClose now => Some (frontdoor_close now fd s)
  end.

Lemma open_socket_spec fd s : open_socket fd s = None \/ exists i e, open_socket fd s = Some (i, e) /\ fd = Z.of_nat i /\ fds s i = Some e.
Proof.
  unfold open_socket, fds. destruct ((fd <? 0) || _) eqn:E; [by left|]. destruct (fr_sockets s !! Z.to_nat fd) as [e|] eqn:E2; [|by left]. cbn [mbind option_bind]. destruct (sk_in_use e) eqn:E3; [|by left].
  right. exists (Z.to_nat fd), e. split; [done|]. split; [lia|]. rewrite E2. cbn. by rewrite E3.
Qed.

Lemma fds_set i e s j : j <> i -> fds (set_socket i e s) j = fds s j.
Proof. intros Hj. unfold fds, set_socket. cbn [fr_sockets]. by rewrite list_lookup_insert_ne. Qed.

Lemma free_slot_spec s : match find_free_slot s with
  | (None, s') => s' = s /\ forall j e, fr_sockets s !! j = Some e -> sk_in_use e = true
  | (Some i, s') => fds s i = None /\ is_Some (fr_sockets s !! i) /\ (forall j, fds s' j = fds s j) /\ (forall j e, (j < i)%nat -> fr_sockets s !! j = Some e -> sk_in_use e = true) /\
      length (fr_sockets s') = length (fr_sockets s) /\ fr_b4 s' = fr_b4 s /\ fr_b6 s' = fr_b6 s end.
Proof.
  unfold find_free_slot. destruct (find_idx _ _) as [i|] eqn:E.
  - apply find_idx_Some in E as (e & He & Hu & Hlt). apply negb_true_iff in Hu. split; [unfold fds; rewrite He; cbn; by rewrite Hu|]. split; [done|]. split.
    + intros j. unfold fds. cbn [fr_sockets]. destruct (decide (j = i)) as [->|]; [|by rewrite list_lookup_alter_ne]. rewrite list_lookup_alter_eq, He. cbn. by rewrite Hu.
    + split; [|split; [apply length_alter|done]]. intros j e' Hj He'. specialize (Hlt j e' Hj He'). by apply negb_false_iff.
  - split; [done|]. intros j e He. pose proof (proj1 (find_idx_None _ _) E j e He) as Hn. by apply negb_false_iff.
Qed.

Lemma install_kept kind id port s j e : fds s j = Some e -> fds (snd (install kind id port s)) j = Some e.
Proof.
  intros Hj. unfold install. pose proof (free_slot_spec s) as Hf. destruct (find_free_slot s) as [[i|] s']; [|by destruct Hf as [-> _]]. destruct Hf as (Hi & _ & Hk & _). cbn [snd]. rewrite fds_set, Hk; [done|congruence].
Qed.

Lemma ensure_port_kept i e s j : j <> i -> fds (snd (ensure_port i e s)) j = fds s j.
Proof.
  intros Hj. unfold ensure_port. destruct (negb _); [done|]. unfold pick_udp_ephemeral. destruct (udp_loop _ _ _) as [port next]. destruct (port =? 0); [done|]. destruct (switchboard_bind _ _ _) as [ok b]. destruct ok; cbn [snd]; [by rewrite fds_set|done].
Qed.

Lemma try_send_fin_kept now e s j : fds (snd (try_send_fin now e s)) j = fds s j.
Proof.
  unfold try_send_fin. destruct (_ && _ && _).
  - destruct (can_fin _); [|done]. destruct (get_identity6 s) as [mac ip]. by destruct (switchboard6_close _ _ _ _ _).
  - destruct (_ && _ && _); [|done]. destruct (can_fin _); [|done]. destruct (get_identity s) as [mac ip]. by destruct (switchboard_close _ _ _ _ _).
Qed.

(** C11: Descriptors do not interfere.  A call on a descriptor that is not open
    (negative, beyond the table, closed, never opened) returns -1 and changes
    nothing, in the table and in both network stacks; and a call on an open
    descriptor leaves every other open descriptor exactly as it was, also when
    the call opens a new one. *)
Theorem frontdoor_isolated c fd s : match open_socket fd s with
  | None => exec_call c fd s = Some (-1, s)
  | Some (i, _) => forall r s' j e, exec_call c fd s = Some (r, s') -> j <> i -> fds s j = Some e -> fds s' j = Some e
  end.
Proof.
  destruct (open_socket_spec fd s) as [E|(i & e & E & -> & He)]; rewrite E.
  - destruct c; cbn [exec_call]; unfold frontdoor_bind, frontdoor_connect, frontdoor_connect6, frontdoor_accept, frontdoor_send, frontdoor_recv, frontdoor_sendto, frontdoor_sendto6, frontdoor_recvfrom, frontdoor_close; by rewrite E.
  - intros r s' j e' Hx Hj He'. destruct c; cbn [exec_call] in Hx; unfold frontdoor_bind, frontdoor_connect, frontdoor_connect6, frontdoor_accept, frontdoor_send, frontdoor_recv, frontdoor_sendto, frontdoor_sendto6, frontdoor_recvfrom, frontdoor_close in Hx; rewrite E in Hx.
    + destruct (bool_decide _); [destruct (switchboard6_bind _ _) as [[] b]|destruct (switchboard_bind _ _ _) as [[] b]]; injection Hx as _ <-; rewrite ?fds_set by done; done.
    + destruct (negb _); [by injection Hx as _ <-|]. destruct (get_identity s) as [mac our]. destruct (switchboard_connect _ _ _ _ _ _) as [[id|] b]; injection Hx as _ <-; rewrite ?fds_set by done; done.
    + destruct (negb _); [by injection Hx as _ <-|]. destruct (get_identity6 s) as [mac our]. apply bind_Some in Hx as ([[id|] b] & _ & Hx); injection Hx as _ <-; rewrite ?fds_set by done; done.
    + destruct (negb _); [by injection Hx as _ <-|]. destruct (bool_decide _); apply bind_Some in Hx as ([out b] & _ & Hx); apply (f_equal (fmap snd)) in Hx; (destruct out as [id|]; injection Hx as <-; [by apply install_kept|done]).
    + destruct (sk_listening e); [by injection Hx as _ <-|]. destruct (bool_decide _).
      * destruct (get_identity6 s) as [mac our]. destruct (switchboard6_send _ _ _ _ _ _) as [ok b]. by injection Hx as _ <-.
      * destruct (negb _); [by injection Hx as _ <-|]. destruct (get_identity s) as [mac our]. destruct (switchboard_send _ _ _ _ _ _) as [ok b]. by injection Hx as _ <-.
    + destruct (sk_listening e); [by injection Hx as _ <-|]. destruct (bool_decide _).
      * destruct (switchboard6_recv _ _ _) as [[got b]|]; [|done]. by injection Hx as _ <-.
      * destruct (negb _); [by injection Hx as _ <-|]. destruct (switchboard_recv _ _ _) as [[got b]|]; [|done]. by injection Hx as _ <-.
    + destruct (negb _); [by injection Hx as _ <-|]. pose proof (ensure_port_kept i e s j Hj) as Hk. destruct (ensure_port i e s) as [[lp|] s1]; [|injection Hx as _ <-; cbn [snd] in Hk; congruence].
      destruct (get_identity s1) as [mac our]. destruct (switchboard_send_udp _ _ _ _ _ _ _ _) as [ok b]. injection Hx as _ <-. cbn [snd] in Hk. rewrite <- He', <- Hk. done.
    + destruct (negb _); [by injection Hx as _ <-|]. pose proof (ensure_port_kept i e s j Hj) as Hk. destruct (ensure_port i e s) as [[lp|] s1]; [|injection Hx as _ <-; cbn [snd] in Hk; congruence].
      destruct (get_identity6 s1) as [mac our]. apply bind_Some in Hx as ([ok b] & _ & Hx). injection Hx as _ <-. cbn [snd] in Hk. rewrite <- He', <- Hk. done.
    + destruct (negb _); [by injection Hx as _ <-|]. destruct (switchboard_recv_udp _ _ _) as [[got b]|]; [|done]. by injection Hx as _ <-.
    + pose proof (try_send_fin_kept now e s j) as Hk. destruct (try_send_fin now e s) as [[] s1]; injection Hx as _ <-; cbn [snd] in Hk; rewrite fds_set by done; congruence.
Qed.

(** ** What is lost *)

(** C24: a waiting connection is given up when the descriptors run out.  On a listening
    IPv4 TCP descriptor, with a connection waiting on its port and every descriptor open,
    [frontdoor_accept] returns -1 but has already taken the first waiting connection out of
    the queue of the port: the queue is its tail, the network (the connection included,
    still in its state) and all descriptors are as they were, so the connection was handed
    to no one. *)
Theorem frontdoor_accept_drops fd i e s k q id l : open_socket fd s = Some (i, e) -> sk_listening e = true -> sk_kind e = SOCK_TCP ->
  (forall j x, fr_sockets s !! j = Some x -> sk_in_use x = true) -> board_inv k (fr_b4 s) q -> accept_queue (sk_local_port e) (fr_b4 s) = id :: l ->
  exists s', frontdoor_accept fd s = Some (-1, s') /\ accept_queue (sk_local_port e) (fr_b4 s') = l /\ sb_net (fr_b4 s') = sb_net (fr_b4 s) /\ fr_sockets s' = fr_sockets s.
Proof.
  intros E Hl Hk Hfull Hb Hq. unfold frontdoor_accept. rewrite E, Hl, Hk. cbn [negb]. rewrite bool_decide_eq_false_2 by done. destruct (accept_spec (sk_local_port e) _ k q Hb) as (b' & -> & _ & Hn & Ht & _). rewrite Hq in *. cbn [head mbind option_bind tail] in *.
  unfold install. pose proof (free_slot_spec (on4 b' s)) as Hf. destruct (find_free_slot (on4 b' s)) as [[j|] s'].
  - destruct Hf as (Hj & [x Hx] & _). exfalso. unfold fds in Hj. change (fr_sockets (on4 b' s)) with (fr_sockets s) in *. rewrite Hx in Hj. cbn in Hj. by rewrite (Hfull _ _ Hx) in Hj.
  - destruct Hf as [-> _]. eexists. done.
Qed.

Lemma quota_full_bind port protocol (b : board D) : (LOCKBOX_MAX_PER_IP <= count_for_ip [0; 0; 0; 0]%Z (lx_table (box b)))%nat -> fst (switchboard_bind port protocol b) = false.
Proof.
  intros Hc. unfold switchboard_bind, lockbox_listen, lockbox_claim. destruct (negb _); [done|]. rewrite (proj2 (Nat.leb_le _ _) Hc). done.
Qed.

(** Datagram sockets leak their ports.  Closing a datagram descriptor changes
    neither network stack, so the port it was bound to stays taken in LockBox; and
    once eight ports are bound, whatever was closed since, a datagram descriptor
    without a port can send nothing: [frontdoor_sendto] returns -1. *)
Lemma frontdoor_udp_ports_leak fd i e s : open_socket fd s = Some (i, e) -> sk_kind e = SOCK_UDP ->
  (forall now, frontdoor_close now fd s = (0, set_socket i (set_sk_flags false (sk_closing e) e) s)) /\
  (sk_local_port e = 0 -> (LOCKBOX_MAX_PER_IP <= count_for_ip [0; 0; 0; 0]%Z (lx_table (box (fr_b4 s))))%nat -> forall now ip port buf, fst (frontdoor_sendto now fd ip port buf s) = -1).
Proof.
  intros E Hk. split.
  - intros now. unfold frontdoor_close, try_send_fin. rewrite E, Hk. done.
  - intros Hp Hc now ip port buf. unfold frontdoor_sendto. rewrite E, Hk. rewrite bool_decide_eq_true_2 by done. cbn [negb]. unfold ensure_port, pick_udp_ephemeral. rewrite Hp. cbn [negb Z.eqb]. destruct (udp_loop _ _ _) as [p next]. destruct (p =? 0); [done|].
    pose proof (quota_full_bind p 17 (fr_b4 s) Hc) as Hb. cbn [fr_b4]. destruct (switchboard_bind p 17 (fr_b4 s)) as [ok b]. cbn [fst] in Hb. by subst ok.
Qed.

Lemma lookup_keeps_server now host d r d' : directory_lookup_cached now host d = Some (r, d') -> dy_dns_server d' = dy_dns_server d /\ dy_have_server d' = dy_have_server d.
Proof.
  unfold directory_lookup_cached. intros (slot & _ & Hx)%bind_Some. destruct slot as [i|]; [|by injection Hx as _ <-]. apply bind_Some in Hx as (e & _ & Hx). destruct (_ <=? _); by injection Hx as _ <-.
Qed.
Lemma query_keeps_server now host mac ip d (b : board D) r d' b' : directory_query now host mac ip (d, b) = Some (r, (d', b')) -> dy_dns_server d' = dy_dns_server d /\ dy_have_server d' = dy_have_server d.
Proof.
  unfold directory_query. intros ([c d1] & Hl & Hx)%bind_Some. apply lookup_keeps_server in Hl as [H1 H2]. rewrite <- H1, <- H2. destruct c; [by injection Hx as _ <- _|]. destruct (negb _); [by injection Hx as _ <- _|]. destruct (dy_pending_active d1); [by injection Hx as _ <- _|].
  apply bind_Some in Hx as (name & _ & Hx). destruct (_ <? _)%nat; [done|]. destruct (switchboard_send_udp _ _ _ _ _ _ _ _) as [ok b1]. apply bind_Some in Hx as (p & _ & Hx). by injection Hx as _ <- _.
Qed.
Lemma timeout_keeps_server now mac ip d (b : board D) d' b' : directory_timeout now mac ip (d, b) = Some (d', b') -> dy_dns_server d' = dy_dns_server d /\ dy_have_server d' = dy_have_server d.
Proof.
  unfold directory_timeout. destruct (negb _); [by intros [= <- _]|]. destruct (negb _); [|by intros [= <- _]]. intros (c & _ & Hx)%bind_Some. apply bind_Some in Hx as ([r [d1 b1]] & Hq & [= <- _]). by apply query_keeps_server in Hq as [H1 H2].
Qed.
Lemma store_keeps_server now host ip ttl d d' : store_in_cache now host ip ttl d = Some d' -> dy_dns_server d' = dy_dns_server d /\ dy_have_server d' = dy_have_server d.
Proof. unfold store_in_cache. intros (slot & _ & Hx)%bind_Some. apply bind_Some in Hx as (e & _ & Hx). apply bind_Some in Hx as (n & _ & Hx). by injection Hx as <-. Qed.
Lemma tick_keeps_server now stack mac ip d (b : board D) d' b' : directory_tick now stack mac ip (d, b) = Some (d', b') -> dy_dns_server d' = dy_dns_server d /\ dy_have_server d' = dy_have_server d.
Proof.
  unfold directory_tick. destruct (negb _); [by intros [= <- _]|]. intros ([got b1] & _ & Hx)%bind_Some. destruct (negb _); [by apply timeout_keeps_server in Hx|]. apply bind_Some in Hx as (id & _ & Hx). apply bind_Some in Hx as (an & _ & Hx).
  destruct (negb _); [by apply timeout_keeps_server in Hx|]. apply bind_Some in Hx as (off & _ & Hx). apply bind_Some in Hx as (found & _ & Hx). destruct found as [[a ttl]|]; [|by injection Hx as <- _]. apply bind_Some in Hx as (d1 & Hs & Hx). apply store_keeps_server in Hs. by injection Hx as <- _.
Qed.

(** Only the first lease names the DNS server.  Once a lease was bound and its
    server was given to Directory, no tick changes that server again, whatever a
    renewed or new lease says; a first lease without a DNS server leaves
    Directory without one for good. *)
Lemma concierge_dns_applied_once now stack mac (m m' : machine D) : concierge_tick now stack mac m = Some m' -> mc_dns_server_applied m = true ->
  mc_dns_server_applied m' = true /\ dy_dns_server (mc_directory m') = dy_dns_server (mc_directory m) /\ dy_have_server (mc_directory m') = dy_have_server (mc_directory m).
Proof.
  unfold concierge_tick, apply_dns. intros Hx Ha. apply bind_Some in Hx as ([ld b] & _ & Hx). cbn [mc_dns_server_applied] in Hx. rewrite Ha in Hx. cbn [negb andb mc_door mc_directory mc_landlord] in Hx.
  apply bind_Some in Hx as ([dy b'] & Hd & Hx). apply bind_Some in Hx as (b6 & _ & [= <-]). apply tick_keeps_server in Hd. cbn. done.
Qed.
End Descriptors.

(** ** A machine *)

Definition empty_socket : socket_entry := mkSocket SOCK_FREE false 0 0 false false.
Definition door_boot : door (list (list Z)) :=
  mkDoor (replicate 32 empty_socket) 40000 (board_boot (net_boot (@nil (list Z)) lease_mac)) (board6_boot (net6_boot lease_mac menu_init 7 (@nil (list Z)))).

(** A program that sends a datagram and closes, [n] times over. *)
Fixpoint datagram_rounds (n : nat) (s : door (list (list Z))) : list Z * door (list (list Z)) :=
  match n with
  | O => ([], s)
  | S n' =>
      let '(fd, s) := frontdoor_socket SOCK_TYPE_UDP s in
      let '(r, s) := frontdoor_sendto 5 fd [255; 255; 255; 255] 53 [1; 2; 3] s in
      let '(_, s) := frontdoor_close 5 fd s in
      let '(rs, s) := datagram_rounds n' s in (r :: rs, s)
  end.

(** The ninth datagram of such a program is refused. *)
Example datagrams_run_out : fst (datagram_rounds 10 door_boot) = [3; 3; 3; 3; 3; 3; 3; 3; -1; -1].
Proof. vm_compute. reflexivity. Qed.

Definition two_sockets : door (list (list Z)) := snd (frontdoor_socket SOCK_TYPE_UDP (snd (frontdoor_socket SOCK_TYPE_TCP door_boot))).
Lemma frontdoor_isolated_witness : exists s', exec_call (CClose 9) 1 two_sockets = Some (0, s') /\ fds s' 0 = Some (mkSocket SOCK_TCP false 64 0 true false).
Proof.
  pose proof (frontdoor_isolated (CClose 9) 1 two_sockets) as Hi. assert (Eo : open_socket 1 two_sockets = Some (1%nat, mkSocket SOCK_UDP false 64 0 true false)) by (vm_compute; reflexivity). rewrite Eo in Hi.
  assert (Er : fst <$> exec_call (CClose 9) 1 two_sockets = Some 0) by (vm_compute; reflexivity). destruct (exec_call (CClose 9) 1 two_sockets) as [[r s']|]; [|discriminate Er]. injection Er as ->. exists s'. split; [reflexivity|].
  apply (Hi 0 s' 0%nat); [reflexivity|lia|vm_compute; reflexivity].
Defined.

Definition crowded_door : door (list (list Z)) :=
  mkDoor (replicate 32 (mkSocket SOCK_TCP true 64 80 true false)) 40000 (board_boot tcp_host) (board6_boot (net6_boot lease_mac menu_init 7 (@nil (list Z)))).
Lemma frontdoor_accept_drops_witness : exists s', frontdoor_accept 3 crowded_door = Some (-1, s') /\ accept_queue 80 (fr_b4 crowded_door) = [0%nat] /\ accept_queue 80 (fr_b4 s') = [].
Proof.
  assert (Eq : accept_queue 80 (fr_b4 crowded_door) = [0%nat]) by (vm_compute; reflexivity).
  destruct (frontdoor_accept_drops 3 3 (mkSocket SOCK_TCP true 64 80 true false) crowded_door 1 (upd (fun _ => []) 0 []) 0%nat []) as (s' & E & H1 & _).
  - reflexivity.
  - reflexivity.
  - reflexivity.
  - intros j x Hx. apply lookup_replicate in Hx as [-> _]. reflexivity.
  - apply board_inv_boot; [exact tcp_one_inv|]. apply generation_nonneg. vm_compute. reflexivity.
  - exact Eq.
  - exists s'. split; [exact E|]. split; [exact Eq|exact H1].
Defined.

Lemma frontdoor_udp_ports_leak_witness : fst (frontdoor_sendto 5 0 [10; 0; 2; 2] 53 [1] (snd (frontdoor_socket SOCK_TYPE_UDP (snd (datagram_rounds 8 door_boot))))) = -1.
Proof.
  destruct (frontdoor_udp_ports_leak 0 0 (mkSocket SOCK_UDP false 64 0 true false) (snd (frontdoor_socket SOCK_TYPE_UDP (snd (datagram_rounds 8 door_boot))))) as [_ H]; [vm_compute; reflexivity|reflexivity|].
  apply H; [reflexivity|vm_compute; lia].
Defined.

Definition served_machine : machine (list (list Z)) := mkMachine door_boot landlord_init (directory_set_server [10; 0; 2; 3] directory_init) true 0.
Lemma concierge_dns_applied_once_witness : exists m', concierge_tick 5 (replicate 320 7) lease_mac served_machine = Some m' /\ dy_dns_server (mc_directory m') = [10; 0; 2; 3].
Proof.
  assert (Er : match concierge_tick 5 (replicate 320 7) lease_mac served_machine with Some _ => true | None => false end = true) by (vm_compute; reflexivity).
  destruct (concierge_tick 5 (replicate 320 7) lease_mac served_machine) as [m'|] eqn:E; [|discriminate Er]. exists m'. split; [reflexivity|]. exact (proj1 (proj2 (concierge_dns_applied_once 5 (replicate 320 7) lease_mac served_machine m' E eq_refl))).
Defined.
