(* ===== verification/Provenance.v ===== *)
(** * Provenance, the record of causes

    [Provenance/provenance.c]: a ring of the last 256 records "source did
    something to target", and searches in it, among them the trace of everything
    that follows from an entity or leads to it. *)

From S2P Require Import Prelude SlotTable.
From stdpp Require Import list sorting.

#[local] Open Scope Z_scope.

Definition PROVENANCE_MAX_RECORDS : nat := 256.

Inductive provenance_relation :=
| PROVENANCE_RELATION_NONE | PROVENANCE_RELATION_CAUSED | PROVENANCE_RELATION_AFFECTED | PROVENANCE_RELATION_CREATED | PROVENANCE_RELATION_DESTROYED
| PROVENANCE_RELATION_OWNED | PROVENANCE_RELATION_TRIGGERED | PROVENANCE_RELATION_DEPENDED_ON | PROVENANCE_RELATION_RESPONDED_TO.
#[export] Instance provenance_relation_eq : EqDecision provenance_relation.
Proof. solve_decision. Defined.

Inductive provenance_reason :=
| PROVENANCE_REASON_NONE | PROVENANCE_REASON_INTERRUPT | PROVENANCE_REASON_SCHEDULE | PROVENANCE_REASON_ALLOCATION | PROVENANCE_REASON_DEALLOCATION
| PROVENANCE_REASON_CREATION | PROVENANCE_REASON_DESTRUCTION | PROVENANCE_REASON_REQUEST | PROVENANCE_REASON_RESPONSE | PROVENANCE_REASON_DELIVERY
| PROVENANCE_REASON_FAILURE | PROVENANCE_REASON_DEPENDENCY | PROVENANCE_REASON_USER_ACTION | PROVENANCE_REASON_SYSTEM_ACTION.

Inductive provenance_entity :=
| PROVENANCE_ENTITY_NONE | PROVENANCE_ENTITY_INTERRUPT | PROVENANCE_ENTITY_DRIVER | PROVENANCE_ENTITY_PROCESS | PROVENANCE_ENTITY_MEMORY
| PROVENANCE_ENTITY_NETWORK | PROVENANCE_ENTITY_FILE | PROVENANCE_ENTITY_DEVICE | PROVENANCE_ENTITY_OPERATION.
#[export] Instance provenance_entity_eq : EqDecision provenance_entity.
Proof. solve_decision. Defined.

Record provenance_entity_ref := mkEntity { er_type : provenance_entity; er_id : Z }.
#[export] Instance provenance_entity_ref_eq : EqDecision provenance_entity_ref.
Proof. solve_decision. Defined.

Record provenance_record_t := mkRecord {
  pr_id : Z; pr_tick : Z; pr_source : provenance_entity_ref; pr_target : provenance_entity_ref; pr_relation : provenance_relation; pr_reason : provenance_reason; pr_valid : bool }.

Record provenance := mkProv { pv_records : list provenance_record_t; pv_record_count : nat; pv_next_id : Z; pv_dropped : Z }.

Definition set_valid (v : bool) (r : provenance_record_t) : provenance_record_t := mkRecord (pr_id r) (pr_tick r) (pr_source r) (pr_target r) (pr_relation r) (pr_reason r) v.

(** ** The ring *)

Definition reset_locked (p : provenance) : provenance := mkProv (set_valid false <$> pv_records p) 0 1 0.
Definition provenance_init (p : provenance) : provenance := reset_locked p.
Definition provenance_clear (p : provenance) : provenance := provenance_init p.

Definition oldest_slot (p : provenance) : nat :=
  if (pv_record_count p <? PROVENANCE_MAX_RECORDS)%nat then 0%nat else (Z.to_nat (pv_next_id p -32 1) mod PROVENANCE_MAX_RECORDS)%nat.

Definition entity_equal (a b : provenance_entity_ref) : bool := bool_decide (er_type a = er_type b) && (er_id a =? er_id b).

Definition store_locked (source target : provenance_entity_ref) (relation : provenance_relation) (reason : provenance_reason) (tick : Z) (p : provenance) : Z * provenance :=
  let '(index, count, dropped) :=
    if (pv_record_count p <? PROVENANCE_MAX_RECORDS)%nat then (pv_record_count p, S (pv_record_count p), pv_dropped p)
    else ((Z.to_nat (pv_next_id p -32 1) mod PROVENANCE_MAX_RECORDS)%nat, pv_record_count p, pv_dropped p +32 1) in
  let id := pv_next_id p in
  (id, mkProv (<[index := mkRecord id tick source target relation reason true]> (pv_records p)) count (id +32 1) dropped).

Definition input_valid (source target : provenance_entity_ref) (relation : provenance_relation) : bool :=
  negb (bool_decide (er_type source = PROVENANCE_ENTITY_NONE)) && negb (bool_decide (er_type target = PROVENANCE_ENTITY_NONE)) && negb (bool_decide (relation = PROVENANCE_RELATION_NONE)).

Definition provenance_record (now : Z) (source target : provenance_entity_ref) (relation : provenance_relation) (reason : provenance_reason) (p : provenance) : Z * provenance :=
  if negb (input_valid source target relation) then (0, p) else store_locked source target relation reason now p.

Definition provenance_record_once (now : Z) (source target : provenance_entity_ref) (relation : provenance_relation) (reason : provenance_reason) (p : provenance) : Z * provenance :=
  if negb (input_valid source target relation) then (0, p)
  else
    let same r := pr_valid r && bool_decide (pr_relation r = relation) && entity_equal (pr_source r) source && entity_equal (pr_target r) target in
    let id := match find_idx same (take (pv_record_count p) (pv_records p)) with Some i => default 0 (pr_id <$> pv_records p !! i) | None => 0 end in
    if id =? 0 then store_locked source target relation reason now p else (id, p).

Definition provenance_get (id : Z) (p : provenance) : option provenance_record_t :=
  if id =? 0 then None else find_idx (fun r => pr_valid r && (pr_id r =? id)) (pv_records p) ≫= fun i => pv_records p !! i.

(** The records from the oldest on; [None] is an access outside the table. *)
Definition ordered (p : provenance) : option (list provenance_record_t) :=
  mapM (fun k => pv_records p !! ((oldest_slot p + k) mod PROVENANCE_MAX_RECORDS)%nat) (seq 0 (pv_record_count p)).

Record provenance_snapshot := mkSnapshot { ps_records : list provenance_record_t; ps_record_count : nat; ps_dropped : Z }.
Definition provenance_get_snapshot (p : provenance) : option provenance_snapshot := rs ← ordered p; Some (mkSnapshot rs (pv_record_count p) (pv_dropped p)).
Definition provenance_count (p : provenance) : nat := pv_record_count p.
Definition provenance_dropped (p : provenance) : Z := pv_dropped p.

(** ** Searches *)

(** The loop that collects at most [max_results] records. *)
Fixpoint collect (want : provenance_record_t -> bool) (max_results : nat) (rs : list provenance_record_t) : list provenance_record_t :=
  match rs, max_results with
  | [], _ | _, O => []
  | r :: rs', S max' => if pr_valid r && want r then r :: collect want max' rs' else collect want max_results rs'
  end.

Definition provenance_find_from (source : provenance_entity_ref) (max_results : nat) (p : provenance) : option (list provenance_record_t) :=
  rs ← ordered p; Some (collect (fun r => entity_equal (pr_source r) source) max_results rs).
Definition provenance_find_to (target : provenance_entity_ref) (max_results : nat) (p : provenance) : option (list provenance_record_t) :=
  rs ← ordered p; Some (collect (fun r => entity_equal (pr_target r) target) max_results rs).
Definition provenance_find_relation (entity : provenance_entity_ref) (relation : provenance_relation) (max_results : nat) (p : provenance) : option (list provenance_record_t) :=
  rs ← ordered p;
  Some (collect (fun r => bool_decide (pr_relation r = relation) && (entity_equal (pr_source r) entity || entity_equal (pr_target r) entity)) max_results rs).

(** ** Traces *)

(** The entities seen, those of them still to expand, and the results. *)
Record tracing := mkTracing { tr_visited : list provenance_entity_ref; tr_queue : list provenance_entity_ref; tr_results : list provenance_record_t }.

Definition from_of (forward : bool) (r : provenance_record_t) : provenance_entity_ref := if forward then pr_source r else pr_target r.
Definition next_of (forward : bool) (r : provenance_record_t) : provenance_entity_ref := if forward then pr_target r else pr_source r.

Definition trace_step (forward : bool) (current : provenance_entity_ref) (r : provenance_record_t) (t : tracing) : tracing :=
  if negb (pr_valid r) || negb (entity_equal (from_of forward r) current) then t
  else
    let results := tr_results t ++ [r] in
    let next := next_of forward r in
    let seen := existsb (fun v => entity_equal v next) (tr_visited t) in
    if negb seen && (length (tr_visited t) <? PROVENANCE_MAX_RECORDS + 1)%nat
    then mkTracing (tr_visited t ++ [next]) (tr_queue t ++ [next]) results
    else mkTracing (tr_visited t) (tr_queue t) results.

(** The inner loop, over the copy of the records. *)
Fixpoint trace_scan (forward : bool) (max_results : nat) (current : provenance_entity_ref) (rs : list provenance_record_t) (t : tracing) : tracing :=
  match rs with
  | [] => t
  | r :: rs' => if (length (tr_results t) <? max_results)%nat then trace_scan forward max_results current rs' (trace_step forward current r t) else t
  end.

(** The outer loop takes one entity from the queue a turn; no more than 257
    enter it. *)
Fixpoint trace_loop (fuel : nat) (forward : bool) (max_results : nat) (rs : list provenance_record_t) (t : tracing) : option (list provenance_record_t) :=
  match tr_queue t with
  | [] => Some (tr_results t)
  | current :: queue =>
      if negb (length (tr_results t) <? max_results)%nat then Some (tr_results t)
      else
        match fuel with
        | O => None
        | S fuel' => trace_loop fuel' forward max_results rs (trace_scan forward max_results current rs (mkTracing (tr_visited t) queue (tr_results t)))
        end
  end.

Definition trace (start : provenance_entity_ref) (forward : bool) (max_results : nat) (p : provenance) : option (list provenance_record_t) :=
  if (max_results =? 0)%nat then Some []
  else rs ← ordered p; trace_loop (PROVENANCE_MAX_RECORDS + 1) forward max_results rs (mkTracing [start] [start] []).
Definition provenance_trace_from (start : provenance_entity_ref) (max_results : nat) (p : provenance) : option (list provenance_record_t) := trace start true max_results p.
Definition provenance_trace_to (target : provenance_entity_ref) (max_results : nat) (p : provenance) : option (list provenance_record_t) := trace target false max_results p.

Lemma entity_equal_spec a b : entity_equal a b = bool_decide (a = b).
Proof.
  unfold entity_equal. destruct a as [ta ia], b as [tb ib]. cbn. destruct (bool_decide_reflect (ta = tb)) as [->|Hn]; cbn [andb].
  - destruct (Z.eqb_spec ia ib) as [->|Hn]; symmetry; [by apply bool_decide_eq_true_2|apply bool_decide_eq_false_2; congruence].
  - symmetry. apply bool_decide_eq_false_2. congruence.
Qed.

(** ** What a trace finds *)

Section Trace.
Context (forward : bool) (rs : list provenance_record_t) (start : provenance_entity_ref).
Implicit Types (t : tracing) (e : provenance_entity_ref).

(** What follows from [start] along the records. *)
Inductive follows : provenance_entity_ref -> Prop :=
| follows_start : follows start
| follows_record r : r ∈ rs -> pr_valid r = true -> follows (from_of forward r) -> follows (next_of forward r).

Definition hits (e : provenance_entity_ref) (r : provenance_record_t) : bool := pr_valid r && bool_decide (from_of forward r = e).

(** The loops without a limit on the results. *)
Let scan0 (c : provenance_entity_ref) (l : list provenance_record_t) t : tracing := foldl (fun t r => trace_step forward c r t) t l.
Fixpoint loop0 (fuel : nat) t : option (list provenance_record_t) :=
  match tr_queue t with
  | [] => Some (tr_results t)
  | c :: queue => match fuel with O => None | S fuel' => loop0 fuel' (scan0 c rs (mkTracing (tr_visited t) queue (tr_results t))) end
  end.

Lemma step_results c r t : tr_results (trace_step forward c r t) = tr_results t ++ (if hits c r then [r] else []).
Proof. unfold trace_step, hits. rewrite entity_equal_spec. destruct (pr_valid r); cbn [negb orb andb]; [|by rewrite app_nil_r]. destruct (bool_decide _); cbn [negb]; [|by rewrite app_nil_r]. by destruct (_ && _). Qed.

Lemma scan0_results c l : forall t, tr_results (scan0 c l t) = tr_results t ++ List.filter (hits c) l.
Proof.
  induction l as [|r l IH]; intros t; cbn [scan0 foldl List.filter]; [by rewrite app_nil_r|]. fold (scan0 c l (trace_step forward c r t)). rewrite IH, step_results, <- app_assoc. by destruct (hits c r).
Qed.

Lemma loop0_prefix fuel : forall t res, loop0 fuel t = Some res -> tr_results t `prefix_of` res.
Proof.
  induction fuel as [|fuel IH]; intros t res; cbn [loop0]; (destruct (tr_queue t) as [|c q]; [by intros [= <-]|]); [done|]. intros Hl%IH. etrans; [|exact Hl]. rewrite scan0_results. by apply prefix_app_r.
Qed.

(** ** The limit *)

Definition agree (max : nat) t t0 : Prop := (t = t0 /\ (length (tr_results t) < max)%nat) \/ (length (tr_results t) = max /\ tr_results t `prefix_of` tr_results t0).

Lemma scan_agree max c l : forall t t0, agree max t t0 -> agree max (trace_scan forward max c l t) (scan0 c l t0).
Proof.
  induction l as [|r l IH]; intros t t0 Ha; [exact Ha|]. cbn [trace_scan]. change (scan0 c (r :: l) t0) with (scan0 c l (trace_step forward c r t0)). destruct Ha as [[-> Hlt]|[Hl Hp]].
  - rewrite (proj2 (Nat.ltb_lt _ _) Hlt). apply IH. pose proof (step_results c r t0) as Hr. destruct (Nat.lt_ge_cases (length (tr_results (trace_step forward c r t0))) max); [by left|]. right. split; [|done]. rewrite Hr, length_app in *. destruct (hits c r); cbn [length] in *; lia.
  - destruct (Nat.ltb_spec (length (tr_results t)) max); [lia|]. right. split; [done|]. rewrite scan0_results, step_results. by do 2 apply prefix_app_r.
Qed.

Lemma loop_agree fuel max : forall t t0 res, agree max t t0 -> loop0 fuel t0 = Some res -> trace_loop fuel forward max rs t = Some (take max res).
Proof.
  induction fuel as [|fuel IH]; intros t t0 res Ha Hl; pose proof (loop0_prefix _ _ _ Hl) as Hpre; cbn [loop0 trace_loop] in *.
  - destruct (tr_queue t0) as [|c q] eqn:Eq; [|done]. injection Hl as <-. destruct Ha as [[-> Hlt]|[Hn Hp]]; [rewrite Eq, take_ge; [done|lia]|].
    assert (tr_results t = take max (tr_results t0)) as <- by (destruct Hp as [k ->]; rewrite <- Hn, take_app_length; done). destruct (tr_queue t); [done|]. rewrite Hn, Nat.ltb_irrefl. done.
  - destruct Ha as [[-> Hlt]|[Hn Hp]].
    + destruct (tr_queue t0) as [|c q]; [injection Hl as <-; rewrite take_ge; [done|lia]|]. rewrite (proj2 (Nat.ltb_lt _ _) Hlt). cbn [negb]. eapply IH; [|exact Hl]. apply scan_agree. left. split; [done|exact Hlt].
    + assert (tr_results t = take max res) as <- by (destruct (transitivity Hp Hpre) as [k ->]; rewrite <- Hn, take_app_length; done). destruct (tr_queue t); [done|]. by rewrite Hn, Nat.ltb_irrefl.
Qed.

(** ** Everything that follows, once *)

(** [done] is expanded, the queue is not. *)
Record traced (P : list provenance_entity_ref) t : Prop := {
  td_visited : tr_visited t = P ++ tr_queue t;
  td_nodup : NoDup (tr_visited t);
  td_known : forall v, v ∈ tr_visited t -> v ∈ start :: (next_of forward <$> rs);
  td_follows : forall v, v ∈ tr_visited t -> follows v;
  td_start : start ∈ tr_visited t;
  td_results : tr_results t = concat ((fun e => List.filter (hits e) rs) <$> P);
  td_closed : forall r, r ∈ rs -> pr_valid r = true -> from_of forward r ∈ P -> next_of forward r ∈ tr_visited t }.

(** In the middle of expanding [c]: the records [l] are done. *)
Record expanding (P : list provenance_entity_ref) (c : provenance_entity_ref) (l : list provenance_record_t) t : Prop := {
  ex_visited : exists q, tr_queue t = q /\ tr_visited t = P ++ c :: q;
  ex_nodup : NoDup (tr_visited t);
  ex_known : forall v, v ∈ tr_visited t -> v ∈ start :: (next_of forward <$> rs);
  ex_follows : forall v, v ∈ tr_visited t -> follows v;
  ex_closed : forall r, r ∈ l -> hits c r = true -> next_of forward r ∈ tr_visited t;
  ex_start : start ∈ tr_visited t }.

Lemma visited_bound l : NoDup l -> (forall v, v ∈ l -> v ∈ start :: (next_of forward <$> rs)) -> (length rs <= 256)%nat -> (length l <= length rs + 1)%nat.
Proof.
  intros Hn Hk Hl. transitivity (length (start :: (next_of forward <$> rs))); [|cbn [length]; rewrite length_fmap; lia]. apply submseteq_length, NoDup_submseteq; [done|exact Hk].
Qed.

Lemma seen_spec (l : list provenance_entity_ref) e : existsb (fun v => entity_equal v e) l = bool_decide (e ∈ l).
Proof.
  induction l as [|v l IH]; cbn [existsb]; [symmetry; apply bool_decide_eq_false_2, not_elem_of_nil|]. rewrite IH, entity_equal_spec. destruct (bool_decide_reflect (v = e)) as [->|Hn]; cbn [orb]; [symmetry; apply bool_decide_eq_true_2; left|].
  apply bool_decide_ext. rewrite list.elem_of_cons. split; [by right|]. intros [->|]; [done|done].
Qed.

Lemma step_expanding P c l r t : (length rs <= 256)%nat -> r ∈ rs -> expanding P c l t -> expanding P c (l ++ [r]) (trace_step forward c r t).
Proof.
  intros Hl Hr [[q [Eq Ev]] Hn Hk Hf Hc Hs]. unfold trace_step. rewrite entity_equal_spec, seen_spec. fold (hits c r).
  assert (Hstay : next_of forward r ∈ tr_visited t \/ hits c r = false -> expanding P c (l ++ [r]) t).
  { intros Hd. split; [by exists q|done|done|done| |done]. intros r' Hr' Hh. apply elem_of_app in Hr' as [Hr'|Hr']; [by apply Hc|]. apply list_elem_of_singleton in Hr' as ->. destruct Hd as [|Hd]; [done|congruence]. }
  destruct (pr_valid r) eqn:Hv; cbn [negb orb]; [|apply Hstay; right; unfold hits; by rewrite Hv]. destruct (bool_decide_reflect (from_of forward r = c)) as [Hfc|Hfc]; cbn [negb]; [|apply Hstay; right; unfold hits; rewrite Hv; by rewrite bool_decide_eq_false_2].
  cbv zeta. destruct (bool_decide_reflect (next_of forward r ∈ tr_visited t)) as [Hin|Hin]; cbn [negb andb].
  - destruct (Hstay (or_introl Hin)). by split.
  - assert (Hn' : NoDup (tr_visited t ++ [next_of forward r])). { apply NoDup_app. split; [done|]. split; [|apply NoDup_singleton]. intros v Hv' Hv2. apply list_elem_of_singleton in Hv2 as ->. done. }
    assert (Hk' : forall v, v ∈ tr_visited t ++ [next_of forward r] -> v ∈ start :: (next_of forward <$> rs)). { intros v [Hv'|Hv']%elem_of_app; [by apply Hk|]. apply list_elem_of_singleton in Hv' as ->. right. by apply list_elem_of_fmap_2. }
    pose proof (visited_bound _ Hn' Hk' Hl) as Hb. rewrite length_app in Hb. cbn [length] in Hb. destruct (Nat.ltb_spec (length (tr_visited t)) (PROVENANCE_MAX_RECORDS + 1)); [|unfold PROVENANCE_MAX_RECORDS in *; lia]. split; cbn [tr_visited tr_queue].
    + exists (q ++ [next_of forward r]). split; [by rewrite Eq|]. rewrite Ev, <- app_assoc. done.
    + done.
    + done.
    + intros v [Hv'|Hv']%elem_of_app; [by apply Hf|]. apply list_elem_of_singleton in Hv' as ->. apply follows_record; [done|done|]. rewrite Hfc. apply Hf. rewrite Ev. apply elem_of_app. right. left.
    + intros r' [Hr'|Hr']%elem_of_app Hh; apply elem_of_app; [left; by apply Hc|right]. apply list_elem_of_singleton in Hr' as ->. by apply list_elem_of_singleton.
    + apply elem_of_app. by left.
Qed.

Lemma scan_expanding P c l2 : (length rs <= 256)%nat -> forall l t, (forall r, r ∈ l2 -> r ∈ rs) -> expanding P c l t -> expanding P c (l ++ l2) (scan0 c l2 t).
Proof.
  intros Hl. induction l2 as [|r l2 IH]; intros l t Hin He; [by rewrite app_nil_r|]. change (scan0 c (r :: l2) t) with (scan0 c l2 (trace_step forward c r t)). replace (l ++ r :: l2) with ((l ++ [r]) ++ l2) by (by rewrite <- app_assoc).
  apply IH; [intros r' Hr'; apply Hin; by right|]. apply step_expanding; [done|apply Hin; left|done].
Qed.

Lemma scan0_visited c l : forall t, tr_visited t `prefix_of` tr_visited (scan0 c l t).
Proof.
  induction l as [|r l IH]; intros t; [done|]. change (scan0 c (r :: l) t) with (scan0 c l (trace_step forward c r t)). etrans; [|apply IH]. unfold trace_step. destruct (_ || _); [done|]. cbv zeta. destruct (_ && _); [by apply prefix_app_r|done].
Qed.

Lemma traced_step P t c q : (length rs <= 256)%nat -> traced P t -> tr_queue t = c :: q -> traced (P ++ [c]) (scan0 c rs (mkTracing (tr_visited t) q (tr_results t))).
Proof.
  intros Hl [Ev Hn Hk Hf Hs Hr Hc] Eq. assert (He : expanding P c [] (mkTracing (tr_visited t) q (tr_results t))).
  { split; cbn [tr_visited tr_queue]; [exists q; split; [done|by rewrite Ev, Eq]|done|done|done|intros r Hr'; by apply elem_of_nil in Hr'|done]. }
  pose proof (scan_expanding P c rs Hl [] _ (fun r Hr => Hr) He) as [[q' [Eq' Ev']] Hn' Hk' Hf' Hc' Hs']. cbn [app] in *. set (t' := scan0 c rs _) in *. split; [by rewrite Ev', Eq', <- app_assoc|done|done|done|done| |].
  - unfold t'. rewrite scan0_results. cbn [tr_results]. rewrite Hr, fmap_app, concat_app. cbn. by rewrite app_nil_r.
  - intros r Hr' Hv Hp. apply elem_of_app in Hp as [Hp|Hp].
    + pose proof (Hc r Hr' Hv Hp) as Hin. destruct (scan0_visited c rs (mkTracing (tr_visited t) q (tr_results t))) as [k Ek]. fold t' in Ek. rewrite Ek. apply elem_of_app. by left.
    + apply list_elem_of_singleton in Hp. apply Hc'; [done|]. unfold hits. rewrite Hv, Hp. cbn. by apply bool_decide_eq_true_2.
Qed.

Lemma loop0_total P fuel : (length rs <= 256)%nat -> forall t, traced P t -> (length rs + 1 <= length P + fuel)%nat -> exists Q res, loop0 fuel t = Some res /\
  NoDup Q /\ res = concat ((fun e => List.filter (hits e) rs) <$> Q) /\ forall e, e ∈ Q <-> follows e.
Proof.
  intros Hl. revert P. induction fuel as [|fuel IH]; intros P t Ht Hb; pose proof Ht as [Ev Hn Hk Hf Hs Hr Hc]; cbn [loop0]; destruct (tr_queue t) as [|c q] eqn:Eq.
  2:{ exfalso. pose proof (visited_bound _ Hn Hk Hl) as Hv. rewrite Ev, length_app in Hv. cbn [length] in Hv. lia. }
  3:{ apply (IH (P ++ [c])); [by apply traced_step|]. rewrite length_app. cbn [length]. lia. }
  all: rewrite app_nil_r in Ev; rewrite Ev in *; exists P, (tr_results t); split; [done|]; split; [done|]; split; [done|].
  all: intros e; split; [apply Hf|]; induction 1 as [|r Hin Hv _ IHf]; [done|by apply Hc].
Qed.

(** Records with distinct sources come from distinct entities. *)
Lemma filter_split (f g : provenance_record_t -> bool) l : (forall r, f r = true -> g r = false) -> List.filter f l ++ List.filter g l ≡ₚ List.filter (fun r => f r || g r) l.
Proof.
  intros Hd. induction l as [|r l IH]; [done|]. cbn [List.filter]. destruct (f r) eqn:Ef; cbn [orb].
  - rewrite (Hd r Ef). cbn [app]. by rewrite IH.
  - destruct (g r); [|exact IH]. rewrite <- Permutation_middle. by rewrite IH.
Qed.

Lemma buckets_permutation Q : NoDup Q -> concat ((fun e => List.filter (hits e) rs) <$> Q) ≡ₚ List.filter (fun r => pr_valid r && bool_decide (from_of forward r ∈ Q)) rs.
Proof.
  induction 1 as [|e Q Hn _ IH].
  - cbn. induction rs as [|r l IH']; [done|]. cbn [List.filter]. rewrite bool_decide_eq_false_2 by apply not_elem_of_nil. by rewrite andb_false_r.
  - rewrite fmap_cons. cbn [concat]. rewrite IH, filter_split.
    + assert (Hext : forall r, hits e r || pr_valid r && bool_decide (from_of forward r ∈ Q) = pr_valid r && bool_decide (from_of forward r ∈ e :: Q)).
      { intros r. unfold hits. destruct (pr_valid r); [|done]. cbn [andb]. rewrite <- bool_decide_or. apply bool_decide_ext. by rewrite list.elem_of_cons. }
      clear IH Hn. induction rs as [|r l IH']; [done|]. cbn [List.filter]. rewrite Hext. by destruct (_ && _); [constructor|].
    + unfold hits. intros r Hh. apply andb_true_iff in Hh as [-> Hh]. apply bool_decide_eq_true in Hh as ->. by apply bool_decide_eq_false_2.
Qed.
End Trace.

(** ** The ring keeps the latest records *)

(** Everything stored so far, oldest first, is [log]. *)
Record prov_inv (p : provenance) (log : list provenance_record_t) : Prop := {
  pi_len : length (pv_records p) = 256%nat;
  pi_small : zlen log < 4294967295;
  pi_count : pv_record_count p = Nat.min (length log) 256;
  pi_next : pv_next_id p = zlen log + 1;
  pi_dropped : pv_dropped p = Z.of_nat (length log - 256);
  pi_slot : forall j r, log !! j = Some r -> (length log <= j + 256)%nat -> pv_records p !! (j mod 256)%nat = Some r;
  pi_id : forall j r, log !! j = Some r -> pr_id r = Z.of_nat j + 1 /\ pr_valid r = true;
  pi_free : forall i r, (length log <= i)%nat -> pv_records p !! i = Some r -> pr_valid r = false }.

Lemma store_locked_spec source target relation reason tick p log : prov_inv p log -> zlen log < 4294967294 ->
  let r := mkRecord (zlen log + 1) tick source target relation reason true in
  fst (store_locked source target relation reason tick p) = zlen log + 1 /\ prov_inv (snd (store_locked source target relation reason tick p)) (log ++ [r]).
Proof.
  intros [H1 H2 H3 H4 H5 H6 H7 H8] Hlt r. set (idx := (length log mod 256)%nat).
  assert (Hidx : (if (pv_record_count p <? PROVENANCE_MAX_RECORDS)%nat then (pv_record_count p, S (pv_record_count p), pv_dropped p)
    else ((Z.to_nat (pv_next_id p -32 1) mod PROVENANCE_MAX_RECORDS)%nat, pv_record_count p, pv_dropped p +32 1)) = (idx, Nat.min (length log + 1) 256, Z.of_nat (length log + 1 - 256))).
  { unfold PROVENANCE_MAX_RECORDS, idx, zlen in *. rewrite H3, H4, H5. destruct (Nat.ltb_spec (Nat.min (length log) 256) 256).
    - rewrite Nat.mod_small by lia. f_equal; [f_equal|]; lia.
    - rewrite (u32_small (Z.of_nat (length log) + 1 - 1)), (u32_small (_ + 1)) by (unfold is_u32; lia). f_equal; [f_equal; [f_equal|]|]; lia. }
  unfold store_locked. rewrite Hidx. cbn [fst snd]. split; [by rewrite H4|]. assert (Hi : (idx < 256)%nat) by (apply Nat.mod_upper_bound; lia). split; cbn [pv_records pv_record_count pv_next_id pv_dropped]; unfold zlen in *; rewrite ?length_app, ?length_insert; cbn [length]; try done; try lia.
  - rewrite H4, u32_small by (unfold is_u32; lia). lia.
  - intros j r' Hj Hn. destruct (decide (j = length log)) as [->|Hne].
    + rewrite lookup_app_r, Nat.sub_diag in Hj by lia. injection Hj as <-. fold idx. rewrite H4. by rewrite list_lookup_insert_eq by lia.
    + pose proof (lookup_lt_Some _ _ _ Hj) as Hj'. rewrite length_app in Hj'. cbn [length] in Hj'. rewrite lookup_app_l in Hj by lia. rewrite list_lookup_insert_ne; [apply H6; [done|lia]|]. unfold idx. intros E. pose proof (Nat.div_mod_eq j 256). pose proof (Nat.div_mod_eq (length log) 256). lia.
  - intros j r' Hj. destruct (decide (j = length log)) as [->|Hne]; [rewrite lookup_app_r, Nat.sub_diag in Hj by lia; by injection Hj as <-|]. pose proof (lookup_lt_Some _ _ _ Hj) as Hj'. rewrite length_app in Hj'. cbn [length] in Hj'. rewrite lookup_app_l in Hj by lia. by apply H7.
  - intros i r' Hn Hr. destruct (decide (i = idx)) as [->|]; [pose proof (Nat.Div0.mod_le (length log) 256); unfold idx in *; lia|]. rewrite list_lookup_insert_ne in Hr by done. apply (H8 i); [lia|done].
Qed.

Lemma ordered_spec p log : prov_inv p log -> ordered p = Some (drop (length log - 256) log).
Proof.
  intros [H1 H2 H3 H4 H5 H6 H7 H8]. unfold ordered. apply mapM_Some. rewrite H3. set (n := length log) in *. apply Forall2_same_length_lookup_2; [rewrite length_seq, length_drop; fold n; lia|].
  intros k i r Hk Hr. apply lookup_seq in Hk as [-> Hk]. rewrite lookup_drop in Hr. cbn [Nat.add]. unfold oldest_slot, PROVENANCE_MAX_RECORDS. rewrite H3, H4. destruct (Nat.ltb_spec (Nat.min n 256) 256).
  - rewrite Nat.add_0_l. apply H6; [|lia]. replace (n - 256 + k)%nat with k in Hr by lia. exact Hr.
  - unfold zlen. rewrite u32_small by (unfold is_u32, zlen in *; lia). fold n. replace (Z.to_nat (Z.of_nat n + 1 - 1)) with n by lia. rewrite Nat.Div0.add_mod_idemp_l. replace (n + k)%nat with (n - 256 + k + 1 * 256)%nat by lia. rewrite Nat.Div0.mod_add. apply H6; [done|lia].
Qed.

Lemma get_spec p log id : prov_inv p log -> provenance_get id p = if (zlen log - 256 <? id) && (0 <? id) then log !! Z.to_nat (id - 1) else None.
Proof.
  intros Hinv. pose proof Hinv as [H1 H2 H3 H4 H5 H6 H7 H8]. unfold provenance_get. destruct (Z.eqb_spec id 0) as [->|Hz]; [by rewrite andb_false_r|].
  assert (Hsome : forall i r, pv_records p !! i = Some r -> pr_valid r && (pr_id r =? id) = true -> log !! Z.to_nat (id - 1) = Some r /\ zlen log - 256 < id /\ 0 < id).
  { intros i r Hi Hr. apply andb_true_iff in Hr as [Hv Hid%Z.eqb_eq]. pose proof (lookup_lt_Some _ _ _ Hi) as Hi'. rewrite H1 in Hi'. destruct (Nat.lt_ge_cases i (length log)) as [Hlt|Hge]; [|pose proof (H8 i r Hge Hi); congruence].
    set (j := (i + (length log - 1 - i) / 256 * 256)%nat). assert (Hj : (j < length log /\ length log <= j + 256 /\ j mod 256 = i)%nat).
    { unfold j. rewrite Nat.Div0.mod_add, Nat.mod_small by lia. pose proof (Nat.div_mod_eq (length log - 1 - i) 256). pose proof (Nat.mod_upper_bound (length log - 1 - i) 256). lia. }
    destruct (lookup_lt_is_Some_2 log j) as [r' Hr']; [lia|]. pose proof (H6 j r' Hr' ltac:(lia)) as E. replace (j mod 256)%nat with i in E by lia. rewrite Hi in E. injection E as <-. destruct (H7 j r Hr') as [Hjd _]. unfold zlen. split; [|lia].
    replace (Z.to_nat (id - 1)) with j by lia. done. }
  destruct (find_idx _ _) as [i|] eqn:E.
  - apply find_idx_Some in E as (r & Hi & Hr & _). destruct (Hsome i r Hi Hr) as (H9 & Ha & Hb). cbn [mbind option_bind]. rewrite Hi. rewrite (proj2 (Z.ltb_lt _ _) Ha), (proj2 (Z.ltb_lt _ _) Hb). cbn. by rewrite H9.
  - cbn [mbind option_bind]. destruct (Z.ltb_spec (zlen log - 256) id); [|done]. destruct (Z.ltb_spec 0 id); [|done]. cbn [andb]. destruct (log !! Z.to_nat (id - 1)) as [r|] eqn:El; [|done]. exfalso.
    pose proof (H6 _ r El ltac:(unfold zlen in *; lia)) as Hs. destruct (H7 _ r El) as [Hid Hv]. pose proof (proj1 (find_idx_None _ _) E _ r Hs) as Hno. cbn in Hno. rewrite Hv, Hid in Hno. cbn [andb] in Hno. apply Z.eqb_neq in Hno. lia.
Qed.

(** Calls of [provenance_record]: the ids and the state they leave. *)
Record request := mkRequest { rq_now : Z; rq_source : provenance_entity_ref; rq_target : provenance_entity_ref; rq_relation : provenance_relation; rq_reason : provenance_reason }.
Fixpoint record_all (cs : list request) (p : provenance) : list Z * provenance :=
  match cs with
  | [] => ([], p)
  | c :: cs' => let '(id, p) := provenance_record (rq_now c) (rq_source c) (rq_target c) (rq_relation c) (rq_reason c) p in let '(ids, p) := record_all cs' p in (id :: ids, p)
  end.
Definition request_ok (c : request) : Prop := input_valid (rq_source c) (rq_target c) (rq_relation c) = true.
Definition logged (n : nat) (cs : list request) : list provenance_record_t :=
  imap (fun i c => mkRecord (Z.of_nat (n + i) + 1) (rq_now c) (rq_source c) (rq_target c) (rq_relation c) (rq_reason c) true) cs.

Lemma record_all_spec cs : forall p log, prov_inv p log -> Forall request_ok cs -> zlen log + zlen cs < 4294967295 ->
  fst (record_all cs p) = (fun i => Z.of_nat (length log + i) + 1) <$> seq 0 (length cs) /\ prov_inv (snd (record_all cs p)) (log ++ logged (length log) cs).
Proof.
  induction cs as [|c cs IH]; intros p log Hp Hok Hz; [by rewrite app_nil_r|]. apply Forall_cons_1 in Hok as [Hc Hok]. unfold zlen in Hz. cbn [length] in Hz. cbn [record_all]. unfold provenance_record. unfold request_ok in Hc. rewrite Hc. cbn [negb].
  destruct (store_locked_spec (rq_source c) (rq_target c) (rq_relation c) (rq_reason c) (rq_now c) p log Hp ltac:(unfold zlen; lia)) as [Hid Hp']. destruct (store_locked _ _ _ _ _ p) as [id p1]. cbn [fst snd] in *. subst id.
  destruct (IH p1 _ Hp' Hok) as [Hi Hq]; [unfold zlen; rewrite length_app; cbn [length]; lia|]. destruct (record_all cs p1) as [ids p2]. cbn [fst snd] in *. split.
  - rewrite Hi. cbn [length seq]. rewrite fmap_cons. f_equal; [unfold zlen; f_equal; lia|]. rewrite <- (fmap_S_seq 0), <- list_fmap_compose. apply list_fmap_ext. intros k i _. cbn. rewrite length_app. cbn [length]. f_equal. lia.
  - rewrite <- app_assoc in Hq. unfold logged in *. cbn [imap]. cbn [app] in Hq. rewrite Nat.add_0_r. unfold zlen in Hq. replace (imap _ cs) with (imap (λ (i : nat) (c : request), mkRecord (Z.of_nat (length log + 1 + i) + 1) (rq_now c) (rq_source c) (rq_target c) (rq_relation c) (rq_reason c) true) cs); [rewrite length_app in Hq; exact Hq|].
    apply imap_ext. intros i x _. cbn. f_equal. lia.
Qed.

Lemma reset_inv p : length (pv_records p) = 256%nat -> prov_inv (provenance_init p) [].
Proof.
  intros Hl. split; cbn; [by rewrite length_fmap|unfold zlen; cbn; lia|done|done|done|done|done|]. intros i r _ Hr. rewrite list_lookup_fmap in Hr. destruct (pv_records p !! i); [|done]. by injection Hr as <-.
Qed.

(** C28: Provenance keeps the latest 256 records.  After any number of calls with
    valid arguments, fewer than 2^32 - 1, the ids given out are 1, 2, 3, ...; the
    snapshot holds the last 256 records (or all of them) in the order they were
    made, the number of dropped ones is the number of the others, and
    [provenance_get] finds the record of an id exactly when it is one of those. *)
Theorem provenance_keeps_latest p cs : length (pv_records p) = 256%nat -> Forall request_ok cs -> zlen cs < 4294967295 ->
  let '(ids, p') := record_all cs (provenance_init p) in
  let log := logged 0 cs in
  ids = (fun i => Z.of_nat i + 1) <$> seq 0 (length cs) /\
  provenance_get_snapshot p' = Some (mkSnapshot (drop (length cs - 256) log) (Nat.min (length cs) 256) (Z.of_nat (length cs - 256))) /\
  forall id, provenance_get id p' = if (zlen cs - 256 <? id) && (0 <? id) then log !! Z.to_nat (id - 1) else None.
Proof.
  intros Hl Hok Hz. destruct (record_all_spec cs _ [] (reset_inv p Hl) Hok ltac:(unfold zlen in *; cbn; lia)) as [Hi Hp]. destruct (record_all cs (provenance_init p)) as [ids p']. cbn [fst snd app length] in *. assert (Hn : length (logged 0 cs) = length cs) by apply length_imap. split; [exact Hi|]. split.
  - unfold provenance_get_snapshot. rewrite (ordered_spec p' _ Hp). cbn [mbind option_bind]. rewrite (pi_count _ _ Hp), (pi_dropped _ _ Hp), Hn. done.
  - intros id. rewrite (get_spec p' _ id Hp). unfold zlen. by rewrite Hn.
Qed.

(** C25: A trace is complete, sound and finite.  In every state with the records
    [rs], oldest first, tracing from an entity forward (or backward) ends within
    its queue of 257, and finds exactly the records whose source (or target) can
    be reached from the entity along the records, each of them once; with room
    for fewer results it gives the first ones of the same list. *)
Theorem provenance_trace_complete p log start forward : prov_inv p log ->
  let rs := drop (length log - 256) log in
  exists Q all, NoDup Q /\ (forall e, e ∈ Q <-> follows forward rs start e) /\
    all ≡ₚ List.filter (fun r => pr_valid r && bool_decide (from_of forward r ∈ Q)) rs /\
    forall max_results, trace start forward max_results p = Some (take max_results all).
Proof.
  intros Hp rs. assert (Hl : (length rs <= 256)%nat) by (unfold rs; rewrite length_drop; lia).
  destruct (loop0_total forward rs start [] (PROVENANCE_MAX_RECORDS + 1) Hl (mkTracing [start] [start] [])) as (Q & all & Hr & Hn & Hall & Hq).
  { split; cbn; [done|apply NoDup_singleton|intros v Hv; apply list_elem_of_singleton in Hv as ->; left|intros v Hv; apply list_elem_of_singleton in Hv as ->; constructor|left|done|intros r _ _ Hin; by apply elem_of_nil in Hin]. }
  { unfold PROVENANCE_MAX_RECORDS. cbn [length]. lia. }
  exists Q, all. split; [done|]. split; [exact Hq|]. split; [rewrite Hall; by apply buckets_permutation|]. intros max. unfold trace. destruct (Nat.eqb_spec max 0) as [->|Hm]; [by rewrite take_0|]. rewrite (ordered_spec p log Hp). cbn [mbind option_bind].
  apply (loop_agree forward rs start _ max _ (mkTracing [start] [start] [])); [left; split; [done|cbn; lia]|exact Hr].
Qed.

(** ** Examples *)

Definition blank_record : provenance_record_t := mkRecord 0 0 (mkEntity PROVENANCE_ENTITY_NONE 0) (mkEntity PROVENANCE_ENTITY_NONE 0) PROVENANCE_RELATION_NONE PROVENANCE_REASON_NONE false.
Definition prov_boot : provenance := mkProv (replicate 256 blank_record) 0 0 0.
Definition proc (i : Z) : provenance_entity_ref := mkEntity PROVENANCE_ENTITY_PROCESS i.
Definition demo_requests : list request :=
  [mkRequest 1 (proc 1) (proc 2) PROVENANCE_RELATION_CREATED PROVENANCE_REASON_REQUEST; mkRequest 2 (proc 3) (proc 4) PROVENANCE_RELATION_CREATED PROVENANCE_REASON_REQUEST;
   mkRequest 3 (proc 2) (proc 1) PROVENANCE_RELATION_CAUSED PROVENANCE_REASON_RESPONSE; mkRequest 4 (proc 2) (proc 5) PROVENANCE_RELATION_CAUSED PROVENANCE_REASON_RESPONSE].

Lemma provenance_keeps_latest_witness : fst (record_all demo_requests (provenance_init prov_boot)) = [1; 2; 3; 4] /\
  provenance_get 3 (snd (record_all demo_requests (provenance_init prov_boot))) = Some (mkRecord 3 3 (proc 2) (proc 1) PROVENANCE_RELATION_CAUSED PROVENANCE_REASON_RESPONSE true).
Proof.
  pose proof (provenance_keeps_latest prov_boot demo_requests ltac:(reflexivity) ltac:(repeat constructor) ltac:(reflexivity)) as H.
  destruct (record_all demo_requests (provenance_init prov_boot)) as [ids p']. destruct H as (H1 & _ & H3). split; [exact H1|]. cbn [snd]. rewrite H3. reflexivity.
Defined.

Lemma provenance_trace_complete_witness : exists p all, prov_inv p (logged 0 demo_requests) /\ trace (proc 1) true 10 p = Some all /\ (forall r, r ∈ all -> pr_source r <> proc 3).
Proof.
  destruct (record_all_spec demo_requests _ [] (reset_inv prov_boot ltac:(reflexivity)) ltac:(repeat constructor) ltac:(reflexivity)) as [_ Hp]. cbn [app length] in Hp.
  destruct (provenance_trace_complete _ _ (proc 1) true Hp) as (Q & all & _ & Hq & Hall & Ht). do 2 eexists. split; [exact Hp|]. split; [exact (Ht 10%nat)|]. intros r Hr Hs.
  assert (r ∈ all) as Hr' by (rewrite <- (take_drop 10 all); apply elem_of_app; left; exact Hr). rewrite Hall in Hr'. apply list_elem_of_In, filter_In in Hr' as [_ Hf]. apply andb_true_iff in Hf as [_ Hf]. apply bool_decide_eq_true in Hf. apply Hq in Hf.
  cbn [from_of] in Hf. rewrite Hs in Hf. inversion Hf as [|r' Hin Hv _ E]. revert Hin E. clear. intros Hin E. cbn in Hin. repeat (apply list.elem_of_cons in Hin as [->|Hin]; [discriminate E|]). by apply elem_of_nil in Hin.
Defined.
