(* ===== verification/NetWatch.v ===== *)
(** * NetWatch, NetObserve and NetTrace

    [Networking/NetWatch/net_observe.c] copies the front of every frame into a queue
    and parses it later; [Networking/NetWatch/net_watch.c] keeps the last 128
    packets and the counters; [Networking/NetTrace/net_trace.c] pairs requests with
    their answers.  Packets and answers are also recorded in Provenance. *)

From S2P Require Import Prelude SlotTable Ring Provenance.

#[local] Open Scope Z_scope.

(** ** NetWatch *)

Definition NETWATCH_MAX_EVENTS : nat := 128.
Definition NETWATCH_NIC_DRIVER_ID : Z := 1.
Definition NETWATCH_GROUP_DST : Z := 0xFFFFFFFE.

Inductive netwatch_protocol :=
| NETWATCH_PROTO_UNKNOWN | NETWATCH_PROTO_ETHERNET | NETWATCH_PROTO_ARP | NETWATCH_PROTO_IPV4 | NETWATCH_PROTO_IPV6 | NETWATCH_PROTO_ICMP | NETWATCH_PROTO_UDP | NETWATCH_PROTO_TCP.
#[export] Instance netwatch_protocol_eq : EqDecision netwatch_protocol.
Proof. solve_decision. Defined.
Inductive netwatch_direction := NETWATCH_RX | NETWATCH_TX.
#[export] Instance netwatch_direction_eq : EqDecision netwatch_direction.
Proof. solve_decision. Defined.

Record netwatch_event := mkEvent {
  ev_id : Z; ev_protocol : netwatch_protocol; ev_direction : netwatch_direction; ev_length : Z; ev_src_ip : Z; ev_dst_ip : Z; ev_src_port : Z; ev_dst_port : Z; ev_valid : bool; ev_tick : Z }.
Record netwatch_stats := mkStats {
  rx_packets : Z; tx_packets : Z; rx_bytes : Z; tx_bytes : Z; arp_packets : Z; ipv4_packets : Z; ipv6_packets : Z; icmp_packets : Z; udp_packets : Z; tcp_packets : Z; link_up : bool }.

(** The events are the first [event_count] of the table. *)
Record netwatch := mkWatch { nw_stats : netwatch_stats; nw_events : list netwatch_event; nw_next_event_id : Z; nw_prov : provenance }.
Definition set_stats (s : netwatch_stats) (w : netwatch) : netwatch := mkWatch s (nw_events w) (nw_next_event_id w) (nw_prov w).

(** One more packet and [n] more bytes in a direction. *)
Definition count_direction (direction : netwatch_direction) (n : Z) (w : netwatch) : netwatch :=
  let s := nw_stats w in
  set_stats (match direction with
    | NETWATCH_RX => mkStats (rx_packets s +32 1) (tx_packets s) (rx_bytes s +32 n) (tx_bytes s) (arp_packets s) (ipv4_packets s) (ipv6_packets s) (icmp_packets s) (udp_packets s) (tcp_packets s) (link_up s)
    | NETWATCH_TX => mkStats (rx_packets s) (tx_packets s +32 1) (rx_bytes s) (tx_bytes s +32 n) (arp_packets s) (ipv4_packets s) (ipv6_packets s) (icmp_packets s) (udp_packets s) (tcp_packets s) (link_up s)
    end) w.

(** One more packet of a protocol. *)
Definition count_protocol (protocol : netwatch_protocol) (w : netwatch) : netwatch :=
  let s := nw_stats w in
  let add p n := if bool_decide (protocol = p) then n +32 1 else n in
  set_stats (mkStats (rx_packets s) (tx_packets s) (rx_bytes s) (tx_bytes s) (add NETWATCH_PROTO_ARP (arp_packets s)) (add NETWATCH_PROTO_IPV4 (ipv4_packets s)) (add NETWATCH_PROTO_IPV6 (ipv6_packets s))
    (add NETWATCH_PROTO_ICMP (icmp_packets s)) (add NETWATCH_PROTO_UDP (udp_packets s)) (add NETWATCH_PROTO_TCP (tcp_packets s)) (link_up s)) w.

Definition record_event (now : Z) (direction : netwatch_direction) (protocol : netwatch_protocol) (len src_ip dst_ip src_port dst_port : Z) (w : netwatch) : netwatch :=
  let events := if (NETWATCH_MAX_EVENTS <=? length (nw_events w))%nat then drop 1 (nw_events w) else nw_events w in
  let id := nw_next_event_id w in
  let nic := mkEntity PROVENANCE_ENTITY_DRIVER NETWATCH_NIC_DRIVER_ID in
  let pkt := mkEntity PROVENANCE_ENTITY_NETWORK id in
  let reason := match direction with NETWATCH_RX => PROVENANCE_REASON_DELIVERY | NETWATCH_TX => PROVENANCE_REASON_SYSTEM_ACTION end in
  mkWatch (nw_stats w) (events ++ [mkEvent id protocol direction len src_ip dst_ip src_port dst_port true now]) (id +32 1)
    (snd (provenance_record now nic pkt PROVENANCE_RELATION_CREATED reason (nw_prov w))).

Definition netwatch_init (w : netwatch) : netwatch := mkWatch (mkStats 0 0 0 0 0 0 0 0 0 0 false) [] 1 (nw_prov w).
Definition netwatch_packet_rx (now : Z) (protocol : netwatch_protocol) (len src_ip dst_ip src_port dst_port : Z) (w : netwatch) : netwatch :=
  record_event now NETWATCH_RX protocol len src_ip dst_ip src_port dst_port (count_direction NETWATCH_RX len w).
Definition netwatch_packet_tx (now : Z) (protocol : netwatch_protocol) (len src_ip dst_ip src_port dst_port : Z) (w : netwatch) : netwatch :=
  record_event now NETWATCH_TX protocol len src_ip dst_ip src_port dst_port (count_direction NETWATCH_TX len w).
Definition netwatch_set_link (up : bool) (w : netwatch) : netwatch :=
  let s := nw_stats w in
  set_stats (mkStats (rx_packets s) (tx_packets s) (rx_bytes s) (tx_bytes s) (arp_packets s) (ipv4_packets s) (ipv6_packets s) (icmp_packets s) (udp_packets s) (tcp_packets s) up) w.
Definition netwatch_arp_event (now : Z) (direction : netwatch_direction) (src_ip dst_ip : Z) (w : netwatch) : netwatch :=
  record_event now direction NETWATCH_PROTO_ARP 0 src_ip dst_ip 0 0 (count_direction direction 0 (count_protocol NETWATCH_PROTO_ARP w)).
Definition netwatch_ipv4_event (now : Z) (direction : netwatch_direction) (len src_ip dst_ip : Z) (w : netwatch) : netwatch :=
  record_event now direction NETWATCH_PROTO_IPV4 len src_ip dst_ip 0 0 (count_direction direction len (count_protocol NETWATCH_PROTO_IPV4 w)).
Definition netwatch_ipv6_event (now : Z) (direction : netwatch_direction) (len src_ip dst_ip src_port dst_port : Z) (w : netwatch) : netwatch :=
  record_event now direction NETWATCH_PROTO_IPV6 len src_ip dst_ip src_port dst_port (count_direction direction len (count_protocol NETWATCH_PROTO_IPV6 w)).
Definition netwatch_icmp_event (now : Z) (direction : netwatch_direction) (len src_ip dst_ip : Z) (w : netwatch) : netwatch :=
  record_event now direction NETWATCH_PROTO_ICMP len src_ip dst_ip 0 0 (count_direction direction len (count_protocol NETWATCH_PROTO_ICMP w)).
Definition netwatch_udp_event (now : Z) (direction : netwatch_direction) (len src_ip dst_ip src_port dst_port : Z) (w : netwatch) : netwatch :=
  record_event now direction NETWATCH_PROTO_UDP len src_ip dst_ip src_port dst_port (count_direction direction len (count_protocol NETWATCH_PROTO_UDP w)).
Definition netwatch_tcp_event (now : Z) (direction : netwatch_direction) (len src_ip dst_ip src_port dst_port : Z) (w : netwatch) : netwatch :=
  record_event now direction NETWATCH_PROTO_TCP len src_ip dst_ip src_port dst_port (count_direction direction len (count_protocol NETWATCH_PROTO_TCP w)).

Definition netwatch_get_snapshot (w : netwatch) : netwatch_stats * list netwatch_event := (nw_stats w, nw_events w).
Definition netwatch_get_stats (w : netwatch) : netwatch_stats := nw_stats w.
Definition netwatch_get_event (index : nat) (w : netwatch) : option netwatch_event := nw_events w !! index.
Definition netwatch_get_event_count (w : netwatch) : nat := length (nw_events w).
Definition netwatch_clear_events (w : netwatch) : netwatch := mkWatch (nw_stats w) [] (nw_next_event_id w) (nw_prov w).

(** ** NetObserve *)

Definition NETOBSERVE_QUEUE_SLOTS : nat := 64.
Definition NETOBSERVE_CAPTURE_BYTES : nat := 80.
Definition NETOBSERVE_DRAIN_MAX : nat := 16.
Definition ETH_HEADER : Z := 14.

(** [cp_data] is the whole array, of which [cp_caplen] bytes are of the frame. *)
Record capture := mkCapture { cp_direction : netwatch_direction; cp_length : Z; cp_caplen : Z; cp_data : list Z }.

Inductive malformed := ArpShort | ArpKind | Ip4Short | Ip4Version | Ip4HeaderLow | Ip4HeaderLong | Ip4Total | Ip4Ports | Ip6Short | Ip6Version | Ip6Payload | EthShort.
Record netobserve_stats := mkObStats { ob_captured : Z; ob_dropped : Z; ob_recorded : Z; ob_malformed : Z; ob_unknown : Z; ob_last_malformed_reason : option malformed }.
Record observer := mkObserver { ob_queue : list capture; ob_head : nat; ob_tail : nat; ob_count : nat; ob_stats : netobserve_stats; ob_watch : netwatch }.

Definition netobserve_init (o : observer) : observer := mkObserver (ob_queue o) 0 0 0 (mkObStats 0 0 0 0 0 None) (ob_watch o).

Definition set_ob_stats (s : netobserve_stats) (o : observer) : observer := mkObserver (ob_queue o) (ob_head o) (ob_tail o) (ob_count o) s (ob_watch o).

Definition netobserve_capture (direction : netwatch_direction) (frame : list Z) (o : observer) : observer :=
  if (length frame =? 0)%nat then o
  else
    let s := ob_stats o in
    let s := mkObStats (ob_captured s +32 1) (ob_dropped s) (ob_recorded s) (ob_malformed s) (ob_unknown s) (ob_last_malformed_reason s) in
    if (NETOBSERVE_QUEUE_SLOTS <=? ob_count o)%nat
    then set_ob_stats (mkObStats (ob_captured s) (ob_dropped s +32 1) (ob_recorded s) (ob_malformed s) (ob_unknown s) (ob_last_malformed_reason s)) o
    else
      let n := if (length frame <? NETOBSERVE_CAPTURE_BYTES)%nat then length frame else NETOBSERVE_CAPTURE_BYTES in
      let queue := alter (fun c => mkCapture direction (zlen frame) (Z.of_nat n) (blit (cp_data c) (take n frame))) (ob_head o) (ob_queue o) in
      mkObserver queue ((ob_head o + 1) mod NETOBSERVE_QUEUE_SLOTS)%nat (ob_tail o) (S (ob_count o)) s (ob_watch o).

Definition rd_be16 (d : list Z) (i : Z) : option Z := a ← rd d i; b ← rd d (i + 1); Some (be16 a b).
Definition be_ipv4 (d : list Z) (i : Z) : option Z := a ← rd d i; b ← rd d (i + 1); c ← rd d (i + 2); e ← rd d (i + 3); Some (be32 a b c e).
Definition hash_ipv6 (d : list Z) (i : nat) : option Z := p ← slice d i 16; Some (foldl (fun h x => Z.lxor h x *32 16777619) 2166136261 p).

(** What becomes of a frame. *)
Inductive observation :=
| Reject (reason : malformed) | Unknown
| Arp (src dst : Z) | Ip4 (len src dst : Z) | Icmp (len src dst : Z) | Udp (len src dst sport dport : Z) | Tcp (len src dst sport dport : Z) | Ip6 (len src dst sport dport : Z).

Definition observe_arp (c : capture) : option observation :=
  let d := cp_data c in
  if (cp_length c <? ETH_HEADER + 28) || (cp_caplen c <? ETH_HEADER + 28) then Some (Reject ArpShort)
  else
    hw ← rd_be16 d 14; pt ← rd_be16 d 16; hl ← rd d 18; pl ← rd d 19;
    if negb (hw =? 1) || negb (pt =? 0x0800) || negb (hl =? 6) || negb (pl =? 4) then Some (Reject ArpKind)
    else src ← be_ipv4 d 28; dst ← be_ipv4 d 38; Some (Arp src dst).

Definition observe_ipv4 (c : capture) : option observation :=
  let d := cp_data c in
  if (cp_length c <? ETH_HEADER + 20) || (cp_caplen c <? ETH_HEADER + 20) then Some (Reject Ip4Short)
  else
    d14 ← rd d 14;
    if negb (Z.shiftr d14 4 =? 4) then Some (Reject Ip4Version)
    else
      let ihl := Z.land d14 0x0F * 4 in
      if ihl <? 20 then Some (Reject Ip4HeaderLow)
      else if (cp_length c <? ETH_HEADER + ihl) || (cp_caplen c <? ETH_HEADER + ihl) then Some (Reject Ip4HeaderLong)
      else
        total ← rd_be16 d 16;
        if (total <? ihl) || (cp_length c <? ETH_HEADER + total) then Some (Reject Ip4Total)
        else
          proto ← rd d 23; src ← be_ipv4 d 26; dst ← be_ipv4 d 30; frag ← rd_be16 d 20;
          let l4 := ETH_HEADER + ihl in
          if (proto =? 6) || (proto =? 17) then
            if negb (Z.land frag 0x1FFF =? 0) then Some (Ip4 (cp_length c) src dst)
            else if (total - ihl <? 4) || (cp_caplen c <? l4 + 4) then Some (Reject Ip4Ports)
            else
              sport ← rd_be16 d l4; dport ← rd_be16 d (l4 + 2);
              Some ((if proto =? 6 then Tcp else Udp) (cp_length c) src dst sport dport)
          else Some ((if proto =? 1 then Icmp else Ip4) (cp_length c) src dst).

Definition observe_ipv6 (c : capture) : option observation :=
  let d := cp_data c in
  if (cp_length c <? ETH_HEADER + 40) || (cp_caplen c <? ETH_HEADER + 40) then Some (Reject Ip6Short)
  else
    d14 ← rd d 14;
    if negb (Z.shiftr d14 4 =? 6) then Some (Reject Ip6Version)
    else
      payload ← rd_be16 d 18;
      if cp_length c <? ETH_HEADER + 40 + payload then Some (Reject Ip6Payload)
      else
        next ← rd d 20; src ← hash_ipv6 d 22; d38 ← rd d 38;
        dst ← (if d38 =? 0xFF then Some NETWATCH_GROUP_DST else hash_ipv6 d 38);
        if ((next =? 6) || (next =? 17)) && (4 <=? payload) && (ETH_HEADER + 40 + 4 <=? cp_caplen c)
        then sport ← rd_be16 d (ETH_HEADER + 40); dport ← rd_be16 d (ETH_HEADER + 42); Some (Ip6 (cp_length c) src dst sport dport)
        else Some (Ip6 (cp_length c) src dst 0 0).

Definition observe (c : capture) : option observation :=
  if (cp_length c <? ETH_HEADER) || (cp_caplen c <? ETH_HEADER) then Some (Reject EthShort)
  else
    ethertype ← rd_be16 (cp_data c) 12;
    if ethertype =? 0x0806 then observe_arp c
    else if ethertype =? 0x0800 then observe_ipv4 c
    else if ethertype =? 0x86DD then observe_ipv6 c
    else Some Unknown.

(** The event or the counter that an observation leaves. *)
Definition note (now : Z) (dir : netwatch_direction) (x : observation) (o : observer) : observer :=
  let s := ob_stats o in
  let recorded w := mkObserver (ob_queue o) (ob_head o) (ob_tail o) (ob_count o)
    (mkObStats (ob_captured s) (ob_dropped s) (ob_recorded s +32 1) (ob_malformed s) (ob_unknown s) (ob_last_malformed_reason s)) w in
  match x with
  | Reject reason => set_ob_stats (mkObStats (ob_captured s) (ob_dropped s) (ob_recorded s) (ob_malformed s +32 1) (ob_unknown s) (Some reason)) o
  | Unknown => set_ob_stats (mkObStats (ob_captured s) (ob_dropped s) (ob_recorded s) (ob_malformed s) (ob_unknown s +32 1) (ob_last_malformed_reason s)) o
  | Arp src dst => recorded (netwatch_arp_event now dir src dst (ob_watch o))
  | Ip4 len src dst => recorded (netwatch_ipv4_event now dir len src dst (ob_watch o))
  | Icmp len src dst => recorded (netwatch_icmp_event now dir len src dst (ob_watch o))
  | Udp len src dst sport dport => recorded (netwatch_udp_event now dir len src dst sport dport (ob_watch o))
  | Tcp len src dst sport dport => recorded (netwatch_tcp_event now dir len src dst sport dport (ob_watch o))
  | Ip6 len src dst sport dport => recorded (netwatch_ipv6_event now dir len src dst sport dport (ob_watch o))
  end.

(** The loop of [netobserve_drain], [left] turns before its bound. *)
Fixpoint netdrain_loop (left : nat) (now : Z) (handled : Z) (o : observer) : option (Z * observer) :=
  match left with
  | O => Some (handled, o)
  | S left' =>
      if (ob_count o =? 0)%nat then Some (handled, o)
      else
        c ← ob_queue o !! ob_tail o;
        x ← observe c;
        let o := note now (cp_direction c) x o in
        netdrain_loop left' now (handled + 1) (mkObserver (ob_queue o) (ob_head o) ((ob_tail o + 1) mod NETOBSERVE_QUEUE_SLOTS)%nat (ob_count o - 1) (ob_stats o) (ob_watch o))
  end.
Definition netobserve_drain (now : Z) (o : observer) : option (Z * observer) := netdrain_loop NETOBSERVE_DRAIN_MAX now 0 o.
Definition netobserve_get_stats (o : observer) : netobserve_stats := ob_stats o.

(** ** NetTrace *)

Definition NETTRACE_TIMEOUT_TICKS : Z := 500.
Inductive nettrace_status := NETTRACE_STATUS_NONE | NETTRACE_STATUS_PENDING | NETTRACE_STATUS_ANSWERED | NETTRACE_STATUS_TIMED_OUT.
Inductive nettrace_relation := NETTRACE_RELATION_NONE | NETTRACE_RELATION_PREVIOUS | NETTRACE_RELATION_RELATED | NETTRACE_RELATION_RESPONSE.
#[export] Instance nettrace_relation_eq : EqDecision nettrace_relation.
Proof. solve_decision. Defined.

(** The addresses, ports and lengths are those of the packet, [nt_source]. *)
Record nettrace_event := mkTrace { nt_previous_id : Z; nt_related_id : Z; nt_source : netwatch_event; nt_relation : nettrace_relation; nt_status : nettrace_status }.
(** The first [event_count] of the table, each with its [claimed] flag. *)
Record nettrace := mkNetTrace { nt_events : list nettrace_event; nt_claimed : list bool }.
Definition nettrace_clear : nettrace := mkNetTrace [] [].
Definition nettrace_init : nettrace := nettrace_clear.

Definition is_reverse_match (a b : netwatch_event) : bool :=
  if negb (bool_decide (ev_protocol a = ev_protocol b)) then false
  else if bool_decide (ev_direction a = ev_direction b) then false
  else if negb (ev_src_ip a =? ev_dst_ip b) || negb (ev_dst_ip a =? ev_src_ip b) then false
  else if negb (ev_src_port a =? ev_dst_port b) || negb (ev_dst_port a =? ev_src_port b) then false
  else true.

(** The loop over [k]: the first earlier event that is free and matches. *)
Fixpoint find_request (source : netwatch_event) (k : nat) (es : list nettrace_event) (claimed : list bool) : option nat :=
  match es, claimed with
  | e :: es', c :: claimed' =>
      if c || bool_decide (nt_relation e = NETTRACE_RELATION_RESPONSE) then find_request source (S k) es' claimed'
      else if is_reverse_match source (nt_source e) then Some k
      else find_request source (S k) es' claimed'
  | _, _ => None
  end.

(** One event of the snapshot; [previous] is the id of the one before. *)
Definition trace_event (now previous : Z) (source : netwatch_event) (st : nettrace * provenance) : nettrace * provenance :=
  let '(t, p) := st in
  match find_request source 0 (nt_events t) (nt_claimed t) with
  | None => (mkNetTrace (nt_events t ++ [mkTrace previous 0 source NETTRACE_RELATION_NONE NETTRACE_STATUS_NONE]) (nt_claimed t ++ [false]), p)
  | Some k =>
      let request := from_option (fun e => ev_id (nt_source e)) 0 (nt_events t !! k) in
      (mkNetTrace (nt_events t ++ [mkTrace previous request source NETTRACE_RELATION_RESPONSE NETTRACE_STATUS_NONE]) (<[k := true]> (nt_claimed t) ++ [false]),
       snd (provenance_record_once now (mkEntity PROVENANCE_ENTITY_NETWORK request) (mkEntity PROVENANCE_ENTITY_NETWORK (ev_id source)) PROVENANCE_RELATION_TRIGGERED PROVENANCE_REASON_RESPONSE p))
  end.

(** The loop stops at an event that is not valid. *)
Fixpoint trace_events (now previous : Z) (es : list netwatch_event) (st : nettrace * provenance) : nettrace * provenance :=
  match es with
  | [] => st
  | e :: es' => if negb (ev_valid e) then st else trace_events now (ev_id e) es' (trace_event now previous e st)
  end.

Definition status_of (now : Z) (claimed : bool) (e : nettrace_event) : nettrace_status :=
  let s := nt_source e in
  if negb (bool_decide (ev_direction s = NETWATCH_TX)) then nt_status e
  else if claimed then NETTRACE_STATUS_ANSWERED
  else if (ev_dst_ip s =? 0xFFFFFFFF) || (ev_dst_ip s =? NETWATCH_GROUP_DST) || (Z.shiftr (ev_dst_ip s) 28 =? 0xE) then NETTRACE_STATUS_NONE
  else if (ev_tick s <? now) && (NETTRACE_TIMEOUT_TICKS <? now - ev_tick s) then NETTRACE_STATUS_TIMED_OUT
  else NETTRACE_STATUS_PENDING.
Definition set_status (st : nettrace_status) (e : nettrace_event) : nettrace_event := mkTrace (nt_previous_id e) (nt_related_id e) (nt_source e) (nt_relation e) st.

(** [clock] is [get_ticks], [now] the time the ages are measured from. *)
Definition nettrace_rebuild_at (clock : Z) (events : list netwatch_event) (now : Z) (p : provenance) : nettrace * provenance :=
  let '(t, p) := trace_events clock 0 (take NETWATCH_MAX_EVENTS events) (nettrace_clear, p) in
  (mkNetTrace (zip_with (fun e c => set_status (status_of now c e) e) (nt_events t) (nt_claimed t)) (nt_claimed t), p).

Definition nettrace_rebuild (clock : Z) (events : list netwatch_event) (p : provenance) : nettrace * provenance :=
  let now := foldl (fun now e => if ev_valid e && (now <? ev_tick e) then ev_tick e else now) 0 (take NETWATCH_MAX_EVENTS events) in
  nettrace_rebuild_at clock events now p.

Definition nettrace_get_event (index : nat) (t : nettrace) : option nettrace_event := nt_events t !! index.
Definition nettrace_get_event_count (t : nettrace) : nat := length (nt_events t).
Definition nettrace_get_snapshot (t : nettrace) : list nettrace_event := nt_events t.

(** [None] is -1. *)
Definition nettrace_find_event (event_id : Z) (t : nettrace) : option nat := find_idx (fun e => ev_id (nt_source e) =? event_id) (nt_events t).
Definition nettrace_find_related (event_id : Z) (t : nettrace) : option nat :=
  index ← nettrace_find_event event_id t;
  e ← nt_events t !! index;
  if negb (nt_related_id e =? 0) then nettrace_find_event (nt_related_id e) t
  else find_idx (fun e => nt_related_id e =? event_id) (nt_events t).

(** ** A capture is parsed within the frame *)

Lemma rd_front pre junk i : i < zlen pre -> rd (pre ++ junk) i = rd pre i.
Proof. intros Hi. unfold rd, zlen in *. destruct (Z.leb_spec 0 i); [|done]. rewrite lookup_app_l by lia. done. Qed.
Lemma be16_front pre junk i : i + 1 < zlen pre -> rd_be16 (pre ++ junk) i = rd_be16 pre i.
Proof. intros Hi. unfold rd_be16. by rewrite !rd_front by lia. Qed.
Lemma ipv4_front pre junk i : i + 3 < zlen pre -> be_ipv4 (pre ++ junk) i = be_ipv4 pre i.
Proof. intros Hi. unfold be_ipv4. by rewrite !rd_front by lia. Qed.
Lemma hash_front pre junk i : (i + 16 <= length pre)%nat -> hash_ipv6 (pre ++ junk) i = hash_ipv6 pre i.
Proof. intros Hi. unfold hash_ipv6. rewrite !slice_in_range by (rewrite ?length_app; lia). rewrite drop_app_le, take_app_le; [done|rewrite length_drop; lia|lia]. Qed.

Lemma rd_total d i : 0 <= i < zlen d -> exists x, rd d i = Some x.
Proof. intros Hi. destruct (rd_in_range d i Hi) as [x ->]. eauto. Qed.
Lemma be16_total d i : 0 <= i -> i + 1 < zlen d -> exists x, rd_be16 d i = Some x.
Proof. intros H0 Hi. unfold rd_be16. destruct (rd_total d i) as [? ->]; [lia|]. destruct (rd_total d (i + 1)) as [? ->]; [lia|]. eauto. Qed.
Lemma ipv4_total d i : 0 <= i -> i + 3 < zlen d -> exists x, be_ipv4 d i = Some x.
Proof. intros H0 Hi. unfold be_ipv4. destruct (rd_total d i) as [? ->]; [lia|]. destruct (rd_total d (i + 1)) as [? ->]; [lia|]. destruct (rd_total d (i + 2)) as [? ->]; [lia|]. destruct (rd_total d (i + 3)) as [? ->]; [lia|]. eauto. Qed.
Lemma hash_total d i : (i + 16 <= length d)%nat -> exists x, hash_ipv6 d i = Some x.
Proof. intros Hi. unfold hash_ipv6. rewrite slice_in_range by lia. eauto. Qed.

(** Reads at constant offsets of the front of a capture. *)
Ltac fronts pre junk :=
  rewrite ?(rd_front pre junk), ?(be16_front pre junk), ?(ipv4_front pre junk), ?(hash_front pre junk) by (unfold zlen in *; lia).
Ltac reads pre :=
  repeat match goal with
  | |- context [rd pre ?i] => let x := fresh "x" in destruct (rd_total pre i) as [x ->]; [lia|]; cbn [mbind option_bind]
  | |- context [rd_be16 pre ?i] => let x := fresh "x" in destruct (be16_total pre i) as [x ->]; [lia|lia|]; cbn [mbind option_bind]
  | |- context [be_ipv4 pre ?i] => let x := fresh "x" in destruct (ipv4_total pre i) as [x ->]; [lia|lia|]; cbn [mbind option_bind]
  end.

Section Front.
Context (dir : netwatch_direction) (len : Z) (pre junk : list Z).
Let c := mkCapture dir len (zlen pre) (pre ++ junk).
Let c0 := mkCapture dir len (zlen pre) pre.

Lemma observe_arp_front : exists x, observe_arp c = Some x /\ observe_arp c0 = Some x.
Proof.
  unfold observe_arp, c, c0, ETH_HEADER. cbn [cp_data cp_length cp_caplen]. destruct (Z.ltb_spec len (14 + 28)); cbn [orb]; [eauto|]. destruct (Z.ltb_spec (zlen pre) (14 + 28)); [eauto|]. fronts pre junk. reads pre. destruct (_ || _ || _ || _); eauto.
Qed.

Lemma observe_ipv4_front : exists x, observe_ipv4 c = Some x /\ observe_ipv4 c0 = Some x.
Proof.
  unfold observe_ipv4, c, c0, ETH_HEADER. cbn [cp_data cp_length cp_caplen]. destruct (Z.ltb_spec len (14 + 20)); cbn [orb]; [eauto|]. destruct (Z.ltb_spec (zlen pre) (14 + 20)); [eauto|]. rewrite (rd_front pre junk 14) by lia. destruct (rd_total pre 14) as [d14 ->]; [lia|]. cbn [mbind option_bind].
  destruct (negb _); [eauto|]. cbv zeta. set (ihl := Z.land d14 15 * 4). destruct (Z.ltb_spec ihl 20); [eauto|]. destruct (Z.ltb_spec len (14 + ihl)); cbn [orb]; [eauto|]. destruct (Z.ltb_spec (zlen pre) (14 + ihl)); [eauto|].
  rewrite (be16_front pre junk 16) by lia. destruct (be16_total pre 16) as [total ->]; [lia|lia|]. cbn [mbind option_bind]. destruct (_ || _); [eauto|]. rewrite (rd_front pre junk 23), (ipv4_front pre junk 26), (ipv4_front pre junk 30), (be16_front pre junk 20) by lia.
  destruct (rd_total pre 23) as [proto ->]; [lia|]. destruct (ipv4_total pre 26) as [src ->]; [lia|lia|]. destruct (ipv4_total pre 30) as [dst ->]; [lia|lia|]. destruct (be16_total pre 20) as [frag ->]; [lia|lia|]. cbn [mbind option_bind].
  destruct ((proto =? 6) || _); [|eauto]. destruct (negb _); [eauto|]. destruct (Z.ltb_spec (total - ihl) 4); cbn [orb]; [eauto|]. destruct (Z.ltb_spec (zlen pre) (14 + ihl + 4)); [eauto|].
  rewrite !(be16_front pre junk) by lia. destruct (be16_total pre (14 + ihl)) as [sp ->]; [lia|lia|]. destruct (be16_total pre (14 + ihl + 2)) as [dp ->]; [lia|lia|]. cbn [mbind option_bind]. eauto.
Qed.

Lemma observe_ipv6_front : exists x, observe_ipv6 c = Some x /\ observe_ipv6 c0 = Some x.
Proof.
  unfold observe_ipv6, c, c0, ETH_HEADER. cbn [cp_data cp_length cp_caplen]. destruct (Z.ltb_spec len (14 + 40)); cbn [orb]; [eauto|]. destruct (Z.ltb_spec (zlen pre) (14 + 40)); [eauto|]. assert (54 <= length pre)%nat by (unfold zlen in *; lia).
  rewrite (rd_front pre junk 14), (be16_front pre junk 18), (rd_front pre junk 20), (rd_front pre junk 38), (hash_front pre junk 22), (hash_front pre junk 38) by lia.
  destruct (rd_total pre 14) as [d14 ->]; [lia|]. destruct (be16_total pre 18) as [payload ->]; [lia|lia|]. destruct (rd_total pre 20) as [next ->]; [lia|]. destruct (rd_total pre 38) as [d38 ->]; [lia|]. destruct (hash_total pre 22) as [h1 ->]; [lia|]. destruct (hash_total pre 38) as [h2 ->]; [lia|]. cbn [mbind option_bind].
  destruct (negb _); [eauto|]. destruct (_ <? _); [eauto|]. destruct (d38 =? 255); cbn [mbind option_bind]; (destruct (((next =? 6) || (next =? 17)) && (4 <=? payload)); cbn [andb]; [|eauto]; destruct (Z.leb_spec (14 + 40 + 4) (zlen pre)); [|eauto]);
    rewrite !(be16_front pre junk) by lia; (destruct (be16_total pre (14 + 40)) as [sp ->]; [lia|lia|]); (destruct (be16_total pre (14 + 42)) as [dp ->]; [lia|lia|]); cbn [mbind option_bind]; eauto.
Qed.

Lemma observe_front : exists x, observe c = Some x /\ observe c0 = Some x.
Proof.
  unfold observe, ETH_HEADER. change (cp_length c) with len. change (cp_caplen c) with (zlen pre). change (cp_data c) with (pre ++ junk). change (cp_length c0) with len. change (cp_caplen c0) with (zlen pre). change (cp_data c0) with pre. destruct (Z.ltb_spec len 14); cbn [orb]; [eauto|]. destruct (Z.ltb_spec (zlen pre) 14); [eauto|]. rewrite (be16_front pre junk 12) by lia. destruct (be16_total pre 12) as [et ->]; [lia|lia|]. cbn [mbind option_bind].
  destruct (et =? 2054); [apply observe_arp_front|]. destruct (et =? 2048); [apply observe_ipv4_front|]. destruct (et =? 34525); [apply observe_ipv6_front|eauto].
Qed.
End Front.

(** ** The queue of captures *)

Definition front (frame : list Z) : list Z := take NETOBSERVE_CAPTURE_BYTES frame.
(** What a frame is taken for. *)
Definition verdict (dir : netwatch_direction) (frame : list Z) : observation := default Unknown (observe (mkCapture dir (zlen frame) (zlen (front frame)) (front frame))).

Definition holds_frame (c : capture) (f : netwatch_direction * list Z) : Prop := exists junk, c = mkCapture (fst f) (zlen (snd f)) (zlen (front (snd f))) (front (snd f) ++ junk).
(** The frames [q] wait, oldest first. *)
Record obs_inv (o : observer) (q : list (netwatch_direction * list Z)) : Prop := {
  oi_ring : exists cs, ring_holds NETOBSERVE_QUEUE_SLOTS (ob_queue o) (ob_tail o) (ob_count o) cs /\ Forall2 holds_frame cs q;
  oi_head : ob_head o = ((ob_tail o + ob_count o) mod NETOBSERVE_QUEUE_SLOTS)%nat;
  oi_sum : u32 (ob_dropped (ob_stats o) + ob_recorded (ob_stats o) + ob_malformed (ob_stats o) + ob_unknown (ob_stats o) + Z.of_nat (ob_count o)) = ob_captured (ob_stats o) }.

Lemma observe_verdict c f : holds_frame c f -> observe c = Some (verdict (fst f) (snd f)) /\ cp_direction c = fst f.
Proof. intros [junk ->]. split; [|done]. unfold verdict. destruct (observe_front (fst f) (zlen (snd f)) (front (snd f)) junk) as (x & -> & ->). done. Qed.

Lemma sum_step a b : u32 a = b -> u32 (a + 1) = (b +32 1).
Proof. intros <-. unfold u32. by rewrite Zplus_mod_idemp_l. Qed.

Lemma capture_spec dir frame o q : obs_inv o q ->
  obs_inv (netobserve_capture dir frame o) (if decide (frame = []) then q else if decide (length q < 64)%nat then q ++ [(dir, frame)] else q).
Proof.
  intros [(cs & Hr & Hf) Hh Hs]. unfold netobserve_capture. destruct frame as [|x frame']; [cbn; rewrite decide_True by done; split; [by exists cs|done|done]|]. set (frame := x :: frame') in *. rewrite (decide_False (P := frame = [])) by done.
  change (length frame =? 0)%nat with false. cbv iota zeta. assert (Hl : length cs = length q) by (by eapply Forall2_length). pose proof (rh_cnt _ _ _ _ _ Hr) as Hc. unfold NETOBSERVE_QUEUE_SLOTS in *. destruct (Nat.leb_spec 64 (ob_count o)).
  - rewrite decide_False by lia. split; cbn; [by exists cs|done|]. rewrite <- (sum_step _ _ Hs). unfold u32. rewrite !(Z.add_comm _ (Z.of_nat _)), !Z.add_assoc. lia_mod.
  - rewrite decide_True by lia. destruct (lookup_lt_is_Some_2 (ob_queue o) (ob_head o)) as [c0 Hc0]; [rewrite (rh_size _ _ _ _ _ Hr), Hh; apply Nat.mod_upper_bound; lia|]. rewrite (alter_insert _ _ _ _ Hc0).
    split; cbn [ob_queue ob_tail ob_count ob_head ob_stats]; [|rewrite Hh, Nat.Div0.add_mod_idemp_l; f_equal; lia|].
    + eexists. split; [rewrite Hh; apply ring_push; [lia|exact Hr|lia]|]. apply Forall2_app; [done|]. constructor; [|constructor]. unfold blit. eexists. cbn [fst snd].
      assert (Hn : (if (length frame <? NETOBSERVE_CAPTURE_BYTES)%nat then length frame else NETOBSERVE_CAPTURE_BYTES) = Nat.min (length frame) 80) by (unfold NETOBSERVE_CAPTURE_BYTES; destruct (Nat.ltb_spec (length frame) 80); lia). rewrite Hn.
      assert (Ht : take (Nat.min (length frame) 80) frame = front frame). { unfold front, NETOBSERVE_CAPTURE_BYTES. destruct (Nat.le_gt_cases (length frame) 80); [rewrite !take_ge by lia; done|]. f_equal. lia. } rewrite Ht.
      f_equal. unfold zlen, front, NETOBSERVE_CAPTURE_BYTES. rewrite length_take. lia.
    + cbn [ob_dropped ob_recorded ob_malformed ob_unknown ob_captured]. rewrite <- (sum_step _ _ Hs). f_equal. lia.
Qed.

(** Notes of observations, one after the other. *)
Definition noted (now : Z) (l : list (netwatch_direction * list Z)) (o : observer) : observer := foldl (fun o f => note now (fst f) (verdict (fst f) (snd f)) o) o l.
Definition kept (o : observer) : netobserve_stats * netwatch := (ob_stats o, ob_watch o).

Lemma note_kept now d x o o' : kept o = kept o' -> kept (note now d x o) = kept (note now d x o').
Proof. intros [= E1 E2]. destruct x; cbn; unfold kept; cbn; by rewrite ?E1, ?E2. Qed.
Lemma noted_kept now l : forall o o', kept o = kept o' -> kept (noted now l o) = kept (noted now l o').
Proof. induction l as [|f l IH]; intros o o' E; [done|]. cbn. apply IH. by apply note_kept. Qed.

Lemma note_sum now d x o n : u32 (ob_dropped (ob_stats o) + ob_recorded (ob_stats o) + ob_malformed (ob_stats o) + ob_unknown (ob_stats o) + Z.of_nat (S n)) = ob_captured (ob_stats o) ->
  let s := ob_stats (note now d x o) in u32 (ob_dropped s + ob_recorded s + ob_malformed s + ob_unknown s + Z.of_nat n) = ob_captured s.
Proof. intros Hs. assert (E : forall k, u32 (k +32 1) = u32 (k + 1)) by (intros k; unfold u32; apply Zmod_mod). destruct x; cbn -[u32]; rewrite <- Hs; unfold u32; lia_mod. Qed.

Lemma drain_spec left now : forall handled o q, obs_inv o q -> exists o', netdrain_loop left now handled o = Some (handled + Z.of_nat (Nat.min left (length q)), o') /\
  obs_inv o' (drop left q) /\ kept o' = kept (noted now (take left q) o).
Proof.
  induction left as [|left IH]; intros handled o q Hi; cbn [netdrain_loop]; [exists o; rewrite Z.add_0_r; done|]. pose proof Hi as [(cs & Hr & Hf) Hh Hs]. pose proof (rh_cnt _ _ _ _ _ Hr) as Hc. assert (Hl : length cs = length q) by (by eapply Forall2_length). destruct Hf as [|c f cs q Hcf Hf].
  - cbn [length] in Hc. rewrite <- Hc. cbn [Nat.eqb Nat.min length]. exists o. rewrite Z.add_0_r. done.
  - cbn [length] in Hc. rewrite <- Hc in *. cbn [Nat.eqb]. destruct (ring_pop NETOBSERVE_QUEUE_SLOTS ltac:(unfold NETOBSERVE_QUEUE_SLOTS; lia) _ _ _ _ _ Hr) as [Hget Hr']. rewrite Hget. cbn [mbind option_bind]. destruct (observe_verdict c f Hcf) as [-> ->]. cbn [mbind option_bind]. cbv zeta.
    set (o1 := note now f.1 (verdict f.1 f.2) o). assert (Eq : ob_queue o1 = ob_queue o /\ ob_head o1 = ob_head o /\ ob_tail o1 = ob_tail o) by (unfold o1; destruct (verdict f.1 f.2); done). destruct Eq as (E1 & E2 & E3).
    assert (E4 : ob_count o1 = ob_count o) by (unfold o1; destruct (verdict f.1 f.2); done). rewrite E1, E2, E3, E4, <- Hc. cbn [Nat.sub]. rewrite Nat.sub_0_r.
    set (o2 := mkObserver _ _ _ _ _ _). destruct (IH (handled + 1) o2 q) as (o' & -> & Hi' & Hk).
    { split; unfold o2; cbn [ob_queue ob_tail ob_count ob_head ob_stats]; [by exists cs|rewrite Hh, Nat.Div0.add_mod_idemp_l; f_equal; lia|]. apply note_sum. exact Hs. }
    exists o'. split; [cbn [length Nat.min]; do 2 f_equal; lia|]. split; [exact Hi'|]. rewrite Hk. cbn [take noted foldl]. apply noted_kept. done.
Qed.

(** ** Captures and drains against a queue of whole frames *)

Inductive net_op := Capture (direction : netwatch_direction) (frame : list Z) | Drain (now : Z).

Definition net_step (op : net_op) (o : observer) : option observer :=
  match op with
  | Capture direction frame => Some (netobserve_capture direction frame o)
  | Drain now => x ← netobserve_drain now o; Some (snd x)
  end.
Fixpoint net_run (ops : list net_op) (o : observer) : option observer :=
  match ops with [] => Some o | op :: ops' => o ← net_step op o; net_run ops' o end.

Definition bump_captured (dropped : bool) (s : netobserve_stats) : netobserve_stats :=
  mkObStats (ob_captured s +32 1) (if dropped then ob_dropped s +32 1 else ob_dropped s) (ob_recorded s) (ob_malformed s) (ob_unknown s) (ob_last_malformed_reason s).
Definition over (k : netobserve_stats * netwatch) : observer := mkObserver [] 0 0 0 (fst k) (snd k).

(** The frames that wait, whole and in order, and what was noted of the others. *)
Record queue_spec := mkSpec { sp_waiting : list (netwatch_direction * list Z); sp_noted : netobserve_stats * netwatch }.
Definition spec_net (sp : queue_spec) (op : net_op) : queue_spec :=
  match op with
  | Capture direction frame =>
      if decide (frame = []) then sp
      else if decide (length (sp_waiting sp) < 64)%nat
      then mkSpec (sp_waiting sp ++ [(direction, frame)]) (bump_captured false (fst (sp_noted sp)), snd (sp_noted sp))
      else mkSpec (sp_waiting sp) (bump_captured true (fst (sp_noted sp)), snd (sp_noted sp))
  | Drain now => mkSpec (drop 16 (sp_waiting sp)) (kept (noted now (take 16 (sp_waiting sp)) (over (sp_noted sp))))
  end.

Lemma capture_kept dir frame o q : obs_inv o q -> frame <> [] ->
  kept (netobserve_capture dir frame o) = (bump_captured (bool_decide (64 <= length q)%nat) (ob_stats o), ob_watch o).
Proof.
  intros [(cs & Hr & Hf) _ _] Hne. assert (Hl : length cs = length q) by (by eapply Forall2_length). pose proof (rh_cnt _ _ _ _ _ Hr) as Hc. unfold netobserve_capture, NETOBSERVE_QUEUE_SLOTS. destruct frame as [|x frame]; [done|]. cbn [length Nat.eqb]. cbv zeta.
  replace (64 <=? ob_count o)%nat with (bool_decide (64 <= length q)%nat); [|destruct (Nat.leb_spec 64 (ob_count o)); [apply bool_decide_eq_true|apply bool_decide_eq_false]; lia]. destruct (bool_decide _); done.
Qed.

Lemma net_step_spec op o sp : obs_inv o (sp_waiting sp) -> kept o = sp_noted sp ->
  exists o', net_step op o = Some o' /\ obs_inv o' (sp_waiting (spec_net sp op)) /\ kept o' = sp_noted (spec_net sp op).
Proof.
  intros Hi Hk. destruct op as [dir frame|now]; cbn [net_step spec_net].
  - eexists. split; [done|]. pose proof (capture_spec dir frame o _ Hi) as Hi'. destruct (decide (frame = [])) as [->|Hne]; [done|]. rewrite (capture_kept dir frame o _ Hi Hne). rewrite <- Hk. destruct (decide (length (sp_waiting sp) < 64)%nat); cbn [sp_waiting sp_noted]; split; [done| |done|].
    + rewrite bool_decide_eq_false_2 by lia. done.
    + rewrite bool_decide_eq_true_2 by lia. done.
  - unfold netobserve_drain, NETOBSERVE_DRAIN_MAX. destruct (drain_spec 16 now 0 o _ Hi) as (o' & -> & Hi' & Hk'). exists o'. split; [done|]. split; [exact Hi'|]. rewrite Hk'. apply noted_kept. rewrite Hk. by destruct (sp_noted sp).
Qed.

Lemma net_run_spec ops : forall o sp, obs_inv o (sp_waiting sp) -> kept o = sp_noted sp ->
  exists o', net_run ops o = Some o' /\ obs_inv o' (sp_waiting (foldl spec_net sp ops)) /\ kept o' = sp_noted (foldl spec_net sp ops).
Proof.
  induction ops as [|op ops IH]; intros o sp Hi Hk; [by exists o|]. destruct (net_step_spec op o sp Hi Hk) as (o1 & E & Hi1 & Hk1). cbn [net_run foldl]. rewrite E. cbn [mbind option_bind]. by apply IH.
Qed.

Lemma netobserve_init_inv o : length (ob_queue o) = NETOBSERVE_QUEUE_SLOTS -> obs_inv (netobserve_init o) [].
Proof. intros Hl. split; cbn; [|done|done]. exists []. split; [|constructor]. split; cbn; try done; unfold NETOBSERVE_QUEUE_SLOTS; lia. Qed.

(** C26: C<n>: the queue of captures refines a queue of whole frames: from
    [netobserve_init], whatever the slots still hold, any sequence of captures and
    drains reads nothing outside a slot, notes the frames in the order they were
    captured and as its length and first 80 bytes alone decide for each, and at every moment
    the captured frames are the dropped, recorded, malformed and unknown ones and
    those still queued (modulo 2^32, as the counters wrap). *)
Theorem netobserve_accounts ops o (Hl : length (ob_queue o) = NETOBSERVE_QUEUE_SLOTS) :
  let sp := foldl spec_net (mkSpec [] (kept (netobserve_init o))) ops in
  exists o', net_run ops (netobserve_init o) = Some o' /\ kept o' = sp_noted sp /\ ob_count o' = length (sp_waiting sp) /\
    let s := netobserve_get_stats o' in ob_captured s = u32 (ob_dropped s + ob_recorded s + ob_malformed s + ob_unknown s + Z.of_nat (length (sp_waiting sp))).
Proof.
  intros sp. destruct (net_run_spec ops (netobserve_init o) (mkSpec [] (kept (netobserve_init o)))) as (o' & E & Hi & Hk); [by apply netobserve_init_inv|done|]. exists o'. split; [exact E|]. split; [exact Hk|].
  fold sp in Hi. destruct Hi as [(cs & Hr & Hf) _ Hs]. assert (Hn : ob_count o' = length (sp_waiting sp)) by (rewrite <- (rh_cnt _ _ _ _ _ Hr); by eapply Forall2_length). split; [exact Hn|]. rewrite <- Hn. symmetry. exact Hs.
Qed.

Definition blank_capture : capture := mkCapture NETWATCH_RX 0 0 (replicate 80 0).
Definition net_boot : observer := mkObserver (replicate 64 blank_capture) 0 0 0 (mkObStats 0 0 0 0 0 None) (mkWatch (mkStats 0 0 0 0 0 0 0 0 0 0 false) [] 1 prov_boot).
Definition demo_arp : list Z := replicate 12 0 ++ [8; 6; 0; 1; 8; 0; 6; 4; 0; 1] ++ replicate 20 0.

Lemma netobserve_accounts_witness : exists o', net_run [Capture NETWATCH_RX demo_arp; Capture NETWATCH_TX [1; 2]; Drain 7; Capture NETWATCH_RX demo_arp] (netobserve_init net_boot) = Some o' /\
  ob_stats o' = mkObStats 3 0 1 1 0 (Some EthShort) /\ ob_count o' = 1%nat.
Proof.
  destruct (netobserve_accounts [Capture NETWATCH_RX demo_arp; Capture NETWATCH_TX [1; 2]; Drain 7; Capture NETWATCH_RX demo_arp] net_boot) as (o' & E & Hk & Hc & _); [vm_compute; reflexivity|]. exists o'. split; [exact E|]. split.
  - change (ob_stats o') with (fst (kept o')). rewrite Hk. vm_compute. reflexivity.
  - rewrite Hc. vm_compute. reflexivity.
Defined.

(** ** Answers are paired with requests *)

Lemma find_request_spec s es : forall k0 cl, length es = length cl ->
  match find_request s k0 es cl with
  | Some k => exists i e, k = (k0 + i)%nat /\ es !! i = Some e /\ cl !! i = Some false /\ nt_relation e <> NETTRACE_RELATION_RESPONSE /\ is_reverse_match s (nt_source e) = true
  | None => forall i e, es !! i = Some e -> cl !! i = Some false -> nt_relation e <> NETTRACE_RELATION_RESPONSE -> is_reverse_match s (nt_source e) = false
  end.
Proof.
  induction es as [|e es IH]; intros k0 [|c cl] Hl; try discriminate Hl; cbn [find_request]; [intros i e H; done|]. injection Hl as Hl. specialize (IH (S k0) cl Hl). destruct (c || bool_decide (nt_relation e = NETTRACE_RELATION_RESPONSE)) eqn:Ec.
  - destruct (find_request s (S k0) es cl) as [k|].
    + destruct IH as (i & e' & -> & H). exists (S i), e'. split; [lia|exact H].
    + intros [|i] e' He Hc Hn; [|by apply (IH i)]. injection He as ->. injection Hc as ->. apply bool_decide_eq_true in Ec. done.
  - apply orb_false_iff in Ec as [-> Ec]. apply bool_decide_eq_false in Ec. destruct (is_reverse_match s (nt_source e)) eqn:Em; [exists 0%nat, e; split; [lia|done]|]. destruct (find_request s (S k0) es cl) as [k|].
    + destruct IH as (i & e' & -> & H). exists (S i), e'. split; [lia|exact H].
    + intros [|i] e' He Hc Hn; [by injection He as ->|by apply (IH i)].
Qed.

(** [pairs !! j = Some (Some k)]: event [j] answers event [k]. *)
Record paired (es : list nettrace_event) (pairs : list (option nat)) : Prop := {
  pa_len : length pairs = length es;
  pa_answer : forall j k, pairs !! j = Some (Some k) -> (k < j)%nat /\ pairs !! k = Some None /\
    exists r q, es !! j = Some r /\ es !! k = Some q /\ is_reverse_match (nt_source r) (nt_source q) = true /\ nt_relation r = NETTRACE_RELATION_RESPONSE /\ nt_related_id r = ev_id (nt_source q);
  pa_other : forall j, pairs !! j = Some None -> exists e, es !! j = Some e /\ nt_relation e = NETTRACE_RELATION_NONE /\ nt_related_id e = 0 /\
    forall k q, (k < j)%nat -> pairs !! k = Some None -> es !! k = Some q -> is_reverse_match (nt_source e) (nt_source q) = true -> exists i, (i < j)%nat /\ pairs !! i = Some (Some k);
  pa_once : forall i j k, pairs !! i = Some (Some k) -> pairs !! j = Some (Some k) -> i = j }.

(** Each event chained the one before, the first of them nothing. *)
Fixpoint chained (previous : Z) (es : list nettrace_event) : Prop :=
  match es with [] => True | e :: es' => nt_previous_id e = previous /\ chained (ev_id (nt_source e)) es' end.
Definition last_id (es : list nettrace_event) : Z := from_option (fun e => ev_id (nt_source e)) 0 (list.last es).

Record trace_inv (t : nettrace) (pairs : list (option nat)) : Prop := {
  ti_paired : paired (nt_events t) pairs;
  ti_len : length (nt_claimed t) = length (nt_events t);
  ti_claimed : forall k c, nt_claimed t !! k = Some c -> (c = true <-> exists j, pairs !! j = Some (Some k));
  ti_status : Forall (fun e => nt_status e = NETTRACE_STATUS_NONE) (nt_events t);
  ti_chained : chained 0 (nt_events t) }.

Lemma chained_snoc p es e : chained p es -> nt_previous_id e = from_option (fun e => ev_id (nt_source e)) p (list.last es) -> chained p (es ++ [e]).
Proof.
  revert p. induction es as [|x es IH]; intros p Hf He; [cbn in *; done|]. destruct Hf as [Hx Hf]. cbn [app chained]. split; [exact Hx|]. apply IH; [exact Hf|]. rewrite He. destruct es as [|y es]; [done|]. rewrite last_cons_cons. destruct (list.last (y :: es)) eqn:El; [done|]. by apply last_None in El.
Qed.

Lemma lookup_snoc_cases {A} (l : list A) x j y : (l ++ [x]) !! j = Some y -> l !! j = Some y \/ (j = length l /\ y = x).
Proof. intros H. apply lookup_app_Some in H as [H|[Hj H]]; [by left|right]. apply list_lookup_singleton_Some in H as [H <-]. split; [lia|done]. Qed.
Lemma snoc_old {A} (l : list A) x j y : l !! j = Some y -> (l ++ [x]) !! j = Some y.
Proof. intros H. by apply lookup_app_l_Some. Qed.
Lemma snoc_new {A} (l : list A) x : (l ++ [x]) !! length l = Some x.
Proof. rewrite lookup_app_r, Nat.sub_diag by lia. done. Qed.
#[local] Hint Resolve snoc_old : core.

Lemma paired_none es pairs e : paired es pairs -> nt_relation e = NETTRACE_RELATION_NONE -> nt_related_id e = 0 ->
  (forall k q, pairs !! k = Some None -> es !! k = Some q -> is_reverse_match (nt_source e) (nt_source q) = true -> exists i, pairs !! i = Some (Some k)) ->
  paired (es ++ [e]) (pairs ++ [None]).
Proof.
  intros Hp He Hr Hnone. pose proof (pa_len _ _ Hp) as Hl. split; [rewrite !length_app; cbn; lia| | |].
  - intros j k Hj. apply lookup_snoc_cases in Hj as [Hj|[_ Hj]]; [|done]. destruct (pa_answer _ _ Hp j k Hj) as (H1 & H2 & r & q & H3 & H4 & H5). split; [exact H1|]. split; [by auto|]. exists r, q. auto.
  - intros j Hj. assert (Hold : forall k q, (k < j)%nat -> (pairs ++ [None]) !! k = Some None -> (es ++ [e]) !! k = Some q -> (j <= length pairs)%nat -> pairs !! k = Some None /\ es !! k = Some q).
    { intros k q Hk H1 H2 Hjl. apply lookup_snoc_cases in H1 as [H1|[-> _]]; [|lia]. apply lookup_snoc_cases in H2 as [H2|[-> _]]; [done|lia]. }
    apply lookup_snoc_cases in Hj as [Hj|[-> _]].
    + destruct (pa_other _ _ Hp j Hj) as (x & H1 & H2 & H3 & H4). exists x. split; [by auto|]. split; [done|]. split; [done|]. intros k q Hk Hn Hq Hm. apply lookup_lt_Some in Hj. destruct (Hold k q Hk Hn Hq) as [Hn' Hq']; [lia|]. destruct (H4 k q Hk Hn' Hq' Hm) as (i & Hi & E). exists i. auto.
    + exists e. split; [rewrite Hl; apply snoc_new|]. split; [done|]. split; [done|]. intros k q Hk Hn Hq Hm. destruct (Hold k q Hk Hn Hq ltac:(done)) as [Hn' Hq']. destruct (Hnone k q Hn' Hq' Hm) as [i Hi]. exists i. split; [by eapply lookup_lt_Some|by auto].
  - intros i j k Hi Hj. apply lookup_snoc_cases in Hi as [Hi|[_ Hi]]; [|done]. apply lookup_snoc_cases in Hj as [Hj|[_ Hj]]; [|done]. by eapply (pa_once _ _ Hp).
Qed.

Lemma paired_some es pairs e k q : paired es pairs -> pairs !! k = Some None -> es !! k = Some q -> (forall j, pairs !! j <> Some (Some k)) ->
  nt_relation e = NETTRACE_RELATION_RESPONSE -> nt_related_id e = ev_id (nt_source q) -> is_reverse_match (nt_source e) (nt_source q) = true ->
  paired (es ++ [e]) (pairs ++ [Some k]).
Proof.
  intros Hp Hk Hq Hfree He Hr Hm. pose proof (pa_len _ _ Hp) as Hl. split; [rewrite !length_app; cbn; lia| | |].
  - intros j i Hj. apply lookup_snoc_cases in Hj as [Hj|[-> [= ->]]].
    + destruct (pa_answer _ _ Hp j i Hj) as (H1 & H2 & r & q' & H3 & H4 & H5). split; [exact H1|]. split; [by auto|]. exists r, q'. auto.
    + split; [by eapply lookup_lt_Some|]. split; [by auto|]. exists e, q. split; [rewrite Hl; apply snoc_new|]. split; [by auto|]. done.
  - intros j Hj. apply lookup_snoc_cases in Hj as [Hj|[_ Hj]]; [|done]. destruct (pa_other _ _ Hp j Hj) as (x & H1 & H2 & H3 & H4). exists x. split; [by auto|]. split; [done|]. split; [done|]. intros i q' Hi Hn Hq' Hm'. apply lookup_lt_Some in Hj.
    apply lookup_snoc_cases in Hn as [Hn|[_ Hn]]; [|done]. apply lookup_snoc_cases in Hq' as [Hq'|[-> _]]; [|lia]. destruct (H4 i q' Hi Hn Hq' Hm') as (i' & Hi' & E). exists i'. auto.
  - intros i j m Hi Hj. apply lookup_snoc_cases in Hi as [Hi|[-> Hi]]; apply lookup_snoc_cases in Hj as [Hj|[-> Hj]]; [by eapply (pa_once _ _ Hp)| | |done].
    + injection Hj as ->. by apply Hfree in Hi.
    + injection Hi as ->. by apply Hfree in Hj.
Qed.

(** The relation tells an answer from the others. *)
Lemma paired_relation es pairs k e : paired es pairs -> es !! k = Some e -> nt_relation e <> NETTRACE_RELATION_RESPONSE <-> pairs !! k = Some None.
Proof.
  intros Hp He. destruct (pairs !! k) as [[i|]|] eqn:E; [|split; [done|]|].
  - destruct (pa_answer _ _ Hp k i E) as (_ & _ & r & q & Hr & _ & _ & Hresp & _). simplify_eq. split; [by intros []|done].
  - destruct (pa_other _ _ Hp k E) as (x & Hx & Hn & _). simplify_eq. intros _. by rewrite Hn.
  - apply lookup_ge_None in E. rewrite (pa_len _ _ Hp) in E. apply lookup_lt_Some in He. lia.
Qed.

Lemma trace_event_spec now e t p pairs : trace_inv t pairs ->
  exists x, trace_inv (fst (trace_event now (last_id (nt_events t)) e (t, p))) (pairs ++ [x]) /\ exists e', nt_events (fst (trace_event now (last_id (nt_events t)) e (t, p))) = nt_events t ++ [e'] /\ nt_source e' = e.
Proof.
  intros [Hp Hl Hc Hs Hf]. unfold trace_event. pose proof (find_request_spec e (nt_events t) 0 (nt_claimed t) (eq_sym Hl)) as Hfind. pose proof (pa_len _ _ Hp) as Hlp.
  assert (Hlast : forall x, nt_previous_id x = last_id (nt_events t) -> chained 0 (nt_events t ++ [x])) by (intros x Hx; by apply chained_snoc).
  destruct (find_request e 0 (nt_events t) (nt_claimed t)) as [k|].
  - destruct Hfind as (i & q & -> & Hq & Hci & Hnr & Hm). rewrite Nat.add_0_l, Hq. cbn [from_option]. assert (Hpk : pairs !! i = Some None) by (by apply (paired_relation _ _ _ _ Hp Hq)).
    assert (Hfree : forall j, pairs !! j <> Some (Some i)) by (intros j Hj; assert (false = true); [apply (Hc i false Hci); eauto|done]).
    exists (Some i). split; [|eexists; split; done]. split; cbn [fst nt_events nt_claimed].
    + by apply paired_some with q.
    + rewrite !length_app, length_insert. cbn. lia.
    + intros k c Hk. apply lookup_snoc_cases in Hk as [Hk|[-> ->]].
      * apply list_lookup_insert_Some in Hk as [(<- & -> & _)|[Hne Hk]]; [split; [|done]; intros _; exists (length pairs); apply snoc_new|]. rewrite (Hc k c Hk). split; [intros [j Hj]; exists j; auto|]. intros [j Hj]. apply lookup_snoc_cases in Hj as [Hj|[_ [= ->]]]; [eauto|done].
      * split; [done|]. intros [j Hj]. rewrite length_insert, Hl in Hj. apply lookup_snoc_cases in Hj as [Hj|[_ Hj]]; [|injection Hj as Hj; apply lookup_lt_Some in Hq; lia]. apply (pa_answer _ _ Hp) in Hj as (_ & Hj & _). apply lookup_lt_Some in Hj. lia.
    + apply Forall_app. split; [done|]. by constructor.
    + by apply Hlast.
  - exists None. split; [|eexists; split; done]. split; cbn [fst nt_events nt_claimed].
    + apply paired_none; [done|done|done|]. cbn [nt_source]. intros k q Hk Hq Hm. destruct (lookup_lt_is_Some_2 (nt_claimed t) k) as [c Hck]; [rewrite Hl; by eapply lookup_lt_Some|]. destruct c; [by apply (Hc k true Hck)|]. rewrite (Hfind k q Hq Hck) in Hm; [done|]. by apply (paired_relation _ _ _ _ Hp Hq).
    + rewrite !length_app. cbn. lia.
    + intros k c Hk. apply lookup_snoc_cases in Hk as [Hk|[-> ->]].
      * rewrite (Hc k c Hk). split; [intros [j Hj]; exists j; auto|]. intros [j Hj]. apply lookup_snoc_cases in Hj as [Hj|[_ Hj]]; [eauto|done].
      * split; [done|]. intros [j Hj]. apply lookup_snoc_cases in Hj as [Hj|[_ Hj]]; [|done]. apply (pa_answer _ _ Hp) in Hj as (_ & Hj & _). apply lookup_lt_Some in Hj. lia.
    + apply Forall_app. split; [done|]. by constructor.
    + by apply Hlast.
Qed.

(** The events before the first that is not valid. *)
Fixpoint valid_prefix (es : list netwatch_event) : list netwatch_event :=
  match es with [] => [] | e :: es' => if ev_valid e then e :: valid_prefix es' else [] end.

Lemma trace_events_spec now es : forall t p pairs, trace_inv t pairs -> exists pairs',
  trace_inv (fst (trace_events now (last_id (nt_events t)) es (t, p))) pairs' /\ nt_source <$> nt_events (fst (trace_events now (last_id (nt_events t)) es (t, p))) = (nt_source <$> nt_events t) ++ valid_prefix es.
Proof.
  induction es as [|e es IH]; intros t p pairs Hi; cbn [trace_events valid_prefix]; [exists pairs; by rewrite app_nil_r|]. destruct (ev_valid e); cbn [negb]; [|exists pairs; by rewrite app_nil_r].
  destruct (trace_event_spec now e t p pairs Hi) as (x & Hi' & e' & Ee & Es). destruct (trace_event now (last_id (nt_events t)) e (t, p)) as [t' p'] eqn:Et. cbn [fst] in *. assert (Hlast : ev_id e = last_id (nt_events t')) by (unfold last_id; rewrite Ee, last_snoc; cbn; by rewrite Es). rewrite Hlast.
  destruct (IH t' p' _ Hi') as (pairs' & H1 & H2). exists pairs'. split; [exact H1|]. rewrite H2, Ee, fmap_app. cbn [fmap list_fmap]. rewrite Es, <- app_assoc. done.
Qed.

Definition settle (now : Z) (t : nettrace) : list nettrace_event := zip_with (fun e c => set_status (status_of now c e) e) (nt_events t) (nt_claimed t).

Lemma settle_lookup now t k : settle now t !! k = e ← nt_events t !! k; c ← nt_claimed t !! k; Some (set_status (status_of now c e) e).
Proof. unfold settle. rewrite lookup_zip_with. done. Qed.

Lemma settle_some now t k e : length (nt_claimed t) = length (nt_events t) -> nt_events t !! k = Some e -> exists st, settle now t !! k = Some (set_status st e).
Proof. intros Hl He. rewrite settle_lookup, He. cbn. destruct (lookup_lt_is_Some_2 (nt_claimed t) k) as [c ->]; [rewrite Hl; by eapply lookup_lt_Some|]. cbn. eauto. Qed.

Lemma settle_paired now t pairs : trace_inv t pairs -> paired (settle now t) pairs.
Proof.
  intros [Hp Hl _ _ _]. split.
  - rewrite (pa_len _ _ Hp). unfold settle. rewrite length_zip_with. lia.
  - intros j k Hj. destruct (pa_answer _ _ Hp j k Hj) as (H1 & H2 & r & q & Hr & Hq & H3). split; [done|]. split; [done|]. destruct (settle_some now t j r Hl Hr) as [s1 E1]. destruct (settle_some now t k q Hl Hq) as [s2 E2]. eexists _, _. split; [exact E1|]. split; [exact E2|]. exact H3.
  - intros j Hj. destruct (pa_other _ _ Hp j Hj) as (e & He & H1 & H2 & H3). destruct (settle_some now t j e Hl He) as [s1 E1]. eexists. split; [exact E1|]. split; [done|]. split; [done|]. intros k q Hk Hn Hq Hm.
    rewrite settle_lookup in Hq. apply bind_Some in Hq as (q0 & Hq0 & Hq). apply bind_Some in Hq as (c & _ & [= <-]). by apply (H3 k q0).
  - apply (pa_once _ _ Hp).
Qed.

Lemma settle_chained now t : length (nt_claimed t) = length (nt_events t) -> forall p, chained p (nt_events t) -> chained p (settle now t).
Proof.
  unfold settle. destruct t as [es cl]. cbn [nt_events nt_claimed]. revert cl. induction es as [|e es IH]; intros [|c cl] Hl p Hf; try done. destruct Hf as [Hp Hf]. cbn. split; [exact Hp|]. apply IH; [by injection Hl|exact Hf].
Qed.

Lemma settle_source now t : length (nt_claimed t) = length (nt_events t) -> nt_source <$> settle now t = nt_source <$> nt_events t.
Proof. unfold settle. destruct t as [es cl]. cbn [nt_events nt_claimed]. revert cl. induction es as [|e es IH]; intros [|c cl] Hl; try done. cbn. f_equal. apply IH. by injection Hl. Qed.

Lemma status_answered now c e : nt_status e = NETTRACE_STATUS_NONE ->
  status_of now c e = NETTRACE_STATUS_ANSWERED <-> ev_direction (nt_source e) = NETWATCH_TX /\ c = true.
Proof.
  intros Hs. unfold status_of. destruct (bool_decide (ev_direction (nt_source e) = NETWATCH_TX)) eqn:Ed; cbn [negb].
  - apply bool_decide_eq_true in Ed. destruct c; [done|]. split; [|by intros []]. destruct (_ || _ || _); [done|]. destruct (_ && _); done.
  - apply bool_decide_eq_false in Ed. rewrite Hs. split; [done|by intros []].
Qed.

(** C27: C<n>: a rebuilt trace holds the valid events of the snapshot (128 at most), each
    after its predecessor, and pairs answers with requests: an event is a response
    exactly when some earlier event that is no response itself, travelled the other
    way between the same ends and was not answered before; it then carries that
    event's id, no request is answered twice, and a sent packet has the status
    ANSWERED if and only if an event answers it. *)
Theorem nettrace_pairs clock events now p :
  let t := fst (nettrace_rebuild_at clock events now p) in
  nt_source <$> nt_events t = valid_prefix (take 128 events) /\ chained 0 (nt_events t) /\
  exists pairs, paired (nt_events t) pairs /\
    (forall k e, nt_events t !! k = Some e -> nt_status e = NETTRACE_STATUS_ANSWERED <-> ev_direction (nt_source e) = NETWATCH_TX /\ exists j, pairs !! j = Some (Some k)).
Proof.
  unfold nettrace_rebuild_at, NETWATCH_MAX_EVENTS. assert (H0 : trace_inv nettrace_clear []) by (split; [split|..]; cbn; try done; by constructor).
  destruct (trace_events_spec clock (take 128 events) nettrace_clear p [] H0) as (pairs & Hi & Hsrc). change (last_id (nt_events nettrace_clear)) with 0 in *. destruct (trace_events clock 0 (take 128 events) (nettrace_clear, p)) as [t p'] eqn:E. cbn [fst nt_events] in *. change (zip_with _ (nt_events t) (nt_claimed t)) with (settle now t).
  pose proof Hi as [Hp Hl Hc Hs Hf]. rewrite settle_source by done. split; [exact Hsrc|]. split; [by apply settle_chained|]. exists pairs. split; [by apply settle_paired|]. intros k e He.
  rewrite settle_lookup in He. apply bind_Some in He as (e0 & He0 & He). apply bind_Some in He as (c & Hck & [= <-]). cbn [set_status nt_status nt_source]. rewrite <- (Hc k c Hck). apply status_answered. exact (Forall_lookup_1 _ _ _ _ Hs He0).
Qed.
