(* ===== verification/Pixels.v ===== *)
(** * The framebuffer and what is drawn on it

    [GUI/Framebuffer/framebuffer.c] packs colours into pixels of 24 or 32 bits in the
    memory of the screen or of the back buffer; [GUI/Algo/algo.c] draws lines,
    rectangles and circles.  A write outside
    the buffer is [None], and so is an [int] that overflows in [fb_line]; elsewhere
    sums of coordinates are exact and the theorems bound the arguments. *)

From S2P Require Import Prelude.

#[local] Open Scope Z_scope.

(** ** The framebuffer *)

Record framebuffer := mkFb {
  fb_base : list Z; back_base : option (list Z);
  fb_pitch : Z; screen_w : Z; screen_h : Z; fb_bpp : Z;
  red_pos : Z; red_size : Z; green_pos : Z; green_size : Z; blue_pos : Z; blue_size : Z;
  available : bool }.

(** [back_base ? back_base : fb_base] *)
Definition surface (f : framebuffer) : list Z := default (fb_base f) (back_base f).
Definition set_surface (m : list Z) (f : framebuffer) : framebuffer :=
  mkFb (match back_base f with Some _ => fb_base f | None => m end) (match back_base f with Some _ => Some m | None => None end)
    (fb_pitch f) (screen_w f) (screen_h f) (fb_bpp f) (red_pos f) (red_size f) (green_pos f) (green_size f) (blue_pos f) (blue_size f) (available f).

(** [p[0] = b0; p[1] = b1; ...] for [p] at offset [at] of the buffer. *)
Definition poke (at_ : nat) (bs m : list Z) : option (list Z) :=
  if (at_ + length bs <=? length m)%nat then Some (take at_ m ++ bs ++ drop (at_ + length bs) m) else None.

Definition pack_color (r g b : Z) (f : framebuffer) : Z :=
  let rr := u32 (Z.shiftl (Z.shiftr r (8 - red_size f)) (red_pos f)) in
  let gg := u32 (Z.shiftl (Z.shiftr g (8 - green_size f)) (green_pos f)) in
  let bb := u32 (Z.shiftl (Z.shiftr b (8 - blue_size f)) (blue_pos f)) in
  Z.lor (Z.lor rr gg) bb.

Definition off_screen (x y : Z) (f : framebuffer) : bool := negb (available f) || (x <? 0) || (y <? 0) || (screen_w f <=? x) || (screen_h f <=? y).
Definition pixel_at (x y : Z) (f : framebuffer) : nat := Z.to_nat (y *32 fb_pitch f + x *32 (fb_bpp f / 8)).

Definition fb_put_pixel_rgb (x y r g b : Z) (f : framebuffer) : option framebuffer :=
  if off_screen x y f then Some f
  else
    let color := pack_color r g b f in
    let bs := [Z.land color 0xFF; Z.land (Z.shiftr color 8) 0xFF; Z.land (Z.shiftr color 16) 0xFF] ++ (if fb_bpp f =? 32 then [Z.land (Z.shiftr color 24) 0xFF] else []) in
    m ← poke (pixel_at x y f) bs (surface f);
    Some (set_surface m f).

Definition fb_put_pixel (x y color : Z) (f : framebuffer) : option framebuffer :=
  let r := Z.land (Z.shiftr color 16) 0xFF in
  let g := Z.land (Z.shiftr color 8) 0xFF in
  let b := Z.land color 0xFF in
  fb_put_pixel_rgb x y r g b f.

(** One field of a pixel, scaled to eight bits. *)
Definition unpack_field (pos size raw : Z) : Z := u8 (Z.shiftl (Z.land (Z.shiftr raw pos) (Z.shiftl 1 size - 1)) (8 - size)).
Definition rgb (r g b : Z) : Z := Z.lor (Z.lor (Z.shiftl r 16) (Z.shiftl g 8)) b.
Definition unpack_color (f : framebuffer) (raw : Z) : Z :=
  rgb (unpack_field (red_pos f) (red_size f) raw) (unpack_field (green_pos f) (green_size f) raw) (unpack_field (blue_pos f) (blue_size f) raw).

Definition fb_get_pixel (x y : Z) (f : framebuffer) : option Z :=
  if off_screen x y f then Some 0
  else
    let p := pixel_at x y f in
    let m := surface f in
    p0 ← m !! p; p1 ← m !! (p + 1)%nat; p2 ← m !! (p + 2)%nat;
    p3 ← (if fb_bpp f =? 32 then m !! (p + 3)%nat else Some 0);
    Some (unpack_color f (Z.lor (Z.lor (Z.lor p0 (Z.shiftl p1 8)) (Z.shiftl p2 16)) (Z.shiftl p3 24))).

Definition framebuffer_available (f : framebuffer) : bool := available f.
Definition framebuffer_width (f : framebuffer) : Z := screen_w f.
Definition framebuffer_height (f : framebuffer) : Z := screen_h f.
Definition fb_width (f : framebuffer) : Z := framebuffer_width f.
Definition fb_height (f : framebuffer) : Z := framebuffer_height f.

(** The steps of a drawing loop, one after the other. *)
Fixpoint draw {A} (step : A -> framebuffer -> option framebuffer) (l : list A) (f : framebuffer) : option framebuffer :=
  match l with [] => Some f | a :: l' => f ← step a f; draw step l' f end.
Definition upto (n : Z) : list Z := Z.of_nat <$> seq 0 (Z.to_nat n).

Definition fb_clear (r g b : Z) (f : framebuffer) : option framebuffer :=
  draw (fun y => draw (fun x => fb_put_pixel_rgb x y r g b) (upto (screen_w f))) (upto (screen_h f)) f.

(** [None]: no block of that order. [buffer order] is what the block holds. *)
Fixpoint order_for (fuel : nat) (order size : Z) : option Z :=
  if negb (u32 (Z.shiftl 4096 order) <? size) then Some order else match fuel with O => None | S fuel' => order_for fuel' (order + 1) size end.
Definition fb_backbuffer_init (buddy_alloc : Z -> option (list Z)) (f : framebuffer) : option framebuffer :=
  if negb (available f) then Some f
  else
    order ← order_for 32 0 (fb_pitch f *32 screen_h f);
    Some (mkFb (fb_base f) (buddy_alloc order) (fb_pitch f) (screen_w f) (screen_h f) (fb_bpp f) (red_pos f) (red_size f) (green_pos f) (green_size f) (blue_pos f) (blue_size f) (available f)).

Definition set_base (m : list Z) (f : framebuffer) : framebuffer :=
  mkFb m (back_base f) (fb_pitch f) (screen_w f) (screen_h f) (fb_bpp f) (red_pos f) (red_size f) (green_pos f) (green_size f) (blue_pos f) (blue_size f) (available f).
(** [memcpy (fb_base + off, back_base + off, n)] *)
Definition copy_back (off n : nat) (back : list Z) (f : framebuffer) : option framebuffer :=
  bs ← slice back off n; m ← poke off bs (fb_base f); Some (set_base m f).

Definition fb_flush (f : framebuffer) : option framebuffer :=
  match back_base f with
  | Some back => if negb (available f) then Some f else copy_back 0 (Z.to_nat (fb_pitch f *32 screen_h f)) back f
  | None => Some f
  end.

Definition fb_flush_rect (x y w h : Z) (f : framebuffer) : option framebuffer :=
  match back_base f with
  | None => Some f
  | Some back =>
      if negb (available f) then Some f
      else
        let '(x, w) := if x <? 0 then (0, w + x) else (x, w) in
        let '(y, h) := if y <? 0 then (0, h + y) else (y, h) in
        let w := if screen_w f <? x + w then screen_w f - x else w in
        let h := if screen_h f <? y + h then screen_h f - y else h in
        if (w <=? 0) || (h <=? 0) then Some f
        else
          let bpp := fb_bpp f / 8 in
          draw (fun row => copy_back (Z.to_nat (u32 (row *32 fb_pitch f + x *32 bpp))) (Z.to_nat (w *32 bpp)) back) (Z.add y <$> upto h) f
  end.

(** ** Lines and shapes *)

(** A value of type [int]. *)
Definition int (x : Z) : option Z := if bool_decide (-2147483648 <= x < 2147483648) then Some x else None.

Section Line.
Context (x1 y1 abs_dx abs_dy sx sy r g b : Z).

Fixpoint line_loop (fuel : nat) (x y err : Z) (f : framebuffer) : option framebuffer :=
  f ← fb_put_pixel_rgb x y r g b f;
  if (x =? x1) && (y =? y1) then Some f
  else
    match fuel with
    | O => None
    | S fuel' =>
        let e2 := err in
        '(err, x) ← (if - abs_dx <? e2 then err ← int (err - abs_dy); x ← int (x + sx); Some (err, x) else Some (err, x));
        '(err, y) ← (if e2 <? abs_dy then err ← int (err + abs_dx); y ← int (y + sy); Some (err, y) else Some (err, y));
        line_loop fuel' x y err f
    end.
End Line.

Definition fb_line (x0 y0 x1 y1 r g b : Z) (f : framebuffer) : option framebuffer :=
  dx ← int (x1 - x0); dy ← int (y1 - y0);
  abs_dx ← int (if dx <? 0 then - dx else dx); abs_dy ← int (if dy <? 0 then - dy else dy);
  let sx := if dx <? 0 then -1 else 1 in
  let sy := if dy <? 0 then -1 else 1 in
  let err := Z.quot (if abs_dy <? abs_dx then abs_dx else - abs_dy) 2 in
  line_loop x1 y1 abs_dx abs_dy sx sy r g b (Z.to_nat (Z.max abs_dx abs_dy)) x0 y0 err f.

Definition fb_rect (x y w h r g b : Z) (f : framebuffer) : option framebuffer :=
  f ← fb_line x y (x + w - 1) y r g b f;
  f ← fb_line x (y + h - 1) (x + w - 1) (y + h - 1) r g b f;
  f ← fb_line x y x (y + h - 1) r g b f;
  fb_line (x + w - 1) y (x + w - 1) (y + h - 1) r g b f.

Definition fb_rect_filled (x y w h r g b : Z) (f : framebuffer) : option framebuffer :=
  draw (fun row => fb_line x (y + row) (x + w - 1) (y + row) r g b) (upto h) f.

Definition circle_octants (cx cy x y r g b : Z) (f : framebuffer) : option framebuffer :=
  draw (fun p => fb_put_pixel_rgb (fst p) (snd p) r g b)
    [(cx + x, cy + y); (cx + y, cy + x); (cx - y, cy + x); (cx - x, cy + y); (cx - x, cy - y); (cx - y, cy - x); (cx + y, cy - x); (cx + x, cy - y)] f.

Fixpoint circle_loop (fuel : nat) (cx cy x y err r g b : Z) (f : framebuffer) : option framebuffer :=
  if y <=? x then
    match fuel with
    | O => None
    | S fuel' =>
        f ← circle_octants cx cy x y r g b f;
        let y := y + 1 in
        let err := err + (1 + 2 * y) in
        let '(x, err) := if 0 <? 2 * err - 2 * x + 1 then (x - 1, err + (1 - 2 * (x - 1))) else (x, err) in
        circle_loop fuel' cx cy x y err r g b f
    end
  else Some f.
Definition fb_circle (cx cy radius r g b : Z) (f : framebuffer) : option framebuffer :=
  circle_loop (Z.to_nat (radius + 1)) cx cy radius 0 0 r g b f.

(** [while (span * span <= dx) span++;] *)
Fixpoint span_loop (fuel : nat) (span dx : Z) : option Z :=
  if span * span <=? dx then match fuel with O => None | S fuel' => span_loop fuel' (span + 1) dx end else Some span.
Definition fb_circle_filled (cx cy radius r g b : Z) (f : framebuffer) : option framebuffer :=
  draw (fun dy =>
    fun f =>
    let dx := radius * radius - dy * dy in
    span ← span_loop (Z.to_nat (radius + 1)) 0 dx;
    let span := span - 1 in
    fb_line (cx - span) (cy + dy) (cx + span) (cy + dy) r g b f) ((fun i => i - radius) <$> upto (2 * radius + 1)) f.

(** ** Colours *)

Definition field_ok (pos size bpp : Z) : Prop := 0 <= pos /\ 0 <= size <= 8 /\ pos + size <= bpp.
Definition apart (pos size pos' size' : Z) : Prop := pos + size <= pos' \/ pos' + size' <= pos.

(** A mode that the code draws in: the fields of a pixel do not overlap, a row
    holds its pixels and the buffer its rows. *)
Record fb_wf (f : framebuffer) : Prop := {
  fw_bpp : fb_bpp f = 24 \/ fb_bpp f = 32;
  fw_dims : 0 <= screen_w f < 2147483648 /\ 0 <= screen_h f < 2147483648;
  fw_pitch : screen_w f * (fb_bpp f / 8) <= fb_pitch f;
  fw_size : fb_pitch f * screen_h f < 4294967296;
  fw_mem : fb_pitch f * screen_h f <= zlen (surface f);
  fw_red : field_ok (red_pos f) (red_size f) (fb_bpp f);
  fw_green : field_ok (green_pos f) (green_size f) (fb_bpp f);
  fw_blue : field_ok (blue_pos f) (blue_size f) (fb_bpp f);
  fw_rg : apart (red_pos f) (red_size f) (green_pos f) (green_size f);
  fw_rb : apart (red_pos f) (red_size f) (blue_pos f) (blue_size f);
  fw_gb : apart (green_pos f) (green_size f) (blue_pos f) (blue_size f) }.

(** The [size] high bits of a byte. *)
Definition shade (size v : Z) : Z := Z.shiftl (Z.shiftr v (8 - size)) (8 - size).

Lemma testbit_u8 x n : 0 <= n -> Z.testbit (u8 x) n = (n <? 8) && Z.testbit x n.
Proof. intros Hn. unfold u8. change 256 with (2 ^ 8). rewrite Z.testbit_mod_pow2 by lia. done. Qed.
Lemma testbit_u32 x n : 0 <= n -> Z.testbit (u32 x) n = (n <? 32) && Z.testbit x n.
Proof. intros Hn. unfold u32. change 4294967296 with (2 ^ 32). rewrite Z.testbit_mod_pow2 by lia. done. Qed.
Lemma testbit_mask size n : 0 <= size -> 0 <= n -> Z.testbit (Z.shiftl 1 size - 1) n = (n <? size).
Proof. intros Hs Hn. rewrite Z.shiftl_1_l. change (2 ^ size - 1) with (Z.pred (2 ^ size)) || replace (2 ^ size - 1) with (Z.pred (2 ^ size)) by lia. rewrite <- Z.ones_equiv. destruct (Z.ltb_spec n size); [apply Z.ones_spec_low; lia|apply Z.ones_spec_high; lia]. Qed.
Lemma testbit_ff n : 0 <= n -> Z.testbit 255 n = (n <? 8).
Proof. intros Hn. change 255 with (Z.shiftl 1 8 - 1). apply testbit_mask; lia. Qed.
Lemma testbit_byte x n : is_u8 x -> 8 <= n -> Z.testbit x n = false.
Proof. intros Hx Hn. unfold is_u8 in Hx. destruct (decide (x = 0)) as [->|]; [apply Z.bits_0|]. apply Z.bits_above_log2; [lia|]. apply Z.log2_lt_pow2; [lia|]. apply Z.lt_le_trans with (2 ^ 8); [lia|]. apply Z.pow_le_mono_r; lia. Qed.

Lemma shade_bits size v n : 0 <= size <= 8 -> 0 <= n -> Z.testbit (shade size v) n = (8 - size <=? n) && Z.testbit v n.
Proof. intros Hs Hn. unfold shade. destruct (Z.leb_spec (8 - size) n); [|rewrite Z.shiftl_spec_low by lia; done]. rewrite Z.shiftl_spec, Z.shiftr_spec by lia. cbn. f_equal. lia. Qed.

Lemma unpack_bits pos size raw n : 0 <= pos -> 0 <= size <= 8 -> 0 <= n ->
  Z.testbit (unpack_field pos size raw) n = (n <? 8) && ((8 - size <=? n) && Z.testbit raw (n - (8 - size) + pos)).
Proof.
  intros Hp Hs Hn. unfold unpack_field. rewrite testbit_u8 by done. destruct (Z.ltb_spec n 8); [|done]. cbn [andb]. destruct (Z.leb_spec (8 - size) n); cbn [andb]; [|rewrite Z.shiftl_spec_low by lia; done].
  rewrite Z.shiftl_spec, Z.land_spec, Z.shiftr_spec, testbit_mask by lia. destruct (Z.ltb_spec (n - (8 - size)) size); [apply andb_true_r|lia].
Qed.

Lemma pack_bits pos size v n : field_ok pos size 32 -> is_u8 v -> 0 <= n ->
  Z.testbit (u32 (Z.shiftl (Z.shiftr v (8 - size)) pos)) n = (pos <=? n) && (n <? pos + size) && Z.testbit v (n - pos + (8 - size)).
Proof.
  intros (Hp & Hs & Hf) Hv Hn. rewrite testbit_u32 by done. destruct (Z.leb_spec pos n); cbn [andb]; [|rewrite Z.shiftl_spec_low by lia; apply andb_false_r]. rewrite Z.shiftl_spec, Z.shiftr_spec by lia.
  destruct (Z.ltb_spec n (pos + size)); cbn [andb]; [destruct (Z.ltb_spec n 32); [done|lia]|]. rewrite testbit_byte by (done || lia). apply andb_false_r.
Qed.

(** Bits outside the field do not show. *)
Lemma unpack_one pos size v others : field_ok pos size 32 -> is_u8 v -> (forall n, pos <= n < pos + size -> Z.testbit others n = false) ->
  unpack_field pos size (Z.lor (u32 (Z.shiftl (Z.shiftr v (8 - size)) pos)) others) = shade size v.
Proof.
  intros Hf Hv Ho. pose proof Hf as (Hp & Hs & _). apply Z.bits_inj'. intros n Hn. rewrite unpack_bits, shade_bits by lia. destruct (Z.leb_spec (8 - size) n); cbn [andb]; [|apply andb_false_r].
  destruct (Z.ltb_spec n 8); cbn [andb]; [|by rewrite testbit_byte]. rewrite Z.lor_spec, pack_bits, Ho, orb_false_r by (done || lia). destruct (Z.leb_spec pos (n - (8 - size) + pos)); [|lia]. destruct (Z.ltb_spec (n - (8 - size) + pos) (pos + size)); [|lia]. cbn [andb]. f_equal. lia.
Qed.

Lemma pack_apart pos size v pos' size' n : field_ok pos size 32 -> is_u8 v -> 0 <= pos' -> apart pos' size' pos size -> pos' <= n < pos' + size' -> Z.testbit (u32 (Z.shiftl (Z.shiftr v (8 - size)) pos)) n = false.
Proof. intros Hf Hv Hp Ha Hn. rewrite pack_bits by (done || lia). unfold apart in Ha. destruct (Z.leb_spec pos n), (Z.ltb_spec n (pos + size)); try done; lia. Qed.

Lemma field_32 f : fb_wf f -> forall pos size, field_ok pos size (fb_bpp f) -> field_ok pos size 32.
Proof. intros Hf pos size (H1 & H2 & H3). pose proof (fw_bpp _ Hf). repeat split; lia. Qed.
Lemma apart_sym p s p' s' : apart p s p' s' -> apart p' s' p s.
Proof. unfold apart. lia. Qed.

Lemma unpack_pack f r g b : fb_wf f -> is_u8 r -> is_u8 g -> is_u8 b ->
  unpack_color f (pack_color r g b f) = rgb (shade (red_size f) r) (shade (green_size f) g) (shade (blue_size f) b).
Proof.
  intros Hf Hr Hg Hb. pose proof (field_32 f Hf _ _ (fw_red _ Hf)) as Fr. pose proof (field_32 f Hf _ _ (fw_green _ Hf)) as Fg. pose proof (field_32 f Hf _ _ (fw_blue _ Hf)) as Fb. pose proof (fw_rg _ Hf) as Arg. pose proof (fw_rb _ Hf) as Arb. pose proof (fw_gb _ Hf) as Agb.
  pose proof (apart_sym _ _ _ _ Arg). pose proof (apart_sym _ _ _ _ Arb). pose proof (apart_sym _ _ _ _ Agb). assert (0 <= red_pos f /\ 0 <= green_pos f /\ 0 <= blue_pos f) as (? & ? & ?) by (destruct Fr, Fg, Fb; done).
  unfold unpack_color, pack_color. set (R := u32 (Z.shiftl (Z.shiftr r _) _)). set (G := u32 (Z.shiftl (Z.shiftr g _) _)). set (B := u32 (Z.shiftl (Z.shiftr b _) _)). f_equal.
  - rewrite <- Z.lor_assoc. apply unpack_one; [done|done|]. intros n Hn. rewrite Z.lor_spec. unfold G, B. rewrite (pack_apart (green_pos f) (green_size f) g (red_pos f) (red_size f) n), (pack_apart (blue_pos f) (blue_size f) b (red_pos f) (red_size f) n) by auto. done.
  - rewrite (Z.lor_comm R), <- Z.lor_assoc. apply unpack_one; [done|done|]. intros n Hn. rewrite Z.lor_spec. unfold R, B. rewrite (pack_apart (red_pos f) (red_size f) r (green_pos f) (green_size f) n), (pack_apart (blue_pos f) (blue_size f) b (green_pos f) (green_size f) n) by auto. done.
  - rewrite (Z.lor_comm (Z.lor R G)). apply unpack_one; [done|done|]. intros n Hn. rewrite Z.lor_spec. unfold R, G. rewrite (pack_apart (red_pos f) (red_size f) r (blue_pos f) (blue_size f) n), (pack_apart (green_pos f) (green_size f) g (blue_pos f) (blue_size f) n) by auto. done.
Qed.

(** *** Bytes of a pixel *)

Lemma byte_part c k n : 0 <= k -> 0 <= n -> Z.testbit (Z.shiftl (Z.land (Z.shiftr c k) 255) k) n = (k <=? n) && (n <? k + 8) && Z.testbit c n.
Proof.
  intros Hk Hn. destruct (Z.leb_spec k n); cbn [andb]; [|rewrite Z.shiftl_spec_low by lia; done]. rewrite Z.shiftl_spec, Z.land_spec, Z.shiftr_spec, testbit_ff by lia. replace (n - k + k) with n by lia. destruct (Z.ltb_spec n (k + 8)), (Z.ltb_spec (n - k) 8); rewrite ?andb_true_r, ?andb_false_r; done || lia.
Qed.

Lemma join_bytes top c : (top = 24 \/ top = 32) -> 0 <= c < 2 ^ top ->
  Z.lor (Z.lor (Z.lor (Z.land c 255) (Z.shiftl (Z.land (Z.shiftr c 8) 255) 8)) (Z.shiftl (Z.land (Z.shiftr c 16) 255) 16)) (Z.shiftl (if top =? 32 then Z.land (Z.shiftr c 24) 255 else 0) 24) = c.
Proof.
  intros Ht Hc. apply Z.bits_inj'. intros n Hn. assert (Hhigh : top <= n -> Z.testbit c n = false). { intros Hle. destruct (decide (c = 0)) as [->|]; [apply Z.bits_0|]. apply Z.bits_above_log2; [lia|]. apply Z.log2_lt_pow2; [lia|]. apply Z.lt_le_trans with (2 ^ top); [lia|]. apply Z.pow_le_mono_r; lia. }
  rewrite !Z.lor_spec, !byte_part, Z.land_spec, testbit_ff by lia. destruct Ht as [-> | ->]; cbn [Z.eqb Pos.eqb].
  - rewrite Z.shiftl_0_l, Z.bits_0, orb_false_r. destruct (Z.le_gt_cases 24 n); [rewrite Hhigh, !andb_false_r by lia; done|]. destruct (Z.testbit c n); [|by rewrite !andb_false_r]. rewrite !andb_true_r. destruct (Z.ltb_spec n 8), (Z.leb_spec 8 n), (Z.ltb_spec n (8 + 8)), (Z.leb_spec 16 n), (Z.ltb_spec n (16 + 8)); cbn; done || lia.
  - rewrite byte_part by lia. destruct (Z.le_gt_cases 32 n); [rewrite Hhigh, !andb_false_r by lia; done|]. destruct (Z.testbit c n); [|by rewrite !andb_false_r]. rewrite !andb_true_r. destruct (Z.ltb_spec n 8), (Z.leb_spec 8 n), (Z.ltb_spec n (8 + 8)), (Z.leb_spec 16 n), (Z.ltb_spec n (16 + 8)), (Z.leb_spec 24 n), (Z.ltb_spec n (24 + 8)); cbn; done || lia.
Qed.

Lemma land_ff_u8 x : is_u8 (Z.land x 255).
Proof. change 255 with (Z.ones 8). rewrite Z.land_ones by lia. unfold is_u8. pose proof (Z.mod_pos_bound x (2 ^ 8)). lia. Qed.
Lemma unpack_u8 pos size raw : is_u8 (unpack_field pos size raw).
Proof. unfold unpack_field, u8, is_u8. pose proof (Z.mod_pos_bound (Z.shiftl (Z.land (Z.shiftr raw pos) (Z.shiftl 1 size - 1)) (8 - size)) 256). lia. Qed.

(** [fb_put_pixel] takes a colour apart as [rgb] puts it together. *)
Lemma split_rgb r g b : is_u8 r -> is_u8 g -> is_u8 b -> Z.land (Z.shiftr (rgb r g b) 16) 255 = r /\ Z.land (Z.shiftr (rgb r g b) 8) 255 = g /\ Z.land (rgb r g b) 255 = b.
Proof.
  intros Hr Hg Hb. assert (E : rgb r g b = r * 65536 + g * 256 + b).
  { unfold rgb, is_u8 in *. rewrite (lor_shift_add r (Z.shiftl g 8) 16) by (rewrite ?Z.shiftl_mul_pow2; lia). rewrite Z.shiftl_mul_pow2 by lia. replace (r * 2 ^ 16 + g * 2 ^ 8) with (Z.shiftl (r * 256 + g) 8) by (rewrite Z.shiftl_mul_pow2; lia). rewrite lor_shift_add by lia. lia. }
  rewrite E. rewrite !Z.shiftr_div_pow2 by lia. change 255 with (Z.ones 8). rewrite !Z.land_ones by lia. change (2 ^ 16) with 65536. change (2 ^ 8) with 256. unfold is_u8 in *. repeat split; lia_mod.
Qed.

(** ** Pixels *)

Lemma surface_set m f : surface (set_surface m f) = m.
Proof. unfold surface, set_surface. destruct f as [base [back|]]; done. Qed.
Lemma off_screen_set x y m f : off_screen x y (set_surface m f) = off_screen x y f.
Proof. done. Qed.
Lemma pixel_at_set x y m f : pixel_at x y (set_surface m f) = pixel_at x y f.
Proof. done. Qed.
Lemma set_surface_wf m f : fb_wf f -> length m = length (surface f) -> fb_wf (set_surface m f).
Proof. intros [] Hl. split; try done. rewrite surface_set. cbn. unfold zlen in *. rewrite Hl. done. Qed.
Lemma set_surface_twice m m' f : set_surface m (set_surface m' f) = set_surface m f.
Proof. unfold set_surface. destruct f as [base [back|]]; done. Qed.

Lemma poke_lookup p bs m m' i : poke p bs m = Some m' -> length m' = length m /\ m' !! i = (if bool_decide (p <= i < p + length bs)%nat then bs !! (i - p)%nat else m !! i).
Proof.
  unfold poke. destruct (Nat.leb_spec (p + length bs) (length m)); [|done]. intros [= <-]. split; [rewrite !length_app, length_take, length_drop; lia|].
  assert (Ht : length (take p m) = p) by (rewrite length_take; lia). destruct (Nat.lt_ge_cases i p); [rewrite lookup_app_l, lookup_take_lt by lia; rewrite bool_decide_false by lia; done|]. rewrite lookup_app_r, Ht by lia. destruct (Nat.lt_ge_cases i (p + length bs)).
  - rewrite lookup_app_l by lia. by rewrite bool_decide_true by lia.
  - rewrite lookup_app_r by lia. rewrite bool_decide_false, lookup_drop by lia. f_equal. lia.
Qed.

Definition depth (f : framebuffer) : Z := fb_bpp f / 8.
Lemma depth_cases f : fb_wf f -> (fb_bpp f = 24 /\ depth f = 3) \/ (fb_bpp f = 32 /\ depth f = 4).
Proof. intros Hf. unfold depth. destruct (fw_bpp _ Hf) as [-> | ->]; [left|right]; done. Qed.

Lemma on_screen x y f : off_screen x y f = false -> available f = true /\ 0 <= x < screen_w f /\ 0 <= y < screen_h f.
Proof. unfold off_screen. intros H. apply orb_false_iff in H as [H Hh]. apply orb_false_iff in H as [H Hw]. apply orb_false_iff in H as [H Hy]. apply orb_false_iff in H as [H Hx]. apply negb_false_iff in H. split; [done|lia]. Qed.

Lemma pixel_at_eq x y f : fb_wf f -> off_screen x y f = false -> Z.of_nat (pixel_at x y f) = y * fb_pitch f + x * depth f /\ y * fb_pitch f + x * depth f + depth f <= fb_pitch f * screen_h f.
Proof.
  intros Hf Hs. apply on_screen in Hs as (_ & Hx & Hy). pose proof (fw_pitch _ Hf) as Hp. pose proof (fw_size _ Hf) as Hz. fold (depth f) in Hp. assert (3 <= depth f <= 4) by (destruct (depth_cases f Hf); lia).
  assert (x * depth f + depth f <= fb_pitch f) by nia. assert (y * fb_pitch f + fb_pitch f <= fb_pitch f * screen_h f) by nia. unfold pixel_at. fold (depth f). assert (0 <= y * fb_pitch f) by nia. assert (0 <= x * depth f) by nia. rewrite !u32_small by (unfold is_u32; lia). split; [rewrite Z2Nat.id; lia|lia].
Qed.

Lemma pixel_room x y f : fb_wf f -> off_screen x y f = false -> (pixel_at x y f + Z.to_nat (depth f) <= length (surface f))%nat.
Proof. intros Hf Hs. destruct (pixel_at_eq x y f Hf Hs) as [H1 H2]. pose proof (fw_mem _ Hf). unfold zlen in *. destruct (depth_cases f Hf); lia. Qed.

(** Different pixels do not share a byte. *)
Lemma pixel_apart x y x' y' f : fb_wf f -> off_screen x y f = false -> off_screen x' y' f = false -> (x, y) <> (x', y') ->
  (pixel_at x y f + Z.to_nat (depth f) <= pixel_at x' y' f \/ pixel_at x' y' f + Z.to_nat (depth f) <= pixel_at x y f)%nat.
Proof.
  intros Hf Hs Hs' Hne. destruct (pixel_at_eq x y f Hf Hs) as [H1 _]. destruct (pixel_at_eq x' y' f Hf Hs') as [H2 _]. apply on_screen in Hs as (_ & Hx & Hy). apply on_screen in Hs' as (_ & Hx' & Hy'). pose proof (fw_pitch _ Hf) as Hp. fold (depth f) in Hp.
  assert (3 <= depth f <= 4) as Hd by (destruct (depth_cases f Hf); lia). assert (x * depth f + depth f <= fb_pitch f) by nia. assert (x' * depth f + depth f <= fb_pitch f) by nia. assert (0 <= x * depth f /\ 0 <= x' * depth f) as [] by nia.
  destruct (Z.lt_trichotomy y y') as [Hlt|[->|Hlt]].
  - left. assert (y * fb_pitch f + fb_pitch f <= y' * fb_pitch f) by nia. lia.
  - assert (x <> x') by congruence. destruct (Z.lt_ge_cases x x'); [left|right]; [assert (x * depth f + depth f <= x' * depth f) by nia|assert (x' * depth f + depth f <= x * depth f) by nia]; lia.
  - right. assert (y' * fb_pitch f + fb_pitch f <= y * fb_pitch f) by nia. lia.
Qed.

Lemma get_total x y f : fb_wf f -> exists v, fb_get_pixel x y f = Some v.
Proof.
  intros Hf. unfold fb_get_pixel. destruct (off_screen x y f) eqn:Hs; [eauto|]. cbv zeta. pose proof (pixel_room x y f Hf Hs) as Hr.
  destruct (lookup_lt_is_Some_2 (surface f) (pixel_at x y f)) as [p0 ->]; [destruct (depth_cases f Hf); lia|]. destruct (lookup_lt_is_Some_2 (surface f) (pixel_at x y f + 1)) as [p1 ->]; [destruct (depth_cases f Hf); lia|]. destruct (lookup_lt_is_Some_2 (surface f) (pixel_at x y f + 2)) as [p2 ->]; [destruct (depth_cases f Hf); lia|]. cbn [mbind option_bind].
  destruct (Z.eqb_spec (fb_bpp f) 32); [|cbn; eauto]. destruct (lookup_lt_is_Some_2 (surface f) (pixel_at x y f + 3)) as [p3 ->]; [destruct (depth_cases f Hf); lia|]. cbn. eauto.
Qed.

Lemma pack_range r g b f : fb_wf f -> is_u8 r -> is_u8 g -> is_u8 b -> 0 <= pack_color r g b f < 2 ^ fb_bpp f.
Proof.
  intros Hf Hr Hg Hb. assert (Hbits : forall n, fb_bpp f <= n -> Z.testbit (pack_color r g b f) n = false).
  { intros n Hn. pose proof (fw_bpp _ Hf). unfold pack_color. rewrite !Z.lor_spec, !pack_bits by (first [done|lia|apply (field_32 f Hf); apply Hf]). pose proof (fw_red _ Hf) as (_ & _ & ?). pose proof (fw_green _ Hf) as (_ & _ & ?). pose proof (fw_blue _ Hf) as (_ & _ & ?).
    destruct (Z.ltb_spec n (red_pos f + red_size f)); [lia|]. destruct (Z.ltb_spec n (green_pos f + green_size f)); [lia|]. destruct (Z.ltb_spec n (blue_pos f + blue_size f)); [lia|]. by rewrite !andb_false_r. }
  assert (H0 : 0 <= pack_color r g b f) by (unfold pack_color; apply Z.lor_nonneg; split; [apply Z.lor_nonneg; split|]; unfold u32; apply Z.mod_pos_bound; lia). split; [done|].
  destruct (Z.lt_ge_cases (pack_color r g b f) (2 ^ fb_bpp f)) as [|Hge]; [done|exfalso]. pose proof (fw_bpp _ Hf). assert (0 < pack_color r g b f) by (pose proof (Z.pow_pos_nonneg 2 (fb_bpp f)); lia). pose proof (Z.bit_log2 (pack_color r g b f) ltac:(lia)) as Hlog. rewrite Hbits in Hlog; [done|]. apply Z.log2_le_pow2; lia.
Qed.

(** The mode and the sizes of [f], other bytes. *)
Definition redrawn (f f' : framebuffer) : Prop := exists m, f' = set_surface m f /\ length m = length (surface f).
Lemma redrawn_wf f f' : fb_wf f -> redrawn f f' -> fb_wf f'.
Proof. intros Hf (m & -> & Hl). by apply set_surface_wf. Qed.
Lemma redrawn_refl f : redrawn f f.
Proof. exists (surface f). split; [|done]. unfold set_surface, surface. destruct f as [base [back|]]; done. Qed.
Lemma redrawn_trans f g h : redrawn f g -> redrawn g h -> redrawn f h.
Proof. intros (m & -> & Hl) (m' & -> & Hl'). exists m'. rewrite set_surface_twice. rewrite surface_set in Hl'. split; [done|congruence]. Qed.
Lemma redrawn_off f f' x y : redrawn f f' -> off_screen x y f' = off_screen x y f.
Proof. by intros (m & -> & _). Qed.

Lemma put_bytes f c : fb_wf f -> length ([Z.land c 255; Z.land (Z.shiftr c 8) 255; Z.land (Z.shiftr c 16) 255] ++ (if fb_bpp f =? 32 then [Z.land (Z.shiftr c 24) 255] else [])) = Z.to_nat (depth f).
Proof. intros Hf. destruct (depth_cases f Hf) as [[-> ->]|[-> ->]]; done. Qed.

Lemma put_rgb_spec x y r g b f : fb_wf f -> is_u8 r -> is_u8 g -> is_u8 b ->
  exists f', fb_put_pixel_rgb x y r g b f = Some f' /\ redrawn f f' /\
    forall x' y', fb_get_pixel x' y' f' = if off_screen x y f then fb_get_pixel x' y' f else if decide ((x', y') = (x, y)) then Some (unpack_color f (pack_color r g b f)) else fb_get_pixel x' y' f.
Proof.
  intros Hf Hr Hg Hb. unfold fb_put_pixel_rgb. destruct (off_screen x y f) eqn:Hs; [exists f; split; [done|]; split; [apply redrawn_refl|done]|]. cbv zeta. set (c := pack_color r g b f). set (bs := [_; _; _] ++ _).
  assert (Hlen : length bs = Z.to_nat (depth f)) by (by apply put_bytes). pose proof (pixel_room x y f Hf Hs) as Hroom. destruct (poke (pixel_at x y f) bs (surface f)) as [m|] eqn:Hp; [|unfold poke in Hp; destruct (Nat.leb_spec (pixel_at x y f + length bs) (length (surface f))); [done|lia]].
  exists (set_surface m f). split; [done|]. split; [exists m; split; [done|]; apply (poke_lookup _ _ _ _ 0 Hp)|]. intros x' y'. unfold fb_get_pixel. rewrite off_screen_set, pixel_at_set, surface_set. change (fb_bpp (set_surface m f)) with (fb_bpp f). change (unpack_color (set_surface m f)) with (unpack_color f).
  assert (Hm : forall i, m !! i = (if bool_decide (pixel_at x y f <= i < pixel_at x y f + length bs)%nat then bs !! (i - pixel_at x y f)%nat else surface f !! i)) by (intros i; apply (poke_lookup _ _ _ _ i Hp)). cbv zeta.
  destruct (decide ((x', y') = (x, y))) as [[= -> ->]|Hne].
  - rewrite Hs. assert (Hin : forall k, (k < length bs)%nat -> m !! (pixel_at x y f + k)%nat = bs !! k) by (intros k Hk; rewrite Hm, bool_decide_true by lia; f_equal; lia). pose proof (Hin 0%nat) as Hin0. rewrite Nat.add_0_r in Hin0. rewrite Hin0, (Hin 1%nat), (Hin 2%nat) by (destruct (depth_cases f Hf); lia).
    pose proof (pack_range r g b f Hf Hr Hg Hb) as Hc. fold c in Hc. pose proof (join_bytes (fb_bpp f) c (fw_bpp _ Hf) Hc) as Hj. unfold bs. destruct (depth_cases f Hf) as [[E Ed]|[E Ed]]; rewrite E in Hj |- *; cbn [Z.eqb Pos.eqb app lookup list_lookup mbind option_bind] in Hj |- *.
    + by rewrite Hj.
    + rewrite Hin by (rewrite Hlen, Ed; lia). unfold bs. rewrite E. cbn [Z.eqb Pos.eqb app lookup list_lookup mbind option_bind]. by rewrite Hj.
  - destruct (off_screen x' y' f) eqn:Hs'; [done|]. pose proof (pixel_apart x' y' x y f Hf Hs' Hs Hne) as Ha.
    assert (Hout : forall k, (k < Z.to_nat (depth f))%nat -> m !! (pixel_at x' y' f + k)%nat = surface f !! (pixel_at x' y' f + k)%nat) by (intros k Hk; rewrite Hm, bool_decide_false by lia; done).
    pose proof (Hout 0%nat) as Hout0. rewrite Nat.add_0_r in Hout0. rewrite Hout0, (Hout 1%nat), (Hout 2%nat) by (destruct (depth_cases f Hf); lia). destruct (depth_cases f Hf) as [[E Ed]|[E Ed]]; rewrite E; cbn [Z.eqb Pos.eqb]; [done|]. rewrite Hout by (rewrite Ed; lia). done.
Qed.

(** The colour that a colour becomes on the screen. *)
Definition quantise (f : framebuffer) (c : Z) : Z := rgb (shade (red_size f) (Z.land (Z.shiftr c 16) 255)) (shade (green_size f) (Z.land (Z.shiftr c 8) 255)) (shade (blue_size f) (Z.land c 255)).

Lemma put_spec x y c f : fb_wf f -> exists f', fb_put_pixel x y c f = Some f' /\ redrawn f f' /\
  forall x' y', fb_get_pixel x' y' f' = if off_screen x y f then fb_get_pixel x' y' f else if decide ((x', y') = (x, y)) then Some (quantise f c) else fb_get_pixel x' y' f.
Proof.
  intros Hf. unfold fb_put_pixel. destruct (put_rgb_spec x y _ _ _ f Hf (land_ff_u8 (Z.shiftr c 16)) (land_ff_u8 (Z.shiftr c 8)) (land_ff_u8 c)) as (f' & E & Hr & Hg). exists f'. split; [exact E|]. split; [exact Hr|]. intros x' y'. rewrite Hg. rewrite unpack_pack by (done || apply land_ff_u8). done.
Qed.

Lemma shade_unpack pos size raw : 0 <= pos -> 0 <= size <= 8 -> shade size (unpack_field pos size raw) = unpack_field pos size raw.
Proof. intros Hp Hs. apply Z.bits_inj'. intros n Hn. rewrite shade_bits, unpack_bits by lia. destruct (8 - size <=? n); [done|]. cbn [andb]. by rewrite andb_false_r. Qed.

(** A colour read from the screen is not changed by writing it back. *)
Lemma quantise_get x y f v : fb_wf f -> fb_get_pixel x y f = Some v -> off_screen x y f = false -> quantise f v = v.
Proof.
  intros Hf Hv Hs. unfold fb_get_pixel in Hv. rewrite Hs in Hv. cbv zeta in Hv. apply bind_Some in Hv as (p0 & _ & Hv). apply bind_Some in Hv as (p1 & _ & Hv). apply bind_Some in Hv as (p2 & _ & Hv). apply bind_Some in Hv as (p3 & _ & [= <-]). unfold unpack_color, quantise.
  edestruct split_rgb as (-> & -> & ->); [apply unpack_u8..|]. pose proof (fw_red _ Hf) as (? & ? & _). pose proof (fw_green _ Hf) as (? & ? & _). pose proof (fw_blue _ Hf) as (? & ? & _). by rewrite !shade_unpack.
Qed.

Lemma shade_full v : shade 8 v = v.
Proof. unfold shade. by rewrite Z.shiftr_0_r, Z.shiftl_0_r. Qed.
(** With eight bits to a field every colour is exact. *)
Lemma quantise_full f c : red_size f = 8 -> green_size f = 8 -> blue_size f = 8 -> 0 <= c < 16777216 -> quantise f c = c.
Proof.
  intros Hr Hg Hb Hc. unfold quantise. rewrite Hr, Hg, Hb, !shade_full. unfold rgb. assert (E : forall x, Z.land x 255 = x mod 256) by (intros x; change 255 with (Z.ones 8); rewrite Z.land_ones; [done|lia]). rewrite !E, !Z.shiftr_div_pow2 by lia. change (2 ^ 16) with 65536. change (2 ^ 8) with 256.
  rewrite (lor_shift_add _ _ 16) by (rewrite ?Z.shiftl_mul_pow2; lia_mod). rewrite Z.shiftl_mul_pow2 by lia. replace (_ * 2 ^ 16 + _ * 2 ^ 8) with (Z.shiftl ((c / 65536) mod 256 * 256 + (c / 256) mod 256) 8) by (rewrite Z.shiftl_mul_pow2; lia). rewrite lor_shift_add by lia_mod. lia_mod.
Qed.
