(* ===== verification/Shapes.v ===== *)
(** * Lines, rectangles and discs

    What the drawing loops of [GUI/Algo/algo.c] put on the screen. *)

From S2P Require Import Prelude Pixels.

#[local] Open Scope Z_scope.

(** ** The points of a line *)

Fixpoint count_from (n : nat) (i : Z) : list Z := match n with O => [] | S n' => i :: count_from n' (i + 1) end.

(** How far the shorter axis has moved when the longer one has moved [i] of [long]. *)
Definition minor (long short i : Z) : Z := (i * short + (long - 1 - long / 2)) / long.

Definition line_point (x0 y0 sx sy a b i : Z) : Z * Z :=
  if b <? a then (x0 + sx * i, y0 + sy * minor a b i) else (x0 + sx * minor b a i, y0 + sy * i).
Definition line_points (x0 y0 x1 y1 : Z) : list (Z * Z) :=
  let a := Z.abs (x1 - x0) in let b := Z.abs (y1 - y0) in
  line_point x0 y0 (if x1 - x0 <? 0 then -1 else 1) (if y1 - y0 <? 0 then -1 else 1) a b <$> count_from (S (Z.to_nat (Z.max a b))) 0.
Definition paint (r g b : Z) (ps : list (Z * Z)) (f : framebuffer) : option framebuffer := draw (fun p => fb_put_pixel_rgb (fst p) (snd p) r g b) ps f.

Definition small (x : Z) : Prop := -268435456 <= x <= 268435456.
Lemma int_small x : -2147483648 <= x < 2147483648 -> int x = Some x.
Proof. intros Hx. unfold int. by rewrite bool_decide_true. Qed.

(** The error term decides how far the shorter axis is. *)
Lemma minor_is long short i j err : 0 <= err < long -> err = long / 2 - i * short + j * long -> minor long short i = j.
Proof. intros He ->. unfold minor. symmetry. apply (Z.div_unique _ _ _ (long - 1 - (long / 2 - i * short + j * long))); lia. Qed.
Lemma minor_end long short : 0 < long -> 0 <= short -> minor long short long = short.
Proof. intros Hl Hs. apply (minor_is _ _ _ _ (long / 2)); lia_mod. Qed.

Section Major.
Context (x0 y0 sx sy a b r g bl : Z).
Hypothesis Hx0 : small x0.
Hypothesis Hy0 : small y0.
Hypothesis Hx1 : small (x0 + sx * a).
Hypothesis Hy1 : small (y0 + sy * b).
Hypothesis Hsx : sx = 1 \/ sx = -1.
Hypothesis Hsy : sy = 1 \/ sy = -1.
Hypothesis Ha : 0 <= a.
Hypothesis Hb : 0 <= b.

Let loop := line_loop (x0 + sx * a) (y0 + sy * b) a b sx sy r g bl.
Let point := line_point x0 y0 sx sy a b.

Lemma line_x_major n : forall i j err f, b < a -> Z.of_nat n = a - i -> 0 <= i -> 0 <= j -> 0 <= err < a -> err = a / 2 - i * b + j * a ->
  loop n (x0 + sx * i) (y0 + sy * j) err f = paint r g bl (point <$> count_from (S n) i) f.
Proof.
  induction n as [|n IH]; intros i j err f Hab Hn Hi Hj He Eq; unfold loop, paint; cbn [line_loop count_from fmap list_fmap draw]; fold loop;
    assert (Hp : point i = (x0 + sx * i, y0 + sy * j)) by (unfold point, line_point; destruct (Z.ltb_spec b a); [|lia]; by rewrite (minor_is a b i j err)); rewrite Hp; cbn [fst snd]; destruct (fb_put_pixel_rgb _ _ r g bl f) as [f'|]; [cbn [mbind option_bind]|done|cbn [mbind option_bind]|done].
  - assert (i = a) as -> by lia. assert (j = b) as -> by (rewrite <- (minor_is a b a j err He Eq); apply minor_end; lia). rewrite !Z.eqb_refl. reflexivity.
  - assert ((x0 + sx * i =? x0 + sx * a) = false) as -> by (apply Z.eqb_neq; destruct Hsx; subst sx; lia). cbn [andb]. unfold small in *. assert (a <= 536870912) by (destruct Hsx; subst sx; lia). assert (b <= 536870912) by (destruct Hsy; subst sy; lia).
    assert (Hmono : forall k j', minor a b k = j' -> 0 <= k <= a -> j' <= b). { intros k j' <- Hk. rewrite <- (minor_end a b) by lia. unfold minor. apply Z.div_le_mono; [lia|]. nia. } pose proof (Hmono i j (minor_is a b i j err He Eq) ltac:(lia)) as Hjb. destruct (Z.ltb_spec (- a) err); [|lia]. rewrite !int_small by (destruct Hsx, Hsy; subst; lia). cbn [mbind option_bind].
    destruct (Z.ltb_spec err b).
    + assert (j + 1 <= b) by (apply (Hmono (i + 1)); [apply (minor_is _ _ _ _ (err - b + a)); lia|lia]).
      rewrite !int_small by (destruct Hsx, Hsy; subst; lia). cbn [mbind option_bind]. replace (x0 + sx * i + sx) with (x0 + sx * (i + 1)) by lia. replace (y0 + sy * j + sy) with (y0 + sy * (j + 1)) by lia. apply IH; lia.
    + cbn [mbind option_bind]. replace (x0 + sx * i + sx) with (x0 + sx * (i + 1)) by lia. apply IH; lia.
Qed.

Lemma line_y_major n : forall i j err f, a <= b -> Z.of_nat n = b - i -> 0 <= i -> 0 <= j -> - b < err <= 0 -> err = - (b / 2) + i * a - j * b ->
  loop n (x0 + sx * j) (y0 + sy * i) err f = paint r g bl (point <$> count_from (S n) i) f.
Proof.
  induction n as [|n IH]; intros i j err f Hab Hn Hi Hj He Eq; unfold loop, paint; cbn [line_loop count_from fmap list_fmap draw]; fold loop;
    assert (Hp : point i = (x0 + sx * j, y0 + sy * i)) by (unfold point, line_point; destruct (Z.ltb_spec b a); [lia|]; by rewrite (minor_is b a i j (- err)) by lia); rewrite Hp; cbn [fst snd]; destruct (fb_put_pixel_rgb _ _ r g bl f) as [f'|]; [cbn [mbind option_bind]|done|cbn [mbind option_bind]|done].
  - assert (i = b) as -> by lia. assert (j = a) as -> by (rewrite <- (minor_is b a b j (- err)) by lia; apply minor_end; lia). rewrite !Z.eqb_refl. reflexivity.
  - assert ((y0 + sy * i =? y0 + sy * b) = false) as -> by (apply Z.eqb_neq; destruct Hsy; subst sy; lia). rewrite andb_false_r. unfold small in *. assert (a <= 536870912) by (destruct Hsx; subst sx; lia). assert (b <= 536870912) by (destruct Hsy; subst sy; lia).
    assert (Hmono : forall k j', minor b a k = j' -> 0 <= k <= b -> j' <= a). { intros k j' <- Hk. rewrite <- (minor_end b a) by lia. unfold minor. apply Z.div_le_mono; [lia|]. nia. } pose proof (Hmono i j (minor_is b a i j (- err) ltac:(lia) ltac:(lia)) ltac:(lia)) as Hja.
    destruct (Z.ltb_spec (- a) err).
    + assert (j + 1 <= a) by (apply (Hmono (i + 1)); [apply (minor_is _ _ _ _ (- (err - b + a))); lia|lia]). rewrite !int_small by (destruct Hsx, Hsy; subst; lia). cbn [mbind option_bind]. destruct (Z.ltb_spec err b); [|lia]. rewrite !int_small by (destruct Hsx, Hsy; subst; lia). cbn [mbind option_bind].
      replace (x0 + sx * j + sx) with (x0 + sx * (j + 1)) by lia. replace (y0 + sy * i + sy) with (y0 + sy * (i + 1)) by lia. apply IH; lia.
    + cbn [mbind option_bind]. destruct (Z.ltb_spec err b); [|lia]. rewrite !int_small by (destruct Hsx, Hsy; subst; lia). cbn [mbind option_bind]. replace (y0 + sy * i + sy) with (y0 + sy * (i + 1)) by lia. apply IH; lia.
Qed.
End Major.

Lemma fb_line_points x0 y0 x1 y1 r g b f : small x0 -> small y0 -> small x1 -> small y1 -> fb_line x0 y0 x1 y1 r g b f = paint r g b (line_points x0 y0 x1 y1) f.
Proof.
  intros Hx0 Hy0 Hx1 Hy1. unfold fb_line, small in *. rewrite (int_small (x1 - x0)), (int_small (y1 - y0)) by lia. cbn [mbind option_bind]. cbv beta.
  replace (if x1 - x0 <? 0 then - (x1 - x0) else x1 - x0) with (Z.abs (x1 - x0)) by (destruct (Z.ltb_spec (x1 - x0) 0); lia). replace (if y1 - y0 <? 0 then - (y1 - y0) else y1 - y0) with (Z.abs (y1 - y0)) by (destruct (Z.ltb_spec (y1 - y0) 0); lia).
  rewrite (int_small (Z.abs (x1 - x0))), (int_small (Z.abs (y1 - y0))) by lia. cbn [mbind option_bind]. unfold line_points. cbv zeta. set (a := Z.abs (x1 - x0)). set (b' := Z.abs (y1 - y0)). set (sx := if x1 - x0 <? 0 then -1 else 1). set (sy := if y1 - y0 <? 0 then -1 else 1).
  assert (Ex : x1 = x0 + sx * a) by (unfold sx, a; destruct (Z.ltb_spec (x1 - x0) 0); lia). assert (Ey : y1 = y0 + sy * b') by (unfold sy, b'; destruct (Z.ltb_spec (y1 - y0) 0); lia).
  assert (Hsx : sx = 1 \/ sx = -1) by (unfold sx; destruct (x1 - x0 <? 0); lia). assert (Hsy : sy = 1 \/ sy = -1) by (unfold sy; destruct (y1 - y0 <? 0); lia). assert (0 <= a) by (unfold a; lia). assert (0 <= b') by (unfold b'; lia). clearbody a b' sx sy. subst x1 y1.
  destruct (Z.ltb_spec b' a).
  - rewrite Z.quot_div_nonneg by lia. rewrite Z.max_l by lia. pose proof (line_x_major x0 y0 sx sy a b' r g b Hx0 Hy0 Hx1 Hy1 Hsx Hsy) as Hm. specialize (Hm ltac:(lia) ltac:(lia) (Z.to_nat a) 0 0 (a / 2) f). rewrite !Z.mul_0_r, !Z.add_0_r in Hm. apply Hm; lia_mod.
  - rewrite Z.max_r by lia. rewrite Z.quot_opp_l, Z.quot_div_nonneg by lia. destruct (decide (b' = 0)) as [->|].
    + assert (a = 0) as -> by lia. change (Z.to_nat 0) with 0%nat. unfold paint. cbn [line_loop count_from fmap list_fmap draw]. change (line_point x0 y0 sx sy 0 0 0) with (x0 + sx * 0, y0 + sy * 0). rewrite !Z.mul_0_r, !Z.add_0_r. cbn [fst snd]. destruct (fb_put_pixel_rgb x0 y0 r g b f); [|reflexivity]. cbn [mbind option_bind]. rewrite !Z.eqb_refl. reflexivity.
    + pose proof (line_y_major x0 y0 sx sy a b' r g b Hx0 Hy0 Hx1 Hy1 Hsx Hsy) as Hm. specialize (Hm ltac:(lia) ltac:(lia) (Z.to_nat b') 0 0 (- (b' / 2)) f). rewrite !Z.mul_0_r, !Z.add_0_r in Hm. apply Hm; lia_mod.
Qed.

(** ** Painting *)

Lemma count_from_elem n : forall i k, k ∈ count_from n i <-> i <= k < i + Z.of_nat n.
Proof. induction n as [|n IH]; intros i k; cbn [count_from]; [rewrite elem_of_nil; lia|]. rewrite list.elem_of_cons, IH. lia. Qed.
Lemma count_from_length n : forall i, length (count_from n i) = n.
Proof. induction n as [|n IH]; intros i; [done|]. cbn. by rewrite IH. Qed.
Lemma count_from_lookup n : forall i k, (k < n)%nat -> count_from n i !! k = Some (i + Z.of_nat k).
Proof. induction n as [|n IH]; intros i [|k] Hk; try lia; cbn; [f_equal; lia|]. rewrite IH by lia. f_equal. lia. Qed.

(** [v] at the pixels of [S] that are on the screen, the rest as in [f]. *)
Definition shows (f f' : framebuffer) (v : Z) (S : Z -> Z -> Prop) : Prop :=
  redrawn f f' /\ forall x y, (S x y -> off_screen x y f = false -> fb_get_pixel x y f' = Some v) /\ (~ S x y -> fb_get_pixel x y f' = fb_get_pixel x y f).

Lemma shows_nil f v : shows f f v (fun _ _ => False).
Proof. split; [apply redrawn_refl|]. intros x y. split; [done|done]. Qed.
Lemma shows_iff f f' v S S' : shows f f' v S -> (forall x y, S x y <-> S' x y) -> shows f f' v S'.
Proof. intros [Hr Hs] Heq. split; [exact Hr|]. intros x y. rewrite <- !Heq. apply Hs. Qed.
Lemma shows_app f f1 f2 v S T : (forall x y, {S x y} + {~ S x y}) -> (forall x y, {T x y} + {~ T x y}) -> shows f f1 v S -> shows f1 f2 v T -> shows f f2 v (fun x y => S x y \/ T x y).
Proof.
  intros DS DT [Hr Hs] [Hr' Ht]. split; [by eapply redrawn_trans|]. intros x y. destruct (Hs x y) as [Hs1 Hs2]. destruct (Ht x y) as [Ht1 Ht2]. rewrite (redrawn_off f f1) in Ht1 by done. split.
  - intros [H|H] Hoff; [|by auto]. destruct (DT x y); [by auto|]. rewrite Ht2 by done. by auto.
  - intros Hn. rewrite Ht2, Hs2; [done|tauto|tauto].
Qed.

Section Colour.
Context (r g b : Z).
Hypothesis Hr : is_u8 r.
Hypothesis Hg : is_u8 g.
Hypothesis Hb : is_u8 b.

Definition look (f : framebuffer) : Z := rgb (shade (red_size f) r) (shade (green_size f) g) (shade (blue_size f) b).
Lemma look_redrawn f f' : redrawn f f' -> look f' = look f.
Proof. by intros (m & -> & _). Qed.

Lemma paint_shows ps : forall f, fb_wf f -> exists f', paint r g b ps f = Some f' /\ shows f f' (look f) (fun x y => (x, y) ∈ ps).
Proof.
  induction ps as [|[px py] ps IH]; intros f Hf; [exists f; split; [done|]; eapply shows_iff; [apply shows_nil|]; intros x y; by rewrite elem_of_nil|]. unfold paint. cbn [draw fst snd]. destruct (put_rgb_spec px py r g b f Hf Hr Hg Hb) as (f1 & -> & Hr1 & Hg1). cbn [mbind option_bind].
  destruct (IH f1) as (f' & E & Hs); [by eapply redrawn_wf|]. exists f'. split; [exact E|]. rewrite (look_redrawn f f1) in Hs by done. rewrite unpack_pack in Hg1 by done. fold (look f) in Hg1.
  apply shows_iff with (fun x y => (x, y) = (px, py) \/ (x, y) ∈ ps); [|intros x y; by rewrite list.elem_of_cons]. apply shows_app with f1; [intros x y; apply (decide ((x, y) = (px, py)))|intros x y; apply (decide ((x, y) ∈ ps))| |exact Hs].
  split; [exact Hr1|]. intros x y. split; [intros [= -> ->] Hoff; rewrite Hg1, Hoff, decide_True by done; done|]. intros Hne. rewrite Hg1. destruct (off_screen px py f); [done|]. by rewrite decide_False.
Qed.

(** The union of what the turns of a drawing loop show. *)
Lemma draw_shows {A} (step : A -> framebuffer -> option framebuffer) (S : A -> Z -> Z -> Prop) (l : list A) :
  (forall a x y, {S a x y} + {~ S a x y}) -> (forall a f, a ∈ l -> fb_wf f -> exists f', step a f = Some f' /\ shows f f' (look f) (S a)) ->
  forall f, fb_wf f -> exists f', draw step l f = Some f' /\ shows f f' (look f) (fun x y => exists a, a ∈ l /\ S a x y).
Proof.
  intros DS Hstep. induction l as [|a l IH]; intros f Hf; [exists f; split; [done|]; eapply shows_iff; [apply shows_nil|]; intros x y; split; [done|]; intros (a & Ha & _); by apply not_elem_of_nil in Ha|]. cbn [draw]. destruct (Hstep a f) as (f1 & -> & Hs1); [by left|done|]. cbn [mbind option_bind].
  destruct (IH (fun a' f0 Ha => Hstep a' f0 (list_elem_of_further _ _ _ Ha)) f1) as (f' & E & Hs); [eapply redrawn_wf; [exact Hf|apply Hs1]|]. exists f'. split; [exact E|]. rewrite (look_redrawn f f1) in Hs by apply Hs1.
  apply shows_iff with (fun x y => S a x y \/ exists a', a' ∈ l /\ S a' x y).
  - apply shows_app with f1; [apply DS| |exact Hs1|exact Hs]. intros x y. pose (HD := (fun a' => DS a' x y) : forall a', Decision (S a' x y)). destruct (decide (Exists (fun a' => S a' x y) l)) as [He|He]; [left|right].
    + by apply list.Exists_exists in He.
    + intros (a' & Ha' & H). apply He. apply list.Exists_exists. by exists a'.
  - intros x y. split; [intros [H|(a' & Ha' & H)]; [exists a; split; [by left|done]|exists a'; split; [by right|done]]|]. intros (a' & Ha' & H). apply list.elem_of_cons in Ha' as [->|Ha']; [by left|right; by exists a'].
Qed.
End Colour.

(** ** What a line is *)

Lemma minor_error long short i : 0 < long -> 0 <= long / 2 - i * short + minor long short i * long < long.
Proof. intros Hl. unfold minor. pose proof (Z.div_mod (i * short + (long - 1 - long / 2)) long ltac:(lia)). pose proof (Z.mod_pos_bound (i * short + (long - 1 - long / 2)) long Hl). lia. Qed.
Lemma minor_near long short i : 0 < long -> 2 * Z.abs (i * short - minor long short i * long) <= long.
Proof. intros Hl. pose proof (minor_error long short i Hl). assert (long - 1 <= 2 * (long / 2) <= long) by lia_mod. lia. Qed.
Lemma minor_next long short i : 0 < long -> 0 <= short <= long -> minor long short i <= minor long short (i + 1) <= minor long short i + 1.
Proof. intros Hl Hs. pose proof (minor_error long short i Hl). pose proof (minor_error long short (i + 1) Hl). nia. Qed.
Lemma minor_zero long short : 0 < long -> minor long short 0 = 0.
Proof. intros Hl. apply (minor_is _ _ _ _ (long / 2)); lia_mod. Qed.

(** From one end to the other, a pixel to a neighbouring one each time, and never more
    than half a pixel, along the shorter axis, from the line between the ends. *)
Definition neighbours (p q : Z * Z) : Prop := Z.max (Z.abs (fst q - fst p)) (Z.abs (snd q - snd p)) = 1.
Record straight (x0 y0 x1 y1 : Z) (ps : list (Z * Z)) : Prop := {
  st_length : zlen ps = Z.max (Z.abs (x1 - x0)) (Z.abs (y1 - y0)) + 1;
  st_first : head ps = Some (x0, y0);
  st_last : list.last ps = Some (x1, y1);
  st_steps : forall k p q, ps !! k = Some p -> ps !! S k = Some q -> neighbours p q;
  st_near : forall x y, (x, y) ∈ ps -> 2 * Z.abs ((x - x0) * (y1 - y0) - (y - y0) * (x1 - x0)) <= Z.max (Z.abs (x1 - x0)) (Z.abs (y1 - y0)) }.

Section Geometry.
Context (x0 y0 sx sy a b : Z).
Hypothesis Hsx : sx = 1 \/ sx = -1.
Hypothesis Hsy : sy = 1 \/ sy = -1.
Hypothesis Ha : 0 <= a.
Hypothesis Hb : 0 <= b.
Let point := line_point x0 y0 sx sy a b.

Lemma point_zero : 0 < Z.max a b -> point 0 = (x0, y0).
Proof. intros Hm. unfold point, line_point. destruct (Z.ltb_spec b a); rewrite minor_zero by lia; f_equal; lia. Qed.
Lemma point_end : 0 < Z.max a b -> point (Z.max a b) = (x0 + sx * a, y0 + sy * b).
Proof. intros Hm. unfold point, line_point. destruct (Z.ltb_spec b a); [rewrite Z.max_l by lia|rewrite Z.max_r by lia]; by rewrite minor_end by lia. Qed.
Lemma point_next i : 0 < Z.max a b -> neighbours (point i) (point (i + 1)).
Proof.
  intros Hm. unfold neighbours, point, line_point. destruct (Z.ltb_spec b a); cbn [fst snd]; [pose proof (minor_next a b i ltac:(lia) ltac:(lia))|pose proof (minor_next b a i ltac:(lia) ltac:(lia))]; destruct Hsx, Hsy; subst sx sy; lia.
Qed.
Lemma point_near i : 0 < Z.max a b -> 2 * Z.abs ((fst (point i) - x0) * (sy * b) - (snd (point i) - y0) * (sx * a)) <= Z.max a b.
Proof.
  intros Hm. unfold point, line_point. destruct (Z.ltb_spec b a); cbn [fst snd]; [pose proof (minor_near a b i ltac:(lia))|pose proof (minor_near b a i ltac:(lia))]; destruct Hsx, Hsy; subst sx sy; lia.
Qed.
End Geometry.

Lemma line_straight x0 y0 x1 y1 : straight x0 y0 x1 y1 (line_points x0 y0 x1 y1).
Proof.
  unfold line_points. cbv zeta. set (a := Z.abs (x1 - x0)). set (b := Z.abs (y1 - y0)). set (sx := if x1 - x0 <? 0 then -1 else 1). set (sy := if y1 - y0 <? 0 then -1 else 1).
  assert (Ex : x1 - x0 = sx * a) by (unfold sx, a; destruct (Z.ltb_spec (x1 - x0) 0); lia). assert (Ey : y1 - y0 = sy * b) by (unfold sy, b; destruct (Z.ltb_spec (y1 - y0) 0); lia).
  assert (Hsx : sx = 1 \/ sx = -1) by (unfold sx; destruct (x1 - x0 <? 0); lia). assert (Hsy : sy = 1 \/ sy = -1) by (unfold sy; destruct (y1 - y0 <? 0); lia).
  assert (Ha : 0 <= a) by (unfold a; lia). assert (Hb : 0 <= b) by (unfold b; lia).
  assert (Eax : Z.abs (x1 - x0) = a) by done. assert (Eby : Z.abs (y1 - y0) = b) by done. clearbody a b sx sy. set (n := Z.max a b).
  assert (Hl : forall k, (k < S (Z.to_nat n))%nat -> (line_point x0 y0 sx sy a b <$> count_from (S (Z.to_nat n)) 0) !! k = Some (line_point x0 y0 sx sy a b (Z.of_nat k))) by (intros k Hk; rewrite list_lookup_fmap, count_from_lookup by done; done).
  assert (Hlen : length (line_point x0 y0 sx sy a b <$> count_from (S (Z.to_nat n)) 0) = S (Z.to_nat n)) by (by rewrite length_fmap, count_from_length). set (ps := _ <$> _) in *.
  destruct (decide (n = 0)) as [E0|Hn0].
  - assert (a = 0 /\ b = 0) as [-> ->] by (unfold n in E0; lia). assert (x1 = x0) as -> by lia. assert (y1 = y0) as -> by lia.
    assert (Eps : ps = [(x0, y0)]). { unfold ps. rewrite E0. cbn. unfold line_point. cbn. by rewrite !Z.mul_0_r, !Z.add_0_r. }
    rewrite Eps. split; [unfold zlen; cbn [length]; lia|done|done|intros [|k] p q; done|]. intros x y H. apply list_elem_of_singleton in H as [= -> ->]. lia.
  - assert (Hn : 0 < n) by (unfold n in *; lia). split.
    + unfold zlen. rewrite Hlen. lia.
    + rewrite head_lookup, Hl by lia. f_equal. by apply point_zero.
    + rewrite last_lookup, Hlen. cbn [pred]. rewrite Hl by lia. f_equal. rewrite Z2Nat.id by lia. unfold n. rewrite point_end by done. f_equal; lia.
    + intros k p q Hp Hq. pose proof (lookup_lt_Some _ _ _ Hq) as Hlt. rewrite Hlen in Hlt. rewrite Hl in Hp, Hq by lia. injection Hp as <-. injection Hq as <-. rewrite Nat2Z.inj_succ. unfold Z.succ. by apply point_next.
    + intros x y H. apply list_elem_of_lookup in H as [k Hk]. pose proof (lookup_lt_Some _ _ _ Hk) as Hlt. rewrite Hlen in Hlt. rewrite Hl in Hk by lia. injection Hk as Hk. rewrite Eax, Eby, Ex, Ey. pose proof (point_near x0 y0 sx sy a b Hsx Hsy Ha Hb (Z.of_nat k) Hn) as Hnear. by rewrite Hk in Hnear.
Qed.

(** ** Rows, rectangles and discs *)

Section Shapes.
Context (r g b : Z).
Hypothesis Hr : is_u8 r.
Hypothesis Hg : is_u8 g.
Hypothesis Hb : is_u8 b.

Lemma line_shows x0 y0 x1 y1 f : fb_wf f -> small x0 -> small y0 -> small x1 -> small y1 ->
  exists f', fb_line x0 y0 x1 y1 r g b f = Some f' /\ shows f f' (look r g b f) (fun x y => (x, y) ∈ line_points x0 y0 x1 y1).
Proof. intros Hf H1 H2 H3 H4. rewrite fb_line_points by done. by apply paint_shows. Qed.

(** A horizontal line is a row of pixels, whichever end comes first. *)
Lemma row_points x0 x1 y x' y' : (x', y') ∈ line_points x0 y x1 y <-> y' = y /\ Z.min x0 x1 <= x' <= Z.max x0 x1.
Proof.
  unfold line_points. cbv zeta. rewrite Z.sub_diag. change (Z.abs 0) with 0. change (if 0 <? 0 then -1 else 1) with 1. rewrite list_elem_of_fmap. setoid_rewrite count_from_elem. unfold line_point.
  assert (Hm : forall i, 0 < Z.abs (x1 - x0) -> minor (Z.abs (x1 - x0)) 0 i = 0) by (intros i Hi; apply (minor_is _ _ _ _ (Z.abs (x1 - x0) / 2)); lia_mod). split.
  - intros (i & E & Hi). destruct (Z.ltb_spec 0 (Z.abs (x1 - x0))); injection E as -> ->; [rewrite Hm by lia; destruct (Z.ltb_spec (x1 - x0) 0); lia|]. assert (i = 0) as -> by lia. assert (x1 = x0) as -> by lia. unfold minor. rewrite Z.sub_diag. cbn. lia.
  - intros [-> Hx]. destruct (Z.ltb_spec 0 (Z.abs (x1 - x0))); [exists (Z.abs (x' - x0))|exists 0]; (split; [|lia]); [rewrite Hm by lia; f_equal; [|lia]; destruct (Z.ltb_spec (x1 - x0) 0); lia|]. assert (x1 = x0) as -> by lia. rewrite Z.sub_diag. unfold minor. cbn. f_equal; lia.
Qed.
Lemma row_shows x0 x1 y f : fb_wf f -> small x0 -> small y -> small x1 ->
  exists f', fb_line x0 y x1 y r g b f = Some f' /\ shows f f' (look r g b f) (fun x' y' => y' = y /\ Z.min x0 x1 <= x' <= Z.max x0 x1).
Proof. intros Hf H1 H2 H3. destruct (line_shows x0 y x1 y f) as (f' & E & Hs); [done..|]. exists f'. split; [done|]. eapply shows_iff; [exact Hs|]. intros x' y'. apply row_points. Qed.

Lemma upto_elem n k : k ∈ upto n <-> 0 <= k < n.
Proof. unfold upto. rewrite list_elem_of_fmap. setoid_rewrite elem_of_seq. split; [intros (i & -> & Hi); lia|]. intros Hk. exists (Z.to_nat k). lia. Qed.
Lemma row_dec (y lo hi x' y' : Z) : {y' = y /\ lo <= x' <= hi} + {~ (y' = y /\ lo <= x' <= hi)}.
Proof. apply (decide (y' = y /\ lo <= x' <= hi)). Qed.

(** [fb_rect_filled] fills its rectangle when the width is positive.  With width 0 it
    fills the two columns [x - 1] and [x]. *)
Lemma fb_rect_filled_shows x y w h f : fb_wf f -> small x -> small y -> small (x + w - 1) -> small (y + h) -> 0 <= w ->
  exists f', fb_rect_filled x y w h r g b f = Some f' /\ shows f f' (look r g b f) (fun x' y' => y <= y' < y + h /\ (if w =? 0 then x - 1 <= x' <= x else x <= x' < x + w)).
Proof.
  intros Hf Hx Hy Hxw Hyh Hw. unfold fb_rect_filled. destruct (draw_shows r g b (fun row => fb_line x (y + row) (x + w - 1) (y + row) r g b)
    (fun row x' y' => y' = y + row /\ Z.min x (x + w - 1) <= x' <= Z.max x (x + w - 1)) (upto h)) with f as (f' & E & Hs); [intros; apply row_dec| |done|].
  - intros row f0 Hrow Hf0. apply upto_elem in Hrow. unfold small in *. apply row_shows; unfold small; (done || lia).
  - exists f'. split; [done|]. eapply shows_iff; [exact Hs|]. intros x' y'. setoid_rewrite upto_elem. split.
    + intros (row & Hrow & -> & Hx'). split; [lia|]. destruct (Z.eqb_spec w 0); lia.
    + intros [Hy' Hx']. exists (y' - y). split; [lia|]. split; [lia|]. destruct (Z.eqb_spec w 0); lia.
Qed.

Lemma span_is fuel : forall span dx, 0 <= span -> 0 <= dx -> dx < (span + Z.of_nat fuel) * (span + Z.of_nat fuel) -> (span - 1) * (span - 1) <= dx \/ span = 0 ->
  exists s, span_loop fuel span dx = Some s /\ 0 < s /\ (s - 1) * (s - 1) <= dx < s * s.
Proof.
  induction fuel as [|fuel IH]; intros span dx Hs Hd Hlt Hle; cbn [span_loop]; destruct (Z.leb_spec (span * span) dx) as [H1|H1].
  - exfalso. nia.
  - exists span. split; [done|]. destruct Hle as [Hle | ->]; [|lia]. split; [|lia]. destruct (decide (span = 0)) as [->|]; lia.
  - apply IH; [lia|lia| |left; nia]. replace (span + 1 + Z.of_nat fuel) with (span + Z.of_nat (S fuel)) by lia. done.
  - exists span. split; [done|]. destruct Hle as [Hle | ->]; [|lia]. split; [|lia]. destruct (decide (span = 0)) as [->|]; lia.
Qed.

(** [fb_circle_filled] fills the disc of its radius. *)
Lemma fb_circle_filled_shows cx cy radius f : fb_wf f -> -100000000 <= cx <= 100000000 -> -100000000 <= cy <= 100000000 -> 0 <= radius <= 32767 ->
  exists f', fb_circle_filled cx cy radius r g b f = Some f' /\ shows f f' (look r g b f) (fun x y => (x - cx) * (x - cx) + (y - cy) * (y - cy) <= radius * radius).
Proof.
  intros Hf Hcx Hcy Hrad. unfold fb_circle_filled. match goal with |- context [draw ?st ?ls f] => destruct (draw_shows r g b st (fun dy x y => y = cy + dy /\ (x - cx) * (x - cx) <= radius * radius - dy * dy) ls) with f as (f' & E & Hs) end.
  - intros dy x y. apply (decide (y = cy + dy /\ (x - cx) * (x - cx) <= radius * radius - dy * dy)).
  - intros dy f0 Hdy Hf0. apply list_elem_of_fmap in Hdy as (i & -> & Hi). apply upto_elem in Hi. set (d := i - radius). assert (- radius <= d <= radius) by lia. assert (Hd : 0 <= radius * radius - d * d) by nia.
    destruct (span_is (Z.to_nat (radius + 1)) 0 (radius * radius - d * d)) as (s & -> & Hs0 & Hs1); [lia|lia|nia|by right|]. cbn [mbind option_bind]. cbv zeta. assert (s - 1 <= radius) by nia.
    destruct (row_shows (cx - (s - 1)) (cx + (s - 1)) (cy + d) f0) as (f1 & E1 & Hsh); [done|unfold small; lia..|]. exists f1. split; [done|]. eapply shows_iff; [exact Hsh|]. intros x y. split; intros [-> Hx]; (split; [done|]); [nia|]. nia.
  - done.
  - exists f'. split; [done|]. eapply shows_iff; [exact Hs|]. intros x y. split.
    + intros (dy & _ & -> & Hx). replace (cy + dy - cy) with dy by lia. lia.
    + intros Hxy. assert (Hsq : (y - cy) * (y - cy) <= radius * radius) by (pose proof (Z.square_nonneg (x - cx)); lia). set (d := y - cy) in *. assert (d <= radius) by (destruct (Z.le_gt_cases d radius); [done|exfalso; nia]). assert (- radius <= d) by (destruct (Z.le_gt_cases (- radius) d); [done|exfalso; nia]).
      exists d. split; [|split; [lia|lia]]. apply list_elem_of_fmap. exists (d + radius). split; [lia|]. apply upto_elem. lia.
Qed.

(** C32: [fb_line] draws the straight line.  On a framebuffer whose mode is well formed
    (24 or 32 bits, fields that do not overlap, a buffer that holds the screen), for ends
    within 2^28 of the origin, on the screen or not, the drawing returns, without a write
    outside the buffer or an overflow of an int, and there is a list of points such that
    exactly the points of it that are on the screen now read as the colour (as far as the
    mode can show it) and every other pixel reads as before; the mode and the size of the
    buffer stay.  The list starts at the first end, ends at the second, goes
    from a pixel to one of its eight neighbours each time, has as many steps as the longer
    axis, and no point is more than half a pixel, along the shorter axis, off the line. *)
Theorem fb_line_draws x0 y0 x1 y1 f : fb_wf f -> small x0 -> small y0 -> small x1 -> small y1 ->
  exists f' ps, fb_line x0 y0 x1 y1 r g b f = Some f' /\ straight x0 y0 x1 y1 ps /\ shows f f' (look r g b f) (fun x y => (x, y) ∈ ps).
Proof. intros Hf H1 H2 H3 H4. destruct (line_shows x0 y0 x1 y1 f) as (f' & E & Hs); [done..|]. exists f', (line_points x0 y0 x1 y1). split; [done|]. split; [apply line_straight|done]. Qed.
End Shapes.

(** A screen of 4 by 3 pixels of 24 bits. *)
Definition tiny_screen : framebuffer := mkFb (replicate 36 0) None 12 4 3 24 16 8 8 8 0 8 true.
Lemma tiny_screen_wf : fb_wf tiny_screen.
Proof. split; unfold field_ok, apart; cbn; unfold zlen; cbn; lia. Qed.
Lemma fb_line_draws_witness : exists f', fb_line 0 0 3 1 200 30 7 tiny_screen = Some f' /\ fb_get_pixel 3 1 f' = Some (200 * 65536 + 30 * 256 + 7).
Proof.
  destruct (fb_line_draws 200 30 7 ltac:(unfold is_u8; lia) ltac:(unfold is_u8; lia) ltac:(unfold is_u8; lia) 0 0 3 1 tiny_screen tiny_screen_wf) as (f' & ps & E & Hst & _ & Hsh); [unfold small; lia..|].
  exists f'. split; [exact E|]. apply (proj1 (Hsh 3 1)); [|reflexivity]. apply last_Some_elem_of, (st_last _ _ _ _ _ Hst).
Defined.
